(* ===== verification/_CoqProject ===== *)
-Q . S2P
Prelude.v
PyStr.v
StrLemmas.v
IpAddr.v
PyJson.v
JsonText.v
JsonRead.v
PyRegex.v
DomainName.v
RegexGuard.v
Digits.v
ClientId.v
IpText.v
Csv.v
World.v
Url.v
DnsdistLayer.v
RuleParser.v
SourceParser.v
RuleStore.v
RuleCompile.v
RuleEval.v
RuleWalk.v
RpzFile.v
ParseCache.v
Sources.v
LocalDns.v
LocalZones.v
LocalCsv.v
ImportJobs.v
Upstream.v
UpstreamDeploy.v
PolicyCheck.v
Clients.v
Access.v
Layers.v
DnsCache.v
DbRetry.v
PolicyCache.v
Deploy.v
NetworkConfig.v
NetworkApply.v
FilterSchedule.v
Notifications.v
NotifyCheck.v
Versions.v
Releases.v
UpdateJobs.v
UpdateHealth.v
Enrollment.v
Replication.v
ReplicaSync.v
Categories.v
RestoreDb.v
BackupArchive.v
