(* ===== verification/Prelude.v ===== *)
(** * Alderpoint DNS: verification library

    Alderpoint DNS is a DNS appliance: dnsdist in front of BIND, and Python modules under
    [src/app] that keep their tables in SQLite, compile them to the configuration of the
    two servers and deploy it.  This library models those modules and proves what they
    promise.

    ** The program

    Blocklists and custom rules are compiled to one response policy zone (RPZ) that BIND
    loads and to data files that dnsdist reads.  Local records become zones of BIND;
    upstream resolvers become backends of dnsdist and forwarders of BIND; clients and
    access rules become a policy dnsdist runs before anything else.  Every deployment has
    the same shape: render, stage, check with the server's own checker, keep the last good
    file, replace, reload, look a name up, and roll back when any step fails.

    ** Files

    Python and its library:
    - [Prelude]: results with exceptions ([res]), tactics, lemmas on lists and ids.
    - [PyStr], [StrLemmas]: strings, one [ascii] for a code point below 256.
    - [PyJson], [JsonText], [JsonRead]: JSON values, [json.dumps], that its text determines the
      value, and [json.loads], which reads it back.
    - [PyRegex], [Digits], [IpAddr], [IpText], [Url]: the fixed patterns of [re], positional
      digits, the [ipaddress] module, whose texts are read back, and [urllib.parse].
    - [Csv]: the automaton of [csv.reader], [csv.writer] and [csv.DictReader].
    - [World]: files and commands as a state and exception monad, with frame rules.

    Filtering ([app/custom_rules.py], [app/alderpointdns_compiler.py]):
    - [DomainName], [RegexGuard], [RuleParser]: what text becomes which rule.
    - [RuleStore]: the rule table and its operations.
    - [SourceParser], [ParseCache], [Sources]: blocklists, from the download to the sets of
      names and the counters shown for each source.
    - [RuleCompile], [RpzFile]: active rules, conflicts, the zone's records and its file.
    - [RuleEval], [RuleWalk]: the verdict the panel shows, against the compiled zone.
    - [PolicyCheck], [PolicyCache]: the checks of a deployed policy, the serial of a restored
      one, and the compiled policy that is kept for reuse.
    - [Deploy]: the deployment itself, which collects, checks, installs and verifies a policy
      together with the local zones, the resolvers and the cache options.

    Other components:
    - [LocalDns], [LocalZones], [LocalCsv]: [app/local_dns.py], records, the zones made of
      them, and their export and import.
    - [ImportJobs]: [app/importer.py], the import of local records.
    - [Upstream], [UpstreamDeploy]: [app/upstream_dns.py].
    - [ClientId], [Clients], [Access]: [app/clients.py], identifiers, tables, and the access
      policy as evaluated and as compiled for dnsdist.
    - [DnsdistLayer], [Layers]: the deployment both dnsdist layers share, and its two uses.
    - [DnsCache]: [app/dns_cache.py].  [DbRetry]: [app/db_retry.py] and the password rules.
    - [NetworkConfig], [NetworkApply]: [app/network_config.py], the checks of a proposed
      change, and the change that the watchdog takes back when nobody confirms it.
    - [FilterSchedule]: the scheduled update of the filters and what it records.
    - [Notifications], [NotifyCheck]: [app/notifications.py], the dispatch to subscribers and
      the checks that tell them of a change of state.
    - [Versions], [Releases], [UpdateJobs], [UpdateHealth]: [app/software_updates.py], the order
      of versions, the choice of a release, the jobs with their phases and worker, and the
      checks after an update.
    - [Enrollment], [Replication], [ReplicaSync]: [app/replication.py], tokens and replicas,
      payloads and generations, and what a synchronisation promises.
    - [Categories]: [app/blocklist_categories.py] and the handlers of [app/webapp.py] that
      change blocklist sources.
    - [RestoreDb], [BackupArchive]: [app/backup.py], the database part of a restore, and what
      a backup holds, its archive and its extraction.

    [Deploy] is the client of [Sources], [RuleCompile], [LocalZones], [UpstreamDeploy] and
    [DnsCache]; [FilterSchedule] runs the deployment as a command and reads its record;
    [Replication] carries the tables of most components and takes the deployment as a
    parameter.

    ** Conventions

    A table is a list of records in insertion order with explicit ids; [fresh_id] is
    SQLite's [INTEGER PRIMARY KEY].  An operation takes the tables and returns the new ones
    or an exception, [Raise], that keeps the class name and the message; what a raised
    exception leaves committed is in the result.  Definitions carry the lines they model in
    their comment.  Clocks, random names and environment variables are parameters.

    A deployment runs in [World.M]: the files, the log of commands, and the answer each next
    command will give.  Theorems quantify over the world, so they hold for every way the
    commands can fail.  Local file operations fail only on a missing path.  The interpreter's
    IDNA codec and the compilation of user patterns are the class [Platform]; dnsdist's rules
    are the class [Dnsdist] with its documented behaviour as laws; SHA-256 is a parameter and
    its collisions among the texts at hand are excluded where a theorem needs that.

    ** Theorems

    - Invariants by induction on sequences of operations: the rule table, the local records,
      the clients and their rules, the upstream resolvers, the parse cache, the notification
      settings, the enrollments and replicas, the categories and their sources.
    - Compilation: the panel's verdict is the zone's and dnsdist's; the access policy
      evaluated is the one compiled; the zone files hold the records; the fast path of the
      parser agrees with the parser.
    - Deployments install everything or put everything back: local zones, both dnsdist
      layers, cache options, upstream resolvers, and the filtering deployment, which records
      every run once and makes the policy of its tables live or keeps the last one.
    - The network: an accepted change is usable, and one that is not confirmed is undone by
      the watchdog whatever else happened.
    - Notifications: one outcome and one history row for each subscriber; over a series of
      checks a subscriber hears of every change of state and of nothing else.
    - Updates: versions are totally ordered, the newest release the channel admits is offered,
      only a package with the expected digest is installed, every job ends, abandoned jobs are
      reaped, the configured token never appears in a redacted text.
    - Replication: a token gives one certificate while the privileged step is not interrupted;
      a sync installs a verified generation or leaves the replica as it was; a replica that
      synchronised holds the payload of the primary.
    - Backups: an archive can be extracted and gives back what was selected, it holds no
      secret that was not asked for, and extraction stays in its directory whatever the
      archive holds.
    - Restores: the live database gets the selected tables of the archive, and every other
      table keeps what other writers left there while the restore ran.
    - Imports: an import that replaces nothing adds records of its preview and can be taken
      back; an export imports as the records it was made of.
    - Round trips: rules and their normalized text, ClientIDs and their labels, the RPZ file,
      quoted Lua strings, JSON texts, CSV tables, addresses, versions and their Debian form,
      generations.
    - Bounds and termination: settings, retries, ClientIDs, the scans of patterns.

    ** Fuel

    The scans of [RegexGuard] and the base-32 decoder use the length of their input as fuel
    and lemmas show that more changes nothing; [loads] takes twice the length of its text and
    one more, which [loads_print] shows to be enough for every text [json.dumps] gives;
    [wait_until] and the checks after a deployment
    take the number of polls that fit before the deadline.

    ** Not modelled

    [app/webapp.py] is FastAPI handlers that call these modules and render pages; only those
    that change blocklist sources are modelled.  [app/service_logs.py],
    [app/dnsdist_upgrade.py] and [app/encryption.py] run commands and call libraries
    (OpenSSL, ACME clients, journald).  The translation of whole configurations in
    [app/importer.py], the files of a restore in [app/backup.py] and the
    query reader of [app/analytics.py] are left out for their size; the manifest says for
    each module what is left of it.

    Of the replication, certificates, TLS and the transport are
    parameters or left out.  JSON texts have no floats and no character above U+00FF.
    Threads are modelled where operations interleave ([Enrollment], [UpdateJobs]); elsewhere
    operations run one after the other, as the deployment lock makes them.
    Telemetry read from the servers is left out. *)

From stdpp Require Export prelude gmap strings sorting pretty.
From Stdlib Require Export Ascii ZArith Lia.
From coqutil Require Export Datatypes.RecordSetters.
Export DoubleBraceUpdate.

#[global] Arguments constant {E} newValue _ /.

(** ** Python results

    A Python call either returns or raises; the exception keeps the name of its
    class and its message. *)
Record pyexc := PyExc { exc_class : string; exc_message : string }.

#[export] Instance pyexc_eq_dec : EqDecision pyexc.
Proof. solve_decision. Defined.

Inductive res (A : Type) : Type :=
| Ok (a : A)
| Raise (e : pyexc).
Arguments Ok {A} a.
Arguments Raise {A} e.

#[export] Instance res_eq_dec {A} `{EqDecision A} : EqDecision (res A).
Proof. solve_decision. Defined.

#[export] Instance res_ret : MRet res := λ A a, Ok a.
#[export] Instance res_bind : MBind res := λ A B f m,
  match m with Ok a => f a | Raise e => Raise e end.
#[export] Instance res_fmap : FMap res := λ A B f m,
  match m with Ok a => Ok (f a) | Raise e => Raise e end.

(** [if c: raise e] *)
Definition raise_if (c : bool) (e : pyexc) : res unit :=
  if c then Raise e else Ok ().

Definition is_ok {A} (m : res A) : bool :=
  match m with Ok _ => true | Raise _ => false end.

(** ** Tactics *)

(** Case analysis on every [match]/[if] of the goal, then the usual closers. *)
Ltac break_match :=
  repeat (case_match; simplify_eq/=); try done.

(** Turn boolean connectives in hypotheses and goal into propositions. *)
Ltac bool_to_prop :=
  repeat match goal with
  | H : _ && _ = true |- _ => apply andb_true_iff in H as [? ?]
  | H : _ || _ = false |- _ => apply orb_false_iff in H as [? ?]
  | H : negb _ = true |- _ => apply negb_true_iff in H
  | H : negb _ = false |- _ => apply negb_false_iff in H
  | |- _ && _ = true => apply andb_true_iff; split
  | |- _ || _ = false => apply orb_false_iff; split
  | |- negb _ = true => apply negb_true_iff
  | |- negb _ = false => apply negb_false_iff
  end.

(** ** Bind and conditionals on [res] *)

Lemma res_bind_ok {A B} (m : res A) (f : A → res B) b :
  m ≫= f = Ok b ↔ ∃ a, m = Ok a ∧ f a = Ok b.
Proof. destruct m; simpl; naive_solver. Qed.

(** Injectivity without reducing the components. *)
Lemma Ok_inj {A} (a a' : A) : Ok a = Ok a' → a = a'.
Proof. congruence. Qed.
Lemma Ok_pair_inj {A B} (a a' : A) (b b' : B) : Ok (a, b) = Ok (a', b') → a = a' ∧ b = b'.
Proof. intros Heq%Ok_inj. by injection Heq. Qed.

Lemma raise_if_ok c e : raise_if c e = Ok () ↔ c = false.
Proof. destruct c; naive_solver. Qed.

(** ** Lists *)

(** Python's [sorted] on a set of strings: code point order. *)
Definition py_sorted (l : list string) : list string := merge_sort String.le l.
Definition sorted_set (s : gset string) : list string := py_sorted (elements s).

Lemma elem_of_py_sorted x l : x ∈ py_sorted l ↔ x ∈ l.
Proof. unfold py_sorted. by rewrite merge_sort_Permutation. Qed.

Lemma elem_of_sorted_set x (s : gset string) : x ∈ sorted_set s ↔ x ∈ s.
Proof. unfold sorted_set. by rewrite elem_of_py_sorted, elem_of_elements. Qed.

Lemma NoDup_sorted_set (s : gset string) : NoDup (sorted_set s).
Proof.
  unfold sorted_set, py_sorted. rewrite merge_sort_Permutation. apply NoDup_elements.
Qed.

(** First element satisfying a boolean test ([next((x for x in l if p x), None)],
    and the row a [LIMIT 1] query returns). *)
Fixpoint find_first {A} (p : A → bool) (l : list A) : option A :=
  match l with
  | [] => None
  | x :: l => if p x then Some x else find_first p l
  end.

Lemma find_first_Some {A} (p : A → bool) l x :
  find_first p l = Some x → x ∈ l ∧ p x = true.
Proof.
  induction l as [|y l IH]; simpl; [done|].
  destruct (p y) eqn:Hy; intros; simplify_eq.
  - split; [left|done].
  - destruct IH; [done|]. split; [by right|done].
Qed.

Lemma find_first_None {A} (p : A → bool) l :
  find_first p l = None ↔ ∀ x, x ∈ l → p x = false.
Proof.
  induction l as [|y l IH]; simpl; [set_solver|].
  destruct (p y) eqn:Hy.
  - split; [done|]. intros H. specialize (H y). rewrite H in Hy; [done|left].
  - rewrite IH. split.
    + intros H x [->|Hx]%elem_of_cons; auto.
    + intros H x Hx. apply H. by right.
Qed.

Lemma existsb_true {A} (p : A → bool) l :
  existsb p l = true ↔ ∃ x, x ∈ l ∧ p x = true.
Proof. rewrite existsb_exists. by setoid_rewrite list_elem_of_In. Qed.

Lemma existsb_false {A} (p : A → bool) l :
  existsb p l = false ↔ ∀ x, x ∈ l → p x = false.
Proof.
  induction l as [|y l IH]; simpl; [set_solver|].
  rewrite orb_false_iff, IH. split.
  - intros [? ?] x [->|?]%elem_of_cons; auto.
  - intros H. split; [apply H; left|intros; apply H; by right].
Qed.

Lemma forallb_true {A} (p : A → bool) l :
  forallb p l = true ↔ ∀ x, x ∈ l → p x = true.
Proof. rewrite forallb_forall. by setoid_rewrite list_elem_of_In. Qed.

(** [List.filter] with a boolean test, the form every query below uses. *)
Lemma elem_of_filterb {A} (p : A → bool) l x :
  x ∈ List.filter p l ↔ x ∈ l ∧ p x = true.
Proof. by rewrite !list_elem_of_In, filter_In. Qed.

Lemma filterb_sublist {A} (p : A → bool) l : List.filter p l `sublist_of` l.
Proof. induction l as [|x l IH]; simpl; [constructor|]. by destruct (p x); constructor. Qed.

(** Number of elements satisfying a boolean test, as the counters keep it. *)
Definition zcount {A} (p : A → bool) (l : list A) : Z := Z.of_nat (length (List.filter p l)).

Lemma zcount_app {A} (p : A → bool) l k : zcount p (l ++ k) = (zcount p l + zcount p k)%Z.
Proof. unfold zcount. rewrite List.filter_app, length_app. lia. Qed.

Lemma zcount_one {A} (p : A → bool) x : zcount p [x] = if p x then 1%Z else 0%Z.
Proof. unfold zcount. simpl. by destruct (p x). Qed.

Lemma zcount_nonneg {A} (p : A → bool) l : (0 ≤ zcount p l)%Z.
Proof. unfold zcount. lia. Qed.

(** Rule induction for a left fold: an invariant of the processed prefix. *)
Lemma fold_left_inv {A B} (P : list B → A → Prop) (f : A → B → A) l pre a :
  P pre a → (∀ pre a x, P pre a → P (pre ++ [x]) (f a x)) → P (pre ++ l) (fold_left f l a).
Proof.
  intros Ha Hf. revert pre a Ha. induction l as [|x l IH]; intros pre a Ha; simpl.
  - by rewrite app_nil_r.
  - specialize (IH (pre ++ [x]) (f a x)). rewrite <-app_assoc in IH. apply IH. auto.
Qed.

Lemma find_first_app {A} (p : A → bool) l k :
  find_first p (l ++ k) = match find_first p l with Some x => Some x | None => find_first p k end.
Proof. induction l as [|x l IH]; simpl; [done|]. by destruct (p x). Qed.

(** The id SQLite gives a row inserted without one: one more than the largest. *)
Definition fresh_id (ids : list Z) : Z := (foldr Z.max 0 ids + 1)%Z.

Lemma fresh_id_gt ids i : i ∈ ids → (i < fresh_id ids)%Z.
Proof.
  unfold fresh_id. induction ids as [|j ids IH]; [by intros ?%elem_of_nil|].
  cbn [foldr]. intros [->|Hi]%elem_of_cons; [lia|]. specialize (IH Hi). lia.
Qed.

Lemma fresh_id_pos ids : (0 < fresh_id ids)%Z.
Proof. unfold fresh_id. induction ids; cbn [foldr]; lia. Qed.

Lemma fresh_id_notin ids : fresh_id ids ∉ ids.
Proof. intros Hi%fresh_id_gt. lia. Qed.

(** Elements with equal keys are equal when keys are not repeated. *)
Lemma NoDup_fmap_inj {A B} (f : A → B) l x y :
  NoDup (f <$> l) → x ∈ l → y ∈ l → f x = f y → x = y.
Proof.
  induction l as [|z l IH]; [by intros _ ?%elem_of_nil|].
  cbn [fmap list_fmap]. intros [Hz Hl]%NoDup_cons Hx Hy Hf.
  apply elem_of_cons in Hx as [->|Hx], Hy as [->|Hy]; [done| | |by apply IH].
  - destruct Hz. rewrite Hf. by apply list_elem_of_fmap_2.
  - destruct Hz. rewrite <-Hf. by apply list_elem_of_fmap_2.
Qed.

Lemma NoDup_fresh {A} (f : A → Z) l x :
  NoDup (f <$> l) → f x = fresh_id (f <$> l) → NoDup (f <$> (l ++ [x])).
Proof.
  intros Hl Hx. rewrite fmap_app. apply NoDup_app. split; [done|]. split; [|apply NoDup_singleton].
  intros i Hi ->%list_elem_of_singleton. rewrite Hx in Hi. by apply fresh_id_notin in Hi.
Qed.

Lemma NoDup_fmap_snoc {A B} (f : A → B) l x :
  NoDup (f <$> l) → (∀ y, y ∈ l → f y ≠ f x) → NoDup (f <$> (l ++ [x])).
Proof.
  intros Hl Hx. rewrite fmap_app. apply NoDup_app. split; [done|]. split; [|apply NoDup_singleton].
  intros i (y & -> & Hy)%list_elem_of_fmap Hi%list_elem_of_singleton. by apply Hx in Hy.
Qed.

Lemma NoDup_fmap_filterb {A B} (f : A → B) p l : NoDup (f <$> l) → NoDup (f <$> List.filter p l).
Proof. intros Hl. eapply sublist_NoDup; [exact Hl|]. apply fmap_sublist, filterb_sublist. Qed.

Lemma elem_of_snoc {A} (x y : A) l : x ∈ l ++ [y] ↔ x ∈ l ∨ x = y.
Proof. by rewrite elem_of_app, list_elem_of_singleton. Qed.
