(* ===== verification/PyStr.v ===== *)
(** * Python strings

    [str] values are modelled as [string], one [ascii] per code point below 256
    (Latin-1).  The character classes and the methods are those of CPython on
    that range; they are what [app/*.py] calls on its inputs. *)

From S2P Require Import Prelude.

(** ** Characters *)

Definition code (c : ascii) : N := N_of_ascii c.
Definition in_range (lo hi : N) (c : ascii) : bool := (lo <=? code c)%N && (code c <=? hi)%N.

(** [str.isspace] *)
Definition is_space (c : ascii) : bool :=
  in_range 9 13 c || in_range 28 32 c || (code c =? 133)%N || (code c =? 160)%N.

(** A line boundary of [str.splitlines]. *)
Definition is_linebreak (c : ascii) : bool :=
  in_range 10 13 c || in_range 28 30 c || (code c =? 133)%N.

Definition is_lower_az (c : ascii) : bool := in_range 97 122 c.
Definition is_upper_az (c : ascii) : bool := in_range 65 90 c.
Definition is_09 (c : ascii) : bool := in_range 48 57 c.

(** [str.isdigit]: the decimal digits and the superscripts of Latin-1. *)
Definition is_digit (c : ascii) : bool :=
  is_09 c || in_range 178 179 c || (code c =? 185)%N.

(** [str.isalnum] *)
Definition is_alnum (c : ascii) : bool :=
  is_lower_az c || is_upper_az c || is_digit c
  || (code c =? 170)%N || (code c =? 181)%N || (code c =? 186)%N
  || in_range 188 190 c || in_range 192 214 c || in_range 216 246 c
  || in_range 248 255 c.

(** [ch < 32 or ch == 127] *)
Definition is_control (c : ascii) : bool := (code c <? 32)%N || (code c =? 127)%N.
Definition is_ascii_char (c : ascii) : bool := (code c <? 128)%N.

Definition lower_char (c : ascii) : ascii :=
  if is_upper_az c || in_range 192 214 c || in_range 216 222 c
  then ascii_of_N (code c + 32) else c.

(** [str.upper] on ASCII letters; every comparison in the source is against an
    ASCII constant, which the other Latin-1 letters never reach. *)
Definition upper_char (c : ascii) : ascii :=
  if is_lower_az c then ascii_of_N (code c - 32) else c.

Definition is_hex (c : ascii) : bool := is_09 c || in_range 97 102 c || in_range 65 70 c.

(** ** Whole-string tests and maps *)

Fixpoint sforall (p : ascii → bool) (s : string) : bool :=
  match s with
  | "" => true
  | String c s => p c && sforall p s
  end.

Definition sexists (p : ascii → bool) (s : string) : bool := negb (sforall (negb ∘ p) s).

Fixpoint smap (f : ascii → ascii) (s : string) : string :=
  match s with
  | "" => ""
  | String c s => String (f c) (smap f s)
  end.

Abbreviation slen := String.length.
Definition lower : string → string := smap lower_char.
Definition upper : string → string := smap upper_char.
Definition isascii : string → bool := sforall is_ascii_char.
Definition isdigit (s : string) : bool := negb (String.eqb s "") && sforall is_digit s.
Definition char_in (c : ascii) (s : string) : bool := sexists (Ascii.eqb c) s.

Fixpoint scount (c : ascii) (s : string) : nat :=
  match s with
  | "" => 0
  | String d s => (if Ascii.eqb c d then 1 else 0) + scount c s
  end.

(** ** Slices *)

Fixpoint sdrop (n : nat) (s : string) : string :=
  match n, s with
  | O, _ => s
  | S n, "" => ""
  | S n, String _ s => sdrop n s
  end.

Fixpoint stake (n : nat) (s : string) : string :=
  match n, s with
  | O, _ => ""
  | S n, "" => ""
  | S n, String c s => String c (stake n s)
  end.

(** [s[:-n]] for a positive [n] *)
Definition sdrop_end (n : nat) (s : string) : string := stake (slen s - n) s.

(** [s[-1:]], as an option *)
Fixpoint slast (s : string) : option ascii :=
  match s with
  | "" => None
  | String c "" => Some c
  | String _ s => slast s
  end.

Definition shead (s : string) : option ascii :=
  match s with "" => None | String c _ => Some c end.

Fixpoint sget (n : nat) (s : string) : option ascii :=
  match n, s with
  | _, "" => None
  | O, String c _ => Some c
  | S n, String _ s => sget n s
  end.

(** ** Prefixes, suffixes, substrings *)

Fixpoint starts_with (p s : string) : bool :=
  match p, s with
  | "", _ => true
  | String a p, String b s => Ascii.eqb a b && starts_with p s
  | _, "" => false
  end.

Fixpoint ends_with (p s : string) : bool :=
  String.eqb p s || match s with "" => false | String _ s => ends_with p s end.

Fixpoint contains (p s : string) : bool :=
  starts_with p s || match s with "" => false | String _ s => contains p s end.

(** [s.find(c)] for one character, [None] for -1. *)
Fixpoint find_char (c : ascii) (s : string) : option nat :=
  match s with
  | "" => None
  | String d s => if Ascii.eqb c d then Some 0 else S <$> find_char c s
  end.

(** [s.rfind(p)], [None] for -1. *)
Fixpoint rfind (p s : string) : option nat :=
  match s with
  | "" => if starts_with p "" then Some 0 else None
  | String _ s' =>
      match rfind p s' with
      | Some i => Some (S i)
      | None => if starts_with p s then Some 0 else None
      end
  end.

(** ** Stripping *)

Fixpoint lstrip_by (p : ascii → bool) (s : string) : string :=
  match s with
  | "" => ""
  | String c s' => if p c then lstrip_by p s' else s
  end.

Fixpoint rstrip_by (p : ascii → bool) (s : string) : string :=
  match s with
  | "" => ""
  | String c s =>
      match rstrip_by p s with
      | "" => if p c then "" else String c ""
      | r => String c r
      end
  end.

Definition strip_by (p : ascii → bool) (s : string) : string := rstrip_by p (lstrip_by p s).
(** [s.strip()] *)
Definition strip : string → string := strip_by is_space.
(** [s.strip(".")] and friends *)
Definition strip_char (c : ascii) : string → string := strip_by (Ascii.eqb c).
Definition rstrip_char (c : ascii) : string → string := rstrip_by (Ascii.eqb c).

(** The longest prefix of characters in [p]. *)
Fixpoint take_while (p : ascii → bool) (s : string) : string :=
  match s with
  | "" => ""
  | String c s => if p c then String c (take_while p s) else ""
  end.

(** ** Splitting and joining *)

(** [s.split(c)] for a one-character separator: never empty. *)
Fixpoint split_on (c : ascii) (s : string) : list string :=
  match s with
  | "" => [""]
  | String d s =>
      if Ascii.eqb c d then "" :: split_on c s
      else match split_on c s with
           | [] => [String d ""]
           | w :: ws => String d w :: ws
           end
  end.

(** [sep.join(l)] *)
Fixpoint join (sep : string) (l : list string) : string :=
  match l with
  | [] => ""
  | [w] => w
  | w :: l => w +:+ sep +:+ join sep l
  end.

(** [s.partition(c)]: head, whether the separator occurs, tail. *)
Fixpoint partition (c : ascii) (s : string) : string * bool * string :=
  match s with
  | "" => ("", false, "")
  | String d s =>
      if Ascii.eqb c d then ("", true, s)
      else let '(h, f, t) := partition c s in (String d h, f, t)
  end.

(** [s.split()]: maximal runs of non-space characters.  [cur] is the word being
    read, reversed. *)
Fixpoint words_go (cur : string) (s : string) : list string :=
  match s with
  | "" => if String.eqb cur "" then [] else [String.rev cur]
  | String c s =>
      if is_space c
      then (if String.eqb cur "" then [] else [String.rev cur]) ++ words_go "" s
      else words_go (String c cur) s
  end.
Definition words : string → list string := words_go "".

(** [s.splitlines()]: [cur] is the line being read, reversed; [\r\n] is one
    boundary and a final boundary opens no line. *)
Fixpoint splitlines_go (cur : string) (s : string) : list string :=
  match s with
  | "" => if String.eqb cur "" then [] else [String.rev cur]
  | String c s' =>
      if is_linebreak c
      then String.rev cur ::
           match s' with
           | String d s'' =>
               if (code c =? 13)%N && (code d =? 10)%N
               then splitlines_go "" s'' else splitlines_go "" s'
           | "" => []
           end
      else splitlines_go (String c cur) s'
  end.
Definition splitlines : string → list string := splitlines_go "".

(** [s.replace(old, new, 1)] and [s.replace(old, new)], for a nonempty [old]. *)
Fixpoint replace_first (old new s : string) : string :=
  if starts_with old s then new +:+ sdrop (slen old) s
  else match s with
       | "" => ""
       | String c s => String c (replace_first old new s)
       end.

Fixpoint replace_go (skip : nat) (old new s : string) : string :=
  match s with
  | "" => ""
  | String c s' =>
      match skip with
      | S skip => replace_go skip old new s'
      | O => if starts_with old s then new +:+ replace_go (slen old - 1) old new s'
             else String c (replace_go 0 old new s')
      end
  end.
Definition replace_all (old new s : string) : string := replace_go 0 old new s.

(** [str(n)] for an integer *)
Definition str_int (z : Z) : string := pretty z.

(** The character-code constants the source writes as escapes. *)
Definition nl : string := String "010"%char "".
Definition cr : string := String "013"%char "".
Definition tab : string := String "009"%char "".
Definition dquote : string := String "034"%char "".
Definition squote : string := "'".

(** Text literals are written with a backquote for each double quote. *)
Definition quoted (s : string) : string :=
  smap (λ c, if Ascii.eqb c "096" then "034"%char else c) s.

(** [repr(s)] *)
Definition repr_char (q c : ascii) : string :=
  let hex n := ascii_of_N (if (n <? 10)%N then 48 + n else 87 + n)%N in
  if Ascii.eqb c q || Ascii.eqb c "\" then String "\" (String c "")
  else if Ascii.eqb c "009" then "\t" else if Ascii.eqb c "010" then "\n" else if Ascii.eqb c "013" then "\r"
  else if in_range 32 126 c || (in_range 161 255 c && negb (code c =? 173)%N) then String c ""
  else "\x" +:+ String (hex (code c / 16)%N) (String (hex (code c mod 16)%N) "").
Fixpoint repr_go (q : ascii) (s : string) : string :=
  match s with "" => "" | String c s => repr_char q c +:+ repr_go q s end.
Definition py_repr (s : string) : string :=
  let q := if char_in "'" s && negb (char_in "034" s) then "034"%char else "'"%char in
  String q (repr_go q s +:+ String q "").

#[global] Arguments Ascii.eqb : simpl never.
#[global] Arguments char_in : simpl never.
#[global] Arguments is_alnum : simpl never.
#[global] Arguments is_space : simpl never.
#[global] Arguments is_digit : simpl never.
#[global] Arguments is_control : simpl never.
#[global] Arguments is_linebreak : simpl never.
