(* ===== verification/StrLemmas.v ===== *)
(** * Lemmas on the Python string model

    Specifications of the string operations of [PyStr]: what [strip], [split],
    [partition], [startswith] and [endswith] return, in terms of concatenation
    and of the character test [sforall]. *)

From S2P Require Import Prelude PyStr.

Create Rewrite HintDb pystr.

(** ** Concatenation *)

Lemma app_cons c s t : String c s +:+ t = String c (s +:+ t).
Proof. done. Qed.
Lemma app_nil_s t : "" +:+ t = t.
Proof. done. Qed.
#[export] Hint Rewrite app_cons app_nil_s : pystr.

Lemma sapp_assoc s t u : (s +:+ t) +:+ u = s +:+ t +:+ u.
Proof. induction s as [|c s IH]; [done|]. by rewrite !app_cons, IH. Qed.

Lemma sapp_nil_r s : s +:+ "" = s.
Proof. induction s as [|c s IH]; [done|]. by rewrite app_cons, IH. Qed.
#[export] Hint Rewrite sapp_nil_r : pystr.

Lemma slen_app s t : slen (s +:+ t) = slen s + slen t.
Proof. induction s as [|c s IH]; [done|]. rewrite app_cons. simpl. by rewrite IH. Qed.
#[export] Hint Rewrite slen_app : pystr.

Lemma sapp_inv_tail s t u : s +:+ u = t +:+ u → s = t.
Proof.
  revert t. induction s as [|c s IH]; intros [|d t] H; [done| | |].
  - apply (f_equal slen) in H. rewrite !slen_app in H. simpl in H. lia.
  - apply (f_equal slen) in H. rewrite !slen_app in H. simpl in H. lia.
  - rewrite !app_cons in H. simplify_eq. f_equal. auto.
Qed.

Lemma sapp_eq_nil s t : s +:+ t = "" ↔ s = "" ∧ t = "".
Proof. destruct s; simpl; naive_solver. Qed.

(** ** Character tests *)

(** A property of characters checked on all 256 of them. *)
Definition all_chars : list ascii := ascii_of_nat <$> seq 0 256.

Lemma all_chars_spec c : c ∈ all_chars.
Proof.
  unfold all_chars. apply list_elem_of_fmap. exists (nat_of_ascii c). split.
  - by rewrite ascii_nat_embedding.
  - apply elem_of_seq. pose proof (nat_ascii_bounded c). lia.
Qed.

Lemma char_forall (p : ascii → bool) : forallb p all_chars = true → ∀ c, p c = true.
Proof. rewrite forallb_true. intros H c. apply H, all_chars_spec. Qed.

Lemma char_implies (p q : ascii → bool) :
  forallb (λ c, implb (p c) (q c)) all_chars = true → ∀ c, p c = true → q c = true.
Proof.
  intros H c Hp. pose proof (char_forall _ H c) as Hc. simpl in Hc. by rewrite Hp in Hc.
Qed.

(** [p c = true → q c = true], or [p c = true → q c = false], by evaluation. *)
Ltac char_decide :=
  match goal with
  | |- ∀ c : ascii, ?p c = true → ?q c = true =>
      apply (char_implies p q); vm_compute; reflexivity
  | |- ∀ c : ascii, @?p c = true → @?q c = false =>
      let H := fresh in
      assert (H : ∀ c : ascii, p c = true → negb (q c) = true)
        by (apply (char_implies p (λ c, negb (q c))); vm_compute; reflexivity);
      intros ? ?; apply negb_true_iff, H; assumption
  | |- ∀ c : ascii, @?p c = true → @?q c = true =>
      apply (char_implies p q); vm_compute; reflexivity
  end.

Lemma sforall_app p s t : sforall p (s +:+ t) = sforall p s && sforall p t.
Proof. induction s as [|c s IH]; [done|]. rewrite app_cons. simpl. by rewrite IH, andb_assoc. Qed.
#[export] Hint Rewrite sforall_app : pystr.

Lemma sforall_impl (p q : ascii → bool) s :
  (∀ c, p c = true → q c = true) → sforall p s = true → sforall q s = true.
Proof.
  intros H. induction s as [|c s IH]; simpl; [done|].
  rewrite !andb_true_iff. naive_solver.
Qed.

Lemma sforall_smap p f s : sforall p (smap f s) = sforall (p ∘ f) s.
Proof. induction s as [|c s IH]; [done|]. simpl. by rewrite IH. Qed.

Lemma smap_app f s t : smap f (s +:+ t) = smap f s +:+ smap f t.
Proof. induction s as [|c s IH]; [done|]. rewrite app_cons. simpl. by rewrite IH. Qed.

Lemma slen_smap f s : slen (smap f s) = slen s.
Proof. induction s as [|c s IH]; [done|]. simpl. by rewrite IH. Qed.

Lemma smap_id f s : sforall (λ c, Ascii.eqb (f c) c) s = true → smap f s = s.
Proof.
  induction s as [|c s IH]; [done|]. simpl.
  rewrite andb_true_iff, Ascii.eqb_eq. intros [-> ?]. by rewrite IH.
Qed.

Lemma smap_smap f g s : smap f (smap g s) = smap (f ∘ g) s.
Proof. induction s as [|c s IH]; [done|]. simpl. by rewrite IH. Qed.

Lemma smap_ext f g s : (∀ c, f c = g c) → smap f s = smap g s.
Proof. intros H. induction s as [|c s IH]; [done|]. simpl. by rewrite H, IH. Qed.

Lemma lower_idem s : lower (lower s) = lower s.
Proof.
  unfold lower. rewrite smap_smap. apply smap_ext. intros c. apply Ascii.eqb_eq.
  revert c. apply char_forall. vm_compute. reflexivity.
Qed.

Lemma sexists_false p s : sexists p s = false ↔ sforall (negb ∘ p) s = true.
Proof. unfold sexists. by rewrite negb_false_iff. Qed.

Lemma sexists_app p s t : sexists p (s +:+ t) = sexists p s || sexists p t.
Proof. unfold sexists. rewrite sforall_app. by destruct (sforall _ s), (sforall _ t). Qed.

Lemma sexists_cons p c s : sexists p (String c s) = p c || sexists p s.
Proof. unfold sexists. simpl. by destruct (p c), (sforall (negb ∘ p) s). Qed.

Lemma char_in_cons a c s : char_in a (String c s) = Ascii.eqb a c || char_in a s.
Proof. apply sexists_cons. Qed.
Lemma char_in_app a s t : char_in a (s +:+ t) = char_in a s || char_in a t.
Proof. apply sexists_app. Qed.

(** A string of characters in [p] holds no character outside [p]. *)
Lemma sforall_not_in p a s : p a = false → sforall p s = true → char_in a s = false.
Proof.
  intros Ha. induction s as [|c s IH]; [done|].
  rewrite char_in_cons. simpl. rewrite andb_true_iff. intros [Hc ?].
  rewrite IH by done. rewrite orb_false_r.
  apply Ascii.eqb_neq. intros ->. congruence.
Qed.

Lemma scount_0 c s : char_in c s = false → scount c s = 0.
Proof.
  induction s as [|d s IH]; [done|]. rewrite char_in_cons, orb_false_iff. simpl.
  intros [-> ?]. by rewrite IH.
Qed.

Lemma scount_app c s t : scount c (s +:+ t) = scount c s + scount c t.
Proof. induction s as [|d s IH]; [done|]. rewrite app_cons. simpl. rewrite IH. lia. Qed.

(** ** Prefixes and suffixes *)

Lemma starts_with_spec p s : starts_with p s = true ↔ ∃ t, s = p +:+ t.
Proof.
  revert s. induction p as [|a p IH]; intros s; simpl.
  - split; [|done]. intros _. by exists s.
  - destruct s as [|b s]; simpl.
    { split; [done|]. intros [t Ht]. by rewrite app_cons in Ht. }
    rewrite andb_true_iff, Ascii.eqb_eq, IH. split.
    + intros [-> [t ->]]. by exists t.
    + intros [t Ht]. rewrite app_cons in Ht. simplify_eq. eauto.
Qed.

Lemma starts_with_app p t : starts_with p (p +:+ t) = true.
Proof. apply starts_with_spec. eauto. Qed.

Lemma starts_with_refl p : starts_with p p = true.
Proof. apply starts_with_spec. exists "". by rewrite sapp_nil_r. Qed.
Lemma starts_with_prefix p t s : starts_with (p +:+ t) s = true → starts_with p s = true.
Proof. rewrite !starts_with_spec. intros (u & ->). exists (t +:+ u). by rewrite sapp_assoc. Qed.

Lemma ends_with_spec p s : ends_with p s = true ↔ ∃ t, s = t +:+ p.
Proof.
  induction s as [|c s IH]; simpl.
  - rewrite orb_false_r, String.eqb_eq. split.
    + intros ->. by exists "".
    + intros [t Ht]. symmetry in Ht. by apply sapp_eq_nil in Ht as [? ->].
  - rewrite orb_true_iff, String.eqb_eq, IH. split.
    + intros [->|[t ->]]; [by exists ""|]. by exists (String c t).
    + intros [[|d t] Ht]; [by left; rewrite Ht|]. right.
      rewrite app_cons in Ht. simplify_eq. eauto.
Qed.

Lemma ends_with_app p t : ends_with p (t +:+ p) = true.
Proof. apply ends_with_spec. eauto. Qed.

Lemma contains_false_char a p s : char_in a s = false → contains (String a p) s = false.
Proof.
  induction s as [|c s IH]; [done|]. rewrite char_in_cons, orb_false_iff.
  intros [Hc ?]. simpl. by rewrite Hc, IH.
Qed.

(** ** Slices *)

Lemma stake_sdrop n s : stake n s +:+ sdrop n s = s.
Proof.
  revert s. induction n as [|n IH]; intros [|c s]; [done..|].
  simpl. by rewrite app_cons, IH.
Qed.

Lemma stake_app_length s t : stake (slen s) (s +:+ t) = s.
Proof. induction s as [|c s IH]; [by destruct t|]. rewrite app_cons. simpl. by rewrite IH. Qed.

Lemma sdrop_app_length s t : sdrop (slen s) (s +:+ t) = t.
Proof. induction s as [|c s IH]; [by destruct t|]. rewrite app_cons. simpl. by rewrite IH. Qed.

Lemma sdrop_end_app s t : sdrop_end (slen t) (s +:+ t) = s.
Proof.
  unfold sdrop_end. rewrite slen_app.
  replace (slen s + slen t - slen t) with (slen s) by lia. apply stake_app_length.
Qed.

Lemma slen_stake n s : slen (stake n s) = n `min` slen s.
Proof. revert s. induction n as [|n IH]; intros [|c s]; [done..|]. simpl. by rewrite IH. Qed.

(** ** The last character *)

Lemma slast_snoc w c : slast (w +:+ String c "") = Some c.
Proof.
  induction w as [|d w IH]; [done|]. rewrite app_cons. simpl. rewrite IH.
  by destruct w.
Qed.

Lemma slast_app s t : t ≠ "" → slast (s +:+ t) = slast t.
Proof.
  intros Ht. induction s as [|c s IH]; [done|]. rewrite app_cons, <-IH.
  by destruct s, t.
Qed.

Lemma slast_split s c : slast s = Some c → ∃ w, s = w +:+ String c "".
Proof.
  induction s as [|d s IH]; [done|]. destruct s as [|e s].
  - intros [= ->]. by exists "".
  - intros H. destruct IH as (w & ->); [done|]. by exists (String d w).
Qed.

(** ** Stripping *)

Definition head_not (p : ascii → bool) (s : string) : bool :=
  match shead s with None => true | Some c => negb (p c) end.
Definition last_not (p : ascii → bool) (s : string) : bool :=
  match slast s with None => true | Some c => negb (p c) end.

Lemma lstrip_split p s : ∃ a, s = a +:+ lstrip_by p s ∧ sforall p a = true.
Proof.
  induction s as [|c s (a & Hs & Ha)]; [by exists ""|]. simpl.
  destruct (p c) eqn:Hc; [|by exists ""].
  exists (String c a). rewrite app_cons, <-Hs. split; [done|]. simpl. by rewrite Hc.
Qed.

Lemma rstrip_split p s : ∃ b, s = rstrip_by p s +:+ b ∧ sforall p b = true.
Proof.
  induction s as [|c s (b & Hs & Hb)]; [by exists ""|]. simpl.
  destruct (rstrip_by p s) as [|d r] eqn:Hr.
  - rewrite app_nil_s in Hs. subst b. destruct (p c) eqn:Hc.
    + exists (String c s). split; [done|]. simpl. by rewrite Hc.
    + by exists s.
  - exists b. rewrite app_cons, <-Hs. done.
Qed.

Lemma strip_split p s :
  ∃ a b, s = a +:+ strip_by p s +:+ b ∧ sforall p a = true ∧ sforall p b = true.
Proof.
  destruct (lstrip_split p s) as (a & Hs & Ha).
  destruct (rstrip_split p (lstrip_by p s)) as (b & Hl & Hb).
  exists a, b. unfold strip_by. by rewrite <-Hl.
Qed.

Lemma lstrip_head p s : head_not p (lstrip_by p s) = true.
Proof.
  induction s as [|c s IH]; [done|]. simpl. destruct (p c) eqn:Hc; [done|].
  unfold head_not. simpl. by rewrite Hc.
Qed.

Lemma last_not_cons p c s : s ≠ "" → last_not p (String c s) = last_not p s.
Proof. by destruct s. Qed.

Lemma rstrip_last p s : last_not p (rstrip_by p s) = true.
Proof.
  induction s as [|c s IH]; [done|]. simpl.
  destruct (rstrip_by p s) eqn:Hr.
  - destruct (p c) eqn:Hc; [done|]. unfold last_not. simpl. by rewrite Hc.
  - by rewrite last_not_cons.
Qed.

Lemma take_while_app p s t : sforall p s = true → head_not p t = true → take_while p (s +:+ t) = s.
Proof.
  intros Hs Ht. induction s as [|c s IH].
  - rewrite app_nil_s. destruct t as [|c t]; [done|]. cbn in *. by apply negb_true_iff in Ht as ->.
  - rewrite app_cons. cbn in *. apply andb_true_iff in Hs as [Hc Hs]. by rewrite Hc, IH.
Qed.

Lemma rstrip_head p s : head_not p s = true → head_not p (rstrip_by p s) = true.
Proof.
  destruct s as [|c s]; [done|]. simpl. unfold head_not at 1. simpl. intros Hc.
  destruct (rstrip_by p s); [|done].
  apply negb_true_iff in Hc. rewrite Hc. unfold head_not. simpl. by rewrite Hc.
Qed.

Lemma strip_head p s : head_not p (strip_by p s) = true.
Proof. apply rstrip_head, lstrip_head. Qed.
Lemma strip_last p s : last_not p (strip_by p s) = true.
Proof. apply rstrip_last. Qed.

Lemma lstrip_id p s : head_not p s = true → lstrip_by p s = s.
Proof. destruct s; [done|]. unfold head_not. simpl. intros ->%negb_true_iff. done. Qed.

Lemma rstrip_id p s : last_not p s = true → rstrip_by p s = s.
Proof.
  induction s as [|c s IH]; [done|]. intros H.
  destruct s as [|d s].
  - unfold last_not in H. simpl in H. apply negb_true_iff in H. simpl. by rewrite H.
  - rewrite last_not_cons in H by done. simpl in *. by rewrite (IH H).
Qed.

Lemma strip_id p s : head_not p s = true → last_not p s = true → strip_by p s = s.
Proof. intros. unfold strip_by. rewrite lstrip_id by done. by apply rstrip_id. Qed.

Lemma sforall_head_not p q s :
  (∀ c, p c = true → q c = false) → sforall p s = true → head_not q s = true.
Proof.
  intros H. destruct s as [|c s]; [done|]. simpl. rewrite andb_true_iff. intros [? _].
  unfold head_not. simpl. by rewrite H.
Qed.

Lemma slast_forall p s c : sforall p s = true → slast s = Some c → p c = true.
Proof.
  induction s as [|d s IH]; [done|]. simpl. rewrite andb_true_iff. intros [Hd Hs].
  destruct s; [|auto]. by intros [= ->].
Qed.

Lemma sforall_last_not p q s :
  (∀ c, p c = true → q c = false) → sforall p s = true → last_not q s = true.
Proof.
  intros H Hs. unfold last_not. destruct (slast s) eqn:E; [|done].
  by rewrite (H a) by (by eapply slast_forall).
Qed.

(** Stripping characters that do not occur changes nothing. *)
Lemma strip_none p q s :
  (∀ c, p c = true → q c = false) → sforall p s = true → strip_by q s = s.
Proof. intros H Hs. apply strip_id; [by eapply sforall_head_not|by eapply sforall_last_not]. Qed.

Lemma strip_idem p s : strip_by p (strip_by p s) = strip_by p s.
Proof. apply strip_id; [apply strip_head|apply strip_last]. Qed.

Lemma sforall_strip p q s : sforall p s = true → sforall p (strip_by q s) = true.
Proof.
  intros H. destruct (strip_split q s) as (a & b & Hs & _ & _).
  rewrite Hs, !sforall_app, !andb_true_iff in H. naive_solver.
Qed.

Lemma slen_strip p s : slen (strip_by p s) ≤ slen s.
Proof.
  destruct (strip_split p s) as (a & b & Hs & _ & _).
  rewrite Hs at 2. rewrite !slen_app. lia.
Qed.

(** ** Splitting and joining *)

Lemma split_on_not_nil c s : split_on c s ≠ [].
Proof. destruct s as [|d s]; simpl; [done|]. case_match; [done|]. by case_match. Qed.

Lemma split_on_none c s : char_in c s = false → split_on c s = [s].
Proof.
  induction s as [|d s IH]; [done|]. rewrite char_in_cons, orb_false_iff.
  intros [Hd Hs]. simpl. by rewrite Hd, (IH Hs).
Qed.

Lemma split_on_app c w t :
  char_in c w = false → split_on c (w +:+ String c t) = w :: split_on c t.
Proof.
  induction w as [|d w IH].
  - intros _. simpl. by rewrite Ascii.eqb_refl.
  - rewrite char_in_cons, orb_false_iff. intros [Hd Hw].
    rewrite app_cons. simpl. by rewrite Hd, (IH Hw).
Qed.

Lemma split_on_parts c s w : w ∈ split_on c s → char_in c w = false.
Proof.
  revert w. induction s as [|d s IH]; intros w; simpl.
  - intros ->%list_elem_of_singleton. done.
  - destruct (Ascii.eqb c d) eqn:E.
    + intros [->|?]%elem_of_cons; auto.
    + destruct (split_on c s) as [|v vs] eqn:Hv; [by destruct (split_on_not_nil c s)|].
      intros [->|?]%elem_of_cons.
      * rewrite char_in_cons, E. apply IH. left.
      * apply IH. by right.
Qed.

Lemma join_cons sep w l : l ≠ [] → join sep (w :: l) = w +:+ sep +:+ join sep l.
Proof. by destruct l. Qed.

Lemma join_split_on c s : join (String c "") (split_on c s) = s.
Proof.
  induction s as [|d s IH]; [done|]. simpl.
  destruct (Ascii.eqb_spec c d) as [->|Hd].
  - rewrite join_cons by apply split_on_not_nil. by rewrite app_nil_s, IH.
  - destruct (split_on c s) as [|v vs] eqn:Hv; [by destruct (split_on_not_nil c s)|].
    destruct vs as [|v' vs].
    + simpl in *. by subst.
    + rewrite join_cons in * by done. rewrite app_cons. by rewrite IH.
Qed.

Lemma split_on_join c l :
  l ≠ [] → (∀ w, w ∈ l → char_in c w = false) → split_on c (join (String c "") l) = l.
Proof.
  induction l as [|w l IH]; [done|]. intros _ H. destruct l as [|w' l].
  - apply split_on_none, H. left.
  - rewrite join_cons by done. rewrite app_cons, app_nil_s.
    rewrite split_on_app by (apply H; left). f_equal.
    apply IH; [done|]. intros v Hv. apply H. by right.
Qed.

Lemma sforall_join p c l :
  p c = true → (∀ w, w ∈ l → sforall p w = true) → sforall p (join (String c "") l) = true.
Proof.
  intros Hc. induction l as [|w l IH]; [done|]. intros H. destruct l as [|w' l].
  - apply H. left.
  - rewrite join_cons by done. rewrite !sforall_app. simpl.
    rewrite Hc, (H w) by left. simpl. apply IH. intros v Hv. apply H. by right.
Qed.

Lemma split_on_sforall p c s w :
  sforall p s = true → w ∈ split_on c s → sforall p w = true.
Proof.
  revert w. induction s as [|d s IH]; intros w; simpl.
  - by intros _ ->%list_elem_of_singleton.
  - rewrite andb_true_iff. intros [Hd Hs]. case_match.
    + intros [->|?]%elem_of_cons; auto.
    + destruct (split_on c s) as [|v vs] eqn:Hv; [by destruct (split_on_not_nil c s)|].
      intros [->|?]%elem_of_cons.
      * simpl. rewrite Hd. apply IH; [done|left].
      * apply IH; [done|by right].
Qed.

(** ** Partition *)

Lemma partition_found c s h t :
  partition c s = (h, true, t) → s = h +:+ String c t ∧ char_in c h = false.
Proof.
  revert h t. induction s as [|d s IH]; intros h t; simpl; [done|].
  destruct (Ascii.eqb_spec c d) as [->|Hd].
  - intros [= <- <-]. done.
  - destruct (partition c s) as [[h' f] t'] eqn:E. intros [= <- -> <-].
    destruct (IH _ _ eq_refl) as [-> Hh]. rewrite char_in_cons, Hh.
    split; [done|]. rewrite orb_false_r. by apply Ascii.eqb_neq.
Qed.

Lemma partition_not_found c s h t :
  partition c s = (h, false, t) → h = s ∧ t = "" ∧ char_in c s = false.
Proof.
  revert h t. induction s as [|d s IH]; intros h t; simpl; [naive_solver|].
  destruct (Ascii.eqb_spec c d) as [->|Hd]; [done|].
  destruct (partition c s) as [[h' f] t'] eqn:E. intros [= <- -> <-].
  destruct (IH _ _ eq_refl) as (-> & -> & Hh). rewrite char_in_cons, Hh.
  rewrite orb_false_r. by rewrite (proj2 (Ascii.eqb_neq _ _)).
Qed.

Lemma partition_none c s : char_in c s = false → partition c s = (s, false, "").
Proof.
  induction s as [|d s IH]; [done|]. rewrite char_in_cons, orb_false_iff.
  intros [Hd Hs]. simpl. by rewrite Hd, (IH Hs).
Qed.

Lemma partition_app c h t :
  char_in c h = false → partition c (h +:+ String c t) = (h, true, t).
Proof.
  induction h as [|d h IH].
  - intros _. simpl. by rewrite Ascii.eqb_refl.
  - rewrite char_in_cons, orb_false_iff. intros [Hd Hh].
    rewrite app_cons. simpl. by rewrite Hd, (IH Hh).
Qed.

(** ** Words *)

Lemma rev_app_spec s t : String.rev_app s t = String.rev s +:+ t.
Proof.
  unfold String.rev. revert t. induction s as [|c s IH]; intros t; [done|].
  simpl. rewrite IH, (IH (String c "")). by rewrite sapp_assoc, app_cons, app_nil_s.
Qed.

Lemma rev_cons c s : String.rev (String c s) = String.rev s +:+ String c "".
Proof. unfold String.rev. simpl. by rewrite rev_app_spec. Qed.

Lemma words_go_no_space cur s :
  sforall (negb ∘ is_space) s = true → s ≠ "" ∨ cur ≠ "" →
  words_go cur s = [String.rev cur +:+ s].
Proof.
  revert cur. induction s as [|c s IH]; intros cur; simpl.
  - intros _ [?|Hc]; [done|]. destruct cur; [done|]. simpl. by rewrite sapp_nil_r.
  - rewrite andb_true_iff. intros [Hc Hs] _. apply negb_true_iff in Hc. rewrite Hc.
    rewrite IH by (auto || by right). by rewrite rev_cons, sapp_assoc, app_cons, app_nil_s.
Qed.

Lemma words_no_space s : sforall (negb ∘ is_space) s = true → s ≠ "" → words s = [s].
Proof. intros. unfold words. rewrite words_go_no_space by auto. done. Qed.

#[global] Arguments starts_with : simpl never.
#[global] Arguments ends_with : simpl never.
#[global] Arguments contains : simpl never.
#[global] Arguments stake : simpl never.
#[global] Arguments sdrop : simpl never.

(** ** Lines *)

(** [s] stays on one line. *)
Definition no_break (s : string) : bool := sforall (negb ∘ is_linebreak) s.

Lemma splitlines_go_line cur w s :
  no_break w = true →
  splitlines_go cur (w +:+ nl +:+ s) = (String.rev cur +:+ w) :: splitlines_go "" s.
Proof.
  revert cur. induction w as [|c w IH]; intros cur.
  - intros _. rewrite app_nil_s, sapp_nil_r. by destruct s.
  - unfold no_break. simpl. intros [Hc Hw]%andb_true_iff. apply negb_true_iff in Hc.
    rewrite Hc. change (String.append w (nl +:+ s)) with (w +:+ nl +:+ s). rewrite IH by done.
    by rewrite rev_cons, sapp_assoc, app_cons, app_nil_s.
Qed.

Lemma join_nl_cons w l : join nl (w :: l) +:+ nl = w +:+ nl +:+ match l with [] => "" | _ => join nl l +:+ nl end.
Proof.
  destruct l as [|v l]; [by simpl join; rewrite sapp_nil_r|].
  rewrite join_cons by done. by rewrite !sapp_assoc.
Qed.

Lemma splitlines_join l :
  l ≠ [] → (∀ w, w ∈ l → no_break w = true) → splitlines (join nl l +:+ nl) = l.
Proof.
  unfold splitlines. induction l as [|w l IH]; [done|]. intros _ Hl.
  rewrite join_nl_cons, splitlines_go_line by (apply Hl; left).
  change (String.rev "" +:+ w) with w. f_equal. destruct l as [|v l]; [done|].
  apply IH; [done|]. intros. apply Hl. by right.
Qed.

(** ** Suffixes of equal length *)

Lemma sapp_inj_length s s' t t' :
  s +:+ t = s' +:+ t' → slen t = slen t' → s = s' ∧ t = t'.
Proof.
  revert s'. induction s as [|c s IH]; intros [|c' s'] H Hl.
  - done.
  - exfalso. apply (f_equal slen) in H. rewrite !slen_app in H. simpl in H. lia.
  - exfalso. apply (f_equal slen) in H. rewrite !slen_app in H. simpl in H. lia.
  - rewrite !app_cons in H. injection H as -> H. by apply IH in H as [-> ->].
Qed.

(** ** Decimal integers *)

Lemma pretty_N_go_digits n s : sforall is_09 s = true → sforall is_09 (pretty_N_go n s) = true.
Proof.
  revert s. induction (N.lt_wf_0 n) as [n _ IH]. intros s Hs.
  destruct (decide (0 < n)%N) as [Hn|Hn].
  - rewrite pretty_N_go_step by done. apply IH; [by apply N.div_lt|].
    simpl. rewrite Hs, andb_true_r. pose proof (N.mod_lt n 10 ltac:(done)).
    destruct (n mod 10)%N as [|p]; [done|]. do 4 (destruct p as [p|p|]; try done; try lia).
  - assert (n = 0%N) as -> by lia. by rewrite pretty_N_go_0.
Qed.

Lemma str_int_digits z : (0 ≤ z)%Z → sforall is_09 (str_int z) = true.
Proof.
  intros Hz. unfold str_int, pretty, pretty_Z. destruct z as [|p|p]; [done| |lia].
  unfold pretty, pretty_positive, pretty, pretty_N. rewrite decide_False by done.
  by apply pretty_N_go_digits.
Qed.

Lemma contains_unfold p s :
  contains p s = starts_with p s || match s with "" => false | String _ s => contains p s end.
Proof. by destruct s. Qed.

Lemma contains_spec p s : contains p s = true ↔ ∃ u v, s = u +:+ p +:+ v.
Proof.
  split.
  - induction s as [|c s IH]; rewrite contains_unfold.
    + intros [Hs|?]%orb_true_iff; [|done]. apply starts_with_spec in Hs as [t Ht]. by exists "", t.
    + intros [Hs|Hs]%orb_true_iff; [apply starts_with_spec in Hs as [t Ht]; by exists "", t|].
      destruct (IH Hs) as (u & v & ->). by exists (String c u), v.
  - intros (u & v & ->). induction u as [|c u IH].
    + change ("" +:+ p +:+ v) with (p +:+ v). pose proof (starts_with_app p v) as Hp.
      rewrite contains_unfold. by rewrite Hp.
    + rewrite app_cons, contains_unfold. by rewrite IH, orb_true_r.
Qed.
