(* ===== verification/IpAddr.v ===== *)
(** * The [ipaddress] module

    What the source uses of Python's [ipaddress] (CPython 3.11): parsing and
    printing of IPv4 and IPv6 addresses and networks, membership,
    [reverse_pointer], [is_private].  Addresses keep their integer value; an
    IPv6 address also keeps its scope id. *)

From S2P Require Import Prelude PyStr StrLemmas.

Local Open Scope Z_scope.

Inductive ip : Type :=
| IPv4 (n : Z)
| IPv6 (n : Z) (scope_id : option string).

#[export] Instance ip_eq_dec : EqDecision ip.
Proof. solve_decision. Defined.

(** [IPvXNetwork]: the network address and the prefix length. *)
Record network := Network { net_addr : ip; net_prefixlen : Z }.

#[export] Instance network_eq_dec : EqDecision network.
Proof. solve_decision. Defined.

Definition ip_int (a : ip) : Z := match a with IPv4 n => n | IPv6 n _ => n end.
Definition ip_version (a : ip) : Z := match a with IPv4 _ => 4 | IPv6 _ _ => 6 end.
Definition max_prefixlen (a : ip) : Z := match a with IPv4 _ => 32 | IPv6 _ _ => 128 end.
Definition is_v4 (a : ip) : bool := match a with IPv4 _ => true | IPv6 _ _ => false end.

(** ** Numerals *)

Definition digit_val (c : ascii) : Z :=
  let n := Z.of_N (code c) in
  if is_09 c then n - 48
  else if in_range 97 102 c then n - 87
  else n - 55.

Fixpoint num_go (base acc : Z) (s : string) : Z :=
  match s with
  | "" => acc
  | String c s => num_go base (acc * base + digit_val c) s
  end.

(** [int(s, base)] on a string of digits of that base *)
Definition num_value (base : Z) (s : string) : Z := num_go base 0 s.

Definition hex_char (d : Z) : ascii :=
  ascii_of_N (Z.to_N (if d <? 10 then 48 + d else 87 + d)).

(** ['%x' % n] for [0 <= n < 16^fuel] *)
Fixpoint hex_go (fuel : nat) (n : Z) (acc : string) : string :=
  match fuel with
  | O => acc
  | S fuel =>
      let acc := String (hex_char (n mod 16)) acc in
      if n / 16 =? 0 then acc else hex_go fuel (n / 16) acc
  end.
Definition hex4 (n : Z) : string := hex_go 4 n "".

(** ** IPv4 *)

(** [IPv4Address._parse_octet] *)
Definition parse_octet (s : string) : option Z :=
  if String.eqb s "" then None
  else if negb (sforall is_09 s) then None
  else if (3 <? slen s)%nat then None
  else if negb (String.eqb s "0") && starts_with "0" s then None
  else let n := num_value 10 s in
  if 255 <? n then None else Some n.

Definition parse_ipv4 (s : string) : option Z :=
  match split_on "." s with
  | [a; b; c; d] =>
      a ← parse_octet a; b ← parse_octet b; c ← parse_octet c; d ← parse_octet d;
      Some (((a * 256 + b) * 256 + c) * 256 + d)
  | _ => None
  end.

Definition ipv4_octets (n : Z) : list Z :=
  [n / 16777216; (n / 65536) mod 256; (n / 256) mod 256; n mod 256].
Definition str_ipv4 (n : Z) : string := join "." (str_int <$> ipv4_octets n).

(** ** IPv6 *)

(** [IPv6Address._parse_hextet]; [int("", 16)] raises. *)
Definition parse_hextet (s : string) : option Z :=
  if negb (sforall is_hex s) then None
  else if (4 <? slen s)%nat then None
  else if String.eqb s "" then None
  else Some (num_value 16 s).

Fixpoint hextets_value (acc : Z) (l : list string) : option Z :=
  match l with
  | [] => Some acc
  | w :: l => h ← parse_hextet w; hextets_value (acc * 65536 + h) l
  end.

(** An IPv4 suffix in the last part becomes two hextets. *)
Definition expand_ipv4_tail (parts : list string) : option (list string) :=
  match last parts with
  | Some w =>
      if char_in "." w then
        n ← parse_ipv4 w;
        Some (take (pred (length parts)) parts ++ [hex4 (n / 65536); hex4 (n mod 65536)])
      else Some parts
  | None => None
  end.

(** Indices [1 .. len-2] holding an empty part. *)
Definition inner_blanks (parts : list string) : list nat :=
  List.filter (λ i, bool_decide (parts !! i = Some ""))
    (seq 1 (length parts - 2)).

Definition parse_ipv6_parts (parts : list string) : option Z :=
  let len := length parts in
  let first_blank := bool_decide (head parts = Some "") in
  let last_blank := bool_decide (last parts = Some "") in
  if (9 <? len)%nat then None
  else match inner_blanks parts with
  | [] =>
      if negb (len =? 8)%nat || first_blank || last_blank then None
      else hextets_value 0 parts
  | [skip] =>
      let hi := (if first_blank then pred skip else skip) in
      let lo := (if last_blank then pred (len - skip - 1) else len - skip - 1)%nat in
      if first_blank && negb (hi =? 0)%nat then None
      else if last_blank && negb (lo =? 0)%nat then None
      else if (8 <=? hi + lo)%nat then None
      else
        v ← hextets_value 0 (take hi parts);
        hextets_value (v * 65536 ^ (8 - Z.of_nat (hi + lo))) (drop (len - lo) parts)
  | _ => None
  end.

Definition parse_ipv6_int (s : string) : option Z :=
  if String.eqb s "" then None
  else let parts := split_on ":" s in
  if (length parts <? 3)%nat then None
  else parts ← expand_ipv4_tail parts; parse_ipv6_parts parts.

Definition parse_ipv6 (s : string) : option ip :=
  if char_in "/" s then None
  else match partition "%" s with
  | (h, false, _) => n ← parse_ipv6_int h; Some (IPv6 n None)
  | (h, true, scope) =>
      if String.eqb scope "" || char_in "%" scope then None
      else n ← parse_ipv6_int h; Some (IPv6 n (Some scope))
  end.

(** [ipaddress.ip_address(s)]; [None] is [ValueError]. *)
Definition ip_address (s : string) : option ip :=
  match (if char_in "/" s then None else parse_ipv4 s) with
  | Some n => Some (IPv4 n)
  | None => parse_ipv6 s
  end.

(** *** Printing *)

Definition ipv6_hextets (n : Z) : list Z :=
  (λ i, (n / 65536 ^ Z.of_nat (7 - i)) mod 65536) <$> seq 0 8.

(** The scan of [_compress_hextets]: (best start, best length) of the first
    longest run of zero hextets. *)
Fixpoint zero_run (i start len bstart blen : nat) (l : list Z) : nat * nat :=
  match l with
  | [] => (bstart, blen)
  | h :: l =>
      if h =? 0 then
        let start := if (len =? 0)%nat then i else start in
        let len := S len in
        if (blen <? len)%nat then zero_run (S i) start len start len l
        else zero_run (S i) start len bstart blen l
      else zero_run (S i) 0 0 bstart blen l
  end.

Definition compress_hextets (l : list Z) : list string :=
  let '(bstart, blen) := zero_run 0 0 0 0 0 l in
  let ws := hex4 <$> l in
  if (1 <? blen)%nat then
    let bend := (bstart + blen)%nat in
    let tail := if (bend =? length l)%nat then [""] else drop bend ws in
    let mid := take bstart ws ++ [""] ++ tail in
    if (bstart =? 0)%nat then "" :: mid else mid
  else ws.

Definition str_ipv6_int (n : Z) : string := join ":" (compress_hextets (ipv6_hextets n)).

(** [str(address)] *)
Definition str_ip (a : ip) : string :=
  match a with
  | IPv4 n => str_ipv4 n
  | IPv6 n None => str_ipv6_int n
  | IPv6 n (Some scope) => str_ipv6_int n +:+ "%" +:+ scope
  end.

(** ** Networks *)

(** [_prefix_from_prefix_string] *)
Definition parse_prefixlen (maxlen : Z) (s : string) : option Z :=
  if String.eqb s "" || negb (sforall is_09 s) then None
  else let n := num_value 10 s in if maxlen <? n then None else Some n.

(** The integer with the [p] high bits of [w] set. *)
Definition mask_int (w p : Z) : Z := 2 ^ w - 2 ^ (w - p).

(** [_prefix_from_ip_int] on 32 bits *)
Definition prefix_of_mask (n : Z) : option Z :=
  head (List.filter (λ p, mask_int 32 p =? n) (Z.of_nat <$> seq 0 33)).

(** [IPv4Network._make_netmask]: a prefix length, a netmask or a hostmask *)
Definition netmask_v4 (s : string) : option Z :=
  match parse_prefixlen 32 s with
  | Some p => Some p
  | None =>
      n ← parse_ipv4 s;
      match prefix_of_mask n with
      | Some p => Some p
      | None => prefix_of_mask (4294967295 - n)
      end
  end.

Definition truncate (w p n : Z) : Z := n / 2 ^ (w - p) * 2 ^ (w - p).

Definition network_of (a : ip) (p : Z) : network :=
  match a with
  | IPv4 n => Network (IPv4 (truncate 32 p n)) p
  | IPv6 n sc => Network (if truncate 128 p n =? n then IPv6 n sc
                          else IPv6 (truncate 128 p n) None) p
  end.

(** [ipaddress.ip_network(s, strict=False)] *)
Definition ip_network (s : string) : option network :=
  match split_on "/" s with
  | [addr] =>
      match parse_ipv4 addr with
      | Some n => Some (network_of (IPv4 n) 32)
      | None => a ← parse_ipv6 addr; Some (network_of a 128)
      end
  | [addr; mask] =>
      match (n ← parse_ipv4 addr; p ← netmask_v4 mask; Some (network_of (IPv4 n) p)) with
      | Some net => Some net
      | None => a ← parse_ipv6 addr; p ← parse_prefixlen 128 mask; Some (network_of a p)
      end
  | _ => None
  end.

Definition str_network (net : network) : string :=
  str_ip (net_addr net) +:+ "/" +:+ str_int (net_prefixlen net).

(** [address in network] *)
Definition ip_in (a : ip) (net : network) : bool :=
  (ip_version a =? ip_version (net_addr net))
  && (truncate (max_prefixlen a) (net_prefixlen net) (ip_int a) =? ip_int (net_addr net)).

(** ** Private addresses *)

Definition in_any (a : ip) (nets : list string) : bool :=
  existsb (λ s, match ip_network s with Some net => ip_in a net | None => false end) nets.

Definition private_v4 : list string :=
  ["0.0.0.0/8"; "10.0.0.0/8"; "127.0.0.0/8"; "169.254.0.0/16"; "172.16.0.0/12";
   "192.0.0.0/24"; "192.0.0.170/31"; "192.0.2.0/24"; "192.168.0.0/16"; "198.18.0.0/15";
   "198.51.100.0/24"; "203.0.113.0/24"; "240.0.0.0/4"; "255.255.255.255/32"].
Definition private_v4_exceptions : list string := ["192.0.0.9/32"; "192.0.0.10/32"].
Definition private_v6 : list string :=
  ["::1/128"; "::/128"; "::ffff:0:0/96"; "64:ff9b:1::/48"; "100::/64"; "2001::/23";
   "2001:db8::/32"; "2002::/16"; "fc00::/7"; "fe80::/10"].
Definition private_v6_exceptions : list string :=
  ["2001:1::1/128"; "2001:1::2/128"; "2001:3::/32"; "2001:4:112::/48"; "2001:20::/28";
   "2001:30::/28"].

(** [address.is_private] *)
Definition is_private (a : ip) : bool :=
  let v4 a := in_any a private_v4 && negb (in_any a private_v4_exceptions) in
  match a with
  | IPv4 _ => v4 a
  | IPv6 n _ =>
      if n / 4294967296 =? 65535 then v4 (IPv4 (n mod 4294967296))
      else in_any a private_v6 && negb (in_any a private_v6_exceptions)
  end.

(** ** Classes of addresses *)

Definition is_loopback (a : ip) : bool :=
  match a with IPv4 _ => in_any a ["127.0.0.0/8"] | IPv6 n _ => (n =? 1)%Z end.
Definition is_link_local (a : ip) : bool :=
  in_any a [if is_v4 a then "169.254.0.0/16" else "fe80::/10"].
Definition is_multicast (a : ip) : bool := in_any a [if is_v4 a then "224.0.0.0/4" else "ff00::/8"].
Definition is_unspecified (a : ip) : bool := (ip_int a =? 0)%Z.

(** [str(ip).split(".")] for IPv4, the 32 reversed nibbles and [ip6.arpa] for
    IPv6: [reverse_pointer.split(".")]. *)
Definition nibbles (n : Z) : list string :=
  (λ i, String (hex_char ((n / 16 ^ Z.of_nat i) mod 16)) "") <$> seq 0 32.
Definition reverse_pointer_v6 (n : Z) : list string := nibbles n ++ ["ip6"; "arpa"].

(** ** Examples *)

Example ip_ex1 : ip_address "192.168.1.10" = Some (IPv4 3232235786).
Proof. vm_compute. reflexivity. Qed.
Example ip_ex2 : str_ip <$> ip_address "2001:DB8:0:0:1:0:0:1" = Some "2001:db8::1:0:0:1".
Proof. vm_compute. reflexivity. Qed.
Example ip_ex3 : str_ip <$> ip_address "::ffff:1.2.3.4" = Some "::ffff:102:304".
Proof. vm_compute. reflexivity. Qed.
Example ip_ex4 : ip_address "1.2.3.04" = None.
Proof. vm_compute. reflexivity. Qed.
Example ip_ex5 : str_network <$> ip_network "192.168.32.1/24" = Some "192.168.32.0/24".
Proof. vm_compute. reflexivity. Qed.
Example ip_ex6 : str_ip <$> ip_address "fe80::1%eth0" = Some "fe80::1%eth0".
Proof. vm_compute. reflexivity. Qed.
Example ip_ex7 : (str_ip <$> ip_address "::", str_ip <$> ip_address "1::") = (Some "::", Some "1::").
Proof. vm_compute. reflexivity. Qed.

Lemma str_ip_nonempty a : str_ip a ≠ "".
Proof.
  assert (Hj : ∀ sep w v l, sep ≠ "" → join sep (w :: v :: l) ≠ "").
  { intros sep w v l Hs. rewrite join_cons by done. intros [_ [? _]%sapp_eq_nil]%sapp_eq_nil. done. }
  assert (H6 : ∀ n, str_ipv6_int n ≠ "").
  { intros n. unfold str_ipv6_int, compress_hextets.
    destruct (zero_run _ _ _ _ _ _) as [b len].
    assert (Hlen : ∃ h l, hex4 <$> ipv6_hextets n = h :: l ∧ l ≠ []) by (eexists _, _; split; done).
    destruct Hlen as (h & l & -> & Hl). destruct l as [|h' l]; [done|].
    case_match; [|by apply Hj]. case_match; [destruct b; by apply Hj|].
    destruct b; [done|]. simpl. destruct (take _ _ ++ _) as [|? ?] eqn:E; [|by apply Hj].
    by apply app_eq_nil in E as [_ ?]. }
  destruct a as [n|n [sc|]]; simpl; [by apply Hj| |apply H6].
  intros [? _]%sapp_eq_nil. by apply (H6 n).
Qed.
