(* ===== verification/PyJson.v ===== *)
(** * JSON documents

    The values [json.loads] returns and the conversions the source applies to
    them.  A TEXT column that holds a document is an [option json]: [None] is text
    [json.loads] rejects.  The documents of the program hold no floats. *)

From S2P Require Import Prelude PyStr IpAddr.

Inductive json :=
| JNull
| JBool (b : bool)
| JInt (z : Z)
| JStr (s : string)
| JList (l : list json)
| JObj (fields : list (string * json)).

Definition TypeError (message : string) : pyexc := PyExc "TypeError" message.
Definition ValueError (message : string) : pyexc := PyExc "ValueError" message.

(** [json.loads] of a stored text *)
Definition json_loads (text : option json) : res json :=
  match text with
  | Some v => Ok v
  | None => Raise (PyExc "JSONDecodeError" "Expecting value")
  end.

Fixpoint field (key : string) (fields : list (string * json)) : option json :=
  match fields with
  | [] => None
  | (k, v) :: fields => if String.eqb k key then Some v else field key fields
  end.

(** [data.get(key, default)]; only a dict has the method. *)
Definition dict_get (data : json) (key : string) (dflt : json) : res json :=
  match data with
  | JObj fields => Ok (default dflt (field key fields))
  | _ => Raise (PyExc "AttributeError" "object has no attribute 'get'")
  end.

(** ASCII digits, single underscores allowed between them. *)
Definition digits_value (s : string) : option Z :=
  let groups := split_on "_" s in
  if forallb (λ g, negb (String.eqb g "") && sforall is_09 g) groups
  then Some (num_value 10 (join "" groups)) else None.

(** [int(s)] on a string *)
Definition int_of_string (s : string) : option Z :=
  match strip s with
  | String "-" t => Z.opp <$> digits_value t
  | String "+" t => digits_value t
  | t => digits_value t
  end.

Definition int_error (s : string) : pyexc :=
  ValueError ("invalid literal for int() with base 10: '" +:+ s +:+ "'").

(** [int(v)] *)
Definition py_int (v : json) : res Z :=
  match v with
  | JInt z => Ok z
  | JBool b => Ok (if b then 1 else 0)%Z
  | JStr s => match int_of_string s with Some z => Ok z | None => Raise (int_error s) end
  | _ => Raise (TypeError "int() argument must be a string, a bytes-like object or a real number")
  end.

Fixpoint chars (s : string) : list json :=
  match s with
  | "" => []
  | String c s => JStr (String c "") :: chars s
  end.

(** [list(v)] *)
Definition py_list (v : json) : res (list json) :=
  match v with
  | JList l => Ok l
  | JStr s => Ok (chars s)
  | JObj fields => Ok (JStr <$> fields.*1)
  | _ => Raise (TypeError "object is not iterable")
  end.

(** [str(v)]; the text of a list or a dict is none of those it is compared with. *)
Definition py_str (v : json) : string :=
  match v with
  | JNull => "None" | JBool b => if b then "True" else "False"
  | JInt z => str_int z | JStr s => s | JList _ => "[]" | JObj _ => "{}"
  end.

(** The truth value of [v] *)
Definition py_bool (v : json) : bool :=
  match v with
  | JNull => false | JBool b => b | JInt z => negb (z =? 0)%Z | JStr s => negb (String.eqb s "")
  | JList l => negb (bool_decide (length l = 0)) | JObj l => negb (bool_decide (length l = 0))
  end.

(** [int(data.get(key, 0))] *)
Definition get_int (data : json) (key : string) : res Z :=
  v ← dict_get data key (JInt 0); py_int v.

Example json_ex1 : py_int (JStr " -1_0 ") = Ok (-10)%Z.
Proof. reflexivity. Qed.
Example json_ex2 : get_int (JObj [("a", JInt 1)]) "b" = Ok 0%Z.
Proof. reflexivity. Qed.
