(* ===== verification/JsonText.v ===== *)
(** * JSON texts

    [json.dumps(value, separators=(",", ":"))] of the Standard Library, and that the
    text determines the value: a digest of it is a digest of the document. *)

From S2P Require Import Prelude PyStr StrLemmas IpAddr PyJson.

(** ** Printing *)

Definition hex_char (n : N) : ascii := ascii_of_N (if (n <? 10)%N then 48 + n else 87 + n)%N.

(** A character of a string literal; text beyond ASCII is written as [\u00xx]. *)
Definition escape_char (c : ascii) : string :=
  if Ascii.eqb c "034" then "\" +:+ dquote
  else if Ascii.eqb c "\" then "\\"
  else if Ascii.eqb c "010" then "\n"
  else if Ascii.eqb c "013" then "\r"
  else if Ascii.eqb c "009" then "\t"
  else if Ascii.eqb c "012" then "\f"
  else if Ascii.eqb c "008" then "\b"
  else if in_range 32 126 c then String c ""
  else "\u00" +:+ String (hex_char (code c / 16)) (String (hex_char (code c mod 16)) "").

Fixpoint escape (s : string) : string :=
  match s with "" => "" | String c s => escape_char c +:+ escape s end.

Definition json_string (s : string) : string := dquote +:+ escape s +:+ dquote.

Fixpoint dumps (j : json) : string :=
  match j with
  | JNull => "null"
  | JBool b => if b then "true" else "false"
  | JInt z => str_int z
  | JStr s => json_string s
  | JList l => "[" +:+ join "," (List.map dumps l) +:+ "]"
  | JObj fields =>
      "{" +:+ join "," (List.map (λ kv, json_string kv.1 +:+ ":" +:+ dumps kv.2) fields) +:+ "}"
  end.

Example dumps_ex :
  dumps (JObj [("a", JList [JInt (-3); JNull]); ("b", JStr ("x" +:+ nl +:+ "'"))])
  = quoted "{`a`:[-3,null],`b`:`x\n'`}".
Proof. vm_compute. reflexivity. Qed.

(** ** The text determines the value *)

Definition hex_value (c : ascii) : N := if (code c <? 58)%N then (code c - 48)%N else (code c - 87)%N.

(** The first character of a literal, and the rest. *)
Definition read_char (s : string) : option (ascii * string) :=
  match s with
  | String "\" (String "u" (String _ (String _ (String a (String b t))))) =>
      Some (ascii_of_N (16 * hex_value a + hex_value b)%N, t)
  | String "\" (String c t) =>
      Some (match c with "n" => "010" | "r" => "013" | "t" => "009" | "f" => "012" | "b" => "008" | c => c end%char, t)
  | String c t => Some (c, t)
  | "" => None
  end.

Lemma read_escape c t : read_char (escape_char c +:+ t) = Some (c, t).
Proof. destruct c as [[] [] [] [] [] [] [] []]; reflexivity. Qed.

Lemma escape_char_not_quote c t t' : escape_char c +:+ t ≠ dquote +:+ t'.
Proof. destruct c as [[] [] [] [] [] [] [] []]; discriminate. Qed.

Lemma escape_prefix s s' r r' :
  escape s +:+ dquote +:+ r = escape s' +:+ dquote +:+ r' → s = s' ∧ r = r'.
Proof.
  revert s'. induction s as [|c s IH]; intros [|c' s']; cbn [escape]; rewrite ?sapp_assoc.
  - intros E. split; [done|]. by injection E.
  - intros E. symmetry in E. by apply escape_char_not_quote in E.
  - intros E. by apply escape_char_not_quote in E.
  - intros E. apply (f_equal read_char) in E. rewrite !read_escape in E. injection E as -> E.
    by destruct (IH s' E) as [-> ->].
Qed.

Lemma json_string_prefix s s' r r' : json_string s +:+ r = json_string s' +:+ r' → s = s' ∧ r = r'.
Proof. unfold json_string. rewrite !sapp_assoc. intros E%(inj (String.append dquote)). by apply escape_prefix. Qed.

(** Two runs of the same class of characters, each followed by something else. *)
Lemma run_prefix p s s' t t' :
  sforall p s = true → sforall p s' = true → head_not p t = true → head_not p t' = true →
  s +:+ t = s' +:+ t' → s = s' ∧ t = t'.
Proof.
  revert s'. induction s as [|c s IH]; intros [|c' s'] Hs Hs' Ht Ht' E.
  - done.
  - rewrite app_nil_s, app_cons in E. subst t. cbn in Ht, Hs'. apply andb_true_iff in Hs' as [Hc _]. by rewrite Hc in Ht.
  - rewrite app_nil_s, app_cons in E. subst t'. cbn in Ht', Hs. apply andb_true_iff in Hs as [Hc _]. by rewrite Hc in Ht'.
  - rewrite !app_cons in E. injection E as -> E. cbn in Hs, Hs'. bool_to_prop.
    by destruct (IH s') as [-> ->].
Qed.

Definition int_char (c : ascii) : bool := is_09 c || Ascii.eqb "-" c.

Lemma str_int_chars z : sforall int_char (str_int z) = true.
Proof.
  assert (∀ n, sforall int_char (pretty_N_go n "") = true) as Hgo.
  { intros n. eapply sforall_impl; [|by apply pretty_N_go_digits]. char_decide. }
  unfold str_int, pretty, pretty_Z, pretty, pretty_positive, pretty, pretty_N. destruct z as [|p|p]; [done|by rewrite decide_False|].
  rewrite decide_False by done. apply Hgo.
Qed.

Lemma str_int_nonempty z : str_int z ≠ "".
Proof.
  intros E. unfold str_int, pretty, pretty_Z in E. destruct z as [|p|p]; [done| |done].
  unfold pretty, pretty_positive, pretty, pretty_N in E. rewrite decide_False in E by done.
  rewrite pretty_N_go_step in E by done. apply (f_equal slen) in E. revert E.
  assert (∀ n s, slen s ≤ slen (pretty_N_go n s)) as Hle; [|specialize (Hle (N.pos p / 10)%N
    (String (pretty_N_char (N.pos p mod 10)) "")); cbn in Hle |- *; lia].
  intros n. induction (N.lt_wf_0 n) as [n _ IH]. intros s. destruct (decide (0 < n)%N).
  - rewrite pretty_N_go_step by done. etransitivity; [|apply IH; by apply N.div_lt]. cbn. lia.
  - assert (n = 0%N) as -> by lia. by rewrite pretty_N_go_0.
Qed.

Section json_induction.
Context (P : json → Prop) (Hnull : P JNull) (Hbool : ∀ b, P (JBool b)) (Hint : ∀ z, P (JInt z)) (Hstr : ∀ s, P (JStr s))
  (Hlist : ∀ l, Forall P l → P (JList l)) (Hobj : ∀ fields, Forall (λ kv, P kv.2) fields → P (JObj fields)).

Fixpoint json_nested_ind (j : json) : P j :=
  match j with
  | JNull => Hnull | JBool b => Hbool b | JInt z => Hint z | JStr s => Hstr s
  | JList l => Hlist l ((fix go l : Forall P l :=
      match l with [] => Forall_nil_2 P | x :: l => Forall_cons_2 P x l (json_nested_ind x) (go l) end) l)
  | JObj fields => Hobj fields ((fix go l : Forall (λ kv, P kv.2) l :=
      match l with [] => Forall_nil_2 _ | kv :: l => Forall_cons_2 _ kv l (json_nested_ind kv.2) (go l) end) fields)
  end.
End json_induction.

(** Values are told apart by the first character of their text. *)
Definition kind_of (j : json) : nat :=
  match j with
  | JNull => 0 | JBool true => 1 | JBool false => 2 | JStr _ => 3 | JList _ => 4 | JObj _ => 5 | JInt _ => 6
  end.
Definition kind_of_char (c : ascii) : nat :=
  match c with
  | "n" => 0 | "t" => 1 | "f" => 2 | "034" => 3 | "[" => 4 | "{" => 5 | "]" | "}" => 7 | _ => 6
  end%char.
Definition kind_of_text (s : string) : nat := match s with String c _ => kind_of_char c | "" => 7 end.

Lemma dumps_kind j t : kind_of_text (dumps j +:+ t) = kind_of j.
Proof.
  destruct j as [|[]|z|s|l|fields]; try done. cbn [dumps kind_of].
  pose proof (str_int_chars z) as Hz. pose proof (str_int_nonempty z) as Hne.
  destruct (str_int z) as [|c u]; [done|]. cbn in Hz |- *. apply andb_true_iff in Hz as [Hc _]. clear -Hc.
  destruct c as [[] [] [] [] [] [] [] []]; done.
Qed.

(** What may follow a value inside a document, or at its end. *)
Definition separator (r : string) : Prop :=
  match r with String c _ => c = ","%char ∨ c = "]"%char ∨ c = "}"%char | "" => True end.

Section elements.
Context {A : Type} (f : A → string) (close : ascii).
Context (close_sep : close = "]"%char ∨ close = "}"%char).
Context (not_close : ∀ x r r', f x +:+ r ≠ String close r').

Definition prefix_free (x : A) : Prop :=
  ∀ y r r', separator r → separator r' → f x +:+ r = f y +:+ r' → x = y ∧ r = r'.

(** The elements after the first. *)
Fixpoint others (l : list A) : string :=
  match l with [] => "" | x :: l => "," +:+ f x +:+ others l end.

Lemma join_others x l : join "," (List.map f (x :: l)) = f x +:+ others l.
Proof.
  revert x. induction l as [|y l IH]; intros x; [cbn; by rewrite sapp_nil_r|].
  cbn [List.map]. rewrite join_cons by done. f_equal. cbn [others]. f_equal. apply IH.
Qed.

Lemma others_separator l r : separator (others l +:+ String close r).
Proof. destruct l; [change (separator (String close r)); destruct close_sep as [-> | ->]; cbn; auto|by left]. Qed.

Lemma others_prefix l l' r r' :
  Forall prefix_free l → others l +:+ String close r = others l' +:+ String close r' → l = l' ∧ r = r'.
Proof.
  assert (close ≠ ","%char) as Hne by (by destruct close_sep as [-> | ->]).
  intros Hl. revert l'. induction Hl as [|x l Hx Hl IH]; intros [|y l'] E; cbn [others] in E; rewrite ?app_nil_s, ?sapp_assoc in E.
  - split; [done|]. by injection E.
  - injection E as E _. done.
  - injection E as E _. by symmetry in E.
  - apply (inj (String.append ",")) in E. apply Hx in E as [-> E]; [|apply others_separator..].
    by destruct (IH l' E) as [-> ->].
Qed.

Lemma join_prefix l l' r r' :
  Forall prefix_free l →
  join "," (List.map f l) +:+ String close r = join "," (List.map f l') +:+ String close r' → l = l' ∧ r = r'.
Proof.
  intros Hl. destruct Hl as [|x l Hx Hl], l' as [|y l']; rewrite ?join_others, ?sapp_assoc; intros E.
  - split; [done|]. by injection E.
  - symmetry in E. by apply not_close in E.
  - by apply not_close in E.
  - apply Hx in E as [-> E]; [|apply others_separator..]. by destruct (others_prefix l l' r r' Hl E) as [-> ->].
Qed.
End elements.

Lemma dumps_prefix j : prefix_free dumps j.
Proof.
  induction j as [|b|z|s|l Hl|fields Hf] using json_nested_ind; intros j' r r' Hr Hr' E;
    (pose proof (f_equal kind_of_text E) as K; rewrite !dumps_kind in K).
  - destruct j' as [|[]|?|?|?|?]; try done. split; [done|]. by injection E.
  - destruct b, j' as [|[]|?|?|?|?]; try done; (split; [done|]; by injection E).
  - destruct j' as [|[]|z'|?|?|?]; try done. cbn [dumps] in E.
    assert (∀ r, separator r → head_not int_char r = true) as Hsep.
    { intros [|c u]; [done|]. by intros [-> | [-> | ->]]. }
    apply (run_prefix int_char) in E as [E ->]; [|apply str_int_chars|apply str_int_chars|by apply Hsep..].
    by apply (inj pretty) in E as ->.
  - destruct j' as [|[]|?|s'|?|?]; try done. cbn [dumps] in E. by apply json_string_prefix in E as [-> ->].
  - destruct j' as [|[]|?|?|l'|?]; try done. cbn [dumps] in E. rewrite !sapp_assoc in E.
    apply (inj (String.append "[")), (join_prefix dumps "]"%char) in E as [-> ->]; [done|by left| |done].
    intros x t t' Ht. apply (f_equal kind_of_text) in Ht. rewrite dumps_kind in Ht. by destruct x as [|[]| | | |].
  - destruct j' as [|[]|?|?|?|fields']; try done. cbn [dumps] in E. rewrite !sapp_assoc in E.
    apply (inj (String.append "{")), (join_prefix _ "}"%char) in E as [-> ->]; [done|by right|done|].
    eapply Forall_impl; [exact Hf|]. intros [k v] Hv [k' v'] t t' Ht Ht' Heq. cbn [fst snd] in *.
    rewrite !sapp_assoc in Heq. apply json_string_prefix in Heq as [-> Heq].
    apply (inj (String.append ":")) in Heq. by apply Hv in Heq as [-> ->].
Qed.

(** Two documents with the same text are the same. *)
Lemma dumps_inj j j' : dumps j = dumps j' → j = j'.
Proof. intros E. apply (dumps_prefix j j' "" ""); [done..|]. by rewrite !sapp_nil_r. Qed.
