(* ===== verification/JsonRead.v ===== *)
(** * JSON texts and documents

    [json.dumps] with its separators and indentation, [json.loads], and that a document
    is read back from its text.  The documents of the program hold no floats and no
    characters beyond Latin-1: [loads] has no value for them and answers [None], as for a
    text [json.loads] rejects. *)

From S2P Require Import Prelude PyStr StrLemmas IpAddr PyJson JsonText.

(** ** Printing *)

Record style := mkStyle { st_item : string; st_key : string; st_indent : option nat }.

(** [separators=(",", ":")], no argument, and [indent=2] *)
Definition compact : style := mkStyle "," ":" None.
Definition spaced : style := mkStyle ", " ": " None.
Definition indented : style := mkStyle "," ": " (Some 2).

Fixpoint srepeat (s : string) (n : nat) : string :=
  match n with O => "" | S n => s +:+ srepeat s n end.

(** The line break before an element at depth [lvl]. *)
Definition break (st : style) (lvl : nat) : string :=
  match st_indent st with Some k => nl +:+ srepeat " " (k * lvl) | None => "" end.

Definition bracket (st : style) (lvl : nat) (op cl : string) (parts : list string) : string :=
  match parts with
  | [] => op +:+ cl
  | _ => op +:+ break st (S lvl) +:+ join (st_item st +:+ break st (S lvl)) parts +:+ break st lvl +:+ cl
  end.

Fixpoint print (st : style) (lvl : nat) (j : json) : string :=
  match j with
  | JNull => "null"
  | JBool b => if b then "true" else "false"
  | JInt z => str_int z
  | JStr s => json_string s
  | JList l => bracket st lvl "[" "]" (List.map (print st (S lvl)) l)
  | JObj fields =>
      bracket st lvl "{" "}" (List.map (λ kv, json_string kv.1 +:+ st_key st +:+ print st (S lvl) kv.2) fields)
  end.

Example print_ex :
  print indented 0 (JObj [("a", JList [JInt 1; JList []])])
  = quoted (join nl ["{"; "  `a`: ["; "    1,"; "    []"; "  ]"; "}"]).
Proof. vm_compute. reflexivity. Qed.

(** ** Reading *)

Definition is_ws (c : ascii) : bool := (code c =? 32)%N || (code c =? 9)%N || (code c =? 10)%N || (code c =? 13)%N.
#[global] Arguments is_ws : simpl never.
Definition skip_ws : string → string := lstrip_by is_ws.

Definition unescape (c : ascii) : option ascii :=
  if Ascii.eqb c "034" then Some "034"%char else if Ascii.eqb c "\" then Some "\"%char
  else if Ascii.eqb c "/" then Some "/"%char else if Ascii.eqb c "b" then Some "008"%char
  else if Ascii.eqb c "f" then Some "012"%char else if Ascii.eqb c "n" then Some "010"%char
  else if Ascii.eqb c "r" then Some "013"%char else if Ascii.eqb c "t" then Some "009"%char else None.

Definition push (c : ascii) (r : option (string * string)) : option (string * string) :=
  '(s, t) ← r; Some (String c s, t).

(** The literal after its opening quote, and the rest of the text. *)
Fixpoint read_string (s : string) : option (string * string) :=
  match s with
  | "" => None
  | String c s =>
      if Ascii.eqb c "034" then Some ("", s)
      else if Ascii.eqb c "\" then
        match s with
        | String "u" (String a (String b (String x (String y s)))) =>
            if forallb is_hex [a; b; x; y] then
              let n := num_value 16 (String a (String b (String x (String y "")))) in
              if (n <? 256)%Z then push (ascii_of_N (Z.to_N n)) (read_string s) else None
            else None
        | String e s => match unescape e with Some c => push c (read_string s) | None => None end
        | "" => None
        end
      else if (code c <? 32)%N then None
      else push c (read_string s)
  end.

(** After the digits of an integer, these make a float or an error. *)
Definition float_char (c : ascii) : bool := Ascii.eqb c "." || Ascii.eqb c "e" || Ascii.eqb c "E".

Definition read_digits (s : string) : option (Z * string) :=
  let digits := if starts_with "0" s then "0" else take_while is_09 s in
  let rest := sdrop (slen digits) s in
  if String.eqb digits "" || negb (head_not float_char rest) then None
  else Some (num_value 10 digits, rest).

Definition read_int (s : string) : option (Z * string) :=
  match s with
  | String "-" t => '(n, r) ← read_digits t; Some ((-n)%Z, r)
  | _ => read_digits s
  end.

(** [dict(pairs)] *)
Fixpoint dict_set (k : string) (v : json) (d : list (string * json)) : list (string * json) :=
  match d with
  | [] => [(k, v)]
  | (k', v') :: d => if String.eqb k' k then (k', v) :: d else (k', v') :: dict_set k v d
  end.
Definition dict_of (pairs : list (string * json)) : list (string * json) :=
  fold_left (λ d kv, dict_set kv.1 kv.2 d) pairs [].

(** The text after the character [c]. *)
Definition eat (c : ascii) (s : string) : option string :=
  match s with String d t => if Ascii.eqb c d then Some t else None | "" => None end.

(** The value at the head of the text; the elements and members up to the closing
    bracket, the first of them at the head of the text (a member after its quote). *)
Fixpoint read_value (n : nat) (s : string) : option (json * string) :=
  match n, s with
  | O, _ | _, "" => None
  | S n, String c t =>
      if Ascii.eqb c "034" then '(x, r) ← read_string t; Some (JStr x, r)
      else if Ascii.eqb c "{" then
        match eat "}" (skip_ws t) with
        | Some r => Some (JObj [], r)
        | None => t ← eat "034" (skip_ws t); '(l, r) ← read_members n t; Some (JObj (dict_of l), r)
        end
      else if Ascii.eqb c "[" then
        match eat "]" (skip_ws t) with
        | Some r => Some (JList [], r)
        | None => '(l, r) ← read_items n (skip_ws t); Some (JList l, r)
        end
      else if starts_with "null" s then Some (JNull, sdrop 4 s)
      else if starts_with "true" s then Some (JBool true, sdrop 4 s)
      else if starts_with "false" s then Some (JBool false, sdrop 5 s)
      else '(z, r) ← read_int s; Some (JInt z, r)
  end
with read_items (n : nat) (s : string) : option (list json * string) :=
  match n with
  | O => None
  | S n =>
      '(x, t) ← read_value n s;
      match eat "]" (skip_ws t) with
      | Some r => Some ([x], r)
      | None => t ← eat "," (skip_ws t); '(l, r) ← read_items n (skip_ws t); Some (x :: l, r)
      end
  end
with read_members (n : nat) (s : string) : option (list (string * json) * string) :=
  match n with
  | O => None
  | S n =>
      '(k, t) ← read_string s; t ← eat ":" (skip_ws t); '(x, t) ← read_value n (skip_ws t);
      match eat "}" (skip_ws t) with
      | Some r => Some ([(k, x)], r)
      | None =>
          t ← eat "," (skip_ws t); t ← eat "034" (skip_ws t);
          '(l, r) ← read_members n t; Some ((k, x) :: l, r)
      end
  end.

(** [json.loads(text)] *)
Definition loads (text : string) : option json :=
  '(j, r) ← read_value (2 * slen text + 1) (skip_ws text);
  if String.eqb (skip_ws r) "" then Some j else None.

Example loads_ex1 :
  loads (quoted " {`a`: [1, -20,true ] , `b`:{}, `a`: `x\u00e9\n`} ")
  = Some (JObj [("a", JStr ("x" +:+ String "233" nl)); ("b", JObj [])]).
Proof. vm_compute. reflexivity. Qed.
Example loads_ex2 : loads <$> ["[1,]"; "01"; "1.5"; "{1:2}"; "nul"; "[1 2]"; "1 x"; ""] = replicate 8 None.
Proof. vm_compute. reflexivity. Qed.
Example loads_ex3 : loads <$> ["[]"; "-0"; "[ [ ] , null]"]
  = [Some (JList []); Some (JInt 0); Some (JList [JList []; JNull])].
Proof. vm_compute. reflexivity. Qed.

(** *** The fuel is enough *)

Lemma eat_Some c s t : eat c s = Some t ↔ s = String c t.
Proof.
  destruct s as [|d s]; cbn; [done|]. destruct (Ascii.eqb_spec c d) as [->|Hd]; split; intros [=]; congruence.
Qed.

Lemma skip_ws_le s : slen (skip_ws s) ≤ slen s.
Proof. destruct (lstrip_split is_ws s) as (a & E & _). rewrite E at 2. rewrite slen_app. unfold skip_ws. lia. Qed.

Lemma slen_sdrop n s : slen (sdrop n s) = slen s - n.
Proof. revert n. induction s as [|c s IH]; intros [|n]; cbn; try done. apply IH. Qed.

Lemma push_rest c o s r : push c o = Some (s, r) → ∃ s', o = Some (s', r).
Proof. destruct o as [[s' r']|]; [|done]. cbn. intros [= _ <-]. by exists s'. Qed.

Lemma read_string_le n s x r : slen s ≤ n → read_string s = Some (x, r) → slen r < slen s.
Proof.
  revert s x. induction n as [|n IH]; intros [|c s] x Hn; try done; [cbn in Hn; lia|].
  cbn [read_string]. destruct (Ascii.eqb _ _); [intros [= _ <-]; cbn; lia|].
  assert (∀ e s' x, slen s' ≤ n → push e (read_string s') = Some (x, r) → slen r < slen s') as Hp.
  { intros e s' x' Hs (x'' & E)%push_rest. eapply IH; [|exact E]. lia. }
  cbn in Hn. destruct (Ascii.eqb c "\").
  - destruct s as [|e s]; [done|]. cbn in Hn.
    assert (match unescape e with Some c => push c (read_string s) | None => None end = Some (x, r) →
      slen r < slen (String c (String e s))) as He.
    { destruct (unescape e); [|done]. intros Hs%Hp; cbn; lia. }
    destruct (Ascii.eqb_spec e "u") as [->|Hu].
    + destruct s as [|a [|b [|y [|z s]]]]; try done. cbn in Hn.
      destruct (forallb _ _); [|done]. destruct (_ <? _)%Z; [|done]. intros Hs%Hp; cbn; lia.
    + intros E. apply He. rewrite <-E. clear -Hu. by destruct e as [[] [] [] [] [] [] [] []].
  - destruct (_ <? _)%N; [done|]. intros Hs%Hp; cbn; lia.
Qed.

Lemma read_string_shorter s x r : read_string s = Some (x, r) → slen r < slen s.
Proof. by apply (read_string_le (slen s)). Qed.

Lemma eat_shorter c s t : eat c (skip_ws s) = Some t → slen t < slen s.
Proof. intros E%eat_Some. pose proof (skip_ws_le s) as Hs. rewrite E in Hs. cbn in Hs. lia. Qed.

Lemma read_digits_shorter s z r : read_digits s = Some (z, r) → slen r < slen s.
Proof.
  unfold read_digits. set (digits := if starts_with "0" s then _ else _).
  destruct (String.eqb_spec digits "") as [|Hd]; [done|]. cbn [orb]. destruct (negb _); [done|]. intros [= _ <-].
  assert (s ≠ "" ∧ digits ≠ "") as [Hs _].
  { split; [|done]. intros ->. done. }
  rewrite slen_sdrop. destruct s; [done|]. destruct digits; [done|]. cbn. lia.
Qed.

Lemma read_int_shorter s z r : read_int s = Some (z, r) → slen r < slen s.
Proof.
  destruct s as [|c s]; [done|]. destruct (Ascii.eqb_spec c "-") as [->|Hc].
  - cbn [read_int]. destruct (read_digits s) as [[n r']|] eqn:E; [|done]. cbn. intros [= _ <-].
    apply read_digits_shorter in E. lia.
  - intros E. apply (read_digits_shorter _ z). rewrite <-E. clear -Hc. by destruct c as [[] [] [] [] [] [] [] []].
Qed.

(** Take apart the reads of a hypothesis or of both sides of the goal. *)
Ltac read_step :=
  match goal with
  | |- context [match eat ?c ?s with _ => _ end] => destruct (eat c s) eqn:?
  | |- context [@mbind option _ _ _ _ ?o] => destruct o as [?|] eqn:?; cbn [mbind option_bind]; [|done]
  | |- context [match ?p with (_, _) => _ end] => destruct p
  end.
Ltac shorter :=
  repeat match goal with
  | H : eat _ (skip_ws _) = Some _ |- _ => apply eat_shorter in H
  | H : read_string _ = Some _ |- _ => apply read_string_shorter in H
  | H : read_int _ = Some _ |- _ => apply read_int_shorter in H
  | s : string |- _ => lazymatch goal with
      | _ : slen (skip_ws s) ≤ slen s |- _ => fail
      | _ => pose proof (skip_ws_le s) end
  end; cbn in *; lia.

Lemma read_shorter n :
  (∀ s j r, read_value n s = Some (j, r) → slen r < slen s)
  ∧ (∀ s l r, read_items n s = Some (l, r) → slen r < slen s)
  ∧ (∀ s l r, read_members n s = Some (l, r) → slen r < slen s).
Proof.
  induction n as [|n (IHv & IHi & IHm)]; [done|]. split_and!.
  - intros [|c s] j r; [done|]. cbn [read_value].
    destruct (Ascii.eqb _ _). { repeat read_step. intros [= _ <-]. shorter. }
    destruct (Ascii.eqb _ _).
    { repeat read_step; intros [= _ <-]; [shorter|]. match goal with H : read_members _ _ = _ |- _ => apply IHm in H end. shorter. }
    destruct (Ascii.eqb _ _).
    { repeat read_step; intros [= _ <-]; [shorter|]. match goal with H : read_items _ _ = _ |- _ => apply IHi in H end. shorter. }
    assert (∀ k, slen (sdrop (S k) (String c s)) < slen (String c s)) as Hdrop by (intros k; rewrite slen_sdrop; cbn; lia).
    destruct (starts_with _ _); [intros [= _ <-]; apply Hdrop|]. destruct (starts_with _ _); [intros [= _ <-]; apply Hdrop|].
    destruct (starts_with _ _); [intros [= _ <-]; apply Hdrop|]. repeat read_step. intros [= _ <-]. shorter.
  - intros s l r. cbn [read_items]. repeat read_step; intros [= _ <-];
      repeat match goal with H : read_value _ _ = _ |- _ => apply IHv in H | H : read_items _ _ = _ |- _ => apply IHi in H end; shorter.
  - intros s l r. cbn [read_members]. repeat read_step; intros [= _ <-];
      repeat match goal with H : read_value _ _ = _ |- _ => apply IHv in H | H : read_members _ _ = _ |- _ => apply IHm in H end; shorter.
Qed.

(** With more than twice the length of the text, the fuel does not run out. *)
Lemma read_fuel n :
  (∀ m s, 2 * slen s + 1 ≤ n → 2 * slen s + 1 ≤ m → read_value n s = read_value m s)
  ∧ (∀ m s, 2 * slen s + 2 ≤ n → 2 * slen s + 2 ≤ m → read_items n s = read_items m s)
  ∧ (∀ m s, 2 * slen s + 1 ≤ n → 2 * slen s + 1 ≤ m → read_members n s = read_members m s).
Proof.
  induction n as [|n (IHv & IHi & IHm)]; [split_and!; intros; lia|].
  split_and!; intros [|m] s Hn Hm; try lia.
  - destruct s as [|c s]; [done|]. cbn [read_value]. destruct (Ascii.eqb _ _); [done|].
    destruct (Ascii.eqb _ _).
    { read_step; [done|]. destruct (eat "034" _) as [t|] eqn:E; [|done]. cbn [mbind option_bind].
      rewrite (IHm m) by shorter. done. }
    destruct (Ascii.eqb _ _); [|done]. read_step; [done|]. rewrite (IHi m) by shorter. done.
  - cbn [read_items]. rewrite (IHv m) by lia. destruct (read_value m s) as [[x t]|] eqn:Ev; [|done]. cbn [mbind option_bind].
    apply (proj1 (read_shorter m)) in Ev. read_step; [done|]. destruct (eat "," _) as [t'|] eqn:E; [|done]. cbn [mbind option_bind].
    rewrite (IHi m) by shorter. done.
  - cbn [read_members]. destruct (read_string s) as [[k t]|] eqn:Es; [|done]. cbn [mbind option_bind].
    destruct (eat ":" _) as [t1|] eqn:E1; [|done]. cbn [mbind option_bind]. rewrite (IHv m) by shorter.
    destruct (read_value m _) as [[x t2]|] eqn:Ev; [|done]. cbn [mbind option_bind].
    apply (proj1 (read_shorter m)) in Ev. read_step; [done|]. destruct (eat "," _) as [t3|] eqn:E3; [|done]. cbn [mbind option_bind].
    destruct (eat "034" _) as [t4|] eqn:E4; [|done]. cbn [mbind option_bind]. rewrite (IHm m) by shorter. done.
Qed.

Lemma loads_fuel n text :
  2 * slen text + 1 ≤ n →
  loads text = '(j, r) ← read_value n (skip_ws text); if String.eqb (skip_ws r) "" then Some j else None.
Proof. intros Hn. unfold loads. rewrite (proj1 (read_fuel _) n); [done|shorter..]. Qed.

(** ** What is printed is read back *)

Lemma skip_ws_app w s : sforall is_ws w = true → skip_ws (w +:+ s) = skip_ws s.
Proof.
  unfold skip_ws. induction w as [|c w IH]; [done|]. rewrite app_cons. simpl. intros [-> Hw]%andb_prop. by apply IH.
Qed.

Lemma skip_ws_id c s : is_ws c = false → skip_ws (String c s) = String c s.
Proof. intros Hc. unfold skip_ws. simpl. by rewrite Hc. Qed.

Lemma srepeat_ws n : sforall is_ws (srepeat " " n) = true.
Proof. induction n; [done|]. cbn [srepeat]. by rewrite sforall_app. Qed.

Lemma break_ws st lvl : sforall is_ws (break st lvl) = true.
Proof. unfold break. destruct (st_indent st); [|done]. by rewrite sforall_app, srepeat_ws. Qed.

Lemma read_escape_char c t : read_string (escape_char c +:+ t) = push c (read_string t).
Proof. destruct c as [[] [] [] [] [] [] [] []]; reflexivity. Qed.

Lemma read_escaped s r : read_string (escape s +:+ dquote +:+ r) = Some (s, r).
Proof. induction s as [|c s IH]; [done|]. cbn [escape]. by rewrite sapp_assoc, read_escape_char, IH. Qed.

Definition num_char (c : ascii) : bool := is_09 c || float_char c.

Lemma num_go_pretty x s : num_go 10 0 (pretty_N_go x s) = num_go 10 (Z.of_N x) s.
Proof.
  revert s. induction (N.lt_wf_0 x) as [x _ IH]. intros s.
  destruct (decide (x = 0%N)) as [->|Hx]; [by rewrite pretty_N_go_0|].
  rewrite pretty_N_go_step by lia. rewrite IH by (apply N.div_lt; lia). cbn [num_go].
  f_equal. rewrite N2Z.inj_div.
  assert (digit_val (pretty_N_char (x `mod` 10)) = Z.of_N (x `mod` 10)) as ->.
  { assert (x `mod` 10 < 10)%N as Hlt by (apply N.mod_lt; lia). generalize dependent (x `mod` 10)%N. clear.
    intros d Hd. assert (d ∈ (N.of_nat <$> seq 0 10)) as Hin.
    { apply list_elem_of_fmap. exists (N.to_nat d). split; [by rewrite N2Nat.id|]. apply elem_of_seq. lia. }
    assert (forallb (λ d, digit_val (pretty_N_char d) =? Z.of_N d)%Z (N.of_nat <$> seq 0 10) = true) as Hall
      by (vm_compute; reflexivity).
    rewrite forallb_true in Hall. by apply Z.eqb_eq, Hall. }
  rewrite N2Z.inj_mod. change (Z.of_N 10) with 10%Z. pose proof (Z.div_mod (Z.of_N x) 10). lia.
Qed.

(** A positive number is written with digits, the first of them not zero. *)
Lemma pretty_pos p :
  let s := pretty_N_go (N.pos p) "" in sforall is_09 s = true ∧ num_value 10 s = Z.pos p ∧ starts_with "0" s = false ∧ s ≠ "".
Proof.
  cbv zeta. assert (num_value 10 (pretty_N_go (N.pos p) "") = Z.pos p) as Hn by apply num_go_pretty.
  assert (pretty_N_go (N.pos p) "" ≠ "") as Hne by (intros E; by rewrite E in Hn).
  split_and!; [by apply pretty_N_go_digits|done| |done]. clear Hn.
  assert (∀ n s, (0 < n)%N → starts_with "0" (pretty_N_go n s) = false) as Hgo; [|by apply Hgo].
  intros n. induction (N.lt_wf_0 n) as [n _ IH]. intros s Hpos. rewrite pretty_N_go_step by done.
  destruct (decide (n < 10)%N) as [Hs|Hs].
  - rewrite N.div_small, N.mod_small, pretty_N_go_0 by done.
    assert (n ∈ [1;2;3;4;5;6;7;8;9]%N) as Hin by (repeat (rewrite elem_of_cons); lia).
    repeat (apply elem_of_cons in Hin as [->|Hin]; [reflexivity|]). by apply elem_of_nil in Hin.
  - apply IH; [apply N.div_lt; lia|]. apply N.div_str_pos. lia.
Qed.

Lemma read_digits_app s r :
  sforall is_09 s = true → s ≠ "" → s = "0" ∨ starts_with "0" s = false → head_not num_char r = true →
  read_digits (s +:+ r) = Some (num_value 10 s, r).
Proof.
  intros Hs Hne H0 Hr. unfold read_digits.
  assert (head_not is_09 r = true ∧ head_not float_char r = true) as [Hr1 Hr2].
  { destruct r as [|c r]; [done|]. unfold head_not, num_char in *. cbn [shead] in *. by destruct (is_09 c), (float_char c). }
  assert ((if starts_with "0" (s +:+ r) then "0" else take_while is_09 (s +:+ r)) = s) as ->.
  { destruct H0 as [->|H0]; [done|]. destruct s as [|c s]; [done|]. rewrite app_cons.
    assert (starts_with "0" (String c (s +:+ r)) = false) as -> by exact H0. by apply (take_while_app is_09 (String c s)). }
  rewrite (proj2 (String.eqb_neq _ _)) by done. by rewrite sdrop_app_length, Hr2.
Qed.

Lemma read_str_int z r : head_not num_char r = true → read_int (str_int z +:+ r) = Some (z, r).
Proof.
  intros Hr. unfold str_int, pretty, pretty_Z. destruct z as [|p|p].
  - apply (read_digits_app "0"); [done..|by left|done].
  - destruct (pretty_pos p) as (Hs & Hv & H0 & Hne). unfold pretty, pretty_positive, pretty, pretty_N.
    rewrite decide_False by done. set (s := pretty_N_go _ _) in *.
    transitivity (read_digits (s +:+ r)); [|rewrite read_digits_app by auto; by rewrite Hv].
    clear -Hs Hne. destruct s as [|c s]; [done|]. cbn in Hs. apply andb_prop in Hs as [Hc _].
    by destruct c as [[] [] [] [] [] [] [] []].
  - destruct (pretty_pos p) as (Hs & Hv & H0 & Hne). unfold pretty, pretty_positive, pretty, pretty_N.
    rewrite decide_False by done. set (s := pretty_N_go _ _) in *. rewrite !app_cons. cbn [read_int].
    rewrite app_nil_s, read_digits_app by auto. by rewrite Hv.
Qed.

(** A separator with white space behind it, a line break at most. *)
Definition style_ok (st : style) : Prop :=
  ∃ w w', st_item st = "," +:+ w ∧ sforall is_ws w = true ∧ st_key st = ":" +:+ w' ∧ sforall is_ws w' = true.

Lemma compact_ok : style_ok compact.
Proof. by exists "", "". Qed.
Lemma spaced_ok : style_ok spaced.
Proof. by exists " ", " ". Qed.
Lemma indented_ok : style_ok indented.
Proof. by exists "", " ". Qed.

(** A dict holds a key once. *)
Fixpoint dict_ok (j : json) : bool :=
  match j with
  | JList l => forallb dict_ok l
  | JObj fields => bool_decide (NoDup fields.*1) && forallb (λ kv, dict_ok kv.2) fields
  | _ => true
  end.

Lemma dict_set_new k v d : k ∉ d.*1 → dict_set k v d = d ++ [(k, v)].
Proof.
  induction d as [|[k' v'] d IH]; [done|]. cbn. intros [Hk Hd]%not_elem_of_cons.
  rewrite (proj2 (String.eqb_neq _ _)) by done. by rewrite IH.
Qed.

Lemma dict_of_NoDup l : NoDup l.*1 → dict_of l = l.
Proof.
  unfold dict_of. change l with ([] ++ l) at 1 3. generalize (@nil (string * json)) as d.
  induction l as [|[k v] l IH]; intros d; [by rewrite app_nil_r|]. rewrite fmap_app. cbn. intros Hn.
  rewrite dict_set_new.
  - rewrite IH, <-app_assoc; [done|]. by rewrite fmap_app, fmap_app, <-app_assoc.
  - apply NoDup_app in Hn as (_ & Hn & _). intros Hk. apply (Hn k Hk). left.
Qed.

(** The fuel a document takes. *)
Fixpoint need (j : json) : nat :=
  match j with
  | JList l => S (list_sum (List.map (λ x, S (need x)) l))
  | JObj fields => S (list_sum (List.map (λ kv, S (need kv.2)) fields))
  | _ => 1
  end.

(** The elements after the first, up to [fin]. *)
Fixpoint rest_of {A} (sep : string) (f : A → string) (fin : string) (l : list A) : string :=
  match l with [] => fin | x :: l => sep +:+ f x +:+ rest_of sep f fin l end.

Lemma join_rest {A} sep (f : A → string) fin x l :
  join sep (List.map f (x :: l)) +:+ fin = f x +:+ rest_of sep f fin l.
Proof.
  revert x. induction l as [|y l IH]; intros x; [done|]. cbn [List.map] in *. rewrite join_cons by done.
  cbn [rest_of]. by rewrite !sapp_assoc, IH.
Qed.

Lemma bracket_cons {A} st lvl op cl (f : A → string) x l r :
  bracket st lvl op cl (List.map f (x :: l)) +:+ r
  = op +:+ break st (S lvl) +:+ f x +:+ rest_of (st_item st +:+ break st (S lvl)) f (break st lvl +:+ cl +:+ r) l.
Proof.
  cbn [List.map]. unfold bracket. rewrite !sapp_assoc. f_equal. f_equal.
  rewrite <-join_rest. cbn [List.map]. by rewrite ?sapp_assoc.
Qed.

Section reading.
Context (st : style) (Hst : style_ok st).

Definition reads (j : json) : Prop :=
  ∀ n lvl r, need j ≤ n → dict_ok j = true → head_not num_char r = true →
  read_value n (print st lvl j +:+ r) = Some (j, r).

Lemma head_not_ws w r : sforall is_ws w = true → head_not num_char r = true → head_not num_char (w +:+ r) = true.
Proof.
  intros Hw Hr. destruct w as [|c w]; [done|]. cbn in Hw |- *. apply andb_prop in Hw as [Hc _].
  revert c Hc. char_decide.
Qed.

Lemma item_split lvl : ∃ w, sforall is_ws w = true ∧ st_item st +:+ break st lvl = String "," w.
Proof.
  destruct Hst as (w & w' & -> & Hw & _). exists (w +:+ break st lvl). by rewrite sforall_app, Hw, break_ws.
Qed.

Lemma skip_break lvl c r : is_ws c = false → skip_ws (break st lvl +:+ String c "" +:+ r) = String c r.
Proof. intros Hc. rewrite skip_ws_app by apply break_ws. by rewrite app_cons, app_nil_s, skip_ws_id. Qed.

(** A value begins with neither white space nor a closing bracket. *)
Lemma print_head lvl j r : ∃ c t, print st lvl j +:+ r = String c t ∧ is_ws c = false ∧ Ascii.eqb "]" c = false.
Proof.
  assert (∀ op cl parts, ∃ t, bracket st lvl (String op "") cl parts +:+ r = String op t) as Hb
    by (intros op cl [|p parts]; by eexists).
  destruct j as [|[]|z|s|l|fields]; cbn [print].
  - by do 2 eexists.
  - by do 2 eexists.
  - by do 2 eexists.
  - pose proof (str_int_chars z) as Hz. pose proof (str_int_nonempty z). destruct (str_int z) as [|c t]; [done|].
    cbn in Hz. apply andb_prop in Hz as [Hc _]. exists c, (t +:+ r). split; [done|]. clear -Hc. split; revert c Hc; char_decide.
  - by do 2 eexists.
  - destruct (Hb "["%char "]" (List.map (print st (S lvl)) l)) as [t E]. by exists "["%char, t.
  - match goal with |- context [bracket _ _ _ _ ?p] => destruct (Hb "{"%char "}" p) as [t E] end. by exists "{"%char, t.
Qed.

Lemma skip_print lvl j r : skip_ws (print st lvl j +:+ r) = print st lvl j +:+ r.
Proof. destruct (print_head lvl j r) as (c & t & -> & Hc & _). by apply skip_ws_id. Qed.

Section rest.
Context (w : string) (Hw : sforall is_ws w = true) (lvl' : nat).

Lemma head_not_rest {A} (f : A → string) c r l :
  num_char c = false →
  head_not num_char (rest_of (String "," w) f (break st lvl' +:+ String c "" +:+ r) l) = true.
Proof.
  intros Hc. destruct l as [|x l]; [|done].
  cbn [rest_of]. apply head_not_ws; [apply break_ws|]. unfold head_not. rewrite app_cons. cbn [shead]. by rewrite Hc.
Qed.

Lemma skip_rest {A} (f : A → string) fin x l :
  skip_ws (rest_of (String "," w) f fin (x :: l)) = String "," (w +:+ f x +:+ rest_of (String "," w) f fin l).
Proof. done. Qed.

Lemma read_items_print l x n lvl r :
  Forall reads (x :: l) → list_sum (List.map (λ x, S (need x)) (x :: l)) ≤ n → forallb dict_ok (x :: l) = true →
  read_items n (print st lvl x +:+ rest_of (String "," w) (print st lvl) (break st lvl' +:+ "]" +:+ r) l)
  = Some (x :: l, r).
Proof.
  revert x n. induction l as [|y l IH]; intros x n [Hx Hl]%Forall_cons Hn [Hdx Hdl]%andb_prop; (destruct n as [|n]; [cbn in Hn; lia|]);
    cbn [read_items]; (rewrite Hx; [|cbn in Hn; lia|done|by apply (head_not_rest _ "]")]); cbn [mbind option_bind].
  - cbn [rest_of]. by rewrite skip_break.
  - rewrite skip_rest. cbn [eat]. change (Ascii.eqb "]" ",") with false. change (Ascii.eqb "," ",") with true.
    cbn [mbind option_bind]. rewrite skip_ws_app, skip_print by done.
    by rewrite IH; [|done|cbn in Hn |- *; lia|].
Qed.

Definition member_text (lvl : nat) (kv : string * json) : string := json_string kv.1 +:+ st_key st +:+ print st lvl kv.2.

(** A member after its opening quote. *)
Definition open_member (lvl : nat) (kv : string * json) : string := escape kv.1 +:+ dquote +:+ st_key st +:+ print st lvl kv.2.

Lemma member_text_open lvl kv : member_text lvl kv = String "034" (open_member lvl kv).
Proof. unfold member_text, open_member, json_string. by rewrite !sapp_assoc. Qed.

Lemma read_members_print l x n lvl r :
  Forall (λ kv, reads kv.2) (x :: l) → list_sum (List.map (λ kv : string * json, S (need kv.2)) (x :: l)) ≤ n →
  forallb (λ kv, dict_ok kv.2) (x :: l) = true →
  read_members n (open_member lvl x +:+ rest_of (String "," w) (member_text lvl) (break st lvl' +:+ "}" +:+ r) l)
  = Some (x :: l, r).
Proof.
  revert x n. destruct Hst as (w1 & w2 & _ & _ & Hkey & Hw2).
  induction l as [|y l IH]; intros [k x] n [Hx Hl]%Forall_cons Hn [Hdx Hdl]%andb_prop; (destruct n as [|n]; [cbn in Hn; lia|]);
    cbn [read_members fst snd] in *; unfold open_member at 1; cbn [fst snd]; rewrite !sapp_assoc, read_escaped;
    cbn [mbind option_bind]; rewrite Hkey at 1; rewrite sapp_assoc, app_cons, app_nil_s, skip_ws_id by done;
    cbn [eat]; change (Ascii.eqb ":" ":") with true; cbn [mbind option_bind];
    rewrite skip_ws_app, skip_print by done; (rewrite Hx; [|cbn in Hn; lia|done|by apply (head_not_rest _ "}")]);
    cbn [mbind option_bind].
  - cbn [rest_of]. by rewrite skip_break.
  - rewrite skip_rest. cbn [eat]. change (Ascii.eqb "}" ",") with false. change (Ascii.eqb "," ",") with true.
    cbn [mbind option_bind]. rewrite skip_ws_app, member_text_open, app_cons, skip_ws_id by done. cbn [eat].
    change (Ascii.eqb "034" "034") with true. cbn [mbind option_bind].
    by rewrite IH; [|done|cbn in Hn |- *; lia|].
Qed.
End rest.

Lemma reads_all j : reads j.
Proof.
  induction j as [|b|z|s|l Hl|fields Hf] using json_nested_ind; intros [|n] lvl r Hn Hd Hr; try (cbn in Hn; lia).
  - done.
  - by destruct b.
  - pose proof (read_str_int z r Hr) as Hz. cbn [print]. pose proof (str_int_chars z) as Hc. pose proof (str_int_nonempty z).
    destruct (str_int z) as [|c t]; [done|]. cbn in Hc. apply andb_prop in Hc as [Hc _].
    rewrite app_cons in *. cbn [read_value].
    assert (∀ d, int_char d = false → Ascii.eqb c d = false ∧ Ascii.eqb d c = false) as Hne.
    { intros d Hd'. split; apply Ascii.eqb_neq; intros ->; congruence. }
    destruct (Hne "034"%char) as [-> _]; [done|]. destruct (Hne "{"%char) as [-> _]; [done|].
    destruct (Hne "["%char) as [-> _]; [done|]. 
    assert (∀ d p u, int_char d = false → starts_with (String d p) (String c u) = false) as Hw
      by (intros d p u Hd'; change (Ascii.eqb d c && starts_with p u = false); by rewrite (proj2 (Hne d Hd'))).
    rewrite !Hw by done. by rewrite Hz.
  - cbn [print]. unfold json_string. rewrite !sapp_assoc. change (dquote +:+ ?s) with (String "034" s). cbn [read_value].
    change (Ascii.eqb "034" "034") with true. cbv iota. by rewrite read_escaped.
  - cbn [print]. destruct l as [|x l]; [done|]. rewrite bracket_cons. destruct (item_split (S lvl)) as (w & Hw & ->).
    cbn [need] in Hn. rewrite app_cons, app_nil_s. cbn [read_value].
    change (Ascii.eqb "[" "034") with false. change (Ascii.eqb "[" "{") with false. change (Ascii.eqb "[" "[") with true.
    cbv iota. rewrite skip_ws_app by apply break_ws. rewrite skip_print.
    assert (eat "]" (print st (S lvl) x +:+ rest_of (String "," w) (print st (S lvl)) (break st lvl +:+ "]" +:+ r) l) = None) as ->.
    { match goal with |- eat _ (_ +:+ ?t) = _ => destruct (print_head (S lvl) x t) as (c & t' & -> & _ & Hc) end.
      cbn [eat]. by rewrite Hc. }
    rewrite read_items_print; [done|done|done|lia|done].
  - cbn [print]. destruct fields as [|x l]; [done|]. cbn [dict_ok] in Hd. apply andb_prop in Hd as [Hnd Hd].
    fold (member_text (S lvl)). rewrite bracket_cons. destruct (item_split (S lvl)) as (w & Hw & ->).
    cbn [need] in Hn. rewrite app_cons, app_nil_s. cbn [read_value].
    change (Ascii.eqb "{" "034") with false. change (Ascii.eqb "{" "{") with true.
    cbv iota. rewrite skip_ws_app by apply break_ws. rewrite member_text_open, app_cons, skip_ws_id by done.
    cbn [eat]. change (Ascii.eqb "}" "034") with false. change (Ascii.eqb "034" "034") with true. cbn [mbind option_bind].
    rewrite read_members_print; [|done|done|lia|done]. cbn [mbind option_bind].
    by rewrite dict_of_NoDup by by apply bool_decide_eq_true in Hnd.
Qed.
End reading.

(** A document whose dicts hold a key once is read back from its text, in each style the
    program prints documents in. *)
Lemma loads_print st lvl j : style_ok st → dict_ok j = true → loads (print st lvl j) = Some j.
Proof.
  intros Hst Hj. rewrite (loads_fuel (2 * slen (print st lvl j) + 1 + need j)) by lia.
  pose proof (skip_print st lvl j "") as Hs. pose proof (reads_all st Hst j (2 * slen (print st lvl j) + 1 + need j) lvl "") as Hr.
  rewrite sapp_nil_r in Hs, Hr. rewrite Hs, Hr by (done || lia). done.
Qed.

(** What is read holds each key of a dict once. *)
Lemma dict_set_keys k v d : NoDup d.*1 → NoDup (dict_set k v d).*1.
Proof.
  induction d as [|[k' v'] d IH]; [intros _; by apply NoDup_singleton|]. cbn. intros [Hk Hd]%NoDup_cons.
  destruct (String.eqb_spec k' k) as [->|Hne]; cbn; (apply NoDup_cons; split; [|by auto]).
  - done.
  - assert (∀ x, x ∈ (dict_set k v d).*1 → x = k ∨ x ∈ d.*1) as Hin.
    { clear. induction d as [|[k2 v2] d IH]; cbn; intros x; [intros ->%list_elem_of_singleton; auto|].
      destruct (String.eqb k2 k); [auto|]. cbn. intros [->|Hx]%elem_of_cons; [right; left|].
      destruct (IH x Hx); [auto|]. right. by right. }
    intros [->|Hx]%Hin; done.
Qed.

Lemma dict_set_values k v d :
  dict_ok v = true → forallb (λ kv, dict_ok kv.2) d = true → forallb (λ kv, dict_ok kv.2) (dict_set k v d) = true.
Proof.
  intros Hv. induction d as [|[k' v'] d IH]; cbn; [by rewrite Hv|]. intros [Hv' Hd]%andb_prop.
  destruct (String.eqb k' k); cbn; [by rewrite Hv|]. by rewrite Hv', IH.
Qed.

Lemma dict_of_ok l : forallb (λ kv, dict_ok kv.2) l = true → dict_ok (JObj (dict_of l)) = true.
Proof.
  intros Hl. unfold dict_of. assert (dict_ok (JObj []) = true) as Hd by done. revert Hd. generalize (@nil (string * json)) as d.
  induction l as [|[k v] l IH]; [done|]. cbn in Hl. apply andb_prop in Hl as [Hv Hl]. cbn [fold_left fst snd].
  intros d. cbn. intros [Hn%bool_decide_eq_true Hd]%andb_prop. apply IH; [done|]. cbn.
  rewrite (bool_decide_eq_true_2 _ (dict_set_keys k v d Hn)). by apply dict_set_values.
Qed.

Lemma read_dict_ok n :
  (∀ s j r, read_value n s = Some (j, r) → dict_ok j = true)
  ∧ (∀ s l r, read_items n s = Some (l, r) → forallb dict_ok l = true)
  ∧ (∀ s l r, read_members n s = Some (l, r) → forallb (λ kv, dict_ok kv.2) l = true).
Proof.
  induction n as [|n (IHv & IHi & IHm)]; [done|]. split_and!.
  - intros [|c s] j r; [done|]. cbn [read_value].
    destruct (Ascii.eqb _ _). { repeat read_step. by intros [= <- _]. }
    destruct (Ascii.eqb _ _).
    { repeat read_step; intros [= <- _]; [done|]. match goal with H : read_members _ _ = _ |- _ => apply IHm in H end. by apply dict_of_ok. }
    destruct (Ascii.eqb _ _).
    { repeat read_step; intros [= <- _]; [done|]. match goal with H : read_items _ _ = _ |- _ => by apply IHi in H end. }
    do 3 (destruct (starts_with _ _); [by intros [= <- _]|]). repeat read_step. by intros [= <- _].
  - intros s l r. cbn [read_items]. repeat read_step; intros [= <- _];
      repeat match goal with H : read_value _ _ = _ |- _ => apply IHv in H | H : read_items _ _ = _ |- _ => apply IHi in H end; cbn; by bool_to_prop.
  - intros s l r. cbn [read_members]. repeat read_step; intros [= <- _];
      repeat match goal with H : read_value _ _ = _ |- _ => apply IHv in H | H : read_members _ _ = _ |- _ => apply IHm in H end; cbn; by bool_to_prop.
Qed.

Lemma loads_dict_ok text j : loads text = Some j → dict_ok j = true.
Proof.
  unfold loads. destruct (read_value _ _) as [[j' r]|] eqn:E; [|done]. cbn. destruct (String.eqb _ _); [|done].
  intros [= <-]. by apply (proj1 (read_dict_ok _)) in E.
Qed.

(** [int(str(z))] *)
Lemma int_of_str_int z : (0 ≤ z)%Z → int_of_string (str_int z) = Some z.
Proof.
  intros Hz. pose proof (str_int_digits z Hz) as Hd. unfold int_of_string.
  assert (strip (str_int z) = str_int z) as ->.
  { unfold strip. apply (strip_none is_09); [|done]. intros c Hc. apply negb_true_iff.
    revert c Hc. by apply (char_implies _ (λ c, negb (is_space c))). }
  assert (str_int z ≠ "" ∧ num_value 10 (str_int z) = z) as [Hne Hnum].
  { unfold str_int, pretty, pretty_Z, num_value. destruct z as [|p|p]; [done| |lia].
    unfold pretty, pretty_positive, pretty, pretty_N. rewrite decide_False by done.
    rewrite num_go_pretty. split; [|done]. intros E. pose proof (num_go_pretty (N.pos p) "") as Hn.
    by rewrite E in Hn. }
  assert (digits_value (str_int z) = Some z) as Hv.
  { unfold digits_value. rewrite split_on_none.
    - cbn [forallb join]. rewrite Hd, andb_true_r, (proj2 (String.eqb_neq _ _)) by done. cbn. by rewrite Hnum.
    - eapply sforall_not_in; [|exact Hd]. done. }
  destruct (str_int z) as [|c t] eqn:E; [done|]. cbn [sforall] in Hd. apply andb_prop in Hd as [Hc _].
  destruct (Ascii.eqb_spec c "-") as [->|H1]; [done|]. destruct (Ascii.eqb_spec c "+") as [->|H2]; [done|].
  rewrite <-Hv. destruct c as [[] [] [] [] [] [] [] []]; done.
Qed.
