(* ===== verification/PyRegex.v ===== *)
(** * Fixed regular expressions

    The fragment of Python's [re] the source's own patterns use, as data, with
    the meaning of [re.match] as a relation between the input and what is left
    of it.  The executable recognisers of the other files are proved against
    it.  [$] matches at the end and also before a final newline. *)

From S2P Require Import Prelude PyStr StrLemmas.

Inductive re : Type :=
| RChr (p : ascii → bool)            (* [...] or a literal or . *)
| RCat (r1 r2 : re)
| ROpt (r : re)                      (* r? *)
| RRep (lo hi : nat) (r : re)        (* r{lo,hi} *)
| RPlus (r : re)                     (* r+ *)
| RLook (r : re)                     (* (?=r) *)
| REnd.                              (* $ *)

Definition RLit (c : ascii) : re := RChr (Ascii.eqb c).
(** [.]: any character but a newline *)
Definition RDot : re := RChr (λ c, negb (code c =? 10)%N).

Fixpoint rmatch (r : re) (s s' : string) : Prop :=
  match r with
  | RChr p => ∃ c, s = String c s' ∧ p c = true
  | RCat r1 r2 => ∃ m, rmatch r1 s m ∧ rmatch r2 m s'
  | ROpt r => s = s' ∨ rmatch r s s'
  | RRep lo hi r => ∃ k, lo ≤ k ≤ hi ∧ nsteps (rmatch r) k s s'
  | RPlus r => ∃ k, 1 ≤ k ∧ nsteps (rmatch r) k s s'
  | RLook r => s = s' ∧ ∃ t, rmatch r s t
  | REnd => s = s' ∧ (s = "" ∨ s = nl)
  end.

(** [re.match(r, s) is not None] *)
Definition re_match (r : re) (s : string) : Prop := ∃ s', rmatch r s s'.

(** ** Host name labels

    [edge(?:mid{0,61}edge)?] *)
Definition label_re (edge mid : ascii → bool) : re :=
  RCat (RChr edge) (ROpt (RCat (RRep 0 61 (RChr mid)) (RChr edge))).

(** [(label\.)+label] *)
Definition labels_re (edge mid : ascii → bool) : re :=
  RCat (RPlus (RCat (label_re edge mid) (RLit "."))) (label_re edge mid).

Definition label_ok (edge mid : ascii → bool) (w : string) : bool :=
  match shead w, slast w with
  | Some a, Some b => edge a && edge b && sforall mid w && (slen w <=? 63)
  | _, _ => false
  end.

Definition labels_ok (edge mid : ascii → bool) (s : string) : bool :=
  let ws := split_on "." s in
  (2 <=? length ws) && forallb (label_ok edge mid) ws.

(** Drop one trailing [c] if there is one. *)
Definition chop (c : string) (s : string) : string :=
  if ends_with c s then sdrop_end 1 s else s.

(** ** Lemmas *)

Lemma nsteps_chr p k s s' :
  nsteps (rmatch (RChr p)) k s s' ↔ ∃ w, s = w +:+ s' ∧ slen w = k ∧ sforall p w = true.
Proof.
  revert s. induction k as [|k IH]; intros s.
  - split.
    + intros H. inversion H; subst. by exists "".
    + intros (w & -> & Hw & _). destruct w; [|done]. constructor.
  - split.
    + intros H. inversion H as [|? ? y ? Hs Hr]; subst. destruct Hs as (c & -> & Hc).
      apply IH in Hr as (w & -> & <- & Hw). exists (String c w).
      rewrite app_cons. simpl. by rewrite Hc.
    + intros ([|c w] & -> & Hl & Hw); [done|]. simpl in *. simplify_eq.
      apply andb_true_iff in Hw as [Hc Hw].
      econstructor; [exists c; eauto|]. apply IH. eauto.
Qed.

Section labels.
Context (edge mid : ascii → bool) (Hem : ∀ c, edge c = true → mid c = true).

Lemma label_re_spec s s' :
  rmatch (label_re edge mid) s s' ↔ ∃ w, s = w +:+ s' ∧ label_ok edge mid w = true.
Proof using Hem.
  cbn [label_re rmatch]. split.
  - intros (m & (a & -> & Ha) & [->|(m' & (k & Hk & Hr) & (b & -> & Hb))]).
    + exists (String a ""). split; [done|]. unfold label_ok. simpl.
      by rewrite Ha, Hem.
    + apply nsteps_chr in Hr as (w & -> & <- & Hw).
      exists (String a (w +:+ String b "")). rewrite app_cons, sapp_assoc. split; [done|].
      unfold label_ok. simpl shead. rewrite <-app_cons, slast_snoc.
      rewrite sforall_app, slen_app. simpl. rewrite Ha, Hb, (Hem a), (Hem b), Hw by done.
      simpl. apply Nat.leb_le. lia.
  - intros (w & -> & Hw). unfold label_ok in Hw.
    destruct w as [|a w]; [done|]. simpl shead in Hw.
    destruct (slast (String a w)) as [b|] eqn:Hl; [|done].
    bool_to_prop. exists (w +:+ s'). split; [eauto|].
    destruct w as [|c w]; [by left|]. right.
    change (slast (String c w) = Some b) in Hl. apply slast_split in Hl as (v & Hv).
    rewrite Hv in *. exists (String b s'). split.
    + exists (slen v). rewrite <-app_cons, sforall_app in *.
      match goal with H : (_ <=? _) = true |- _ => apply Nat.leb_le in H; rename H into Hlen end.
      simpl in *. rewrite slen_app in Hlen. simpl in Hlen. bool_to_prop.
      split; [lia|]. apply nsteps_chr. exists v. rewrite sapp_assoc.
      split; [done|]. split; [done|]. by destruct (sforall mid v), (mid a).
    + eauto.
Qed.

Definition dotted (ws : list string) : string :=
  foldr (λ w acc, w +:+ "." +:+ acc) "" ws.

Lemma plus_re_spec k s s' :
  nsteps (rmatch (RCat (label_re edge mid) (RLit "."))) k s s' ↔
  ∃ ws, length ws = k ∧ s = dotted ws +:+ s' ∧ forallb (label_ok edge mid) ws = true.
Proof using Hem.
  revert s. induction k as [|k IH]; intros s.
  - split.
    + intros H. inversion H; subst. by exists [].
    + intros ([|] & ? & -> & _); [constructor|done].
  - split.
    + intros H. inversion H as [|? ? y ? Hs Hr]; subst.
      destruct Hs as (m & Hl & (c & -> & Hc)).
      apply label_re_spec in Hl as (w & -> & Hw). apply Ascii.eqb_eq in Hc as <-.
      apply IH in Hr as (ws & <- & -> & Hws).
      exists (w :: ws). split; [done|]. split; [|by simpl; rewrite Hw].
      simpl. by rewrite !sapp_assoc, app_cons.
    + intros ([|w ws] & Hk & -> & Hws); [done|]. simpl in *. simplify_eq.
      apply andb_true_iff in Hws as [Hw Hws].
      rewrite !sapp_assoc. econstructor; [|apply IH; eauto].
      exists ("." +:+ dotted ws +:+ s'). split; [apply label_re_spec; eauto|].
      exists "."%char. done.
Qed.

Lemma join_dotted ws w : join "." (ws ++ [w]) = dotted ws +:+ w.
Proof.
  induction ws as [|v ws IH]; [done|].
  change (join "." (v :: (ws ++ [w])) = (v +:+ "." +:+ dotted ws) +:+ w).
  rewrite join_cons by (by destruct ws). by rewrite IH, !sapp_assoc.
Qed.

Lemma label_ok_no c w : mid c = false → label_ok edge mid w = true → char_in c w = false.
Proof.
  unfold label_ok. intros Hc H. repeat case_match; try done. bool_to_prop.
  by eapply sforall_not_in.
Qed.

Lemma labels_re_spec s s' :
  mid "." = false →
  rmatch (labels_re edge mid) s s' ↔ ∃ d, s = d +:+ s' ∧ labels_ok edge mid d = true.
Proof using Hem.
  intros Hdot. unfold labels_ok. split.
  - intros (m & (k & Hk & Hp) & Hl).
    apply plus_re_spec in Hp as (ws & <- & -> & Hws).
    apply label_re_spec in Hl as (w & -> & Hw).
    exists (join "." (ws ++ [w])). rewrite join_dotted, sapp_assoc. split; [done|].
    rewrite <-join_dotted, split_on_join; [|by destruct ws|].
    + apply andb_true_iff. split.
      * apply Nat.leb_le. rewrite length_app. simpl. lia.
      * rewrite forallb_app. simpl. by rewrite Hws, Hw.
    + intros v Hv. eapply label_ok_no; [done|].
      apply elem_of_app in Hv as [Hv| ->%list_elem_of_singleton]; [|done].
      by eapply forallb_true.
  - intros (d & -> & Hd). apply andb_true_iff in Hd as [Hlen Hok].
    apply Nat.leb_le in Hlen. rewrite <-(join_split_on "." d).
    destruct (exists_last (l := split_on "." d)) as (vs & v & E); [apply split_on_not_nil|].
    rewrite E in *. clear E.
    rewrite join_dotted, sapp_assoc. rewrite forallb_app in Hok. simpl in Hok.
    rewrite andb_true_r in Hok. apply andb_true_iff in Hok as [Hvs Hv].
    exists (v +:+ s'). split; [|apply label_re_spec; eauto].
    rewrite length_app in Hlen. simpl in Hlen.
    exists (length vs). split; [lia|]. apply plus_re_spec. eauto.
Qed.
End labels.
