(* ===== verification/DomainName.v ===== *)
(** * Domain names of the filtering pipeline

    [normalize_domain] of [app/alderpointdns_compiler.py], which every blocklist
    line, custom rule and evaluated name goes through, with its pattern
    [DOMAIN_RE] and the IP literal guards.  The executable test
    [domain_re_match] is proved to be the pattern. *)

From S2P Require Import Prelude PyStr StrLemmas IpAddr PyRegex.

(** What the source takes from the interpreter and that depends on tables or on
    user-supplied patterns: the IDNA codec on non-ASCII text, the compilation of
    an arbitrary pattern ([None] when [re.compile] accepts it) and
    case-insensitive search ([None] when [re] raises). *)
Class Platform := {
  idna_to_ascii : string → option string;
  re_compile_error : string → option string;
  re_search_icase : string → string → option bool;
}.

(** A platform without non-ASCII labels, whose patterns are literal texts. *)
Definition sample_platform : Platform := {|
  idna_to_ascii := λ _, None;
  re_compile_error := λ _, None;
  re_search_icase := λ pattern s, Some (contains (lower pattern) (lower s));
|}.

(** [[a-z0-9_]] *)
Definition dom_edge (c : ascii) : bool := is_lower_az c || is_09 c || Ascii.eqb "_" c.
(** [[a-z0-9_-]] *)
Definition dom_mid (c : ascii) : bool := dom_edge c || Ascii.eqb "-" c.

(** app/alderpointdns_compiler.py:54-54 DOMAIN_RE *)
Definition DOMAIN_RE : re :=
  RCat (RLook (RCat (RRep 1 253 RDot) (RCat (ROpt (RLit ".")) REnd)))
       (RCat (labels_re dom_edge dom_mid) (RCat (ROpt (RLit ".")) REnd)).

(** The recogniser of [DOMAIN_RE]; see [domain_re_match_spec]. *)
Definition domain_re_match (s : string) : bool :=
  let s0 := chop nl s in
  let s1 := chop "." s0 in
  labels_ok dom_edge dom_mid s1
  && ((slen s0 <=? 253) || ((slen s0 <=? 254) && ends_with "." s0)).

(** app/alderpointdns_compiler.py:595-599 _could_be_ip_literal *)
Definition could_be_ip_literal (value : string) : bool :=
  match shead value with
  | None => false
  | Some first => is_digit first || Ascii.eqb ":" first || char_in ":" value
  end.

(** app/alderpointdns_compiler.py:585-592 _is_hosts_line *)
Definition is_hosts_line (first_token : string) : bool :=
  could_be_ip_literal first_token && bool_decide (is_Some (ip_address first_token)).

(** app/alderpointdns_compiler.py:602-607 _looks_like_ip_literal *)
Definition looks_like_ip_literal (value : string) : bool :=
  if char_in ":" value then true
  else if negb (char_in "." value) then false
  else forallb isdigit (List.filter (λ part, negb (String.eqb part "")) (split_on "." value)).

Section normalize.
  Context `{Platform}.

(** app/alderpointdns_compiler.py:543-562 normalize_domain *)
Definition normalize_domain (raw : string) : option string :=
  let value := lower (strip_char "." (strip raw)) in
  if String.eqb value "" || (253 <? slen value) then None
  else if contains "://" value || char_in "/" value || char_in ":" value || char_in "@" value
  then None
  else
    value ← (if isascii value then Some value else idna_to_ascii value);
    if negb (domain_re_match (value +:+ ".")) then None
    else if looks_like_ip_literal value && bool_decide (is_Some (ip_address value)) then None
    else Some value.
End normalize.

(** ** Specification *)

(** What a stored domain is: at least two labels of [a-z0-9_-], each at most 63
    long and delimited by [a-z0-9_], 253 characters at most, no IP address. *)
Definition valid_domain (d : string) : bool :=
  labels_ok dom_edge dom_mid d && (slen d <=? 253)
  && negb (looks_like_ip_literal d && bool_decide (is_Some (ip_address d))).

(** ** The pattern and its recogniser *)

Lemma dom_edge_mid c : dom_edge c = true → dom_mid c = true.
Proof. unfold dom_mid. by intros ->. Qed.
#[export] Hint Resolve dom_edge_mid : core.

(** A character of a domain name. *)
Definition dom_char (c : ascii) : bool := dom_mid c || Ascii.eqb "." c.

Lemma label_ok_chars edge mid w : label_ok edge mid w = true → sforall mid w = true.
Proof. unfold label_ok. intros. repeat case_match; try done. by bool_to_prop. Qed.

Lemma label_ok_nonempty edge mid w : label_ok edge mid w = true → w ≠ "".
Proof. by destruct w. Qed.

Lemma labels_ok_chars d : labels_ok dom_edge dom_mid d = true → sforall dom_char d = true.
Proof.
  unfold labels_ok. intros [_ Hd]%andb_true_iff. rewrite <-(join_split_on "." d).
  apply sforall_join; [done|]. intros w Hw. eapply (sforall_impl dom_mid).
  - intros c Hc. unfold dom_char. by rewrite Hc.
  - eapply label_ok_chars. by eapply forallb_true.
Qed.

(** A domain neither starts nor ends with a character outside [dom_edge]. *)
Lemma labels_ok_last d c :
  labels_ok dom_edge dom_mid d = true → slast d = Some c → dom_edge c = true.
Proof.
  intros [_ Hd]%andb_true_iff Hl.
  destruct (exists_last (l := split_on "." d)) as (vs & v & E); [apply split_on_not_nil|].
  assert (Hv : label_ok dom_edge dom_mid v = true).
  { rewrite E, forallb_app in Hd. simpl in Hd. bool_to_prop. done. }
  rewrite <-(join_split_on "." d), E, join_dotted in Hl.
  unfold label_ok in Hv. destruct (shead v), (slast v) as [b|] eqn:Hb; try done.
  apply slast_split in Hb as (u & ->). rewrite <-sapp_assoc, slast_snoc in Hl.
  simplify_eq. by bool_to_prop.
Qed.

Lemma ends_with_one c s : ends_with (String c "") s = true ↔ slast s = Some c.
Proof.
  rewrite ends_with_spec. split.
  - intros (t & ->). apply slast_snoc.
  - intros (w & ->)%slast_split. eauto.
Qed.

Lemma sdrop_end_snoc c t : sdrop_end 1 (t +:+ String c "") = t.
Proof. exact (sdrop_end_app t (String c "")). Qed.

Lemma chop_app c t : chop (String c "") (t +:+ String c "") = t.
Proof. unfold chop. by rewrite ends_with_app, sdrop_end_snoc. Qed.

Lemma chop_none c s : slast s ≠ Some c → chop (String c "") s = s.
Proof.
  intros Hs. unfold chop. destruct (ends_with _ s) eqn:E; [|done].
  by apply ends_with_one in E.
Qed.

Lemma labels_ok_no_end d c :
  labels_ok dom_edge dom_mid d = true → dom_edge c = false → slast d ≠ Some c.
Proof. intros Hd Hc Hl. apply (labels_ok_last _ _ Hd) in Hl. congruence. Qed.

Lemma chop_cases c s : s = chop (String c "") s ∨ s = chop (String c "") s +:+ String c "".
Proof.
  unfold chop. destruct (ends_with _ s) eqn:E; [|by left]. right.
  apply ends_with_spec in E as (t & ->). by rewrite sdrop_end_snoc.
Qed.

(** The lookahead: at most 253 characters, plus an optional final dot. *)
Lemma lookahead_spec t e :
  sforall dom_char t = true → e = "" ∨ e = nl → t ≠ "" →
  (∃ s', rmatch (RCat (RRep 1 253 RDot) (RCat (ROpt (RLit ".")) REnd)) (t +:+ e) s')
  ↔ slen t ≤ 253 ∨ (slen t ≤ 254 ∧ ends_with "." t = true).
Proof.
  intros Ht He Hne. cbn [rmatch]. split.
  - intros (s' & m & (k & Hk & Hr) & m' & Hdot & <- & Hend).
    apply nsteps_chr in Hr as (w & Hw & <- & Hwd).
    assert (Hx : ∃ u, t = w +:+ u ∧ m = u +:+ e).
    { clear -Hw Hwd He Ht. revert t Ht Hw.
      induction w as [|a w IH]; intros t Ht Hw; [by exists t|].
      simpl in Hwd. apply andb_true_iff in Hwd as [Ha Hwd].
      destruct t as [|b t].
      - destruct He as [->| ->]; [done|]. rewrite app_nil_s, app_cons in Hw.
        injection Hw as <- _. done.
      - rewrite !app_cons in Hw. simplify_eq. simpl in Ht. bool_to_prop.
        destruct (IH Hwd t) as (u & -> & ->); [done..|]. by exists u. }
    destruct Hx as (u & -> & ->). rewrite slen_app.
    assert (Hu : u = "" ∨ u = ".").
    { rewrite sforall_app in Ht. apply andb_true_iff in Ht as [_ Hu].
      assert (Ho : ∃ o, (o = "" ∨ o = ".") ∧ u +:+ e = o +:+ m').
      { destruct Hdot as [->|(c & -> & Hc)]; [by exists ""; auto|].
        exists ".". apply Ascii.eqb_eq in Hc as <-. auto. }
      destruct Ho as (o & Ho & Heq).
      destruct He as [->| ->], Hend as [->| ->];
        try (apply sapp_inv_tail in Heq as ->; done).
      - rewrite sapp_nil_r in Heq. subst u. rewrite sforall_app in Hu. bool_to_prop. done.
      - rewrite sapp_nil_r in Heq. subst o.
        destruct Ho as [[_ ?]%sapp_eq_nil|Ho]; [done|].
        change "." with ("" +:+ ".") in Ho. destruct u as [|c u]; [done|].
        apply (f_equal slen) in Ho. rewrite slen_app in Ho. simpl in Ho. lia. }
    destruct Hu as [->| ->]; [left; simpl; lia|].
    right. split; [simpl; lia|]. apply ends_with_app.
  - intros Hlen.
    assert (HtD : ∀ v, sforall dom_char v = true → sforall (λ c, negb (code c =? 10)%N) v = true).
    { intros v. apply sforall_impl. char_decide. }
    destruct Hlen as [Hlen|[Hlen Hends]].
    + exists e. exists e. split.
      * exists (slen t). split; [destruct t; simpl in *; [done|lia]|].
        apply nsteps_chr. exists t. auto.
      * exists e. auto.
    + apply ends_with_spec in Hends as (v & ->). rewrite sforall_app in Ht.
      apply andb_true_iff in Ht as [Hv _]. rewrite slen_app in Hlen. simpl in Hlen.
      destruct (decide (v = "")) as [->|Hv0].
      { exists e, e. split; [|eauto]. exists 1. split; [lia|].
        apply nsteps_chr. by exists ".". }
      exists e. exists ("." +:+ e). split.
      * exists (slen v). split; [destruct v; simpl in *; [done|lia]|].
        apply nsteps_chr. exists v. rewrite sapp_assoc. auto.
      * exists e. split; [|auto]. right. exists "."%char. done.
Qed.

Lemma domain_re_match_spec s : domain_re_match s = true ↔ re_match DOMAIN_RE s.
Proof.
  unfold domain_re_match, re_match, DOMAIN_RE. cbn [rmatch]. fold nl. split.
  - intros [Hd Hlen]%andb_true_iff.
    set (s0 := chop nl s) in *. set (d := chop "." s0) in *.
    assert (Hs : ∃ e, (e = "" ∨ e = nl) ∧ s = s0 +:+ e).
    { destruct (chop_cases "010" s) as [E|E]; fold nl in E; fold s0 in E.
      - exists "". rewrite sapp_nil_r. auto.
      - exists nl. auto. }
    destruct Hs as (e & He & Hs).
    assert (H0 : ∃ o, (o = "" ∨ o = ".") ∧ s0 = d +:+ o).
    { destruct (chop_cases "." s0) as [E|E]; fold d in E.
      - exists "". rewrite sapp_nil_r. auto.
      - exists ".". auto. }
    destruct H0 as (o & Ho & H0).
    assert (Hc : sforall dom_char s0 = true).
    { rewrite H0, sforall_app, labels_ok_chars by done. by destruct Ho as [->| ->]. }
    assert (Hne : s0 ≠ "").
    { rewrite H0. intros [-> _]%sapp_eq_nil. done. }
    exists e, s. split.
    + split; [done|]. rewrite Hs. apply lookahead_spec; [done..|].
      apply orb_true_iff in Hlen as [?%Nat.leb_le|[?%Nat.leb_le ?]%andb_true_iff]; auto.
    + exists (o +:+ e). split.
      * apply (labels_re_spec _ _ dom_edge_mid); [done|]. exists d. by rewrite Hs, H0, sapp_assoc.
      * exists e. split; [|auto]. destruct Ho as [->| ->]; [by left|]. right. by exists "."%char.
  - intros (s' & s1 & [<- (s2 & Hlook)] & m & Hl & m' & Hdot & <- & Hend).
    apply (labels_re_spec _ _ dom_edge_mid) in Hl as (d & -> & Hd); [|done].
    assert (Ho : ∃ o, (o = "" ∨ o = ".") ∧ m = o +:+ m').
    { destruct Hdot as [->|(c & -> & Hc)]; [by exists ""; auto|].
      exists ".". apply Ascii.eqb_eq in Hc as <-. auto. }
    destruct Ho as (o & Ho & ->).
    assert (Hlast : slast (d +:+ o) ≠ Some "010"%char).
    { destruct Ho as [->| ->].
      - rewrite sapp_nil_r. by apply labels_ok_no_end.
      - by rewrite slast_snoc. }
    assert (Hs0 : chop nl (d +:+ o +:+ m') = d +:+ o).
    { rewrite <-sapp_assoc. destruct Hend as [->| ->].
      - rewrite sapp_nil_r. by apply chop_none.
      - apply chop_app. }
    rewrite Hs0.
    assert (Hs1 : chop "." (d +:+ o) = d).
    { destruct Ho as [->| ->].
      - rewrite sapp_nil_r. apply chop_none. by apply labels_ok_no_end.
      - apply chop_app. }
    rewrite Hs1, Hd. simpl.
    assert (Hx : slen (d +:+ o) ≤ 253 ∨ slen (d +:+ o) ≤ 254 ∧ ends_with "." (d +:+ o) = true).
    { apply (lookahead_spec _ m'); [|done| |].
      - rewrite sforall_app, labels_ok_chars by done. by destruct Ho as [->| ->].
      - intros [-> _]%sapp_eq_nil. done.
      - exists s2. by rewrite sapp_assoc. }
    apply orb_true_iff. destruct Hx as [?|[? ?]]; [left|right].
    + by apply Nat.leb_le.
    + apply andb_true_iff. split; [by apply Nat.leb_le|done].
Qed.

(** ** [normalize_domain] *)

Lemma domain_re_match_dot v :
  domain_re_match (v +:+ ".") = labels_ok dom_edge dom_mid v && (slen v <=? 253).
Proof.
  unfold domain_re_match. rewrite (chop_none "010") by (by rewrite slast_snoc).
  rewrite chop_app, ends_with_app, slen_app. simpl. f_equal.
  destruct (Nat.leb_spec (slen v + 1) 253), (Nat.leb_spec (slen v + 1) 254),
    (Nat.leb_spec (slen v) 253); simpl; lia || done.
Qed.

Lemma valid_domain_chars d : valid_domain d = true → sforall dom_char d = true.
Proof. unfold valid_domain. intros. bool_to_prop. by apply labels_ok_chars. Qed.

Lemma valid_domain_head d : valid_domain d = true → ∃ c s, d = String c s ∧ dom_edge c = true.
Proof.
  unfold valid_domain, labels_ok. intros H. bool_to_prop.
  rewrite <-(join_split_on "." d).
  destruct (split_on "." d) as [|w [|w' ws]] eqn:E; try done.
  rewrite join_cons by done.
  assert (Hw : label_ok dom_edge dom_mid w = true) by (eapply forallb_true; [done|left]).
  unfold label_ok in Hw. destruct w as [|c w]; [done|]. simpl shead in Hw.
  destruct (slast _); [|done]. bool_to_prop. eexists _, _. by rewrite app_cons.
Qed.

Lemma valid_domain_nonempty d : valid_domain d = true → d ≠ "".
Proof. intros (c & s & -> & _)%valid_domain_head. done. Qed.

Lemma valid_domain_last d c : valid_domain d = true → slast d = Some c → dom_edge c = true.
Proof. unfold valid_domain. intros H. bool_to_prop. by apply labels_ok_last. Qed.

Lemma valid_domain_head_not p d :
  (∀ c, dom_edge c = true → p c = false) → valid_domain d = true → head_not p d = true.
Proof.
  intros Hp (c & s & -> & Hc)%valid_domain_head. unfold head_not. simpl. by rewrite Hp.
Qed.

Lemma valid_domain_last_not p d :
  (∀ c, dom_edge c = true → p c = false) → valid_domain d = true → last_not p d = true.
Proof.
  intros Hp Hd. unfold last_not. destruct (slast d) eqn:E; [|done].
  by rewrite Hp by (by eapply valid_domain_last).
Qed.

(** Stripping white space or dots does not change a valid domain, nor does
    lowering its case. *)
Lemma valid_domain_strip d : valid_domain d = true → strip d = d.
Proof.
  intros Hd. apply strip_id;
    [apply valid_domain_head_not|apply valid_domain_last_not]; try done; char_decide.
Qed.

Lemma valid_domain_strip_dot d : valid_domain d = true → strip_char "." d = d.
Proof.
  intros Hd. apply strip_id;
    [apply valid_domain_head_not|apply valid_domain_last_not]; try done; char_decide.
Qed.

Lemma valid_domain_lower d : valid_domain d = true → lower d = d.
Proof.
  intros Hd. apply smap_id. apply valid_domain_chars in Hd. revert Hd.
  apply sforall_impl. char_decide.
Qed.

Lemma valid_domain_no_char d c :
  dom_char c = false → valid_domain d = true → char_in c d = false.
Proof. intros Hc Hd. eapply sforall_not_in; [done|]. by apply valid_domain_chars. Qed.

Lemma contains_char_in a p s : contains (String a p) s = true → char_in a s = true.
Proof.
  intros H. destruct (char_in a s) eqn:E; [done|].
  by rewrite (contains_false_char a p s E) in H.
Qed.

Section normalize_facts.
Context `{Platform}.

Lemma normalize_domain_sound raw d :
  normalize_domain raw = Some d → valid_domain d = true.
Proof.
  unfold normalize_domain, valid_domain.
  set (value := lower _). cbv zeta.
  destruct (String.eqb value "" || _); [done|].
  destruct (contains _ value || _ || _ || _); [done|].
  destruct (if isascii value then _ else _) as [v|]; [|done]. simpl.
  rewrite domain_re_match_dot.
  destruct (labels_ok _ _ v && _) eqn:E; [|done]. simpl.
  destruct (looks_like_ip_literal v && _) eqn:E'; [done|].
  intros [= <-]. by rewrite E, E'.
Qed.

(** On a stripped, lower-case ASCII value the function keeps exactly the valid
    domains. *)
Lemma normalize_domain_ascii raw :
  let value := lower (strip_char "." (strip raw)) in
  isascii value = true →
  normalize_domain raw = if valid_domain value then Some value else None.
Proof.
  intros value Ha. destruct (valid_domain value) eqn:Hv.
  - unfold normalize_domain. fold value. cbv zeta.
    pose proof (valid_domain_nonempty _ Hv) as Hne.
    rewrite (proj2 (String.eqb_neq value "")) by done.
    unfold valid_domain in Hv. bool_to_prop.
    match goal with H : (_ <=? _) = true |- _ => apply Nat.leb_le in H as Hlen; rename H into Hl end.
    rewrite (proj2 (Nat.ltb_ge _ _)) by done. simpl.
    assert (Hc : ∀ c, dom_char c = false → char_in c value = false).
    { intros c Hc. eapply sforall_not_in; [done|]. by apply labels_ok_chars. }
    rewrite contains_false_char by (by apply Hc). rewrite !Hc by done. simpl.
    rewrite Ha. simpl. rewrite domain_re_match_dot.
    repeat match goal with H : _ = true |- _ => rewrite H
                         | H : _ = false |- _ => rewrite H end.
    done.
  - destruct (normalize_domain raw) as [d|] eqn:E; [|done].
    assert (d = value) as ->.
    { unfold normalize_domain in E. fold value in E. cbv zeta in E. rewrite Ha in E.
      repeat case_match; try done. simpl in E. repeat case_match; by simplify_eq. }
    apply normalize_domain_sound in E. congruence.
Qed.

Lemma valid_domain_ascii d : valid_domain d = true → isascii d = true.
Proof. intros Hd%valid_domain_chars. revert Hd. apply sforall_impl. char_decide. Qed.

Lemma normalize_domain_fixed d : valid_domain d = true → normalize_domain d = Some d.
Proof.
  intros Hd. pose proof (normalize_domain_ascii d) as E. cbv zeta in E.
  rewrite (valid_domain_strip _ Hd), (valid_domain_strip_dot _ Hd),
    (valid_domain_lower _ Hd) in E.
  rewrite E by (by apply valid_domain_ascii). by rewrite Hd.
Qed.

(** Canonicalisation is idempotent: a stored domain is its own normal form. *)
Lemma normalize_domain_stable raw d :
  normalize_domain raw = Some d → normalize_domain d = Some d.
Proof. intros ?%normalize_domain_sound. by apply normalize_domain_fixed. Qed.
End normalize_facts.
