(* ===== verification/RegexGuard.v ===== *)
(** * The safety gate on regular-expression rules

    [app/custom_rules.py] stores a user's regular expression only as valid when
    it passes these scans: the portability check against POSIX extended syntax,
    the nested-quantifier check, and the rewriting of the deployed copy.  The
    scans walk the pattern by index; here they walk the remaining suffix, with
    fuel bounded by its length (see [posix_go_fuel], [nested_go_fuel]). *)

From S2P Require Import Prelude PyStr StrLemmas.

(** ** Definitions *)

(** The body of the class after [[], [[^] and a literal leading bracket: what
    follows the closing bracket. *)
Fixpoint class_body (s : string) : option string :=
  match s with
  | "" => None
  | String c s' =>
      if Ascii.eqb "\" c then match s' with "" => None | String _ s'' => class_body s'' end
      else if Ascii.eqb "]" c then Some s'
      else class_body s'
  end.

Definition drop_char (c : ascii) (s : string) : string :=
  match s with String d s' => if Ascii.eqb c d then s' else s | "" => "" end.

(** app/custom_rules.py:210-223 _class_end *)
Definition class_end (s : string) : option string :=
  class_body (drop_char "]" (drop_char "^" s)).

Definition trailing_backslash_reason := "pattern ends with a trailing backslash".
Definition escape_reason (nxt : ascii) : string :=
  "escape sequence \" +:+ String nxt " is not portable to POSIX extended regex".
Definition unterminated_reason := "unterminated character class".
Definition group_reason :=
  "group constructs starting with (? are not portable to POSIX extended regex".
Definition non_greedy_reason :=
  "non-greedy quantifiers are not portable to POSIX extended regex".
Definition nested_reason :=
  "pattern contains a quantified atom nested inside a quantified group (catastrophic backtracking risk, e.g. (a+)+)".

(** The loop of [posix_ere_incompatibility]: [lastq] is [last_quantifiable]. *)
Fixpoint posix_go (fuel : nat) (lastq : bool) (s : string) : option string :=
  match fuel, s with
  | O, _ | _, "" => None
  | S fuel, String ch rest =>
      if Ascii.eqb "\" ch then
        match rest with
        | "" => Some trailing_backslash_reason
        | String nxt rest' =>
            if is_alnum nxt then Some (escape_reason nxt) else posix_go fuel false rest'
        end
      else if Ascii.eqb "[" ch then
        match class_end rest with
        | None => Some unterminated_reason
        | Some rest' => posix_go fuel false rest'
        end
      else if Ascii.eqb "(" ch && starts_with "?" rest then Some group_reason
      else if Ascii.eqb "?" ch && lastq then Some non_greedy_reason
      else posix_go fuel (char_in ch "*+?}") rest
  end.

(** app/custom_rules.py:226-258 posix_ere_incompatibility *)
Definition posix_ere_incompatibility (pattern : string) : option string :=
  posix_go (slen pattern) false pattern.

(** The suffix after the first [}], as [pattern.find("}", i)] locates it. *)
Fixpoint after_brace (s : string) : option string :=
  match s with
  | "" => None
  | String c s => if Ascii.eqb "}" c then Some s else after_brace s
  end.

Definition is_quantifier_start (c : ascii) : bool := char_in c "*+{".

(** [stack[-1] = True] when an atom precedes *)
Definition mark_top (lastq : bool) (stack : list bool) : list bool :=
  match stack with
  | [] => []
  | top :: stack => (top || lastq) :: stack
  end.

(** The loop of [nested_quantifier_risk]; the top of the stack is the head. *)
Fixpoint nested_go (fuel : nat) (stack : list bool) (lastq : bool) (s : string) : option string :=
  match fuel, s with
  | O, _ | _, "" => None
  | S fuel, String ch rest =>
      if Ascii.eqb "\" ch then
        nested_go fuel stack true (match rest with "" => "" | String _ rest' => rest' end)
      else if Ascii.eqb "[" ch then
        match class_end rest with
        | None => None
        | Some rest' => nested_go fuel stack true rest'
        end
      else if Ascii.eqb "(" ch then nested_go fuel (false :: stack) false rest
      else if Ascii.eqb ")" ch then
        let '(inner_risk, stack) :=
          match stack with
          | top :: (_ :: _ as stack') => (top, stack')
          | _ => (false, stack)
          end in
        if match shead rest with Some c => is_quantifier_start c | None => false end && inner_risk
        then Some nested_reason
        else nested_go fuel stack true rest
      else if char_in ch "*+" then nested_go fuel (mark_top lastq stack) false rest
      else if Ascii.eqb "{" ch then
        match after_brace rest with
        | None => nested_go fuel stack false rest
        | Some rest' => nested_go fuel (mark_top lastq stack) false rest'
        end
      else if char_in ch "|^$" then nested_go fuel stack false rest
      else nested_go fuel stack true rest
  end.

(** app/custom_rules.py:264-324 nested_quantifier_risk *)
Definition nested_quantifier_risk (pattern : string) : option string :=
  nested_go (slen pattern) [false] false pattern.

(** [len(body) - len(body.rstrip("\\"))] *)
Definition trailing_backslashes (body : string) : nat :=
  slen body - slen (rstrip_char "\" body).

(** app/custom_rules.py:327-339 deployed_pattern *)
Definition deployed_pattern (pattern : string) : string :=
  if ends_with "$" pattern then
    let body := sdrop_end 1 pattern in
    if Nat.even (trailing_backslashes body) then body +:+ "\.?$" else pattern
  else pattern.

Example posix_ok : posix_ere_incompatibility "^ads[0-9]+\." = None.
Proof. vm_compute. reflexivity. Qed.
Example posix_bad : posix_ere_incompatibility "a*?" = Some non_greedy_reason.
Proof. vm_compute. reflexivity. Qed.
Example nested_bad : nested_quantifier_risk "x(a+)+" = Some nested_reason.
Proof. vm_compute. reflexivity. Qed.
Example nested_bad2 : nested_quantifier_risk "(ab+c){2,}" = Some nested_reason.
Proof. vm_compute. reflexivity. Qed.
Example deployed_ex : deployed_pattern "^ads\.example$" = "^ads\.example\.?$".
Proof. vm_compute. reflexivity. Qed.

(** ** The scans terminate within their fuel *)

Lemma class_body_shorter s r : class_body s = Some r → slen r < slen s.
Proof.
  remember (slen s) as n eqn:Hn. revert s Hn.
  induction n as [n IH] using lt_wf_ind; intros s -> H.
  destruct s as [|c s]; simpl in *; [done|].
  case_match.
  - destruct s as [|d s]; [done|]. eapply (IH (slen s)) in H; [|simpl; lia|done]. simpl. lia.
  - case_match; [by simplify_eq; simpl; lia|]. eapply (IH (slen s)) in H; [|lia|done]. lia.
Qed.

Lemma slen_drop_char c s : slen (drop_char c s) ≤ slen s.
Proof. destruct s as [|d s]; simpl; [done|]. case_match; simpl; lia. Qed.

Lemma class_end_shorter s r : class_end s = Some r → slen r < slen s.
Proof.
  unfold class_end. intros H%class_body_shorter.
  pose proof (slen_drop_char "]" (drop_char "^" s)). pose proof (slen_drop_char "^" s). lia.
Qed.

Lemma after_brace_shorter s r : after_brace s = Some r → slen r < slen s.
Proof.
  induction s as [|c s IH]; simpl; [done|]. case_match; intros; simplify_eq; [lia|].
  apply IH in H0. lia.
Qed.

(** More fuel than the length of the input changes nothing. *)
Lemma posix_go_fuel n m lastq s :
  slen s ≤ n → slen s ≤ m → posix_go n lastq s = posix_go m lastq s.
Proof.
  revert m lastq s. induction n as [|n IH]; intros m lastq s Hn Hm.
  { destruct s; [by destruct m|simpl in Hn; lia]. }
  destruct s as [|ch rest]; [by destruct m|].
  destruct m as [|m]; [simpl in Hm; lia|]. simpl in *.
  case_match.
  - destruct rest as [|nxt rest']; [done|]. case_match; [done|].
    apply IH; simpl in *; lia.
  - case_match; [|repeat case_match; auto; apply IH; lia].
    destruct (class_end rest) as [r|] eqn:E; [|done].
    apply class_end_shorter in E. apply IH; lia.
Qed.

Lemma nested_go_fuel n m stack lastq s :
  slen s ≤ n → slen s ≤ m → nested_go n stack lastq s = nested_go m stack lastq s.
Proof.
  revert m stack lastq s. induction n as [|n IH]; intros m stack lastq s Hn Hm.
  { destruct s; [by destruct m|simpl in Hn; lia]. }
  destruct s as [|ch rest]; [by destruct m|].
  destruct m as [|m]; [simpl in Hm; lia|]. simpl in *.
  case_match; [destruct rest; apply IH; simpl in *; lia|].
  case_match.
  { destruct (class_end rest) as [r|] eqn:E; [|done].
    apply class_end_shorter in E. apply IH; lia. }
  case_match; [apply IH; lia|].
  case_match; [repeat case_match; try done; apply IH; lia|].
  case_match; [apply IH; lia|].
  case_match.
  { destruct (after_brace rest) as [r|] eqn:E; [|apply IH; lia].
    apply after_brace_shorter in E. apply IH; lia. }
  case_match; apply IH; lia.
Qed.

(** ** Fuel-free equations *)

Definition posix_run (lastq : bool) (s : string) : option string := posix_go (slen s) lastq s.
Definition nested_run (stack : list bool) (lastq : bool) (s : string) : option string :=
  nested_go (slen s) stack lastq s.

Lemma posix_run_escape lastq nxt s :
  is_alnum nxt = false → posix_run lastq (String "\" (String nxt s)) = posix_run false s.
Proof.
  intros H. unfold posix_run. simpl slen.
  transitivity (posix_go (S (slen s)) false s); [|apply posix_go_fuel; lia].
  generalize (S (slen s)) as n. intros n. cbn [posix_go]. by rewrite Ascii.eqb_refl, H.
Qed.

Lemma posix_run_class lastq s r :
  class_end s = Some r → posix_run lastq (String "[" s) = posix_run false r.
Proof.
  intros H. unfold posix_run. simpl slen.
  transitivity (posix_go (slen s) false r);
    [|apply class_end_shorter in H; apply posix_go_fuel; lia].
  generalize (slen s) as n. intros n. cbn [posix_go].
  change (Ascii.eqb "\" "[") with false. by rewrite Ascii.eqb_refl, H.
Qed.

Lemma posix_run_char lastq ch s :
  Ascii.eqb "\" ch = false → Ascii.eqb "[" ch = false →
  Ascii.eqb "(" ch && starts_with "?" s = false → Ascii.eqb "?" ch && lastq = false →
  posix_run lastq (String ch s) = posix_run (char_in ch "*+?}") s.
Proof. intros H1 H2 H3 H4. unfold posix_run. simpl slen. cbn [posix_go]. by rewrite H1, H2, H3, H4. Qed.

(** Inversion: what an accepted pattern starts with. *)
Lemma posix_run_inv lastq ch s :
  posix_run lastq (String ch s) = None →
  (ch = "\"%char ∧ ∃ nxt s', s = String nxt s' ∧ is_alnum nxt = false ∧ posix_run false s' = None)
  ∨ (ch = "["%char ∧ ∃ r, class_end s = Some r ∧ posix_run false r = None)
  ∨ (Ascii.eqb "\" ch = false ∧ Ascii.eqb "[" ch = false
     ∧ Ascii.eqb "(" ch && starts_with "?" s = false ∧ Ascii.eqb "?" ch && lastq = false
     ∧ posix_run (char_in ch "*+?}") s = None).
Proof.
  unfold posix_run at 1. simpl slen. cbn [posix_go].
  destruct (Ascii.eqb_spec "\" ch) as [<-|H1].
  { destruct s as [|nxt s']; [done|]. destruct (is_alnum nxt) eqn:E; [done|].
    intros H. left. split; [done|]. exists nxt, s'. repeat split; [done|].
    rewrite <-H. apply posix_go_fuel; simpl; lia. }
  destruct (Ascii.eqb_spec "[" ch) as [<-|H2].
  { destruct (class_end s) as [r|] eqn:E; [|done]. intros H. right. left.
    split; [done|]. exists r. split; [done|]. rewrite <-H. apply class_end_shorter in E.
    apply posix_go_fuel; lia. }
  destruct (_ && starts_with "?" s) eqn:H3; [done|].
  destruct (_ && lastq) eqn:H4; [done|]. intros H. right. right.
  repeat split; auto.
Qed.

(** ** The deployed copy of an accepted pattern is accepted *)

(** Parity of the trailing backslashes, read from the left: [b] is the parity of
    the run ending before [s]. *)
Fixpoint bs_even (b : bool) (s : string) : bool :=
  match s with
  | "" => b
  | String c s => bs_even (if Ascii.eqb "\" c then negb b else true) s
  end.

Lemma bs_even_all n s :
  sforall (Ascii.eqb "\") s = true → bs_even (Nat.even n) s = Nat.even (n + slen s).
Proof.
  revert n. induction s as [|c s IH]; intros n; simpl; [by rewrite Nat.add_0_r|].
  rewrite andb_true_iff. intros [Hc Hs]. rewrite Hc.
  replace (n + S (slen s)) with (S n + slen s) by lia. rewrite <-IH by done.
  f_equal. rewrite Nat.even_succ, <-Nat.negb_even. done.
Qed.

Lemma bs_even_app b s t : bs_even b (s +:+ t) = bs_even (bs_even b s) t.
Proof. revert b. induction s as [|c s IH]; intros b; [done|]. rewrite app_cons. simpl. auto. Qed.

Lemma bs_even_spec s : bs_even true s = Nat.even (trailing_backslashes s).
Proof.
  unfold trailing_backslashes, rstrip_char.
  destruct (rstrip_split (Ascii.eqb "\") s) as (b & Hs & Hb).
  rewrite Hs at 1 2. rewrite slen_app, bs_even_app.
  replace (slen _ + slen b - slen _) with (0 + slen b) by lia.
  rewrite <-bs_even_all by done. f_equal. simpl.
  pose proof (rstrip_last (Ascii.eqb "\") s) as Hl. unfold last_not in Hl.
  destruct (slast (rstrip_by (Ascii.eqb "\") s)) as [c|] eqn:E.
  - apply slast_split in E as (w & ->). rewrite bs_even_app. simpl.
    apply negb_true_iff in Hl. by rewrite Hl.
  - destruct (rstrip_by _ s) as [|c r]; [done|]. exfalso. clear -E.
    revert c E. induction r as [|d r IH]; intros c E; [done|]. by apply (IH d).
Qed.

Lemma class_body_split s r :
  class_body s = Some r → ∃ c, s = c +:+ r ∧ slast c = Some "]"%char ∧
    (∀ b, bs_even b c = true) ∧ ∀ t, class_body (c +:+ t) = Some t.
Proof.
  remember (slen s) as n eqn:Hn. revert s Hn.
  induction n as [n IH] using lt_wf_ind; intros s -> H.
  destruct s as [|a s]; simpl in H; [done|].
  destruct (Ascii.eqb_spec "\" a) as [<-|H1].
  - destruct s as [|d s]; [done|].
    destruct (IH (slen s)) with (s := s) as (c & -> & Hl & Hc & Ht); [simpl; lia|done..|].
    exists (String "\" (String d c)). rewrite !app_cons. split; [done|].
    split; [by destruct c|]. split.
    + intros b. simpl. by rewrite Hc.
    + intros t. rewrite !app_cons. simpl. auto.
  - destruct (Ascii.eqb_spec "]" a) as [<-|H2].
    + simplify_eq. exists "]". by repeat split.
    + destruct (IH (slen s)) with (s := s) as (c & -> & Hl & Hc & Ht); [simpl; lia|done..|].
      exists (String a c). rewrite app_cons. split; [done|]. split; [by destruct c|]. split.
      * intros b. simpl. apply Hc.
      * intros t. rewrite app_cons. simpl.
        rewrite (proj2 (Ascii.eqb_neq _ _)), (proj2 (Ascii.eqb_neq _ _)) by done. auto.
Qed.

Lemma drop_char_split a s :
  ∃ p, s = p +:+ drop_char a s ∧
    ∀ c r t, c ≠ "" → drop_char a s = c +:+ r → drop_char a (p +:+ c +:+ t) = c +:+ t.
Proof.
  destruct s as [|d s]; simpl.
  { exists "". split; [done|]. by intros [|? ?]. }
  destruct (Ascii.eqb_spec a d) as [<-|Hd].
  - exists (String a ""). split; [done|]. intros c r t _ _.
    rewrite app_cons. simpl. by rewrite Ascii.eqb_refl.
  - exists "". split; [done|]. intros [|x c] r t Hc Heq; [done|].
    rewrite app_cons in Heq. injection Heq as <- _. rewrite app_nil_s, app_cons. simpl.
    by rewrite (proj2 (Ascii.eqb_neq _ _)).
Qed.

Lemma class_end_split s r :
  class_end s = Some r → ∃ c, s = c +:+ r ∧ slast c = Some "]"%char ∧
    (∀ b, bs_even b c = true) ∧ ∀ t, class_end (c +:+ t) = Some t.
Proof.
  unfold class_end. intros (c & Hc & Hl & Hb & Ht)%class_body_split.
  assert (Hne : c ≠ "") by (intros ->; by specialize (Hb false)).
  destruct (drop_char_split "^" s) as (p & Hp & Hp').
  destruct (drop_char_split "]" (drop_char "^" s)) as (q & Hq & Hq').
  rewrite Hc in Hq. exists (p +:+ q +:+ c).
  split; [by rewrite !sapp_assoc, <-Hq|].
  split; [by rewrite <-sapp_assoc, slast_app|].
  split; [intros b; rewrite !bs_even_app; apply Hb|].
  intros t. rewrite !sapp_assoc, <-(sapp_assoc q c t), (Hp' (q +:+ c) r t).
  - rewrite sapp_assoc, (Hq' c r t); auto.
  - by intros [_ ->]%sapp_eq_nil.
  - by rewrite sapp_assoc.
Qed.

Lemma snoc_split (c r body : string) a b :
  body +:+ String a "" = c +:+ r → slast c = Some b → a ≠ b →
  ∃ r', r = r' +:+ String a "" ∧ body = c +:+ r'.
Proof.
  intros H Hc Hab. destruct (slast r) as [x|] eqn:E.
  - apply slast_split in E as (w & ->). rewrite <-sapp_assoc in H.
    assert (x = a) as ->.
    { apply (f_equal slast) in H. rewrite !slast_snoc in H. by simplify_eq. }
    apply sapp_inv_tail in H. eauto.
  - destruct r as [|x r]; [|exfalso; clear -E; revert x E; induction r; naive_solver].
    rewrite sapp_nil_r in H. subst c. rewrite slast_snoc in Hc. by simplify_eq.
Qed.

Lemma posix_deploy_tail lastq body :
  posix_run lastq (body +:+ "$") = None → bs_even true body = true →
  posix_run lastq (body +:+ "\.?$") = None.
Proof.
  remember (slen body) as n eqn:Hn. revert lastq body Hn.
  induction n as [n IH] using lt_wf_ind; intros lastq body -> H Hb.
  destruct body as [|ch body]; [by destruct lastq|].
  rewrite app_cons in H |- *. apply posix_run_inv in H as [H|[H|H]].
  - destruct H as (-> & nxt & s' & Hs & Ha & H). destruct body as [|d body]; [done|].
    rewrite app_cons in Hs. injection Hs as -> <-. rewrite app_cons, posix_run_escape by done.
    apply (IH (slen body)); [simpl; lia|done..|]. simpl in Hb.
    by destruct (Ascii.eqb "\" nxt).
  - destruct H as (-> & r & Hr & H).
    apply class_end_split in Hr as (c & Hc & Hl & Hbs & Ht).
    destruct (snoc_split _ _ _ _ _ Hc Hl) as (r' & -> & ->); [done|].
    rewrite sapp_assoc, (posix_run_class _ _ _ (Ht _)).
    apply (IH (slen r')); [simpl; rewrite slen_app; lia|done..|].
    simpl in Hb. by rewrite bs_even_app, Hbs in Hb.
  - destruct H as (H1 & H2 & H3 & H4 & H). rewrite posix_run_char; [|try done..].
    + apply (IH (slen body)); [simpl; lia|done..|]. simpl in Hb. by rewrite H1 in Hb.
    + by destruct body.
Qed.

Lemma deployed_portable_aux p :
  posix_ere_incompatibility p = None → posix_ere_incompatibility (deployed_pattern p) = None.
Proof.
  unfold deployed_pattern. intros H.
  destruct (ends_with "$" p) eqn:E; [|done]. case_match; [|done].
  apply ends_with_spec in E as (body & ->).
  change (sdrop_end 1 (body +:+ "$")) with (sdrop_end (slen "$") (body +:+ "$")) in *.
  rewrite sdrop_end_app in *. apply posix_deploy_tail; [done|]. by rewrite bs_even_spec.
Qed.

(** ** The scan for nested quantifiers *)

(** Characters the scan reads as plain atoms. *)
Definition plain (c : ascii) : bool := negb (char_in c "\[()*+{|^$").

Lemma char_in_false_neq a c s : char_in c s = false → char_in a s = true → Ascii.eqb a c = false.
Proof. intros Hc Ha. apply Ascii.eqb_neq. intros ->. congruence. Qed.

Lemma nested_run_plain stack lastq c s :
  plain c = true → nested_run stack lastq (String c s) = nested_run stack true s.
Proof.
  unfold plain. intros Hc%negb_true_iff. unfold nested_run. simpl slen. cbn [nested_go].
  repeat rewrite (char_in_false_neq _ c _ Hc) by reflexivity.
  assert (∀ t, (∀ a, char_in a t = true → char_in a "\[()*+{|^$" = true) → char_in c t = false) as Ht.
  { intros t Hsub. destruct (char_in c t) eqn:E; [|done]. apply Hsub in E. congruence. }
  rewrite !Ht; [done| |]; char_decide.
Qed.

Lemma nested_run_text stack lastq u s :
  sforall plain u = true →
  nested_run stack lastq (u +:+ s) = nested_run stack (lastq || negb (String.eqb u "")) s.
Proof.
  revert lastq. induction u as [|c u IH]; intros lastq; simpl.
  - intros _. by rewrite orb_false_r.
  - intros [Hc Hu]%andb_true_iff. rewrite app_cons, nested_run_plain, IH by done.
    by rewrite orb_true_r.
Qed.

Lemma nested_run_open stack lastq s :
  nested_run stack lastq (String "(" s) = nested_run (false :: stack) false s.
Proof. done. Qed.

Lemma nested_run_quantifier stack lastq q s :
  char_in q "*+" = true →
  nested_run stack lastq (String q s) = nested_run (mark_top lastq stack) false s.
Proof.
  intros Hq. unfold nested_run. simpl slen. cbn [nested_go].
  assert (∀ a, char_in a "*+" = false → Ascii.eqb a q = false) as Hn.
  { intros a Ha. apply Ascii.eqb_neq. intros ->. congruence. }
  by rewrite !Hn, Hq.
Qed.

Lemma nested_run_close top t stack lastq q v :
  is_quantifier_start q = true → top = true →
  nested_run (top :: t :: stack) lastq (String ")" (String q v)) = Some nested_reason.
Proof. intros Hq ->. unfold nested_run. simpl. by rewrite Hq. Qed.

Lemma nested_detects_aux u w q1 w' q2 v :
  sforall plain u = true → sforall plain w = true → sforall plain w' = true →
  w ≠ "" → char_in q1 "*+" = true → is_quantifier_start q2 = true →
  nested_quantifier_risk
    (u +:+ String "(" (w +:+ String q1 (w' +:+ String ")" (String q2 v)))) = Some nested_reason.
Proof.
  intros Hu Hw Hw' Hne Hq1 Hq2. change (nested_quantifier_risk ?p) with (nested_run [false] false p).
  rewrite nested_run_text, nested_run_open, nested_run_text, nested_run_quantifier,
    nested_run_text by done.
  apply nested_run_close; [done|]. by destruct w.
Qed.
