(* ===== verification/Digits.v ===== *)
(** * Positional digits

    Numbers as big-endian digit lists in a base: what [int.from_bytes],
    [int.to_bytes] and the accumulating loops over digits compute. *)

From S2P Require Import Prelude.

#[local] Open Scope Z_scope.

Fixpoint be_digits (b : Z) (n : nat) (c : Z) : list Z :=
  match n with
  | O => []
  | S n => be_digits b n (c / b) ++ [c mod b]
  end.

Definition be_value (b : Z) (l : list Z) : Z := fold_left (λ acc d, acc * b + d) l 0.

Definition in_base (b d : Z) : Prop := 0 ≤ d < b.

Section digits.
Context (b : Z) (b_pos : 1 < b).

Lemma be_value_snoc l d : be_value b (l ++ [d]) = be_value b l * b + d.
Proof. unfold be_value. by rewrite fold_left_app. Qed.

Lemma be_digits_length n c : length (be_digits b n c) = n.
Proof.
  revert c. induction n as [|n IH]; intros c; [done|]. simpl. rewrite length_app, IH. simpl. lia.
Qed.

Lemma be_digits_range n c : Forall (in_base b) (be_digits b n c).
Proof.
  revert c. induction n as [|n IH]; intros c; simpl; [constructor|].
  apply Forall_app. split; [apply IH|]. constructor; [|constructor].
  apply Z.mod_pos_bound. lia.
Qed.

Lemma pow_length_snoc {A} (l : list A) d :
  b ^ Z.of_nat (length (l ++ [d])) = b ^ Z.of_nat (length l) * b.
Proof. rewrite length_app, Nat2Z.inj_add, Z.pow_add_r by lia. by rewrite Z.pow_1_r. Qed.

Lemma be_value_app l k : be_value b (l ++ k) = be_value b l * b ^ Z.of_nat (length k) + be_value b k.
Proof.
  induction k as [|d k IH] using rev_ind.
  { rewrite app_nil_r. change (be_value b []) with 0. simpl length. rewrite Z.pow_0_r. lia. }
  rewrite app_assoc, !be_value_snoc, IH, pow_length_snoc. lia.
Qed.

Lemma be_value_bound l : Forall (in_base b) l → 0 ≤ be_value b l < b ^ Z.of_nat (length l).
Proof.
  induction l as [|d l IH] using rev_ind; intros Hl; [done|].
  apply Forall_app in Hl as [Hl Hd]. apply Forall_cons in Hd as [Hd _]. specialize (IH Hl).
  rewrite be_value_snoc, pow_length_snoc. unfold in_base in Hd.
  assert ((be_value b l + 1) * b ≤ b ^ Z.of_nat (length l) * b) by (apply Z.mul_le_mono_nonneg_r; lia).
  assert (0 ≤ be_value b l * b) by (apply Z.mul_nonneg_nonneg; lia). lia.
Qed.

Lemma be_value_digits n c : be_value b (be_digits b n c) = c mod b ^ Z.of_nat n.
Proof.
  revert c. induction n as [|n IH]; intros c; [by rewrite Z.mod_1_r|].
  cbn [be_digits]. rewrite be_value_snoc, IH.
  rewrite Nat2Z.inj_succ, Z.pow_succ_r by lia.
  rewrite Z.rem_mul_r by lia. lia.
Qed.

Lemma be_digits_value l : Forall (in_base b) l → be_digits b (length l) (be_value b l) = l.
Proof.
  induction l as [|d l IH] using rev_ind; intros Hl; [done|].
  apply Forall_app in Hl as [Hl Hd]. apply Forall_cons in Hd as [Hd _]. unfold in_base in Hd.
  rewrite length_app. simpl length. replace (length l + 1)%nat with (S (length l)) by lia.
  cbn [be_digits]. rewrite be_value_snoc, Z.div_add_l, (Z.div_small d) by lia.
  rewrite Z.add_0_r, IH by done. by rewrite Z.add_comm, Z.mod_add, Z.mod_small by lia.
Qed.

Lemma be_digits_app k m c :
  be_digits b (k + m) c = be_digits b k (c / b ^ Z.of_nat m) ++ be_digits b m c.
Proof.
  revert c. induction m as [|m IH]; intros c.
  { rewrite Nat.add_0_r, Z.div_1_r. simpl. by rewrite app_nil_r. }
  rewrite Nat.add_succ_r. cbn [be_digits]. rewrite IH, app_assoc.
  rewrite Nat2Z.inj_succ, Z.pow_succ_r, Z.div_div by lia. done.
Qed.

Lemma take_be_digits k m c : take k (be_digits b (k + m) c) = be_digits b k (c / b ^ Z.of_nat m).
Proof.
  rewrite be_digits_app, take_app_le by (by rewrite be_digits_length).
  apply take_ge. by rewrite be_digits_length.
Qed.
End digits.
