(* ===== verification/ClientId.v ===== *)
(** * ClientIDs

    The secret client identifiers of [app/clients.py]: validation, the two
    representations as a DNS label (hexadecimal, or Base32 when that does not fit)
    and the names and paths that carry them. *)

From S2P Require Import Prelude PyStr StrLemmas IpAddr Digits.

#[local] Open Scope Z_scope.

(** app/clients.py:79-81 ClientsError *)
Definition ClientsError (message : string) : pyexc := PyExc "ClientsError" message.
(** app/clients.py:84-85 ClientIDError *)
Definition ClientIDError (message : string) : pyexc := PyExc "ClientIDError" message.
(** app/clients.py:88-89 AccessPolicyError *)
Definition AccessPolicyError (message : string) : pyexc := PyExc "AccessPolicyError" message.

(** app/clients.py:69-69 CLIENTID_ALLOWED_HEX_LENGTHS *)
Definition CLIENTID_ALLOWED_HEX_LENGTHS : list nat := [48; 64]%nat.
Definition CLIENTID_MIN_HEX_LEN : nat := 48.
Definition CLIENTID_MAX_HEX_LEN : nat := 64.
Definition DNS_LABEL_MAX_LEN : nat := 63.
(** app/clients.py:65-65 CLIENTID_SNI_SUFFIX *)
Definition CLIENTID_SNI_SUFFIX : string := "clientid.alderpointdns.local".

(** [c in "0123456789abcdef"] *)
Definition is_lower_hex (c : ascii) : bool := is_09 c || in_range 97 102 c.

Definition allowed_length (n : nat) : bool := bool_decide (n ∈ CLIENTID_ALLOWED_HEX_LENGTHS).

(** app/clients.py:287-310 validate_clientid *)
Definition validate_clientid (raw : string) : res string :=
  let text := lower (strip raw) in
  let len := str_int (Z.of_nat (slen text)) in
  if String.eqb text "" then Raise (ClientIDError "ClientID is required")
  else if negb (sforall is_lower_hex text)
  then Raise (ClientIDError "ClientID must be hexadecimal (0-9, a-f)")
  else if (slen text <? CLIENTID_MIN_HEX_LEN)%nat
  then Raise (ClientIDError ("ClientID is only " +:+ len +:+ " hex characters; Alderpoint requires at least 48 (192-bit). Shorter/weaker ClientIDs (including 32-hex/128-bit) are not accepted."))
  else if negb (allowed_length (slen text))
  then
    if (CLIENTID_MAX_HEX_LEN <? slen text)%nat
    then Raise (ClientIDError ("ClientID is " +:+ len +:+ " hex characters, longer than the supported 256-bit (64 hex) maximum"))
    else Raise (ClientIDError ("ClientID must be exactly 48 hex characters (192-bit) or 64 hex characters (256-bit); got " +:+ len))
  else Ok text.

(** app/clients.py:313-314 clientid_strength_bits *)
Definition clientid_strength_bits (canonical_hex : string) : option Z :=
  if (slen canonical_hex =? 48)%nat then Some 192
  else if (slen canonical_hex =? 64)%nat then Some 256 else None.

(** app/clients.py:273-284 generate_clientid

    [token_hex n] is the text of [n] random bytes. *)
Definition generate_clientid (token_hex : nat → string) (bits : Z) : res string :=
  if bits =? 192 then Ok (token_hex 24%nat)
  else if bits =? 256 then Ok (token_hex 32%nat)
  else Raise (ClientIDError "ClientID strength must be 192 or 256 bits").

(** ** Bytes as hexadecimal *)

Definition is_ascii_space (c : ascii) : bool := (code c =? 32)%N || in_range 9 13 c.

(** [bytes.fromhex] *)
Fixpoint fromhex (s : string) : option (list Z) :=
  match s with
  | "" => Some []
  | String c s =>
      if is_ascii_space c then fromhex s
      else match s with
           | "" => None
           | String d s =>
               if is_hex c && is_hex d
               then rest ← fromhex s; Some (digit_val c * 16 + digit_val d :: rest)
               else None
           end
  end.

(** [bytes.hex] *)
Fixpoint hex (l : list Z) : string :=
  match l with
  | [] => ""
  | b :: l => String (hex_char (b / 16)) (String (hex_char (b mod 16)) (hex l))
  end.

(** ** Base32 *)

Definition b32_char (d : Z) : ascii := ascii_of_N (Z.to_N (if d <? 26 then 65 + d else 24 + d)).
Definition b32_rev (c : ascii) : option Z :=
  if is_upper_az c then Some (Z.of_N (code c) - 65)
  else if in_range 50 55 c then Some (Z.of_N (code c) - 24) else None.

(** How many characters a last group of 1 to 4 bytes keeps. *)
Definition b32_keep (n : nat) : nat := match n with 1 => 2 | 2 => 4 | 3 => 5 | _ => 7 end%nat.

Definition b32_group (l : list Z) : list ascii := b32_char <$> be_digits 32 8 (be_value 256 l).

(** The characters before the padding. *)
Fixpoint b32_body (l : list Z) : list ascii :=
  match l with
  | [] => []
  | b0 :: b1 :: b2 :: b3 :: b4 :: rest => b32_group [b0; b1; b2; b3; b4] ++ b32_body rest
  | short => take (b32_keep (length short)) (b32_group (short ++ replicate (5 - length short) 0))
  end.

(** [base64.b32encode] *)
Definition b32encode (l : list Z) : string :=
  let body := b32_body l in
  String.string_of_list_ascii (body ++ replicate ((8 - length body mod 8) mod 8) "="%char).

(** The accumulator of a quantum, most significant character first. *)
Fixpoint b32_acc (acc : Z) (quanta : list ascii) : option Z :=
  match quanta with
  | [] => Some acc
  | c :: quanta => d ← b32_rev c; b32_acc (Z.shiftl acc 5 + d) quanta
  end.

(** The accumulators of all quanta; the last may be short. *)
Fixpoint b32_accs (fuel : nat) (l : list ascii) : option (list Z) :=
  match fuel, l with
  | _, [] => Some []
  | O, _ => None
  | S fuel, l => a ← b32_acc 0 (take 8 l); rest ← b32_accs fuel (drop 8 l); Some (a :: rest)
  end.

Definition binascii_error (message : string) : pyexc := PyExc "binascii.Error" message.

(** [base64.b32decode] of a text *)
Definition b32decode (s : string) : res (list Z) :=
  if negb (isascii s) then Raise (PyExc "ValueError" "string argument should contain only ASCII characters")
  else if negb (slen s mod 8 =? 0)%nat then Raise (binascii_error "Incorrect padding")
  else
    let body := String.list_ascii_of_string (rstrip_char "=" s) in
    let padchars := (slen s - length body)%nat in
    match b32_accs (length body) body with
    | None => Raise (binascii_error "Non-base32 digit found")
    | Some accs =>
        if negb (bool_decide (padchars ∈ [0; 1; 3; 4; 6]%nat))
        then Raise (binascii_error "Incorrect padding")
        else
          let bytes := mjoin (be_digits 256 5 <$> accs) in
          match last accs with
          | Some acc =>
              if (padchars =? 0)%nat then Ok bytes
              else
                let last := be_digits 256 5 (Z.shiftl acc (5 * Z.of_nat padchars)) in
                Ok (take (length bytes - 5) bytes ++ take ((43 - 5 * padchars) / 8) last)
          | None => Ok bytes
          end
    end.

(** ** DNS labels *)

(** app/clients.py:317-329 clientid_dns_label *)
Definition clientid_dns_label (canonical_hex : string) : option string :=
  if (slen canonical_hex <=? DNS_LABEL_MAX_LEN)%nat then Some canonical_hex
  else raw ← fromhex canonical_hex; Some (lower (rstrip_char "=" (b32encode raw))).

(** [str.upper]: in Latin-1 only the sharp s becomes ASCII letters, two of them. *)
Fixpoint str_upper (s : string) : string :=
  match s with
  | "" => ""
  | String c s => (if (code c =? 223)%N then "SS" else String (upper_char c) "") +:+ str_upper s
  end.

(** app/clients.py:332-345 clientid_from_dns_label *)
Definition clientid_from_dns_label (label : string) : res string :=
  let text := lower (strip label) in
  if negb (String.eqb text "") && sforall is_lower_hex text && allowed_length (slen text) then Ok text
  else
    let padded := str_upper text +:+ String.string_of_list_ascii (replicate ((8 - slen text mod 8) mod 8) "="%char) in
    match b32decode padded with
    | Ok raw => Ok (hex raw)
    | Raise e => Raise (ClientIDError ("'" +:+ label +:+ "' is not a valid ClientID or DNS-safe label: " +:+ exc_message e))
    end.

(** app/clients.py:348-352 clientid_doh_path *)
Definition clientid_doh_path (base_path canonical_hex : string) : string :=
  rstrip_char "/" base_path +:+ "/" +:+ canonical_hex.

(** app/clients.py:355-356 clientid_sni_hostname *)
Definition clientid_sni_hostname (canonical_hex : string) : option string :=
  label ← clientid_dns_label canonical_hex; Some (label +:+ "." +:+ CLIENTID_SNI_SUFFIX).

(** ** Base32 round trip *)

(** Disjoint character classes. *)
Lemma char_excludes (p q : ascii → bool) :
  forallb (λ c, negb (p c && q c)) all_chars = true → ∀ c, p c = true → q c = false.
Proof. intros H c Hp. pose proof (char_forall _ H c) as Hc. cbn beta in Hc. rewrite Hp in Hc. by apply negb_true_iff in Hc. Qed.

Abbreviation bytes_ok := (Forall (in_base 256)).

Lemma b32_char_rev d : in_base 32 d → b32_rev (b32_char d) = Some d.
Proof.
  intros Hd.
  assert (forallb (λ n, bool_decide (b32_rev (b32_char (Z.of_nat n)) = Some (Z.of_nat n))) (seq 0 32) = true)
    as Hall by (vm_compute; reflexivity).
  rewrite forallb_true in Hall. unfold in_base in Hd.
  assert (Z.to_nat d ∈ seq 0 32) as Hin by (apply elem_of_seq; lia).
  specialize (Hall _ Hin). by rewrite bool_decide_eq_true, Z2Nat.id in Hall by lia.
Qed.

Lemma b32_acc_digits acc l :
  Forall (in_base 32) l → b32_acc acc (b32_char <$> l) = Some (acc * 32 ^ Z.of_nat (length l) + be_value 32 l).
Proof.
  revert acc. induction l as [|d l IH]; intros acc Hl.
  { simpl. f_equal. change (be_value 32 []) with 0. lia. }
  apply Forall_cons in Hl as [Hd Hl]. cbn [fmap list_fmap b32_acc]. rewrite b32_char_rev by done.
  cbn [mbind option_bind]. rewrite IH by done. f_equal.
  rewrite Z.shiftl_mul_pow2 by lia. change (d :: l) with ([d] ++ l). rewrite be_value_app by lia.
  change (be_value 32 [d]) with (0 * 32 + d). simpl length. rewrite Nat2Z.inj_succ, Z.pow_succ_r by lia.
  change (2 ^ 5) with 32. ring.
Qed.

(** A group of five bytes, or what is left of the last one, as its accumulator. *)
Definition group_acc (l : list Z) : Z :=
  be_value 256 (l ++ replicate (5 - length l) 0) / 32 ^ Z.of_nat (8 - b32_keep (length l)).

Fixpoint group_accs (l : list Z) : list Z :=
  match l with
  | [] => []
  | b0 :: b1 :: b2 :: b3 :: b4 :: rest => be_value 256 [b0; b1; b2; b3; b4] :: group_accs rest
  | short => [group_acc short]
  end.

(** Induction five bytes at a time. *)
Lemma five_ind (P : list Z → Prop) :
  P [] → (∀ l, (0 < length l < 5)%nat → P l) →
  (∀ b0 b1 b2 b3 b4 rest, P rest → P (b0 :: b1 :: b2 :: b3 :: b4 :: rest)) → ∀ l, P l.
Proof.
  intros Hnil Hshort Hstep l. remember (length l) as n eqn:Hn. revert l Hn.
  induction n as [n IH] using lt_wf_ind. intros l Hn.
  destruct l as [|b0 [|b1 [|b2 [|b3 [|b4 rest]]]]]; [done|apply Hshort; simpl; lia..|].
  apply Hstep. apply (IH (length rest)); [subst n; simpl; lia|done].
Qed.

Lemma b32_body_short l :
  (0 < length l < 5)%nat →
  b32_body l = take (b32_keep (length l)) (b32_group (l ++ replicate (5 - length l) 0)).
Proof.
  intros Hl. destruct l as [|b0 [|b1 [|b2 [|b3 [|b4 rest]]]]]; simpl in Hl; try lia; done.
Qed.

Lemma group_accs_short l : (0 < length l < 5)%nat → group_accs l = [group_acc l].
Proof.
  intros Hl. destruct l as [|b0 [|b1 [|b2 [|b3 [|b4 rest]]]]]; simpl in Hl; try lia; done.
Qed.

Lemma b32_group_length l : length (b32_group l) = 8%nat.
Proof. unfold b32_group. by rewrite length_fmap, be_digits_length by lia. Qed.

Lemma group_value_bound l : bytes_ok l → length l = 5%nat → 0 ≤ be_value 256 l < 32 ^ 8.
Proof. intros Hl Hn. pose proof (be_value_bound 256 ltac:(lia) l Hl) as Hb. by rewrite Hn in Hb. Qed.

(** A prefix of a group's characters reads back as the shifted accumulator. *)
Lemma b32_acc_group k l :
  (k ≤ 8)%nat → bytes_ok l → length l = 5%nat →
  b32_acc 0 (take k (b32_group l)) = Some (be_value 256 l / 32 ^ Z.of_nat (8 - k)).
Proof.
  intros Hk Hl Hn. unfold b32_group. rewrite <-fmap_take. replace 8%nat with (k + (8 - k))%nat at 1 by lia.
  rewrite take_be_digits by lia. rewrite b32_acc_digits by (apply be_digits_range; lia).
  f_equal. rewrite be_value_digits by lia. simpl. pose proof (group_value_bound l Hl Hn).
  apply Z.mod_small. split; [apply Z.div_pos; lia|]. apply Z.div_lt_upper_bound; [lia|].
  rewrite <-Z.pow_add_r by lia. replace (Z.of_nat (8 - k) + Z.of_nat k) with 8 by lia. lia.
Qed.

Lemma pad_group_ok l : (length l < 5)%nat → bytes_ok l →
  bytes_ok (l ++ replicate (5 - length l) 0) ∧ length (l ++ replicate (5 - length l) 0) = 5%nat.
Proof.
  intros Hn Hl. split.
  - apply Forall_app. split; [done|]. apply Forall_replicate. unfold in_base. lia.
  - rewrite length_app, length_replicate. lia.
Qed.

Lemma b32_accs_body l fuel :
  bytes_ok l → (length (b32_body l) ≤ fuel)%nat → b32_accs fuel (b32_body l) = Some (group_accs l).
Proof.
  revert fuel. induction l as [|l Hn|b0 b1 b2 b3 b4 rest IH] using five_ind; intros fuel Hl Hf.
  - by destruct fuel.
  - rewrite group_accs_short by done. rewrite b32_body_short in * by done.
    set (g := l ++ replicate (5 - length l) 0) in *.
    destruct (pad_group_ok l ltac:(lia) Hl) as [Hg Hg5]. fold g in Hg, Hg5.
    assert (b32_keep (length l) ≤ 8)%nat as Hk by (destruct l as [|? [|? [|? [|? [|]]]]]; simpl; lia).
    assert (0 < b32_keep (length l))%nat as Hk0 by (destruct l as [|? [|? [|? [|? [|]]]]]; simpl; lia).
    rewrite length_take, b32_group_length in Hf.
    destruct fuel as [|fuel]; [lia|].
    assert (take 8 (take (b32_keep (length l)) (b32_group g)) = take (b32_keep (length l)) (b32_group g)) as Ht.
    { rewrite take_take. f_equal. lia. }
    destruct (take (b32_keep (length l)) (b32_group g)) as [|c cs] eqn:E.
    { apply (f_equal length) in E. rewrite length_take, b32_group_length in E. simpl in E. lia. }
    cbn [b32_accs]. rewrite Ht, <-E, b32_acc_group by done. cbn [mbind option_bind].
    rewrite drop_ge by (rewrite length_take, b32_group_length; lia). by destruct fuel.
  - apply Forall_app with (l1 := [b0; b1; b2; b3; b4]) in Hl as [Hg Hl].
    cbn [b32_body group_accs] in *. rewrite length_app, b32_group_length in Hf.
    destruct fuel as [|fuel]; [lia|].
    pose proof (b32_group_length [b0; b1; b2; b3; b4]) as Hlen.
    destruct (b32_group [b0; b1; b2; b3; b4] ++ b32_body rest) as [|c cs] eqn:E.
    { apply (f_equal length) in E. rewrite length_app, Hlen in E. simpl in E. lia. }
    cbn [b32_accs]. rewrite <-E, take_app_le, drop_app_le by lia.
    rewrite drop_ge, app_nil_l by lia. rewrite b32_acc_group by done.
    cbn [mbind option_bind]. rewrite IH by (done || lia). cbn [mbind option_bind].
    by rewrite Nat.sub_diag, Z.div_1_r.
Qed.

(** The full groups, and what is left. *)
Lemma group_split l :
  bytes_ok l → ∃ full short accs,
    l = full ++ short ∧ (length short < 5)%nat ∧ bytes_ok short
    ∧ mjoin (be_digits 256 5 <$> accs) = full
    ∧ group_accs l = accs ++ match short with [] => [] | _ => [group_acc short] end
    ∧ length (b32_body l) = (8 * length accs + match short with [] => 0 | _ => b32_keep (length short) end)%nat.
Proof.
  induction l as [|l Hn|b0 b1 b2 b3 b4 rest IH] using five_ind; intros Hl.
  - exists [], [], []. split_and!; simpl; lia || done.
  - exists [], l, []. split_and!; [done|lia|done|done| |].
    + rewrite group_accs_short by done. destruct l; [simpl in Hn; lia|done].
    + rewrite b32_body_short, length_take, b32_group_length by done.
      destruct l as [|? [|? [|? [|? [|]]]]]; simpl in *; lia.
  - apply Forall_app with (l1 := [b0; b1; b2; b3; b4]) in Hl as [Hg Hl].
    destruct (IH Hl) as (full & short & accs & -> & Hs & Hsok & Hfull & Haccs & Hlen).
    exists (b0 :: b1 :: b2 :: b3 :: b4 :: full), short, (be_value 256 [b0; b1; b2; b3; b4] :: accs).
    split_and!; [done..| | |].
    + transitivity (be_digits 256 5 (be_value 256 [b0; b1; b2; b3; b4]) ++ mjoin (be_digits 256 5 <$> accs)); [done|].
      rewrite Hfull.
      pose proof (be_digits_value 256 ltac:(lia) [b0; b1; b2; b3; b4] Hg) as Hd.
      cbn [length] in Hd. by rewrite Hd.
    + cbn [app group_accs]. by rewrite Haccs.
    + cbn [app b32_body]. rewrite length_app, b32_group_length, Hlen. simpl length. lia.
Qed.

Lemma group_acc_shift l :
  (0 < length l < 5)%nat → bytes_ok l →
  Z.shiftl (group_acc l) (5 * Z.of_nat (8 - b32_keep (length l)))
  = be_value 256 (l ++ replicate (5 - length l) 0).
Proof.
  intros Hn Hl. unfold group_acc. rewrite Z.shiftl_mul_pow2 by lia.
  rewrite be_value_app, length_replicate by lia.
  assert (∀ k, be_value 256 (replicate k 0) = 0) as ->.
  { induction k as [|k IH]; [done|]. rewrite replicate_S_end, be_value_snoc. by rewrite IH. }
  rewrite Z.add_0_r, Z.pow_mul_r by lia. change (2 ^ 5) with 32.
  rewrite Z.mul_comm. symmetry. apply Z_div_exact_2; [by apply Z.lt_gt, Z.pow_pos_nonneg; lia|].
  destruct l as [|? [|? [|? [|? [|]]]]]; simpl in Hn; try lia; cbn [length b32_keep];
    rewrite Z.mul_mod_idemp_r || idtac;
    match goal with |- (?v * ?m) mod ?d = 0 =>
      replace (v * m) with (v * (m / d) * d); [apply Z.mod_mul; vm_compute; discriminate|];
      rewrite <-Z.mul_assoc; f_equal end; vm_compute; reflexivity.
Qed.

Lemma b32_body_chars l : sforall (λ c, is_upper_az c || in_range 50 55 c) (String.string_of_list_ascii (b32_body l)) = true.
Proof.
  assert (∀ cs, (∀ c, c ∈ cs → is_upper_az c || in_range 50 55 c = true) →
    sforall (λ c, is_upper_az c || in_range 50 55 c) (String.string_of_list_ascii cs) = true) as Hcs.
  { induction cs as [|c cs IH]; intros Hc; [done|]. cbn [String.string_of_list_ascii sforall].
    rewrite Hc by left. apply IH. intros. apply Hc. by right. }
  assert (∀ d, in_base 32 d → is_upper_az (b32_char d) || in_range 50 55 (b32_char d) = true) as Hchar.
  { intros d Hd. pose proof (b32_char_rev d Hd) as Hr. unfold b32_rev in Hr.
    by destruct (is_upper_az _), (in_range 50 55 _). }
  assert (∀ g c, c ∈ b32_group g → is_upper_az c || in_range 50 55 c = true) as Hg.
  { intros g c (d & -> & Hd)%list_elem_of_fmap. apply Hchar.
    by eapply Forall_forall in Hd; [|apply be_digits_range; lia]. }
  apply Hcs. induction l as [|l Hn|b0 b1 b2 b3 b4 rest IH] using five_ind; intros c.
  - by intros ?%elem_of_nil.
  - rewrite b32_body_short by done. intros Hc. eapply Hg, elem_of_sublist; [exact Hc|apply sublist_take].
  - cbn [b32_body]. intros [Hc|Hc]%elem_of_app; [by eapply Hg|by apply IH].
Qed.

Lemma soa_app l k :
  String.string_of_list_ascii (l ++ k) = String.string_of_list_ascii l +:+ String.string_of_list_ascii k.
Proof. induction l as [|c l IH]; [done|]. cbn [app String.string_of_list_ascii]. by rewrite IH, app_cons. Qed.

Lemma slen_soa l : slen (String.string_of_list_ascii l) = length l.
Proof. induction l as [|c l IH]; [done|]. simpl. by rewrite IH. Qed.

Lemma soa_replicate n c : sforall (Ascii.eqb c) (String.string_of_list_ascii (replicate n c)) = true.
Proof. induction n as [|n IH]; [done|]. cbn [replicate String.string_of_list_ascii sforall]. by rewrite Ascii.eqb_refl. Qed.

Lemma rstrip_app p s t : last_not p s = true → sforall p t = true → rstrip_by p (s +:+ t) = s.
Proof.
  intros Hs Ht. induction s as [|c s IH].
  - rewrite app_nil_s. clear Hs. induction t as [|c t IH]; [done|].
    cbn [sforall] in Ht. apply andb_prop in Ht as [Hc Ht]. cbn [rstrip_by]. rewrite IH by done. by rewrite Hc.
  - rewrite app_cons. cbn [rstrip_by]. destruct s as [|d s].
    + clear IH. rewrite app_nil_s.
      assert (rstrip_by p t = "") as ->.
      { clear Hs. induction t as [|e t IH]; [done|]. cbn [sforall] in Ht. apply andb_prop in Ht as [He Ht].
        cbn [rstrip_by]. by rewrite IH, He. }
      unfold last_not in Hs. simpl in Hs. by destruct (p c).
    + rewrite IH by by rewrite <-(last_not_cons p c). done.
Qed.

Lemma b32_body_no_pad l : last_not (Ascii.eqb "="%char) (String.string_of_list_ascii (b32_body l)) = true.
Proof.
  eapply sforall_last_not; [|apply b32_body_chars]. by apply char_excludes.
Qed.

Lemma b32encode_strip l : rstrip_char "=" (b32encode l) = String.string_of_list_ascii (b32_body l).
Proof.
  unfold b32encode, rstrip_char. rewrite soa_app. apply rstrip_app; [apply b32_body_no_pad|apply soa_replicate].
Qed.

Lemma b32encode_ascii l : isascii (b32encode l) = true.
Proof.
  unfold b32encode, isascii. rewrite soa_app, sforall_app. apply andb_true_intro. split.
  - eapply sforall_impl; [|apply b32_body_chars].
    by apply (char_implies (λ c, is_upper_az c || in_range 50 55 c)).
  - eapply sforall_impl; [|apply soa_replicate]. by apply char_implies.
Qed.

Lemma pad_length n : ((n + (8 - n mod 8) mod 8) mod 8 = 0)%nat.
Proof.
  pose proof (Nat.div_mod_eq n 8). pose proof (Nat.mod_upper_bound n 8).
  destruct (decide (n mod 8 = 0)%nat) as [E|]; [by rewrite E, Nat.sub_0_r, Nat.Div0.mod_same, Nat.add_0_r|].
  rewrite (Nat.mod_small (8 - _)) by lia.
  replace (n + (8 - n mod 8))%nat with ((n / 8 + 1) * 8)%nat by lia. apply Nat.Div0.mod_mul.
Qed.

(** Base32 loses nothing, whatever the number of bytes. *)
Lemma b32_roundtrip l : bytes_ok l → b32decode (b32encode l) = Ok l.
Proof.
  intros Hl. unfold b32decode. rewrite b32encode_ascii, b32encode_strip.
  assert (slen (b32encode l) = length (b32_body l) + (8 - length (b32_body l) mod 8) mod 8)%nat as Hlen.
  { unfold b32encode. by rewrite slen_soa, length_app, length_replicate. }
  rewrite Hlen, pad_length. cbn [negb Nat.eqb].
  rewrite String.list_ascii_of_string_of_list_ascii, b32_accs_body by done.
  set (n := length (b32_body l)) in *. replace (n + _ - n)%nat with ((8 - n mod 8) mod 8)%nat by lia.
  destruct (group_split l Hl) as (full & short & accs & El & Hs & Hsok & Hfull & Haccs & Hn). fold n in Hn.
  assert (n mod 8 = match short with [] => 0 | _ => b32_keep (length short) end)%nat as Hmod.
  { rewrite Hn, (Nat.mul_comm 8), Nat.add_comm, Nat.Div0.mod_add. apply Nat.mod_small.
    destruct short as [|? [|? [|? [|? [|]]]]]; simpl; lia. }
  rewrite Haccs, Hmod. destruct short as [|s0 short'] eqn:Eshort.
  { rewrite !app_nil_r in *. subst l. cbn [Nat.sub Nat.modulo Nat.divmod fst snd].
    rewrite bool_decide_eq_true_2 by (vm_compute; left). cbn [negb]. rewrite Hfull. by destruct (last accs). }
  rewrite <-Eshort in *.
  assert (0 < length short < 5)%nat as Hs' by (subst short; simpl in *; lia).
  set (keep := b32_keep (length short)) in *.
  assert ((8 - keep) mod 8 = 8 - keep ∧ 8 - keep ≠ 0 ∧ (43 - 5 * (8 - keep)) / 8 = length short
          ∧ (8 - keep) ∈ [0; 1; 3; 4; 6])%nat as (-> & Hne & Htake & Hin).
  { subst keep. destruct short as [|? [|? [|? [|? [|]]]]]; simpl in Hs'; try lia;
      (split_and!; [done|done|done|cbn; set_solver]). }
  rewrite bool_decide_eq_true_2 by done. cbn [negb]. rewrite last_snoc.
  rewrite (proj2 (Nat.eqb_neq _ _)) by done. rewrite Htake, fmap_app, join_app, Hfull. cbn [fmap list_fmap mjoin list_join].
  rewrite app_nil_r, length_app, be_digits_length by lia.
  rewrite Nat.add_sub, take_app_le, take_ge by lia.
  rewrite group_acc_shift by done. destruct (pad_group_ok short ltac:(lia) Hsok) as [Hg Hg5].
  rewrite <-Hg5 at 1. rewrite be_digits_value by done || lia.
  rewrite take_app_le, take_ge by lia. by rewrite El.
Qed.

(** ** Canonical ClientIDs *)

Definition canonical_clientid (c : string) : Prop :=
  sforall is_lower_hex c = true ∧ (slen c = 48 ∨ slen c = 64)%nat.

Lemma validate_clientid_ok raw c :
  validate_clientid raw = Ok c ↔
  c = lower (strip raw) ∧ canonical_clientid c
  ∧ (clientid_strength_bits c = Some 192 ∨ clientid_strength_bits c = Some 256).
Proof.
  unfold validate_clientid, canonical_clientid, allowed_length, clientid_strength_bits.
  set (text := lower (strip raw)). split.
  - destruct (String.eqb text ""); [done|]. destruct (sforall is_lower_hex text) eqn:Eh; [|done]. cbn [negb].
    destruct (_ <? _)%nat; [done|]. destruct (bool_decide _) eqn:El.
    2:{ cbn [negb]. by destruct (_ <? _)%nat. }
    apply bool_decide_eq_true in El. intros <-%Ok_inj. split_and!; [done|done| |].
    + unfold CLIENTID_ALLOWED_HEX_LENGTHS in El. set_solver.
    + unfold CLIENTID_ALLOWED_HEX_LENGTHS in El. rewrite !elem_of_cons, elem_of_nil in El.
      destruct El as [->|[->|[]]]; auto.
  - intros (-> & [Hh Hl] & _).
    destruct (String.eqb_spec text "") as [E|_]; [rewrite E in Hl; simpl in Hl; lia|].
    rewrite Hh. cbn [negb]. rewrite (proj2 (Nat.ltb_ge _ _)) by (unfold CLIENTID_MIN_HEX_LEN; lia).
    rewrite bool_decide_eq_true_2; [done|]. unfold CLIENTID_ALLOWED_HEX_LENGTHS. destruct Hl as [-> | ->]; set_solver.
Qed.

Lemma is_lower_hex_is_hex c : is_lower_hex c = true → is_hex c = true.
Proof. by apply char_implies. Qed.

Lemma lower_hex_digit c : is_lower_hex c = true → 0 ≤ digit_val c < 16 ∧ hex_char (digit_val c) = c.
Proof.
  intros Hc. assert ((0 <=? digit_val c) && (digit_val c <? 16) && Ascii.eqb (hex_char (digit_val c)) c = true) as Hall.
  { revert c Hc. apply char_implies. vm_compute. reflexivity. }
  apply andb_prop in Hall as [[H1 H2]%andb_prop H3]. apply Ascii.eqb_eq in H3. split; [lia|done].
Qed.

Lemma fromhex_hex n c :
  slen c = (2 * n)%nat → sforall is_lower_hex c = true →
  ∃ raw, fromhex c = Some raw ∧ bytes_ok raw ∧ length raw = n ∧ hex raw = c.
Proof.
  revert c. induction n as [|n IH]; intros c Hn Hc.
  { destruct c; [|done]. exists []. done. }
  destruct c as [|a [|b c]]; [simpl in Hn; lia..|]. cbn [sforall] in Hc.
  apply andb_prop in Hc as [Ha [Hb Hc]%andb_prop]. simpl in Hn.
  destruct (IH c ltac:(lia) Hc) as (raw & Hraw & Hok & Hlen & Hhex).
  destruct (lower_hex_digit a Ha) as [Ra Ea], (lower_hex_digit b Hb) as [Rb Eb].
  exists (digit_val a * 16 + digit_val b :: raw). cbn [fromhex].
  assert (is_ascii_space a = false) as ->.
  { clear Ra Ea. revert a Ha. by apply char_excludes. }
  rewrite !is_lower_hex_is_hex, Hraw by done. cbn [andb mbind option_bind]. split_and!; [done| | |].
  - constructor; [unfold in_base; lia|done].
  - simpl. by rewrite Hlen.
  - cbn [hex]. rewrite Z.div_add_l, Z.div_small, Z.add_0_r by lia.
    rewrite Z.add_comm, Z.mod_add, Z.mod_small by lia. by rewrite Ea, Eb, Hhex.
Qed.

Lemma b32_body_length raw : bytes_ok raw → length raw = 32%nat → length (b32_body raw) = 52%nat.
Proof.
  intros Hok Hlen. destruct (group_split raw Hok) as (full & short & accs & El & Hs & _ & Hfull & _ & ->).
  assert (length full = 5 * length accs)%nat as Hf.
  { subst full. clear. induction accs as [|a accs IH]; [done|].
    transitivity (length (be_digits 256 5 a ++ mjoin (be_digits 256 5 <$> accs))); [done|].
    rewrite length_app, IH, be_digits_length by lia. simpl. lia. }
  rewrite El, length_app in Hlen.
  destruct short as [|? [|? [|? [|? [|]]]]]; simpl in *; lia.
Qed.

Lemma str_upper_ascii s : isascii s = true → str_upper s = upper s.
Proof.
  induction s as [|c s IH]; [done|]. intros Hs. cbn [isascii sforall] in Hs. apply andb_prop in Hs as [Hc Hs].
  cbn [str_upper]. destruct (N.eqb_spec (code c) 223) as [E|_].
  - unfold is_ascii_char in Hc. apply N.ltb_lt in Hc. lia.
  - rewrite IH by done. done.
Qed.

Lemma upper_lower_b32 s :
  sforall (λ c, is_upper_az c || in_range 50 55 c) s = true → upper (lower s) = s.
Proof.
  intros Hs. unfold upper, lower. rewrite smap_smap. apply smap_id.
  eapply sforall_impl; [|exact Hs]. by apply char_implies.
Qed.

Lemma clientid_label_back c :
  canonical_clientid c →
  ∃ label, clientid_dns_label c = Some label ∧ (slen label ≤ DNS_LABEL_MAX_LEN)%nat
    ∧ clientid_from_dns_label label = Ok c.
Proof.
  intros [Hh Hl]. unfold clientid_dns_label. destruct Hl as [Hl|Hl]; rewrite Hl.
  - exists c. change (48 <=? DNS_LABEL_MAX_LEN)%nat with true. cbn iota.
    split; [done|]. split; [rewrite Hl; unfold DNS_LABEL_MAX_LEN; lia|].
    unfold clientid_from_dns_label.
    assert (lower (strip c) = c) as ->.
    { unfold strip. rewrite (strip_none _ _ _ (char_excludes is_lower_hex is_space eq_refl) Hh).
      apply smap_id. eapply sforall_impl; [|exact Hh]. by apply char_implies. }
    destruct (String.eqb_spec c "") as [->|_]; [done|]. unfold allowed_length. by rewrite Hh, Hl.
  - change (64 <=? DNS_LABEL_MAX_LEN)%nat with false. cbn iota.
    destruct (fromhex_hex 32 c Hl Hh) as (raw & -> & Hok & Hlen & Hhex). cbn [mbind option_bind].
    pose proof (b32_body_length raw Hok Hlen) as Hn.
    pose proof (b32_body_chars raw) as Hchars.
    rewrite b32encode_strip. set (body := String.string_of_list_ascii (b32_body raw)) in *.
    assert (slen body = 52)%nat as Hbody by (subst body; by rewrite slen_soa, Hn).
    assert (slen (lower body) = 52)%nat as Hlb by (unfold lower; by rewrite slen_smap).
    exists (lower body). split; [done|]. split; [rewrite Hlb; unfold DNS_LABEL_MAX_LEN; lia|]. unfold clientid_from_dns_label.
    assert (sforall (λ c, is_lower_az c || in_range 50 55 c) (lower body) = true) as Hlow.
    { unfold lower. rewrite sforall_smap. eapply sforall_impl; [|exact Hchars]. by apply char_implies. }
    assert (lower (strip (lower body)) = lower body) as ->.
    { unfold strip. rewrite (strip_none _ _ _ (char_excludes (λ c, is_lower_az c || in_range 50 55 c) is_space eq_refl) Hlow). apply lower_idem. }
    replace (allowed_length (slen (lower body))) with false by by rewrite Hlb.
    rewrite andb_false_r. rewrite str_upper_ascii, upper_lower_b32 by first
      [exact Hchars|unfold isascii; eapply sforall_impl; [|exact Hlow]; by apply char_implies].
    replace (body +:+ _) with (b32encode raw); [by rewrite b32_roundtrip, Hhex|].
    unfold b32encode. rewrite soa_app. fold body. do 3 f_equal. by rewrite Hlb, Hn.
Qed.

Lemma clientid_dns_label_inj c c' l :
  canonical_clientid c → canonical_clientid c' →
  clientid_dns_label c = Some l → clientid_dns_label c' = Some l → c = c'.
Proof.
  intros Hc Hc' Hl Hl'. destruct (clientid_label_back c Hc) as (m & Hm & _ & Hb).
  destruct (clientid_label_back c' Hc') as (m' & Hm' & _ & Hb'). congruence.
Qed.

(** The DNS label of a ClientID loses nothing and fits a DNS label: the label of
    every accepted ClientID has at most 63 characters and reads back as the same
    ClientID. *)
Theorem clientid_label_roundtrip raw c :
  validate_clientid raw = Ok c →
  ∃ label, clientid_dns_label c = Some label ∧ (slen label ≤ DNS_LABEL_MAX_LEN)%nat
    ∧ clientid_from_dns_label label = Ok c.
Proof. intros (_ & Hc & _)%validate_clientid_ok. by apply clientid_label_back. Qed.

Lemma clientid_label_roundtrip_witness :
  let c := "00112233445566778899aabbccddeeff00112233445566778899aabbccddeeff" in
  clientid_dns_label c = Some "aaisem2ekvthpcezvk54zxpo74abcirtirkwm54itgvlxtg5537q"
  ∧ clientid_from_dns_label "aaisem2ekvthpcezvk54zxpo74abcirtirkwm54itgvlxtg5537q" = Ok c.
Proof.
  cbv zeta. set (c := "00112233445566778899aabbccddeeff00112233445566778899aabbccddeeff").
  destruct (clientid_label_roundtrip c c) as (label & Hl & _ & Hb); [vm_compute; reflexivity|].
  assert (clientid_dns_label c = Some "aaisem2ekvthpcezvk54zxpo74abcirtirkwm54itgvlxtg5537q") as E
    by (vm_compute; reflexivity).
  split; [done|]. rewrite E in Hl. injection Hl as <-. exact Hb.
Defined.

(** A ClientID is accepted exactly when, stripped and in lower case, it is 48 or
    64 hexadecimal digits, and it is never shortened or otherwise altered: nothing
    weaker than 192 bits passes, and the strength is 192 or 256. *)
Theorem validate_clientid_spec raw c :
  validate_clientid raw = Ok c ↔
  c = lower (strip raw) ∧ canonical_clientid c
  ∧ (clientid_strength_bits c = Some 192 ∨ clientid_strength_bits c = Some 256).
Proof. apply validate_clientid_ok. Qed.

