(* ===== verification/IpText.v ===== *)
(** * Printed addresses

    Every address [ipaddress] prints is read back as the same address. *)

From S2P Require Import Prelude PyStr StrLemmas IpAddr Digits.

Local Open Scope Z_scope.

(** ** Octets and hextets *)

(** A finite check of a property of the numbers from [z] *)
Fixpoint check_from (p : Z → bool) (n : nat) (z : Z) : bool :=
  match n with O => true | S n => if p z then check_from p n (z + 1) else false end.

Lemma check_below p n z : check_from p (Z.to_nat n) 0 = true → 0 ≤ z < n → p z = true.
Proof.
  intros H Hz. assert (∀ k a, check_from p k a = true → a ≤ z < a + Z.of_nat k → p z = true) as Hgo.
  { induction k as [|k IH]; intros a Hk Ha; [lia|]. cbn [check_from] in Hk. destruct (p a) eqn:Ep; [|done].
    destruct (decide (z = a)) as [->|]; [done|]. apply (IH (a + 1)); [done|lia]. }
  apply (Hgo _ _ H). lia.
Qed.

Lemma parse_octet_str z : 0 ≤ z < 256 → parse_octet (str_int z) = Some z ∧ char_in "." (str_int z) = false.
Proof.
  intros H. pose proof (check_below (λ z, bool_decide (parse_octet (str_int z) = Some z) && negb (char_in "." (str_int z))) 256 z) as Hc.
  specialize (Hc ltac:(by vm_compute) H). apply andb_true_iff in Hc as [Hc%bool_decide_eq_true Hd%negb_true_iff]. done.
Qed.

Lemma octets_range n : 0 ≤ n < 2 ^ 32 → Forall (λ z, 0 ≤ z < 256) (ipv4_octets n).
Proof. intros H. unfold ipv4_octets. repeat constructor; try apply Z.mod_pos_bound; try lia; [apply Z.div_pos; lia|apply Z.div_lt_upper_bound; lia]. Qed.

Lemma parse_ipv4_str n : 0 ≤ n < 2 ^ 32 → parse_ipv4 (str_ipv4 n) = Some n.
Proof.
  intros Hn. pose proof (octets_range n Hn) as Ho. unfold parse_ipv4, str_ipv4. rewrite split_on_join.
  - unfold ipv4_octets in *. repeat (apply Forall_cons in Ho as [? Ho]).
    cbn [fmap list_fmap]. rewrite !(λ z H, proj1 (parse_octet_str z H)) by done. cbn [mbind option_bind]. f_equal.
    rewrite (Z.div_mod n 16777216) at 5 by lia. pose proof (Z.div_mod n 256 ltac:(lia)). pose proof (Z.div_mod (n / 256) 256 ltac:(lia)).
    pose proof (Z.div_mod (n / 65536) 256 ltac:(lia)). assert (n / 65536 = n / 256 / 256) by (rewrite Z.div_div; done || lia).
    assert (n / 16777216 = n / 65536 / 256) by (rewrite Z.div_div; done || lia). pose proof (Z.div_mod n 16777216 ltac:(lia)). lia.
  - done.
  - intros w (z & -> & Hz)%list_elem_of_fmap. rewrite Forall_forall in Ho. by apply parse_octet_str, Ho.
Qed.

(** The characters of a hextet *)
Definition plain_hex (s : string) : bool := sforall is_hex s && negb (String.eqb s "").

Lemma parse_hextet_str z : 0 ≤ z < 65536 → parse_hextet (hex4 z) = Some z.
Proof.
  intros H. pose proof (check_below (λ z, bool_decide (parse_hextet (hex4 z) = Some z)) 65536 z) as Hc.
  apply (bool_decide_unpack _). unfold bool_decide in *. specialize (Hc ltac:(by vm_compute) H). by rewrite Hc.
Qed.

Lemma hex_char_hex d : 0 ≤ d < 16 → is_hex (hex_char d) = true.
Proof. intros H. pose proof (check_below (λ d, is_hex (hex_char d)) 16 d) as Hc. by apply Hc; [vm_compute|]. Qed.

Lemma hex_go_hex fuel n acc : sforall is_hex acc = true → sforall is_hex (hex_go fuel n acc) = true.
Proof.
  revert n acc. induction fuel as [|fuel IH]; intros n acc Ha; [done|]. cbn [hex_go].
  assert (sforall is_hex (String (hex_char (n mod 16)) acc) = true) as H
    by (cbn; rewrite Ha, andb_true_r; apply hex_char_hex, Z.mod_pos_bound; lia).
  destruct (n / 16 =? 0); [done|by apply IH].
Qed.

Lemma hex4_hex n : sforall is_hex (hex4 n) = true.
Proof. by apply hex_go_hex. Qed.

Lemma hex_go_blank fuel n acc : acc ≠ "" → hex_go fuel n acc ≠ "".
Proof. revert n acc. induction fuel as [|fuel IH]; intros n acc Ha; [done|]. cbn [hex_go]. destruct (n / 16 =? 0); [done|by apply IH]. Qed.

Lemma hex4_blank n : bool_decide (Some (hex4 n) = Some "") = false.
Proof.
  apply bool_decide_eq_false_2. intros [= H]. revert H. unfold hex4. cbn [hex_go]. destruct (n / 16 =? 0); [done|]. by apply (hex_go_blank 3).
Qed.

Lemma hex4_no c n : is_hex c = false → char_in c (hex4 n) = false.
Proof. intros H. by apply (sforall_not_in _ _ _ H), hex4_hex. Qed.

(** ** The compressed text *)

(** The longest run of zeros *)
Lemma zero_run_spec (all l : list Z) : ∀ i start len bstart blen bs bl,
  (∀ j, nth_error all (i + j) = nth_error l j) →
  (start + len = i ∨ len = 0)%nat → (∀ k, start ≤ k < start + len → nth_error all k = Some 0%Z)%nat →
  (bstart + blen ≤ i)%nat → (∀ k, bstart ≤ k < bstart + blen → nth_error all k = Some 0%Z)%nat →
  zero_run i start len bstart blen l = (bs, bl) →
  (bs + bl ≤ i + length l)%nat ∧ ∀ k, (bs ≤ k < bs + bl → nth_error all k = Some 0%Z)%nat.
Proof.
  induction l as [|h l IH]; intros i start len bstart blen bs bl Hall Hrun Hz Hb Hbz H; cbn [zero_run] in H.
  - injection H as <- <-. split; [cbn [length]; lia|done].
  - assert (∀ j, nth_error all (S i + j) = nth_error l j) as Hall' by (intros j; change (nth_error l j) with (nth_error (h :: l) (S j)); rewrite <-Hall; f_equal; lia).
    specialize (Hall 0%nat). rewrite Nat.add_0_r in Hall. cbn [nth_error] in Hall.
    assert (S i + length l = i + length (h :: l))%nat as <- by (cbn [length]; lia).
    destruct (Z.eqb_spec h 0) as [->|Hh].
    + set (start' := if (len =? 0)%nat then i else start) in H.
      assert (start' + len = i)%nat as Hs by (unfold start'; destruct (Nat.eqb_spec len 0); lia).
      assert (∀ k, start' ≤ k < start' + S len → nth_error all k = Some 0%Z)%nat as Hz'.
      { intros k Hk. destruct (decide (k = i)) as [->|Hne]; [done|]. apply Hz. unfold start' in *. destruct (Nat.eqb_spec len 0); lia. }
      destruct (Nat.ltb_spec blen (S len)).
      * eapply (IH (S i) start' (S len) start' (S len)); [done|left; lia|done|lia|done|exact H].
      * eapply (IH (S i) start' (S len) bstart blen); [done|left; lia|done|lia|done|exact H].
    + eapply (IH (S i) 0%nat 0%nat bstart blen); [exact Hall'|by right|lia|lia|exact Hbz|exact H].
Qed.

Lemma blank_part : bool_decide (Some "" = Some "") = true.
Proof. by vm_compute. Qed.

Ltac eval_pow := repeat match goal with |- context [65536 ^ ?e] => let v := eval vm_compute in (65536 ^ e) in change (65536 ^ e) with v end.

(** The parts of a text that [compress_hextets] gives *)
Lemma parse_compressed h0 h1 h2 h3 h4 h5 h6 h7 :
  let hs := [h0; h1; h2; h3; h4; h5; h6; h7] in
  Forall (λ h, 0 ≤ h < 65536) hs → parse_ipv6_parts (compress_hextets hs) = Some (be_value 65536 hs).
Proof.
  intros hs Hr. unfold compress_hextets. destruct (zero_run 0 0 0 0 0 hs) as [bs bl] eqn:Ez.
  apply (zero_run_spec hs hs) in Ez as [Hle Hzero]; [|done|lia|lia|lia|lia]. change (length hs) with 8%nat in *. cbn [plus Nat.add] in Hle.
  assert (∀ k, bs ≤ k < bs + bl → nth k hs 0%Z = 0%Z)%nat as Hz by (intros k Hk; by apply nth_error_nth, Hzero).
  clear Hzero. unfold hs in *. repeat (apply Forall_cons in Hr as [? Hr]). clear Hr.
  destruct (Nat.ltb_spec 1 bl) as [Hb|_].
  - assert (bs ≤ 6)%nat by lia.
    destruct bs as [|[|[|[|[|[|[|bs]]]]]]], bl as [|[|[|[|[|[|[|[|[|bl]]]]]]]]]; try (exfalso; lia).
    all: try (exfalso; lia).
    all: repeat match goal with Hz : ∀ k, _ |- _ => pose proof (Hz 0%nat); pose proof (Hz 1%nat); pose proof (Hz 2%nat); pose proof (Hz 3%nat); pose proof (Hz 4%nat);
       pose proof (Hz 5%nat); pose proof (Hz 6%nat); pose proof (Hz 7%nat); clear Hz end; cbn [nth] in *.
    all: repeat match goal with H : (_ → _ = 0) |- _ => first [specialize (H ltac:(lia)); subst|clear H] end.
    all: cbn -[hex4 parse_hextet Z.pow bool_decide be_value]; rewrite ?blank_part, ?hex4_blank; cbn -[hex4 parse_hextet Z.pow bool_decide be_value].
    all: rewrite ?blank_part, ?hex4_blank; cbn -[hex4 parse_hextet Z.pow bool_decide be_value Z.mul Z.add].
    all: rewrite ?parse_hextet_str by done; cbn -[hex4 parse_hextet Z.pow bool_decide be_value Z.mul Z.add].
    all: eval_pow; f_equal; unfold be_value; cbn [fold_left]; lia.
  - unfold parse_ipv6_parts. cbn -[hex4 parse_hextet Z.pow bool_decide be_value]. rewrite ?hex4_blank.
    cbn -[hex4 parse_hextet Z.pow bool_decide be_value Z.mul Z.add]. rewrite ?hex4_blank.
    cbn -[hex4 parse_hextet Z.pow bool_decide be_value Z.mul Z.add]. by rewrite !parse_hextet_str by done.
Qed.

(** ** Addresses *)

Lemma compressed_parts hs w : w ∈ compress_hextets hs → w = "" ∨ ∃ h, w = hex4 h.
Proof.
  unfold compress_hextets. destruct (zero_run 0 0 0 0 0 hs) as [bs bl].
  assert (∀ k w, w ∈ drop k (hex4 <$> hs) ∨ w ∈ take k (hex4 <$> hs) → w = "" ∨ ∃ h, w = hex4 h) as Hin.
  { intros k v Hv. assert (v ∈ hex4 <$> hs) as (h & -> & _)%list_elem_of_fmap by (rewrite <-(take_drop k (hex4 <$> hs)), elem_of_app; tauto). eauto. }
  assert (∀ v, v ∈ [""] → v = "" ∨ ∃ h, v = hex4 h) as Hblank by (intros v ->%list_elem_of_singleton; by left).
  destruct (1 <? bl)%nat; [|intros (h & -> & _)%list_elem_of_fmap; eauto].
  destruct (bs =? 0)%nat; rewrite ?elem_of_cons, !elem_of_app; destruct (_ =? _)%nat; intros; destruct_or?; eauto.
Qed.

Lemma compressed_length hs : (length hs = 8)%nat → (3 <= length (compress_hextets hs) <= 9)%nat.
Proof.
  intros Hl. unfold compress_hextets. destruct (zero_run 0 0 0 0 0 hs) as [bs bl] eqn:Ez.
  apply (zero_run_spec hs hs) in Ez as [Hle _]; [|done|lia|lia|lia|lia].
  destruct (Nat.ltb_spec 1 bl); [|rewrite length_fmap; lia].
  destruct (Nat.eqb_spec bs 0), (Nat.eqb_spec (bs + bl) (length hs)); cbn [length];
    rewrite ?length_app, ?length_take, ?length_drop, ?length_fmap; cbn [length]; rewrite ?length_drop, ?length_fmap; lia.
Qed.

Lemma ipv6_hextets_digits n : ipv6_hextets n = be_digits 65536 8 n.
Proof.
  unfold ipv6_hextets. cbn [be_digits app fmap list_fmap seq]. rewrite !Z.div_div by lia.
  eval_pow. rewrite Z.div_1_r. reflexivity.
Qed.

Lemma parse_ipv6_str n : 0 ≤ n < 2 ^ 128 → parse_ipv6_int (str_ipv6_int n) = Some n.
Proof.
  intros Hn. unfold parse_ipv6_int, str_ipv6_int. rewrite ipv6_hextets_digits.
  pose proof (be_digits_range 65536 ltac:(lia) 8 n) as Hr. pose proof (be_digits_length 65536 8 n) as Hl.
  pose proof (be_value_digits 65536 ltac:(lia) 8 n) as Hv. rewrite Z.mod_small in Hv by (change (65536 ^ Z.of_nat 8) with (2 ^ 128); lia).
  set (hs := be_digits 65536 8 n) in *. pose proof (compressed_length hs Hl) as Hc.
  assert (split_on ":" (join ":" (compress_hextets hs)) = compress_hextets hs) as Hs.
  { apply split_on_join; [intros E; rewrite E in Hc; cbn in Hc; lia|]. intros w [->|[h ->]]%compressed_parts; [done|by apply hex4_no]. }
  rewrite Hs. destruct (String.eqb_spec (join ":" (compress_hextets hs)) "") as [E|_].
  { rewrite E in Hs. rewrite <-Hs in Hc. cbn in Hc. lia. }
  rewrite (proj2 (Nat.ltb_ge _ _)) by lia. unfold expand_ipv4_tail. destruct (last (compress_hextets hs)) as [w|] eqn:El.
  2: { apply last_None in El. rewrite El in Hc. cbn in Hc. lia. }
  assert (char_in "." w = false) as ->.
  { apply last_Some_elem_of, compressed_parts in El as [->|[h ->]]; [done|by apply hex4_no]. }
  cbn [mbind option_bind]. rewrite <-Hv. destruct hs as [|h0 [|h1 [|h2 [|h3 [|h4 [|h5 [|h6 [|h7 [|]]]]]]]]]; try done.
  by apply parse_compressed.
Qed.

(** The addresses [ip_address] gives *)
Definition in_space (a : ip) : Prop :=
  match a with
  | IPv4 n => 0 ≤ n < 2 ^ 32
  | IPv6 n sc => 0 ≤ n < 2 ^ 128 ∧ match sc with Some sc => sc ≠ "" ∧ char_in "%" sc = false ∧ char_in "/" sc = false | None => True end
  end.
Definition unscoped (a : ip) : bool := match a with IPv6 _ (Some _) => false | _ => true end.

Lemma str_ipv6_no c n : is_hex c = false → Ascii.eqb c ":" = false → char_in c (str_ipv6_int n) = false.
Proof.
  intros Hc Hd. unfold str_ipv6_int. apply (sforall_not_in (λ d, negb (Ascii.eqb c d))); [by rewrite Ascii.eqb_refl|].
  apply sforall_join; [by rewrite Hd|]. intros w [->|[h ->]]%compressed_parts; [done|].
  eapply sforall_impl; [|apply hex4_hex]. intros d H. apply negb_true_iff, Ascii.eqb_neq. intros ->. congruence.
Qed.

Lemma parse_octet_digits s z : parse_octet s = Some z → sforall is_09 s = true.
Proof. unfold parse_octet. case_match; [done|]. by destruct (sforall is_09 s). Qed.

Lemma parse_ipv4_chars s n : parse_ipv4 s = Some n → sforall (λ c, is_09 c || Ascii.eqb c ".") s = true.
Proof.
  unfold parse_ipv4. pose proof (join_split_on "." s) as Hj. destruct (split_on "." s) as [|a [|b [|c [|d [|]]]]]; try done.
  destruct (parse_octet a) as [za|] eqn:Ea; [|done]. destruct (parse_octet b) as [zb|] eqn:Eb; [|done].
  destruct (parse_octet c) as [zc|] eqn:Ec; [|done]. destruct (parse_octet d) as [zd|] eqn:Ed; [|done]. intros _.
  apply parse_octet_digits in Ea, Eb, Ec, Ed. rewrite <-Hj. apply sforall_join; [done|]. intros w Hw.
  apply (sforall_impl is_09); [by intros e ->|]. rewrite !elem_of_cons in Hw. destruct Hw as [->|[->|[->|[->|Hw]]]]; try done. by apply elem_of_nil in Hw.
Qed.

Lemma str_ipv6_colon n : 0 ≤ n < 2 ^ 128 → char_in ":" (str_ipv6_int n) = true.
Proof.
  intros Hn. destruct (char_in ":" (str_ipv6_int n)) eqn:E; [done|]. pose proof (parse_ipv6_str n Hn) as H. unfold parse_ipv6_int in H.
  case_match; [done|]. by rewrite split_on_none in H.
Qed.

Lemma ipv6_not_ipv4 n t : 0 ≤ n < 2 ^ 128 → parse_ipv4 (str_ipv6_int n +:+ t) = None.
Proof.
  intros Hn. destruct (parse_ipv4 _) as [m|] eqn:E; [|done]. apply parse_ipv4_chars in E.
  pose proof (sforall_not_in _ ":" _ eq_refl E) as H. by rewrite char_in_app, str_ipv6_colon in H.
Qed.

(** Printing and reading an address *)
Lemma ip_address_str a : in_space a → ip_address (str_ip a) = Some a.
Proof.
  destruct a as [n|n [sc|]]; intros Hn; cbn [str_ip in_space] in *; unfold ip_address.
  - assert (char_in "/" (str_ipv4 n) = false) as ->; [|by rewrite parse_ipv4_str].
    apply (sforall_not_in (λ d, is_09 d || Ascii.eqb d ".")); [done|]. apply sforall_join; [done|].
    intros w (z & -> & Hz)%list_elem_of_fmap. pose proof (octets_range n Hn) as Ho. rewrite Forall_forall in Ho. specialize (Ho z Hz).
    eapply sforall_impl; [|apply str_int_digits; lia]. intros d ->. done.
  - destruct Hn as (Hn & Hsc & Hp & Hs). rewrite ipv6_not_ipv4 by done.
    assert (char_in "/" (str_ipv6_int n +:+ "%" +:+ sc) = false) as Hslash.
    { rewrite !char_in_app, Hs, str_ipv6_no by done. done. }
    rewrite Hslash. unfold parse_ipv6. rewrite Hslash. change ("%" +:+ sc) with (String "%" sc). rewrite partition_app by by apply str_ipv6_no.
    rewrite (proj2 (String.eqb_neq sc "")), Hp, parse_ipv6_str by done. done.
  - destruct Hn as [Hn _]. rewrite <-(sapp_nil_r (str_ipv6_int n)). rewrite ipv6_not_ipv4 by done. rewrite sapp_nil_r, str_ipv6_no by done.
    unfold parse_ipv6. rewrite str_ipv6_no by done. rewrite partition_none by by apply str_ipv6_no. by rewrite parse_ipv6_str.
Qed.

(** ** What is read is in the address space *)

Lemma num_go_bound base s : 0 < base → ∀ acc, 0 ≤ acc → (∀ c, char_in c s = true → 0 ≤ digit_val c < base) →
  0 ≤ num_go base acc s < (acc + 1) * base ^ Z.of_nat (slen s).
Proof.
  intros Hb. induction s as [|c s IH]; intros acc Ha Hd; cbn [num_go slen String.length]; [cbn; lia|].
  assert (0 ≤ digit_val c < base) as Hc by (apply Hd; by rewrite char_in_cons, Ascii.eqb_refl).
  specialize (IH (acc * base + digit_val c) ltac:(nia)). rewrite Nat2Z.inj_succ, Z.pow_succ_r by lia.
  assert (∀ d, char_in d s = true → 0 ≤ digit_val d < base) as Hd' by (intros d H; apply Hd; rewrite char_in_cons, H; by rewrite orb_true_r).
  specialize (IH Hd'). pose proof (Z.pow_pos_nonneg base (Z.of_nat (slen s)) ltac:(lia) ltac:(lia)). nia.
Qed.

Lemma char_in_forall p c s : sforall p s = true → char_in c s = true → p c = true.
Proof.
  intros Hp Hc. destruct (p c) eqn:E; [done|]. by rewrite (sforall_not_in p c s E Hp) in Hc.
Qed.

Lemma hex_digit_val c : is_hex c = true → 0 ≤ digit_val c < 16.
Proof.
  intros H. pose proof (char_implies is_hex (λ c, (0 <=? digit_val c) && (digit_val c <? 16)) ltac:(by vm_compute) c H) as Hc. cbn beta in Hc. lia.
Qed.

Lemma parse_hextet_range s z : parse_hextet s = Some z → 0 ≤ z < 65536.
Proof.
  unfold parse_hextet. destruct (sforall is_hex s) eqn:Eh; [|done]. cbn [negb]. destruct (Nat.ltb_spec 4 (slen s)) as [|Hl]; [done|].
  case_match; [done|]. intros [= <-]. unfold num_value. pose proof (num_go_bound 16 s ltac:(lia) 0 ltac:(lia)) as Hb.
  specialize (Hb (λ c Hc, hex_digit_val c (char_in_forall _ _ _ Eh Hc))). assert (16 ^ Z.of_nat (slen s) ≤ 16 ^ 4) by (apply Z.pow_le_mono_r; lia). lia.
Qed.

Lemma hextets_value_range l : ∀ acc v k, 0 ≤ k → 0 ≤ acc < 65536 ^ k → hextets_value acc l = Some v → 0 ≤ v < 65536 ^ (k + Z.of_nat (length l)).
Proof.
  induction l as [|w l IH]; intros acc v k Hk Ha; cbn [hextets_value length].
  - intros [= <-]. by rewrite Z.add_0_r.
  - destruct (parse_hextet w) as [h|] eqn:Eh; [|done]. apply parse_hextet_range in Eh. cbn [mbind option_bind]. intros Hv.
    apply (IH _ _ (k + 1)) in Hv; [|lia|rewrite Z.pow_add_r by lia; nia]. by replace (k + Z.of_nat (S (length l))) with (k + 1 + Z.of_nat (length l)) by lia.
Qed.

Lemma parse_ipv6_parts_range parts v : parse_ipv6_parts parts = Some v → 0 ≤ v < 2 ^ 128.
Proof.
  assert (2 ^ 128 = 65536 ^ 8) as -> by done. unfold parse_ipv6_parts. case_match; [done|]. destruct (inner_blanks parts) as [|skip [|]] eqn:Ei; [| |done].
  - destruct (Nat.eqb_spec (length parts) 8) as [Hl|]; [|done]. case_match; [done|]. intros Hv.
    apply (hextets_value_range parts 0 v 0) in Hv; [|lia|lia]. by rewrite Hl in Hv.
  - set (first_blank := bool_decide _). set (last_blank := bool_decide _). set (hi := if first_blank then _ else _). set (lo := if last_blank then _ else _).
    case_match; [done|]. case_match; [done|]. destruct (Nat.leb_spec 8 (hi + lo)); [done|].
    assert (skip ∈ inner_blanks parts) as Hs by (rewrite Ei; left). unfold inner_blanks in Hs. apply elem_of_filterb in Hs as [Hs%elem_of_seq _].
    destruct (hextets_value 0 (take hi parts)) as [u|] eqn:Eu; [|done]. cbn [mbind option_bind]. intros Hv.
    apply (hextets_value_range _ 0 u 0) in Eu; [|lia|lia].
    assert (length (take hi parts) = hi) as Hhi by (rewrite length_take; unfold hi; destruct first_blank; lia). rewrite Hhi, Z.add_0_l in Eu.
    apply (hextets_value_range _ _ v (8 - Z.of_nat lo)) in Hv; [|lia|].
    + rewrite length_drop in Hv. replace (8 - Z.of_nat lo + Z.of_nat (length parts - (length parts - lo))) with 8 in Hv; [done|].
      assert (lo ≤ length parts)%nat by (unfold lo; destruct last_blank; lia). lia.
    + replace (8 - Z.of_nat lo) with (Z.of_nat hi + (8 - Z.of_nat (hi + lo))) by lia. rewrite Z.pow_add_r by lia.
      pose proof (Z.pow_pos_nonneg 65536 (8 - Z.of_nat (hi + lo)) ltac:(lia) ltac:(lia)). nia.
Qed.

Lemma parse_octet_range s z : parse_octet s = Some z → 0 ≤ z < 256.
Proof.
  unfold parse_octet. case_match; [done|]. destruct (sforall is_09 s) eqn:Ed; [|done]. cbn [negb]. case_match; [done|]. case_match; [done|].
  destruct (Z.ltb_spec 255 (num_value 10 s)); [done|]. intros [= <-]. split; [|lia]. unfold num_value.
  apply (num_go_bound 10 s ltac:(lia) 0 ltac:(lia)). intros c Hc. pose proof (char_in_forall _ _ _ Ed Hc) as Hd.
  pose proof (char_implies is_09 (λ c, (0 <=? digit_val c) && (digit_val c <? 10)) ltac:(by vm_compute) c Hd) as Hr. cbn beta in Hr. lia.
Qed.

Lemma parse_ipv4_range s n : parse_ipv4 s = Some n → 0 ≤ n < 2 ^ 32.
Proof.
  unfold parse_ipv4. destruct (split_on "." s) as [|a [|b [|c [|d [|]]]]]; try done.
  destruct (parse_octet a) as [za|] eqn:Ea; [|done]. destruct (parse_octet b) as [zb|] eqn:Eb; [|done].
  destruct (parse_octet c) as [zc|] eqn:Ec; [|done]. destruct (parse_octet d) as [zd|] eqn:Ed; [|done]. cbn [mbind option_bind].
  apply parse_octet_range in Ea, Eb, Ec, Ed. intros [= <-]. lia.
Qed.

Lemma parse_ipv6_int_range s n : parse_ipv6_int s = Some n → 0 ≤ n < 2 ^ 128.
Proof.
  unfold parse_ipv6_int. case_match; [done|]. case_match; [done|]. destruct (expand_ipv4_tail _); [|done]. apply parse_ipv6_parts_range.
Qed.

Lemma ip_address_range s a : ip_address s = Some a → in_space a.
Proof.
  unfold ip_address. destruct (if char_in "/" s then None else parse_ipv4 s) as [n|] eqn:E4.
  - intros [= <-]. destruct (char_in "/" s); [done|]. by apply parse_ipv4_range in E4.
  - unfold parse_ipv6. destruct (char_in "/" s) eqn:Es; [done|]. destruct (partition "%" s) as [[h [|]] scope] eqn:Ep.
    + apply partition_found in Ep as [Hs _]. destruct (String.eqb_spec scope ""); [done|]. destruct (char_in "%" scope) eqn:Ec; [done|]. cbn [orb].
      destruct (parse_ipv6_int h) eqn:E; [|done]. intros [= <-]. apply parse_ipv6_int_range in E. rewrite Hs, char_in_app, char_in_cons in Es.
      apply orb_false_iff in Es as [_ Es]. by apply orb_false_iff in Es as [_ Es].
    + destruct (parse_ipv6_int h) eqn:E; [|done]. intros [= <-]. by apply parse_ipv6_int_range in E.
Qed.

(** The text of an address that was read is read as the same address. *)
Lemma ip_address_canonical s a : ip_address s = Some a → ip_address (str_ip a) = Some a.
Proof. intros H. by eapply ip_address_str, ip_address_range. Qed.

Lemma str_ip_chars a : in_space a → unscoped a = true → sforall (λ c, is_hex c || Ascii.eqb c ":" || Ascii.eqb c ".") (str_ip a) = true.
Proof.
  destruct a as [n|n [sc|]]; intros Hn Hs; [|done|]; cbn [str_ip].
  - apply sforall_join; [done|]. intros w (z & -> & Hz)%list_elem_of_fmap. pose proof (octets_range n Hn) as Ho. rewrite Forall_forall in Ho.
    eapply sforall_impl; [|apply str_int_digits; specialize (Ho z Hz); lia]. intros d Hd. unfold is_hex. by rewrite Hd.
  - apply sforall_join; [done|]. intros w [->|[h ->]]%compressed_parts; [done|]. eapply sforall_impl; [|apply hex4_hex]. intros d Hd. by rewrite Hd.
Qed.
