(* ===== verification/Csv.v ===== *)
(** * The [csv] module

    Python's [csv] with its default dialect: the automaton of [csv.reader], the quoting of
    [csv.writer], [csv.DictReader], and that the reader gives back the rows written. *)

From S2P Require Import Prelude PyStr StrLemmas PyJson.

Definition CsvError (m : string) : pyexc := PyExc "Error" m.

Definition quote_char : ascii := "034".
Definition cr_char : ascii := "013".
Definition nl_char : ascii := "010".
Definition is_crlf (c : ascii) : bool := Ascii.eqb c nl_char || Ascii.eqb c cr_char.

(** ** The reader *)

Inductive csv_state := START_RECORD | START_FIELD | IN_FIELD | IN_QUOTED_FIELD | QUOTE_IN_QUOTED_FIELD | EAT_CRNL.

#[export] Instance csv_state_eq_dec : EqDecision csv_state.
Proof. solve_decision. Defined.

Record reader := mkReader { rd_state : csv_state; rd_field : string; rd_fields : list string }.

Definition start : reader := mkReader START_RECORD "" [].

(** [csv.field_size_limit()] *)
Definition FIELD_LIMIT : Z := 131072.

Definition add_char (c : ascii) (next : csv_state) (r : reader) : res reader :=
  if (FIELD_LIMIT <=? Z.of_nat (slen (rd_field r)))%Z
  then Raise (CsvError ("field larger than field limit (" +:+ str_int FIELD_LIMIT +:+ ")"))
  else Ok (mkReader next (rd_field r +:+ String c "") (rd_fields r)).

Definition save_field (next : csv_state) (r : reader) : reader := mkReader next "" (rd_fields r ++ [rd_field r]).
Definition go (next : csv_state) (r : reader) : reader := mkReader next (rd_field r) (rd_fields r).

(** One character in the state after [START_RECORD] *)
Definition start_field (c : ascii) (r : reader) : res reader :=
  if is_crlf c then Ok (save_field EAT_CRNL r)
  else if Ascii.eqb c quote_char then Ok (go IN_QUOTED_FIELD r)
  else if Ascii.eqb c "," then Ok (save_field START_FIELD r)
  else add_char c IN_FIELD r.

Definition csv_char (c : ascii) (r : reader) : res reader :=
  match rd_state r with
  | START_RECORD => if is_crlf c then Ok (go EAT_CRNL r) else start_field c r
  | START_FIELD => start_field c r
  | IN_FIELD =>
      if is_crlf c then Ok (save_field EAT_CRNL r)
      else if Ascii.eqb c "," then Ok (save_field START_FIELD r)
      else add_char c IN_FIELD r
  | IN_QUOTED_FIELD =>
      if Ascii.eqb c quote_char then Ok (go QUOTE_IN_QUOTED_FIELD r) else add_char c IN_QUOTED_FIELD r
  | QUOTE_IN_QUOTED_FIELD =>
      if Ascii.eqb c quote_char then add_char c IN_QUOTED_FIELD r
      else if Ascii.eqb c "," then Ok (save_field START_FIELD r)
      else if is_crlf c then Ok (save_field EAT_CRNL r)
      else add_char c IN_FIELD r
  | EAT_CRNL =>
      if is_crlf c then Ok r
      else Raise (CsvError "new-line character seen in unquoted field - do you need to open the file with newline=''?")
  end.

(** The end of a line *)
Definition csv_eol (r : reader) : reader :=
  match rd_state r with
  | START_RECORD | IN_QUOTED_FIELD => r
  | START_FIELD | IN_FIELD | QUOTE_IN_QUOTED_FIELD => save_field START_RECORD r
  | EAT_CRNL => go START_RECORD r
  end.

(** A record ends with the line that leaves the automaton in its first state. *)
Definition end_line (r : reader) (rows : list (list string)) : reader * list (list string) :=
  let r := csv_eol r in
  if bool_decide (rd_state r = START_RECORD) then (start, rows ++ [rd_fields r]) else (r, rows).

(** The rows of a text, whose lines end at a newline only; [pending] when the line has
    characters *)
Fixpoint csv_run (pending : bool) (r : reader) (rows : list (list string)) (s : string) : res (list (list string)) :=
  match s with
  | "" =>
      let '(r, rows) := if pending then end_line r rows else (r, rows) in
      Ok (if negb (String.eqb (rd_field r) "") || bool_decide (rd_state r = IN_QUOTED_FIELD)
          then rows ++ [rd_fields r ++ [rd_field r]] else rows)
  | String c s =>
      r ← csv_char c r;
      if Ascii.eqb c nl_char then let '(r, rows) := end_line r rows in csv_run false r rows s
      else csv_run true r rows s
  end.

(** [list(csv.reader(StringIO(text)))] *)
Definition csv_reader (text : string) : res (list (list string)) := csv_run false start [] text.

(** ** The writer *)

Definition csv_special (c : ascii) : bool := Ascii.eqb c "," || Ascii.eqb c quote_char || is_crlf c.

Fixpoint double_quotes (s : string) : string :=
  match s with
  | "" => ""
  | String c s => if Ascii.eqb c quote_char then String c (String c (double_quotes s)) else String c (double_quotes s)
  end.

Definition quoted_field (s : string) : string := String quote_char (double_quotes s +:+ String quote_char "").
Definition csv_field (s : string) : string := if sexists csv_special s then quoted_field s else s.

(** A single empty field is quoted. *)
Definition csv_row (fields : list string) : string :=
  (match fields with [f] => if String.eqb f "" then quoted_field f else csv_field f | _ => join "," (csv_field <$> fields) end)
  +:+ String cr_char (String nl_char "").

(** What [csv.writer(out).writerow] writes for the rows *)
Definition csv_writer (rows : list (list string)) : string := String.concat "" (csv_row <$> rows).

(** ** Dictionaries *)

(** A row of [csv.DictReader]: the named fields, [None] where the row is short, and what a
    longer row has besides *)
Record dict_row := mkDict { dr_fields : gmap string json; dr_rest : option (list string) }.

Fixpoint zip_row (names row : list string) (d : gmap string json) : dict_row :=
  match names, row with
  | n :: names, v :: row => zip_row names row (<[n := JStr v]> d)
  | [], [] => mkDict d None
  | [], row => mkDict d (Some row)
  | names, [] => mkDict (fold_left (λ d n, <[n := JNull]> d) names d) None
  end.

(** The field names, and the rows that are not blank *)
Definition dict_reader (text : string) : res (list string * list dict_row) :=
  rows ← csv_reader text;
  Ok (match rows with
      | [] => ([], [])
      | names :: rows => (names, (λ row, zip_row names row ∅) <$> List.filter (λ row, negb (bool_decide (row = []))) rows)
      end).

(** [row.get(name, default)] *)
Definition row_get (name : string) (dflt : json) (d : dict_row) : json := default dflt (dr_fields d !! name).

(** ** Reading what was written *)

Lemma end_line_open f fs rows : end_line (mkReader IN_QUOTED_FIELD f fs) rows = (mkReader IN_QUOTED_FIELD f fs, rows).
Proof. done. Qed.

Lemma add_char_fits st c next f fs :
  (Z.of_nat (slen f) < FIELD_LIMIT)%Z → add_char c next (mkReader st f fs) = Ok (mkReader next (f +:+ String c "") fs).
Proof. intros H. unfold add_char. cbn [rd_field rd_fields]. by rewrite (proj2 (Z.leb_gt _ _)) by done. Qed.

Lemma run_char c s p r rows r' :
  csv_char c r = Ok r' → Ascii.eqb c nl_char = false → csv_run p r rows (String c s) = csv_run true r' rows s.
Proof. intros H Hc. cbn [csv_run]. rewrite H. cbn [mbind res_bind]. by rewrite Hc. Qed.

(** The text of a quoted field is read up to its last quote. *)
Lemma run_quoted s : ∀ pending f fs rows t,
  (Z.of_nat (slen f + slen s) ≤ FIELD_LIMIT)%Z →
  csv_run pending (mkReader IN_QUOTED_FIELD f fs) rows (double_quotes s +:+ String quote_char t)
  = csv_run true (mkReader QUOTE_IN_QUOTED_FIELD (f +:+ s) fs) rows t.
Proof.
  induction s as [|c s IH]; intros pending f fs rows t Hl; [by rewrite sapp_nil_r|].
  cbn [slen String.length] in Hl. assert (Z.of_nat (slen f) < FIELD_LIMIT)%Z as Hf by lia.
  assert (∀ p, csv_run p (mkReader IN_QUOTED_FIELD (f +:+ String c "") fs) rows (double_quotes s +:+ String quote_char t)
    = csv_run true (mkReader QUOTE_IN_QUOTED_FIELD (f +:+ String c s) fs) rows t) as Hstep.
  { intros p. rewrite IH by (rewrite slen_app; cbn [slen String.length]; lia). by rewrite sapp_assoc. }
  cbn [double_quotes]. destruct (Ascii.eqb_spec c quote_char) as [->|Hc].
  - rewrite !app_cons. rewrite (run_char _ _ _ _ _ (mkReader QUOTE_IN_QUOTED_FIELD f fs)) by done.
    rewrite (run_char _ _ _ _ _ (mkReader IN_QUOTED_FIELD (f +:+ String quote_char "") fs)); [apply Hstep|by apply (add_char_fits QUOTE_IN_QUOTED_FIELD)|done].
  - rewrite app_cons. cbn [csv_run]. unfold csv_char. cbn [rd_state]. rewrite (proj2 (Ascii.eqb_neq c quote_char) Hc).
    rewrite add_char_fits by done. cbn [mbind res_bind]. destruct (Ascii.eqb c nl_char); [rewrite end_line_open|]; apply Hstep.
Qed.

(** A plain field is read up to the character that ends it. *)
Lemma run_plain s : ∀ f fs rows t,
  (Z.of_nat (slen f + slen s) ≤ FIELD_LIMIT)%Z → sexists csv_special s = false →
  csv_run true (mkReader IN_FIELD f fs) rows (s +:+ t) = csv_run true (mkReader IN_FIELD (f +:+ s) fs) rows t.
Proof.
  induction s as [|c s IH]; intros f fs rows t Hl Hs; [by rewrite sapp_nil_r|].
  rewrite sexists_cons in Hs. apply orb_false_iff in Hs as [Hc Hs]. cbn [slen String.length] in Hl.
  unfold csv_special in Hc. rewrite !orb_false_iff in Hc. destruct Hc as [[Hc1 Hc2] Hc3].
  rewrite app_cons. erewrite run_char; [|unfold csv_char; cbn [rd_state]; rewrite Hc3, Hc1; apply add_char_fits; lia|by apply orb_false_iff in Hc3 as [-> _]].
  rewrite IH by (done || (rewrite slen_app; cbn [slen String.length]; lia)). by rewrite sapp_assoc.
Qed.

(** Where a field can begin *)
Definition fresh (r : reader) : Prop := rd_field r = "" ∧ (rd_state r = START_FIELD ∨ rd_state r = START_RECORD ∧ rd_fields r = []).

(** After a field, with what ends it *)
Lemma run_field s r p rows c t :
  fresh r → (Z.of_nat (slen s) ≤ FIELD_LIMIT)%Z → c = ","%char ∨ (c = cr_char ∧ (s ≠ "" ∨ rd_state r = START_FIELD)) →
  csv_run p r rows (csv_field s +:+ String c t)
  = csv_run true (mkReader (if Ascii.eqb c "," then START_FIELD else EAT_CRNL) "" (rd_fields r ++ [s])) rows t.
Proof.
  intros [Hf Hst] Hl Hc. destruct r as [st f fs]. cbn [rd_field rd_state rd_fields] in *. subst f.
  assert (Hnl : Ascii.eqb c nl_char = false) by (destruct Hc as [->|[-> _]]; done).
  unfold csv_field. destruct (sexists csv_special s) eqn:Es.
  - unfold quoted_field. rewrite app_cons, sapp_assoc, app_cons, app_nil_s.
    rewrite (run_char _ _ _ _ _ (mkReader IN_QUOTED_FIELD "" fs)) by (done || by destruct Hst as [->|[-> _]]).
    rewrite run_quoted, app_nil_s by done. apply run_char; [by destruct Hc as [->|[-> _]]|done].
  - destruct s as [|d s].
    + apply run_char; [|done]. destruct Hc as [->|[-> [?|Hs]]]; [by destruct Hst as [->|[-> ->]]|done|].
      destruct Hst as [->|[-> _]]; done.
    + rewrite app_cons. rewrite sexists_cons in Es. apply orb_false_iff in Es as [Ed Es].
      unfold csv_special in Ed. rewrite !orb_false_iff in Ed. destruct Ed as [[E1 E2] E3].
      rewrite (run_char _ _ _ _ _ (mkReader IN_FIELD (String d "") fs)).
      2: { unfold csv_char, start_field. cbn [rd_state]. destruct Hst as [->|[-> _]]; rewrite E3, ?E2, ?E1; by apply add_char_fits. }
      2: by apply orb_false_iff in E3 as [-> _].
      rewrite run_plain by (cbn [slen String.length] in *; done || lia). apply run_char; [by destruct Hc as [->|[-> _]]|done].
Qed.

Lemma run_end p fs rows t : csv_run p (mkReader EAT_CRNL "" fs) rows (String nl_char t) = csv_run false start (rows ++ [fs]) t.
Proof. done. Qed.

Lemma run_fields f fields : ∀ p r rows t,
  fresh r → Forall (λ s, (Z.of_nat (slen s) ≤ FIELD_LIMIT)%Z) (f :: fields) → fields ≠ [] ∨ f ≠ "" ∨ rd_state r = START_FIELD →
  csv_run p r rows (join "," (csv_field <$> f :: fields) +:+ String cr_char (String nl_char t))
  = csv_run false start (rows ++ [rd_fields r ++ f :: fields]) t.
Proof.
  revert f. induction fields as [|g fields IH]; intros f p r rows t Hr Hl Hne; apply Forall_cons in Hl as [Hf Hl].
  - cbn [fmap list_fmap join]. rewrite run_field; [apply run_end|done|done|]. right. split; [done|]. destruct Hne as [?|Hne]; [done|exact Hne].
  - rewrite fmap_cons, join_cons by done. rewrite !sapp_assoc. rewrite app_cons, app_nil_s. rewrite run_field by (done || by left).
    cbn [Ascii.eqb]. change (Ascii.eqb "," ",") with true. cbn iota. rewrite IH; [cbn [rd_fields]; by rewrite <-app_assoc| |done|by right; right].
    split; [done|by left].
Qed.

Lemma run_row fields rows t :
  Forall (λ s, (Z.of_nat (slen s) ≤ FIELD_LIMIT)%Z) fields →
  csv_run false start rows (csv_row fields +:+ t) = csv_run false start (rows ++ [fields]) t.
Proof.
  intros Hl. assert (fresh start) as Hs by (split; [done|by right]). unfold csv_row. rewrite sapp_assoc, !app_cons, app_nil_s.
  destruct fields as [|f [|g fields]]; [done| |by apply run_fields; auto].
  destruct (String.eqb_spec f "") as [->|Hne]; [done|]. apply (run_fields f []); auto.
Qed.

(** The reader gives back every table of texts that the writer wrote. *)
Theorem csv_roundtrip rows :
  Forall (Forall (λ s, (Z.of_nat (slen s) ≤ FIELD_LIMIT)%Z)) rows → csv_reader (csv_writer rows) = Ok rows.
Proof.
  intros H. unfold csv_reader, csv_writer. rewrite <-(app_nil_l rows) at 2. generalize (@nil (list string)) as done_rows.
  induction H as [|row rows Hrow _ IH]; intros done_rows; [by rewrite app_nil_r|].
  assert (String.concat "" (csv_row <$> row :: rows) = csv_row row +:+ String.concat "" (csv_row <$> rows)) as ->.
  { rewrite fmap_cons. cbn [String.concat]. destruct (csv_row <$> rows); [by rewrite sapp_nil_r|done]. }
  rewrite run_row by done. rewrite IH. by rewrite <-app_assoc.
Qed.

Example csv_ex1 :
  csv_reader ("a,'b" +:+ dquote +:+ "',,c" +:+ nl +:+ dquote +:+ "x,y" +:+ nl +:+ dquote +:+ dquote +:+ "z" +:+ dquote +:+ cr +:+ nl +:+ nl +:+ "1,2")
  = Ok [["a"; "'b" +:+ dquote +:+ "'"; ""; "c"]; ["x,y" +:+ nl +:+ dquote +:+ "z"]; []; ["1"; "2"]].
Proof. vm_compute. reflexivity. Qed.
Example csv_ex2 : csv_writer [["a,b"; ""; "c" +:+ dquote]; [""]; []] =
  dquote +:+ "a,b" +:+ dquote +:+ ",," +:+ dquote +:+ "c" +:+ dquote +:+ dquote +:+ dquote +:+ cr +:+ nl +:+ dquote +:+ dquote +:+ cr +:+ nl +:+ cr +:+ nl.
Proof. vm_compute. reflexivity. Qed.
