(* ===== verification/World.v ===== *)
(** * Files and commands

    The deployment code reads and writes files and runs commands ([rndc],
    [named-checkconf], [systemctl], [dnsdist], [dig]).  [M] is a state and
    exception monad over the files, the commands run so far and the answers the
    next commands give: a theorem about every world covers every way the commands
    can behave.  Local file operations fail only on a missing path. *)

From S2P Require Import Prelude PyStr StrLemmas.

(** What one command does: it exits, or it cannot be started. *)
Inductive outcome := Exited (code : Z) (stdout : string) | NotStarted (e : pyexc).

Record world := mkWorld {
  w_files : gmap string string;
  w_log : list (list string);           (* the commands, oldest first *)
  w_answers : nat → outcome;            (* the answer to the n-th command *)
}.

Definition M (A : Type) : Type := world → res A * world.

#[export] Instance M_ret : MRet M := λ A a w, (Ok a, w).
#[export] Instance M_bind : MBind M := λ A B f m w,
  match m w with
  | (Ok a, w) => f a w
  | (Raise e, w) => (Raise e, w)
  end.

Definition raise {A} (e : pyexc) : M A := λ w, (Raise e, w).
Definition lift {A} (r : res A) : M A := λ w, (r, w).

(** [try: m except Exception as e: h(e)] *)
Definition try_except {A} (m : M A) (h : pyexc → M A) : M A := λ w,
  match m w with
  | (Ok a, w) => (Ok a, w)
  | (Raise e, w) => h e w
  end.

(** A try block whose handler runs later, with local variables in between. *)
Definition attempt {A} (m : M A) : M (res A) := λ w, let '(r, w) := m w in (Ok r, w).

(** [try: m finally: f] *)
Definition try_finally {A} (m : M A) (f : M ()) : M A := λ w,
  let '(r, w) := m w in
  match f w with
  | (Ok _, w) => (r, w)
  | (Raise e, w) => (Raise e, w)
  end.

Fixpoint for_each {A B} (l : list A) (f : A → M B) : M (list B) :=
  match l with
  | [] => mret []
  | x :: l => y ← f x; ys ← for_each l f; mret (y :: ys)
  end.

Definition when (c : bool) (m : M ()) : M () := if c then m else mret ().

(** ** Files *)

Definition get_file (path : string) : M (option string) := λ w, (Ok (w_files w !! path), w).
Definition exists_ (path : string) : M bool := λ w, (Ok (bool_decide (is_Some (w_files w !! path))), w).
Definition FileNotFound (path : string) : pyexc :=
  PyExc "FileNotFoundError" ("[Errno 2] No such file or directory: '" +:+ path +:+ "'").
Definition read_text (path : string) : M string := λ w,
  (match w_files w !! path with Some t => Ok t | None => Raise (FileNotFound path) end, w).
Definition write_text (path text : string) : M () := λ w, (Ok (), w{{w_files ::= <[path := text]>}}).
Definition unlink (path : string) : M () := λ w,
  match w_files w !! path with
  | Some _ => (Ok (), w{{w_files ::= delete path}})
  | None => (Raise (FileNotFound path), w)
  end.
(** [shutil.copy2(src, dst)] *)
Definition copy2 (src dst : string) : M () := t ← read_text src; write_text dst t.
(** [os.replace(src, dst)] *)
Definition replace (src dst : string) : M () := t ← read_text src; _ ← unlink src; write_text dst t.
(** [shutil.rmtree(dir, ignore_errors=True)]: [dir] ends with a slash. *)
Definition rmtree (dir : string) : M () := λ w,
  (Ok (), w{{w_files ::= filter (λ kv, starts_with dir kv.1 = false)}}).

(** *** Directories

    A directory is the entry whose path ends with a slash. *)
Definition mkdir (dir : string) : M () := λ w,
  (Ok (), w{{w_files ::= (λ f : gmap string string,
     match f !! dir with Some _ => f | None => <[dir := ""]> f end)}}).

(** The entries below [src], moved below [dst]. *)
Definition moved (src dst : string) (f : gmap string string) : list (string * string) :=
  omap (λ '(p, t), if starts_with src p then Some (dst +:+ sdrop (slen src) p, t) else None)
    (map_to_list f).

(** [shutil.copytree(src, dst, dirs_exist_ok=True)] *)
Definition copytree (src dst : string) : M () := λ w,
  (Ok (), w{{w_files ::= (λ f : gmap string string, list_to_map (moved src dst f) ∪ f)}}).

(** The files directly in [dir] with the suffix [ext]. *)
Definition glob (dir ext : string) : M (list string) := λ w,
  (Ok (List.filter (λ p, starts_with dir p && ends_with ext p
                          && negb (char_in "/" (sdrop (slen dir) p)))
         (map_to_list (w_files w)).*1), w).

(** ** Commands *)

Definition CalledProcessError (command : list string) (code : Z) : pyexc :=
  PyExc "CalledProcessError"
    ("Command '['" +:+ join "', '" command +:+ "']' returned non-zero exit status "
     +:+ str_int code +:+ ".").

(** app/alderpointdns_compiler.py:1103-1104 run *)
Definition run (command : list string) (check : bool) : M (Z * string) := λ w,
  let w' := w{{w_log ::= (λ l, l ++ [command])}} in
  match w_answers w (length (w_log w)) with
  | NotStarted e => (Raise e, w')
  | Exited code out =>
      (if check && negb (code =? 0)%Z then Raise (CalledProcessError command code) else Ok (code, out), w')
  end.

Definition run_ (command : list string) (check : bool) : M () := _ ← run command check; mret ().

(** ** Equations *)

Lemma bind_M {A B} (m : M A) (f : A → M B) w :
  (m ≫= f) w = match m w with (Ok a, w) => f a w | (Raise e, w) => (Raise e, w) end.
Proof. done. Qed.

Lemma bind_inv {A B} (m : M A) (f : A → M B) w b w' :
  (m ≫= f) w = (Ok b, w') → ∃ a w1, m w = (Ok a, w1) ∧ f a w1 = (Ok b, w').
Proof. rewrite bind_M. destruct (m w) as [[a|] w1]; [|done]. eauto. Qed.
Lemma lift_inv {A} (r : res A) w a w' : lift r w = (Ok a, w') → r = Ok a ∧ w' = w.
Proof. unfold lift. intros [= -> ->]. done. Qed.

(** ** Frames

    [writes S C m]: whatever happens, [m] touches only files in [S], runs only
    commands in [C], and keeps the log's past and the answers. *)
Record frame (S : string → Prop) (C : list string → Prop) (w w' : world) : Prop := {
  frame_files : ∀ p, ¬ S p → w_files w' !! p = w_files w !! p;
  frame_answers : w_answers w' = w_answers w;
  frame_log : ∃ l, w_log w' = w_log w ++ l ∧ Forall C l;
}.

Definition writes {A} (S : string → Prop) (C : list string → Prop) (m : M A) : Prop :=
  ∀ w, frame S C w (m w).2.

Lemma frame_files_only (S : string → Prop) C w w' :
  (∀ p, ¬ S p → w_files w' !! p = w_files w !! p) → w_answers w' = w_answers w →
  w_log w' = w_log w → frame S C w w'.
Proof. intros HF HA HL. split; [done..|]. exists []. by rewrite app_nil_r. Qed.

Lemma frame_refl S C w : frame S C w w.
Proof. by apply frame_files_only. Qed.

Lemma frame_trans S C w1 w2 w3 : frame S C w1 w2 → frame S C w2 w3 → frame S C w1 w3.
Proof.
  intros [F1 A1 (l1 & L1 & C1)] [F2 A2 (l2 & L2 & C2)]. split.
  - intros p Hp. by rewrite F2, F1.
  - congruence.
  - exists (l1 ++ l2). rewrite L2, L1, app_assoc. split; [done|]. by apply Forall_app.
Qed.

Lemma frame_mono (S T : string → Prop) (C D : list string → Prop) w w' :
  (∀ p, S p → T p) → (∀ c, C c → D c) → frame S C w w' → frame T D w w'.
Proof.
  intros HST HCD [F A (l & L & HC)]. split; [|done|].
  - intros p Hp. apply F. auto.
  - exists l. split; [done|]. by eapply Forall_impl.
Qed.

Section rules.
Context (S : string → Prop) (C : list string → Prop).

Lemma writes_ret {A} (a : A) : writes S C (mret a).
Proof. intros w. apply frame_refl. Qed.
Lemma writes_raise {A} e : writes S C (raise (A := A) e).
Proof. intros w. apply frame_refl. Qed.
Lemma writes_lift {A} (r : res A) : writes S C (lift r).
Proof. intros w. apply frame_refl. Qed.
Lemma writes_bind {A B} (m : M A) (f : A → M B) :
  writes S C m → (∀ a, writes S C (f a)) → writes S C (m ≫= f).
Proof.
  intros Hm Hf w. specialize (Hm w). rewrite bind_M.
  destruct (m w) as [[a|e] w1]; [|done]. eapply frame_trans; [exact Hm|apply Hf].
Qed.
Lemma writes_try {A} (m : M A) h :
  writes S C m → (∀ e, writes S C (h e)) → writes S C (try_except m h).
Proof.
  intros Hm Hh w. specialize (Hm w). unfold try_except.
  destruct (m w) as [[a|e] w1]; [done|]. eapply frame_trans; [exact Hm|apply Hh].
Qed.
Lemma writes_attempt {A} (m : M A) : writes S C m → writes S C (attempt m).
Proof. intros Hm w. specialize (Hm w). unfold attempt. by destruct (m w). Qed.
Lemma writes_finally {A} (m : M A) f : writes S C m → writes S C f → writes S C (try_finally m f).
Proof.
  intros Hm Hf w. specialize (Hm w). unfold try_finally.
  destruct (m w) as [r w1]. specialize (Hf w1).
  destruct (f w1) as [[u|e] w2]; by eapply frame_trans.
Qed.
Lemma writes_each {A B} (l : list A) (f : A → M B) :
  (∀ x, x ∈ l → writes S C (f x)) → writes S C (for_each l f).
Proof.
  induction l as [|x l IH]; intros Hf; simpl; [apply writes_ret|].
  apply writes_bind; [apply Hf; left|]. intros y.
  apply writes_bind; [apply IH; intros; apply Hf; by right|]. intros ys. apply writes_ret.
Qed.
Lemma writes_when c m : writes S C m → writes S C (when c m).
Proof. destruct c; [done|]. intros _. apply writes_ret. Qed.
Lemma writes_get p : writes S C (get_file p).
Proof. intros w. apply frame_refl. Qed.
Lemma writes_exists p : writes S C (exists_ p).
Proof. intros w. apply frame_refl. Qed.
Lemma writes_read p : writes S C (read_text p).
Proof. intros w. apply frame_refl. Qed.
Lemma writes_write p t : S p → writes S C (write_text p t).
Proof.
  intros Hp w. apply frame_files_only; [|done..].
  intros q Hq. simpl. by rewrite lookup_insert_ne by (intros ->; auto).
Qed.
Lemma writes_unlink p : S p → writes S C (unlink p).
Proof.
  intros Hp w. unfold unlink. destruct (w_files w !! p); [|apply frame_refl].
  apply frame_files_only; [|done..].
  intros q Hq. simpl. by rewrite lookup_delete_ne by (intros ->; auto).
Qed.
Lemma writes_copy2 p q : S q → writes S C (copy2 p q).
Proof. intros. apply writes_bind; [apply writes_read|]. intros. by apply writes_write. Qed.
Lemma writes_replace p q : S p → S q → writes S C (replace p q).
Proof.
  intros. apply writes_bind; [apply writes_read|]. intros t.
  apply writes_bind; [by apply writes_unlink|]. intros. by apply writes_write.
Qed.
Lemma writes_rmtree d : (∀ p, starts_with d p = true → S p) → writes S C (rmtree d).
Proof.
  intros Hd w. apply frame_files_only; [|done..].
  intros p Hp. simpl. destruct (w_files w !! p) as [t|] eqn:E.
  - apply map_lookup_filter_Some_2; [done|]. simpl. destruct (starts_with d p) eqn:F; [|done].
    destruct Hp. by apply Hd.
  - apply map_lookup_filter_None. by left.
Qed.
Lemma writes_mkdir d : S d → writes S C (mkdir d).
Proof.
  intros Hd w. apply frame_files_only; [|done..].
  intros q Hq. destruct w as [f lg an]. simpl. destruct (f !! d); [done|].
  by rewrite lookup_insert_ne by (intros ->; auto).
Qed.
Lemma writes_copytree src dst : (∀ p, starts_with dst p = true → S p) → writes S C (copytree src dst).
Proof.
  intros Hd w. apply frame_files_only; [|done..]. intros p Hp. simpl.
  apply lookup_union_r. apply not_elem_of_list_to_map_1.
  intros ([q t] & -> & Hq)%list_elem_of_fmap. apply list_elem_of_omap in Hq as ([q' t'] & _ & Hq).
  cbn beta iota in Hq. destruct (starts_with src q'); [|discriminate].
  injection Hq as <- <-. apply Hp, Hd, starts_with_app.
Qed.
Lemma writes_glob d e : writes S C (glob d e).
Proof. intros w. apply frame_refl. Qed.
Lemma writes_glob_bind {A} d e (f : list string → M A) :
  (∀ l, (∀ p, p ∈ l → starts_with d p = true ∧ ends_with e p = true) → writes S C (f l)) →
  writes S C (glob d e ≫= f).
Proof.
  intros Hf w. rewrite bind_M. cbn [glob]. apply Hf. intros p [_ Hp]%elem_of_filterb. by bool_to_prop.
Qed.
Lemma writes_run c b : C c → writes S C (run c b).
Proof. intros Hc w. unfold run. destruct (w_answers w _); simpl; split; simpl; eauto. Qed.
Lemma writes_run_ c b : C c → writes S C (run_ c b).
Proof. intros. apply writes_bind; [by apply writes_run|]. intros. apply writes_ret. Qed.
End rules.

(** The frames of whole operations. *)
Create HintDb frames.

(** Decompose a program into its operations; what is left is which paths it writes
    and which commands it runs. *)
Ltac frames :=
  repeat first
    [ solve [auto 2 with frames nocore] | apply writes_ret | apply writes_raise | apply writes_lift | apply writes_get
    | apply writes_exists | apply writes_read | apply writes_run | apply writes_run_
    | apply writes_glob | apply writes_mkdir | apply writes_copytree; intros ? ?
    | apply writes_write | apply writes_unlink | apply writes_copy2 | apply writes_replace
    | apply writes_rmtree; intros ? ? | apply writes_when | apply writes_each; intros ? ?
    | apply writes_try; [|intros ?] | apply writes_attempt | apply writes_finally | apply writes_bind; [|intros ?]
    | match goal with |- writes _ _ (match ?x with _ => _ end) => destruct x end ].

Definition last_command (w : world) : option (list string) := last (w_log w).

(** A command that is checked and does not raise exited with status 0. *)
Lemma run_ok c w r w' :
  run_ c true w = (Ok r, w') →
  w' = w{{w_log ::= (λ l, l ++ [c])}} ∧ ∃ out, w_answers w (length (w_log w)) = Exited 0 out.
Proof.
  unfold run_, run. rewrite bind_M. destruct (w_answers w _) as [code out|e]; simpl; [|done].
  destruct (Z.eqb_spec code 0) as [->|]; simpl; [|done]. intros [= <- <-]. eauto.
Qed.

Lemma run_log c b w : (run_ c b w).2 = w{{w_log ::= (λ l, l ++ [c])}}.
Proof.
  unfold run_, run. rewrite bind_M. destruct (w_answers w _) as [code out|e]; simpl; [|done].
  by destruct (b && _).
Qed.

(** ** Copies *)

Lemma copy2_run src dst w t :
  w_files w !! src = Some t → copy2 src dst w = (Ok (), w{{w_files ::= <[dst := t]>}}).
Proof. intros Hs. unfold copy2. rewrite bind_M. unfold read_text. by rewrite Hs. Qed.

Lemma replace_run src dst w t :
  w_files w !! src = Some t →
  replace src dst w = (Ok (), w{{w_files := <[dst := t]> (delete src (w_files w))}}).
Proof.
  intros Hs. unfold replace. rewrite bind_M. unfold read_text. rewrite Hs, bind_M.
  unfold unlink. rewrite Hs. by destruct w.
Qed.

(** A saved file is put back; one that was not there is removed. *)
Lemma restore_file src dst w :
  ∃ w', (saved ← exists_ src; now ← exists_ dst;
         (if (saved : bool) then copy2 src dst else when now (unlink dst))) w = (Ok (), w')
    ∧ w_files w' !! dst = w_files w !! src
    ∧ (∀ p, p ≠ dst → w_files w' !! p = w_files w !! p).
Proof.
  rewrite bind_M. cbn [exists_]. rewrite bind_M. cbn [exists_].
  destruct (w_files w !! src) as [t|] eqn:Es.
  { rewrite bool_decide_eq_true_2 by eauto. erewrite copy2_run by done. eexists. split; [done|].
    destruct w as [f lg an]. simpl in *. rewrite lookup_insert_eq. split; [done|].
    intros p Hp. by rewrite lookup_insert_ne. }
  rewrite (bool_decide_eq_false_2 (is_Some None)) by by intros [? ?].
  unfold unlink, when. destruct (w_files w !! dst) as [t|] eqn:Ed.
  - rewrite bool_decide_eq_true_2 by eauto. rewrite Ed. eexists. split; [done|].
    destruct w as [f lg an]. simpl in *. rewrite lookup_delete_eq. split; [done|].
    intros p Hp. by rewrite lookup_delete_ne.
  - rewrite bool_decide_eq_false_2 by by intros [? ?]. exists w. done.
Qed.

(** ** Directory copies *)

Lemma moved_NoDup src dst f : NoDup (moved src dst f).*1.
Proof.
  unfold moved. pose proof (NoDup_fst_map_to_list f) as Hnd.
  induction (map_to_list f) as [|[p t] l IH]; [constructor|].
  cbn [fmap list_fmap fst] in Hnd. apply NoDup_cons in Hnd as [Hp Hnd].
  cbn [omap list_omap]. destruct (starts_with src p) eqn:E; [|by apply IH].
  cbn [fmap list_fmap fst]. apply NoDup_cons. split; [|by apply IH].
  intros ([q t'] & Hq & Hin)%list_elem_of_fmap. cbn [fst] in Hq.
  apply list_elem_of_omap in Hin as ([p' t''] & Hin & Hp').
  destruct (starts_with src p') eqn:E'; [|discriminate]. injection Hp' as <- _.
  apply (inj (String.append _)) in Hq. apply Hp.
  apply starts_with_spec in E as (u & ->), E' as (v & ->). rewrite !sdrop_app_length in Hq. subst v.
  by apply (list_elem_of_fmap_2 fst) in Hin.
Qed.

Lemma copytree_lookup src dst w q :
  w_files (copytree src dst w).2 !! (dst +:+ q)
  = match w_files w !! (src +:+ q) with Some t => Some t | None => w_files w !! (dst +:+ q) end.
Proof.
  destruct w as [f lg an]. simpl. destruct (f !! (src +:+ q)) as [t|] eqn:E.
  - apply lookup_union_Some_l, elem_of_list_to_map_1; [apply moved_NoDup|].
    apply list_elem_of_omap. exists (src +:+ q, t). split; [by apply elem_of_map_to_list|].
    cbn beta iota. by rewrite starts_with_app, sdrop_app_length.
  - apply lookup_union_r, not_elem_of_list_to_map_1.
    intros ([p t] & Hp & Hin)%list_elem_of_fmap. cbn [fst] in Hp. subst p.
    apply list_elem_of_omap in Hin as ([p' t'] & Hin & Hp').
    destruct (starts_with src p') eqn:E'; [|discriminate]. injection Hp' as Hq _.
    apply starts_with_spec in E' as (v & ->). rewrite sdrop_app_length in Hq.
    apply (inj (String.append _)) in Hq as ->. apply elem_of_map_to_list in Hin. congruence.
Qed.

Lemma rmtree_under d w p : starts_with d p = true → w_files (rmtree d w).2 !! p = None.
Proof.
  intros Hp. simpl. apply map_lookup_filter_None. right. intros t _. simpl. by rewrite Hp.
Qed.

Lemma rmtree_other d w p : starts_with d p = false → w_files (rmtree d w).2 !! p = w_files w !! p.
Proof.
  intros Hp. apply (frame_files (λ p, starts_with d p = true) (λ _, False)); [|congruence].
  by apply writes_rmtree.
Qed.

(** Loops whose body always returns. *)
Lemma for_each_ok {A B} (l : list A) (f : A → M B) (I : list A → world → Prop) w :
  I l w → (∀ x l' w, I (x :: l') w → ∃ b w', f x w = (Ok b, w') ∧ I l' w') →
  ∃ bs w', for_each l f w = (Ok bs, w') ∧ I [] w'.
Proof.
  intros Hw Hf. revert w Hw. induction l as [|x l IH]; intros w Hw.
  { exists [], w. done. }
  destruct (Hf x l w Hw) as (b & w1 & Hb & H1). destruct (IH w1 H1) as (bs & w2 & Hbs & H2).
  exists (b :: bs), w2. cbn [for_each]. rewrite bind_M, Hb, bind_M, Hbs. done.
Qed.
