(* ===== verification/Url.v ===== *)
(** * URLs

    [urllib.parse.urlparse] and the host name and port of its result, as
    [app/upstream_dns.py] uses them on the address of a DoH resolver. *)

From S2P Require Import Prelude PyStr PyJson IpAddr.

Record url := mkUrl {
  u_scheme : string; u_netloc : string; u_path : string;
  u_params : string; u_query : string; u_fragment : string }.

(** [s.rpartition(c)[2]] *)
Definition after_last (c : ascii) (s : string) : string := default "" (last (split_on c s)).
Definition before (c : ascii) (s : string) : string := (partition c s).1.1.
Definition after (c : ascii) (s : string) : string := (partition c s).2.

Definition is_alpha_ascii (c : ascii) : bool := is_lower_az c || is_upper_az c.
Definition scheme_char (c : ascii) : bool :=
  is_alpha_ascii c || is_09 c || bool_decide (c ∈ ["+"; "-"; "."]%char).
Definition netloc_char (c : ascii) : bool := negb (bool_decide (c ∈ ["/"; "?"; "#"]%char)).

Definition split_scheme (s : string) : string * string :=
  match find_char ":" s, shead s with
  | Some i, Some c =>
      if (0 <? i) && is_alpha_ascii c && sforall scheme_char (stake i s)
      then (lower (stake i s), sdrop (S i) s) else ("", s)
  | _, _ => ("", s)
  end.

(** The address in brackets must be an IPv6 address or [v<hex>.<text>]. *)
Definition check_bracketed_host (host : string) : res unit :=
  if starts_with "v" host then
    let '(version, dot, rest) := partition "." (sdrop 1 host) in
    raise_if (negb (dot && negb (String.eqb version "") && sforall is_hex version && negb (String.eqb rest "")
                    && negb (char_in "010" rest)))
      (ValueError "IPvFuture address is invalid")
  else
    match ip_address host with
    | None => Raise (ValueError ("'" +:+ host +:+ "' does not appear to be an IPv4 or IPv6 address"))
    | Some a => raise_if (is_v4 a) (ValueError "An IPv4 address cannot be in brackets")
    end.

Definition check_bracketed_netloc (netloc : string) : res unit :=
  let host_and_port := after_last "@" netloc in
  let '(before_bracket, open, bracketed) := partition "[" host_and_port in
  if open then
    let '(host, _, port) := partition "]" bracketed in
    _ ← raise_if (negb (String.eqb before_bracket "")) (ValueError "Invalid IPv6 URL");
    _ ← raise_if (negb (String.eqb port "") && negb (starts_with ":" port)) (ValueError "Invalid IPv6 URL");
    check_bracketed_host host
  else check_bracketed_host (before ":" host_and_port).

Definition uses_params : list string :=
  [""; "ftp"; "hdl"; "prospero"; "http"; "imap"; "https"; "shttp"; "rtsp"; "rtspu"; "sip"; "sips"; "mms"; "sftp"; "tel"].

(** The parameters follow the first semicolon of the last segment. *)
Definition split_params (path : string) : string * string :=
  match rfind "/" path with
  | Some i =>
      let tail := sdrop i path in
      if char_in ";" tail then (stake i path +:+ before ";" tail, after ";" tail) else (path, "")
  | None => if char_in ";" path then (before ";" path, after ";" path) else (path, "")
  end.

Section parse.
(** Whether a network location that is not ASCII stays free of delimiters under the
    NFKC normalisation. *)
Context (nfkc_safe : string → bool).

Definition urlparse (raw : string) : res url :=
  let text := replace_all nl "" (replace_all cr "" (replace_all tab "" (lstrip_by (λ c, (code c <=? 32)%N) raw))) in
  let '(scheme, rest) := split_scheme text in
  let '(netloc, rest) :=
    if starts_with "//" rest
    then (take_while netloc_char (sdrop 2 rest), lstrip_by netloc_char (sdrop 2 rest)) else ("", rest) in
  _ ← raise_if (xorb (char_in "[" netloc) (char_in "]" netloc)) (ValueError "Invalid IPv6 URL");
  _ ← (if char_in "[" netloc then check_bracketed_netloc netloc else Ok ());
  let '(rest, _, fragment) := partition "#" rest in
  let '(rest, _, query) := partition "?" rest in
  _ ← raise_if (negb (String.eqb netloc "") && negb (isascii netloc) && negb (nfkc_safe netloc))
        (ValueError ("netloc '" +:+ netloc +:+ "' contains invalid characters under NFKC normalization"));
  let '(path, params) := if bool_decide (scheme ∈ uses_params) then split_params rest else (rest, "") in
  Ok (mkUrl scheme netloc path params query fragment).
End parse.

Definition hostinfo (u : url) : string * option string :=
  let info := after_last "@" (u_netloc u) in
  let '(_, open, bracketed) := partition "[" info in
  let '(host, port) :=
    if open then (before "]" bracketed, after ":" (after "]" bracketed))
    else (before ":" info, after ":" info) in
  (host, if String.eqb port "" then None else Some port).

(** [hostname]: in lower case up to a scope. *)
Definition url_hostname (u : url) : option string :=
  let host := (hostinfo u).1 in
  if String.eqb host "" then None
  else let '(name, percent, zone) := partition "%" host in
       Some (lower name +:+ (if percent then "%" else "") +:+ zone).

Definition url_port (u : url) : res (option Z) :=
  match (hostinfo u).2 with
  | None => Ok None
  | Some port =>
      if isdigit port && isascii port then
        let n := num_value 10 port in
        if (65535 <? n)%Z then Raise (ValueError "Port out of range 0-65535") else Ok (Some n)
      else Raise (ValueError ("Port could not be cast to integer value as '" +:+ port +:+ "'"))
  end.

(** ** Checked against the interpreter *)

Definition url_view (raw : string) : option (string * option string * option Z * string * string) :=
  match urlparse (λ _, true) raw with
  | Raise _ => None
  | Ok u =>
      match url_port u with
      | Raise _ => None
      | Ok port => Some (u_scheme u, url_hostname u, port, u_path u, u_query u)
      end
  end.

Example url_ex1 : url_view " HTTPS://User@Dns.Example:8443/dns-query;v=1?x#y"
  = Some ("https", Some "dns.example", Some 8443%Z, "/dns-query", "x").
Proof. reflexivity. Qed.
Example url_ex2 : url_view "https://[2001:DB8::1%Eth0]/q" = Some ("https", Some "2001:db8::1%Eth0", None, "/q", "").
Proof. reflexivity. Qed.
Example url_ex3 : url_view "dns.example:853" = Some ("dns.example", None, None, "853", "").
Proof. reflexivity. Qed.
Example url_ex4 : url_view "https://[1.2.3.4]/q" = None.
Proof. reflexivity. Qed.
Example url_ex5 : url_view "https://dns.example:99999" = None.
Proof. reflexivity. Qed.
Example url_ex6 : url_view "//a;b/c;d/e;f;g" = Some ("", Some "a;b", None, "/c;d/e", "").
Proof. reflexivity. Qed.
