(* ===== verification/DnsdistLayer.v ===== *)
(** * Installing a generated dnsdist layer

    The custom filtering rules and the access policy are compiled to data files
    that a static Lua include loads.  [deploy_dnsdist_layer] of
    [app/custom_rules.py] and [deploy_access_layer] of [app/clients.py] install them
    with the same steps: compare, stage, validate a composite configuration,
    back up, replace, restart dnsdist, and restore on failure. *)

From S2P Require Import Prelude PyStr StrLemmas World.

(** ** Paths *)

(** app/custom_rules.py:31-31 COMPILED_DNSDIST_DIR *)
Definition COMPILED_DNSDIST_DIR : string := "/var/lib/alderpointdns/compiled/dnsdist/".
(** app/custom_rules.py:32-32 DNSDIST_CONF *)
Definition DNSDIST_CONF : string := "/etc/dnsdist/dnsdist.conf".
(** app/custom_rules.py:33-33 DNSDIST_PACKAGING_CONF *)
Definition DNSDIST_PACKAGING_CONF : string := "/opt/alderpointdns/packaging/dnsdist.conf".
(** app/custom_rules.py:34-34 BACKUP_DIR *)
Definition BACKUP_DIR : string := "/var/lib/alderpointdns/backups/".
(** app/custom_rules.py:35-35 STAGING_DIR *)
Definition STAGING_DIR : string := "/var/lib/alderpointdns/staging/".

(** ** Operations *)

(** The live path and the backup taken of it, if it existed. *)
Definition backup_entry : Type := string * option string.

(** What a deployment of a layer works with: the target files by name, the staged
    copies, the path of the Lua include, the block that includes it, the error
    raised when the configuration has no place for the block, the second the
    backups are named after and the staging directory. *)
Record layer := mkLayer {
  l_targets : list (string * string);
  l_staged : list (string * string);
  l_lua : string;
  l_include : string;
  l_conf_backup : string;
  l_missing : pyexc;
  l_seconds : string;
  l_stage : string;
}.

Definition bind_pool_marker : string :=
  quoted "addAction(AllRule(), PoolAction(`alderpointdns_bind`))".

(** app/custom_rules.py:1385-1409 ensure_dnsdist_custom_include *)
Definition ensure_dnsdist_include (l : layer) : M bool :=
  conf ← get_file DNSDIST_CONF;
  current ← match conf with Some t => mret t | None => read_text DNSDIST_PACKAGING_CONF end;
  if contains (COMPILED_DNSDIST_DIR +:+ l_lua l) current then mret false
  else if negb (contains bind_pool_marker current) then raise (l_missing l)
  else
    _ ← when (bool_decide (is_Some conf))
          (copy2 DNSDIST_CONF (BACKUP_DIR +:+ l_conf_backup l +:+ l_seconds l));
    _ ← write_text DNSDIST_CONF
          (replace_first bind_pool_marker (l_include l +:+ nl +:+ bind_pool_marker) current);
    mret true.

Definition target_path (name : string) : string := COMPILED_DNSDIST_DIR +:+ name.
Definition backup_path (l : layer) (name : string) : string :=
  BACKUP_DIR +:+ name +:+ ".last-good." +:+ l_seconds l.

(** Whether a target is missing or differs. *)
Fixpoint any_changed (targets : list (string * string)) : M bool :=
  match targets with
  | [] => mret false
  | (name, text) :: targets =>
      live ← get_file (target_path name);
      if bool_decide (live = Some text) then any_changed targets else mret true
  end.

Definition backup_target (l : layer) (name : string) : M backup_entry :=
  live ← exists_ (target_path name);
  if (live : bool)
  then _ ← copy2 (target_path name) (backup_path l name);
       mret (target_path name, Some (backup_path l name))
  else mret (target_path name, None).

Definition write_target (l : layer) (target : string * string) : M () :=
  let staged_final := l_stage l +:+ "final-" +:+ target.1 in
  _ ← write_text staged_final target.2; replace staged_final (target_path target.1).

(** The installation loop; the entries recorded so far survive an exception. *)
Fixpoint install_all (l : layer) (backups : list backup_entry) (targets : list (string * string))
    : M (list backup_entry * res ()) :=
  match targets with
  | [] => mret (backups, Ok ())
  | target :: targets =>
      r ← attempt (backup_target l target.1);
      match r with
      | Raise e => mret (backups, Raise e)
      | Ok b =>
          r ← attempt (write_target l target);
          match r with
          | Raise e => mret (backups ++ [b], Raise e)
          | Ok _ => install_all l (backups ++ [b]) targets
          end
      end
  end.

(** app/custom_rules.py:1476-1484 _restore_dnsdist_backups *)
Fixpoint restore_backups (backups : list backup_entry) : M () :=
  match backups with
  | [] => mret ()
  | (path, backup) :: backups =>
      saved ← match backup with Some b => exists_ b | None => mret false end;
      _ ← match backup, (saved : bool) with
          | Some b, true => copy2 b path
          | _, _ => live ← exists_ path; when live (unlink path)
          end;
      restore_backups backups
  end.

Definition restart_dnsdist (check : bool) : M () := run_ ["systemctl"; "restart"; "dnsdist"] check.

(** Stage the files and check a composite of the live configuration with them. *)
Definition stage_and_check (l : layer) : M () :=
  _ ← ensure_dnsdist_include l;
  _ ← for_each (l_staged l) (λ f, write_text (l_stage l +:+ f.1) f.2);
  conf ← get_file DNSDIST_CONF;
  match conf with
  | None => mret ()
  | Some text =>
      let composite := l_stage l +:+ "dnsdist-composite-check.conf" in
      _ ← write_text composite (replace_all (target_path (l_lua l)) (l_stage l +:+ l_lua l) text);
      run_ ["dnsdist"; "--check-config"; "-C"; composite] true
  end.

(** [(changed, backups)] *)
Definition deploy_layer (l : layer) : M (bool * list backup_entry) :=
  changed ← any_changed (l_targets l);
  if negb changed then mret (false, [])
  else try_finally (
    r ← attempt (stage_and_check l);
    br ← match r with
         | Ok _ => install_all l [] (l_targets l)
         | Raise e => mret ([], Raise e)
         end;
    let backups := br.1 in
    r ← match br.2 with Ok _ => attempt (restart_dnsdist true) | Raise e => mret (Raise e) end;
    match r with
    | Ok _ => mret (true, backups)
    | Raise e =>
        _ ← restore_backups backups;
        _ ← when (negb (bool_decide (backups = []))) (restart_dnsdist false);
        raise e
    end)
  (rmtree (l_stage l)).

(** app/custom_rules.py:1487-1493 rollback_dnsdist_layer *)
Definition rollback_layer (info : bool * list backup_entry) : M () :=
  if negb info.1 || bool_decide (info.2 = []) then mret ()
  else _ ← restore_backups info.2; restart_dnsdist false.

(** ** What the loops do to the files *)

Section files.
Context (l : layer).

Definition entry_of (f : gmap string string) (target : string * string) : backup_entry :=
  (target_path target.1,
   if f !! target_path target.1 then Some (backup_path l target.1) else None).

Definition final_path (name : string) : string := l_stage l +:+ "final-" +:+ name.

Definition install_files (f : gmap string string) (target : string * string) : gmap string string :=
  let f := match f !! target_path target.1 with
           | Some old => <[backup_path l target.1 := old]> f | None => f end in
  <[target_path target.1 := target.2]> (delete (final_path target.1) f).

Definition restore_files (f : gmap string string) (b : backup_entry) : gmap string string :=
  match b.2 with
  | Some saved => match f !! saved with Some t => <[b.1 := t]> f | None => delete b.1 f end
  | None => delete b.1 f
  end.

(** Distinct names, a staging directory of its own. *)
Record layer_ok : Prop := {
  lok_names : NoDup (l_targets l).*1;
  lok_stage : ∃ tmp, l_stage l = STAGING_DIR +:+ tmp;
}.

Lemma target_inj n n' : target_path n = target_path n' → n = n'.
Proof. by intros ?%(inj (String.append _)). Qed.
Lemma backup_inj n n' : backup_path l n = backup_path l n' → n = n'.
Proof.
  unfold backup_path. intros Heq%(inj (String.append _)).
  rewrite <-!sapp_assoc in Heq. by apply sapp_inv_tail in Heq as Heq%sapp_inv_tail.
Qed.
Lemma target_not_backup n n' : target_path n ≠ backup_path l n'.
Proof. intros H. vm_compute in H. discriminate. Qed.
Lemma target_not_conf n : target_path n ≠ DNSDIST_CONF.
Proof. intros H. vm_compute in H. discriminate. Qed.
Lemma stage_prefix p : layer_ok → starts_with (l_stage l) p = true → ∃ q, p = STAGING_DIR +:+ q.
Proof.
  intros [_ [tmp ->]] (q & ->)%starts_with_spec. exists (tmp +:+ q). by rewrite sapp_assoc.
Qed.
Lemma target_not_stage n : layer_ok → starts_with (l_stage l) (target_path n) = false.
Proof.
  intros Hok. destruct (starts_with _ _) eqn:E; [|done].
  apply stage_prefix in E as [q E]; [|done]. vm_compute in E. discriminate.
Qed.
Lemma backup_not_stage n : layer_ok → starts_with (l_stage l) (backup_path l n) = false.
Proof.
  intros Hok. destruct (starts_with _ _) eqn:E; [|done].
  apply stage_prefix in E as [q E]; [|done]. vm_compute in E. discriminate.
Qed.
Lemma final_staged n : starts_with (l_stage l) (final_path n) = true.
Proof. apply starts_with_app. Qed.
Lemma final_not_target n n' : layer_ok → final_path n ≠ target_path n'.
Proof.
  intros Hok E. pose proof (final_staged n) as Hn. rewrite E in Hn.
  by rewrite target_not_stage in Hn.
Qed.
Lemma final_not_backup n n' : layer_ok → final_path n ≠ backup_path l n'.
Proof.
  intros Hok E. pose proof (final_staged n) as Hn. rewrite E in Hn.
  by rewrite backup_not_stage in Hn.
Qed.

Lemma install_step target w :
  layer_ok →
  backup_target l target.1 w
  = (Ok (entry_of (w_files w) target),
     w{{w_files := match w_files w !! target_path target.1 with
                   | Some old => <[backup_path l target.1 := old]> (w_files w)
                   | None => w_files w end}}).
Proof.
  intros Hok. destruct w as [f lg an]. unfold backup_target, entry_of. cbn [w_files].
  rewrite bind_M. cbn [exists_ w_files]. destruct (f !! target_path target.1) as [old|] eqn:E; simpl.
  - rewrite bind_M. unfold copy2. rewrite bind_M. cbn [read_text w_files]. rewrite E. done.
  - done.
Qed.

Lemma write_step target w :
  write_target l target w
  = (Ok (), w{{w_files := <[target_path target.1 := target.2]> (delete (final_path target.1) (w_files w))}}).
Proof.
  destruct w as [f lg an]. unfold write_target, replace. rewrite bind_M. cbn [write_text].
  rewrite bind_M. unfold read_text. cbn [w_files]. fold (final_path target.1).
  simpl. rewrite lookup_insert_eq. rewrite bind_M. unfold unlink. simpl.
  rewrite lookup_insert_eq. unfold write_text. simpl.
  by rewrite delete_insert_eq.
Qed.

Lemma install_all_run acc targets w :
  layer_ok → NoDup targets.*1 →
  install_all l acc targets w
  = (Ok (acc ++ (entry_of (w_files w) <$> targets), Ok ()),
     w{{w_files := fold_left install_files targets (w_files w)}}).
Proof.
  intros Hok. revert acc w. induction targets as [|target targets IH]; intros acc w Hnd.
  { simpl. rewrite app_nil_r. by destruct w. }
  cbn [fmap list_fmap] in Hnd. apply NoDup_cons in Hnd as [Hn Hnd].
  cbn [install_all]. rewrite bind_M. unfold attempt at 1. rewrite install_step by done.
  rewrite bind_M. unfold attempt at 1. rewrite write_step.
  rewrite IH by done. destruct w as [f lg an]. cbn [w_files].
  rewrite <-app_assoc. do 3 f_equal. cbn [app fmap list_fmap]. do 2 f_equal.
  apply list_fmap_ext. intros i t Ht. unfold entry_of. do 2 f_equal.
  assert (t.1 ≠ target.1) as Hne.
  { intros Heq. apply Hn. rewrite <-Heq. by eapply list_elem_of_fmap_2, list_elem_of_lookup_2. }
  simpl. rewrite lookup_insert_ne by (intros ?%target_inj; congruence).
  rewrite lookup_delete_ne by (by apply final_not_target).
  destruct (f !! target_path target.1); [|done].
  by rewrite lookup_insert_ne by (apply not_eq_sym, target_not_backup).
Qed.

(** *** Installation, file by file *)

Lemma install_other targets f p :
  (∀ n, n ∈ targets.*1 → p ≠ target_path n ∧ p ≠ backup_path l n) →
  starts_with (l_stage l) p = false → fold_left install_files targets f !! p = f !! p.
Proof.
  intros Hp Hst. revert f. induction targets as [|[n text] targets IH]; intros f; [done|].
  cbn [fold_left]. rewrite IH by (intros; apply Hp; by right).
  destruct (Hp n) as [Ht Hb]; [left|]. unfold install_files. cbn [fst snd].
  rewrite lookup_insert_ne, lookup_delete_ne by
    (done || intros E; subst p; by rewrite final_staged in Hst).
  destruct (f !! target_path n); [|done]. by rewrite lookup_insert_ne.
Qed.

Lemma install_target_text targets f n text :
  layer_ok → NoDup targets.*1 → (n, text) ∈ targets →
  fold_left install_files targets f !! target_path n = Some text.
Proof.
  intros Hok Hnd Hin. revert f. induction targets as [|[m t] targets IH]; intros f.
  { by apply elem_of_nil in Hin. }
  cbn [fmap list_fmap fst] in Hnd. apply NoDup_cons in Hnd as [Hm Hnd]. cbn [fold_left].
  apply elem_of_cons in Hin as [[= -> ->]|Hin]; [|by apply IH].
  rewrite install_other.
  - unfold install_files. cbn [fst snd]. by rewrite lookup_insert_eq.
  - intros n' Hn'. split; [|apply target_not_backup]. intros ->%target_inj. done.
  - by apply target_not_stage.
Qed.

Lemma install_backup targets f n old :
  layer_ok → NoDup targets.*1 → n ∈ targets.*1 → f !! target_path n = Some old →
  fold_left install_files targets f !! backup_path l n = Some old.
Proof.
  intros Hok Hnd Hin. revert f. induction targets as [|[m t] targets IH]; intros f Hf.
  { by apply elem_of_nil in Hin. }
  cbn [fmap list_fmap fst] in Hnd, Hin. apply NoDup_cons in Hnd as [Hm Hnd]. cbn [fold_left].
  apply elem_of_cons in Hin as [->|Hin].
  - assert (install_files f (m, t) !! backup_path l m = Some old) as Hb.
    { unfold install_files. cbn [fst snd]. rewrite Hf.
      rewrite lookup_insert_ne by apply target_not_backup.
      rewrite lookup_delete_ne by (by apply final_not_backup). by rewrite lookup_insert_eq. }
    rewrite install_other; [exact Hb| |by apply backup_not_stage].
    intros n' Hn'. split; [apply not_eq_sym, target_not_backup|]. by intros ->%backup_inj.
  - apply IH; [done..|]. unfold install_files. cbn [fst snd].
    rewrite lookup_insert_ne by (intros ->%target_inj; done).
    rewrite lookup_delete_ne by (by apply final_not_target).
    destruct (f !! target_path m); [|done].
    by rewrite lookup_insert_ne by (apply not_eq_sym, target_not_backup).
Qed.

(** *** Restoration *)

Lemma restore_run bs w :
  restore_backups bs w = (Ok (), w{{w_files := fold_left restore_files bs (w_files w)}}).
Proof.
  revert w. induction bs as [|[p b] bs IH]; intros w; [by destruct w|].
  destruct w as [f lg an]. cbn [restore_backups fold_left w_files].
  assert ((live ← exists_ p; when live (unlink p)) (mkWorld f lg an)
          = (Ok (), mkWorld (delete p f) lg an)) as Hunlink.
  { rewrite bind_M. cbn [exists_ w_files]. destruct (f !! p) as [t|] eqn:E; simpl.
    - unfold unlink. simpl. by rewrite E.
    - by rewrite delete_id by done. }
  destruct b as [b|]; rewrite bind_M.
  - cbn [exists_ w_files]. destruct (f !! b) as [t|] eqn:E.
    + assert (restore_files f (p, Some b) = <[p:=t]> f) as ->
        by (unfold restore_files; simpl; by rewrite E).
      cbn. rewrite bind_M. unfold copy2. rewrite bind_M. unfold read_text. simpl. rewrite E.
      unfold write_text. simpl. by rewrite IH.
    + assert (restore_files f (p, Some b) = delete p f) as ->
        by (unfold restore_files; simpl; by rewrite E).
      cbn [is_Some bool_decide]. rewrite bool_decide_eq_false_2 by (by intros [? ?]).
      by rewrite bind_M, Hunlink, IH.
  - cbn [mret M_ret]. by rewrite bind_M, Hunlink, IH.
Qed.

Lemma restore_lookup bs f p :
  NoDup bs.*1 → (∀ b s, b ∈ bs → b.2 = Some s → s ∉ bs.*1) →
  fold_left restore_files bs f !! p
  = match find_first (λ b, String.eqb b.1 p) bs with
    | Some (_, Some s) => f !! s
    | Some (_, None) => None
    | None => f !! p
    end.
Proof.
  revert f. induction bs as [|[q b] bs IH]; intros f Hnd Hs; [done|].
  cbn [fmap list_fmap fst] in Hnd. apply NoDup_cons in Hnd as [Hq Hnd].
  assert (∀ r, r ∉ (q :: bs.*1) ∨ r ≠ q → restore_files f (q, b) !! r = f !! r) as Hother.
  { intros r Hr. assert (r ≠ q) as Hne by (destruct Hr as [Hr|]; [set_solver|done]).
    unfold restore_files. cbn [fst snd]. destruct b as [s|]; [destruct (f !! s)|];
      rewrite ?lookup_insert_ne, ?lookup_delete_ne by congruence; done. }
  cbn [fold_left find_first fst]. rewrite IH; [|done|].
  2:{ intros b' s Hb' Hs'. specialize (Hs b' s). cbn [fmap list_fmap fst] in Hs.
      apply not_elem_of_cons in Hs as [_ ?]; [done|by right|done]. }
  destruct (String.eqb_spec q p) as [<-|Hne].
  - destruct (find_first _ bs) as [[q' b']|] eqn:E.
    { apply find_first_Some in E as [Hin Heq]. apply String.eqb_eq in Heq. simpl in Heq. subst q'.
      destruct Hq. apply (list_elem_of_fmap_2 fst) in Hin. exact Hin. }
    unfold restore_files. cbn [fst snd]. destruct b as [s|]; [|by rewrite lookup_delete_eq].
    destruct (f !! s) as [t|]; [by rewrite lookup_insert_eq|by rewrite lookup_delete_eq].
  - destruct (find_first _ bs) as [[q' [s|]]|] eqn:E; [|done|by apply Hother; right].
    apply Hother. left. apply find_first_Some in E as [Hin _].
    apply (Hs (q', Some s) s); [by right|done].
Qed.

(** The backups the installation took, restored in any later state. *)
Lemma restore_install_lookup f f' n :
  NoDup (l_targets l).*1 → n ∈ (l_targets l).*1 →
  fold_left restore_files (entry_of f <$> l_targets l) f' !! target_path n
  = if f !! target_path n then f' !! backup_path l n else None.
Proof.
  intros Hnd Hn.
  assert ((entry_of f <$> l_targets l).*1 = target_path <$> (l_targets l).*1) as Hpaths.
  { rewrite <-!list_fmap_compose. apply list_fmap_ext. done. }
  rewrite restore_lookup.
  - apply list_elem_of_fmap in Hn as ([m text] & -> & Hin). cbn [fst].
    destruct (find_first _ _) as [[q b]|] eqn:E.
    + apply find_first_Some in E as [Hin' Hq]. apply String.eqb_eq in Hq. simpl in Hq. subst q.
      apply list_elem_of_fmap in Hin' as ([n' text'] & Heq & _).
      assert (m = n') as <- by (apply target_inj; exact (f_equal fst Heq)). apply (f_equal snd) in Heq. cbn in Heq. subst b.
      by destruct (f !! target_path m).
    + rewrite find_first_None in E. specialize (E _ (list_elem_of_fmap_2 (entry_of f) _ _ Hin)).
      simpl in E. by rewrite String.eqb_refl in E.
  - rewrite Hpaths. assert (Inj (=) (=) target_path) by (intros ??; apply target_inj).
    by apply (NoDup_fmap_2 target_path).
  - intros b s (t & -> & _)%list_elem_of_fmap Hs. rewrite Hpaths.
    intros (m & -> & _)%list_elem_of_fmap. unfold entry_of in Hs. simpl in Hs.
    destruct (f !! _); [|done]. apply (inj Some) in Hs. exact (target_not_backup m t.1 (eq_sym Hs)).
Qed.

(** Restoring the backups the installation took undoes it. *)
Lemma restore_install f p :
  layer_ok → (∀ n, n ∈ (l_targets l).*1 → p ≠ backup_path l n) → starts_with (l_stage l) p = false →
  fold_left restore_files (entry_of f <$> l_targets l) (fold_left install_files (l_targets l) f) !! p
  = f !! p.
Proof.
  intros Hok Hb Hst. pose proof (lok_names Hok) as Hnd.
  assert ((entry_of f <$> l_targets l).*1 = target_path <$> (l_targets l).*1) as Hpaths.
  { rewrite <-!list_fmap_compose. apply list_fmap_ext. done. }
  rewrite restore_lookup.
  - destruct (find_first _ _) as [[q b]|] eqn:E.
    + apply find_first_Some in E as [Hin Hq]. apply String.eqb_eq in Hq. simpl in Hq. subst q.
      apply list_elem_of_fmap in Hin as ([n text] & [= -> ->] & Hin). cbn [fst].
      destruct (f !! target_path n) as [old|] eqn:E; [|done].
      apply install_backup; [done..| |done]. by apply (list_elem_of_fmap_2 fst) in Hin.
    + rewrite find_first_None in E. apply install_other; [|done]. intros n Hn. split; [|by apply Hb].
      intros ->. apply list_elem_of_fmap in Hn as ([m text] & -> & Hin).
      specialize (E (entry_of f (m, text)) (list_elem_of_fmap_2 _ _ _ Hin)). simpl in E.
      by rewrite String.eqb_refl in E.
  - rewrite Hpaths. assert (Inj (=) (=) target_path) by (intros ??; apply target_inj).
    by apply (NoDup_fmap_2 target_path).
  - intros b s (t & -> & _)%list_elem_of_fmap Hs. rewrite Hpaths.
    intros (n & -> & _)%list_elem_of_fmap. unfold entry_of in Hs. simpl in Hs.
    destruct (f !! _); [|done]. apply (inj Some) in Hs. exact (target_not_backup n t.1 (eq_sym Hs)).
Qed.
End files.

(** ** The deployment as a whole *)

(** What staging and the composite check may touch. *)
Definition staging_paths (l : layer) (p : string) : Prop :=
  p = DNSDIST_CONF ∨ p = BACKUP_DIR +:+ l_conf_backup l +:+ l_seconds l
  ∨ starts_with (l_stage l) p = true.

(** A command other than the restart. *)
Definition not_restart (c : list string) : Prop := c ≠ ["systemctl"; "restart"; "dnsdist"].

Lemma stage_and_check_writes l : writes (staging_paths l) not_restart (stage_and_check l).
Proof.
  unfold stage_and_check, ensure_dnsdist_include. frames; unfold staging_paths; auto;
    try (right; right; apply starts_with_app). done.
Qed.

Lemma any_changed_run targets w :
  any_changed targets w
  = (Ok (negb (forallb (λ t, bool_decide (w_files w !! target_path t.1 = Some t.2)) targets)), w).
Proof.
  induction targets as [|[n text] targets IH]; [done|].
  cbn [any_changed forallb]. rewrite bind_M. cbn [get_file fst snd].
  destruct (bool_decide _); simpl; [exact IH|done].
Qed.

Definition restart : list string := ["systemctl"; "restart"; "dnsdist"].

Lemma rmtree_run d w : rmtree d w = (Ok (), (rmtree d w).2).
Proof. done. Qed.

(** The steps after a successful check: install, restart, and on a failed restart
    restore and restart again. *)
Lemma deploy_layer_unfold l w :
  layer_ok l →
  forallb (λ t, bool_decide (w_files w !! target_path t.1 = Some t.2)) (l_targets l) = false →
  let '(r1, w1) := stage_and_check l w in
  deploy_layer l w =
  match r1 with
  | Raise e => (Raise e, (rmtree (l_stage l) w1).2)
  | Ok _ =>
      let bs := entry_of l (w_files w1) <$> l_targets l in
      let w2 := w1{{w_files := fold_left (install_files l) (l_targets l) (w_files w1)}} in
      match restart_dnsdist true w2 with
      | (Ok _, w3) => (Ok (true, bs), (rmtree (l_stage l) w3).2)
      | (Raise e, w3) =>
          let w4 := w3{{w_files := fold_left restore_files bs (w_files w3)}} in
          let '(r5, w5) := when (negb (bool_decide (bs = []))) (restart_dnsdist false) w4 in
          (Raise (match r5 with Ok _ => e | Raise e' => e' end), (rmtree (l_stage l) w5).2)
      end
  end.
Proof.
  intros Hok Hch. destruct (stage_and_check l w) as [r1 w1] eqn:E1.
  unfold deploy_layer. rewrite bind_M, any_changed_run, Hch. cbn [negb].
  unfold try_finally. rewrite bind_M. unfold attempt at 1. rewrite E1.
  destruct r1 as [[]|e].
  - rewrite bind_M, install_all_run by (done || apply lok_names, Hok). cbn [app fst snd].
    rewrite bind_M. unfold attempt at 1.
    destruct (restart_dnsdist true _) as [[[]|e] w3]; [by rewrite rmtree_run|].
    rewrite bind_M, restore_run, bind_M.
    destruct (when _ _ _) as [[[]|e'] w5]; done.
  - rewrite bind_M. cbn [mret M_ret]. done.
Qed.

(** Everything a deployment of the layer may touch. *)
Definition layer_paths (l : layer) (p : string) : Prop :=
  staging_paths l p ∨ ∃ n, n ∈ (l_targets l).*1 ∧ (p = target_path n ∨ p = backup_path l n).

Lemma target_not_staging l n : layer_ok l → ¬ staging_paths l (target_path n).
Proof.
  intros Hok [?|[H|H]]; [by eapply target_not_conf|vm_compute in H; discriminate|].
  by rewrite target_not_stage in H.
Qed.

Lemma rmtree_lookup d w p : starts_with d p = false → w_files (rmtree d w).2 !! p = w_files w !! p.
Proof.
  intros Hp. apply (frame_files (λ p, starts_with d p = true) (λ _, False)); [|congruence].
  by apply writes_rmtree.
Qed.

Lemma rmtree_log d w : w_log (rmtree d w).2 = w_log w.
Proof. by destruct w. Qed.

Lemma install_frame l f p :
  ¬ layer_paths l p → fold_left (install_files l) (l_targets l) f !! p = f !! p.
Proof.
  intros Hp. apply install_other.
  - intros n Hn. split; intros ->; apply Hp; right; eauto.
  - destruct (starts_with _ p) eqn:E; [|done]. destruct Hp. left. by right; right.
Qed.

Lemma restart_files c w r w' : restart_dnsdist c w = (r, w') → w_files w' = w_files w.
Proof.
  intros E. apply (f_equal snd) in E. unfold restart_dnsdist in E. rewrite run_log in E.
  simpl in E. by subst w'.
Qed.

Lemma restart_last c w r w' : restart_dnsdist c w = (r, w') → w_log w' = w_log w ++ [restart].
Proof.
  intros E. apply (f_equal snd) in E. unfold restart_dnsdist in E. rewrite run_log in E.
  simpl in E. by subst w'.
Qed.

(** What a deployment guarantees to its caller, however the commands behave. *)
Record layer_outcome (l : layer) (w : world) (r : res (bool * list backup_entry)) (w' : world) : Prop := {
  lo_frame : ∀ p, ¬ layer_paths l p → w_files w' !! p = w_files w !! p;
  lo_same : ∀ bs, r = Ok (false, bs) → w' = w ∧ bs = [];
  lo_installed : ∀ b bs n text, r = Ok (b, bs) → (n, text) ∈ l_targets l →
    w_files w' !! target_path n = Some text;
  lo_restarted : ∀ bs, r = Ok (true, bs) → last_command w' = Some restart;
  lo_restored : ∀ e n, r = Raise e → n ∈ (l_targets l).*1 →
    w_files w' !! target_path n = w_files w !! target_path n;
  lo_reloaded : ∀ e, r = Raise e → ∃ log, w_log w' = w_log w ++ log
    ∧ (Forall not_restart log ∨ last log = Some restart);
}.

Lemma deploy_layer_outcome l w :
  layer_ok l → layer_outcome l w (deploy_layer l w).1 (deploy_layer l w).2.
Proof.
  intros Hok. pose proof (lok_names _ Hok) as Hnd.
  destruct (forallb (λ t, bool_decide (w_files w !! target_path t.1 = Some t.2)) (l_targets l)) eqn:Hch.
  { unfold deploy_layer. rewrite bind_M, any_changed_run, Hch. cbn.
    rewrite forallb_true in Hch. split; try done; [by intros bs [= <-]|].
    intros b bs n text _ Hin. specialize (Hch _ Hin). by apply bool_decide_eq_true in Hch. }
  pose proof (deploy_layer_unfold l w Hok Hch) as Hrun.
  pose proof (stage_and_check_writes l w) as [Hf1 Ha1 (log1 & Hlog1 & Hr1)].
  destruct (stage_and_check l w) as [r1 w1]. cbn [snd] in *.
  assert (∀ n, w_files w1 !! target_path n = w_files w !! target_path n) as Ht1.
  { intros n. by apply Hf1, target_not_staging. }
  assert (∀ p, ¬ layer_paths l p → starts_with (l_stage l) p = false ∧ w_files w1 !! p = w_files w !! p) as Hout.
  { intros p Hp. split.
    - destruct (starts_with _ p) eqn:E; [|done]. destruct Hp. left. by right; right.
    - apply Hf1. contradict Hp. by left. }
  destruct r1 as [[]|e]; [|rewrite Hrun; cbn [fst snd]; split; try done].
  2:{ intros p Hp. destruct (Hout p Hp). by rewrite rmtree_lookup. }
  2:{ intros e' n _ _. by rewrite rmtree_lookup by (by apply target_not_stage). }
  2:{ intros e' _. exists log1. rewrite rmtree_log. auto. }
  set (bs := entry_of l (w_files w1) <$> l_targets l) in *. cbn zeta in Hrun.
  destruct (restart_dnsdist true _) as [[[]|e] w3] eqn:E3; rewrite Hrun; clear Hrun;
    assert (w_files w3 = fold_left (install_files l) (l_targets l) (w_files w1)) as Hf3
      by exact (restart_files _ _ _ _ E3);
    assert (w_log w3 = w_log w1 ++ [restart]) as Hl3 by exact (restart_last _ _ _ _ E3).
  - cbn [fst snd]. split; try done.
    + intros p Hp. destruct (Hout p Hp) as [Hst Hw1]. by rewrite rmtree_lookup, Hf3, install_frame.
    + intros b bs' n text _ Hin. rewrite rmtree_lookup by (by apply target_not_stage).
      rewrite Hf3. by apply install_target_text.
    + intros _ _. unfold last_command. by rewrite rmtree_log, Hl3, last_snoc.
  - destruct (when _ _ _) as [r5 w5] eqn:E5. cbn [fst snd].
    set (w4 := w3{{w_files := _}}) in E5. assert (w_log w4 = w_log w3) as Hl4 by (by destruct w3).
    assert (w_files w5 = w_files w4 ∧ ∃ log, w_log w5 = w_log w ++ log
      ∧ (Forall not_restart log ∨ last log = Some restart)) as (Hf5 & Hlog5).
    { unfold when in E5. destruct (negb _) eqn:Eb.
      - pose proof (restart_files _ _ _ _ E5) as ->. pose proof (restart_last _ _ _ _ E5) as ->.
        split; [done|]. rewrite Hl4, Hl3, Hlog1. eexists.
        rewrite <-!app_assoc. split; [done|]. right. by rewrite app_assoc, last_snoc.
      - injection E5 as _ <-. split; [done|]. rewrite Hl4, Hl3, Hlog1. eexists.
        rewrite <-app_assoc. split; [done|]. right. apply last_snoc. }
    split; try done.
    + intros p Hp. destruct (Hout p Hp) as [Hst Hw1]. rewrite rmtree_lookup by done.
      rewrite Hf5. subst w4. simpl. rewrite Hf3, <-Hw1. apply restore_install; [done| |done].
      intros n Hn ->. apply Hp. right; eauto.
    + intros e' n _ Hn. rewrite rmtree_lookup by (by apply target_not_stage).
      rewrite Hf5. subst w4. simpl. rewrite Hf3, <-Ht1.
      apply restore_install; [done| |by apply target_not_stage]. intros. apply target_not_backup.
Qed.

(** The outer rollback, run later by the full deployment, also restores the layer:
    it only needs the installed files' backups to be still there. *)
Lemma rollback_layer_restores l w bs w' w'' n :
  layer_ok l → deploy_layer l w = (Ok (true, bs), w') →
  (∀ m, m ∈ (l_targets l).*1 → w_files w'' !! target_path m = w_files w' !! target_path m
        ∧ w_files w'' !! backup_path l m = w_files w' !! backup_path l m) →
  n ∈ (l_targets l).*1 →
  w_files (rollback_layer (true, bs) w'').2 !! target_path n = w_files w !! target_path n.
Proof.
  intros Hok Hdep Hsame Hn. pose proof (lok_names _ Hok) as Hnd.
  destruct (forallb (λ t, bool_decide (w_files w !! target_path t.1 = Some t.2)) (l_targets l)) eqn:Hch.
  { unfold deploy_layer in Hdep. rewrite bind_M, any_changed_run, Hch in Hdep. done. }
  pose proof (deploy_layer_unfold l w Hok Hch) as Hrun. rewrite Hdep in Hrun.
  pose proof (stage_and_check_writes l w) as [Hf1 _ _].
  destruct (stage_and_check l w) as [[[]|e] w1]; [|done]. cbn zeta in Hrun. cbn [snd] in Hf1.
  destruct (restart_dnsdist true _) as [[[]|e] w3] eqn:E3; [|by destruct (when _ _ _)].
  assert (w' = (rmtree (l_stage l) w3).2) as -> by exact (f_equal snd Hrun).
  assert (Ok (true, bs) = Ok (true, entry_of l (w_files w1) <$> l_targets l)) as [= ->]
    by exact (f_equal fst Hrun).
  assert (w_files w3 = fold_left (install_files l) (l_targets l) (w_files w1)) as Hf3
    by exact (restart_files _ _ _ _ E3). clear Hrun.
  set (bs := entry_of l (w_files w1) <$> l_targets l) in *.
  rewrite <-(Hf1 _ (target_not_staging l n Hok)).
  assert (n ∈ (l_targets l).*1) as Hn' by done.
  assert (bool_decide (bs = []) = false) as Hbs.
  { apply bool_decide_eq_false. subst bs. intros Heq%fmap_nil_inv. rewrite Heq in Hn.
    by apply elem_of_nil in Hn. }
  unfold rollback_layer. cbn [fst snd negb]. rewrite Hbs, orb_false_r, bind_M, restore_run.
  destruct (restart_dnsdist false _) as [r w4] eqn:E4. pose proof (restart_files _ _ _ _ E4) as Hf4.
  cbn [snd]. rewrite Hf4. simpl.
  pose proof (restore_install l (w_files w1) (target_path n) Hok (λ m _, target_not_backup l n m)
                (target_not_stage l n Hok)) as <-.
  subst bs. rewrite !restore_install_lookup by done.
  destruct (Hsame n Hn) as [_ ->]. rewrite rmtree_lookup by (by apply backup_not_stage).
  by rewrite Hf3.
Qed.
