(* ===== verification/RuleParser.v ===== *)
(** * Parsing one custom rule

    [parse_rule] of [app/custom_rules.py] and what it calls: AdGuard-style
    domain rules with modifiers, hosts lines, regular expressions, comments. *)

From S2P Require Import Prelude PyStr StrLemmas IpAddr PyRegex DomainName RegexGuard.

(** ** Data *)

(** app/custom_rules.py:47-47 RULE_TYPES *)
Inductive rule_type :=
| RtBlock | RtAllow | RtRewrite | RtRegexBlock | RtRegexAllow | RtComment | RtUnsupported.
Inductive rule_action := ActBlock | ActAllow | ActRewrite | ActNone.
Inductive vstate := Valid | Unsupported | Invalid.
Inductive ip_family := Ipv4 | Ipv6.

#[export] Instance rule_type_eq_dec : EqDecision rule_type.
Proof. solve_decision. Defined.
#[export] Instance rule_action_eq_dec : EqDecision rule_action.
Proof. solve_decision. Defined.
#[export] Instance vstate_eq_dec : EqDecision vstate.
Proof. solve_decision. Defined.
#[export] Instance ip_family_eq_dec : EqDecision ip_family.
Proof. solve_decision. Defined.

(** app/custom_rules.py:62-77 ParsedRule *)
Record ParsedRule := mkParsedRule {
  pr_text : string;
  pr_normalized : string;
  pr_type : rule_type;
  pr_action : rule_action;
  pr_domain : option string;
  pr_subdomains : bool;
  pr_pattern : option string;
  pr_address : option string;
  pr_family : option ip_family;
  pr_qtype : option string;
  pr_priority : Z;
  pr_state : vstate;
  pr_reason : string;
  pr_comment : string;
}.

#[export] Instance parsed_rule_eq_dec : EqDecision ParsedRule.
Proof. solve_decision. Defined.

(** [ParsedRule(rule_text=text, normalized=normalized)] with the other defaults *)
Definition parsed_rule (text normalized : string) : ParsedRule :=
  {| pr_text := text; pr_normalized := normalized; pr_type := RtUnsupported;
     pr_action := ActNone; pr_domain := None; pr_subdomains := false; pr_pattern := None;
     pr_address := None; pr_family := None; pr_qtype := None; pr_priority := 0;
     pr_state := Valid; pr_reason := ""; pr_comment := "" |}.

(** app/custom_rules.py:41-49 MAX_REGEX_LENGTH *)
Definition MAX_REGEX_LENGTH : nat := 512.
Definition IMPORTANT_PRIORITY : Z := 100.
Definition BLOCKING_SENTINELS : list string := ["0.0.0.0"; "::"].

(** app/custom_rules.py:49-55 UNSUPPORTED_MODIFIER_REASONS *)
Definition UNSUPPORTED_MODIFIER_REASONS : list (string * string) :=
  [("client", "modifier $client cannot be preserved: Alderpoint DNS has no per-client rule enforcement");
   ("ctag", "modifier $ctag cannot be preserved: Alderpoint DNS has no client tags");
   ("denyallow", "modifier $denyallow cannot be preserved: per-rule domain exclusions are not supported");
   ("dnstype", "modifier $dnstype cannot be preserved: query-type restricted rules are not supported");
   ("badfilter", "modifier $badfilter cannot be preserved: rule-cancellation rules are not supported")].

(** [dict.get(key, default)] on a literal table *)
Fixpoint assoc_get (key : string) (default : string) (l : list (string * string)) : string :=
  match l with
  | [] => default
  | (k, v) :: l => if String.eqb k key then v else assoc_get key default l
  end.

(** ** Operations *)

(** app/custom_rules.py:198-199 _invalid *)
Definition invalid (text reason : string) : ParsedRule :=
  (parsed_rule text text){{pr_state := Invalid; pr_reason := reason}}.

(** app/custom_rules.py:202-207 _unsupported *)
Definition unsupported (rule : ParsedRule) (reason : string) : ParsedRule :=
  rule{{pr_type := RtUnsupported; pr_action := ActNone; pr_state := Unsupported;
        pr_reason := reason}}.

Definition family_of (a : ip) : ip_family := if is_v4 a then Ipv4 else Ipv6.

(** app/custom_rules.py:361-382 _parse_dnsrewrite *)
Definition parse_dnsrewrite (value : string) : ip + string :=
  let cannot r := "modifier $dnsrewrite=" +:+ value +:+ " cannot be preserved: " +:+ r in
  let not_ip := cannot "the rewrite target is not an IP address" in
  match split_on ";" value with
  | [part] =>
      match ip_address (strip part) with
      | Some a => inl a
      | None => inr not_ip
      end
  | [p0; p1; p2] =>
      let wanted := upper (strip p1) in
      if String.eqb (upper (strip p0)) "NOERROR"
         && (String.eqb wanted "A" || String.eqb wanted "AAAA") then
        match ip_address (strip p2) with
        | Some a =>
            if String.eqb wanted (if is_v4 a then "A" else "AAAA") then inl a
            else inr (cannot "record type does not match the address family")
        | None => inr not_ip
        end
      else inr (cannot "only plain A/AAAA address rewrites are supported")
  | _ => inr (cannot "only plain A/AAAA address rewrites are supported")
  end.

Definition exception_rewrite_reason :=
  "modifier $dnsrewrite cannot be preserved on an exception rule".
Definition unknown_modifier_reason (name : string) :=
  "modifier $" +:+ name +:+
  " is not supported; the rule was kept inactive instead of activating a broadened rule".

(** The trimmed name and the value of one modifier. *)
Definition modifier_name (raw : string) : string :=
  let '(name, _, _) := partition "=" raw in lower (strip name).
Definition modifier_value (raw : string) : string :=
  let '(_, _, value) := partition "=" raw in value.

Fixpoint modifiers_go (rule : ParsedRule) (segments : list string) : ParsedRule :=
  match segments with
  | [] => rule
  | raw :: segments =>
      let raw := strip raw in
      if String.eqb raw "" then modifiers_go rule segments
      else
        let name := modifier_name raw in
        if String.eqb name "important" then
          modifiers_go (rule{{pr_priority := IMPORTANT_PRIORITY}}) segments
        else if String.eqb name "dnsrewrite" then
          if decide (pr_action rule = ActAllow) then unsupported rule exception_rewrite_reason
          else match parse_dnsrewrite (modifier_value raw) with
          | inr reason => unsupported rule reason
          | inl a =>
              modifiers_go (rule{{pr_type := RtRewrite; pr_action := ActRewrite;
                                  pr_address := Some (str_ip a);
                                  pr_family := Some (family_of a)}}) segments
          end
        else unsupported rule
               (assoc_get name (unknown_modifier_reason name) UNSUPPORTED_MODIFIER_REASONS)
  end.

(** app/custom_rules.py:385-411 _parse_modifiers *)
Definition parse_modifiers (rule : ParsedRule) (modifier_text : string) : ParsedRule :=
  modifiers_go rule (split_on "," modifier_text).

Definition regex_length_reason := "regex exceeds the 512 character limit".
Definition regex_control_reason := "regex contains control characters or newlines".

Section parser.
  Context `{Platform}.

(** app/custom_rules.py:342-358 _validate_regex *)
Definition validate_regex (rule : ParsedRule) : ParsedRule :=
  let pattern := default "" (pr_pattern rule) in
  if MAX_REGEX_LENGTH <? slen pattern then unsupported rule regex_length_reason
  else if sexists is_control pattern then unsupported rule regex_control_reason
  else match re_compile_error pattern with
  | Some exc => unsupported rule ("regex does not compile: " +:+ exc)
  | None =>
      match posix_ere_incompatibility pattern with
      | Some reason => unsupported rule reason
      | None =>
          match nested_quantifier_risk pattern with
          | Some reason => unsupported rule reason
          | None => rule
          end
      end
  end.

(** The body of a regex rule and its modifiers, split at the last [/$]. *)
Definition split_regex_modifiers (body : string) : string * string :=
  if ends_with "/" body then (body, "")
  else match rfind "/$" body with
  | Some (S _ as idx) => (stake (S idx) body, sdrop (idx + 2) body)
  | _ => (body, "")
  end.

(** app/custom_rules.py:414-438 _parse_regex_rule *)
Definition parse_regex_rule (raw : string) : ParsedRule :=
  let is_allow := starts_with "@@" raw in
  let body := if is_allow then sdrop 2 raw else raw in
  let '(body, modifier_text) := split_regex_modifiers body in
  if (slen body <? 3) || negb (starts_with "/" body) || negb (ends_with "/" body)
  then invalid raw "regex rules must be enclosed in / /"
  else
    let pattern := sdrop 1 (sdrop_end 1 body) in
    let rule := (parsed_rule raw ((if is_allow then "@@" else "") +:+ "/" +:+ pattern +:+ "/"))
      {{pr_type := if is_allow then RtRegexAllow else RtRegexBlock;
        pr_action := if is_allow then ActAllow else ActBlock;
        pr_pattern := Some pattern}} in
    let rule := validate_regex rule in
    if bool_decide (pr_state rule = Valid) && negb (String.eqb modifier_text "") then
      let rule := parse_modifiers rule modifier_text in
      if decide (pr_type rule = RtRewrite)
      then unsupported rule "modifier $dnsrewrite cannot be preserved on a regex rule"
      else rule
    else rule.

(** One hostname of a hosts line. *)
Definition hosts_rule (addr : string) (a : ip) (inline_comment host : string) : ParsedRule :=
  let text := addr +:+ " " +:+ host in
  match normalize_domain host with
  | None => invalid text ("'" +:+ host +:+ "' is not a valid hostname")
  | Some domain =>
      if bool_decide (str_ip a ∈ BLOCKING_SENTINELS) then
        (parsed_rule text ("|" +:+ domain +:+ "^"))
          {{pr_type := RtBlock; pr_action := ActBlock; pr_domain := Some domain;
            pr_comment := inline_comment}}
      else
        (parsed_rule text (str_ip a +:+ " " +:+ domain))
          {{pr_type := RtRewrite; pr_action := ActRewrite; pr_domain := Some domain;
            pr_address := Some (str_ip a); pr_family := Some (family_of a);
            pr_comment := inline_comment}}
  end.

(** app/custom_rules.py:441-485 _parse_hosts_line
    ([parts[0]] exists at its one call site, see [hosts_parts_nonempty]) *)
Definition parse_hosts_line (raw : string) : list ParsedRule :=
  let '(body, _, inline) := partition "#" raw in
  match words body with
  | [] => []
  | addr :: hosts =>
      match ip_address addr with
      | None => []
      | Some a =>
          match hosts with
          | [] => [invalid raw "hosts entry has no hostname"]
          | _ => hosts_rule addr a (strip inline) <$> hosts
          end
      end
  end.

(** app/custom_rules.py:488-494 _normalized_form *)
Definition normalized_form (rule : ParsedRule) : string :=
  let domain := default "None" (pr_domain rule) in
  let anchor := if pr_subdomains rule then "||" else "|" in
  if decide (pr_type rule = RtRewrite) then
    anchor +:+ domain +:+ "^$dnsrewrite=" +:+ default "None" (pr_address rule)
  else
    (if decide (pr_action rule = ActAllow) then "@@" else "") +:+ anchor +:+ domain +:+ "^".

(** [candidate] cut at each terminator; [None] when something follows one. *)
Definition cut_terminator (terminator : ascii) (candidate : string) : option string :=
  match partition terminator candidate with
  | (h, true, trailer) => if String.eqb trailer "" then Some h else None
  | (_, false, _) => Some candidate
  end.

Definition anchor_reason :=
  "rules with a path or anchor after the domain are not supported for DNS filtering".
Definition cosmetic_reason :=
  "cosmetic and scriptlet rules have no DNS effect and are not supported".

(** The anchors of the base: whether subdomains match, and the candidate. *)
Definition split_anchor (plain_domain_subdomains : bool) (base : string) : bool * string :=
  if starts_with "||" base then (true, sdrop 2 base)
  else if starts_with "|" base then (false, sdrop 1 base)
  else (plain_domain_subdomains, base).

(** The domain-rule part of [parse_rule], after the other line kinds. *)
Definition parse_domain_rule (raw : string) (plain_domain_subdomains : bool) : ParsedRule :=
  let is_allow := starts_with "@@" raw in
  let body := if is_allow then sdrop 2 raw else raw in
  let '(base, _, modifier_text) := partition "$" body in
  let '(subdomains, candidate) := split_anchor plain_domain_subdomains (strip base) in
  let rule := (parsed_rule raw raw)
    {{pr_action := if is_allow then ActAllow else ActBlock;
      pr_type := if is_allow then RtAllow else RtBlock;
      pr_subdomains := subdomains}} in
  match candidate ← cut_terminator "^" candidate; cut_terminator "|" candidate with
  | None => unsupported rule anchor_reason
  | Some candidate =>
      match normalize_domain candidate with
      | None => invalid raw ("'" +:+ candidate +:+ "' is not a valid domain name")
      | Some domain =>
          let rule := rule{{pr_domain := Some domain}} in
          let rule := if String.eqb modifier_text "" then rule
                      else parse_modifiers rule modifier_text in
          if decide (pr_state rule = Valid)
          then rule{{pr_normalized := normalized_form rule}}
          else rule
      end
  end.

(** app/custom_rules.py:497-563 parse_rule *)
Definition parse_rule (text : string) (plain_domain_subdomains : bool) : list ParsedRule :=
  let raw := strip text in
  if String.eqb raw "" then []
  else if char_in "010" raw || char_in "013" raw
  then [invalid (stake 120 (default "" (head (splitlines raw)))) "a rule must be a single line"]
  else if sexists (λ ch, (code ch <? 32)%N && negb (code ch =? 9)%N || (code ch =? 127)%N) raw
  then [invalid raw "rule contains control characters"]
  else if starts_with "!" raw || starts_with "#" raw
  then [(parsed_rule raw raw)
          {{pr_type := RtComment;
            pr_comment := strip (lstrip_by (λ c, char_in c "!#") raw)}}]
  else if starts_with "/" raw || starts_with "@@/" raw then [parse_regex_rule raw]
  else match parse_hosts_line raw with
  | (_ :: _) as hosts_rules => hosts_rules
  | [] =>
      if contains "##" raw || contains "#@#" raw || contains "#%#" raw || contains "#$#" raw
      then [unsupported (parsed_rule raw raw) cosmetic_reason]
      else [parse_domain_rule raw plain_domain_subdomains]
  end.
End parser.

Example parse_ex1 `{Platform} :
  (λ r, (pr_normalized r, pr_state r)) <$> parse_rule " @@||Example.COM^$important " true
  = [("@@||example.com^", Valid)].
Proof. vm_compute. reflexivity. Qed.
Example parse_ex2 `{Platform} :
  (λ r, (pr_normalized r, pr_type r)) <$> parse_rule "0.0.0.0 a.example b.example # ads" true
  = [("|a.example^", RtBlock); ("|b.example^", RtBlock)].
Proof. vm_compute. reflexivity. Qed.
Example parse_ex3 `{Platform} :
  pr_state <$> parse_rule "||a.example^$important,client=x" true = [Unsupported].
Proof. vm_compute. reflexivity. Qed.
Example parse_ex4 `{Platform} :
  (λ r, (pr_normalized r, pr_address r)) <$> parse_rule "a.example$dnsrewrite=noerror;a;1.2.3.4" false
  = [("|a.example^$dnsrewrite=1.2.3.4", Some "1.2.3.4")].
Proof. vm_compute. reflexivity. Qed.

(** ** What a parsed rule is *)

(** A pattern that passed every gate of [_validate_regex]. *)
Definition regex_ok `{Platform} (pattern : string) : Prop :=
  slen pattern ≤ MAX_REGEX_LENGTH ∧ sexists is_control pattern = false
  ∧ re_compile_error pattern = None ∧ posix_ere_incompatibility pattern = None
  ∧ nested_quantifier_risk pattern = None.

(** The domain a valid rule names. *)
Definition has_domain (r : ParsedRule) : Prop :=
  ∃ d, pr_domain r = Some d ∧ valid_domain d = true.

(** The rule's type, action and operands agree; a rule that is not valid is
    inert: its type is [unsupported] and its action [none]. *)
Definition rule_ok `{Platform} (r : ParsedRule) : Prop :=
  match pr_state r with
  | Valid =>
      match pr_type r with
      | RtBlock => pr_action r = ActBlock ∧ has_domain r ∧ pr_normalized r = normalized_form r
      | RtAllow => pr_action r = ActAllow ∧ has_domain r ∧ pr_normalized r = normalized_form r
      | RtRewrite => pr_action r = ActRewrite ∧ has_domain r ∧
          ∃ s a, ip_address s = Some a ∧ pr_address r = Some (str_ip a)
                 ∧ pr_family r = Some (family_of a)
      | RtRegexBlock => pr_action r = ActBlock ∧ ∃ p, pr_pattern r = Some p ∧ regex_ok p
      | RtRegexAllow => pr_action r = ActAllow ∧ ∃ p, pr_pattern r = Some p ∧ regex_ok p
      | RtComment => pr_action r = ActNone
      | RtUnsupported => False
      end
  | _ => pr_type r = RtUnsupported ∧ pr_action r = ActNone
  end.

Lemma invalid_ok `{Platform} text reason : rule_ok (invalid text reason).
Proof. done. Qed.
Lemma unsupported_ok `{Platform} r reason : rule_ok (unsupported r reason).
Proof. by destruct r. Qed.
#[export] Hint Resolve invalid_ok unsupported_ok : core.

Lemma parse_dnsrewrite_address value a :
  parse_dnsrewrite value = inl a → ∃ s, ip_address s = Some a.
Proof. unfold parse_dnsrewrite. intros. repeat case_match; simplify_eq; eauto. Qed.

(** ** Modifiers *)

(** What [_parse_modifiers] leaves of the rule it is given, when it keeps it
    valid: everything but the priority and, after [$dnsrewrite], the type. *)
Lemma modifiers_go_cases rule segs :
  pr_state rule = Valid →
  let r := modifiers_go rule segs in
  (pr_state r = Unsupported ∧ pr_type r = RtUnsupported ∧ pr_action r = ActNone)
  ∨ (pr_state r = Valid ∧ pr_domain r = pr_domain rule ∧ pr_pattern r = pr_pattern rule
     ∧ pr_subdomains r = pr_subdomains rule ∧ pr_normalized r = pr_normalized rule
     ∧ ((pr_type r = pr_type rule ∧ pr_action r = pr_action rule ∧ pr_address r = pr_address rule
         ∧ pr_family r = pr_family rule)
        ∨ (pr_type r = RtRewrite ∧ pr_action r = ActRewrite ∧ pr_action rule ≠ ActAllow ∧
           ∃ s a, ip_address s = Some a ∧ pr_address r = Some (str_ip a)
                  ∧ pr_family r = Some (family_of a)))).
Proof.
  revert rule. induction segs as [|raw segs IH]; intros rule Hr; simpl.
  { right. by repeat split; auto; left. }
  case_match; [by apply IH|]. case_match.
  { destruct (IH (rule{{pr_priority := IMPORTANT_PRIORITY}})) as [H'|H'];
      destruct rule; simpl in *; auto. }
  case_match; [|left; by destruct rule].
  case_decide as Ha; [left; by destruct rule|].
  destruct (parse_dnsrewrite _) as [a|] eqn:E; [|left; by destruct rule].
  apply parse_dnsrewrite_address in E as (s & E).
  specialize (IH (rule{{pr_type := RtRewrite; pr_action := ActRewrite;
    pr_address := Some (str_ip a); pr_family := Some (family_of a)}})).
  destruct IH as [H'|(?&?&?&?&?&H')]; [by destruct rule|by left|].
  right. repeat split; try (by destruct rule). right.
  destruct H' as [(?&?&?&?)|(?&?&?&?)].
  - repeat split; try (by destruct rule). exists s, a. by destruct rule.
  - repeat split; auto.
Qed.

(** A modifier the engine cannot honour makes the rule unsupported, whatever
    surrounds it. *)
Definition modifier_known (raw : string) : bool :=
  String.eqb (strip raw) "" || String.eqb (modifier_name (strip raw)) "important"
  || String.eqb (modifier_name (strip raw)) "dnsrewrite".

Lemma modifiers_go_known rule segs :
  pr_state (modifiers_go rule segs) = Valid → forallb modifier_known segs = true.
Proof.
  revert rule. induction segs as [|raw segs IH]; intros rule; simpl; [done|].
  unfold modifier_known at 1.
  destruct (String.eqb (strip raw) ""); [apply IH|].
  destruct (String.eqb (modifier_name _) "important"); [apply IH|].
  destruct (String.eqb (modifier_name _) "dnsrewrite"); [|by destruct rule].
  case_decide; [by destruct rule|]. case_match; [apply IH|by destruct rule].
Qed.

(** ** Every rule [parse_rule] returns is well formed *)

Section facts.
Context `{Platform}.

Lemma validate_regex_ok rule p :
  pr_state rule = Valid → pr_pattern rule = Some p →
  validate_regex rule = rule ∧ regex_ok p ∨
  ∃ reason, validate_regex rule = unsupported rule reason.
Proof.
  intros Hs Hp. unfold validate_regex, regex_ok. rewrite Hp. simpl.
  destruct (_ <? _) eqn:E1; [eauto|]. destruct (sexists _ _) eqn:E2; [eauto|].
  destruct (re_compile_error _) eqn:E3; [eauto|].
  destruct (posix_ere_incompatibility _) eqn:E4; [eauto|].
  destruct (nested_quantifier_risk _) eqn:E5; [eauto|].
  left. split; [done|]. by apply Nat.ltb_ge in E1.
Qed.

Lemma parse_regex_rule_ok raw : rule_ok (parse_regex_rule raw).
Proof.
  unfold parse_regex_rule. destruct (split_regex_modifiers _) as [body text].
  case_match; [done|]. set (p := sdrop 1 _).
  set (rule := (parsed_rule _ _){{_ := _; _ := _; _ := _}}).
  destruct (validate_regex_ok rule p) as [[-> Hp]|[reason ->]]; [done..| |done].
  destruct (bool_decide _ && _);
    [|by unfold rule_ok, rule; simpl; destruct (starts_with "@@" raw); simpl; eauto].
  destruct (modifiers_go_cases rule (split_on "," text) eq_refl) as [Hc|Hc];
    unfold parse_modifiers; set (r := modifiers_go _ _) in *.
  - destruct Hc as (Hs & Ht & Ha). rewrite Ht. simpl. unfold rule_ok. by rewrite Hs.
  - destruct Hc as (Hs & _ & Hpat & _ & _ & Hc). case_decide as Ht; [done|].
    destruct Hc as [(Ht' & Ha & _)|(?&_)]; [|done].
    unfold rule_ok. rewrite Hs, Ht', Ha, Hpat. simpl.
    destruct (starts_with "@@" raw); eauto.
Qed.

Lemma hosts_rule_ok s a comment host :
  ip_address s = Some a → rule_ok (hosts_rule s a comment host).
Proof.
  intros Ha. unfold hosts_rule.
  destruct (normalize_domain host) as [d|] eqn:Hd; [|done].
  apply normalize_domain_sound in Hd. unfold has_domain.
  case_match; unfold rule_ok, has_domain; simpl; split; eauto 10.
Qed.

Lemma parse_hosts_line_ok raw r : r ∈ parse_hosts_line raw → rule_ok r.
Proof.
  unfold parse_hosts_line. destruct (partition "#" raw) as [[body ?] inline].
  destruct (words body) as [|addr hosts]; [by intros ?%elem_of_nil|].
  destruct (ip_address addr) as [a|] eqn:Ha; [|by intros ?%elem_of_nil].
  destruct hosts as [|h hosts]; [by intros ->%list_elem_of_singleton|].
  intros (host & -> & _)%list_elem_of_fmap. by apply hosts_rule_ok.
Qed.

Lemma parse_domain_rule_ok raw b : rule_ok (parse_domain_rule raw b).
Proof.
  unfold parse_domain_rule. destruct (partition "$" _) as [[base ?] text].
  destruct (split_anchor _ _) as [sub cand]. case_match; [|by apply unsupported_ok].
  destruct (normalize_domain _) as [d|] eqn:Hd; [|done]. apply normalize_domain_sound in Hd.
  set (rule := _{{pr_domain := Some d}}).
  destruct (String.eqb text "").
  { rewrite decide_True by done. unfold rule_ok, has_domain, rule, normalized_form. simpl.
    destruct (starts_with "@@" raw); simpl; eauto. }
  destruct (modifiers_go_cases rule (split_on "," text) eq_refl) as [Hc|Hc];
    unfold parse_modifiers; set (r := modifiers_go _ _) in *.
  - destruct Hc as (Hs & Ht & Ha). rewrite Hs. simpl. unfold rule_ok. by rewrite Hs.
  - destruct Hc as (Hs & Hdom & Hpat & Hsub & _ & Hc). rewrite decide_True by done.
    unfold rule_ok, has_domain, normalized_form.
    destruct r as [? ? ty act dom subd pat addr fam ? ? st ? ?]. simpl in *. subst st dom.
    destruct Hc as [(-> & -> & _ & _)|(-> & -> & _ & Hip)].
    + unfold rule; simpl. destruct (starts_with "@@" raw); simpl; eauto.
    + eauto.
Qed.

Lemma parse_rule_ok text b r : r ∈ parse_rule text b → rule_ok r.
Proof.
  unfold parse_rule. set (raw := strip text).
  case_match; [by intros ?%elem_of_nil|].
  case_match; [by intros ->%list_elem_of_singleton|].
  case_match; [by intros ->%list_elem_of_singleton|].
  case_match; [by intros ->%list_elem_of_singleton|].
  case_match; [intros ->%list_elem_of_singleton; apply parse_regex_rule_ok|].
  destruct (parse_hosts_line raw) as [|h hs] eqn:E.
  - case_match; intros ->%list_elem_of_singleton; [done|apply parse_domain_rule_ok].
  - rewrite <-E. apply parse_hosts_line_ok.
Qed.
End facts.

(** ** Re-reading a normalized rule *)

(** Characters of a plain domain rule: no space, modifier, comment or path. *)
Definition norm_char (c : ascii) : bool := dom_char c || is_upper_az c || char_in c "@|^".

(** Nothing that neither holds a colon nor starts a digit group is an address. *)
Lemma ip_address_none s c :
  char_in ":" s = false → shead s = Some c → is_09 c = false → ip_address s = None.
Proof.
  intros Hcolon Hh Hc. unfold ip_address, parse_ipv6.
  assert (H4 : parse_ipv4 s = None).
  { destruct s as [|d s]; [done|]. injection Hh as ->. unfold parse_ipv4. simpl split_on.
    destruct (Ascii.eqb "." c).
    { by destruct (split_on "." s) as [|x [|y [|z [|? ?]]]]. }
    destruct (split_on "." s) as [|v vs]; [done|]. destruct vs as [|x [|y [|z [|? ?]]]]; try done.
    unfold parse_octet at 1. cbn -[is_09]. by rewrite Hc. }
  rewrite H4. assert (Hd : ∀ h, (∃ t, s = h +:+ t) → parse_ipv6_int h = None).
  { intros h (t & Ht). unfold parse_ipv6_int. case_match; [done|].
    rewrite split_on_none; [done|]. rewrite Ht, char_in_app in Hcolon. by bool_to_prop. }
  destruct (partition "%" s) as [[h f] t] eqn:Hp.
  assert (Hpre : ∃ t, s = h +:+ t).
  { destruct f.
    - apply partition_found in Hp as [-> _]. eauto.
    - apply partition_not_found in Hp as (-> & _). exists "". by rewrite sapp_nil_r. }
  rewrite (Hd h Hpre). by repeat case_match.
Qed.

Section roundtrip.
Context `{Platform}.

(** The text [prefix anchor domain ^] of a block or allow rule. *)
Definition rule_form (allow subdomains : bool) (d : string) : string :=
  (if allow then "@@" else "") +:+ (if subdomains then "||" else "|") +:+ d +:+ "^".

Lemma rule_form_chars allow sub d :
  valid_domain d = true → sforall norm_char (rule_form allow sub d) = true.
Proof.
  intros Hd%valid_domain_chars. unfold rule_form. rewrite !sforall_app.
  rewrite (sforall_impl dom_char norm_char d); [|char_decide|done].
  by destruct allow, sub.
Qed.

Lemma rule_form_no allow sub d c :
  valid_domain d = true → norm_char c = false → char_in c (rule_form allow sub d) = false.
Proof. intros Hd Hc. eapply sforall_not_in; [done|]. by apply rule_form_chars. Qed.

Lemma rule_form_head allow sub d :
  shead (rule_form allow sub d) = Some (if allow then "@"%char else "|"%char).
Proof. by destruct allow, sub. Qed.

Lemma rule_form_strip allow sub d : strip (rule_form allow sub d) = rule_form allow sub d.
Proof.
  apply strip_id.
  - unfold head_not. rewrite rule_form_head. by destruct allow.
  - unfold last_not, rule_form. rewrite <-!sapp_assoc, slast_snoc. done.
Qed.

Lemma starts_with_not_in a p s : char_in a s = false → starts_with (String a p) s = false.
Proof.
  destruct s; [done|]. rewrite char_in_cons. intros [Ha _]%orb_false_iff.
  unfold starts_with. by rewrite Ha.
Qed.

Lemma norm_no c raw : norm_char c = false → sforall norm_char raw = true → char_in c raw = false.
Proof. intros. by eapply sforall_not_in. Qed.

Lemma norm_words raw : sforall norm_char raw = true → raw ≠ "" → words raw = [raw].
Proof.
  intros Hr Hne. apply words_no_space; [|done].
  eapply sforall_impl; [|exact Hr]. char_decide.
Qed.

Lemma norm_strip raw : sforall norm_char raw = true → strip raw = raw.
Proof. intros Hr. eapply strip_none; [|exact Hr]. char_decide. Qed.

Lemma norm_hosts_line raw :
  sforall norm_char raw = true → raw ≠ "" → ip_address raw = None → parse_hosts_line raw = [].
Proof.
  intros Hr Hne Hip. unfold parse_hosts_line.
  rewrite partition_none by (by apply norm_no).
  by rewrite norm_words, Hip.
Qed.

(** Text of such characters reaches the domain-rule branch. *)
Lemma parse_rule_dispatch raw b :
  sforall norm_char raw = true → raw ≠ "" → ip_address raw = None →
  parse_rule raw b = [parse_domain_rule raw b].
Proof.
  intros Hr Hne Hip. unfold parse_rule. rewrite norm_strip by done.
  rewrite (proj2 (String.eqb_neq _ _)) by done.
  rewrite !norm_no by done.
  assert (sexists (λ ch, (code ch <? 32)%N && negb (code ch =? 9)%N || (code ch =? 127)%N)
            raw = false) as ->.
  { apply sexists_false. eapply sforall_impl; [|exact Hr]. char_decide. }
  rewrite !starts_with_not_in by (by apply norm_no).
  assert (starts_with "@@/" raw = false) as ->.
  { destruct (starts_with "@@/" raw) eqn:E; [|done].
    apply starts_with_spec in E as (t & ->). done. }
  simpl. rewrite norm_hosts_line by done.
  by rewrite !contains_false_char by (by apply norm_no).
Qed.

Lemma rule_form_dispatch allow sub d b :
  valid_domain d = true →
  parse_rule (rule_form allow sub d) b = [parse_domain_rule (rule_form allow sub d) b].
Proof.
  intros Hd. apply parse_rule_dispatch.
  - by apply rule_form_chars.
  - by destruct allow, sub.
  - eapply (ip_address_none _ (if allow then "@"%char else "|"%char));
      [by apply rule_form_no|apply rule_form_head|by destruct allow].
Qed.

Lemma cut_terminator_none t s : char_in t s = false → cut_terminator t s = Some s.
Proof. intros Hs. unfold cut_terminator. by rewrite partition_none. Qed.
Lemma cut_terminator_end t s :
  char_in t s = false → cut_terminator t (s +:+ String t "") = Some s.
Proof. intros Hs. unfold cut_terminator. by rewrite partition_app. Qed.

Lemma split_anchor_form (sub : bool) b d :
  valid_domain d = true →
  split_anchor b ((if sub then "||" else "|") +:+ d +:+ "^") = (sub, d +:+ "^").
Proof.
  intros Hd. destruct sub; [done|].
  apply valid_domain_head in Hd as (c & s & -> & Hc).
  change (split_anchor b (String "|" (String c (s +:+ "^"))) = (false, String c (s +:+ "^"))).
  unfold split_anchor, starts_with. rewrite Ascii.eqb_refl.
  rewrite (proj2 (Ascii.eqb_neq "|" c)) by (by intros <-). done.
Qed.

Lemma strip_anchor_form (sub : bool) d :
  strip ((if sub then "||" else "|") +:+ d +:+ "^") = (if sub then "||" else "|") +:+ d +:+ "^".
Proof. exact (rule_form_strip false sub d). Qed.

(** Reading the canonical text of a block or allow rule gives that rule. *)
Lemma parse_rule_form allow sub d b :
  valid_domain d = true →
  parse_rule (rule_form allow sub d) b =
  [(parsed_rule (rule_form allow sub d) (rule_form allow sub d))
     {{pr_action := if allow then ActAllow else ActBlock;
       pr_type := if allow then RtAllow else RtBlock;
       pr_subdomains := sub; pr_domain := Some d}}].
Proof.
  intros Hd. rewrite rule_form_dispatch by done. unfold parse_domain_rule.
  assert (starts_with "@@" (rule_form allow sub d) = allow) as -> by (by destruct allow, sub).
  assert ((if allow then sdrop 2 (rule_form allow sub d) else rule_form allow sub d)
          = (if sub then "||" else "|") +:+ d +:+ "^") as -> by (by destruct allow, sub).
  rewrite partition_none by (by apply (rule_form_no false sub)).
  rewrite strip_anchor_form, split_anchor_form by done.
  rewrite cut_terminator_end by (by eapply valid_domain_no_char). simpl.
  rewrite cut_terminator_none by (by eapply valid_domain_no_char).
  rewrite normalize_domain_fixed by done. simpl. unfold normalized_form. simpl.
  by destruct allow.
Qed.
End roundtrip.

(** ** Properties *)

(** C7: Every rule that [parse_rule] returns is well formed: a valid rule has an
    action matching its type and validated operands (a domain in canonical form,
    a printed IP address with its family, a regular expression that passed all
    five gates), and a rule that is not valid carries no type and no action. *)
Theorem parse_rule_wf `{Platform} text b r :
  r ∈ parse_rule text b → rule_ok r.
Proof. apply parse_rule_ok. Qed.

Lemma parse_rule_wf_witness :
  let _ := sample_platform in ∃ r, r ∈ parse_rule "/^ads[0-9]/$important" true ∧ rule_ok r.
Proof.
  intros P. eexists. split; [vm_compute; left|].
  apply (@parse_rule_wf P "/^ads[0-9]/$important" true). vm_compute. left.
Defined.



(** The modifier list of a domain rule: what follows its first [$]. *)
Definition modifier_segments (raw : string) : list string :=
  let body := if starts_with "@@" raw then sdrop 2 raw else raw in
  let '(_, _, text) := partition "$" body in split_on "," text.

(** A domain rule becomes active only when every one of its modifiers is
    understood: one unknown modifier anywhere in the list keeps the rule
    inactive instead of activating a broader rule. *)
Theorem unknown_modifier_inactive `{Platform} raw b :
  forallb modifier_known (modifier_segments raw) = false →
  pr_state (parse_domain_rule raw b) ≠ Valid ∧ pr_action (parse_domain_rule raw b) = ActNone.
Proof.
  unfold modifier_segments. intros Hm.
  assert (pr_state (parse_domain_rule raw b) ≠ Valid) as Hne.
  { unfold parse_domain_rule. destruct (partition "$" _) as [[base f] text].
    destruct (split_anchor _ _) as [sub cand]. case_match; [|done].
    destruct (normalize_domain _) as [d|]; [|done].
    destruct (String.eqb_spec text "") as [->|Htext]; [by vm_compute in Hm|].
    intros Hv. match type of Hv with context [parse_modifiers ?r _] => set (rule := r) in * end.
    assert (pr_state (parse_modifiers rule text) = Valid) as Hk.
    { case_decide; [done|]. by destruct (parse_modifiers rule text). }
    apply modifiers_go_known in Hk. congruence. }
  split; [done|]. pose proof (parse_domain_rule_ok raw b) as Hok. unfold rule_ok in Hok.
  destruct (pr_state _); [done|by destruct Hok..].
Qed.

Lemma unknown_modifier_inactive_witness :
  let _ := sample_platform in
  pr_state (parse_domain_rule "||a.example^$important,client=kid" true) ≠ Valid.
Proof.
  intros P. apply (@unknown_modifier_inactive P "||a.example^$important,client=kid" true).
  vm_compute. reflexivity.
Defined.
