(* ===== verification/SourceParser.v ===== *)
(** * Parsing blocklist sources

    [parse_source_line], its fast path, and [parse_rule_lines] of
    [app/alderpointdns_compiler.py]: from the lines of a downloaded list to the
    set of blocked names, the set of allowed names and the parse statistics. *)

From S2P Require Import Prelude PyStr PyJson StrLemmas IpAddr DomainName RuleParser.

(** ** Data *)

(** app/alderpointdns_compiler.py:56-59 LOCALHOST_ALIASES *)
Definition LOCALHOST_ALIASES : list string :=
  ["localhost"; "localhost.localdomain"; "ip6-localhost"; "ip6-loopback"].

(** app/alderpointdns_compiler.py:61-70 ADGUARD_DNSREWRITE_BLOCKPAGE_TARGETS *)
Definition ADGUARD_DNSREWRITE_BLOCKPAGE_TARGETS : list string := ["ad-block.dns.adguard.com"].

(** The [kind] of a line result; an accepted line carries its rule's action. *)
Inductive line_kind := KSkip | KAct (a : rule_action) | KInvalid | KUnsupported.

#[export] Instance line_kind_eq_dec : EqDecision line_kind.
Proof. solve_decision. Defined.

(** [(kind, domain, reason)] *)
Definition line_result : Type := line_kind * option string * string.
Definition skip_result : line_result := (KSkip, None, "").

(** The dict kept for a rejected line. *)
Definition sample (line_number : Z) (kind reason excerpt : string) : json :=
  JObj [("line", JInt line_number); ("kind", JStr kind); ("reason", JStr reason);
        ("excerpt", JStr excerpt)].

(** app/alderpointdns_compiler.py:123-136 ParseStats *)
Record ParseStats := mkParseStats {
  downloaded_entries : Z;
  parsed_rules : Z;
  accepted_domains : Z;
  duplicate_domains : Z;
  invalid_rules : Z;
  unsupported_rules : Z;
  unique_active_domains : Z;
  exceptions : Z;
  rejected_samples : list json;
}.
Definition empty_stats : ParseStats := mkParseStats 0 0 0 0 0 0 0 0 [].

(** ** Operations *)

(** app/alderpointdns_compiler.py:565-582 _adguard_blockpage_normalize *)
Definition adguard_blockpage_normalize (text : string) : string :=
  if negb (contains "$dnsrewrite=" text) then text
  else match partition "$" text with
  | (_, false, _) => text
  | (head, true, modifiers) =>
      if existsb (λ target, String.eqb (strip modifiers) ("dnsrewrite=" +:+ target))
           ADGUARD_DNSREWRITE_BLOCKPAGE_TARGETS
      then strip head else text
  end.

(** app/alderpointdns_compiler.py:610-610 _FAST_DOMAIN_CHARS *)
Definition fast_domain_char (c : ascii) : bool :=
  is_lower_az c || is_upper_az c || is_09 c || char_in c "._-".

(** The candidate of the fast path, by the shape of the body. *)
Definition fast_candidate (body : string) : option string :=
  if starts_with "||" body && ends_with "^" body && (scount "^" body =? 1)
  then Some (sdrop_end 1 (sdrop 2 body))
  else if starts_with "|" body && ends_with "^" body && (scount "^" body =? 1)
  then Some (sdrop_end 1 (sdrop 1 body))
  else if sforall fast_domain_char body then Some body
  else None.

Section source.
  Context `{Platform}.

(** app/alderpointdns_compiler.py:613-636 _fast_common_source_rule *)
Definition fast_common_source_rule (raw : string) : option (list line_result) :=
  let is_allow := starts_with "@@" raw in
  let body := if is_allow then sdrop 2 raw else raw in
  candidate ← fast_candidate body;
  if String.eqb candidate "" || negb (sforall fast_domain_char candidate) then None
  else
    domain ← normalize_domain candidate;
    Some [(KAct (if is_allow then ActAllow else ActBlock), Some domain, "")].

Definition is_alias (domain : string) : bool :=
  existsb (String.eqb domain) LOCALHOST_ALIASES.

(** One hostname of a hosts-format line. *)
Definition source_host (host : string) : line_result :=
  if is_alias (lower (strip_char "." host)) then skip_result
  else match normalize_domain host with
  | None => (KInvalid, None, "'" +:+ host +:+ "' is not a valid hostname")
  | Some domain => if is_alias domain then skip_result else (KAct ActBlock, Some domain, "")
  end.

(** The result for one rule of the shared parser; [None] for a comment. *)
Definition source_rule (rule : ParsedRule) : option line_result :=
  if decide (pr_type rule = RtComment) then None
  else if decide (pr_state rule = Invalid) then Some (KInvalid, None, pr_reason rule)
  else if decide (pr_state rule = Unsupported) then Some (KUnsupported, None, pr_reason rule)
  else if decide (pr_type rule = RtRegexBlock ∨ pr_type rule = RtRegexAllow)
  then Some (KUnsupported, None, "regex rules are not supported for blocklist sources")
  else if decide (pr_type rule = RtRewrite)
  then Some (KUnsupported, None,
             "modifier $dnsrewrite to an IP address is not supported for blocklist sources")
  else if match pr_domain rule with Some d => is_alias d | None => false end
  then Some skip_result
  else Some (KAct (pr_action rule), pr_domain rule, "").

(** The general path: the parser shared with the custom rules. *)
Definition slow_source_rule (normalized : string) : list line_result :=
  omap source_rule (parse_rule normalized true).

(** app/alderpointdns_compiler.py:639-710 parse_source_line *)
Definition parse_source_line (raw : string) : list line_result :=
  let first_token := default "" (head (words raw)) in
  if is_hosts_line first_token then
    let '(body, _, _) := partition "#" raw in
    match words body with
    | _ :: (_ :: _) as hosts => source_host <$> hosts
    | _ => [(KInvalid, None, "hosts entry has no hostname")]
    end
  else
    let normalized := adguard_blockpage_normalize raw in
    match fast_common_source_rule normalized with
    | Some common => common
    | None => slow_source_rule normalized
    end.

(** ** Reading a whole list *)

Definition or_default (s d : string) : string := if String.eqb s "" then d else s.

Record parse_state := mkState {
  st_blocks : gset string; st_allows : gset string; st_stats : ParseStats }.

Definition reject (line_number : Z) (raw : string) (kind : line_kind) (reason word : string)
    (stats : ParseStats) : ParseStats :=
  let stats := if decide (kind = KInvalid)
               then stats{{invalid_rules ::= Z.succ}}
               else stats{{unsupported_rules ::= Z.succ}} in
  if length (rejected_samples stats) <? 20
  then stats{{rejected_samples ::= (λ l, l ++
         [sample line_number word (or_default reason (word +:+ " entry")) (stake 120 raw)])}}
  else stats.

(** The body of the inner loop of [parse_rule_lines]. *)
Definition step_result (line_number : Z) (raw : string) (st : parse_state) (r : line_result)
    : parse_state :=
  match r with
  | (KSkip, _, _) => st
  | (KInvalid, _, reason) => st{{st_stats ::= reject line_number raw KInvalid reason "invalid"}}
  | (KUnsupported, _, reason) =>
      st{{st_stats ::= reject line_number raw KUnsupported reason "unsupported"}}
  | (KAct _, None, _) => st (* never produced, see [parse_source_line_sound] *)
  | (KAct a, Some domain, _) =>
      let st := st{{st_stats -> parsed_rules ::= Z.succ}} in
      if decide (a = ActAllow) then
        if decide (domain ∈ st_allows st) then st
        else st{{st_allows ::= ({[domain]} ∪.);
                 st_stats -> accepted_domains ::= Z.succ;
                 st_stats -> exceptions ::= Z.succ}}
      else
        if decide (domain ∈ st_blocks st) then st
        else st{{st_blocks ::= ({[domain]} ∪.); st_stats -> accepted_domains ::= Z.succ}}
  end.

(** Blank lines, comments and section headers are not entries. *)
Definition is_entry (raw : string) : bool :=
  negb (String.eqb raw "" || starts_with "#" raw || starts_with "!" raw || starts_with "//" raw)
  && negb (starts_with "[" raw && ends_with "]" raw).

Definition step_line (line_number : Z) (st : parse_state) (line : string) : parse_state :=
  let raw := strip line in
  if is_entry raw then
    fold_left (step_result line_number raw) (parse_source_line raw)
      (st{{st_stats -> downloaded_entries ::= Z.succ}})
  else st.

Fixpoint lines_go (line_number : Z) (st : parse_state) (lines : list string) : parse_state :=
  match lines with
  | [] => st
  | line :: lines => lines_go (Z.succ line_number) (step_line line_number st line) lines
  end.

(** app/alderpointdns_compiler.py:713-757 parse_rule_lines *)
Definition parse_rule_lines (lines : list string) : gset string * gset string * ParseStats :=
  let st := lines_go 1 (mkState ∅ ∅ empty_stats) lines in
  let stats := st_stats st in
  (st_blocks st, st_allows st,
   stats{{unique_active_domains := Z.of_nat (size (st_blocks st));
          duplicate_domains := (parsed_rules stats - accepted_domains stats)%Z}}).

(** app/alderpointdns_compiler.py:760-761 parse_rules *)
Definition parse_rules (content : string) : gset string * gset string * ParseStats :=
  parse_rule_lines (splitlines content).
End source.

Example source_ex1 `{Platform} :
  parse_source_line "0.0.0.0 ads.example localhost tracker.example # x"
  = [(KAct ActBlock, Some "ads.example", ""); skip_result;
     (KAct ActBlock, Some "tracker.example", "")].
Proof. vm_compute. reflexivity. Qed.
Example source_ex2 `{Platform} :
  parse_source_line "||pop.example^$dnsrewrite=ad-block.dns.adguard.com"
  = [(KAct ActBlock, Some "pop.example", "")].
Proof. vm_compute. reflexivity. Qed.
Example source_ex3 `{Platform} :
  let '(b, a, st) := parse_rules ("||a.example^" +:+ nl +:+ "a.example" +:+ nl +:+ "@@b.example" +:+ nl) in
  (sorted_set b, sorted_set a, parsed_rules st, duplicate_domains st)
  = (["a.example"], ["b.example"], 3%Z, 1%Z).
Proof. vm_compute. reflexivity. Qed.

(** ** The fast path agrees with the shared parser *)

Section fast.
Context `{Platform}.

Lemma fast_char_norm c : fast_domain_char c = true → norm_char c = true.
Proof. revert c. char_decide. Qed.

Lemma fast_no c s : fast_domain_char c = false → sforall fast_domain_char s = true →
  char_in c s = false.
Proof. intros. by eapply sforall_not_in. Qed.

(** Text that starts with the anchor and ends with a different character is
    the anchor, the candidate and that character. *)
Lemma anchored_split p a c body :
  starts_with (p +:+ String a "") body = true → ends_with (String c "") body = true → a ≠ c →
  let cand := sdrop_end 1 (sdrop (slen (p +:+ String a "")) body) in
  body = (p +:+ String a "") +:+ cand +:+ String c "".
Proof.
  intros (t & ->)%starts_with_spec Hc%ends_with_one Hac. simpl.
  rewrite sdrop_app_length.
  destruct (decide (t = "")) as [->|Ht].
  { rewrite sapp_nil_r, slast_snoc in Hc. by simplify_eq. }
  rewrite slast_app in Hc by done. apply slast_split in Hc as (w & ->).
  by rewrite sdrop_end_snoc.
Qed.

(** The three shapes of the fast path. *)
Lemma fast_candidate_shape body cand :
  fast_candidate body = Some cand → sforall fast_domain_char cand = true →
  (∃ sub : bool, body = (if sub then "||" else "|") +:+ cand +:+ "^") ∨ body = cand.
Proof.
  unfold fast_candidate.
  destruct (starts_with "||" body && ends_with "^" body && _) eqn:E1.
  { bool_to_prop. intros [= <-] _. left. exists true. by apply (anchored_split "|"). }
  destruct (starts_with "|" body && ends_with "^" body && _) eqn:E2.
  { bool_to_prop. intros [= <-] _. left. exists false. by apply (anchored_split ""). }
  destruct (sforall fast_domain_char body); [|done]. intros [= ->] _. by right.
Qed.

Lemma split_anchor_cand (sub : bool) cand b :
  sforall fast_domain_char cand = true → cand ≠ "" →
  split_anchor b ((if sub then "||" else "|") +:+ cand +:+ "^") = (sub, cand +:+ "^").
Proof.
  intros Hc Hne. destruct sub; [done|]. destruct cand as [|c s]; [done|].
  change (split_anchor b (String "|" (String c (s +:+ "^"))) = (false, String c (s +:+ "^"))).
  unfold split_anchor, starts_with. rewrite Ascii.eqb_refl.
  apply andb_true_iff in Hc as [Hc _].
  rewrite (proj2 (Ascii.eqb_neq "|" c)) by (by intros <-). done.
Qed.

(** The domain rule read from such a text. *)
Lemma parse_domain_rule_cand raw body cand d :
  raw = (if starts_with "@@" raw then "@@" else "") +:+ body →
  sforall fast_domain_char cand = true → cand ≠ "" →
  (∃ sub : bool, body = (if sub then "||" else "|") +:+ cand +:+ "^") ∨ body = cand →
  normalize_domain cand = Some d →
  let r := parse_domain_rule raw true in
  pr_state r = Valid ∧ pr_domain r = Some d
  ∧ pr_type r = (if starts_with "@@" raw then RtAllow else RtBlock)
  ∧ pr_action r = (if starts_with "@@" raw then ActAllow else ActBlock).
Proof.
  intros Hraw Hc Hne Hshape Hd. unfold parse_domain_rule.
  assert ((if starts_with "@@" raw then sdrop 2 raw else raw) = body) as ->.
  { clear -Hraw. by destruct (starts_with "@@" raw); rewrite Hraw. }
  assert (sforall norm_char body = true) as Hb.
  { pose proof (sforall_impl _ _ _ fast_char_norm Hc) as Hn.
    destruct Hshape as [[sub ->]| ->]; [|done]. rewrite !sforall_app, Hn. by destruct sub. }
  rewrite partition_none by (by apply norm_no). rewrite norm_strip by done.
  assert (∃ sub cand', split_anchor true body = (sub, cand')
    ∧ (x ← cut_terminator "^" cand'; cut_terminator "|" x) = Some cand) as (sub & cand' & -> & ->).
  { destruct Hshape as [[sub ->]| ->].
    - exists sub, (cand +:+ "^"). rewrite split_anchor_cand by done. split; [done|].
      rewrite cut_terminator_end by (by apply fast_no). simpl.
      by rewrite cut_terminator_none by (by apply fast_no).
    - exists true, cand. unfold split_anchor.
      rewrite !starts_with_not_in by (by apply fast_no). split; [done|].
      rewrite cut_terminator_none by (by apply fast_no). simpl.
      by rewrite cut_terminator_none by (by apply fast_no). }
  rewrite Hd. simpl. by destruct (starts_with "@@" raw).
Qed.

(** No address is accepted by both the fast path and the hosts branch. *)
Lemma not_hosts_no_ip raw :
  sforall norm_char raw = true → raw ≠ "" → is_hosts_line raw = false → ip_address raw = None.
Proof.
  intros Hr Hne Hh. unfold is_hosts_line in Hh.
  destruct (could_be_ip_literal raw) eqn:Hc.
  - simpl in Hh. apply bool_decide_eq_false in Hh. by apply eq_None_not_Some.
  - unfold could_be_ip_literal in Hc. destruct raw as [|c s]; [done|].
    cbn [shead] in Hc. apply orb_false_iff in Hc as [[Hd _]%orb_false_iff Hcolon].
    eapply (ip_address_none _ c); [done..|]. unfold is_digit in Hd. by bool_to_prop.
Qed.

Lemma starts_with_at raw : raw = (if starts_with "@@" raw then "@@" else "") +:+
  (if starts_with "@@" raw then sdrop 2 raw else raw).
Proof.
  destruct (starts_with "@@" raw) eqn:E; [|done].
  by apply starts_with_spec in E as (t & ->).
Qed.

Lemma fast_agrees_aux raw l :
  fast_common_source_rule raw = Some l → is_hosts_line (default "" (head (words raw))) = false →
  ∃ a d, l = [(KAct a, Some d, "")] ∧ valid_domain d = true ∧ (a = ActBlock ∨ a = ActAllow)
    ∧ slow_source_rule raw = if is_alias d then [skip_result] else l.
Proof.
  unfold fast_common_source_rule. intros Hf Hh.
  set (body := if starts_with "@@" raw then sdrop 2 raw else raw) in *.
  destruct (fast_candidate body) as [cand|] eqn:Hcand; [|done]. simpl in Hf.
  destruct (String.eqb_spec cand "") as [|Hne]; [done|].
  destruct (sforall fast_domain_char cand) eqn:Hc; [|done]. simpl in Hf.
  destruct (normalize_domain cand) as [d|] eqn:Hd; [|done]. simpl in Hf. injection Hf as <-.
  exists (if starts_with "@@" raw then ActAllow else ActBlock), d.
  split; [done|]. split; [by eapply normalize_domain_sound|].
  split; [destruct (starts_with "@@" raw); auto|].
  pose proof (fast_candidate_shape _ _ Hcand Hc) as Hshape.
  pose proof (starts_with_at raw) as Hraw. fold body in Hraw.
  assert (sforall norm_char raw = true) as Hn.
  { pose proof (sforall_impl _ _ _ fast_char_norm Hc) as Hn.
    rewrite Hraw, sforall_app. destruct Hshape as [[sub ->]| ->].
    - rewrite !sforall_app, Hn. by destruct sub, (starts_with "@@" raw).
    - rewrite Hn. by destruct (starts_with "@@" raw). }
  assert (raw ≠ "") as Hne'.
  { intros E. rewrite E in Hraw. symmetry in Hraw.
    apply sapp_eq_nil in Hraw as [_ Hb]. destruct Hshape as [[[] Hs]|Hs]; by rewrite Hs in Hb. }
  rewrite norm_words in Hh by done. simpl in Hh.
  unfold slow_source_rule. rewrite parse_rule_dispatch by (auto; by apply not_hosts_no_ip).
  destruct (parse_domain_rule_cand raw body cand d) as (H1 & H2 & H3 & H4); [done..|].
  simpl. unfold source_rule. rewrite H1, H2, H3, H4.
  destruct (starts_with "@@" raw); simpl; by destruct (is_alias d).
Qed.
End fast.

(** ** What a line contributes *)

(** The domain a result blocks or allows. *)
Definition blocked_by (r : line_result) : option string :=
  match r with (KAct a, Some d, _) => if decide (a = ActAllow) then None else Some d | _ => None end.
Definition allowed_by (r : line_result) : option string :=
  match r with (KAct a, Some d, _) => if decide (a = ActAllow) then Some d else None | _ => None end.

Definition is_accepted (r : line_result) : bool :=
  match r with (KAct _, Some _, _) => true | _ => false end.
Definition is_kind (k : line_kind) (r : line_result) : bool := bool_decide (r.1.1 = k).

(** A result names a canonical domain, or none when nothing is activated. *)
Definition result_ok (r : line_result) : Prop :=
  match r with
  | (KAct a, dom, _) => (a = ActBlock ∨ a = ActAllow) ∧ ∃ d, dom = Some d ∧ valid_domain d = true
  | (_, dom, _) => dom = None
  end.

(** What the statistics of a run say of the results [rs] it has seen. *)
Record accounted (rs : list line_result) (st : parse_state) : Prop := {
  acc_blocks : ∀ d, d ∈ st_blocks st ↔ d ∈ omap blocked_by rs;
  acc_allows : ∀ d, d ∈ st_allows st ↔ d ∈ omap allowed_by rs;
  acc_parsed : parsed_rules (st_stats st) = zcount is_accepted rs;
  acc_accepted : accepted_domains (st_stats st)
                 = (Z.of_nat (size (st_blocks st)) + Z.of_nat (size (st_allows st)))%Z;
  acc_exceptions : exceptions (st_stats st) = Z.of_nat (size (st_allows st));
  acc_invalid : invalid_rules (st_stats st) = zcount (is_kind KInvalid) rs;
  acc_unsupported : unsupported_rules (st_stats st) = zcount (is_kind KUnsupported) rs;
  acc_samples : length (rejected_samples (st_stats st))
                = min 20 (length (List.filter (is_kind KInvalid) rs)
                          + length (List.filter (is_kind KUnsupported) rs));
  acc_bound : (accepted_domains (st_stats st) ≤ parsed_rules (st_stats st))%Z;
}.

Lemma omap_snoc {A B} (f : A → option B) l x :
  omap f (l ++ [x]) = omap f l ++ match f x with Some y => [y] | None => [] end.
Proof. rewrite omap_app. simpl. by destruct (f x). Qed.

Lemma size_add (d : string) (s : gset string) :
  d ∉ s → Z.of_nat (size ({[d]} ∪ s)) = (Z.of_nat (size s) + 1)%Z.
Proof. intros Hd. rewrite size_union by set_solver. rewrite size_singleton. lia. Qed.

#[local] Arguments Nat.min : simpl never.
#[local] Arguments Nat.ltb : simpl never.

Lemma reject_spec n raw k reason word st :
  let st' := reject n raw k reason word st in
  parsed_rules st' = parsed_rules st ∧ accepted_domains st' = accepted_domains st
  ∧ exceptions st' = exceptions st ∧ downloaded_entries st' = downloaded_entries st
  ∧ invalid_rules st' = (invalid_rules st + if decide (k = KInvalid) then 1 else 0)%Z
  ∧ unsupported_rules st' = (unsupported_rules st + if decide (k = KInvalid) then 0 else 1)%Z
  ∧ length (rejected_samples st') =
      if length (rejected_samples st) <? 20 then S (length (rejected_samples st))
      else length (rejected_samples st).
Proof.
  unfold reject. destruct st as [? ? ? ? ? ? ? ? sm]. case_decide; simpl;
    (destruct (length sm <? 20) eqn:E; simpl; rewrite ?length_app, ?E; simpl; repeat split; lia).
Qed.

Lemma reject_accounted rs st n raw k reason word :
  (k = KInvalid ∨ k = KUnsupported) → accounted rs st →
  accounted (rs ++ [(k, None, reason)]) (st{{st_stats ::= reject n raw k reason word}}).
Proof.
  intros Hk [Hb Ha Hp Hac He Hi Hu Hs Hle].
  destruct st as [B A st]. simpl in *.
  pose proof (reject_spec n raw k reason word st) as (E1 & E2 & E3 & _ & E5 & E6 & E7).
  set (st' := reject n raw k reason word st) in *. clearbody st'.
  split; simpl; rewrite ?E1, ?E2, ?E3, ?E5, ?E6, ?E7, ?Hi, ?Hu, ?Hs, ?zcount_app, ?zcount_one,
    ?List.filter_app, ?length_app; try (by intros; rewrite omap_snoc; destruct Hk as [-> | ->];
    rewrite app_nil_r); destruct Hk as [-> | ->]; simpl; try lia.
  all: destruct (Nat.ltb_spec (20 `min` (length (List.filter (is_kind KInvalid) rs)
         + length (List.filter (is_kind KUnsupported) rs))) 20); lia.
Qed.

Lemma step_result_accounted rs st n raw r :
  result_ok r → accounted rs st → accounted (rs ++ [r]) (step_result n raw st r).
Proof.
  destruct r as [[k dom] reason]. intros Hr Hst. destruct k as [|a| |]; simpl in Hr.
  - subst dom. destruct Hst. simpl.
    split; intros; rewrite ?omap_snoc, ?app_nil_r, ?zcount_app, ?zcount_one, ?List.filter_app,
      ?length_app; simpl; auto; rewrite ?Z.add_0_r, ?Nat.add_0_r; auto.
  - destruct Hr as (Ha & d & -> & _). destruct st as [B A st], Hst as [Hb Hal Hp Hac He Hi Hu Hs Hle].
    simpl in *. destruct Ha as [-> | ->]; simpl.
    + destruct (decide (d ∈ B)) as [Hd|Hd]; split; intros;
        rewrite ?omap_snoc, ?zcount_app, ?zcount_one, ?List.filter_app, ?length_app; simpl;
        rewrite ?app_nil_r, ?Nat.add_0_r, ?size_add by done; try lia; destruct st; simpl in *; auto;
        try lia; set_solver.
    + destruct (decide (d ∈ A)) as [Hd|Hd]; split; intros;
        rewrite ?omap_snoc, ?zcount_app, ?zcount_one, ?List.filter_app, ?length_app; simpl;
        rewrite ?app_nil_r, ?Nat.add_0_r, ?size_add by done; try lia; destruct st; simpl in *; auto;
        try lia; set_solver.
  - simpl in Hr. subst dom. apply reject_accounted; auto.
  - simpl in Hr. subst dom. apply reject_accounted; auto.
Qed.

Section accounting.
Context `{Platform}.

Lemma source_host_ok host : result_ok (source_host host).
Proof.
  unfold source_host. case_match; [done|].
  destruct (normalize_domain host) as [d|] eqn:Hd; [|done].
  case_match; [done|]. simpl. split; [auto|]. exists d. split; [done|].
  by eapply normalize_domain_sound.
Qed.

Lemma source_rule_ok rule r : rule_ok rule → source_rule rule = Some r → result_ok r.
Proof.
  unfold source_rule, rule_ok. intros Hok. destruct (pr_type rule) eqn:Ht, (pr_state rule) eqn:Hs;
    simpl; intros Hr; try (simplify_eq; done); try (by destruct Hok);
    destruct Hok as (Ha & (d & Hd & Hv) & _); rewrite Hd in Hr; destruct (is_alias d);
    simplify_eq; simpl; rewrite ?Ha; eauto.
Qed.

Lemma parse_source_line_ok raw r : r ∈ parse_source_line raw → result_ok r.
Proof.
  unfold parse_source_line. destruct (is_hosts_line _) eqn:Hh.
  - destruct (partition "#" raw) as [[body ?] ?]. destruct (words body) as [|w [|h hs]];
      [by intros ->%list_elem_of_singleton..|].
    intros (host & -> & _)%list_elem_of_fmap. apply source_host_ok.
  - destruct (fast_common_source_rule _) as [l|] eqn:Hf.
    + unfold fast_common_source_rule in Hf.
      destruct (fast_candidate _) as [cand|]; [|done]. simpl in Hf. case_match; [done|].
      destruct (normalize_domain cand) as [d|] eqn:Hd; [|done]. simpl in Hf. simplify_eq.
      intros ->%list_elem_of_singleton. simpl.
      split; [destruct (starts_with "@@" _); auto|]. exists d. split; [done|].
      by eapply normalize_domain_sound.
    + intros (rule & Hrule & Hr)%list_elem_of_omap.
      eapply source_rule_ok; [|done]. by eapply parse_rule_ok.
Qed.

(** The results of a list of lines, in order. *)
Definition line_results (lines : list string) : list line_result :=
  mjoin ((λ line, if is_entry (strip line) then parse_source_line (strip line) else []) <$> lines).

Lemma lines_go_accounted n rs st lines :
  accounted rs st → accounted (rs ++ line_results lines) (lines_go n st lines).
Proof.
  revert n rs st. induction lines as [|line lines IH]; intros n rs st Hst; simpl.
  { by rewrite app_nil_r. }
  change (line_results (line :: lines)) with
    ((if is_entry (strip line) then parse_source_line (strip line) else []) ++ line_results lines).
  rewrite app_assoc. apply IH. unfold step_line.
  destruct (is_entry (strip line)); [|by rewrite app_nil_r].
  assert (accounted rs (st{{st_stats -> downloaded_entries ::= Z.succ}})) as Hst'.
  { destruct st as [? ? []], Hst. by split. }
  pose proof (λ r, parse_source_line_ok (strip line) r) as Hok.
  generalize dependent (st{{st_stats -> downloaded_entries ::= Z.succ}}).
  clear Hst. revert rs. induction (parse_source_line (strip line)) as [|r l IHl];
    intros rs st' Hst'; simpl; [by rewrite app_nil_r|].
  rewrite (app_assoc rs [r] l : rs ++ r :: l = _). apply IHl.
  - intros r' Hr'. apply Hok. by right.
  - apply step_result_accounted; [|done]. apply Hok. left.
Qed.

Lemma empty_accounted : accounted [] (mkState ∅ ∅ empty_stats).
Proof. split; simpl; intros; rewrite ?size_empty; try done; set_solver. Qed.

Lemma step_result_entries n raw st r :
  downloaded_entries (st_stats (step_result n raw st r)) = downloaded_entries (st_stats st).
Proof.
  destruct st as [B A st], r as [[k dom] reason].
  destruct k as [|a| |]; simpl; [done| |apply reject_spec..].
  destruct dom; simpl; [|done]. repeat case_decide; by destruct st.
Qed.

Lemma lines_go_entries n st lines :
  downloaded_entries (st_stats (lines_go n st lines))
  = (downloaded_entries (st_stats st) + zcount (λ line, is_entry (strip line)) lines)%Z.
Proof.
  revert n st. induction lines as [|line lines IH]; intros n st; simpl.
  { by rewrite Z.add_0_r. }
  rewrite IH, (zcount_app _ [line] lines : zcount _ (line :: lines) = _), zcount_one.
  unfold step_line. destruct (is_entry (strip line)); [|lia].
  rewrite Z.add_assoc. f_equal.
  assert (∀ l st, downloaded_entries (st_stats (fold_left (step_result n (strip line)) l st))
    = downloaded_entries (st_stats st)) as ->.
  { clear. induction l as [|r l IH]; intros st; simpl; [done|]. by rewrite IH, step_result_entries. }
  by destruct st as [? ? []].
Qed.
(** Every domain a line blocks or allows is canonical. *)
Lemma line_results_valid lines d :
  d ∈ omap blocked_by (line_results lines) ∨ d ∈ omap allowed_by (line_results lines) →
  valid_domain d = true.
Proof.
  intros Hd.
  assert (∃ r, r ∈ line_results lines ∧ (blocked_by r = Some d ∨ allowed_by r = Some d)) as (r & Hr & Hd').
  { destruct Hd as [(r & ? & ?)%list_elem_of_omap|(r & ? & ?)%list_elem_of_omap]; eauto. }
  unfold line_results in Hr. apply list_elem_of_join in Hr as (l & Hr & (line & -> & _)%list_elem_of_fmap).
  destruct (is_entry (strip line)); [|by apply elem_of_nil in Hr].
  apply parse_source_line_ok in Hr. destruct r as [[[|a| |] dom] w]; simpl in *; try (by destruct Hd').
  destruct Hr as (_ & d' & -> & ?). destruct Hd' as [Hd'|Hd']; case_decide; by simplify_eq.
Qed.

(** What the callers of [parse_rule_lines] rely on. *)
Lemma parse_rule_lines_sound lines blocks allows stats :
  parse_rule_lines lines = (blocks, allows, stats) →
  (∀ d, d ∈ blocks ∨ d ∈ allows → valid_domain d = true)
  ∧ length (rejected_samples stats) ≤ 20
  ∧ accepted_domains stats = (Z.of_nat (size blocks) + Z.of_nat (size allows))%Z
  ∧ exceptions stats = Z.of_nat (size allows)
  ∧ (accepted_domains stats ≤ parsed_rules stats)%Z.
Proof.
  unfold parse_rule_lines.
  pose proof (lines_go_accounted 1 [] _ lines empty_accounted) as Hacc.
  pose proof (line_results_valid lines) as Hvalid.
  destruct (lines_go 1 _ lines) as [B A st], Hacc as [Hb Ha Hp Hac He Hi Hu Hs Hle].
  simpl in *. intros [= <- <- <-]. destruct st; simpl in *. repeat split; try lia; try done.
  intros d [Hd|Hd]; apply Hvalid; [left; by apply Hb|right; by apply Ha].
Qed.
End accounting.

(** ** Properties *)

(** C6: The fast path is an optimisation of the shared parser: whenever it answers
    for a line that is not a hosts entry, the general path gives the same single
    result, a block or an allow of a canonical domain, except for the local host
    aliases, which the general path skips and the fast path does not. *)
Theorem fast_path_agrees `{Platform} raw l :
  fast_common_source_rule raw = Some l → is_hosts_line (default "" (head (words raw))) = false →
  ∃ a d, l = [(KAct a, Some d, "")] ∧ valid_domain d = true ∧ (a = ActBlock ∨ a = ActAllow)
    ∧ slow_source_rule raw = if is_alias d then [skip_result] else l.
Proof. apply fast_agrees_aux. Qed.

Lemma fast_path_agrees_witness :
  let _ := sample_platform in
  slow_source_rule "@@||Good.example.^" = [(KAct ActAllow, Some "good.example", "")].
Proof.
  intros P.
  destruct (@fast_path_agrees P "@@||Good.example.^" [(KAct ActAllow, Some "good.example", "")])
    as (a & d & Hl & _ & _ & Hs); [vm_compute; reflexivity..|].
  injection Hl as <- <-. exact Hs.
Defined.

(** The exception is real: a blocklist line naming [localhost.localdomain] in
    rule syntax is activated by the fast path, while the hosts form of the same
    entry and the general path skip it. *)
Theorem fast_path_alias_block `{Platform} :
  parse_source_line "||localhost.localdomain^" = [(KAct ActBlock, Some "localhost.localdomain", "")]
  ∧ slow_source_rule "||localhost.localdomain^" = [skip_result]
  ∧ parse_source_line "127.0.0.1 localhost.localdomain" = [skip_result].
Proof. vm_compute. auto. Qed.

(** Reading a list accounts for every result exactly once: the block and allow
    sets are the domains the lines block and allow, every counter equals what it
    names, repeated domains are the only difference between parsed and accepted,
    and at most twenty rejected lines are kept as samples. *)
Theorem parse_rule_lines_accounting `{Platform} lines :
  let rs := line_results lines in
  let '(blocks, allows, stats) := parse_rule_lines lines in
  (∀ d, d ∈ blocks ↔ d ∈ omap blocked_by rs) ∧ (∀ d, d ∈ allows ↔ d ∈ omap allowed_by rs)
  ∧ (∀ d, d ∈ blocks ∨ d ∈ allows → valid_domain d = true)
  ∧ downloaded_entries stats = zcount (λ line, is_entry (strip line)) lines
  ∧ parsed_rules stats = zcount is_accepted rs
  ∧ invalid_rules stats = zcount (is_kind KInvalid) rs
  ∧ unsupported_rules stats = zcount (is_kind KUnsupported) rs
  ∧ accepted_domains stats = (Z.of_nat (size blocks) + Z.of_nat (size allows))%Z
  ∧ unique_active_domains stats = Z.of_nat (size blocks)
  ∧ exceptions stats = Z.of_nat (size allows)
  ∧ (duplicate_domains stats + accepted_domains stats = parsed_rules stats)%Z
  ∧ (0 ≤ duplicate_domains stats)%Z
  ∧ length (rejected_samples stats)
    = min 20 (length (List.filter (is_kind KInvalid) rs)
              + length (List.filter (is_kind KUnsupported) rs)).
Proof.
  intros rs. unfold parse_rule_lines.
  pose proof (lines_go_accounted 1 [] _ lines empty_accounted) as Hacc. fold rs in Hacc.
  pose proof (lines_go_entries 1 (mkState ∅ ∅ empty_stats) lines) as Hentries.
  destruct (lines_go 1 _ lines) as [B A st], Hacc as [Hb Ha Hp Hac He Hi Hu Hs Hle].
  pose proof (line_results_valid lines) as Hvalid. fold rs in Hvalid.
  destruct st; simpl in *. repeat split; try done; try lia; try apply Hb; try apply Ha.
  intros d [Hd|Hd]; apply Hvalid; [left; by apply Hb|right; by apply Ha].
Qed.
