(* ===== verification/RuleStore.v ===== *)
(** * The custom rule table

    The rows of [custom_filter_rules] and the operations of
    [app/custom_rules.py] that read and write them.  A database is the legacy
    table and the current one; an operation that raises leaves no trace (its
    transaction is not committed), which the result monad expresses by returning
    no database.  The clock is the argument [ts]. *)

From S2P Require Import Prelude PyStr StrLemmas IpAddr DomainName RegexGuard RuleParser.

(** ** Data *)

(** A row: the columns copied from the parsed rule, then the others. *)
Record stored_rule := mkStored {
  sr_id : Z;
  sr_rule : ParsedRule;
  sr_enabled : bool;
  sr_source : string;
  sr_job : option Z;
  sr_comment : string;
  sr_created : string;
  sr_updated : string;
}.

(** A row of the legacy [custom_rules] table. *)
Record legacy_rule := mkLegacy {
  lr_id : Z;
  lr_action : rule_action;
  lr_domain : string;
  lr_comment : option string;
  lr_enabled : bool;
  lr_created : string;
  lr_migrated : bool;
}.

(** [legacy] is absent on an installation that never had the table. *)
Record rules_db := mkRules { legacy : option (list legacy_rule); rules : list stored_rule }.

Definition CustomRuleError (message : string) : pyexc := PyExc "CustomRuleError" message.

(** The id an [INTEGER PRIMARY KEY] column gives to a new row. *)
Definition next_id (rows : list stored_rule) : Z := (foldr Z.max 0 (sr_id <$> rows) + 1)%Z.

(** ** Lookups and updates by key *)

(** app/custom_rules.py:570-574 find_duplicate *)
Definition find_duplicate (db : rules_db) (normalized : string) (action : rule_action)
    : option stored_rule :=
  find_first (λ r, String.eqb (pr_normalized (sr_rule r)) normalized
                   && bool_decide (pr_action (sr_rule r) = action)) (rules db).

Definition row_by_id (db : rules_db) (rule_id : Z) : option stored_rule :=
  find_first (λ r, sr_id r =? rule_id)%Z (rules db).

(** [UPDATE custom_filter_rules SET ... WHERE id=?] *)
Definition update_row (rule_id : Z) (f : stored_rule → stored_rule) (db : rules_db) : rules_db :=
  db{{rules ::= fmap (λ r, if (sr_id r =? rule_id)%Z then f r else r)}}.

Definition insert_row (mk : Z → stored_rule) (db : rules_db) : rules_db :=
  db{{rules ::= (λ rows, rows ++ [mk (next_id rows)])}}.

(** ** Migration *)

(** The rule of a legacy row: the domain and its subdomains. *)
Definition legacy_text (row : legacy_rule) : string :=
  (if decide (lr_action row = ActAllow) then "@@||" else "||") +:+ lr_domain row +:+ "^".

Definition legacy_parsed (row : legacy_rule) : ParsedRule :=
  (parsed_rule (legacy_text row) (legacy_text row))
    {{pr_type := if decide (lr_action row = ActAllow) then RtAllow else RtBlock;
      pr_action := lr_action row; pr_domain := Some (lr_domain row); pr_subdomains := true}}.

Definition migrate_row (ts : string) (db : rules_db) (row : legacy_rule) : rules_db :=
  if lr_migrated row then db
  else if find_duplicate db (legacy_text row) (lr_action row) is Some _ then db
  else insert_row (λ id, mkStored id (legacy_parsed row) (lr_enabled row) "legacy" None
                           (default "" (lr_comment row)) (lr_created row) ts) db.

Definition mark_migrated (row : legacy_rule) : legacy_rule := row{{lr_migrated := true}}.

(** app/custom_rules.py:154-191 _migrate_legacy_rules *)
Definition migrate_legacy_rules (ts : string) (db : rules_db) : rules_db :=
  match legacy db with
  | None => db
  | Some rows =>
      (fold_left (migrate_row ts) rows db)
        {{legacy := Some (mark_migrated <$> rows)}}
  end.

(** app/custom_rules.py:109-151 init_db *)
Definition init_db (ts : string) (db : rules_db) : rules_db := migrate_legacy_rules ts db.

(** ** Inserting *)

Inductive add_status := Added | Duplicate.
#[export] Instance add_status_eq_dec : EqDecision add_status.
Proof. solve_decision. Defined.

Record add_result := mkAdd {
  ar_id : Z; ar_status : add_status; ar_text : string; ar_type : rule_type;
  ar_action : rule_action; ar_state : vstate; ar_reason : string }.

(** The columns every insertion of one call shares. *)
Record insert_args := mkArgs {
  ia_source : string; ia_comment : string; ia_enabled : bool; ia_job : option Z; ia_ts : string }.

Definition or_else (a b : string) : string := if String.eqb a "" then b else a.

Definition stored_enabled (rule : ParsedRule) (enabled : bool) : bool :=
  if decide (pr_state rule ≠ Valid) then false
  else if decide (pr_type rule = RtComment) then true
  else enabled.

(** app/custom_rules.py:577-642 _insert_rule *)
Definition insert_rule (args : insert_args) (db : rules_db) (rule : ParsedRule)
    : rules_db * add_result :=
  let result id status := mkAdd id status (pr_text rule) (pr_type rule) (pr_action rule)
                            (pr_state rule) (pr_reason rule) in
  match find_duplicate db (pr_normalized rule) (pr_action rule) with
  | Some existing => (db, result (sr_id existing) Duplicate)
  | None =>
      (insert_row (λ id, mkStored id rule (stored_enabled rule (ia_enabled args)) (ia_source args)
                           (ia_job args) (or_else (pr_comment rule) (ia_comment args))
                           (ia_ts args) (ia_ts args)) db,
       result (next_id (rules db)) Added)
  end.

(** [[_insert_rule(db, rule, ...) for rule in l]] *)
Fixpoint insert_all (args : insert_args) (db : rules_db) (l : list ParsedRule)
    : rules_db * list add_result :=
  match l with
  | [] => (db, [])
  | rule :: l =>
      let '(db, result) := insert_rule args db rule in
      let '(db, results) := insert_all args db l in
      (db, result :: results)
  end.

Section crud.
Context `{Platform}.

(** app/custom_rules.py:645-670 add_rule *)
Definition add_rule (args : insert_args) (plain_domain_subdomains : bool) (text : string)
    (db : rules_db) : rules_db * list add_result :=
  insert_all args (init_db (ia_ts args) db) (parse_rule text plain_domain_subdomains).

Record bulk_summary := mkBulk {
  bs_lines : list (Z * string * list add_result);
  bs_added_active : Z; bs_added_inactive : Z; bs_duplicates : Z;
  bs_invalid : Z; bs_unsupported : Z; bs_comments : Z }.

Definition count_result (enabled : bool) (s : bulk_summary) (r : add_result) : bulk_summary :=
  if decide (ar_status r = Duplicate) then s{{bs_duplicates ::= Z.succ}}
  else if decide (ar_type r = RtComment) then s{{bs_comments ::= Z.succ}}
  else if decide (ar_state r = Invalid) then s{{bs_invalid ::= Z.succ}}
  else if decide (ar_state r = Unsupported) then s{{bs_unsupported ::= Z.succ}}
  else if enabled then s{{bs_added_active ::= Z.succ}}
  else s{{bs_added_inactive ::= Z.succ}}.

Fixpoint bulk_go (args : insert_args) (plain : bool) (line_number : Z) (lines : list string)
    (db : rules_db) (s : bulk_summary) : rules_db * bulk_summary :=
  match lines with
  | [] => (db, s)
  | line :: lines =>
      if String.eqb (strip line) "" then bulk_go args plain (Z.succ line_number) lines db s
      else
        let '(db, results) := insert_all args db (parse_rule line plain) in
        let s := s{{bs_lines ::= (λ l, l ++ [(line_number, strip line, results)])}} in
        bulk_go args plain (Z.succ line_number) lines db
          (fold_left (count_result (ia_enabled args)) results s)
  end.

(** app/custom_rules.py:673-724 add_rules_bulk *)
Definition add_rules_bulk (args : insert_args) (plain_domain_subdomains : bool) (text : string)
    (db : rules_db) : rules_db * bulk_summary :=
  bulk_go args plain_domain_subdomains 1 (splitlines text) (init_db (ia_ts args) db)
    (mkBulk [] 0 0 0 0 0 0).

(** app/custom_rules.py:727-736 get_rule *)
Definition get_rule (ts : string) (rule_id : Z) (db : rules_db) : option stored_rule :=
  row_by_id (init_db ts db) rule_id.

(** app/custom_rules.py:739-804 update_rule *)
Definition update_rule (ts : string) (rule_id : Z) (text comment : string) (enabled : bool)
    (plain_domain_subdomains : bool) (db : rules_db) : res (rules_db * bool) :=
  let db := init_db ts db in
  match row_by_id db rule_id with
  | None => Raise (CustomRuleError "rule not found")
  | Some _ =>
      match parse_rule text plain_domain_subdomains with
      | [rule] =>
          let clash :=
            if decide (pr_type rule ≠ RtComment ∧ pr_state rule = Valid) then
              match find_duplicate db (pr_normalized rule) (pr_action rule) with
              | Some existing => negb (sr_id existing =? rule_id)%Z
              | None => false
              end
            else false in
          raise_if clash (CustomRuleError "an identical rule already exists");;
          let stored := if decide (pr_state rule = Valid) then enabled else false in
          Ok (update_row rule_id (λ r,
                r{{sr_rule := rule; sr_enabled := stored;
                   sr_comment := or_else comment (pr_comment rule); sr_updated := ts}}) db,
              stored)
      | _ => Raise (CustomRuleError "an edit must contain exactly one rule")
      end
  end.
End crud.

Definition vstate_name (s : vstate) : string :=
  match s with Valid => "valid" | Unsupported => "unsupported" | Invalid => "invalid" end.

(** app/custom_rules.py:807-827 set_enabled *)
Definition set_enabled (ts : string) (rule_id : Z) (enabled : bool) (db : rules_db) : res rules_db :=
  let db := init_db ts db in
  match row_by_id db rule_id with
  | None => Raise (CustomRuleError "rule not found")
  | Some row =>
      let rule := sr_rule row in
      raise_if (enabled && negb (bool_decide (pr_state rule = Valid)))
        (CustomRuleError ("this rule cannot be enabled (" +:+ vstate_name (pr_state rule) +:+ "): "
                          +:+ or_else (pr_reason rule) "no details"));;
      Ok (update_row rule_id (λ r, r{{sr_enabled := enabled; sr_updated := ts}}) db)
  end.

(** app/custom_rules.py:830-843 toggle_rule *)
Definition toggle_rule (ts : string) (rule_id : Z) (db : rules_db) : res rules_db :=
  let db := init_db ts db in
  match row_by_id db rule_id with
  | None => Raise (CustomRuleError "rule not found")
  | Some row => set_enabled ts rule_id (negb (sr_enabled row)) db
  end.

Definition delete_row (rule_id : Z) (db : rules_db) : rules_db :=
  db{{rules ::= List.filter (λ r, negb (sr_id r =? rule_id)%Z)}}.

(** app/custom_rules.py:846-856 delete_rule *)
Definition delete_rule (ts : string) (rule_id : Z) (db : rules_db) : rules_db :=
  delete_row rule_id (init_db ts db).

Definition bulk_set_step (ts : string) (enabled : bool) (acc : rules_db * Z * Z) (rule_id : Z)
    : rules_db * Z * Z :=
  let '(db, updated, skipped) := acc in
  match row_by_id db rule_id with
  | None => (db, updated, Z.succ skipped)
  | Some row =>
      if enabled && negb (bool_decide (pr_state (sr_rule row) = Valid))
      then (db, updated, Z.succ skipped)
      else (update_row rule_id (λ r, r{{sr_enabled := enabled; sr_updated := ts}}) db,
            Z.succ updated, skipped)
  end.

(** app/custom_rules.py:859-884 bulk_set_enabled *)
Definition bulk_set_enabled (ts : string) (rule_ids : list Z) (enabled : bool) (db : rules_db)
    : rules_db * Z * Z :=
  fold_left (bulk_set_step ts enabled) rule_ids (init_db ts db, 0%Z, 0%Z).

(** app/custom_rules.py:887-901 bulk_delete *)
Definition bulk_delete (ts : string) (rule_ids : list Z) (db : rules_db) : rules_db * Z :=
  fold_left (λ '(db, deleted) rule_id,
      (delete_row rule_id db,
       (deleted + zcount (λ r, sr_id r =? rule_id) (rules db))%Z))
    rule_ids (init_db ts db, 0%Z).

(** ** Queries *)

Definition ascii_lower (c : ascii) : ascii :=
  if is_upper_az c then ascii_of_N (code c + 32) else c.

(** SQLite's [s LIKE p]: [%] is any text, [_] any character, ASCII letters are
    compared without case. *)
Fixpoint like (p s : string) {struct p} : bool :=
  match p with
  | "" => String.eqb s ""
  | String c p =>
      if Ascii.eqb "%" c then
        (fix any (s : string) : bool :=
           like p s || match s with "" => false | String _ s => any s end) s
      else match s with
      | "" => false
      | String d s => (Ascii.eqb "_" c || Ascii.eqb (ascii_lower c) (ascii_lower d)) && like p s
      end
  end.

Definition like_opt (p : string) (s : option string) : bool :=
  match s with Some s => like p s | None => false end.

Inductive rule_status := StAny | StEnabled | StDisabled | StUnsupported | StInvalid.

Definition status_matches (status : rule_status) (r : stored_rule) : bool :=
  let valid := bool_decide (pr_state (sr_rule r) = Valid) in
  match status with
  | StAny => true
  | StEnabled => valid && sr_enabled r
  | StDisabled => valid && negb (sr_enabled r)
  | StUnsupported => bool_decide (pr_state (sr_rule r) = Unsupported)
  | StInvalid => bool_decide (pr_state (sr_rule r) = Invalid)
  end.

Definition search_matches (search : string) (r : stored_rule) : bool :=
  if String.eqb (strip search) "" then true
  else
    let term := "%" +:+ strip search +:+ "%" in
    like term (pr_text (sr_rule r)) || like_opt term (pr_domain (sr_rule r))
    || like_opt term (pr_pattern (sr_rule r)) || like term (sr_comment r).

(** [ORDER BY id DESC] on rows stored in insertion order: a merge sort on ids. *)
Definition id_desc (a b : stored_rule) : Prop := (sr_id b ≤ sr_id a)%Z.
#[export] Instance id_desc_dec a b : Decision (id_desc a b).
Proof. unfold id_desc. apply _. Defined.

(** app/custom_rules.py:904-938 list_rules *)
Definition list_rules (ts search : string) (type : option rule_type) (status : rule_status)
    (db : rules_db) : list stored_rule :=
  merge_sort id_desc
    (List.filter (λ r, search_matches search r
        && match type with Some t => bool_decide (pr_type (sr_rule r) = t) | None => true end
        && status_matches status r) (rules (init_db ts db))).

Record rule_count := mkCounts {
  n_total : Z; n_active : Z; n_disabled : Z; n_allow : Z; n_block : Z; n_rewrite : Z;
  n_regex : Z; n_comment : Z; n_unsupported : Z; n_invalid : Z }.

(** One row of a group of the [GROUP BY] query. *)
Definition count_rule (c : rule_count) (r : stored_rule) : rule_count :=
  let c := c{{n_total ::= Z.succ}} in
  let rule := sr_rule r in
  if decide (pr_state rule = Invalid) then c{{n_invalid ::= Z.succ}}
  else if decide (pr_state rule = Unsupported) then c{{n_unsupported ::= Z.succ}}
  else if decide (pr_type rule = RtComment) then c{{n_comment ::= Z.succ}}
  else
    let c := if sr_enabled r then c{{n_active ::= Z.succ}} else c{{n_disabled ::= Z.succ}} in
    match pr_type rule with
    | RtRegexAllow | RtRegexBlock => c{{n_regex ::= Z.succ}}
    | RtAllow => c{{n_allow ::= Z.succ}}
    | RtBlock => c{{n_block ::= Z.succ}}
    | RtRewrite => c{{n_rewrite ::= Z.succ}}
    | RtComment => c{{n_comment ::= Z.succ}}
    | RtUnsupported => c{{n_unsupported ::= Z.succ}}
    end.

(** app/custom_rules.py:941-983 rule_counts *)
Definition rule_counts (ts : string) (db : rules_db) : rule_count :=
  fold_left count_rule (rules (init_db ts db)) (mkCounts 0 0 0 0 0 0 0 0 0 0).

(** ** The invariant of the table *)

Definition legacy_ok (row : legacy_rule) : Prop :=
  valid_domain (lr_domain row) = true ∧ (lr_action row = ActBlock ∨ lr_action row = ActAllow).

(** Ids are unique, every stored rule is well formed, a rule that is not valid
    is never enabled, and no two rules with an action share a normalized text
    and an action. *)
Record db_ok `{Platform} (db : rules_db) : Prop := {
  ok_ids : NoDup (sr_id <$> rules db);
  ok_rules : ∀ r, r ∈ rules db → rule_ok (sr_rule r);
  ok_inert : ∀ r, r ∈ rules db → pr_state (sr_rule r) ≠ Valid → sr_enabled r = false;
  ok_unique : ∀ r1 r2, r1 ∈ rules db → r2 ∈ rules db → pr_action (sr_rule r1) ≠ ActNone →
    pr_normalized (sr_rule r1) = pr_normalized (sr_rule r2) →
    pr_action (sr_rule r1) = pr_action (sr_rule r2) → sr_id r1 = sr_id r2;
  ok_legacy : ∀ rows row, legacy db = Some rows → row ∈ rows → legacy_ok row;
}.

Lemma find_duplicate_None db n a r :
  find_duplicate db n a = None → r ∈ rules db →
  ¬ (pr_normalized (sr_rule r) = n ∧ pr_action (sr_rule r) = a).
Proof.
  unfold find_duplicate. rewrite find_first_None. intros H Hr [Hn Ha].
  specialize (H r Hr). rewrite Hn, Ha, String.eqb_refl, bool_decide_true in H by done. done.
Qed.

Lemma find_duplicate_Some db n a r :
  find_duplicate db n a = Some r →
  r ∈ rules db ∧ pr_normalized (sr_rule r) = n ∧ pr_action (sr_rule r) = a.
Proof.
  intros [Hr H]%find_first_Some. bool_to_prop.
  split; [done|]. split; [by apply String.eqb_eq|]. by eapply bool_decide_eq_true.
Qed.

Lemma row_by_id_Some db id r : row_by_id db id = Some r → r ∈ rules db ∧ sr_id r = id.
Proof. intros [Hr H]%find_first_Some. split; [done|]. by apply Z.eqb_eq. Qed.

Lemma next_id_fresh rows r : r ∈ rows → (sr_id r < next_id rows)%Z.
Proof.
  unfold next_id. induction rows as [|r' rows IH]; [by intros ?%elem_of_nil|].
  rewrite fmap_cons. cbn [foldr].
  intros [->|Hr]%elem_of_cons; [lia|]. specialize (IH Hr). lia.
Qed.

(** Inserting a rule whose key is free. *)
Lemma insert_row_ok `{Platform} mk db :
  db_ok db → (∀ id, sr_id (mk id) = id) →
  let r := mk (next_id (rules db)) in
  rule_ok (sr_rule r) → (pr_state (sr_rule r) ≠ Valid → sr_enabled r = false) →
  find_duplicate db (pr_normalized (sr_rule r)) (pr_action (sr_rule r)) = None →
  db_ok (insert_row mk db).
Proof.
  intros [Hids Hrules Hinert Huniq Hleg] Hid r Hr Hen Hdup.
  destruct db as [leg rows]. unfold insert_row. simpl in *. fold r.
  assert (Hin : ∀ x, x ∈ rows ++ [r] ↔ x ∈ rows ∨ x = r) by set_solver.
  split; simpl; [| | | |done].
  - rewrite fmap_app. apply NoDup_app. split; [done|]. split; [|apply NoDup_singleton].
    intros x (r' & -> & Hr')%list_elem_of_fmap Hx%list_elem_of_singleton.
    apply next_id_fresh in Hr'. unfold r in Hx. rewrite Hid in Hx. lia.
  - intros x [Hx| ->]%Hin; auto.
  - intros x [Hx| ->]%Hin; auto.
  - intros r1 r2 [H1| ->]%Hin [H2| ->]%Hin Ha Hn Hact; [eauto| | |done].
    + by destruct (find_duplicate_None _ _ _ _ Hdup H1).
    + by destruct (find_duplicate_None _ _ _ _ Hdup H2).
Qed.

(** Updating rows: the operation keeps ids, and leaves in the updated row a
    well-formed rule whose key no other row has. *)
Lemma update_row_ok `{Platform} id f db :
  db_ok db → (∀ r, sr_id (f r) = sr_id r) →
  (∀ r, r ∈ rules db → sr_id r = id →
    rule_ok (sr_rule (f r)) ∧ (pr_state (sr_rule (f r)) ≠ Valid → sr_enabled (f r) = false) ∧
    ∀ r', r' ∈ rules db → pr_action (sr_rule (f r)) ≠ ActNone →
      pr_normalized (sr_rule (f r)) = pr_normalized (sr_rule r') →
      pr_action (sr_rule (f r)) = pr_action (sr_rule r') → sr_id r' = id) →
  db_ok (update_row id f db).
Proof.
  intros [Hids Hrules Hinert Huniq Hleg] Hid Hf.
  destruct db as [leg rows]. unfold update_row. simpl in *.
  set (g := λ r, if (sr_id r =? id)%Z then f r else r).
  assert (Hg : ∀ r, sr_id (g r) = sr_id r) by (intros r; unfold g; case_match; auto).
  split; simpl; [| | | |done].
  - rewrite <-list_fmap_compose. erewrite list_fmap_ext; [exact Hids|]. intros. apply Hg.
  - intros x (r & -> & Hr)%list_elem_of_fmap. unfold g.
    destruct (Z.eqb_spec (sr_id r) id); [by apply Hf|auto].
  - intros x (r & -> & Hr)%list_elem_of_fmap. unfold g.
    destruct (Z.eqb_spec (sr_id r) id); [by apply Hf|auto].
  - intros x1 x2 (r1 & -> & H1)%list_elem_of_fmap (r2 & -> & H2)%list_elem_of_fmap.
    rewrite !Hg. unfold g.
    destruct (Z.eqb_spec (sr_id r1) id) as [E1|E1], (Z.eqb_spec (sr_id r2) id) as [E2|E2];
      intros Ha Hn Hact.
    + congruence.
    + rewrite E1. symmetry. by apply (Hf r1 H1 E1).
    + rewrite E2. apply (Hf r2 H2 E2); congruence.
    + auto.
Qed.

(** Removing rows. *)
Lemma filter_rows_ok `{Platform} p db : db_ok db → db_ok (db{{rules ::= List.filter p}}).
Proof.
  intros [Hids Hrules Hinert Huniq Hleg]. destruct db as [leg rows]. simpl in *.
  split; simpl; [|intros x [? _]%elem_of_filterb; auto..|
    intros x y [? _]%elem_of_filterb [? _]%elem_of_filterb; auto|done].
  clear -Hids. induction rows as [|r rows IH]; simpl in *; [done|].
  apply NoDup_cons in Hids as [Hr Hids]. destruct (p r); [|auto].
  simpl. apply NoDup_cons. split; [|auto].
  intros (r' & E & [Hr' _]%elem_of_filterb)%list_elem_of_fmap. apply Hr.
  rewrite E. by apply list_elem_of_fmap_2.
Qed.

(** ** Every operation preserves the invariant *)

Section preservation.
Context `{Platform}.

Lemma legacy_parsed_ok row : legacy_ok row → rule_ok (legacy_parsed row).
Proof.
  intros [Hd Ha]. unfold rule_ok, legacy_parsed, has_domain, normalized_form, legacy_text.
  destruct Ha as [-> | ->]; simpl; eauto.
Qed.

Lemma migrate_row_ok ts db row : db_ok db → legacy_ok row → db_ok (migrate_row ts db row).
Proof.
  intros Hdb Hrow. unfold migrate_row. case_match; [done|].
  destruct (find_duplicate _ _ _) eqn:E; [done|].
  apply insert_row_ok; [done|done|by apply legacy_parsed_ok|by intros []|done].
Qed.

Lemma migrate_row_legacy ts db row : legacy (migrate_row ts db row) = legacy db.
Proof. unfold migrate_row. by repeat case_match; destruct db. Qed.

Lemma init_db_ok ts db : db_ok db → db_ok (init_db ts db).
Proof.
  intros Hdb. unfold init_db, migrate_legacy_rules.
  destruct (legacy db) as [rows|] eqn:Hl; [|done].
  assert (Hrows : ∀ row, row ∈ rows → legacy_ok row) by (intros; by eapply ok_legacy).
  assert (db_ok (fold_left (migrate_row ts) rows db)) as [H1 H2 H3 H4 H5].
  { clear Hl. revert db Hdb. induction rows as [|row rows IH]; intros db Hdb; simpl; [done|].
    apply IH; [intros; apply Hrows; by right|]. apply migrate_row_ok; [done|].
    apply Hrows. left. }
  destruct (fold_left _ _ _) as [leg rs]. split; simpl in *; try done.
  intros rows' row [= <-] (row' & -> & Hr)%list_elem_of_fmap.
  specialize (Hrows _ Hr). by destruct row'.
Qed.

Lemma stored_enabled_inert rule enabled :
  pr_state rule ≠ Valid → stored_enabled rule enabled = false.
Proof. intros Hs. unfold stored_enabled. by rewrite decide_True. Qed.

Lemma insert_rule_ok args db rule :
  db_ok db → rule_ok rule → db_ok (insert_rule args db rule).1.
Proof.
  intros Hdb Hr. unfold insert_rule. destruct (find_duplicate _ _ _) eqn:E; [done|].
  apply insert_row_ok; simpl; auto using stored_enabled_inert.
Qed.

Lemma insert_all_ok args db l :
  db_ok db → (∀ rule, rule ∈ l → rule_ok rule) → db_ok (insert_all args db l).1.
Proof.
  revert db. induction l as [|rule l IH]; intros db Hdb Hl; simpl; [done|].
  pose proof (insert_rule_ok args db rule Hdb (Hl rule ltac:(left))) as H1.
  destruct (insert_rule args db rule) as [db1 r1].
  specialize (IH db1 H1 (λ x Hx, Hl x ltac:(by right))).
  by destruct (insert_all args db1 l).
Qed.

Lemma add_rule_ok args plain text db : db_ok db → db_ok (add_rule args plain text db).1.
Proof.
  intros Hdb. apply insert_all_ok; [by apply init_db_ok|]. intros rule. apply parse_rule_ok.
Qed.

Lemma bulk_go_ok args plain n lines db s : db_ok db → db_ok (bulk_go args plain n lines db s).1.
Proof.
  revert n db s. induction lines as [|line lines IH]; intros n db s Hdb; simpl; [done|].
  case_match; [auto|].
  pose proof (insert_all_ok args db (parse_rule line plain) Hdb (λ r, parse_rule_ok _ _ r)) as H1.
  destruct (insert_all _ _ _) as [db1 results]. by apply IH.
Qed.

Lemma add_rules_bulk_ok args plain text db :
  db_ok db → db_ok (add_rules_bulk args plain text db).1.
Proof. intros Hdb. unfold add_rules_bulk. apply bulk_go_ok. by apply init_db_ok. Qed.

(** A rule with an action is valid and no comment, so its key was checked. *)
Lemma active_valid rule :
  rule_ok rule → pr_action rule ≠ ActNone → pr_type rule ≠ RtComment ∧ pr_state rule = Valid.
Proof.
  unfold rule_ok. intros Hr Ha. destruct (pr_state rule); [|by destruct Hr..].
  split; [|done]. by intros E; rewrite E in Hr.
Qed.

Lemma update_rule_ok ts id text comment enabled plain db db' e :
  db_ok db → update_rule ts id text comment enabled plain db = Ok (db', e) → db_ok db'.
Proof.
  intros Hdb%(init_db_ok ts). unfold update_rule. set (db1 := init_db ts db) in *.
  destruct (row_by_id db1 id) as [row|] eqn:Hrow; [|done].
  destruct (parse_rule text plain) as [|rule [|? ?]] eqn:Hp; [done| |done].
  assert (Hr : rule_ok rule) by (apply (parse_rule_ok text plain); rewrite Hp; left).
  intros ([] & Hclash%raise_if_ok & Hres)%res_bind_ok. simplify_eq.
  apply update_row_ok; [done|done|]. intros r Hin Hid. simpl. split; [done|]. split.
  { intros Hs. by rewrite decide_False. }
  intros r' Hr' Ha Hn Hact. destruct (active_valid _ Hr Ha) as [Ht Hs].
  rewrite decide_True in Hclash by done.
  destruct (find_duplicate db1 _ _) as [ex|] eqn:Hdup.
  - apply negb_false_iff, Z.eqb_eq in Hclash as <-.
    apply find_duplicate_Some in Hdup as (Hex & Hexn & Hexa).
    apply (ok_unique db1 Hdb); congruence.
  - by destruct (find_duplicate_None _ _ _ _ Hdup Hr').
Qed.

(** Changing only the flag of a row that may be enabled. *)
Lemma set_flag_ok ts id enabled db :
  db_ok db → (∀ r, r ∈ rules db → sr_id r = id → enabled = true → pr_state (sr_rule r) = Valid) →
  db_ok (update_row id (λ r, r{{sr_enabled := enabled; sr_updated := ts}}) db).
Proof.
  intros Hdb Hen. apply update_row_ok; [done|done|]. intros r Hr Hid. simpl.
  split; [by eapply ok_rules|]. split.
  - intros Hs. destruct enabled; [|done]. by destruct Hs; apply (Hen r).
  - intros r' Hr' Ha Hn Hact. rewrite <-Hid. symmetry. by eapply ok_unique.
Qed.

Lemma same_id_rule db r r' : db_ok db → r ∈ rules db → r' ∈ rules db → sr_id r = sr_id r' → r = r'.
Proof.
  intros [Hids _ _ _ _]. destruct db as [leg rows]. simpl in *. revert Hids.
  induction rows as [|x rows IH]; intros Hids; [by intros ?%elem_of_nil|].
  apply NoDup_cons in Hids as [Hx Hids].
  intros [->|Hr]%elem_of_cons [->|Hr']%elem_of_cons E; [done| | |auto];
    destruct Hx; [rewrite E|rewrite <-E]; by apply list_elem_of_fmap_2.
Qed.

Lemma set_enabled_ok ts id enabled db db' :
  db_ok db → set_enabled ts id enabled db = Ok db' → db_ok db'.
Proof.
  intros Hdb%(init_db_ok ts). unfold set_enabled. set (db1 := init_db ts db) in *.
  destruct (row_by_id db1 id) as [row|] eqn:Hrow; [|done].
  intros ([] & Hg%raise_if_ok & Hres)%res_bind_ok. simplify_eq.
  apply row_by_id_Some in Hrow as [Hin Hid].
  apply set_flag_ok; [done|]. intros r Hr Hrid ->.
  rewrite (same_id_rule db1 r row) by congruence.
  simpl in Hg. apply negb_false_iff in Hg. by eapply bool_decide_eq_true.
Qed.

Lemma toggle_rule_ok ts id db db' : db_ok db → toggle_rule ts id db = Ok db' → db_ok db'.
Proof.
  intros Hdb%(init_db_ok ts). unfold toggle_rule.
  destruct (row_by_id _ id) as [row|]; [|done]. by apply set_enabled_ok.
Qed.

Lemma delete_rule_ok ts id db : db_ok db → db_ok (delete_rule ts id db).
Proof. intros Hdb. by apply filter_rows_ok, init_db_ok. Qed.

Lemma bulk_set_enabled_ok ts ids enabled db :
  db_ok db → db_ok (bulk_set_enabled ts ids enabled db).1.1.
Proof.
  intros Hdb%(init_db_ok ts). unfold bulk_set_enabled.
  generalize 0%Z at 1 as u; generalize 0%Z as s; generalize dependent (init_db ts db).
  clear db. induction ids as [|id ids IH]; intros db Hdb s u; simpl; [done|].
  destruct (row_by_id db id) as [row|] eqn:Hrow; [|by apply IH].
  destruct (enabled && _) eqn:Hg; [by apply IH|]. apply IH. apply set_flag_ok; [done|].
  apply row_by_id_Some in Hrow as [Hin Hid]. intros r Hr Hrid ->.
  rewrite (same_id_rule db r row) by congruence.
  simpl in Hg. apply negb_false_iff in Hg. by eapply bool_decide_eq_true.
Qed.

Lemma bulk_delete_ok ts ids db : db_ok db → db_ok (bulk_delete ts ids db).1.
Proof.
  intros Hdb%(init_db_ok ts). unfold bulk_delete.
  generalize 0%Z as d; generalize dependent (init_db ts db).
  clear db. induction ids as [|id ids IH]; intros db Hdb d; simpl; [done|].
  by apply IH, filter_rows_ok.
Qed.
End preservation.

(** ** The table as a transition system *)

(** One call of the module's interface that commits. *)
Inductive rules_step `{Platform} : rules_db → rules_db → Prop :=
| StepInit ts db : rules_step db (init_db ts db)
| StepAdd args plain text db : rules_step db (add_rule args plain text db).1
| StepBulk args plain text db : rules_step db (add_rules_bulk args plain text db).1
| StepUpdate ts id text comment enabled plain db db' e :
    update_rule ts id text comment enabled plain db = Ok (db', e) → rules_step db db'
| StepEnable ts id enabled db db' : set_enabled ts id enabled db = Ok db' → rules_step db db'
| StepToggle ts id db db' : toggle_rule ts id db = Ok db' → rules_step db db'
| StepDelete ts id db : rules_step db (delete_rule ts id db)
| StepBulkEnable ts ids enabled db : rules_step db (bulk_set_enabled ts ids enabled db).1.1
| StepBulkDelete ts ids db : rules_step db (bulk_delete ts ids db).1.

Lemma rules_step_ok `{Platform} db db' : rules_step db db' → db_ok db → db_ok db'.
Proof.
  destruct 1; intros Hdb.
  - by apply init_db_ok.
  - by apply add_rule_ok.
  - by apply add_rules_bulk_ok.
  - by eapply update_rule_ok.
  - by eapply set_enabled_ok.
  - by eapply toggle_rule_ok.
  - by apply delete_rule_ok.
  - by apply bulk_set_enabled_ok.
  - by apply bulk_delete_ok.
Qed.

Lemma rules_reachable_ok `{Platform} db db' : rtc rules_step db db' → db_ok db → db_ok db'.
Proof. induction 1; eauto using rules_step_ok. Qed.

(** A fresh database, and one upgraded from the legacy table. *)
Lemma empty_rules_ok `{Platform} : db_ok (mkRules None []).
Proof. split; simpl; try (by intros ? ?%elem_of_nil); [constructor|by intros ? ? ?%elem_of_nil|done]. Qed.

Lemma legacy_db_ok `{Platform} rows :
  (∀ row, row ∈ rows → legacy_ok row) → db_ok (mkRules (Some rows) []).
Proof.
  intros Hrows. split; simpl; try (by intros ? ?%elem_of_nil);
    [constructor|by intros ? ? ?%elem_of_nil|]. intros rows' row [= <-]. apply Hrows.
Qed.

(** ** Inserting again *)

(** A row with the rule's key is stored. *)
Definition covered (db : rules_db) (rule : ParsedRule) : Prop :=
  is_Some (find_duplicate db (pr_normalized rule) (pr_action rule)).

Lemma find_first_app_l {A} (p : A → bool) l k :
  is_Some (find_first p l) → find_first p (l ++ k) = find_first p l.
Proof. induction l as [|x l IH]; simpl; [by intros [? ?]|]. by destruct (p x). Qed.

Lemma find_first_app_r {A} (p : A → bool) l k :
  is_Some (find_first p k) → is_Some (find_first p (l ++ k)).
Proof. intros Hk. induction l as [|x l IH]; simpl; [done|]. by destruct (p x). Qed.

Lemma covered_app leg leg' rows more rule :
  covered (mkRules leg rows) rule → covered (mkRules leg' (rows ++ more)) rule.
Proof. unfold covered, find_duplicate. simpl. intros Hc. by rewrite find_first_app_l. Qed.

Lemma insert_rule_grows args db rule :
  ∃ more, (insert_rule args db rule).1 = mkRules (legacy db) (rules db ++ more).
Proof.
  unfold insert_rule. destruct (find_duplicate _ _ _); simpl.
  - exists []. rewrite app_nil_r. by destruct db.
  - unfold insert_row. destruct db. simpl. eauto.
Qed.

Lemma insert_rule_covers args db rule : covered (insert_rule args db rule).1 rule.
Proof.
  unfold insert_rule. destruct (find_duplicate _ _ _) eqn:E; simpl; [by unfold covered; rewrite E|].
  destruct db as [leg rows]. unfold covered, insert_row, find_duplicate. simpl.
  apply find_first_app_r. simpl. by rewrite String.eqb_refl, bool_decide_true.
Qed.

Lemma insert_all_grows args db l :
  (∃ more, (insert_all args db l).1 = mkRules (legacy db) (rules db ++ more))
  ∧ ∀ rule, rule ∈ l → covered (insert_all args db l).1 rule.
Proof.
  revert db. induction l as [|rule l IH]; intros db; simpl.
  { split; [|by intros ? ?%elem_of_nil]. exists []. rewrite app_nil_r. by destruct db. }
  pose proof (insert_rule_covers args db rule) as Hc.
  destruct (insert_rule_grows args db rule) as (more & Hm).
  destruct (insert_rule args db rule) as [db1 r1]. simpl in *.
  destruct (IH db1) as ((more' & Hm') & Hcov).
  destruct (insert_all args db1 l) as [db2 rs]. simpl in *. subst db1. simpl in *. split.
  - exists (more ++ more'). by rewrite app_assoc.
  - intros rule' [->|Hr]%elem_of_cons; [|auto]. rewrite Hm'. by eapply covered_app.
Qed.

(** Inserting covered rules changes nothing and reports duplicates. *)
Lemma insert_all_covered args db l :
  (∀ rule, rule ∈ l → covered db rule) →
  (insert_all args db l).1 = db
  ∧ Forall (λ r, ar_status r = Duplicate) (insert_all args db l).2
  ∧ length (insert_all args db l).2 = length l.
Proof.
  induction l as [|rule l IH]; intros Hl; simpl; [done|].
  destruct (Hl rule ltac:(left)) as [ex Hex].
  unfold insert_rule. rewrite Hex.
  destruct IH as (H1 & H2 & H3); [intros; apply Hl; by right|].
  destruct (insert_all args db l) as [db' rs]. simpl in *. subst db'.
  split; [done|]. split; [by constructor|by rewrite H3].
Qed.

Section bulk.
Context `{Platform}.

(** The rules of a multi-line text. *)
Definition text_rules (plain : bool) (lines : list string) : list ParsedRule :=
  mjoin ((λ line, if String.eqb (strip line) "" then [] else parse_rule line plain) <$> lines).

Lemma bulk_go_insert_all args plain n lines db s :
  (bulk_go args plain n lines db s).1 = (insert_all args db (text_rules plain lines)).1.
Proof.
  revert n db s. induction lines as [|line lines IH]; intros n db s; [done|].
  change (text_rules plain (line :: lines)) with
    ((if String.eqb (strip line) "" then [] else parse_rule line plain) ++ text_rules plain lines).
  assert (∀ db l k, (insert_all args db (l ++ k)).1 = (insert_all args (insert_all args db l).1 k).1)
    as Happ.
  { clear. intros db l. revert db. induction l as [|r l IH]; intros db k; [done|]. simpl.
    destruct (insert_rule args db r) as [db1 r1]. specialize (IH db1 k).
    destruct (insert_all args db1 l) as [db2 rs], (insert_all args db1 (l ++ k)) as [db3 rs3].
    simpl in *. subst. done. }
  rewrite Happ. simpl. case_match; [apply IH|].
  destruct (insert_all args db (parse_rule line plain)) as [db1 results]. apply IH.
Qed.

Lemma count_duplicates enabled results s :
  Forall (λ r, ar_status r = Duplicate) results →
  let s' := fold_left (count_result enabled) results s in
  bs_duplicates s' = (bs_duplicates s + Z.of_nat (length results))%Z
  ∧ bs_added_active s' = bs_added_active s ∧ bs_added_inactive s' = bs_added_inactive s.
Proof.
  intros H2. revert s. induction H2 as [|r rs Hr _ IHr]; intros s; simpl; [lia|].
  unfold count_result at 2 4 6. rewrite decide_True by done.
  destruct (IHr (s{{bs_duplicates ::= Z.succ}})) as (-> & -> & ->). destruct s; simpl. lia.
Qed.

Lemma bulk_go_duplicates args plain n lines db s :
  (∀ rule, rule ∈ text_rules plain lines → covered db rule) →
  let '(db', s') := bulk_go args plain n lines db s in
  db' = db ∧ bs_duplicates s' = (bs_duplicates s + Z.of_nat (length (text_rules plain lines)))%Z
  ∧ bs_added_active s' = bs_added_active s ∧ bs_added_inactive s' = bs_added_inactive s.
Proof.
  revert n s. induction lines as [|line lines IH]; intros n s Hl; simpl.
  { repeat split. lia. }
  change (text_rules plain (line :: lines)) with
    ((if String.eqb (strip line) "" then [] else parse_rule line plain) ++ text_rules plain lines) in *.
  case_match; [by apply IH|].
  destruct (insert_all_covered args db (parse_rule line plain)) as (H1 & H2 & H3).
  { intros rule Hr. apply Hl. set_solver. }
  destruct (insert_all args db (parse_rule line plain)) as [db1 results]. simpl in *. subst db1.
  match goal with |- context [fold_left (count_result _) _ ?x] => set (s1 := x) end.
  destruct (count_duplicates (ia_enabled args) results s1 H2) as (E1 & E2 & E3).
  specialize (IH (Z.succ n) (fold_left (count_result (ia_enabled args)) results s1)
    (λ rule Hr, Hl rule ltac:(set_solver))).
  destruct (bulk_go _ _ _ _ _ _) as [db' s']. destruct IH as (-> & -> & -> & ->).
  rewrite E1, E2, E3, length_app, H3. unfold s1. destruct s; simpl. repeat split; lia.
Qed.

Lemma migrated_idem (rows : list legacy_rule) :
  mark_migrated <$> (mark_migrated <$> rows)
  = mark_migrated <$> rows.
Proof. rewrite <-list_fmap_compose. apply list_fmap_ext. intros _ [] _. done. Qed.

Lemma migrate_migrated ts db (rows : list legacy_rule) :
  fold_left (migrate_row ts) (mark_migrated <$> rows) db = db.
Proof.
  induction rows as [|row rows IH]; [done|]. simpl. unfold migrate_row at 2. by destruct row.
Qed.

Lemma init_db_legacy ts db : legacy (init_db ts db)
  = match legacy db with Some rows => Some (mark_migrated <$> rows) | None => None end.
Proof.
  unfold init_db, migrate_legacy_rules. destruct (legacy db) eqn:E; simpl; [|done].
  by destruct (fold_left (migrate_row ts) l db).
Qed.

Lemma init_db_idem ts ts' db more :
  init_db ts' (mkRules (legacy (init_db ts db)) more) = mkRules (legacy (init_db ts db)) more.
Proof.
  rewrite init_db_legacy. unfold init_db, migrate_legacy_rules.
  destruct (legacy db) as [rows|]; [|done]. cbn [legacy].
  by rewrite migrate_migrated, migrated_idem.
Qed.
End bulk.

(** ** Counting *)

Lemma count_rule_ok `{Platform} c r :
  rule_ok (sr_rule r) →
  (n_total c = n_active c + n_disabled c + n_comment c + n_unsupported c + n_invalid c ∧
   n_active c + n_disabled c = n_allow c + n_block c + n_rewrite c + n_regex c)%Z →
  let c' := count_rule c r in
  (n_total c' = n_active c' + n_disabled c' + n_comment c' + n_unsupported c' + n_invalid c' ∧
   n_active c' + n_disabled c' = n_allow c' + n_block c' + n_rewrite c' + n_regex c')%Z.
Proof.
  intros Hr Hc. unfold count_rule, rule_ok in *. destruct c. simpl in *.
  destruct (pr_state (sr_rule r)); simpl; [|lia..].
  destruct (pr_type (sr_rule r)); simpl; try done; destruct (sr_enabled r); simpl; lia.
Qed.

Lemma count_rule_total c r : n_total (count_rule c r) = (n_total c + 1)%Z.
Proof. unfold count_rule. destruct c. repeat case_match; simpl; lia. Qed.

(** ** Properties *)


Definition sample_args : insert_args := mkArgs "manual" "" true None "t".


(** Importing a text a second time, whatever its labels, stores nothing and
    reports every rule as a duplicate: invalid lines and comments included. *)
Theorem bulk_import_idempotent `{Platform} args args' plain text db :
  let db1 := (add_rules_bulk args plain text db).1 in
  let '(db2, s) := add_rules_bulk args' plain text db1 in
  db2 = db1 ∧ bs_duplicates s = Z.of_nat (length (text_rules plain (splitlines text)))
  ∧ bs_added_active s = 0%Z ∧ bs_added_inactive s = 0%Z.
Proof.
  intros db1. unfold add_rules_bulk.
  assert (Hdb1 : ∃ more, db1 = mkRules (legacy (init_db (ia_ts args) db)) more
    ∧ ∀ rule, rule ∈ text_rules plain (splitlines text) → covered db1 rule).
  { unfold db1, add_rules_bulk. rewrite bulk_go_insert_all.
    destruct (insert_all_grows args (init_db (ia_ts args) db) (text_rules plain (splitlines text)))
      as ((more & Hm) & Hc). rewrite Hm. rewrite Hm in Hc. eauto. }
  destruct Hdb1 as (more & -> & Hcov). rewrite init_db_idem.
  pose proof (bulk_go_duplicates args' plain 1 (splitlines text) _ (mkBulk [] 0 0 0 0 0 0) Hcov) as Hd.
  destruct (bulk_go _ _ _ _ _ _) as [db2 s]. simpl in *. exact Hd.
Qed.

(** The dashboard's counters partition the table: every rule is active,
    disabled, a comment, unsupported or invalid, and the active and disabled
    rules are exactly the allow, block, rewrite and regex rules. *)
Theorem rule_counts_partition `{Platform} ts db :
  db_ok db →
  let c := rule_counts ts db in
  n_total c = Z.of_nat (length (list_rules ts "" None StAny db))
  ∧ (n_total c = n_active c + n_disabled c + n_comment c + n_unsupported c + n_invalid c)%Z
  ∧ (n_active c + n_disabled c = n_allow c + n_block c + n_rewrite c + n_regex c)%Z.
Proof.
  intros Hdb%(init_db_ok ts) c. unfold c, rule_counts, list_rules.
  rewrite merge_sort_Permutation.
  assert (Hrules := ok_rules _ Hdb). destruct (init_db ts db) as [leg rows]. simpl in *.
  replace (List.filter _ rows) with rows.
  2: { clear. induction rows as [|r rows IH]; simpl; [done|].
       unfold search_matches. simpl. by rewrite <-IH. }
  clear Hdb.
  assert (Hstart : ∀ c0,
    (n_total c0 = n_active c0 + n_disabled c0 + n_comment c0 + n_unsupported c0 + n_invalid c0 ∧
     n_active c0 + n_disabled c0 = n_allow c0 + n_block c0 + n_rewrite c0 + n_regex c0)%Z →
    let c1 := fold_left count_rule rows c0 in
    n_total c1 = (n_total c0 + Z.of_nat (length rows))%Z ∧
    (n_total c1 = n_active c1 + n_disabled c1 + n_comment c1 + n_unsupported c1 + n_invalid c1)%Z ∧
    (n_active c1 + n_disabled c1 = n_allow c1 + n_block c1 + n_rewrite c1 + n_regex c1)%Z).
  { induction rows as [|r rows IH]; intros c0 Hc0; simpl; [split; [lia|done]|].
    destruct (IH (λ x Hx, Hrules x ltac:(by right)) (count_rule c0 r)) as (E & Hrest).
    - apply count_rule_ok; [apply Hrules; left|done].
    - split; [rewrite E, count_rule_total; lia|done]. }
  exact (Hstart (mkCounts 0 0 0 0 0 0 0 0 0 0) ltac:(simpl; lia)).
Qed.

Lemma rule_counts_partition_witness :
  let _ := sample_platform in
  let db := (add_rules_bulk sample_args true
    ("||a.example^" +:+ nl +:+ "! note" +:+ nl +:+ "nonsense^x") (mkRules None [])).1 in
  n_total (rule_counts "t" db) = 3%Z ∧
  (n_active (rule_counts "t" db) + n_disabled (rule_counts "t" db) = 1)%Z.
Proof.
  intros P db.
  destruct (@rule_counts_partition P "t" db) as (H1 & H2 & H3).
  - apply (add_rules_bulk_ok _ _ _ (mkRules None [])), empty_rules_ok.
  - split; [rewrite H1; vm_compute; reflexivity|rewrite H3; vm_compute; reflexivity].
Defined.

(** Enabling one rule: a missing rule and a rule that is not valid are errors
    that change nothing; otherwise exactly the named rows get the new flag. *)
Theorem set_enabled_spec ts id enabled db :
  let db1 := init_db ts db in
  match row_by_id db1 id with
  | None => set_enabled ts id enabled db = Raise (CustomRuleError "rule not found")
  | Some row =>
      if decide (enabled = true ∧ pr_state (sr_rule row) ≠ Valid) then
        ∃ reason, set_enabled ts id enabled db = Raise (CustomRuleError reason)
      else
        ∃ db', set_enabled ts id enabled db = Ok db' ∧ legacy db' = legacy db1
          ∧ length (rules db') = length (rules db1)
          ∧ ∀ i r, rules db1 !! i = Some r → ∃ r', rules db' !! i = Some r'
              ∧ sr_rule r' = sr_rule r ∧ sr_id r' = sr_id r
              ∧ sr_enabled r' = if (sr_id r =? id)%Z then enabled else sr_enabled r
  end.
Proof.
  intros db1. unfold set_enabled. fold db1.
  destruct (row_by_id db1 id) as [row|] eqn:Hrow; [|done].
  case_decide as Hd.
  - destruct Hd as [-> Hs]. rewrite bool_decide_false by done. eauto.
  - replace (enabled && _) with false.
    2: { symmetry. destruct enabled; [|done]. simpl. apply negb_false_iff, bool_decide_eq_true.
         destruct (decide (pr_state (sr_rule row) = Valid)); [done|]. by destruct Hd. }
    simpl. eexists. split; [done|]. unfold update_row. destruct db1 as [leg rows]. simpl.
    rewrite length_fmap. repeat split. intros i r Hr.
    rewrite list_lookup_fmap, Hr. simpl. eexists. split; [done|]. by case_match; destruct r.
Qed.
