(* ===== verification/RuleCompile.v ===== *)
(** * Compiling the custom rules

    From the enabled rows of the rule table to the records of the response
    policy zone: [collect_active], [_resolve_conflicts], [subtract_allowed],
    [rpz_records] and [render_dnsdist_data] of [app/custom_rules.py], and
    [render_rpz] of [app/alderpointdns_compiler.py]. *)

From S2P Require Import Prelude PyStr StrLemmas IpAddr DomainName RegexGuard RuleParser RuleStore.

(** ** Data *)

(** The value of a name in [rewrites]. *)
Record rewrite_entry := mkRewrite {
  rw_a : option string; rw_aaaa : option string; rw_subdomains : bool }.

(** The value of a name in [allows] and [blocks]. *)
Record name_entry := mkEntry { ne_exact : bool; ne_subdomains : bool; ne_priority : Z }.

(** app/custom_rules.py:1152-1163 ActiveRuleSet *)
Record ActiveRuleSet := mkActive {
  rewrites : gmap string rewrite_entry;
  allows : gmap string name_entry;
  blocks : gmap string name_entry;
  regex_allow : list string;
  regex_block : list string;
}.

Definition empty_active : ActiveRuleSet := mkActive ∅ ∅ ∅ [] [].

(** ** Collecting *)

(** [ORDER BY priority DESC, id] *)
Definition priority_order (a b : stored_rule) : Prop :=
  (pr_priority (sr_rule b) < pr_priority (sr_rule a) ∨
   pr_priority (sr_rule b) = pr_priority (sr_rule a) ∧ sr_id a ≤ sr_id b)%Z.
#[export] Instance priority_order_dec a b : Decision (priority_order a b).
Proof. unfold priority_order. apply _. Defined.

(** [enabled=1 AND validation_state='valid'] *)
Definition row_active (r : stored_rule) : bool :=
  sr_enabled r && bool_decide (pr_state (sr_rule r) = Valid).

(** The domain column; a valid domain rule always has one ([rule_ok]). *)
Definition row_domain (r : stored_rule) : string := default "" (pr_domain (sr_rule r)).

Definition first_of (o : option string) (value : option string) : option string :=
  match o with None => value | Some _ => o end.

Definition add_rewrite (r : ParsedRule) (e : rewrite_entry) : rewrite_entry :=
  let e := if decide (pr_family r = Some Ipv4)
           then e{{rw_a := first_of (rw_a e) (pr_address r)}}
           else e{{rw_aaaa := first_of (rw_aaaa e) (pr_address r)}} in
  if pr_subdomains r then e{{rw_subdomains := true}} else e.

Definition add_entry (r : ParsedRule) (e : name_entry) : name_entry :=
  let e := if pr_subdomains r then e{{ne_subdomains := true}} else e{{ne_exact := true}} in
  e{{ne_priority ::= (λ p, Z.max p (pr_priority r))}}.

(** The body of the loop of [collect_active]. *)
Definition collect_row (active : ActiveRuleSet) (row : stored_rule) : ActiveRuleSet :=
  let r := sr_rule row in
  let name := row_domain row in
  match pr_type r with
  | RtRewrite =>
      active{{rewrites ::= (λ m,
        <[name := add_rewrite r (default (mkRewrite None None false) (m !! name))]> m)}}
  | RtAllow =>
      active{{allows ::= (λ m,
        <[name := add_entry r (default (mkEntry false false 0) (m !! name))]> m)}}
  | RtBlock =>
      active{{blocks ::= (λ m,
        <[name := add_entry r (default (mkEntry false false 0) (m !! name))]> m)}}
  | RtRegexAllow => active{{regex_allow ::= (λ l, l ++ [default "" (pr_pattern r)])}}
  | RtRegexBlock => active{{regex_block ::= (λ l, l ++ [default "" (pr_pattern r)])}}
  | _ => active
  end.

(** ** Resolving conflicts *)

(** The block entry after the rewrite and the allow of its name. *)
Definition block_under_rewrite (rw : option rewrite_entry) (blk : name_entry) : name_entry :=
  match rw with
  | None => blk
  | Some rw =>
      let blk := blk{{ne_exact := false}} in
      if rw_subdomains rw then blk{{ne_subdomains := false}} else blk
  end.

Definition block_under_allow (al blk : name_entry) : name_entry :=
  let blk := blk{{ne_exact := false}} in
  if ne_subdomains al then blk{{ne_subdomains := false}} else blk.

Definition entry_empty (e : name_entry) : bool := negb (ne_exact e) && negb (ne_subdomains e).

(** The body of the first loop, for one name of [blocks]. *)
Definition resolve_block (active : ActiveRuleSet) (name : string) : ActiveRuleSet :=
  match blocks active !! name with
  | None => active
  | Some blk =>
      let blk := block_under_rewrite (rewrites active !! name) blk in
      let '(blk, active) :=
        match allows active !! name with
        | None => (blk, active)
        | Some al =>
            if (ne_priority al <? ne_priority blk)%Z
            then (blk, active{{allows ::= delete name}})
            else (block_under_allow al blk, active)
        end in
      active{{blocks ::= (if entry_empty blk then delete name else insert name blk)}}
  end.

(** The body of the second loop, for one name of [allows]. *)
Definition resolve_allow (active : ActiveRuleSet) (name : string) : ActiveRuleSet :=
  match rewrites active !! name, allows active !! name with
  | Some rw, Some al =>
      if rw_subdomains rw then active{{allows ::= delete name}}
      else
        let al := al{{ne_exact := false}} in
        active{{allows ::= (if ne_subdomains al then insert name al else delete name)}}
  | _, _ => active
  end.

(** [list(d)] *)
Definition keys {A} (m : gmap string A) : list string := (map_to_list m).*1.

(** app/custom_rules.py:1203-1233 _resolve_conflicts *)
Definition resolve_conflicts (active : ActiveRuleSet) : ActiveRuleSet :=
  let active := fold_left resolve_block (keys (blocks active)) active in
  fold_left resolve_allow (keys (allows active)) active.

(** app/custom_rules.py:1166-1200 collect_active *)
Definition collect_active (ts : string) (db : rules_db) : ActiveRuleSet :=
  let rows := merge_sort priority_order (List.filter row_active (rules (init_db ts db))) in
  resolve_conflicts (fold_left collect_row rows empty_active).

(** ** The external set *)

(** [d.endswith("." + name)] *)
Definition under (d name : string) : bool := ends_with ("." +:+ name) d.

Definition subdomain_allows (active : ActiveRuleSet) : list string :=
  omap (λ '(name, al), if ne_subdomains al then Some name else None)
    (map_to_list (allows active)).

(** app/custom_rules.py:1236-1252 subtract_allowed *)
Definition subtract_allowed (domains : gset string) (active : ActiveRuleSet) : gset string :=
  if decide (allows active = ∅) then domains
  else
    filter (λ domain, allows active !! domain = None
              ∧ existsb (λ name, String.eqb domain name || under domain name)
                  (subdomain_allows active) = false) domains.

(** ** Records *)

Definition wild (name : string) : string := "*." +:+ name.

(** The lines emitted so far, as owner and data, and the owners they occupy. *)
Definition zone_state : Type := list (string * string) * gset string.

Definition emit (owner rdata : string) (st : zone_state) : zone_state :=
  (st.1 ++ [(owner, rdata)], st.2).
Definition occupy (owner : string) (st : zone_state) : zone_state := (st.1, {[owner]} ∪ st.2).
(** [if owner not in occupied: emit(owner, rdata); occupied.add(owner)] *)
Definition emit_free (owner rdata : string) (st : zone_state) : zone_state :=
  if decide (owner ∈ st.2) then st else occupy owner (emit owner rdata st).

Definition emit_address (rtype name : string) (subdomains : bool) (addr : option string)
    (st : zone_state) : zone_state :=
  match addr with
  | None => st
  | Some addr =>
      if String.eqb addr "" then st
      else
        let st := emit name (rtype +:+ " " +:+ addr) st in
        if subdomains then emit (wild name) (rtype +:+ " " +:+ addr) st else st
  end.

Definition rewrite_records (st : zone_state) (name : string) (entry : rewrite_entry) : zone_state :=
  let st := emit_address "A" name (rw_subdomains entry) (rw_a entry) st in
  let st := emit_address "AAAA" name (rw_subdomains entry) (rw_aaaa entry) st in
  let st := occupy name st in
  if rw_subdomains entry then occupy (wild name) st else st.

Definition passthru : string := "CNAME rpz-passthru.".
Definition nxdomain : string := "CNAME .".

Definition allow_records (st : zone_state) (name : string) (al : name_entry) : zone_state :=
  let st := if ne_exact al || ne_subdomains al then emit_free name passthru st else st in
  if ne_subdomains al then emit_free (wild name) passthru st else st.

Definition block_records (st : zone_state) (name : string) (blk : name_entry) : zone_state :=
  let st := if ne_exact blk then emit_free name nxdomain st else st in
  if ne_subdomains blk then emit_free (wild name) nxdomain (emit_free name nxdomain st) else st.

(** [for name in sorted(d): entry = d[name]; ...] *)
Definition for_sorted {A} (f : zone_state → string → A → zone_state) (m : gmap string A)
    (st : zone_state) : zone_state :=
  fold_left (λ st name, match m !! name with Some e => f st name e | None => st end)
    (py_sorted (keys m)) st.

(** app/custom_rules.py:1255-1296 rpz_records *)
Definition rpz_records (active : ActiveRuleSet) : zone_state :=
  for_sorted block_records (blocks active)
    (for_sorted allow_records (allows active)
      (for_sorted rewrite_records (rewrites active) ([], ∅))).

(** app/alderpointdns_compiler.py:1068-1069 rpz_name *)
Definition rpz_name (domain : string) : string := rstrip_char "." domain.

(** The records of one external domain. *)
Definition external_records (occupied : gset string) (domain : string) : list (string * string) :=
  let name := rpz_name domain in
  (if decide (name ∈ occupied) then [] else [(name, nxdomain)])
  ++ (if decide (wild name ∈ occupied) then [] else [(wild name, nxdomain)]).

(** The owner/data pairs of the zone, in file order, after its three header
    lines. *)
Definition zone_records (domains : gset string) (custom : option ActiveRuleSet)
    : list (string * string) :=
  let '(lines, occupied) := match custom with Some c => rpz_records c | None => ([], ∅) end in
  lines ++ mjoin (external_records occupied <$> sorted_set domains).

Definition render_record (r : string * string) : string := r.1 +:+ " " +:+ r.2.

(** app/alderpointdns_compiler.py:1072-1090 render_rpz ([serial] is the clock) *)
Definition render_rpz (serial : string) (domains : gset string) (custom : option ActiveRuleSet)
    : string :=
  join nl (["$TTL 2h";
            "@ IN SOA localhost. hostmaster.localhost. " +:+ serial +:+ " 1h 15m 30d 2h";
            "@ IN NS localhost."; ""]
           ++ (render_record <$> zone_records domains custom)) +:+ nl.

(** ** The data files of the dnsdist layer *)

(** app/custom_rules.py:1303-1306 _check_line_safe *)
Definition check_line_safe (entry : string) : res string :=
  if sexists is_control entry
  then Raise (CustomRuleError "refusing to write a data-file entry containing control characters")
  else Ok entry.

Fixpoint check_lines (entries : list string) : res (list string) :=
  match entries with
  | [] => Ok []
  | e :: entries => e ← check_line_safe e; es ← check_lines entries; Ok (e :: es)
  end.

Definition lines_text (entries : list string) : res string :=
  es ← check_lines entries; Ok (join nl es +:+ (if decide (entries = []) then "" else nl)).

Record dnsdist_data := mkData {
  dd_pass_suffixes : string; dd_pass_exact : string;
  dd_regex_allow : string; dd_regex_block : string }.

Definition pass_suffixes (active : ActiveRuleSet) (local_zones : list string) : gset string :=
  list_to_set local_zones
  ∪ list_to_set (subdomain_allows active)
  ∪ list_to_set (omap (λ '(name, rw), if rw_subdomains rw then Some name else None)
                   (map_to_list (rewrites active))).

Definition pass_exact (active : ActiveRuleSet) (local_zones : list string) : gset string :=
  (list_to_set (omap (λ '(name, al), if ne_exact al && negb (ne_subdomains al) then Some name
                                     else None) (map_to_list (allows active)))
   ∪ list_to_set (omap (λ '(name, rw), if rw_subdomains rw then None else Some name)
                   (map_to_list (rewrites active))))
  ∖ pass_suffixes active local_zones.

(** app/custom_rules.py:1309-1329 render_dnsdist_data *)
Definition render_dnsdist_data (active : ActiveRuleSet) (local_zones : list string)
    : res dnsdist_data :=
  suffixes ← lines_text (sorted_set (pass_suffixes active local_zones));
  exact ← lines_text (sorted_set (pass_exact active local_zones));
  allow ← lines_text (deployed_pattern <$> regex_allow active);
  block ← lines_text (deployed_pattern <$> regex_block active);
  Ok (mkData suffixes exact allow block).

(** app/custom_rules.py:1412-1419 dnsdist_layer_counts *)
Definition dnsdist_layer_counts (active : ActiveRuleSet) : list (string * nat) :=
  [("regex_allow", length (regex_allow active)); ("regex_block", length (regex_block active));
   ("rewrites", size (rewrites active)); ("allows", size (allows active));
   ("blocks", size (blocks active))].

(** ** Conflicts are resolved name by name *)

(** What the first loop leaves at one name: the allow and the block. *)
Definition resolved_block (rw : option rewrite_entry) (al bl : option name_entry)
    : option name_entry * option name_entry :=
  match bl with
  | None => (al, None)
  | Some blk =>
      let blk := block_under_rewrite rw blk in
      let '(blk, al) :=
        match al with
        | None => (blk, None)
        | Some al =>
            if (ne_priority al <? ne_priority blk)%Z then (blk, None)
            else (block_under_allow al blk, Some al)
        end in
      (al, if entry_empty blk then None else Some blk)
  end.

(** What the second loop leaves of the allow. *)
Definition resolved_allow (rw : option rewrite_entry) (al : option name_entry)
    : option name_entry :=
  match rw, al with
  | Some rw, Some al =>
      if rw_subdomains rw then None
      else if ne_subdomains al then Some (al{{ne_exact := false}}) else None
  | _, _ => al
  end.

Definition view (a : ActiveRuleSet) (n : string)
    : option rewrite_entry * option name_entry * option name_entry :=
  (rewrites a !! n, allows a !! n, blocks a !! n).

Lemma resolve_block_view a n m :
  view (resolve_block a n) m =
  if decide (m = n) then
    let '(al, bl) := resolved_block (rewrites a !! n) (allows a !! n) (blocks a !! n) in
    (rewrites a !! n, al, bl)
  else view a m.
Proof.
  destruct a as [R A B ra rb]. unfold resolve_block, view, resolved_block. simpl.
  destruct (B !! n) as [blk|] eqn:HB; simpl; [|by case_decide; subst; rewrite ?HB].
  destruct (A !! n) as [al|] eqn:HA; [destruct (_ <? _)%Z|];
    (destruct (entry_empty _); simpl; case_decide; subst;
     rewrite ?lookup_delete_eq, ?lookup_insert_eq, ?lookup_delete_ne, ?lookup_insert_ne, ?HA by done;
     done).
Qed.

Lemma resolve_allow_view a n m :
  view (resolve_allow a n) m =
  if decide (m = n) then
    (rewrites a !! n, resolved_allow (rewrites a !! n) (allows a !! n), blocks a !! n)
  else view a m.
Proof.
  destruct a as [R A B ra rb]. unfold resolve_allow, view, resolved_allow. simpl.
  destruct (R !! n) as [rw|] eqn:HR, (A !! n) as [al|] eqn:HA; simpl;
    try (by case_decide; subst; rewrite ?HR, ?HA).
  destruct (rw_subdomains rw) eqn:Hs; simpl.
  - case_decide; subst; rewrite ?lookup_delete_eq, ?lookup_delete_ne, ?HR by done; done.
  - destruct al as [ex sub p]; simpl. destruct sub; simpl; case_decide; subst;
      rewrite ?lookup_delete_eq, ?lookup_insert_eq, ?lookup_delete_ne, ?lookup_insert_ne, ?HR
        by done; done.
Qed.

(** A loop whose body touches one name at a time, over distinct names. *)
Lemma fold_view (f : ActiveRuleSet → string → ActiveRuleSet)
    (g : option rewrite_entry → option name_entry → option name_entry →
         option rewrite_entry * option name_entry * option name_entry) l a m :
  (∀ a n m, view (f a n) m = if decide (m = n) then g (rewrites a !! n) (allows a !! n) (blocks a !! n)
                             else view a m) →
  NoDup l →
  view (fold_left f l a) m =
  if decide (m ∈ l) then g (rewrites a !! m) (allows a !! m) (blocks a !! m) else view a m.
Proof.
  intros Hf. revert a. induction l as [|n l IH]; intros a Hl; simpl.
  { done. }
  apply NoDup_cons in Hl as [Hn Hl]. rewrite IH by done.
  destruct (decide (m ∈ l)) as [Hm|Hm].
  - rewrite (decide_True (P := m ∈ n :: l)) by (by right).
    assert (m ≠ n) as Hmn by (by intros ->).
    specialize (Hf a n m). rewrite decide_False in Hf by done. unfold view in Hf.
    injection Hf as -> -> ->. done.
  - rewrite Hf. destruct (decide (m = n)) as [->|Hmn].
    + by rewrite decide_True by (by left).
    + by rewrite decide_False by (by intros [?|?]%elem_of_cons).
Qed.

Lemma elem_of_keys {A} (m : gmap string A) n : n ∈ keys m ↔ is_Some (m !! n).
Proof.
  unfold keys. rewrite list_elem_of_fmap. split.
  - intros ([n' x] & -> & Hx%elem_of_map_to_list). eauto.
  - intros [x Hx]. exists (n, x). split; [done|]. by apply elem_of_map_to_list.
Qed.

Lemma NoDup_keys {A} (m : gmap string A) : NoDup (keys m).
Proof. apply NoDup_fst_map_to_list. Qed.

(** The resolved entries of a name depend on that name's entries only. *)
Lemma resolve_conflicts_view a n :
  view (resolve_conflicts a) n =
  let '(al, bl) := resolved_block (rewrites a !! n) (allows a !! n) (blocks a !! n) in
  (rewrites a !! n, resolved_allow (rewrites a !! n) al, bl).
Proof.
  unfold resolve_conflicts. cbv zeta. set (a1 := fold_left resolve_block _ a).
  assert (H1 : view a1 n =
    let '(al, bl) := resolved_block (rewrites a !! n) (allows a !! n) (blocks a !! n) in
    (rewrites a !! n, al, bl)).
  { unfold a1. rewrite (fold_view resolve_block (λ rw al bl,
      let '(al, bl) := resolved_block rw al bl in (rw, al, bl)));
      [|apply resolve_block_view|apply NoDup_keys].
    case_decide as Hn; [done|]. unfold view, resolved_block.
    destruct (blocks a !! n) eqn:HB; [|done]. destruct Hn. apply elem_of_keys. eauto. }
  rewrite (fold_view resolve_allow (λ rw al bl, (rw, resolved_allow rw al, bl)));
    [|apply resolve_allow_view|apply NoDup_keys].
  destruct (resolved_block _ _ _) as [al bl]. unfold view in H1. injection H1 as HR HA HB.
  case_decide as Hn; [by rewrite HR, HA, HB|]. unfold view. rewrite HR, HA, HB.
  destruct al as [al|]; [|by destruct (rewrites a !! n)].
  destruct Hn. apply elem_of_keys. eauto.
Qed.

(** ** What collecting gathers at one name *)

Definition rows_for (t : rule_type) (n : string) (rows : list stored_rule) : list stored_rule :=
  List.filter (λ r, bool_decide (pr_type (sr_rule r) = t ∧ row_domain r = n)) rows.

Definition row_subdomains (r : stored_rule) : bool := pr_subdomains (sr_rule r).
Definition row_priority (r : stored_rule) : Z := pr_priority (sr_rule r).

(** The entry of the rows [rs] of one name. *)
Definition entry0 (rs : list stored_rule) : name_entry :=
  mkEntry (existsb (negb ∘ row_subdomains) rs) (existsb row_subdomains rs)
    (fold_left (λ p r, Z.max p (row_priority r)) rs 0%Z).
Definition entry_of (rs : list stored_rule) : option name_entry :=
  match rs with [] => None | _ => Some (entry0 rs) end.

Definition is_v4_rewrite (r : stored_rule) : bool := bool_decide (pr_family (sr_rule r) = Some Ipv4).

Definition rewrite0 (rs : list stored_rule) : rewrite_entry :=
  mkRewrite
    (fold_left (λ o r, if is_v4_rewrite r then first_of o (pr_address (sr_rule r)) else o) rs None)
    (fold_left (λ o r, if is_v4_rewrite r then o else first_of o (pr_address (sr_rule r))) rs None)
    (existsb row_subdomains rs).
Definition rewrite_of (rs : list stored_rule) : option rewrite_entry :=
  match rs with [] => None | _ => Some (rewrite0 rs) end.

Lemma rows_for_snoc t n rows r :
  rows_for t n (rows ++ [r]) =
  rows_for t n rows ++ if decide (pr_type (sr_rule r) = t ∧ row_domain r = n) then [r] else [].
Proof.
  unfold rows_for. rewrite List.filter_app. simpl. case_decide as Hd.
  - by rewrite bool_decide_true.
  - by rewrite bool_decide_false.
Qed.

Lemma existsb_snoc {A} (p : A → bool) l x : existsb p (l ++ [x]) = existsb p l || p x.
Proof. rewrite existsb_app. simpl. by rewrite orb_false_r. Qed.

Lemma entry_of_snoc rs r :
  entry_of (rs ++ [r]) = Some (add_entry (sr_rule r) (default (mkEntry false false 0) (entry_of rs))).
Proof.
  assert (default (mkEntry false false 0) (entry_of rs) = entry0 rs) as -> by (by destruct rs).
  assert (entry_of (rs ++ [r]) = Some (entry0 (rs ++ [r]))) as -> by (by destruct rs).
  unfold entry0. rewrite !existsb_snoc, fold_left_app. unfold add_entry, row_subdomains, row_priority.
  simpl. destruct (pr_subdomains (sr_rule r)); simpl; by rewrite ?orb_true_r, ?orb_false_r.
Qed.

Lemma rewrite_of_snoc rs r :
  rewrite_of (rs ++ [r])
  = Some (add_rewrite (sr_rule r) (default (mkRewrite None None false) (rewrite_of rs))).
Proof.
  assert (default (mkRewrite None None false) (rewrite_of rs) = rewrite0 rs) as -> by (by destruct rs).
  assert (rewrite_of (rs ++ [r]) = Some (rewrite0 (rs ++ [r]))) as -> by (by destruct rs).
  unfold rewrite0. rewrite existsb_snoc, !fold_left_app. unfold add_rewrite, row_subdomains.
  simpl. case_decide as Hf;
    [assert (is_v4_rewrite r = true) as -> by (by apply bool_decide_true)
    |assert (is_v4_rewrite r = false) as -> by (by apply bool_decide_false)];
    destruct (pr_subdomains (sr_rule r)); simpl; by rewrite ?orb_true_r, ?orb_false_r.
Qed.

Lemma collect_view rows n :
  view (fold_left collect_row rows empty_active) n =
  (rewrite_of (rows_for RtRewrite n rows), entry_of (rows_for RtAllow n rows),
   entry_of (rows_for RtBlock n rows)).
Proof.
  induction rows as [|r rows IH] using rev_ind; [done|].
  rewrite fold_left_app. simpl. rewrite !rows_for_snoc.
  set (a := fold_left collect_row rows empty_active) in *. clearbody a.
  unfold view in IH. injection IH as HR HA HB. unfold view, collect_row.
  destruct a as [R A B ra rb]. simpl in *.
  destruct (pr_type (sr_rule r)) eqn:Ht; simpl; rewrite ?app_nil_r, ?HR, ?HA, ?HB;
    try done; (destruct (decide (row_domain r = n)) as [<-|Hn];
     [rewrite lookup_insert_eq, decide_True by done; rewrite ?HR, ?HA, ?HB;
      rewrite ?entry_of_snoc, ?rewrite_of_snoc
     |rewrite lookup_insert_ne, decide_False by naive_solver; rewrite ?HR, ?HA, ?HB, ?app_nil_r]);
    repeat (rewrite decide_False by (by intros []); rewrite ?app_nil_r); done.
Qed.

(** Every collected name is the domain of a row. *)
Lemma entry_of_Some rs e : entry_of rs = Some e → ∃ r, r ∈ rs.
Proof. destruct rs as [|r rs]; [done|]. intros _. exists r. left. Qed.

Lemma rewrite_of_Some rs e : rewrite_of rs = Some e → ∃ r, r ∈ rs.
Proof. destruct rs as [|r rs]; [done|]. intros _. exists r. left. Qed.

Lemma elem_of_rows_for t n rows r :
  r ∈ rows_for t n rows ↔ r ∈ rows ∧ pr_type (sr_rule r) = t ∧ row_domain r = n.
Proof.
  unfold rows_for. rewrite elem_of_filterb. split; intros [Hr Hb]; split; try done.
  - by eapply bool_decide_eq_true.
  - by apply bool_decide_eq_true.
Qed.

(** ** The records of the zone *)

(** The owners of an entry: the name, and the wildcard below it. *)
Definition owner_of (e : name_entry) (n o : string) : Prop :=
  (ne_exact e = true ∨ ne_subdomains e = true) ∧ o = n ∨ ne_subdomains e = true ∧ o = wild n.
Definition rewrite_owner (e : rewrite_entry) (n o : string) : Prop :=
  o = n ∨ rw_subdomains e = true ∧ o = wild n.

Definition address_data (rtype : string) (addr : option string) : option string :=
  match addr with
  | Some a => if String.eqb a "" then None else Some (rtype +:+ " " +:+ a)
  | None => None
  end.
Definition rewrite_data (e : rewrite_entry) (d : string) : Prop :=
  address_data "A" (rw_a e) = Some d ∨ address_data "AAAA" (rw_aaaa e) = Some d.

Lemma wild_ne n : wild n ≠ n.
Proof. intros E. apply (f_equal slen) in E. unfold wild in E. rewrite slen_app in E. simpl in E. lia. Qed.

Lemma wild_inj n m : wild n = wild m → n = m.
Proof. unfold wild. rewrite !app_cons, !app_nil_s. by intros [= ->]. Qed.

Lemma emit_free_spec o d st x y :
  ((x, y) ∈ (emit_free o d st).1 ↔ (x, y) ∈ st.1 ∨ o ∉ st.2 ∧ x = o ∧ y = d)
  ∧ (x ∈ (emit_free o d st).2 ↔ x ∈ st.2 ∨ x = o).
Proof. unfold emit_free, emit, occupy. case_decide; simpl; set_solver. Qed.

Lemma allow_records_spec st n e x y :
  ((x, y) ∈ (allow_records st n e).1 ↔ (x, y) ∈ st.1 ∨ x ∉ st.2 ∧ y = passthru ∧ owner_of e n x)
  ∧ (x ∈ (allow_records st n e).2 ↔ x ∈ st.2 ∨ owner_of e n x).
Proof.
  unfold allow_records, owner_of. pose proof (wild_ne n).
  destruct e as [[] [] ?]; simpl; rewrite ?(proj1 (emit_free_spec _ _ _ _ _)),
    ?(proj2 (emit_free_spec _ _ _ _ y)) by done;
    rewrite ?(proj2 (emit_free_spec _ _ _ _ passthru)); split;
    try (setoid_rewrite (proj2 (emit_free_spec _ _ _ _ y))); naive_solver.
Qed.

Lemma block_records_spec st n e x y :
  ((x, y) ∈ (block_records st n e).1 ↔ (x, y) ∈ st.1 ∨ x ∉ st.2 ∧ y = nxdomain ∧ owner_of e n x)
  ∧ (x ∈ (block_records st n e).2 ↔ x ∈ st.2 ∨ owner_of e n x).
Proof.
  unfold block_records, owner_of. pose proof (wild_ne n) as Hw.
  pose proof (λ o d st, proj1 (emit_free_spec o d st x y)) as E1.
  pose proof (λ o d st z, proj2 (emit_free_spec o d st z y)) as E2.
  destruct e as [[] [] ?]; simpl; rewrite ?E1, ?E2, ?E1, ?E2, ?E1, ?E2; naive_solver.
Qed.

Lemma emit_address_spec rtype n sub addr st x y :
  ((x, y) ∈ (emit_address rtype n sub addr st).1 ↔
    (x, y) ∈ st.1 ∨ address_data rtype addr = Some y ∧ (x = n ∨ sub = true ∧ x = wild n))
  ∧ (emit_address rtype n sub addr st).2 = st.2.
Proof.
  unfold emit_address, address_data, emit. destruct addr as [a|]; [|naive_solver].
  destruct (String.eqb a ""); [naive_solver|]. destruct sub; simpl; split; try done; set_solver.
Qed.

Lemma rewrite_records_spec st n e x y :
  ((x, y) ∈ (rewrite_records st n e).1 ↔ (x, y) ∈ st.1 ∨ rewrite_data e y ∧ rewrite_owner e n x)
  ∧ (x ∈ (rewrite_records st n e).2 ↔ x ∈ st.2 ∨ rewrite_owner e n x).
Proof.
  unfold rewrite_records, rewrite_data, rewrite_owner, occupy. cbv zeta.
  set (st1 := emit_address "A" _ _ _ st). set (st2 := emit_address "AAAA" _ _ _ st1).
  pose proof (emit_address_spec "A" n (rw_subdomains e) (rw_a e) st x y) as [H1 H1'].
  pose proof (emit_address_spec "AAAA" n (rw_subdomains e) (rw_aaaa e) st1 x y) as [H2 H2'].
  fold st1 in H1, H1'. fold st2 in H2, H2'. rewrite H1' in H2'.
  destruct (rw_subdomains e); simpl; rewrite H2, H1, H2'; split; set_solver.
Qed.

(** Loops over sorted names, from the specification of their body: one that
    always emits, and one that only takes free owners. *)
Definition owned {A} (own : A → string → string → Prop) (m : gmap string A) (x : string) : Prop :=
  ∃ n e, m !! n = Some e ∧ own e n x.

Section loops.
Context {A : Type} (f : zone_state → string → A → zone_state) (own : A → string → string → Prop).

Definition visit (m : gmap string A) (st : zone_state) (name : string) : zone_state :=
  match m !! name with Some e => f st name e | None => st end.

Lemma keys_sorted (m : gmap string A) n e : m !! n = Some e → n ∈ py_sorted (keys m).
Proof. intros Hn. apply elem_of_py_sorted, elem_of_keys. eauto. Qed.

Lemma always_loop (dat : A → string → Prop) m st x y :
  (∀ st n e,
    ((x, y) ∈ (f st n e).1 ↔ (x, y) ∈ st.1 ∨ dat e y ∧ own e n x)
    ∧ (x ∈ (f st n e).2 ↔ x ∈ st.2 ∨ own e n x)) →
  ((x, y) ∈ (for_sorted f m st).1 ↔
     (x, y) ∈ st.1 ∨ ∃ n e, m !! n = Some e ∧ dat e y ∧ own e n x)
  ∧ (x ∈ (for_sorted f m st).2 ↔ x ∈ st.2 ∨ owned own m x).
Proof.
  intros Hf. unfold for_sorted, owned. fold (visit m).
  assert (Hgen : ∀ l st,
    ((x, y) ∈ (fold_left (visit m) l st).1 ↔ (x, y) ∈ st.1 ∨
      ∃ n e, n ∈ l ∧ m !! n = Some e ∧ dat e y ∧ own e n x)
    ∧ (x ∈ (fold_left (visit m) l st).2 ↔ x ∈ st.2 ∨ ∃ n e, n ∈ l ∧ m !! n = Some e ∧ own e n x)).
  { intros l. induction l as [|k l IH]; intros st0; simpl; [set_solver|].
    destruct (IH (visit m st0 k)) as [-> ->]. unfold visit at 1 2.
    setoid_rewrite elem_of_cons. destruct (m !! k) as [e|] eqn:Hk.
    - destruct (Hf st0 k e) as [-> ->]. naive_solver.
    - naive_solver. }
  destruct (Hgen (py_sorted (keys m)) st) as [-> ->].
  pose proof (keys_sorted m). naive_solver.
Qed.

Lemma free_loop d m st x y :
  (∀ st n e,
    ((x, y) ∈ (f st n e).1 ↔ (x, y) ∈ st.1 ∨ x ∉ st.2 ∧ y = d ∧ own e n x)
    ∧ (x ∈ (f st n e).2 ↔ x ∈ st.2 ∨ own e n x)) →
  ((x, y) ∈ (for_sorted f m st).1 ↔ (x, y) ∈ st.1 ∨ x ∉ st.2 ∧ y = d ∧ owned own m x)
  ∧ (x ∈ (for_sorted f m st).2 ↔ x ∈ st.2 ∨ owned own m x).
Proof.
  intros Hf. unfold for_sorted, owned. fold (visit m).
  assert (Hgen : ∀ l st,
    ((x, y) ∈ (fold_left (visit m) l st).1 ↔ (x, y) ∈ st.1 ∨
      x ∉ st.2 ∧ y = d ∧ ∃ n e, n ∈ l ∧ m !! n = Some e ∧ own e n x)
    ∧ (x ∈ (fold_left (visit m) l st).2 ↔ x ∈ st.2 ∨ ∃ n e, n ∈ l ∧ m !! n = Some e ∧ own e n x)).
  { intros l. induction l as [|k l IH]; intros st0; simpl; [set_solver|].
    destruct (IH (visit m st0 k)) as [-> ->]. unfold visit at 1 2 3.
    setoid_rewrite elem_of_cons. destruct (m !! k) as [e|] eqn:Hk; [|naive_solver].
    pose proof (Hf st0 k e) as [H1 H2]. rewrite H1, H2.
    clear IH H1. split.
    - destruct (decide (x ∈ (f st0 k e).2)) as [Hx|Hx]; rewrite H2 in Hx; split.
      + intros [[?|(? & -> & ?)]|(Hno & _)]; [by left| |by destruct Hno].
        right. split; [done|]. split; [done|]. exists k, e. auto.
      + intros [?|(Hn & -> & _)]; [by left; left|left; right]. naive_solver.
      + intros [[?|(_ & _ & Ho)]|(_ & -> & n & e' & Hn & Hn' & Ho)]; [by left| |].
        * destruct Hx. by right.
        * right. split; [tauto|]. split; [done|]. exists n, e'. auto.
      + intros [?|(Hn & -> & n & e' & [->|Hnl] & Hn' & Ho)]; [by left; left| |].
        * left. right. naive_solver.
        * right. split; [tauto|]. split; [done|]. exists n, e'. auto.
    - naive_solver. }
  destruct (Hgen (py_sorted (keys m)) st) as [-> ->].
  pose proof (keys_sorted m). naive_solver.
Qed.
End loops.

(** The records and the occupied owners, in closed form. *)
Lemma rpz_records_spec a x y :
  let RO := owned rewrite_owner (rewrites a) x in
  let AO := owned owner_of (allows a) x in
  let BO := owned owner_of (blocks a) x in
  ((x, y) ∈ (rpz_records a).1 ↔
     (∃ n e, rewrites a !! n = Some e ∧ rewrite_data e y ∧ rewrite_owner e n x)
     ∨ (¬ RO ∧ y = passthru ∧ AO) ∨ (¬ RO ∧ ¬ AO ∧ y = nxdomain ∧ BO))
  ∧ (x ∈ (rpz_records a).2 ↔ RO ∨ AO ∨ BO).
Proof.
  unfold rpz_records.
  destruct (always_loop rewrite_records rewrite_owner rewrite_data (rewrites a) ([], ∅) x y)
    as [R1 R2]; [intros; apply rewrite_records_spec|].
  set (s1 := for_sorted rewrite_records _ _) in *.
  destruct (free_loop allow_records owner_of passthru (allows a) s1 x y) as [A1 A2];
    [intros; apply allow_records_spec|].
  set (s2 := for_sorted allow_records _ _) in *.
  destruct (free_loop block_records owner_of nxdomain (blocks a) s2 x y) as [B1 B2];
    [intros; apply block_records_spec|].
  rewrite B1, B2, A1, A2, R1, R2. cbn [fst snd].
  rewrite elem_of_nil, elem_of_empty.
  clear. cbv zeta.
  generalize (owned rewrite_owner (rewrites a) x) (owned owner_of (allows a) x)
    (owned owner_of (blocks a) x) (y = passthru) (y = nxdomain)
    (∃ n e, rewrites a !! n = Some e ∧ rewrite_data e y ∧ rewrite_owner e n x).
  clear. tauto.
Qed.
