(* ===== verification/RuleEval.v ===== *)
(** * Testing a domain against the rules

    [evaluate_domain] of [app/custom_rules.py], the verdict the panel shows, and
    [_rpz_status], which reads the compiled zone back.  The theorems at the end
    compare the verdict with the zone that [rpz_records] compiles. *)

From S2P Require Import Prelude PyStr StrLemmas IpAddr DomainName RegexGuard RuleParser RuleStore RuleCompile.

(** ** The compiled zone *)

Record rpz_result := mkStatus {
  rp_available : bool; rp_blocked : bool; rp_match : option string; rp_entry : option string;
  rp_rdata : option string }.

(** [line.split(None, 1)]: the first word and what follows it, if any. *)
Definition split_once (line : string) : option (string * string) :=
  let s := lstrip_by is_space line in
  let rest := lstrip_by (negb ∘ is_space) s in
  let word := stake (slen s - slen rest) s in
  let tail := lstrip_by is_space rest in
  if String.eqb word "" || String.eqb tail "" then None else Some (word, tail).

(** One line of the file, when it is a record. *)
Definition owner_line (line : string) : option (string * string) :=
  match split_once line with
  | None => None
  | Some (owner, rdata) =>
      if String.eqb owner "@" || String.eqb owner "$TTL" || starts_with ";" owner then None
      else Some (owner, strip rdata)
  end.

(** [owners.setdefault(owner, []).append(rdata)] over the lines *)
Definition add_owner (m : gmap string (list string)) (r : string * string)
    : gmap string (list string) :=
  <[r.1 := default [] (m !! r.1) ++ [r.2]]> m.
Definition owners_of (records : list (string * string)) : gmap string (list string) :=
  fold_left add_owner records ∅.

(** [".".join(labels[i:])] for [i] in [range(1, len(labels))] *)
Definition parents (qname : string) : list string :=
  let labels := split_on "." qname in
  (λ i, join "." (drop i labels)) <$> seq 1 (length labels - 1).

(** Tuples of [best], in Python's lexicographic order. *)
Definition candidate : Type := bool * nat * string.
Definition candidate_ltb (a b : candidate) : bool :=
  let '(xa, la, sa) := a in
  let '(xb, lb, sb) := b in
  (negb xa && xb)
  || (bool_decide (xa = xb) && ((la <? lb) || ((la =? lb) && String.ltb sa sb))).

Definition labels_count (name : string) : nat := scount "." name + 1.

Definition improve (owners : gmap string (list string)) (best : option candidate) (parent : string)
    : option candidate :=
  match owners !! wild parent with
  | None => best
  | Some _ =>
      let cand := (false, labels_count parent, wild parent) in
      match best with
      | None => Some cand
      | Some b => if candidate_ltb b cand then Some cand else best
      end
  end.

(** The owner that answers: whether it is exact, and its name. *)
Definition rpz_best (owners : gmap string (list string)) (qname : string) : option candidate :=
  let best := match owners !! qname with
              | Some _ => Some (true, labels_count qname, qname)
              | None => None
              end in
  fold_left (improve owners) (parents qname) best.

Definition status_of (owners : gmap string (list string)) (qname : string) : rpz_result :=
  match rpz_best owners qname with
  | None => mkStatus true false None None None
  | Some (exact, _, owner) =>
      let rdata := default [] (owners !! owner) in
      mkStatus true (existsb (String.eqb nxdomain) rdata)
        (Some (if exact then "exact" else "wildcard")) (Some owner) (Some (join "; " rdata))
  end.

(** app/custom_rules.py:1004-1040 _rpz_status ([file] is [COMPILED_RPZ], if it exists) *)
Definition rpz_status (file : option string) (qname : string) : rpz_result :=
  match file with
  | None => mkStatus false false None None None
  | Some text => status_of (owners_of (omap owner_line (splitlines text))) qname
  end.

(** ** The verdict *)

Inductive final_action := FaResolve | FaLocal | FaRewrite | FaAllow | FaBlock.
#[export] Instance final_action_eq_dec : EqDecision final_action.
Proof. solve_decision. Defined.

(** [rule_summary(row)] *)
Record rule_summary := mkSummary {
  rs_id : Z; rs_text : string; rs_type : rule_type; rs_action : rule_action; rs_priority : Z }.
Definition summary (row : stored_rule) : rule_summary :=
  let r := sr_rule row in
  mkSummary (sr_id row) (pr_text r) (pr_type r) (pr_action r) (pr_priority r).

Record eval_result := mkEval {
  ev_domain : string;
  ev_final_action : final_action;
  ev_matched : list rule_summary;
  ev_local_zone : option string;
  ev_rpz : rpz_result;
  ev_response : string;
}.

(** The type tests of the loop. *)
Definition is_domain_rule (r : ParsedRule) : bool :=
  bool_decide (pr_type r = RtRewrite ∨ pr_type r = RtAllow ∨ pr_type r = RtBlock).

(** The match of one row: whether it is exact, its label count and the row. *)
Definition domain_match (qname : string) (row : stored_rule) : option (bool * nat * stored_rule) :=
  let r := sr_rule row in
  match pr_domain r with
  | Some d =>
      if is_domain_rule r && negb (String.eqb d "") then
        let exact := String.eqb qname d in
        if exact || (pr_subdomains r && under qname d)
        then Some (exact, labels_count d, row) else None
      else None
  | None => None
  end.

Definition key_ltb (a b : bool * nat) : bool :=
  (negb a.1 && b.1) || (bool_decide (a.1 = b.1) && (a.2 <? b.2)).
Definition key_max (a b : bool * nat) : bool * nat := if key_ltb a b then b else a.

(** The rows whose key is the greatest. *)
Definition best_rows (matches : list (bool * nat * stored_rule)) : list stored_rule :=
  match matches with
  | [] => []
  | m :: rest =>
      let best_key := fold_left (λ k m, key_max k m.1) rest m.1 in
      omap (λ m, if decide (m.1 = best_key) then Some m.2 else None) matches
  end.

Definition of_type (t : rule_type) (row : stored_rule) : bool :=
  bool_decide (pr_type (sr_rule row) = t).

Definition max_priority (rows : list stored_rule) : Z :=
  match rows with
  | [] => 0
  | r :: rest => fold_left (λ p r, Z.max p (pr_priority (sr_rule r))) rest (pr_priority (sr_rule r))
  end.

(** The decision among the best rows: the action, the rows it names, the text. *)
Definition decide_rows (best : list stored_rule) : final_action * list stored_rule * string :=
  let rewrites := List.filter (of_type RtRewrite) best in
  let allows := List.filter (of_type RtAllow) best in
  let blocks := List.filter (of_type RtBlock) best in
  match rewrites, allows, blocks with
  | _ :: _, _, _ =>
      (FaRewrite, rewrites,
       "answers with " +:+ join ", " ((λ r, default "None" (pr_address (sr_rule r))) <$> rewrites))
  | [], _ :: _, _ :: _ =>
      if (max_priority allows <? max_priority blocks)%Z
      then (FaBlock, blocks, "blocked (an important block rule outranks the allow rule)")
      else (FaAllow, allows, "allowed (rpz-passthru overrides block rules and blocklists)")
  | [], _ :: _, [] =>
      (FaAllow, allows, "allowed (rpz-passthru overrides block rules and blocklists)")
  | [], [], _ => (FaBlock, blocks, "blocked (RPZ CNAME ., answers NXDOMAIN)")
  end.

Section eval.
Context `{Platform}.

(** app/custom_rules.py:1043-1047 _regex_matches *)
Definition regex_matches (pattern qname : string) : bool :=
  default false (re_search_icase (deployed_pattern pattern) qname).

Definition regex_hit (t : rule_type) (qname : string) (row : stored_rule) : bool :=
  of_type t row && regex_matches (default "" (pr_pattern (sr_rule row))) qname.

(** The walk after the local zones. *)
Definition evaluate_rules (rows : list stored_rule) (rpz : rpz_result) (qname : string)
    : eval_result :=
  let result action matched response := mkEval qname action (summary <$> matched) None rpz response in
  match omap (domain_match qname) rows with
  | (_ :: _) as domain_matches =>
      let '(action, matched, response) := decide_rows (best_rows domain_matches) in
      result action matched response
  | [] =>
      match List.filter (regex_hit RtRegexAllow qname) rows,
            List.filter (regex_hit RtRegexBlock qname) rows with
      | hit :: _, _ =>
          if rp_blocked rpz then
            result FaBlock [hit]
              "the regex allow rule bypasses regex blocks, but the external blocklist RPZ entry still blocks this name"
          else
            result FaAllow [hit] "allowed (regex allow passes the query to BIND before regex blocks)"
      | [], hit :: _ =>
          result FaBlock [hit]
            "blocked at the dnsdist layer (NXDOMAIN, no RPZ SOA in the response)"
      | [], [] =>
          if rp_blocked rpz then
            result FaBlock []
              ("blocked by the compiled blocklist RPZ (" +:+ default "None" (rp_match rpz)
               +:+ " entry " +:+ default "None" (rp_entry rpz) +:+ ")")
          else result FaResolve [] "resolves normally through the upstream path"
      end
  end.

(** app/custom_rules.py:1050-1145 evaluate_domain ([inr] is the error result) *)
Definition evaluate_domain (ts : string) (db : rules_db) (local_zones : list string)
    (file : option string) (domain : string) : eval_result + string :=
  match normalize_domain domain with
  | None => inr "not a valid domain name"
  | Some qname =>
      let rpz := rpz_status file qname in
      match find_first (λ zone, String.eqb qname zone || under qname zone) local_zones with
      | Some zone =>
          inl (mkEval qname FaLocal [] (Some zone) rpz
                 ("answered from local authoritative zone " +:+ zone +:+ " (always wins)"))
      | None =>
          inl (evaluate_rules (List.filter row_active (rules (init_db ts db))) rpz qname)
      end
  end.
End eval.
