(* ===== verification/RuleWalk.v ===== *)
(** * The panel's verdict and the compiled zone

    The comparison of [evaluate_domain]'s walk over the rules with the answer of
    the zone compiled from the same rules: the parents of a name, the owner that
    answers, the rows with the best key, and the resolution of one name. *)

From S2P Require Import Prelude PyStr StrLemmas IpAddr DomainName RegexGuard RuleParser RuleStore RuleCompile RuleEval.

(** ** Parents of a name *)

Lemma split_on_app_sep c u p : split_on c (u +:+ String c p) = split_on c u ++ split_on c p.
Proof.
  induction u as [|d u IH].
  - rewrite app_nil_s. simpl. by rewrite Ascii.eqb_refl.
  - rewrite app_cons. simpl. destruct (Ascii.eqb c d); [by rewrite IH|].
    rewrite IH. destruct (split_on c u) as [|w ws] eqn:E; [by destruct (split_on_not_nil c u)|done].
Qed.

Lemma join_app sep l k :
  l ≠ [] → k ≠ [] → join sep (l ++ k) = join sep l +:+ sep +:+ join sep k.
Proof.
  induction l as [|w l IH]; [done|]. intros _ Hk. destruct l as [|w' l].
  - simpl app. by rewrite join_cons.
  - change ((w :: w' :: l) ++ k) with (w :: ((w' :: l) ++ k)).
    rewrite join_cons by (by destruct k). rewrite IH by done.
    rewrite (join_cons sep w (w' :: l)) by done. by rewrite !sapp_assoc.
Qed.

Lemma split_on_drop c s i :
  i < length (split_on c s) → split_on c (join (String c "") (drop i (split_on c s))) = drop i (split_on c s).
Proof.
  intros Hi. apply split_on_join.
  - intros E. apply (f_equal length) in E. rewrite length_drop in E. simpl in E. lia.
  - intros w Hw. apply (split_on_parts c s). rewrite <-(take_drop i (split_on c s)).
    apply elem_of_app. by right.
Qed.

Lemma labels_count_split s : labels_count s = length (split_on "." s).
Proof.
  unfold labels_count. induction s as [|d s IH]; [done|]. simpl.
  destruct (Ascii.eqb "." d); simpl; [lia|].
  destruct (split_on "." s) as [|w ws] eqn:E; [by destruct (split_on_not_nil "." s)|]. simpl in *. lia.
Qed.

Lemma parents_lookup q i p :
  parents q !! i = Some p ↔
  S i < length (split_on "." q) ∧ p = join "." (drop (S i) (split_on "." q)).
Proof.
  unfold parents. rewrite list_lookup_fmap. split.
  - destruct (seq 1 _ !! i) as [k|] eqn:E; [|done]. apply lookup_seq in E as [-> Hi].
    intros [= <-]. split; [lia|done].
  - intros [Hi ->]. rewrite (lookup_seq_lt 1 _ i) by lia. done.
Qed.

Lemma parents_labels q i p :
  parents q !! i = Some p → labels_count p = length (split_on "." q) - S i.
Proof.
  intros [Hi ->]%parents_lookup. rewrite labels_count_split.
  rewrite (split_on_drop "." q) by lia. by rewrite length_drop.
Qed.

Lemma under_spec q p : under q p = true ↔ ∃ u, q = u +:+ String "." p.
Proof. unfold under. rewrite ends_with_spec. by setoid_rewrite (app_cons "." "" p). Qed.

Lemma under_parents q p : under q p = true ↔ p ∈ parents q.
Proof.
  rewrite under_spec, list_elem_of_lookup. setoid_rewrite parents_lookup. split.
  - intros (u & ->). rewrite split_on_app_sep. exists (length (split_on "." u) - 1).
    pose proof (split_on_not_nil "." u) as Hu. pose proof (split_on_not_nil "." p) as Hp.
    rewrite length_app. destruct (split_on "." u) as [|w ws]; [done|].
    destruct (split_on "." p) as [|v vs] eqn:E; [done|]. simpl length.
    split; [lia|]. replace (S (S (length ws) - 1)) with (length (w :: ws)) by (simpl; lia).
    rewrite drop_app_length. rewrite <-E. symmetry. apply (join_split_on "." p).
  - intros (i & Hi & ->). exists (join "." (take (S i) (split_on "." q))).
    rewrite <-(app_nil_s (join "." (drop _ _))), <-app_cons, <-join_app.
    + rewrite take_drop. symmetry. apply (join_split_on "." q).
    + intros E. apply (f_equal length) in E. rewrite length_take in E. change (length []) with 0 in E. lia.
    + intros E. apply (f_equal length) in E. rewrite length_drop in E. simpl in E. lia.
Qed.

(** Two parents with as many labels are the same. *)
Lemma parents_same q p p' :
  p ∈ parents q → p' ∈ parents q → labels_count p = labels_count p' → p = p'.
Proof.
  intros [i Hi]%list_elem_of_lookup [j Hj]%list_elem_of_lookup E.
  rewrite (parents_labels _ _ _ Hi), (parents_labels _ _ _ Hj) in E.
  pose proof (proj1 (parents_lookup _ _ _) Hi). pose proof (proj1 (parents_lookup _ _ _) Hj).
  assert (i = j) as -> by lia. congruence.
Qed.

(** A parent with more labels lies under one with fewer. *)
Lemma parents_nested q p p' :
  p ∈ parents q → p' ∈ parents q → labels_count p < labels_count p' → under p' p = true.
Proof.
  intros [i Hi]%list_elem_of_lookup [j Hj]%list_elem_of_lookup Hlt.
  rewrite (parents_labels _ _ _ Hi), (parents_labels _ _ _ Hj) in Hlt.
  apply parents_lookup in Hi as [Hi ->], Hj as [Hj ->].
  apply under_parents, list_elem_of_lookup. exists (i - j - 1). apply parents_lookup.
  rewrite (split_on_drop "." q) by lia. rewrite length_drop, drop_drop. split; [lia|].
  do 2 f_equal. lia.
Qed.

(** ** The owner that answers *)

Section best.
Context (owners : gmap string (list string)) (q : string).

Lemma improve_exact l k o : fold_left (improve owners) l (Some (true, k, o)) = Some (true, k, o).
Proof.
  induction l as [|p l IH]; [done|]. simpl. unfold improve at 2.
  by destruct (owners !! wild p).
Qed.

Lemma improve_none l best :
  (∀ p, p ∈ l → owners !! wild p = None) → fold_left (improve owners) l best = best.
Proof.
  intros Hl. induction l as [|p l IH]; [done|]. simpl. unfold improve at 2.
  rewrite (Hl p) by left. apply IH. intros. apply Hl. by right.
Qed.

Lemma improve_smaller l k o :
  (∀ p, p ∈ l → labels_count p < k) →
  fold_left (improve owners) l (Some (false, k, o)) = Some (false, k, o).
Proof.
  intros Hl. induction l as [|p l IH]; [done|]. simpl. unfold improve at 2.
  destruct (owners !! wild p); [|apply IH; intros; apply Hl; by right].
  specialize (Hl p ltac:(left)) as Hp.
  replace (candidate_ltb _ _) with false; [apply IH; intros; apply Hl; by right|].
  simpl. destruct (Nat.ltb_spec k (labels_count p)), (Nat.eqb_spec k (labels_count p)); lia || done.
Qed.

Lemma rpz_best_exact l : owners !! q = Some l → rpz_best owners q = Some (true, labels_count q, q).
Proof. intros Hq. unfold rpz_best. rewrite Hq. apply improve_exact. Qed.

Lemma rpz_best_wild p l :
  owners !! q = None → p ∈ parents q → owners !! wild p = Some l →
  (∀ p', p' ∈ parents q → labels_count p < labels_count p' → owners !! wild p' = None) →
  rpz_best owners q = Some (false, labels_count p, wild p).
Proof.
  intros Hq Hp Hl Hmax. unfold rpz_best. rewrite Hq.
  apply list_elem_of_lookup in Hp as [i Hi].
  pose proof (take_drop_middle _ _ _ Hi) as E. rewrite <-E, fold_left_app. simpl.
  rewrite (improve_none (take i (parents q))).
  - unfold improve at 2. rewrite Hl. apply improve_smaller. intros p' Hp'.
    apply list_elem_of_lookup in Hp' as [j Hj]. rewrite lookup_drop in Hj.
    rewrite (parents_labels _ _ _ Hi), (parents_labels _ _ _ Hj).
    pose proof (proj1 (parents_lookup _ _ _) Hj). lia.
  - intros p' Hp'. apply list_elem_of_lookup in Hp' as [j Hj].
    assert (j < i) as Hji. { apply lookup_lt_Some in Hj. rewrite length_take in Hj. lia. }
    rewrite lookup_take_lt in Hj by done. apply Hmax; [by eapply list_elem_of_lookup_2|].
    rewrite (parents_labels _ _ _ Hi), (parents_labels _ _ _ Hj).
    pose proof (proj1 (parents_lookup _ _ _) Hi). lia.
Qed.

Lemma rpz_best_none :
  owners !! q = None → (∀ p, p ∈ parents q → owners !! wild p = None) → rpz_best owners q = None.
Proof. intros Hq Hp. unfold rpz_best. rewrite Hq. by apply improve_none. Qed.
End best.

(** ** The owners of a list of records *)

Lemma owners_of_snoc rs r : owners_of (rs ++ [r]) = add_owner (owners_of rs) r.
Proof. unfold owners_of. by rewrite fold_left_app. Qed.

Lemma owners_of_spec rs o :
  match owners_of rs !! o with
  | Some l => l ≠ [] ∧ ∀ y, y ∈ l ↔ (o, y) ∈ rs
  | None => ∀ y, (o, y) ∉ rs
  end.
Proof.
  induction rs as [|[o' d] rs IH] using rev_ind.
  { unfold owners_of. simpl. rewrite lookup_empty. by intros y ?%elem_of_nil. }
  rewrite owners_of_snoc. unfold add_owner. cbn [fst snd].
  destruct (decide (o' = o)) as [->|Ho].
  - rewrite lookup_insert_eq. split; [by destruct (owners_of rs !! o) as [[]|]|]. intros y.
    rewrite !elem_of_app, !list_elem_of_singleton.
    destruct (owners_of rs !! o) as [l|]; simpl.
    + destruct IH as [_ ->]. naive_solver.
    + rewrite elem_of_nil. naive_solver.
  - rewrite lookup_insert_ne by done. destruct (owners_of rs !! o) as [l|].
    + destruct IH as [? IH]. split; [done|]. intros y. rewrite IH, elem_of_app, list_elem_of_singleton.
      naive_solver.
    + intros y. rewrite elem_of_app, list_elem_of_singleton. naive_solver.
Qed.

(** ** The rows with the best key *)

(** A domain rule naming [d]. *)
Definition rule_at (r : stored_rule) (d : string) : Prop :=
  is_domain_rule (sr_rule r) = true ∧ pr_domain (sr_rule r) = Some d.

Lemma domain_match_spec q r m :
  domain_match q r = Some m ↔
  ∃ d, rule_at r d ∧ d ≠ "" ∧
    ((q = d ∧ m = (true, labels_count d, r))
     ∨ (q ≠ d ∧ row_subdomains r = true ∧ under q d = true ∧ m = (false, labels_count d, r))).
Proof.
  unfold domain_match, rule_at, row_subdomains.
  destruct (pr_domain (sr_rule r)) as [d|]; [|naive_solver].
  destruct (is_domain_rule (sr_rule r)); simpl; [|naive_solver].
  destruct (String.eqb_spec d "") as [->|Hd]; simpl; [naive_solver|].
  destruct (String.eqb_spec q d) as [->|Hq]; simpl; [naive_solver|].
  destruct (pr_subdomains (sr_rule r) && under q d) eqn:E.
  - apply andb_true_iff in E. naive_solver.
  - split; [done|]. intros (d' & [_ [= <-]] & _ & [[? _]|(_ & Hs & Hu & _)]); [done|].
    by rewrite Hs, Hu in E.
Qed.

Lemma key_max_cases a b : key_max a b = a ∨ key_max a b = b.
Proof. unfold key_max. case_match; auto. Qed.

Lemma key_ltb_same e x y : key_ltb (e, x) (e, y) = (x <? y).
Proof. unfold key_ltb. cbn [fst snd]. rewrite bool_decide_true by done. by destruct e. Qed.

Lemma key_ltb_irrefl x : key_ltb x x = false.
Proof. destruct x as [e n]. rewrite key_ltb_same. apply Nat.ltb_irrefl. Qed.

Lemma key_ltb_trans a b c : key_ltb b a = false → key_ltb c b = false → key_ltb c a = false.
Proof.
  destruct a as [[] x], b as [[] y], c as [[] z]; rewrite ?key_ltb_same, ?Nat.ltb_ge; try done; lia.
Qed.

Lemma key_max_ge a b : key_ltb (key_max a b) a = false ∧ key_ltb (key_max a b) b = false.
Proof.
  pose proof key_ltb_irrefl. unfold key_max. destruct (key_ltb a b) eqn:E; split; auto.
  destruct a as [[] x], b as [[] y]; rewrite ?key_ltb_same in *; try done.
  all: apply Nat.ltb_lt in E; apply Nat.ltb_ge; lia.
Qed.

Lemma fold_key_max (l : list (bool * nat * stored_rule)) k :
  let k' := fold_left (λ k m, key_max k m.1) l k in
  (k' = k ∨ ∃ m, m ∈ l ∧ k' = m.1) ∧ key_ltb k' k = false ∧ ∀ m, m ∈ l → key_ltb k' m.1 = false.
Proof.
  revert k. induction l as [|m l IH]; intros k; simpl.
  { split; [by left|]. split; [apply key_ltb_irrefl|by intros m ?%elem_of_nil]. }
  destruct (IH (key_max k m.1)) as (H1 & H2 & H3).
  destruct (key_max_ge k m.1) as [G1 G2]. split; [|split].
  - destruct H1 as [->|(m' & Hm & ->)].
    + destruct (key_max_cases k m.1) as [->| ->]; [by left|right]. exists m. split; [left|done].
    + right. exists m'. split; [by right|done].
  - by eapply key_ltb_trans.
  - intros m' [->|Hm]%elem_of_cons; [by eapply key_ltb_trans|auto].
Qed.

(** The rows kept are those whose key no match exceeds. *)
Lemma best_rows_spec ms r k :
  (k, r) ∈ ms → (∀ m, m ∈ ms → key_ltb k m.1 = false) →
  ∀ r', r' ∈ best_rows ms ↔ (k, r') ∈ ms.
Proof.
  intros Hk Hmax r'. destruct ms as [|m ms]; [by apply elem_of_nil in Hk|].
  unfold best_rows. destruct (fold_key_max ms m.1) as (H1 & H2 & H3). set (k' := fold_left _ ms m.1) in *.
  assert (Hk' : ∃ r0, (k', r0) ∈ m :: ms).
  { destruct H1 as [->|(m' & Hm & ->)].
    - exists m.2. rewrite <-surjective_pairing. left.
    - exists m'.2. rewrite <-surjective_pairing. by right. }
  assert (Hge : ∀ x, x ∈ m :: ms → key_ltb k' x.1 = false).
  { intros x [->|Hx]%elem_of_cons; auto. }
  assert (k' = k) as ->.
  { destruct Hk' as [r0 Hr0]. specialize (Hmax _ Hr0). specialize (Hge _ Hk). simpl in *.
    destruct k as [[] x], k' as [[] y]; rewrite ?key_ltb_same in *; try done;
      apply Nat.ltb_ge in Hmax, Hge; f_equal; lia. }
  rewrite list_elem_of_omap. split.
  - intros ([k0 r0] & Hx & Hd). simpl in Hd. case_decide; by simplify_eq.
  - intros Hx. exists (k, r'). split; [done|]. simpl. by rewrite decide_True.
Qed.

(** An exact rule exists: the rows naming the queried domain decide. *)
Lemma best_rows_exact q rows r0 :
  q ≠ "" → r0 ∈ rows → rule_at r0 q →
  ∀ r, r ∈ best_rows (omap (domain_match q) rows) ↔ r ∈ rows ∧ rule_at r q.
Proof.
  intros Hq Hr0 Hat r.
  rewrite (best_rows_spec _ r0 (true, labels_count q)).
  - rewrite list_elem_of_omap. setoid_rewrite domain_match_spec. split.
    + intros (x & Hx & d & Hd & _ & [[-> ?]|(? & ? & ? & ?)]); by simplify_eq.
    + intros [Hr Hrq]. exists r. split; [done|]. exists q. auto.
  - apply list_elem_of_omap. exists r0. split; [done|]. apply domain_match_spec. exists q. auto.
  - intros m (x & Hx & Hm)%list_elem_of_omap.
    apply domain_match_spec in Hm as (d & Hd & _ & [[<- ->]|(_ & _ & _ & ->)]); [|done].
    apply key_ltb_irrefl.
Qed.

(** No exact rule: the longest parent with a subdomain rule decides. *)
Lemma best_rows_wild q p rows r0 :
  p ≠ "" → (∀ r, r ∈ rows → ¬ rule_at r q) → p ∈ parents q →
  r0 ∈ rows → rule_at r0 p → row_subdomains r0 = true →
  (∀ p' r, p' ∈ parents q → labels_count p < labels_count p' → r ∈ rows → rule_at r p' →
     row_subdomains r = false) →
  ∀ r, r ∈ best_rows (omap (domain_match q) rows) ↔
       r ∈ rows ∧ rule_at r p ∧ row_subdomains r = true.
Proof.
  intros Hp Hno Hpar Hr0 Hat Hsub Hmax r.
  assert (Hqp : ∀ r, r ∈ rows → rule_at r p → q ≠ p) by (intros x Hx Hxp ->; by apply (Hno x)).
  rewrite (best_rows_spec _ r0 (false, labels_count p)).
  - rewrite list_elem_of_omap. setoid_rewrite domain_match_spec. split.
    + intros (x & Hx & d & Hd & _ & [[-> ?]|(Hqd & Hs & Hu & [= Hl ->])]); [done|].
      apply under_parents in Hu. by rewrite (parents_same q p d).
    + intros (Hr & Hrp & Hs). exists r. split; [done|]. exists p. split; [done|].
      split; [done|]. right. split; [by eapply Hqp|]. by rewrite under_parents.
  - apply list_elem_of_omap. exists r0. split; [done|]. apply domain_match_spec. exists p.
    split; [done|]. split; [done|]. right. split; [by eapply Hqp|]. by rewrite under_parents.
  - intros m (x & Hx & Hm)%list_elem_of_omap.
    apply domain_match_spec in Hm as (d & Hd & _ & [[<- ->]|(_ & Hs & Hu & ->)]); [by destruct (Hno x)|].
    apply under_parents in Hu. cbn [fst]. rewrite key_ltb_same.
    apply Nat.ltb_ge. destruct (Nat.lt_ge_cases (labels_count p) (labels_count d)) as [Hlt|]; [|done].
    rewrite (Hmax d x) in Hs; done.
Qed.

(** Nothing matches. *)
Lemma no_match q rows :
  (∀ r, r ∈ rows → ¬ rule_at r q) →
  (∀ p r, p ∈ parents q → r ∈ rows → rule_at r p → row_subdomains r = false) →
  omap (domain_match q) rows = [].
Proof.
  intros Hno Hpar. destruct (omap _ rows) as [|m ms] eqn:E; [done|].
  assert (Hm : m ∈ omap (domain_match q) rows) by (rewrite E; left).
  apply list_elem_of_omap in Hm as (r & Hr & Hm).
  apply domain_match_spec in Hm as (d & Hd & _ & [[<- _]|(_ & Hs & Hu & _)]); [by destruct (Hno r)|].
  apply under_parents in Hu. by rewrite (Hpar d r) in Hs.
Qed.

(** The longest parent satisfying a decidable test. *)
Lemma longest_parent q (P : string → bool) :
  (∀ p, p ∈ parents q → P p = false)
  ∨ ∃ p, p ∈ parents q ∧ P p = true ∧
      ∀ p', p' ∈ parents q → labels_count p < labels_count p' → P p' = false.
Proof.
  destruct (list_find (λ p, P p = true) (parents q)) as [[i p]|] eqn:E.
  - right. apply list_find_Some in E as (Hi & HP & Hbefore). exists p.
    split; [by eapply list_elem_of_lookup_2|]. split; [done|].
    intros p' [j Hj]%list_elem_of_lookup Hl.
    rewrite (parents_labels _ _ _ Hi), (parents_labels _ _ _ Hj) in Hl.
    apply not_true_is_false. apply (Hbefore j p' Hj).
    pose proof (proj1 (parents_lookup _ _ _) Hj). lia.
  - left. intros p Hp. apply list_find_None in E.
    apply not_true_is_false. by apply (proj1 (Forall_forall _ _) E).
Qed.

(** ** Priorities *)

Definition maxp (l : list stored_rule) : Z := fold_left (λ p r, Z.max p (row_priority r)) l 0%Z.

Lemma fold_max_le l a b :
  (fold_left (λ p r, Z.max p (row_priority r)) l a ≤ b ↔ a ≤ b ∧ ∀ r, r ∈ l → row_priority r ≤ b)%Z.
Proof.
  revert a. induction l as [|r l IH]; intros a; simpl.
  - setoid_rewrite elem_of_nil. naive_solver.
  - rewrite IH. setoid_rewrite elem_of_cons. split.
    + intros [H1 H2]. split; [lia|]. intros x [->|Hx]; [lia|auto].
    + intros [H1 H2]. pose proof (H2 r). split; [|auto]. assert (row_priority r ≤ b)%Z by auto. lia.
Qed.

Lemma maxp_le l b : (maxp l ≤ b ↔ 0 ≤ b ∧ ∀ r, r ∈ l → row_priority r ≤ b)%Z.
Proof. apply fold_max_le. Qed.

Lemma maxp_nonneg l : (0 ≤ maxp l)%Z.
Proof. by apply (maxp_le l (maxp l)). Qed.

Lemma maxp_ge l r : r ∈ l → (row_priority r ≤ maxp l)%Z.
Proof. intros Hr. by apply (proj1 (maxp_le l (maxp l))). Qed.

(** Two lists that agree on the rows of positive priority. *)
Lemma maxp_eq l l' :
  (∀ r, r ∈ l → r ∈ l' ∨ (row_priority r ≤ 0)%Z) → (∀ r, r ∈ l' → r ∈ l ∨ (row_priority r ≤ 0)%Z) →
  maxp l = maxp l'.
Proof.
  assert (Hone : ∀ l l', (∀ r, r ∈ l → r ∈ l' ∨ (row_priority r ≤ 0)%Z) → (maxp l ≤ maxp l')%Z).
  { intros k k' Hk. apply maxp_le. split; [apply maxp_nonneg|]. intros r [Hr|Hr]%Hk.
    - by apply maxp_ge.
    - pose proof (maxp_nonneg k'). lia. }
  intros H1 H2. apply Z.le_antisymm; auto.
Qed.

Lemma max_priority_maxp l :
  (∀ r, r ∈ l → 0 ≤ row_priority r)%Z → max_priority l = maxp l.
Proof.
  destruct l as [|r l]; [done|]. intros Hl. unfold max_priority, maxp. simpl.
  rewrite Z.max_r by (apply (Hl r); left). done.
Qed.

(** ** The decision as a function of what the best rows contain *)

Definition has_type (t : rule_type) (l : list stored_rule) : bool := existsb (of_type t) l.

Lemma decide_rows_action best :
  (decide_rows best).1.1 =
  if has_type RtRewrite best then FaRewrite
  else if has_type RtAllow best then
    if has_type RtBlock best && (max_priority (List.filter (of_type RtAllow) best)
                                 <? max_priority (List.filter (of_type RtBlock) best))%Z
    then FaBlock else FaAllow
  else FaBlock.
Proof.
  assert (Hex : ∀ t, has_type t best = match List.filter (of_type t) best with [] => false | _ => true end).
  { intros t. unfold has_type. induction best as [|r l IH]; simpl; [done|].
    destruct (of_type t r); [done|]. apply IH. }
  rewrite !Hex. unfold decide_rows.
  destruct (List.filter (of_type RtRewrite) best); [|done].
  destruct (List.filter (of_type RtAllow) best); [done|].
  destruct (List.filter (of_type RtBlock) best); [done|]. by case_match.
Qed.

Lemma has_type_spec t l : has_type t l = true ↔ ∃ r, r ∈ l ∧ pr_type (sr_rule r) = t.
Proof.
  unfold has_type, of_type. rewrite existsb_true. by setoid_rewrite bool_decide_eq_true.
Qed.

(** ** The entries of one name after conflict resolution *)

(** The entry takes the name itself. *)
Definition takes_name (e : option name_entry) : Prop :=
  ∃ x, e = Some x ∧ (ne_exact x = true ∨ ne_subdomains x = true).
(** The entry takes the wildcard. *)
Definition takes_wild (e : option name_entry) : Prop :=
  ∃ x, e = Some x ∧ ne_subdomains x = true.

Definition some_sub (l : list stored_rule) : bool := existsb row_subdomains l.

Lemma entry0_nonempty r l : ne_exact (entry0 (r :: l)) || ne_subdomains (entry0 (r :: l)) = true.
Proof.
  unfold entry0. simpl. destruct (row_subdomains r); simpl; [by rewrite orb_true_r|done].
Qed.

Lemma entry0_priority l : ne_priority (entry0 l) = maxp l.
Proof. done. Qed.
Lemma entry0_subdomains l : ne_subdomains (entry0 l) = some_sub l.
Proof. done. Qed.
#[local] Arguments entry0 : simpl never.
#[local] Arguments maxp : simpl never.
#[local] Arguments some_sub : simpl never.

(** The entries left of the rows [rr], [aa] and [bb] of one name. *)
Definition final_allow (rr aa bb : list stored_rule) : option name_entry :=
  resolved_allow (rewrite_of rr) (resolved_block (rewrite_of rr) (entry_of aa) (entry_of bb)).1.
Definition final_block (rr aa bb : list stored_rule) : option name_entry :=
  (resolved_block (rewrite_of rr) (entry_of aa) (entry_of bb)).2.

(** The block outranks the allow. *)
Definition outranks (aa bb : list stored_rule) : bool :=
  match bb with [] => false | _ => (maxp aa <? maxp bb)%Z end.

Ltac cbn_entries :=
  cbn [resolved_block entry_of block_under_rewrite rewrite_of resolved_allow fst snd].

(** At the name itself, without a rewrite. *)
Lemma final_at_name aa bb :
  (aa ≠ [] → outranks aa bb = false → takes_name (final_allow [] aa bb))
  ∧ ((aa = [] ∨ outranks aa bb = true) → ¬ takes_name (final_allow [] aa bb))
  ∧ (bb ≠ [] → aa = [] ∨ outranks aa bb = true → takes_name (final_block [] aa bb)).
Proof.
  assert (Hb : ∀ b bb, takes_name (if entry_empty (entry0 (b :: bb)) then None else Some (entry0 (b :: bb)))).
  { intros b l. pose proof (entry0_nonempty b l) as Hb. unfold takes_name, entry_empty.
    destruct (entry0 (b :: l)) as [ex sub p]. simpl in *. destruct ex, sub; simpl; try done; eauto. }
  assert (Ha : ∀ a aa, takes_name (Some (entry0 (a :: aa)))).
  { intros a l. eexists. split; [done|]. by apply orb_true_iff, entry0_nonempty. }
  assert (Hn : ¬ takes_name None) by (by intros (x & ? & _)).
  unfold final_allow, final_block, outranks.
  destruct aa as [|a aa], bb as [|b bb]; cbn_entries; rewrite ?entry0_priority.
  4: destruct (maxp (a :: aa) <? maxp (b :: bb))%Z; cbn_entries.
  all: repeat split; try done; try (by intros [?|?]); try (by intros _ [?|?]).
Qed.

(** At the wildcard, when no rewrite takes it. *)
Lemma final_at_wild rr aa bb :
  some_sub rr = false →
  (takes_wild (final_allow rr aa bb) ↔ some_sub aa = true ∧ outranks aa bb = false)
  ∧ (some_sub bb = true → (outranks aa bb = true ∨ some_sub aa = false) →
     takes_wild (final_block rr aa bb)).
Proof.
  intros Hrr. unfold final_allow, final_block, outranks.
  assert (Hrw : rewrite_of rr = None ∨ ∃ e, rewrite_of rr = Some e ∧ rw_subdomains e = false).
  { destruct rr as [|r rr]; [by left|right]. eexists. split; [done|]. exact Hrr. }
  assert (Hra : ∀ al, takes_wild (resolved_allow (rewrite_of rr) al) ↔ takes_wild al).
  { intros [al|]; [|by destruct Hrw as [->|(e & -> & He)]].
    unfold takes_wild, resolved_allow. destruct Hrw as [->|(e & -> & He)]; [done|]. rewrite He.
    destruct al as [ex sub p]; simpl. destruct sub; naive_solver. }
  rewrite Hra. clear Hra.
  assert (Hblk : ∀ e, ne_subdomains (block_under_rewrite (rewrite_of rr) e) = ne_subdomains e
                      ∧ ne_priority (block_under_rewrite (rewrite_of rr) e) = ne_priority e).
  { intros e. unfold block_under_rewrite. destruct Hrw as [->|(x & -> & Hx)]; [done|]. rewrite Hx.
    by destruct e. }
  assert (Hsome : ∀ e, ne_subdomains e = true → takes_wild (if entry_empty e then None else Some e)).
  { intros e He. unfold entry_empty. rewrite He, andb_false_r. by exists e. }
  assert (Hallow : ∀ a aa, takes_wild (Some (entry0 (a :: aa))) ↔ some_sub (a :: aa) = true).
  { intros a l. unfold takes_wild. setoid_rewrite <-entry0_subdomains. naive_solver. }
  assert (Hn : takes_wild None ↔ False) by (unfold takes_wild; naive_solver).
  destruct bb as [|b bb]; cbn_entries.
  { split; [|done]. destruct aa as [|a aa]; cbn_entries; rewrite ?Hallow, ?Hn; [|naive_solver].
    unfold some_sub. naive_solver. }
  destruct (Hblk (entry0 (b :: bb))) as [Hs Hp].
  set (blk := block_under_rewrite _ (entry0 (b :: bb))) in *. rewrite entry0_subdomains in Hs.
  rewrite entry0_priority in Hp.
  destruct aa as [|a aa]; cbn_entries.
  { rewrite Hn. split; [unfold some_sub; naive_solver|]. intros Hb _. apply Hsome. by rewrite Hs. }
  rewrite Hp, entry0_priority. destruct (maxp (a :: aa) <? maxp (b :: bb))%Z; cbn_entries.
  - rewrite Hn. split; [naive_solver|]. intros Hb _. apply Hsome. by rewrite Hs.
  - rewrite Hallow. split; [naive_solver|]. intros Hb [?|Ha]; [done|]. apply Hsome.
    unfold block_under_allow. rewrite entry0_subdomains, Ha, <-Hs in *. by destruct blk.
Qed.

Lemma final_block_nonempty rr aa bb x : final_block rr aa bb = Some x → bb ≠ [].
Proof. by intros H ->. Qed.

Lemma final_allow_nonempty rr aa bb x : final_allow rr aa bb = Some x → aa ≠ [].
Proof.
  intros H ->. unfold final_allow in H. destruct bb as [|b bb]; simpl in H;
    by destruct rr.
Qed.

Lemma block_under_rewrite_sub rw e :
  ne_subdomains (block_under_rewrite rw e) = true → ne_subdomains e = true.
Proof. destruct rw as [rw|]; [|done]. unfold block_under_rewrite. destruct (rw_subdomains rw), e; done. Qed.

Lemma block_under_allow_sub al e :
  ne_subdomains (block_under_allow al e) = true → ne_subdomains e = true.
Proof. unfold block_under_allow. destruct (ne_subdomains al), e; done. Qed.

(** A wildcard comes from a subdomain rule. *)
Lemma final_block_wild rr aa bb : takes_wild (final_block rr aa bb) → some_sub bb = true.
Proof.
  intros (x & Hx & Hs). unfold final_block in Hx. destruct bb as [|b bb]; [done|].
  rewrite <-entry0_subdomains.
  assert (∀ e, (if entry_empty e then None else Some e) = Some x → ne_subdomains e = true) as He.
  { intros e. by case_match; intros; simplify_eq. }
  destruct aa as [|a aa]; cbn [resolved_block entry_of] in Hx.
  - by apply He, block_under_rewrite_sub in Hx.
  - destruct (_ <? _)%Z; apply He in Hx; [by apply block_under_rewrite_sub in Hx|].
    by apply block_under_allow_sub, block_under_rewrite_sub in Hx.
Qed.

Lemma final_allow_wild rr aa bb : takes_wild (final_allow rr aa bb) → some_sub aa = true.
Proof.
  intros (x & Hx & Hs). pose proof (final_allow_nonempty _ _ _ _ Hx) as Hne.
  destruct aa as [|a aa]; [done|]. rewrite <-entry0_subdomains. unfold final_allow in Hx.
  assert (Hr : ∀ al, resolved_allow (rewrite_of rr) al = Some x →
    ∃ e, al = Some e ∧ ne_subdomains e = true).
  { intros [al|]; [|by destruct (rewrite_of rr)]. intros Hal. exists al. split; [done|].
    unfold resolved_allow in Hal. destruct (rewrite_of rr); [|by simplify_eq].
    destruct (rw_subdomains _); [done|]. by destruct (ne_subdomains al). }
  apply Hr in Hx as (e & He & Hsub). destruct bb as [|b bb]; cbn [resolved_block entry_of fst] in He;
    [by simplify_eq|]. destruct (_ <? _)%Z; cbn [fst] in He; by simplify_eq.
Qed.

(** ** Rows of a name in a well-formed table *)

Section walk.
Context `{Platform} (ts : string) (db : rules_db) (Hdb : db_ok db).

Definition active_rows : list stored_rule := List.filter row_active (rules (init_db ts db)).
Definition sorted_rows : list stored_rule := merge_sort priority_order active_rows.

Lemma elem_of_sorted_rows r : r ∈ sorted_rows ↔ r ∈ active_rows.
Proof. unfold sorted_rows. by rewrite merge_sort_Permutation. Qed.

Lemma active_rows_valid r : r ∈ active_rows → pr_state (sr_rule r) = Valid ∧ rule_ok (sr_rule r).
Proof using Hdb.
  unfold active_rows. intros [Hr Ha]%elem_of_filterb. unfold row_active in Ha. bool_to_prop.
  split; [by eapply bool_decide_eq_true|]. eapply ok_rules; [by apply init_db_ok|done].
Qed.

Lemma domain_rule_type r d :
  rule_at r d → pr_type (sr_rule r) = RtRewrite ∨ pr_type (sr_rule r) = RtAllow
                ∨ pr_type (sr_rule r) = RtBlock.
Proof. intros [Ht _]. by apply bool_decide_eq_true in Ht. Qed.

Lemma row_has_domain r :
  r ∈ active_rows → is_domain_rule (sr_rule r) = true →
  rule_at r (row_domain r) ∧ valid_domain (row_domain r) = true.
Proof using Hdb.
  intros Hr Ht. destruct (active_rows_valid r Hr) as [Hs Hok]. unfold rule_ok in Hok. rewrite Hs in Hok.
  assert (has_domain (sr_rule r)) as (d & Hd & Hv).
  { apply bool_decide_eq_true in Ht as [Ht|[Ht|Ht]]; rewrite Ht in Hok; naive_solver. }
  unfold rule_at, row_domain. rewrite Hd. simpl. auto.
Qed.

Lemma rule_at_domain r d : rule_at r d → row_domain r = d.
Proof. intros [_ Hd]. unfold row_domain. by rewrite Hd. Qed.

Lemma rule_at_valid r d : r ∈ active_rows → rule_at r d → valid_domain d = true.
Proof using Hdb.
  intros Hr Hat. rewrite <-(rule_at_domain _ _ Hat). apply row_has_domain; [done|]. apply Hat.
Qed.

Definition rows_at (t : rule_type) (n : string) : list stored_rule := rows_for t n sorted_rows.

Lemma elem_of_rows_at t n r :
  t = RtRewrite ∨ t = RtAllow ∨ t = RtBlock →
  r ∈ rows_at t n ↔ r ∈ active_rows ∧ pr_type (sr_rule r) = t ∧ rule_at r n.
Proof using Hdb.
  intros Ht. unfold rows_at. rewrite elem_of_rows_for, elem_of_sorted_rows. split.
  - intros (Hr & Htr & <-). split; [done|]. split; [done|]. apply row_has_domain; [done|].
    apply bool_decide_eq_true. rewrite Htr. naive_solver.
  - intros (Hr & Htr & Hat). split; [done|]. split; [done|]. by apply rule_at_domain.
Qed.

Lemma active_view n :
  view (collect_active ts db) n =
  (rewrite_of (rows_at RtRewrite n),
   final_allow (rows_at RtRewrite n) (rows_at RtAllow n) (rows_at RtBlock n),
   final_block (rows_at RtRewrite n) (rows_at RtAllow n) (rows_at RtBlock n)).
Proof.
  unfold collect_active. cbv zeta. fold active_rows sorted_rows. rewrite resolve_conflicts_view.
  pose proof (collect_view sorted_rows n) as Hc. unfold view in Hc. injection Hc as -> -> ->.
  unfold final_allow, final_block, rows_at. by destruct (resolved_block _ _ _).
Qed.
End walk.

(** ** Owners of the compiled zone *)

Lemma valid_not_wild n m : valid_domain n = true → n ≠ wild m.
Proof. by intros (c & s & -> & Hc)%valid_domain_head [= -> _]. Qed.

Lemma rpz_name_valid d : valid_domain d = true → rpz_name d = d.
Proof. intros Hd. apply rstrip_id. apply valid_domain_last_not; [char_decide|done]. Qed.

Lemma zone_records_spec ext a x y :
  (∀ d, d ∈ ext → valid_domain d = true) →
  (x, y) ∈ zone_records ext (Some a) ↔
  (x, y) ∈ (rpz_records a).1
  ∨ x ∉ (rpz_records a).2 ∧ y = nxdomain ∧ ∃ d, d ∈ ext ∧ (x = d ∨ x = wild d).
Proof.
  intros Hext. unfold zone_records. destruct (rpz_records a) as [lines occ]. cbn [fst snd].
  rewrite elem_of_app, list_elem_of_join.
  assert (Hrec : ∀ d, d ∈ ext → (x, y) ∈ external_records occ d ↔
    x ∉ occ ∧ y = nxdomain ∧ (x = d ∨ x = wild d)).
  { intros d Hd. unfold external_records. rewrite rpz_name_valid by auto.
    rewrite elem_of_app. repeat case_decide; rewrite ?elem_of_nil, ?list_elem_of_singleton;
      split; naive_solver. }
  setoid_rewrite list_elem_of_fmap. setoid_rewrite elem_of_sorted_set. split.
  - intros [?|(l & Hl & d & -> & Hd)]; [auto|]. apply Hrec in Hl; naive_solver.
  - intros [?|(Hx & Hy & d & Hd & Ho)]; [auto|]. right. exists (external_records occ d).
    split; [apply Hrec; auto|eauto].
Qed.

(** The data the zone answers with. *)
Definition zone_answer (owners : gmap string (list string)) (q : string) : option (list string) :=
  match rpz_best owners q with Some (_, _, o) => owners !! o | None => None end.

Definition answers (P : string → Prop) (a : option (list string)) : Prop :=
  ∃ l, a = Some l ∧ l ≠ [] ∧ ∀ y, y ∈ l → P y.

Lemma owners_some rs o : (∃ y, (o, y) ∈ rs) → ∃ l, owners_of rs !! o = Some l ∧ l ≠ [] ∧ ∀ y, y ∈ l ↔ (o, y) ∈ rs.
Proof.
  intros [y Hy]. pose proof (owners_of_spec rs o) as Ho. destruct (owners_of rs !! o); [eauto|].
  by destruct (Ho y).
Qed.

Lemma owners_none rs o : (∀ y, (o, y) ∉ rs) → owners_of rs !! o = None.
Proof.
  intros Hn. pose proof (owners_of_spec rs o) as Ho. destruct (owners_of rs !! o) as [l|]; [|done].
  destruct Ho as [Hl Ho]. destruct l as [|y l]; [done|]. destruct (Hn y). apply Ho. left.
Qed.

Lemma answer_exact rs q (P : string → Prop) :
  (∃ y, (q, y) ∈ rs) → (∀ y, (q, y) ∈ rs → P y) → answers P (zone_answer (owners_of rs) q).
Proof.
  intros Hy HP. destruct (owners_some rs q Hy) as (l & Hl & Hne & Hin).
  unfold zone_answer. rewrite (rpz_best_exact _ _ _ Hl). exists l. naive_solver.
Qed.

Lemma answer_wild rs q p (P : string → Prop) :
  (∀ y, (q, y) ∉ rs) → p ∈ parents q → (∃ y, (wild p, y) ∈ rs) →
  (∀ p' y, p' ∈ parents q → labels_count p < labels_count p' → (wild p', y) ∉ rs) →
  (∀ y, (wild p, y) ∈ rs → P y) → answers P (zone_answer (owners_of rs) q).
Proof.
  intros Hq Hp Hy Hmax HP. destruct (owners_some rs (wild p) Hy) as (l & Hl & Hne & Hin).
  unfold zone_answer. rewrite (rpz_best_wild _ _ p l); [exists l; naive_solver|..]; auto.
  - by apply owners_none.
  - intros p' Hp' Hlt. apply owners_none. intros y. by apply Hmax.
Qed.

Lemma answer_none rs q :
  (∀ y, (q, y) ∉ rs) → (∀ p y, p ∈ parents q → (wild p, y) ∉ rs) → zone_answer (owners_of rs) q = None.
Proof.
  intros Hq Hp. unfold zone_answer. rewrite rpz_best_none; [done|by apply owners_none|].
  intros p Hpp. apply owners_none. intros y. by apply Hp.
Qed.

(** A wildcard of [p0] is present and every record at least as specific
    satisfies the property: the answer does. *)
Lemma answer_from rs q p0 (P : string → Prop) :
  (∀ y, (q, y) ∈ rs → P y) → p0 ∈ parents q → (∃ y, (wild p0, y) ∈ rs) →
  (∀ p y, p ∈ parents q → labels_count p0 ≤ labels_count p → (wild p, y) ∈ rs → P y) →
  answers P (zone_answer (owners_of rs) q).
Proof.
  intros Hq Hp0 [y0 Hy0] Hp. pose proof (owners_of_spec rs q) as Ho.
  destruct (owners_of rs !! q) as [l|] eqn:E.
  { destruct Ho as [Hne Ho]. apply answer_exact; [|done]. destruct l as [|y l]; [done|].
    exists y. apply Ho. left. }
  destruct (longest_parent q (λ p, bool_decide (is_Some (owners_of rs !! wild p))))
    as [Hnone|(p & Hpp & HP & Hmax)].
  { specialize (Hnone _ Hp0). apply bool_decide_eq_false in Hnone.
    destruct (owners_some rs (wild p0)) as (l & Hl & _); [eauto|]. by destruct Hnone. }
  assert (Hsome : ∀ p' y, p' ∈ parents q → (wild p', y) ∈ rs → labels_count p' ≤ labels_count p).
  { intros p' y Hp' Hy. destruct (Nat.le_gt_cases (labels_count p') (labels_count p)) as [|Hlt]; [done|].
    specialize (Hmax p' Hp' Hlt). apply bool_decide_eq_false in Hmax.
    destruct (owners_some rs (wild p')) as (l' & Hl' & _); [eauto|]. by destruct Hmax. }
  apply bool_decide_eq_true in HP as [l Hl]. pose proof (owners_of_spec rs (wild p)) as Hw.
  rewrite Hl in Hw. destruct Hw as [Hne Hw]. apply (answer_wild rs q p); auto.
  - destruct l as [|y l]; [done|]. exists y. apply Hw. left.
  - intros p' y Hp' Hlt Hy. specialize (Hsome p' y Hp' Hy). lia.
  - intros y. apply Hp; [done|]. by eapply Hsome.
Qed.

(** Data of an address record. *)
Definition is_address (y : string) : Prop :=
  ∃ a, y = "A " +:+ a ∨ y = "AAAA " +:+ a.

Lemma rewrite_data_address e y : rewrite_data e y → is_address y.
Proof.
  unfold rewrite_data, address_data, is_address.
  intros [H|H]; repeat case_match; simplify_eq; eexists; [left|right]; done.
Qed.

(** Any rewrite row gives its name an address. *)
Lemma fold_first_of_some (f : stored_rule → bool) l o :
  is_Some o → is_Some (fold_left (λ o r, if f r then first_of o (pr_address (sr_rule r)) else o) l o).
Proof. revert o. induction l as [|r l IH]; intros o [x ->]; [eauto|]. simpl. destruct (f r); eauto. Qed.

Lemma fold_first_of_mem (f : stored_rule → bool) l o r :
  r ∈ l → f r = true → (∀ r, r ∈ l → pr_address (sr_rule r) ≠ None) →
  is_Some (fold_left (λ o r, if f r then first_of o (pr_address (sr_rule r)) else o) l o).
Proof.
  revert o. induction l as [|x l IH]; intros o Hr Hf Hl; [by apply elem_of_nil in Hr|]. simpl.
  apply elem_of_cons in Hr as [->|Hr].
  - rewrite Hf. apply fold_first_of_some. specialize (Hl x ltac:(left)).
    destruct o; [eauto|]. destruct (pr_address _); [eauto|done].
  - apply IH; [done|done|]. intros. apply Hl. by right.
Qed.

Lemma fold_first_of_in (f : stored_rule → bool) l o a :
  fold_left (λ o r, if f r then first_of o (pr_address (sr_rule r)) else o) l o = Some a →
  o = Some a ∨ ∃ r, r ∈ l ∧ pr_address (sr_rule r) = Some a.
Proof.
  revert o. induction l as [|x l IH]; intros o; simpl; [auto|].
  intros [H|(r & Hr & Ha)]%IH; [|right; exists r; split; [by right|done]].
  destruct (f x); [|auto]. destruct o; [auto|]. simpl in H. right. exists x. split; [left|done].
Qed.

Section zone.
Context `{Platform} (ts : string) (db : rules_db) (Hdb : db_ok db).

Lemma rewrite_row_address r :
  r ∈ active_rows ts db → pr_type (sr_rule r) = RtRewrite →
  ∃ a, pr_address (sr_rule r) = Some (str_ip a).
Proof using Hdb.
  intros Hr Ht. destruct (active_rows_valid ts db Hdb r Hr) as [Hs Hok].
  unfold rule_ok in Hok. rewrite Hs, Ht in Hok. naive_solver.
Qed.

Lemma rewrite_has_data n e :
  rewrite_of (rows_at ts db RtRewrite n) = Some e → ∃ y, rewrite_data e y.
Proof using Hdb.
  set (l := rows_at ts db RtRewrite n). intros He.
  assert (Haddr : ∀ r, r ∈ l → ∃ a, pr_address (sr_rule r) = Some (str_ip a)).
  { intros r Hr. apply (elem_of_rows_at ts db Hdb) in Hr as (Hr & Ht & _); [|auto].
    by apply rewrite_row_address. }
  assert (Hsome : ∀ r, r ∈ l → pr_address (sr_rule r) ≠ None).
  { intros r Hr. by destruct (Haddr r Hr) as [a ->]. }
  assert (Hdata : ∀ (rt : string) (f : stored_rule → bool) a,
    fold_left (λ o r, if f r then first_of o (pr_address (sr_rule r)) else o) l None
    = Some a → is_Some (address_data rt (Some a))).
  { intros rt f a Hfa. apply fold_first_of_in in Hfa as [Hfa|(r & Hr & Ha)]; [done|].
    destruct (Haddr r Hr) as [i Hi]. assert (a = str_ip i) as -> by congruence. simpl.
    rewrite (proj2 (String.eqb_neq _ _)) by apply str_ip_nonempty. eauto. }
  destruct l as [|r l'] eqn:El; [done|]. rewrite <-El in *.
  assert (e = rewrite0 l) as -> by (rewrite El in He |- *; by injection He).
  unfold rewrite_data, rewrite0. cbn [rw_a rw_aaaa].
  assert (Hr : r ∈ l) by (rewrite El; left).
  destruct (is_v4_rewrite r) eqn:Hv.
  - destruct (fold_first_of_mem is_v4_rewrite l None r Hr Hv Hsome) as [a Ha]. rewrite Ha.
    destruct (Hdata "A" _ _ Ha) as [y Hy]. rewrite Hy. eauto.
  - destruct (fold_first_of_mem (negb ∘ is_v4_rewrite) l None r Hr) as [a Ha];
      [simpl; by rewrite Hv|done|].
    assert (Heq : ∀ o, fold_left (λ o r, if is_v4_rewrite r then o else first_of o (pr_address (sr_rule r))) l o
      = fold_left (λ o r, if (negb ∘ is_v4_rewrite) r then first_of o (pr_address (sr_rule r)) else o) l o).
    { clear. induction l as [|x l IH]; intros o; [done|]. simpl. destruct (is_v4_rewrite x); simpl; apply IH. }
    rewrite (Heq None), Ha. destruct (Hdata "AAAA" _ _ Ha) as [y Hy]. rewrite Hy. eauto.
Qed.
End zone.

(** ** The zone's records, owner by owner *)

Section refinement.
Context `{Platform} (ts : string) (db : rules_db) (Hdb : db_ok db).
Context (ext : gset string) (Hext : ∀ d, d ∈ ext → valid_domain d = true).

Let rr := rows_at ts db RtRewrite.
Let aa := rows_at ts db RtAllow.
Let bb := rows_at ts db RtBlock.
Let active := collect_active ts db.
Let zone := zone_records ext (Some active).

Definition in_ext (x : string) : Prop := ∃ d, d ∈ ext ∧ (x = d ∨ x = wild d).

Lemma view_rewrites n : rewrites active !! n = rewrite_of (rr n).
Proof. pose proof (active_view ts db n) as E. unfold view in E. by injection E. Qed.
Lemma view_allows n : allows active !! n = final_allow (rr n) (aa n) (bb n).
Proof. pose proof (active_view ts db n) as E. unfold view in E. by injection E. Qed.
Lemma view_blocks n : blocks active !! n = final_block (rr n) (aa n) (bb n).
Proof. pose proof (active_view ts db n) as E. unfold view in E. by injection E. Qed.

Lemma at_valid t n :
  t = RtRewrite ∨ t = RtAllow ∨ t = RtBlock → rows_at ts db t n ≠ [] → valid_domain n = true.
Proof using Hdb.
  intros Ht Hne. destruct (rows_at ts db t n) as [|r l] eqn:E; [done|].
  assert (Hr : r ∈ rows_at ts db t n) by (rewrite E; left).
  apply (elem_of_rows_at ts db Hdb) in Hr as (Hr & _ & Hat); [|done]. by eapply rule_at_valid.
Qed.

Lemma rewrite_owned_name n :
  valid_domain n = true → owned rewrite_owner (rewrites active) n ↔ rr n ≠ [].
Proof using Hdb.
  intros Hn. unfold owned, rewrite_owner. setoid_rewrite view_rewrites. split.
  - intros (k & e & He & [->|[_ ->]]); [by intros E; rewrite E in He|].
    by destruct (valid_not_wild _ k Hn).
  - intros Hne. destruct (rr n) as [|r l] eqn:E; [done|]. exists n, (rewrite0 (r :: l)).
    rewrite E. auto.
Qed.

Lemma rewrite_owned_wild n :
  owned rewrite_owner (rewrites active) (wild n) ↔ some_sub (rr n) = true.
Proof using Hdb.
  unfold owned, rewrite_owner. setoid_rewrite view_rewrites. split.
  - intros (k & e & He & [Hk|[Hs Hk]]).
    + assert (valid_domain k = true) as Hv.
      { apply (at_valid RtRewrite); [auto|]. intros E. fold (rr k) in E. by rewrite E in He. }
      by destruct (valid_not_wild k n Hv).
    + apply wild_inj in Hk as <-. destruct (rr n); [done|]. injection He as <-. exact Hs.
  - intros Hs. destruct (rr n) as [|r l] eqn:E; [done|]. exists n, (rewrite0 (r :: l)).
    rewrite E. auto.
Qed.

(** The same for the allow and block maps, from their resolved entries. *)
Lemma owned_name (m : gmap string name_entry) f n :
  (∀ k, m !! k = f k) → valid_domain n = true → owned owner_of m n ↔ takes_name (f n).
Proof.
  intros Hf Hn. unfold owned, owner_of, takes_name. setoid_rewrite Hf. split.
  - intros (k & e & He & [[Hs ->]|[_ ->]]); [eauto|]. by destruct (valid_not_wild _ k Hn).
  - intros (e & He & Hs). exists n, e. auto.
Qed.

Lemma owned_wild (m : gmap string name_entry) f n :
  (∀ k, m !! k = f k) → (∀ k e, f k = Some e → valid_domain k = true) →
  owned owner_of m (wild n) ↔ takes_wild (f n).
Proof.
  intros Hf Hv. unfold owned, owner_of, takes_wild. setoid_rewrite Hf. split.
  - intros (k & e & He & [[_ Hk]|[Hs Hk]]).
    + by destruct (valid_not_wild k n (Hv _ _ He)).
    + apply wild_inj in Hk as <-. eauto.
  - intros (e & He & Hs). exists n, e. auto.
Qed.

Lemma allow_keys_valid k e : final_allow (rr k) (aa k) (bb k) = Some e → valid_domain k = true.
Proof using Hdb. intros He. apply (at_valid RtAllow); [auto|]. by eapply final_allow_nonempty. Qed.
Lemma block_keys_valid k e : final_block (rr k) (aa k) (bb k) = Some e → valid_domain k = true.
Proof using Hdb. intros He. apply (at_valid RtBlock); [auto|]. by eapply final_block_nonempty. Qed.

(** What the zone holds at an owner, by what the rules own there. *)
Lemma zone_at x :
  let RO := owned rewrite_owner (rewrites active) x in
  let AO := owned owner_of (allows active) x in
  let BO := owned owner_of (blocks active) x in
  (RO → (∃ y, (x, y) ∈ zone) ∧ ∀ y, (x, y) ∈ zone → is_address y)
  ∧ (¬ RO → AO → (x, passthru) ∈ zone ∧ ∀ y, (x, y) ∈ zone → y = passthru)
  ∧ (¬ RO → ¬ AO → BO ∨ in_ext x → (x, nxdomain) ∈ zone)
  ∧ (¬ RO → ¬ AO → ∀ y, (x, y) ∈ zone → y = nxdomain)
  ∧ (¬ RO → ¬ AO → ¬ BO → ¬ in_ext x → ∀ y, (x, y) ∉ zone).
Proof using Hdb Hext.
  cbv zeta.
  set (RO := owned rewrite_owner (rewrites active) x).
  set (AO := owned owner_of (allows active) x). set (BO := owned owner_of (blocks active) x).
  set (RD := λ y, ∃ n e, rewrites active !! n = Some e ∧ rewrite_data e y ∧ rewrite_owner e n x).
  assert (H1 : RO → ∃ y, RD y).
  { intros (n & e & He & Ho). rewrite view_rewrites in He.
    destruct (rewrite_has_data ts db Hdb n e He) as [y Hy]. exists y, n, e. by rewrite view_rewrites. }
  assert (H2 : ∀ y, RD y → RO ∧ is_address y).
  { intros y (n & e & He & Hy & Ho). split; [by exists n, e|]. by eapply rewrite_data_address. }
  assert (Hin : ∀ y, (x, y) ∈ zone ↔ (RD y ∨ (¬ RO ∧ y = passthru ∧ AO) ∨ (¬ RO ∧ ¬ AO ∧ y = nxdomain ∧ BO))
    ∨ ¬ (RO ∨ AO ∨ BO) ∧ y = nxdomain ∧ in_ext x).
  { intros y. unfold zone. rewrite (zone_records_spec ext active x y Hext).
    rewrite (proj1 (rpz_records_spec active x y)), (proj2 (rpz_records_spec active x y)). done. }
  assert (Hdec : (RO ∨ AO ∨ BO) ∨ ¬ (RO ∨ AO ∨ BO)).
  { pose proof (proj2 (rpz_records_spec active x passthru)) as Hocc.
    destruct (decide (x ∈ (rpz_records active).2)) as [Hx|Hx];
      [left; by apply Hocc|right; intros Ho; by apply Hx, Hocc]. }
  setoid_rewrite Hin. clear Hin. clearbody RO AO BO RD. generalize (in_ext x). intros EX.
  clear -H1 H2 Hdec. split; [|split; [|split; [|split]]].
  - intros HR. split; [destruct (H1 HR); eauto|].
    intros y [[Hy|[(? & _)|(? & _)]]|(Hn & _)]; [by apply H2|done|done|tauto].
  - intros HR HA. split; [by left; right; left|].
    intros y [[Hy|[(_ & Hy & _)|(_ & ? & _)]]|(Hn & _)]; [by apply H2 in Hy as [? _]|done|done|tauto].
  - intros HR HA [HB|HE]; [left; right; right; auto|].
    destruct Hdec as [[?|[?|?]]|Hno]; [done|done|left; right; right; auto|right; auto].
  - intros HR HA y [[Hy|[(_ & _ & ?)|(_ & _ & Hy & _)]]|(_ & Hy & _)];
      [by apply H2 in Hy as [? _]|done|done|done].
  - intros HR HA HB HE y [[Hy|[(_ & _ & ?)|(_ & _ & _ & ?)]]|(_ & _ & ?)]; try done.
    by apply H2 in Hy as [? _].
Qed.

(** A name with no row owns nothing; a wildcard without a subdomain row neither. *)
Lemma nothing_at_name q :
  valid_domain q = true → (∀ r, r ∈ active_rows ts db → ¬ rule_at r q) →
  rr q = [] ∧ aa q = [] ∧ bb q = []
  ∧ ¬ owned rewrite_owner (rewrites active) q ∧ ¬ owned owner_of (allows active) q
  ∧ ¬ owned owner_of (blocks active) q.
Proof using Hdb.
  intros Hq Hno.
  assert (Hnil : ∀ t, t = RtRewrite ∨ t = RtAllow ∨ t = RtBlock → rows_at ts db t q = []).
  { intros t Ht. destruct (rows_at ts db t q) as [|r l] eqn:E; [done|].
    assert (Hr : r ∈ rows_at ts db t q) by (rewrite E; left).
    apply (elem_of_rows_at ts db Hdb) in Hr as (Hr & _ & Hat); [|done]. by destruct (Hno r). }
  assert (Hr : rr q = []) by (apply Hnil; auto). assert (Ha : aa q = []) by (apply Hnil; auto).
  assert (Hb : bb q = []) by (apply Hnil; auto). repeat (split; [done|]).
  rewrite rewrite_owned_name, (owned_name _ _ q view_allows), (owned_name _ _ q view_blocks) by done.
  rewrite Hr, Ha, Hb. split; [by intros []|]. by split; intros (e & ? & _).
Qed.

Lemma sub_row_at t n :
  t = RtRewrite ∨ t = RtAllow ∨ t = RtBlock →
  some_sub (rows_at ts db t n) = true ↔
  ∃ r, r ∈ active_rows ts db ∧ pr_type (sr_rule r) = t ∧ rule_at r n ∧ row_subdomains r = true.
Proof using Hdb.
  intros Ht. unfold some_sub. rewrite existsb_true. setoid_rewrite (elem_of_rows_at ts db Hdb); [|done].
  naive_solver.
Qed.

Lemma nothing_at_wild p :
  (∀ r, r ∈ active_rows ts db → rule_at r p → row_subdomains r = false) →
  ¬ owned rewrite_owner (rewrites active) (wild p) ∧ ¬ owned owner_of (allows active) (wild p)
  ∧ ¬ owned owner_of (blocks active) (wild p).
Proof using Hdb.
  intros Hno.
  assert (Hs : ∀ t, t = RtRewrite ∨ t = RtAllow ∨ t = RtBlock → some_sub (rows_at ts db t p) ≠ true).
  { intros t Ht. rewrite sub_row_at by done. intros (r & Hr & _ & Hat & Hsub).
    by rewrite (Hno r) in Hsub. }
  rewrite rewrite_owned_wild, (owned_wild _ _ p view_allows allow_keys_valid),
    (owned_wild _ _ p view_blocks block_keys_valid).
  split; [apply Hs; auto|]. split.
  - intros Hw%final_allow_wild. apply (Hs RtAllow) in Hw; auto.
  - intros Hw%final_block_wild. apply (Hs RtBlock) in Hw; auto.
Qed.

Lemma in_ext_name x : valid_domain x = true → in_ext x ↔ x ∈ ext.
Proof.
  intros Hx. unfold in_ext. split; [|eauto]. intros (d & Hd & [->| ->]); [done|].
  by destruct (valid_not_wild _ d Hx).
Qed.

Lemma in_ext_wild p : in_ext (wild p) ↔ p ∈ ext.
Proof using Hext.
  unfold in_ext. split; [|eauto]. intros (d & Hd & [E|E]).
  - by destruct (valid_not_wild d p (Hext d Hd)).
  - by apply wild_inj in E as ->.
Qed.

(** ** The verdict *)

Definition custom_verdict (q : string) : option final_action :=
  match omap (domain_match q) (active_rows ts db) with
  | [] => None
  | ms => Some (decide_rows (best_rows ms)).1.1
  end.

(** No exact-only allow or block is marked important. *)
Definition exact_plain : Prop :=
  ∀ r, r ∈ active_rows ts db → pr_type (sr_rule r) = RtAllow ∨ pr_type (sr_rule r) = RtBlock →
    row_subdomains r = false → (row_priority r ≤ 0)%Z.
Definition priorities_nonneg : Prop := ∀ r, r ∈ active_rows ts db → (0 ≤ row_priority r)%Z.

Lemma verdict_some q r0 :
  r0 ∈ active_rows ts db → is_Some (domain_match q r0) →
  custom_verdict q = Some (decide_rows (best_rows (omap (domain_match q) (active_rows ts db)))).1.1.
Proof.
  intros Hr [m Hm]. unfold custom_verdict.
  destruct (omap (domain_match q) (active_rows ts db)) as [|x l] eqn:E; [|done].
  assert (Hin : m ∈ omap (domain_match q) (active_rows ts db)) by (apply list_elem_of_omap; eauto).
  rewrite E in Hin. by apply elem_of_nil in Hin.
Qed.

(** The priorities compared are those of the entries, as soon as the rows the
    walk leaves out have none. *)
Lemma best_priority best t n :
  priorities_nonneg →
  (∀ r, r ∈ best → r ∈ active_rows ts db) →
  (∀ r, r ∈ best ∧ pr_type (sr_rule r) = t → r ∈ rows_at ts db t n) →
  (∀ r, r ∈ rows_at ts db t n → r ∈ best ∧ pr_type (sr_rule r) = t ∨ (row_priority r ≤ 0)%Z) →
  max_priority (List.filter (of_type t) best) = maxp (rows_at ts db t n).
Proof.
  intros Hnn Hb Hin Hout.
  assert (Hf : ∀ r, r ∈ List.filter (of_type t) best ↔ r ∈ best ∧ pr_type (sr_rule r) = t).
  { intros r. rewrite elem_of_filterb. unfold of_type. by rewrite bool_decide_eq_true. }
  rewrite max_priority_maxp.
  - apply maxp_eq; intros r; rewrite Hf; auto.
  - intros r [Hr _]%Hf. apply Hnn. auto.
Qed.

Definition verdict_data (a : final_action) : string → Prop :=
  match a with
  | FaAllow => λ y, y = passthru
  | FaBlock => λ y, y = nxdomain
  | _ => is_address
  end.

Lemma verdict_exact q r0 :
  priorities_nonneg → valid_domain q = true → r0 ∈ active_rows ts db → rule_at r0 q →
  ∃ a, custom_verdict q = Some a ∧ answers (verdict_data a) (zone_answer (owners_of zone) q).
Proof using Hdb Hext.
  intros Hnn Hq Hr0 Hat. pose proof (valid_domain_nonempty q Hq) as Hqne.
  rewrite (verdict_some q r0) by (auto; eexists; apply domain_match_spec; exists q; auto).
  pose proof (best_rows_exact q _ _ Hqne Hr0 Hat) as Hbest.
  set (best := best_rows _) in *. eexists. split; [done|]. rewrite decide_rows_action.
  assert (Hty : ∀ t, t = RtRewrite ∨ t = RtAllow ∨ t = RtBlock →
    has_type t best = true ↔ rows_at ts db t q ≠ []).
  { intros t Ht. rewrite has_type_spec. setoid_rewrite Hbest. split.
    - intros (r & [Hr Hrq] & Hrt) E.
      assert (Hin : r ∈ rows_at ts db t q) by (by apply (elem_of_rows_at ts db Hdb)).
      rewrite E in Hin. by apply elem_of_nil in Hin.
    - intros Hne. destruct (rows_at ts db t q) as [|r l] eqn:E; [done|]. exists r.
      assert (Hin : r ∈ rows_at ts db t q) by (rewrite E; left).
      apply (elem_of_rows_at ts db Hdb) in Hin as (? & ? & ?); auto. }
  assert (Hprio : ∀ t, t = RtRewrite ∨ t = RtAllow ∨ t = RtBlock →
    max_priority (List.filter (of_type t) best) = maxp (rows_at ts db t q)).
  { intros t Ht. apply best_priority; [done|by intros r [? _]%Hbest| |].
    - intros r [[? ?]%Hbest ?]. by apply (elem_of_rows_at ts db Hdb).
    - intros r (? & ? & ?)%(elem_of_rows_at ts db Hdb); [|done]. left. by rewrite Hbest. }
  rewrite !Hprio by auto. clear Hprio. fold (aa q) (bb q).
  destruct (zone_at q) as (Z1 & Z2 & Z3 & Z4 & _).
  rewrite rewrite_owned_name, (owned_name _ _ q view_allows), (owned_name _ _ q view_blocks)
    in * by done.
  assert (has_type RtRewrite best = true ↔ rr q ≠ []) as HR by (apply Hty; auto).
  assert (has_type RtAllow best = true ↔ aa q ≠ []) as HA by (apply Hty; auto).
  assert (has_type RtBlock best = true ↔ bb q ≠ []) as HB by (apply Hty; auto).
  assert (Hnil : ∀ (b : bool) (l : list stored_rule), (b = true ↔ l ≠ []) → b = false → l = []).
  { intros b [|x l] Hb ->; [done|]. by destruct Hb as [_ Hb]; discriminate Hb. }
  destruct (has_type RtRewrite best) eqn:ER.
  { assert (rr q ≠ []) by (by apply HR). apply answer_exact; by apply Z1. }
  assert (rr q = []) as Er by (by eapply Hnil).
  rewrite Er in *. destruct (final_at_name (aa q) (bb q)) as (F1 & F2 & F3).
  assert (Hnr : ¬ ([] : list stored_rule) ≠ []) by auto.
  destruct (has_type RtAllow best) eqn:EA.
  - assert (aa q ≠ []) as Ha by (by apply HA).
    assert (Hout : outranks (aa q) (bb q) = has_type RtBlock best && (maxp (aa q) <? maxp (bb q))%Z).
    { unfold outranks. destruct (bb q) as [|b l].
      - destruct (has_type RtBlock best); [|done]. by destruct HB as [HB _]; destruct HB.
      - by rewrite (proj2 HB). }
    rewrite <-Hout. destruct (outranks (aa q) (bb q)) eqn:Eo.
    + assert (¬ takes_name (final_allow [] (aa q) (bb q))) as Hna by (apply F2; auto).
      apply answer_exact; [|by apply Z4]. exists nxdomain. apply Z3; auto. left. apply F3; auto.
      intros E. rewrite E in Eo. done.
    + apply answer_exact; [exists passthru|]; apply Z2; auto.
  - assert (aa q = []) as Ea by (by eapply Hnil).
    assert (¬ takes_name (final_allow [] (aa q) (bb q))) as Hna by (apply F2; auto).
    apply answer_exact; [|by apply Z4]. exists nxdomain. apply Z3; auto. left. apply F3; auto.
    apply HB. destruct (domain_rule_type r0 q Hat) as [Ht|[Ht|Ht]].
    + assert (has_type RtRewrite best = true) by (apply has_type_spec; exists r0; by rewrite Hbest). congruence.
    + assert (has_type RtAllow best = true) by (apply has_type_spec; exists r0; by rewrite Hbest). congruence.
    + apply has_type_spec. exists r0. by rewrite Hbest.
Qed.

(** External names are never below an allow that takes the wildcard. *)
Definition ext_respects_allows : Prop :=
  ∀ d p, d ∈ ext → takes_wild (final_allow (rr p) (aa p) (bb p)) → d ≠ p ∧ under d p = false.

Lemma maxp_zero l : (∀ r, r ∈ l → row_priority r ≤ 0)%Z → maxp l = 0%Z.
Proof.
  intros Hl. apply Z.le_antisymm; [|apply maxp_nonneg]. apply maxp_le. split; [lia|done].
Qed.

Lemma verdict_wild q p r0 :
  exact_plain → priorities_nonneg → ext_respects_allows → valid_domain q = true →
  (∀ r, r ∈ active_rows ts db → ¬ rule_at r q) → p ∈ parents q →
  r0 ∈ active_rows ts db → rule_at r0 p → row_subdomains r0 = true →
  (∀ p' r, p' ∈ parents q → labels_count p < labels_count p' → r ∈ active_rows ts db →
     rule_at r p' → row_subdomains r = false) →
  ∃ a, custom_verdict q = Some a ∧
    ((a = FaRewrite → ∀ d, d ∈ ext → d ≠ q ∧ under q d = false) →
     answers (verdict_data a) (zone_answer (owners_of zone) q)).
Proof using Hdb Hext.
  intros Hplain Hnn Hresp Hq Hno Hp Hr0 Hat Hsub Hmax.
  assert (valid_domain p = true) as Hpv by (by eapply rule_at_valid).
  pose proof (valid_domain_nonempty p Hpv) as Hpne.
  assert (Hqp : q ≠ p) by (intros ->; by apply (Hno r0)).
  rewrite (verdict_some q r0).
  2: done.
  2: { eexists. apply domain_match_spec. exists p. split; [done|]. split; [done|]. right.
       by rewrite under_parents. }
  pose proof (best_rows_wild q p _ r0 Hpne Hno Hp Hr0 Hat Hsub Hmax) as Hbest.
  set (best := best_rows _) in *. eexists. split; [done|]. rewrite decide_rows_action.
  assert (Hty : ∀ t, t = RtRewrite ∨ t = RtAllow ∨ t = RtBlock →
    has_type t best = some_sub (rows_at ts db t p)).
  { intros t Ht. apply eq_bool_prop_intro. rewrite !Is_true_true.
    rewrite has_type_spec, sub_row_at by done. setoid_rewrite Hbest. naive_solver. }
  rewrite !Hty by auto. fold (rr p) (aa p) (bb p).
  destruct (zone_at (wild p)) as (Z1 & Z2 & Z3 & Z4 & _).
  rewrite rewrite_owned_wild, (owned_wild _ _ p view_allows allow_keys_valid),
    (owned_wild _ _ p view_blocks block_keys_valid) in *.
  (* what more specific owners hold *)
  destruct (nothing_at_name q Hq Hno) as (_ & _ & _ & NR & NA & NB).
  destruct (zone_at q) as (_ & _ & _ & Q4 & Q5).
  assert (Hlonger : ∀ p', p' ∈ parents q → labels_count p < labels_count p' →
    (∀ y, (wild p', y) ∈ zone → y = nxdomain) ∧ (p' ∉ ext → ∀ y, (wild p', y) ∉ zone)).
  { intros p' Hp' Hlt. destruct (nothing_at_wild p') as (WR & WA & WB); [eauto|].
    destruct (zone_at (wild p')) as (_ & _ & _ & W4 & W5). split; [by apply W4|].
    intros Hne. apply W5; auto. by rewrite in_ext_wild. }
  destruct (some_sub (rr p)) eqn:ER.
  { intros Hclear. destruct Z1 as [Z1 Z1']; [done|]. apply (answer_wild _ q p); auto.
    - apply Q5; auto. rewrite in_ext_name by done. intros Hx. by destruct (Hclear eq_refl q Hx).
    - intros p' y Hp' Hlt. apply Hlonger; auto. intros Hx.
      destruct (Hclear eq_refl p' Hx) as [_ Hu]. apply under_parents in Hp'. congruence. }
  intros _. destruct (final_at_wild (rr p) (aa p) (bb p) ER) as [FA FB].
  assert (HmaxB : some_sub (bb p) = false → maxp (bb p) = 0%Z).
  { intros Hs. apply maxp_zero. intros r Hr. apply (elem_of_rows_at ts db Hdb) in Hr as Hr'; [|auto].
    destruct Hr' as (Hr1 & Hr2 & Hr3). apply Hplain; [done|by right|].
    by eapply existsb_false in Hs. }
  assert (Hprio : ∀ t, t = RtAllow ∨ t = RtBlock →
    max_priority (List.filter (of_type t) best) = maxp (rows_at ts db t p)).
  { intros t Ht. apply best_priority; [done|by intros r (? & _)%Hbest| |].
    - intros r [(? & ? & ?)%Hbest ?]. apply (elem_of_rows_at ts db Hdb); [by right|done].
    - intros r Hr. apply (elem_of_rows_at ts db Hdb) in Hr as (? & Htr & ?); [|by right].
      destruct (row_subdomains r) eqn:Es; [left; by rewrite Hbest|right].
      apply Hplain; [done|by rewrite Htr|done]. }
  rewrite !Hprio by auto. fold (aa p) (bb p).
  destruct (some_sub (aa p)) eqn:EA;
    [destruct (some_sub (bb p) && (maxp (aa p) <? maxp (bb p))%Z) eqn:EO|].
  - (* an important block *)
    apply andb_true_iff in EO as [EB EO]. assert (outranks (aa p) (bb p) = true) as Hout.
    { unfold outranks. destruct (bb p); [done|exact EO]. }
    assert (¬ takes_wild (final_allow (rr p) (aa p) (bb p))) as Hna by (rewrite FA; intros [_ Ho]; congruence).
    apply (answer_from _ q p); auto.
    + by apply Q4.
    + exists nxdomain. apply Z3; auto.
    + intros p' y Hp' Hle Hy. destruct (decide (p' = p)) as [->|Hne]; [by apply Z4|].
      apply (Hlonger p'); [done| |done]. apply Nat.le_neq. split; [done|]. intros E. apply Hne.
      symmetry. by apply (parents_same q).
  - (* the allow *)
    assert (outranks (aa p) (bb p) = false) as Hout.
    { unfold outranks. destruct (bb p) as [|b l] eqn:Eb; [done|].
      destruct (some_sub (b :: l)) eqn:EB; [done|]. rewrite HmaxB by done.
      apply Z.ltb_ge, maxp_nonneg. }
    assert (takes_wild (final_allow (rr p) (aa p) (bb p))) as Ha by (apply FA; auto).
    destruct Z2 as [Z2 Z2']; [done|done|]. apply (answer_wild _ q p); eauto.
    + apply Q5; auto. rewrite in_ext_name by done. intros Hx.
      destruct (Hresp q p Hx Ha) as [_ Hu]. apply under_parents in Hp. congruence.
    + intros p' y Hp' Hlt. apply Hlonger; auto. intros Hx.
      destruct (Hresp p' p Hx Ha) as [_ Hu].
      by rewrite (parents_nested q p p' Hp Hp' Hlt) in Hu.
  - (* a block *)
    assert (¬ takes_wild (final_allow (rr p) (aa p) (bb p))) as Hna by (rewrite FA; by intros [Ho _]).
    assert (some_sub (bb p) = true) as EB.
    { destruct (domain_rule_type r0 p Hat) as [Ht|[Ht|Ht]].
      - assert (some_sub (rr p) = true) by (apply sub_row_at; [auto|by exists r0]). congruence.
      - assert (some_sub (aa p) = true) by (apply sub_row_at; [auto|by exists r0]). congruence.
      - apply sub_row_at; [auto|]. by exists r0. }
    apply (answer_from _ q p); auto.
    + by apply Q4.
    + exists nxdomain. apply Z3; auto.
    + intros p' y Hp' Hle Hy. destruct (decide (p' = p)) as [->|Hne]; [by apply Z4|].
      apply (Hlonger p'); [done| |done]. apply Nat.le_neq. split; [done|]. intros E. apply Hne.
      symmetry. by apply (parents_same q).
Qed.

(** No rule matches: only the external set answers. *)
Lemma verdict_nothing q :
  valid_domain q = true → (∀ r, r ∈ active_rows ts db → ¬ rule_at r q) →
  (∀ p r, p ∈ parents q → r ∈ active_rows ts db → rule_at r p → row_subdomains r = false) →
  custom_verdict q = None ∧
  if bool_decide (q ∈ ext) || existsb (λ p, bool_decide (p ∈ ext)) (parents q)
  then answers (λ y, y = nxdomain) (zone_answer (owners_of zone) q)
  else zone_answer (owners_of zone) q = None.
Proof using Hdb Hext.
  intros Hq Hno Hpar.
  assert (Hnone : omap (domain_match q) (active_rows ts db) = []) by (by apply no_match).
  split; [unfold custom_verdict; by rewrite Hnone|].
  destruct (nothing_at_name q Hq Hno) as (_ & _ & _ & NR & NA & NB).
  destruct (zone_at q) as (_ & _ & Q3 & Q4 & Q5). rewrite in_ext_name in * by done.
  assert (Hw : ∀ p, p ∈ parents q → (p ∈ ext → (wild p, nxdomain) ∈ zone)
    ∧ (∀ y, (wild p, y) ∈ zone → y = nxdomain) ∧ (p ∉ ext → ∀ y, (wild p, y) ∉ zone)).
  { intros p Hp. destruct (nothing_at_wild p) as (WR & WA & WB); [eauto|].
    destruct (zone_at (wild p)) as (_ & _ & W3 & W4 & W5). rewrite in_ext_wild in *. auto. }
  destruct (bool_decide (q ∈ ext)) eqn:Eq; simpl.
  { apply bool_decide_eq_true in Eq. apply answer_exact; [exists nxdomain|]; auto. }
  apply bool_decide_eq_false in Eq. destruct (existsb _ _) eqn:Ep.
  - apply existsb_true in Ep as (p & Hp & He). apply bool_decide_eq_true in He.
    apply (answer_from _ q p); auto.
    + exists nxdomain. by apply Hw.
    + intros p' y Hp' _. by apply Hw.
  - apply answer_none; [auto|]. intros p y Hp. apply Hw; [done|].
    eapply existsb_false in Ep; [|exact Hp]. by apply bool_decide_eq_false in Ep.
Qed.
End refinement.

(** ** Subtraction *)

Lemma elem_of_subdomain_allows a n :
  n ∈ subdomain_allows a ↔ ∃ al, allows a !! n = Some al ∧ ne_subdomains al = true.
Proof.
  unfold subdomain_allows. rewrite list_elem_of_omap. split.
  - intros ([k al] & Hk%elem_of_map_to_list & H). destruct (ne_subdomains al) eqn:E; simplify_eq. eauto.
  - intros (al & Ha & Hs). exists (n, al). split; [by apply elem_of_map_to_list|]. by rewrite Hs.
Qed.

Lemma subtract_allowed_spec domains a d :
  d ∈ subtract_allowed domains a ↔
  d ∈ domains ∧ allows a !! d = None ∧
  ∀ n al, allows a !! n = Some al → ne_subdomains al = true → d ≠ n ∧ under d n = false.
Proof.
  unfold subtract_allowed. case_decide as He.
  - rewrite He. setoid_rewrite lookup_empty. naive_solver.
  - rewrite elem_of_filter, existsb_false. split.
    + intros [[Hn Hs] Hd]. split; [done|]. split; [done|]. intros n al Ha Hsub.
      specialize (Hs n (proj2 (elem_of_subdomain_allows a n) (ex_intro _ al (conj Ha Hsub)))).
      bool_to_prop. split; [|done]. by apply String.eqb_neq.
    + intros (Hd & Hn & Hs). split; [|done]. split; [done|].
      intros n (al & Ha & Hsub)%elem_of_subdomain_allows. destruct (Hs n al Ha Hsub) as [H1 ->].
      by rewrite (proj2 (String.eqb_neq _ _)).
Qed.

Lemma subtract_respects `{Platform} ts db domains :
  ext_respects_allows ts db (subtract_allowed domains (collect_active ts db)).
Proof.
  intros d p (_ & _ & Hs)%subtract_allowed_spec (x & Hx & Hsub). apply (Hs p x); [|done].
  by rewrite view_allows.
Qed.

Lemma evaluate_rules_verdict `{Platform} ts db rpz q a :
  custom_verdict ts db q = Some a →
  ev_final_action (evaluate_rules (active_rows ts db) rpz q) = a.
Proof.
  unfold custom_verdict, evaluate_rules. destruct (omap _ _) as [|m ms]; [done|]. intros [= <-].
  by destruct (decide_rows _) as [[? ?] ?].
Qed.

Definition rule_atb (q : string) (r : stored_rule) : bool :=
  is_domain_rule (sr_rule r) && bool_decide (pr_domain (sr_rule r) = Some q).
Lemma rule_atb_spec q r : rule_atb q r = true ↔ rule_at r q.
Proof. unfold rule_atb, rule_at. by rewrite andb_true_iff, bool_decide_eq_true. Qed.

(** ** Properties *)


(** Stored tables used as examples: the texts are added in order. *)
Definition table_of `{Platform} (texts : list string) : rules_db :=
  fold_left (λ db text, (add_rule sample_args true text db).1) texts (mkRules None []).

Lemma table_of_ok `{Platform} texts : db_ok (table_of texts).
Proof.
  unfold table_of. generalize (empty_rules_ok). generalize (mkRules None []).
  induction texts as [|t texts IH]; intros db Hdb; simpl; [done|]. by apply IH, add_rule_ok.
Qed.

Definition zone_of `{Platform} (texts : list string) (domains : gset string) : list (string * string) :=
  let active := collect_active "t" (table_of texts) in
  zone_records (subtract_allowed domains active) (Some active).


(** Without that assumption the two disagree: an exact [$important] block and a
    subdomain allow of one name leave a subdomain unanswered by the zone (so a
    blocklist entry above it applies) while the panel reports an allow; and an
    external entry below a subdomain rewrite blocks what the panel reports as
    rewritten. *)
Theorem panel_diverges_from_zone `{Platform} :
  let t1 := ["|ads.example^$important"; "@@||ads.example^"] in
  let t2 := ["||shop.example^$dnsrewrite=192.0.2.1"] in
  custom_verdict "t" (table_of t1) "x.ads.example" = Some FaAllow
  ∧ zone_answer (owners_of (zone_of t1 ∅)) "x.ads.example" = None
  ∧ custom_verdict "t" (table_of t2) "ads.shop.example" = Some FaRewrite
  ∧ zone_answer (owners_of (zone_of t2 {["ads.shop.example"]})) "ads.shop.example" = Some [nxdomain].
Proof. vm_compute. auto. Qed.
