(* ===== verification/RpzFile.v ===== *)
(** * The zone file

    [render_rpz] writes the zone as text and [_rpz_status] reads it back: the
    status read from the file is the status of the records themselves. *)

From S2P Require Import Prelude PyStr StrLemmas IpAddr DomainName RegexGuard RuleParser RuleStore RuleCompile RuleEval RuleWalk.

(** ** Records *)

Lemma lstrip_by_app p w s : sforall p w = true → lstrip_by p (w +:+ s) = lstrip_by p s.
Proof.
  induction w as [|c w IH]; [done|]. simpl. intros [Hc Hw]%andb_true_iff. rewrite Hc. by apply IH.
Qed.

Definition word (o : string) : bool := negb (String.eqb o "") && sforall (negb ∘ is_space) o.

Lemma split_once_word o t :
  word o = true →
  split_once (o +:+ " " +:+ t) =
  let tail := lstrip_by is_space t in if String.eqb tail "" then None else Some (o, tail).
Proof.
  unfold word, split_once. intros [Hne Ho]%andb_true_iff. apply negb_true_iff, String.eqb_neq in Hne.
  assert (lstrip_by is_space (o +:+ " " +:+ t) = o +:+ " " +:+ t) as ->.
  { apply lstrip_id. destruct o as [|c o]; [done|]. apply andb_true_iff in Ho as [Hc _]. exact Hc. }
  rewrite lstrip_by_app by done.
  change (lstrip_by (negb ∘ is_space) (" " +:+ t)) with (" " +:+ t).
  rewrite slen_app. replace (slen o + slen (" " +:+ t) - slen (" " +:+ t)) with (slen o) by lia.
  rewrite stake_app_length. change (lstrip_by is_space (" " +:+ t)) with (lstrip_by is_space t).
  by rewrite (proj2 (String.eqb_neq _ _) Hne).
Qed.

(** An owner the reader does not skip. *)
Definition owner_ok (o : string) : bool :=
  word o && negb (String.eqb o "@" || String.eqb o "$TTL" || starts_with ";" o).
(** Data that occupies one line and has no outer blanks. *)
Definition data_ok (d : string) : bool :=
  negb (String.eqb d "") && String.eqb (strip d) d && no_break d.

Lemma owner_line_record o d :
  owner_ok o = true → data_ok d = true → owner_line (render_record (o, d)) = Some (o, d).
Proof.
  unfold owner_ok, data_ok, owner_line, render_record. cbn [fst snd].
  intros [Hw Ho]%andb_true_iff [[Hd Hs]%andb_true_iff _]%andb_true_iff.
  apply String.eqb_eq in Hs. rewrite split_once_word by done. cbv zeta.
  rewrite lstrip_id by (rewrite <-Hs; apply strip_head).
  apply negb_true_iff in Hd, Ho. by rewrite Hd, Ho, Hs.
Qed.

Lemma owner_line_at t : owner_line ("@ " +:+ t) = None.
Proof.
  change ("@ " +:+ t) with ("@" +:+ " " +:+ t). unfold owner_line.
  rewrite split_once_word by done. cbv zeta. by destruct (String.eqb (lstrip_by is_space t) "").
Qed.

Lemma owner_ok_name n : valid_domain n = true → owner_ok n = true.
Proof.
  intros Hn. pose proof (valid_domain_chars n Hn) as Hc. unfold owner_ok, word.
  assert (sforall (negb ∘ is_space) n = true) as ->.
  { eapply sforall_impl; [|exact Hc]. char_decide. }
  apply valid_domain_head in Hn as (c & s & -> & He). simpl.
  assert (∀ a : ascii, dom_edge a = false → Ascii.eqb c a = false ∧ Ascii.eqb a c = false) as Hne.
  { intros a Ha. split; apply Ascii.eqb_neq; intros E; congruence. }
  destruct (Hne "@"%char eq_refl) as [H1 _]. destruct (Hne "$"%char eq_refl) as [H2 _].
  destruct (Hne ";"%char eq_refl) as [_ H3].
  cbn [String.eqb]. unfold starts_with. by rewrite H1, H2, H3.
Qed.

Lemma owner_ok_wild n : valid_domain n = true → owner_ok (wild n) = true.
Proof.
  intros Hn. unfold owner_ok, word, wild. rewrite !app_cons, app_nil_s. simpl.
  assert (sforall (negb ∘ is_space) n = true) as ->; [|done].
  eapply sforall_impl; [|by apply valid_domain_chars]. char_decide.
Qed.

Lemma word_no_break o : word o = true → no_break o = true.
Proof. intros [_ Ho]%andb_true_iff. revert Ho. apply sforall_impl. char_decide. Qed.

Lemma record_no_break o d :
  owner_ok o = true → data_ok d = true → no_break (render_record (o, d)) = true.
Proof.
  intros [Ho _]%andb_true_iff [_ Hd]%andb_true_iff. unfold render_record, no_break in *. cbn [fst snd].
  rewrite !sforall_app, Hd. by rewrite (word_no_break o Ho : sforall _ o = true).
Qed.

Lemma omap_records (rs : list (string * string)) :
  (∀ o d, (o, d) ∈ rs → owner_ok o = true ∧ data_ok d = true) →
  omap owner_line (render_record <$> rs) = rs.
Proof.
  induction rs as [|[o d] rs IH]; [done|]. intros Hrs. rewrite fmap_cons. cbn [omap list_omap].
  destruct (Hrs o d) as [Ho Hd]; [left|]. rewrite owner_line_record by done. f_equal.
  apply IH. intros. apply Hrs. by right.
Qed.

Lemma rpz_status_render serial domains custom q :
  no_break serial = true →
  (∀ o d, (o, d) ∈ zone_records domains custom → owner_ok o = true ∧ data_ok d = true) →
  rpz_status (Some (render_rpz serial domains custom)) q
  = status_of (owners_of (zone_records domains custom)) q.
Proof.
  intros Hs Hrs. unfold rpz_status, render_rpz. rewrite splitlines_join; [|done|].
  - rewrite omap_app, omap_records by done.
    assert (E : owner_line ("@ IN SOA localhost. hostmaster.localhost. " +:+ serial
                            +:+ " 1h 15m 30d 2h") = None).
    { exact (owner_line_at ("IN SOA localhost. hostmaster.localhost. " +:+ serial
                            +:+ " 1h 15m 30d 2h")). }
    set (soa := "@ IN SOA localhost. hostmaster.localhost. " +:+ _) in *. clearbody soa.
    unfold omap, list_omap. by rewrite E.
  - intros w [Hw|Hw]%elem_of_app.
    + rewrite !elem_of_cons in Hw. destruct Hw as [->|[->|[->|[->|Hw]]]]; [done| |done|done|].
      * unfold no_break in *. rewrite !sforall_app, Hs. done.
      * by apply elem_of_nil in Hw.
    + apply list_elem_of_fmap in Hw as ([o d] & -> & Hw). apply record_no_break; by eapply Hrs.
Qed.

(** ** Property *)

(** Rewrites answer with addresses that fit a record: no blank, so no scope id
    with odd characters. *)
Definition addresses_plain (a : ActiveRuleSet) : Prop :=
  ∀ n e addr, rewrites a !! n = Some e → rw_a e = Some addr ∨ rw_aaaa e = Some addr →
    sforall (negb ∘ is_space) addr = true.

Lemma rewrite_data_ok a n e y :
  addresses_plain a → rewrites a !! n = Some e → rewrite_data e y → data_ok y = true.
Proof.
  intros Hp He Hy.
  assert (∃ t addr, (t = "A" ∨ t = "AAAA") ∧ y = t +:+ " " +:+ addr ∧ addr ≠ ""
    ∧ sforall (negb ∘ is_space) addr = true) as (t & addr & Ht & -> & Hne & Ha).
  { unfold rewrite_data, address_data in Hy. destruct Hy as [Hy|Hy]; case_match; try done;
      (destruct (String.eqb_spec s "") as [|Hs]; [done|]; injection Hy as <-;
       eexists _, s; split; [|split; [done|split; [done|eapply Hp; eauto]]]; auto). }
  assert (Hlast : ∀ w, last_not is_space (w +:+ addr) = true).
  { intros w. unfold last_not. rewrite slast_app by done.
    eapply (sforall_last_not (negb ∘ is_space)); [|exact Ha]. intros c Hc.
    by apply negb_true_iff in Hc. }
  unfold data_ok, strip. rewrite strip_id.
  - rewrite String.eqb_refl. unfold no_break. rewrite !sforall_app.
    assert (sforall (negb ∘ is_linebreak) addr = true) as ->.
    { eapply sforall_impl; [|exact Ha]. char_decide. }
    by destruct Ht as [-> | ->].
  - by destruct Ht as [-> | ->].
  - rewrite <-sapp_assoc. apply Hlast.
Qed.


