(* ===== verification/ParseCache.v ===== *)
(** * The source parse cache

    [parse_source_file] of [app/alderpointdns_compiler.py]: a downloaded list is
    parsed once per content hash and parser version; the two domain sets are kept
    as artifact files and the statistics as a JSON document in the table
    [source_parse_cache].  Files are a map from path to text. *)

From S2P Require Import Prelude PyStr PyJson StrLemmas DomainName SourceParser.

(** app/alderpointdns_compiler.py:257-257 PARSER_CACHE_VERSION *)
Definition PARSER_CACHE_VERSION : string := "2026-08-09-v1-parser-fastpath".

(** ** The statistics document *)

(** app/alderpointdns_compiler.py:777-791 _stats_to_json *)
Definition stats_to_json (stats : ParseStats) : json := JObj [
  ("accepted_domains", JInt (accepted_domains stats));
  ("downloaded_entries", JInt (downloaded_entries stats));
  ("duplicate_domains", JInt (duplicate_domains stats));
  ("exceptions", JInt (exceptions stats));
  ("invalid_rules", JInt (invalid_rules stats));
  ("parsed_rules", JInt (parsed_rules stats));
  ("rejected_samples", JList (take 20 (rejected_samples stats)));
  ("unique_active_domains", JInt (unique_active_domains stats));
  ("unsupported_rules", JInt (unsupported_rules stats))].

(** app/alderpointdns_compiler.py:794-806 _stats_from_json *)
Definition stats_from_json (text : option json) : res ParseStats :=
  data ← json_loads text;
  de ← get_int data "downloaded_entries";
  pr ← get_int data "parsed_rules";
  ad ← get_int data "accepted_domains";
  dd ← get_int data "duplicate_domains";
  ir ← get_int data "invalid_rules";
  ur ← get_int data "unsupported_rules";
  ua ← get_int data "unique_active_domains";
  ex ← get_int data "exceptions";
  rs ← dict_get data "rejected_samples" (JList []);
  rs ← py_list rs;
  Ok (mkParseStats de pr ad dd ir ur ua ex (take 20 rs)).

Lemma stats_json_roundtrip stats :
  length (rejected_samples stats) ≤ 20 → stats_from_json (Some (stats_to_json stats)) = Ok stats.
Proof.
  intros Hlen. unfold stats_from_json, stats_to_json. simpl.
  rewrite take_take, take_ge by lia. by destruct stats.
Qed.

(** ** Domain artifacts *)

Abbreviation filesystem := (gmap string string).

(** app/alderpointdns_compiler.py:809-812 _read_domain_artifact *)
Definition read_domain_artifact (files : filesystem) (path : string) : res (gset string) :=
  match files !! path with
  | None => Raise (PyExc "FileNotFoundError" path)
  | Some text =>
      Ok (list_to_set (List.filter (λ d, negb (String.eqb d "")) (strip <$> splitlines text)))
  end.

Definition artifact (domains : gset string) : string :=
  foldr (λ domain text, domain +:+ nl +:+ text) "" (sorted_set domains).

(** app/alderpointdns_compiler.py:815-817 _write_domain_artifact *)
Definition write_domain_artifact (path : string) (domains : gset string) (files : filesystem)
    : filesystem := <[path := artifact domains]> files.

(** ** The cache *)

Record cache_row := mkCacheRow {
  cr_sha256 : string; cr_version : string;
  cr_blocks : string; cr_allows : string; cr_stats : option json }.

Record cache_store := mkStore { fs : filesystem; parse_cache : gmap Z cache_row }.

(** Text-mode iteration: universal newlines, each line kept with its ["\n"]. *)
Fixpoint text_lines_go (cur : string) (s : string) : list string :=
  match s with
  | "" => if String.eqb cur "" then [] else [String.rev cur]
  | String c rest =>
      if Ascii.eqb c "010" then String.rev (String "010" cur) :: text_lines_go "" rest
      else if Ascii.eqb c "013"
      then match rest with
           | String "010" rest' => String.rev (String "010" cur) :: text_lines_go "" rest'
           | _ => String.rev (String "010" cur) :: text_lines_go "" rest
           end
      else text_lines_go (String c cur) rest
  end.
Definition text_lines : string → list string := text_lines_go "".

Example text_lines_ex : text_lines ("a" +:+ cr +:+ nl +:+ "b" +:+ cr +:+ cr +:+ nl +:+ "c")
  = ["a" +:+ nl; "b" +:+ nl; nl; "c"].
Proof. reflexivity. Qed.

(** What [except (OSError, json.JSONDecodeError, KeyError, TypeError, ValueError)]
    catches. *)
Definition cache_error (e : pyexc) : bool :=
  existsb (String.eqb (exc_class e))
    ["FileNotFoundError"; "JSONDecodeError"; "KeyError"; "TypeError"; "ValueError"].

Definition parse_result : Type := gset string * gset string * ParseStats.

(** Paths below the download directory: the artifacts and the downloaded lists. *)
Definition cache_dir : string := "parse-cache/".
Definition current_dir : string := "current/".

Section cache.
Context `{Platform}.
(** The hexadecimal digest of a file's bytes, and their decoding as text with
    [errors="replace"]. *)
Context (sha256 : string → string) (decode : string → string).

(** [prefix.with_suffix(kind)]; a hexadecimal digest has no dot. *)
Definition artifact_path (source_id : Z) (content kind : string) : string :=
  cache_dir +:+ str_int source_id +:+ "-" +:+ sha256 content +:+ kind.

(** The uncached parse. *)
Definition parse_content (content : string) : parse_result :=
  parse_rule_lines (text_lines (decode content)).

Definition cache_hit (row : cache_row) (content : string) : bool :=
  String.eqb (cr_sha256 row) (sha256 content) && String.eqb (cr_version row) PARSER_CACHE_VERSION.

Definition read_cached (files : filesystem) (row : cache_row) : res parse_result :=
  blocks ← read_domain_artifact files (cr_blocks row);
  allows ← read_domain_artifact files (cr_allows row);
  stats ← stats_from_json (cr_stats row);
  Ok (blocks, allows, stats).

(** Parse the text, write the artifacts, upsert the row. *)
Definition parse_and_store (source_id : Z) (content : string) (st : cache_store)
    : parse_result * cache_store :=
  let '(blocks, allows, stats) := parse_content content in
  let blocks_path := artifact_path source_id content ".blocks" in
  let allows_path := artifact_path source_id content ".allows" in
  let files := write_domain_artifact allows_path allows
                 (write_domain_artifact blocks_path blocks (fs st)) in
  ((blocks, allows, stats),
   mkStore files
     (<[source_id := mkCacheRow (sha256 content) PARSER_CACHE_VERSION blocks_path allows_path
                       (Some (stats_to_json stats))]> (parse_cache st))).

(** app/alderpointdns_compiler.py:820-862 parse_source_file *)
Definition parse_source_file (source_id : Z) (path : string) (st : cache_store)
    : res parse_result * cache_store :=
  match fs st !! path with
  | None => (Raise (PyExc "FileNotFoundError" path), st)
  | Some content =>
      let fresh := let '(r, st') := parse_and_store source_id content st in (Ok r, st') in
      match parse_cache st !! source_id with
      | Some row =>
          if cache_hit row content then
            match read_cached (fs st) row with
            | Ok r => (Ok r, st)
            | Raise e => if cache_error e then fresh else (Raise e, st)
            end
          else fresh
      | None => fresh
      end
  end.
End cache.
#[global] Arguments parse_content : simpl never.
#[global] Arguments parse_source_file : simpl never.

(** ** Artifacts round trip *)

Lemma splitlines_go_text (l : list string) :
  (∀ w, w ∈ l → no_break w = true) →
  splitlines (foldr (λ w text, w +:+ nl +:+ text) "" l) = l.
Proof.
  unfold splitlines. induction l as [|w l IH]; intros Hl; [done|]. simpl.
  change (String.append w (nl +:+ foldr (λ w text, w +:+ nl +:+ text) "" l))
    with (w +:+ nl +:+ foldr (λ w text, w +:+ nl +:+ text) "" l).
  rewrite splitlines_go_line by (apply Hl; left). f_equal. apply IH. intros. apply Hl. by right.
Qed.

Lemma valid_domain_no_break d : valid_domain d = true → no_break d = true.
Proof. intros Hd%valid_domain_chars. revert Hd. apply sforall_impl. char_decide. Qed.

Lemma read_written_artifact files path (domains : gset string) :
  (∀ d, d ∈ domains → valid_domain d = true) → files !! path = Some (artifact domains) →
  read_domain_artifact files path = Ok domains.
Proof.
  intros Hd Hf. unfold read_domain_artifact. rewrite Hf. f_equal. unfold artifact.
  rewrite splitlines_go_text.
  2:{ intros d Hd'%elem_of_sorted_set. by apply valid_domain_no_break, Hd. }
  apply set_eq. intros d. rewrite elem_of_list_to_set, elem_of_filterb, list_elem_of_fmap.
  setoid_rewrite elem_of_sorted_set. split.
  - intros [(d' & -> & Hd') _]. by rewrite valid_domain_strip by auto.
  - intros Hdd. specialize (Hd _ Hdd). split; [exists d; by rewrite valid_domain_strip|].
    apply negb_true_iff, String.eqb_neq. by apply valid_domain_nonempty.
Qed.

(** ** The cache is transparent *)

(** What happens to the store between two parses: a download replaces a source
    file, an artifact (or any file) is lost, a source is parsed. *)
Inductive cache_event :=
| Put (path content : string)
| Lose (path : string)
| Parse (source_id : Z) (path : string).

Definition outside (path : string) : Prop := starts_with cache_dir path = false.
Definition is_current (path : string) : Prop := starts_with current_dir path = true.

Lemma current_outside path : is_current path → outside path.
Proof.
  unfold is_current, outside. intros (t & ->)%starts_with_spec. by vm_compute.
Qed.

Definition event_ok (e : cache_event) : Prop :=
  match e with Put path _ => outside path | Parse _ path => is_current path | Lose _ => True end.

Definition contents (es : list cache_event) : list string :=
  omap (λ e, match e with Put _ c => Some c | _ => None end) es.

Section transparent.
Context `{Platform} (sha256 : string → string) (decode : string → string).
Context (digest_length : ∀ c, slen (sha256 c) = 64).

Definition collision_free (seen : list string) : Prop :=
  ∀ c c', c ∈ seen → c' ∈ seen → sha256 c = sha256 c' → c = c'.

Definition cache_step (st : cache_store) (e : cache_event) : cache_store :=
  match e with
  | Put path content => st{{fs ::= <[path := content]>}}
  | Lose path => st{{fs ::= delete path}}
  | Parse source_id path => (parse_source_file sha256 decode source_id path st).2
  end.

Definition row_of (source_id : Z) (c : string) : cache_row :=
  mkCacheRow (sha256 c) PARSER_CACHE_VERSION
    (artifact_path sha256 source_id c ".blocks") (artifact_path sha256 source_id c ".allows")
    (Some (stats_to_json (parse_content decode c).2)).

Record store_ok (seen : list string) (st : cache_store) : Prop := {
  ok_contents : ∀ p c, fs st !! p = Some c → is_current p → c ∈ seen;
  ok_blocks : ∀ i c text, c ∈ seen → fs st !! artifact_path sha256 i c ".blocks" = Some text →
    text = artifact (parse_content decode c).1.1;
  ok_allows : ∀ i c text, c ∈ seen → fs st !! artifact_path sha256 i c ".allows" = Some text →
    text = artifact (parse_content decode c).1.2;
  ok_rows : ∀ i row, parse_cache st !! i = Some row → ∃ c, c ∈ seen ∧ row = row_of i c;
}.

Lemma artifact_path_inside i c kind : ¬ outside (artifact_path sha256 i c kind).
Proof. unfold outside, artifact_path. by rewrite starts_with_app. Qed.

Lemma artifact_path_inj i c k i' c' k' :
  artifact_path sha256 i c k = artifact_path sha256 i' c' k' → slen k = slen k' →
  sha256 c = sha256 c' ∧ k = k'.
Proof.
  unfold artifact_path. rewrite <-!sapp_assoc. intros Hp Hl.
  apply sapp_inj_length in Hp as [Hp ->]; [|done].
  apply sapp_inj_length in Hp as [_ Hp]; [done|]. by rewrite !digest_length.
Qed.

(** Writing at a path of another kind or content leaves an artifact alone. *)
Lemma store_parse_ok seen i c st :
  collision_free seen → store_ok seen st → c ∈ seen →
  store_ok seen (parse_and_store sha256 decode i c st).2.
Proof.
  intros Hcf [Hc Hb Ha Hr] Hseen. unfold parse_and_store.
  destruct (parse_content decode c) as [[B A] stats] eqn:E. unfold write_domain_artifact.
  split; cbn [snd fs parse_cache].
  - intros p c' Hp Hout.
    rewrite !lookup_insert_ne in Hp by
      (intros <-; by eapply artifact_path_inside, current_outside). by eapply Hc.
  - intros i' c' text Hc'. rewrite !lookup_insert_Some.
    intros [[Hp ?]|[_ [[Hp <-]|[_ Hl]]]]; [|..].
    + by apply artifact_path_inj in Hp as [_ ?].
    + apply artifact_path_inj in Hp as [Hp _]; [|done]. apply Hcf in Hp; [|done..]. subst c'. by rewrite E.
    + by eapply Hb.
  - intros i' c' text Hc'. rewrite !lookup_insert_Some.
    intros [[Hp <-]|[_ [[Hp ?]|[_ Hl]]]]; [|..].
    + apply artifact_path_inj in Hp as [Hp _]; [|done]. apply Hcf in Hp; [|done..]. subst c'. by rewrite E.
    + by apply artifact_path_inj in Hp as [_ ?].
    + by eapply Ha.
  - intros i' row. rewrite lookup_insert_Some. intros [[<- <-]|[_ Hl]]; [|by apply Hr].
    exists c. split; [done|]. unfold row_of. by rewrite E.
Qed.

(** A hit reads back exactly what the parse of the content gives, or fails on a
    lost artifact. *)
Lemma read_cached_ok seen i c st :
  store_ok seen st → c ∈ seen →
  read_cached (fs st) (row_of i c) = Ok (parse_content decode c)
  ∨ ∃ e, read_cached (fs st) (row_of i c) = Raise e ∧ cache_error e = true.
Proof.
  intros [Hc Hb Ha Hr] Hseen. unfold read_cached, row_of; cbn [cr_blocks cr_allows cr_stats].
  specialize (Hb i c). specialize (Ha i c).
  destruct (parse_content decode c) as [[B A] stats] eqn:E.
  apply parse_rule_lines_sound in E as (Hd & Hl & _).
  destruct (fs st !! artifact_path sha256 i c ".blocks") as [tb|] eqn:Eb.
  2:{ right. unfold read_domain_artifact. rewrite Eb. by eexists. }
  destruct (fs st !! artifact_path sha256 i c ".allows") as [ta|] eqn:Ea.
  2:{ right. unfold read_domain_artifact. rewrite Eb, Ea. by eexists. }
  rewrite (read_written_artifact _ (artifact_path sha256 i c ".blocks") B); [|intros; apply Hd; by left|rewrite Eb; by rewrite (Hb tb)].
  rewrite (read_written_artifact _ _ A); [|intros; apply Hd; by right|rewrite Ea; by rewrite (Ha ta)].
  change ((B, A, stats).2) with stats. rewrite (stats_json_roundtrip stats) by done. by left.
Qed.

Lemma parse_source_file_spec seen i p c st :
  collision_free seen → store_ok seen st → fs st !! p = Some c → is_current p →
  (parse_source_file sha256 decode i p st).1 = Ok (parse_content decode c)
  ∧ store_ok seen (parse_source_file sha256 decode i p st).2.
Proof.
  intros Hcf Hok Hp Hout. assert (c ∈ seen) as Hseen by (by eapply ok_contents).
  assert (∀ r st', parse_and_store sha256 decode i c st = (r, st') →
    r = parse_content decode c ∧ store_ok seen st') as Hfresh.
  { intros r st' Heq. pose proof (store_parse_ok seen i c st Hcf Hok Hseen) as H1.
    rewrite Heq in H1. split; [|done]. unfold parse_and_store in Heq.
    destruct (parse_content decode c) as [[B A] stats]. by injection Heq as <- <-. }
  unfold parse_source_file. rewrite Hp.
  destruct (parse_and_store sha256 decode i c st) as [r st'].
  destruct (Hfresh r st' eq_refl) as [-> Hok'].
  destruct (parse_cache st !! i) as [row|] eqn:Hrow; [|done].
  destruct (cache_hit sha256 row c) eqn:Hhit; [|done].
  destruct (ok_rows _ _ Hok _ _ Hrow) as (c' & Hc' & ->).
  unfold cache_hit in Hhit. bool_to_prop.
  assert (c' = c) as -> by (apply Hcf; [done..|by apply String.eqb_eq]).
  destruct (read_cached_ok seen i c st Hok Hc') as [->|(e & -> & ->)]; done.
Qed.

Lemma cache_step_ok seen st e :
  collision_free seen → store_ok seen st → event_ok e →
  (∀ p c, e = Put p c → c ∈ seen) → store_ok seen (cache_step st e).
Proof.
  intros Hcf Hok Hout Hput. destruct e as [p c|p|i p]; simpl in *.
  - destruct Hok as [Hc Hb Ha Hr]. split; simpl.
    + intros p' c'. rewrite lookup_insert_Some. intros [[<- <-]|[_ Hl]] ?; [by eapply Hput|by eapply Hc].
    + intros i c' text ?. rewrite lookup_insert_ne by (intros ->; by eapply artifact_path_inside). by eapply Hb.
    + intros i c' text ?. rewrite lookup_insert_ne by (intros ->; by eapply artifact_path_inside). by eapply Ha.
    + done.
  - destruct Hok as [Hc Hb Ha Hr]. split; simpl; [..|done].
    + intros p' c'. rewrite lookup_delete_Some. intros [_ ?]. by eapply Hc.
    + intros i c' text ?. rewrite lookup_delete_Some. intros [_ ?]. by eapply Hb.
    + intros i c' text ?. rewrite lookup_delete_Some. intros [_ ?]. by eapply Ha.
  - destruct (fs st !! p) as [c|] eqn:Hp; [by eapply parse_source_file_spec|].
    unfold parse_source_file. by rewrite Hp.
Qed.

Lemma empty_store_ok seen : store_ok seen (mkStore ∅ ∅).
Proof. by split; intros *; rewrite ?lookup_empty. Qed.

Lemma cache_steps_ok seen es st :
  collision_free seen → store_ok seen st → Forall event_ok es → contents es ⊆ seen →
  store_ok seen (fold_left cache_step es st).
Proof.
  intros Hcf. revert st. induction es as [|e es IH]; intros st Hok Hout Hsub; [done|].
  apply Forall_cons in Hout as [He Hout]. simpl. apply IH; [|done|].
  - apply cache_step_ok; [done..|]. intros p c ->. apply Hsub. simpl. left.
  - intros c Hc. apply Hsub. destruct e; simpl; [by right|done..].
Qed.
End transparent.

(** ** Properties *)

(** C14: The parse cache never changes what a source contributes.  Start from an empty
    store and let downloads replace source files, files get lost (the cache's own
    artifacts included) and sources be parsed in any order: as long as no two
    downloaded contents have the same digest, parsing a source returns the parse
    of the file's current content, blocked and allowed names and statistics. *)
Theorem parse_cache_transparent `{Platform} sha256 decode es source_id path content :
  (∀ c, slen (sha256 c) = 64) → collision_free sha256 (contents es) →
  Forall event_ok es → is_current path →
  let st := fold_left (cache_step sha256 decode) es (mkStore ∅ ∅) in
  fs st !! path = Some content →
  (parse_source_file sha256 decode source_id path st).1 = Ok (parse_content decode content).
Proof.
  intros Hlen Hcf Hes Hout st Hp.
  eapply (parse_source_file_spec sha256 decode Hlen (contents es)); [done| |done|done].
  by apply cache_steps_ok; [| |apply empty_store_ok|..].
Qed.

(** A digest for the example: the content, padded. *)
Definition padded (c : string) : string :=
  stake 64 (c +:+ "0000000000000000000000000000000000000000000000000000000000000000").

Lemma slen_padded c : slen (padded c) = 64.
Proof.
  unfold padded. rewrite slen_stake, slen_app.
  match goal with |- context [slen c + ?n] => change n with 64 end. lia.
Qed.

Lemma parse_cache_transparent_witness :
  let _ := sample_platform in
  let list := "||ads.example^" +:+ nl +:+ "@@ok.example" in
  let es := [Put "current/1-list.txt" list; Parse 1 "current/1-list.txt";
             Lose (artifact_path padded 1 list ".allows"); Parse 1 "current/1-list.txt";
             Put "current/1-list.txt" "ads.example"; Put "current/2-list.txt" list; Parse 2 "current/2-list.txt"] in
  (parse_source_file padded id 2 "current/2-list.txt" (fold_left (cache_step padded id) es (mkStore ∅ ∅))).1
  = Ok ({["ads.example"]}, {["ok.example"]}, mkParseStats 2 2 2 0 0 0 1 1 []).
Proof.
  intros P list es.
  rewrite (@parse_cache_transparent P padded id es 2 "current/2-list.txt" list slen_padded).
  - vm_compute. reflexivity.
  - intros c c' Hc Hc' Heq.
    apply list_elem_of_In in Hc, Hc'. simpl in Hc, Hc'.
    destruct Hc as [<-|[<-|[<-|[]]]], Hc' as [<-|[<-|[<-|[]]]]; done || (vm_compute in Heq; discriminate).
  - repeat constructor.
  - done.
  - vm_compute. reflexivity.
Defined.
