(* ===== verification/Sources.v ===== *)
(** * Blocklist sources

    The source table of [app/alderpointdns_compiler.py] and one update run over it:
    [download_source], [collect_rules] with its cross-source accounting, the health
    state shown for a source and the exit code of [update_sources].  Paths are
    relative to the download directory; local file operations do not fail. *)

From S2P Require Import Prelude PyStr PyJson StrLemmas DomainName SourceParser ParseCache.

(** ** Data *)

(** A row of the table [sources].  A TEXT column without NOT NULL is an option. *)
Record source_row := mkSource {
  src_id : Z; src_name : string; src_url : string; src_enabled : bool; src_category : string;
  src_last_attempt : option string; src_last_success : option string;
  src_http_status : option Z; src_downloaded_bytes : Z; src_last_error : option string;
  src_using_cached : bool;
  src_downloaded_entries : Z; src_parsed_rules : Z; src_accepted_domains : Z;
  src_duplicate_domains : Z; src_invalid_rules : Z; src_unsupported_rules : Z;
  src_unique_active_domains : Z; src_rejected_samples : option json; src_last_warning : string;
  src_final_active_domains : Z; src_last_compile : option string;
}.

(** app/alderpointdns_compiler.py:139-148 SourceResult *)
Record SourceResult := mkResult {
  res_source_id : Z; res_name : string; res_url : string; res_success : bool;
  res_http_status : option Z; res_downloaded_bytes : Z; res_path : option string;
  res_error : option string;
}.

(** The database and the files of an update run. *)
Record source_store := mkSources { ss_sources : list source_row; ss_cache : cache_store }.

(** Truthiness of a nullable text. *)
Definition truthy (s : option string) : bool :=
  match s with Some s => negb (String.eqb s "") | None => false end.

Definition or_empty (s : option string) : string := default "" s.

(** app/alderpointdns_compiler.py:72-79 HEALTH_HEALTHY *)
Inductive health := Healthy | HealthyRedundant | Warning | UnsupportedFormat | HealthError
  | UsingCached | Pending | DisabledSource.

#[export] Instance health_eq_dec : EqDecision health.
Proof. solve_decision. Defined.

(** app/alderpointdns_compiler.py:81-90 HEALTH_LABELS *)
Definition HEALTH_LABELS (h : health) : string :=
  match h with
  | Healthy => "Healthy" | HealthyRedundant => "Healthy, redundant" | Warning => "Warning"
  | UnsupportedFormat => "Unsupported format" | HealthError => "Error"
  | UsingCached => "Using cached copy" | Pending => "Pending" | DisabledSource => "Disabled"
  end.

(** app/alderpointdns_compiler.py:92-101 HEALTH_TONES *)
Definition HEALTH_TONES (h : health) : string :=
  match h with
  | Healthy | HealthyRedundant => "healthy"
  | Warning | UnsupportedFormat | UsingCached => "degraded"
  | HealthError => "down"
  | Pending | DisabledSource => "unavailable"
  end.

(** app/alderpointdns_compiler.py:1030-1065 source_health *)
Definition source_health (source : source_row) : health :=
  if negb (src_enabled source) then DisabledSource
  else if negb (truthy (src_last_success source))
  then if truthy (src_last_error source) then HealthError else Pending
  else if truthy (src_last_error source)
  then if src_using_cached source then UsingCached else HealthError
  else if negb (src_downloaded_entries source =? 0)%Z && (src_parsed_rules source =? 0)%Z
  then UnsupportedFormat
  else if negb (src_invalid_rules source =? 0)%Z || negb (src_unsupported_rules source =? 0)%Z
  then Warning
  else if negb (src_parsed_rules source =? 0)%Z && (src_unique_active_domains source =? 0)%Z
  then HealthyRedundant
  else Healthy.

(** ** The table *)

Definition new_source (id : Z) (name url category : string) (enabled : bool) : source_row :=
  mkSource id name url enabled category None None None 0 None false 0 0 0 0 0 0 0 (Some (JList []))
    "" 0 None.

Definition next_source_id (l : list source_row) : Z := fresh_id (src_id <$> l).

(** app/alderpointdns_compiler.py:2005-2018 add_source *)
Definition add_source (name url category : string) (enabled : bool) (l : list source_row)
    : list source_row :=
  if existsb (λ s, String.eqb (src_name s) name) l
  then (λ s, if String.eqb (src_name s) name
             then s{{src_url := url; src_enabled := enabled; src_category := category}}
             else s) <$> l
  else l ++ [new_source (next_source_id l) name url category enabled].

(** app/alderpointdns_compiler.py:938-939 enabled_sources *)
Definition enabled_sources (l : list source_row) : list source_row :=
  List.filter src_enabled l.

Definition update_source_row (id : Z) (f : source_row → source_row) (l : list source_row)
    : list source_row :=
  (λ s, if (src_id s =? id)%Z then f s else s) <$> l.

Definition download_row (ts : string) (result : SourceResult) (using_cached_copy : bool)
    (s : source_row) : source_row :=
  let s := s{{src_last_attempt := Some ts; src_http_status := res_http_status result;
              src_downloaded_bytes := res_downloaded_bytes result;
              src_last_error := res_error result; src_using_cached := using_cached_copy}} in
  if res_success result then s{{src_last_success := Some ts}} else s.

(** app/alderpointdns_compiler.py:896-912 record_download_result *)
Definition record_download_result (ts : string) (result : SourceResult) (using_cached_copy : bool)
    (l : list source_row) : list source_row :=
  update_source_row (res_source_id result) (download_row ts result using_cached_copy) l.

Definition warning_text (invalid unsupported : Z) : string :=
  let parts := (if (invalid =? 0)%Z then [] else [str_int invalid +:+ " invalid"])
               ++ (if (unsupported =? 0)%Z then [] else [str_int unsupported +:+ " unsupported"]) in
  match parts with [] => "" | _ => join ", " parts +:+ " entries" end.

Definition stats_row (stats : ParseStats) (s : source_row) : source_row :=
  s{{
    src_downloaded_entries := downloaded_entries stats; src_parsed_rules := parsed_rules stats;
    src_accepted_domains := accepted_domains stats; src_duplicate_domains := duplicate_domains stats;
    src_invalid_rules := invalid_rules stats; src_unsupported_rules := unsupported_rules stats;
    src_unique_active_domains := unique_active_domains stats;
    src_rejected_samples := Some (JList (take 20 (rejected_samples stats)));
    src_last_warning := warning_text (invalid_rules stats) (unsupported_rules stats)}}.

(** app/alderpointdns_compiler.py:915-935 record_parse_stats *)
Definition record_parse_stats (source_id : Z) (stats : ParseStats) (l : list source_row)
    : list source_row := update_source_row source_id (stats_row stats) l.

(** ** Downloading *)

(** app/alderpointdns_compiler.py:50-50 MAX_SOURCE_BYTES *)
Definition MAX_SOURCE_BYTES : Z := 25 * 1024 * 1024.
(** app/alderpointdns_compiler.py:52-52 TOTAL_TIMEOUT *)
Definition TOTAL_TIMEOUT : Z := 60.

(** What the network does for one request: the error opening it, or its status and
    the successive reads, each with the milliseconds elapsed when it starts; a read
    fails or returns a chunk, and the empty chunk (or no further read) is the end. *)
Record response := mkResponse {
  rs_open : option string; rs_status : option Z; rs_reads : list (Z * (string + string)) }.

(** [downloaded_bytes], the staged text and the error, if any. *)
Fixpoint read_loop (downloaded : Z) (staged : string) (reads : list (Z * (string + string)))
    : Z * string * option string :=
  match reads with
  | [] => (downloaded, staged, None)
  | (elapsed, r) :: reads =>
      if (TOTAL_TIMEOUT * 1000 <? elapsed)%Z
      then (downloaded, staged, Some "source download exceeded total timeout")
      else match r with
      | inl e => (downloaded, staged, Some e)
      | inr chunk =>
          if String.eqb chunk "" then (downloaded, staged, None)
          else
            let downloaded := (downloaded + Z.of_nat (slen chunk))%Z in
            if (MAX_SOURCE_BYTES <? downloaded)%Z
            then (downloaded, staged,
                  Some ("source exceeds " +:+ str_int MAX_SOURCE_BYTES +:+ " byte limit"))
            else read_loop downloaded (staged +:+ chunk) reads
      end
  end.

Definition slug_char (c : ascii) : bool :=
  is_lower_az c || is_upper_az c || is_09 c || char_in c "_.-".

(** [re.sub(r"[^a-zA-Z0-9_.-]+", "-", s)] *)
Fixpoint squeeze (in_run : bool) (s : string) : string :=
  match s with
  | "" => ""
  | String c s =>
      if slug_char c then String c (squeeze false s)
      else if in_run then squeeze true s else String "-" (squeeze true s)
  end.

Section update.
Context `{Platform} (sha256 : string → string) (decode : string → string).

(** app/alderpointdns_compiler.py:237-239 slug *)
Definition slug (text : string) : string :=
  let value := strip_char "-" (squeeze false (lower (strip text))) in
  if String.eqb value "" then stake 16 (sha256 text) else value.

(** app/alderpointdns_compiler.py:764-766 source_paths *)
Definition source_paths (source : source_row) : string * string :=
  let name := str_int (src_id source) +:+ "-" +:+ slug (src_name source) +:+ ".txt" in
  (current_dir +:+ name, "staging/" +:+ name).

(** app/alderpointdns_compiler.py:865-893 download_source *)
Definition download_source (net : source_row → response) (source : source_row)
    (files : filesystem) : SourceResult * filesystem :=
  let '(current_path, staging_path) := source_paths source in
  let r := net source in
  let result := mkResult (src_id source) (src_name source) (src_url source) false
                  None 0 None None in
  let failed (result : SourceResult) (error : string) (files : filesystem) :=
    (result{{res_error := Some error;
             res_path := if decide (is_Some (files !! current_path))
                         then Some current_path else None}}, files) in
  match rs_open r with
  | Some e => failed result e files
  | None =>
      let '(downloaded, staged, error) := read_loop 0 "" (rs_reads r) in
      let result := result{{res_http_status := rs_status r; res_downloaded_bytes := downloaded}} in
      match error with
      | Some e => failed result e (<[staging_path := staged]> files)
      | None => (result{{res_success := true; res_path := Some current_path}},
                 <[current_path := staged]> (delete staging_path files))
      end
  end.

Definition path_exists (files : filesystem) (path : option string) : bool :=
  match path with Some p => bool_decide (is_Some (files !! p)) | None => false end.

(** The first loop of [collect_rules]: every enabled source with its result. *)
Fixpoint download_all (net : source_row → response) (l : list source_row) (files : filesystem)
    : list (source_row * SourceResult) * list (SourceResult * bool) * filesystem :=
  match l with
  | [] => ([], [], files)
  | source :: l =>
      let '(result, files) := download_source net source files in
      let using_cached := negb (res_success result) && path_exists files (res_path result) in
      let '(pending, downloads, files) := download_all net l files in
      ((source, result) :: pending, (result, using_cached) :: downloads, files)
  end.

Definition cached_result (files : filesystem) (source : source_row) : SourceResult :=
  let '(current_path, _) := source_paths source in
  mkResult (src_id source) (src_name source) (src_url source)
    (bool_decide (is_Some (files !! current_path))) None 0 (Some current_path) None.

(** The second loop: parse what each source left on disk. *)
Fixpoint parse_all (pending : list (source_row * SourceResult)) (st : cache_store)
    : res (list (source_row * parse_result)) * cache_store :=
  match pending with
  | [] => (Ok [], st)
  | (source, result) :: pending =>
      let '(r, st) :=
        match res_path result with
        | Some path =>
            if path_exists (fs st) (Some path)
            then parse_source_file sha256 decode (src_id source) path st
            else (Ok (∅, ∅, empty_stats), st)
        | None => (Ok (∅, ∅, empty_stats), st)
        end in
      match r with
      | Raise e => (Raise e, st)
      | Ok r =>
          let '(l, st) := parse_all pending st in
          (l' ← l; Ok ((source, r) :: l'), st)
      end
  end.

(** The third loop: what each source adds to the sources before it. *)
Fixpoint account (seen : gset string) (l : list (source_row * parse_result))
    : list (source_row * ParseStats) :=
  match l with
  | [] => []
  | (source, (blocks, _, stats)) :: l =>
      let unique := Z.of_nat (size (blocks ∖ seen)) in
      (source, stats{{unique_active_domains := unique;
         duplicate_domains := (parsed_rules stats - accepted_domains stats
                               + (Z.of_nat (size blocks) - unique))%Z}})
      :: account (seen ∪ blocks) l
  end.

Definition all_blocks (l : list (source_row * parse_result)) : gset string := ⋃ ((λ p, p.2.1.1) <$> l).
Definition all_allows (l : list (source_row * parse_result)) : gset string := ⋃ ((λ p, p.2.1.2) <$> l).

Definition result_errors (pending : list (source_row * SourceResult)) : list string :=
  omap (λ p, if truthy (res_error p.2)
             then Some (res_name p.2 +:+ ": " +:+ or_empty (res_error p.2)) else None) pending.

(** The single write transaction at the end of the run. *)
Definition record_run (ts : string) (downloads : list (SourceResult * bool))
    (per_source : list (source_row * ParseStats)) (active : gset string) (l : list source_row)
    : list source_row :=
  let l := fold_left (λ l d, record_download_result ts d.1 d.2 l) downloads l in
  let l := fold_left (λ l p, record_parse_stats (src_id p.1) p.2 l) per_source l in
  (λ s, if src_enabled s then s{{src_final_active_domains := Z.of_nat (size active)}} else s) <$> l.

Record collected := mkCollected {
  co_active : gset string; co_allows : gset string;
  co_per_source : list (source_row * ParseStats); co_errors : list string }.

(** app/alderpointdns_compiler.py:942-1027 collect_rules *)
Definition collect_rules (download : option (source_row → response)) (ts : string)
    (st : source_store) : res collected * source_store :=
  let sources := enabled_sources (ss_sources st) in
  let files := fs (ss_cache st) in
  let '(pending, downloads, files) :=
    match download with
    | Some net => download_all net sources files
    | None => ((λ s, (s, cached_result files s)) <$> sources, [], files)
    end in
  let '(parsed, cache) := parse_all pending (ss_cache st){{fs := files}} in
  match parsed with (* an exception rolls the database back *)
  | Raise e => (Raise e, st{{ss_cache -> fs := fs cache}})
  | Ok parsed =>
      let per_source := account ∅ parsed in
      let active := all_blocks parsed ∖ all_allows parsed in
      (Ok (mkCollected active (all_allows parsed) per_source (result_errors pending)),
       mkSources (record_run ts downloads per_source active (ss_sources st)) cache)
  end.

(** app/alderpointdns_compiler.py:2110-2124 update_one_source *)
Definition update_one_source (net : source_row → response) (ts : string) (source : source_row)
    (st : source_store) : res (SourceResult * ParseStats) * source_store :=
  let '(result, files) := download_source net source (fs (ss_cache st)) in
  let using_cached := negb (res_success result) && path_exists files (res_path result) in
  let st1 := mkSources (record_download_result ts result using_cached (ss_sources st))
               (ss_cache st){{fs := files}} in
  let '(r, st2) := collect_rules None ts st1 in
  match r with
  | Raise e => (Raise e, st2{{ss_sources := ss_sources st}})
  | Ok c =>
      (Ok (result, match find_first (λ p, (src_id p.1 =? src_id source)%Z) (co_per_source c) with
                   | Some p => p.2 | None => empty_stats end), st2)
  end.

Definition degraded (h : health) : bool :=
  bool_decide (h = Warning ∨ h = UnsupportedFormat ∨ h = UsingCached).

Definition exit_code (states : list health) : Z :=
  let hard := length (List.filter (λ h, bool_decide (h = HealthError)) states) in
  if negb (length states =? 0) && (hard =? length states) then 1
  else if negb (hard =? 0) || existsb degraded states then 2 else 0.

(** app/alderpointdns_compiler.py:2127-2155 update_sources *)
Definition update_sources (net : source_row → response) (ts : string) (st : source_store)
    : res Z * source_store :=
  let '(r, st) := collect_rules (Some net) ts st in
  (_ ← r; Ok (exit_code (source_health <$> enabled_sources (ss_sources st))), st).
End update.

(** ** Where a source's list is kept *)

Section paths.
Context `{Platform} (sha256 : string → string).

Definition current_path (source : source_row) : string := (source_paths sha256 source).1.

(** Rows have distinct positive ids, as SQLite assigns them. *)
Record table_ok (l : list source_row) : Prop := {
  tab_unique : NoDup (src_id <$> l);
  tab_positive : ∀ s, s ∈ l → (0 < src_id s)%Z;
}.

Lemma current_path_current source : is_current (current_path source).
Proof. unfold is_current, current_path, source_paths. simpl. by rewrite starts_with_app. Qed.

Lemma current_path_inj s s' :
  (0 < src_id s)%Z → (0 < src_id s')%Z → current_path s = current_path s' → src_id s = src_id s'.
Proof.
  unfold current_path, source_paths. simpl fst. intros Hs Hs' Heq.
  apply (inj (String.append _)) in Heq.
  assert (∀ s, (0 < src_id s)%Z → char_in "-" (str_int (src_id s)) = false) as Hd.
  { intros s0 H0. eapply sforall_not_in; [|apply str_int_digits; lia]. done. }
  apply (f_equal (partition "-")) in Heq.
  rewrite !app_cons, !app_nil_s, !partition_app in Heq by auto.
  injection Heq as Heq _. by apply (inj pretty) in Heq.
Qed.

Lemma staging_not_current s p : is_current p → (source_paths sha256 s).2 ≠ p.
Proof. unfold is_current, source_paths. intros Hp <-. simpl in Hp. by vm_compute in Hp. Qed.

(** The text a successful request leaves. *)
Definition fetched (r : response) : option string :=
  match rs_open r, read_loop 0 "" (rs_reads r) with
  | None, (_, staged, None) => Some staged
  | _, _ => None
  end.

(** Why a request failed. *)
Definition failure (r : response) : option string :=
  match rs_open r with Some e => Some e | None => (read_loop 0 "" (rs_reads r)).2 end.

(** A download replaces the source's file, or leaves every downloaded list as it was
    and reports why. *)
Lemma download_source_spec net s files :
  let '(result, files') := download_source sha256 net s files in
  (∀ p, is_current p → p ≠ current_path s → files' !! p = files !! p)
  ∧ (∀ p, is_current p ∨ starts_with "staging/" p = true ∨ files' !! p = files !! p)
  ∧ res_source_id result = src_id s ∧ res_error result = failure (net s)
  ∧ match fetched (net s) with
    | Some c => res_success result = true ∧ res_path result = Some (current_path s)
                ∧ files' !! current_path s = Some c
    | None => res_success result = false
              ∧ files' !! current_path s = files !! current_path s
              ∧ res_path result = if decide (is_Some (files !! current_path s))
                                  then Some (current_path s) else None
    end.
Proof.
  unfold download_source, fetched, failure.
  pose proof (staging_not_current s) as Hst. pose proof (current_path_current s) as Hcur.
  unfold current_path in *.
  assert (starts_with "staging/" (source_paths sha256 s).2 = true) as Hstg
    by (unfold source_paths; simpl; by rewrite starts_with_app).
  destruct (source_paths sha256 s) as [cur stg]. simpl in *.
  assert (stg ≠ cur) as Hne by (by apply Hst).
  destruct (rs_open (net s)) as [e|]; simpl; [naive_solver|].
  destruct (read_loop 0 "" _) as [[n staged] [e|]]; simpl.
  - rewrite lookup_insert_ne by done. repeat split; try done.
    + intros p Hp _. rewrite lookup_insert_ne; [done|by apply Hst].
    + intros p. destruct (decide (stg = p)) as [<-|]; [auto|].
      right; right. by rewrite lookup_insert_ne.
  - rewrite lookup_insert_eq. repeat split; try done.
    + intros p Hp ?. rewrite lookup_insert_ne by done. rewrite lookup_delete_ne; [done|by apply Hst].
    + intros p. destruct (decide (cur = p)) as [<-|]; [auto|].
      rewrite lookup_insert_ne by done.
      destruct (decide (stg = p)) as [<-|]; [auto|]. right; right. by rewrite lookup_delete_ne.
Qed.
End paths.

(** ** One run *)

Section run.
Context `{Platform} (sha256 : string → string) (decode : string → string).
Context (digest_length : ∀ c, slen (sha256 c) = 64).

Abbreviation current := (current_path sha256).

(** What a source contributes: the parse of its current file, if it has one. *)
Definition contribution (files : filesystem) (s : source_row) : parse_result :=
  match files !! current s with
  | Some c => parse_content decode c
  | None => (∅, ∅, empty_stats)
  end.

(** A result points at the source's file whenever there is one. *)
Definition located (files : filesystem) (p : source_row * SourceResult) : Prop :=
  res_path p.2 = Some (current p.1) ∨ res_path p.2 = None ∧ files !! current p.1 = None.

(** What is recorded of a source's download. *)
Definition downloaded (net : source_row → response) (files : filesystem) (s : source_row)
    (d : SourceResult * bool) : Prop :=
  res_source_id d.1 = src_id s ∧ res_error d.1 = failure (net s)
  ∧ res_success d.1 = bool_decide (is_Some (fetched (net s)))
  ∧ (fetched (net s) = None → d.2 = bool_decide (is_Some (files !! current s))).

Lemma downloaded_same_files net files files' s d :
  files' !! current s = files !! current s → downloaded net files' s d → downloaded net files s d.
Proof. unfold downloaded. intros ->. done. Qed.

Lemma download_all_spec net l files pending downloads files' :
  NoDup (current <$> l) → download_all sha256 net l files = (pending, downloads, files') →
  pending.*1 = l ∧ Forall (located files') pending ∧ Forall2 (downloaded net files) l downloads
  ∧ (∀ p, is_current p → p ∉ (current <$> l) → files' !! p = files !! p)
  ∧ (∀ p, ¬ outside p → files' !! p = files !! p)
  ∧ (∀ s, s ∈ l → fetched (net s) = None → files' !! current s = files !! current s)
  ∧ (∀ p c, is_current p → files' !! p = Some c →
       files !! p = Some c ∨ ∃ s, s ∈ l ∧ fetched (net s) = Some c).
Proof.
  revert files pending downloads files'. induction l as [|s l IH]; intros files pending downloads files'.
  { intros _ [= <- <- <-]. split_and!; auto. }
  cbn [fmap list_fmap]. rewrite NoDup_cons. intros [Hs Hl]. cbn [download_all].
  pose proof (download_source_spec sha256 net s files) as Hd.
  destruct (download_source sha256 net s files) as [result files1].
  destruct Hd as (Hcur & Hany & Hid & Herr & Hres).
  destruct (download_all sha256 net l files1) as [[pend dl] files2] eqn:E. intros [= <- <- <-].
  apply IH in E as (Hp & Hloc & Hdl & Hother & Hout & Hkeep & Hnew); [|done].
  assert (files2 !! current s = files1 !! current s) as Hsame
    by (apply Hother; [apply current_path_current|done]).
  split_and!.
  - cbn [fmap list_fmap fst]. f_equal. exact Hp.
  - apply Forall_cons. split; [|done]. unfold located; cbn [fst snd]. rewrite Hsame.
    destruct (fetched (net s)) as [c|]; destruct_and!; [by left|].
    destruct (decide (is_Some (files !! current s))) as [|Hn]; [by left|right].
    split; [done|]. apply eq_None_not_Some. congruence.
  - constructor.
    + unfold downloaded; cbn [fst snd]. split_and!; [done..| |].
      * destruct (fetched (net s)); by destruct_and!.
      * intros Hn. rewrite Hn in Hres. destruct Hres as (-> & Hf & Hpath). rewrite Hpath. simpl.
        destruct (decide (is_Some (files !! current s))) as [Hsome|Hno]; simpl.
        -- by rewrite Hf.
        -- symmetry. by apply bool_decide_eq_false.
    + rewrite Forall2_same_length_lookup in Hdl |- *. destruct Hdl as [Hlen Hdl].
      split; [done|]. intros i s' d Hs' Hd'.
      eapply downloaded_same_files; [|by eapply Hdl]. apply Hcur; [apply current_path_current|].
      intros Heq. apply Hs. rewrite <-Heq. by eapply list_elem_of_fmap_2, list_elem_of_lookup_2.
  - intros p Hc Hin. apply not_elem_of_cons in Hin as [Hne Hin].
    rewrite (Hother p Hc Hin). by apply Hcur.
  - intros p Hp'. rewrite (Hout p Hp'). destruct (Hany p) as [Hc|[Hc|Hc]]; [..|done]; exfalso;
      apply Hp'; [by apply current_outside|]. unfold outside. revert Hc.
    intros (t & ->)%starts_with_spec. by vm_compute.
  - intros s' [->|Hs']%elem_of_cons Hf.
    + rewrite Hsame. rewrite Hf in Hres. by destruct Hres as (_ & -> & _).
    + rewrite Hkeep by done. apply Hcur; [apply current_path_current|].
      intros Heq. apply Hs. rewrite <-Heq. by apply list_elem_of_fmap_2.
  - intros p c Hc Hf. destruct (Hnew p c Hc Hf) as [Hf1|(s' & ? & ?)].
    2:{ right. exists s'. split; [by right|done]. }
    destruct (decide (p = current s)) as [->|Hne].
    + destruct (fetched (net s)) as [c'|] eqn:Ef; destruct_and!.
      * right. exists s. split; [left|congruence].
      * left. congruence.
    + left. by rewrite <-Hcur.
Qed.

Lemma store_files_ok seen st files :
  store_ok sha256 decode seen st → (∀ p, ¬ outside p → files !! p = fs st !! p) →
  (∀ p c, is_current p → files !! p = Some c → c ∈ seen) →
  store_ok sha256 decode seen st{{fs := files}}.
Proof.
  intros [Hc Hb Ha Hr] Hin Hcur. split; [naive_solver|..|done].
  - intros i c text ?. simpl. rewrite Hin by apply artifact_path_inside. by apply Hb.
  - intros i c text ?. simpl. rewrite Hin by apply artifact_path_inside. by apply Ha.
Qed.

Lemma parse_source_file_current i p st q :
  is_current q → fs (parse_source_file sha256 decode i p st).2 !! q = fs st !! q.
Proof.
  intros Hq%current_outside. unfold parse_source_file.
  destruct (fs st !! p) as [c|]; [|done].
  assert (fs (parse_and_store sha256 decode i c st).2 !! q = fs st !! q) as Hfresh.
  { unfold parse_and_store. destruct (parse_content decode c) as [[B A] stats]. simpl.
    unfold write_domain_artifact.
    rewrite !lookup_insert_ne by (intros <-; by eapply artifact_path_inside). done. }
  destruct (parse_and_store sha256 decode i c st) as [r st'].
  repeat case_match; done.
Qed.

Lemma parse_all_spec seen pending st :
  collision_free sha256 seen → store_ok sha256 decode seen st → Forall (located (fs st)) pending →
  let '(r, st') := parse_all sha256 decode pending st in
  r = Ok ((λ p, (p.1, contribution (fs st) p.1)) <$> pending)
  ∧ store_ok sha256 decode seen st' ∧ (∀ p, is_current p → fs st' !! p = fs st !! p).
Proof.
  intros Hcf. revert st. induction pending as [|[s result] pending IH]; intros st Hok Hloc; [done|].
  apply Forall_cons in Hloc as [Hs Hloc]. cbn [parse_all].
  set (step := match res_path result with Some _ => _ | None => _ end).
  assert (step.1 = Ok (contribution (fs st) s) ∧ store_ok sha256 decode seen step.2
    ∧ ∀ p, is_current p → fs step.2 !! p = fs st !! p) as (Hr & Hok' & Hfs).
  { subst step. unfold contribution. destruct Hs as [Hp|[Hp Hn]]; cbn [fst snd] in *; rewrite Hp.
    - simpl. destruct (fs st !! current s) as [c|] eqn:Hc; simpl; [|done].
      pose proof (current_path_current sha256 s).
      destruct (parse_source_file_spec sha256 decode digest_length seen (src_id s) _ c st Hcf Hok Hc)
        as [-> ?]; [done|].
      split_and!; [done..|]. intros p Hq. by apply parse_source_file_current.
    - by rewrite Hn. }
  destruct step as [r st1]. simpl in Hr, Hok', Hfs. subst r.
  specialize (IH st1 Hok').
  destruct (parse_all sha256 decode pending st1) as [l st2].
  destruct IH as (-> & Hok2 & Hfs2).
  { eapply Forall_impl; [exact Hloc|]. intros [s' r'] [?|[? Hn]]; [by left|right].
    split; [done|]. rewrite Hfs; [done|apply current_path_current]. }
  split_and!; [|done|].
  - simpl. do 2 f_equal. apply list_fmap_ext. intros ? [s' r'] _. simpl. f_equal.
    unfold contribution. by rewrite Hfs by apply current_path_current.
  - intros p Hp. by rewrite Hfs2, Hfs.
Qed.
End run.

(** ** The cross-source accounting *)

Lemma account_sources seen l : (account seen l).*1 = l.*1.
Proof.
  revert seen. induction l as [|[s [[B A] st]] l IH]; intros seen; [done|]. simpl. by rewrite IH.
Qed.

Lemma account_sum seen l :
  foldr Z.add 0%Z ((λ p, unique_active_domains p.2) <$> account seen l)
  = Z.of_nat (size (all_blocks l ∖ seen)).
Proof.
  revert seen. induction l as [|[s [[B A] st]] l IH]; intros seen; simpl.
  { unfold all_blocks. simpl. by rewrite (subseteq_empty_difference_L ∅ seen). }
  change (all_blocks ((s, (B, A, st)) :: l)) with (B ∪ all_blocks l).
  replace ((B ∪ all_blocks l) ∖ seen) with ((B ∖ seen) ∪ (all_blocks l ∖ (seen ∪ B))) by
    (apply set_eq; intros d; destruct (decide (d ∈ B)); set_solver).
  rewrite (size_union (B ∖ seen)) by set_solver. rewrite IH. lia.
Qed.

Definition sound_stats (r : parse_result) : Prop :=
  accepted_domains r.2 = (Z.of_nat (size r.1.1) + Z.of_nat (size r.1.2))%Z
  ∧ exceptions r.2 = Z.of_nat (size r.1.2) ∧ (accepted_domains r.2 ≤ parsed_rules r.2)%Z.

Definition balanced (st : ParseStats) : Prop :=
  parsed_rules st = (unique_active_domains st + duplicate_domains st + exceptions st)%Z
  ∧ (0 ≤ duplicate_domains st)%Z ∧ (0 ≤ unique_active_domains st)%Z.

Lemma account_balanced seen l :
  Forall (λ p, sound_stats p.2) l → Forall (λ p, balanced p.2) (account seen l).
Proof.
  revert seen. induction l as [|[s [[B A] st]] l IH]; intros seen; simpl; [constructor|].
  rewrite !Forall_cons. intros [(Hacc & Hex & Hle) Hl]. split; [|by apply IH].
  assert (size (B ∖ seen) ≤ size B) by (apply subseteq_size; set_solver).
  unfold balanced. destruct st; simpl in *. lia.
Qed.

Lemma contribution_sound `{Platform} sha256 decode files s :
  sound_stats (contribution sha256 decode files s).
Proof.
  unfold contribution. destruct (files !! _) as [c|]; [|by unfold sound_stats; cbn [fst snd]; rewrite size_empty].
  destruct (parse_content decode c) as [[B A] st] eqn:E.
  apply parse_rule_lines_sound in E as (_ & _ & ? & ? & ?). by split_and!.
Qed.

Lemma current_paths_NoDup `{Platform} sha256 l :
  table_ok l → NoDup (current_path sha256 <$> enabled_sources l).
Proof.
  intros [Huniq Hpos]. unfold enabled_sources. induction l as [|s l IH]; [constructor|].
  cbn [fmap list_fmap] in Huniq. apply NoDup_cons in Huniq as [Hs Hl].
  assert (NoDup (current_path sha256 <$> List.filter src_enabled l)) as Hnd.
  { apply IH; [done|]. intros. apply Hpos. by right. }
  simpl. destruct (src_enabled s); [|done]. simpl. apply NoDup_cons. split; [|done].
  intros (s' & Heq & [Hs' _]%elem_of_filterb)%list_elem_of_fmap. apply Hs.
  apply current_path_inj in Heq as ->; [by apply list_elem_of_fmap_2|..].
  - apply Hpos. left.
  - apply Hpos. by right.
Qed.

(** The run, step by step: what is on disk afterwards is what is parsed, and each
    enabled source has its download recorded. *)
Lemma collect_rules_run `{Platform} sha256 decode seen download ts st :
  (∀ c, slen (sha256 c) = 64) → collision_free sha256 seen →
  store_ok sha256 decode seen (ss_cache st) → table_ok (ss_sources st) →
  (∀ net s c, download = Some net → fetched (net s) = Some c → c ∈ seen) →
  let sources := enabled_sources (ss_sources st) in
  ∃ pending dl cache,
    let parsed := (λ s, (s, contribution sha256 decode (fs cache) s)) <$> sources in
    let active := all_blocks parsed ∖ all_allows parsed in
    let per_source := account ∅ parsed in
    collect_rules sha256 decode download ts st
    = (Ok (mkCollected active (all_allows parsed) per_source (result_errors pending)),
       mkSources (record_run ts dl per_source active (ss_sources st)) cache)
    ∧ store_ok sha256 decode seen cache
    ∧ match download with
      | Some net => Forall2 (downloaded sha256 net (fs (ss_cache st))) sources dl
          ∧ ∀ s, s ∈ sources → fetched (net s) = None →
            fs cache !! current_path sha256 s = fs (ss_cache st) !! current_path sha256 s
      | None => dl = []
      end.
Proof.
  intros Hlen Hcf Hok Htab Hnet sources. unfold collect_rules. fold sources.
  assert (NoDup (current_path sha256 <$> sources)) as Hnd by (by apply current_paths_NoDup).
  set (step := match download with Some _ => _ | None => _ end).
  assert (step.1.1.*1 = sources ∧ Forall (located sha256 step.2) step.1.1
    ∧ store_ok sha256 decode seen (ss_cache st){{fs := step.2}}
    ∧ match download with
      | Some net => Forall2 (downloaded sha256 net (fs (ss_cache st))) sources step.1.2
          ∧ ∀ s, s ∈ sources → fetched (net s) = None →
            step.2 !! current_path sha256 s = fs (ss_cache st) !! current_path sha256 s
      | None => step.1.2 = []
      end) as (Hfst & Hloc & Hok' & Hdl).
  { subst step. destruct download as [net|].
    - destruct (download_all sha256 net sources _) as [[pending dl] files] eqn:E.
      apply download_all_spec in E as (? & ? & ? & Hother & Hout & Hkeep & Hnew); [|done].
      cbn [fst snd]. split_and!; [done..| |done|done]. apply store_files_ok; [done..|]. intros p c Hp Hf.
      destruct (Hnew p c Hp Hf) as [?|(s & _ & ?)]; [by eapply ok_contents|by eapply Hnet].
    - simpl. split_and!; [by rewrite <-list_fmap_compose, list_fmap_id| |by destruct (ss_cache st)|done].
      apply Forall_fmap, Forall_true. intros s. left. reflexivity. }
  destruct step as [[pending dl] files]. cbn [fst snd] in Hfst, Hloc, Hok', Hdl.
  pose proof (parse_all_spec sha256 decode Hlen seen pending _ Hcf Hok' Hloc) as Hparse.
  change (fs (ss_cache st){{fs := files}}) with files in Hparse.
  destruct (parse_all sha256 decode pending _) as [r cache]. destruct Hparse as (-> & Hok2 & Hfs).
  exists pending, dl, cache.
  assert ((λ p : source_row * SourceResult, (p.1, contribution sha256 decode files p.1)) <$> pending
    = (λ s, (s, contribution sha256 decode (fs cache) s)) <$> sources) as ->.
  { rewrite <-Hfst, <-list_fmap_compose. apply list_fmap_ext. intros ? [s r] _. simpl. f_equal.
    unfold contribution. by rewrite Hfs by apply current_path_current. }
  split_and!; [done..|]. destruct download as [net|]; [|done]. destruct Hdl as [Hdl Hkeep].
  split; [done|]. intros s Hs Hf. rewrite Hfs by apply current_path_current. by apply Hkeep.
Qed.

(** ** Properties *)

(** C15: An update run, with downloads or without, never fails on sources it cannot
    fetch: each enabled source contributes the parse of the list it has on disk
    afterwards (fresh, or the copy kept from an earlier run, or nothing).  The
    active set is every blocked name minus every name some source allows; for
    each source the parsed rules are the unique, the duplicate and the exception
    ones; and the unique counts add up to the number of distinct blocked names.
    The conditions are those of the parse cache and distinct row ids. *)
Theorem collect_rules_spec `{Platform} sha256 decode seen download ts st :
  (∀ c, slen (sha256 c) = 64) → collision_free sha256 seen →
  store_ok sha256 decode seen (ss_cache st) → table_ok (ss_sources st) →
  (∀ net s c, download = Some net → fetched (net s) = Some c → c ∈ seen) →
  let '(r, st') := collect_rules sha256 decode download ts st in
  let sources := enabled_sources (ss_sources st) in
  let lists := contribution sha256 decode (fs (ss_cache st')) <$> sources in
  ∃ c, r = Ok c
    ∧ co_allows c = ⋃ ((λ r, r.1.2) <$> lists)
    ∧ co_active c = ⋃ ((λ r, r.1.1) <$> lists) ∖ co_allows c
    ∧ (co_per_source c).*1 = sources
    ∧ Forall (λ p, balanced p.2) (co_per_source c)
    ∧ foldr Z.add 0%Z ((λ p, unique_active_domains p.2) <$> co_per_source c)
      = Z.of_nat (size (⋃ ((λ r, r.1.1) <$> lists) : gset string))
    ∧ store_ok sha256 decode seen (ss_cache st').
Proof.
  intros Hlen Hcf Hok Htab Hnet.
  destruct (collect_rules_run sha256 decode seen download ts st Hlen Hcf Hok Htab Hnet)
    as (pending & dl & cache & -> & Hok' & _).
  cbn [ss_cache]. eexists. split; [done|]. cbn [co_allows co_active co_per_source].
  unfold all_blocks, all_allows. rewrite <-!list_fmap_compose. split_and!; [done..| | | |done].
  - by rewrite account_sources, <-list_fmap_compose, list_fmap_id.
  - apply account_balanced, Forall_fmap, Forall_true. intros s. apply contribution_sound.
  - rewrite account_sum. unfold all_blocks. rewrite <-list_fmap_compose.
    by rewrite difference_empty_L.
Qed.

Definition run_list : string := "||ads.example^" +:+ nl +:+ "@@ok.example".
Definition run_net (s : source_row) : response :=
  if (src_id s =? 1)%Z
  then mkResponse None (Some 200%Z) [(10%Z, inr run_list); (20%Z, inr "")]
  else mkResponse (Some "timed out") None [].
Definition run_store : source_store := mkSources
  (add_source "B" "https://b.example/" "malware" true
     (add_source "A" "https://a.example/" "malware" true [])) (mkStore ∅ ∅).

Lemma collect_rules_spec_witness :
  let _ := sample_platform in
  ∃ c, (collect_rules padded id (Some run_net) "t" run_store).1 = Ok c
    ∧ co_active c = {["ads.example"]} ∧ Forall (λ p, balanced p.2) (co_per_source c).
Proof.
  intros P.
  assert (∀ net s c, Some run_net = Some net → fetched (net s) = Some c → c ∈ [run_list]) as Hnet.
  { intros net s c [= <-]. unfold run_net. destruct (src_id s =? 1)%Z.
    - vm_compute. intros [= <-]. left.
    - vm_compute. discriminate. }
  pose proof (@collect_rules_spec P padded id [run_list] (Some run_net) "t" run_store slen_padded) as Hspec.
  destruct (collect_rules padded id (Some run_net) "t" run_store) as [r st'] eqn:E.
  destruct Hspec as (c & Hr & _ & _ & _ & Hbal & _); [..|exact Hnet|].
  - intros c c' Hc Hc' _. apply list_elem_of_singleton in Hc as ->, Hc' as ->. reflexivity.
  - apply empty_store_ok.
  - split; [by apply (bool_decide_unpack _); vm_compute|].
    vm_compute. intros s Hs. apply list_elem_of_In in Hs. simpl in Hs. by destruct Hs as [<-|[<-|[]]].
  - exists c. split; [exact Hr|]. split; [|exact Hbal].
    apply (f_equal fst) in E. rewrite Hr in E. vm_compute in E. injection E as <-. reflexivity.
Defined.

(** ** What a failed download leaves on the row *)

(** A bulk of per-row updates, seen from one row. *)
Lemma fold_update_rows {D} (key : D → Z) (f : D → source_row → source_row) ds l :
  (∀ d s, src_id (f d s) = src_id s) →
  fold_left (λ l d, update_source_row (key d) (f d) l) ds l
  = (λ s, fold_left (λ s d, if (src_id s =? key d)%Z then f d s else s) ds s) <$> l.
Proof.
  intros Hf. revert l. induction ds as [|d ds IH]; intros l; simpl.
  { by rewrite list_fmap_id. }
  rewrite IH. unfold update_source_row. rewrite <-list_fmap_compose. done.
Qed.

Lemma fold_row_other {D} (key : D → Z) (f : D → source_row → source_row) ds s :
  src_id s ∉ (key <$> ds) →
  fold_left (λ s d, if (src_id s =? key d)%Z then f d s else s) ds s = s.
Proof.
  induction ds as [|d ds IH]; [done|]. cbn [fmap list_fmap]. intros [Hd Hds]%not_elem_of_cons. simpl.
  destruct (Z.eqb_spec (src_id s) (key d)); [done|]. by apply IH.
Qed.

Lemma fold_row_once {D} (key : D → Z) (f : D → source_row → source_row) ds d s :
  (∀ d s, src_id (f d s) = src_id s) →
  NoDup (key <$> ds) → d ∈ ds → key d = src_id s →
  fold_left (λ s d, if (src_id s =? key d)%Z then f d s else s) ds s = f d s.
Proof.
  intros Hf Hnd Hin Hd. induction ds as [|d' ds IH]; [by apply elem_of_nil in Hin|].
  cbn [fmap list_fmap] in Hnd. apply NoDup_cons in Hnd as [Hd' Hnd]. simpl.
  apply elem_of_cons in Hin as [->|Hin].
  - rewrite <-Hd, Z.eqb_refl. apply fold_row_other. by rewrite Hf, <-Hd.
  - destruct (Z.eqb_spec (src_id s) (key d')) as [Heq|_]; [|by apply IH].
    exfalso. apply Hd'. rewrite <-Heq, <-Hd. by apply list_elem_of_fmap_2.
Qed.

Lemma download_row_id ts d u s : src_id (download_row ts d u s) = src_id s.
Proof. unfold download_row. by destruct (res_success d). Qed.

(** The row of a source after a run that recorded it once. *)
Lemma record_run_row ts dl per active l s d stats :
  NoDup ((λ d : SourceResult * bool, res_source_id d.1) <$> dl) →
  NoDup ((λ p : source_row * ParseStats, src_id p.1) <$> per) →
  s ∈ l → src_enabled s = true → d ∈ dl → res_source_id d.1 = src_id s →
  (s, stats) ∈ per →
  (stats_row stats (download_row ts d.1 d.2 s)){{src_final_active_domains := Z.of_nat (size active)}}
    ∈ record_run ts dl per active l.
Proof.
  intros Hdl Hper Hs Hen Hd Hid Hst. unfold record_run.
  rewrite (fold_update_rows (λ d : SourceResult * bool, res_source_id d.1)
             (λ d, download_row ts d.1 d.2)) by (intros; apply download_row_id).
  rewrite (fold_update_rows (λ p : source_row * ParseStats, src_id p.1) (λ p, stats_row p.2)) by done.
  rewrite <-!list_fmap_compose. apply list_elem_of_fmap. exists s. split; [|done].
  cbn [compose].
  rewrite (fold_row_once (λ d : SourceResult * bool, res_source_id d.1)
             (λ d, download_row ts d.1 d.2) dl d s) by (done || intros; apply download_row_id).
  rewrite (fold_row_once (λ p : source_row * ParseStats, src_id p.1) (λ p, stats_row p.2) per (s, stats))
    by (done || by rewrite download_row_id).
  assert (src_enabled (stats_row (s, stats).2 (download_row ts d.1 d.2 s)) = true) as ->; [|done].
  unfold download_row. by destruct (res_success d.1).
Qed.

Lemma failure_not_fetched r e : failure r = Some e → fetched r = None.
Proof.
  unfold failure, fetched. destruct (rs_open r); [done|].
  destruct (read_loop 0 "" (rs_reads r)) as [[n staged] [e'|]]; done.
Qed.

(** A request that fails costs nothing but freshness.  When an enabled source that
    succeeded before cannot be fetched, its list on disk is still the old one (and
    still contributes, see [collect_rules_spec]), its last success is not touched,
    and its row reads as using the cached copy. *)
Theorem failed_download_keeps_list `{Platform} sha256 decode seen net ts st s e :
  (∀ c, slen (sha256 c) = 64) → collision_free sha256 seen →
  store_ok sha256 decode seen (ss_cache st) → table_ok (ss_sources st) →
  (∀ s c, fetched (net s) = Some c → c ∈ seen) →
  s ∈ enabled_sources (ss_sources st) → failure (net s) = Some e → e ≠ "" →
  is_Some (fs (ss_cache st) !! current_path sha256 s) → truthy (src_last_success s) = true →
  let st' := (collect_rules sha256 decode (Some net) ts st).2 in
  fs (ss_cache st') !! current_path sha256 s = fs (ss_cache st) !! current_path sha256 s
  ∧ ∃ s', s' ∈ ss_sources st' ∧ src_id s' = src_id s
    ∧ src_last_success s' = src_last_success s ∧ source_health s' = UsingCached.
Proof.
  intros Hlen Hcf Hok Htab Hnet Hs He Hne Hfile Hlast.
  destruct (collect_rules_run sha256 decode seen (Some net) ts st Hlen Hcf Hok Htab)
    as (pending & dl & cache & -> & _ & Hdl & Hkeep); [intros ? s0 c [= <-]; apply Hnet|].
  pose proof (failure_not_fetched _ _ He) as Hf.
  cbn [snd ss_cache ss_sources]. split; [by apply Hkeep|].
  set (sources := enabled_sources (ss_sources st)) in *.
  set (parsed := _ <$> sources).
  pose proof Htab as [Huniq _]. pose proof Hs as [Hin Hen]%elem_of_filterb.
  assert (NoDup (src_id <$> sources)) as Hids.
  { eapply sublist_NoDup; [exact Huniq|]. by apply fmap_sublist, filterb_sublist. }
  assert ((λ d : SourceResult * bool, res_source_id d.1) <$> dl = src_id <$> sources) as Hdlids.
  { symmetry. apply list_eq_Forall2. apply Forall2_fmap. eapply Forall2_impl; [exact Hdl|].
    by intros s0 d (-> & _). }
  assert (∃ d, d ∈ dl ∧ downloaded sha256 net (fs (ss_cache st)) s d) as (d & Hd & Hid & Herr & Hsucc & Hcached).
  { apply list_elem_of_lookup in Hs as [i Hi].
    destruct (Forall2_lookup_l _ _ _ _ _ Hdl Hi) as (d & Hd & ?). exists d. split; [|done].
    by eapply list_elem_of_lookup_2. }
  assert (∃ stats, (s, stats) ∈ account ∅ parsed) as [stats Hstats].
  { assert (s ∈ (account ∅ parsed).*1) as ([s' stats] & -> & ?)%list_elem_of_fmap; [|by exists stats].
    subst parsed. by rewrite account_sources, <-list_fmap_compose, list_fmap_id. }
  eexists. split; [eapply record_run_row; try done|].
  - by rewrite Hdlids.
  - change (NoDup (src_id ∘ fst <$> account ∅ parsed)). rewrite list_fmap_compose. subst parsed.
    by rewrite account_sources, <-(list_fmap_compose _ fst), list_fmap_id.
  - rewrite Hf, bool_decide_eq_false_2 in Hsucc by (by intros [? ?]). specialize (Hcached Hf).
    rewrite He in Herr. rewrite bool_decide_eq_true_2 in Hcached by done.
    unfold stats_row, download_row, source_health. rewrite Hsucc. clear -Hen Hlast Hcached Herr Hne.
    destruct s; cbn in *. rewrite Hen, Hlast, Hcached, Herr. simpl.
    by rewrite (proj2 (String.eqb_neq _ _) Hne).
Qed.

Lemma failed_download_keeps_list_witness :
  let _ := sample_platform in
  ∃ s', s' ∈ ss_sources (collect_rules padded id (Some (λ _, mkResponse (Some "timed out") None []))
                           "t2" (collect_rules padded id (Some run_net) "t" run_store).2).2
    ∧ src_id s' = 1%Z ∧ source_health s' = UsingCached.
Proof.
  intros P. set (st1 := (collect_rules padded id (Some run_net) "t" run_store).2).
  set (s1 := default (new_source 0 "" "" "" false) (head (ss_sources st1))).
  destruct (@failed_download_keeps_list P padded id [run_list]
              (λ _, mkResponse (Some "timed out") None []) "t2" st1 s1 "timed out" slen_padded)
    as (_ & s' & Hs' & Hid & _ & Hh).
  - intros c c' Hc Hc' _. apply list_elem_of_singleton in Hc as ->, Hc' as ->. reflexivity.
  - assert (∀ net s c, Some run_net = Some net → fetched (net s) = Some c → c ∈ [run_list]) as Hnet.
    { intros net s c [= <-]. unfold run_net. destruct (src_id s =? 1)%Z.
      - vm_compute. intros [= <-]. left.
      - vm_compute. discriminate. }
    destruct (@collect_rules_run P padded id [run_list] (Some run_net) "t" run_store slen_padded)
      as (pending & dl & cache & Hrun & Hok & _); [..|exact Hnet|].
    + intros c c' Hc Hc' _. apply list_elem_of_singleton in Hc as ->, Hc' as ->. reflexivity.
    + apply empty_store_ok.
    + split; [by apply (bool_decide_unpack _); vm_compute|].
      vm_compute. intros s Hs. apply list_elem_of_In in Hs. simpl in Hs. by destruct Hs as [<-|[<-|[]]].
    + subst st1. rewrite Hrun. exact Hok.
  - split; [by apply (bool_decide_unpack _); vm_compute|].
    vm_compute. intros s Hs. apply list_elem_of_In in Hs. simpl in Hs. by destruct Hs as [<-|[<-|[]]].
  - intros s c. vm_compute. discriminate.
  - vm_compute. left.
  - reflexivity.
  - discriminate.
  - vm_compute. eauto.
  - reflexivity.
  - exists s'. split; [exact Hs'|]. split; [rewrite Hid; reflexivity|exact Hh].
Defined.
