(* ===== verification/LocalDns.v ===== *)
(** * Local DNS records

    The record table of [app/local_dns.py]: validation, conflict checks, host and
    record editing with automatic PTR records, client aliases.  Every operation is
    a transaction: one that raises leaves the database as it was. *)

From S2P Require Import Prelude PyStr PyJson StrLemmas IpAddr PyRegex DomainName.

(** ** Data *)

(** app/local_dns.py:35-35 RECORD_TYPES *)
Inductive rtype := TA | TAAAA | TPTR | TCNAME.

#[export] Instance rtype_eq_dec : EqDecision rtype.
Proof. solve_decision. Defined.

Definition rtype_name (t : rtype) : string :=
  match t with TA => "A" | TAAAA => "AAAA" | TPTR => "PTR" | TCNAME => "CNAME" end.
Definition rtype_of (s : string) : option rtype :=
  find_first (λ t, String.eqb (rtype_name t) s) [TA; TAAAA; TPTR; TCNAME].

(** A row of [local_dns_records]. *)
Record lrec := mkLrec {
  lr_id : Z; lr_name : string; lr_fqdn : string; lr_type : rtype; lr_value : string;
  lr_ttl : Z; lr_comment : string; lr_enabled : bool; lr_auto_ptr : bool;
  lr_ptr_id : option Z; lr_created : string; lr_updated : string }.

Record alias := mkAlias {
  al_id : Z; al_cidr : string; al_name : string; al_description : string;
  al_created : string; al_updated : string }.

(** app/local_dns.py:77-140 init_db *)
Record ldb := mkLdb {
  l_settings : gmap string string;
  l_records : list lrec;
  l_aliases : list alias;
}.

Definition LocalDNSError (message : string) : pyexc := PyExc "LocalDNSError" message.
Definition IntegrityError (message : string) : pyexc := PyExc "IntegrityError" message.

(** app/local_dns.py:31-31 DEFAULT_DOMAIN *)
Definition DEFAULT_DOMAIN : string := "home.arpa".

Definition default_setting (key value : string) (m : gmap string string) : gmap string string :=
  match m !! key with Some _ => m | None => <[key := value]> m end.

(** The first usable token of [hostname -I]; an unparsable token ends the search. *)
Fixpoint first_usable (tokens : list string) : string :=
  match tokens with
  | [] => "127.0.0.1"
  | t :: tokens =>
      match ip_address t with
      | None => "127.0.0.1"
      | Some a => if is_loopback a || is_link_local a then first_usable tokens else str_ip a
      end
  end.

(** app/local_dns.py:170-179 detect_server_ip *)
Definition detect_server_ip (hostname_output : string) : string := first_usable (words hostname_output).

Definition init_settings (hostname_output : string) (db : ldb) : ldb :=
  db{{l_settings ::= (λ m,
    default_setting "server_ip" (detect_server_ip hostname_output)
      (default_setting "server_hostname" "alderpointdns"
        (default_setting "default_ttl" "300"
          (default_setting "internal_domain" DEFAULT_DOMAIN m))))}}.

(** ** Validation *)

(** [[a-z0-9]] and [[a-z0-9-]] *)
Definition host_edge (c : ascii) : bool := is_lower_az c || is_09 c.
Definition host_mid (c : ascii) : bool := host_edge c || Ascii.eqb "-" c.

(** app/local_dns.py:33-33 LABEL_RE *)
Definition LABEL_RE : re :=
  RCat (RLook (RCat (RRep 1 63 RDot) REnd)) (RCat (label_re host_edge host_mid) REnd).
(** app/local_dns.py:34-34 DOMAIN_RE *)
Definition LOCAL_DOMAIN_RE : re :=
  RCat (RLook (RCat (RRep 1 253 RDot) REnd)) (RCat (labels_re host_edge host_mid) REnd).

(** Their recognisers; see [label_re_match_spec] and [local_domain_match_spec]. *)
Definition label_re_match (s : string) : bool := label_ok host_edge host_mid (chop nl s).
Definition local_domain_match (s : string) : bool :=
  let d := chop nl s in labels_ok host_edge host_mid d && (slen d <=? 253).

(** The IDNA codec on ASCII text: labels of 1 to 63 characters, the last may be
    empty. *)
Fixpoint idna_labels_ok (labels : list string) : bool :=
  match labels with
  | [] => true
  | [w] => slen w <? 64
  | w :: labels => (0 <? slen w) && (slen w <? 64) && idna_labels_ok labels
  end.

Section validation.
Context `{Platform}.

Definition encode_idna (s : string) : option string :=
  if isascii s then if idna_labels_ok (split_on "." s) then Some s else None
  else idna_to_ascii s.

(** app/local_dns.py:182-192 normalize_domain *)
Definition local_normalize (value : string) : res string :=
  let domain := lower (strip_char "." (strip value)) in
  if String.eqb domain "local"
  then Raise (LocalDNSError ".local conflicts with multicast DNS; use home.arpa or another internal domain")
  else match encode_idna domain with
  | None => Raise (LocalDNSError "domain is not valid IDNA")
  | Some domain =>
      if local_domain_match domain then Ok domain else Raise (LocalDNSError "domain is invalid")
  end.

(** app/local_dns.py:195-199 validate_label *)
Definition validate_label (value : string) : res string :=
  let label := lower (strip_char "." (strip value)) in
  if label_re_match label then Ok label else Raise (LocalDNSError "hostname is invalid").

(** app/local_dns.py:202-209 validate_ttl *)
Definition validate_ttl (value : json) : res Z :=
  match py_int value with
  | Raise _ => Raise (LocalDNSError "TTL must be a number")
  | Ok ttl =>
      if (ttl <? 30)%Z || (86400 <? ttl)%Z
      then Raise (LocalDNSError "TTL must be between 30 and 86400 seconds") else Ok ttl
  end.

(** app/local_dns.py:212-216 normalize_fqdn *)
Definition normalize_fqdn (value : string) (domain : option string) : res string :=
  let fqdn := lower (strip_char "." (strip value)) in
  match domain with
  | Some d =>
      if negb (String.eqb d "") && negb (char_in "." fqdn)
      then label ← validate_label fqdn; local_normalize (label +:+ "." +:+ d)
      else local_normalize fqdn
  | None => local_normalize fqdn
  end.

Definition parse_ip (s : string) : res ip :=
  match ip_address s with
  | Some a => Ok a
  | None => Raise (ValueError ("'" +:+ s +:+ "' does not appear to be an IPv4 or IPv6 address"))
  end.

(** app/local_dns.py:219-225 ptr_owner_for_ip

    [reverse_pointer] reads the printed address again, which fails on a scope. *)
Definition ptr_owner_for_ip (a : ip) : res (string * string) :=
  match a with
  | IPv4 n =>
      let octets := str_int <$> ipv4_octets n in
      Ok (default "" (octets !! 3), join "." (rev (take 3 octets)) +:+ ".in-addr.arpa")
  | IPv6 n None =>
      let labels := reverse_pointer_v6 n in Ok (default "" (head labels), join "." (tail labels))
  | IPv6 _ (Some scope) =>
      Raise (PyExc "AddressValueError" ("Only hex digits permitted in '" +:+ str_ip a +:+ "'"))
  end.

Definition ptr_fqdn (a : ip) : res string :=
  p ← ptr_owner_for_ip a; Ok (p.1 +:+ "." +:+ p.2).

(** app/local_dns.py:283-301 validate_record *)
Definition validate_record (record_type fqdn value : string) (ttl : json)
    : res (rtype * string * string * Z) :=
  match rtype_of (upper (strip record_type)) with
  | None => Raise (LocalDNSError "record type is not supported")
  | Some t =>
      name ← local_normalize fqdn;
      clean_ttl ← validate_ttl ttl;
      clean_value ←
        match t with
        | TA => a ← parse_ip (strip value);
                if is_v4 a then Ok (str_ip a)
                else Raise (LocalDNSError "A records require an IPv4 address")
        | TAAAA => a ← parse_ip (strip value);
                   if is_v4 a then Raise (LocalDNSError "AAAA records require an IPv6 address")
                   else Ok (str_ip a)
        | TPTR | TCNAME => local_normalize value
        end;
      Ok (t, name, clean_value, clean_ttl)
  end.
End validation.

(** ** Conflicts *)

Inductive severity := Conflict | FindingWarning.
#[export] Instance severity_eq_dec : EqDecision severity.
Proof. solve_decision. Defined.

(** [AND id<>?] when a record is being edited; [0] is not an id to skip. *)
Definition skips (record_id : option Z) (r : lrec) : bool :=
  match record_id with Some i => negb (i =? 0)%Z && (lr_id r =? i)%Z | None => false end.

Definition is_addr (t : rtype) : bool := bool_decide (t = TA ∨ t = TAAAA).

Definition enabled_ptr (owner : string) (r : lrec) : bool :=
  String.eqb (lr_fqdn r) owner && bool_decide (lr_type r = TPTR) && lr_enabled r.

Definition address_findings (db : ldb) (fqdn value : string) : res (list (severity * string)) :=
  match ip_address value with
  | None => Ok []
  | Some a =>
      owner ← ptr_fqdn a;
      Ok (match find_first (enabled_ptr owner) (l_records db) with
          | Some ptr => if String.eqb (rstrip_char "." (lr_value ptr)) fqdn then []
                        else [(Conflict, "This IP already has a different PTR record.")]
          | None => []
          end
          ++ (if is_private a then []
              else [(FindingWarning, "Public IP address outside common private networks. Imported as requested.")]))
  end.

(** app/local_dns.py:232-270 record_findings *)
Definition record_findings (db : ldb) (fqdn : string) (t : rtype) (value : string)
    (record_id : option Z) : res (list (severity * string)) :=
  let others := List.filter (λ r, String.eqb (lr_fqdn r) fqdn && negb (skips record_id r)) (l_records db) in
  address ← (if is_addr t then address_findings db fqdn value else Ok []);
  Ok ((if existsb lr_enabled others then [(Conflict, "A hostname already exists.")] else [])
  ++ (if decide (t = TCNAME)
      then if existsb (λ r, bool_decide (lr_type r ≠ TCNAME)) others
           then [(Conflict, "A CNAME conflicts with another record.")] else []
      else if existsb (λ r, bool_decide (lr_type r = TCNAME)) others
           then [(Conflict, "This hostname already has a CNAME record.")] else [])
  ++ address
  ++ (if decide (t = TPTR) then
        if existsb (λ r, String.eqb (lr_fqdn r) (rstrip_char "." value) && is_addr (lr_type r)) (l_records db)
        then [] else [(Conflict, "The PTR target lacks a corresponding A or AAAA record.")]
      else [])).

Definition conflicts_of (findings : list (severity * string)) : list string :=
  omap (λ f, if decide (f.1 = Conflict) then Some f.2 else None) findings.

(** app/local_dns.py:273-274 record_conflicts *)
Definition record_conflicts (db : ldb) (fqdn : string) (t : rtype) (value : string)
    (record_id : option Z) : res (list string) := conflicts_of <$> record_findings db fqdn t value record_id.

(** app/local_dns.py:277-280 record_warnings *)
Definition record_warnings (db : ldb) (fqdn : string) (t : rtype) (value : string)
    (record_id : option Z) : res (list string) :=
  fs ← record_findings db fqdn t value record_id; Ok (fs : list (severity * string)).*2.

(** [if conflicts and not override: raise] *)
Definition reject_conflicts (conflicts : list string) (override : bool) : res unit :=
  raise_if (negb (bool_decide (conflicts = [])) && negb override)
    (LocalDNSError (join " " conflicts)).

(** ** The table *)

Definition next_record_id (l : list lrec) : Z := fresh_id (lr_id <$> l).

Definition same_key (r r' : lrec) : bool :=
  String.eqb (lr_fqdn r) (lr_fqdn r') && bool_decide (lr_type r = lr_type r')
  && String.eqb (lr_value r) (lr_value r').

(** [INSERT]: the table has a unique key on name, type and value. *)
Definition insert_record (r : lrec) (db : ldb) : res ldb :=
  if existsb (same_key r) (l_records db)
  then Raise (IntegrityError "UNIQUE constraint failed: local_dns_records.fqdn, local_dns_records.record_type, local_dns_records.value")
  else Ok db{{l_records ::= (λ l, l ++ [r])}}.

(** [INSERT OR REPLACE]: the rows with the same key go first; the new id is chosen
    before they do. *)
Definition replace_record (r : lrec) (db : ldb) : ldb :=
  db{{l_records ::= (λ l, List.filter (λ r', negb (same_key r r')) l ++ [r])}}.

Definition first_label (name : string) : string := let '(h, _, _) := partition "." name in h.

Section operations.
Context `{Platform}.

(** app/local_dns.py:304-342 add_host *)
Definition add_host (ts host_out hostname domain address : string) (ttl : json) (comment : string)
    (auto_ptr override : bool) (db : ldb) : res (ldb * list string) :=
  let db := init_settings host_out db in
  local_domain ← local_normalize
    (if String.eqb domain "" then default "" (l_settings db !! "internal_domain") else domain);
  label ← validate_label hostname;
  let fqdn := label +:+ "." +:+ local_domain in
  a ← parse_ip (strip address);
  let t := if is_v4 a then TA else TAAAA in
  ttl_int ← validate_ttl ttl;
  findings ← record_findings db fqdn t (str_ip a) None;
  _ ← reject_conflicts (conflicts_of findings) override;
  let id := next_record_id (l_records db) in
  db ← insert_record (mkLrec id label fqdn t (str_ip a) ttl_int comment true auto_ptr None ts ts) db;
  if auto_ptr then
    p ← ptr_owner_for_ip a;
    let '(owner, zone) := p in
    let pf := owner +:+ "." +:+ zone in
    conflicts ← record_conflicts db pf TPTR fqdn None;
    _ ← reject_conflicts conflicts override;
    let ptr_id := next_record_id (l_records db) in
    let db := replace_record (mkLrec ptr_id owner pf TPTR fqdn ttl_int ("reverse for " +:+ fqdn)
                                true false None ts ts) db in
    Ok (db{{l_records ::= (λ l : list lrec,
          (λ r, if (lr_id r =? id)%Z then r{{lr_ptr_id := Some ptr_id}} else r) <$> l)}}, findings.*2)
  else Ok (db, findings.*2).

(** app/local_dns.py:345-362 add_record *)
Definition add_record (ts host_out record_type fqdn value : string) (ttl : json) (comment : string)
    (enabled override : bool) (db : ldb) : res (ldb * list string) :=
  let db := init_settings host_out db in
  v ← validate_record record_type fqdn value ttl;
  let '(t, name, clean_value, ttl_int) := v in
  findings ← record_findings db name t clean_value None;
  _ ← reject_conflicts (conflicts_of findings) override;
  db ← insert_record (mkLrec (next_record_id (l_records db)) (first_label name) name t clean_value
                        ttl_int comment enabled false None ts ts) db;
  Ok (db, findings.*2).

(** app/local_dns.py:378-395 update_record *)
Definition update_record (ts host_out : string) (record_id : Z) (record_type fqdn value : string)
    (ttl : json) (comment : string) (enabled override : bool) (db : ldb) : res (ldb * list string) :=
  let db := init_settings host_out db in
  v ← validate_record record_type fqdn value ttl;
  let '(t, name, clean_value, ttl_int) := v in
  findings ← record_findings db name t clean_value (Some record_id);
  _ ← reject_conflicts (conflicts_of findings) override;
  let upd r := r{{lr_name := first_label name; lr_fqdn := name; lr_type := t; lr_value := clean_value;
                  lr_ttl := ttl_int; lr_comment := comment; lr_enabled := enabled; lr_updated := ts}} in
  if existsb (λ r, (lr_id r =? record_id)%Z
       && existsb (λ r', negb (lr_id r' =? record_id)%Z && same_key (upd r) r') (l_records db)) (l_records db)
  then Raise (IntegrityError "UNIQUE constraint failed: local_dns_records.fqdn, local_dns_records.record_type, local_dns_records.value")
  else Ok (db{{l_records ::= (λ l : list lrec,
             (λ r, if (lr_id r =? record_id)%Z then upd r else r) <$> l)}}, findings.*2).

(** app/local_dns.py:398-402 toggle_record *)
Definition toggle_record (ts host_out : string) (record_id : Z) (db : ldb) : ldb :=
  (init_settings host_out db){{l_records ::= (λ l : list lrec,
    (λ r, if (lr_id r =? record_id)%Z
          then r{{lr_enabled ::= negb; lr_updated := ts}} else r) <$> l)}}.

Definition drop_record (i : Z) (db : ldb) : ldb :=
  db{{l_records ::= List.filter (λ r, negb (lr_id r =? i)%Z)}}.

(** app/local_dns.py:405-412 delete_record *)
Definition delete_record (host_out : string) (record_id : Z) (db : ldb) : ldb :=
  let db := init_settings host_out db in
  let row := find_first (λ r, (lr_id r =? record_id)%Z) (l_records db) in
  let db := drop_record record_id db in
  match row ≫= lr_ptr_id with
  | Some p => if (p =? 0)%Z then db else drop_record p db
  | None => db
  end.

(** One setting of [update_settings]. *)
Definition clean_setting (key value : string) : res string :=
  if String.eqb key "internal_domain" then local_normalize value
  else if String.eqb key "default_ttl" then t ← validate_ttl (JStr value); Ok (str_int t)
  else if String.eqb key "server_ip" && negb (String.eqb value "")
  then a ← parse_ip (strip value); Ok (str_ip a)
  else Ok value.

Fixpoint apply_settings (values : list (string * string)) (m : gmap string string)
    : res (gmap string string) :=
  match values with
  | [] => Ok m
  | (key, value) :: values => v ← clean_setting key value; apply_settings values (<[key := v]> m)
  end.

(** app/local_dns.py:154-167 update_settings *)
Definition update_settings (host_out : string) (values : list (string * string)) (db : ldb) : res ldb :=
  let db := init_settings host_out db in
  m ← apply_settings values (l_settings db); Ok db{{l_settings := m}}.

(** ** Aliases *)

Definition next_alias_id (l : list alias) : Z := fresh_id (al_id <$> l).

(** app/local_dns.py:415-431 upsert_alias *)
Definition upsert_alias (ts host_out cidr display_name description : string) (db : ldb) : res ldb :=
  match ip_network (strip cidr) with
  | None => Raise (ValueError "does not appear to be an IPv4 or IPv6 network")
  | Some net =>
      let name := strip display_name in
      if String.eqb name "" then Raise (LocalDNSError "display name is required")
      else
        let db := init_settings host_out db in
        let key := str_network net in
        Ok db{{l_aliases ::= (λ l : list alias,
          if existsb (λ x, String.eqb (al_cidr x) key) l
          then (λ x, if String.eqb (al_cidr x) key
                     then x{{al_name := name; al_description := description; al_updated := ts}}
                     else x) <$> l
          else l ++ [mkAlias (next_alias_id l) key name description ts ts])}}
  end.

(** app/local_dns.py:434-438 delete_alias *)
Definition delete_alias (host_out : string) (alias_id : Z) (db : ldb) : ldb :=
  (init_settings host_out db){{l_aliases ::= List.filter (λ x, negb (al_id x =? alias_id)%Z)}}.

(** app/local_dns.py:461-467 ptr_hostname_for_ip *)
Definition ptr_hostname_for_ip (db : ldb) (a : ip) : res (option string) :=
  owner ← ptr_fqdn a; Ok (lr_value <$> find_first (enabled_ptr owner) (l_records db)).

(** The longest prefix that contains the address, the first of equal length. *)
Fixpoint best_alias (a : ip) (best : option (Z * string)) (l : list alias) : option (Z * string) :=
  match l with
  | [] => best
  | x :: l =>
      let best' :=
        match ip_network (al_cidr x) with
        | Some net =>
            if ip_in a net && match best with Some (p, _) => (p <? net_prefixlen net)%Z | None => true end
            then Some (net_prefixlen net, al_name x) else best
        | None => best (* stored networks parse, see [upsert_alias] *)
        end in
      best_alias a best' l
  end.

(** app/local_dns.py:441-458 alias_for_client *)
Definition alias_for_client (host_out client : string) (db : ldb) : res (option string) :=
  match ip_address client with
  | None => Ok None
  | Some a =>
      let db := init_settings host_out db in
      match best_alias a None (l_aliases db) with
      | Some (_, name) => Ok (Some name)
      | None =>
          ptr ← ptr_hostname_for_ip db a;
          Ok (ptr ← ptr; if String.eqb ptr "" then None
                         else Some (ptr +:+ " (" +:+ str_ip a +:+ ")"))
      end
  end.

(** ** Hosts-file preview *)

Record host_item := mkItem {
  hi_line : Z; hi_valid : bool; hi_records : list (string * rtype * string); hi_error : string }.

Fixpoint hosts_records (a : ip) (domain : string) (hosts : list string)
    (acc : list (string * rtype * string)) : list (string * rtype * string) * option pyexc :=
  match hosts with
  | [] => (acc, None)
  | h :: hosts =>
      match normalize_fqdn h (Some domain) with
      | Ok fqdn => hosts_records a domain hosts (acc ++ [(fqdn, if is_v4 a then TA else TAAAA, str_ip a)])
      | Raise e => (acc, Some e)
      end
  end.

Definition preview_line (domain : string) (line_number : Z) (raw : string) : option host_item :=
  let '(body, _, _) := partition "#" raw in
  let line := strip body in
  if String.eqb line "" then None
  else match words line with
  | [] => None
  | first :: hosts =>
      match parse_ip first with
      | Raise e => Some (mkItem line_number false [] (exc_message e))
      | Ok a =>
          let '(records, e) := hosts_records a domain hosts [] in
          Some (mkItem line_number (bool_decide (e = None)) records
                  (match e with Some e => exc_message e | None => "" end))
      end
  end.

(** app/local_dns.py:742-761 hosts_preview *)
Definition hosts_preview (text domain : string) : res (list host_item) :=
  local_domain ← local_normalize domain;
  Ok (omap (λ p, preview_line local_domain (Z.of_nat p.1 + 1) p.2)
        (imap pair (splitlines text))).
End operations.

(** ** The patterns *)

Lemma host_edge_mid c : host_edge c = true → host_mid c = true.
Proof. unfold host_mid. by intros ->. Qed.

Lemma rep_dot_end hi s s' :
  rmatch (RCat (RRep 1 hi RDot) REnd) s s' ↔
  ∃ w, s = w +:+ s' ∧ 1 ≤ slen w ≤ hi ∧ sforall (λ c, negb (code c =? 10)%N) w = true
       ∧ (s' = "" ∨ s' = nl).
Proof.
  cbn [rmatch]. unfold RDot. split.
  - intros (m & (k & Hk & Hn) & <- & Hm). apply nsteps_chr in Hn as (w & -> & <- & Hw). eauto.
  - intros (w & -> & Hl & Hw & Hs). exists s'. split; [|done].
    exists (slen w). split; [done|]. apply nsteps_chr. eauto.
Qed.

(** Text without a newline, followed by nothing or by one newline. *)
Lemma chop_nl_spec s w e :
  s = w +:+ e → e = "" ∨ e = nl → sforall (λ c, negb (code c =? 10)%N) w = true → chop nl s = w.
Proof.
  intros -> He Hw. destruct He as [->| ->].
  - rewrite sapp_nil_r. apply chop_none. intros Hl. by apply (slast_forall _ _ _ Hw) in Hl.
  - apply chop_app.
Qed.

Lemma label_ok_no_nl w :
  label_ok host_edge host_mid w = true → sforall (λ c, negb (code c =? 10)%N) w = true.
Proof. intros Hw%label_ok_chars. revert Hw. apply sforall_impl. char_decide. Qed.

Lemma label_ok_len edge mid w : label_ok edge mid w = true → 1 ≤ slen w ≤ 63.
Proof.
  unfold label_ok. destruct w as [|c w]; [done|]. intros. repeat case_match; try done.
  bool_to_prop. match goal with H : (_ <=? _) = true |- _ => apply Nat.leb_le in H end. simpl in *. lia.
Qed.

(** A pattern [^(?=.{1,hi}$)body$] tests [body] on the text up to a final newline. *)
Lemma anchored_re_spec hi body (ok : string → bool) s :
  (∀ s s', rmatch body s s' ↔ ∃ w, s = w +:+ s' ∧ ok w = true) →
  (∀ w, ok w = true → sforall (λ c, negb (code c =? 10)%N) w = true) →
  re_match (RCat (RLook (RCat (RRep 1 hi RDot) REnd)) (RCat body REnd)) s
  ↔ ok (chop nl s) = true ∧ 1 ≤ slen (chop nl s) ≤ hi.
Proof.
  intros Hbody Hnl. unfold re_match. split.
  - intros (s' & m & (<- & t & Hlook) & (m' & Hm & <- & Hend)).
    apply rep_dot_end in Hlook as (v & Hv & Hlen & Hvn & Ht).
    apply Hbody in Hm as (w & Hw & Hok).
    rewrite (chop_nl_spec s v t) at 2 3 by done. rewrite (chop_nl_spec s w m') by auto. done.
  - intros [Hok Hlen].
    assert (∃ e, s = chop nl s +:+ e ∧ (e = "" ∨ e = nl)) as (e & Hs & He).
    { destruct (chop_cases "010" s) as [Hs|Hs]; change (String "010" "") with nl in Hs.
      - exists "". rewrite sapp_nil_r. auto.
      - exists nl. auto. }
    exists e, s. split.
    + split; [done|]. exists e. apply rep_dot_end. exists (chop nl s). auto.
    + exists e. split; [apply Hbody; eauto|done].
Qed.

Lemma label_re_match_spec s : label_re_match s = true ↔ re_match LABEL_RE s.
Proof.
  unfold label_re_match, LABEL_RE.
  rewrite (anchored_re_spec 63 _ (label_ok host_edge host_mid)).
  - split; [|by intros [? _]]. intros Hok. split; [done|]. by eapply label_ok_len.
  - intros. apply label_re_spec, host_edge_mid.
  - apply label_ok_no_nl.
Qed.

Lemma labels_ok_no_nl d :
  labels_ok host_edge host_mid d = true → sforall (λ c, negb (code c =? 10)%N) d = true.
Proof.
  intros [_ Hd]%andb_true_iff. rewrite <-(join_split_on "." d). apply sforall_join; [done|].
  intros w Hw. eapply label_ok_no_nl. by eapply forallb_true.
Qed.

Lemma local_domain_match_spec s : local_domain_match s = true ↔ re_match LOCAL_DOMAIN_RE s.
Proof.
  unfold local_domain_match, LOCAL_DOMAIN_RE.
  rewrite (anchored_re_spec 253 _ (labels_ok host_edge host_mid)).
  - rewrite andb_true_iff, Nat.leb_le. split; [|by intros [? [_ ?]]].
    intros [Hok Hlen]. split; [done|]. split; [|done].
    destruct (chop nl s) as [|c d]; [by vm_compute in Hok|]. simpl. lia.
  - intros. apply labels_re_spec; [apply host_edge_mid|done].
  - apply labels_ok_no_nl.
Qed.

(** ** The table's invariant *)

(** A stored name: a domain, or a host label joined to one. *)
Definition stored_name (v : string) : Prop :=
  local_domain_match v = true
  ∨ ∃ label domain, v = label +:+ "." +:+ domain ∧ label_re_match label = true
      ∧ local_domain_match domain = true.

Definition canonical_value `{Platform} (t : rtype) (v : string) : Prop :=
  match t with
  | TA => ∃ a, v = str_ip a ∧ is_v4 a = true
  | TAAAA => ∃ a, v = str_ip a ∧ is_v4 a = false
  | TPTR | TCNAME => stored_name v
  end.

Record lrec_ok `{Platform} (r : lrec) : Prop := {
  lro_ttl : (30 ≤ lr_ttl r ≤ 86400)%Z;
  lro_value : canonical_value (lr_type r) (lr_value r);
}.

Definition key_of (r : lrec) : string * rtype * string := (lr_fqdn r, lr_type r, lr_value r).

Record ldb_ok `{Platform} (db : ldb) : Prop := {
  ldo_ids : NoDup (lr_id <$> l_records db);
  ldo_pos : ∀ r, r ∈ l_records db → (0 < lr_id r)%Z;
  ldo_keys : NoDup (key_of <$> l_records db);
  ldo_recs : ∀ r, r ∈ l_records db → lrec_ok r;
}.

Lemma same_key_spec r r' : same_key r r' = true ↔ key_of r = key_of r'.
Proof.
  unfold same_key, key_of. rewrite !andb_true_iff, !String.eqb_eq, bool_decide_eq_true.
  split; [by intros [[-> ->] ->]|by intros [= -> -> ->]].
Qed.

Section invariant.
Context `{Platform}.

Lemma local_normalize_ok v d : local_normalize v = Ok d → local_domain_match d = true.
Proof.
  unfold local_normalize. case_match; [done|]. case_match; [|done].
  destruct (local_domain_match _) eqn:E; [|done]. by intros [= <-].
Qed.

Lemma validate_label_ok v l : validate_label v = Ok l → label_re_match l = true.
Proof. unfold validate_label. destruct (label_re_match _) eqn:E; [|done]. by intros [= <-]. Qed.

Lemma validate_ttl_ok v t : validate_ttl v = Ok t → (30 ≤ t ≤ 86400)%Z.
Proof.
  unfold validate_ttl. case_match; [|done].
  destruct (_ || _) eqn:E; [done|]. intros [= <-]. apply orb_false_iff in E as [? ?]. lia.
Qed.

Lemma validate_record_ok rt fqdn value ttl t name v n :
  validate_record rt fqdn value ttl = Ok (t, name, v, n) →
  local_domain_match name = true ∧ canonical_value t v ∧ (30 ≤ n ≤ 86400)%Z.
Proof.
  unfold validate_record. destruct (rtype_of _) as [t'|]; [|done].
  intros (nm & Hn%local_normalize_ok & Hk)%res_bind_ok.
  apply res_bind_ok in Hk as (n' & Ht%validate_ttl_ok & Hk).
  apply res_bind_ok in Hk as (v' & Hv & [= -> -> -> ->]).
  split; [done|]. split; [|done].
  destruct t; simpl; [| |by left; eapply local_normalize_ok..].
  - apply res_bind_ok in Hv as (a & _ & Ha). destruct (is_v4 a) eqn:E; [|done].
    injection Ha as <-. eauto.
  - apply res_bind_ok in Hv as (a & _ & Ha). destruct (is_v4 a) eqn:E; [done|].
    injection Ha as <-. eauto.
Qed.

Lemma ldb_ok_records db db' : l_records db' = l_records db → ldb_ok db → ldb_ok db'.
Proof. intros Heq [? ? ? ?]. split; by rewrite Heq. Qed.

Lemma init_ok ho db : ldb_ok db → ldb_ok (init_settings ho db).
Proof. by apply ldb_ok_records. Qed.

Lemma ldb_ok_append l r db :
  ldb_ok db → l `sublist_of` l_records db → lr_id r = next_record_id (l_records db) → lrec_ok r →
  key_of r ∉ (key_of <$> l) → ldb_ok db{{l_records := (l ++ [r])}}.
Proof.
  intros [Hid Hpos Hkey Hrec] Hl Hr Hok Hnew.
  assert (lr_id <$> l `sublist_of` lr_id <$> l_records db) as Hlid by (by apply fmap_sublist).
  assert (key_of <$> l `sublist_of` key_of <$> l_records db) as Hlkey by (by apply fmap_sublist).
  split; simpl.
  - rewrite fmap_app. apply NoDup_app. split; [by eapply sublist_NoDup|]. split.
    + intros i Hi ->%list_elem_of_singleton. rewrite Hr in Hi.
      eapply (fresh_id_notin (lr_id <$> l_records db)). by eapply elem_of_sublist.
    + apply NoDup_singleton.
  - intros x [Hx| ->%list_elem_of_singleton]%elem_of_app.
    + apply Hpos. by eapply elem_of_sublist.
    + rewrite Hr. apply fresh_id_pos.
  - rewrite fmap_app. apply NoDup_app. split; [by eapply sublist_NoDup|]. split.
    + by intros k Hk ->%list_elem_of_singleton.
    + apply NoDup_singleton.
  - intros x [Hx| ->%list_elem_of_singleton]%elem_of_app; [|done].
    apply Hrec. by eapply elem_of_sublist.
Qed.

Lemma insert_record_ok r db db' :
  ldb_ok db → lr_id r = next_record_id (l_records db) → lrec_ok r →
  insert_record r db = Ok db' → ldb_ok db' ∧ l_records db' = l_records db ++ [r].
Proof.
  intros Hdb Hid Hok. unfold insert_record. destruct (existsb _ _) eqn:E; [done|]. intros [= <-].
  split; [|done]. eapply (ldb_ok_append (l_records db)); [done..|].
  intros (x & Hk & Hx)%list_elem_of_fmap. rewrite existsb_false in E. specialize (E x Hx).
  assert (same_key r x = true) by (by apply same_key_spec). congruence.
Qed.

Lemma replace_record_ok r db :
  ldb_ok db → lr_id r = next_record_id (l_records db) → lrec_ok r → ldb_ok (replace_record r db).
Proof.
  intros Hdb Hid Hok. unfold replace_record.
  eapply (ldb_ok_append (List.filter (λ r', negb (same_key r r')) (l_records db)));
    [done|apply filterb_sublist|done..|].
  intros (x & Hk & [Hx Hn]%elem_of_filterb)%list_elem_of_fmap. apply negb_true_iff in Hn.
  assert (same_key r x = true) by (by apply same_key_spec). congruence.
Qed.

Lemma ldb_ok_map f db :
  ldb_ok db → (∀ r, r ∈ l_records db → lr_id (f r) = lr_id r ∧ lrec_ok (f r)) →
  NoDup (key_of <$> (f <$> l_records db)) → ldb_ok db{{l_records ::= (λ l : list lrec, f <$> l)}}.
Proof.
  intros [Hid Hpos Hkey Hrec] Hf Hk. split; simpl; [| |done|].
  - rewrite <-list_fmap_compose. erewrite list_fmap_ext; [exact Hid|].
    intros i r Hr%list_elem_of_lookup_2. by apply Hf.
  - intros x (r & -> & Hr)%list_elem_of_fmap. destruct (Hf r Hr) as [-> _]. by apply Hpos.
  - intros x (r & -> & Hr)%list_elem_of_fmap. by apply Hf.
Qed.

(** A change that keeps names, types, values and ttls. *)
Lemma ldb_ok_same_keys f db :
  ldb_ok db → (∀ r, lr_id (f r) = lr_id r ∧ key_of (f r) = key_of r ∧ lr_ttl (f r) = lr_ttl r) →
  ldb_ok db{{l_records ::= (λ l : list lrec, f <$> l)}}.
Proof.
  intros Hdb Hf. apply ldb_ok_map; [done|..].
  - intros r Hr. destruct (Hf r) as (? & Hk & Ht). split; [done|].
    destruct (ldo_recs db Hdb r Hr) as [? Hv]. unfold key_of in Hk. injection Hk as _ Hty Hval.
    split; [by rewrite Ht|by rewrite Hty, Hval].
  - rewrite <-list_fmap_compose. erewrite list_fmap_ext; [apply Hdb|]. intros i r _. apply Hf.
Qed.

Lemma ldb_ok_filter p db : ldb_ok db → ldb_ok db{{l_records ::= List.filter p}}.
Proof.
  intros [Hid Hpos Hkey Hrec]. pose proof (filterb_sublist p (l_records db)) as Hs. split; simpl.
  - eapply sublist_NoDup; [exact Hid|]. by apply fmap_sublist.
  - intros r [Hr _]%elem_of_filterb. by apply Hpos.
  - eapply sublist_NoDup; [exact Hkey|]. by apply fmap_sublist.
  - intros r [Hr _]%elem_of_filterb. by apply Hrec.
Qed.

Lemma add_host_ok ts ho hostname domain address ttl comment auto_ptr override db db' w :
  ldb_ok db → add_host ts ho hostname domain address ttl comment auto_ptr override db = Ok (db', w) →
  ldb_ok db'.
Proof.
  intros Hdb. unfold add_host. intros (d & Hd & Hk)%res_bind_ok.
  apply res_bind_ok in Hk as (label & Hl & Hk). apply res_bind_ok in Hk as (a & _ & Hk).
  apply res_bind_ok in Hk as (n & Hn%validate_ttl_ok & Hk). apply res_bind_ok in Hk as (fs & _ & Hk).
  apply res_bind_ok in Hk as (_ & _ & Hk). apply res_bind_ok in Hk as (db1 & H1 & Hk).
  apply insert_record_ok in H1 as [Hdb1 _]; [|by apply init_ok|done|].
  2:{ split; [done|]. simpl. destruct (is_v4 a) eqn:E; simpl; eauto. }
  destruct auto_ptr; [|by apply Ok_pair_inj in Hk as [<- _]].
  apply res_bind_ok in Hk as ([owner zone] & _ & Hk). apply res_bind_ok in Hk as (cs & _ & Hk).
  apply res_bind_ok in Hk as (_ & _ & [<- _]%Ok_pair_inj).
  apply (ldb_ok_same_keys (λ r, if (lr_id r =? _)%Z then _ else r)); [|intros r; by destruct (lr_id r =? _)%Z].
  apply replace_record_ok; [done|done|]. split; [done|]. simpl. right. exists label, d.
  split; [done|]. split; [by eapply validate_label_ok|by eapply local_normalize_ok].
Qed.

Lemma add_record_ok ts ho rt fqdn value ttl comment enabled override db db' w :
  ldb_ok db → add_record ts ho rt fqdn value ttl comment enabled override db = Ok (db', w) → ldb_ok db'.
Proof.
  intros Hdb. unfold add_record. intros ([[[t name] v] n] & Hv%validate_record_ok & Hk)%res_bind_ok.
  destruct Hv as (_ & Hv & Hn). apply res_bind_ok in Hk as (fs & _ & Hk).
  apply res_bind_ok in Hk as (_ & _ & Hk). apply res_bind_ok in Hk as (db1 & H1 & [= <- _]).
  apply insert_record_ok in H1 as [Hdb1 _]; [done|by apply init_ok|done|by split].
Qed.

Lemma update_record_ok ts ho i rt fqdn value ttl comment enabled override db db' w :
  ldb_ok db → update_record ts ho i rt fqdn value ttl comment enabled override db = Ok (db', w) →
  ldb_ok db'.
Proof.
  intros Hdb. unfold update_record. intros ([[[t name] v] n] & Hv%validate_record_ok & Hk)%res_bind_ok.
  destruct Hv as (_ & Hv & Hn). apply res_bind_ok in Hk as (fs & _ & Hk).
  apply res_bind_ok in Hk as (_ & _ & Hk). cbn zeta in Hk.
  destruct (existsb _ _) eqn:E in Hk; [done|]. apply Ok_pair_inj in Hk as [<- _].
  assert (ldb_ok (init_settings ho db)) as Hdb1 by (by apply init_ok).
  apply (ldb_ok_map (λ r, if (lr_id r =? i)%Z then _ else r)); [done|..].
  - intros r Hr. destruct (Z.eqb_spec (lr_id r) i); [|split; [done|by apply Hdb1]].
    split; [done|by split].
  - rewrite <-list_fmap_compose. rewrite existsb_false in E.
    set (upd := λ r : lrec, r{{lr_name := first_label name; lr_fqdn := name; lr_type := t;
      lr_value := v; lr_ttl := n; lr_comment := comment; lr_enabled := enabled; lr_updated := ts}}).
    assert (Huniq : ∀ x y, x ∈ l_records (init_settings ho db) → y ∈ l_records (init_settings ho db) →
      lr_id x = i → lr_id y ≠ i → key_of (upd x) ≠ key_of y).
    { intros x y Hx Hy Hxi Hyi Hkey%same_key_spec. specialize (E x Hx).
      apply andb_false_iff in E as [E|E]; [by apply Z.eqb_neq in E|].
      rewrite existsb_false in E. specialize (E y Hy). apply andb_false_iff in E as [E|E].
      - by apply negb_false_iff, Z.eqb_eq in E.
      - change (same_key (upd x) y = false) in E. congruence. }
    apply NoDup_fmap_2_strong; [|by eapply NoDup_fmap_1, Hdb1].
    intros x y Hx Hy. cbn [compose]. intros Hkey.
    destruct (Z.eqb_spec (lr_id x) i) as [Hxi|Hxi], (Z.eqb_spec (lr_id y) i) as [Hyi|Hyi].
    + eapply (NoDup_fmap_inj lr_id); [apply Hdb1|done..|congruence].
    + destruct (Huniq x y Hx Hy Hxi Hyi Hkey).
    + symmetry in Hkey. destruct (Huniq y x Hy Hx Hyi Hxi Hkey).
    + eapply (NoDup_fmap_inj key_of); [apply Hdb1|done..].
Qed.

(** One committed operation on the records. *)
Inductive local_step (db : ldb) : ldb → Prop :=
| step_host ts ho h d a ttl c p o db' w :
    add_host ts ho h d a ttl c p o db = Ok (db', w) → local_step db db'
| step_add ts ho rt f v ttl c e o db' w :
    add_record ts ho rt f v ttl c e o db = Ok (db', w) → local_step db db'
| step_update ts ho i rt f v ttl c e o db' w :
    update_record ts ho i rt f v ttl c e o db = Ok (db', w) → local_step db db'
| step_toggle ts ho i : local_step db (toggle_record ts ho i db)
| step_delete ho i : local_step db (delete_record ho i db)
| step_settings ho vs db' : update_settings ho vs db = Ok db' → local_step db db'
| step_alias ts ho c n d db' : upsert_alias ts ho c n d db = Ok db' → local_step db db'
| step_unalias ho i : local_step db (delete_alias ho i db).

Lemma local_step_ok db db' : ldb_ok db → local_step db db' → ldb_ok db'.
Proof.
  intros Hdb. destruct 1; [by eapply add_host_ok|by eapply add_record_ok|by eapply update_record_ok|..].
  - unfold toggle_record. apply (ldb_ok_same_keys (λ r, if (lr_id r =? i)%Z then _ else r));
      [by apply init_ok|]. intros r. by destruct (lr_id r =? _)%Z.
  - unfold delete_record, drop_record.
    assert (∀ p db, ldb_ok db → ldb_ok db{{l_records ::= List.filter p}}) as Hf
      by (intros; by apply ldb_ok_filter).
    assert (ldb_ok (init_settings ho db)) by (by apply init_ok).
    case_match; [case_match|]; auto.
  - unfold update_settings in *. apply res_bind_ok in H0 as (m & _ & [= <-]).
    by apply (ldb_ok_records db).
  - unfold upsert_alias in *. destruct (ip_network _); [|done]. cbn zeta in *.
    case_match; [done|]. simplify_eq. by apply (ldb_ok_records db).
  - by apply (ldb_ok_records db).
Qed.
End invariant.

(** ** Properties *)

(** C13: However the records are edited, ids are unique and positive, no two rows share
    name, type and value, every TTL is between 30 and 86400 seconds, and every
    value is a printed address of the row's family or a stored name. *)
Theorem local_table_invariant `{Platform} db db' :
  ldb_ok db → rtc local_step db db' → ldb_ok db'.
Proof. intros Hdb. induction 1; [done|]. eauto using local_step_ok. Qed.

Definition empty_ldb : ldb := mkLdb ∅ [] [].

Lemma local_table_invariant_witness :
  let _ := sample_platform in
  ∃ db w, add_host "t" "192.0.2.1" "nas" "" "192.168.1.5" (JInt 300) "" true false empty_ldb = Ok (db, w)
    ∧ length (l_records db) = 2 ∧ ldb_ok db.
Proof.
  intros P. eexists _, _. split; [vm_compute; reflexivity|]. split; [reflexivity|].
  apply (@local_table_invariant P empty_ldb).
  - split; [constructor|by intros ? ?%elem_of_nil|constructor|by intros ? ?%elem_of_nil].
  - eapply rtc_once, (@step_host P empty_ldb "t" "192.0.2.1" "nas" "" "192.168.1.5" (JInt 300) "" true false).
    vm_compute. reflexivity.
Defined.

(** ** Hosts and their reverse names *)

Section reverse.
Context `{Platform}.

Lemma no_conflict cs override :
  reject_conflicts cs override = Ok () → override = false → cs = [].
Proof.
  unfold reject_conflicts. rewrite raise_if_ok. intros Hc ->. rewrite andb_true_r in Hc.
  apply negb_false_iff in Hc. by apply bool_decide_eq_true in Hc.
Qed.

(** No conflict means nothing enabled has the name. *)
Lemma no_enabled_name db fqdn t v fs :
  record_findings db fqdn t v None = Ok fs → conflicts_of fs = [] →
  ∀ r, r ∈ l_records db → lr_fqdn r = fqdn → lr_enabled r = false.
Proof.
  unfold record_findings. intros (ad & _ & <-%Ok_inj)%res_bind_ok Hc r Hr Hf.
  destruct (existsb lr_enabled _) eqn:E; [done|]. rewrite existsb_false in E. apply E.
  apply elem_of_filterb. split; [done|]. simpl. by rewrite Hf, String.eqb_refl.
Qed.

Lemma find_first_map {A} (p : A → bool) (f : A → A) l :
  (∀ x, p (f x) = p x) → find_first p (f <$> l) = f <$> find_first p l.
Proof. intros Hp. induction l as [|x l IH]; simpl; [done|]. rewrite Hp. by destruct (p x). Qed.
End reverse.

(** Adding a host with a reverse record and without overriding conflicts makes the
    address resolve back to the host: afterwards there is one enabled address record
    for the name, linked to a PTR record that carries the name, and the reverse
    lookup of the address is the name. *)
Theorem add_host_reverse `{Platform} ts ho hostname domain address ttl comment db db' w :
  ldb_ok db → add_host ts ho hostname domain address ttl comment true false db = Ok (db', w) →
  ∃ a r p, ip_address (strip address) = Some a
    ∧ r ∈ l_records db' ∧ p ∈ l_records db' ∧ is_addr (lr_type r) = true ∧ lr_enabled r = true
    ∧ lr_value r = str_ip a ∧ lr_ptr_id r = Some (lr_id p) ∧ lr_type p = TPTR
    ∧ lr_value p = lr_fqdn r ∧ ptr_hostname_for_ip db' a = Ok (Some (lr_fqdn r)).
Proof.
  intros Hdb Hadd. unfold add_host in Hadd.
  apply res_bind_ok in Hadd as (d & Hd & Hk).
  apply res_bind_ok in Hk as (label & Hl & Hk). apply res_bind_ok in Hk as (a & Ha & Hk).
  apply res_bind_ok in Hk as (n & Hn%validate_ttl_ok & Hk). apply res_bind_ok in Hk as (fs & _ & Hk).
  apply res_bind_ok in Hk as ([] & _ & Hk). apply res_bind_ok in Hk as (db1 & H1 & Hk).
  set (id := next_record_id (l_records (init_settings ho db))) in *.
  set (r0 := mkLrec id label _ _ _ _ _ _ _ _ _ _) in H1.
  pose proof H1 as [Hdb1 Hrecs]%insert_record_ok;
    [|by apply init_ok|done|split; [done|]; simpl; destruct (is_v4 a) eqn:E; simpl; eauto].
  apply res_bind_ok in Hk as ([owner zone] & Hptr & Hk).
  apply res_bind_ok in Hk as (cs & Hcs & Hk). apply res_bind_ok in Hk as ([] & Hno & Hk).
  apply Ok_pair_inj in Hk as [Hdb' _]. apply no_conflict in Hno as ->; [|done].
  unfold record_conflicts in Hcs.
  destruct (record_findings db1 _ TPTR _ None) as [fs'|] eqn:Hfs; [|done].
  apply Ok_inj in Hcs. pose proof (no_enabled_name _ _ _ _ _ Hfs Hcs) as Hnone.
  set (pf := owner +:+ "." +:+ zone) in *. set (fqdn := label +:+ "." +:+ d) in *.
  set (ptr_id := next_record_id (l_records db1)) in *.
  set (p0 := mkLrec ptr_id owner pf TPTR fqdn n _ _ _ _ _ _) in Hdb'.
  assert (ip_address (strip address) = Some a) as Hip.
  { unfold parse_ip in Ha. destruct (ip_address _); by simplify_eq. }
  set (link := λ r : lrec, if (lr_id r =? id)%Z then r{{lr_ptr_id := Some ptr_id}} else r).
  assert (l_records db' = link <$> (List.filter (λ r', negb (same_key p0 r')) (l_records db1) ++ [p0]))
    as Hl' by (by subst db').
  assert (lr_id p0 ≠ id) as Hneq.
  { intros Heq. eapply (fresh_id_notin (lr_id <$> l_records db1)). change (fresh_id _) with (lr_id p0).
    rewrite Heq, Hrecs, fmap_app. apply elem_of_app. right. by apply list_elem_of_singleton. }
  exists a, (link r0), p0. split; [done|].
  assert (link r0 = r0{{lr_ptr_id := Some ptr_id}}) as Hr0.
  { unfold link. change (lr_id r0) with id. by rewrite Z.eqb_refl. }
  assert (link p0 = p0) as Hp0.
  { unfold link. by rewrite (proj2 (Z.eqb_neq _ _) Hneq). }
  split_and!.
  - rewrite Hl'. apply list_elem_of_fmap_2, elem_of_app. left. apply elem_of_filterb. split.
    + rewrite Hrecs. apply elem_of_app. right. by apply list_elem_of_singleton.
    + apply negb_true_iff. destruct (same_key p0 r0) eqn:E; [|done]. apply same_key_spec in E.
      unfold key_of in E. simpl in E. by destruct (is_v4 a).
  - rewrite Hl', <-Hp0. apply list_elem_of_fmap_2, elem_of_app. right. by apply list_elem_of_singleton.
  - rewrite Hr0. simpl. by destruct (is_v4 a).
  - by rewrite Hr0.
  - by rewrite Hr0.
  - by rewrite Hr0.
  - done.
  - by rewrite Hr0.
  - unfold ptr_hostname_for_ip, ptr_fqdn. rewrite Hptr. simpl. fold pf. rewrite Hl'.
    rewrite find_first_map.
    2:{ intros x. unfold enabled_ptr, link. by destruct (lr_id x =? id)%Z. }
    rewrite find_first_app.
    rewrite (proj2 (find_first_None _ _)).
    2:{ intros x [Hx _]%elem_of_filterb. unfold enabled_ptr.
        destruct (String.eqb_spec (lr_fqdn x) pf) as [Heq|]; [|done].
        rewrite (Hnone x Hx Heq). by rewrite andb_false_r. }
    simpl. unfold enabled_ptr. cbn [lr_fqdn lr_type lr_enabled]. rewrite String.eqb_refl. simpl.
    by rewrite Hp0, Hr0.
Qed.

Lemma add_host_reverse_witness :
  let _ := sample_platform in
  ∃ a, ip_address "192.168.1.5" = Some a
    ∧ ∃ db w, add_host "t" "192.0.2.1" "nas" "" "192.168.1.5" (JInt 300) "" true false empty_ldb = Ok (db, w)
    ∧ ptr_hostname_for_ip db a = Ok (Some "nas.home.arpa").
Proof.
  intros P.
  destruct (add_host "t" "192.0.2.1" "nas" "" "192.168.1.5" (JInt 300) "" true false empty_ldb)
    as [[db w]|e] eqn:E; [|vm_compute in E; discriminate].
  destruct (@add_host_reverse P "t" "192.0.2.1" "nas" "" "192.168.1.5" (JInt 300) "" empty_ldb db w)
    as (a & r & p & Ha & Hr & _ & Haddr & _ & _ & _ & _ & _ & Hptr); [|exact E|].
  - split; [constructor|by intros ? ?%elem_of_nil|constructor|by intros ? ?%elem_of_nil].
  - exists a. split; [exact Ha|]. exists db, w. split; [reflexivity|]. rewrite Hptr. do 2 f_equal.
    vm_compute in E. injection E as <- _. apply list_elem_of_In in Hr. simpl in Hr.
    destruct Hr as [<-|[<-|[]]]; [reflexivity|]. vm_compute in Haddr. discriminate.
Defined.

(** A deleted PTR record's id is given to the next record, and the host still
    refers to it: deleting the host then deletes an unrelated record. *)
Theorem delete_host_deletes_unrelated `{Platform} :
  ∃ db1 db2 w1 w2,
    add_host "t" "192.0.2.1" "nas" "" "192.168.1.5" (JInt 300) "" true false empty_ldb = Ok (db1, w1)
    ∧ add_record "t" "192.0.2.1" "CNAME" "www.home.arpa" "web.example.org" (JInt 300) "" true false
        (delete_record "192.0.2.1" 2 db1) = Ok (db2, w2)
    ∧ lr_fqdn <$> l_records db2 = ["nas.home.arpa"; "www.home.arpa"]
    ∧ l_records (delete_record "192.0.2.1" 1 db2) = [].
Proof. eexists _, _, _, _. repeat split; vm_compute; reflexivity. Qed.
