(* ===== verification/LocalZones.v ===== *)
(** * Local zones

    From the enabled records to the zone files and the include of BIND, and the
    deployment of both: [build_zone_files], [render_include] and [deploy_zones] of
    [app/local_dns.py]; and the zone names [app/custom_rules.py] passes to dnsdist. *)

From S2P Require Import Prelude PyStr PyJson StrLemmas IpAddr PyRegex DomainName World LocalDns.

(** app/local_dns.py:32-32 LOCAL_NS *)
Definition LOCAL_NS : string := "alderpointdns-local-ns".

(** app/local_dns.py:54-58 ZoneFile *)
Record ZoneFile := mkZone { zf_zone : string; zf_records : list lrec; zf_text : string }.

(** ** Rendering *)

(** app/local_dns.py:477-483 rel_name *)
Definition rel_name (fqdn zone : string) : string :=
  let suffix := "." +:+ zone in
  if String.eqb fqdn zone then "@"
  else if ends_with suffix fqdn
  then let r := sdrop_end (slen suffix) fqdn in if String.eqb r "" then "@" else r
  else fqdn +:+ ".".

Definition record_line (zone : string) (r : lrec) : string :=
  rel_name (lr_fqdn r) zone +:+ " " +:+ str_int (lr_ttl r) +:+ " IN " +:+ rtype_name (lr_type r)
  +:+ " " +:+ lr_value r +:+ (if is_addr (lr_type r) then "" else ".").

(** app/local_dns.py:486-500 render_zone *)
Definition render_zone (zone : string) (records : list lrec) (serial default_ttl : Z) : string :=
  let ns := LOCAL_NS +:+ "." +:+ zone +:+ "." in
  join nl (["$ORIGIN " +:+ zone +:+ "."; "$TTL " +:+ str_int default_ttl;
            "@ IN SOA " +:+ ns +:+ " hostmaster." +:+ zone +:+ ". ( " +:+ str_int serial
              +:+ " 1h 15m 30d 5m )";
            "@ IN NS " +:+ ns; LOCAL_NS +:+ " IN A 127.0.0.1"; ""]
           ++ (record_line zone <$> records)) +:+ nl.

(** app/local_dns.py:503-509 forward_zone_for_fqdn *)
Definition forward_zone_for_fqdn (fqdn internal_domain : string) : string :=
  if String.eqb fqdn internal_domain || ends_with ("." +:+ internal_domain) fqdn then internal_domain
  else
    let labels := split_on "." fqdn in
    if length labels <? 3 then fqdn else join "." (tail labels).

(** [".".join(fqdn.split(".")[1:])] *)
Definition reverse_zone (fqdn : string) : string := join "." (tail (split_on "." fqdn)).

(** ** Grouping by zone *)

(** [ORDER BY fqdn, record_type, value] *)
Definition record_order (a b : lrec) : Prop :=
  if decide (lr_fqdn a = lr_fqdn b) then
    if decide (lr_type a = lr_type b) then String.le (lr_value a) (lr_value b)
    else String.le (rtype_name (lr_type a)) (rtype_name (lr_type b))
  else String.le (lr_fqdn a) (lr_fqdn b).

#[export] Instance record_order_dec : RelDecision record_order.
Proof. intros a b. unfold record_order. repeat case_decide; apply _. Defined.

Definition enabled_records (db : ldb) : list lrec :=
  merge_sort record_order (List.filter lr_enabled (l_records db)).

(** [d.setdefault(zone, []).append(row)] *)
Definition add_to_zone (zone : string) (r : lrec) (m : gmap string (list lrec)) : gmap string (list lrec) :=
  <[zone := default [] (m !! zone) ++ [r]]> m.

Definition group_by (zone_of : lrec → option string) (m : gmap string (list lrec)) (l : list lrec)
    : gmap string (list lrec) :=
  fold_left (λ m r, match zone_of r with Some z => add_to_zone z r m | None => m end) l m.

Definition is_forward (t : rtype) : bool := bool_decide (t = TA ∨ t = TAAAA ∨ t = TCNAME).

Definition forward_of (domain : string) (r : lrec) : option string :=
  if is_forward (lr_type r) then Some (forward_zone_for_fqdn (lr_fqdn r) domain) else None.
Definition reverse_of (r : lrec) : option string :=
  if decide (lr_type r = TPTR) then Some (reverse_zone (lr_fqdn r)) else None.

(** [sorted(d.items())] *)
Definition sorted_items {A} (m : gmap string A) : list (string * A) :=
  omap (λ k, pair k <$> m !! k) (py_sorted (map_to_list m).*1).

(** A row of [local_dns_deployments]; the text columns are left out. *)
Record ldeploy := mkLdeploy { ld_id : Z; ld_status : string; ld_reverse : Z; ld_serial : Z }.

(** app/local_dns.py:470-474 next_serial *)
Definition next_serial (today : Z) (deps : list ldeploy) : Z :=
  let current := match last (List.filter (λ d, String.eqb (ld_status d) "deployed") deps) with
                 | Some d => ld_serial d | None => today end in
  Z.max (current + 1) today.

Section zones.
Context `{Platform}.

(** app/local_dns.py:512-531 build_zone_files *)
Definition build_zone_files (db : ldb) (serial : Z) : res (list ZoneFile) :=
  domain ← local_normalize (default DEFAULT_DOMAIN (l_settings db !! "internal_domain"));
  default_ttl ← validate_ttl (JStr (default "300" (l_settings db !! "default_ttl")));
  let enabled := enabled_records db in
  let file (z : string * list lrec) := mkZone z.1 z.2 (render_zone z.1 z.2 serial default_ttl) in
  let forward := group_by (forward_of domain) {[domain := []]} enabled in
  let reverse := group_by reverse_of ∅ enabled in
  Ok ((file <$> sorted_items forward) ++ (file <$> sorted_items reverse)).
End zones.

Definition zone_file_name (zone : string) : string := zone +:+ ".zone".

(** app/local_dns.py:26-28 LOCAL_ZONE_DIR *)
Definition LOCAL_ZONE_DIR : string := "/var/lib/alderpointdns/compiled/bind/local/".
Definition LOCAL_ZONES_CONF : string := "/var/lib/alderpointdns/compiled/bind/local-zones.conf".
Definition NAMED_LOCAL_CONF : string := "/etc/bind/named.conf.local".
Definition LOCAL_BACKUP_DIR : string := "/var/lib/alderpointdns/backups/".
Definition LOCAL_STAGING_DIR : string := "/var/lib/alderpointdns/staging/".

(** app/local_dns.py:534-549 render_include *)
Definition render_include (zones : list ZoneFile) : string :=
  join nl (["// Managed by Alderpoint DNS Local DNS. Do not edit by hand."; ""]
    ++ mjoin ((λ z, [quoted ("zone `" +:+ zf_zone z +:+ "` {");
                     tab +:+ "type primary;";
                     tab +:+ quoted ("file `" +:+ LOCAL_ZONE_DIR +:+ zone_file_name (zf_zone z) +:+ "`;");
                     tab +:+ quoted "allow-query { `alderpointdns_clients`; localhost; };";
                     tab +:+ "allow-transfer { none; };";
                     "};"; ""]) <$> zones)).

(** app/custom_rules.py:990-1001 _local_zone_names *)
Definition local_zone_names (tables : option ldb) : list string :=
  match tables with
  | None => []
  | Some db =>
      let internal := default DEFAULT_DOMAIN (l_settings db !! "internal_domain") in
      sorted_set ({[internal]} ∪ list_to_set ((λ r,
        if is_forward (lr_type r) then forward_zone_for_fqdn (lr_fqdn r) internal
        else reverse_zone (lr_fqdn r)) <$> List.filter lr_enabled (l_records db)))
  end.

(** ** Deployment *)

Definition with_stdout (m : M (Z * string)) : M string := r ← m; mret r.2.

(** The attempts of [dig_contains]. *)
Fixpoint dig_attempts (attempts : nat) (command : list string) (expected : string) : M bool :=
  match attempts with
  | O => mret false
  | S attempts =>
      r ← run command false;
      let output := lower (rstrip_by (λ c, char_in c ("." +:+ nl)) r.2) in
      if (r.1 =? 0)%Z && contains expected output then mret true
      else dig_attempts attempts command expected
  end.

(** app/local_dns.py:678-687 dig_contains *)
Definition dig_contains (command : list string) (expected : string) : M bool :=
  dig_attempts 5 command (lower (rstrip_char "." expected)).

Definition RuntimeError (message : string) : pyexc := PyExc "RuntimeError" message.

Definition validate_row (db : ldb) (row : lrec) : M () :=
  ok ← dig_contains ["dig"; "@127.0.0.1"; "-p"; "5353"; lr_fqdn row; rtype_name (lr_type row);
                     "+short"; "+time=2"; "+tries=1"] (lr_value row);
  if negb ok then raise (RuntimeError ("forward lookup failed for " +:+ lr_fqdn row))
  else
    let ptr := match lr_ptr_id row with
               | Some i => if (i =? 0)%Z then None
                           else find_first (λ r, (lr_id r =? i)%Z) (l_records db)
               | None => None end in
    match ptr with
    | None => mret ()
    | Some _ =>
        ok ← dig_contains ["dig"; "@127.0.0.1"; "-p"; "5353"; "-x"; lr_value row;
                           "+short"; "+time=2"; "+tries=1"] (lr_fqdn row);
        if (ok : bool) then mret ()
        else raise (RuntimeError ("reverse lookup failed for " +:+ lr_value row))
    end.

(** [ORDER BY id] *)
Definition by_id (a b : lrec) : Prop := (lr_id a ≤ lr_id b)%Z.
#[export] Instance by_id_dec : RelDecision by_id.
Proof. intros a b. unfold by_id. apply _. Defined.

(** app/local_dns.py:690-698 validate_dns_results *)
Definition validate_dns_results (db : ldb) : M () :=
  _ ← for_each (take 20 (merge_sort by_id
        (List.filter (λ r, lr_enabled r && is_addr (lr_type r)) (l_records db)))) (validate_row db);
  mret ().

(** app/local_dns.py:552-563 flush_dnsdist_packet_cache *)
Definition flush_dnsdist_packet_cache (zones : list ZoneFile) : M () :=
  _ ← for_each zones (λ z, try_except
        (run_ ["dnsdist"; "-C"; "/etc/dnsdist/dnsdist.conf"; "-c"; "-e";
               quoted ("pc:expungeByName(`" +:+ zf_zone z +:+ ".`, DNSQType.ANY, true)")] false)
        (λ _, mret ()));
  mret ().

(** app/local_dns.py:566-576 ensure_named_include *)
Definition ensure_named_include (seconds : string) : M () :=
  conf ← get_file NAMED_LOCAL_CONF;
  let include_line := quoted ("include `" +:+ LOCAL_ZONES_CONF +:+ "`;") in
  let current := default "" conf in
  if contains include_line current then mret ()
  else
    _ ← when (bool_decide (is_Some conf))
          (copy2 NAMED_LOCAL_CONF (LOCAL_BACKUP_DIR +:+ "named.conf.local.pre-localdns." +:+ seconds));
    write_text NAMED_LOCAL_CONF (rstrip_by is_space current +:+ nl +:+ nl +:+ include_line +:+ nl).

Section deploy.
Context `{Platform}.
(** The staging directory, the second and the deployment id the backup is named
    after, and the test hook. *)
Context (stage seconds : string) (test_invalid : bool).

Definition staged_zone (z : ZoneFile) : string := stage +:+ "local/" +:+ zone_file_name (zf_zone z).
Definition staged_include : string := stage +:+ "local-zones.conf".
Definition live_zone (z : ZoneFile) : string := LOCAL_ZONE_DIR +:+ zone_file_name (zf_zone z).

Definition checkzone (z : ZoneFile) : M () := run_ ["named-checkzone"; zf_zone z; staged_zone z] true.

(** Write and check the zones, write the include. *)
Definition stage_zones (zones : list ZoneFile) : M () :=
  _ ← for_each zones (λ z, _ ← write_text (staged_zone z) (zf_text z); checkzone z);
  _ ← write_text staged_include (render_include zones);
  if test_invalid then
    match zones with
    | [] => raise (PyExc "IndexError" "list index out of range")
    | z :: _ => t ← read_text (staged_zone z);
                _ ← write_text (staged_zone z) (t +:+ "invalid zone record" +:+ nl); checkzone z
    end
  else mret ().

(** Copy what is live below [backup]. *)
Definition back_up (backup : string) : M () :=
  dir ← exists_ LOCAL_ZONE_DIR;
  conf ← exists_ LOCAL_ZONES_CONF;
  _ ← when ((dir : bool) || conf)
        (_ ← mkdir backup;
         _ ← when dir (copytree LOCAL_ZONE_DIR (backup +:+ "local/"));
         when conf (copy2 LOCAL_ZONES_CONF (backup +:+ "local-zones.conf")));
  named ← exists_ NAMED_LOCAL_CONF;
  when named (_ ← mkdir backup; copy2 NAMED_LOCAL_CONF (backup +:+ "named.conf.local")).

(** Replace the live zones and the include. *)
Definition install_zones (zones : list ZoneFile) : M () :=
  _ ← mkdir LOCAL_ZONE_DIR;
  old ← glob LOCAL_ZONE_DIR ".zone";
  _ ← for_each old unlink;
  _ ← for_each zones (λ z, replace (staged_zone z) (live_zone z));
  replace staged_include LOCAL_ZONES_CONF.

(** Load them and look the records up. *)
Definition activate (db : ldb) (zones : list ZoneFile) : M () :=
  _ ← ensure_named_include seconds;
  _ ← run_ ["named-checkconf"; "-p"; "/etc/bind/named.conf"] true;
  _ ← run_ ["rndc"; "reconfig"] true;
  _ ← for_each zones (λ z, run_ ["rndc"; "reload"; zf_zone z] false);
  _ ← flush_dnsdist_packet_cache zones;
  validate_dns_results db.

Definition roll_back (backup : string) : M () :=
  saved_dir ← exists_ (backup +:+ "local/");
  dir ← exists_ LOCAL_ZONE_DIR;
  _ ← when saved_dir (_ ← when dir (rmtree LOCAL_ZONE_DIR);
                      copytree (backup +:+ "local/") LOCAL_ZONE_DIR);
  saved_conf ← exists_ (backup +:+ "local-zones.conf");
  conf ← exists_ LOCAL_ZONES_CONF;
  _ ← (if (saved_conf : bool) then copy2 (backup +:+ "local-zones.conf") LOCAL_ZONES_CONF
       else when conf (unlink LOCAL_ZONES_CONF));
  named ← exists_ (backup +:+ "named.conf.local");
  _ ← when named (copy2 (backup +:+ "named.conf.local") NAMED_LOCAL_CONF);
  dir ← exists_ LOCAL_ZONE_DIR;
  _ ← when (negb saved_dir && dir) (rmtree LOCAL_ZONE_DIR);
  run_ ["rndc"; "reconfig"] false.

(** The try statement: the status and the exception it re-raises. *)
Definition deploy_body (db : ldb) (backup : string) (serial : Z) : M (string * Z * res ()) :=
  match build_zone_files db serial with
  | Raise e => mret ("failed", 0%Z, Raise e)
  | Ok zones =>
      let reverse := Z.max 0 (Z.of_nat (length zones) - 1) in
      r ← attempt (_ ← stage_zones zones; _ ← back_up backup; install_zones zones);
      match r with
      | Raise e => mret ("failed", reverse, Raise e)
      | Ok _ =>
          r ← attempt (activate db zones);
          match r with
          | Ok _ => mret ("deployed", reverse, Ok ())
          | Raise e =>
              saved ← exists_ backup;
              if (saved : bool) then
                r ← attempt (roll_back backup);
                mret (if is_ok r then "rolled_back" else "rollback_failed", reverse, Raise e)
              else mret ("failed", reverse, Raise e)
          end
      end
  end.

(** app/local_dns.py:579-675 deploy_zones

    The new table of deployments and the id, or the exception. *)
Definition deploy_zones (host_out : string) (today : Z) (db : ldb) (deps : list ldeploy)
    : M (list ldeploy * res Z) :=
  let db := init_settings host_out db in
  let id := fresh_id (ld_id <$> deps) in
  let serial := next_serial today deps in
  let backup := LOCAL_BACKUP_DIR +:+ "localdns.last-good." +:+ seconds +:+ "." +:+ str_int id +:+ "/" in
  r ← deploy_body db backup serial;
  let '(status, reverse, outcome) := r in
  _ ← rmtree stage;
  mret (deps ++ [mkLdeploy id status reverse serial],
        match outcome with Ok _ => Ok id | Raise e => Raise e end).
End deploy.

(** ** Rolling a deployment back *)

(** A closed path computation that cannot be equal. *)
Ltac paths := let E := fresh in intros E; vm_compute in E; discriminate.

Section rollback.
Context `{Platform} (stage seconds : string) (test_invalid : bool).
Context (stage_ok : ∃ tmp, stage = LOCAL_STAGING_DIR +:+ tmp).
Context (backup : string) (backup_ok : ∃ tag, backup = LOCAL_BACKUP_DIR +:+ "localdns.last-good." +:+ tag).

Abbreviation staged := (staged_zone stage).
Abbreviation anything := (λ _ : list string, True).

(** What BIND loads: the zone directory, the include and [named.conf.local]. *)
Definition live (p : string) : Prop :=
  starts_with LOCAL_ZONE_DIR p = true ∨ p = LOCAL_ZONES_CONF ∨ p = NAMED_LOCAL_CONF.

Definition in_stage (p : string) : Prop := starts_with stage p = true.
Definition in_backup (p : string) : Prop := starts_with backup p = true.


Lemma stage_is p : in_stage p → ∃ q, p = LOCAL_STAGING_DIR +:+ q.
Proof.
  destruct stage_ok as [tmp Htmp]. unfold in_stage. rewrite Htmp.
  intros (q & ->)%starts_with_spec. exists (tmp +:+ q). by rewrite sapp_assoc.
Qed.

Lemma live_not_stage p : live p → ¬ in_stage p.
Proof.
  intros Hp Hs. apply stage_is in Hs as [q ->].
  destruct Hp as [Hp|[Hp|Hp]]; revert Hp; paths.
Qed.
Lemma backup_is p : in_backup p → ∃ q, p = LOCAL_BACKUP_DIR +:+ "localdns.last-good." +:+ q.
Proof.
  destruct backup_ok as [tag Htag]. unfold in_backup. rewrite Htag.
  intros (q & ->)%starts_with_spec. exists (tag +:+ q). by rewrite !sapp_assoc.
Qed.
Lemma live_not_backup p : live p → ¬ in_backup p.
Proof.
  intros Hp (q & ->)%backup_is. destruct Hp as [Hp|[Hp|Hp]]; revert Hp; paths.
Qed.
Lemma saved_not_stage p : in_backup p → ¬ in_stage p.
Proof. intros (q & ->)%backup_is [r Hr]%stage_is. revert Hr. paths. Qed.
Lemma staged_in z : in_stage (staged z).
Proof. unfold in_stage. apply starts_with_app. Qed.
Lemma include_in : in_stage (staged_include stage).
Proof. unfold in_stage. apply starts_with_app. Qed.

Lemma staged_inj z z' : staged z = staged z' → zf_zone z = zf_zone z'.
Proof.
  unfold staged_zone, zone_file_name. intros Heq. apply (inj (String.append _)), (inj (String.append _)) in Heq.
  by apply sapp_inv_tail in Heq.
Qed.

Lemma staged_not_include z : staged z ≠ staged_include stage.
Proof.
  unfold staged_zone, staged_include. intros Heq%(inj (String.append _)). revert Heq. paths.
Qed.

Lemma stage_zones_writes zones : writes in_stage anything (stage_zones stage test_invalid zones).
Proof.
  unfold stage_zones, checkzone. frames; auto using staged_in, include_in.
Qed.

(** The staged files are there once staging succeeded. *)
Lemma stage_zones_staged zones w w' :
  stage_zones stage test_invalid zones w = (Ok (), w') →
  (∀ z, z ∈ zones → is_Some (w_files w' !! staged z)) ∧ is_Some (w_files w' !! staged_include stage).
Proof.
  unfold stage_zones. rewrite bind_M.
  set (loop := for_each zones _).
  assert (∀ zs w bs w', for_each zs (λ z, _ ← write_text (staged z) (zf_text z); checkzone stage z) w
            = (Ok bs, w') →
    (∀ p, is_Some (w_files w !! p) → is_Some (w_files w' !! p))
    ∧ ∀ z, z ∈ zs → is_Some (w_files w' !! staged z)) as Hloop.
  { clear. induction zs as [|z zs IH]; intros w bs w'; cbn [for_each].
    { intros [= <- <-]. split; [done|]. by intros z ?%elem_of_nil. }
    rewrite bind_M, bind_M. cbn [write_text].
    destruct (checkzone stage z _) as [[[]|e] w1] eqn:E1; [|done].
    pose proof (f_equal snd E1) as Hw1. unfold checkzone in Hw1. rewrite run_log in Hw1. simpl in Hw1.
    rewrite bind_M. destruct (for_each zs _ w1) as [[bs'|e] w2] eqn:E2; [|done].
    intros [= _ <-]. apply IH in E2 as [Hmono Hz].
    assert (∀ p, is_Some (w_files w !! p) → is_Some (w_files w2 !! p)) as Hmono'.
    { intros p Hp. apply Hmono. subst w1. simpl. destruct (decide (staged z = p)) as [<-|];
        [by rewrite lookup_insert_eq; eauto|by rewrite lookup_insert_ne]. }
    split; [done|]. intros z' [->|Hz']%elem_of_cons; [|by apply Hz].
    apply Hmono. subst w1. simpl. rewrite lookup_insert_eq. eauto. }
  destruct (loop w) as [[bs|e] w1] eqn:E1; [|done]. apply Hloop in E1 as [_ Hz].
  rewrite bind_M. cbn [write_text].
  set (w2 := w1{{w_files ::= _}}).
  assert ((∀ z, z ∈ zones → is_Some (w_files w2 !! staged z)) ∧ is_Some (w_files w2 !! staged_include stage))
    as [Hz2 Hi2].
  { subst w2. destruct w1 as [f lg an]. simpl in *. split; [|rewrite lookup_insert_eq; eauto].
    intros z Hz'. rewrite lookup_insert_ne by apply not_eq_sym, staged_not_include. by apply Hz. }
  destruct test_invalid; [|by intros [= <-]].
  destruct zones as [|z zones]; [done|]. rewrite bind_M. unfold read_text.
  destruct (w_files w2 !! staged z) as [t|] eqn:Et; [|done]. rewrite bind_M. cbn [write_text].
  intros E%(f_equal snd). unfold checkzone in E. rewrite run_log in E. cbn [snd] in E. subst w'.
  destruct w2 as [f lg an]. simpl in *. split.
  - intros z' Hz'. destruct (decide (staged z = staged z')) as [Heq|].
    + rewrite Heq, lookup_insert_eq. eauto.
    + rewrite lookup_insert_ne by done. by apply Hz2.
  - by rewrite lookup_insert_ne by apply staged_not_include.
Qed.

Lemma in_backup_app t : in_backup (backup +:+ t).
Proof. apply starts_with_app. Qed.

Lemma back_up_writes : writes in_backup anything (back_up backup).
Proof.
  unfold back_up. frames; first [apply starts_with_refl|apply in_backup_app|idtac].
  by eapply starts_with_prefix.
Qed.

(** A directory entry for everything below it. *)
Definition closed (f : gmap string string) : Prop :=
  ∀ q, is_Some (f !! (LOCAL_ZONE_DIR +:+ q)) → is_Some (f !! LOCAL_ZONE_DIR).

(** What a backup of the files [f] holds. *)
Record backed_up (f f' : gmap string string) : Prop := {
  bu_marker : is_Some (f' !! backup);
  bu_zones : ∀ q, f' !! (backup +:+ "local/" +:+ q) = f !! (LOCAL_ZONE_DIR +:+ q);
  bu_conf : f' !! (backup +:+ "local-zones.conf") = f !! LOCAL_ZONES_CONF;
  bu_named : f' !! (backup +:+ "named.conf.local") = f !! NAMED_LOCAL_CONF;
}.

Lemma mkdir_lookup d w p :
  w_files (mkdir d w).2 !! p
  = if decide (p = d) then Some (default "" (w_files w !! d)) else w_files w !! p.
Proof.
  destruct w as [f lg an]. simpl. destruct (f !! d) as [t|] eqn:E.
  - case_decide; [by subst|done].
  - case_decide as Hd; [subst; by rewrite lookup_insert_eq|by rewrite lookup_insert_ne].
Qed.

Lemma live_not_in_backup_path p t : live p → p ≠ backup +:+ t.
Proof. intros Hp ->. eapply live_not_backup; [done|apply in_backup_app]. Qed.

Lemma backup_neq t t' : t ≠ t' → backup +:+ t ≠ backup +:+ t'.
Proof. by intros Ht ?%(inj (String.append _)). Qed.

Lemma backup_neq_dir c t : backup +:+ String c t ≠ backup.
Proof. rewrite <-(sapp_nil_r backup) at 2. by apply backup_neq. Qed.

Lemma zone_dir_live q : live (LOCAL_ZONE_DIR +:+ q).
Proof. left. apply starts_with_app. Qed.

(** The copy of the zone directory and of the include. *)
Lemma back_up_zones w :
  (∀ p, in_backup p → w_files w !! p = None) → closed (w_files w) →
  let dir := bool_decide (is_Some (w_files w !! LOCAL_ZONE_DIR)) in
  let conf := bool_decide (is_Some (w_files w !! LOCAL_ZONES_CONF)) in
  ∃ w', (when (dir || conf)
          (_ ← mkdir backup;
           _ ← when dir (copytree LOCAL_ZONE_DIR (backup +:+ "local/"));
           when conf (copy2 LOCAL_ZONES_CONF (backup +:+ "local-zones.conf")))) w = (Ok (), w')
    ∧ (∀ q, w_files w' !! (backup +:+ "local/" +:+ q) = w_files w !! (LOCAL_ZONE_DIR +:+ q))
    ∧ w_files w' !! (backup +:+ "local-zones.conf") = w_files w !! LOCAL_ZONES_CONF
    ∧ w_files w' !! NAMED_LOCAL_CONF = w_files w !! NAMED_LOCAL_CONF
    ∧ w_files w' !! (backup +:+ "named.conf.local") = None.
Proof.
  intros Hfresh Hclosed dir conf.
  assert (∀ t, w_files w !! (backup +:+ t) = None) as Hnone by (intros; apply Hfresh, in_backup_app).
  assert (dir = false → ∀ q, w_files w !! (LOCAL_ZONE_DIR +:+ q) = None) as Hnodir.
  { intros Hd%bool_decide_eq_false q. destruct (w_files w !! (LOCAL_ZONE_DIR +:+ q)) eqn:E; [|done].
    destruct Hd. eapply Hclosed. eauto. }
  assert (conf = false → w_files w !! LOCAL_ZONES_CONF = None) as Hnoconf.
  { intros Hd%bool_decide_eq_false. by apply eq_None_not_Some. }
  destruct (dir || conf) eqn:Edc; cbn [when].
  2:{ apply orb_false_iff in Edc as [Hd Hc]. exists w. rewrite !Hnone, Hnoconf by done.
      split_and!; [done| |done..]. intros q. by rewrite Hnone, Hnodir. }
  rewrite bind_M. change (mkdir backup w) with (Ok (A := ()) (), (mkdir backup w).2). cbn iota beta.
  set (w1 := (mkdir backup w).2).
  assert (∀ p, p ≠ backup → w_files w1 !! p = w_files w !! p) as H1.
  { intros p Hp. subst w1. rewrite mkdir_lookup. by rewrite decide_False. }
  set (w2 := if dir then (copytree LOCAL_ZONE_DIR (backup +:+ "local/") w1).2 else w1).
  assert ((_ ← when dir (copytree LOCAL_ZONE_DIR (backup +:+ "local/"));
           when conf (copy2 LOCAL_ZONES_CONF (backup +:+ "local-zones.conf"))) w1
    = when conf (copy2 LOCAL_ZONES_CONF (backup +:+ "local-zones.conf")) w2) as ->.
  { rewrite bind_M. subst w2. by destruct dir. }
  assert (∀ p, starts_with (backup +:+ "local/") p = false → w_files w2 !! p = w_files w1 !! p) as H2o.
  { intros p Hp. subst w2. destruct dir; [|done].
    apply (frame_files (λ p, starts_with (backup +:+ "local/") p = true) (λ _, False)); [|congruence].
    by apply writes_copytree. }
  assert (∀ q, w_files w2 !! (backup +:+ "local/" +:+ q) = w_files w !! (LOCAL_ZONE_DIR +:+ q)) as H2.
  { intros q. rewrite <-sapp_assoc. subst w2. destruct dir eqn:Ed.
    - rewrite copytree_lookup, !H1.
      + rewrite sapp_assoc, Hnone. by destruct (w_files w !! (LOCAL_ZONE_DIR +:+ q)).
      + rewrite sapp_assoc. apply backup_neq_dir.
      + rewrite <-(sapp_nil_r backup). apply live_not_in_backup_path, zone_dir_live.
    - rewrite H1 by (rewrite sapp_assoc; apply backup_neq_dir).
      by rewrite sapp_assoc, Hnone, Hnodir. }
  assert (∀ t, starts_with "local/" t = false → t ≠ "" →
    w_files w2 !! (backup +:+ t) = None) as H2b.
  { intros t Ht Hne. rewrite H2o, H1, Hnone; [done| |].
    - rewrite <-(sapp_nil_r backup) at 2. by apply backup_neq.
    - destruct (starts_with (backup +:+ "local/") _) eqn:E; [|done].
      apply starts_with_spec in E as (u & E). rewrite sapp_assoc in E.
      apply (inj (String.append _)) in E as ->. by rewrite starts_with_app in Ht. }
  assert (∀ p, live p → w_files w2 !! p = w_files w !! p) as H2l.
  { intros p Hp. rewrite H2o, H1; [done| |].
    - intros ->. eapply live_not_backup; [done|apply starts_with_refl].
    - destruct (starts_with _ p) eqn:E; [|done]. apply starts_with_prefix in E.
      by apply live_not_backup in Hp. }
  destruct conf eqn:Ec; cbn [when].
  - apply bool_decide_eq_true in Ec as [t Ht].
    erewrite copy2_run by (rewrite H2l; [exact Ht|right; by left]).
    eexists. split; [done|]. destruct w2 as [f2 lg2 an2]. simpl in *. split_and!.
    + intros q. rewrite lookup_insert_ne; [apply H2|]. apply backup_neq. paths.
    + by rewrite lookup_insert_eq.
    + rewrite lookup_insert_ne; [apply H2l; right; by right|].
      apply not_eq_sym, live_not_in_backup_path. right; by right.
    + rewrite lookup_insert_ne by (apply backup_neq; paths). by apply H2b.
  - exists w2. split_and!; [done..| | |by apply H2b].
    + rewrite Hnoconf by done. by apply H2b.
    + apply H2l. right; by right.
Qed.

Lemma back_up_run w :
  (∀ p, in_backup p → w_files w !! p = None) → is_Some (w_files w !! NAMED_LOCAL_CONF) →
  closed (w_files w) →
  ∃ w', back_up backup w = (Ok (), w') ∧ backed_up (w_files w) (w_files w')
    ∧ frame in_backup anything w w'.
Proof.
  intros Hfresh [named Hnamed] Hclosed.
  pose proof (back_up_writes w) as Hframe.
  destruct (back_up_zones w Hfresh Hclosed) as (w1 & Hrun & Hz & Hc & Hn & Hb).
  assert (∃ w', back_up backup w = (Ok (), w')
    ∧ w_files w' = <[backup +:+ "named.conf.local" := named]> (w_files (mkdir backup w1).2))
    as (w' & Hw' & Hf').
  { eexists. split.
    - unfold back_up. rewrite bind_M. cbn [exists_]. rewrite bind_M. cbn [exists_]. rewrite bind_M, Hrun.
      rewrite bind_M. cbn [exists_]. rewrite Hn, Hnamed. cbn [when].
      rewrite bool_decide_eq_true_2 by eauto. cbn [when]. rewrite bind_M.
      change (mkdir backup w1) with (Ok (A := ()) (), (mkdir backup w1).2). cbn iota beta.
      rewrite (copy2_run _ _ _ named); [reflexivity|].
      rewrite mkdir_lookup, decide_False; [by rewrite Hn|].
      rewrite <-(sapp_nil_r backup). apply live_not_in_backup_path. right; by right.
    - by destruct ((mkdir backup w1).2). }
  exists w'. split; [done|]. split; [|by rewrite Hw' in Hframe]. rewrite Hf'. split.
  - rewrite lookup_insert_ne by apply backup_neq_dir. rewrite mkdir_lookup, decide_True by done. eauto.
  - intros q. rewrite lookup_insert_ne by (apply backup_neq; paths).
    rewrite mkdir_lookup, decide_False by apply backup_neq_dir. apply Hz.
  - rewrite lookup_insert_ne by (apply backup_neq; paths).
    rewrite mkdir_lookup, decide_False by apply backup_neq_dir. apply Hc.
  - by rewrite lookup_insert_eq.
Qed.

(** With one file per zone, the staged files move into place without failing. *)
Lemma unlink_all ps w :
  NoDup ps → (∀ p, p ∈ ps → is_Some (w_files w !! p)) →
  ∃ bs w', for_each ps unlink w = (Ok bs, w').
Proof.
  intros Hnd Hall.
  destruct (for_each_ok ps unlink
    (λ ps w, NoDup ps ∧ ∀ p, p ∈ ps → is_Some (w_files w !! p)) w) as (bs & w' & Hrun & _); [done| |eauto].
  clear. intros p ps w [Hnd Hall]. apply NoDup_cons in Hnd as [Hp Hnd].
  destruct (Hall p) as [t Ht]; [left|]. unfold unlink. rewrite Ht.
  eexists _, _. split; [done|]. split; [done|]. intros q Hq. destruct w as [f lg an]. simpl.
  rewrite lookup_delete_ne by (intros ->; done). apply Hall. by right.
Qed.

Lemma replace_all_zones zones w :
  NoDup (zf_zone <$> zones) → (∀ z, z ∈ zones → is_Some (w_files w !! staged z)) →
  is_Some (w_files w !! staged_include stage) →
  ∃ bs w', for_each zones (λ z, replace (staged z) (live_zone z)) w = (Ok bs, w')
    ∧ is_Some (w_files w' !! staged_include stage).
Proof.
  intros Hnd Hz Hi.
  destruct (for_each_ok zones (λ z, replace (staged z) (live_zone z))
    (λ zs w, NoDup (zf_zone <$> zs) ∧ (∀ z, z ∈ zs → is_Some (w_files w !! staged z))
             ∧ is_Some (w_files w !! staged_include stage)) w)
    as (bs & w' & Hrun & (_ & _ & Hi')); [done| |eauto].
  clear -stage_ok. intros z zs w (Hnd & Hz & Hi).
  cbn [fmap list_fmap] in Hnd. apply NoDup_cons in Hnd as [Hzn Hnd].
  destruct (Hz z) as [t Ht]; [left|]. rewrite (replace_run _ _ _ t Ht).
  assert (∀ p, in_stage p → live_zone z ≠ p) as Hlive.
  { intros p Hp <-. eapply live_not_stage; [apply zone_dir_live|done]. }
  eexists _, _. split; [done|]. destruct w as [f lg an]. simpl in *. split_and!; [done| |].
  - intros z' Hz'. rewrite lookup_insert_ne by apply Hlive, staged_in.
    rewrite lookup_delete_ne; [apply Hz; by right|].
    intros Heq%staged_inj. apply Hzn. rewrite Heq. by apply list_elem_of_fmap_2.
  - rewrite lookup_insert_ne by apply Hlive, include_in.
    by rewrite lookup_delete_ne by apply staged_not_include.
Qed.

Definition installed_paths (p : string) : Prop :=
  in_stage p ∨ starts_with LOCAL_ZONE_DIR p = true ∨ p = LOCAL_ZONES_CONF.

(** The part of [install_zones] after the directory is there. *)
Lemma install_writes (S : string → Prop) zones :
  (∀ p, starts_with LOCAL_ZONE_DIR p = true → ends_with ".zone" p = true → S p) →
  (∀ z, S (staged z)) → S (staged_include stage) → S LOCAL_ZONES_CONF →
  writes S anything
    (old ← glob LOCAL_ZONE_DIR ".zone";
     _ ← for_each old unlink;
     _ ← for_each zones (λ z, replace (staged z) (live_zone z));
     replace (staged_include stage) LOCAL_ZONES_CONF).
Proof.
  intros Hlive Hz Hi Hc. apply writes_glob_bind. intros old Hold. frames; try done.
  - destruct (Hold x); auto.
  - apply Hlive; [apply starts_with_app|]. unfold live_zone, zone_file_name.
    rewrite <-!sapp_assoc. apply ends_with_app.
Qed.

Lemma install_zones_writes zones : writes installed_paths anything (install_zones stage zones).
Proof.
  apply writes_bind; [apply writes_mkdir; right; left; apply starts_with_refl|]. intros _.
  apply install_writes; unfold installed_paths; auto using staged_in, include_in.
Qed.
(** The directory stays once it is made. *)
Lemma install_zones_dir zones w :
  is_Some (w_files (install_zones stage zones w).2 !! LOCAL_ZONE_DIR).
Proof.
  unfold install_zones. rewrite bind_M.
  change (mkdir LOCAL_ZONE_DIR w) with (Ok (A := ()) (), (mkdir LOCAL_ZONE_DIR w).2). cbn iota beta.
  erewrite (frame_files (λ p, p ≠ LOCAL_ZONE_DIR) anything); [|apply install_writes|by intros Hn; apply Hn].
  - rewrite mkdir_lookup, decide_True by done. eauto.
  - intros p _ Hp ->. by vm_compute in Hp.
  - intros z Heq. eapply live_not_stage; [|apply (staged_in z)]. rewrite Heq. apply (zone_dir_live "").
  - intros Heq. eapply live_not_stage; [|apply include_in]. rewrite Heq. apply (zone_dir_live "").
  - paths.
Qed.

Lemma install_zones_run zones w :
  NoDup (zf_zone <$> zones) → (∀ z, z ∈ zones → is_Some (w_files w !! staged z)) →
  is_Some (w_files w !! staged_include stage) →
  ∃ w', install_zones stage zones w = (Ok (), w').
Proof.
  intros Hnd Hz Hi. unfold install_zones. rewrite bind_M.
  change (mkdir LOCAL_ZONE_DIR w) with (Ok (A := ()) (), (mkdir LOCAL_ZONE_DIR w).2). cbn iota beta.
  set (w1 := (mkdir LOCAL_ZONE_DIR w).2).
  assert (∀ p, in_stage p → w_files w1 !! p = w_files w !! p) as H1.
  { intros p Hp. subst w1. rewrite mkdir_lookup, decide_False; [done|].
    intros ->. eapply live_not_stage; [apply (zone_dir_live "")|exact Hp]. }
  rewrite bind_M. cbn [glob]. set (old := List.filter _ _).
  assert (∀ p, p ∈ old → is_Some (w_files w1 !! p) ∧ starts_with LOCAL_ZONE_DIR p = true) as Hold.
  { intros p [Hp Hsw]%elem_of_filterb. bool_to_prop. split; [|done].
    apply list_elem_of_fmap in Hp as ([q t] & -> & Hp%elem_of_map_to_list). eauto. }
  destruct (unlink_all old w1) as (bs & w2 & Hrun).
  { eapply sublist_NoDup; [|apply filterb_sublist]. apply NoDup_fst_map_to_list. }
  { intros p Hp. by apply Hold. }
  rewrite bind_M, Hrun.
  assert (∀ p, in_stage p → w_files w2 !! p = w_files w !! p) as H2.
  { intros p Hp. rewrite <-H1 by done.
    replace w2 with (for_each old unlink w1).2 by by rewrite Hrun.
    apply (frame_files (λ p, starts_with LOCAL_ZONE_DIR p = true) anything).
    - frames. by apply Hold.
    - intros Hl. eapply live_not_stage; [by left|exact Hp]. }
  destruct (replace_all_zones zones w2) as (bs3 & w3 & Hrun3 & [t Ht]).
  { done. }
  { intros z Hin. rewrite H2 by apply staged_in. by apply Hz. }
  { by rewrite H2 by apply include_in. }
  rewrite bind_M, Hrun3. erewrite replace_run by exact Ht. eauto.
Qed.

(** What [activate] touches of the files: [named.conf.local] and its own copy of it. *)
Definition activate_paths (p : string) : Prop :=
  p = NAMED_LOCAL_CONF ∨ starts_with (LOCAL_BACKUP_DIR +:+ "named.conf.local.pre-localdns.") p = true.

Lemma dig_contains_writes S c e : writes S anything (dig_contains c e).
Proof. unfold dig_contains. generalize 5. induction n as [|n IH]; simpl; frames; done. Qed.

Lemma validate_row_writes S db row : writes S anything (validate_row db row).
Proof.
  unfold validate_row. apply writes_bind; [apply dig_contains_writes|]. intros ok.
  destruct (negb ok); [apply writes_raise|]. cbv zeta.
  case_match; [|apply writes_ret]. apply writes_bind; [apply dig_contains_writes|].
  intros []; [apply writes_ret|apply writes_raise].
Qed.

#[local] Hint Resolve dig_contains_writes validate_row_writes : frames.

Lemma activate_writes db zones : writes activate_paths anything (activate seconds db zones).
Proof.
  unfold activate, ensure_named_include, flush_dnsdist_packet_cache, validate_dns_results.
  frames; try done; [|by left].
  right. rewrite <-sapp_assoc. apply starts_with_app.
Qed.

Lemma activate_not_backup p : activate_paths p → ¬ in_backup p.
Proof.
  intros Hp (q & ->)%backup_is. destruct Hp as [Hp|Hp]; revert Hp; paths.
Qed.

Lemma installed_not_backup p : installed_paths p → ¬ in_backup p.
Proof.
  intros [Hp|Hp] Hb; [by apply saved_not_stage in Hb|].
  apply live_not_backup in Hb; [done|]. destruct Hp; [by left|right; by left].
Qed.

(** [roll_back] puts back what [back_up] saved, whatever the command answers. *)
Lemma roll_back_restores f w :
  closed f → closed (w_files w) → is_Some (f !! NAMED_LOCAL_CONF) → backed_up f (w_files w) →
  ∀ p, live p → w_files (roll_back backup w).2 !! p = f !! p.
Proof.
  intros Hclosed Hclosedw [named Hnamed] [Hm Hz Hc Hn]. unfold roll_back.
  rewrite bind_M. cbn [exists_]. rewrite bind_M. cbn [exists_].
  set (saved := bool_decide (is_Some (w_files w !! (backup +:+ "local/")))).
  set (dir := bool_decide (is_Some (w_files w !! LOCAL_ZONE_DIR))).
  assert (saved = bool_decide (is_Some (f !! LOCAL_ZONE_DIR))) as Hsaved.
  { subst saved. specialize (Hz ""). rewrite !sapp_nil_r in Hz. by rewrite Hz. }
  set (w1 := if saved then (copytree (backup +:+ "local/") LOCAL_ZONE_DIR
                             (if dir then (rmtree LOCAL_ZONE_DIR w).2 else w)).2 else w).
  assert ((when saved (_ ← when dir (rmtree LOCAL_ZONE_DIR);
                      copytree (backup +:+ "local/") LOCAL_ZONE_DIR)) w = (Ok (), w1)) as Hrun1.
  { subst w1. destruct saved; [|done]. cbn [when]. rewrite bind_M. by destruct dir. }
  rewrite bind_M, Hrun1.
  assert (∀ p, starts_with LOCAL_ZONE_DIR p = false → w_files w1 !! p = w_files w !! p) as H1o.
  { intros p Hp. subst w1. destruct saved; [|done].
    rewrite (frame_files (λ p, starts_with LOCAL_ZONE_DIR p = true) anything
      (if dir then (rmtree LOCAL_ZONE_DIR w).2 else w)); [|by apply writes_copytree|congruence].
    destruct dir; [by apply rmtree_other|done]. }
  assert (saved = true → ∀ q, w_files w1 !! (LOCAL_ZONE_DIR +:+ q) = f !! (LOCAL_ZONE_DIR +:+ q)) as H1z.
  { intros Hs q. subst w1. rewrite Hs, copytree_lookup, sapp_assoc.
    assert (∀ p, in_backup p → w_files (if dir then (rmtree LOCAL_ZONE_DIR w).2 else w) !! p
                              = w_files w !! p) as Hb.
    { intros p Hp. destruct dir; [|done]. apply rmtree_other.
      destruct (starts_with LOCAL_ZONE_DIR p) eqn:E; [|done].
      apply live_not_backup in Hp; [done|by left]. }
    rewrite Hb, Hz by apply in_backup_app. destruct (f !! (LOCAL_ZONE_DIR +:+ q)); [done|].
    destruct dir eqn:Ed; [by apply rmtree_under, starts_with_app|].
    apply bool_decide_eq_false in Ed. destruct (w_files w !! (LOCAL_ZONE_DIR +:+ q)) eqn:E; [|done].
    destruct Ed. apply (Hclosedw q). eauto. }
  destruct (restore_file (backup +:+ "local-zones.conf") LOCAL_ZONES_CONF w1) as (w2 & Hrun2 & H2c & H2o).
  assert (∀ t, live (backup +:+ t) → False) as Hnl.
  { intros t Ht. eapply live_not_backup; [exact Ht|apply in_backup_app]. }
  assert (∀ t, starts_with LOCAL_ZONE_DIR (backup +:+ t) = false) as Hbz.
  { intros t. destruct (starts_with _ _) eqn:E; [|done]. destruct (Hnl t). by left. }
  rewrite H1o, Hc in H2c by apply Hbz.
  set (w3 := w2{{w_files ::= <[NAMED_LOCAL_CONF := named]>}}).
  assert (w_files w2 !! (backup +:+ "named.conf.local") = Some named) as Hn2.
  { rewrite H2o, H1o, Hn; [done|apply Hbz|]. apply not_eq_sym, live_not_in_backup_path. right; by left. }
  assert (∀ p, p ≠ LOCAL_ZONES_CONF → p ≠ NAMED_LOCAL_CONF → w_files w3 !! p = w_files w1 !! p) as H3o.
  { intros p Hp Hp'. subst w3. destruct w2 as [f2 lg2 an2]. simpl in *.
    rewrite lookup_insert_ne by done. by apply H2o. }
  set (dir3 := bool_decide (is_Some (w_files w3 !! LOCAL_ZONE_DIR))).
  set (w4 := if negb saved && dir3 then (rmtree LOCAL_ZONE_DIR w3).2 else w3).
  assert ((named ← exists_ (backup +:+ "named.conf.local");
    _ ← when named (copy2 (backup +:+ "named.conf.local") NAMED_LOCAL_CONF);
    dir ← exists_ LOCAL_ZONE_DIR;
    _ ← when (negb saved && dir) (rmtree LOCAL_ZONE_DIR);
    run_ ["rndc"; "reconfig"] false) w2 = run_ ["rndc"; "reconfig"] false w4) as Hrun3.
  { rewrite bind_M. cbn [exists_]. rewrite Hn2, bool_decide_eq_true_2 by eauto. cbn [when].
    rewrite bind_M, (copy2_run _ _ _ _ Hn2). fold w3. rewrite bind_M. cbn [exists_]. fold dir3.
    rewrite bind_M. subst w4. by destruct (negb saved && dir3). }
  do 2 (rewrite bind_M in Hrun2; cbn [exists_] in Hrun2). do 2 (rewrite bind_M; cbn [exists_]).
  rewrite bind_M, Hrun2, Hrun3, run_log. intros p Hp.
  transitivity (w_files w4 !! p); [by destruct w4|].
  assert (∀ q, LOCAL_ZONE_DIR +:+ q ≠ LOCAL_ZONES_CONF ∧ LOCAL_ZONE_DIR +:+ q ≠ NAMED_LOCAL_CONF) as Hzne
    by (intros q; split; paths).
  assert (∀ p, p = LOCAL_ZONES_CONF ∨ p = NAMED_LOCAL_CONF → w_files w4 !! p = w_files w3 !! p) as H4o.
  { intros q Hq. subst w4. destruct (negb saved && dir3); [|done]. apply rmtree_other.
    by destruct Hq as [-> | ->]. }
  destruct Hp as [Hp|[-> | ->]].
  - apply starts_with_spec in Hp as (q & ->). destruct (Hzne q). subst w4. destruct saved eqn:Es.
    { cbn [negb andb]. by rewrite H3o, H1z. }
    symmetry in Hsaved. apply bool_decide_eq_false in Hsaved. cbn [negb andb].
    replace (f !! (LOCAL_ZONE_DIR +:+ q)) with (None (A := string)).
    2:{ destruct (f !! (LOCAL_ZONE_DIR +:+ q)) eqn:E; [|done]. destruct Hsaved. eapply Hclosed. eauto. }
    destruct dir3 eqn:Ed; [by apply rmtree_under, starts_with_app|].
    rewrite H3o by done. subst dir3. rewrite H3o in Ed by paths. subst w1.
    apply bool_decide_eq_false in Ed. destruct (w_files w !! (LOCAL_ZONE_DIR +:+ q)) eqn:E; [|done].
    destruct Ed. eapply Hclosedw. eauto.
  - rewrite H4o by by left. subst w3. destruct w2 as [f2 lg2 an2]. simpl in *.
    by rewrite lookup_insert_ne by paths.
  - rewrite H4o by by right. subst w3. destruct w2 as [f2 lg2 an2]. simpl in *.
    by rewrite lookup_insert_eq.
Qed.

(** What the part before activation leaves behind: either nothing outside the staging
    directory changed, or the new zones are in place and the old ones are saved. *)
Lemma prepare_spec zones w :
  closed (w_files w) → is_Some (w_files w !! NAMED_LOCAL_CONF) →
  (∀ p, in_backup p → w_files w !! p = None) → NoDup (zf_zone <$> zones) →
  match (_ ← stage_zones stage test_invalid zones; _ ← back_up backup; install_zones stage zones) w with
  | (Ok _, w') => is_Some (w_files w' !! LOCAL_ZONE_DIR) ∧ backed_up (w_files w) (w_files w')
  | (Raise _, w') => ∀ p, live p → w_files w' !! p = w_files w !! p
  end.
Proof.
  intros Hclosed Hnamed Hfresh Hnd. rewrite bind_M.
  pose proof (stage_zones_writes zones w) as [Hs _ _].
  pose proof (stage_zones_staged zones w) as Hstaged.
  destruct (stage_zones stage test_invalid zones w) as [[[]|e] w1]; cbn [snd] in Hs.
  2:{ intros p Hp. by apply Hs, live_not_stage. }
  destruct (Hstaged w1 eq_refl) as [Hz Hi].
  assert (∀ p, ¬ in_stage p → w_files w1 !! p = w_files w !! p) as H1 by done.
  assert (∀ q, LOCAL_ZONE_DIR +:+ q = LOCAL_ZONE_DIR +:+ q → w_files w1 !! (LOCAL_ZONE_DIR +:+ q)
    = w_files w !! (LOCAL_ZONE_DIR +:+ q)) as Hz1 by (intros; by apply H1, live_not_stage, zone_dir_live).
  destruct (back_up_run w1) as (w2 & Hrun2 & [Hm Hbz Hbc Hbn] & Hfr).
  { intros p Hp. rewrite H1; [by apply Hfresh|by apply saved_not_stage]. }
  { rewrite H1; [done|]. apply live_not_stage. right; by right. }
  { intros q. rewrite Hz1 by done. pose proof (Hz1 "" eq_refl) as Hz0.
    rewrite sapp_nil_r in Hz0. rewrite Hz0. apply Hclosed. }
  rewrite bind_M, Hrun2.
  destruct (install_zones_run zones w2) as [w3 Hrun3]; [done| | |].
  { intros z Hin. rewrite (frame_files _ _ _ _ Hfr); [by apply Hz|].
    intros Hb. eapply saved_not_stage; [exact Hb|apply staged_in]. }
  { rewrite (frame_files _ _ _ _ Hfr); [done|].
    intros Hb. eapply saved_not_stage; [exact Hb|apply include_in]. }
  pose proof (install_zones_dir zones w2) as Hdir. pose proof (install_zones_writes zones w2) as [H3 _ _].
  rewrite Hrun3 in *. cbn [snd] in *. split; [done|].
  assert (∀ t, w_files w3 !! (backup +:+ t) = w_files w2 !! (backup +:+ t)) as H3b.
  { intros t. apply H3. intros Hp. by eapply installed_not_backup, in_backup_app. }
  split.
  - pose proof (H3b "") as Hb. rewrite sapp_nil_r in Hb. by rewrite Hb.
  - intros q. by rewrite H3b, Hbz, Hz1.
  - rewrite H3b, Hbc. apply H1, live_not_stage. right; by left.
  - rewrite H3b, Hbn. apply H1, live_not_stage. right; by right.
Qed.

(** Every way the try statement ends: deployed, or the exception with the live files
    as they were. *)
Lemma deploy_body_spec db serial w :
  closed (w_files w) → is_Some (w_files w !! NAMED_LOCAL_CONF) →
  (∀ p, in_backup p → w_files w !! p = None) →
  (∀ zones, build_zone_files db serial = Ok zones → NoDup (zf_zone <$> zones)) →
  match deploy_body stage seconds test_invalid db backup serial w with
  | (Ok (status, _, Ok _), _) => status = "deployed"
  | (Ok (_, _, Raise _), w') => ∀ p, live p → w_files w' !! p = w_files w !! p
  | (Raise _, _) => False
  end.
Proof.
  intros Hclosed Hnamed Hfresh Hnd. unfold deploy_body.
  destruct (build_zone_files db serial) as [zones|e]; [|done]. specialize (Hnd _ eq_refl). cbv zeta.
  rewrite bind_M. unfold attempt at 1.
  pose proof (prepare_spec zones w Hclosed Hnamed Hfresh Hnd) as Hprep.
  match type of Hprep with match ?m with _ => _ end => destruct m as [[[]|e] w1] end; [|done].
  destruct Hprep as [Hdir Hbu].
  rewrite bind_M. unfold attempt at 1. pose proof (activate_writes db zones w1) as [Ha _ _].
  destruct (activate seconds db zones w1) as [[[]|e] w2]; [done|]. cbn [snd] in Ha.
  assert (∀ t, w_files w2 !! (backup +:+ t) = w_files w1 !! (backup +:+ t)) as Hab.
  { intros t. apply Ha. intros Hp. by eapply activate_not_backup, in_backup_app. }
  assert (backed_up (w_files w) (w_files w2)) as Hbu2.
  { destruct Hbu as [Hm Hz Hc Hn]. pose proof (Hab "") as Hb. rewrite sapp_nil_r in Hb.
    split; [by rewrite Hb|intros q|..]; by rewrite Hab. }
  assert (is_Some (w_files w2 !! LOCAL_ZONE_DIR)) as Hdir2.
  { rewrite Ha; [done|]. intros [Hp|Hp]; revert Hp; paths. }
  pose proof (roll_back_restores (w_files w) w2 Hclosed (λ _ _, Hdir2) Hnamed Hbu2) as Hroll.
  rewrite bind_M. cbn [exists_]. rewrite bool_decide_eq_true_2 by apply Hbu2.
  rewrite bind_M. unfold attempt. by destruct (roll_back backup w2) as [[[]|?] w3].
Qed.
(** All that a deployment may touch. *)
Definition zone_paths (p : string) : Prop := live p ∨ in_stage p ∨ in_backup p ∨ activate_paths p.

Lemma roll_back_writes : writes zone_paths anything (roll_back backup).
Proof.
  unfold roll_back, zone_paths, live. frames; auto.
Qed.

Lemma deploy_body_writes db serial : writes zone_paths anything (deploy_body stage seconds test_invalid db backup serial).
Proof.
  assert (∀ (S : string → Prop) A (m : M A), writes S anything m → (∀ p, S p → zone_paths p) → writes zone_paths anything m) as Hmono.
  { intros S A m Hm Hsub w. eapply frame_mono; [exact Hsub|done|apply Hm]. }
  unfold deploy_body. destruct (build_zone_files db serial) as [zones|e]; [|apply writes_ret]. cbv zeta.
  apply writes_bind; [apply writes_attempt, writes_bind|intros [_|e]].
  - eapply Hmono; [apply stage_zones_writes|]. unfold zone_paths. auto.
  - intros _. apply writes_bind; [|intros _].
    + eapply Hmono; [apply back_up_writes|]. unfold zone_paths. auto.
    + eapply Hmono; [apply install_zones_writes|]. unfold zone_paths, live. intros p [?|[?|?]]; auto.
  - apply writes_bind; [apply writes_attempt|intros [_|e]; [apply writes_ret|]].
    + eapply Hmono; [apply activate_writes|]. unfold zone_paths. auto.
    + apply writes_bind; [apply writes_exists|]. intros []; [|apply writes_ret].
      apply writes_bind; [apply writes_attempt, roll_back_writes|]. intros r. apply writes_ret.
  - apply writes_ret.
Qed.

Lemma deploy_body_returns db serial w : ∃ out, (deploy_body stage seconds test_invalid db backup serial w).1 = Ok out.
Proof.
  unfold deploy_body. destruct (build_zone_files db serial) as [zones|e]; [|by eexists]. cbv zeta.
  rewrite bind_M. unfold attempt at 1.
  destruct ((_ ← stage_zones stage test_invalid zones; _ ← back_up backup; install_zones stage zones) w)
    as [[_|e] w1]; [|by eexists].
  rewrite bind_M. unfold attempt at 1. destruct (activate seconds db zones w1) as [[[]|e] w2]; [by eexists|].
  rewrite bind_M. cbn [exists_]. destruct (bool_decide _); [|by eexists].
  rewrite bind_M. unfold attempt. destruct (roll_back backup w2) as [r w3]. by eexists.
Qed.
End rollback.

(** A deployment always comes back with one more recorded deployment, and touches only
    its own files. *)
Lemma deploy_zones_frame `{Platform} tmp seconds test_invalid host_out today db deps w :
  let stage := LOCAL_STAGING_DIR +:+ tmp in
  let backup := LOCAL_BACKUP_DIR +:+ "localdns.last-good." +:+ seconds +:+ "." +:+ str_int (fresh_id (ld_id <$> deps)) +:+ "/" in
  ∃ d out w', deploy_zones stage seconds test_invalid host_out today db deps w = (Ok (deps ++ [d], out), w')
    ∧ frame (zone_paths stage backup) (λ _, True) w w'.
Proof.
  intros stage backup. unfold deploy_zones. cbv zeta. fold backup.
  generalize (init_settings host_out db) as db'. intros db'. generalize (next_serial today deps) as serial. intros serial.
  pose proof (deploy_body_writes stage seconds test_invalid backup db' serial w) as Hw.
  destruct (deploy_body_returns stage seconds test_invalid backup db' serial w) as [[[status rev] out] Hret].
  rewrite bind_M. destruct (deploy_body stage seconds test_invalid db' backup serial w) as [r w1]. cbn [fst snd] in *. subst r.
  rewrite bind_M. do 3 eexists. split; [reflexivity|].
  eapply frame_trans; [exact Hw|]. apply writes_rmtree. intros p Hp. right; by left.
Qed.


(** The named configuration check fails: the files of the first world come back. *)
Definition failing_world : world :=
  mkWorld {[NAMED_LOCAL_CONF := "// local"]} [] (λ n, Exited (if decide (n = 1) then 1 else 0) "").


(** A forward record may be named inside a reverse zone, and then
    [build_zone_files] makes two files of the one zone.  Both records here are
    accepted (the first one's warning overridden), but installing the second file fails after the first has replaced
    the live zones, outside the try statement that rolls back: the deployment ends
    as [failed], and the zone directory is not what it was. *)
Theorem duplicate_zone_half_deploys `{Platform} :
  ∃ db db' w1 w2 zones d e w',
    add_record "t" "192.0.2.1" "PTR" "5.1.168.192.in-addr.arpa" "nas.home.arpa" (JInt 300) "" true true empty_ldb
      = Ok (db', w1)
    ∧ add_record "t" "192.0.2.1" "CNAME" "6.1.168.192.in-addr.arpa" "nas.home.arpa" (JInt 300) "" true false db'
      = Ok (db, w2)
    ∧ build_zone_files db 1 = Ok zones
    ∧ zf_zone <$> zones = ["1.168.192.in-addr.arpa"; "home.arpa"; "1.168.192.in-addr.arpa"]
    ∧ deploy_zones (LOCAL_STAGING_DIR +:+ "a/") "1" false "192.0.2.1" 20240101 db []
        (mkWorld {[NAMED_LOCAL_CONF := "// local"; LOCAL_ZONE_DIR := ""; LOCAL_ZONE_DIR +:+ "old.zone" := "; old"]}
                 [] (λ _, Exited 0 ""))
      = (Ok ([d], Raise e), w')
    ∧ ld_status d = "failed"
    ∧ w_files w' !! (LOCAL_ZONE_DIR +:+ "old.zone") = None
    ∧ is_Some (w_files w' !! (LOCAL_ZONE_DIR +:+ "home.arpa.zone")).
Proof.
  do 8 eexists. split; [vm_compute; reflexivity|]. split; [vm_compute; reflexivity|].
  split; [vm_compute; reflexivity|]. split; [reflexivity|]. split; [vm_compute; reflexivity|].
  split; [reflexivity|]. split; [vm_compute; reflexivity|]. vm_compute. eexists. reflexivity.
Qed.

(** ** What the zones hold *)

Definition contents (m : gmap string (list lrec)) : list lrec := mjoin (map_to_list m).*2.

Lemma add_to_zone_contents z r m : contents (add_to_zone z r m) ≡ₚ r :: contents m.
Proof.
  unfold add_to_zone, contents. rewrite <-insert_delete_eq, map_to_list_insert by apply lookup_delete_eq.
  cbn [fmap list_fmap snd mjoin list_join]. destruct (m !! z) as [l|] eqn:E; cbn [default].
  - rewrite <-(map_to_list_delete m z l E). cbn [fmap list_fmap snd mjoin list_join].
    rewrite <-app_assoc. simpl. by rewrite <-Permutation_middle.
  - rewrite delete_id by done. done.
Qed.

Lemma group_by_contents zone_of l m :
  contents (group_by zone_of m l)
  ≡ₚ contents m ++ List.filter (λ r, bool_decide (is_Some (zone_of r))) l.
Proof.
  revert m. unfold group_by. induction l as [|r l IH]; intros m; cbn [fold_left List.filter].
  { by rewrite app_nil_r. }
  rewrite IH. destruct (zone_of r) as [z|].
  - rewrite bool_decide_eq_true_2 by eauto. rewrite add_to_zone_contents. by rewrite <-Permutation_middle.
  - by rewrite bool_decide_eq_false_2 by by intros [? ?].
Qed.

Lemma sorted_items_perm {A} (m : gmap string A) : sorted_items m ≡ₚ map_to_list m.
Proof.
  unfold sorted_items, py_sorted. rewrite merge_sort_Permutation.
  assert (∀ l, (∀ kv, kv ∈ l → m !! kv.1 = Some kv.2) → omap (λ k, pair k <$> m !! k) l.*1 = l) as Hl.
  { induction l as [|[k v] l IH]; intros Hl; [done|]. cbn [fmap list_fmap fst omap list_omap].
    pose proof (Hl (k, v) ltac:(left)) as Hk. cbn [fst snd] in Hk. rewrite Hk. cbn [fmap option_fmap option_map].
    f_equal. apply IH. intros kv Hkv. apply Hl. by right. }
  rewrite Hl; [done|]. by intros [k v] ?%elem_of_map_to_list.
Qed.

Lemma group_by_lookup zone_of l m k :
  group_by zone_of m l !! k
  = match m !! k, List.filter (λ r, bool_decide (zone_of r = Some k)) l with
    | None, [] => None
    | o, rs => Some (default [] o ++ rs)
    end.
Proof.
  revert m. unfold group_by. induction l as [|r l IH]; intros m; cbn [fold_left List.filter].
  { destruct (m !! k); simpl; [by rewrite app_nil_r|done]. }
  rewrite IH. destruct (zone_of r) as [z|].
  2:{ rewrite bool_decide_eq_false_2 by done. done. }
  unfold add_to_zone. destruct (decide (z = k)) as [->|Hz].
  - rewrite lookup_insert_eq, bool_decide_eq_true_2 by done.
    destruct (m !! k); simpl; by rewrite <-?app_assoc.
  - by rewrite lookup_insert_ne, bool_decide_eq_false_2 by congruence.
Qed.

(** The zone a record is served in, given the internal domain. *)
Definition zone_of_record (domain : string) (r : lrec) : string :=
  if is_forward (lr_type r) then forward_zone_for_fqdn (lr_fqdn r) domain
  else reverse_zone (lr_fqdn r).

Lemma forward_or_reverse domain r :
  (forward_of domain r = Some (zone_of_record domain r) ∧ reverse_of r = None)
  ∨ (forward_of domain r = None ∧ reverse_of r = Some (zone_of_record domain r)).
Proof.
  unfold forward_of, reverse_of, zone_of_record, is_forward.
  destruct (lr_type r); [left|left|right|left]; split; reflexivity.
Qed.

Lemma forward_reverse_split domain l :
  List.filter (λ r, bool_decide (is_Some (forward_of domain r))) l
  ++ List.filter (λ r, bool_decide (is_Some (reverse_of r))) l ≡ₚ l.
Proof.
  induction l as [|r l IH]; [done|]. cbn [List.filter].
  assert (bool_decide (is_Some (None (A := string))) = false) as HN by done.
  assert (∀ z : string, bool_decide (is_Some (Some z)) = true) as HS by (by intros; apply bool_decide_eq_true_2; eauto).
  destruct (forward_or_reverse domain r) as [[-> ->]|[-> ->]]; rewrite HN, HS.
  - simpl. by constructor.
  - rewrite <-Permutation_middle. by constructor.
Qed.

Lemma elem_of_group_by zone_of l m k :
  is_Some (group_by zone_of m l !! k) ↔ is_Some (m !! k) ∨ ∃ r, r ∈ l ∧ zone_of r = Some k.
Proof.
  rewrite group_by_lookup.
  destruct (m !! k) as [rs|]; [split; eauto|].
  destruct (List.filter _ l) as [|r rs] eqn:E.
  - split; [by intros [? ?]|]. intros [[? ?]|(r & Hr & Hz)]; [done|].
    assert (r ∈ []) as ?%elem_of_nil; [|done]. rewrite <-E. apply elem_of_filterb. by rewrite bool_decide_eq_true.
  - split; [|eauto]. intros _. right. exists r.
    assert (r ∈ r :: rs) as Hr by left. rewrite <-E in Hr. apply elem_of_filterb in Hr.
    by rewrite bool_decide_eq_true in Hr.
Qed.

Section served.
Context `{Platform}.

Lemma build_zone_files_inv db serial zones :
  build_zone_files db serial = Ok zones →
  ∃ domain ttl, local_normalize (default DEFAULT_DOMAIN (l_settings db !! "internal_domain")) = Ok domain
    ∧ let forward := group_by (forward_of domain) {[domain := []]} (enabled_records db) in
      let reverse := group_by reverse_of ∅ (enabled_records db) in
      zones = (λ z, mkZone z.1 z.2 (render_zone z.1 z.2 serial ttl))
                <$> (sorted_items forward ++ sorted_items reverse).
Proof.
  unfold build_zone_files. destruct (local_normalize _) as [domain|e]; [|done]. simpl.
  destruct (validate_ttl _) as [ttl|e]; [|done]. simpl. intros [= <-]. exists domain, ttl.
  by rewrite fmap_app.
Qed.

Lemma elem_of_sorted_items {A} (m : gmap string A) k v : (k, v) ∈ sorted_items m ↔ m !! k = Some v.
Proof. by rewrite sorted_items_perm, elem_of_map_to_list. Qed.


(** The zone names handed to dnsdist are those of the zone files BIND loads:
    when the internal domain is stored normalised, a name is routed to the local
    server exactly when a zone file serves it. *)
Theorem local_zone_names_match db serial zones :
  build_zone_files db serial = Ok zones →
  local_normalize (default DEFAULT_DOMAIN (l_settings db !! "internal_domain"))
    = Ok (default DEFAULT_DOMAIN (l_settings db !! "internal_domain")) →
  ∀ n, n ∈ local_zone_names (Some db) ↔ n ∈ zf_zone <$> zones.
Proof.
  intros (domain & ttl & Hd & Hz)%build_zone_files_inv Hnorm n. cbv zeta in Hz.
  rewrite Hnorm in Hd. injection Hd as Hd.
  assert (n ∈ zf_zone <$> zones ↔ is_Some (group_by (forward_of domain) {[domain := []]} (enabled_records db) !! n)
    ∨ is_Some (group_by reverse_of ∅ (enabled_records db) !! n)) as ->.
  { rewrite Hz, <-list_fmap_compose, list_elem_of_fmap. unfold compose. cbn [zf_zone]. split.
    - intros ([k rs] & -> & [Hin|Hin]%elem_of_app); apply elem_of_sorted_items in Hin; cbn; rewrite Hin; eauto.
    - intros [[rs Hrs]|[rs Hrs]]; exists (n, rs); (split; [done|]); apply elem_of_app;
        [left|right]; by apply elem_of_sorted_items. }
  rewrite !elem_of_group_by. unfold local_zone_names. rewrite Hd. rewrite elem_of_sorted_set.
  fold (zone_of_record domain).
  rewrite elem_of_union, elem_of_singleton, elem_of_list_to_set, list_elem_of_fmap.
  assert (∀ r, r ∈ enabled_records db ↔ r ∈ List.filter lr_enabled (l_records db)) as He
    by (intros; unfold enabled_records; by rewrite merge_sort_Permutation).
  rewrite lookup_empty. split.
  - intros [->|(r & -> & Hr)]; [left; left; rewrite lookup_singleton_eq; eauto|].
    apply He in Hr. destruct (forward_or_reverse domain r) as [[Hf _]|[_ Hf]]; eauto 6.
  - intros [[[rs [-> _]%lookup_singleton_Some]|(r & Hr & Hf)]|[[? ?]|(r & Hr & Hf)]]; [by left| |done|];
      right; exists r; apply He in Hr; (split; [|done]);
      destruct (forward_or_reverse domain r) as [[? ?]|[? ?]]; congruence.
Qed.
End served.

(** A host and its reverse name, in a forward and a reverse zone. *)
Definition nas_ldb : ldb :=
  let _ := sample_platform in
  match add_host "t" "192.0.2.1" "nas" "" "192.168.1.5" (JInt 300) "" true false empty_ldb with
  | Ok (db, _) => db
  | Raise _ => empty_ldb
  end.


Lemma local_zone_names_match_witness :
  let _ := sample_platform in
  ∃ zones, build_zone_files nas_ldb 7 = Ok zones
    ∧ "1.168.192.in-addr.arpa" ∈ zf_zone <$> zones.
Proof.
  intros P. destruct (@build_zone_files P nas_ldb 7) as [zones|e] eqn:E; [|vm_compute in E; discriminate].
  exists zones. split; [done|]. apply (@local_zone_names_match P nas_ldb 7 zones E).
  - vm_compute. reflexivity.
  - vm_compute. left.
Defined.
