(* ===== verification/LocalCsv.v ===== *)
(** * Local records as CSV

    The export, the preview and the import of [app/local_dns.py], over the [csv] module, and
    that an export imports as the records it was made of. *)

From S2P Require Import Prelude PyStr StrLemmas IpAddr PyJson JsonRead PyRegex DomainName LocalDns LocalZones IpText Csv.

(** ** Export *)

Definition export_header : list string := ["fqdn"; "record_type"; "value"; "ttl"; "enabled"; "comment"].
Definition export_row (r : lrec) : list string :=
  [lr_fqdn r; rtype_name (lr_type r); lr_value r; str_int (lr_ttl r); if lr_enabled r then "1" else "0"; lr_comment r].

(** app/local_dns.py:701-709 csv_export

    [ORDER BY fqdn]; records of one name come in the order of the table's unique key. *)
Definition csv_export (db : ldb) : string := csv_writer (export_header :: (export_row <$> merge_sort record_order (l_records db))).

(** ** Preview and import *)

Record csv_record := mkCsvRecord {
  cv_fqdn : string; cv_type : rtype; cv_value : string; cv_ttl : Z; cv_enabled : json; cv_comment : json }.

Record csv_item := mkCsvItem { ci_line : Z; ci_record : dict_row + csv_record; ci_warnings : list string; ci_error : option pyexc }.

(** A text that has [strip] *)
Definition as_text (v : json) : res string :=
  match v with JStr s => Ok s | _ => Raise (PyExc "AttributeError" "'NoneType' object has no attribute 'strip'") end.

Section csv.
Context `{Platform}.

(** [validate_record] on a row, whose texts can be missing; they are read in this order. *)
Definition validate_json (record_type fqdn value ttl : json) : res (rtype * string * string * Z) :=
  rt ← as_text record_type;
  match rtype_of (upper (strip rt)) with
  | None => validate_record rt "" "" ttl
  | Some _ => f ← as_text fqdn; _ ← local_normalize f; _ ← validate_ttl ttl; v ← as_text value; validate_record rt f v ttl
  end.

Definition csv_preview_row (db : ldb) (line : Z) (row : dict_row) : csv_item :=
  match (v ← validate_json (row_get "record_type" (JStr "") row) (row_get "fqdn" (JStr "") row) (row_get "value" (JStr "") row)
               (row_get "ttl" (JInt 300) row);
         let '(t, fqdn, value, ttl) := v in
         warnings ← record_warnings db fqdn t value None;
         Ok (mkCsvRecord fqdn t value ttl (row_get "enabled" (JStr "1") row) (row_get "comment" (JStr "") row), warnings)) with
  | Ok (r, warnings) => mkCsvItem line (inr r) warnings None
  | Raise e => mkCsvItem line (inl row) [] (Some e)
  end.

(** app/local_dns.py:712-727 csv_preview *)
Definition csv_preview (db : ldb) (text : string) : res (list csv_item) :=
  '(_, rows) ← dict_reader text;
  Ok (imap (λ i row, csv_preview_row db (Z.of_nat i + 2) row) rows).

(** The records one by one; each is committed before the next. *)
Fixpoint import_records (ts host_out : string) (override : bool) (records : list csv_record) (count : nat) (db : ldb) : res nat * ldb :=
  match records with
  | [] => (Ok count, db)
  | r :: records =>
      match add_record ts host_out (rtype_name (cv_type r)) (cv_fqdn r) (cv_value r) (JInt (cv_ttl r))
              (match cv_comment r with JStr c => c | _ => "" end) (negb (String.eqb (py_str (cv_enabled r)) "0")) override db with
      | Ok (db, _) => import_records ts host_out override records (S count) db
      | Raise e => (Raise e, db)
      end
  end.

(** app/local_dns.py:730-739 csv_import *)
Definition csv_import (ts host_out text : string) (override : bool) (db : ldb) : res nat * ldb :=
  match csv_preview db text with
  | Raise e => (Raise e, db)
  | Ok preview =>
      if existsb (λ i, match ci_error i with Some _ => true | None => false end) preview
      then (Raise (LocalDNSError "CSV contains validation errors"), db)
      else import_records ts host_out override (omap (λ i, match ci_record i with inr r => Some r | inl _ => None end) preview) 0 db
  end.

(** ** Validation is stable *)

(** A name that [normalize_domain] leaves as it is *)
Definition stable_name (s : string) : Prop := local_normalize s = Ok s.

Lemma host_dom c : (host_edge c = true → dom_edge c = true) ∧ (host_mid c = true → dom_mid c = true).
Proof. split; [apply (char_implies host_edge dom_edge)|apply (char_implies host_mid dom_mid)]; by vm_compute. Qed.

Lemma host_labels_dom d : labels_ok host_edge host_mid d = true → labels_ok dom_edge dom_mid d = true.
Proof.
  unfold labels_ok. intros [Hl Hd]%andb_true_iff. apply andb_true_iff. split; [done|]. rewrite forallb_forall in Hd |- *.
  intros w Hw. specialize (Hd w Hw). revert Hd. unfold label_ok. repeat case_match; try done. rewrite !andb_true_iff.
  intros [[[Ha%host_dom Hb%host_dom] Hm] Hn]. repeat split; try done. revert Hm. apply sforall_impl. apply host_dom.
Qed.

Lemma host_labels_idna l : forallb (label_ok host_edge host_mid) l = true → idna_labels_ok l = true.
Proof.
  induction l as [|w l IH]; [done|]. cbn [forallb idna_labels_ok]. intros [Hw%label_ok_len Hl]%andb_true_iff.
  destruct l as [|w' l]; [apply Nat.ltb_lt; lia|]. rewrite IH by done. rewrite !andb_true_r. apply andb_true_iff. split; apply Nat.ltb_lt; lia.
Qed.

(** A name of the table that does not end in a newline *)
Lemma clean_name_stable d : local_domain_match d = true → slast d ≠ Some "010"%char → stable_name d.
Proof.
  intros Hd Hn. pose proof Hd as Hm. unfold local_domain_match, nl in Hd. rewrite chop_none in Hd by done. apply andb_true_iff in Hd as [Hd _].
  pose proof (host_labels_dom d Hd) as Hdom.
  assert (sforall (λ c, host_mid c || Ascii.eqb "." c) d = true) as Hc.
  { apply andb_true_iff in Hd as [_ Hd]. rewrite <-(join_split_on "." d). apply sforall_join; [done|]. intros w Hw.
    eapply (sforall_impl host_mid); [intros c ->; done|]. eapply label_ok_chars. by eapply forallb_true. }
  assert (∀ p, forallb (λ c, implb (host_mid c || Ascii.eqb "." c) (p c)) all_chars = true → sforall p d = true) as Hall.
  { intros p Hp. eapply sforall_impl; [|exact Hc]. exact (char_implies (λ c, host_mid c || Ascii.eqb "." c) p Hp). }
  assert (strip d = d) as E1.
  { apply strip_none with (p := negb ∘ is_space); [|by apply Hall; vm_compute]. intros c. cbn. by destruct (is_space c). }
  assert (strip_char "." d = d) as E2.
  { apply strip_id.
    - assert (∃ c s, d = String c s ∧ dom_edge c = true) as (c & s & -> & Hcc).
      { apply andb_true_iff in Hdom as [_ Hw]. rewrite <-(join_split_on "." d). pose proof (split_on_not_nil "." d). destruct (split_on "." d) as [|w ws]; [done|].
        apply andb_true_iff in Hw as [Hw _]. unfold label_ok in Hw. destruct w as [|c w]; [done|]. cbn [shead] in Hw. destruct (slast (String c w)); [|done].
        exists c. bool_to_prop. destruct ws as [|s ws]; [by exists w|]. exists (w +:+ "." +:+ join "." (s :: ws)). split; [|done]. by rewrite join_cons, app_cons. }
      unfold head_not. cbn. pose proof (char_implies dom_edge (λ c, negb (Ascii.eqb "." c)) ltac:(by vm_compute) c Hcc) as Hd'. cbn beta in Hd'. by rewrite Hd'.
    - unfold last_not. destruct (slast d) as [c|] eqn:E; [|done]. pose proof (labels_ok_last d c Hdom E) as Hcc.
      exact (char_implies dom_edge (λ c, negb (Ascii.eqb "." c)) ltac:(by vm_compute) c Hcc). }
  assert (lower d = d) as E3 by (by apply smap_id, Hall; vm_compute).
  unfold stable_name, local_normalize. rewrite E1, E2, E3. destruct (String.eqb_spec d "local") as [->|_]; [by vm_compute in Hd|].
  unfold encode_idna, isascii. rewrite Hall by by vm_compute. apply andb_true_iff in Hd as [_ Hd].
  rewrite host_labels_idna by done. by rewrite Hm.
Qed.
Lemma rtype_name_of t : rtype_of (upper (strip (rtype_name t))) = Some t.
Proof. by destruct t; vm_compute. Qed.

Lemma parse_ip_canonical s a : parse_ip s = Ok a → unscoped a = true → parse_ip (strip (str_ip a)) = Ok a.
Proof.
  unfold parse_ip. destruct (ip_address s) as [b|] eqn:E; [|done]. intros [= ->] Hu. pose proof (ip_address_range s a E) as Hr.
  unfold strip. rewrite (strip_none (λ c, is_hex c || Ascii.eqb c ":" || Ascii.eqb c ".")).
  - by rewrite (ip_address_str a Hr).
  - intros c Hc. apply negb_true_iff. exact (char_implies (λ c, is_hex c || Ascii.eqb c ":" || Ascii.eqb c ".") (λ c, negb (is_space c)) ltac:(by vm_compute) c Hc).
  - by apply str_ip_chars.
Qed.

Lemma parse_ip_str s a : parse_ip s = Ok a → ip_address (str_ip a) = Some a.
Proof. unfold parse_ip. destruct (ip_address s) as [b|] eqn:E; [|done]. intros [= ->]. by eapply ip_address_canonical. Qed.

(** What [validate_record] accepted it accepts again, as it is. *)
Lemma validate_stable rt f v ttl t name value n :
  validate_record rt f v ttl = Ok (t, name, value, n) → slast name ≠ Some "010"%char →
  (∀ a, is_addr t = true → ip_address value = Some a → unscoped a = true) → (is_addr t = false → slast value ≠ Some "010"%char) →
  validate_record (rtype_name t) name value (JInt n) = Ok (t, name, value, n).
Proof.
  unfold validate_record. destruct (rtype_of (upper (strip rt))) as [t'|]; [|done].
  intros (nm & Hn%local_normalize_ok & Hk)%res_bind_ok Hc Ha Hv. apply res_bind_ok in Hk as (n' & Ht%validate_ttl_ok & Hk).
  apply res_bind_ok in Hk as (v' & Hval & [= -> -> -> ->]). rewrite rtype_name_of, (clean_name_stable name Hn Hc). cbn [mbind res_bind].
  unfold validate_ttl at 1. cbn [py_int]. assert ((n <? 30)%Z || (86400 <? n)%Z = false) as -> by lia. cbn [mbind res_bind].
  destruct t; cbn [is_addr] in *.
  - apply res_bind_ok in Hval as (a & Hp & Hi). destruct (is_v4 a) eqn:E4; [|done]. injection Hi as <-.
    rewrite (parse_ip_canonical _ a Hp) by (apply Ha; [done|by eapply parse_ip_str]). cbn [mbind res_bind]. by rewrite E4.
  - apply res_bind_ok in Hval as (a & Hp & Hi). destruct (is_v4 a) eqn:E4; [done|]. injection Hi as <-.
    rewrite (parse_ip_canonical _ a Hp) by (apply Ha; [done|by eapply parse_ip_str]). cbn [mbind res_bind]. by rewrite E4.
  - by rewrite (clean_name_stable value) by (eauto using local_normalize_ok).
  - by rewrite (clean_name_stable value) by (eauto using local_normalize_ok).
Qed.

(** ** The round trip *)

(** A record that the CSV carries: it passes validation as it is, and its texts are within
    the limit of the [csv] module. *)
Record portable (r : lrec) : Prop := {
  po_valid : validate_record (rtype_name (lr_type r)) (lr_fqdn r) (lr_value r) (JInt (lr_ttl r)) = Ok (lr_type r, lr_fqdn r, lr_value r, lr_ttl r);
  po_address : ∀ a, is_addr (lr_type r) = true → ip_address (lr_value r) = Some a → unscoped a = true;
  po_size : Forall (λ s, (Z.of_nat (slen s) ≤ FIELD_LIMIT)%Z) (export_row r);
}.

(** What an export shows of a record *)
Definition shown (r : lrec) := (lr_fqdn r, lr_type r, lr_value r, lr_ttl r, lr_enabled r, lr_comment r).

Lemma findings_defined db fqdn t v i :
  (∀ a, is_addr t = true → ip_address v = Some a → unscoped a = true) → is_ok (record_findings db fqdn t v i) = true.
Proof.
  intros Ha. unfold record_findings. assert (is_ok (if is_addr t then address_findings db fqdn v else Ok []) = true) as Hok.
  { destruct (is_addr t) eqn:E; [|done]. unfold address_findings. destruct (ip_address v) as [a|] eqn:Ea; [|done]. specialize (Ha a eq_refl eq_refl).
    by destruct a as [m|m [sc|]]. }
  by destruct (if is_addr t then address_findings db fqdn v else Ok []).
Qed.

Lemma zip_export r : ∃ d, zip_row export_header (export_row r) ∅ = mkDict d None
  ∧ d !! "fqdn" = Some (JStr (lr_fqdn r)) ∧ d !! "record_type" = Some (JStr (rtype_name (lr_type r))) ∧ d !! "value" = Some (JStr (lr_value r))
  ∧ d !! "ttl" = Some (JStr (str_int (lr_ttl r))) ∧ d !! "enabled" = Some (JStr (if lr_enabled r then "1" else "0")) ∧ d !! "comment" = Some (JStr (lr_comment r)).
Proof. eexists. split; [done|]. by repeat split. Qed.

Lemma validate_ttl_text n : (30 ≤ n ≤ 86400)%Z → validate_ttl (JStr (str_int n)) = Ok n ∧ validate_ttl (JInt n) = Ok n.
Proof.
  intros Hn. unfold validate_ttl. cbn [py_int]. rewrite int_of_str_int by lia. assert ((n <? 30)%Z || (86400 <? n)%Z = false) as -> by lia. done.
Qed.

Lemma validate_record_ttl rt f v ttl ttl' : validate_ttl ttl = validate_ttl ttl' → validate_record rt f v ttl = validate_record rt f v ttl'.
Proof. intros Heq. unfold validate_record. by rewrite Heq. Qed.

(** The preview of an exported row is the record. *)
Lemma preview_exported db line r : portable r →
  ∃ w, csv_preview_row db line (zip_row export_header (export_row r) ∅)
    = mkCsvItem line (inr (mkCsvRecord (lr_fqdn r) (lr_type r) (lr_value r) (lr_ttl r) (JStr (if lr_enabled r then "1" else "0")) (JStr (lr_comment r)))) w None.
Proof.
  intros [Hv Ha _]. destruct (zip_export r) as (d & -> & Hf & Ht & Hva & Httl & He & Hc).
  pose proof (validate_record_ok _ _ _ _ _ _ _ _ Hv) as (_ & _ & Hn). destruct (validate_ttl_text _ Hn) as [H1 H2].
  unfold csv_preview_row, row_get. cbn [dr_fields]. rewrite Hf, Ht, Hva, Httl, He, Hc. cbn [default from_option id].
  unfold validate_json, as_text. cbn [mbind res_bind]. rewrite rtype_name_of.
  assert (local_normalize (lr_fqdn r) = Ok (lr_fqdn r)) as ->.
  { unfold validate_record in Hv. rewrite rtype_name_of in Hv. apply res_bind_ok in Hv as (nm & Hnm & Hv). apply res_bind_ok in Hv as (n' & _ & Hv).
    apply res_bind_ok in Hv as (v' & _ & [= -> _ _]). exact Hnm. }
  cbn [mbind res_bind]. rewrite H1. cbn [mbind res_bind]. rewrite (validate_record_ttl _ _ _ _ (JInt (lr_ttl r))) by (by rewrite H1).
  rewrite Hv. cbn [mbind res_bind]. unfold record_warnings. pose proof (findings_defined db (lr_fqdn r) (lr_type r) (lr_value r) None Ha) as Hok.
  destruct (record_findings db (lr_fqdn r) (lr_type r) (lr_value r) None) as [fs|]; [|done]. by eexists.
Qed.

Lemma filter_rows rs : List.filter (λ row, negb (bool_decide (row = []))) (export_row <$> rs) = export_row <$> rs.
Proof. induction rs as [|r rs IH]; [done|]. cbn [fmap list_fmap List.filter]. rewrite bool_decide_eq_false_2 by done. cbn [negb]. by rewrite IH. Qed.

(** The record an export becomes when it is read *)
Definition reread (r : lrec) : csv_record :=
  mkCsvRecord (lr_fqdn r) (lr_type r) (lr_value r) (lr_ttl r) (JStr (if lr_enabled r then "1" else "0")) (JStr (lr_comment r)).

Lemma add_reread ts ho r db :
  portable r → key_of r ∉ (key_of <$> l_records db) →
  ∃ db' w, add_record ts ho (rtype_name (lr_type r)) (lr_fqdn r) (lr_value r) (JInt (lr_ttl r)) (lr_comment r)
      (negb (String.eqb (if lr_enabled r then "1" else "0") "0")) true db = Ok (db', w)
    ∧ shown <$> l_records db' = (shown <$> l_records db) ++ [shown r] ∧ key_of <$> l_records db' = (key_of <$> l_records db) ++ [key_of r]
    ∧ l_aliases db' = l_aliases db.
Proof.
  intros [Hv Ha _] Hk. unfold add_record. cbv zeta. rewrite Hv. cbn [mbind res_bind].
  pose proof (findings_defined (init_settings ho db) (lr_fqdn r) (lr_type r) (lr_value r) None Ha) as Hok.
  destruct (record_findings _ _ _ _ _) as [fs|]; [|done]. cbn [mbind res_bind]. unfold reject_conflicts. rewrite andb_false_r. cbn [raise_if mbind res_bind].
  unfold insert_record. match goal with |- context [existsb (same_key ?x) ?l] => destruct (existsb (same_key x) l) eqn:E end.
  - exfalso. apply existsb_true in E as (y & Hy & Hs%same_key_spec). apply Hk. apply list_elem_of_fmap. exists y. split; [|exact Hy]. exact Hs.
  - cbn [mbind res_bind]. eexists _, _. split; [done|]. 
    split; [cbn; rewrite fmap_app; f_equal; unfold shown; cbn; by destruct (lr_enabled r)|split; [cbn; by rewrite fmap_app|done]].
Qed.

Lemma import_reread ts ho rs : ∀ count db,
  Forall portable rs → NoDup ((key_of <$> l_records db) ++ (key_of <$> rs)) →
  ∃ db', import_records ts ho true (reread <$> rs) count db = (Ok (count + length rs), db')
    ∧ shown <$> l_records db' = (shown <$> l_records db) ++ (shown <$> rs) ∧ l_aliases db' = l_aliases db.
Proof.
  induction rs as [|r rs IH]; intros count db Hp Hk; cbn [fmap list_fmap import_records length].
  - exists db. rewrite Nat.add_0_r, app_nil_r. done.
  - apply Forall_cons in Hp as [Hr Hp]. cbn [reread cv_type cv_fqdn cv_value cv_ttl cv_enabled cv_comment py_str].
    destruct (add_reread ts ho r db Hr) as (db1 & w & -> & Hs & Hk1 & Hal).
    { apply NoDup_app in Hk as (_ & Hn & _). intros Hin. apply (Hn _ Hin). left. }
    destruct (IH (S count) db1 Hp) as (db' & -> & Hs' & Hal').
    { rewrite Hk1. by rewrite <-app_assoc. }
    exists db'. split; [by rewrite <-Nat.add_succ_comm|]. split; [|congruence]. by rewrite Hs', Hs, <-app_assoc.
Qed.

Lemma omap_preview db k rs :
  Forall portable rs →
  let preview := imap (λ i row, csv_preview_row db (Z.of_nat (k + i) + 2) row) ((λ r, zip_row export_header (export_row r) ∅) <$> rs) in
  existsb (λ i, match ci_error i with Some _ => true | None => false end) preview = false
  ∧ omap (λ i, match ci_record i with inr r => Some r | inl _ => None end) preview = reread <$> rs.
Proof.
  intros Hp. revert k. induction Hp as [|r rs Hr _ IH]; intros k; [done|]. cbn [fmap list_fmap imap].
  destruct (preview_exported db (Z.of_nat (k + 0) + 2) r Hr) as [w ->]. destruct (IH (S k)) as [H1 H2].
  rewrite (imap_ext (λ i row, csv_preview_row db (Z.of_nat (k + S i) + 2) row) (λ i row, csv_preview_row db (Z.of_nat (S k + i) + 2) row)) by
    (intros i row _; do 2 f_equal; lia).
  cbn [existsb ci_error omap list_omap ci_record orb]. split; [exact H1|]. f_equal. exact H2.
Qed.

(** C9: Moving the local records to another server: the CSV that one table exports, read by
    the preview and imported with overrides into an empty table, gives the same records,
    with names, types, values, TTLs, comments and whether they are enabled, in the order of
    the export, whatever commas, quotes and line breaks the comments hold. *)
Theorem csv_export_import_roundtrip ts ho db db0 :
  ldb_ok db → Forall portable (l_records db) → l_records db0 = [] →
  ∃ db', csv_import ts ho (csv_export db) true db0 = (Ok (length (l_records db)), db')
    ∧ shown <$> l_records db' = shown <$> merge_sort record_order (l_records db) ∧ l_aliases db' = l_aliases db0.
Proof.
  intros Hdb Hp H0. set (rs := merge_sort record_order (l_records db)).
  assert (rs ≡ₚ l_records db) as Hperm by apply merge_sort_Permutation.
  assert (Forall portable rs) as Hrs by by rewrite Hperm.
  assert (dict_reader (csv_export db) = Ok (export_header, (λ r, zip_row export_header (export_row r) ∅) <$> rs)) as Hread.
  { unfold dict_reader, csv_export. rewrite csv_roundtrip.
    - cbn [mbind res_bind]. do 2 f_equal. fold rs. rewrite filter_rows. by rewrite <-list_fmap_compose.
    - constructor; [repeat constructor; by vm_compute|]. apply Forall_fmap. eapply Forall_impl; [exact Hrs|]. intros r Hr. apply Hr. }
  unfold csv_import, csv_preview. rewrite Hread. cbn [mbind res_bind]. destruct (omap_preview db0 0 rs Hrs) as [Hvalid Hitems].
  cbn [Nat.add] in Hvalid, Hitems. rewrite Hvalid, Hitems.
  destruct (import_reread ts ho rs 0 db0 Hrs) as (db' & -> & Hs & Ha).
  { rewrite H0. cbn. rewrite Hperm. apply Hdb. }
  exists db'. rewrite H0 in Hs. split; [by rewrite (Permutation_length Hperm)|]. exact (conj Hs Ha).
Qed.

(** Every record that [add_record] stored can be carried, but for names that end in a
    newline and texts beyond the limit. *)
Lemma add_record_portable ts ho rt f v ttl comment enabled override db db' w r :
  add_record ts ho rt f v ttl comment enabled override db = Ok (db', w) → r ∈ l_records db' → r ∉ l_records db →
  slast (lr_fqdn r) ≠ Some "010"%char → (is_addr (lr_type r) = false → slast (lr_value r) ≠ Some "010"%char) →
  Forall (λ s, (Z.of_nat (slen s) ≤ FIELD_LIMIT)%Z) (export_row r) → portable r.
Proof.
  unfold add_record. intros ([[[t name] value] n] & Hv & Hk)%res_bind_ok Hin Hnew Hn Hc Hsize.
  apply res_bind_ok in Hk as (fs & Hf & Hk). apply res_bind_ok in Hk as ([] & _ & Hk). apply res_bind_ok in Hk as (db1 & Hi & [= <- _]).
  unfold insert_record in Hi. destruct (existsb _ _); [done|]. injection Hi as <-. cbn in Hin. apply elem_of_app in Hin as [Hin| ->%list_elem_of_singleton]; [done|].
  cbn [lr_fqdn lr_type lr_value] in *. assert (∀ a, is_addr t = true → ip_address value = Some a → unscoped a = true) as Ha.
  { intros a Ht Ea. unfold record_findings in Hf. rewrite Ht in Hf. apply res_bind_ok in Hf as (fs' & Hf & _). unfold address_findings in Hf. rewrite Ea in Hf.
    by destruct a as [m|m [sc|]]. }
  split; cbn [lr_fqdn lr_type lr_value lr_ttl]; [|exact Ha|exact Hsize].
  by apply (validate_stable rt f v ttl).
Qed.
End csv.

(** Two names, one of them with two addresses, and a comment that needs quoting *)
Definition sample_records : list lrec :=
  [mkLrec 1 "nas" "nas.home.arpa" TA "192.168.1.5" 300 ("rack 2, " +:+ dquote +:+ "top" +:+ dquote +:+ nl +:+ "left") true false None "t" "t";
   mkLrec 2 "nas" "nas.home.arpa" TAAAA "fd00::5" 600 "" false false None "t" "t";
   mkLrec 3 "www" "www.home.arpa" TCNAME "nas.home.arpa" 300 "" true false None "t" "t"].

Lemma csv_export_import_roundtrip_witness :
  let _ := sample_platform in
  ldb_ok (mkLdb ∅ sample_records []) ∧
  ∃ db', csv_import "now" "192.0.2.1" (csv_export (mkLdb ∅ sample_records [])) true empty_ldb = (Ok 3, db')
    ∧ shown <$> l_records db' = shown <$> merge_sort record_order sample_records ∧ l_aliases db' = [].
Proof.
  intros P. assert (ldb_ok (mkLdb ∅ sample_records [])) as Hok.
  { split; cbn.
    - apply (bool_decide_unpack _). by vm_compute.
    - intros r Hr. unfold sample_records in Hr. rewrite !elem_of_cons in Hr. destruct Hr as [->|[->|[->|Hr]]]; try done. by apply elem_of_nil in Hr.
    - apply (bool_decide_unpack _). by vm_compute.
    - intros r Hr. unfold sample_records in Hr. rewrite !elem_of_cons in Hr. destruct Hr as [->|[->|[->|Hr]]]; [..|by apply elem_of_nil in Hr]; (split; [cbn; lia|]); cbn.
      + by exists (IPv4 3232235781).
      + by exists (IPv6 336294682933583715844663186250927177733 None).
      + left. by vm_compute. }
  split; [exact Hok|]. apply (csv_export_import_roundtrip "now" "192.0.2.1" (mkLdb ∅ sample_records []) empty_ldb Hok); [|done].
  repeat (apply Forall_cons; split); [..|constructor]; (split; [by vm_compute| |repeat constructor; by vm_compute]); cbn; intros a Ha E; try done;
    vm_compute in E; by injection E as <-.
Defined.
