(* ===== verification/ImportJobs.v ===== *)
(** * Import jobs

    The imports of local records in [app/importer.py]: the uploaded rows of each format, the
    mapping of their columns, the job with its preview, application and rollback.  JSON
    columns keep their values; the translations of whole configurations (AdGuard, Pi-hole)
    are left out, and with them the application and rollback of a migration job. *)

From S2P Require Import Prelude PyStr StrLemmas IpAddr PyJson PyRegex DomainName LocalDns IpText Csv LocalCsv.

Definition ImportError_ (m : string) : pyexc := PyExc "ImportError_" m.

(** A row of an upload, and of the preview *)
Notation json_row := (gmap string json).

(** app/importer.py:61-75 CANONICAL_FIELDS *)
Definition CANONICAL_FIELDS : list string :=
  ["hostname"; "fqdn"; "domain"; "ipv4"; "ipv6"; "record_type"; "target"; "create_ptr"; "ttl"; "comment"; "enabled"; "client_alias"; "client_id_or_cidr"].

(** app/importer.py:76-76 MIGRATION_SOURCE_TYPES *)
Definition MIGRATION_SOURCE_TYPES : list string := ["adguard_yaml"; "adguard_api"; "pihole"; "alderpointdns_json"].

Definition get_or (name : string) (dflt : json) (row : json_row) : json := default dflt (row !! name).

(** ** The formats *)

(** The row as JSON keeps it: the column without a name becomes [null]. *)
Definition row_of_dict (d : dict_row) : json_row :=
  match dr_rest d with Some rest => <["null" := JList (JStr <$> rest)]> (dr_fields d) | None => dr_fields d end.

(** app/importer.py:274-278 parse_csv_text *)
Definition parse_csv_text (text : string) : res (list string * list json_row) :=
  parsed ← dict_reader text; Ok (parsed.1, row_of_dict <$> (parsed.2 : list dict_row)).

Definition blank_row : json_row := list_to_map ((λ f, (f, JStr "")) <$> CANONICAL_FIELDS).
Definition imported_row (fqdn rtype target ttl : string) : json_row :=
  <["create_ptr" := JStr "0"]> (<["enabled" := JStr "1"]> (<["ttl" := JStr ttl]> (<["target" := JStr target]>
    (<["record_type" := JStr rtype]> (<["fqdn" := JStr fqdn]> blank_row))))).

(** app/importer.py:364-376 parse_alderpointdns_csv *)
Definition parse_alderpointdns_csv (text : string) : res (list json_row) :=
  parsed ← parse_csv_text text;
  Ok ((λ row : json_row, <["comment" := get_or "comment" (JStr "") row]> (<["enabled" := get_or "enabled" (JStr "1") row]>
       (<["ttl" := get_or "ttl" (JStr "300") row]> (<["target" := get_or "value" (JStr "") row]>
       (<["record_type" := get_or "record_type" (JStr "") row]> (<["fqdn" := get_or "fqdn" (JStr "") row]> blank_row)))))) <$> (parsed.2 : list json_row)).

Section formats.
Context `{Platform}.

Fixpoint hosts_rows (a : ip) (domain : string) (hosts : list string) : res (list json_row) :=
  match hosts with
  | [] => Ok []
  | h :: hosts =>
      fqdn ← normalize_fqdn h (Some domain);
      rows ← hosts_rows a domain hosts;
      Ok (imported_row fqdn (if is_v4 a then "A" else "AAAA") (str_ip a) "300" :: rows)
  end.

Definition hosts_line (domain raw : string) : res (list json_row) :=
  let '(body, _, _) := partition "#" raw in
  match words (strip body) with
  | [] => Ok []
  | first :: hosts => match ip_address first with None => Ok [] | Some a => hosts_rows a domain hosts end
  end.

Fixpoint each_line {A} (f : string → res (list A)) (lines : list string) : res (list A) :=
  match lines with [] => Ok [] | l :: lines => r ← f l; rs ← each_line f lines; Ok (r ++ rs) end.

(** app/importer.py:300-321 parse_hosts_text *)
Definition parse_hosts_text (text default_domain : string) : res (list json_row) :=
  domain ← local_normalize default_domain; each_line (hosts_line domain) (splitlines text).

(** The tokens of a line that [ZONE_LINE_RE] matches: name, TTL, type, data *)
Definition zone_tokens (tokens : list string) : option (string * option string * string * string) :=
  match tokens with
  | name :: rest =>
      let '(ttl, rest) := match rest with t :: rest' => if negb (String.eqb t "") && sforall is_09 t then (Some t, rest') else (None, rest) | [] => (None, rest) end in
      let rest := match rest with t :: rest' => if String.eqb (upper t) "IN" then rest' else rest | [] => rest end in
      match rest with
      | [t; data] => if bool_decide (upper t ∈ ["A"; "AAAA"; "CNAME"; "PTR"]) then Some (name, ttl, upper t, data) else None
      | _ => None
      end
  | [] => None
  end.

(** The lines of a zone file, each with the origin set by those before *)
Fixpoint zone_rows (origin : string) (lines : list string) : res (list json_row) :=
  match lines with
  | [] => Ok []
  | raw :: lines =>
      let '(body, _, _) := partition ";" raw in
      let line := rstrip_by is_space body in
      if String.eqb (strip line) "" then zone_rows origin lines
      else if starts_with "$ORIGIN" (upper line) then
        match words line with
        | _ :: _ :: _ =>
            origin ← local_normalize (rstrip_char "." (strip (sdrop (slen (hd "" (words line))) (lstrip_by is_space line))));
            zone_rows origin lines
        | _ => Raise (PyExc "IndexError" "list index out of range")
        end
      else if starts_with "$" line then zone_rows origin lines
      else match zone_tokens (words line) with
      | None => zone_rows origin lines
      | Some (name, ttl, t, data) =>
          fqdn ← (if String.eqb name "@" then Ok origin else normalize_fqdn name (Some origin));
          rows ← zone_rows origin lines;
          Ok (imported_row fqdn t (rstrip_char "." data) (default "300" ttl) :: rows)
      end
  end.

(** app/importer.py:330-361 parse_zone_text *)
Definition parse_zone_text (text default_domain : string) : res (list json_row) :=
  domain ← local_normalize default_domain; zone_rows domain (splitlines text).
End formats.

(** ** Columns *)

(** app/importer.py:1350-1364 _ALIASES *)
Definition ALIASES : list (string * list string) :=
  [("hostname", ["hostname"; "host"; "name"]); ("fqdn", ["fqdn"; "full name"; "fullname"; "domain name"]); ("domain", ["domain"; "zone"; "internal domain"]);
   ("ipv4", ["ipv4"; "ip"; "ip address"; "ip4"; "address"]); ("ipv6", ["ipv6"; "ip6"]); ("record_type", ["record_type"; "type"; "record type"; "rtype"]);
   ("target", ["target"; "value"; "data"; "cname"; "ptr target"]); ("create_ptr", ["create_ptr"; "ptr"; "auto_ptr"; "reverse"]); ("ttl", ["ttl"]);
   ("comment", ["comment"; "note"; "notes"; "description"]); ("enabled", ["enabled"; "active"]);
   ("client_alias", ["client_alias"; "alias"; "display name"; "client name"]); ("client_id_or_cidr", ["client_id_or_cidr"; "client id"; "cidr"; "client"])].

(** The headers by their normalized text; the last of equal ones counts *)
Definition normalized_headers (headers : list string) : gmap string string :=
  fold_left (λ m h, <[lower (strip h) := h]> m) headers ∅.

Definition map_alias (normalized : gmap string string) (entry : string * list string) : option (string * string) :=
  match find_first (λ a, bool_decide (is_Some (normalized !! a))) entry.2 with
  | Some a => match normalized !! a with Some h => Some (entry.1, h) | None => None end
  | None => None
  end.

(** app/importer.py:1367-1375 auto_map_columns *)
Definition auto_map_columns (headers : list string) : gmap string string :=
  list_to_map (omap (map_alias (normalized_headers headers)) ALIASES).

Definition map_row (column_map : gmap string string) (raw : json_row) : json_row :=
  list_to_map ((λ f, (f,
    if decide (column_map = ∅) then get_or f (JStr "") raw
    else let col := default "" (column_map !! f) in
         JStr (if String.eqb col "" then "" else strip (py_str (get_or col (JStr "") raw))))) <$> CANONICAL_FIELDS).

(** app/importer.py:1378-1391 apply_column_map *)
Definition apply_column_map (raw_rows : list json_row) (column_map : gmap string string) : list json_row :=
  map_row column_map <$> raw_rows.

(** ** Jobs *)

(** A row of the preview, with the record that it gives *)
Record row_item := mkRowItem {
  ri_index : nat; ri_row : json_row; ri_record : option (string * rtype * string * Z); ri_notes : list string; ri_error : string }.

Record preview := mkPreview {
  pv_valid : list row_item; pv_invalid : list row_item; pv_duplicates : list row_item; pv_conflicts : list row_item; pv_warnings : list row_item }.

(** app/importer.py:95-133 init_db *)
Record import_job := mkImportJob {
  ij_id : Z; ij_created : string; ij_finished : option string; ij_source_type : string; ij_source_name : string; ij_headers : list string;
  ij_raw_rows : list json_row; ij_column_map : gmap string string; ij_status : string; ij_total : nat; ij_valid : nat; ij_invalid : nat;
  ij_duplicate : nat; ij_conflict : nat; ij_warning : nat; ij_applied : nat; ij_skipped : nat; ij_failed : nat; ij_inserted : list Z;
  ij_report : list (row_item * string); ij_message : string; ij_source_path : string }.

Record imports := mkImports { im_jobs : list import_job; im_db : ldb }.

(** app/importer.py:1412-1421 get_job *)
Definition get_job (id : Z) (s : imports) : option import_job := find_first (λ j, (ij_id j =? id)%Z) (im_jobs s).

Definition with_job (id : Z) (s : imports) : res import_job :=
  match get_job id s with Some j => Ok j | None => Raise (ImportError_ ("import job " +:+ str_int id +:+ " not found")) end.

(** [UPDATE import_jobs ... WHERE id=?] *)
Definition update_job (id : Z) (f : import_job → import_job) (s : imports) : imports :=
  s{{im_jobs ::= fmap (λ j, if (ij_id j =? id)%Z then f j else j)}}.

(** app/importer.py:1398-1409 create_job *)
Definition create_job (ts source_type source_name : string) (headers : list string) (raw_rows : list json_row) (source_path : string) (s : imports)
    : Z * imports :=
  let id := fresh_id (ij_id <$> im_jobs s) in
  (id, s{{im_jobs ::= (λ l, l ++ [mkImportJob id ts None source_type source_name headers raw_rows ∅ "uploaded" (length raw_rows) 0 0 0 0 0 0 0 0 [] [] "" source_path])}}).

(** app/importer.py:1430-1431 is_migration_source *)
Definition is_migration_source (source_type : string) : bool := bool_decide (source_type ∈ MIGRATION_SOURCE_TYPES).

(** app/importer.py:1434-1437 create_migration_job *)
Definition create_migration_job (ts source_type source_name : string) (translation : json_row) (source_path : string) (s : imports) : res (Z * imports) :=
  if negb (is_migration_source source_type) then Raise (ImportError_ ("unknown migration source type " +:+ py_repr source_type))
  else Ok (create_job ts source_type source_name [] [translation] source_path s).

(** app/importer.py:1440-1449 migration_translation_from_job *)
Definition migration_translation_from_job (id : Z) (s : imports) : res json_row :=
  j ← with_job id s;
  if negb (is_migration_source (ij_source_type j)) then Raise (ImportError_ ("import job " +:+ str_int id +:+ " is not a migration job"))
  else match ij_raw_rows j with
  | [] => Raise (ImportError_ ("migration job " +:+ str_int id +:+ " has no translation payload"))
  | row :: _ => Ok row
  end.

(** app/importer.py:1489-1498 cancel_job *)
Definition cancel_job (ts : string) (id : Z) (s : imports) : res imports :=
  j ← with_job id s;
  if bool_decide (ij_status j ∈ ["applied"; "rolled_back"]) then Raise (ImportError_ "completed imports cannot be canceled")
  else Ok (update_job id (λ j, j{{ij_status := "canceled"; ij_finished := Some ts; ij_message := "canceled by operator"}}) s).

Section jobs.
Context `{Platform}.

(** [row.get(name, "").strip()] *)
Definition stripped (name : string) (row : json_row) : res string := strip <$> as_text (get_or name (JStr "") row).

(** app/importer.py:1501-1528 _record_from_row *)
Definition record_from_row (row : json_row) (default_domain : string) : res (string * string * string * string) :=
  let domain := match get_or "domain" JNull row with JStr d => if String.eqb d "" then default_domain else d | _ => default_domain end in
  fqdn ← stripped "fqdn" row;
  fqdn ← (if String.eqb fqdn "" then
            hostname ← stripped "hostname" row;
            if String.eqb hostname "" then Raise (ImportError_ "row has neither fqdn nor hostname") else normalize_fqdn hostname (Some domain)
          else Ok fqdn);
  rt ← stripped "record_type" row;
  let rt := upper rt in
  value ← stripped "target" row;
  typed ← (if String.eqb rt "" then
             v4 ← stripped "ipv4" row;
             if negb (String.eqb v4 "") then Ok ("A", v4)
             else
               v6 ← stripped "ipv6" row;
               if negb (String.eqb v6 "") then Ok ("AAAA", v6)
               else if String.eqb value "" then Ok ("", value)
               else Ok (match ip_address value with Some a => if is_v4 a then "A" else "AAAA" | None => "CNAME" end, value)
           else if String.eqb rt "A" && String.eqb value "" then v ← stripped "ipv4" row; Ok (rt, v)
           else if String.eqb rt "AAAA" && String.eqb value "" then v ← stripped "ipv6" row; Ok (rt, v)
           else Ok (rt, value));
  ttl ← stripped "ttl" row;
  Ok (fqdn, typed.1, typed.2, if String.eqb ttl "" then "300" else ttl).

Notation key := (string * rtype * string)%type.

Definition place (item : row_item) (findings : list (severity * string)) (p : preview) : preview :=
  let conflicts := conflicts_of findings in
  let warnings := omap (λ f : severity * string, if decide (f.1 = FindingWarning) then Some f.2 else None) findings in
  if negb (bool_decide (conflicts = [])) then p{{pv_conflicts ::= (λ l, l ++ [item{{ri_notes := conflicts}}])}}
  else if negb (bool_decide (warnings = []))
  then p{{pv_warnings ::= (λ l, l ++ [item{{ri_notes := warnings}}]); pv_valid ::= (λ l, l ++ [item{{ri_notes := warnings}}])}}
  else p{{pv_valid ::= (λ l, l ++ [item])}}.

(** One row of the preview: what was seen before, and the lists so far *)
Definition preview_row (db : ldb) (domain : string) (st : list key * preview) (p : nat * json_row) : list key * preview :=
  let '(seen, pv) := st in
  let '(index, row) := p in
  let invalid record e := pv{{pv_invalid ::= (λ l, l ++ [mkRowItem index row record [] (exc_message e)])}} in
  match (r ← record_from_row row domain; let '(fqdn, rt, value, ttl) := r in validate_record rt fqdn value (JStr ttl)) with
  | Raise e => (seen, invalid None e)
  | Ok (t, fqdn, value, ttl) =>
      let item := mkRowItem index row (Some (fqdn, t, value, ttl)) [] "" in
      if bool_decide ((fqdn, t, value) ∈ seen) then (seen, pv{{pv_duplicates ::= (λ l, l ++ [item{{ri_notes := ["duplicate within this import"] }}])}})
      else
        let seen := seen ++ [(fqdn, t, value)] in
        match record_findings db fqdn t value None with
        | Raise e => (seen, invalid (Some (fqdn, t, value, ttl)) e)
        | Ok findings => (seen, place item findings pv)
        end
  end.

Definition preview_rows (db : ldb) (domain : string) (rows : list json_row) : preview :=
  (fold_left (preview_row db domain) (imap pair rows) ([], mkPreview [] [] [] [] [])).2.

(** app/importer.py:1531-1594 preview_job *)
Definition preview_job (host_out : string) (id : Z) (column_map : gmap string string) (default_domain : string) (s : imports) : res preview * imports :=
  match with_job id s with
  | Raise e => (Raise e, s)
  | Ok j =>
      let db := init_settings host_out (im_db s) in
      let domain := if String.eqb default_domain "" then default DEFAULT_DOMAIN (l_settings db !! "internal_domain") else default_domain in
      let pv := preview_rows db domain (apply_column_map (ij_raw_rows j) column_map) in
      (Ok pv, update_job id (λ j, j{{ij_status := "previewed"; ij_column_map := column_map; ij_valid := length (pv_valid pv); ij_invalid := length (pv_invalid pv)}}
                                     {{ij_duplicate := length (pv_duplicates pv); ij_conflict := length (pv_conflicts pv); ij_warning := length (pv_warnings pv)}})
                s{{im_db := db}})
  end.

(** The progress of an application *)
Record progress := mkProgress {
  pg_db : ldb; pg_applied : nat; pg_skipped : nat; pg_failed : nat; pg_inserted : list Z; pg_report : list (row_item * string) }.

Definition failed (db : ldb) (item : row_item) (p : progress) : progress :=
  p{{pg_db := db; pg_failed ::= S; pg_report ::= (λ l, l ++ [(item, "failed")])}}.

Definition has_key (fqdn : string) (t : rtype) (value : string) (r : lrec) : bool :=
  String.eqb (lr_fqdn r) fqdn && bool_decide (lr_type r = t) && String.eqb (lr_value r) value.

(** The alias that a row may name besides its record *)
Definition row_alias (ts host_out : string) (row : json_row) (db : ldb) : res ldb :=
  client_alias ← stripped "client_alias" row;
  client_cidr ← stripped "client_id_or_cidr" row;
  if negb (String.eqb client_alias "") && negb (String.eqb client_cidr "") then upsert_alias ts host_out client_cidr client_alias "imported" db else Ok db.

(** One row of the preview, under its policy; each step is committed before the next. *)
Definition apply_row (ts host_out default_policy : string) (row_policies : gmap nat string) (p : progress) (x : row_item * bool) : progress :=
  let '(item, is_conflict) := x in
  let policy := default default_policy (row_policies !! ri_index item) in
  if is_conflict && String.eqb policy "skip" then p{{pg_skipped ::= S; pg_report ::= (λ l, l ++ [(item, "skipped")])}}
  else match ri_record item with
  | None => failed (pg_db p) item p
  | Some (fqdn, t, value, ttl) =>
      let override := is_conflict && (String.eqb policy "merge" || String.eqb policy "replace") in
      let db := if is_conflict && String.eqb policy "replace"
                then (init_settings host_out (pg_db p)){{l_records ::= List.filter (λ r, negb (String.eqb (lr_fqdn r) fqdn && bool_decide (lr_type r = t)))}}
                else pg_db p in
      match add_record ts host_out (rtype_name t) fqdn value (JInt ttl) (match get_or "comment" (JStr "") (ri_row item) with JStr c => c | _ => "" end)
              (negb (String.eqb (py_str (get_or "enabled" (JStr "1") (ri_row item))) "0")) override db with
      | Raise _ => failed db item p
      | Ok (db, _) =>
          let p := match find_first (has_key fqdn t value) (l_records db) with Some r => p{{pg_inserted ::= (λ l, l ++ [lr_id r])}} | None => p end in
          match row_alias ts host_out (ri_row item) db with
          | Raise _ => failed db item p
          | Ok db => p{{pg_db := db; pg_applied ::= S; pg_report ::= (λ l, l ++ [(item, "applied")])}}
          end
      end
  end.

Definition rows_to_apply (pv : preview) : list (row_item * bool) := ((., false) <$> pv_valid pv) ++ ((., true) <$> pv_conflicts pv).

Definition apply_rows (ts host_out default_policy : string) (row_policies : gmap nat string) (pv : preview) (db : ldb) : progress :=
  fold_left (apply_row ts host_out default_policy row_policies) (rows_to_apply pv) (mkProgress db 0 0 0 [] []).

Definition progress_message (p : progress) : string :=
  "applied=" +:+ str_int (Z.of_nat (pg_applied p)) +:+ " skipped=" +:+ str_int (Z.of_nat (pg_skipped p)) +:+ " failed=" +:+ str_int (Z.of_nat (pg_failed p)).

(** app/importer.py:1622-1694 apply_job

    The backup before the import changes none of these tables, and its failure is ignored. *)
Definition apply_job (ts host_out : string) (id : Z) (default_policy : string) (row_policies : gmap nat string) (s : imports) : res progress * imports :=
  if negb (bool_decide (default_policy ∈ ["skip"; "merge"; "replace"])) then (Raise (ImportError_ ("unknown policy " +:+ py_repr default_policy)), s)
  else match with_job id s with
  | Raise e => (Raise e, s)
  | Ok j =>
      match preview_job host_out id (ij_column_map j) "" s with
      | (Raise e, s) => (Raise e, s)
      | (Ok pv, s) =>
          let p := apply_rows ts host_out default_policy row_policies pv (im_db s) in
          (Ok p, update_job id (λ j, j{{ij_finished := Some ts; ij_status := "applied"; ij_applied := pg_applied p; ij_skipped := pg_skipped p}}
                                      {{ij_failed := pg_failed p; ij_inserted := pg_inserted p; ij_report := pg_report p; ij_message := progress_message p}})
                   s{{im_db := pg_db p}})
      end
  end.

(** app/importer.py:1697-1714 rollback_job

    [None] for a migration job, whose rollback is left out. *)
Definition rollback_job (ts host_out : string) (id : Z) (s : imports) : option (res nat * imports) :=
  match with_job id s with
  | Raise e => Some (Raise e, s)
  | Ok j =>
      if is_migration_source (ij_source_type j) then None
      else
        let ids := ij_inserted j in
        let db := if decide (ids = []) then im_db s
                  else (init_settings host_out (im_db s)){{l_records ::= List.filter (λ r, negb (bool_decide (lr_id r ∈ ids)))}} in
        Some (Ok (length ids), update_job id (λ j, j{{ij_status := "rolled_back"; ij_finished := Some ts}}) s{{im_db := db}})
  end.

(** ** What the preview offers *)

(** The record of a row of the preview passed validation and the search for conflicts. *)
Definition offered (db : ldb) (item : row_item) : Prop :=
  ∃ rt f v ttl0 fqdn t value ttl, ri_record item = Some (fqdn, t, value, ttl) ∧ validate_record rt f v ttl0 = Ok (t, fqdn, value, ttl)
    ∧ is_ok (record_findings db fqdn t value None) = true.

Lemma place_offered db item findings pv :
  offered db item → Forall (offered db) (pv_valid pv ++ pv_conflicts pv) →
  Forall (offered db) (pv_valid (place item findings pv) ++ pv_conflicts (place item findings pv)).
Proof.
  intros Hi [Hv Hc]%Forall_app. assert (∀ l, offered db item{{ri_notes := l}}) as Hn by (intros l; exact Hi).
  unfold place. cbv zeta. repeat case_match; cbn; rewrite !Forall_app; repeat split; try done; by constructor.
Qed.

Lemma preview_offered db domain rows :
  Forall (offered db) (pv_valid (preview_rows db domain rows) ++ pv_conflicts (preview_rows db domain rows)).
Proof.
  unfold preview_rows. set (l := imap pair rows). clearbody l.
  assert (∀ st : list key * preview, Forall (offered db) (pv_valid st.2 ++ pv_conflicts st.2) →
    Forall (offered db) (pv_valid (fold_left (preview_row db domain) l st).2 ++ pv_conflicts (fold_left (preview_row db domain) l st).2)) as Hgo.
  { induction l as [|[i row] l IH]; intros [seen pv] Hst; [exact Hst|]. cbn [fold_left]. apply IH. unfold preview_row.
    destruct (_ ≫= _) as [[[[t fqdn] value] ttl]|e] eqn:E; [|exact Hst]. case_match; [exact Hst|].
    destruct (record_findings db fqdn t value None) as [fs|e] eqn:Ef; [|exact Hst]. cbn [snd]. apply place_offered; [|exact Hst].
    apply res_bind_ok in E as ([[[f rt] v] ttl0] & _ & E). exists rt, f, v, (JStr ttl0), fqdn, t, value, ttl. by rewrite Ef. }
  apply Hgo. constructor.
Qed.

(** ** What an application does *)

(** No name of the item ends in a newline. *)
Definition clean_item (item : row_item) : Prop :=
  ∀ fqdn t value ttl, ri_record item = Some (fqdn, t, value, ttl) → slast fqdn ≠ Some "010"%char ∧ (is_addr t = false → slast value ≠ Some "010"%char).

Lemma findings_unscoped db fqdn t value i :
  is_ok (record_findings db fqdn t value i) = true → ∀ a, is_addr t = true → ip_address value = Some a → unscoped a = true.
Proof.
  intros Hok a Ht Ea. unfold record_findings in Hok. rewrite Ht in Hok. unfold address_findings in Hok. rewrite Ea in Hok. by destruct a as [m|m [sc|]].
Qed.

Lemma add_stable ts ho rt t fqdn value n comment enabled override db db1 w :
  validate_record rt fqdn value (JInt n) = Ok (t, fqdn, value, n) → add_record ts ho rt fqdn value (JInt n) comment enabled override db = Ok (db1, w) →
  ∃ r, l_records db1 = l_records db ++ [r] ∧ key_of r = (fqdn, t, value) ∧ lr_ttl r = n ∧ key_of r ∉ (key_of <$> l_records db).
Proof.
  unfold add_record. cbv zeta. intros ->. cbn [mbind res_bind]. intros (fs & _ & Hk)%res_bind_ok. apply res_bind_ok in Hk as ([] & _ & Hk).
  apply res_bind_ok in Hk as (db2 & Hi & [= <- _]). unfold insert_record in Hi.
  match type of Hi with (if existsb (same_key ?x) ?l then _ else _) = _ => destruct (existsb (same_key x) l) eqn:E; [done|]; exists x end.
  injection Hi as <-. split; [done|]. split; [done|]. split; [done|]. intros (y & Hy & Hin)%list_elem_of_fmap.
  rewrite existsb_false in E. specialize (E y Hin). by rewrite (proj2 (same_key_spec _ y) Hy) in E.
Qed.

Lemma has_record_spec fqdn t value r : has_key fqdn t value r = true ↔ key_of r = (fqdn, t, value).
Proof. unfold has_key, key_of. rewrite !andb_true_iff, !String.eqb_eq, bool_decide_eq_true. naive_solver. Qed.

Lemma find_new fqdn t value old r :
  key_of r = (fqdn, t, value) → key_of r ∉ (key_of <$> old) → find_first (has_key fqdn t value) (old ++ [r]) = Some r.
Proof.
  intros Hr Hn. rewrite find_first_app. destruct (find_first (has_key fqdn t value) old) as [x|] eqn:E.
  - apply find_first_Some in E as [Hx Hk%has_record_spec]. exfalso. apply Hn. apply list_elem_of_fmap. exists x. by rewrite Hr, Hk.
  - cbn. by rewrite (proj2 (has_record_spec _ _ _ r) Hr).
Qed.

Lemma row_alias_records ts ho row db db' : row_alias ts ho row db = Ok db' → l_records db' = l_records db.
Proof.
  unfold row_alias. intros (a & _ & Hk)%res_bind_ok. apply res_bind_ok in Hk as (c & _ & Hk). case_match; [|by injection Hk as <-].
  unfold upsert_alias in Hk. repeat case_match; try done. by injection Hk as <-.
Qed.

(** The state of an application that replaces nothing: new records after the old ones, and
    the list of their ids *)
Record adding (items : list row_item) (db0 : ldb) (done_rows : nat) (p : progress) : Prop := {
  ad_ok : ldb_ok (pg_db p);
  ad_new : ∃ new, l_records (pg_db p) = l_records db0 ++ new ∧ lr_id <$> new = pg_inserted p
    ∧ Forall (λ r, ∃ item, item ∈ items ∧ ri_record item = Some (lr_fqdn r, lr_type r, lr_value r, lr_ttl r)) new ∧ pg_applied p ≤ length new;
  ad_count : pg_applied p + pg_skipped p + pg_failed p = done_rows;
}.

Lemma apply_row_adds ts ho policy row_policies items db0 db done_rows p x :
  adding items db0 done_rows p → x.1 ∈ items → offered db x.1 → clean_item x.1 →
  (x.2 = true → default policy (row_policies !! ri_index x.1) ≠ "replace") →
  adding items db0 (S done_rows) (apply_row ts ho policy row_policies p x).
Proof.
  destruct x as [item is_conflict]. cbn [fst snd]. intros Hp Hin Hoff Hclean Hpol. destruct Hp as [Hok (new & Hnew & Hids & Hfrom & Happ) Hcount].
  assert (∀ q, pg_db q = pg_db p → pg_inserted q = pg_inserted p → pg_applied q = pg_applied p →
    pg_applied q + pg_skipped q + pg_failed q = S done_rows → adding items db0 (S done_rows) q) as Hsame.
  { intros q Hd Hi Ha Hc. split; [by rewrite Hd| |done]. exists new. rewrite Hd, Hi, Ha. done. }
  destruct Hoff as (rt & f & v & ttl0 & fqdn & t & value & n & Hrec & Hval & Hfind). destruct (Hclean _ _ _ _ Hrec) as [Hn1 Hn2].
  pose proof (validate_stable rt f v ttl0 t fqdn value n Hval Hn1 (findings_unscoped _ _ _ _ _ Hfind) Hn2) as Hstable.
  unfold apply_row. destruct (is_conflict && _) eqn:Es; [apply Hsame; [done|done|done|destruct p; cbn in *; lia]|]. rewrite Hrec. cbv zeta.
  assert (is_conflict && String.eqb (default policy (row_policies !! ri_index item)) "replace" = false) as ->.
  { destruct is_conflict; [|done]. apply String.eqb_neq. by apply Hpol. }
  destruct (add_record _ _ _ _ _ _ _ _ _ _) as [[db1 w]|e] eqn:Eadd; [|apply Hsame; [done|done|done|destruct p; cbn in *; lia]].
  pose proof (add_record_ok _ _ _ _ _ _ _ _ _ _ _ _ Hok Eadd) as Hok1. apply (add_stable _ _ _ _ _ _ _ _ _ _ _ _ _ Hstable) in Eadd as (r & Hr & Hkey & Httl & Hfresh).
  rewrite Hr, (find_new _ _ _ _ _ Hkey Hfresh).
  assert (∀ q, ldb_ok (pg_db q) → l_records (pg_db q) = l_records (pg_db p) ++ [r] → pg_inserted q = pg_inserted p ++ [lr_id r] → pg_applied q ≤ S (pg_applied p) →
    pg_applied q + pg_skipped q + pg_failed q = S done_rows → adding items db0 (S done_rows) q) as Hadd.
  { intros q Hq Hd Hi Ha Hc. split; [done| |done]. exists (new ++ [r]). rewrite Hd, Hi, Hnew, <-Hids, fmap_app, app_assoc. split; [done|]. split; [done|].
    split; [|rewrite length_app; cbn; lia]. apply Forall_app. split; [done|]. constructor; [|constructor]. exists item. split; [done|].
    unfold key_of in Hkey. injection Hkey as -> -> ->. by rewrite Httl. }
  destruct (row_alias ts ho (ri_row item) db1) as [db2|e] eqn:Eal.
  - apply Hadd; [cbn|cbn|done|destruct p; cbn in *; lia|destruct p; cbn in *; lia].
    + by eapply ldb_ok_records; [eapply row_alias_records|].
    + by rewrite (row_alias_records _ _ _ _ _ Eal).
  - apply Hadd; [done|done|done|destruct p; cbn in *; lia|destruct p; cbn in *; lia].
Qed.

Lemma apply_rows_adds ts ho policy row_policies items db0 db l : ∀ done_rows p,
  adding items db0 done_rows p → Forall (λ x, x.1 ∈ items ∧ offered db x.1 ∧ clean_item x.1 ∧ (x.2 = true → default policy (row_policies !! ri_index x.1) ≠ "replace")) l →
  adding items db0 (done_rows + length l) (fold_left (apply_row ts ho policy row_policies) l p).
Proof.
  induction l as [|x l IH]; intros done_rows p Hp Hl; [by rewrite Nat.add_0_r|]. apply Forall_cons in Hl as [(Hin & Hoff & Hc & Hpol) Hl].
  cbn [fold_left length]. rewrite <-Nat.add_succ_comm. apply IH; [|done]. by eapply apply_row_adds.
Qed.

Lemma get_update id f s : (∀ j, ij_id (f j) = ij_id j) → get_job id (update_job id f s) = f <$> get_job id s.
Proof.
  intros Hf. destruct s as [jobs db]. unfold get_job, update_job. cbn. induction jobs as [|j l IH]; [done|]. cbn [fmap list_fmap find_first].
  destruct (ij_id j =? id)%Z eqn:E; [by rewrite Hf, E|]. rewrite ?E. exact IH.
Qed.

Notation others id s := (List.filter (λ j, negb (ij_id j =? id)%Z) (im_jobs s)).

Lemma update_others id f s : (∀ j, ij_id (f j) = ij_id j) → others id (update_job id f s) = others id s.
Proof.
  intros Hf. destruct s as [jobs db]. cbn. induction jobs as [|j l IH]; [done|]. cbn [fmap list_fmap List.filter].
  destruct (ij_id j =? id)%Z eqn:E; [rewrite Hf, E; exact IH|]. rewrite E. cbn [negb]. by rewrite IH.
Qed.

Lemma others_with_db id s db : others id s{{im_db := db}} = others id s.
Proof. by destruct s. Qed.
Lemma get_with_db id s db : get_job id s{{im_db := db}} = get_job id s.
Proof. by destruct s. Qed.

Lemma filter_new_rows (old new : list lrec) :
  NoDup (lr_id <$> old ++ new) → List.filter (λ r, negb (bool_decide (lr_id r ∈ lr_id <$> new))) (old ++ new) = old.
Proof.
  rewrite fmap_app. intros (_ & Hd & _)%NoDup_app. rewrite List.filter_app.
  assert (List.filter (λ r, negb (bool_decide (lr_id r ∈ lr_id <$> new))) new = []) as ->.
  { assert (∀ l, (∀ r, r ∈ l → r ∈ new) → List.filter (λ r, negb (bool_decide (lr_id r ∈ lr_id <$> new))) l = []) as Hgo; [|by apply Hgo].
    induction l as [|r l IH]; intros Hl; [done|]. cbn. rewrite bool_decide_eq_true_2 by (apply list_elem_of_fmap; exists r; split; [done|apply Hl; left]).
    cbn. apply IH. intros r' Hr'. apply Hl. by right. }
  rewrite app_nil_r. induction old as [|r old IH]; [done|]. cbn. rewrite bool_decide_eq_false_2 by (apply Hd; left). cbn. f_equal. apply IH.
  intros i Hi. apply Hd. by right.
Qed.

(** The preview that the application of a job works with *)
Definition applied_preview (host_out : string) (j : import_job) (s : imports) : preview :=
  let db := init_settings host_out (im_db s) in
  preview_rows db (default DEFAULT_DOMAIN (l_settings db !! "internal_domain")) (apply_column_map (ij_raw_rows j) (ij_column_map j)).

Lemma apply_job_result ts ho id policy row_policies s j :
  policy ∈ ["skip"; "merge"; "replace"] → get_job id s = Some j →
  let p := apply_rows ts ho policy row_policies (applied_preview ho j s) (init_settings ho (im_db s)) in
  ∃ s1, apply_job ts ho id policy row_policies s = (Ok p, s1) ∧ im_db s1 = pg_db p ∧ others id s1 = others id s
    ∧ ∃ j1, get_job id s1 = Some j1 ∧ ij_inserted j1 = pg_inserted p ∧ ij_source_type j1 = ij_source_type j.
Proof.
  intros Hpol Hj p. unfold apply_job. rewrite (bool_decide_eq_true_2 _ Hpol). cbn [negb]. unfold preview_job, with_job. rewrite Hj. cbn [String.eqb]. cbv zeta.
  fold (applied_preview ho j s). eexists. split; [destruct s; reflexivity|]. split; [by destruct s|]. split.
  - by rewrite update_others, others_with_db, update_others, others_with_db by done.
  - eexists. split; [|split].
    + by rewrite get_update, get_with_db, get_update, get_with_db, Hj by done.
    + by destruct s.
    + by destruct s.
Qed.

Lemma rollback_job_result ts ho id s j :
  get_job id s = Some j → is_migration_source (ij_source_type j) = false →
  ∃ s2, rollback_job ts ho id s = Some (Ok (length (ij_inserted j)), s2) ∧ others id s2 = others id s
    ∧ l_records (im_db s2) = List.filter (λ r, negb (bool_decide (lr_id r ∈ ij_inserted j))) (l_records (im_db s)).
Proof.
  intros Hj Hm. unfold rollback_job, with_job. rewrite Hj, Hm. cbv zeta. eexists. split; [reflexivity|]. split.
  - by rewrite update_others, others_with_db by done.
  - destruct s as [jobs db]. cbn. destruct (decide (ij_inserted j = [])) as [->|]; [|done].
    induction (l_records db) as [|r l IH]; [done|]. cbn [List.filter]. rewrite bool_decide_eq_false_2 by (apply not_elem_of_nil). cbn [negb]. by rewrite <-IH.
Qed.

End jobs.

(** ** Examples *)

Definition ex_csv : string :=
  "Name,IP,Notes" +:+ nl +:+ "printer,192.168.1.9,top floor" +:+ nl +:+ "nas,192.168.1.7," +:+ nl +:+ "cam,not-an-ip,x" +:+ nl.
Definition ex_db : ldb := mkLdb ∅ [mkLrec 1 "nas" "nas.home.arpa" TA "192.168.1.5" 300 "" true false None "t" "t"] [].
Definition ex_imports : imports :=
  match parse_csv_text ex_csv with
  | Ok (headers, rows) =>
      let '(_, s) := create_job "t" "csv" "hosts.csv" headers rows "/tmp/hosts.csv" (mkImports [] ex_db) in
      snd (@preview_job sample_platform "192.0.2.1" 1 (auto_map_columns headers) "" s)
  | Raise _ => mkImports [] ex_db
  end.
Definition ex_job : import_job := default (mkImportJob 0 "" None "" "" [] [] ∅ "" 0 0 0 0 0 0 0 0 0 [] [] "" "") (head (im_jobs ex_imports)).

Definition clean_bool (item : row_item) : bool :=
  match ri_record item with
  | Some (fqdn, t, value, _) => negb (bool_decide (slast fqdn = Some "010"%char)) && (is_addr t || negb (bool_decide (slast value = Some "010"%char)))
  | None => true
  end.
Lemma clean_bool_spec item : clean_bool item = true → clean_item item.
Proof.
  intros Hb fqdn t value ttl E. unfold clean_bool in Hb. rewrite E in Hb. apply andb_true_iff in Hb as [H1 H2].
  split; [by apply negb_true_iff, bool_decide_eq_false in H1|]. intros Ht. rewrite Ht in H2. by apply negb_true_iff, bool_decide_eq_false in H2.
Qed.

Lemma ex_imports_ok : let _ := sample_platform in ldb_ok (im_db ex_imports).
Proof.
  intros P. apply (ldb_ok_records ex_db); [by vm_compute|]. split; cbn.
  - apply NoDup_singleton.
  - intros r ->%list_elem_of_singleton. done.
  - apply NoDup_singleton.
  - intros r ->%list_elem_of_singleton. split; cbn; [lia|]. by exists (IPv4 3232235781).
Qed.


(** Three ways in which an import cannot be taken back, and a lost default domain *)
Lemma import_flaws :
  let _ := sample_platform in
  (* the records that a replacement deleted *)
  (∃ p s1 s2, apply_job "t" "192.0.2.1" 1 "replace" ∅ ex_imports = (Ok p, s1) ∧ rollback_job "t" "192.0.2.1" 1 s1 = Some (Ok 2, s2) ∧ l_records (im_db s2) = [])
  (* a second rollback, after a record took the id *)
  ∧ (∃ p s1 s2 db w s3, apply_job "t" "192.0.2.1" 1 "skip" ∅ ex_imports = (Ok p, s1) ∧ rollback_job "t" "192.0.2.1" 1 s1 = Some (Ok 1, s2)
      ∧ add_record "t" "192.0.2.1" "A" "tv.home.arpa" "192.168.1.20" (JInt 300) "" true false (im_db s2) = Ok (db, w)
      ∧ rollback_job "t" "192.0.2.1" 1 s2{{im_db := db}} = Some (Ok 1, s3) ∧ map lr_fqdn (l_records db) = ["nas.home.arpa"; "tv.home.arpa"]
      ∧ map lr_fqdn (l_records (im_db s3)) = ["nas.home.arpa"])
  (* a missing cell becomes the text None *)
  ∧ (let row := map_row (auto_map_columns ["fqdn"; "ip"; "comment"]) (row_of_dict (zip_row ["fqdn"; "ip"; "comment"] ["a.home.arpa"; "10.0.0.1"] ∅)) in
      row !! "comment" = Some (JStr "None")).
Proof.
  intros P. split; [|split].
  - eexists _, _, _. split; [by vm_compute|]. split; [by vm_compute|]. by vm_compute.
  - eexists _, _, _, _, _, _. split; [by vm_compute|]. split; [by vm_compute|]. split; [by vm_compute|]. split; [by vm_compute|]. split; by vm_compute.
  - by vm_compute.
Qed.

Example parse_hosts_ex :
  let _ := sample_platform in
  length <$> parse_hosts_text ("# lan" +:+ nl +:+ "192.168.1.4 nas www.home.arpa # two" +:+ nl +:+ "bad host") "home.arpa" = Ok 2.
Proof. by vm_compute. Qed.
Example parse_zone_ex :
  let _ := sample_platform in
  (map (λ row, (row !! "fqdn", row !! "record_type", row !! "target", row !! "ttl")))
    <$> parse_zone_text ("$TTL 300" +:+ nl +:+ "@ 600 IN A 10.0.0.1 ; apex" +:+ nl +:+ "$ORIGIN lab.test." +:+ nl +:+ "www in cname host.lab.test." +:+ nl +:+ "x MX 10 y") "home.arpa"
  = Ok [(Some (JStr "home.arpa"), Some (JStr "A"), Some (JStr "10.0.0.1"), Some (JStr "600"));
        (Some (JStr "www.lab.test"), Some (JStr "CNAME"), Some (JStr "host.lab.test"), Some (JStr "300"))].
Proof. by vm_compute. Qed.
