(* ===== verification/Upstream.v ===== *)
(** * Upstream resolvers

    The table of [app/upstream_dns.py]: the validation of a resolver, the operations
    of the pages, the seeding of an empty table from BIND's options, and the
    bookkeeping of the health probes.  Every operation is a transaction: one that
    raises leaves the table as it was.  [conf] is the text of BIND's options file,
    which the first use of an empty table reads. *)

From S2P Require Import Prelude PyStr PyJson StrLemmas IpAddr PyRegex DomainName LocalDns Url.

#[local] Open Scope Z_scope.

(** app/upstream_dns.py:65-65 PROTOCOLS *)
Inductive protocol := Plain | Dot | Doh.
#[export] Instance protocol_eq_dec : EqDecision protocol.
Proof. solve_decision. Defined.

Definition protocol_name (p : protocol) : string := match p with Plain => "plain" | Dot => "dot" | Doh => "doh" end.
Definition protocol_of (s : string) : option protocol :=
  find_first (λ p, String.eqb (protocol_name p) s) [Plain; Dot; Doh].

(** app/upstream_dns.py:72-73 UpstreamDNSError *)
Definition UpstreamDNSError (message : string) : pyexc := PyExc "UpstreamDNSError" message.

(** app/upstream_dns.py:100-117 init_db

    A row of [upstream_resolvers] with its probe columns; a probe's latency is in
    microseconds, the latency dnsdist reports is left out. *)
Record resolver := mkResolver {
  ur_id : Z; ur_name : string; ur_protocol : protocol; ur_address : string; ur_port : Z;
  ur_doh_path : string; ur_tls_hostname : string; ur_bootstrap : string;
  ur_enabled : bool; ur_position : Z;
  ur_status : string; ur_message : string; ur_checked : option string;
  ur_created : string; ur_updated : string;
  ur_probe_status : string; ur_probe_message : string; ur_probe_latency : option Z;
  ur_probe_checked : option string; ur_probe_failures : Z;
}.

(** ** Validation *)

(** The columns [validate_resolver] returns. *)
Record resolver_data := mkData {
  rd_name : string; rd_protocol : protocol; rd_enabled : bool;
  rd_address : string; rd_port : Z; rd_doh_path : string; rd_tls_hostname : string; rd_bootstrap : string;
}.

Definition is_bracket (c : ascii) : bool := Ascii.eqb "[" c || Ascii.eqb "]" c.

(** app/upstream_dns.py:159-164 _host_is_ip *)
Definition host_is_ip (value : string) : bool := bool_decide (is_Some (ip_address (strip_by is_bracket value))).

(** app/upstream_dns.py:184-191 _normalize_port *)
Definition normalize_port (value : json) (dflt : Z) : res Z :=
  match py_int (if py_bool value then value else JInt dflt) with
  | Raise _ => Raise (UpstreamDNSError "resolver port must be a number")
  | Ok port =>
      if (port <? 1) || (65535 <? port)
      then Raise (UpstreamDNSError "resolver port must be between 1 and 65535") else Ok port
  end.

Fixpoint parse_ips (l : list string) : res (list string) :=
  match l with
  | [] => Ok []
  | raw :: l =>
      let raw := strip raw in
      if String.eqb raw "" then parse_ips l
      else a ← parse_ip raw; rest ← parse_ips l; Ok (str_ip a :: rest)
  end.

(** app/upstream_dns.py:194-201 _normalize_bootstrap *)
Definition normalize_bootstrap (value : string) : res string :=
  l ← parse_ips (split_on "," (replace_all nl "," value)); Ok (join ", " l).

Section validation.
Context `{Platform} (nfkc_safe : string → bool).

(** app/upstream_dns.py:167-181 _normalize_host *)
Definition normalize_host (value : string) : res string :=
  let host := lower (strip_by is_bracket (strip value)) in
  if String.eqb host "" then Raise (UpstreamDNSError "resolver address is required")
  else match ip_address host with
  | Some a => Ok (str_ip a)
  | None =>
      match encode_idna host with
      | None => Raise (UpstreamDNSError "resolver hostname is not valid IDNA")
      | Some host =>
          if local_domain_match host then Ok host else Raise (UpstreamDNSError "resolver hostname is invalid")
      end
  end.

Definition or_else (s dflt : string) : string := if String.eqb s "" then dflt else s.

Definition bootstrap_for (host bootstrap_ips : string) : res string :=
  bootstrap ← normalize_bootstrap bootstrap_ips;
  _ ← raise_if (negb (host_is_ip host) && String.eqb bootstrap "")
        (UpstreamDNSError "DoH resolver hostname requires at least one bootstrap IP");
  Ok bootstrap.

(** app/upstream_dns.py:204-222 _normalize_doh_url

    Address, port, path, TLS host name and bootstrap addresses. *)
Definition normalize_doh_url (address : string) (port : json) (doh_path bootstrap_ips tls_hostname : string)
    : res (string * Z * string * string * string) :=
  parsed ← urlparse nfkc_safe (strip address);
  if negb (String.eqb (u_scheme parsed) "") then
    match url_hostname parsed with
    | Some hostname =>
        if negb (String.eqb (u_scheme parsed) "https")
        then Raise (UpstreamDNSError "DoH resolver URL must be an https:// URL")
        else
          _ ← raise_if (negb (String.eqb (u_query parsed) "") || negb (String.eqb (u_fragment parsed) ""))
                (UpstreamDNSError "DoH resolver URL must not include query parameters or fragments");
          host ← normalize_host hostname;
          parsed_port ← url_port parsed;
          bootstrap ← bootstrap_for host bootstrap_ips;
          Ok (host, match parsed_port with Some p => if p =? 0 then 443 else p | None => 443 end,
              or_else (u_path parsed) "/dns-query", or_else (lower (strip tls_hostname)) host, bootstrap)
    | None => Raise (UpstreamDNSError "DoH resolver URL must be an https:// URL")
    end
  else
    host ← normalize_host address;
    bootstrap ← bootstrap_for host bootstrap_ips;
    clean_port ← normalize_port port 443;
    Ok (host, clean_port, or_else (strip doh_path) "/dns-query", or_else (lower (strip tls_hostname)) host, bootstrap).

Definition is_on (s : string) : bool := bool_decide (s ∈ ["1"; "true"; "on"; "yes"]).

Definition get_str (values : gmap string json) (key dflt : string) : string :=
  py_str (default (JStr dflt) (values !! key)).

(** app/upstream_dns.py:225-248 validate_resolver

    The values are scalars. *)
Definition validate_resolver (values : gmap string json) (require_enabled_set : bool) : res resolver_data :=
  match protocol_of (lower (strip (get_str values "protocol" "plain"))) with
  | None => Raise (UpstreamDNSError "resolver protocol must be plain, dot, or doh")
  | Some protocol =>
      let raw_name := default JNull (values !! "name") in
      let name := strip (if py_bool raw_name then py_str raw_name else upper (protocol_name protocol)) in
      _ ← raise_if (String.eqb name "") (UpstreamDNSError "friendly name is required");
      let enabled := is_on (lower (get_str values "enabled" (if require_enabled_set then "0" else "1"))) in
      let port := default JNull (values !! "port") in
      normalized ←
        (if decide (protocol = Doh) then
           normalize_doh_url (get_str values "address" "") port (get_str values "doh_path" "")
             (get_str values "bootstrap_ips" "") (get_str values "tls_hostname" "")
         else
           address ← normalize_host (get_str values "address" "");
           clean_port ← normalize_port port (if decide (protocol = Dot) then 853 else 53);
           bootstrap ← normalize_bootstrap (get_str values "bootstrap_ips" "");
           let tls := lower (strip (get_str values "tls_hostname" "")) in
           Ok (address, clean_port, "", if decide (protocol = Dot) then or_else tls address else tls, bootstrap));
      let '(address, port, doh_path, tls, bootstrap) := normalized : string * Z * string * string * string in
      _ ← raise_if (negb (String.eqb doh_path "") && negb (starts_with "/" doh_path))
            (UpstreamDNSError "DoH path must start with /");
      Ok (mkData (stake 120 name) protocol enabled address port doh_path tls bootstrap)
  end.
End validation.

(** ** The first use of an empty table *)

Definition fresh_row (id : Z) (d : resolver_data) (position : Z) (probe_status probe_message ts : string) : resolver :=
  mkResolver id (rd_name d) (rd_protocol d) (rd_address d) (rd_port d) (rd_doh_path d) (rd_tls_hostname d)
    (rd_bootstrap d) (rd_enabled d) position "unknown" "" None ts ts probe_status probe_message None None 0.

(** What the pattern of [seed_from_named_options] matches after [forwarders]: spaces, an
    optional port, and a body in braces up to the first closing one, which a semicolon
    follows; and the text after it.  No two alternatives can match the same text. *)
Definition forwarders_tail (s : string) : option (option string * string * string) :=
  let s := lstrip_by is_space s in
  '(port, s) ←
    (if starts_with "port" s then
       let s1 := sdrop 4 s in
       let s2 := lstrip_by is_space s1 in
       let digits := take_while is_09 s2 in
       if String.eqb s1 s2 || String.eqb digits "" then None
       else Some (Some digits, lstrip_by is_space (lstrip_by is_09 s2))
     else Some (None, s));
  match s with
  | String "{" s =>
      let body := take_while (λ c, negb (Ascii.eqb "}" c)) s in
      let rest := sdrop (slen body) s in
      if starts_with "};" rest then Some (port, body, sdrop 2 rest) else None
  | _ => None
  end.

Fixpoint find_forwarders (s : string) : option (option string * string) :=
  match (if starts_with "forwarders" s then forwarders_tail (sdrop 10 s) else None) with
  | Some (port, body, _) => Some (port, body)
  | None => match s with "" => None | String _ s => find_forwarders s end
  end.

Definition DEFAULT_SERVERS : list string := ["1.1.1.2"; "1.0.0.2"; "4.2.2.1"; "4.2.2.2"].

Definition seed_servers (conf : string) : list string * Z :=
  match find_forwarders conf with
  | None => (DEFAULT_SERVERS, 53)
  | Some (port, body) =>
      (List.filter (λ s, negb (String.eqb s "")) (strip <$> split_on ";" (replace_all nl " " body)),
       match port with Some p => num_value 10 p | None => 53 end)
  end.

Section seed.
Context `{Platform}.

Fixpoint seed_rows (ts : string) (port idx : Z) (servers : list string) (l : list resolver) : list resolver :=
  match servers with
  | [] => l
  | server :: servers =>
      seed_rows ts port (idx + 1) servers
        (match normalize_host server with
         | Raise _ => l
         | Ok address =>
             l ++ [fresh_row (fresh_id (ur_id <$> l))
                     (mkData ("Imported upstream " +:+ str_int idx) Plain true address port "" "" "")
                     idx "checking" "" ts]
         end)
  end.

(** app/upstream_dns.py:251-271 seed_from_named_options *)
Definition seed_from_named_options (ts conf : string) (l : list resolver) : list resolver :=
  let '(servers, port) := seed_servers conf in seed_rows ts port 1 servers l.

(** app/upstream_dns.py:92-135 init_db *)
Definition init_resolvers (ts conf : string) (l : list resolver) : list resolver :=
  match l with [] => seed_from_named_options ts conf [] | _ => l end.
End seed.

(** ** The table *)

(** [ORDER BY position, id] *)
Definition by_position (a b : resolver) : Prop :=
  ur_position a < ur_position b ∨ (ur_position a = ur_position b ∧ ur_id a ≤ ur_id b).
#[export] Instance by_position_dec : RelDecision by_position.
Proof. intros a b. unfold by_position. apply _. Defined.

Definition ordered (l : list resolver) : list resolver := merge_sort by_position l.

(** [UPDATE ... WHERE id=?] *)
Definition update_row (id : Z) (f : resolver → resolver) (l : list resolver) : list resolver :=
  (λ r, if ur_id r =? id then f r else r) <$> l.

(** The positions 1, 2, ... in the order of [ids]. *)
Fixpoint place (pos : Z) (ids : list Z) (l : list resolver) : list resolver :=
  match ids with
  | [] => l
  | id :: ids => place (pos + 1) ids (update_row id (λ r, r{{ur_position := pos}}) l)
  end.

(** app/upstream_dns.py:450-453 renumber *)
Definition renumber (l : list resolver) : list resolver := place 1 (ur_id <$> ordered l) l.

Definition has_id (id : Z) (l : list resolver) : bool := existsb (λ r, ur_id r =? id) l.

(** app/upstream_dns.py:322-340 _reset_probe_state *)
Definition reset_probe_state (enabled : bool) (r : resolver) : resolver :=
  r{{ur_probe_status := if enabled then "checking" else "disabled";
     ur_probe_message := if enabled then "" else "Disabled";
     ur_probe_latency := None; ur_probe_checked := None; ur_probe_failures := 0}}.

(** app/upstream_dns.py:366-366 LAST_ENABLED_MESSAGE *)
Definition LAST_ENABLED_MESSAGE : string := "At least one upstream resolver must be enabled.".

(** app/upstream_dns.py:369-389 _would_leave_zero_enabled *)
Definition would_leave_zero_enabled (l : list resolver) (id : Z) (disabling : bool) : bool :=
  disabling && negb (existsb (λ r, negb (ur_id r =? id) && ur_enabled r) l).

(** [coalesce(max(position), 0)] *)
Definition max_position (l : list resolver) : Z :=
  match l with [] => 0 | r :: l => foldr Z.max (ur_position r) (ur_position <$> l) end.

Section operations.
Context `{Platform} (nfkc_safe : string → bool).

(** app/upstream_dns.py:274-282 resolvers *)
Definition resolvers (ts conf : string) (l : list resolver) : list resolver := ordered (init_resolvers ts conf l).

(** app/upstream_dns.py:285-286 enabled_resolvers *)
Definition enabled_resolvers (ts conf : string) (l : list resolver) : list resolver :=
  List.filter ur_enabled (resolvers ts conf l).

(** app/upstream_dns.py:343-363 add_resolver *)
Definition add_resolver (ts conf : string) (values : gmap string json) (l : list resolver)
    : res (Z * list resolver) :=
  data ← validate_resolver nfkc_safe values true;
  let l := init_resolvers ts conf l in
  let id := fresh_id (ur_id <$> l) in
  Ok (id, l ++ [fresh_row id data (max_position l + 1)
                  (if rd_enabled data then "checking" else "disabled")
                  (if rd_enabled data then "" else "Disabled") ts]).

(** app/upstream_dns.py:392-410 update_resolver *)
Definition update_resolver (ts conf : string) (id : Z) (values : gmap string json) (l : list resolver)
    : res (list resolver) :=
  data ← validate_resolver nfkc_safe values true;
  let l := init_resolvers ts conf l in
  _ ← raise_if (negb (has_id id l)) (UpstreamDNSError "resolver not found");
  _ ← raise_if (would_leave_zero_enabled l id (negb (rd_enabled data))) (UpstreamDNSError LAST_ENABLED_MESSAGE);
  Ok (update_row id (λ r, reset_probe_state (rd_enabled data)
        (r{{ur_name := rd_name data; ur_protocol := rd_protocol data; ur_address := rd_address data;
            ur_port := rd_port data; ur_doh_path := rd_doh_path data; ur_tls_hostname := rd_tls_hostname data;
            ur_bootstrap := rd_bootstrap data; ur_enabled := rd_enabled data; ur_updated := ts}})) l).

(** app/upstream_dns.py:413-421 delete_resolver *)
Definition delete_resolver (ts conf : string) (id : Z) (l : list resolver) : res (list resolver) :=
  let l := init_resolvers ts conf l in
  _ ← raise_if (match find_first (λ r, ur_id r =? id) l with
                | Some row => would_leave_zero_enabled l id (ur_enabled row)
                | None => false
                end) (UpstreamDNSError LAST_ENABLED_MESSAGE);
  Ok (renumber (List.filter (λ r, negb (ur_id r =? id)) l)).

(** app/upstream_dns.py:424-431 set_enabled *)
Definition set_enabled (ts conf : string) (id : Z) (enabled : bool) (l : list resolver) : res (list resolver) :=
  let l := init_resolvers ts conf l in
  _ ← raise_if (would_leave_zero_enabled l id (negb enabled)) (UpstreamDNSError LAST_ENABLED_MESSAGE);
  Ok (update_row id (λ r, reset_probe_state enabled (r{{ur_enabled := enabled; ur_updated := ts}})) l).

(** [ids[idx], ids[swap] = ids[swap], ids[idx]] *)
Definition swap_ids (i j : nat) (ids : list Z) : list Z :=
  match ids !! i, ids !! j with
  | Some a, Some b => <[j := a]> (<[i := b]> ids)
  | _, _ => ids
  end.

(** app/upstream_dns.py:434-447 move_resolver *)
Definition move_resolver (ts conf : string) (id : Z) (direction : string) (l : list resolver)
    : res (list resolver) :=
  let l := init_resolvers ts conf l in
  let ids := ur_id <$> ordered l in
  match list_find (λ i, i = id) ids with
  | None => Raise (UpstreamDNSError "resolver not found")
  | Some (idx, _) =>
      let swap := if String.eqb direction "up" then Z.of_nat idx - 1 else Z.of_nat idx + 1 in
      if (0 <=? swap) && (swap <? Z.of_nat (length ids))
      then Ok (place 1 (swap_ids idx (Z.to_nat swap) ids) l) else Ok l
  end.
End operations.

(** ** Probes *)

(** app/upstream_dns.py:64-64 UPSTREAM_PROBE_FAILURE_THRESHOLD *)
Definition UPSTREAM_PROBE_FAILURE_THRESHOLD : Z := 3.

(** app/upstream_dns.py:851-886 record_probe_result

    A latency if the probe succeeded, else the redacted message. *)
Definition record_probe_result (ts : string) (id : Z) (result : Z + string) (l : list resolver) : list resolver :=
  (λ r, if (ur_id r =? id) && ur_enabled r then
          match result with
          | inl latency =>
              r{{ur_probe_status := "healthy"; ur_probe_message := "Direct probe succeeded";
                 ur_probe_latency := Some latency; ur_probe_checked := Some ts; ur_probe_failures := 0}}
          | inr message =>
              let failures := ur_probe_failures r + 1 in
              let failed := UPSTREAM_PROBE_FAILURE_THRESHOLD <=? failures in
              r{{ur_probe_status := if failed then "failed" else "checking";
                 ur_probe_message :=
                   if failed then stake 400 message
                   else "Probe failed " +:+ str_int failures +:+ "/" +:+ str_int UPSTREAM_PROBE_FAILURE_THRESHOLD
                        +:+ "; waiting for confirmation";
                 ur_probe_latency := None; ur_probe_checked := Some ts; ur_probe_failures := failures}}
          end
        else r) <$> l.

(** app/upstream_dns.py:289-300 display_resolvers

    The status and the message a row is shown with. *)
Definition display (r : resolver) : string * string :=
  if ur_enabled r then
    let status := or_else (ur_probe_status r) "checking" in
    (status, or_else (ur_probe_message r)
               (if String.eqb status "checking" then "No completed direct probe yet" else ""))
  else ("disabled", "Disabled").

(** ** Seeding, checked against the interpreter *)

Example forwarders_ex1 :
  find_forwarders "options { forwarders port 5355 { 127.0.0.1; }; forward only; };" = Some (Some "5355", " 127.0.0.1; ").
Proof. reflexivity. Qed.
Example forwarders_ex2 :
  seed_servers "forwarders { 9.9.9.9;bad host;}; x" = (["9.9.9.9"; "bad host"], 53).
Proof. vm_compute. reflexivity. Qed.
Example forwarders_ex3 : find_forwarders "forwarders { 1.1.1.1; } ; forwarders port x { 2.2.2.2; };" = None.
Proof. reflexivity. Qed.

(** ** Positions *)

(** The order of the rows, on what it looks at. *)
Definition key (r : resolver) : Z * Z := (ur_position r, ur_id r).
Definition key_le (a b : Z * Z) : Prop := a.1 < b.1 ∨ (a.1 = b.1 ∧ a.2 ≤ b.2).

#[export] Instance by_position_total : Total by_position.
Proof. intros a b. unfold by_position. lia. Qed.
#[export] Instance by_position_trans : Transitive by_position.
Proof. intros a b c. unfold by_position. lia. Qed.
#[export] Instance key_le_trans : Transitive key_le.
Proof. intros a b c. unfold key_le. lia. Qed.
#[export] Instance key_le_antisymm : AntiSymm (=) key_le.
Proof. intros [a1 a2] [b1 b2]. unfold key_le. cbn. intros. f_equal; lia. Qed.

Fixpoint keys_from (pos : Z) (ids : list Z) : list (Z * Z) :=
  match ids with [] => [] | id :: ids => (pos, id) :: keys_from (pos + 1) ids end.

(** The last position [place] gives to [i]. *)
Fixpoint place_of (pos : Z) (ids : list Z) (i : Z) : option Z :=
  match ids with
  | [] => None
  | j :: ids => match place_of (pos + 1) ids i with Some p => Some p | None => if i =? j then Some pos else None end
  end.

Definition move_to (p : option Z) (r : resolver) : resolver :=
  match p with Some p => r{{ur_position := p}} | None => r end.

Lemma place_map pos ids l : place pos ids l = (λ r, move_to (place_of pos ids (ur_id r)) r) <$> l.
Proof.
  revert pos l. induction ids as [|j ids IH]; intros pos l; cbn [place place_of]; [by rewrite list_fmap_id|].
  rewrite IH. unfold update_row. rewrite <-list_fmap_compose. apply list_fmap_ext. intros _ r _. cbn.
  destruct (ur_id r =? j) eqn:E; destruct r; cbn in *; rewrite ?E; by destruct (place_of _ _ _).
Qed.

Lemma place_of_notin pos ids i : i ∉ ids → place_of pos ids i = None.
Proof.
  revert pos. induction ids as [|j ids IH]; intros pos; [done|]. intros [Hj Hi]%not_elem_of_cons. cbn.
  rewrite IH by done. by apply Z.eqb_neq in Hj as ->.
Qed.

Lemma place_of_in pos ids i : i ∈ ids → is_Some (place_of pos ids i).
Proof.
  revert pos. induction ids as [|j ids IH]; intros pos Hin; [by apply elem_of_nil in Hin|]. cbn.
  destruct (place_of (pos + 1) ids i) eqn:E1; [done|]. destruct (i =? j) eqn:E2; [done|].
  apply Z.eqb_neq in E2. apply elem_of_cons in Hin as [?|Hin]; [done|].
  destruct (IH (pos + 1) Hin). congruence.
Qed.

Lemma keys_place pos ids : NoDup ids → (λ i, (default 0 (place_of pos ids i), i)) <$> ids = keys_from pos ids.
Proof.
  revert pos. induction ids as [|j ids IH]; intros pos; [done|]. intros [Hj Hn]%NoDup_cons.
  cbn [fmap list_fmap keys_from place_of]. rewrite place_of_notin, Z.eqb_refl by done. f_equal.
  rewrite <-IH by done. apply list_fmap_ext. intros k i Hi. f_equal.
  by destruct (place_of_in (pos + 1) ids i) as [p ->]; [by eapply list_elem_of_lookup_2|].
Qed.

Lemma keys_from_sorted pos ids : Sorted key_le (keys_from pos ids).
Proof.
  revert pos. induction ids as [|j ids IH]; intros pos; cbn; constructor; [apply IH|].
  destruct ids; cbn; constructor. unfold key_le. cbn. lia.
Qed.

Lemma keys_from_ids pos ids : (keys_from pos ids).*2 = ids.
Proof. revert pos. induction ids as [|j ids IH]; intros pos; [done|]. cbn. f_equal. apply IH. Qed.

Lemma keys_from_ge pos ids p : p ∈ (keys_from pos ids).*1 → pos ≤ p.
Proof.
  revert pos. induction ids as [|j ids IH]; intros pos; [by intros ?%elem_of_nil|]. cbn.
  intros [->|Hp%IH]%elem_of_cons; lia.
Qed.

Lemma keys_from_positions pos ids : NoDup (keys_from pos ids).*1.
Proof.
  revert pos. induction ids as [|j ids IH]; intros pos; cbn; constructor; [|apply IH].
  intros Hp%keys_from_ge. lia.
Qed.

Lemma place_ids pos ids l : ur_id <$> place pos ids l = ur_id <$> l.
Proof.
  rewrite place_map, <-list_fmap_compose. apply list_fmap_ext. intros _ r _. cbn.
  destruct r, (place_of _ _ _); done.
Qed.

Lemma place_keys ids l : ids ≡ₚ ur_id <$> l → NoDup ids → key <$> place 1 ids l ≡ₚ keys_from 1 ids.
Proof.
  intros Hp Hn. rewrite <-keys_place by done. etrans; [|apply Permutation_map; symmetry; exact Hp].
  rewrite place_map. change (map ?f ?l) with (f <$> l). rewrite <-!list_fmap_compose.
  apply Permutation_refl', list_fmap_ext. intros k r Hr. unfold key, compose.
  assert (ur_id r ∈ ids) as Hin.
  { rewrite Hp. apply list_elem_of_fmap_2. by eapply list_elem_of_lookup_2. }
  destruct (place_of_in 1 ids (ur_id r) Hin) as [p ->]. by destruct r.
Qed.

(** Rows placed in the order of [ids] are read back in that order. *)
Lemma ordered_place ids l : ids ≡ₚ ur_id <$> l → NoDup ids → ur_id <$> ordered (place 1 ids l) = ids.
Proof.
  intros Hp Hn. rewrite <-(keys_from_ids 1 ids) at 2.
  assert (key <$> ordered (place 1 ids l) = keys_from 1 ids) as <-.
  { apply (Sorted_unique key_le); [|apply keys_from_sorted|].
    - apply (Sorted_fmap _ by_position); [done|]. apply Sorted_merge_sort, _.
    - unfold ordered. rewrite merge_sort_Permutation. by apply place_keys. }
  by rewrite <-list_fmap_compose.
Qed.

Lemma place_positions ids l : ids ≡ₚ ur_id <$> l → NoDup ids → NoDup (ur_position <$> place 1 ids l).
Proof.
  intros Hp Hn. assert (ur_position <$> place 1 ids l = (key <$> place 1 ids l).*1) as ->
    by (by rewrite <-list_fmap_compose).
  rewrite (place_keys ids l Hp Hn). apply keys_from_positions.
Qed.

Lemma ordered_ids l : ur_id <$> ordered l ≡ₚ ur_id <$> l.
Proof. unfold ordered. by rewrite merge_sort_Permutation. Qed.

Lemma swap_ids_perm i j ids : (i < length ids)%nat → (j < length ids)%nat → i ≠ j → swap_ids i j ids ≡ₚ ids.
Proof.
  intros [a Ha]%lookup_lt_is_Some [b Hb]%lookup_lt_is_Some Hij. unfold swap_ids. rewrite Ha, Hb.
  apply Permutation_inj. split; [by rewrite !length_insert|].
  exists (λ k, if decide (k = i) then j else if decide (k = j) then i else k). split.
  - intros x y. repeat case_decide; congruence.
  - intros k. repeat case_decide; subst.
    + rewrite list_lookup_insert_ne by done. rewrite list_lookup_insert_eq; [done|by eapply lookup_lt_Some].
    + rewrite list_lookup_insert_eq; [done|]. rewrite length_insert. by eapply lookup_lt_Some.
    + by rewrite !list_lookup_insert_ne.
Qed.

(** ** The invariant *)

(** An address is printed canonically, or is a host name. *)
Definition host_ok (h : string) : Prop := (∃ a, h = str_ip a) ∨ local_domain_match h = true.

Record data_ok (d : resolver_data) : Prop := {
  data_name : rd_name d ≠ "" ∧ (slen (rd_name d) ≤ 120)%nat;
  data_port : 1 ≤ rd_port d ≤ 65535;
  data_address : host_ok (rd_address d);
  data_bootstrap : ∃ ips, rd_bootstrap d = join ", " (str_ip <$> ips);
  data_path : if decide (rd_protocol d = Doh) then starts_with "/" (rd_doh_path d) = true else rd_doh_path d = "";
  data_tls : rd_protocol d ≠ Plain → rd_tls_hostname d ≠ "";
  (* a DoH backend can always be resolved *)
  data_reachable : rd_protocol d = Doh → host_is_ip (rd_address d) = true ∨ rd_bootstrap d ≠ "";
}.

Definition row_data (r : resolver) : resolver_data :=
  mkData (ur_name r) (ur_protocol r) (ur_enabled r) (ur_address r) (ur_port r) (ur_doh_path r)
    (ur_tls_hostname r) (ur_bootstrap r).

Record table_ok (l : list resolver) : Prop := {
  table_ids : NoDup (ur_id <$> l);
  table_positions : NoDup (ur_position <$> l);
  table_rows : ∀ r, r ∈ l → data_ok (row_data r);
  table_enabled : ∃ r, r ∈ l ∧ ur_enabled r = true;
}.

(** *** Validation *)

Lemma host_ok_nonempty h : host_ok h → h ≠ "".
Proof. intros [[a ->]|Hm]; [apply str_ip_nonempty|by intros ->]. Qed.

Lemma or_else_nonempty s d : d ≠ "" → or_else s d ≠ "".
Proof. intros Hd. unfold or_else. by destruct (String.eqb_spec s ""). Qed.

Lemma ascii_digits s : sforall is_digit s = true → isascii s = true → sforall is_09 s = true.
Proof.
  unfold isascii. induction s as [|c s IH]; [done|]. cbn. intros [Hd Hs]%andb_true_iff [Ha Has]%andb_true_iff.
  rewrite IH, andb_true_r by done. revert Hd Ha. clear.
  assert (∀ c, negb (is_digit c && is_ascii_char c) || is_09 c = true) as Hc.
  { apply char_forall. vm_compute. reflexivity. }
  specialize (Hc c). intros Hd Ha. by rewrite Hd, Ha in Hc.
Qed.

Lemma num_go_nonneg s acc : sforall is_09 s = true → 0 ≤ acc → 0 ≤ num_go 10 acc s.
Proof.
  revert acc. induction s as [|c s IH]; intros acc; [done|]. cbn [sforall num_go].
  intros [Hc Hs]%andb_true_iff Hacc. apply IH; [done|]. unfold digit_val. rewrite Hc.
  apply andb_true_iff in Hc as [Hc%N.leb_le _]. lia.
Qed.

Section validated.
Context `{Platform} (nfkc_safe : string → bool).

Lemma normalize_host_ok value h : normalize_host value = Ok h → host_ok h.
Proof.
  unfold normalize_host. destruct (String.eqb _ ""); [done|].
  destruct (ip_address _) as [a|]; [intros <-%Ok_inj; by left; exists a|].
  destruct (encode_idna _) as [d|]; [|done]. destruct (local_domain_match d) eqn:E; [|done].
  intros <-%Ok_inj. by right.
Qed.

Lemma normalize_port_ok v d p : normalize_port v d = Ok p → 1 ≤ p ≤ 65535.
Proof.
  unfold normalize_port. destruct (py_int _) as [z|]; [|done]. destruct (_ || _) eqn:E; [done|].
  intros <-%Ok_inj. bool_to_prop. lia.
Qed.

Lemma parse_ips_ok l out : parse_ips l = Ok out → ∃ ips, out = str_ip <$> ips.
Proof.
  revert out. induction l as [|raw l IH]; intros out; cbn [parse_ips]; [intros <-%Ok_inj; by exists []|].
  destruct (String.eqb _ ""); [apply IH|].
  intros (a & _ & (rest & (ips & ->)%IH & <-%Ok_inj)%res_bind_ok)%res_bind_ok. by exists (a :: ips).
Qed.

Lemma normalize_bootstrap_ok v b : normalize_bootstrap v = Ok b → ∃ ips, b = join ", " (str_ip <$> ips).
Proof. intros (l & (ips & ->)%parse_ips_ok & <-%Ok_inj)%res_bind_ok. by exists ips. Qed.

Lemma bootstrap_for_ok h v b : bootstrap_for h v = Ok b →
  (∃ ips, b = join ", " (str_ip <$> ips)) ∧ (host_is_ip h = true ∨ b ≠ "").
Proof.
  intros (b' & Hb & ([] & Hc%raise_if_ok & <-%Ok_inj)%res_bind_ok)%res_bind_ok.
  split; [by eapply normalize_bootstrap_ok|]. apply andb_false_iff in Hc as [Hc|Hc].
  - left. by apply negb_false_iff in Hc.
  - right. by apply String.eqb_neq in Hc.
Qed.

Lemma url_port_ok u p : url_port u = Ok (Some p) → 0 ≤ p ≤ 65535.
Proof.
  unfold url_port. destruct (hostinfo u).2 as [port|]; [|done]. destruct (_ && _) eqn:Ed; [|done].
  destruct (_ <? _) eqn:E; [done|]. intros [= <-]. split; [|lia]. apply num_go_nonneg; [|done].
  apply andb_true_iff in Ed as [[_ Hd]%andb_true_iff Ha]. by apply ascii_digits.
Qed.

Lemma normalize_doh_url_ok address port path boot tls host p path' tls' boot' :
  normalize_doh_url nfkc_safe address port path boot tls = Ok (host, p, path', tls', boot') →
  host_ok host ∧ 1 ≤ p ≤ 65535 ∧ tls' ≠ "" ∧ path' ≠ ""
  ∧ (∃ ips, boot' = join ", " (str_ip <$> ips)) ∧ (host_is_ip host = true ∨ boot' ≠ "").
Proof.
  unfold normalize_doh_url. intros (u & _ & Hu)%res_bind_ok. destruct (negb _).
  - destruct (url_hostname u) as [hn|]; [|done]. destruct (negb _); [done|].
    apply res_bind_ok in Hu as ([] & _ & Hu). apply res_bind_ok in Hu as (h & Hh%normalize_host_ok & Hu).
    apply res_bind_ok in Hu as (pp & Hp & Hu). apply res_bind_ok in Hu as (b & [Hb Hr]%bootstrap_for_ok & Hu).
    injection Hu as <- <- <- <- <-. split; [done|]. split.
    + destruct pp as [q|]; [|lia]. apply url_port_ok in Hp. destruct (q =? 0) eqn:E; lia.
    + split; [by apply or_else_nonempty, host_ok_nonempty|]. split; [by apply or_else_nonempty|done].
  - apply res_bind_ok in Hu as (h & Hh%normalize_host_ok & Hu).
    apply res_bind_ok in Hu as (b & [Hb Hr]%bootstrap_for_ok & Hu).
    apply res_bind_ok in Hu as (q & Hq%normalize_port_ok & Hu).
    injection Hu as <- <- <- <- <-. split; [done|]. split; [done|].
    split; [by apply or_else_nonempty, host_ok_nonempty|]. split; [by apply or_else_nonempty|done].
Qed.

Lemma stake_nonempty n s : s ≠ "" → stake (S n) s ≠ "".
Proof. by destruct s. Qed.

Lemma validate_resolver_ok values req d : validate_resolver nfkc_safe values req = Ok d → data_ok d.
Proof.
  unfold validate_resolver. destruct (protocol_of _) as [pr|]; [|done]. cbv zeta.
  intros ([] & Hn%raise_if_ok%String.eqb_neq & Hd)%res_bind_ok.
  apply res_bind_ok in Hd as ([[[[host p] path] tls] boot] & Hnorm & Hd).
  apply res_bind_ok in Hd as ([] & Hpath%raise_if_ok & <-%Ok_inj).
  assert (host_ok host ∧ 1 ≤ p ≤ 65535 ∧ (pr ≠ Plain → tls ≠ "") ∧ (if decide (pr = Doh) then path ≠ "" else path = "")
    ∧ (∃ ips, boot = join ", " (str_ip <$> ips)) ∧ (pr = Doh → host_is_ip host = true ∨ boot ≠ ""))
    as (Hh & Hp & Htls & Hpa & Hb & Hr).
  { destruct (decide (pr = Doh)) as [->|Hpr]; [by apply normalize_doh_url_ok in Hnorm as (?&?&?&?&?&?)|].
    apply res_bind_ok in Hnorm as (h & Hh%normalize_host_ok & Hnorm).
    apply res_bind_ok in Hnorm as (q & Hq%normalize_port_ok & Hnorm).
    apply res_bind_ok in Hnorm as (b & Hb%normalize_bootstrap_ok & Hnorm).
    injection Hnorm as <- <- <- <- <-. split; [done|]. split; [done|]. split; [|done]. intros Hpl.
    destruct pr; [done| |done]. cbn. by apply or_else_nonempty, host_ok_nonempty. }
  split; cbn; try done.
  - split; [by apply stake_nonempty|]. rewrite slen_stake. lia.
  - revert Hpa. destruct (decide (pr = Doh)); [|done]. intros Hpa.
    apply andb_false_iff in Hpath as [Hc|Hc]; apply negb_false_iff in Hc; [|done]. by apply String.eqb_eq in Hc.
Qed.
End validated.

(** *** Operations *)

Lemma table_ok_nonempty l : table_ok l → l ≠ [].
Proof. intros [_ _ _ (r & Hr & _)] ->. by apply elem_of_nil in Hr. Qed.

Lemma init_idle `{Platform} ts conf l : l ≠ [] → init_resolvers ts conf l = l.
Proof. by destruct l. Qed.

Lemma max_position_ge l r : r ∈ l → ur_position r ≤ max_position l.
Proof.
  assert (∀ (ps : list Z) m, m ≤ foldr Z.max m ps ∧ ∀ p, p ∈ ps → p ≤ foldr Z.max m ps) as Hm.
  { intros ps m. induction ps as [|q ps [IH1 IH2]]; cbn; [split; [done|by intros ? ?%elem_of_nil]|].
    split; [lia|]. intros p [->|Hp%IH2]%elem_of_cons; lia. }
  destruct l as [|a l]; [by intros ?%elem_of_nil|]. cbn. destruct (Hm (ur_position <$> l) (ur_position a)) as [H1 H2].
  intros [->|Hr]%elem_of_cons; [done|]. by apply H2, list_elem_of_fmap_2.
Qed.

(** Changing one row at a time, without its id and its position. *)
Lemma map_rows_ok (f : resolver → resolver) l :
  (∀ r, ur_id (f r) = ur_id r ∧ ur_position (f r) = ur_position r) →
  (∀ r, r ∈ l → data_ok (row_data r) → data_ok (row_data (f r))) →
  (∃ r, r ∈ l ∧ ur_enabled (f r) = true) → table_ok l → table_ok (f <$> l).
Proof.
  intros Hf Hd (x & Hx & He) [Hi Hp Hr _]. split.
  - rewrite <-list_fmap_compose. erewrite list_fmap_ext; [exact Hi|]. intros ? r _. apply Hf.
  - rewrite <-list_fmap_compose. erewrite list_fmap_ext; [exact Hp|]. intros ? r _. apply Hf.
  - intros r (r' & -> & Hr')%list_elem_of_fmap. auto.
  - exists (f x). split; [by apply list_elem_of_fmap_2|done].
Qed.

Lemma place_ok ids l : ids ≡ₚ ur_id <$> l → table_ok l → table_ok (place 1 ids l).
Proof.
  intros Hp [Hi _ Hr (x & Hx & He)]. assert (NoDup ids) as Hn by by rewrite Hp.
  split; [by rewrite place_ids|by apply place_positions| |].
  - rewrite place_map. intros r (r' & -> & Hr'%Hr)%list_elem_of_fmap. destruct (place_of _ _ _); [|done].
    by destruct r'.
  - exists (move_to (place_of 1 ids (ur_id x)) x). rewrite place_map.
    split; [by apply (list_elem_of_fmap_2 (λ r, move_to (place_of 1 ids (ur_id r)) r))|].
    destruct (place_of _ _ _); [by destruct x|done].
Qed.

(** Unless the refused case arises, an enabled row remains besides [id]. *)
Lemma remaining_enabled l id disabling :
  would_leave_zero_enabled l id disabling = false → disabling = true →
  ∃ r, r ∈ l ∧ ur_id r ≠ id ∧ ur_enabled r = true.
Proof.
  unfold would_leave_zero_enabled. intros Hw ->. apply negb_false_iff, existsb_true in Hw as (r & Hr & Hb).
  apply andb_true_iff in Hb as [Hb He]. exists r. apply negb_true_iff, Z.eqb_neq in Hb. done.
Qed.

Section steps.
Context `{Platform} (nfkc_safe : string → bool).

Lemma add_resolver_ok ts conf values l id l' :
  table_ok l → add_resolver nfkc_safe ts conf values l = Ok (id, l') → table_ok l'.
Proof.
  intros Hok (d & Hd%validate_resolver_ok & Ha)%res_bind_ok.
  rewrite init_idle in Ha by by apply table_ok_nonempty. apply Ok_pair_inj in Ha as [_ <-].
  destruct Hok as [Hi Hp Hr (x & Hx & He)]. split.
  - by apply NoDup_fresh.
  - apply NoDup_fmap_snoc; [done|]. intros y Hy%max_position_ge. cbn. lia.
  - intros r [Hin| ->]%elem_of_snoc; [auto|]. by destruct d.
  - exists x. split; [by apply elem_of_snoc; left|done].
Qed.

Lemma update_resolver_ok ts conf id values l l' :
  table_ok l → update_resolver nfkc_safe ts conf id values l = Ok l' → table_ok l'.
Proof.
  intros Hok (d & Hd%validate_resolver_ok & Hu)%res_bind_ok. cbv zeta in Hu.
  rewrite init_idle in Hu by by apply table_ok_nonempty.
  apply res_bind_ok in Hu as ([] & Hid%raise_if_ok%negb_false_iff%existsb_true & Hu).
  apply res_bind_ok in Hu as ([] & Hw%raise_if_ok & <-%Ok_inj).
  apply map_rows_ok; [| | |done].
  - intros r. by destruct (ur_id r =? id), r.
  - intros r _ Hr. destruct (ur_id r =? id); [by destruct r, d|done].
  - destruct Hid as (x & Hx & Hxid). destruct (rd_enabled d) eqn:E.
    + exists x. rewrite Hxid. split; [done|]. by destruct x.
    + destruct (remaining_enabled _ _ _ Hw eq_refl) as (y & Hy & Hyid%Z.eqb_neq & He). exists y.
      by rewrite Hyid.
Qed.

Lemma set_resolver_enabled_ok ts conf id enabled l l' :
  table_ok l → set_enabled ts conf id enabled l = Ok l' → table_ok l'.
Proof.
  intros Hok. unfold set_enabled. cbv zeta. rewrite init_idle by by apply table_ok_nonempty.
  intros ([] & Hw%raise_if_ok & <-%Ok_inj)%res_bind_ok. apply map_rows_ok; [| | |done].
  - intros r. by destruct (ur_id r =? id), r.
  - intros r _ [? ? ? ? ? ? ?]. by destruct (ur_id r =? id), r.
  - destruct enabled.
    + destruct Hok as [_ _ _ (x & Hx & He)]. exists x. split; [done|]. by destruct (ur_id x =? id), x.
    + destruct (remaining_enabled _ _ _ Hw eq_refl) as (y & Hy & Hyid%Z.eqb_neq & He). exists y. by rewrite Hyid.
Qed.

Lemma delete_resolver_ok ts conf id l l' :
  table_ok l → delete_resolver ts conf id l = Ok l' → table_ok l'.
Proof.
  intros Hok. unfold delete_resolver. cbv zeta. rewrite init_idle by by apply table_ok_nonempty.
  intros ([] & Hw%raise_if_ok & <-%Ok_inj)%res_bind_ok. apply place_ok; [apply ordered_ids|].
  destruct Hok as [Hi Hp Hr (x & Hx & He)]. split; [by apply NoDup_fmap_filterb..| |].
  - intros r [Hin _]%elem_of_filterb. auto.
  - destruct (Z.eq_dec (ur_id x) id) as [Hid|Hid].
    + destruct (find_first _ l) as [y|] eqn:Ef.
      * apply find_first_Some in Ef as [Hy Hyid%Z.eqb_eq].
        assert (y = x) as -> by (apply (NoDup_fmap_inj ur_id l); [done..|congruence]).
        destruct (remaining_enabled _ _ _ Hw He) as (z & Hz & Hzid%Z.eqb_neq & Hze).
        exists z. split; [|done]. apply elem_of_filterb. by rewrite Hzid.
      * rewrite find_first_None in Ef. apply Ef, Z.eqb_neq in Hx. done.
    + exists x. split; [|done]. apply elem_of_filterb. by apply Z.eqb_neq in Hid as ->.
Qed.

Lemma move_resolver_ok ts conf id dir l l' :
  table_ok l → move_resolver ts conf id dir l = Ok l' → table_ok l'.
Proof.
  intros Hok. unfold move_resolver. cbv zeta. rewrite init_idle by by apply table_ok_nonempty.
  destruct (list_find _ _) as [[i j]|] eqn:Ef; [|done]. destruct (_ && _) eqn:E; intros <-%Ok_inj; [|done].
  apply list_find_Some in Ef as (Hi%lookup_lt_Some & _ & _). bool_to_prop.
  apply place_ok; [|done]. etrans; [apply swap_ids_perm|apply ordered_ids]; [done|lia|destruct (String.eqb dir "up"); lia].
Qed.

Lemma record_probe_ok ts id result l : table_ok l → table_ok (record_probe_result ts id result l).
Proof.
  intros Hok. apply map_rows_ok; [| | |done].
  - intros r. by destruct (_ && _), result, r.
  - intros r _ Hr. by destruct (_ && _), result, r.
  - destruct Hok as [_ _ _ (x & Hx & He)]. exists x. split; [done|]. by destruct (_ && _), result, x.
Qed.

(** What the pages and the probes do to the table; an operation that raises changes
    nothing. *)
Inductive resolver_step (l : list resolver) : list resolver → Prop :=
| step_add ts conf values id l' : add_resolver nfkc_safe ts conf values l = Ok (id, l') → resolver_step l l'
| step_update ts conf id values l' : update_resolver nfkc_safe ts conf id values l = Ok l' → resolver_step l l'
| step_delete ts conf id l' : delete_resolver ts conf id l = Ok l' → resolver_step l l'
| step_enable ts conf id enabled l' : set_enabled ts conf id enabled l = Ok l' → resolver_step l l'
| step_move ts conf id dir l' : move_resolver ts conf id dir l = Ok l' → resolver_step l l'
| step_probe ts id result : resolver_step l (record_probe_result ts id result l).

Lemma resolver_step_ok l l' : table_ok l → resolver_step l l' → table_ok l'.
Proof.
  intros Hok [ts conf values id l1 Hs|ts conf id values l1 Hs|ts conf id l1 Hs|ts conf id en l1 Hs|ts conf id dir l1 Hs|ts id r].
  - exact (add_resolver_ok _ _ _ _ _ _ Hok Hs).
  - exact (update_resolver_ok _ _ _ _ _ _ Hok Hs).
  - exact (delete_resolver_ok _ _ _ _ _ Hok Hs).
  - exact (set_resolver_enabled_ok _ _ _ _ _ _ Hok Hs).
  - exact (move_resolver_ok _ _ _ _ _ _ Hok Hs).
  - exact (record_probe_ok _ _ _ _ Hok).
Qed.
End steps.

(** However the resolvers page and the health probes are used, at least one resolver
    stays enabled, ids and positions are unique, ports are in range, addresses are
    canonical, every encrypted resolver has a TLS host name and every DoH resolver a
    path from the root and an address that can be resolved without itself. *)
Theorem resolver_table_invariant `{Platform} nfkc_safe l l' :
  table_ok l → rtc (resolver_step nfkc_safe) l l' → table_ok l'.
Proof.
  intros Hok Hs. induction Hs as [|l1 l2 l3 Hs _ IH]; [done|]. apply IH. by eapply resolver_step_ok.
Qed.

(** ** Moving *)

(** [id] exchanged with its neighbour, if there is one on that side. *)
Definition neighbour_swapped (up : bool) (pre : list Z) (id : Z) (post : list Z) : list Z :=
  if up then match rev pre with [] => id :: post | a :: rpre => rev rpre ++ id :: a :: post end
  else match post with [] => pre ++ [id] | b :: post => pre ++ b :: id :: post end.

Lemma swap_adjacent pre a b post :
  swap_ids (length pre) (S (length pre)) (pre ++ a :: b :: post) = pre ++ b :: a :: post
  ∧ swap_ids (S (length pre)) (length pre) (pre ++ a :: b :: post) = pre ++ b :: a :: post.
Proof.
  assert (∀ l x (y : Z) q, <[length l := y]> (l ++ x :: q) = l ++ y :: q) as Hi.
  { intros l x y q. rewrite insert_app_r_alt, Nat.sub_diag by done. done. }
  assert (∀ x y (z : Z) q, <[S (length pre) := z]> (pre ++ x :: y :: q) = pre ++ x :: z :: q) as HS.
  { intros x y z q. rewrite insert_app_r_alt by lia. by rewrite Nat.sub_succ_l, Nat.sub_diag. }
  unfold swap_ids. rewrite !list_lookup_middle by done.
  rewrite (lookup_app_r pre _ (S (length pre))) by lia. rewrite Nat.sub_succ_l, Nat.sub_diag by done. cbn.
  by rewrite Hi, !HS, Hi.
Qed.

(** Moving a resolver exchanges it with its neighbour in the order the resolvers are
    used, or does nothing at that end of the list; no column but the position changes;
    an unknown id is refused. *)
Theorem move_resolver_spec `{Platform} ts conf id dir l :
  NoDup (ur_id <$> l) → l ≠ [] →
  match move_resolver ts conf id dir l with
  | Raise e => e = UpstreamDNSError "resolver not found" ∧ id ∉ ur_id <$> l
  | Ok l' => ∃ pre post, ur_id <$> ordered l = pre ++ id :: post
      ∧ ur_id <$> ordered l' = neighbour_swapped (String.eqb dir "up") pre id post
      ∧ (λ r, r{{ur_position := 0}}) <$> l' = (λ r, r{{ur_position := 0}}) <$> l
  end.
Proof.
  intros Hn Hl. unfold move_resolver. cbv zeta. rewrite init_idle by done.
  destruct (list_find _ _) as [[i j]|] eqn:Ef.
  2:{ split; [done|]. apply list_find_None in Ef. rewrite <-ordered_ids. intros Hin.
      rewrite Forall_forall in Ef. by apply (Ef id). }
  apply list_find_Some in Ef as (Hi & -> & _). pose proof (lookup_lt_Some _ _ _ Hi) as Hlt.
  pose proof (list_elem_of_split_length _ _ _ Hi) as (pre & post & Hsplit & Hlen). rewrite Hsplit, Hlen in *.
  assert (∀ ids', ids' ≡ₚ ur_id <$> ordered l →
    ur_id <$> ordered (place 1 ids' l) = ids'
    ∧ (λ r, r{{ur_position := 0}}) <$> place 1 ids' l = (λ r, r{{ur_position := 0}}) <$> l) as Hplace.
  { intros ids' Hp. rewrite ordered_ids in Hp. split; [apply ordered_place; [done|by rewrite Hp]|].
    rewrite place_map, <-list_fmap_compose. apply list_fmap_ext. intros _ r _. cbn.
    destruct r, (place_of _ _ _); done. }
  rewrite length_app. cbn [length].
  destruct (String.eqb dir "up"); cbn [neighbour_swapped].
  - destruct pre as [|a pre _] using rev_ind; cbn [length].
    { exists [], post. by rewrite Hsplit. }
    rewrite !length_app, (proj2 (Z.leb_le _ _)), (proj2 (Z.ltb_lt _ _)) by (cbn [length]; lia).
    exists (pre ++ [a]), post. split; [done|]. rewrite rev_unit. cbn. rewrite rev_involutive.
    replace (Z.to_nat _) with (length pre) by lia. replace (length pre + 1)%nat with (S (length pre)) by lia.
    rewrite <-app_assoc. cbn [app]. rewrite (proj2 (swap_adjacent pre a id post)). apply Hplace.
    rewrite Hsplit, <-app_assoc. cbn. apply Permutation_app_head, Permutation_swap.
  - destruct post as [|b post]; cbn [length].
    { rewrite andb_comm, (proj2 (Z.ltb_ge _ _)) by lia. exists pre, []. by rewrite Hsplit. }
    rewrite (proj2 (Z.leb_le _ _)), (proj2 (Z.ltb_lt _ _)) by lia. exists pre, (b :: post). split; [done|].
    replace (Z.to_nat _) with (S (length pre)) by lia. rewrite (proj1 (swap_adjacent pre id b post)). apply Hplace.
    rewrite Hsplit. apply Permutation_app_head, Permutation_swap.
Qed.

(** *** The table a fresh installation starts with *)

#[local] Existing Instance sample_platform.

Definition default_table : list resolver := init_resolvers "t" "" [].

Definition default_row (id : Z) (address : string) : resolver :=
  fresh_row id (mkData ("Imported upstream " +:+ str_int id) Plain true address 53 "" "" "") id "checking" "" "t".

Lemma default_table_ok : table_ok default_table.
Proof.
  assert (default_table = [default_row 1 "1.1.1.2"; default_row 2 "1.0.0.2"; default_row 3 "4.2.2.1"; default_row 4 "4.2.2.2"])
    as Hl by (vm_compute; reflexivity).
  split; [apply (bool_decide_eq_true_1 _); vm_compute; reflexivity..| |].
  - assert (∀ i n, (0 < slen (str_int i) ≤ 100)%nat → data_ok (row_data (default_row i (str_ip (IPv4 n))))) as Hrow.
    { intros i n Hi. unfold default_row, row_data. cbn [fresh_row ur_name ur_protocol ur_address ur_port ur_doh_path
        ur_tls_hostname ur_bootstrap ur_enabled rd_name rd_protocol rd_enabled rd_address rd_port rd_doh_path
        rd_tls_hostname rd_bootstrap].
      split; [|cbn; lia|left; by exists (IPv4 n)|by exists []|done|done|done].
      cbn [rd_name]. split; [by intros [? _]%sapp_eq_nil|]. rewrite slen_app. cbn [slen]. lia. }
    intros r Hr. rewrite Hl in Hr. set_unfold in Hr. destruct Hr as [-> |[-> |[-> |[-> |[]]]]].
    + apply (Hrow 1 16843010). vm_compute. lia.
    + apply (Hrow 2 16777218). vm_compute. lia.
    + apply (Hrow 3 67240449). vm_compute. lia.
    + apply (Hrow 4 67240450). vm_compute. lia.
  - exists (default_row 1 "1.1.1.2"). split; [|done]. rewrite Hl. left.
Qed.

Definition quad9_values : gmap string json :=
  list_to_map [("name", JStr "Quad9"); ("protocol", JStr "doh"); ("address", JStr "https://dns.quad9.net/dns-query");
               ("bootstrap_ips", JStr "9.9.9.9"); ("enabled", JStr "1")].

(** A DoH resolver is added and moved up, and the first one is deleted. *)
Lemma resolver_table_invariant_witness :
  ∃ l, rtc (resolver_step (λ _, true)) default_table l ∧ ur_id <$> ordered l = [2; 3; 5; 4] ∧ table_ok l.
Proof.
  destruct (add_resolver (λ _, true) "t" "" quad9_values default_table) as [[id l1]|] eqn:E1;
    [|vm_compute in E1; discriminate].
  destruct (move_resolver "t" "" 5 "up" l1) as [l2|] eqn:E2;
    [|vm_compute in E1; injection E1 as <- <-; vm_compute in E2; discriminate].
  destruct (delete_resolver "t" "" 1 l2) as [l3|] eqn:E3;
    [|vm_compute in E1; injection E1 as <- <-; vm_compute in E2; injection E2 as <-; vm_compute in E3; discriminate].
  assert (rtc (resolver_step (λ _, true)) default_table l3) as Hs.
  { eapply rtc_l; [by eapply step_add|]. eapply rtc_l; [by eapply step_move|]. by eapply rtc_once, step_delete. }
  exists l3. split; [done|]. split; [|exact (resolver_table_invariant _ _ _ default_table_ok Hs)].
  vm_compute in E1. injection E1 as <- <-. vm_compute in E2. injection E2 as <-. vm_compute in E3.
  injection E3 as <-. vm_compute. reflexivity.
Defined.

Lemma move_resolver_spec_witness :
  match move_resolver "t" "" 3 "down" default_table with
  | Raise _ => False
  | Ok l' => ∃ pre post, ur_id <$> ordered default_table = pre ++ 3 :: post
      ∧ ur_id <$> ordered l' = neighbour_swapped false pre 3 post
  end.
Proof.
  pose proof (move_resolver_spec "t" "" 3 "down" default_table) as Hm.
  destruct (move_resolver _ _ _ _ _) as [l'|e] eqn:E; [|vm_compute in E; discriminate].
  destruct Hm as (pre & post & H1 & H2 & _); [apply default_table_ok|apply table_ok_nonempty, default_table_ok|].
  by exists pre, post.
Defined.
