(* ===== verification/UpstreamDeploy.v ===== *)
(** * Deploying the upstream resolvers

    The configuration files [app/upstream_dns.py] renders for dnsdist and BIND, the
    reconciliation of a running dnsdist over its console, and [deploy_upstreams]:
    the enabled resolvers are rendered, installed and tested, and taken back when
    anything fails. *)

From S2P Require Import Prelude PyStr PyJson StrLemmas IpAddr DomainName LocalDns Url World Upstream.

#[local] Open Scope Z_scope.

(** app/upstream_dns.py:44-51 BIND_FORWARDERS_CONF *)
Definition BIND_FORWARDERS_CONF : string := "/var/lib/alderpointdns/compiled/bind/upstream-forwarders.conf".
Definition DNSDIST_UPSTREAM_CONF : string := "/var/lib/alderpointdns/compiled/dnsdist/upstream-forwarder.conf".
Definition NAMED_OPTIONS_CONF : string := "/etc/bind/named.conf.options".
Definition DNSDIST_CONF : string := "/etc/dnsdist/dnsdist.conf".
Definition DNSDIST_PACKAGING_CONF : string := "/opt/alderpointdns/packaging/dnsdist.conf".
Definition UPSTREAM_BACKUP_DIR : string := "/var/lib/alderpointdns/backups/".
Definition UPSTREAM_STAGING_DIR : string := "/var/lib/alderpointdns/staging/".
(** app/upstream_dns.py:53-53 TEST_DOMAIN *)
Definition TEST_DOMAIN : string := "cloudflare.com".

(** ** Rendering *)

(** app/upstream_dns.py:456-457 _lua_quote *)
Definition lua_quote (value : string) : string :=
  dquote +:+ replace_all dquote ("\" +:+ dquote) (replace_all "\" "\\" value) +:+ dquote.

(** A resolver and the address dnsdist connects to. *)
Definition prepared : Type := resolver * string.

(** app/upstream_dns.py:460-468 _address_for_dnsdist *)
Definition address_for_dnsdist (row : prepared) : string :=
  let host := or_else (strip row.2) (ur_address row.1) in
  let host := if char_in ":" host && negb (starts_with "[" host) then "[" +:+ host +:+ "]" else host in
  host +:+ ":" +:+ str_int (ur_port row.1).

(** app/upstream_dns.py:471-473 _bootstrap_ips *)
Definition bootstrap_ips (row : resolver) : list string :=
  List.filter (λ s, negb (String.eqb s "")) (strip <$> split_on "," (ur_bootstrap row)).

(** The first line whose first word is an address. *)
Fixpoint first_address (lines : list string) : option ip :=
  match lines with
  | [] => None
  | raw :: lines =>
      match ip_address (default "" (head (words (strip raw)))) with
      | Some a => Some a
      | None => first_address lines
      end
  end.

Fixpoint resolve_via (address : string) (queries : list (string * string)) (errors : list string) : M string :=
  match queries with
  | [] =>
      raise (UpstreamDNSError ("bootstrap resolution failed for " +:+ address +:+ ": "
        +:+ match errors with [] => "no A or AAAA address returned" | _ => join "; " (take 4 errors) end))
  | (qtype, server) :: queries =>
      r ← run ["dig"; "@" +:+ server; address; qtype; "+short"; "+time=3"; "+tries=1"] false;
      if negb (r.1 =? 0)
      then resolve_via address queries (errors ++ [server +:+ " " +:+ qtype +:+ ": dig exited " +:+ str_int r.1])
      else match first_address (splitlines r.2) with
           | Some a => mret (str_ip a)
           | None => resolve_via address queries errors
           end
  end.

(** app/upstream_dns.py:476-506 _resolve_backend_address *)
Definition resolve_backend_address (row : resolver) : M string :=
  let address := ur_address row in
  if bool_decide (ur_protocol row = Plain) || host_is_ip address then mret address
  else match bootstrap_ips row with
  | [] => raise (UpstreamDNSError (upper (protocol_name (ur_protocol row))
                   +:+ " resolver hostname requires at least one bootstrap IP"))
  | servers => resolve_via address (qtype ← ["A"; "AAAA"]; (λ s, (qtype, s)) <$> servers) []
  end.

Definition is_upstream_error (e : pyexc) : bool := String.eqb (exc_class e) "UpstreamDNSError".

(** app/upstream_dns.py:518-526 prepare_dnsdist_rows_partial *)
Fixpoint prepare_dnsdist_rows_partial (rows : list resolver) : M (list prepared * list (resolver * string)) :=
  match rows with
  | [] => mret ([], [])
  | row :: rows =>
      r ← attempt (resolve_backend_address row);
      match r with
      | Ok address =>
          rest ← prepare_dnsdist_rows_partial rows;
          mret ((row, address) :: rest.1, rest.2)
      | Raise e =>
          if is_upstream_error e then
            rest ← prepare_dnsdist_rows_partial rows;
            mret (rest.1, (row, exc_message e) :: rest.2)
          else raise e
      end
  end.

Definition name_char (c : ascii) : bool :=
  is_alpha_ascii c || is_09 c || Ascii.eqb "_" c || Ascii.eqb "-" c.

(** Each run of other characters becomes one dash. *)
Fixpoint dash_runs (in_run : bool) (s : string) : string :=
  match s with
  | "" => ""
  | String c s =>
      if name_char c then String c (dash_runs false s)
      else if in_run then dash_runs true s else String "-" (dash_runs true s)
  end.

(** app/upstream_dns.py:529-548 _new_server_statement *)
Definition new_server_statement (row : prepared) : string :=
  let r := row.1 in
  let opts :=
    ["address=" +:+ lua_quote (address_for_dnsdist row);
     "name=" +:+ lua_quote ("upstream-" +:+ str_int (ur_id r) +:+ "-" +:+ stake 42 (dash_runs false (ur_name r)));
     quoted "pool=`alderpointdns_upstreams`"; quoted "checkName=`cloudflare.com.`"; quoted "checkType=`A`";
     "mustResolve=true"; "order=" +:+ str_int (ur_position r)]
    ++ (if bool_decide (ur_protocol r ≠ Plain)
        then [quoted "tls=`openssl`"; "validateCertificates=true";
              "subjectName=" +:+ lua_quote (or_else (ur_tls_hostname r) (ur_address r))] else [])
    ++ (if bool_decide (ur_protocol r = Doh)
        then ["dohPath=" +:+ lua_quote (or_else (ur_doh_path r) "/dns-query")] else []) in
  "newServer({" +:+ join ", " opts +:+ "})".

(** app/upstream_dns.py:551-560 render_dnsdist_upstreams *)
Definition render_dnsdist_upstreams (rows : list prepared) : string :=
  join nl
    (["-- Managed by Alderpoint DNS. Generated upstream forwarder; do not edit by hand.";
      "alderpointdnsUpstreamsEnabled = true";
      quoted "addLocal(`127.0.0.1:5355`, {reusePort=true})";
      quoted "setPoolServerPolicy(firstAvailable, `alderpointdns_upstreams`)"]
     ++ (new_server_statement <$> rows)) +:+ nl.

(** app/upstream_dns.py:563-570 render_bind_forwarders *)
Definition render_bind_forwarders : string :=
  join nl ["// Managed by Alderpoint DNS. Generated upstream forwarder target; do not edit by hand.";
           "forwarders port 5355 { 127.0.0.1; };"; ""].

(** The match of the pattern of [ensure_named_forwarders_include] at the start of [s]: its
    length. *)
Definition forwarders_match (s : string) : option nat :=
  if starts_with nl s then
    let t := lstrip_by is_space (sdrop 1 s) in
    if starts_with "forwarders" t then
      match forwarders_tail (sdrop 10 t) with
      | Some (_, _, rest) => Some (slen s - slen rest)%nat
      | None => None
      end
    else None
  else None.

(** [re.sub(pattern, "", s)] *)
Fixpoint remove_forwarders (skip : nat) (s : string) : string :=
  match s with
  | "" => ""
  | String c s' =>
      match skip with
      | S skip => remove_forwarders skip s'
      | O => match forwarders_match s with
             | Some len => remove_forwarders (len - 1) s'
             | None => String c (remove_forwarders 0 s')
             end
      end
  end.

(** ** The includes *)

Section includes.
Context (seconds : string).

(** app/upstream_dns.py:573-585 ensure_named_forwarders_include *)
Definition ensure_named_forwarders_include : M () :=
  current ← read_text NAMED_OPTIONS_CONF;
  if contains BIND_FORWARDERS_CONF current then mret ()
  else
    _ ← copy2 NAMED_OPTIONS_CONF (UPSTREAM_BACKUP_DIR +:+ "named.conf.options.pre-upstream." +:+ seconds);
    let current := remove_forwarders 0 current in
    if negb (contains "forward only;" current)
    then raise (UpstreamDNSError "named.conf.options is missing forward only;")
    else write_text NAMED_OPTIONS_CONF
           (replace_first "forward only;"
              ("forward only;" +:+ nl +:+ quoted (tab +:+ "include `" +:+ BIND_FORWARDERS_CONF +:+ "`;")) current).

Definition upstream_include : string :=
  quoted ("alderpointdnsUpstreamsEnabled = false" +:+ nl
    +:+ "local alderpointdnsUpstreamConfig = `" +:+ DNSDIST_UPSTREAM_CONF +:+ "`" +:+ nl
    +:+ "local alderpointdnsUpstreamFile = io.open(alderpointdnsUpstreamConfig, `r`)" +:+ nl
    +:+ "if alderpointdnsUpstreamFile then" +:+ nl
    +:+ "  alderpointdnsUpstreamFile:close()" +:+ nl
    +:+ "  dofile(alderpointdnsUpstreamConfig)" +:+ nl
    +:+ "end" +:+ nl).

Definition pool_marker : string := quoted "getPool(``):setCache(pc)".
Definition route_marker : string := "}), RCodeAction(DNSRCode.REFUSED))".
Definition upstream_route : string :=
  quoted ("if alderpointdnsUpstreamsEnabled then" +:+ nl
    +:+ "  addAction(DSTPortRule(5355), PoolAction(`alderpointdns_upstreams`))" +:+ nl
    +:+ "end" +:+ nl
    +:+ "addAction(AllRule(), PoolAction(`alderpointdns_bind`))" +:+ nl +:+ nl).

(** app/upstream_dns.py:588-614 ensure_dnsdist_include *)
Definition ensure_dnsdist_include : M () :=
  live ← exists_ DNSDIST_CONF;
  current ← read_text (if (live : bool) then DNSDIST_CONF else DNSDIST_PACKAGING_CONF);
  if contains DNSDIST_UPSTREAM_CONF current then mret ()
  else
    _ ← when live (copy2 DNSDIST_CONF (UPSTREAM_BACKUP_DIR +:+ "dnsdist.conf.pre-upstream." +:+ seconds));
    if negb (contains pool_marker current)
    then raise (UpstreamDNSError "dnsdist.conf is missing packet-cache pool marker")
    else
      let current := replace_first pool_marker
        (quoted "getPool(`alderpointdns_bind`):setCache(pc)" +:+ nl +:+ nl +:+ upstream_include) current in
      let current := replace_first ("newServer({" +:+ nl +:+ quoted "  address=`127.0.0.1:5354`,")
        ("newServer({" +:+ nl +:+ quoted "  address=`127.0.0.1:5354`," +:+ nl
           +:+ quoted "  pool=`alderpointdns_bind`,") current in
      if negb (contains route_marker current)
      then raise (UpstreamDNSError "dnsdist.conf is missing action marker")
      else write_text DNSDIST_CONF
             (replace_first route_marker (route_marker +:+ nl +:+ nl +:+ upstream_route) current).
End includes.

(** ** The running dnsdist *)

(** What [showServers()] prints, or [None]: the exceptions of the call are swallowed. *)
Definition show_servers : M (option string) :=
  r ← attempt (run ["dnsdist"; "-e"; "showServers()"] false);
  mret (match r with
        | Ok (code, out) => if code =? 0 then Some out else None
        | Raise _ => None
        end).

Definition server_lines (columns : nat) (out : string) : list (list string) :=
  List.filter (λ parts, (columns <=? length parts)%nat && isdigit (default "" (head parts))) (words <$> splitlines out).

(** app/upstream_dns.py:958-1003 _backend_snapshots

    Address and whether the server is up; its counters and latencies are left out. *)
Definition backend_snapshots : M (gmap string bool) :=
  out ← show_servers;
  mret (match out with
        | None => ∅
        | Some out =>
            foldl (λ states parts, <[parts !!! 2%nat := String.eqb (lower (parts !!! 3%nat)) "up"]> states) ∅
              (server_lines 14 out)
        end).

(** app/upstream_dns.py:1016-1038 _live_upstream_pool_snapshot

    Index and address of the servers in the pool. *)
Definition live_upstream_pool_snapshot : M (option (list (string * string))) :=
  out ← show_servers;
  mret ((λ out, (λ parts, (parts !!! 0%nat, parts !!! 2%nat)) <$>
           List.filter (λ parts, bool_decide (last parts = Some "alderpointdns_upstreams")) (server_lines 5 out)) <$> out).

(** Stable, the greatest index first. *)
Fixpoint insert_desc (x : Z * string) (l : list (Z * string)) : list (Z * string) :=
  match l with
  | [] => [x]
  | y :: l => if y.1 <? x.1 then x :: y :: l else y :: insert_desc x l
  end.
Definition sort_desc (l : list (Z * string)) : list (Z * string) := foldl (λ l x, insert_desc x l) [] l.

(** app/upstream_dns.py:1041-1114 _console_reconcile *)
Definition console_reconcile (rows : list prepared) : M bool :=
  snapshot ← live_upstream_pool_snapshot;
  match snapshot with
  | None | Some [] => mret false
  | Some entries =>
      indexed ← for_each entries (λ e, i ← lift (py_int (JStr e.1)); mret (i, e.1));
      let statements :=
        ((λ e, "rmServer(getServer(" +:+ e.2 +:+ "))") <$> sort_desc indexed) ++ (new_server_statement <$> rows) in
      r ← attempt (run ["dnsdist"; "-e"; join nl statements] false);
      match r with
      | Raise _ => mret false
      | Ok (code, _) =>
          if negb (code =? 0) then mret false
          else
            after ← live_upstream_pool_snapshot;
            match after with
            | None => mret false
            | Some after => mret (bool_decide (py_sorted after.*2 = py_sorted (address_for_dnsdist <$> rows)))
            end
      end
  end.

(** app/upstream_dns.py:930-945 _capture_service_diagnostics *)
Definition capture_service_diagnostics (unit : string) : M string :=
  r ← attempt (run ["journalctl"; "-u"; unit; "-n"; "60"; "--no-pager"; "--output=short-iso"] false);
  mret (match r with Ok (_, out) => out | Raise _ => "" end).

(** ** Deployment *)

(** A row of [upstream_deployments]; its texts are left out. *)
Record up_deploy := mkUpDeploy { ud_id : Z; ud_status : string }.
Record upstreams := mkUpstreams { us_rows : list resolver; us_deps : list up_deploy }.

Definition message_char (c : ascii) : bool := negb (is_space c || Ascii.eqb "'" c || Ascii.eqb "034" c).

(** app/upstream_dns.py:623-624 _safe_message

    A URL is cut after its host. *)
Fixpoint safe_message_go (skip : nat) (s : string) : string :=
  match s with
  | "" => ""
  | String c s' =>
      match skip with
      | S skip => safe_message_go skip s'
      | O =>
          let host := take_while netloc_char (sdrop 8 s) in
          if starts_with "https://" s && negb (String.eqb host "") then
            let rest := sdrop (8 + slen host) s in
            "https://" +:+ host +:+ "/..." +:+ safe_message_go (7 + slen host + slen (take_while message_char rest)) s'
          else String c (safe_message_go 0 s')
      end
  end.
Definition safe_message (text : string) : string := safe_message_go 0 text.

Definition set_status (status message ts : string) (r : resolver) : resolver :=
  r{{ur_status := status; ur_message := message; ur_checked := Some ts}}.

(** The rows after a successful deployment: a resolver that could not be rendered has
    failed, the others are what dnsdist reports of them. *)
Definition record_states (ts : string) (failures : list (resolver * string)) (rows : list prepared)
    (states : gmap string bool) (l : list resolver) : list resolver :=
  let l := foldl (λ l f, update_row (ur_id f.1) (set_status "failed" (stake 400 f.2) ts) l) l failures in
  foldl (λ l row,
    match states !! address_for_dnsdist row with
    | None => l
    | Some false => update_row (ur_id row.1)
        (set_status "failed" "dnsdist marked this upstream unreachable; other enabled upstreams are handling traffic" ts) l
    | Some true => update_row (ur_id row.1) (set_status "healthy" "dnsdist marked this upstream reachable" ts) l
    end) l rows.

(** A file of the deployment and its backup, if there was one to make. *)
Definition backed_up : Type := string * option string.

Section deploy.
Context `{Platform}.
(** The clock: [tries] more checks are made before the deadline passes. *)
Context (ts seconds stage : string) (tries : nat).

Definition dnsdist_staged : string := stage +:+ "upstream-forwarder.conf".
Definition bind_staged : string := stage +:+ "upstream-forwarders.conf".

Definition stage_upstreams (rows : list resolver) : M (list prepared * list (resolver * string)) :=
  r ← prepare_dnsdist_rows_partial rows;
  match r.1 with
  | [] => raise (UpstreamDNSError ("no enabled upstream resolver could be rendered: "
            +:+ match r.2 with
                | f :: _ => f.2
                | [] => "no enabled upstream resolver could be rendered"
                end))
  | _ =>
      _ ← write_text dnsdist_staged (render_dnsdist_upstreams r.1);
      _ ← write_text bind_staged render_bind_forwarders;
      mret r
  end.

Definition last_good (name : string) : string := UPSTREAM_BACKUP_DIR +:+ name +:+ ".last-good." +:+ seconds.

Definition install_live (name live staged : string) : M backed_up :=
  present ← exists_ live;
  let backup := if (present : bool) then Some (last_good name) else None in
  _ ← match backup with Some b => copy2 live b | None => mret () end;
  _ ← replace staged live;
  mret (live, backup).

Definition test_answer (r : Z * string) : bool :=
  (r.1 =? 0) && contains "status: NOERROR" r.2 && contains (tab +:+ "A" +:+ tab) r.2.

Fixpoint resolution_check (tries : nat) : M bool :=
  _ ← run_ ["rndc"; "flushname"; TEST_DOMAIN] true;
  r ← run ["dig"; "@127.0.0.1"; "-p"; "5353"; TEST_DOMAIN; "A"; "+time=5"; "+tries=1"] false;
  if test_answer r then mret true
  else match tries with O => mret false | S tries => resolution_check tries end.

Definition activate_upstreams (rows : list prepared) : M () :=
  _ ← ensure_dnsdist_include seconds;
  _ ← ensure_named_forwarders_include seconds;
  _ ← run_ ["dnsdist"; "--check-config"] true;
  _ ← run_ ["named-checkconf"; "-p"; "/etc/bind/named.conf"] true;
  applied ← console_reconcile rows;
  _ ← when (negb applied) (run_ ["systemctl"; "restart"; "dnsdist"] true);
  _ ← run_ ["rndc"; "reconfig"] true;
  ok ← resolution_check tries;
  if (ok : bool) then mret ()
  else raise (PyExc "RuntimeError" ("post-deploy upstream resolution failed: none of the currently enabled "
    +:+ "upstream resolvers returned a successful answer (checked against a "
    +:+ "freshly flushed cache entry, so a stale cached answer could not mask this)")).

Definition restore_live (b : backed_up) : M () :=
  saved ← match b.2 with Some backup => exists_ backup | None => mret false end;
  present ← exists_ b.1;
  match b.2, saved with
  | Some backup, true => copy2 backup b.1
  | _, _ => when present (unlink b.1)
  end.

(** The handler: the rows, the recorded status and what the caller gets. *)
Definition roll_back_upstreams (e : pyexc) (backups : list backed_up) (l : list resolver)
    : M (list resolver * string * res Z) :=
  _ ← capture_service_diagnostics "dnsdist";
  _ ← for_each backups restore_live;
  r ← attempt (_ ← run_ ["systemctl"; "restart"; "dnsdist"] false; run_ ["rndc"; "reconfig"] false);
  mret (match r with
        | Ok _ =>
            ((λ r, if ur_enabled r then set_status "failed" (stake 400 (safe_message (exc_message e))) ts r else r) <$> l,
             "rolled_back", Raise e)
        | Raise e => (l, "failed", Raise e)
        end).

Definition deploy_rows (id : Z) (l rows : list resolver) : M (list resolver * string * res Z) :=
  staged ← attempt (stage_upstreams rows);
  match staged with
  | Raise e => roll_back_upstreams e [] l
  | Ok (prepared_rows, failures) =>
      b1 ← install_live "upstream-forwarder.conf" DNSDIST_UPSTREAM_CONF dnsdist_staged;
      b2 ← install_live "upstream-forwarders.conf" BIND_FORWARDERS_CONF bind_staged;
      activated ← attempt (activate_upstreams prepared_rows);
      match activated with
      | Raise e => roll_back_upstreams e [b1; b2] l
      | Ok _ =>
          states ← backend_snapshots;
          mret (record_states ts failures prepared_rows states l, "deployed", Ok id)
      end
  end.

(** app/upstream_dns.py:1117-1288 deploy_upstreams

    The tables and the deployment's id, or the exception. *)
Definition deploy_upstreams (us : upstreams) : M (upstreams * res Z) :=
  conf ← get_file NAMED_OPTIONS_CONF;
  let l := init_resolvers ts (default "" conf) (us_rows us) in
  let id := fresh_id (ud_id <$> us_deps us) in
  match List.filter ur_enabled (ordered l) with
  | [] => mret (mkUpstreams l (us_deps us ++ [mkUpDeploy id "failed"]), Raise (UpstreamDNSError LAST_ENABLED_MESSAGE))
  | rows =>
      out ← deploy_rows id l rows;
      _ ← rmtree stage;
      mret (mkUpstreams out.1.1 (us_deps us ++ [mkUpDeploy id out.1.2]), out.2)
  end.
End deploy.

(** app/upstream_dns.py:1291-1300 last_deployment *)
Definition last_deployment (us : upstreams) : option up_deploy :=
  foldl (λ best d, match best with Some b => if ud_id b <? ud_id d then Some d else best | None => Some d end)
    None (us_deps us).

Example safe_message_ex :
  safe_message "dig https://user@host.example/path?token=1 failed: https:///x"
  = "dig https://user@host.example/... failed: https:///x".
Proof. reflexivity. Qed.
Example remove_forwarders_ex :
  remove_forwarders 0 ("options {" +:+ nl +:+ tab +:+ "forwarders { 1.1.1.1; };" +:+ nl +:+ tab +:+ "forward only;" +:+ nl +:+ "};")
  = "options {" +:+ nl +:+ tab +:+ "forward only;" +:+ nl +:+ "};".
Proof. vm_compute. reflexivity. Qed.

(** ** Proofs *)

Definition no_path (p : string) : Prop := False.
Definition any_command (c : list string) : Prop := True.

Lemma resolve_via_writes address qs errors : writes no_path any_command (resolve_via address qs errors).
Proof.
  revert errors. induction qs as [|[qt sv] qs IH]; intros errors; cbn [resolve_via]; [frames|].
  apply writes_bind; [by apply writes_run|]. intros r. destruct (negb _); [apply IH|].
  destruct (first_address _); [frames|apply IH].
Qed.

Lemma backend_writes row : writes no_path any_command (resolve_backend_address row).
Proof.
  unfold resolve_backend_address. destruct (_ || _); [frames|].
  destruct (bootstrap_ips row); [frames|apply resolve_via_writes].
Qed.

Lemma prepare_writes rows : writes no_path any_command (prepare_dnsdist_rows_partial rows).
Proof.
  induction rows as [|row rows IH]; cbn [prepare_dnsdist_rows_partial]; [frames|].
  apply writes_bind; [apply writes_attempt, backend_writes|]. intros [a|e].
  - apply writes_bind; [exact IH|]. intros. frames.
  - destruct (is_upstream_error e); [|frames]. apply writes_bind; [exact IH|]. intros. frames.
Qed.

(** Every row is either prepared or reported, in the order of the rows. *)
Lemma prepare_sound rows w ps fs w' :
  prepare_dnsdist_rows_partial rows w = (Ok (ps, fs), w') →
  ps.*1 `sublist_of` rows ∧ (length ps + length fs)%nat = length rows.
Proof.
  revert w ps fs w'. induction rows as [|row rows IH]; intros w ps fs w'; cbn [prepare_dnsdist_rows_partial].
  { intros [= <- <- <-]. done. }
  rewrite bind_M. unfold attempt. destruct (resolve_backend_address row w) as [[a|e] w1].
  - rewrite bind_M. destruct (prepare_dnsdist_rows_partial rows w1) as [[[ps1 fs1]|e] w2] eqn:E; [|done].
    intros [= <- <- <-]. destruct (IH _ _ _ _ E) as [H1 H2]. cbn. split; [by constructor|lia].
  - destruct (is_upstream_error e); [|done]. rewrite bind_M.
    destruct (prepare_dnsdist_rows_partial rows w1) as [[[ps1 fs1]|e'] w2] eqn:E; [|done].
    intros [= <- <- <-]. destruct (IH _ _ _ _ E) as [H1 H2]. cbn. split; [by constructor|lia].
Qed.

Lemma show_servers_writes : writes no_path any_command show_servers.
Proof. unfold show_servers. frames; done. Qed.

Lemma live_pool_writes : writes no_path any_command live_upstream_pool_snapshot.
Proof. apply writes_bind; [apply show_servers_writes|]. intros. frames. Qed.

Lemma backend_snapshots_run w : ∃ states w', backend_snapshots w = (Ok states, w') ∧ w_files w' = w_files w.
Proof.
  unfold backend_snapshots, show_servers, attempt. rewrite !bind_M. unfold run.
  destruct (w_answers w _) as [code out|e]; [|by eexists _, _].
  rewrite andb_false_l. by eexists _, _.
Qed.

Lemma console_reconcile_writes rows : writes no_path any_command (console_reconcile rows).
Proof.
  unfold console_reconcile. apply writes_bind; [apply live_pool_writes|]. intros [[|e es]|]; [frames| |frames].
  apply writes_bind; [frames|]. intros indexed. apply writes_bind; [frames; done|]. intros [[code out]|ex]; [|frames].
  destruct (negb _); [frames|]. apply writes_bind; [apply live_pool_writes|]. intros [after|]; frames.
Qed.
#[export] Hint Resolve backend_writes prepare_writes console_reconcile_writes : frames.

Ltac other_path := let E := fresh in intros E; vm_compute in E; discriminate.

Section deploy_proofs.
Context `{Platform} (ts seconds tmp : string) (tries : nat).
Abbreviation stage := (UPSTREAM_STAGING_DIR +:+ tmp).

Lemma frame_no_path {A} (m : M A) w : writes no_path any_command m → ∀ p, w_files (m w).2 !! p = w_files w !! p.
Proof. intros Hm p. apply (frame_files _ _ _ _ (Hm w)). by intros []. Qed.

Definition include_paths (p : string) : Prop :=
  p = NAMED_OPTIONS_CONF ∨ p = DNSDIST_CONF
  ∨ starts_with (UPSTREAM_BACKUP_DIR +:+ "named.conf.options.pre-upstream.") p = true
  ∨ starts_with (UPSTREAM_BACKUP_DIR +:+ "dnsdist.conf.pre-upstream.") p = true.

Lemma resolution_check_writes n : writes no_path any_command (resolution_check n).
Proof.
  assert (∀ m, writes no_path any_command m → writes no_path any_command
    (_ ← run_ ["rndc"; "flushname"; TEST_DOMAIN] true;
     r ← run ["dig"; "@127.0.0.1"; "-p"; "5353"; TEST_DOMAIN; "A"; "+time=5"; "+tries=1"] false;
     if test_answer r then mret true else m)) as Hstep.
  { intros m Hm. apply writes_bind; [by apply writes_run_|]. intros _. apply writes_bind; [by apply writes_run|].
    intros r. destruct (test_answer r); [frames|exact Hm]. }
  induction n as [|n IH]; cbn [resolution_check]; apply Hstep; [frames|exact IH].
Qed.

Lemma no_path_writes {A} S (m : M A) : writes no_path any_command m → writes S any_command m.
Proof. intros Hm w. eapply frame_mono; [..|apply Hm]; done. Qed.

Lemma activate_upstreams_writes rows : writes include_paths any_command (activate_upstreams seconds tries rows).
Proof.
  unfold activate_upstreams. apply writes_bind.
  { unfold ensure_dnsdist_include. frames; try done; [|by right; left].
    right; right; right. rewrite <-sapp_assoc. apply starts_with_app. }
  intros _. apply writes_bind.
  { unfold ensure_named_forwarders_include. frames; try done; [|by left].
    right; right; left. rewrite <-sapp_assoc. apply starts_with_app. }
  intros _. apply writes_bind; [by apply writes_run_|]. intros _. apply writes_bind; [by apply writes_run_|]. intros _.
  apply writes_bind; [apply no_path_writes, console_reconcile_writes|]. intros applied.
  apply writes_bind; [by apply writes_when, writes_run_|]. intros _. apply writes_bind; [by apply writes_run_|]. intros _.
  apply writes_bind; [apply no_path_writes, resolution_check_writes|]. intros ok. destruct ok; frames.
Qed.

(** Activation succeeds only after the test name, flushed from BIND's cache just before,
    was answered. *)
Definition answered_flushed (w : world) : Prop :=
  ∃ n out, w_log w !! n = Some ["rndc"; "flushname"; TEST_DOMAIN]
    ∧ w_log w !! S n = Some ["dig"; "@127.0.0.1"; "-p"; "5353"; TEST_DOMAIN; "A"; "+time=5"; "+tries=1"]
    ∧ w_answers w (S n) = Exited 0 out ∧ test_answer (0, out) = true.

Lemma resolution_check_true n w w' : resolution_check n w = (Ok true, w') → answered_flushed w'.
Proof.
  revert w. induction n as [|n IH]; intros w; cbn [resolution_check]; rewrite bind_M;
    (destruct (run_ _ true w) as [[[]|e] w1] eqn:E1; [|done]); apply run_ok in E1 as [-> _];
    rewrite bind_M; unfold run; cbn [w_log w_answers];
    (match goal with |- context [w_answers ?w ?k] => destruct (w_answers w k) as [code out|e] eqn:Ea end; [|done]);
    rewrite andb_false_l; destruct (test_answer (code, out)) eqn:Et; try apply IH; try discriminate;
    intros Hw; apply (f_equal snd) in Hw; cbn [snd] in Hw; subst w';
    exists (length (w_log w)), out; destruct w as [f lg an]; cbn in *;
    (assert (code = 0) as -> by (unfold test_answer in Et; cbn in Et; bool_to_prop; by apply Z.eqb_eq));
    rewrite length_app in Ea; cbn in Ea; rewrite Nat.add_1_r in Ea;
    (split; [by rewrite lookup_app_l, lookup_app_r, Nat.sub_diag by (rewrite ?length_app; cbn; lia)|]);
    (split; [by rewrite lookup_app_r by (rewrite length_app; cbn; lia); rewrite length_app, Nat.add_1_r, Nat.sub_diag|done]).
Qed.

Lemma activated w rows w' : activate_upstreams seconds tries rows w = (Ok (), w') → answered_flushed w'.
Proof.
  unfold activate_upstreams. do 7 (rewrite bind_M; match goal with |- context [match ?m with _ => _ end = _] =>
    destruct m as [[?|?] ?]; [|done] end).
  rewrite bind_M. destruct (resolution_check tries _) as [[[]|e] w7] eqn:E; [|done|done].
  intros [= <-]. by eapply resolution_check_true.
Qed.

(** *** Files in and out *)

Lemma install_live_run name live staged text w :
  staged ≠ live → last_good seconds name ≠ live → last_good seconds name ≠ staged →
  w_files w !! staged = Some text →
  ∃ b w', install_live seconds name live staged w = (Ok (live, b), w')
    ∧ w_files w' !! live = Some text
    ∧ match b with
      | Some backup => backup = last_good seconds name ∧ is_Some (w_files w !! live) ∧ w_files w' !! backup = w_files w !! live
      | None => w_files w !! live = None
      end
    ∧ ∀ p, p ≠ live → p ≠ staged → p ≠ last_good seconds name → w_files w' !! p = w_files w !! p.
Proof.
  intros Hsl Hbl Hbs Hs. unfold install_live. rewrite bind_M. cbn [exists_]. rewrite bind_M.
  destruct (w_files w !! live) as [old|] eqn:Eo.
  - rewrite bool_decide_eq_true_2 by eauto. rewrite (copy2_run _ _ _ old Eo), bind_M.
    rewrite (replace_run _ _ _ text) by (destruct w; cbn; by rewrite lookup_insert_ne).
    do 2 eexists. split; [reflexivity|]. destruct w as [f lg an]. cbn in *.
    split; [by rewrite lookup_insert_eq|]. split.
    + split; [done|]. split; [by eauto|]. by rewrite lookup_insert_ne, lookup_delete_ne, lookup_insert_eq by congruence.
    + intros p H1 H2 H3. by rewrite lookup_insert_ne, lookup_delete_ne, lookup_insert_ne by congruence.
  - rewrite bool_decide_eq_false_2 by by intros [? ?]. cbn [mret M_ret]. rewrite bind_M, (replace_run _ _ _ text Hs).
    do 2 eexists. split; [reflexivity|]. destruct w as [f lg an]. cbn in *.
    split; [by rewrite lookup_insert_eq|]. split; [done|].
    intros p H1 H2 H3. by rewrite lookup_insert_ne, lookup_delete_ne by congruence.
Qed.

Lemma restore_live_run live b w :
  ∃ w', restore_live (live, b) w = (Ok (), w')
    ∧ w_files w' !! live = match b with Some backup => w_files w !! backup | None => None end
    ∧ ∀ p, p ≠ live → w_files w' !! p = w_files w !! p.
Proof.
  unfold restore_live. cbn [fst snd]. destruct b as [backup|].
  - destruct (restore_file backup live w) as (w' & Hrun & Hl & Ho). exists w'. split; [|done].
    rewrite <-Hrun, !bind_M. cbn [exists_]. by destruct (bool_decide (is_Some (w_files w !! backup))).
  - rewrite bind_M. cbn [mret M_ret]. rewrite bind_M. cbn [exists_].
    destruct (w_files w !! live) as [t|] eqn:E; unfold when.
    + rewrite bool_decide_eq_true_2 by eauto. unfold unlink. rewrite E. eexists. split; [done|].
      destruct w as [f lg an]. cbn. rewrite lookup_delete_eq. split; [done|].
      intros p Hp. by rewrite lookup_delete_ne.
    + rewrite bool_decide_eq_false_2 by by intros [? ?]. exists w. done.
Qed.

Lemma diagnostics_run w : ∃ text w', capture_service_diagnostics "dnsdist" w = (Ok text, w')
  ∧ ∀ p, w_files w' !! p = w_files w !! p.
Proof.
  unfold capture_service_diagnostics, attempt. rewrite bind_M. unfold run.
  destruct (w_answers w _) as [code out|e]; by do 2 eexists.
Qed.

(** The handler puts the files back and always hands an exception on. *)
Lemma roll_back_run e backups l w :
  ∃ rows status e' w', roll_back_upstreams ts e backups l w = (Ok (rows, status, Raise e'), w')
    ∧ status ≠ "deployed"
    ∧ ∃ w1 w2 bs, (∀ p, w_files w1 !! p = w_files w !! p) ∧ for_each backups restore_live w1 = (Ok bs, w2)
      ∧ ∀ p, w_files w' !! p = w_files w2 !! p.
Proof.
  unfold roll_back_upstreams. rewrite bind_M. destruct (diagnostics_run w) as (text & w1 & -> & H1). rewrite bind_M.
  destruct (for_each_ok backups restore_live (λ _ _, True) w1) as (bs & w2 & Hrun & _); [done| |].
  { intros [live b] l' w0 _. destruct (restore_live_run live b w0) as (w' & Hr & _). eauto. }
  rewrite Hrun, bind_M.
  pose proof (frame_no_path (_ ← run_ ["systemctl"; "restart"; "dnsdist"] false; run_ ["rndc"; "reconfig"] false) w2) as H3.
  unfold attempt. destruct ((_ ← run_ _ _; _) w2) as [[u|e2] w3]; cbn [snd] in H3; do 4 eexists; (split; [reflexivity|]);
    (split; [done|]); exists w1, w2, bs; (split; [done|]); (split; [done|]); apply H3; frames; done.
Qed.

Lemma answered_mono S C w w' : frame S C w w' → answered_flushed w → answered_flushed w'.
Proof.
  intros [_ Ha (l & Hl & _)] (n & out & H1 & H2 & H3 & H4). exists n, out. rewrite Hl, Ha.
  rewrite !lookup_app_l; [done|by eapply lookup_lt_Some..].
Qed.

Lemma stage_upstreams_run rows w :
  let '(r, w') := stage_upstreams stage rows w in
  (∀ p, starts_with stage p = false → w_files w' !! p = w_files w !! p)
  ∧ match r with
    | Ok (ps, _) => ps ≠ [] ∧ ps.*1 `sublist_of` rows
        ∧ w_files w' !! dnsdist_staged stage = Some (render_dnsdist_upstreams ps)
        ∧ w_files w' !! bind_staged stage = Some render_bind_forwarders
    | Raise _ => True
    end.
Proof.
  unfold stage_upstreams. rewrite bind_M. pose proof (frame_no_path _ w (prepare_writes rows)) as Hp.
  destruct (prepare_dnsdist_rows_partial rows w) as [[[ps fs]|e] w1] eqn:E; cbn [snd] in Hp; [|done].
  apply prepare_sound in E as [Hsub _]. destruct ps as [|q ps]; [done|]. cbn [fst snd].
  rewrite bind_M. cbn [write_text]. rewrite bind_M. cbn [write_text mret M_ret].
  assert (dnsdist_staged stage ≠ bind_staged stage) as Hne.
  { unfold dnsdist_staged, bind_staged. intros Heq%(inj (String.append _)). discriminate. }
  assert (∀ p, starts_with stage p = false → p ≠ dnsdist_staged stage ∧ p ≠ bind_staged stage) as Hout.
  { intros p Hf. split; intros ->; revert Hf; unfold dnsdist_staged, bind_staged; by rewrite starts_with_app. }
  destruct w1 as [f lg an]. cbn in *. split; [|split; [done|split; [done|]]].
  - intros p [H1 H2]%Hout. by rewrite !lookup_insert_ne.
  - by rewrite lookup_insert_eq, lookup_insert_ne, lookup_insert_eq.
Qed.

Definition upstream_paths (p : string) : Prop :=
  p = DNSDIST_UPSTREAM_CONF ∨ p = BIND_FORWARDERS_CONF ∨ include_paths p
  ∨ p = last_good seconds "upstream-forwarder.conf" ∨ p = last_good seconds "upstream-forwarders.conf"
  ∨ starts_with stage p = true.

Lemma live_not_include p : p = DNSDIST_UPSTREAM_CONF ∨ p = BIND_FORWARDERS_CONF → ¬ include_paths p.
Proof. intros [-> | ->] [Hp|[Hp|[Hp|Hp]]]; revert Hp; other_path. Qed.

Lemma last_good_not_include name : name = "upstream-forwarder.conf" ∨ name = "upstream-forwarders.conf" →
  ¬ include_paths (last_good seconds name).
Proof. intros [-> | ->] [Hp|[Hp|[Hp|Hp]]]; revert Hp; unfold last_good; other_path. Qed.

(** The value a backup keeps of [live]. *)
Definition kept (f f' : gmap string string) (live : string) (b : option string) : Prop :=
  match b with Some backup => f' !! backup = f !! live | None => f !! live = None end.

(** Both files are installed, and their backups keep what was there. *)
Lemma install_both_run ps w :
  w_files w !! dnsdist_staged stage = Some (render_dnsdist_upstreams ps) →
  w_files w !! bind_staged stage = Some render_bind_forwarders →
  ∃ b1 b2 w1 w2,
    install_live seconds "upstream-forwarder.conf" DNSDIST_UPSTREAM_CONF (dnsdist_staged stage) w
      = (Ok (DNSDIST_UPSTREAM_CONF, b1), w1)
    ∧ install_live seconds "upstream-forwarders.conf" BIND_FORWARDERS_CONF (bind_staged stage) w1
      = (Ok (BIND_FORWARDERS_CONF, b2), w2)
    ∧ w_files w2 !! DNSDIST_UPSTREAM_CONF = Some (render_dnsdist_upstreams ps)
    ∧ w_files w2 !! BIND_FORWARDERS_CONF = Some render_bind_forwarders
    ∧ (b1 = None ∨ b1 = Some (last_good seconds "upstream-forwarder.conf"))
    ∧ (b2 = None ∨ b2 = Some (last_good seconds "upstream-forwarders.conf"))
    ∧ kept (w_files w) (w_files w2) DNSDIST_UPSTREAM_CONF b1 ∧ kept (w_files w) (w_files w2) BIND_FORWARDERS_CONF b2
    ∧ ∀ p, ¬ upstream_paths p → w_files w2 !! p = w_files w !! p.
Proof.
  intros Hst1 Hst2.
  destruct (install_live_run "upstream-forwarder.conf" DNSDIST_UPSTREAM_CONF (dnsdist_staged stage) (render_dnsdist_upstreams ps) w)
    as (b1 & w1 & E1 & Hl1 & Hb1 & Ho1); [unfold dnsdist_staged, last_good; other_path..|exact Hst1|].
  assert (w_files w1 !! bind_staged stage = Some render_bind_forwarders) as Hst2'.
  { rewrite Ho1; [exact Hst2|unfold bind_staged, dnsdist_staged, last_good..]; [other_path| |other_path].
    intros Heq%(inj (String.append _)). discriminate. }
  destruct (install_live_run "upstream-forwarders.conf" BIND_FORWARDERS_CONF (bind_staged stage) render_bind_forwarders w1)
    as (b2 & w2 & E2 & Hl2 & Hb2 & Ho2); [unfold bind_staged, last_good; other_path..|exact Hst2'|].
  assert (last_good seconds "upstream-forwarder.conf" ≠ last_good seconds "upstream-forwarders.conf") as Hlg.
  { unfold last_good. intros Heq%(inj (String.append _)). discriminate. }
  exists b1, b2, w1, w2. split; [done|]. split; [done|]. split.
  { rewrite Ho2; [done|unfold bind_staged, last_good; other_path..]. }
  split; [done|].
  split; [destruct b1; [right; f_equal; apply Hb1|by left]|]. split; [destruct b2; [right; f_equal; apply Hb2|by left]|].
  split.
  { destruct b1 as [bk|]; [|exact Hb1]. destruct Hb1 as (-> & _ & Hb1). cbn.
    rewrite Ho2; [exact Hb1|unfold bind_staged, last_good; other_path..|done]. }
  split.
  { destruct b2 as [bk|]; cbn; [destruct Hb2 as (-> & _ & ->)|rewrite <-Hb2];
      [|symmetry]; rewrite Ho1; try done; unfold dnsdist_staged, last_good; other_path. }
  intros p Hp. unfold upstream_paths in Hp.
  assert (starts_with stage p = false) as Hsp by (destruct (starts_with stage p); [destruct Hp; by do 5 right|done]).
  assert (p ≠ dnsdist_staged stage ∧ p ≠ bind_staged stage) as [? ?].
  { split; intros ->; revert Hsp; unfold dnsdist_staged, bind_staged; by rewrite starts_with_app. }
  rewrite Ho2, Ho1; [done|naive_solver..].
Qed.

(** Restoring them takes the installation back, whatever was done to the includes. *)
Lemma restore_both_run b1 b2 w w2 w3 w4 bs :
  (b1 = None ∨ b1 = Some (last_good seconds "upstream-forwarder.conf")) →
  (b2 = None ∨ b2 = Some (last_good seconds "upstream-forwarders.conf")) →
  kept (w_files w) (w_files w2) DNSDIST_UPSTREAM_CONF b1 → kept (w_files w) (w_files w2) BIND_FORWARDERS_CONF b2 →
  (∀ p, ¬ include_paths p → w_files w3 !! p = w_files w2 !! p) →
  for_each [(DNSDIST_UPSTREAM_CONF, b1); (BIND_FORWARDERS_CONF, b2)] restore_live w3 = (Ok bs, w4) →
  w_files w4 !! DNSDIST_UPSTREAM_CONF = w_files w !! DNSDIST_UPSTREAM_CONF
  ∧ w_files w4 !! BIND_FORWARDERS_CONF = w_files w !! BIND_FORWARDERS_CONF
  ∧ ∀ p, p ≠ DNSDIST_UPSTREAM_CONF → p ≠ BIND_FORWARDERS_CONF → w_files w4 !! p = w_files w3 !! p.
Proof.
  intros Hn1 Hn2 Hk1 Hk2 H3. cbn [for_each]. rewrite bind_M.
  destruct (restore_live_run DNSDIST_UPSTREAM_CONF b1 w3) as (w5 & -> & Hr1 & Ho1). rewrite !bind_M.
  destruct (restore_live_run BIND_FORWARDERS_CONF b2 w5) as (w6 & -> & Hr2 & Ho2). cbn. intros [= <- <-].
  split; [|split].
  - rewrite Ho2 by other_path. rewrite Hr1. destruct Hn1 as [-> | ->]; [by rewrite Hk1|].
    rewrite H3 by (apply last_good_not_include; by left). exact Hk1.
  - rewrite Hr2. destruct Hn2 as [-> | ->]; [by rewrite Hk2|].
    rewrite Ho1 by (unfold last_good; other_path). rewrite H3 by (apply last_good_not_include; by right). exact Hk2.
  - intros p Hp1 Hp2. by rewrite Ho2, Ho1.
Qed.

Lemma attempt_eq {A} (m : M A) w r w' : m w = (r, w') → attempt m w = (Ok r, w').
Proof. unfold attempt. by intros ->. Qed.

(** The outcome of the deployment of [rows]. *)
Definition rows_outcome (id : Z) (rows : list resolver) (status : string) (out : res Z) (w w' : world) : Prop :=
  match out with
  | Ok i => i = id ∧ status = "deployed" ∧ answered_flushed w'
      ∧ ∃ ps, ps ≠ [] ∧ ps.*1 `sublist_of` rows
        ∧ w_files w' !! DNSDIST_UPSTREAM_CONF = Some (render_dnsdist_upstreams ps)
        ∧ w_files w' !! BIND_FORWARDERS_CONF = Some render_bind_forwarders
  | Raise _ => status ≠ "deployed"
      ∧ w_files w' !! DNSDIST_UPSTREAM_CONF = w_files w !! DNSDIST_UPSTREAM_CONF
      ∧ w_files w' !! BIND_FORWARDERS_CONF = w_files w !! BIND_FORWARDERS_CONF
  end.

Lemma outside_upstream p : ¬ upstream_paths p → starts_with stage p = false ∧ ¬ include_paths p
  ∧ p ≠ DNSDIST_UPSTREAM_CONF ∧ p ≠ BIND_FORWARDERS_CONF.
Proof.
  unfold upstream_paths. intros Hp. split; [destruct (starts_with stage p); [destruct Hp; by do 5 right|done]|].
  split; [intros ?; destruct Hp; by do 2 right; left|]. split; intros ->; destruct Hp; [by left|by right; left].
Qed.

Lemma deploy_rows_run id l rows w :
  ∃ l' status out w', deploy_rows ts seconds stage tries id l rows w = (Ok (l', status, out), w')
    ∧ (∀ p, ¬ upstream_paths p → w_files w' !! p = w_files w !! p)
    ∧ rows_outcome id rows status out w w'.
Proof.
  unfold deploy_rows. rewrite bind_M. pose proof (stage_upstreams_run rows w) as Hs. unfold attempt at 1.
  destruct (stage_upstreams stage rows w) as [[[ps fs]|e] w1]; destruct Hs as [Hf Hs].
  2:{ destruct (roll_back_run e [] l w1) as (rows' & status & e' & w' & -> & Hst & w2 & w3 & bs & H2 & Hrun & H3).
      injection Hrun as <- <-.
      assert (∀ p, starts_with stage p = false → w_files w' !! p = w_files w !! p) as Hall.
      { intros p Hp. by rewrite H3, H2, Hf. }
      do 4 eexists. split; [reflexivity|]. split; [|split; [done|split; by apply Hall]].
      intros p [Hp _]%outside_upstream. by apply Hall. }
  destruct Hs as (Hne & Hsub & Hst1 & Hst2).
  destruct (install_both_run ps w1 Hst1 Hst2) as (b1 & b2 & w2 & w3 & E1 & E2 & Hl1 & Hl2 & Hn1 & Hn2 & Hk1 & Hk2 & Ho).
  rewrite bind_M, E1, bind_M, E2, bind_M.
  pose proof (activate_upstreams_writes ps w3) as Ha. pose proof (activated w3 ps) as Hok.
  destruct (activate_upstreams seconds tries ps w3) as [[[]|e] w4] eqn:Eact; cbn [snd] in Ha;
    rewrite (attempt_eq _ _ _ _ Eact).
  - rewrite bind_M. destruct (backend_snapshots_run w4) as (states & w5 & Eb & H5). rewrite Eb.
    pose proof (writes_bind _ _ _ _ show_servers_writes (λ out, writes_ret _ _ _) w4 : frame _ _ w4 (backend_snapshots w4).2) as H45.
    rewrite Eb in H45. cbn [snd] in H45.
    do 4 eexists. split; [reflexivity|]. split.
    + intros p Hp. destruct (outside_upstream p Hp) as (Hsp & Hinc & _). rewrite H5, (frame_files _ _ _ _ Ha), Ho, Hf by done. done.
    + split; [done|]. split; [done|]. split; [eapply answered_mono; [exact H45|by apply Hok]|].
      exists ps. split; [done|]. split; [done|].
      rewrite H5, !(frame_files _ _ _ _ Ha) by (apply live_not_include; auto). done.
  - match goal with |- context [roll_back_upstreams ts e ?backups l w4] =>
      destruct (roll_back_run e backups l w4) as (rows' & status & e' & w' & -> & Hst & w5 & w6 & bs & H5 & Hrun & H6)
    end.
    apply (restore_both_run b1 b2 w1 w3) in Hrun as (Hr1 & Hr2 & Hr); [|done..|].
    2:{ intros p Hp. by rewrite H5, (frame_files _ _ _ _ Ha). }
    do 4 eexists. split; [reflexivity|]. split.
    + intros p Hp. destruct (outside_upstream p Hp) as (Hsp & Hinc & Hp1 & Hp2).
      by rewrite H6, Hr, H5, (frame_files _ _ _ _ Ha), Ho, Hf by done.
    + split; [done|]. rewrite !H6, Hr1, Hr2, !Hf by done. done.
Qed.

Lemma deploy_upstreams_run us w :
  let l := init_resolvers ts (default "" (w_files w !! NAMED_OPTIONS_CONF)) (us_rows us) in
  let rows := List.filter ur_enabled (ordered l) in
  ∃ l' d out w', deploy_upstreams ts seconds stage tries us w = (Ok (mkUpstreams l' (us_deps us ++ [d]), out), w')
    ∧ ud_id d = fresh_id (ud_id <$> us_deps us)
    ∧ (∀ p, ¬ upstream_paths p → w_files w' !! p = w_files w !! p)
    ∧ rows_outcome (ud_id d) rows (ud_status d) out w w'
    ∧ (rows = [] → w' = w).
Proof.
  cbv zeta. unfold deploy_upstreams. rewrite bind_M. cbn [get_file].
  generalize (init_resolvers ts (default "" (w_files w !! NAMED_OPTIONS_CONF)) (us_rows us)). intros l.
  destruct (List.filter ur_enabled (ordered l)) as [|r rows].
  { do 4 eexists. split; [reflexivity|]. by split. }
  destruct (deploy_rows_run (fresh_id (ud_id <$> us_deps us)) l (r :: rows) w) as (l' & status & out & w1 & E & Hf & Hout).
  rewrite bind_M, E, bind_M. pose proof (writes_rmtree (λ p, starts_with stage p = true) any_command stage (λ p Hp, Hp) w1) as Hrm.
  destruct (rmtree stage w1) as [r1 w2] eqn:Erm. injection Erm as <- Ew2. cbn [snd] in Hrm.
  do 4 eexists. split; [reflexivity|]. cbn [ud_id ud_status fst snd]. split; [done|].
  assert (∀ p, starts_with stage p = false → w_files w2 !! p = w_files w1 !! p) as H21.
  { intros p Hp. apply (frame_files _ _ _ _ Hrm). congruence. }
  split; [intros p Hp; rewrite H21; [by apply Hf|by apply outside_upstream]|]. split; [|done].
  destruct out as [i|e]; cbn in Hout |- *.
  - destruct Hout as (-> & -> & Hans & ps & ? & ? & ? & ?). split; [done|]. split; [done|].
    split; [by eapply answered_mono|]. exists ps. rewrite !H21 by done. done.
  - destruct Hout as (? & ? & ?). rewrite !H21 by done. done.
Qed.

End deploy_proofs.

(** ** Quoting *)

(** Lua's short string literals, after the opening quote: the text and what follows the
    closing quote.  Of the escapes only those of the backslash and the quote are read. *)
Fixpoint lua_string (s : string) : option (string * string) :=
  match s with
  | "" => None
  | String c s =>
      if Ascii.eqb c "034" then Some ("", s)
      else if Ascii.eqb c "010" || Ascii.eqb c "013" then None
      else if Ascii.eqb c "\" then
        match s with
        | "" => None
        | String d s =>
            if Ascii.eqb d "\" || Ascii.eqb d "034"
            then '(t, rest) ← lua_string s; Some (String d t, rest) else None
        end
      else '(t, rest) ← lua_string s; Some (String c t, rest)
  end.

Definition escape_char (c : ascii) : string :=
  if Ascii.eqb c "\" then "\\" else if Ascii.eqb c "034" then "\" +:+ dquote else String c "".

Fixpoint escaped (s : string) : string :=
  match s with "" => "" | String c s => escape_char c +:+ escaped s end.

Lemma replace_one c new d s :
  replace_all (String c "") new (String d s)
  = (if Ascii.eqb c d then new else String d "") +:+ replace_all (String c "") new s.
Proof.
  unfold replace_all. cbn. change (starts_with (String c "") (String d s)) with (Ascii.eqb c d && true).
  rewrite andb_true_r. by destruct (Ascii.eqb c d).
Qed.

Lemma replace_one_app c new s t :
  replace_all (String c "") new (s +:+ t) = replace_all (String c "") new s +:+ replace_all (String c "") new t.
Proof. induction s as [|d s IH]; [done|]. by rewrite app_cons, !replace_one, IH, sapp_assoc. Qed.

Lemma lua_quote_escaped v : lua_quote v = dquote +:+ escaped v +:+ dquote.
Proof.
  unfold lua_quote. do 2 f_equal. induction v as [|c v IH]; [done|]. cbn [escaped].
  rewrite replace_one. unfold dquote at 1. rewrite replace_one_app. fold dquote. rewrite IH. f_equal.
  unfold escape_char. destruct (Ascii.eqb_spec "\" c) as [<-|Hb]; [reflexivity|].
  rewrite (proj2 (Ascii.eqb_neq c "\")) by done. unfold dquote at 1. rewrite replace_one, (Ascii.eqb_sym c).
  by destruct (Ascii.eqb "034" c).
Qed.

Lemma escaped_reads v rest :
  char_in "010" v = false → char_in "013" v = false →
  lua_string (escaped v +:+ dquote +:+ rest) = Some (v, rest).
Proof.
  induction v as [|c v IH]; [done|]. rewrite !char_in_cons.
  intros [Hn1 Hn2]%orb_false_iff [Hr1 Hr2]%orb_false_iff. specialize (IH Hn2 Hr2). cbn [escaped].
  rewrite sapp_assoc. revert IH. generalize (escaped v +:+ dquote +:+ rest). intros tail IH.
  unfold escape_char. destruct (Ascii.eqb_spec c "\") as [-> |Hb].
  - change ("\\" +:+ tail) with (String "\" (String "\" tail)). cbn. by rewrite IH.
  - destruct (Ascii.eqb_spec c "034") as [-> |Hq].
    { change (("\" +:+ dquote) +:+ tail) with (String "\" (String "034" tail)). cbn. by rewrite IH. }
    change (String c "" +:+ tail) with (String c tail). cbn [lua_string]. rewrite (proj2 (Ascii.eqb_neq c "034")), (proj2 (Ascii.eqb_neq c "\")) by done.
    rewrite (Ascii.eqb_sym c "010"), (Ascii.eqb_sym c "013"), Hn1, Hr1. cbn. by rewrite IH.
Qed.

(** Whatever a resolver's host, path or TLS name holds, short of a line break, the
    quoted text dnsdist loads is one string literal with that value: nothing of it is
    read as code. *)
Theorem lua_quote_reads_back v rest :
  char_in "010" v = false → char_in "013" v = false →
  ∃ body, lua_quote v +:+ rest = String "034" body ∧ lua_string body = Some (v, rest).
Proof.
  intros Hn Hr. exists (escaped v +:+ dquote +:+ rest). split; [|by apply escaped_reads].
  rewrite lua_quote_escaped, !sapp_assoc. done.
Qed.

Lemma lua_quote_reads_back_witness :
  let v := "dns.example\" +:+ dquote +:+ "}) os.execute(" +:+ dquote +:+ "id" +:+ dquote in
  ∃ body, lua_quote v +:+ ", tls" = String "034" body ∧ lua_string body = Some (v, ", tls").
Proof. intros v. apply (lua_quote_reads_back v ", tls"); vm_compute; reflexivity. Defined.
