(* ===== verification/PolicyCheck.v ===== *)
(** * Checking a deployed policy

    The checks of [app/alderpointdns_compiler.py] after a deployment: what [dig]
    answers, the check of the allow rules against the compiled zone, and the new
    serial a restored zone gets. *)

From S2P Require Import Prelude PyStr StrLemmas IpAddr DomainName World RegexGuard RuleParser RuleStore RuleCompile.
From S2P Require Import RuleEval RuleWalk RpzFile Url.

(** ** Lookups *)

Definition dig_command (domain rtype : string) : list string :=
  ["dig"; "@127.0.0.1"; "-p"; "5353"; domain; rtype; "+time=3"; "+tries=1"].

(** app/alderpointdns_compiler.py:1333-1334 dig *)
Definition dig (domain : string) : M (Z * string) := run (dig_command domain "A") false.

(** A record of type A in the output. *)
Definition a_record : string := tab +:+ "A" +:+ tab.

(** app/alderpointdns_compiler.py:1337-1342 is_blocked *)
Definition is_blocked (domain : string) : M bool :=
  r ← dig domain;
  mret ((r.1 =? 0)%Z
        && (contains "status: NXDOMAIN" r.2
            || (contains "status: NOERROR" r.2 && contains "ANSWER: 0" r.2 && negb (contains a_record r.2)))).

(** app/alderpointdns_compiler.py:1345-1347 resolves *)
Definition resolves (domain : string) : M bool :=
  r ← dig domain;
  mret ((r.1 =? 0)%Z && contains "status: NOERROR" r.2 && contains a_record r.2).

(** app/alderpointdns_compiler.py:1350-1352 resolves_to *)
Definition resolves_to (domain rtype address : string) : M bool :=
  r ← run (dig_command domain rtype) false;
  mret ((r.1 =? 0)%Z && contains "status: NOERROR" r.2 && contains address r.2).

(** app/alderpointdns_compiler.py:1355-1392 DNSResult *)
Record DNSResult := mkDNSResult {
  dr_domain : string; dr_status : option string; dr_answer_count : Z;
  dr_a : list string; dr_aaaa : list string; dr_cname : list string;
  dr_timed_out : bool; dr_transport_ok : bool }.

Definition resolved (r : DNSResult) : bool :=
  negb (bool_decide (dr_a r ++ dr_aaaa r ++ dr_cname r = [])).
Definition is_nodata (r : DNSResult) : bool :=
  bool_decide (dr_status r = Some "NOERROR") && (dr_answer_count r =? 0)%Z.
Definition usable (r : DNSResult) : bool := dr_transport_ok r && negb (dr_timed_out r).

Definition word_char (c : ascii) : bool := is_alnum c || Ascii.eqb "_" c.

(** [re.search(label \s* ([class]+), text)]: the first label that a nonempty run of the
    class follows. *)
Fixpoint search_field (label : string) (p : ascii → bool) (text : string) : option string :=
  let value := take_while p (lstrip_by is_space (sdrop (slen label) text)) in
  if starts_with label text && negb (String.eqb value "") then Some value
  else match text with "" => None | String _ text => search_field label p text end.

(** The type and the value of a line of the answer section. *)
Definition answer_line (line : string) : option (string * string) :=
  match words line with
  | [owner; ttl; _; rtype; value] =>
      if match shead line with Some c => negb (is_space c) | None => false end
         && ends_with "." owner && (2 <=? slen owner) && sforall is_09 ttl
         && bool_decide (rtype ∈ ["A"; "AAAA"; "CNAME"])
      then Some (rtype, value) else None
  | _ => None
  end.

Fixpoint answer_section (inside : bool) (lines : list string) : list (string * string) :=
  match lines with
  | [] => []
  | line :: lines =>
      if starts_with ";; ANSWER SECTION" line then answer_section true lines
      else if inside && (String.eqb (strip line) "" || starts_with ";;" line) then answer_section false lines
      else if negb inside then answer_section false lines
      else match answer_line line with
           | Some r => r :: answer_section true lines
           | None => answer_section true lines
           end
  end.

Definition of_type (t : string) (l : list (string * string)) : list string :=
  omap (λ r, if String.eqb r.1 t then Some r.2 else None) l.

(** app/alderpointdns_compiler.py:1398-1434 classify_dns *)
Definition classify_dns (domain rtype : string) : M DNSResult :=
  r ← run (dig_command domain rtype) false;
  let '(code, out) := r in
  if negb (code =? 0)%Z then
    let timed_out := contains "timed out" (lower out) || contains "no servers could be reached" (lower out) in
    mret (mkDNSResult domain None 0 [] [] [] timed_out (negb timed_out))
  else
    let answers := answer_section false (splitlines out) in
    mret (mkDNSResult domain (search_field "status:" word_char out)
            (match search_field "ANSWER:" is_09 out with Some n => num_value 10 n | None => 0%Z end)
            (of_type "A" answers) (of_type "AAAA" answers) (of_type "CNAME" answers) false true).

(** app/alderpointdns_compiler.py:1504-1510 wait_until

    [polls] is the number of polls before the deadline. *)
Fixpoint wait_until (polls : nat) (predicate : M bool) : M bool :=
  match polls with
  | O => predicate
  | S polls => ok ← predicate; if (ok : bool) then mret true else wait_until polls predicate
  end.

(** ** Allow rules *)

(** app/alderpointdns_compiler.py:1437-1441 AllowValidationResult *)
Record AllowValidationResult := mkAllowResult { av_ok : bool; av_tested : option string; av_message : string }.

(** app/alderpointdns_compiler.py:1444-1458 _custom_allow_represented *)
Definition custom_allow_represented (domain rpz_text : string) (custom : ActiveRuleSet) : bool :=
  match allows custom !! domain with
  | None => true
  | Some allow =>
      let name := rpz_name domain in
      if (ne_exact allow || ne_subdomains allow) && negb (contains (name +:+ " CNAME rpz-passthru.") rpz_text)
      then false
      else negb (ne_subdomains allow && negb (contains ("*." +:+ name +:+ " CNAME rpz-passthru.") rpz_text))
  end.

Definition still_blocked_message (domain : string) : string :=
  "post-deploy allow-policy check failed: " +:+ domain +:+ " is allow-listed but still present in the active block set".
Definition missing_passthru_message (domain : string) : string :=
  "post-deploy allow-policy check failed: custom allow rule for " +:+ domain
  +:+ " is missing its rpz-passthru representation in the compiled policy".

(** The first allowed domain that contradicts the compiled policy. *)
Fixpoint allow_mismatch (domains : list string) (active_blocks : gset string) (custom : ActiveRuleSet)
    (rpz_text : string) : option (string * string) :=
  match domains with
  | [] => None
  | domain :: domains =>
      if decide (domain ∈ active_blocks) then Some (domain, still_blocked_message domain)
      else if negb (custom_allow_represented domain rpz_text custom)
      then Some (domain, missing_passthru_message domain)
      else allow_mismatch domains active_blocks custom rpz_text
  end.

(** The first domain that answers with data. *)
Fixpoint first_resolving (domains : list string) : M (option string) :=
  match domains with
  | [] => mret None
  | domain :: domains =>
      r ← classify_dns domain "A";
      if usable r && resolved r then mret (Some domain) else first_resolving domains
  end.

(** app/alderpointdns_compiler.py:1461-1501 validate_allow_domains *)
Definition validate_allow_domains (allowed_domains active_blocks : gset string) (custom : ActiveRuleSet)
    (rpz_text : string) (max_live_checks : nat) : M AllowValidationResult :=
  let sorted := sorted_set allowed_domains in
  match allow_mismatch sorted active_blocks custom rpz_text with
  | Some (domain, message) => mret (mkAllowResult false (Some domain) message)
  | None =>
      tested ← first_resolving (take max_live_checks sorted);
      mret (match tested with
            | Some domain => mkAllowResult true (Some domain)
                ("allow-domain policy verified; " +:+ domain +:+ " resolves normally")
            | None => mkAllowResult true None
                "allow-domain policy verified structurally; no live allow-domain candidate could be confirmed resolving (non-fatal)"
            end)
  end.

(** ** The serial *)

(** Text after [token] and at least one space. *)
Definition eat_token (token : string) (s : string) : option string :=
  if starts_with token s then
    let t := sdrop (slen token) s in
    let u := lstrip_by is_space t in
    if String.eqb t u then None else Some u
  else None.

Fixpoint eat_tokens (tokens : list string) (s : string) : option string :=
  match tokens with
  | [] => Some s
  | token :: tokens => t ← eat_token token s; eat_tokens tokens t
  end.

(** Text after at least one space and [token]. *)
Definition eat_spaced (s token : string) : option string :=
  let u := lstrip_by is_space s in
  if String.eqb s u || negb (starts_with token u) then None else Some (sdrop (slen token) u).

(** The pattern of [refresh_rpz_serial] at the start of [s]: what precedes the serial and
    what follows it. *)
Definition soa_match (s : string) : option (string * string) :=
  t ← eat_tokens ["@"; "IN"; "SOA"; "localhost."; "hostmaster.localhost."] s;
  let digits := take_while is_09 t in
  let rest := sdrop (slen digits) t in
  if String.eqb digits "" then None
  else _ ← fold_left (λ o token, o ← o; eat_spaced o token) ["1h"; "15m"; "30d"; "2h"] (Some rest);
       Some (stake (slen s - slen t) s, rest).

(** app/alderpointdns_compiler.py:1093-1100 refresh_rpz_serial *)
Fixpoint refresh_rpz_serial (serial rpz_text : string) : string :=
  match soa_match rpz_text with
  | Some (before, after) => before +:+ serial +:+ after
  | None => match rpz_text with "" => "" | String c rpz_text => String c (refresh_rpz_serial serial rpz_text) end
  end.

(** ** The allow check accepts what is compiled *)

Lemma contains_trans p q s : contains p q = true → contains q s = true → contains p s = true.
Proof.
  rewrite !contains_spec. intros (u & v & ->) (u' & v' & ->). exists (u' +:+ u), (v +:+ v'). by rewrite !sapp_assoc.
Qed.

Lemma contains_join sep l w : w ∈ l → contains w (join sep l) = true.
Proof.
  rewrite contains_spec. induction l as [|x l IH]; [by intros ?%elem_of_nil|]. destruct l as [|y l].
  - intros ->%list_elem_of_singleton. exists "", "". by rewrite sapp_nil_r.
  - rewrite join_cons by done. intros [->|Hw]%elem_of_cons; [by exists "", (sep +:+ join sep (y :: l))|].
    destruct (IH Hw) as (u & v & ->). exists (x +:+ sep +:+ u), v. by rewrite !sapp_assoc.
Qed.

(** A record of the zone is a text of the file. *)
Lemma record_in_file serial domains custom x y :
  (x, y) ∈ zone_records domains custom → contains (x +:+ " " +:+ y) (render_rpz serial domains custom) = true.
Proof.
  intros Hin. unfold render_rpz. eapply contains_trans.
  - apply (contains_join nl), elem_of_app. right. apply (list_elem_of_fmap_2 render_record) in Hin. exact Hin.
  - apply contains_spec. by exists "", nl.
Qed.

Section allow_check.
Context `{Platform} (ts : string) (db : rules_db) (Hdb : db_ok db).
Abbreviation custom := (collect_active ts db).

Lemma allow_rows n al : allows custom !! n = Some al →
  valid_domain n = true
  ∧ match rewrites custom !! n with
    | Some rw => rw_subdomains rw = false ∧ ne_subdomains al = true
    | None => True
    end.
Proof.
  rewrite (view_allows ts db n), (view_rewrites ts db n). intros Hal.
  split; [by eapply (allow_keys_valid ts db Hdb)|]. unfold final_allow in Hal. revert Hal.
  generalize (resolved_block (rewrite_of (rows_at ts db RtRewrite n)) (entry_of (rows_at ts db RtAllow n))
    (entry_of (rows_at ts db RtBlock n))).1. intros o.
  destruct (rewrite_of _) as [rw|]; [|done]. cbn [resolved_allow]. destruct o as [e|]; [|done].
  destruct (rw_subdomains rw); [done|]. destruct (ne_subdomains e) eqn:E; [|done]. intros [= <-]. by destruct e.
Qed.

(** The wildcard of a name is free of rewrites unless the name's own rewrite has
    subdomains. *)
Lemma wild_free n : (∀ rw, rewrites custom !! n = Some rw → rw_subdomains rw = false) →
  ¬ owned rewrite_owner (rewrites custom) (wild n).
Proof.
  intros Hn (k & e & Hk & [Ho|[Hs Ho]]).
  - rewrite (view_rewrites ts db k) in Hk. assert (valid_domain k = true) as Hv.
    { apply (at_valid ts db Hdb RtRewrite); [auto|]. intros E. by rewrite E in Hk. }
    by destruct (valid_not_wild k n Hv).
  - apply wild_inj in Ho as <-. specialize (Hn e Hk). congruence.
Qed.

Lemma allow_passthru n al :
  allows custom !! n = Some al → ne_subdomains al = true → (wild n, passthru) ∈ (rpz_records custom).1.
Proof.
  intros Hal Hs. destruct (allow_rows n al Hal) as [_ Hrw].
  apply rpz_records_spec. right. left. split; [|split; [done|]].
  - apply wild_free. intros rw Hr. rewrite Hr in Hrw. apply Hrw.
  - exists n, al. split; [done|]. by right.
Qed.

Lemma allow_represented serial domains n :
  (∀ d, d ∈ domains → valid_domain d = true) →
  custom_allow_represented n (render_rpz serial domains (Some custom)) custom = true.
Proof.
  intros Hdom. unfold custom_allow_represented. destruct (allows custom !! n) as [al|] eqn:Hal; [|done].
  destruct (allow_rows n al Hal) as [Hv Hrw]. rewrite (rpz_name_valid n Hv).
  assert (∀ x, (x, passthru) ∈ (rpz_records custom).1 →
    contains (x +:+ " CNAME rpz-passthru.") (render_rpz serial domains (Some custom)) = true) as Hfile.
  { intros x Hx. apply (record_in_file serial domains (Some custom) x passthru), zone_records_spec; auto. }
  assert (ne_subdomains al = true → contains ("*." +:+ n +:+ " CNAME rpz-passthru.")
    (render_rpz serial domains (Some custom)) = true) as Hwild.
  { intros Hs. rewrite <-sapp_assoc. apply (Hfile (wild n)). by eapply allow_passthru. }
  assert (ne_exact al || ne_subdomains al = true → contains (n +:+ " CNAME rpz-passthru.")
    (render_rpz serial domains (Some custom)) = true) as Hname.
  { intros Ho. destruct (ne_subdomains al) eqn:Es.
    - eapply contains_trans; [|by apply Hwild]. apply contains_spec. exists "*.", "". by rewrite sapp_nil_r.
    - apply Hfile, rpz_records_spec. right. left. rewrite orb_false_r in Ho. split; [|split; [done|]].
      + intros (k & e & Hk & [->|[_ Hkw]]); [|by destruct (valid_not_wild n k Hv)].
        rewrite Hk in Hrw. by destruct Hrw.
      + exists n, al. split; [done|]. left. auto. }
  destruct (ne_exact al || ne_subdomains al) eqn:Eo; cbn [andb].
  - rewrite Hname by done. cbn [negb]. destruct (ne_subdomains al); [|done]. by rewrite Hwild.
  - apply orb_false_iff in Eo as [_ ->]. done.
Qed.

Lemma no_mismatch (active : gset string) text l :
  (∀ d, d ∈ l → d ∉ active) → (∀ d, d ∈ l → custom_allow_represented d text custom = true) →
  allow_mismatch l active custom text = None.
Proof.
  induction l as [|d l IH]; [done|]. intros Ha Hr. cbn [allow_mismatch].
  rewrite decide_False by (apply Ha; left). rewrite Hr by left. cbn [negb].
  apply IH; intros; [apply Ha|apply Hr]; by right.
Qed.
End allow_check.

(** C21: The check of the allow rules after a deployment never rejects a policy compiled
    from the tables: whatever the lists block and allow, whatever custom rules exist, no
    allowed domain is among the active blocks and every custom allow has its record in
    the zone file; only a command that cannot be started stops it. *)
Theorem compiled_policy_passes_allow_check `{Platform} ts db (blocks listed : gset string) serial n w :
  db_ok db → (∀ d, d ∈ blocks → valid_domain d = true) →
  let custom := collect_active ts db in
  let active := subtract_allowed (blocks ∖ listed) custom in
  match validate_allow_domains (listed ∪ dom (allows custom)) active custom
          (render_rpz serial active (Some custom)) n w with
  | (Ok r, _) => av_ok r = true
  | (Raise e, _) => ∃ k, w_answers w k = NotStarted e
  end.
Proof.
  intros Hdb Hv. cbv zeta. unfold validate_allow_domains. rewrite no_mismatch.
  - rewrite bind_M. generalize (take n (sorted_set (listed ∪ dom (allows (collect_active ts db))))) w. clear.
    induction l as [|d l IH]; intros w; [done|]. cbn [first_resolving]. rewrite bind_M. unfold classify_dns.
    rewrite bind_M. unfold run. destruct (w_answers w (length (w_log w))) as [code out|e] eqn:Ea; [|by eexists].
    rewrite andb_false_l. destruct (negb _); cbn [mret M_ret];
      (destruct (usable _ && resolved _); [done|]); specialize (IH (w{{w_log ::= (λ l, l ++ [dig_command d "A"])}}));
      destruct (first_resolving l _) as [[t|e] w'] in *; done.
  - intros d Hd%elem_of_sorted_set Hact. apply subtract_allowed_spec in Hact as (Hb & Hn & _).
    apply elem_of_difference in Hb as [_ Hl]. apply elem_of_union in Hd as [?|Hd]; [done|].
    apply elem_of_dom in Hd as [x Hx]. congruence.
  - intros d _. apply (allow_represented ts db Hdb). intros d' (Hd' & _)%subtract_allowed_spec.
    apply Hv. by apply elem_of_difference in Hd' as [? _].
Qed.

Lemma compiled_policy_passes_allow_check_witness :
  let _ := sample_platform in
  let custom := collect_active "t" (table_of ["@@||shop.example^"; "||ads.example^"]) in
  let active := subtract_allowed ({["ads.example"; "www.shop.example"; "cdn.example"]} ∖ {["cdn.example"]}) custom in
  match validate_allow_domains ({["cdn.example"]} ∪ dom (allows custom)) active custom
          (render_rpz "1700000000" active (Some custom)) 5 (mkWorld ∅ [] (λ _, Exited 9 "timed out")) with
  | (Ok r, w') => av_ok r = true ∧ length (w_log w') = 2
  | (Raise _, _) => False
  end.
Proof.
  intros P. cbv zeta.
  pose proof (@compiled_policy_passes_allow_check P "t" (table_of ["@@||shop.example^"; "||ads.example^"])
    {["ads.example"; "www.shop.example"; "cdn.example"]} {["cdn.example"]} "1700000000" 5
    (mkWorld ∅ [] (λ _, Exited 9 "timed out"))) as Hc. cbv zeta in Hc.
  destruct (validate_allow_domains _ _ _ _ _ _) as [[r|e] w'] eqn:E; [|vm_compute in E; discriminate].
  split.
  - apply Hc; [apply table_of_ok|]. intros d Hd. set_unfold in Hd. by destruct Hd as [[-> | ->] | ->].
  - apply (f_equal snd) in E. cbn [snd] in E. subst w'. vm_compute. reflexivity.
Defined.

(** ** A restored zone *)

Lemma eat_token_app token t : head_not is_space t = true → eat_token token (token +:+ " " +:+ t) = Some t.
Proof.
  intros Ht. unfold eat_token. rewrite starts_with_app, sdrop_app_length.
  change (lstrip_by is_space (" " +:+ t)) with (lstrip_by is_space t). rewrite (lstrip_id is_space t Ht).
  destruct (String.eqb_spec (" " +:+ t) t) as [Heq|_]; [|done].
  apply (f_equal slen) in Heq. rewrite slen_app in Heq. cbn in Heq. lia.
Qed.

Lemma digit_not_space c : is_09 c = true → is_space c = false.
Proof.
  assert (∀ c, negb (is_09 c) || negb (is_space c) = true) as Hall by (apply char_forall; vm_compute; reflexivity).
  intros Hc. specialize (Hall c). rewrite Hc in Hall. by apply negb_true_iff in Hall.
Qed.

Definition soa_head : string := "@ IN SOA localhost. hostmaster.localhost. ".
Definition soa_tail : string := " 1h 15m 30d 2h".

Lemma soa_match_line serial rest :
  sforall is_09 serial = true → serial ≠ "" →
  soa_match (soa_head +:+ serial +:+ soa_tail +:+ rest) = Some (soa_head, soa_tail +:+ rest).
Proof.
  intros Hs Hne. unfold soa_match.
  assert (head_not is_space (serial +:+ soa_tail +:+ rest) = true) as Hh.
  { destruct serial as [|c serial]; [done|]. rewrite app_cons. cbn in Hs |- *.
    apply andb_true_iff in Hs as [Hc _]. by rewrite digit_not_space. }
  assert (eat_tokens ["@"; "IN"; "SOA"; "localhost."; "hostmaster.localhost."]
    (soa_head +:+ serial +:+ soa_tail +:+ rest) = Some (serial +:+ soa_tail +:+ rest)) as ->.
  { revert Hh. generalize (serial +:+ soa_tail +:+ rest). intros t Ht. cbn [eat_tokens].
    change (soa_head +:+ t) with ("@" +:+ " " +:+ "IN" +:+ " " +:+ "SOA" +:+ " " +:+ "localhost." +:+ " "
      +:+ "hostmaster.localhost." +:+ " " +:+ t).
    do 5 (rewrite eat_token_app by done; cbn [mbind option_bind]). done. }
  cbn [mbind option_bind]. rewrite take_while_app by done. rewrite sdrop_app_length.
  rewrite (proj2 (String.eqb_neq serial "")) by done.
  assert (fold_left (λ o token, o ← o; eat_spaced o token) ["1h"; "15m"; "30d"; "2h"] (Some (soa_tail +:+ rest)) = Some rest) as ->.
  { by destruct rest. }
  cbn [mbind option_bind]. do 2 f_equal. rewrite slen_app.
  replace (slen soa_head + slen (serial +:+ soa_tail +:+ rest) - slen (serial +:+ soa_tail +:+ rest)) with (slen soa_head) by lia.
  apply stake_app_length.
Qed.

(** Giving a compiled zone file a new serial gives the file that would be compiled with
    that serial: a restored policy has the same records under a serial that BIND takes
    as newer. *)
Theorem refreshed_zone_same_records serial serial' domains custom :
  sforall is_09 serial = true → serial ≠ "" →
  refresh_rpz_serial serial' (render_rpz serial domains custom) = render_rpz serial' domains custom.
Proof.
  intros Hs Hne. unfold render_rpz. generalize (render_record <$> zone_records domains custom). intros records.
  assert (∀ s, ∃ rest, join nl (["$TTL 2h"; "@ IN SOA localhost. hostmaster.localhost. " +:+ s +:+ " 1h 15m 30d 2h";
      "@ IN NS localhost."; ""] ++ records) +:+ nl = "$TTL 2h" +:+ nl +:+ soa_head +:+ s +:+ soa_tail +:+ rest
      ∧ rest = nl +:+ join nl ("@ IN NS localhost." :: "" :: records) +:+ nl) as Htext.
  { intros s. eexists. split; [|reflexivity]. cbn [app]. rewrite !(join_cons nl) by done.
    rewrite !sapp_assoc. done. }
  destruct (Htext serial) as (rest & -> & Hr1). destruct (Htext serial') as (rest' & -> & Hr2).
  assert (rest' = rest) as -> by congruence. clear Htext Hr1 Hr2.
  assert (∀ t, refresh_rpz_serial serial' ("$TTL 2h" +:+ nl +:+ t) = "$TTL 2h" +:+ nl +:+ refresh_rpz_serial serial' t) as ->
    by done.
  do 2 f_equal. pose proof (soa_match_line serial rest Hs Hne) as Hm.
  destruct (soa_head +:+ serial +:+ soa_tail +:+ rest) as [|c t] eqn:E; [done|].
  cbn [refresh_rpz_serial]. by rewrite Hm.
Qed.

Lemma refreshed_zone_same_records_witness :
  refresh_rpz_serial "1800000000" (render_rpz "1700000000" {["ads.example"]} None)
  = render_rpz "1800000000" {["ads.example"]} None.
Proof. apply (refreshed_zone_same_records "1700000000"); [vm_compute; reflexivity|done]. Defined.
