(* ===== verification/Clients.v ===== *)
(** * Clients and access rules

    The tables of [app/clients.py]: named clients, the identifiers they own, the
    access rules and the default policy, the migration of the aliases of the local
    DNS pages, and what every operation on them keeps. *)

From S2P Require Import Prelude PyStr StrLemmas IpAddr PyJson PyRegex DomainName LocalDns ClientId.

(** ** Data *)

(** app/clients.py:74-74 IdentifierKind *)
Inductive ident_kind := KIPv4 | KIPv4Cidr | KIPv6 | KIPv6Cidr | KClientID.
Inductive rule_kind := RKIdent (k : ident_kind) | RKClient.
(** app/clients.py:76-76 Action *)
Inductive action := Allow | Deny.

#[export] Instance ident_kind_eq_dec : EqDecision ident_kind.
Proof. solve_decision. Defined.
#[export] Instance rule_kind_eq_dec : EqDecision rule_kind.
Proof. solve_decision. Defined.
#[export] Instance action_eq_dec : EqDecision action.
Proof. solve_decision. Defined.

Definition kind_name (k : ident_kind) : string :=
  match k with
  | KIPv4 => "ipv4" | KIPv4Cidr => "ipv4_cidr" | KIPv6 => "ipv6" | KIPv6Cidr => "ipv6_cidr"
  | KClientID => "clientid"
  end.
Definition rule_kind_name (k : rule_kind) : string :=
  match k with RKIdent k => kind_name k | RKClient => "client" end.
Definition action_name (a : action) : string := match a with Allow => "allow" | Deny => "deny" end.
Definition is_ip_kind (k : ident_kind) : bool := negb (bool_decide (k = KClientID)).

Record client := mkClient {
  c_id : Z; c_name : string; c_description : string; c_enabled : bool;
  c_created : string; c_updated : string }.

Record identifier := mkIdent {
  i_id : Z; i_client : Z; i_kind : ident_kind; i_value : string; i_created : string }.

Record access_rule := mkRule {
  r_id : Z; r_action : action; r_kind : rule_kind; r_value : option string;
  r_client : option Z; r_created : string }.

(** app/clients.py:113-161 init_db

    The tables; [d_policy] is the settings row if it was made, [d_aliases] the table
    of the local DNS pages if it exists. *)
Record cdb := mkCdb {
  d_clients : list client;
  d_identifiers : list identifier;
  d_policy : option string;
  d_rules : list access_rule;
  d_aliases : option (list alias);
}.

(** ** Identifiers *)

(** app/clients.py:208-227 normalize_identifier

    The message of the address parser is left out of the error. *)
Definition normalize_identifier (raw : string) : res (ident_kind * string) :=
  let text := strip raw in
  if String.eqb text "" then Raise (ClientsError "identifier is required")
  else if (slen text <=? CLIENTID_MAX_HEX_LEN) && sforall is_hex text
       && negb (char_in "/" text) && negb (char_in "." text) && negb (char_in ":" text)
  then c ← validate_clientid text; Ok (KClientID, c)
  else
    let invalid := ClientsError ("'" +:+ raw +:+ "' is not a valid IPv4/IPv6 address, CIDR, or ClientID") in
    if char_in "/" text then
      match ip_network text with
      | Some net => Ok (if is_v4 (net_addr net) then KIPv4Cidr else KIPv6Cidr, str_network net)
      | None => Raise invalid
      end
    else
      match ip_address text with
      | Some a => Ok (if is_v4 a then KIPv4 else KIPv6, str_ip a)
      | None => Raise invalid
      end.

(** app/clients.py:230-233 identifier_network *)
Definition identifier_network (k : ident_kind) (value : string) : option network :=
  if is_ip_kind k then ip_network value else None.

(** app/clients.py:236-242 _legacy_alias_cidr *)
Definition legacy_alias_cidr (k : ident_kind) (value : string) : option string :=
  if is_ip_kind k then str_network <$> ip_network value else None.

(** app/clients.py:245-266 _delete_legacy_aliases_for_identifiers

    Deleting an alias twice deletes nothing more, so the set of the aliases already
    seen shows only in the count, which no caller uses. *)
Definition delete_legacy_aliases (identifiers : list (ident_kind * string)) (db : cdb) : cdb :=
  let cidrs := omap (λ '(k, v), legacy_alias_cidr k v) identifiers in
  db{{d_aliases ::= fmap (List.filter (λ a, negb (bool_decide (al_cidr a ∈ cidrs))))}}.

Definition is_identifier (k : ident_kind) (v : string) (i : identifier) : bool :=
  bool_decide (i_kind i = k ∧ i_value i = v).

(** [a or b] *)
Definition str_or (a b : string) : string := if String.eqb a "" then b else a.

Definition new_client (id : Z) (name description : string) (enabled : bool) (created updated : string) (db : cdb) : cdb :=
  db{{d_clients ::= (λ l, l ++ [mkClient id name description enabled created updated])}}.
Definition new_identifier (client : Z) (k : ident_kind) (v ts : string) (db : cdb) : cdb :=
  db{{d_identifiers ::= (λ l, l ++ [mkIdent (fresh_id (i_id <$> l)) client k v ts])}}.

Definition migrate_alias (now : string) (db : cdb) (a : alias) : cdb :=
  match normalize_identifier (al_cidr a) with
  | Raise _ => db
  | Ok (k, v) =>
      if existsb (is_identifier k v) (d_identifiers db) then db
      else
        let ts_created := str_or (al_created a) now in
        let ts_updated := str_or (al_updated a) ts_created in
        let id := fresh_id (c_id <$> d_clients db) in
        new_identifier id k v ts_created
          (new_client id (str_or (al_name a) v) (al_description a) true ts_created ts_updated db)
  end.

(** app/clients.py:164-201 _migrate_client_aliases *)
Definition migrate_client_aliases (now : string) (db : cdb) : cdb :=
  match d_aliases db with
  | None => db
  | Some aliases => fold_left (migrate_alias now) aliases db
  end.

(** app/clients.py:151-161 init_db *)
Definition init_clients (now : string) (db : cdb) : cdb :=
  migrate_client_aliases now
    (db{{d_policy ::= (λ p : option string, match p with Some p => Some p | None => Some "allow" end)}}).

(** [with connect() as db: init_db(db); with db: ...]: an exception takes back what the
    inner block did. *)
Definition transaction {A} (now : string) (body : cdb → res (A * cdb)) (db : cdb) : res A * cdb :=
  let db0 := init_clients now db in
  match body db0 with
  | Ok (a, db1) => (Ok a, db1)
  | Raise e => (Raise e, db0)
  end.

(** ** Clients *)

Definition check_client (name description : string) : res () :=
  if String.eqb name "" then Raise (ClientsError "client name is required")
  else if 200 <? slen name then Raise (ClientsError "client name is too long (200 characters max)")
  else if 2000 <? slen description then Raise (ClientsError "description is too long (2000 characters max)")
  else Ok ().

(** app/clients.py:473-481 _insert_identifier *)
Definition insert_identifier (client : Z) (k : ident_kind) (v ts : string) (db : cdb) : res (Z * cdb) :=
  if existsb (is_identifier k v) (d_identifiers db)
  then Raise (ClientsError ("identifier '" +:+ v +:+ "' is already assigned to another client"))
  else Ok (fresh_id (i_id <$> d_identifiers db), new_identifier client k v ts db).

Fixpoint insert_identifiers (client : Z) (ids : list (ident_kind * string)) (ts : string) (db : cdb) : res cdb :=
  match ids with
  | [] => Ok db
  | (k, v) :: ids => r ← insert_identifier client k v ts db; insert_identifiers client ids ts r.2
  end.

Fixpoint normalize_all (raws : list string) : res (list (ident_kind * string)) :=
  match raws with
  | [] => Ok []
  | raw :: raws => i ← normalize_identifier raw; rest ← normalize_all raws; Ok (i :: rest)
  end.

(** app/clients.py:400-420 create_client *)
Definition create_client (now name description : string) (identifiers : list string) (enabled : bool) (db : cdb)
    : res Z * cdb :=
  let name := strip name in
  match (_ ← check_client name description; normalize_all identifiers) with
  | Raise e => (Raise e, db)
  | Ok normalized =>
      transaction now (λ db,
        let id := fresh_id (c_id <$> d_clients db) in
        db ← insert_identifiers id normalized now (new_client id name description enabled now now db);
        Ok (id, db)) db
  end.

(** [UPDATE clients SET ... WHERE id=?], raising when no row matched *)
Definition update_clients (id : Z) (f : client → client) (db : cdb) : res (() * cdb) :=
  if existsb (λ c, c_id c =? id)%Z (d_clients db)
  then Ok ((), db{{d_clients ::= fmap (λ c, if (c_id c =? id)%Z then f c else c)}})
  else Raise (ClientsError "client not found").

(** app/clients.py:423-440 update_client *)
Definition update_client (now : string) (id : Z) (name description : string) (enabled : bool) (db : cdb) : res () * cdb :=
  let name := strip name in
  match check_client name description with
  | Raise e => (Raise e, db)
  | Ok _ => transaction now (update_clients id (λ c, mkClient (c_id c) name description enabled (c_created c) now)) db
  end.

(** app/clients.py:443-451 set_client_enabled *)
Definition set_client_enabled (now : string) (id : Z) (enabled : bool) (db : cdb) : res () * cdb :=
  transaction now (update_clients id (λ c, mkClient (c_id c) (c_name c) (c_description c) enabled (c_created c) now)) db.

(** app/clients.py:454-470 delete_client *)
Definition delete_client (now : string) (id : Z) (db : cdb) : res () * cdb :=
  transaction now (λ db,
    let owned := List.filter (λ i, i_client i =? id)%Z (d_identifiers db) in
    let db := delete_legacy_aliases ((λ i, (i_kind i, i_value i)) <$> owned) db in
    let db := db{{d_rules ::= List.filter (λ r, negb (bool_decide (r_kind r = RKClient ∧ r_client r = Some id)))}} in
    let db := db{{d_identifiers ::= List.filter (λ i, negb (i_client i =? id)%Z)}} in
    if existsb (λ c, c_id c =? id)%Z (d_clients db)
    then Ok ((), db{{d_clients ::= List.filter (λ c, negb (c_id c =? id)%Z)}})
    else Raise (ClientsError "client not found")) db.

Definition touch_client (id : Z) (ts : string) (db : cdb) : cdb :=
  db{{d_clients ::= fmap (λ c, if (c_id c =? id)%Z
        then mkClient (c_id c) (c_name c) (c_description c) (c_enabled c) (c_created c) ts else c)}}.

(** app/clients.py:484-494 add_identifier *)
Definition add_identifier (now : string) (id : Z) (raw_value : string) (db : cdb) : res Z * cdb :=
  match normalize_identifier raw_value with
  | Raise e => (Raise e, db)
  | Ok (k, v) =>
      transaction now (λ db,
        if existsb (λ c, c_id c =? id)%Z (d_clients db)
        then r ← insert_identifier id k v now db; Ok (r.1, touch_client id now r.2)
        else Raise (ClientsError "client not found")) db
  end.

(** app/clients.py:497-506 remove_identifier *)
Definition remove_identifier (now : string) (identifier_id : Z) (db : cdb) : res () * cdb :=
  transaction now (λ db,
    match find_first (λ i, i_id i =? identifier_id)%Z (d_identifiers db) with
    | None => Raise (ClientsError "identifier not found")
    | Some row =>
        let db := delete_legacy_aliases [(i_kind row, i_value row)] db in
        let db := db{{d_identifiers ::= List.filter (λ i, negb (i_id i =? identifier_id)%Z)}} in
        Ok ((), touch_client (i_client row) now db)
    end) db.

(** ** Access rules *)

(** app/clients.py:525-531 set_default_policy *)
Definition set_default_policy (now policy : string) (db : cdb) : res () * cdb :=
  if bool_decide (policy ∈ ["allow"; "deny"])
  then transaction now (λ db, Ok ((), db{{d_policy ::= (λ p : option string, (λ _, policy) <$> p)}})) db
  else (Raise (AccessPolicyError "default policy must be 'allow' or 'deny'"), db).

(** app/clients.py:513-522 get_default_policy *)
Definition get_default_policy (now : string) (db : cdb) : string * cdb :=
  let db := init_clients now db in (default "allow" (d_policy db), db).

(** The value an access rule of this kind stores, and the kind it stores it under. *)
Definition rule_target (kind : string) (value : option string) (client : option Z) (db : cdb)
    : res (rule_kind * option string) :=
  if String.eqb kind "client" then
    match client with
    | None => Raise (AccessPolicyError "a persistent client must be selected for a 'client' rule")
    | Some id =>
        if (id =? 0)%Z then Raise (AccessPolicyError "a persistent client must be selected for a 'client' rule")
        else if existsb (λ c, c_id c =? id)%Z (d_clients db) then Ok (RKClient, None)
        else Raise (ClientsError "client not found")
    end
  else if String.eqb kind "clientid"
  then c ← validate_clientid (default "" value); Ok (RKIdent KClientID, Some c)
  else if bool_decide (kind ∈ ["ipv4"; "ipv4_cidr"; "ipv6"; "ipv6_cidr"])
  then r ← normalize_identifier (default "" value); Ok (RKIdent r.1, Some r.2)
  else Raise (AccessPolicyError ("unsupported rule kind '" +:+ kind +:+ "'")).

Definition same_rule (a : action) (k : rule_kind) (v : option string) (c : option Z) (r : access_rule) : bool :=
  bool_decide (r_action r = a ∧ r_kind r = k ∧ r_value r = v ∧ r_client r = c).

(** app/clients.py:552-583 add_access_rule *)
Definition add_access_rule (now : string) (act : string) (kind : string) (value : option string)
    (client : option Z) (db : cdb) : res Z * cdb :=
  match (if String.eqb act "allow" then Some Allow else if String.eqb act "deny" then Some Deny else None) with
  | None => (Raise (AccessPolicyError "action must be 'allow' or 'deny'"), db)
  | Some a =>
      transaction now (λ db,
        t ← rule_target kind value client db;
        let '(k, v) := t in
        let c := if decide (k = RKClient) then client else None in
        if existsb (same_rule a k v c) (d_rules db) then Raise (AccessPolicyError "this rule already exists")
        else
          let id := fresh_id (r_id <$> d_rules db) in
          Ok (id, db{{d_rules ::= (λ l, l ++ [mkRule id a k v c now])}})) db
  end.

(** app/clients.py:586-592 remove_access_rule *)
Definition remove_access_rule (now : string) (rule_id : Z) (db : cdb) : res () * cdb :=
  transaction now (λ db,
    if existsb (λ r, r_id r =? rule_id)%Z (d_rules db)
    then Ok ((), db{{d_rules ::= List.filter (λ r, negb (r_id r =? rule_id)%Z)}})
    else Raise (AccessPolicyError "rule not found")) db.

(** ** The invariant of the tables *)

(** What a stored identifier value looks like. *)
Definition stored_value (k : ident_kind) (v : string) : Prop :=
  match k with
  | KClientID => canonical_clientid v
  | KIPv4 => ∃ a, v = str_ip a ∧ is_v4 a = true
  | KIPv6 => ∃ a, v = str_ip a ∧ is_v4 a = false
  | KIPv4Cidr => ∃ net, v = str_network net ∧ is_v4 (net_addr net) = true
  | KIPv6Cidr => ∃ net, v = str_network net ∧ is_v4 (net_addr net) = false
  end.

Definition ident_key (i : identifier) : ident_kind * string := (i_kind i, i_value i).
Definition rule_key (r : access_rule) : action * rule_kind * option string * option Z :=
  (r_action r, r_kind r, r_value r, r_client r).
Definition client_ids (db : cdb) : list Z := c_id <$> d_clients db.

(** A rule refers to a client that exists or holds a canonical value. *)
Definition rule_ok (ids : list Z) (r : access_rule) : Prop :=
  match r_kind r with
  | RKClient => r_value r = None ∧ ∃ id, r_client r = Some id ∧ id ∈ ids
  | RKIdent k => r_client r = None ∧ ∃ v, r_value r = Some v ∧ stored_value k v
  end.

Record clients_ok (db : cdb) : Prop := {
  co_clients : NoDup (client_ids db);
  co_idents : NoDup (i_id <$> d_identifiers db);
  co_keys : NoDup (ident_key <$> d_identifiers db);
  co_owners : ∀ i, i ∈ d_identifiers db → i_client i ∈ client_ids db;
  co_values : ∀ i, i ∈ d_identifiers db → stored_value (i_kind i) (i_value i);
  co_rules : NoDup (r_id <$> d_rules db);
  co_rule_keys : NoDup (rule_key <$> d_rules db);
  co_rule_ok : ∀ r, r ∈ d_rules db → rule_ok (client_ids db) r;
}.

Lemma normalize_identifier_stored raw k v : normalize_identifier raw = Ok (k, v) → stored_value k v.
Proof.
  unfold normalize_identifier. destruct (String.eqb _ ""); [done|]. destruct (_ && _).
  { intros (c & Hc & [= <- <-])%res_bind_ok. apply validate_clientid_ok in Hc. apply Hc. }
  destruct (char_in "/" _).
  - destruct (ip_network _) as [net|]; [|done]. intros [= <- <-].
    destruct (is_v4 (net_addr net)) eqn:E; simpl; eauto.
  - destruct (ip_address _) as [a|]; [|done]. intros [= <- <-]. destruct (is_v4 a) eqn:E; simpl; eauto.
Qed.

Lemma rule_ok_mono ids ids' r : (∀ i, i ∈ ids → i ∈ ids') → rule_ok ids r → rule_ok ids' r.
Proof. intros Hi. unfold rule_ok. destruct (r_kind r); naive_solver. Qed.

(** Only the four tables matter, and of a client only its id. *)
Lemma clients_ok_ext db db' :
  client_ids db' = client_ids db → d_identifiers db' = d_identifiers db → d_rules db' = d_rules db →
  clients_ok db → clients_ok db'.
Proof. intros Hc Hi Hr [? ? ? ? ? ? ? ?]. split; rewrite ?Hc, ?Hi, ?Hr; auto. Qed.

Lemma new_client_ok name description enabled created updated db :
  clients_ok db →
  clients_ok (new_client (fresh_id (client_ids db)) name description enabled created updated db).
Proof.
  destruct db as [cs ids p rs als]. unfold new_client, client_ids.
  intros [Hc Hi Hk Ho Hv Hr Hrk Hrok]. split; cbn in *; try done.
  - by apply NoDup_fresh.
  - intros i ?%Ho. unfold client_ids. rewrite fmap_app. set_solver.
  - intros r ?%Hrok. eapply rule_ok_mono; [|done]. intros. unfold client_ids. rewrite fmap_app. set_solver.
Qed.

Lemma is_identifier_false k v l :
  existsb (is_identifier k v) l = false → ∀ i, i ∈ l → ident_key i ≠ (k, v).
Proof.
  intros H i Hi E. rewrite existsb_false in H. apply H in Hi. unfold is_identifier in Hi.
  apply bool_decide_eq_false in Hi. injection E as Ek Ev. by apply Hi.
Qed.

Lemma new_identifier_ok id k v ts db :
  clients_ok db → existsb (is_identifier k v) (d_identifiers db) = false → stored_value k v →
  id ∈ client_ids db → clients_ok (new_identifier id k v ts db).
Proof.
  destruct db as [cs ids p rs als]. unfold new_identifier.
  intros [Hc Hi Hk Ho Hv Hr Hrk Hrok] Hnew Hsv Hid. split; cbn in *; try done.
  - by apply NoDup_fresh.
  - apply NoDup_fmap_snoc; [done|]. by apply is_identifier_false.
  - intros i [?%Ho| ->]%elem_of_snoc; done.
  - intros i [?%Hv| ->]%elem_of_snoc; done.
Qed.

Lemma client_ids_new name description enabled created updated db id :
  id ∈ client_ids (new_client id name description enabled created updated db).
Proof. destruct db. unfold new_client, client_ids. cbn. rewrite fmap_app. set_solver. Qed.

Lemma migrate_alias_ok now db a : clients_ok db → clients_ok (migrate_alias now db a).
Proof.
  intros Hok. unfold migrate_alias. destruct (normalize_identifier _) as [[k v]|] eqn:En; [|done].
  apply normalize_identifier_stored in En. destruct (existsb _ _) eqn:Ee; [done|].
  apply new_identifier_ok; [by apply new_client_ok|by destruct db|done|apply client_ids_new].
Qed.

Lemma init_clients_ok now db : clients_ok db → clients_ok (init_clients now db).
Proof.
  intros Hok. unfold init_clients, migrate_client_aliases.
  assert (clients_ok (db{{d_policy ::= (λ p : option string, match p with Some p => Some p | None => Some "allow" end)}})) as Hok'.
  { by eapply clients_ok_ext; [..|exact Hok]; destruct db. }
  destruct (d_aliases _) as [als|]; [|done].
  revert Hok'. generalize (db{{d_policy ::= (λ p : option string, match p with Some p => Some p | None => Some "allow" end)}}).
  clear. induction als as [|a als IH]; intros db Hok; [done|]. cbn [fold_left]. apply IH, migrate_alias_ok, Hok.
Qed.

Lemma transaction_ok {A} now (body : cdb → res (A * cdb)) db :
  clients_ok db → (∀ db a db', clients_ok db → body db = Ok (a, db') → clients_ok db') →
  clients_ok (transaction now body db).2.
Proof.
  intros Hok Hbody. unfold transaction. apply (init_clients_ok now) in Hok.
  destruct (body _) as [[a db']|e] eqn:E; [|done]. by eapply Hbody.
Qed.

Lemma insert_identifiers_ok id ids ts db db' :
  Forall (λ i, stored_value i.1 i.2) ids → id ∈ client_ids db → clients_ok db →
  insert_identifiers id ids ts db = Ok db' → clients_ok db'.
Proof.
  revert db. induction ids as [|[k v] ids IH]; intros db Hids Hid Hok; cbn [insert_identifiers].
  { by intros <-%Ok_inj. }
  apply Forall_cons in Hids as [Hv Hids]. unfold insert_identifier.
  destruct (existsb _ _) eqn:Ee; [done|]. cbn. apply IH; [done|by destruct db|by apply new_identifier_ok].
Qed.

Lemma normalize_all_stored raws ids : normalize_all raws = Ok ids → Forall (λ i, stored_value i.1 i.2) ids.
Proof.
  revert ids. induction raws as [|raw raws IH]; intros ids; cbn [normalize_all].
  { intros <-%Ok_inj. constructor. }
  intros ([k v] & Hi & H)%res_bind_ok. apply res_bind_ok in H as (rest & Hr & H). apply Ok_inj in H as <-.
  constructor; [by eapply normalize_identifier_stored|auto].
Qed.

Lemma update_clients_ok id f db u db' :
  (∀ c, c_id (f c) = c_id c) → clients_ok db → update_clients id f db = Ok (u, db') → clients_ok db'.
Proof.
  intros Hf Hok. unfold update_clients. destruct (existsb _ _); [|done]. intros [_ <-]%Ok_pair_inj.
  eapply clients_ok_ext; [| | |exact Hok]; destruct db as [cs ids p rs als]; try done.
  unfold client_ids. cbn. rewrite <-list_fmap_compose. apply list_fmap_ext. intros _ c _. cbn. by case_match.
Qed.

Lemma touch_client_ok id ts db : clients_ok db → clients_ok (touch_client id ts db).
Proof.
  intros Hok. eapply clients_ok_ext; [| | |exact Hok]; destruct db as [cs ids p rs als]; try done.
  unfold touch_client, client_ids. cbn. rewrite <-list_fmap_compose. apply list_fmap_ext. intros _ c _. cbn. by case_match.
Qed.

Lemma legacy_ok ids db : clients_ok db → clients_ok (delete_legacy_aliases ids db).
Proof. intros Hok. eapply clients_ok_ext; [| | |exact Hok]; by destruct db. Qed.

Lemma delete_client_ok now id db : clients_ok db → clients_ok (delete_client now id db).2.
Proof.
  intros Hok. apply transaction_ok; [done|]. clear. intros db [] db' Hok.
  cbv zeta.
  match goal with |- context [delete_legacy_aliases ?i db] =>
    pose proof (legacy_ok i db Hok) as Hok'; generalize dependent (delete_legacy_aliases i db) end.
  clear Hok. intros [cs ids p rs al] Hok'. cbn [d_clients].
  destruct (existsb _ _); [|done]. intros [_ <-]%Ok_pair_inj.
  destruct Hok' as [Hc Hi Hk Ho Hv Hr Hrk Hrok]. unfold client_ids in *. cbn in *. split; unfold client_ids; cbn.
  - by apply NoDup_fmap_filterb.
  - by apply NoDup_fmap_filterb.
  - by apply NoDup_fmap_filterb.
  - intros i [Hin Hne]%elem_of_filterb. specialize (Ho i Hin).
    apply list_elem_of_fmap in Ho as (c & Hci & Hc'). apply list_elem_of_fmap. exists c. split; [done|].
    apply elem_of_filterb. by rewrite <-Hci.
  - intros i [Hin _]%elem_of_filterb. by apply Hv.
  - by apply NoDup_fmap_filterb.
  - by apply NoDup_fmap_filterb.
  - intros r [Hin Hne]%elem_of_filterb. specialize (Hrok r Hin). unfold rule_ok in *.
    destruct (r_kind r) eqn:Ek; [done|]. destruct Hrok as (Hval & cid & Hcid & Hex). split; [done|].
    exists cid. split; [done|]. apply list_elem_of_fmap in Hex as (c & -> & Hc').
    apply list_elem_of_fmap. exists c. split; [done|]. apply elem_of_filterb. split; [done|].
    apply negb_true_iff, Z.eqb_neq. intros Heq. apply negb_true_iff, bool_decide_eq_false in Hne.
    apply Hne. split; [done|]. by rewrite Hcid, Heq.
Qed.

Lemma filter_identifiers_ok p db :
  clients_ok db → clients_ok (db{{d_identifiers ::= List.filter p}}).
Proof.
  destruct db as [cs ids pol rs als]. intros [Hc Hi Hk Ho Hv Hr Hrk Hrok]. split; cbn in *; try done.
  - by apply NoDup_fmap_filterb.
  - by apply NoDup_fmap_filterb.
  - intros i [Hin _]%elem_of_filterb. by apply Ho.
  - intros i [Hin _]%elem_of_filterb. by apply Hv.
Qed.

Lemma filter_rules_ok p db : clients_ok db → clients_ok (db{{d_rules ::= List.filter p}}).
Proof.
  destruct db as [cs ids pol rs als]. intros [Hc Hi Hk Ho Hv Hr Hrk Hrok]. split; cbn in *; try done.
  - by apply NoDup_fmap_filterb.
  - by apply NoDup_fmap_filterb.
  - intros r [Hin _]%elem_of_filterb. by apply Hrok.
Qed.

Lemma existsb_client id db : existsb (λ c, c_id c =? id)%Z (d_clients db) = true ↔ id ∈ client_ids db.
Proof.
  rewrite existsb_true. unfold client_ids. rewrite list_elem_of_fmap. split.
  - intros (c & Hc & E%Z.eqb_eq). eauto.
  - intros (c & -> & Hc). exists c. by rewrite Z.eqb_refl.
Qed.

Lemma create_client_ok now name description ids enabled db :
  clients_ok db → clients_ok (create_client now name description ids enabled db).2.
Proof.
  intros Hok. unfold create_client. destruct (_ ≫= _) as [normalized|e] eqn:E; [|done].
  apply res_bind_ok in E as ([] & _ & E). apply normalize_all_stored in E.
  apply transaction_ok; [done|]. clear Hok db. intros db id db' Hok. cbv zeta.
  intros (db1 & H1 & [_ <-]%Ok_pair_inj)%res_bind_ok.
  eapply insert_identifiers_ok; [exact E| | |exact H1]; [apply client_ids_new|by apply new_client_ok].
Qed.

Lemma add_identifier_ok now id raw db : clients_ok db → clients_ok (add_identifier now id raw db).2.
Proof.
  intros Hok. unfold add_identifier. destruct (normalize_identifier raw) as [[k v]|e] eqn:E; [|done].
  apply normalize_identifier_stored in E. apply transaction_ok; [done|]. clear Hok db.
  intros db i db' Hok. destruct (existsb _ (d_clients db)) eqn:Ec; [|done]. apply existsb_client in Ec.
  unfold insert_identifier. destruct (existsb _ _) eqn:Ei; [done|]. intros [_ <-]%Ok_pair_inj.
  apply touch_client_ok. by apply new_identifier_ok.
Qed.

Lemma add_access_rule_ok now act kind value cid db :
  clients_ok db → clients_ok (add_access_rule now act kind value cid db).2.
Proof.
  intros Hok. unfold add_access_rule. destruct (if String.eqb act "allow" then _ else _) as [a|]; [|done].
  apply transaction_ok; [done|]. clear Hok db. intros db id db' Hok.
  intros ([k v] & Ht & H)%res_bind_ok.
  set (c := if decide (k = RKClient) then cid else None) in H.
  destruct (existsb _ _) eqn:Ee; [done|]. apply Ok_pair_inj in H as [_ <-].
  assert (rule_ok (client_ids db) (mkRule (fresh_id (r_id <$> d_rules db)) a k v c now)) as Hrule.
  { unfold rule_ok, rule_target in *. cbn. subst c. destruct (String.eqb kind "client").
    - destruct cid as [i|]; [|done]. destruct (i =? 0)%Z; [done|].
      destruct (existsb _ _) eqn:Ec; [|done]. apply existsb_client in Ec. apply Ok_pair_inj in Ht as [<- <-].
      cbn. eauto.
    - destruct (String.eqb kind "clientid").
      + apply res_bind_ok in Ht as (x & Hx & [<- <-]%Ok_pair_inj). cbn. split; [done|]. exists x.
        apply validate_clientid_ok in Hx. by destruct Hx as (_ & ? & _).
      + destruct (bool_decide _); [|done]. apply res_bind_ok in Ht as ([k' v'] & Hx & [<- <-]%Ok_pair_inj).
        apply normalize_identifier_stored in Hx. cbn. eauto. }
  destruct db as [cs ids pol rs als]. destruct Hok as [Hc Hi Hk Ho Hv Hr Hrk Hrok].
  split; cbn in *; try done.
  - by apply NoDup_fresh.
  - apply NoDup_fmap_snoc; [done|]. intros r Hin E. rewrite existsb_false in Ee.
    apply Ee, bool_decide_eq_false in Hin. unfold rule_key in E. cbn in E.
    injection E as E1 E2 E3 E4. by apply Hin.
  - intros r [Hin| ->]%elem_of_snoc; [by apply Hrok|exact Hrule].
Qed.

(** One operation on the tables, whether it succeeds or raises. *)
Inductive client_step : cdb → cdb → Prop :=
| step_init now db : client_step db (init_clients now db)
| step_create now name description ids enabled db :
    client_step db (create_client now name description ids enabled db).2
| step_update now id name description enabled db :
    client_step db (update_client now id name description enabled db).2
| step_enable now id enabled db : client_step db (set_client_enabled now id enabled db).2
| step_delete now id db : client_step db (delete_client now id db).2
| step_add_identifier now id raw db : client_step db (add_identifier now id raw db).2
| step_remove_identifier now id db : client_step db (remove_identifier now id db).2
| step_policy now policy db : client_step db (set_default_policy now policy db).2
| step_add_rule now act kind value cid db : client_step db (add_access_rule now act kind value cid db).2
| step_remove_rule now id db : client_step db (remove_access_rule now id db).2
| step_aliases als db : client_step db (db{{d_aliases := als}}).   (* the local DNS pages *)

Lemma client_step_ok db db' : client_step db db' → clients_ok db → clients_ok db'.
Proof.
  intros [] Hok.
  - by apply init_clients_ok.
  - by apply create_client_ok.
  - unfold update_client. destruct (check_client _ _); [|done]. apply transaction_ok; [done|].
    intros. by eapply (update_clients_ok id); [|done..].
  - apply transaction_ok; [done|]. intros. by eapply (update_clients_ok id); [|done..].
  - by apply delete_client_ok.
  - by apply add_identifier_ok.
  - apply transaction_ok; [done|]. clear. intros db [] db' Hok. destruct (find_first _ _); [|done].
    intros [_ <-]%Ok_pair_inj. apply touch_client_ok, filter_identifiers_ok, legacy_ok, Hok.
  - unfold set_default_policy. destruct (bool_decide _); [|done]. apply transaction_ok; [done|]. clear.
    intros db [] db' Hok [_ <-]%Ok_pair_inj. by eapply clients_ok_ext; [..|exact Hok]; destruct db.
  - by apply add_access_rule_ok.
  - apply transaction_ok; [done|]. clear. intros db [] db' Hok. destruct (existsb _ _); [|done].
    intros [_ <-]%Ok_pair_inj. by apply filter_rules_ok.
  - by eapply clients_ok_ext; [..|exact Hok]; destruct db.
Qed.

(** C17: However the client and access-rule pages are used, and whatever aliases the
    local DNS pages add in between, the tables stay consistent: ids are unique, an
    identifier belongs to one existing client, its value is canonical for its kind,
    no two rules say the same, and every rule refers to an existing client or to a
    canonical value, with no dangling rows although the database does not enforce
    its foreign keys. *)
Theorem clients_invariant db db' : clients_ok db → rtc client_step db db' → clients_ok db'.
Proof. intros Hok Hs. induction Hs as [|db1 db2 db3 Hs _ IH]; [done|]. apply IH. by eapply client_step_ok. Qed.

Definition empty_cdb : cdb := mkCdb [] [] None [] None.

Lemma clients_invariant_witness :
  let db := (add_access_rule "t" "deny" "client" None (Some 1%Z)
              (create_client "t" "tv" "" ["192.168.1.9/24"] true empty_cdb).2).2 in
  length (d_rules db) = 1 ∧ length (d_identifiers db) = 1 ∧ clients_ok db.
Proof.
  cbv zeta. split; [vm_compute; reflexivity|]. split; [vm_compute; reflexivity|].
  apply (clients_invariant empty_cdb).
  - split; try constructor; by intros ? ?%elem_of_nil.
  - eapply rtc_l; [apply (step_create "t" "tv" "" ["192.168.1.9/24"] true)|].
    apply rtc_once, (step_add_rule "t" "deny" "client" None (Some 1%Z)).
Defined.

(** ** Deleted clients and the legacy aliases *)

(** An alias stored as the text of a network, as the local DNS pages store it. *)
Definition canonical_alias (a : alias) : Prop :=
  strip (al_cidr a) = al_cidr a ∧ char_in "/" (al_cidr a) = true
  ∧ ∃ net, ip_network (al_cidr a) = Some net ∧ str_network net = al_cidr a.

Lemma canonical_alias_key a :
  canonical_alias a → ∃ k, normalize_identifier (al_cidr a) = Ok (k, al_cidr a)
    ∧ legacy_alias_cidr k (al_cidr a) = Some (al_cidr a).
Proof.
  intros (Hstrip & Hslash & net & Hnet & Hstr). unfold normalize_identifier, legacy_alias_cidr.
  rewrite Hstrip, Hslash. destruct (String.eqb_spec (al_cidr a) "") as [E|_]; [by rewrite E in Hslash|].
  rewrite andb_false_r, !andb_false_l, Hnet. cbn [fmap option_fmap option_map]. rewrite Hstr.
  by destruct (is_v4 (net_addr net)); eexists.
Qed.

Definition has_key (db : cdb) (k : ident_kind) (v : string) : Prop :=
  existsb (is_identifier k v) (d_identifiers db) = true.

Definition aliases_of (db : cdb) : list alias := default [] (d_aliases db).

(** Every alias that reads as an identifier has one. *)
Definition aliases_migrated (db : cdb) : Prop :=
  ∀ a k v, a ∈ aliases_of db → normalize_identifier (al_cidr a) = Ok (k, v) → has_key db k v.

Lemma migrate_alias_keeps now db a k v : has_key db k v → has_key (migrate_alias now db a) k v.
Proof.
  intros Hk. unfold migrate_alias. destruct (normalize_identifier _) as [[k' v']|]; [|done].
  destruct (existsb (is_identifier k' v') _); [done|].
  destruct db as [cs ids p rs als]. unfold has_key in *. cbn in *. by rewrite existsb_app, Hk.
Qed.

Lemma migrate_alias_adds now db a k v :
  normalize_identifier (al_cidr a) = Ok (k, v) → has_key (migrate_alias now db a) k v.
Proof.
  intros Hn. unfold migrate_alias. rewrite Hn. destruct (existsb _ _) eqn:E; [done|].
  destruct db as [cs ids p rs als]. unfold has_key. cbn. rewrite existsb_app, orb_true_iff. right.
  unfold is_identifier. cbn. by rewrite bool_decide_eq_true_2.
Qed.

Lemma migrate_alias_aliases now db a : d_aliases (migrate_alias now db a) = d_aliases db.
Proof.
  unfold migrate_alias. destruct (normalize_identifier _) as [[k v]|]; [|done].
  destruct (existsb _ _); [done|]. by destruct db.
Qed.

Lemma migrate_alias_id now db a :
  (∀ k v, normalize_identifier (al_cidr a) = Ok (k, v) → has_key db k v) → migrate_alias now db a = db.
Proof.
  intros Hk. unfold migrate_alias. destruct (normalize_identifier _) as [[k v]|]; [|done].
  by rewrite (Hk k v eq_refl).
Qed.

Lemma fold_migrate now als db :
  d_aliases (fold_left (migrate_alias now) als db) = d_aliases db
  ∧ (∀ k v, has_key db k v → has_key (fold_left (migrate_alias now) als db) k v)
  ∧ ∀ a k v, a ∈ als → normalize_identifier (al_cidr a) = Ok (k, v) →
      has_key (fold_left (migrate_alias now) als db) k v.
Proof.
  revert db. induction als as [|a als IH]; intros db; cbn [fold_left].
  { split_and!; [done..|]. by intros a k v ?%elem_of_nil. }
  destruct (IH (migrate_alias now db a)) as (H1 & H2 & H3).
  split_and!; [by rewrite H1, migrate_alias_aliases|auto using migrate_alias_keeps|].
  intros b k v [->|Hb]%elem_of_cons Hn; [|by eapply H3]. by apply H2, migrate_alias_adds.
Qed.

Lemma init_clients_migrated now db :
  aliases_migrated (init_clients now db) ∧ d_aliases (init_clients now db) = d_aliases db.
Proof.
  unfold init_clients, migrate_client_aliases, aliases_migrated, aliases_of.
  destruct db as [cs ids p rs [als|]]; cbn.
  2:{ split; [|done]. by intros a k v ?%elem_of_nil. }
  match goal with |- context [fold_left _ als ?db0] => destruct (fold_migrate now als db0) as (H1 & _ & H3) end.
  rewrite H1. split; [|done]. cbn. eauto.
Qed.

Lemma init_clients_idle now db : aliases_migrated db → d_policy db ≠ None → init_clients now db = db.
Proof.
  destruct db as [cs ids [p|] rs als]; [|done]. intros Hm _. unfold init_clients, migrate_client_aliases. cbn.
  destruct als as [als|]; [|done]. unfold aliases_migrated, aliases_of in Hm. cbn in Hm.
  set (db := mkCdb cs ids (Some p) rs (Some als)) in *. clearbody db. clear ids.
  induction als as [|a als IH]; [done|]. cbn [fold_left]. rewrite migrate_alias_id.
  - apply IH. intros b k v Hb. apply Hm. by right.
  - intros k v. apply Hm. left.
Qed.

Lemma init_clients_policy now db : d_policy (init_clients now db) ≠ None.
Proof.
  unfold init_clients, migrate_client_aliases.
  set (db1 := db{{d_policy ::= _}}). assert (d_policy db1 ≠ None) as H1 by (by destruct db as [? ? [?|] ? ?]).
  destruct (d_aliases db1) as [als|]; [|done]. revert H1. generalize db1. clear.
  induction als as [|a als IH]; intros db Hdb; [done|]. cbn [fold_left]. apply IH.
  unfold migrate_alias. destruct (normalize_identifier _) as [[k v]|]; [|done].
  destruct (existsb _ _); [done|]. by destruct db.
Qed.

(** A deleted client stays deleted: after a client is deleted, starting the pages
    again migrates nothing back from the legacy aliases, neither that client nor any
    of its identifiers, and leaves every table as it is. *)
Theorem deleted_client_stays_deleted now now' id db db' :
  (∀ a, a ∈ aliases_of db → canonical_alias a) →
  delete_client now id db = (Ok (), db') →
  init_clients now' db' = db' ∧ id ∉ client_ids db'
  ∧ ∀ i, i ∈ d_identifiers db' → i_client i ≠ id.
Proof.
  intros Hals. unfold delete_client, transaction. cbv zeta.
  destruct (init_clients_migrated now db) as [Hm Ha]. pose proof (init_clients_policy now db) as Hp.
  generalize dependent (init_clients now db). intros [cs ids p rs als] Hm Ha Hp. cbn in *.
  destruct (existsb _ cs); [|done]. cbn. intros [= <-]. split_and!.
  - apply init_clients_idle; [|done]. intros a k v. unfold aliases_of, has_key. cbn.
    destruct als as [als|]; [|by intros ?%elem_of_nil]. cbn. intros [Hin Hne]%elem_of_filterb Hn.
    assert (has_key (mkCdb cs ids p rs (Some als)) k v) as Hk by (by eapply Hm).
    unfold has_key in Hk. cbn in Hk. apply existsb_true in Hk as (i & Hi & Hkv).
    apply existsb_true. exists i. split; [|done]. apply elem_of_filterb. split; [done|].
    apply negb_true_iff, Z.eqb_neq. intros Hid. apply negb_true_iff, bool_decide_eq_false in Hne.
    destruct (canonical_alias_key a) as (k' & Hk' & Hl).
    { apply Hals. unfold aliases_of. by rewrite <-Ha. }
    rewrite Hk' in Hn. injection Hn as -> <-. apply bool_decide_eq_true in Hkv as [Ek Ev].
    apply Hne. apply list_elem_of_omap. exists (k, al_cidr a). split; [|done].
    apply list_elem_of_fmap. exists i. split; [by rewrite Ek, Ev|]. apply elem_of_filterb.
    split; [done|]. by apply Z.eqb_eq.
  - unfold client_ids. cbn. intros (c & -> & [_ Hc]%elem_of_filterb)%list_elem_of_fmap.
    by rewrite Z.eqb_refl in Hc.
  - intros i [_ Hi]%elem_of_filterb. by apply negb_true_iff, Z.eqb_neq in Hi.
Qed.

Lemma deleted_client_stays_deleted_witness :
  let db := mkCdb [] [] None [] (Some [mkAlias 1 "192.168.1.0/24" "tv" "" "" ""]) in
  let db1 := init_clients "t" db in
  length (d_clients db1) = 1
  ∧ ∃ db2, delete_client "t" 1 db1 = (Ok (), db2) ∧ d_clients (init_clients "t" db2) = [].
Proof.
  cbv zeta. split; [vm_compute; reflexivity|].
  set (db1 := init_clients "t" _).
  assert (∀ a, a ∈ aliases_of db1 → canonical_alias a) as Hal.
  { intros a Ha. vm_compute in Ha. apply list_elem_of_singleton in Ha as ->.
    split; [vm_compute; reflexivity|]. split; [vm_compute; reflexivity|].
    exists (Network (IPv4 3232235776) 24). split; vm_compute; reflexivity. }
  assert (delete_client "t" 1 db1 = (Ok (), mkCdb [] [] (Some "allow") [] (Some []))) as E by (vm_compute; reflexivity).
  exists (mkCdb [] [] (Some "allow") [] (Some [])). split; [exact E|].
  exact (f_equal d_clients (proj1 (deleted_client_stays_deleted "t" "t" 1 db1 _ Hal E))).
Defined.
