(* ===== verification/Access.v ===== *)
(** * Access policy

    Which clients may resolve names: the evaluation the web pages show, the data
    files compiled from the same rules for dnsdist, and the rules the generated Lua
    include builds from those files ([app/clients.py]). *)

From S2P Require Import Prelude PyStr StrLemmas IpAddr PyJson PyRegex DomainName LocalDns ClientId Clients.

(** ** Reading the tables *)

(** [COLLATE NOCASE] *)
Definition nocase (s : string) : string := smap (λ c, if is_upper_az c then ascii_of_N (code c + 32) else c) s.

Definition by_name (a b : client) : Prop := String.le (nocase (c_name a)) (nocase (c_name b)).
#[export] Instance by_name_dec : RelDecision by_name.
Proof. intros a b. unfold by_name. apply _. Defined.

Definition by_kind_value (a b : identifier) : Prop :=
  if decide (i_kind a = i_kind b) then String.le (i_value a) (i_value b)
  else String.le (kind_name (i_kind a)) (kind_name (i_kind b)).
#[export] Instance by_kind_value_dec : RelDecision by_kind_value.
Proof. intros a b. unfold by_kind_value. case_decide; apply _. Defined.

(** app/clients.py:382-397 get_client *)
Definition client_identifiers (db : cdb) (id : Z) : list identifier :=
  merge_sort by_kind_value (List.filter (λ i, i_client i =? id)%Z (d_identifiers db)).

(** app/clients.py:363-379 list_clients *)
Definition list_clients (db : cdb) : list (client * list identifier) :=
  (λ c, (c, client_identifiers db (c_id c))) <$> merge_sort by_name (d_clients db).

(** NULL sorts first. *)
Definition value_le (a b : option string) : Prop :=
  match a, b with None, _ => True | Some _, None => False | Some a, Some b => String.le a b end.
#[export] Instance value_le_dec : RelDecision value_le.
Proof. intros [a|] [b|]; simpl; apply _. Defined.

Definition rule_order (a b : access_rule) : Prop :=
  if decide (r_action a = r_action b) then
    if decide (r_kind a = r_kind b) then value_le (r_value a) (r_value b)
    else String.le (rule_kind_name (r_kind a)) (rule_kind_name (r_kind b))
  else String.le (action_name (r_action a)) (action_name (r_action b)).
#[export] Instance rule_order_dec : RelDecision rule_order.
Proof. intros a b. unfold rule_order. repeat case_decide; apply _. Defined.

(** app/clients.py:534-549 list_access_rules

    The columns joined from the clients are only displayed. *)
Definition list_access_rules (db : cdb) : list access_rule := merge_sort rule_order (d_rules db).

(** ** Evaluation *)

(** app/clients.py:600-603 AccessDecision *)
Record AccessDecision := mkDecision { ad_allowed : bool; ad_reason : string }.

(** An effective rule: a table row, or one identifier of a client the row names. *)
Record effective := mkEffective {
  e_action : action; e_kind : rule_kind; e_value : option string; e_source : string }.

(** app/clients.py:606-617 _rule_matches_ip *)
Definition rule_matches_ip (k : rule_kind) (value : option string) (a : ip) : bool :=
  match k, value with
  | RKIdent (KIPv4 | KIPv6), Some v => bool_decide (ip_address v = Some a)
  | RKIdent (KIPv4Cidr | KIPv6Cidr), Some v =>
      match ip_network v with Some net => ip_in a net | None => false end
  | _, _ => false
  end.

Definition find_client (id : option Z) (clients : list (client * list identifier)) : option (client * list identifier) :=
  match id with
  | None => None
  | Some id => find_first (λ c, c_id c.1 =? id)%Z clients
  end.

(** app/clients.py:620-639 _expand_rules

    The effective rules of one rule: the body of the loop. *)
Definition expand_rule (clients : list (client * list identifier)) (r : access_rule) : list effective :=
  match r_kind r with
  | RKClient =>
      match find_client (r_client r) clients with
      | Some (c, identifiers) =>
          if c_enabled c
          then (λ i, mkEffective (r_action r) (RKIdent (i_kind i)) (Some (i_value i)) ("client:" +:+ c_name c)) <$> identifiers
          else []
      | None => []
      end
  | RKIdent k => [mkEffective (r_action r) (RKIdent k) (r_value r) ("rule:" +:+ kind_name k)]
  end.
(** app/clients.py:620-639 _expand_rules *)
Definition expand_rules (rules : list access_rule) (clients : list (client * list identifier)) : list effective :=
  mjoin (expand_rule clients <$> rules).

Definition truthy (s : option string) : bool := match s with Some s => negb (String.eqb s "") | None => false end.

Definition effective_matches (address : option ip) (clientid : option string) (e : effective) : bool :=
  if decide (e_kind e = RKIdent KClientID) then truthy clientid && bool_decide (e_value e = clientid)
  else match address with Some a => rule_matches_ip (e_kind e) (e_value e) a | None => false end.

Definition decision_text (verb : string) (e : effective) : string :=
  verb +:+ " by " +:+ e_source e +:+ " (" +:+ rule_kind_name (e_kind e) +:+ "=" +:+ default "None" (e_value e) +:+ ")".

(** app/clients.py:642-675 evaluate_access *)
Definition evaluate_access (remote_ip clientid : option string) (rules : list access_rule)
    (clients : list (client * list identifier)) (default_policy : string) : AccessDecision :=
  let expanded := expand_rules rules clients in
  let address := if truthy remote_ip then s ← remote_ip; ip_address s else None in
  let matched := List.filter (effective_matches address clientid) expanded in
  match List.filter (λ e, bool_decide (e_action e = Deny)) matched with
  | m :: _ => mkDecision false (decision_text "denied" m)
  | [] =>
      match List.filter (λ e, negb (bool_decide (e_action e = Deny))) matched with
      | m :: _ => mkDecision true (decision_text "allowed" m)
      | [] => mkDecision (String.eqb default_policy "allow") ("default policy (" +:+ default_policy +:+ ")")
      end
  end.

(** app/clients.py:724-742 effective_access_for_client *)
Definition effective_access_for_client (c : client * list identifier) (rules : list access_rule)
    (clients : list (client * list identifier)) (default_policy : string)
    : res (list (identifier * AccessDecision)) :=
  let decide_one (i : identifier) : res (identifier * AccessDecision) :=
    ip ← match i_kind i with
         | KIPv4 | KIPv6 => Ok (Some (i_value i))
         | KIPv4Cidr | KIPv6Cidr =>
             match ip_network (i_value i) with
             | Some net => Ok (Some (str_ip (net_addr net)))
             | None => Raise (PyExc "ValueError" (i_value i))
             end
         | KClientID => Ok None
         end;
    let cid := match i_kind i with KClientID => Some (i_value i) | _ => None end in
    Ok (i, if c_enabled c.1 then evaluate_access ip cid rules clients default_policy
           else mkDecision false "client disabled") in
  (fix go (l : list identifier) : res (list (identifier * AccessDecision)) :=
     match l with
     | [] => Ok []
     | i :: l => d ← decide_one i; ds ← go l; Ok (d :: ds)
     end) c.2.

(** ** Names of clients *)

(** The identifiers of enabled clients that hold an address, with the client's name:
    the rows of the join, in the order the identifiers were stored. *)
Definition named_networks (db : cdb) : list (string * string) :=
  omap (λ i, if is_ip_kind (i_kind i) then
               c ← find_first (λ c, c_id c =? i_client i)%Z (d_clients db);
               if c_enabled c then Some (i_value i, c_name c) else None
             else None) (d_identifiers db).

Fixpoint best_name (a : ip) (best : option (Z * string)) (rows : list (string * string)) : option (Z * string) :=
  match rows with
  | [] => best
  | (value, name) :: rows =>
      match ip_network value with
      | None => best_name a best rows
      | Some net =>
          let better := match best with None => true | Some (p, _) => (p <? net_prefixlen net)%Z end in
          best_name a (if ip_in a net && better then Some (net_prefixlen net, name) else best) rows
      end
  end.

(** app/clients.py:678-721 resolve_client_name

    [alias_for_client] is the fallback to the local DNS aliases, [None] also when it
    raises. *)
Definition resolve_client_name (alias_for_client : string → option string) (now raw_client : string) (db : cdb)
    : option string * cdb :=
  match ip_address raw_client with
  | None => (None, db)
  | Some a =>
      let db := init_clients now db in
      (match best_name a None (named_networks db) with
       | Some (_, name) => Some name
       | None => alias_for_client raw_client
       end, db)
  end.

(** ** Compilation to data files *)

(** app/clients.py:52-52 DATA_ALLOW_V4 *)
Definition DATA_ALLOW_V4 : string := "access-allow-v4.txt".
Definition DATA_ALLOW_V6 : string := "access-allow-v6.txt".
Definition DATA_DENY_V4 : string := "access-deny-v4.txt".
Definition DATA_DENY_V6 : string := "access-deny-v6.txt".
Definition DATA_ALLOW_SNI : string := "access-allow-sni.txt".
Definition DATA_DENY_SNI : string := "access-deny-sni.txt".
Definition DATA_ALLOW_PATH : string := "access-allow-path.txt".
Definition DATA_DENY_PATH : string := "access-deny-path.txt".
Definition DATA_POLICY : string := "access-default-policy.txt".
Definition DATA_DOH_CLIENTID_PATHS : string := "access-doh-clientid-paths.txt".

Definition control_error : pyexc := AccessPolicyError "refusing to write a data-file entry containing control characters".

(** app/clients.py:753-756 _check_line_safe *)
Definition check_line_safe (entry : string) : res string :=
  if sexists is_control entry then Raise control_error else Ok entry.

(** The text of a data file, one entry per line. *)
Definition data_text (entries : list string) : res string :=
  if existsb (sexists is_control) entries then Raise control_error
  else Ok (join nl entries +:+ match entries with [] => "" | _ => nl end).

(** app/clients.py:759-782 render_doh_clientid_paths

    [doh_path] is the setting of the encryption pages, if it was made. *)
Definition doh_base (doh_path : option string) : string := str_or (default "/dns-query" doh_path) "/dns-query".
Definition render_doh_clientid_paths (doh_path : option string) (db : cdb) : res string :=
  let of_clients := i_value <$> List.filter (λ i, bool_decide (i_kind i = KClientID)) (d_identifiers db) in
  let of_rules := omap r_value (List.filter (λ r, bool_decide (r_kind r = RKIdent KClientID)) (d_rules db)) in
  data_text (sorted_set (list_to_set (clientid_doh_path (doh_base doh_path) <$> of_clients ++ of_rules))).

(** What one effective rule adds to the data files: the file kind and the entry. *)
Inductive data_kind := DataV4 | DataV6 | DataSni | DataPath.
#[export] Instance data_kind_eq_dec : EqDecision data_kind.
Proof. solve_decision. Defined.

Definition missing_value : pyexc := PyExc "TypeError" "unsupported operand type(s) for +: 'NoneType' and 'str'".

Definition data_entries (base : string) (e : effective) : res (list (data_kind * string)) :=
  match e_kind e, e_value e with
  | RKClient, _ => Ok []
  | _, None => Raise missing_value
  | RKIdent KIPv4, Some v => Ok [(DataV4, v +:+ "/32")]
  | RKIdent KIPv4Cidr, Some v => Ok [(DataV4, v)]
  | RKIdent KIPv6, Some v => Ok [(DataV6, v +:+ "/128")]
  | RKIdent KIPv6Cidr, Some v => Ok [(DataV6, v)]
  | RKIdent KClientID, Some v =>
      match clientid_sni_hostname v with
      | Some sni => Ok [(DataSni, sni); (DataPath, clientid_doh_path base v)]
      | None => Raise (PyExc "ValueError" "non-hexadecimal number found in fromhex() arg")
      end
  end.

Fixpoint all_entries (base : string) (l : list effective) : res (list (action * data_kind * string)) :=
  match l with
  | [] => Ok []
  | e :: l =>
      here ← data_entries base e;
      rest ← all_entries base l;
      Ok (((λ kv : data_kind * string, (e_action e, kv.1, kv.2)) <$> here) ++ rest)
  end.

Definition entries_of (act : action) (k : data_kind) (l : list (action * data_kind * string)) : list string :=
  sorted_set (list_to_set
    (snd <$> List.filter (λ e : action * data_kind * string, bool_decide (e.1 = (act, k))) l)).

(** app/clients.py:785-823 render_access_data *)
Definition render_access_data (rules : list access_rule) (clients : list (client * list identifier))
    (default_policy doh_base_path : string) : res (list (string * string)) :=
  l ← all_entries doh_base_path (expand_rules rules clients);
  allow_v4 ← data_text (entries_of Allow DataV4 l);
  allow_v6 ← data_text (entries_of Allow DataV6 l);
  deny_v4 ← data_text (entries_of Deny DataV4 l);
  deny_v6 ← data_text (entries_of Deny DataV6 l);
  allow_sni ← data_text (entries_of Allow DataSni l);
  deny_sni ← data_text (entries_of Deny DataSni l);
  allow_path ← data_text (entries_of Allow DataPath l);
  deny_path ← data_text (entries_of Deny DataPath l);
  Ok [(DATA_ALLOW_V4, allow_v4); (DATA_ALLOW_V6, allow_v6); (DATA_DENY_V4, deny_v4); (DATA_DENY_V6, deny_v6);
      (DATA_ALLOW_SNI, allow_sni); (DATA_DENY_SNI, deny_sni); (DATA_ALLOW_PATH, allow_path);
      (DATA_DENY_PATH, deny_path); (DATA_POLICY, default_policy +:+ nl)].

(** ** The Lua include *)

(** app/clients.py:826-916 render_access_lua *)
Definition render_access_lua (data_dir : string) : string :=
  quoted (join nl [
    "-- Managed by Alderpoint DNS Clients & Access. Do not edit by hand.";
    "-- Static loader: user-controlled values live only in the data files below";
    "-- (one entry per line); no user text is ever interpolated into Lua code.";
    "local alderpointdnsAccessDataDir = `" +:+ data_dir +:+ "`";
    "";
    "local function alderpointdnsAccessLines(name)";
    "  local entries = {}";
    "  local handle = io.open(alderpointdnsAccessDataDir .. `/` .. name, `r`)";
    "  if handle then";
    "    for line in handle:lines() do";
    "      if line ~= `` then";
    "        table.insert(entries, line)";
    "      end";
    "    end";
    "    handle:close()";
    "  end";
    "  return entries";
    "end";
    "";
    "local function alderpointdnsNMG(name)";
    "  local entries = alderpointdnsAccessLines(name)";
    "  if #entries == 0 then";
    "    return nil";
    "  end";
    "  local nmg = newNMG()";
    "  for _, entry in ipairs(entries) do";
    "    nmg:addMask(entry)";
    "  end";
    "  return nmg";
    "end";
    "";
    "local alderpointdnsDenyV4 = alderpointdnsNMG(`" +:+ DATA_DENY_V4 +:+ "`)";
    "local alderpointdnsDenyV6 = alderpointdnsNMG(`" +:+ DATA_DENY_V6 +:+ "`)";
    "if alderpointdnsDenyV4 then";
    "  addAction(NetmaskGroupRule(alderpointdnsDenyV4), RCodeAction(DNSRCode.REFUSED))";
    "end";
    "if alderpointdnsDenyV6 then";
    "  addAction(NetmaskGroupRule(alderpointdnsDenyV6), RCodeAction(DNSRCode.REFUSED))";
    "end";
    "for _, sni in ipairs(alderpointdnsAccessLines(`" +:+ DATA_DENY_SNI +:+ "`)) do";
    "  addAction(SNIRule(sni), RCodeAction(DNSRCode.REFUSED))";
    "end";
    "for _, path in ipairs(alderpointdnsAccessLines(`" +:+ DATA_DENY_PATH +:+ "`)) do";
    "  addAction(HTTPPathRule(path), RCodeAction(DNSRCode.REFUSED))";
    "end";
    "";
    "local alderpointdnsDefaultPolicy = `allow`";
    "local alderpointdnsPolicyFile = io.open(alderpointdnsAccessDataDir .. `/access-default-policy.txt`, `r`)";
    "if alderpointdnsPolicyFile then";
    "  local line = alderpointdnsPolicyFile:read(`*l`)";
    "  alderpointdnsPolicyFile:close()";
    "  if line then";
    "    alderpointdnsDefaultPolicy = line";
    "  end";
    "end";
    "";
    "if alderpointdnsDefaultPolicy == `deny` then";
    "  -- Loopback is always exempt from the *default*-deny gate (documented in";
    "  -- docs/clients-and-access.md) so Alderpoint's own internal health";
    "  -- checks/acceptance tests never get locked out. An explicit deny rule";
    "  -- above already ran and would have REFUSED loopback first if an admin";
    "  -- deliberately added one.";
    "  local alderpointdnsAllowV4 = alderpointdnsNMG(`" +:+ DATA_ALLOW_V4 +:+ "`) or newNMG()";
    "  alderpointdnsAllowV4:addMask(`127.0.0.1/32`)";
    "  local alderpointdnsAllowV6 = alderpointdnsNMG(`" +:+ DATA_ALLOW_V6 +:+ "`) or newNMG()";
    "  alderpointdnsAllowV6:addMask(`::1/128`)";
    "  local alderpointdnsGateParts = {";
    "    NetmaskGroupRule(alderpointdnsAllowV4),";
    "    NetmaskGroupRule(alderpointdnsAllowV6)";
    "  }";
    "  for _, sni in ipairs(alderpointdnsAccessLines(`" +:+ DATA_ALLOW_SNI +:+ "`)) do";
    "    table.insert(alderpointdnsGateParts, SNIRule(sni))";
    "  end";
    "  for _, path in ipairs(alderpointdnsAccessLines(`" +:+ DATA_ALLOW_PATH +:+ "`)) do";
    "    table.insert(alderpointdnsGateParts, HTTPPathRule(path))";
    "  end";
    "  addAction(NotRule(OrRule(alderpointdnsGateParts)), RCodeAction(DNSRCode.REFUSED))";
    "end"]) +:+ nl.

(** ** The rules of the Lua include *)

(** What the include asks of dnsdist about one query: whether its source is in a
    netmask group, whether its TLS server name and its HTTP path are the given ones. *)
Class Dnsdist := {
  query : Type;
  nmg_match : list string → query → bool;
  sni_match : string → query → bool;
  path_match : string → query → bool;
}.

Section gate.
Context `{Dnsdist}.

(** The files of the data directory. *)
Context (files : list (string * string)).

Definition data_file (name : string) : option string := list_to_map (M := gmap string string) files !! name.

(** app/clients.py:843-855 alderpointdnsAccessLines *)
Definition access_lines (name : string) : list string :=
  match data_file name with
  | Some text => List.filter (λ line, negb (String.eqb line "")) (split_on (Ascii.ascii_of_nat 10) text)
  | None => []
  end.

(** app/clients.py:857-867 alderpointdnsNMG *)
Definition nmg_rule (name : string) (q : query) : bool :=
  match access_lines name with [] => false | entries => nmg_match entries q end.

(** app/clients.py:884-892 alderpointdnsDefaultPolicy *)
Definition lua_default_policy : string :=
  match data_file DATA_POLICY with
  | Some "" | None => "allow"
  | Some text => default "" (head (split_on (Ascii.ascii_of_nat 10) text))
  end.

(** app/clients.py:869-882 render_access_lua *)
Definition deny_rules (q : query) : bool :=
  nmg_rule DATA_DENY_V4 q || nmg_rule DATA_DENY_V6 q
  || existsb (λ sni, sni_match sni q) (access_lines DATA_DENY_SNI)
  || existsb (λ path, path_match path q) (access_lines DATA_DENY_PATH).

(** app/clients.py:894-913 render_access_lua *)
Definition allow_gate (q : query) : bool :=
  nmg_match (access_lines DATA_ALLOW_V4 ++ ["127.0.0.1/32"]) q
  || nmg_match (access_lines DATA_ALLOW_V6 ++ ["::1/128"]) q
  || existsb (λ sni, sni_match sni q) (access_lines DATA_ALLOW_SNI)
  || existsb (λ path, path_match path q) (access_lines DATA_ALLOW_PATH).

(** app/clients.py:869-915 render_access_lua

    Whether the rules of the include refuse a query. *)
Definition refuses (q : query) : bool :=
  deny_rules q || (String.eqb lua_default_policy "deny" && negb (allow_gate q)).
End gate.

(** ** The compiled rules against the evaluation *)

(** What dnsdist documents of the three rules, for the source address, the server name
    and the path of a query. *)
Record dnsdist_laws `{Dnsdist} (addr : query → ip) (sni : query → string) (path : query → option string) : Prop := {
  law_nmg : ∀ es q, (∀ e, e ∈ es → is_Some (ip_network e)) → nmg_match es q = in_any (addr q) es;
  law_sni : ∀ s q, sni_match s q = bool_decide (sni q = s);
  law_path : ∀ p q, path_match p q = bool_decide (path q = Some p);
}.

Definition unscoped (a : ip) : Prop := match a with IPv4 _ => True | IPv6 _ sc => sc = None end.

(** A rule value reads back as what its kind says. *)
Definition readable (e : effective) : Prop :=
  match e_kind e, e_value e with
  | RKIdent KIPv4, Some v => ∃ n, ip_address v = Some (IPv4 n)
  | RKIdent KIPv6, Some v => ∃ n, ip_address v = Some (IPv6 n None)
  | RKIdent (KIPv4Cidr | KIPv6Cidr), Some v => is_Some (ip_network v)
  | RKIdent KClientID, Some v => canonical_clientid v
  | _, _ => False
  end.

Lemma ip_address_no_slash v a : ip_address v = Some a → char_in "/" v = false.
Proof. unfold ip_address, parse_ipv6. by destruct (char_in "/" v). Qed.

(** The network of one address. *)
Lemma host_network v a :
  ip_address v = Some a →
  ip_network (v +:+ (if is_v4 a then "/32" else "/128"))
  = Some (network_of a (max_prefixlen a)).
Proof.
  intros Ha. pose proof (ip_address_no_slash v a Ha) as Hs. unfold ip_address in Ha. rewrite Hs in Ha.
  unfold ip_network.
  assert (∀ m, char_in "/" m = false → split_on "/" (v +:+ String "/" m) = [v; m]) as Hsplit.
  { intros m Hm. rewrite split_on_app by done. by rewrite split_on_none. }
  destruct (parse_ipv4 v) as [n|] eqn:E4.
  - injection Ha as <-. cbn [is_v4]. rewrite Hsplit by done. by rewrite E4.
  - assert (is_v4 a = false) as Hv4.
    { unfold parse_ipv6 in Ha. rewrite Hs in Ha. destruct (partition "%" v) as [[h []] sc].
      - destruct (_ || _); [done|]. destruct (parse_ipv6_int h); [|done]. by injection Ha as <-.
      - destruct (parse_ipv6_int h); [|done]. by injection Ha as <-. }
    rewrite Hv4, Hsplit, E4, Ha by done. cbn [mbind option_bind].
    change (parse_prefixlen 128 "128") with (Some 128%Z). cbn [mbind option_bind].
    by destruct a.
Qed.

Lemma truncate_full w n : truncate w w n = n.
Proof. unfold truncate. rewrite Z.sub_diag, Z.div_1_r. lia. Qed.

Lemma ip_in_host a b : unscoped a → unscoped b → ip_in a (network_of b (max_prefixlen b)) = bool_decide (b = a).
Proof.
  intros Ha Hb. unfold ip_in. destruct a as [n|n sc], b as [m|m sc']; simpl in *; subst.
  - rewrite !truncate_full. rewrite (bool_decide_ext _ (n = m)) by (split; congruence).
    destruct (Z.eqb_spec n m); by case_bool_decide.
  - by rewrite truncate_full, Z.eqb_refl.
  - done.
  - rewrite truncate_full, Z.eqb_refl. cbn. rewrite truncate_full.
    rewrite (bool_decide_ext _ (n = m)) by (split; congruence).
    destruct (Z.eqb_spec n m); by case_bool_decide.
Qed.

(** *** Data files read back *)

Lemma lua_lines es :
  (∀ e, e ∈ es → e ≠ "" ∧ sexists is_control e = false) →
  List.filter (λ line, negb (String.eqb line ""))
    (split_on (Ascii.ascii_of_nat 10) (join nl es +:+ match es with [] => "" | _ => nl end)) = es.
Proof.
  intros Hes. destruct es as [|e0 es]; [done|].
  assert (∀ es, es ≠ [] → join nl es +:+ nl = join nl (es ++ [""])) as Hjoin.
  { clear. induction es as [|e es IH]; [done|]. intros _. destruct es as [|e' es].
    - change (e +:+ nl = e +:+ nl +:+ ""). by rewrite sapp_nil_r.
    - change ((e :: e' :: es) ++ [""]) with (e :: ((e' :: es) ++ [""])).
      rewrite !join_cons by done. by rewrite !sapp_assoc, IH. }
  rewrite Hjoin by done. change nl with (String (Ascii.ascii_of_nat 10) ""). rewrite split_on_join.
  - clear Hjoin. revert Hes. generalize (e0 :: es). clear. induction l as [|e l IH]; intros Hes; [done|].
    cbn [app List.filter]. destruct (Hes e) as [Hne _]; [left|].
    rewrite (proj2 (String.eqb_neq _ _)) by done. cbn [negb]. f_equal. apply IH. intros. apply Hes. by right.
  - by destruct es.
  - intros w [Hw| ->%list_elem_of_singleton]%elem_of_app; [|done].
    destruct (Hes w Hw) as [_ Hc]. apply sexists_false in Hc. eapply sforall_not_in; [|exact Hc]. done.
Qed.

Lemma data_text_ok es t :
  data_text es = Ok t → t = join nl es +:+ match es with [] => "" | _ => nl end
  ∧ ∀ e, e ∈ es → sexists is_control e = false.
Proof.
  unfold data_text. destruct (existsb _ es) eqn:E; [done|]. intros <-%Ok_inj. split; [done|].
  by apply existsb_false.
Qed.

(** *** Entries and effective rules *)

Lemma elem_of_all_entries base es l :
  all_entries base es = Ok l →
  ∀ x, x ∈ l ↔ ∃ e ks, e ∈ es ∧ data_entries base e = Ok ks ∧ (x.1.1, (x.1.2, x.2)) ∈ ((e_action e,.) <$> ks).
Proof.
  revert l. induction es as [|e es IH]; intros l; cbn [all_entries].
  { intros <-%Ok_inj x. split; [by intros ?%elem_of_nil|]. by intros (e & ks & ?%elem_of_nil & _). }
  intros (here & Hhere & H)%res_bind_ok. apply res_bind_ok in H as (rest & Hrest & H). apply Ok_inj in H as <-.
  intros [[a k] v]. rewrite elem_of_app, (IH rest Hrest), list_elem_of_fmap. cbn. split.
  - intros [(kv & E & Hkv)|(e' & ks & He' & Hks & Hx)].
    + injection E as -> -> ->. exists e, here. split; [by left|]. split; [done|].
      apply list_elem_of_fmap. exists kv. by destruct kv.
    + exists e', ks. split; [by right|done].
  - intros (e' & ks & [->|He']%elem_of_cons & Hks & Hx).
    + rewrite Hhere in Hks. injection Hks as <-. apply list_elem_of_fmap in Hx as (kv & E & Hkv).
      injection E as -> <-. left. by exists (k, v).
    + right. eauto.
Qed.

Lemma elem_of_entries_of act k l v : v ∈ entries_of act k l ↔ (act, k, v) ∈ l.
Proof.
  unfold entries_of. rewrite elem_of_sorted_set, elem_of_list_to_set, list_elem_of_fmap. split.
  - intros ([[a k'] v'] & -> & [Hin Hk]%elem_of_filterb). apply bool_decide_eq_true in Hk.
    cbn in Hk. by injection Hk as -> ->.
  - intros Hin. exists (act, k, v). split; [done|]. apply elem_of_filterb. split; [done|]. by apply bool_decide_eq_true.
Qed.

Section refinement.
Context `{Dnsdist} (addr : query → ip) (sni : query → string) (path : query → option string).
Context (laws : dnsdist_laws addr sni path).
Context (base : string) (expanded : list effective) (l : list (action * data_kind * string)).
Context (all_readable : ∀ e, e ∈ expanded → readable e) (compiled : all_entries base expanded = Ok l).

(** The ClientID a query carries, in its TLS server name or in its path. *)
Definition presents (q : query) (clientid : option string) : Prop :=
  (∀ c, clientid = Some c → canonical_clientid c)
  ∧ ∀ c, canonical_clientid c →
      (clientid_sni_hostname c = Some (sni q) ∨ path q = Some (clientid_doh_path base c)) ↔ clientid = Some c.

Definition entry_matches (q : query) (k : data_kind) (v : string) : bool :=
  match k with
  | DataV4 | DataV6 => in_any (addr q) [v]
  | DataSni => bool_decide (sni q = v)
  | DataPath => bool_decide (path q = Some v)
  end.

Lemma entries_match e q c ks :
  readable e → unscoped (addr q) → presents q c → data_entries base e = Ok ks →
  existsb (λ kv, entry_matches q kv.1 kv.2) ks = effective_matches (Some (addr q)) c e.
Proof.
  intros Hr Hq [Hc Hpres]. unfold readable, data_entries, effective_matches in *.
  destruct (e_kind e) as [k|]; [|done]. destruct (e_value e) as [v|]; [|by destruct k].
  destruct k; cbn [rule_matches_ip].
  - destruct Hr as [n Hn]. intros <-%Ok_inj. rewrite decide_False by done. cbn. rewrite !orb_false_r.
    pose proof (host_network v _ Hn) as Hnet. cbn [is_v4 max_prefixlen] in Hnet. rewrite Hnet.
    rewrite (ip_in_host _ (IPv4 n)) by done. rewrite Hn. apply bool_decide_ext. split; congruence.
  - destruct Hr as [net Hnet]. intros <-%Ok_inj. rewrite decide_False by done. cbn. by rewrite !orb_false_r, Hnet.
  - destruct Hr as [n Hn]. intros <-%Ok_inj. rewrite decide_False by done. cbn. rewrite !orb_false_r.
    pose proof (host_network v _ Hn) as Hnet. cbn [is_v4 max_prefixlen] in Hnet. rewrite Hnet.
    rewrite (ip_in_host _ (IPv6 n None)) by done. rewrite Hn. apply bool_decide_ext. split; congruence.
  - destruct Hr as [net Hnet]. intros <-%Ok_inj. rewrite decide_False by done. cbn. by rewrite !orb_false_r, Hnet.
  - rewrite decide_True by done. specialize (Hpres v Hr).
    destruct (clientid_sni_hostname v) as [s|]; [|done]. intros <-%Ok_inj. cbn. rewrite orb_false_r.
    assert (bool_decide (sni q = s) || bool_decide (path q = Some (clientid_doh_path base v))
            = bool_decide (c = Some v)) as ->.
    { rewrite <-bool_decide_or. apply bool_decide_ext. rewrite <-Hpres. split; intros [E|E]; auto; left; congruence. }
    destruct (decide (c = Some v)) as [->|Hne].
    + rewrite !bool_decide_eq_true_2 by done. cbn. destruct (String.eqb_spec v "") as [->|]; [|done].
      destruct Hr as [_ [?|?]]; done.
    + rewrite !bool_decide_eq_false_2 by congruence. by rewrite andb_false_r.
Qed.

Lemma data_entries_readable e : readable e → ∃ ks, data_entries base e = Ok ks.
Proof.
  unfold readable, data_entries. destruct (e_kind e) as [[]|]; [..|done]; destruct (e_value e) as [v|]; try done; eauto.
  intros Hc. unfold clientid_sni_hostname. destruct (clientid_label_back v Hc) as (label & -> & _). cbn. eauto.
Qed.

(** What the compiled entries of one action match is what the effective rules of that
    action match. *)
Lemma compiled_matches act q c :
  unscoped (addr q) → presents q c →
  (∃ k v, (act, k, v) ∈ l ∧ entry_matches q k v = true)
  ↔ ∃ e, e ∈ expanded ∧ e_action e = act ∧ effective_matches (Some (addr q)) c e = true.
Proof.
  intros Hq Hc. split.
  - intros (k & v & Hin & Hm). apply (elem_of_all_entries _ _ _ compiled) in Hin as (e & ks & He & Hks & Hx).
    cbn in Hx. apply list_elem_of_fmap in Hx as (kv & E & Hkv). injection E as -> <-.
    exists e. split; [done|]. split; [done|]. rewrite <-(entries_match e q c ks) by auto.
    apply existsb_true. by exists (k, v).
  - intros (e & He & <- & Hm). destruct (data_entries_readable e) as [ks Hks]; [auto|].
    rewrite <-(entries_match e q c ks) in Hm by auto. apply existsb_true in Hm as ([k v] & Hkv & Hm).
    exists k, v. split; [|done]. apply (elem_of_all_entries _ _ _ compiled). exists e, ks. cbn.
    split; [done|]. split; [done|]. apply list_elem_of_fmap. by exists (k, v).
Qed.
End refinement.

Lemma sni_hostname_nonempty c s : clientid_sni_hostname c = Some s → s ≠ "".
Proof.
  unfold clientid_sni_hostname. destruct (clientid_dns_label c); [|done]. cbn. intros [= <-] E.
  apply sapp_eq_nil in E as [_ E]. done.
Qed.

Lemma compiled_entry_ok base es l k v act :
  (∀ e, e ∈ es → readable e) → all_entries base es = Ok l → (act, k, v) ∈ l →
  v ≠ "" ∧ ((k = DataV4 ∨ k = DataV6) → is_Some (ip_network v)).
Proof.
  intros Hr Hl Hin. apply (elem_of_all_entries _ _ _ Hl) in Hin as (e & ks & He & Hks & Hx). cbn in Hx.
  apply list_elem_of_fmap in Hx as (kv & E & Hkv). injection E as -> <-. apply Hr in He. clear Hr Hl.
  assert (is_Some (ip_network v) → v ≠ "") as Hne by (intros [n Hn] ->; discriminate).
  unfold readable, data_entries in *. destruct (e_kind e) as [kd|]; [|done].
  destruct (e_value e) as [w|]; [|by destruct kd].
  destruct kd; [destruct He as [n Hn]| |destruct He as [n Hn]| |].
  - apply Ok_inj in Hks as <-. apply list_elem_of_singleton in Hkv. injection Hkv as -> ->.
    pose proof (host_network _ _ Hn) as Hnet. cbn in Hnet. rewrite Hnet in *. eauto.
  - apply Ok_inj in Hks as <-. apply list_elem_of_singleton in Hkv. injection Hkv as -> ->. eauto.
  - apply Ok_inj in Hks as <-. apply list_elem_of_singleton in Hkv. injection Hkv as -> ->.
    pose proof (host_network _ _ Hn) as Hnet. cbn in Hnet. rewrite Hnet in *. eauto.
  - apply Ok_inj in Hks as <-. apply list_elem_of_singleton in Hkv. injection Hkv as -> ->. eauto.
  - destruct (clientid_sni_hostname w) as [s|] eqn:Es; [|done]. apply Ok_inj in Hks as <-.
    apply elem_of_cons in Hkv as [Hkv|Hkv%list_elem_of_singleton]; injection Hkv as -> ->.
    + split; [by eapply sni_hostname_nonempty|by intros [?|?]].
    + split; [|by intros [?|?]]. unfold clientid_doh_path. intros E. by apply sapp_eq_nil in E as [_ ?].
Qed.

(** What the include reads of the files [render_access_data] wrote. *)
Record reads_back (files : list (string * string)) (l : list (action * data_kind * string)) (policy : string) : Prop := {
  rb_allow_v4 : access_lines files DATA_ALLOW_V4 = entries_of Allow DataV4 l;
  rb_allow_v6 : access_lines files DATA_ALLOW_V6 = entries_of Allow DataV6 l;
  rb_deny_v4 : access_lines files DATA_DENY_V4 = entries_of Deny DataV4 l;
  rb_deny_v6 : access_lines files DATA_DENY_V6 = entries_of Deny DataV6 l;
  rb_allow_sni : access_lines files DATA_ALLOW_SNI = entries_of Allow DataSni l;
  rb_deny_sni : access_lines files DATA_DENY_SNI = entries_of Deny DataSni l;
  rb_allow_path : access_lines files DATA_ALLOW_PATH = entries_of Allow DataPath l;
  rb_deny_path : access_lines files DATA_DENY_PATH = entries_of Deny DataPath l;
  rb_policy : char_in (Ascii.ascii_of_nat 10) policy = false → lua_default_policy files = policy;
}.

Lemma rendered_reads_back rules clients policy base files :
  (∀ e, e ∈ expand_rules rules clients → readable e) →
  render_access_data rules clients policy base = Ok files →
  ∃ l, all_entries base (expand_rules rules clients) = Ok l ∧ reads_back files l policy.
Proof.
  intros Hr. unfold render_access_data.
  intros (l & Hl & H)%res_bind_ok. exists l. split; [done|].
  assert (∀ act k t, data_text (entries_of act k l) = Ok t →
    List.filter (λ line, negb (String.eqb line "")) (split_on (Ascii.ascii_of_nat 10) t) = entries_of act k l) as Hlines.
  { intros act k t Ht. apply data_text_ok in Ht as [-> Hc]. apply lua_lines. intros v Hv.
    split; [|by apply Hc]. apply elem_of_entries_of in Hv. by eapply compiled_entry_ok. }
  do 8 (apply res_bind_ok in H as (? & ?%Hlines & H)). apply Ok_inj in H as <-.
  split; [unfold access_lines; match goal with |- match ?d with _ => _ end = _ =>
            let d' := eval vm_compute in d in change d with d' end; assumption..|].
  intros Hp. unfold lua_default_policy.
  match goal with |- match ?d with _ => _ end = _ => assert (d = Some (policy +:+ nl)) as -> by reflexivity end.
  change nl with (String (Ascii.ascii_of_nat 10) ""). rewrite split_on_app by done. by destruct policy.
Qed.

Section gate_spec.
Context `{Dnsdist} (addr : query → ip) (sni : query → string) (path : query → option string).
Context (laws : dnsdist_laws addr sni path).
Context (base : string) (expanded : list effective) (l : list (action * data_kind * string)).
Context (all_readable : ∀ e, e ∈ expanded → readable e) (compiled : all_entries base expanded = Ok l).
Context (files : list (string * string)) (policy : string) (read : reads_back files l policy).

Definition loopback (a : ip) : bool := in_any a ["127.0.0.1/32"] || in_any a ["::1/128"].

Lemma in_any_app a es es' : in_any a (es ++ es') = in_any a es || in_any a es'.
Proof. apply existsb_app. Qed.

Lemma in_any_entries a act k :
  in_any a (entries_of act k l) = true ↔ ∃ v, (act, k, v) ∈ l ∧ in_any a [v] = true.
Proof.
  unfold in_any. rewrite existsb_true. split.
  - intros (v & Hv%elem_of_entries_of & Hm). exists v. cbn. by rewrite Hm.
  - intros (v & Hv & Hm). exists v. rewrite elem_of_entries_of. cbn in Hm. by rewrite orb_false_r in Hm.
Qed.

Lemma nets_parse act k e : k = DataV4 ∨ k = DataV6 → e ∈ entries_of act k l → is_Some (ip_network e).
Proof. intros Hk He%elem_of_entries_of. by eapply compiled_entry_ok. Qed.

Lemma nmg_rule_spec name act k q :
  k = DataV4 ∨ k = DataV6 → access_lines files name = entries_of act k l →
  nmg_rule files name q = in_any (addr q) (entries_of act k l).
Proof.
  intros Hk Hlines. unfold nmg_rule. rewrite Hlines. rewrite <-(law_nmg _ _ _ laws).
  - destruct (entries_of act k l) eqn:E; [|done]. by rewrite (law_nmg _ _ _ laws) by by intros ? ?%elem_of_nil.
  - intros e He. by eapply nets_parse.
Qed.

Lemma names_match q act k (f : string → query → bool) :
  (∀ v, f v q = entry_matches addr sni path q k v) →
  existsb (λ v, f v q) (entries_of act k l) = true
  ↔ ∃ v, (act, k, v) ∈ l ∧ entry_matches addr sni path q k v = true.
Proof.
  intros Hf. rewrite existsb_true. split; intros (v & Hv & Hm); exists v; rewrite ?elem_of_entries_of, Hf in *; auto.
Qed.

Lemma deny_rules_spec q c :
  unscoped (addr q) → presents sni path base q c →
  deny_rules files q = existsb (λ e, bool_decide (e_action e = Deny) && effective_matches (Some (addr q)) c e) expanded.
Proof.
  intros Hq Hc. apply eq_true_iff_eq. rewrite existsb_true.
  pose proof (compiled_matches addr sni path base expanded l all_readable compiled Deny q c Hq Hc) as Hm.
  transitivity (∃ k v, (Deny, k, v) ∈ l ∧ entry_matches addr sni path q k v = true).
  - unfold deny_rules. rewrite !orb_true_iff, (nmg_rule_spec _ Deny DataV4), (nmg_rule_spec _ Deny DataV6)
      by (auto; apply read).
    rewrite (rb_deny_sni _ _ _ read), (rb_deny_path _ _ _ read), !in_any_entries.
    rewrite (names_match q Deny DataSni sni_match), (names_match q Deny DataPath path_match)
      by (intros; first [apply (law_sni _ _ _ laws)|apply (law_path _ _ _ laws)]).
    split.
    + intros [[[(v & ?)|(v & ?)]|(v & ?)]|(v & ?)];
        [exists DataV4|exists DataV6|exists DataSni|exists DataPath]; by exists v.
    + intros ([] & v & ?); [left; left; left|left; left; right|left; right|right]; by exists v.
  - rewrite Hm. split; intros (e & He & Ha); exists e; (split; [done|]).
    + destruct Ha as [Ha Hb]. by rewrite bool_decide_eq_true_2, Hb.
    + apply andb_prop in Ha as [Ha Hb]. by apply bool_decide_eq_true in Ha.
Qed.

Lemma allow_gate_spec q c :
  unscoped (addr q) → presents sni path base q c →
  allow_gate files q
  = existsb (λ e, bool_decide (e_action e = Allow) && effective_matches (Some (addr q)) c e) expanded
    || loopback (addr q).
Proof.
  intros Hq Hc. apply eq_true_iff_eq. rewrite orb_true_iff, existsb_true.
  pose proof (compiled_matches addr sni path base expanded l all_readable compiled Allow q c Hq Hc) as Hm.
  transitivity ((∃ k v, (Allow, k, v) ∈ l ∧ entry_matches addr sni path q k v = true) ∨ loopback (addr q) = true).
  - unfold allow_gate, loopback. rewrite (rb_allow_v4 _ _ _ read), (rb_allow_v6 _ _ _ read).
    rewrite !(law_nmg _ _ _ laws).
    2, 3: intros e [He|He%list_elem_of_singleton]%elem_of_app;
      [eapply nets_parse; [|exact He]; auto|subst e; eexists; vm_compute; reflexivity].
    rewrite !in_any_app, !orb_true_iff, !in_any_entries.
    rewrite (rb_allow_sni _ _ _ read), (rb_allow_path _ _ _ read).
    rewrite (names_match q Allow DataSni sni_match), (names_match q Allow DataPath path_match)
      by (intros; first [apply (law_sni _ _ _ laws)|apply (law_path _ _ _ laws)]).
    split.
    + intros [[[[(v & ?)|?]|[(v & ?)|?]]|(v & ?)]|(v & ?)];
        [left; exists DataV4; by exists v|right; by left|left; exists DataV6; by exists v|right; by right
        |left; exists DataSni; by exists v|left; exists DataPath; by exists v].
    + intros [([] & v & ?)|[?|?]];
        [do 4 left|left; left; right; left|left; right|right|left; left; left; by right|left; left; right; by right];
        by exists v.
  - rewrite Hm. apply or_iff_compat_r. split; intros (e & He & Ha); exists e; (split; [done|]).
    + destruct Ha as [Ha Hb]. by rewrite bool_decide_eq_true_2, Hb.
    + apply andb_prop in Ha as [Ha Hb]. by apply bool_decide_eq_true in Ha.
Qed.
End gate_spec.

Lemma evaluate_allowed remote clientid rules clients policy a :
  ip_address remote = Some a →
  ad_allowed (evaluate_access (Some remote) clientid rules clients policy)
  = if existsb (λ e, bool_decide (e_action e = Deny) && effective_matches (Some a) clientid e) (expand_rules rules clients)
    then false
    else existsb (λ e, bool_decide (e_action e = Allow) && effective_matches (Some a) clientid e) (expand_rules rules clients)
         || String.eqb policy "allow".
Proof.
  intros Ha. unfold evaluate_access.
  assert (truthy (Some remote) = true) as -> by (by destruct remote).
  cbn [mbind option_bind]. rewrite Ha. set (es := expand_rules rules clients). clearbody es.
  assert (∀ (p m : effective → bool) l,
    existsb (λ e, p e && m e) l = match List.filter p (List.filter m l) with [] => false | _ => true end) as Hex.
  { clear. intros p m l. induction l as [|e l IH]; [done|]. cbn [existsb List.filter].
    destruct (m e); cbn [List.filter].
    - destruct (p e); [done|]. by rewrite IH.
    - by rewrite andb_false_r, IH. }
  rewrite !Hex. clear Hex.
  destruct (List.filter (λ e, bool_decide (e_action e = Deny)) _) as [|d ds]; [|done].
  assert (List.filter (λ e, bool_decide (e_action e = Allow)) (List.filter (effective_matches (Some a) clientid) es)
    = List.filter (λ e, negb (bool_decide (e_action e = Deny))) (List.filter (effective_matches (Some a) clientid) es)) as ->.
  { apply filter_ext. intros e. by destruct (e_action e). }
  by destruct (List.filter _ _).
Qed.

(** C16: The rules dnsdist runs refine the evaluation the web pages show.  For rules
    whose values read back as their kinds say, a query is refused exactly when an
    effective deny rule matches it, or when the evaluation does not allow it and it
    does not come from the loopback address; so for every other source the compiled
    rules refuse exactly what the evaluation denies. *)
Theorem gate_refines_evaluation `{Dnsdist} addr sni path rules clients policy base files remote clientid q :
  dnsdist_laws addr sni path → policy ∈ ["allow"; "deny"] →
  (∀ e, e ∈ expand_rules rules clients → readable e) →
  render_access_data rules clients policy base = Ok files →
  ip_address remote = Some (addr q) → unscoped (addr q) → presents sni path base q clientid →
  let allowed := ad_allowed (evaluate_access (Some remote) clientid rules clients policy) in
  refuses files q
  = existsb (λ e, bool_decide (e_action e = Deny) && effective_matches (Some (addr q)) clientid e)
      (expand_rules rules clients)
    || (negb allowed && negb (loopback (addr q)))
  ∧ (loopback (addr q) = false → refuses files q = negb allowed).
Proof.
  intros laws Hpolicy Hr Hfiles Ha Hq Hc allowed.
  destruct (rendered_reads_back _ _ _ _ _ Hr Hfiles) as (l & Hl & Hread).
  assert (refuses files q = existsb (λ e, bool_decide (e_action e = Deny) && effective_matches (Some (addr q)) clientid e)
      (expand_rules rules clients) || (negb allowed && negb (loopback (addr q)))) as Hmain.
  { unfold refuses. rewrite (rb_policy _ _ _ Hread) by (set_unfold in Hpolicy; by destruct Hpolicy as [-> |[-> |[]]]).
    erewrite deny_rules_spec, allow_gate_spec by eassumption. subst allowed. rewrite (evaluate_allowed _ _ _ _ _ _ Ha).
    destruct (existsb _ _); [done|]. cbn [orb]. rewrite negb_orb.
    assert (String.eqb policy "deny" = negb (String.eqb policy "allow")) as ->
      by (set_unfold in Hpolicy; by destruct Hpolicy as [-> |[-> |[]]]).
    by destruct (existsb _ _), (String.eqb policy "allow"), (loopback _). }
  split; [exact Hmain|]. intros Hloop. rewrite Hmain, Hloop. subst allowed.
  rewrite (evaluate_allowed _ _ _ _ _ _ Ha). destruct (existsb _ _); [done|]. by rewrite andb_true_r.
Qed.

(** A ClientID as the TLS server name: the labels of different ClientIDs differ. *)
Lemma presents_sni `{Dnsdist} sni path base q c :
  canonical_clientid c → clientid_sni_hostname c = Some (sni q) → path q = None →
  presents sni path base q (Some c).
Proof.
  intros Hc Hs Hp. split; [by intros c' [= <-]|]. intros c' Hc'. rewrite Hp. split; [|intros [= <-]; by left].
  intros [Hs'|?]; [|done]. f_equal. unfold clientid_sni_hostname in *.
  destruct (clientid_dns_label c) as [m|] eqn:E; [|done]. destruct (clientid_dns_label c') as [m'|] eqn:E'; [|done].
  cbn in *. injection Hs as Hs. injection Hs' as Hs'. rewrite <-Hs in Hs'. apply sapp_inv_tail in Hs' as ->.
  by eapply clientid_dns_label_inj.
Qed.

(** A ClientID in the path of a DNS-over-HTTPS request. *)
Lemma presents_path `{Dnsdist} sni path base q c :
  canonical_clientid c → path q = Some (clientid_doh_path base c) →
  (∀ c', clientid_sni_hostname c' ≠ Some (sni q)) → presents sni path base q (Some c).
Proof.
  intros Hc Hp Hs. split; [by intros c' [= <-]|]. intros c' Hc'. rewrite Hp. split; [|intros [= <-]; by right].
  intros [Hs'|Hp']; [by destruct (Hs c')|]. injection Hp' as E. unfold clientid_doh_path in E.
  apply (inj (String.append _)), (inj (String.append _)) in E. by rewrite E.
Qed.

(** A dnsdist that does what its documentation says, over source, server name and path. *)
Definition plain_dnsdist : Dnsdist := {|
  query := ip * string * option string;
  nmg_match := λ es q, in_any q.1.1 es;
  sni_match := λ s q, bool_decide (q.1.2 = s);
  path_match := λ p q, bool_decide (q.2 = Some p);
|}.

Lemma gate_refines_evaluation_witness :
  let _ := plain_dnsdist in
  let rules := [mkRule 1 Deny (RKIdent KIPv4Cidr) (Some "192.168.7.0/24") None ""] in
  ∃ files, render_access_data rules [] "allow" "/dns-query" = Ok files
    ∧ refuses files (IPv4 3232237315, "", None) = true
    ∧ ad_allowed (evaluate_access (Some "192.168.7.3") None rules [] "allow") = false.
Proof.
  intros D rules.
  destruct (render_access_data rules [] "allow" "/dns-query") as [files|e] eqn:E; [|vm_compute in E; discriminate].
  exists files. split; [done|].
  pose proof (@gate_refines_evaluation D (λ q, q.1.1) (λ q, q.1.2) (λ q, q.2) rules [] "allow" "/dns-query" files
    "192.168.7.3" None (IPv4 3232237315, "", None)) as Hgate.
  destruct Hgate as [_ Hgate].
  - split; done.
  - left.
  - intros e He. vm_compute in He. apply list_elem_of_singleton in He as ->.
    exists (Network (IPv4 3232237312) 24). vm_compute. reflexivity.
  - exact E.
  - vm_compute. reflexivity.
  - done.
  - split; [done|]. intros c Hc. split; [|done]. intros [Hs|Hs]; [|done].
    destruct (sni_hostname_nonempty _ _ Hs eq_refl).
  - assert (ad_allowed (evaluate_access (Some "192.168.7.3") None rules [] "allow") = false) as Ha by (vm_compute; reflexivity).
    rewrite Ha in Hgate. split; [|exact Ha]. apply Hgate. vm_compute. reflexivity.
Defined.

(** Under the default policy [deny] the evaluation denies a query from the loopback
    address that no rule mentions, and the compiled rules let it pass: the exemption
    the include makes for its own health checks is not in [evaluate_access]. *)
Theorem loopback_exempt_from_gate :
  let _ := plain_dnsdist in
  ∃ files, render_access_data [] [] "deny" "/dns-query" = Ok files
    ∧ refuses files (IPv4 2130706433, "", None) = false
    ∧ evaluate_access (Some "127.0.0.1") None [] [] "deny" = mkDecision false "default policy (deny)".
Proof.
  intros D. exists (match render_access_data [] [] "deny" "/dns-query" with Ok f => f | Raise _ => [] end).
  split; [vm_compute; reflexivity|]. split; vm_compute; reflexivity.
Qed.

(** ** The most specific name *)

(** An enabled client owns an identifier whose network holds the address. *)
Definition names (db : cdb) (a : ip) (name : string) (p : Z) : Prop :=
  ∃ i c net, i ∈ d_identifiers db ∧ c ∈ d_clients db ∧ c_id c = i_client i ∧ c_enabled c = true
    ∧ identifier_network (i_kind i) (i_value i) = Some net ∧ ip_in a net = true
    ∧ name = c_name c ∧ p = net_prefixlen net.

Definition row_names (a : ip) (rows : list (string * string)) (name : string) (p : Z) : Prop :=
  ∃ value net, (value, name) ∈ rows ∧ ip_network value = Some net ∧ ip_in a net = true ∧ p = net_prefixlen net.

Lemma best_name_spec a rows best :
  match best_name a best rows with
  | Some (p, name) =>
      (best = Some (p, name) ∨ row_names a rows name p)
      ∧ (∀ q n, best = Some (q, n) → (q ≤ p)%Z) ∧ (∀ q n, row_names a rows n q → (q ≤ p)%Z)
  | None => best = None ∧ ∀ n q, ¬ row_names a rows n q
  end.
Proof.
  revert best. induction rows as [|[value name] rows IH]; intros best; cbn [best_name].
  { destruct best as [[p n]|].
    - split; [by left|]. split; [by intros q m [= -> ->]|]. by intros q m (v & net & ?%elem_of_nil & _).
    - split; [done|]. by intros n q (v & net & ?%elem_of_nil & _). }
  assert (∀ n q, row_names a ((value, name) :: rows) n q ↔
    (∃ net, ip_network value = Some net ∧ ip_in a net = true ∧ q = net_prefixlen net ∧ n = name)
    ∨ row_names a rows n q) as Hrow.
  { intros n q. unfold row_names. split.
    - intros (v & net & [[= -> ->]|Hin]%elem_of_cons & Hn & Hi & ->); [left|right]; eauto 8.
    - intros [(net & Hn & Hi & -> & ->)|(v & net & Hin & Hn & Hi & ->)].
      + exists value, net. split; [by left|done].
      + exists v, net. split; [by right|done]. }
  destruct (ip_network value) as [net|] eqn:En.
  2:{ specialize (IH best). destruct (best_name a best rows) as [[p n]|].
      - destruct IH as (H1 & H2 & H3). split; [destruct H1; [by left|right; apply Hrow; by right]|].
        split; [done|]. intros q m [(? & ? & _)|?]%Hrow; [done|eauto].
      - destruct IH as [H1 H2]. split; [done|]. intros m q [(? & ? & _)|?]%Hrow; [done|by eapply H2]. }
  set (better := match best with None => true | Some (p, _) => (p <? net_prefixlen net)%Z end).
  specialize (IH (if ip_in a net && better then Some (net_prefixlen net, name) else best)).
  destruct (best_name a _ rows) as [[p n]|].
  - destruct IH as (H1 & H2 & H3). split_and!.
    + destruct H1 as [H1|H1]; [|right; apply Hrow; by right].
      destruct (ip_in a net && better) eqn:E; [|by left]. apply andb_prop in E as [E _].
      injection H1 as <- <-. right. apply Hrow. left. by exists net.
    + intros q m ->. destruct (ip_in a net && better) eqn:E; [|by eapply H2].
      apply andb_prop in E as [_ E]. subst better. cbn in E. apply Z.ltb_lt in E.
      specialize (H2 _ _ eq_refl). lia.
    + intros q m [(net' & [= <-] & Hi & -> & _)|?]%Hrow; [|by eapply H3]. rewrite Hi in H2. cbn [andb] in H2.
      subst better. destruct best as [[q' m']|]; [|by eapply H2].
      destruct (Z.ltb_spec q' (net_prefixlen net)); [by eapply H2|]. specialize (H2 _ _ eq_refl). lia.
  - destruct IH as [H1 H2]. destruct (ip_in a net && better) eqn:E; [done|]. subst best. cbn in E.
    rewrite andb_true_r in E. split; [done|].
    intros m q [(net' & [= <-] & Hi & _)|?]%Hrow; [congruence|by eapply H2].
Qed.

Lemma find_client_unique (cs : list client) c id :
  NoDup (c_id <$> cs) → c ∈ cs → c_id c = id → find_first (λ c, c_id c =? id)%Z cs = Some c.
Proof.
  intros Hnd Hin <-. destruct (find_first _ cs) as [c'|] eqn:E.
  - apply find_first_Some in E as (Hin' & E%Z.eqb_eq). f_equal. by apply (NoDup_fmap_inj c_id cs).
  - rewrite find_first_None in E. specialize (E c Hin). by rewrite Z.eqb_refl in E.
Qed.

Lemma named_networks_spec db a name p :
  clients_ok db → row_names a (named_networks db) name p ↔ names db a name p.
Proof.
  intros Hok. unfold row_names, names, named_networks, identifier_network. split.
  - intros (v & net & Hin & Hn & Hi & ->). apply list_elem_of_omap in Hin as (i & Hin & E).
    destruct (is_ip_kind (i_kind i)) eqn:Ek; [|done].
    destruct (find_first _ _) as [c|] eqn:Ef; [|done]. cbn in E.
    destruct (c_enabled c) eqn:Ec; [|done]. injection E as <- <-.
    apply find_first_Some in Ef as (Hc & Hid%Z.eqb_eq).
    exists i, c, net. by rewrite Ek.
  - intros (i & c & net & Hin & Hc & Hid & He & Hn & Hi & -> & ->).
    destruct (is_ip_kind (i_kind i)) eqn:Ek; [|done].
    exists (i_value i), net. split; [|done]. apply list_elem_of_omap. exists i. split; [done|].
    rewrite Ek, (find_client_unique _ c) by (done || apply Hok). cbn. by rewrite He.
Qed.

(** The name shown for an address is that of an enabled client whose identifier is
    the most specific network holding it; only when no enabled client's network holds
    it are the legacy aliases asked, and a text that is not an address has no name. *)
Theorem resolve_client_name_spec fallback now raw db :
  clients_ok db →
  let '(r, db') := resolve_client_name fallback now raw db in
  match ip_address raw with
  | None => r = None
  | Some a =>
      (∃ name p, r = Some name ∧ names db' a name p ∧ ∀ n q, names db' a n q → (q ≤ p)%Z)
      ∨ (r = fallback raw ∧ ∀ n q, ¬ names db' a n q)
  end.
Proof.
  intros Hok. unfold resolve_client_name. destruct (ip_address raw) as [a|]; [|done].
  apply (init_clients_ok now) in Hok. set (db' := init_clients now db) in *.
  pose proof (best_name_spec a (named_networks db') None) as Hbest.
  destruct (best_name a None _) as [[p name]|].
  - destruct Hbest as ([?|Hrow] & _ & Hmax); [done|]. left. exists name, p. split; [done|].
    split; [by apply named_networks_spec|]. intros n q Hn%named_networks_spec; [by eapply Hmax|done].
  - destruct Hbest as [_ Hnone]. right. split; [done|]. intros n q Hn%named_networks_spec; [by eapply Hnone|done].
Qed.

Lemma resolve_client_name_spec_witness :
  let db := (create_client "t" "lan" "" ["192.168.0.0/16"] true
              (create_client "t" "tv" "" ["192.168.1.0/24"] true empty_cdb).2).2 in
  clients_ok db ∧ ∃ p, names (init_clients "t" db) (IPv4 3232235785) "tv" p.
Proof.
  cbv zeta. set (db := (create_client _ _ _ _ _ _).2).
  assert (clients_ok db) as Hok.
  { do 2 apply create_client_ok. split; try constructor; by intros ? ?%elem_of_nil. }
  split; [done|]. pose proof (resolve_client_name_spec (λ _, None) "t" "192.168.1.9" db Hok) as Hspec.
  destruct (resolve_client_name _ _ _ db) as [r db'] eqn:E.
  assert (r = Some "tv") as Hr by (apply (f_equal fst) in E; vm_compute in E; done).
  assert (db' = init_clients "t" db) as -> by (apply (f_equal snd) in E; exact (eq_sym E)).
  assert (ip_address "192.168.1.9" = Some (IPv4 3232235785)) as Ha by (vm_compute; reflexivity).
  rewrite Ha in Hspec.
  destruct Hspec as [(name & p & Hn & Hnames & _)|[Hn _]]; [|rewrite Hr in Hn; discriminate Hn].
  exists p. rewrite Hr in Hn. injection Hn as <-. exact Hnames.
Defined.
