(* ===== verification/Layers.v ===== *)
(** * The two dnsdist layers

    The custom filtering rules and the access policy as instances of the generic
    layer of [DnsdistLayer]: which files each installs, the block that includes its
    Lua file, and what a deployment guarantees ([app/custom_rules.py] and
    [app/clients.py]). *)

From S2P Require Import Prelude PyStr StrLemmas World IpAddr PyJson PyRegex DomainName RegexGuard RuleParser RuleStore RuleCompile.
From S2P Require Import LocalDns LocalZones ClientId Clients Access DnsdistLayer.

(** [str(path)] of a directory *)
Definition dir_text (dir : string) : string := rstrip_char "/" dir.

(** ** The custom rules *)

(** app/custom_rules.py:36-40 CUSTOM_RULES_LUA_NAME *)
Definition CUSTOM_RULES_LUA_NAME : string := "custom-rules.conf".
Definition PASS_SUFFIX_DATA : string := "custom-pass-suffixes.txt".
Definition PASS_EXACT_DATA : string := "custom-pass-exact.txt".
Definition REGEX_ALLOW_DATA : string := "custom-regex-allow.txt".
Definition REGEX_BLOCK_DATA : string := "custom-regex-block.txt".

(** app/custom_rules.py:1332-1382 render_dnsdist_lua *)
Definition render_dnsdist_lua (data_dir : string) : string :=
  quoted (join nl [
    "-- Managed by Alderpoint DNS custom filtering rules. Do not edit by hand.";
    "-- Static loader: user-controlled values live only in the data files below";
    "-- (one entry per line); no user text is ever interpolated into Lua code.";
    "local alderpointdnsCustomDataDir = `" +:+ data_dir +:+ "`";
    "";
    "local function alderpointdnsCustomLines(name)";
    "  local entries = {}";
    "  local handle = io.open(alderpointdnsCustomDataDir .. `/` .. name, `r`)";
    "  if handle then";
    "    for line in handle:lines() do";
    "      if line ~= `` then";
    "        table.insert(entries, line)";
    "      end";
    "    end";
    "    handle:close()";
    "  end";
    "  return entries";
    "end";
    "";
    "-- 1. Local zones and subdomain allows/rewrites go straight to BIND.";
    "local alderpointdnsPassSuffixes = alderpointdnsCustomLines(`" +:+ PASS_SUFFIX_DATA +:+ "`)";
    "if #alderpointdnsPassSuffixes > 0 then";
    "  local suffixes = newSuffixMatchNode()";
    "  for _, entry in ipairs(alderpointdnsPassSuffixes) do";
    "    suffixes:add(newDNSName(entry))";
    "  end";
    "  addAction(SuffixMatchNodeRule(suffixes), PoolAction(`alderpointdns_bind`))";
    "end";
    "";
    "-- 2. Exact allows and exact rewrites go straight to BIND.";
    "local alderpointdnsPassNames = alderpointdnsCustomLines(`" +:+ PASS_EXACT_DATA +:+ "`)";
    "if #alderpointdnsPassNames > 0 then";
    "  local names = newDNSNameSet()";
    "  for _, entry in ipairs(alderpointdnsPassNames) do";
    "    names:add(newDNSName(entry))";
    "  end";
    "  addAction(QNameSetRule(names), PoolAction(`alderpointdns_bind`))";
    "end";
    "";
    "-- 3. Regex allows pass, then 4. regex blocks answer NXDOMAIN.";
    "for _, entry in ipairs(alderpointdnsCustomLines(`" +:+ REGEX_ALLOW_DATA +:+ "`)) do";
    "  addAction(RegexRule(entry), PoolAction(`alderpointdns_bind`))";
    "end";
    "for _, entry in ipairs(alderpointdnsCustomLines(`" +:+ REGEX_BLOCK_DATA +:+ "`)) do";
    "  addAction(RegexRule(entry), RCodeAction(DNSRCode.NXDOMAIN))";
    "end"]) +:+ nl.

(** The include block both layers insert, for the names of its two Lua variables. *)
Definition include_block (config file lua_path : string) : string :=
  quoted (join nl ["local " +:+ config +:+ " = `" +:+ lua_path +:+ "`";
                   "local " +:+ file +:+ " = io.open(" +:+ config +:+ ", `r`)";
                   "if " +:+ file +:+ " then";
                   "  " +:+ file +:+ ":close()";
                   "  dofile(" +:+ config +:+ ")";
                   "end"]) +:+ nl.

Definition custom_data_files (data : dnsdist_data) : list (string * string) :=
  [(PASS_SUFFIX_DATA, dd_pass_suffixes data); (PASS_EXACT_DATA, dd_pass_exact data);
   (REGEX_ALLOW_DATA, dd_regex_allow data); (REGEX_BLOCK_DATA, dd_regex_block data)].

(** The layer a data directory and a Lua template make. *)
Definition make_layer (lua_name : string) (template : string → string) (data_files : list (string * string))
    (block backup_prefix : string) (missing : pyexc) (seconds stage : string) : layer :=
  mkLayer ((lua_name, template (dir_text COMPILED_DNSDIST_DIR)) :: data_files)
    ((lua_name, template (dir_text stage)) :: data_files)
    lua_name block backup_prefix missing seconds stage.

(** app/custom_rules.py:1385-1409 ensure_dnsdist_custom_include *)
Definition custom_layer (data : dnsdist_data) (seconds stage : string) : layer :=
  make_layer CUSTOM_RULES_LUA_NAME render_dnsdist_lua (custom_data_files data)
    (include_block "alderpointdnsCustomRulesConfig" "alderpointdnsCustomRulesFile"
       (COMPILED_DNSDIST_DIR +:+ CUSTOM_RULES_LUA_NAME))
    "dnsdist.conf.pre-custom-rules."
    (CustomRuleError "dnsdist.conf is missing the default bind-pool action marker") seconds stage.

(** app/custom_rules.py:1422-1473 deploy_dnsdist_layer

    [seconds] is the clock, [tmp] the name [mkdtemp] makes, [local] the local DNS
    tables if they exist. *)
Definition deploy_dnsdist_layer (active : ActiveRuleSet) (local : option ldb) (seconds tmp : string)
    : M (bool * list backup_entry) :=
  data ← lift (render_dnsdist_data active (local_zone_names local));
  deploy_layer (custom_layer data seconds (STAGING_DIR +:+ "alderpointdns-custom-rules-" +:+ tmp +:+ "/")).

(** ** The access policy *)

(** app/clients.py:51-51 ACCESS_LUA_NAME *)
Definition ACCESS_LUA_NAME : string := "access-policy.conf".

(** app/clients.py:962-989 ensure_dnsdist_access_include *)
Definition access_layer (data_files : list (string * string)) (seconds stage : string) : layer :=
  make_layer ACCESS_LUA_NAME render_access_lua data_files
    (include_block "alderpointdnsAccessConfig" "alderpointdnsAccessFile"
       (COMPILED_DNSDIST_DIR +:+ ACCESS_LUA_NAME))
    "dnsdist.conf.pre-access-policy."
    (AccessPolicyError "dnsdist.conf is missing the default bind-pool action marker") seconds stage.

(** The data files of the access policy as the tables are now. *)
Definition access_data_files (doh_path : option string) (db : cdb) : res (list (string * string)) :=
  doh_paths ← render_doh_clientid_paths doh_path db;
  files ← render_access_data (list_access_rules db) (list_clients db) (default "allow" (d_policy db)) (doh_base doh_path);
  Ok (files ++ [(DATA_DOH_CLIENTID_PATHS, doh_paths)]).

(** app/clients.py:1003-1067 deploy_access_layer

    With the tables after [init_db] migrated what it had to. *)
Definition deploy_access_layer (now : string) (doh_path : option string) (db : cdb) (seconds tmp : string)
    : M (bool * list backup_entry) * cdb :=
  let db := init_clients now db in
  (files ← lift (access_data_files doh_path db);
   deploy_layer (access_layer files seconds (STAGING_DIR +:+ "alderpointdns-access-policy-" +:+ tmp +:+ "/")), db).

(** app/clients.py:1070-1104 ensure_access_data_files *)
Definition ensure_access_data_files (now : string) (doh_path : option string) (db : cdb) : M bool * cdb :=
  let db := init_clients now db in
  (data_files ← lift (access_data_files doh_path db);
   let targets := (ACCESS_LUA_NAME, render_access_lua (dir_text COMPILED_DNSDIST_DIR)) :: data_files in
   changed ← any_changed targets;
   _ ← when changed (_ ← for_each targets (λ t, write_text (target_path t.1) t.2); mret ());
   mret changed, db).

(** app/clients.py:1107-1111 rollback_access_layer *)
Definition rollback_access_layer (info : bool * list backup_entry) : M () := rollback_layer info.

(** ** What a deployment guarantees *)

(** The files of a layer, by name. *)
Definition layer_files (lua_name : string) (template : string → string) (data_files : list (string * string))
    : list (string * string) :=
  (lua_name, template (dir_text COMPILED_DNSDIST_DIR)) :: data_files.

(** A deployment succeeded: the files are in place, and dnsdist was restarted last if
    any of them changed; nothing was touched otherwise. *)
Definition installed (files : list (string * string)) (changed : bool) (w w' : world) : Prop :=
  (∀ n t, (n, t) ∈ files → w_files w' !! target_path n = Some t)
  ∧ (changed = true → last_command w' = Some restart) ∧ (changed = false → w' = w).

(** A deployment failed: the files are as they were, and if dnsdist was restarted
    with the new ones it was restarted again after they were taken back. *)
Definition taken_back (names : list string) (w w' : world) : Prop :=
  (∀ n, n ∈ names → w_files w' !! target_path n = w_files w !! target_path n)
  ∧ ∃ log, w_log w' = w_log w ++ log ∧ (Forall not_restart log ∨ last log = Some restart).

Lemma deploy_layer_guarantee l w :
  layer_ok l →
  match deploy_layer l w with
  | (Ok (changed, _), w') => installed (l_targets l) changed w w'
  | (Raise _, w') => taken_back (l_targets l).*1 w w'
  end.
Proof.
  intros Hok. pose proof (deploy_layer_outcome l w Hok) as [Hf Hsame Hin Hre Hback Hlog].
  destruct (deploy_layer l w) as [[[changed bs]|e] w']; cbn [fst snd] in *.
  - split; [by intros n t; apply (Hin changed bs)|]. split.
    + intros ->. by apply (Hre bs).
    + intros ->. by destruct (Hsame bs eq_refl).
  - split; [by intros n; apply (Hback e)|by apply (Hlog e)].
Qed.

Definition custom_names : list string :=
  [CUSTOM_RULES_LUA_NAME; PASS_SUFFIX_DATA; PASS_EXACT_DATA; REGEX_ALLOW_DATA; REGEX_BLOCK_DATA].
Definition access_names : list string :=
  [ACCESS_LUA_NAME; DATA_ALLOW_V4; DATA_ALLOW_V6; DATA_DENY_V4; DATA_DENY_V6; DATA_ALLOW_SNI; DATA_DENY_SNI;
   DATA_ALLOW_PATH; DATA_DENY_PATH; DATA_POLICY; DATA_DOH_CLIENTID_PATHS].

Lemma access_data_names doh db files :
  access_data_files doh db = Ok files → ACCESS_LUA_NAME :: files.*1 = access_names.
Proof.
  unfold access_data_files, render_access_data.
  intros (paths & _ & H)%res_bind_ok. apply res_bind_ok in H as (fs & Hfs & H). apply Ok_inj in H as <-.
  do 9 (apply res_bind_ok in Hfs as (? & _ & Hfs)). apply Ok_inj in Hfs as <-. reflexivity.
Qed.

Lemma custom_layer_ok data seconds tmp :
  layer_ok (custom_layer data seconds (STAGING_DIR +:+ "alderpointdns-custom-rules-" +:+ tmp +:+ "/")).
Proof.
  split; [|by eexists]. change (NoDup custom_names). apply (bool_decide_eq_true_1 _). vm_compute. reflexivity.
Qed.

Lemma access_layer_ok doh db files seconds tmp :
  access_data_files doh db = Ok files →
  layer_ok (access_layer files seconds (STAGING_DIR +:+ "alderpointdns-access-policy-" +:+ tmp +:+ "/")).
Proof.
  intros Hf. split; [|by eexists]. change (NoDup (ACCESS_LUA_NAME :: files.*1)).
  rewrite (access_data_names _ _ _ Hf). apply (bool_decide_eq_true_1 _). vm_compute. reflexivity.
Qed.

(** Deploying the access policy either puts in place exactly the files compiled from
    the tables, and restarts dnsdist when any of them changed, or leaves every file of
    the layer as it was and dnsdist not running with the new ones, for every behaviour
    of the commands. *)
Theorem deploy_access_layer_spec now doh_path db seconds tmp w :
  let '(deployment, db') := deploy_access_layer now doh_path db seconds tmp in
  match deployment w with
  | (Ok (changed, _), w') => ∃ files, access_data_files doh_path db' = Ok files
      ∧ installed (layer_files ACCESS_LUA_NAME render_access_lua files) changed w w'
  | (Raise _, w') => taken_back access_names w w'
  end.
Proof.
  unfold deploy_access_layer. rewrite bind_M. unfold lift.
  destruct (access_data_files doh_path _) as [files|e] eqn:Ef.
  2:{ split; [done|]. exists []. rewrite app_nil_r. split; [done|by left]. }
  pose proof (access_layer_ok _ _ _ seconds tmp Ef) as Hok.
  pose proof (deploy_layer_guarantee _ w Hok) as Hg.
  destruct (deploy_layer _ w) as [[[changed bs]|e] w'].
  - by exists files.
  - change (_.*1) with (ACCESS_LUA_NAME :: files.*1) in Hg. by rewrite (access_data_names _ _ _ Ef) in Hg.
Qed.

(** Deploying the custom rules gives the same guarantee, and a deployment that was
    followed by a failure further on is undone by [rollback_dnsdist_layer]: the files
    of the layer are again what they were before it. *)
Theorem deploy_dnsdist_layer_spec active local seconds tmp w :
  match deploy_dnsdist_layer active local seconds tmp w with
  | (Ok (changed, bs), w') => ∃ data, render_dnsdist_data active (local_zone_names local) = Ok data
      ∧ installed (layer_files CUSTOM_RULES_LUA_NAME render_dnsdist_lua (custom_data_files data)) changed w w'
      ∧ ∀ n, n ∈ custom_names →
          w_files (rollback_layer (changed, bs) w').2 !! target_path n = w_files w !! target_path n
  | (Raise _, w') => taken_back custom_names w w'
  end.
Proof.
  unfold deploy_dnsdist_layer. rewrite bind_M. unfold lift.
  destruct (render_dnsdist_data active _) as [data|e] eqn:Ed.
  2:{ split; [done|]. exists []. rewrite app_nil_r. split; [done|by left]. }
  pose proof (custom_layer_ok data seconds tmp) as Hok.
  pose proof (deploy_layer_guarantee _ w Hok) as Hg.
  pose proof (λ bs w' n, rollback_layer_restores _ w bs w' w' n Hok) as Hroll.
  destruct (deploy_layer _ w) as [[[[] bs]|e] w'].
  - exists data. split; [done|]. split; [done|]. intros n Hn. by apply (Hroll bs w').
  - exists data. split; [done|]. split; [done|]. intros n Hn.
    destruct Hg as (_ & _ & Hsame). by rewrite Hsame.
  - done.
Qed.
