(* ===== verification/DnsCache.v ===== *)
(** * DNS cache tuning

    The settings of BIND's cache, their deployment and the queue of cache flushes
    ([app/dns_cache.py]). *)

From S2P Require Import Prelude PyStr StrLemmas IpAddr PyJson JsonText JsonRead World.

#[local] Open Scope Z_scope.

Definition DNSCacheError (message : string) : pyexc := PyExc "DNSCacheError" message.

(** ** Settings *)

(** app/dns_cache.py:91-96 detect_default_cache_size_mb

    [total_mb] is what [detect_total_memory_mb] reads from the system. *)
Definition detect_default_cache_size_mb (total_mb : Z) : Z := Z.max 64 (Z.min 512 (total_mb / 8)).

(** app/dns_cache.py:99-112 DEFAULTS *)
Definition DEFAULTS : list (string * string) :=
  [("min_cache_ttl", "0"); ("max_cache_ttl", "604800"); ("min_ncache_ttl", "0"); ("max_ncache_ttl", "10800");
   ("prefetch_enabled", "0"); ("prefetch_trigger", "2"); ("prefetch_eligible", "10");
   ("serve_stale_enabled", "0"); ("max_stale_ttl", "86400"); ("stale_answer_client_timeout", "off");
   ("recursive_clients", "1000")].

(** app/dns_cache.py:115-156 init_db

    The settings table after the defaults were inserted where nothing was stored. *)
Definition init_settings (total_mb : Z) (settings : gmap string string) : gmap string string :=
  settings ∪ list_to_map (("max_cache_size_mb", str_int (detect_default_cache_size_mb total_mb)) :: DEFAULTS).

(** app/dns_cache.py:170-177 _validate_int *)
Definition validate_int (name : string) (value : json) (min_v max_v : Z) : res Z :=
  match py_int value with
  | Raise _ => Raise (DNSCacheError (name +:+ " must be an integer"))
  | Ok parsed =>
      if (min_v <=? parsed) && (parsed <=? max_v) then Ok parsed
      else Raise (DNSCacheError (name +:+ " must be between " +:+ str_int min_v +:+ " and " +:+ str_int max_v))
  end.

Definition is_true_text (s : string) : bool := bool_decide (s ∈ ["1"; "true"; "on"; "yes"]).
Definition flag (b : bool) : string := if b then "1" else "0".

(** The validated settings, by key. *)
Record cache_settings := mkCacheSettings {
  cs_size : Z; cs_min_ttl : Z; cs_max_ttl : Z; cs_min_ncache : Z; cs_max_ncache : Z;
  cs_prefetch : bool; cs_trigger : Z; cs_eligible : Z;
  cs_stale : bool; cs_max_stale : Z; cs_timeout : option Z; cs_recursive : Z }.

Definition settings_to_rows (s : cache_settings) : list (string * string) :=
  [("max_cache_size_mb", str_int (cs_size s)); ("min_cache_ttl", str_int (cs_min_ttl s));
   ("max_cache_ttl", str_int (cs_max_ttl s)); ("min_ncache_ttl", str_int (cs_min_ncache s));
   ("max_ncache_ttl", str_int (cs_max_ncache s)); ("prefetch_enabled", flag (cs_prefetch s));
   ("prefetch_trigger", str_int (cs_trigger s)); ("prefetch_eligible", str_int (cs_eligible s));
   ("serve_stale_enabled", flag (cs_stale s)); ("max_stale_ttl", str_int (cs_max_stale s));
   ("stale_answer_client_timeout", match cs_timeout s with Some t => str_int t | None => "off" end);
   ("recursive_clients", str_int (cs_recursive s))].

Definition max_size_ceiling (total_mb : Z) : Z := Z.max 64 ((total_mb * 3) / 4).

(** app/dns_cache.py:180-209 validate_settings *)
Definition validate_settings (total_mb : Z) (values : gmap string json) : res cache_settings :=
  let get key dflt := default dflt (values !! key) in
  size ← validate_int "max_cache_size_mb" (get "max_cache_size_mb" JNull) 16 (max_size_ceiling total_mb);
  min_ttl ← validate_int "min_cache_ttl" (get "min_cache_ttl" JNull) 0 86400;
  max_ttl ← validate_int "max_cache_ttl" (get "max_cache_ttl" JNull) 0 2592000;
  _ ← raise_if (max_ttl <? min_ttl) (DNSCacheError "min_cache_ttl must not exceed max_cache_ttl");
  min_ncache ← validate_int "min_ncache_ttl" (get "min_ncache_ttl" JNull) 0 86400;
  max_ncache ← validate_int "max_ncache_ttl" (get "max_ncache_ttl" JNull) 0 604800;
  _ ← raise_if (max_ncache <? min_ncache) (DNSCacheError "min_ncache_ttl must not exceed max_ncache_ttl");
  let prefetch := is_true_text (py_str (get "prefetch_enabled" (JStr "0"))) in
  trigger ← validate_int "prefetch_trigger" (get "prefetch_trigger" (JInt 2)) 1 3600;
  eligible ← validate_int "prefetch_eligible" (get "prefetch_eligible" (JInt 10)) trigger 86400;
  let stale := is_true_text (py_str (get "serve_stale_enabled" (JStr "0"))) in
  max_stale ← validate_int "max_stale_ttl" (get "max_stale_ttl" (JInt 86400)) 60 604800;
  let timeout_raw := lower (strip (py_str (get "stale_answer_client_timeout" (JStr "off")))) in
  timeout ← (if String.eqb timeout_raw "off" || String.eqb timeout_raw "" then Ok None
             else t ← validate_int "stale_answer_client_timeout" (JStr timeout_raw) 0 60000; Ok (Some t));
  recursive ← validate_int "recursive_clients" (get "recursive_clients" (JInt 1000)) 100 100000;
  Ok (mkCacheSettings size min_ttl max_ttl min_ncache max_ncache prefetch trigger eligible stale max_stale timeout recursive).

(** app/dns_cache.py:212-220 update_settings *)
Definition update_settings (total_mb : Z) (values : gmap string json) (settings : gmap string string)
    : res (gmap string string) :=
  s ← validate_settings total_mb values;
  Ok (foldl (λ m kv, <[kv.1 := kv.2]> m) (init_settings total_mb settings) (settings_to_rows s)).

(** [int(cfg[key])] *)
Definition cfg_int (cfg : gmap string string) (key : string) : res Z :=
  match cfg !! key with
  | None => Raise (PyExc "KeyError" key)
  | Some v => py_int (JStr v)
  end.

(** app/dns_cache.py:223-244 render_cache_options *)
Definition render_cache_options (cfg : gmap string string) : res string :=
  size ← cfg_int cfg "max_cache_size_mb";
  min_ttl ← cfg_int cfg "min_cache_ttl";
  max_ttl ← cfg_int cfg "max_cache_ttl";
  min_ncache ← cfg_int cfg "min_ncache_ttl";
  max_ncache ← cfg_int cfg "max_ncache_ttl";
  recursive ← py_int (JStr (default "1000" (cfg !! "recursive_clients")));
  prefetch ← (if bool_decide (cfg !! "prefetch_enabled" = Some "1")
              then t ← cfg_int cfg "prefetch_trigger"; e ← cfg_int cfg "prefetch_eligible";
                   Ok ("prefetch " +:+ str_int t +:+ " " +:+ str_int e +:+ ";")
              else Ok "prefetch 0;");
  stale ← (if bool_decide (cfg !! "serve_stale_enabled" = Some "1")
           then m ← cfg_int cfg "max_stale_ttl";
                Ok ["stale-answer-enable yes;"; "max-stale-ttl " +:+ str_int m +:+ ";";
                    "stale-answer-client-timeout " +:+ default "off" (cfg !! "stale_answer_client_timeout") +:+ ";"]
           else Ok ["stale-answer-enable no;"]);
  Ok (join nl (["// Managed by Alderpoint DNS. Generated cache tuning options; do not edit by hand.";
                "max-cache-size " +:+ str_int size +:+ "m;"; "min-cache-ttl " +:+ str_int min_ttl +:+ ";";
                "max-cache-ttl " +:+ str_int max_ttl +:+ ";"; "min-ncache-ttl " +:+ str_int min_ncache +:+ ";";
                "max-ncache-ttl " +:+ str_int max_ncache +:+ ";"; "recursive-clients " +:+ str_int recursive +:+ ";";
                prefetch] ++ stale) +:+ nl).

(** ** Deployment *)

Definition CACHE_OPTIONS_CONF : string := "/var/lib/alderpointdns/compiled/bind/cache-options.conf".
Definition NAMED_OPTIONS_CONF : string := "/etc/bind/named.conf.options".
Definition CACHE_BACKUP_DIR : string := "/var/lib/alderpointdns/backups/".
Definition CACHE_STAGING_DIR : string := "/var/lib/alderpointdns/staging/".

(** app/dns_cache.py:247-266 ensure_named_options_include *)
Definition ensure_named_options_include (seconds : string) : M bool :=
  let include_line := quoted (tab +:+ "include `" +:+ CACHE_OPTIONS_CONF +:+ "`;") in
  conf ← get_file NAMED_OPTIONS_CONF;
  let current := default "" conf in
  if contains CACHE_OPTIONS_CONF current then mret false
  else if negb (contains "options {" current)
  then raise (DNSCacheError "named.conf.options is missing an options block")
  else
    _ ← when (bool_decide (is_Some conf))
          (copy2 NAMED_OPTIONS_CONF (CACHE_BACKUP_DIR +:+ "named.conf.options.pre-cache." +:+ seconds));
    _ ← write_text NAMED_OPTIONS_CONF
          (replace_first "options {" ("options {" +:+ nl +:+ include_line +:+ nl) current);
    mret true.

(** app/dns_cache.py:273-275 resolves *)
Definition resolves (domain : string) : M bool :=
  r ← run ["dig"; "@127.0.0.1"; "-p"; "5353"; domain; "A"; "+time=3"; "+tries=1"] false;
  mret ((r.1 =? 0) && contains "status: NOERROR" r.2 && contains (tab +:+ "A" +:+ tab) r.2).

(** A row of [dns_cache_deployments]; the sanitised texts are left out. *)
Record cache_deploy := mkCacheDeploy { cd_id : Z; cd_status : string }.

Definition install_cache (seconds stage : string) (cfg : gmap string string) : M () :=
  content ← lift (render_cache_options cfg);
  let staged := stage +:+ "cache-options.conf" in
  _ ← write_text staged content;
  live ← exists_ CACHE_OPTIONS_CONF;
  _ ← when live (copy2 CACHE_OPTIONS_CONF (CACHE_BACKUP_DIR +:+ "cache-options.conf.last-good." +:+ seconds));
  replace staged CACHE_OPTIONS_CONF.

Definition activate_cache (seconds : string) : M () :=
  _ ← ensure_named_options_include seconds;
  _ ← run_ ["named-checkconf"; "-p"; "/etc/bind/named.conf"] true;
  _ ← run_ ["rndc"; "reconfig"] true;
  ok ← resolves "cloudflare.com";
  if (ok : bool) then mret ()
  else raise (PyExc "RuntimeError" "post-deploy ordinary resolution failed after cache options reload").

Definition roll_back_cache (seconds : string) : M () :=
  let backup := CACHE_BACKUP_DIR +:+ "cache-options.conf.last-good." +:+ seconds in
  saved ← exists_ backup;
  live ← exists_ CACHE_OPTIONS_CONF;
  _ ← (if (saved : bool) then copy2 backup CACHE_OPTIONS_CONF else when live (unlink CACHE_OPTIONS_CONF));
  run_ ["rndc"; "reconfig"] false.

(** app/dns_cache.py:278-345 deploy_cache_options

    The new table of deployments and the id, or the exception. *)
Definition deploy_cache_options (total_mb : Z) (settings : gmap string string) (seconds stage : string)
    (deps : list cache_deploy) : M (list cache_deploy * res Z) :=
  let id := fresh_id (cd_id <$> deps) in
  r ← attempt (install_cache seconds stage (init_settings total_mb settings));
  out ← match r with
        | Raise e => mret ("failed", Raise e)
        | Ok _ =>
            r ← attempt (activate_cache seconds);
            match r with
            | Ok _ => mret ("deployed", Ok id)
            | Raise e =>
                r ← attempt (roll_back_cache seconds);
                mret (if is_ok r then "rolled_back" else "rollback_failed", Raise e)
            end
        end;
  _ ← rmtree stage;
  mret (deps ++ [mkCacheDeploy id out.1], out.2).

(** ** Flushes *)

Inductive flush_scope := ScopeAll | ScopeName | ScopeTree.
#[export] Instance flush_scope_eq_dec : EqDecision flush_scope.
Proof. solve_decision. Defined.

Inductive flush_status := Pending | Completed | Failed | Skipped.
#[export] Instance flush_status_eq_dec : EqDecision flush_status.
Proof. solve_decision. Defined.

(** A row of [dns_cache_flushes]; the times are left out. *)
Record flush := mkFlush {
  f_id : Z; f_scope : flush_scope; f_target : option string; f_status : flush_status; f_message : string }.

(** app/dns_cache.py:351-367 request_flush *)
Definition request_flush (scope : string) (target : option string) (rows : list flush) : res (Z * list flush) :=
  let id := fresh_id (f_id <$> rows) in
  let insert s t := Ok (id, rows ++ [mkFlush id s t Pending ""]) in
  if String.eqb scope "all" then insert ScopeAll target
  else if String.eqb scope "name" || String.eqb scope "tree" then
    let s := if String.eqb scope "name" then ScopeName else ScopeTree in
    match target with
    | None => Raise (DNSCacheError ("flush scope '" +:+ scope +:+ "' requires a target name"))
    | Some t =>
        if String.eqb (strip t) "" then Raise (DNSCacheError ("flush scope '" +:+ scope +:+ "' requires a target name"))
        else
          let t := lower (rstrip_char "." (strip t)) in
          if forallb (λ part, negb (String.eqb part "") && (slen part <=? 63)%nat) (split_on "." t)
          then insert s (Some t) else Raise (DNSCacheError "invalid target name")
    end
  else Raise (DNSCacheError ("unknown flush scope '" +:+ scope +:+ "'")).

Definition is_pending (f : flush) : bool := bool_decide (f_status f = Pending).

(** [ORDER BY id DESC LIMIT 1] *)
Fixpoint newest (best : option flush) (rows : list flush) : option flush :=
  match rows with
  | [] => best
  | f :: rows =>
      newest (if is_pending f && match best with Some b => f_id b <? f_id f | None => true end
              then Some f else best) rows
  end.

Definition flush_command (f : flush) : list string * string :=
  let target := default "" (f_target f) in
  match f_scope f with
  | ScopeAll => (["rndc"; "flush"], "flushed entire cache")
  | ScopeName => (["rndc"; "flushname"; target], "flushed name " +:+ target)
  | ScopeTree => (["rndc"; "flushtree"; target], "flushed subtree " +:+ target)
  end.

(** app/dns_cache.py:370-411 process_pending_flush *)
Definition process_pending_flush (rows : list flush) : M (option Z * list flush) :=
  match newest None rows with
  | None => mret (None, rows)
  | Some row =>
      r ← attempt (run_ (flush_command row).1 true);
      let '(status, message) :=
        match r with Ok _ => (Completed, (flush_command row).2) | Raise e => (Failed, exc_message e) end in
      mret (Some (f_id row),
        (λ f, if f_id f =? f_id row then mkFlush (f_id f) (f_scope f) (f_target f) status message
              else if is_pending f then mkFlush (f_id f) (f_scope f) (f_target f) Skipped (f_message f)
              else f) <$> rows)
  end.

(** ** Bounds *)

Lemma validate_int_ok name v lo hi z : validate_int name v lo hi = Ok z → py_int v = Ok z ∧ lo ≤ z ≤ hi.
Proof.
  unfold validate_int. destruct (py_int v) as [p|]; [|done]. destruct (_ && _) eqn:E; [|done].
  intros <-%Ok_inj. apply andb_prop in E as [?%Z.leb_le ?%Z.leb_le]. done.
Qed.

(** Every setting within its bounds, and consistent with the others. *)
Record settings_ok (total_mb : Z) (s : cache_settings) : Prop := {
  so_size : 16 ≤ cs_size s ≤ Z.max 64 (total_mb * 3 / 4);
  so_ttl : 0 ≤ cs_min_ttl s ≤ 86400 ∧ cs_min_ttl s ≤ cs_max_ttl s ≤ 2592000;
  so_ncache : 0 ≤ cs_min_ncache s ≤ 86400 ∧ cs_min_ncache s ≤ cs_max_ncache s ≤ 604800;
  so_prefetch : 1 ≤ cs_trigger s ≤ 3600 ∧ cs_trigger s ≤ cs_eligible s ≤ 86400;
  so_stale : 60 ≤ cs_max_stale s ≤ 604800;
  so_timeout : ∀ t, cs_timeout s = Some t → 0 ≤ t ≤ 60000;
  so_recursive : 100 ≤ cs_recursive s ≤ 100000;
}.

Lemma validate_settings_ok total_mb values s : validate_settings total_mb values = Ok s → settings_ok total_mb s.
Proof.
  unfold validate_settings.
  intros (size & [_ Hsize]%validate_int_ok & H)%res_bind_ok.
  apply res_bind_ok in H as (min_ttl & [_ Hmin]%validate_int_ok & H).
  apply res_bind_ok in H as (max_ttl & [_ Hmax]%validate_int_ok & H).
  apply res_bind_ok in H as ([] & Ht%raise_if_ok & H).
  apply res_bind_ok in H as (min_n & [_ Hminn]%validate_int_ok & H).
  apply res_bind_ok in H as (max_n & [_ Hmaxn]%validate_int_ok & H).
  apply res_bind_ok in H as ([] & Hn%raise_if_ok & H).
  apply res_bind_ok in H as (trigger & [_ Htrigger]%validate_int_ok & H).
  apply res_bind_ok in H as (eligible & [_ Heligible]%validate_int_ok & H).
  apply res_bind_ok in H as (stale & [_ Hstale]%validate_int_ok & H).
  apply res_bind_ok in H as (timeout & Htimeout & H).
  apply res_bind_ok in H as (recursive & [_ Hrecursive]%validate_int_ok & H).
  apply Ok_inj in H as <-. apply Z.ltb_ge in Ht, Hn. unfold max_size_ceiling in Hsize.
  split; cbn; try lia.
  intros t ->. destruct (_ || _); [done|].
  apply res_bind_ok in Htimeout as (t' & [_ Hb]%validate_int_ok & E). apply Ok_inj in E. by injection E as ->.
Qed.

Lemma update_settings_ok total_mb values settings settings' :
  update_settings total_mb values settings = Ok settings' →
  ∃ s, validate_settings total_mb values = Ok s ∧ settings_ok total_mb s
    ∧ ∀ key value, (key, value) ∈ settings_to_rows s → settings' !! key = Some value.
Proof.
  unfold update_settings. intros (s & Hs & <-%Ok_inj)%res_bind_ok. exists s.
  split; [done|]. split; [by eapply validate_settings_ok|].
  intros key value Hin. cbn in Hin. set_unfold in Hin. cbn [foldl settings_to_rows fst snd].
  repeat destruct Hin as [Hin|Hin]; try done; injection Hin as -> ->;
    repeat (rewrite lookup_insert_eq || rewrite lookup_insert_ne by done); done.
Qed.

(** Settings are only accepted within their bounds and consistent with each other:
    the cache never gets more than three quarters of the memory (or 64 MB), no minimal
    TTL exceeds its maximal one, and prefetching starts only for records that are
    eligible. *)
Theorem validate_settings_bounds total_mb values settings settings' :
  update_settings total_mb values settings = Ok settings' →
  ∃ s, validate_settings total_mb values = Ok s ∧ settings_ok total_mb s
    ∧ ∀ key value, (key, value) ∈ settings_to_rows s → settings' !! key = Some value.
Proof. apply update_settings_ok. Qed.

Definition sample_values : gmap string json :=
  list_to_map [("max_cache_size_mb", JStr "256"); ("min_cache_ttl", JStr "0"); ("max_cache_ttl", JStr "3600");
               ("min_ncache_ttl", JStr "0"); ("max_ncache_ttl", JStr "60")].
Definition sample_settings : cache_settings :=
  mkCacheSettings 256 0 3600 0 60 false 2 10 false 86400 None 1000.

Lemma validate_settings_bounds_witness :
  ∃ settings', update_settings 2048 sample_values ∅ = Ok settings'
    ∧ settings' !! "max_cache_size_mb" = Some "256".
Proof.
  assert (validate_settings 2048 sample_values = Ok sample_settings) as Hs by (vm_compute; reflexivity).
  pose proof (validate_settings_bounds 2048 sample_values ∅) as Hspec.
  unfold update_settings in *. rewrite Hs in *. eexists. split; [reflexivity|].
  destruct (Hspec _ eq_refl) as (s & [= <-] & _ & Hrows). apply Hrows. left.
Defined.

(** ** Rendering what was validated *)

Lemma cfg_int_str cfg key z : 0 ≤ z → cfg !! key = Some (str_int z) → cfg_int cfg key = Ok z.
Proof. intros Hz Hk. unfold cfg_int. rewrite Hk. cbn [py_int]. by rewrite int_of_str_int. Qed.

(** The options file that states the settings of a record. *)
Definition cache_options_text (s : cache_settings) : string :=
  join nl (["// Managed by Alderpoint DNS. Generated cache tuning options; do not edit by hand.";
    "max-cache-size " +:+ str_int (cs_size s) +:+ "m;"; "min-cache-ttl " +:+ str_int (cs_min_ttl s) +:+ ";";
    "max-cache-ttl " +:+ str_int (cs_max_ttl s) +:+ ";"; "min-ncache-ttl " +:+ str_int (cs_min_ncache s) +:+ ";";
    "max-ncache-ttl " +:+ str_int (cs_max_ncache s) +:+ ";"; "recursive-clients " +:+ str_int (cs_recursive s) +:+ ";";
    if cs_prefetch s then "prefetch " +:+ str_int (cs_trigger s) +:+ " " +:+ str_int (cs_eligible s) +:+ ";"
    else "prefetch 0;"]
   ++ (if cs_stale s
       then ["stale-answer-enable yes;"; "max-stale-ttl " +:+ str_int (cs_max_stale s) +:+ ";";
             "stale-answer-client-timeout " +:+ match cs_timeout s with Some t => str_int t | None => "off" end +:+ ";"]
       else ["stale-answer-enable no;"])) +:+ nl.

(** Whatever the settings page accepts can be deployed: rendering the options file
    from settings that were saved never fails, and the file states exactly the values
    that were validated. *)
Theorem saved_settings_render total_mb values settings settings' :
  update_settings total_mb values settings = Ok settings' →
  ∃ s, validate_settings total_mb values = Ok s
    ∧ render_cache_options settings' = Ok (cache_options_text s).
Proof.
  intros (s & Hs & [Hsize Httl Hncache Hpre Hstale Htime Hrec] & Hrows)%update_settings_ok.
  exists s. split; [done|].
  assert (∀ key z, (key, str_int z) ∈ settings_to_rows s → 0 ≤ z → cfg_int settings' key = Ok z) as Hint.
  { intros key z Hin Hz. apply cfg_int_str; [done|]. by apply Hrows. }
  assert (py_int (JStr (str_int (cs_recursive s))) = Ok (cs_recursive s)) as Hrecursive.
  { cbn [py_int]. by rewrite int_of_str_int by lia. }
  unfold render_cache_options.
  rewrite (Hint "max_cache_size_mb" (cs_size s)), (Hint "min_cache_ttl" (cs_min_ttl s)),
    (Hint "max_cache_ttl" (cs_max_ttl s)), (Hint "min_ncache_ttl" (cs_min_ncache s)),
    (Hint "max_ncache_ttl" (cs_max_ncache s)), (Hint "prefetch_trigger" (cs_trigger s)),
    (Hint "prefetch_eligible" (cs_eligible s)), (Hint "max_stale_ttl" (cs_max_stale s))
    by (lia || (cbn; set_solver)).
  rewrite (Hrows "recursive_clients" (str_int (cs_recursive s))),
    (Hrows "prefetch_enabled" (flag (cs_prefetch s))), (Hrows "serve_stale_enabled" (flag (cs_stale s))),
    (Hrows "stale_answer_client_timeout" (match cs_timeout s with Some t => str_int t | None => "off" end))
    by (cbn; set_solver).
  cbn [default from_option id]. rewrite Hrecursive. unfold cache_options_text.
  by destruct (cs_prefetch s), (cs_stale s).
Qed.

Lemma saved_settings_render_witness :
  ∃ settings', update_settings 2048 sample_values ∅ = Ok settings'
    ∧ render_cache_options settings' = Ok (cache_options_text sample_settings).
Proof.
  assert (validate_settings 2048 sample_values = Ok sample_settings) as Hs by (vm_compute; reflexivity).
  pose proof (saved_settings_render 2048 sample_values ∅) as Hspec.
  unfold update_settings in *. rewrite Hs in *. eexists. split; [reflexivity|].
  destruct (Hspec _ eq_refl) as (s & [= <-] & Htext). exact Htext.
Defined.

(** ** The flush queue *)

(** A checked command succeeds exactly when it exits with status 0. *)
Lemma run_status c w :
  match (run_ c true w).1 with
  | Ok _ => ∃ out, w_answers w (length (w_log w)) = Exited 0 out
  | Raise _ => ∀ out, w_answers w (length (w_log w)) ≠ Exited 0 out
  end.
Proof.
  unfold run_, run. rewrite bind_M. destruct (w_answers w _) as [code out|e]; [|done]. cbn.
  destruct (Z.eqb_spec code 0) as [->|Hc]; cbn; [eauto|]. intros out' [= ? ?]. done.
Qed.

Lemma newest_spec rows best :
  match newest best rows with
  | None => best = None ∧ ∀ f, f ∈ rows → is_pending f = false
  | Some b => (best = Some b ∨ (b ∈ rows ∧ is_pending b = true))
      ∧ (∀ b', best = Some b' → f_id b' ≤ f_id b) ∧ ∀ f, f ∈ rows → is_pending f = true → f_id f ≤ f_id b
  end.
Proof.
  revert best. induction rows as [|f rows IH]; intros best; cbn [newest].
  { destruct best as [b|].
    - split; [by left|]. split; [by intros b' [= ->]|]. by intros f ?%elem_of_nil.
    - split; [done|]. by intros f ?%elem_of_nil. }
  set (newer := match best with Some b => f_id b <? f_id f | None => true end).
  specialize (IH (if is_pending f && newer then Some f else best)).
  destruct (newest _ rows) as [b|].
  - destruct IH as (H1 & H2 & H3).
    assert (is_pending f = true → f_id f ≤ f_id b) as Hf.
    { intros Hp. rewrite Hp in H2. subst newer. cbn [andb] in H2. destruct best as [b'|]; [|by apply H2].
      destruct (Z.ltb_spec (f_id b') (f_id f)); [by apply H2|]. specialize (H2 _ eq_refl). lia. }
    split; [|split].
    + destruct H1 as [H1|[Hin Hp]]; [|right; split; [by right|done]].
      destruct (is_pending f) eqn:Ep; [|by left]. destruct newer; [|by left].
      injection H1 as <-. right. split; [by left|done].
    + intros b' ->. destruct (is_pending f && newer) eqn:E; [|by apply H2].
      subst newer. apply andb_prop in E as [_ E%Z.ltb_lt]. specialize (H2 _ eq_refl). lia.
    + intros g [->|Hg]%elem_of_cons; auto.
  - destruct IH as [H1 H2]. destruct (is_pending f && newer) eqn:E; [done|]. subst best. split; [done|].
    subst newer. rewrite andb_true_r in E. intros g [->|Hg]%elem_of_cons; auto.
Qed.

(** No flush request is left waiting: processing the queue runs one command, for the
    newest pending request, which it marks completed exactly when the command
    succeeded; every other pending request is marked skipped, finished requests are
    untouched, and nothing is pending afterwards.  With an empty queue it runs
    nothing. *)
Theorem process_flush_spec rows w :
  NoDup (f_id <$> rows) →
  ∃ r rows' w', process_pending_flush rows w = (Ok (r, rows'), w')
    ∧ (∀ f, f ∈ rows' → is_pending f = false)
    ∧ match r with
      | None => rows' = rows ∧ w' = w
      | Some id => ∃ row, row ∈ rows ∧ f_id row = id ∧ is_pending row = true
          ∧ (∀ f, f ∈ rows → is_pending f = true → f_id f ≤ id)
          ∧ w_log w' = w_log w ++ [(flush_command row).1] ∧ w_files w' = w_files w
          ∧ length rows' = length rows
          ∧ ∀ i f, rows !! i = Some f → ∃ f', rows' !! i = Some f' ∧ f_id f' = f_id f ∧
              (if decide (f_id f = id)
               then f_status f' = Completed ∧ (∃ out, w_answers w (length (w_log w)) = Exited 0 out)
                    ∨ f_status f' = Failed ∧ (∀ out, w_answers w (length (w_log w)) ≠ Exited 0 out)
               else if is_pending f then f_status f' = Skipped else f' = f)
      end.
Proof.
  intros Hnd. unfold process_pending_flush. pose proof (newest_spec rows None) as Hnew.
  destruct (newest None rows) as [row|].
  2:{ destruct Hnew as [_ Hnone]. by exists None, rows, w. }
  destruct Hnew as ([?|[Hin Hp]] & _ & Hmax); [done|].
  rewrite bind_M. unfold attempt. pose proof (run_log (flush_command row).1 true w) as Hlog.
  pose proof (run_status (flush_command row).1 w) as Hstatus.
  destruct (run_ (flush_command row).1 true w) as [r w1]. cbn [fst snd] in *.
  set (status := match r with Ok _ => Completed | Raise _ => Failed end).
  set (message := match r with Ok _ => (flush_command row).2 | Raise e => exc_message e end).
  assert ((match r with Ok _ => (Completed, (flush_command row).2) | Raise e => (Failed, exc_message e) end)
          = (status, message)) as -> by (by destruct r).
  eexists _, _, _. split; [reflexivity|]. split.
  - intros f (g & -> & Hg)%list_elem_of_fmap. destruct (f_id g =? f_id row).
    + subst status. unfold is_pending. by destruct r.
    + destruct (is_pending g) eqn:E; [done|exact E].
  - exists row. split_and!; try done.
    + by subst w1.
    + subst w1. by destruct w.
    + by rewrite length_fmap.
    + intros i f Hf. rewrite list_lookup_fmap, Hf. eexists. split; [reflexivity|].
      destruct (Z.eqb_spec (f_id f) (f_id row)) as [E|E].
      * split; [done|]. rewrite decide_True by done. subst status. cbn. destruct r; [left|right]; eauto.
      * rewrite decide_False by done. by destruct (is_pending f).
Qed.

Lemma process_flush_spec_witness :
  ∃ rows', process_pending_flush
      [mkFlush 1 ScopeAll None Pending ""; mkFlush 2 ScopeName (Some "example.org") Pending ""]
      (mkWorld ∅ [] (λ _, Exited 0 ""))
    = (Ok (Some 2, rows'), mkWorld ∅ [["rndc"; "flushname"; "example.org"]] (λ _, Exited 0 ""))
    ∧ ∀ f, f ∈ rows' → is_pending f = false.
Proof.
  edestruct (process_flush_spec [mkFlush 1 ScopeAll None Pending ""; mkFlush 2 ScopeName (Some "example.org") Pending ""]
    (mkWorld ∅ [] (λ _, Exited 0 ""))) as (r & rows' & w' & E & Hp & _).
  - apply (bool_decide_eq_true_1 _). vm_compute. reflexivity.
  - exists rows'. split; [|exact Hp]. vm_compute in E. injection E as <- <- <-. reflexivity.
Defined.

(** ** Deploying the options *)

Section deploy_spec.
Context (seconds tmp : string).
Abbreviation stage := (CACHE_STAGING_DIR +:+ tmp).
Abbreviation backup := (CACHE_BACKUP_DIR +:+ "cache-options.conf.last-good." +:+ seconds).
Abbreviation staged := (stage +:+ "cache-options.conf").

Ltac other_path := let E := fresh in intros E; vm_compute in E; discriminate.

Lemma install_cache_spec cfg w :
  w_files w !! backup = None →
  let '(r, w') := install_cache seconds stage cfg w in
  w_files w' !! NAMED_OPTIONS_CONF = w_files w !! NAMED_OPTIONS_CONF
  ∧ match r with
    | Ok _ => ∃ text, render_cache_options cfg = Ok text ∧ w_files w' !! CACHE_OPTIONS_CONF = Some text
              ∧ w_files w' !! backup = w_files w !! CACHE_OPTIONS_CONF
    | Raise _ => w' = w
    end.
Proof.
  intros Hfresh. unfold install_cache. rewrite bind_M. unfold lift.
  destruct (render_cache_options cfg) as [text|e]; [|done].
  rewrite bind_M. cbn [write_text]. rewrite bind_M. cbn [exists_].
  set (w1 := w{{w_files ::= <[staged := text]>}}).
  assert (∀ p, p ≠ staged → w_files w1 !! p = w_files w !! p) as H1.
  { intros p Hp. subst w1. destruct w as [f lg an]. simpl. by rewrite lookup_insert_ne. }
  assert (w_files w1 !! staged = Some text) as Hs.
  { subst w1. destruct w as [f lg an]. simpl. by rewrite lookup_insert_eq. }
  clearbody w1. rewrite bind_M. rewrite (H1 CACHE_OPTIONS_CONF) by other_path.
  set (w2 := match w_files w !! CACHE_OPTIONS_CONF with Some old => w1{{w_files ::= <[backup := old]>}} | None => w1 end).
  assert ((when (bool_decide (is_Some (w_files w !! CACHE_OPTIONS_CONF))) (copy2 CACHE_OPTIONS_CONF backup)) w1
          = (Ok (), w2)) as ->.
  { subst w2. destruct (w_files w !! CACHE_OPTIONS_CONF) as [old|] eqn:Eo.
    - rewrite bool_decide_eq_true_2 by eauto. cbn [when]. unfold copy2. rewrite bind_M. unfold read_text.
      rewrite H1 by other_path. by rewrite Eo.
    - by rewrite bool_decide_eq_false_2 by by intros [? ?]. }
  assert (w_files w2 !! backup = w_files w !! CACHE_OPTIONS_CONF
    ∧ (∀ p, p ≠ backup → w_files w2 !! p = w_files w1 !! p)) as [H2b H2].
  { subst w2. destruct (w_files w !! CACHE_OPTIONS_CONF) as [old|].
    - destruct w1 as [f1 lg1 an1]. simpl. rewrite lookup_insert_eq. split; [done|].
      intros p Hp. by rewrite lookup_insert_ne.
    - split; [|done]. rewrite H1 by other_path. done. }
  clearbody w2. unfold replace. rewrite bind_M. unfold read_text.
  rewrite H2, Hs by other_path. rewrite bind_M. unfold unlink. rewrite H2, Hs by other_path. cbn [write_text].
  destruct w2 as [f2 lg2 an2]. simpl in *. split.
  - rewrite lookup_insert_ne, lookup_delete_ne by other_path. rewrite H2, H1 by other_path. done.
  - exists text. rewrite lookup_insert_eq. split; [done|]. split; [done|].
    by rewrite lookup_insert_ne, lookup_delete_ne by other_path.
Qed.

Definition options_paths (p : string) : Prop :=
  p = NAMED_OPTIONS_CONF ∨ starts_with (CACHE_BACKUP_DIR +:+ "named.conf.options.pre-cache.") p = true.

Lemma activate_cache_writes : writes options_paths (λ _, True) (activate_cache seconds).
Proof.
  unfold activate_cache, ensure_named_options_include, resolves. frames; try done; [|by left].
  right. rewrite <-sapp_assoc. apply starts_with_app.
Qed.

Lemma roll_back_cache_files w :
  (∀ p, p ≠ CACHE_OPTIONS_CONF → w_files (roll_back_cache seconds w).2 !! p = w_files w !! p)
  ∧ w_files (roll_back_cache seconds w).2 !! CACHE_OPTIONS_CONF = w_files w !! backup.
Proof.
  destruct (restore_file backup CACHE_OPTIONS_CONF w) as (w1 & Hrun & Hc & Ho).
  unfold roll_back_cache. do 2 (rewrite bind_M in Hrun; cbn [exists_] in Hrun). do 2 (rewrite bind_M; cbn [exists_]).
  rewrite bind_M, Hrun, run_log. by destruct w1.
Qed.

Lemma deploy_cache_options_run total_mb settings deps w :
  w_files w !! backup = None →
  ∃ d out w', deploy_cache_options total_mb settings seconds stage deps w = (Ok (deps ++ [d], out), w')
    ∧ cd_id d = fresh_id (cd_id <$> deps)
    ∧ match out with
      | Ok id => id = cd_id d ∧ cd_status d = "deployed"
          ∧ ∃ text, render_cache_options (init_settings total_mb settings) = Ok text
            ∧ w_files w' !! CACHE_OPTIONS_CONF = Some text
      | Raise _ => cd_status d ≠ "deployed" ∧ w_files w' !! CACHE_OPTIONS_CONF = w_files w !! CACHE_OPTIONS_CONF
      end.
Proof.
  intros Hfresh. unfold deploy_cache_options, attempt. rewrite bind_M.
  pose proof (install_cache_spec (init_settings total_mb settings) w Hfresh) as Hinst.
  destruct (install_cache _ _ _ w) as [r1 w1]. destruct Hinst as [_ Hinst].
  assert (∀ w, w_files (rmtree stage w).2 !! CACHE_OPTIONS_CONF = w_files w !! CACHE_OPTIONS_CONF) as Hrm.
  { intros w0. apply rmtree_other. done. }
  destruct r1 as [[]|e].
  2:{ subst w1. do 3 eexists. split; [reflexivity|]. split; [done|]. split; [done|]. apply Hrm. }
  destruct Hinst as (text & Htext & Hlive & Hb). rewrite !bind_M.
  pose proof (activate_cache_writes w1) as [Ha _ _].
  destruct (activate_cache seconds w1) as [[[]|e] w2]; cbn [snd] in Ha.
  - do 3 eexists. split; [reflexivity|]. split; [done|]. split; [done|]. split; [done|].
    exists text. split; [done|]. etransitivity; [apply (Hrm w2)|]. rewrite Ha; [done|].
    intros [Hp|Hp]; revert Hp; other_path.
  - rewrite bind_M. pose proof (roll_back_cache_files w2) as [_ Hr].
    destruct (roll_back_cache seconds w2) as [r3 w3]. cbn [snd] in Hr.
    do 3 eexists. split; [reflexivity|]. split; [done|]. split; [by destruct r3|].
    etransitivity; [apply (Hrm w3)|]. rewrite Hr, Ha, Hb; [done|].
    intros [Hp|Hp]; revert Hp; other_path.
Qed.

(** All that a deployment may touch. *)
Definition cache_paths (p : string) : Prop :=
  p = CACHE_OPTIONS_CONF ∨ p = backup ∨ options_paths p ∨ starts_with stage p = true.

Lemma deploy_cache_options_writes total_mb settings deps :
  writes cache_paths (λ _, True) (deploy_cache_options total_mb settings seconds stage deps).
Proof.
  assert (∀ p, p = CACHE_OPTIONS_CONF → cache_paths p) as H1 by (intros p ->; by left).
  assert (∀ p, p = backup → cache_paths p) as H2 by (intros p ->; by right; left).
  assert (∀ p, starts_with stage p = true → cache_paths p) as H3 by (intros p Hp; by do 3 right).
  assert (writes cache_paths (λ _, True) (activate_cache seconds)) as Hact.
  { intros w. eapply frame_mono; [|done|apply activate_cache_writes]. intros p Hp. by right; right; left. }
  unfold deploy_cache_options, install_cache, roll_back_cache. revert H1 H2 H3 Hact. generalize cache_paths.
  intros S H1 H2 H3 Hact. pose proof (H3 _ (starts_with_app stage "cache-options.conf")) as H4.
  pose proof (H1 _ eq_refl) as H5. pose proof (H2 _ eq_refl) as H6. clear H1 H2.
  apply writes_bind; [apply writes_attempt|].
  { apply writes_bind; [apply writes_lift|]. intros content. apply writes_bind; [by apply writes_write|]. intros _.
    apply writes_bind; [apply writes_exists|]. intros live. apply writes_bind; [by apply writes_when, writes_copy2|]. intros _.
    by apply writes_replace. }
  intros r. apply writes_bind; [|intros out; apply writes_bind; [by apply writes_rmtree|]; intros _; apply writes_ret].
  destruct r; [|apply writes_ret]. apply writes_bind; [by apply writes_attempt|]. intros [|]; [apply writes_ret|].
  apply writes_bind; [apply writes_attempt|intros; apply writes_ret].
  apply writes_bind; [apply writes_exists|]. intros saved. apply writes_bind; [apply writes_exists|]. intros live.
  apply writes_bind; [|intros _; by apply writes_run_].
  destruct saved; [by apply writes_copy2|by apply writes_when, writes_unlink].
Qed.

(** C18: Deploying the cache options is atomic for the options file: it either holds the
    rendered settings and the deployment is recorded as [deployed], or it is exactly
    what it was, absent if it was absent, and the exception is re-raised, whatever the
    commands answer. *)
Theorem deploy_cache_options_spec total_mb settings deps w :
  w_files w !! backup = None →
  ∃ d out w', deploy_cache_options total_mb settings seconds stage deps w = (Ok (deps ++ [d], out), w')
    ∧ cd_id d = fresh_id (cd_id <$> deps)
    ∧ match out with
      | Ok id => id = cd_id d ∧ cd_status d = "deployed"
          ∧ ∃ text, render_cache_options (init_settings total_mb settings) = Ok text
            ∧ w_files w' !! CACHE_OPTIONS_CONF = Some text
      | Raise _ => cd_status d ≠ "deployed" ∧ w_files w' !! CACHE_OPTIONS_CONF = w_files w !! CACHE_OPTIONS_CONF
      end.
Proof. apply deploy_cache_options_run. Qed.
End deploy_spec.

Definition first_deploy_world : world :=
  mkWorld {[NAMED_OPTIONS_CONF := "options {" +:+ nl +:+ "};"]} [] (λ _, Exited 1 "").

Lemma deploy_cache_options_spec_witness :
  ∃ d e w', deploy_cache_options 2048 ∅ "1" (CACHE_STAGING_DIR +:+ "a/") [] first_deploy_world
      = (Ok ([] ++ [d], Raise e), w')
    ∧ w_files w' !! CACHE_OPTIONS_CONF = None.
Proof.
  destruct (deploy_cache_options_spec "1" "a/" 2048 ∅ [] first_deploy_world) as (d & out & w' & E & _ & Hout).
  { vm_compute. reflexivity. }
  destruct out as [id|e].
  - apply (f_equal fst) in E. vm_compute in E. discriminate.
  - exists d, e, w'. split; [exact E|]. apply Hout.
Defined.

(** When the very first deployment fails, taking it back leaves BIND's configuration
    broken: the include added to [named.conf.options] stays although the file it names
    is removed again, and the deployment is still recorded as [rolled_back]. *)
Theorem first_cache_deploy_dangling_include :
  let '(r, w') := deploy_cache_options 2048 ∅ "1" (CACHE_STAGING_DIR +:+ "a/") [] first_deploy_world in
  (∃ e, r = Ok ([mkCacheDeploy 1 "rolled_back"], Raise e))
  ∧ w_files w' !! CACHE_OPTIONS_CONF = None
  ∧ w_files w' !! NAMED_OPTIONS_CONF
    = Some ("options {" +:+ nl +:+ quoted (tab +:+ "include `" +:+ CACHE_OPTIONS_CONF +:+ "`;") +:+ nl +:+ nl +:+ "};").
Proof.
  destruct (deploy_cache_options _ _ _ _ _ first_deploy_world) as [r w'] eqn:E.
  vm_compute in E. injection E as <- <-. split; [by eexists|]. split; vm_compute; reflexivity.
Qed.
