(* ===== verification/DbRetry.v ===== *)
(** * Bounded retries

    [app/db_retry.py]: a database write is retried while SQLite reports a lock, a
    bounded number of times; and the password rules of [app/auth.py].  Delays are in
    microseconds, [DEFAULT_BASE_DELAY] being 50 ms and [DEFAULT_MAX_DELAY] 1 s. *)

From S2P Require Import Prelude PyStr StrLemmas.

#[local] Open Scope Z_scope.

Definition DEFAULT_ATTEMPTS : nat := 5.
(** app/db_retry.py:19-21 DEFAULT_BASE_DELAY *)
Definition DEFAULT_BASE_DELAY : Z := 50000.
Definition DEFAULT_MAX_DELAY : Z := 1000000.

(** app/db_retry.py:24-25 DatabaseBusyError *)
Definition DatabaseBusyError (message : string) : pyexc := PyExc "DatabaseBusyError" message.

Definition is_operational (e : pyexc) : bool := String.eqb (exc_class e) "OperationalError".

(** app/db_retry.py:28-29 is_lock_error *)
Definition is_lock_error (e : pyexc) : bool :=
  is_operational e && (contains "locked" (lower (exc_message e)) || contains "busy" (lower (exc_message e))).

Section retry.
Context {St A : Type} (func : St → res A * St).
(** The jitter drawn after the n-th attempt. *)
Context (attempts : nat) (base_delay max_delay : Z) (jitter : nat → Z).

Definition delay (attempt : nat) : Z := Z.min max_delay (base_delay * 2 ^ Z.of_nat attempt).

(** The loop from [attempt] on, [rest] iterations before its end; the calls made and the
    sleeps slept are counted. *)
Fixpoint retry_loop (rest attempt : nat) (last_exc : option pyexc) (s : St) : res A * St * nat * list Z :=
  match rest with
  | O => (Raise (DatabaseBusyError (match last_exc with Some e => exc_message e | None => "None" end)), s, O, [])
  | S rest =>
      match func s with
      | (Ok a, s) => (Ok a, s, 1%nat, [])
      | (Raise e, s) =>
          if negb (is_lock_error e) then (Raise e, s, 1%nat, [])
          else
            let slept := if (attempt <? attempts - 1)%nat then [delay attempt + jitter attempt] else [] in
            let '(r, s, calls, sleeps) := retry_loop rest (S attempt) (Some e) s in
            (r, s, S calls, slept ++ sleeps)
      end
  end.

(** app/db_retry.py:32-55 retry_on_locked *)
Definition retry_on_locked (s : St) : res A * St * nat * list Z := retry_loop attempts 0 None s.

(** The state and the exception after [n] calls that all reported a lock. *)
Fixpoint locked (n : nat) (s s' : St) (last : option pyexc) : Prop :=
  match n with
  | O => s' = s ∧ last = None
  | S n => ∃ s1 l e, locked n s s1 l ∧ func s1 = (Raise e, s') ∧ is_lock_error e = true ∧ last = Some e
  end.

Lemma retry_loop_spec rest attempt last s :
  let '(r, s', calls, sleeps) := retry_loop rest attempt last s in
  ∃ n sn l, locked n s sn l ∧ (n ≤ rest)%nat
    ∧ (n = rest ∧ calls = n ∧ s' = sn
       ∧ r = Raise (DatabaseBusyError (match (match l with Some e => Some e | None => last end) with
                                       | Some e => exc_message e | None => "None" end))
       ∨ (n < rest ∧ calls = S n)%nat ∧ func sn = (r, s')
         ∧ match r with Ok _ => True | Raise e => is_lock_error e = false end).
Proof.
  revert attempt last s. induction rest as [|rest IH]; intros attempt last s; cbn [retry_loop].
  { exists 0%nat, s, None. split; [done|]. split; [done|]. left. done. }
  destruct (func s) as [[a|e] s1] eqn:Ef.
  { exists 0%nat, s, None. split; [done|]. split; [lia|]. right. split; [lia|done]. }
  destruct (is_lock_error e) eqn:El; cbn [negb].
  2:{ exists 0%nat, s, None. split; [done|]. split; [lia|]. right. split; [lia|done]. }
  specialize (IH (S attempt) (Some e) s1).
  destruct (retry_loop rest (S attempt) (Some e) s1) as [[[r s'] calls] sleeps].
  destruct IH as (n & sn & l & Hl & Hn & Hr).
  assert (∃ l', locked (S n) s sn l' ∧ (l' = l ∨ (l = None ∧ l' = Some e))) as (l' & Hl' & Hll).
  { clear Hr Hn. revert sn l Hl. induction n as [|n IHn]; intros sn l.
    - intros [-> ->]. exists (Some e). split; [|by right]. exists s, None, e. done.
    - intros (s2 & l2 & e2 & H2 & Hf2 & Hlock & ->). destruct (IHn s2 l2 H2) as (l3 & H3 & _).
      exists (Some e2). split; [|by left]. exists s2, l3, e2. done. }
  exists (S n), sn, l'. split; [done|]. split; [lia|].
  destruct Hr as [(-> & -> & -> & ->)|([? ->] & Hf & Hc)]; [left|right; split; [lia|done]].
  split; [done|]. split; [done|]. split; [done|].
  destruct Hll as [->|[-> ->]]; [|done]. destruct l; [done|].
  destruct rest; [|by destruct Hl as (? & ? & ? & ? & ? & ? & ?)].
  destruct Hl as [-> _]. destruct Hl' as (? & ? & ? & ? & ? & ? & ?). done.
Qed.

Definition zsum (l : list Z) : Z := foldr Z.add 0 l.

(** The delays the loop can sleep from [attempt] on. *)
Lemma retry_loop_sleeps rest attempt last s :
  (∀ k, 0 ≤ 4 * jitter k ≤ delay k) → (rest + attempt = attempts)%nat →
  let '(r, s', calls, sleeps) := retry_loop rest attempt last s in
  0 ≤ 4 * zsum sleeps ≤ 5 * zsum (delay <$> seq attempt (rest - 1)) ∧ (length sleeps ≤ rest - 1)%nat.
Proof.
  intros Hj. revert attempt last s. induction rest as [|rest IH]; intros attempt last s Hla; cbn [retry_loop]; [done|].
  assert (∀ k, 0 ≤ delay k) as Hd by (intros k; specialize (Hj k); lia).
  assert (∀ i m, 0 ≤ zsum (delay <$> seq i m)) as Hz.
  { intros i m. revert i. induction m as [|m IHm]; intros i; [done|]. cbn. specialize (IHm (S i)).
    specialize (Hd i). unfold zsum in IHm. lia. }
  destruct (func s) as [[a|e] s1].
  { specialize (Hz attempt (S rest - 1)%nat). split; [change (zsum []) with 0; lia|simpl; lia]. }
  destruct (is_lock_error e); cbn [negb].
  2:{ specialize (Hz attempt (S rest - 1)%nat). split; [change (zsum []) with 0; lia|simpl; lia]. }
  specialize (IH (S attempt) (Some e) s1 ltac:(lia)).
  destruct (retry_loop rest (S attempt) (Some e) s1) as [[[r s'] calls] sleeps].
  destruct IH as [Hsum Hlen]. replace (S rest - 1)%nat with rest by lia.
  destruct (Nat.ltb_spec attempt (attempts - 1)) as [Hlt|Hge].
  - destruct rest as [|rest]; [lia|]. simpl Nat.sub in Hsum, Hlen |- *.
    rewrite Nat.sub_0_r in Hsum, Hlen. cbn [app zsum foldr length seq fmap list_fmap].
    change (foldr Z.add 0 (delay <$> seq (S attempt) rest)) with (zsum (delay <$> seq (S attempt) rest)).
    change (foldr Z.add 0 sleeps) with (zsum sleeps). specialize (Hj attempt). split; lia.
  - destruct rest as [|rest]; [|lia]. split; [exact Hsum|exact Hlen].
Qed.
End retry.

(** C19: A retried write always comes to an end: it is called at most [attempts] times;
    the result is the first one that is not a lock, or [DatabaseBusyError] with the last
    lock's message when every attempt met one; any other exception passes through at
    once; and no more than [attempts] sleeps are slept. *)
Theorem retry_on_locked_spec {St A} (func : St → res A * St) attempts base_delay max_delay jitter s :
  let '(r, s', calls, sleeps) := retry_on_locked func attempts base_delay max_delay jitter s in
  (calls ≤ attempts)%nat
  ∧ ∃ n sn last, locked func n s sn last
    ∧ (n = attempts ∧ calls = attempts ∧ s' = sn
       ∧ r = Raise (DatabaseBusyError (match last with Some e => exc_message e | None => "None" end))
       ∨ (n < attempts ∧ calls = n + 1)%nat ∧ func sn = (r, s')
         ∧ match r with Ok _ => True | Raise e => is_lock_error e = false end).
Proof.
  unfold retry_on_locked. pose proof (retry_loop_spec func attempts base_delay max_delay jitter attempts 0 None s) as H.
  destruct (retry_loop _ _ _ _ _ _ _ _ s) as [[[r s'] calls] sleeps]. destruct H as (n & sn & l & Hl & Hn & Hr).
  split; [destruct Hr as [(-> & -> & _)|([? ->] & _)]; lia|]. exists n, sn, l. split; [done|].
  destruct Hr as [(-> & -> & -> & ->)|([? ->] & ? & ?)]; [left; by destruct l|right; split; [lia|done]].
Qed.

(** With the default budget a write gives up within a second: the sleeps, with their
    jitter of at most a quarter, sum up to at most 937.5 ms. *)
Theorem retry_sleep_bound {St A} (func : St → res A * St) jitter s :
  (∀ k, 0 ≤ 4 * jitter k ≤ delay DEFAULT_BASE_DELAY DEFAULT_MAX_DELAY k) →
  let '(r, s', calls, sleeps) :=
    retry_on_locked func DEFAULT_ATTEMPTS DEFAULT_BASE_DELAY DEFAULT_MAX_DELAY jitter s in
  0 ≤ zsum sleeps ≤ 937500 ∧ (length sleeps ≤ 4)%nat.
Proof.
  intros Hj. unfold retry_on_locked.
  pose proof (retry_loop_sleeps func DEFAULT_ATTEMPTS DEFAULT_BASE_DELAY DEFAULT_MAX_DELAY jitter
    DEFAULT_ATTEMPTS 0 None s Hj eq_refl) as H.
  destruct (retry_loop _ _ _ _ _ _ _ _ s) as [[[r s'] calls] sleeps]. destruct H as [H1 H2].
  change (zsum (delay DEFAULT_BASE_DELAY DEFAULT_MAX_DELAY <$> seq 0 (DEFAULT_ATTEMPTS - 1))) with 750000 in H1.
  unfold DEFAULT_ATTEMPTS in H2. split; lia.
Qed.

(** A database that is locked on every call. *)
Lemma retry_sleep_bound_witness :
  let e := PyExc "OperationalError" "database is locked" in
  let '(r, _, calls, sleeps) :=
    retry_on_locked (λ s : unit, (Raise (A := unit) e, s)) DEFAULT_ATTEMPTS DEFAULT_BASE_DELAY DEFAULT_MAX_DELAY
      (λ _, 0) () in
  calls = 5%nat ∧ zsum sleeps ≤ 937500.
Proof.
  intros e. pose proof (retry_sleep_bound (λ s : unit, (Raise (A := unit) e, s)) (λ _, 0) ()) as H.
  destruct (retry_on_locked _ _ _ _ _ _) as [[[r s'] calls] sleeps] eqn:E.
  split; [by vm_compute in E; injection E|]. apply H. intros k. unfold delay, DEFAULT_BASE_DELAY, DEFAULT_MAX_DELAY.
  pose proof (Z.pow_pos_nonneg 2 (Z.of_nat k)). lia.
Defined.

(** ** Passwords *)

(** app/auth.py:26-26 MIN_PASSWORD_LENGTH *)
Definition MIN_PASSWORD_LENGTH : nat := 12.

(** app/auth.py:29-32 validate_password_length *)
Definition validate_password_length (password : string) : option string :=
  if (slen password <? MIN_PASSWORD_LENGTH)%nat then Some "Password must be at least 12 characters." else None.

(** app/auth.py:19-23 verify_password

    [verify] is the hasher's, which returns or raises. *)
Definition verify_password (verify : string → string → res bool) (password_hash password : string) : res bool :=
  match verify password_hash password with
  | Raise e =>
      if bool_decide (exc_class e ∈ ["VerifyMismatchError"; "VerificationError"; "InvalidHash"])
      then Ok false else Raise e
  | r => r
  end.
