(* ===== verification/PolicyCache.v ===== *)
(** * The reusable compiled policy

    After a deployment [app/alderpointdns_compiler.py] keeps the compiled zone with a
    digest of everything it was compiled from; protection that was switched off is
    switched on again from that copy while the digest still matches.  The two cache files
    are one entry of the state, and their JSON document is kept as a record. *)

From S2P Require Import Prelude PyStr StrLemmas IpAddr PyJson JsonText DomainName World RuleParser RuleStore RuleCompile.
From S2P Require Import SourceParser ParseCache Sources LocalDns LocalZones Upstream UpstreamDeploy DnsCache.

(** ** The database *)

(** A row of [deployments]; the two times are left out. *)
Record deployment := mkDeployment {
  dp_id : Z; dp_status : string; dp_active_domains : Z;
  dp_blocked_test : option string; dp_allowed_test : option string; dp_message : string }.

(** The document of the manifest, [active_domains] and the digest. *)
Record policy_manifest := mkManifest { pm_document : json; pm_active_domains : Z; pm_sha256 : string }.

(** The cached zone, and its manifest unless it cannot be read. *)
Record policy_cache := mkPolicyCache { pc_rpz : string; pc_manifest : option policy_manifest }.

(** The tables the compiler works on, each of its component, with the downloaded lists. *)
Record system := mkSystem {
  sy_sources : source_store; sy_rules : rules_db;
  sy_local : ldb; sy_local_deps : list ldeploy;
  sy_upstreams : upstreams;
  sy_cache : gmap string string; sy_cache_deps : list cache_deploy;
  sy_policy : option policy_cache; sy_deps : list deployment }.

(** ** The manifest *)

(** app/alderpointdns_compiler.py:258-258 POLICY_CACHE_VERSION *)
Definition POLICY_CACHE_VERSION : string := "2026-08-09-v1-policy-manifest".
Definition RPZ_ZONE : string := "alderpointdns.rpz".

Definition rule_type_name (t : rule_type) : string :=
  match t with
  | RtBlock => "block" | RtAllow => "allow" | RtRewrite => "rewrite" | RtRegexBlock => "regex_block"
  | RtRegexAllow => "regex_allow" | RtComment => "comment" | RtUnsupported => "unsupported"
  end.
Definition rule_action_name (a : rule_action) : string :=
  match a with ActBlock => "block" | ActAllow => "allow" | ActRewrite => "rewrite" | ActNone => "none" end.
Definition vstate_name (v : vstate) : string :=
  match v with Valid => "valid" | Unsupported => "unsupported" | Invalid => "invalid" end.
Definition family_name (f : ip_family) : string := match f with Ipv4 => "ipv4" | Ipv6 => "ipv6" end.

Definition json_text (s : option string) : json := match s with Some s => JStr s | None => JNull end.
Definition json_flag (b : bool) : json := JInt (if b then 1 else 0).

(** The columns of a rule that the compiled policy can depend on; keys as [sort_keys]
    orders them, here and below. *)
Definition rule_json (r : stored_rule) : json :=
  let p := sr_rule r in
  JObj [("action", JStr (rule_action_name (pr_action p)));
        ("address_family", json_text (family_name <$> pr_family p));
        ("domain", json_text (pr_domain p)); ("enabled", json_flag (sr_enabled r));
        ("id", JInt (sr_id r)); ("match_subdomains", json_flag (pr_subdomains p));
        ("normalized", JStr (pr_normalized p)); ("pattern", json_text (pr_pattern p));
        ("priority", JInt (pr_priority p)); ("qtype_restriction", json_text (pr_qtype p));
        ("rewrite_address", json_text (pr_address p)); ("rule_text", JStr (pr_text p));
        ("rule_type", JStr (rule_type_name (pr_type p)));
        ("validation_state", JStr (vstate_name (pr_state p)))].

Definition legacy_json (r : legacy_rule) : json :=
  JObj [("action", JStr (rule_action_name (lr_action r)));
        ("comment", json_text (RuleStore.lr_comment r)); ("domain", JStr (lr_domain r));
        ("enabled", json_flag (RuleStore.lr_enabled r)); ("id", JInt (RuleStore.lr_id r))].

Definition setting_json (kv : string * string) : json := JObj [("key", JStr kv.1); ("value", JStr kv.2)].

Definition record_json (r : lrec) : json :=
  JObj [("auto_ptr", json_flag (lr_auto_ptr r)); ("comment", JStr (LocalDns.lr_comment r));
        ("enabled", json_flag (LocalDns.lr_enabled r)); ("fqdn", JStr (lr_fqdn r));
        ("id", JInt (LocalDns.lr_id r)); ("name", JStr (lr_name r));
        ("ptr_record_id", match lr_ptr_id r with Some z => JInt z | None => JNull end);
        ("record_type", JStr (rtype_name (lr_type r))); ("ttl", JInt (lr_ttl r)); ("value", JStr (lr_value r))].

Definition resolver_json (r : resolver) : json :=
  JObj [("address", JStr (ur_address r)); ("bootstrap_ips", JStr (ur_bootstrap r));
        ("doh_path", JStr (ur_doh_path r)); ("enabled", json_flag (ur_enabled r)); ("id", JInt (ur_id r));
        ("name", JStr (ur_name r)); ("port", JInt (ur_port r)); ("position", JInt (ur_position r));
        ("protocol", JStr (protocol_name (ur_protocol r))); ("tls_hostname", JStr (ur_tls_hostname r))].

(** [ORDER BY id], for the four tables that need it. *)
Section by_key.
Context {A : Type} (id : A → Z).
Definition id_order (a b : A) : Prop := (id a ≤ id b)%Z.
#[export] Instance id_order_dec a b : Decision (id_order a b).
Proof. unfold id_order. apply _. Defined.
Definition by_id (l : list A) : list A := merge_sort id_order l.
End by_key.

Section manifest.
Context `{Platform} (sha256 : string → string).

Definition source_json (files : filesystem) (s : source_row) : option json :=
  digest ← (if src_enabled s then JStr ∘ sha256 <$> files !! (source_paths sha256 s).1 else Some JNull);
  Some (JObj [("category", JStr (src_category s)); ("content_sha256", digest); ("enabled", json_flag (src_enabled s));
              ("id", JInt (src_id s)); ("name", JStr (src_name s)); ("url", JStr (src_url s))]).

(** app/alderpointdns_compiler.py:1140-1201 protection_policy_manifest

    The document without its digest; the digest is that of its text. *)
Definition protection_policy_manifest (s : system) : option json :=
  sources ← mapM (source_json (fs (ss_cache (sy_sources s)))) (by_id src_id (ss_sources (sy_sources s)));
  Some (JObj [
    ("custom_filter_rules", JList (rule_json <$> by_id sr_id (rules (sy_rules s))));
    ("custom_rules", JList (legacy_json <$> by_id RuleStore.lr_id (default [] (legacy (sy_rules s)))));
    ("dns_cache_settings", JList (setting_json <$> sorted_items (sy_cache s)));
    ("local_dns_records", JList (record_json <$> by_id LocalDns.lr_id (l_records (sy_local s))));
    ("local_dns_settings", JList (setting_json <$> sorted_items (l_settings (sy_local s))));
    ("parser_cache_version", JStr PARSER_CACHE_VERSION);
    ("policy_cache_version", JStr POLICY_CACHE_VERSION);
    ("rpz_zone", JStr RPZ_ZONE);
    ("sources", JList sources);
    ("upstream_resolvers", JList (resolver_json <$> ordered (us_rows (sy_upstreams s))))]).

Definition manifest_sha256 (document : json) : string := sha256 (dumps document).

(** ** The cache *)

(** app/alderpointdns_compiler.py:1204-1225 record_reusable_protection_policy *)
Definition record_reusable_protection_policy (rpz_text : string) (active_domains : Z) (s : system) : system :=
  if (active_domains <=? 0)%Z then s
  else match protection_policy_manifest s with
       | None => s
       | Some m => s{{sy_policy := Some (mkPolicyCache rpz_text (Some (mkManifest m active_domains (manifest_sha256 m))))}}
       end.

Definition is_regex (r : stored_rule) : bool :=
  bool_decide (pr_type (sr_rule r) = RtRegexAllow ∨ pr_type (sr_rule r) = RtRegexBlock).

(** app/alderpointdns_compiler.py:1228-1249 reusable_protection_policy_available *)
Definition reusable_protection_policy_available (s : system) : bool * string :=
  match sy_policy s with
  | None => (false, "cached policy artifact is missing")
  | Some cached =>
      if existsb (λ r, row_active r && is_regex r) (rules (sy_rules s))
      then (false, "enabled regex rules require full dnsdist-layer deployment")
      else match pc_manifest cached with
      | None => (false, "cached policy manifest is unreadable: Expecting value")
      | Some m =>
          match protection_policy_manifest s with
          | None => (false, "current policy inputs are incomplete")
          | Some document =>
              if String.eqb (pm_sha256 m) (manifest_sha256 document)
              then (true, "cached compiled policy matches current inputs")
              else (false, "current policy inputs do not match cached manifest")
          end
      end
  end.
End manifest.

(** ** The manifest determines the policy *)

(** The custom rules the rows compile to. *)
Definition active_rules (rows : list stored_rule) : ActiveRuleSet :=
  resolve_conflicts (fold_left collect_row (merge_sort priority_order (List.filter row_active rows)) empty_active).

Lemma collect_active_rules ts db : collect_active ts db = active_rules (rules (RuleStore.init_db ts db)).
Proof. done. Qed.

(** A row without the columns the manifest leaves out. *)
Definition canon (r : stored_rule) : stored_rule :=
  mkStored (sr_id r) ((sr_rule r){{pr_reason := ""; pr_comment := ""}}) (sr_enabled r) "" None "" "" "".

#[export] Instance rule_type_name_inj : Inj (=) (=) rule_type_name.
Proof. by intros [] []. Qed.
#[export] Instance rule_action_name_inj : Inj (=) (=) rule_action_name.
Proof. by intros [] []. Qed.
#[export] Instance vstate_name_inj : Inj (=) (=) vstate_name.
Proof. by intros [] []. Qed.
#[export] Instance family_name_inj : Inj (=) (=) family_name.
Proof. by intros [] []. Qed.
#[export] Instance json_text_inj : Inj (=) (=) json_text.
Proof. intros [a|] [b|] E; try done. by injection E as ->. Qed.
#[export] Instance json_flag_inj : Inj (=) (=) json_flag.
Proof. by intros [] []. Qed.

Lemma rule_json_canon r r' : rule_json r = rule_json r' → canon r = canon r'.
Proof.
  destruct r as [i p en ? ? ? ? ?], r' as [i' p' en' ? ? ? ? ?]. unfold rule_json, canon. cbn [sr_id sr_rule sr_enabled].
  destruct p, p'. intros [= Ha Hf Hd He Hi Hs Hn Hp Hpr Hq Hrw Ht Hty Hv]. simpl in *. unfold json_flag in He, Hs.
  apply (inj rule_action_name) in Ha as ->. apply (inj json_text) in Hf. apply (inj (fmap family_name)) in Hf as ->.
  apply (inj json_text) in Hd as ->. apply (inj json_text) in Hp as ->. apply (inj json_text) in Hq as ->.
  apply (inj json_text) in Hrw as ->. apply (inj rule_type_name) in Hty as ->. apply (inj vstate_name) in Hv as ->.
  subst. by destruct en, en', pr_subdomains, pr_subdomains0.
Qed.

#[local] Instance priority_order_trans : Transitive priority_order.
Proof. intros a b c. unfold priority_order. lia. Qed.
#[local] Instance priority_order_total : Total priority_order.
Proof. intros a b. unfold priority_order. lia. Qed.

Lemma collect_canon l : fold_left collect_row (canon <$> l) empty_active = fold_left collect_row l empty_active.
Proof.
  generalize empty_active. induction l as [|r l IH]; intros a; [done|]. cbn [fmap list_fmap fold_left].
  by rewrite IH.
Qed.

Lemma filter_canon l : List.filter row_active (canon <$> l) = canon <$> List.filter row_active l.
Proof.
  induction l as [|r l IH]; [done|]. cbn [fmap list_fmap List.filter]. rewrite IH.
  assert (row_active (canon r) = row_active r) as -> by (by destruct r as [? [] ? ? ? ? ? ?]). by destruct (row_active r).
Qed.

(** Rows with unique ids compile to rules that do not depend on their order. *)
Lemma active_rules_canon rows rows' :
  NoDup (sr_id <$> rows) → canon <$> rows ≡ₚ canon <$> rows' → active_rules rows = active_rules rows'.
Proof.
  intros Hnd Hp. unfold active_rules. f_equal. rewrite <-collect_canon.
  rewrite <-(collect_canon (merge_sort _ (List.filter _ rows'))). f_equal.
  assert (∀ l, Sorted priority_order (canon <$> merge_sort priority_order l)) as Hsort.
  { intros l. apply (Sorted_fmap _ priority_order); [done|]. apply Sorted_merge_sort, _. }
  assert (∀ l, canon <$> merge_sort priority_order (List.filter row_active l) ≡ₚ List.filter row_active (canon <$> l)) as Hperm.
  { intros l. by rewrite filter_canon, merge_sort_Permutation. }
  assert (∀ x, x ∈ canon <$> merge_sort priority_order (List.filter row_active rows) → x ∈ canon <$> rows) as Hin.
  { intros x. rewrite (Hperm rows). by intros [? _]%elem_of_filterb. }
  apply (Sorted_unique_strong priority_order); [|done..|].
  - intros x y Hx Hy Hxy Hyx. apply Hin in Hx. rewrite Hperm in Hy. apply elem_of_filterb in Hy as [Hy _].
    rewrite <-Hp in Hy. assert (sr_id x = sr_id y) as Heq by (unfold priority_order in *; lia).
    apply list_elem_of_fmap in Hx as (a & -> & Ha), Hy as (b & -> & Hb). cbn in Heq.
    f_equal. by eapply (NoDup_fmap_inj sr_id).
  - rewrite !Hperm. clear -Hp. induction Hp as [|x l l' Hp IH|x y l|l1 l2 l3 _ IH1 _ IH2]; cbn [List.filter].
    + done.
    + destruct (row_active x); by rewrite IH.
    + destruct (row_active x), (row_active y); try done. constructor.
    + by rewrite IH1.
Qed.

Section policy.
Context `{Platform} (sha256 : string → string) (decode : string → string) (seen : list string).
Context (no_collision : collision_free sha256 seen).

(** What the sources block and allow together. *)
Definition listed_blocks (st : source_store) : gset string :=
  ⋃ ((λ s, (contribution sha256 decode (fs (ss_cache st)) s).1.1) <$> enabled_sources (ss_sources st)).
Definition listed_allows (st : source_store) : gset string :=
  ⋃ ((λ s, (contribution sha256 decode (fs (ss_cache st)) s).1.2) <$> enabled_sources (ss_sources st)).

(** The names and the custom rules a deployment of these tables puts in the zone. *)
Definition compiled_policy (s : system) : gset string * ActiveRuleSet :=
  let custom := active_rules (rules (sy_rules s)) in
  (subtract_allowed (listed_blocks (sy_sources s) ∖ listed_allows (sy_sources s)) custom, custom).

Definition policy_text (serial : string) (s : system) : string :=
  render_rpz serial (compiled_policy s).1 (Some (compiled_policy s).2).

(** All of the lists on disk are among the texts considered. *)
Definition lists_seen (s : system) : Prop :=
  ∀ p c, fs (ss_cache (sy_sources s)) !! p = Some c → is_current p → c ∈ seen.

Lemma source_json_contribution s s' r r' j :
  lists_seen s → lists_seen s' →
  source_json sha256 (fs (ss_cache (sy_sources s))) r = Some j →
  source_json sha256 (fs (ss_cache (sy_sources s'))) r' = Some j →
  src_enabled r = src_enabled r'
  ∧ (src_enabled r = true → contribution sha256 decode (fs (ss_cache (sy_sources s))) r
                            = contribution sha256 decode (fs (ss_cache (sy_sources s'))) r').
Proof.
  intros Hs Hs' Hj Hj'. unfold source_json in *.
  apply bind_Some in Hj as (d & Hd & [= <-]). apply bind_Some in Hj' as (d' & Hd' & [= Hc Hdd He Hi Hn Hu]).
  assert (src_enabled r = src_enabled r') as Hen by (by destruct (src_enabled r), (src_enabled r')).
  rewrite Hen in *. split; [done|]. intros Ht. rewrite Ht in *. subst d'.
  apply fmap_Some in Hd as (c & Hfc & ->), Hd' as (c' & Hfc' & [= E]).
  unfold contribution. change ((source_paths sha256 r).1) with (current_path sha256 r) in Hfc.
  change ((source_paths sha256 r').1) with (current_path sha256 r') in Hfc'. rewrite Hfc, Hfc'. f_equal.
  apply no_collision; [|..|done].
  - by eapply Hs, current_path_current.
  - by eapply Hs', current_path_current.
Qed.

(** Sources with the same entries in the manifest list the same names. *)
Lemma listed_subset s s' js (part : parse_result → gset string) :
  lists_seen s → lists_seen s' →
  mapM (source_json sha256 (fs (ss_cache (sy_sources s)))) (by_id src_id (ss_sources (sy_sources s))) = Some js →
  mapM (source_json sha256 (fs (ss_cache (sy_sources s')))) (by_id src_id (ss_sources (sy_sources s'))) = Some js →
  ⋃ ((λ r, part (contribution sha256 decode (fs (ss_cache (sy_sources s))) r)) <$> enabled_sources (ss_sources (sy_sources s)))
  ⊆ ⋃ ((λ r, part (contribution sha256 decode (fs (ss_cache (sy_sources s'))) r)) <$> enabled_sources (ss_sources (sy_sources s'))).
Proof.
  intros Hs Hs' Hj Hj' x. rewrite !elem_of_union_list. setoid_rewrite list_elem_of_fmap.
  intros (X & (r & -> & [Hr Hen]%elem_of_filterb) & Hx).
  apply mapM_Some in Hj, Hj'. unfold by_id in Hj, Hj'.
  assert (r ∈ merge_sort (id_order src_id) (ss_sources (sy_sources s))) as Hr1 by (by rewrite merge_sort_Permutation).
  apply list_elem_of_lookup in Hr1 as [i Hi].
  destruct (Forall2_lookup_l _ _ _ _ _ Hj Hi) as (j & Hij & Hjr).
  destruct (Forall2_lookup_r _ _ _ _ _ Hj' Hij) as (r' & Hr' & Hjr').
  apply list_elem_of_lookup_2 in Hr'. rewrite merge_sort_Permutation in Hr'.
  destruct (source_json_contribution s s' r r' j Hs Hs' Hjr Hjr') as [He Hc].
  eexists. split; [exists r'; split; [reflexivity|]|by rewrite <-Hc].
  apply elem_of_filterb. split; [done|congruence].
Qed.

(** Two states with the same manifest compile to the same policy. *)
Lemma manifest_determines_policy s s' m :
  lists_seen s → lists_seen s' → NoDup (sr_id <$> rules (sy_rules s)) →
  protection_policy_manifest sha256 s = Some m → protection_policy_manifest sha256 s' = Some m →
  compiled_policy s = compiled_policy s'.
Proof.
  intros Hs Hs' Hnd Hm Hm'. unfold protection_policy_manifest in *.
  apply bind_Some in Hm as (js & Hj & [= <-]). apply bind_Some in Hm' as (js' & Hj' & Heq).
  injection Heq as Hrules _ _ _ _ Hjs _. subst js'.
  assert (active_rules (rules (sy_rules s)) = active_rules (rules (sy_rules s'))) as Hact.
  { apply active_rules_canon; [done|].
    rewrite <-(merge_sort_Permutation (id_order sr_id) (rules (sy_rules s))).
    rewrite <-(merge_sort_Permutation (id_order sr_id) (rules (sy_rules s'))).
    enough (canon <$> by_id sr_id (rules (sy_rules s)) = canon <$> by_id sr_id (rules (sy_rules s'))) as Heq
      by (unfold by_id in Heq; by rewrite Heq).
    revert Hrules. unfold by_id.
    generalize (merge_sort (id_order sr_id) (rules (sy_rules s))), (merge_sort (id_order sr_id) (rules (sy_rules s'))).
    intros l. induction l as [|r l IH]; intros [|r' l'] E; try done.
    pose proof (f_equal tail E) as Ht. apply (f_equal head), (inj Some) in E.
    cbn [fmap list_fmap tail] in Ht |- *. by rewrite (rule_json_canon r r'), (IH l'). }
  assert (listed_blocks (sy_sources s) = listed_blocks (sy_sources s')) as Hb.
  { apply set_eq_subseteq. split; by eapply (listed_subset _ _ js (λ r, r.1.1)). }
  assert (listed_allows (sy_sources s) = listed_allows (sy_sources s')) as Ha.
  { apply set_eq_subseteq. split; by eapply (listed_subset _ _ js (λ r, r.1.2)). }
  unfold compiled_policy. by rewrite Hact, Hb, Ha.
Qed.

(** A deployment of [d.1] with serial [d.2] leaves the policy it compiled in the cache. *)
Definition remember (cache : option policy_cache) (d : system * string) : option policy_cache :=
  let s := d.1{{sy_policy := cache}} in
  let policy := compiled_policy s in
  sy_policy (record_reusable_protection_policy sha256 (policy_text d.2 s)
               (Z.of_nat (size policy.1 + size (blocks policy.2))) s).

(** The cached zone is the policy of a deployed state whose manifest it names. *)
Definition cache_of (recs : list (system * string)) (cached : policy_cache) : Prop :=
  ∃ d m n, d ∈ recs ∧ pc_rpz cached = policy_text d.2 d.1
    ∧ protection_policy_manifest sha256 d.1 = Some m
    ∧ pc_manifest cached = Some (mkManifest m n (manifest_sha256 sha256 m)).

Lemma remember_cache_of recs cached :
  fold_left remember recs None = Some cached → cache_of recs cached.
Proof.
  revert cached. induction recs as [|d recs IH] using rev_ind; intros cached; [done|].
  rewrite fold_left_app. cbn [fold_left]. set (cache := fold_left remember recs None) in *.
  assert (cache = Some cached → cache_of (recs ++ [d]) cached) as Hold.
  { intros (d' & m & n & Hd' & Hrest)%IH. exists d', m, n. split; [|done]. apply elem_of_app. by left. }
  unfold remember, record_reusable_protection_policy. destruct (_ <=? 0)%Z; [done|].
  change (protection_policy_manifest sha256 (d.1{{sy_policy := cache}})) with (protection_policy_manifest sha256 d.1).
  destruct (protection_policy_manifest sha256 d.1) as [m|] eqn:Em; [|done].
  intros [= <-]. exists d, m. eexists. split; [apply elem_of_app; right; left|]. by split.
Qed.

End policy.

Definition cached_system (name : string) : system :=
  mkSystem (mkSources (add_source name "https://a.example/" "malware" true [])
              (mkStore (<["current/1-a.txt" := "||ads.example^"]> ∅) ∅))
    (mkRules None []) empty_ldb [] (mkUpstreams [] []) ∅ [] None [].

