(* ===== verification/Deploy.v ===== *)
(** * The deployment of the whole policy

    [deploy] of [app/alderpointdns_compiler.py]: collect the sources, compile the zone,
    install it, deploy the local zones, the upstream resolvers, the cache options and the
    custom rules, check that names resolve and are blocked as they should, and undo what
    can be undone when any step fails. *)

From S2P Require Import Prelude PyStr StrLemmas IpAddr PyJson DomainName World RuleParser RuleStore RuleCompile RpzFile.
From S2P Require Import SourceParser ParseCache Sources LocalDns LocalZones Upstream UpstreamDeploy DnsCache.
From S2P Require Import DnsdistLayer Layers PolicyCheck PolicyCache.

(** ** Computations with local variables

    The body of [deploy] assigns variables that its handlers read; they survive an
    exception, as the tables do. *)
Record locals := mkLocals {
  v_system : system;
  v_active_domains : Z; v_blocked_test : option string; v_allowed_test : option string;
  v_layer : option (bool * list DnsdistLayer.backup_entry);
  v_snapshot : option string; v_cache_deployed : bool }.

Definition D (A : Type) : Type := locals → world → res A * locals * world.

#[export] Instance D_ret : MRet D := λ A a v w, (Ok a, v, w).
#[export] Instance D_bind : MBind D := λ A B f m v w,
  match m v w with
  | (Ok a, v, w) => f a v w
  | (Raise e, v, w) => (Raise e, v, w)
  end.

Definition io {A} (m : M A) : D A := λ v w, let '(r, w) := m w in (r, v, w).
Definition gets {A} (f : locals → A) : D A := λ v w, (Ok (f v), v, w).
Definition modify (f : locals → locals) : D () := λ v w, (Ok (), f v, w).
Definition update (f : system → system) : D () := modify (λ v : locals, v{{v_system ::= f}}).
Definition check (r : res ()) : D () := io (lift r).

(** ** Commands *)

Definition COMPILED_RPZ : string := "/var/lib/alderpointdns/compiled/bind/alderpointdns.rpz".
Definition RPZ_BACKUP_DIR : string := "/var/lib/alderpointdns/backups/".
Definition RPZ_STAGING_DIR : string := "/var/lib/alderpointdns/staging/".

(** app/alderpointdns_compiler.py:1107-1108 validate_rpz *)
Definition validate_rpz (path : string) : M () := run_ ["named-checkzone"; RPZ_ZONE; path] true.
(** app/alderpointdns_compiler.py:1111-1112 validate_bind *)
Definition validate_bind : M () := run_ ["named-checkconf"; "-p"; "/etc/bind/named.conf"] true.
(** app/alderpointdns_compiler.py:1115-1116 reload_bind *)
Definition reload_bind : M () := run_ ["rndc"; "reload"; RPZ_ZONE] true.

(** app/alderpointdns_compiler.py:1119-1123 restore_rpz_backup_for_rollback *)
Definition restore_rpz_backup_for_rollback (serial backup_path : string) : M () :=
  text ← read_text backup_path;
  _ ← write_text COMPILED_RPZ (refresh_rpz_serial serial text);
  reload_bind.

(** ** What a deployment is given *)

Record request := mkRequest {
  rq_download : option (source_row → response);   (* the network, unless [download=False] *)
  rq_fail_on_source_errors : bool;
  rq_test_invalid_rpz : bool; rq_test_invalid_zone : bool; rq_test_postcheck_fail : bool }.

(** Clocks, temporary names and what the host reports; a clock is read where the code
    reads it. *)
Record env := mkEnv {
  en_now : string; en_compiled_at : string;
  en_backup : string; en_serial : string; en_rollback_serial : string; en_tmp : string;
  en_zone_tmp : string; en_zone_seconds : string; en_today : Z; en_host : string;
  en_up_tmp : string; en_up_seconds : string; en_tries : nat;
  en_cache_tmp : string; en_cache_seconds : string; en_total_mb : Z;
  en_layer_tmp : string; en_layer_seconds : string;
  en_polls : nat }.

Section deploy.
Context `{Platform} (sha256 : string → string) (decode : string → string) (en : env) (rq : request).

Definition rpz_backup : string := RPZ_BACKUP_DIR +:+ "alderpointdns.rpz.last-good." +:+ en_backup en.
Definition rpz_stage : string := RPZ_STAGING_DIR +:+ "alderpointdns-rpz-" +:+ en_tmp en +:+ "/".
Definition staged_rpz : string := rpz_stage +:+ "alderpointdns.rpz".

(** ** The steps of the body *)

Definition collect : D collected :=
  s ← gets v_system;
  let '(r, sources) := collect_rules sha256 decode (rq_download rq) (en_now en) (sy_sources s) in
  _ ← update (λ s : system, s{{sy_sources := sources}});
  io (lift r).

Definition collect_custom : D ActiveRuleSet :=
  s ← gets v_system;
  _ ← update (λ s : system, s{{sy_rules ::= RuleStore.init_db (en_now en)}});
  mret (collect_active (en_now en) (sy_rules s)).

Definition install_rpz (rpz_text : string) : M () :=
  _ ← write_text staged_rpz rpz_text;
  _ ← validate_rpz staged_rpz;
  included ← exists_ LOCAL_ZONES_CONF;
  _ ← when (negb included) (write_text LOCAL_ZONES_CONF "");
  _ ← validate_bind;
  live ← exists_ COMPILED_RPZ;
  _ ← when live (copy2 COMPILED_RPZ rpz_backup);
  _ ← World.replace staged_rpz COMPILED_RPZ;
  reload_bind.

Definition mark_compiled (ts : string) (st : source_store) : source_store :=
  st{{ss_sources ::= fmap (λ s : source_row, if src_enabled s then s{{src_last_compile := Some ts}} else s)}}.

Definition deploy_local : D () :=
  s ← gets v_system;
  r ← io (deploy_zones (LOCAL_STAGING_DIR +:+ en_zone_tmp en) (en_zone_seconds en) (rq_test_invalid_zone rq)
            (en_host en) (en_today en) (sy_local s) (sy_local_deps s));
  _ ← update (λ s : system, s{{sy_local_deps := r.1}});
  _ ← io (lift r.2); mret ().

Definition deploy_resolvers : D () :=
  s ← gets v_system;
  r ← io (deploy_upstreams (en_now en) (en_up_seconds en) (UPSTREAM_STAGING_DIR +:+ en_up_tmp en)
            (en_tries en) (sy_upstreams s));
  _ ← update (λ s : system, s{{sy_upstreams := r.1}});
  _ ← io (lift r.2); mret ().

Definition deploy_cache : D () :=
  s ← gets v_system;
  text ← io (get_file CACHE_OPTIONS_CONF);
  _ ← modify (λ v : locals, v{{v_snapshot := text}});
  r ← io (deploy_cache_options (en_total_mb en) (sy_cache s) (en_cache_seconds en)
            (CACHE_STAGING_DIR +:+ en_cache_tmp en) (sy_cache_deps s));
  _ ← update (λ s : system, s{{sy_cache_deps := r.1}});
  _ ← io (lift r.2);
  modify (λ v : locals, v{{v_cache_deployed := true}}).

Definition deploy_custom (custom : ActiveRuleSet) : D () :=
  s ← gets v_system;
  info ← io (deploy_dnsdist_layer custom (Some (sy_local s)) (en_layer_seconds en) (en_layer_tmp en));
  modify (λ v : locals, v{{v_layer := Some info}}).

(** ** The checks *)

Definition custom_blocks (custom : ActiveRuleSet) : list string :=
  omap (λ '(name, block), if ne_subdomains block || ne_exact block then Some name else None) (map_to_list (blocks custom)).

(** The blocked name that is looked up. *)
Definition blocked_name (active_blocks : gset string) (custom : ActiveRuleSet) : option string :=
  if decide ("cloudflare-dns.com" ∈ active_blocks) then Some "cloudflare-dns.com"
  else match sorted_set active_blocks with
       | d :: _ => Some d
       | [] => head (py_sorted (custom_blocks custom))
       end.

Definition first_rewrite (custom : ActiveRuleSet) : option (string * rewrite_entry) :=
  name ← head (py_sorted (keys (rewrites custom))); e ← rewrites custom !! name; Some (name, e).

Definition fail_unless (ok : bool) (message : string) : M () :=
  if ok then mret () else raise (RuntimeError message).

(** The errors are the message of a successful deployment. *)
Definition post_checks (c : collected) (active_blocks : gset string) (custom : ActiveRuleSet) (rpz_text : string)
    : D (list string) :=
  _ ← check (raise_if (rq_test_postcheck_fail rq) (RuntimeError "forced post-deploy failure for rollback test"));
  ok ← io (PolicyCheck.resolves "cloudflare.com");
  _ ← io (fail_unless ok "post-deploy ordinary resolution failed");
  let blocked := blocked_name active_blocks custom in
  _ ← modify (λ v : locals, v{{v_blocked_test := blocked}});
  _ ← match blocked with
      | Some name =>
          ok ← io (wait_until (en_polls en) (is_blocked name));
          io (fail_unless ok ("post-deploy blocked-domain test failed for " +:+ name))
      | None => mret ()
      end;
  let allowed := co_allows c ∪ dom (allows custom) in
  errors ← (if decide (allowed = ∅) then mret (co_errors c)
            else
              result ← io (validate_allow_domains allowed active_blocks custom rpz_text 5);
              _ ← io (fail_unless (av_ok result) (av_message result));
              _ ← modify (λ v : locals, v{{v_allowed_test := av_tested result}});
              mret (match av_tested result with
                    | None => co_errors c ++ [av_message result]
                    | Some _ => co_errors c
                    end));
  _ ← match first_rewrite custom with
      | Some (name, entry) =>
          let '(rtype, address) :=
            match rw_a entry with Some a => ("A", a) | None => ("AAAA", default "" (rw_aaaa entry)) end in
          ok ← io (wait_until (en_polls en) (resolves_to name rtype address));
          io (fail_unless ok ("post-deploy rewrite test failed for " +:+ name))
      | None => mret ()
      end;
  mret errors.

(** ** The try block *)

Definition deploy_body : D (list string) :=
  c ← collect;
  _ ← check (raise_if (rq_fail_on_source_errors rq && negb (bool_decide (co_errors c = [])))
               (RuntimeError ("initial default blocklist download failed: " +:+ join "; " (co_errors c))));
  custom ← collect_custom;
  let active_blocks := subtract_allowed (co_active c) custom in
  let active_domains := Z.of_nat (size active_blocks + size (blocks custom)) in
  _ ← modify (λ v : locals, v{{v_active_domains := active_domains}});
  let rpz_text := render_rpz (en_serial en) active_blocks (Some custom)
                  +:+ (if rq_test_invalid_rpz rq then "this is not a valid zone record" +:+ nl else "") in
  _ ← io (install_rpz rpz_text);
  _ ← update (λ s : system, s{{sy_sources ::= mark_compiled (en_compiled_at en)}});
  _ ← deploy_local;
  _ ← deploy_resolvers;
  _ ← deploy_cache;
  _ ← deploy_custom custom;
  errors ← post_checks c active_blocks custom rpz_text;
  _ ← update (record_reusable_protection_policy sha256 rpz_text active_domains);
  mret errors.

(** ** The handler *)

Definition restore_cache_options (snapshot : option string) : M () :=
  live ← exists_ CACHE_OPTIONS_CONF;
  _ ← match snapshot with
      | Some text => write_text CACHE_OPTIONS_CONF text
      | None => when live (unlink CACHE_OPTIONS_CONF)
      end;
  run_ ["rndc"; "reconfig"] false.

Definition rollback_error (what : string) (r : res ()) : list string :=
  match r with Ok _ => [] | Raise e => [what +:+ " rollback failed: " +:+ exc_message e] end.

(** The status and the message; an exception of the first step leaves the handler. *)
Definition handle (v : locals) (e : pyexc) : M (string * string) :=
  _ ← match v_layer v with Some info => rollback_layer info | None => mret () end;
  saved ← exists_ rpz_backup;
  r1 ← (if (saved : bool) then attempt (restore_rpz_backup_for_rollback (en_rollback_serial en) rpz_backup)
        else mret (Ok ()));
  r2 ← (if v_cache_deployed v then attempt (restore_cache_options (v_snapshot v)) else mret (Ok ()));
  let errors := rollback_error "RPZ" r1 ++ rollback_error "cache-options" r2 in
  mret (if decide (errors = []) then ("rolled_back", exc_message e)
        else ("rollback_failed", exc_message e +:+ "; " +:+ join "; " errors)).

(** app/alderpointdns_compiler.py:1752-1923 deploy

    The tables afterwards and the id, or the exception.  Replication's hook on a
    successful deployment catches every exception and touches none of these tables. *)
Definition deploy (s : system) : M (system * res Z) := λ w,
  let id := fresh_id (dp_id <$> sy_deps s) in
  let '(r, v, w) := deploy_body (mkLocals s 0 None None None None false) w in
  let '(status, message, outcome, w) :=
    match r with
    | Ok errors => ("deployed", join "; " errors, Ok id, w)
    | Raise e =>
        match handle v e w with
        | (Ok (status, message), w) => (status, message, Raise e, w)
        | (Raise e', w) => ("failed", exc_message e, Raise e', w)
        end
    end in
  let d := mkDeployment id status (v_active_domains v) (v_blocked_test v) (v_allowed_test v) message in
  (Ok ((v_system v){{sy_deps ::= (λ deps, deps ++ [d])}}, outcome), (rmtree (rpz_stage) w).2).
End deploy.

(** ** Reasoning about the body

    [triple P m Q E]: from a state in [P], [m] ends in [Q] when it returns and in [E] when
    it raises. *)
Section triples.
Context {A B : Type}.
Definition assertion : Type := locals → world → Prop.

Definition triple {A} (P : assertion) (m : D A) (Q : A → assertion) (E : assertion) : Prop :=
  ∀ v w, P v w → match m v w with (Ok a, v', w') => Q a v' w' | (Raise _, v', w') => E v' w' end.

Lemma triple_ret (Q : A → assertion) E a : triple (Q a) (mret a) Q E.
Proof. by intros v w HQ. Qed.

Lemma triple_bind P (m : D A) Q (f : A → D B) R E :
  triple P m Q E → (∀ a, triple (Q a) (f a) R E) → triple P (m ≫= f) R E.
Proof.
  intros Hm Hf v w HP. specialize (Hm v w HP). unfold mbind, D_bind.
  destruct (m v w) as [[[a|e] v'] w']; [by apply Hf|done].
Qed.

Lemma triple_conseq (P P' : assertion) (m : D A) (Q Q' : A → assertion) (E E' : assertion) :
  triple P' m Q' E' → (∀ v w, P v w → P' v w) → (∀ a v w, Q' a v w → Q a v w) → (∀ v w, E' v w → E v w) →
  triple P m Q E.
Proof.
  intros Hm HP HQ HE v w Hv. specialize (Hm v w (HP v w Hv)). destruct (m v w) as [[[a|e] v'] w']; auto.
Qed.

Lemma triple_modify (P : assertion) f (Q : () → assertion) E :
  (∀ v w, P v w → Q () (f v) w) → triple P (modify f) Q E.
Proof. intros H v w Hv. by apply H. Qed.

Lemma triple_gets (P : assertion) (f : locals → A) E : triple P (gets f) (λ a v w, a = f v ∧ P v w) E.
Proof. by intros v w Hv. Qed.
End triples.

(** ** What can be undone *)

Lemma custom_target_prefix n : starts_with COMPILED_DNSDIST_DIR (target_path n) = true.
Proof. apply starts_with_app. Qed.

Section undo.
Context `{Platform} (sha256 : string → string) (decode : string → string) (en : env) (rq : request).
Context (s0 : system) (w0 : world).

Definition cache_backup : string := CACHE_BACKUP_DIR +:+ "cache-options.conf.last-good." +:+ en_cache_seconds en.

(** The files a failed deployment puts back, and the copies it makes for that. *)
Definition guarded (p : string) : Prop :=
  p = COMPILED_RPZ ∨ p = rpz_backup en ∨ p = CACHE_OPTIONS_CONF ∨ p = cache_backup
  ∨ ∃ n, n ∈ custom_names ∧ p = target_path n.

Definition rpz_state (installed : option string) (w : world) : Prop :=
  match installed with
  | None => w_files w !! rpz_backup en = None ∧ w_files w !! COMPILED_RPZ = w_files w0 !! COMPILED_RPZ
  | Some text => w_files w !! rpz_backup en = w_files w0 !! COMPILED_RPZ ∧ w_files w !! COMPILED_RPZ = Some text
  end.

Definition cache_state (done : bool) (v : locals) (w : world) : Prop :=
  v_cache_deployed v = done
  ∧ if done then v_snapshot v = w_files w0 !! CACHE_OPTIONS_CONF
    else w_files w !! CACHE_OPTIONS_CONF = w_files w0 !! CACHE_OPTIONS_CONF.

(** A deployed layer is one whose rollback gives the old files again. *)
Definition undoes (info : bool * list DnsdistLayer.backup_entry) (w : world) : Prop :=
  (∀ b, b ∈ info.2 → ∃ n, n ∈ custom_names ∧ b.1 = target_path n)
  ∧ ∀ w', (∀ p, w_files w' !! p = w_files w !! p) → ∀ n, n ∈ custom_names →
      w_files (rollback_layer info w').2 !! target_path n = w_files w0 !! target_path n.

Definition layer_state (done : bool) (v : locals) (w : world) : Prop :=
  if done then ∃ info, v_layer v = Some info ∧ undoes info w
  else v_layer v = None ∧ ∀ n, n ∈ custom_names → w_files w !! target_path n = w_files w0 !! target_path n.

Record undoable (installed : option string) (cached layered : bool) (v : locals) (w : world) : Prop := {
  un_deps : sy_deps (v_system v) = sy_deps s0;
  un_answers : w_answers w = w_answers w0;
  un_rpz : rpz_state installed w;
  un_cache : cache_state cached v w;
  un_layer : layer_state layered v w;
}.

Definition failed (v : locals) (w : world) : Prop := ∃ i c l, undoable i c l v w.

(** Computations that leave the guarded files alone. *)
Lemma undoable_files i c v w w' :
  undoable i c false v w → w_answers w' = w_answers w → (∀ p, guarded p → w_files w' !! p = w_files w !! p) →
  undoable i c false v w'.
Proof.
  intros [Hd Ha Hr [Hc Hc'] [Hl Hl']] Hans Hf.
  assert (w_files w' !! COMPILED_RPZ = w_files w !! COMPILED_RPZ) as H1 by (apply Hf; by left).
  assert (w_files w' !! rpz_backup en = w_files w !! rpz_backup en) as H2 by (apply Hf; by right; left).
  assert (w_files w' !! CACHE_OPTIONS_CONF = w_files w !! CACHE_OPTIONS_CONF) as H3 by (apply Hf; by do 2 right; left).
  split; [done|congruence|..].
  - unfold rpz_state in *. destruct i; by rewrite H1, H2.
  - split; [done|]. destruct c; [done|by rewrite H3].
  - split; [done|]. intros n Hn. rewrite Hf; [by apply Hl'|]. by do 4 right; exists n.
Qed.

Lemma undoable_same i c l v w w' :
  undoable i c l v w → w_answers w' = w_answers w → (∀ p, w_files w' !! p = w_files w !! p) → undoable i c l v w'.
Proof.
  intros Hu Hans Hf. destruct l; [|by eapply undoable_files; [exact Hu|..]].
  destruct Hu as [Hd Ha Hr [Hc Hc'] (info & Hl & He & Hun)]. split; [done|congruence|..].
  - unfold rpz_state in *. destruct i; by rewrite !Hf.
  - split; [done|]. destruct c; [done|by rewrite Hf].
  - exists info. split; [done|]. split; [done|]. intros w'' Hw''. apply Hun. intros p. by rewrite Hw'', Hf.
Qed.

Lemma undoable_system i c l v w f :
  (∀ s, sy_deps (f s) = sy_deps s) → undoable i c l v w → undoable i c l (v{{v_system ::= f}}) w.
Proof. intros Hf [Hd Ha Hr Hc Hl]. split; try done. cbn. by rewrite Hf. Qed.

(** Computations that change nothing a rollback depends on: lookups and the names tested. *)
Definition harmless {A} (m : D A) : Prop := ∀ i c l, triple (undoable i c l) m (λ _, undoable i c l) (undoable i c l).

Lemma harmless_ret {A} (a : A) : harmless (mret a).
Proof. intros i c l. apply (triple_ret (λ _, undoable i c l)). Qed.
Lemma harmless_bind {A B} (m : D A) (f : A → D B) : harmless m → (∀ a, harmless (f a)) → harmless (m ≫= f).
Proof. intros Hm Hf i c l. eapply triple_bind; [apply Hm|]. intros a. apply Hf. Qed.
Lemma harmless_modify f :
  (∀ v, v_system (f v) = v_system v ∧ v_layer (f v) = v_layer v ∧ v_snapshot (f v) = v_snapshot v
        ∧ v_cache_deployed (f v) = v_cache_deployed v) → harmless (modify f).
Proof.
  intros Hf i c l v w [Hd Ha Hr Hc Hl]. destruct (Hf v) as (H1 & H2 & H3 & H4).
  split; [by rewrite H1|done..| |].
  - unfold cache_state in *. by rewrite H3, H4.
  - unfold layer_state in *. destruct l; by rewrite H2.
Qed.
Lemma harmless_io {A} (m : M A) : writes no_path any_command m → harmless (io m).
Proof.
  intros Hm i c l v w Hu. unfold io. specialize (Hm w). destruct (m w) as [r w']. cbn in Hm.
  assert (undoable i c l v w') as Hu'; [|by destruct r].
  eapply undoable_same; [exact Hu|apply Hm|]. intros p. apply (frame_files _ _ _ _ Hm). by intros [].
Qed.
End undo.

(** ** What the components touch *)

Definition any_path (p : string) : Prop := True.

Lemma writes_any {A} S (m : M A) : writes S any_command m → writes any_path any_command m.
Proof. intros Hm w. eapply frame_mono; [..|apply Hm]; done. Qed.

Lemma deploy_layer_answers l w : w_answers (deploy_layer l w).2 = w_answers w.
Proof.
  assert (∀ bs, writes any_path any_command (restore_backups bs)) as Hrestore.
  { intros bs w'. rewrite restore_run. split; [by intros ? []|done|exists []; by rewrite app_nil_r]. }
  assert (∀ targets acc, writes any_path any_command (install_all l acc targets)) as Hinstall.
  { induction targets as [|t targets IH]; intros acc; cbn [install_all]; unfold backup_target, write_target; frames; try done; apply IH. }
  assert (∀ targets, writes any_path any_command (any_changed targets)) as Hchanged.
  { intros targets w'. rewrite any_changed_run. apply frame_refl. }
  apply (frame_answers any_path any_command). revert w. unfold deploy_layer, restart_dnsdist.
  apply writes_bind; [apply Hchanged|]. intros []; cbn [negb]; [|apply writes_ret].
  apply writes_finally; [|by apply writes_rmtree].
  apply writes_bind; [apply writes_attempt|intros r].
  { intros w. eapply frame_mono; [..|apply stage_and_check_writes]; done. }
  apply writes_bind; [destruct r; [apply Hinstall|apply writes_ret]|]. intros [bs r'].
  apply writes_bind; [destruct r'; [by apply writes_attempt, writes_run_|apply writes_ret]|]. intros [|e]; [apply writes_ret|].
  apply writes_bind; [apply Hrestore|]. intros _. apply writes_bind; [by apply writes_when, writes_run_|]. intros _. apply writes_raise.
Qed.

Lemma deploy_upstreams_answers `{Platform} ts seconds stage tries us w :
  w_answers (deploy_upstreams ts seconds stage tries us w).2 = w_answers w.
Proof.
  apply (frame_answers any_path any_command). revert w. unfold deploy_upstreams, deploy_rows.
  assert (∀ e bs l, writes any_path any_command (roll_back_upstreams ts e bs l)) as Hroll.
  { intros. unfold roll_back_upstreams, capture_service_diagnostics, restore_live. frames; done. }
  apply writes_bind; [apply writes_get|]. intros conf. cbv zeta. case_match; [apply writes_ret|].
  apply writes_bind; [|intros out; frames; done].
  apply writes_bind; [apply writes_attempt; unfold stage_upstreams; apply writes_bind|].
  - eapply writes_any, prepare_writes.
  - intros staged. frames; done.
  - intros [[ps fs]|e]; [|apply Hroll]. unfold install_live.
    apply writes_bind; [frames; done|]. intros b1. apply writes_bind; [frames; done|]. intros b2.
    apply writes_bind; [apply writes_attempt; eapply writes_any, activate_upstreams_writes|]. intros [|]; [|apply Hroll].
    unfold backend_snapshots, show_servers. frames; done.
Qed.

(** A closed path comparison that fails. *)
Ltac apart := let E := fresh in intros E; vm_compute in E; discriminate.

(** The guarded paths, one by one. *)
Lemma guarded_cases en (Q : string → Prop) :
  Q COMPILED_RPZ → Q (rpz_backup en) → Q CACHE_OPTIONS_CONF → Q (cache_backup en) →
  Forall (λ n, Q (target_path n)) custom_names → ∀ p, guarded en p → Q p.
Proof. intros H1 H2 H3 H4 H5 p [-> | [-> | [-> | [-> | (n & Hn & ->)]]]]; try done. by rewrite Forall_forall in H5; apply H5. Qed.

Lemma guarded_not_zones en tmp tag p :
  guarded en p → ¬ zone_paths (LOCAL_STAGING_DIR +:+ tmp) (LOCAL_BACKUP_DIR +:+ "localdns.last-good." +:+ tag) p.
Proof.
  revert p. apply guarded_cases; [..|repeat constructor];
    intros [[H|[H|H]]|[H|[H|[H|H]]]]; revert H; apart.
Qed.

Lemma guarded_not_upstream en seconds tmp p : guarded en p → ¬ upstream_paths seconds tmp p.
Proof.
  revert p. apply guarded_cases; [..|repeat constructor];
    intros [H|[H|[[H|[H|[H|H]]]|[H|[H|H]]]]]; revert H; apart.
Qed.

Lemma guarded_not_staged en p : guarded en p → starts_with (rpz_stage en) p = false.
Proof. revert p. apply guarded_cases; [..|repeat constructor]; vm_compute; reflexivity. Qed.

(** ** The steps *)

Section steps.
Context `{Platform} (sha256 : string → string) (decode : string → string) (en : env) (rq : request).
Context (s0 : system) (w0 : world).

Abbreviation undoable := (undoable en s0 w0).
Abbreviation failed := (failed en s0 w0).

(** Before the cache options are deployed their backup is not there. *)
Definition early (i : option string) (v : locals) (w : world) : Prop :=
  undoable i false false v w ∧ w_files w !! cache_backup en = None.

(** A component that touches none of the guarded files. *)
Lemma triple_component {A B} (m : A → M (B * res Z)) (input : system → A) (store : B → system → system) text :
  (∀ b s, sy_deps (store b s) = sy_deps s) →
  (∀ a w, ∃ b r w', m a w = (Ok (b, r), w') ∧ w_answers w' = w_answers w
            ∧ ∀ p, guarded en p → w_files w' !! p = w_files w !! p) →
  triple (early (Some text))
    (s ← gets v_system; r ← io (m (input s)); _ ← update (store r.1); _ ← io (lift r.2); mret ())
    (λ _, early (Some text)) failed.
Proof.
  intros Hst Hm v w [Hu Hfree]. unfold mbind, D_bind, gets, io at 1.
  destruct (Hm (input (v_system v)) w) as (b & r & w' & -> & Ha & Hf). cbn [update modify fst snd].
  assert (early (Some text) (v{{v_system ::= store b}}) w') as Hu'.
  { split; [apply undoable_system; [apply Hst|]; by eapply undoable_files|]. rewrite Hf; [done|]. by do 3 right; left. }
  destruct r as [i|e]; [done|]. destruct Hu'. by do 3 eexists.
Qed.

Lemma local_step text :
  triple (early (Some text)) (deploy_local en rq) (λ _, early (Some text)) failed.
Proof.
  apply (triple_component (λ s, deploy_zones (LOCAL_STAGING_DIR +:+ en_zone_tmp en) (en_zone_seconds en)
    (rq_test_invalid_zone rq) (en_host en) (en_today en) (sy_local s) (sy_local_deps s))
    id (λ b (s : system), s{{sy_local_deps := b}})); [done|].
  intros s w. destruct (deploy_zones_frame (en_zone_tmp en) (en_zone_seconds en) (rq_test_invalid_zone rq)
    (en_host en) (en_today en) (sy_local s) (sy_local_deps s) w) as (d & out & w' & E & [Hf Ha _]).
  do 3 eexists. split; [exact E|]. split; [done|]. intros p Hp. apply Hf. by apply (guarded_not_zones en).
Qed.

Lemma resolvers_step text :
  triple (early (Some text)) (deploy_resolvers en) (λ _, early (Some text)) failed.
Proof.
  apply (triple_component (λ s, deploy_upstreams (en_now en) (en_up_seconds en)
    (UPSTREAM_STAGING_DIR +:+ en_up_tmp en) (en_tries en) (sy_upstreams s)) id (λ b (s : system), s{{sy_upstreams := b}})); [done|].
  intros s w.
  pose proof (deploy_upstreams_answers (en_now en) (en_up_seconds en) (UPSTREAM_STAGING_DIR +:+ en_up_tmp en)
    (en_tries en) (sy_upstreams s) w) as Ha.
  destruct (deploy_upstreams_run (en_now en) (en_up_seconds en) (en_up_tmp en) (en_tries en) (sy_upstreams s) w)
    as (l' & d & out & w' & E & _ & Hf & _). rewrite E in Ha.
  do 3 eexists. split; [exact E|]. split; [done|]. intros p Hp. apply Hf. by apply (guarded_not_upstream en).
Qed.

Lemma guarded_cache p :
  guarded en p → p = CACHE_OPTIONS_CONF ∨ p = cache_backup en ∨ ¬ cache_paths (en_cache_seconds en) (en_cache_tmp en) p.
Proof.
  revert p. apply guarded_cases; [| |by left|by right; left|repeat (apply Forall_nil_2 || apply Forall_cons_2)];
    right; right; intros [Hq|[Hq|[[Hq|Hq]|Hq]]]; revert Hq; apart.
Qed.

Lemma cache_step text :
  triple (early (Some text)) (deploy_cache en) (λ _, undoable (Some text) true false) failed.
Proof.
  intros v w [[Hd Ha Hr [Hc Hc1] [Hl Hl1]] Hc2]. unfold deploy_cache, mbind, D_bind, gets, io at 1, get_file, modify at 1.
  destruct (deploy_cache_options_run (en_cache_seconds en) (en_cache_tmp en) (en_total_mb en) (sy_cache (v_system v))
    (sy_cache_deps (v_system v)) w Hc2) as (d & out & w' & E & _ & Hout).
  pose proof (deploy_cache_options_writes (en_cache_seconds en) (en_cache_tmp en) (en_total_mb en)
    (sy_cache (v_system v)) (sy_cache_deps (v_system v)) w) as [Hf Ha' _].
  rewrite E in *. cbn [snd] in Hf, Ha'.
  assert (∀ p, guarded en p → p ≠ CACHE_OPTIONS_CONF → p ≠ cache_backup en → w_files w' !! p = w_files w !! p) as Hg.
  { intros p Hp H1 H2. apply Hf. by destruct (guarded_cache p Hp) as [?|[?|?]]. }
  assert (rpz_state en w0 (Some text) w') as Hr'.
  { unfold rpz_state in *. rewrite !Hg; [done|..]; (by left) || (by right; left) || apart. }
  assert (∀ n, n ∈ custom_names → w_files w' !! target_path n = w_files w0 !! target_path n) as Hl'.
  { intros n Hn. rewrite Hg; [by apply Hl1|by do 4 right; exists n|..]; revert n Hn;
      apply (Forall_forall (λ n, target_path n ≠ _)); repeat constructor; apart. }
  unfold io at 1. rewrite E. cbn [update modify fst snd]. unfold io, lift. destruct out as [i|e].
  - split; [done|cbn; congruence|done|by split|by split].
  - exists (Some text), false, false. destruct Hout as [_ Hout]. split; [done|cbn; congruence|done| |by split].
    split; [done|]. by rewrite Hout.
Qed.

Lemma deploy_layer_entries l w changed bs w' b :
  layer_ok l → deploy_layer l w = (Ok (changed, bs), w') → b ∈ bs → ∃ n, n ∈ (l_targets l).*1 ∧ b.1 = target_path n.
Proof.
  intros Hok E Hb. destruct (forallb (λ t, bool_decide (w_files w !! target_path t.1 = Some t.2)) (l_targets l)) eqn:Hch.
  { unfold deploy_layer in E. rewrite bind_M, any_changed_run, Hch in E. cbn in E. injection E as <- <- <-. by apply elem_of_nil in Hb. }
  pose proof (deploy_layer_unfold l w Hok Hch) as Hrun. rewrite E in Hrun.
  destruct (stage_and_check l w) as [[[]|e] w1]; [|done]. cbv zeta in Hrun.
  destruct (restart_dnsdist true _) as [[[]|e] w3]; [|by destruct (when _ _ _)].
  injection Hrun as _ -> _. apply list_elem_of_fmap in Hb as (t & -> & Ht).
  exists t.1. split; [by apply list_elem_of_fmap_2|]. unfold DnsdistLayer.entry_of. by destruct (w_files w1 !! _).
Qed.

Lemma rpz_not_layer data stage p :
  p = COMPILED_RPZ ∨ p = rpz_backup en →
  ¬ layer_paths (custom_layer data (en_layer_seconds en) (DnsdistLayer.STAGING_DIR +:+ stage)) p.
Proof.
  assert (∀ n, n ∈ custom_names → (target_path n ≠ COMPILED_RPZ ∧ target_path n ≠ rpz_backup en)
    ∧ ∀ l, DnsdistLayer.backup_path l n ≠ COMPILED_RPZ ∧ DnsdistLayer.backup_path l n ≠ rpz_backup en) as Hn.
  { apply (Forall_forall (λ n, _)). repeat (apply Forall_nil_2 || apply Forall_cons_2); (split; [split|intros l; split]); apart. }
  intros Hp [[Hq|[Hq|Hq]]|(n & Hin & Hq)]; [destruct Hp as [-> | ->]; revert Hq; apart..|].
  destruct (Hn n Hin) as [[? ?] Hb].
  destruct (Hb (custom_layer data (en_layer_seconds en) (DnsdistLayer.STAGING_DIR +:+ stage))), Hp, Hq; congruence.
Qed.

Lemma custom_step text custom :
  triple (undoable (Some text) true false) (deploy_custom en custom) (λ _, undoable (Some text) true true) failed.
Proof.
  intros v w [Hd Ha Hr Hc [Hl Hl1]]. unfold deploy_custom, mbind, D_bind, gets, io, deploy_dnsdist_layer.
  rewrite bind_M. unfold lift. destruct (render_dnsdist_data custom _) as [data|e].
  2:{ by exists (Some text), true, false. }
  set (l := custom_layer data _ _). assert (layer_ok l) as Hok by apply custom_layer_ok.
  pose proof (deploy_layer_outcome l w Hok) as [Hf Hsame _ _ Hback _].
  pose proof (deploy_layer_answers l w) as Ha'.
  pose proof (λ ch bs w', deploy_layer_entries l w ch bs w') as Hentries.
  pose proof (λ bs w' w'' n, rollback_layer_restores l w bs w' w'' n Hok) as Hroll.
  assert (∀ p, p = COMPILED_RPZ ∨ p = rpz_backup en → w_files (deploy_layer l w).2 !! p = w_files w !! p) as Hrpz.
  { intros p Hp. by apply Hf, rpz_not_layer. }
  destruct (deploy_layer l w) as [[[ch bs]|e] w']; cbn [fst snd] in *.
  - split; [done|cbn; congruence| |done|].
    { unfold rpz_state in *. by rewrite !Hrpz by auto. }
    exists (ch, bs). split; [done|]. split.
    { intros b Hb. by apply (Hentries ch bs w' b Hok). }
    intros w'' Hw'' n Hn. rewrite <-Hl1 by done. destruct ch.
    + apply (Hroll bs w'); [done|by split; apply Hw''|done].
    + destruct (Hsame bs eq_refl) as [-> ->]. apply Hw''.
  - exists (Some text), true, false. split; [done|congruence| |done|].
    + unfold rpz_state in *. by rewrite !Hrpz by auto.
    + split; [done|]. intros n Hn. rewrite <-Hl1 by done. by apply (Hback e).
Qed.

(** What installing the zone writes, apart from the zone and its backup. *)
Definition install_paths (p : string) : Prop := starts_with (rpz_stage en) p = true ∨ p = LOCAL_ZONES_CONF.

Lemma guarded_not_install p : guarded en p → ¬ install_paths p.
Proof.
  intros Hp [Hq|Hq]; [by rewrite guarded_not_staged in Hq|]. revert Hq. revert p Hp.
  apply (guarded_cases en (λ p, p ≠ LOCAL_ZONES_CONF)); [..|repeat (apply Forall_nil_2 || apply Forall_cons_2)]; apart.
Qed.

(** The checks before anything live is touched. *)
Definition check_rpz (rpz_text : string) : M () :=
  _ ← write_text (staged_rpz en) rpz_text;
  _ ← validate_rpz (staged_rpz en);
  included ← exists_ LOCAL_ZONES_CONF;
  _ ← when (negb included) (write_text LOCAL_ZONES_CONF "");
  validate_bind.

Definition replace_rpz : M () :=
  live ← exists_ COMPILED_RPZ;
  _ ← when live (copy2 COMPILED_RPZ (rpz_backup en));
  _ ← World.replace (staged_rpz en) COMPILED_RPZ;
  reload_bind.

Lemma install_rpz_eq text w : install_rpz en text w = (_ ← check_rpz text; replace_rpz) w.
Proof.
  unfold install_rpz, check_rpz, replace_rpz. rewrite !bind_M. destruct (write_text _ _ w) as [[]  w1]; [|done].
  rewrite !bind_M. destruct (validate_rpz _ w1) as [[]  w2]; [|done].
  rewrite !bind_M. destruct (exists_ _ w2) as [[]  w3]; [|done].
  rewrite !bind_M. by destruct (when _ _ w3) as [[]  w4].
Qed.

Lemma check_rpz_writes text : writes install_paths any_command (check_rpz text).
Proof.
  unfold check_rpz, validate_rpz, validate_bind. frames; try done; unfold install_paths; [|by right].
  left. unfold staged_rpz. apply starts_with_app.
Qed.

Lemma check_rpz_staged text w w' : check_rpz text w = (Ok (), w') → w_files w' !! staged_rpz en = Some text.
Proof.
  unfold check_rpz. rewrite bind_M. cbn [write_text].
  assert (writes (λ p, p = LOCAL_ZONES_CONF) any_command
    (_ ← validate_rpz (staged_rpz en); included ← exists_ LOCAL_ZONES_CONF;
     _ ← when (negb included) (write_text LOCAL_ZONES_CONF ""); validate_bind)) as Hw.
  { unfold validate_rpz, validate_bind. frames; done. }
  intros E. specialize (Hw (w{{w_files ::= <[staged_rpz en := text]>}})). rewrite E in Hw. cbn [snd] in Hw.
  rewrite (frame_files _ _ _ _ Hw) by apart. destruct w. apply lookup_insert_eq.
Qed.

(** The zone is replaced as a whole, after its copy. *)
Lemma replace_rpz_run text w :
  w_files w !! staged_rpz en = Some text → rpz_state en w0 None w →
  ∃ r w', replace_rpz w = (r, w') ∧ w_answers w' = w_answers w ∧ rpz_state en w0 (Some text) w'
    ∧ ∀ p, p ≠ COMPILED_RPZ → p ≠ rpz_backup en → p ≠ staged_rpz en → w_files w' !! p = w_files w !! p.
Proof.
  intros Hs [Hb Hl]. unfold replace_rpz, reload_bind. rewrite bind_M. cbn [exists_]. rewrite bind_M.
  assert (∃ w1, when (bool_decide (is_Some (w_files w !! COMPILED_RPZ))) (copy2 COMPILED_RPZ (rpz_backup en)) w = (Ok (), w1)
    ∧ w_answers w1 = w_answers w ∧ w_files w1 !! rpz_backup en = w_files w !! COMPILED_RPZ
    ∧ ∀ p, p ≠ rpz_backup en → w_files w1 !! p = w_files w !! p) as (w1 & -> & Ha & Hb1 & Hf).
  { destruct (w_files w !! COMPILED_RPZ) as [old|] eqn:E.
    - rewrite bool_decide_eq_true_2 by eauto. cbn [when]. rewrite (copy2_run _ _ _ _ E). eexists. split; [done|].
      destruct w. cbn. rewrite lookup_insert_eq. repeat split. intros p Hp. by rewrite lookup_insert_ne.
    - rewrite bool_decide_eq_false_2 by by intros [? ?]. exists w. cbn. by rewrite Hb. }
  rewrite bind_M. erewrite replace_run by (rewrite Hf by apart; exact Hs).
  pose proof (run_log ["rndc"; "reload"; RPZ_ZONE] true (w1{{w_files := <[COMPILED_RPZ := text]> (delete (staged_rpz en) (w_files w1))}})) as Hrun.
  destruct (run_ _ true _) as [r w2]. cbn [snd] in Hrun. exists r, w2. split; [done|].
  assert (w_files w2 = <[COMPILED_RPZ := text]> (delete (staged_rpz en) (w_files w1)) ∧ w_answers w2 = w_answers w1) as [Hf2 Ha2]
    by by subst w2. split; [congruence|]. rewrite Hf2. split.
  - unfold rpz_state. rewrite Hf2, lookup_insert_eq, lookup_insert_ne, lookup_delete_ne by apart. by rewrite Hb1, Hl.
  - intros p H1 H2 H3. rewrite lookup_insert_ne, lookup_delete_ne by congruence. by apply Hf.
Qed.

Lemma install_rpz_step text : triple (early None) (io (install_rpz en text)) (λ _, early (Some text)) failed.
Proof.
  intros v w [Hu Hfree]. unfold io. rewrite install_rpz_eq, bind_M.
  pose proof (check_rpz_writes text w) as [Hf Ha _]. pose proof (check_rpz_staged text w) as Hs.
  destruct (check_rpz text w) as [r w1]. cbn [snd] in *.
  assert (∀ p, guarded en p → w_files w1 !! p = w_files w !! p) as Hg by (intros p Hp; by apply Hf, guarded_not_install).
  assert (undoable None false false v w1) as Hu1 by (by eapply undoable_files).
  destruct r as [[]|e]; [|by exists None, false, false].
  destruct (replace_rpz_run text w1 (Hs _ eq_refl) (un_rpz _ _ _ _ _ _ _ _ Hu1)) as (r & w2 & -> & Ha2 & Hr2 & Hf2).
  assert (∀ p, guarded en p → p ≠ COMPILED_RPZ → p ≠ rpz_backup en → w_files w2 !! p = w_files w1 !! p) as Hg2.
  { intros p Hp H1 H2. apply Hf2; [done..|]. intros ->. apply guarded_not_staged in Hp. unfold staged_rpz in Hp. by rewrite starts_with_app in Hp. }
  assert (early (Some text) v w2) as Hu2.
  { destruct Hu1 as [Hd Ha1 _ [Hc Hc1] [Hl Hl1]]. split.
    - split; [done|congruence|done| |].
      + split; [done|]. rewrite Hg2; [done|by do 2 right; left|apart..].
      + split; [done|]. intros n Hn. rewrite Hg2; [by apply Hl1|by do 4 right; exists n|..]; revert n Hn;
          apply (Forall_forall (λ n, target_path n ≠ _)); repeat constructor; apart.
    - rewrite Hg2, Hg; [done|by do 3 right; left|by do 3 right; left|apart..]. }
  destruct r as [[]|e]; [done|]. destruct Hu2. by do 3 eexists.
Qed.

Lemma dig_writes domain : writes no_path any_command (dig domain).
Proof. by apply writes_run. Qed.
Lemma resolves_writes domain : writes no_path any_command (PolicyCheck.resolves domain).
Proof. apply writes_bind; [apply dig_writes|]. intros r. apply writes_ret. Qed.
Lemma wait_until_writes n m : writes no_path any_command m → writes no_path any_command (wait_until n m).
Proof.
  intros Hm. induction n as [|n IH]; [done|]. cbn [wait_until]. apply writes_bind; [done|]. intros []; [apply writes_ret|done].
Qed.
Lemma validate_allow_writes allowed active custom text n :
  writes no_path any_command (validate_allow_domains allowed active custom text n).
Proof.
  unfold validate_allow_domains. destruct (allow_mismatch _ _ _ _) as [[d m]|]; [apply writes_ret|].
  apply writes_bind; [|intros t; apply writes_ret]. induction (take n (sorted_set allowed)) as [|d l IH]; [apply writes_ret|].
  cbn [first_resolving]. apply writes_bind; [|intros r; destruct (_ && _); [apply writes_ret|done]].
  unfold classify_dns. apply writes_bind; [by apply writes_run|]. intros [code out]. destruct (negb _); apply writes_ret.
Qed.
Lemma fail_unless_writes ok message : writes no_path any_command (fail_unless ok message).
Proof. destruct ok; [apply writes_ret|apply writes_raise]. Qed.

Lemma post_checks_harmless c active custom text : harmless en s0 w0 (post_checks en rq c active custom text).
Proof.
  unfold post_checks, check.
  apply harmless_bind; [apply harmless_io, writes_lift|]. intros _.
  apply harmless_bind; [apply harmless_io, resolves_writes|]. intros ok.
  apply harmless_bind; [apply harmless_io, fail_unless_writes|]. intros _.
  apply harmless_bind; [by apply harmless_modify|]. intros _.
  apply harmless_bind.
  { destruct (blocked_name active custom) as [name|]; [|apply harmless_ret].
    apply harmless_bind; [|intros ok'; apply harmless_io, fail_unless_writes].
    apply harmless_io, wait_until_writes. apply writes_bind; [apply dig_writes|]. intros r. apply writes_ret. }
  intros _. apply harmless_bind.
  { case_decide; [apply harmless_ret|].
    apply harmless_bind; [apply harmless_io, validate_allow_writes|]. intros result.
    apply harmless_bind; [apply harmless_io, fail_unless_writes|]. intros _.
    apply harmless_bind; [by apply harmless_modify|]. intros _. apply harmless_ret. }
  intros errors. apply harmless_bind; [|intros _; apply harmless_ret].
  destruct (first_rewrite custom) as [[name entry]|]; [|apply harmless_ret].
  destruct (match rw_a entry with Some a => _ | None => _ end) as [rtype address].
  apply harmless_bind; [|intros ok'; apply harmless_io, fail_unless_writes].
  apply harmless_io, wait_until_writes. apply writes_bind; [by apply writes_run|]. intros r. apply writes_ret.
Qed.

(** *** The tables the policy is compiled from *)

Definition tables (v : locals) : source_store * rules_db := (sy_sources (v_system v), sy_rules (v_system v)).

Definition keeps {A} (m : D A) : Prop := ∀ v w, tables (m v w).1.2 = tables v.

Lemma keeps_ret {A} (a : A) : keeps (mret a).
Proof. done. Qed.
Lemma keeps_bind {A B} (m : D A) (f : A → D B) : keeps m → (∀ a, keeps (f a)) → keeps (m ≫= f).
Proof.
  intros Hm Hf v w. specialize (Hm v w). unfold mbind, D_bind. destruct (m v w) as [[[a|e] v'] w']; [|done].
  etransitivity; [apply Hf|done].
Qed.
Lemma keeps_io {A} (m : M A) : keeps (io m).
Proof. intros v w. unfold io. by destruct (m w). Qed.
Lemma keeps_gets {A} (f : locals → A) : keeps (gets f).
Proof. done. Qed.
Lemma keeps_modify f : (∀ v, tables (f v) = tables v) → keeps (modify f).
Proof. intros Hf v w. apply Hf. Qed.

Ltac keeps := repeat first [apply keeps_ret | apply keeps_io | apply keeps_gets | apply keeps_modify; done
  | apply keeps_bind; [|intros ?] | case_match].

Lemma triple_keeps {A} P (m : D A) Q E x :
  keeps m → triple P m Q E → triple (λ v w, P v w ∧ tables v = x) m (λ a v w, Q a v w ∧ tables v = x) E.
Proof.
  intros Hk Hm v w [HP Hx]. specialize (Hm v w HP). specialize (Hk v w).
  destruct (m v w) as [[[a|e] v'] w']; [|done]. split; [done|]. by rewrite <-Hx, <-Hk.
Qed.

Lemma triple_pure {A} (φ : Prop) P (m : D A) Q E : (φ → triple P m Q E) → triple (λ v w, P v w ∧ φ) m Q E.
Proof. intros Hm v w [HP Hφ]. by apply Hm. Qed.

(** What was collected, and the tables it left. *)
Definition collected_as (x : source_store * rules_db) (c : collected) (y : source_store * rules_db) : Prop :=
  collect_rules sha256 decode (rq_download rq) (en_now en) x.1 = (Ok c, y.1) ∧ y.2 = x.2.

Lemma collect_step x :
  triple (λ v w, early None v w ∧ tables v = x) (collect sha256 decode en rq)
    (λ c v w, early None v w ∧ collected_as x c (tables v)) failed.
Proof.
  intros v w [[Hu Hf] Hx]. unfold collect, mbind, D_bind, gets, collected_as. subst x. cbn [tables fst].
  destruct (collect_rules sha256 decode (rq_download rq) (en_now en) (sy_sources (v_system v))) as [r st] eqn:E.
  unfold update, modify, io, lift. destruct r as [c|e].
  - split; [split; [by apply undoable_system|exact Hf]|done].
  - exists None, false, false. by apply undoable_system.
Qed.

Lemma custom_rules_step x c :
  triple (λ v w, early None v w ∧ collected_as x c (tables v)) (collect_custom en)
    (λ custom v w, early None v w ∧ custom = collect_active (en_now en) x.2
       ∧ ∃ y, collected_as x c y ∧ tables v = (y.1, RuleStore.init_db (en_now en) x.2)) failed.
Proof.
  intros v w [[Hu Hf] [Hc Hy]]. unfold collect_custom, mbind, D_bind, gets, update, modify. cbn [mret D_ret].
  cbn [tables fst snd] in *. split; [split; [|done]|split].
  - by apply undoable_system.
  - by rewrite <-Hy.
  - exists (tables v). split; [done|]. by rewrite <-Hy.
Qed.

(** *** The body and the handler *)

(** The zone a successful body installs from the tables [x], and the tables it leaves. *)
Definition zone_text (c : collected) (custom : ActiveRuleSet) : string :=
  render_rpz (en_serial en) (subtract_allowed (co_active c) custom) (Some custom)
  +:+ (if rq_test_invalid_rpz rq then "this is not a valid zone record" +:+ nl else "").

Definition deployed_from (x : source_store * rules_db) (v : locals) (w : world) : Prop :=
  ∃ c y, collected_as x c y
    ∧ tables v = (mark_compiled (en_compiled_at en) y.1, RuleStore.init_db (en_now en) x.2)
    ∧ w_files w !! COMPILED_RPZ = Some (zone_text c (collect_active (en_now en) x.2)).

Lemma body_step x :
  triple (λ v w, early None v w ∧ tables v = x) (deploy_body sha256 decode en rq)
    (λ _ v w, sy_deps (v_system v) = sy_deps s0 ∧ deployed_from x v w) failed.
Proof.
  unfold deploy_body. eapply triple_bind; [apply collect_step|]. intros c.
  apply (triple_bind _ _ (λ _ v w, early None v w ∧ collected_as x c (tables v))).
  { intros v w Hv. unfold check, io, lift, raise_if. destruct (_ && _); [|done]. destruct Hv as [[Hu _] _]. by do 3 eexists. }
  intros []. eapply triple_bind; [apply custom_rules_step|]. intros custom.
  cbv zeta. set (text := _ +:+ _). set (active := subtract_allowed _ _).
  intros v w (He & Hcustom & y & Hy & Ht). revert v w He Ht.
  enough (triple (λ v w, early None v w ∧ tables v = (y.1, RuleStore.init_db (en_now en) x.2))
    (_ ← modify (λ v : locals, v{{v_active_domains := Z.of_nat (size active + size (blocks custom))}}); _ ← io (install_rpz en text);
     _ ← update (λ s : system, s{{sy_sources ::= mark_compiled (en_compiled_at en)}}); _ ← deploy_local en rq; _ ← deploy_resolvers en;
     _ ← deploy_cache en; _ ← deploy_custom en custom; errors ← post_checks en rq c active custom text;
     _ ← update (record_reusable_protection_policy sha256 text (Z.of_nat (size active + size (blocks custom)))); mret errors)
    (λ _ v w, sy_deps (v_system v) = sy_deps s0 ∧ deployed_from x v w) failed) as Hrest by (intros v w ? ?; by apply Hrest).
  set (z := (mark_compiled (en_compiled_at en) y.1, RuleStore.init_db (en_now en) x.2)).
  apply (triple_bind _ _ (λ _ v w, early None v w ∧ tables v = (y.1, RuleStore.init_db (en_now en) x.2))).
  { apply triple_modify. intros v w [[[Hd Ha Hr Hc Hl] Hf] Ht]. by split; [split|]. }
  intros []. eapply triple_bind; [apply triple_keeps; [apply keeps_io|apply install_rpz_step]|]. intros [].
  apply (triple_bind _ _ (λ _ v w, early (Some text) v w ∧ tables v = z)).
  { apply triple_modify. intros v w [[Hu Hf] Ht]. split; [split; [|done]|].
    - by apply undoable_system.
    - subst z. unfold tables in *. injection Ht as H1 H2. by rewrite <-H1, <-H2. }
  intros []. eapply triple_bind; [apply triple_keeps; [unfold deploy_local; keeps|apply local_step]|]. intros [].
  eapply triple_bind; [apply triple_keeps; [unfold deploy_resolvers; keeps|apply resolvers_step]|]. intros [].
  eapply triple_bind; [apply triple_keeps; [unfold deploy_cache; keeps|apply cache_step]|]. intros [].
  eapply triple_bind; [apply triple_keeps; [unfold deploy_custom; keeps|apply custom_step]|]. intros [].
  apply (triple_bind _ _ (λ _ v w, undoable (Some text) true true v w ∧ tables v = z)).
  { apply triple_keeps; [unfold post_checks, check; keeps|].
    eapply triple_conseq; [apply (post_checks_harmless c active custom text)|done|done|]. intros v w Hu. by do 3 eexists. }
  intros errors. apply (triple_bind _ _ (λ _ v w, sy_deps (v_system v) = sy_deps s0 ∧ deployed_from x v w));
    [|intros []; apply (triple_ret (λ _, _))].
  apply triple_modify. intros v w [[Hd _ [_ Hz] _ _] Ht].
  assert (∀ f s, sy_deps (record_reusable_protection_policy sha256 text f s) = sy_deps s
    ∧ (sy_sources (record_reusable_protection_policy sha256 text f s), sy_rules (record_reusable_protection_policy sha256 text f s))
      = (sy_sources s, sy_rules s)) as Hrec.
  { intros n s. unfold record_reusable_protection_policy. destruct (n <=? 0)%Z; [done|].
    by destruct (protection_policy_manifest sha256 s). }
  cbn. rewrite (proj1 (Hrec _ _)). split; [done|]. exists c, y. split; [done|]. split.
  - unfold tables. cbn. rewrite (proj2 (Hrec _ _)). exact Ht.
  - subst text active. rewrite Hz. unfold zone_text. by rewrite Hcustom.
Qed.

(** *** Undoing *)

Definition is_target (p : string) : Prop := ∃ n, n ∈ custom_names ∧ p = target_path n.

Lemma fixed_not_target : ¬ is_target COMPILED_RPZ ∧ ¬ is_target (rpz_backup en) ∧ ¬ is_target CACHE_OPTIONS_CONF.
Proof.
  repeat split; intros (n & Hn & Hp); revert n Hn Hp; apply (Forall_forall (λ n, _ = target_path n → False));
    repeat (apply Forall_nil_2 || apply Forall_cons_2); apart.
Qed.

Lemma rollback_layer_writes info :
  (∀ b, b ∈ info.2 → is_target b.1) → writes is_target any_command (rollback_layer info).
Proof.
  intros Hb. unfold rollback_layer. destruct (_ || _); [apply writes_ret|].
  apply writes_bind; [|intros _; by apply writes_run_]. revert Hb. generalize info.2. intros bs Hb.
  induction bs as [|[p b] bs IH]; [apply writes_ret|]. cbn [restore_backups].
  assert (is_target p) as Hp by (apply (Hb (p, b)); left).
  apply writes_bind; [destruct b; [apply writes_exists|apply writes_ret]|]. intros saved.
  apply writes_bind; [|intros _; apply IH; intros; apply Hb; by right].
  destruct b as [b|]; [destruct saved; [by apply writes_copy2|]|];
    (apply writes_bind; [apply writes_exists|]; intros live; by apply writes_when, writes_unlink).
Qed.

(** Only a command that cannot be started stops the rollback of the layer. *)
Lemma rollback_layer_result info w :
  (rollback_layer info w).1 = Ok () ∨ ∃ e k, (rollback_layer info w).1 = Raise e ∧ w_answers w k = NotStarted e.
Proof.
  unfold rollback_layer. destruct (_ || _); [by left|]. rewrite bind_M, restore_run.
  unfold restart_dnsdist, run_, run. rewrite bind_M. cbn [w_answers w_log].
  match goal with |- context [w_answers ?x ?n] => destruct (w_answers x n) as [code out|e] eqn:E end;
    [by left|right; exists e; eexists; split; [done|exact E]].
Qed.

Definition undo_layer (v : locals) : M () :=
  match v_layer v with Some info => rollback_layer info | None => mret () end.

Lemma undo_layer_spec i c l v w :
  undoable i c l v w →
  ∃ r w1, undo_layer v w = (r, w1) ∧ w_answers w1 = w_answers w0
    ∧ (∀ p, ¬ is_target p → w_files w1 !! p = w_files w !! p)
    ∧ (∀ n, n ∈ custom_names → w_files w1 !! target_path n = w_files w0 !! target_path n)
    ∧ (r = Ok () ∨ ∃ e k, r = Raise e ∧ w_answers w0 k = NotStarted e).
Proof.
  intros [_ Ha _ _ Hl]. unfold undo_layer, layer_state in *. destruct l.
  - destruct Hl as (info & -> & Hb & Hun).
    pose proof (rollback_layer_writes info Hb w) as [Hf Hans _]. pose proof (rollback_layer_result info w) as Hr.
    specialize (Hun w (λ _, eq_refl)). destruct (rollback_layer info w) as [r w1]. cbn [fst snd] in *.
    exists r, w1. split; [done|]. split; [congruence|]. split; [done|]. split; [done|]. by rewrite Ha in Hr.
  - destruct Hl as [-> Hl]. exists (Ok ()), w. do 4 (split; [done|]). by left.
Qed.

(** The files after a rollback. *)
Definition restored (w : world) : Prop :=
  match w_files w0 !! COMPILED_RPZ with
  | Some old => w_files w !! COMPILED_RPZ = Some old
      ∨ w_files w !! COMPILED_RPZ = Some (refresh_rpz_serial (en_rollback_serial en) old)
  | None => True
  end
  ∧ w_files w !! CACHE_OPTIONS_CONF = w_files w0 !! CACHE_OPTIONS_CONF
  ∧ ∀ n, n ∈ custom_names → w_files w !! target_path n = w_files w0 !! target_path n.

Definition undo_rpz : M (res ()) :=
  saved ← exists_ (rpz_backup en);
  if (saved : bool) then attempt (restore_rpz_backup_for_rollback (en_rollback_serial en) (rpz_backup en)) else mret (Ok ()).

Lemma undo_rpz_spec i w :
  rpz_state en w0 i w →
  ∃ r w1, undo_rpz w = (Ok r, w1) ∧ w_answers w1 = w_answers w
    ∧ (∀ p, p ≠ COMPILED_RPZ → w_files w1 !! p = w_files w !! p)
    ∧ match w_files w0 !! COMPILED_RPZ with
      | Some old => w_files w1 !! COMPILED_RPZ = Some old
          ∨ w_files w1 !! COMPILED_RPZ = Some (refresh_rpz_serial (en_rollback_serial en) old)
      | None => True
      end.
Proof.
  intros Hr. unfold undo_rpz. rewrite bind_M. cbn [exists_]. destruct (w_files w !! rpz_backup en) as [old|] eqn:Eb.
  - rewrite bool_decide_eq_true_2 by eauto.
    destruct i as [text|]; [destruct Hr as [Hr1 Hr2]|by destruct Hr as [Hr1 _]; congruence].
    assert (w_files w0 !! COMPILED_RPZ = Some old) as -> by congruence.
    unfold attempt, restore_rpz_backup_for_rollback. rewrite bind_M. unfold read_text at 1. rewrite Eb. rewrite bind_M. cbn [write_text].
    unfold reload_bind. match goal with |- context [run_ ?c true ?x] => pose proof (run_log c true x) as Hrun; destruct (run_ c true x) as [r w1] end.
    cbn [snd] in Hrun. exists r, w1. split; [done|]. subst w1. destruct w as [f lg an]. cbn. split; [done|]. split.
    + intros p Hp. by rewrite lookup_insert_ne.
    + right. by rewrite lookup_insert_eq.
  - rewrite bool_decide_eq_false_2 by by intros [? ?]. exists (Ok ()), w. do 3 (split; [done|]).
    destruct (w_files w0 !! COMPILED_RPZ) as [old|] eqn:E0; [|done]. left.
    destruct i as [text|]; destruct Hr as [Hr1 Hr2]; congruence.
Qed.

Definition undo_cache (v : locals) : M (res ()) :=
  if v_cache_deployed v then attempt (restore_cache_options (v_snapshot v)) else mret (Ok ()).

Lemma undo_cache_spec c v w :
  cache_state w0 c v w →
  ∃ r w1, undo_cache v w = (Ok r, w1) ∧ (∀ p, p ≠ CACHE_OPTIONS_CONF → w_files w1 !! p = w_files w !! p)
    ∧ w_files w1 !! CACHE_OPTIONS_CONF = w_files w0 !! CACHE_OPTIONS_CONF.
Proof.
  intros [Hc Hs]. unfold undo_cache. rewrite Hc. destruct c; [|by exists (Ok ()), w].
  rewrite Hs. unfold attempt, restore_cache_options. rewrite bind_M. cbn [exists_]. rewrite bind_M.
  assert (∃ w1, (match w_files w0 !! CACHE_OPTIONS_CONF with
      | Some text => write_text CACHE_OPTIONS_CONF text
      | None => when (bool_decide (is_Some (w_files w !! CACHE_OPTIONS_CONF))) (unlink CACHE_OPTIONS_CONF)
      end) w = (Ok (), w1) ∧ (∀ p, p ≠ CACHE_OPTIONS_CONF → w_files w1 !! p = w_files w !! p)
    ∧ w_files w1 !! CACHE_OPTIONS_CONF = w_files w0 !! CACHE_OPTIONS_CONF) as (w1 & -> & Hf & Hc1).
  { destruct (w_files w0 !! CACHE_OPTIONS_CONF) as [text|].
    - eexists. split; [done|]. destruct w. cbn. rewrite lookup_insert_eq. split; [|done]. intros p Hp. by rewrite lookup_insert_ne.
    - destruct (w_files w !! CACHE_OPTIONS_CONF) as [t|] eqn:E.
      + rewrite bool_decide_eq_true_2 by eauto. cbn [when]. unfold unlink. rewrite E. eexists. split; [done|].
        destruct w. cbn. rewrite lookup_delete_eq. split; [|done]. intros p Hp. by rewrite lookup_delete_ne.
      + rewrite bool_decide_eq_false_2 by by intros [? ?]. by exists w. }
  pose proof (run_log ["rndc"; "reconfig"] false w1) as Hrun. destruct (run_ _ false w1) as [r w2]. cbn [snd] in Hrun.
  exists r, w2. subst w2. by destruct w1.
Qed.

Lemma handle_eq v e w : handle en v e w = (_ ← undo_layer v; r1 ← undo_rpz; r2 ← undo_cache v;
  let errors := rollback_error "RPZ" r1 ++ rollback_error "cache-options" r2 in
  mret (if decide (errors = []) then ("rolled_back", exc_message e)
        else ("rollback_failed", exc_message e +:+ "; " +:+ join "; " errors))) w.
Proof.
  unfold handle. fold (undo_layer v). unfold undo_rpz, undo_cache. rewrite !bind_M.
  destruct (undo_layer v w) as [[]  w1]; [|done].
  rewrite !bind_M. by destruct (exists_ (rpz_backup en) w1) as [[]  w2].
Qed.

Lemma handle_spec v e w :
  failed v w →
  match handle en v e w with
  | (Ok (status, _), w') => (status = "rolled_back" ∨ status = "rollback_failed") ∧ restored w'
  | (Raise e', _) => ∃ k, w_answers w0 k = NotStarted e'
  end.
Proof.
  intros (i & c & l & Hu). rewrite handle_eq, bind_M.
  destruct (undo_layer_spec i c l v w Hu) as (r & w1 & -> & Ha1 & Hf1 & Ht1 & [-> | (e' & k & -> & Hk)]); [|by exists k].
  destruct fixed_not_target as (N1 & N2 & N3). destruct Hu as [_ _ Hr [Hc Hc'] _]. rewrite bind_M.
  destruct (undo_rpz_spec i w1) as (r1 & w2 & -> & Ha2 & Hf2 & Hr2).
  { unfold rpz_state in *. by rewrite !Hf1. }
  rewrite bind_M. destruct (undo_cache_spec c v w2) as (r2 & w3 & -> & Hf3 & Hc3).
  { split; [done|]. destruct c; [done|]. rewrite Hf2, Hf1; [done|done|apart]. }
  cbv zeta. unfold mret, M_ret. destruct (decide _).
  all: split; [auto|]; split; [rewrite Hf3 by apart; exact Hr2|]; split; [done|].
  all: intros m Hm; rewrite Hf3, Hf2; [by apply Ht1|intros Hq; destruct N1; by exists m|intros Hq; destruct N3; by exists m].
Qed.
End steps.

(** ** What a deployment guarantees *)

Lemma deploy_run `{Platform} sha256 decode en rq s w :
  w_files w !! rpz_backup en = None → w_files w !! cache_backup en = None →
  ∃ d s' out w', deploy sha256 decode en rq s w = (Ok (s', out), w')
    ∧ sy_deps s' = sy_deps s ++ [d] ∧ dp_id d = fresh_id (dp_id <$> sy_deps s)
    ∧ match out with
      | Ok id => id = dp_id d ∧ dp_status d = "deployed"
          ∧ ∃ c sources, collect_rules sha256 decode (rq_download rq) (en_now en) (sy_sources s) = (Ok c, sources)
            ∧ sy_sources s' = mark_compiled (en_compiled_at en) sources
            ∧ sy_rules s' = RuleStore.init_db (en_now en) (sy_rules s)
            ∧ w_files w' !! COMPILED_RPZ = Some (zone_text en rq c (collect_active (en_now en) (sy_rules s)))
      | Raise e =>
          (dp_status d = "rolled_back" ∨ dp_status d = "rollback_failed") ∧ restored en w w'
          ∨ dp_status d = "failed" ∧ ∃ k, w_answers w k = NotStarted e
      end.
Proof.
  intros Hb Hc. unfold deploy.
  pose proof (body_step sha256 decode en rq s w (sy_sources s, sy_rules s) (mkLocals s 0 None None None None false) w) as Hbody.
  destruct (deploy_body sha256 decode en rq (mkLocals s 0 None None None None false) w) as [[r v] w1].
  assert (∀ w p, guarded en p → w_files (rmtree (rpz_stage en) w).2 !! p = w_files w !! p) as Hrm.
  { intros w2 p Hp. by apply rmtree_other, guarded_not_staged. }
  assert (∀ d, sy_deps (v_system v) = sy_deps s →
    sy_deps ((v_system v){{sy_deps ::= (λ deps, deps ++ [d])}}) = sy_deps s ++ [d]) as Happ by by intros d <-.
  destruct r as [errors|e].
  - destruct Hbody as (Hdeps & c & y & [Hcol Hy] & Ht & Hz); [by split; [split; [split|]|]|].
    exists (mkDeployment (fresh_id (dp_id <$> sy_deps s)) "deployed" (v_active_domains v) (v_blocked_test v)
      (v_allowed_test v) (join "; " errors)).
    do 3 eexists. split; [reflexivity|]. cbn in Hcol, Hy, Ht. unfold tables in Ht. injection Ht as H1 H2.
    split; [by apply Happ|]. do 3 (split; [reflexivity|]).
    exists c, y.1. split; [exact Hcol|]. split; [exact H1|]. split; [exact H2|].
    rewrite Hrm by (by left). exact Hz.
  - assert (failed en s w v w1) as Hfail by (apply Hbody; by split; [split; [split|]|]).
    assert (sy_deps (v_system v) = sy_deps s) as Hdeps by by destruct Hfail as (? & ? & ? & []).
    pose proof (handle_spec en s w v e w1 Hfail) as Hh. destruct (handle en v e w1) as [[[status message]|e'] w2].
    + exists (mkDeployment (fresh_id (dp_id <$> sy_deps s)) status (v_active_domains v) (v_blocked_test v)
        (v_allowed_test v) message).
      do 3 eexists. split; [reflexivity|]. split; [by apply Happ|]. split; [done|]. left.
      destruct Hh as [Hst (Hr1 & Hr2 & Hr3)]. split; [done|]. split; [rewrite Hrm by (by left); exact Hr1|].
      split; [rewrite Hrm by (by right; right; left); exact Hr2|]. intros n Hn. rewrite Hrm by (by do 4 right; exists n). by apply Hr3.
    + exists (mkDeployment (fresh_id (dp_id <$> sy_deps s)) "failed" (v_active_domains v) (v_blocked_test v)
        (v_allowed_test v) (exc_message e)).
      do 3 eexists. split; [reflexivity|]. split; [by apply Happ|]. split; [done|]. by right.
Qed.

(** C3: Every run of the deployment is recorded exactly once, under a new id.  If it returns,
    it is recorded as deployed and the live zone is the one compiled from the collected
    sources and the custom rules.  If it raises, whatever failed, it is not recorded as
    deployed, and the live zone is the old one or the old one with a new serial, the cache
    options and the files of the custom rules are the old ones; the one exception is a
    rollback that could not start [systemctl], which ends the handler and is recorded as
    failed. *)
Theorem deploy_all_or_nothing `{Platform} sha256 decode en rq s w :
  w_files w !! rpz_backup en = None → w_files w !! cache_backup en = None →
  ∃ d s' out w', deploy sha256 decode en rq s w = (Ok (s', out), w')
    ∧ sy_deps s' = sy_deps s ++ [d] ∧ dp_id d = fresh_id (dp_id <$> sy_deps s)
    ∧ match out with
      | Ok id => id = dp_id d ∧ dp_status d = "deployed"
          ∧ ∃ c sources, collect_rules sha256 decode (rq_download rq) (en_now en) (sy_sources s) = (Ok c, sources)
            ∧ sy_sources s' = mark_compiled (en_compiled_at en) sources
            ∧ sy_rules s' = RuleStore.init_db (en_now en) (sy_rules s)
            ∧ w_files w' !! COMPILED_RPZ = Some (zone_text en rq c (collect_active (en_now en) (sy_rules s)))
      | Raise e =>
          (dp_status d = "rolled_back" ∨ dp_status d = "rollback_failed") ∧ restored en w w'
          ∨ dp_status d = "failed" ∧ ∃ k, w_answers w k = NotStarted e
      end.
Proof. apply deploy_run. Qed.

(** *** An appliance *)

Definition sample_env : env :=
  mkEnv "t1" "t2" "1700000000" "1700000001" "1700000002" "x" "z/" "1700000003" 20240101 "192.0.2.1"
    "u/" "1700000004" 3 "c/" "1700000005" 1024 "l" "1700000006" 2.
Definition sample_request : request := mkRequest None false false false false.
Definition answer_all : string := "status: NOERROR status: NXDOMAIN" +:+ tab +:+ "A" +:+ tab.
Definition sample_world : world :=
  mkWorld (list_to_map [(NAMED_LOCAL_CONF, "// local"); (DnsCache.NAMED_OPTIONS_CONF, "options {" +:+ nl +:+ "forward only;" +:+ nl +:+ "};");
                        (DnsdistLayer.DNSDIST_CONF, pool_marker +:+ nl +:+ route_marker); (COMPILED_RPZ, "old zone")])
    [] (λ _, Exited 0 answer_all).

Lemma deploy_all_or_nothing_witness :
  let _ := sample_platform in
  ∃ d s' out w', deploy id id sample_env sample_request (cached_system "a") sample_world = (Ok (s', out), w')
    ∧ out = Ok 1%Z ∧ dp_status d = "deployed" ∧ dp_blocked_test d = Some "ads.example" ∧ sy_deps s' = [d].
Proof.
  intros P.
  destruct (@deploy_all_or_nothing P id id sample_env sample_request (cached_system "a") sample_world)
    as (d & s' & out & w' & E & Hd & _ & Hout); [vm_compute; reflexivity..|].
  exists d, s', out, w'. split; [exact E|].
  assert (out = Ok 1%Z) as ->.
  { assert (Ok out = (r ← (deploy id id sample_env sample_request (cached_system "a") sample_world).1; Ok r.2)) as Ho by by rewrite E.
    vm_compute in Ho. by injection Ho. }
  split; [reflexivity|]. split; [apply Hout|].
  assert (Ok (sy_deps s') = (r ← (deploy id id sample_env sample_request (cached_system "a") sample_world).1; Ok (sy_deps r.1))) as Ho
    by by rewrite E.
  rewrite Hd in Ho. vm_compute in Ho. injection Ho as ->. split; [reflexivity|]. rewrite Hd. reflexivity.
Defined.

(** *** The deployed zone is the policy of the tables *)

(** What the contribution of a source depends on. *)
Definition source_key (s : source_row) : Z * string * bool := (src_id s, src_name s, src_enabled s).

Lemma update_source_key id f l :
  (∀ s, source_key (f s) = source_key s) → source_key <$> update_source_row id f l = source_key <$> l.
Proof.
  intros Hf. unfold update_source_row. rewrite <-list_fmap_compose. apply list_fmap_ext. intros _ s _. cbn.
  by destruct (_ =? _)%Z.
Qed.

Lemma record_run_keys ts dl per active l : source_key <$> record_run ts dl per active l = source_key <$> l.
Proof.
  unfold record_run. rewrite <-list_fmap_compose.
  transitivity (source_key <$> fold_left (λ l p, record_parse_stats (src_id p.1) p.2 l) per
    (fold_left (λ l d, record_download_result ts d.1 d.2 l) dl l)).
  { apply list_fmap_ext. intros _ s _. unfold compose. by destruct (src_enabled s), s. }
  generalize l. clear l. intros l.
  assert (∀ l, source_key <$> fold_left (λ l p, record_parse_stats (src_id p.1) p.2 l) per l = source_key <$> l) as Hper.
  { induction per as [|p per IH]; intros l'; [done|]. cbn [fold_left]. rewrite IH. by apply update_source_key. }
  rewrite Hper. revert l. induction dl as [|d dl IH]; intros l; [done|]. cbn [fold_left]. rewrite IH.
  apply update_source_key. intros s. unfold download_row. by destruct (res_success d.1).
Qed.

Lemma mark_compiled_keys ts st : source_key <$> ss_sources (mark_compiled ts st) = source_key <$> ss_sources st.
Proof.
  unfold mark_compiled. cbn. rewrite <-list_fmap_compose. apply list_fmap_ext. intros _ s _. cbn.
  by destruct (src_enabled s), s.
Qed.

Lemma enabled_contributions `{Platform} sha256 decode files l l' :
  source_key <$> l = source_key <$> l' →
  contribution sha256 decode files <$> enabled_sources l = contribution sha256 decode files <$> enabled_sources l'.
Proof.
  revert l'. induction l as [|s l IH]; intros [|s' l'] E; try done. cbn in E. injection E as Hi Hn He El.
  unfold enabled_sources in *. cbn [List.filter]. rewrite He. specialize (IH l' El).
  destruct (src_enabled s'); [|done]. cbn [fmap list_fmap]. rewrite IH. f_equal.
  unfold contribution, current_path, source_paths. by rewrite Hi, Hn.
Qed.

Lemma all_blocks_of (f : source_row → parse_result) l : all_blocks ((λ s, (s, f s)) <$> l) = ⋃ ((λ r, r.1.1) <$> (f <$> l)).
Proof. unfold all_blocks. by rewrite <-!list_fmap_compose. Qed.
Lemma all_allows_of (f : source_row → parse_result) l : all_allows ((λ s, (s, f s)) <$> l) = ⋃ ((λ r, r.1.2) <$> (f <$> l)).
Proof. unfold all_allows. by rewrite <-!list_fmap_compose. Qed.
Lemma listed_blocks_of `{Platform} sha256 decode st :
  listed_blocks sha256 decode st
  = ⋃ ((λ r, r.1.1) <$> (contribution sha256 decode (fs (ss_cache st)) <$> enabled_sources (ss_sources st))).
Proof. unfold listed_blocks. by rewrite <-!list_fmap_compose. Qed.
Lemma listed_allows_of `{Platform} sha256 decode st :
  listed_allows sha256 decode st
  = ⋃ ((λ r, r.1.2) <$> (contribution sha256 decode (fs (ss_cache st)) <$> enabled_sources (ss_sources st))).
Proof. unfold listed_allows. by rewrite <-!list_fmap_compose. Qed.

(** C4: What a successful deployment makes live is the policy of the tables it leaves: the
    names the enabled sources' lists block and no list or rule allows, and the custom
    rules, under the conditions of the parse cache. *)
Theorem deployed_zone_is_policy `{Platform} sha256 decode seen en rq s w s' id w' :
  (∀ c, slen (sha256 c) = 64) → collision_free sha256 seen →
  store_ok sha256 decode seen (ss_cache (sy_sources s)) → Sources.table_ok (ss_sources (sy_sources s)) →
  (∀ net r c, rq_download rq = Some net → fetched (net r) = Some c → c ∈ seen) →
  rq_test_invalid_rpz rq = false → w_files w !! rpz_backup en = None → w_files w !! cache_backup en = None →
  deploy sha256 decode en rq s w = (Ok (s', Ok id), w') →
  w_files w' !! COMPILED_RPZ = Some (policy_text sha256 decode (en_serial en) s').
Proof.
  intros Hlen Hcf Hok Htab Hnet Hhook Hb Hc E.
  destruct (deploy_run sha256 decode en rq s w Hb Hc) as (d & s1 & out & w1 & E1 & _ & _ & Hout).
  rewrite E in E1. injection E1 as <- <- <-. destruct Hout as (_ & _ & c & sources & Hcol & Hsrc & Hrules & ->).
  destruct (collect_rules_run sha256 decode seen (rq_download rq) (en_now en) (sy_sources s) Hlen Hcf Hok Htab Hnet)
    as (pending & dl & cache & Hrun & _). rewrite Hrun in Hcol. injection Hcol as <- <-.
  f_equal. unfold zone_text, policy_text, compiled_policy. rewrite Hhook, sapp_nil_r, Hrules. cbn [fst snd co_active].
  rewrite (collect_active_rules (en_now en) (sy_rules s)). f_equal. f_equal. rewrite Hsrc.
  rewrite !all_blocks_of, !all_allows_of, listed_blocks_of, listed_allows_of.
  set (st := mkSources _ cache). change (fs (ss_cache (mark_compiled (en_compiled_at en) st))) with (fs cache).
  assert (source_key <$> ss_sources (mark_compiled (en_compiled_at en) st) = source_key <$> ss_sources (sy_sources s)) as Hkeys.
  { rewrite mark_compiled_keys. subst st. cbn. apply record_run_keys. }
  apply (enabled_contributions sha256 decode (fs cache)) in Hkeys. by rewrite <-!Hkeys.
Qed.

Definition download_request : request := mkRequest (Some run_net) false false false false.
Definition fresh_system : system := (cached_system "a"){{sy_sources := run_store}}.

Lemma deployed_zone_is_policy_witness :
  let _ := sample_platform in
  ∃ s' w', deploy padded id sample_env download_request fresh_system sample_world = (Ok (s', Ok 1%Z), w')
    ∧ w_files w' !! COMPILED_RPZ = Some (policy_text padded id (en_serial sample_env) s')
    ∧ contains "ads.example CNAME ." (policy_text padded id (en_serial sample_env) s') = true.
Proof.
  intros P.
  pose proof (@deployed_zone_is_policy P padded id [run_list] sample_env download_request fresh_system sample_world) as Hdep.
  destruct (deploy padded id sample_env download_request fresh_system sample_world) as [r w'] eqn:E.
  assert (match r with
    | Ok (s', Ok i) => bool_decide (i = 1%Z) && contains "ads.example CNAME ." (policy_text padded id (en_serial sample_env) s')
    | _ => false
    end = true) as Hr.
  { change r with (r, w').1. rewrite <-E. vm_compute. reflexivity. }
  destruct r as [[s' [i|]]|]; [|done..]. apply andb_true_iff in Hr as [->%bool_decide_eq_true Hc].
  exists s', w'. split; [done|]. split; [|exact Hc]. apply (Hdep s' 1%Z w'); try reflexivity.
  - apply slen_padded.
  - intros c c' Hc1 Hc2 _. apply list_elem_of_singleton in Hc1 as ->, Hc2 as ->. reflexivity.
  - apply empty_store_ok.
  - split; [by apply (bool_decide_unpack _); vm_compute|].
    vm_compute. intros s Hs. apply list_elem_of_In in Hs. simpl in Hs. by destruct Hs as [<-|[<-|[]]].
  - intros net s c [= <-]. unfold run_net. destruct (src_id s =? 1)%Z; vm_compute; [|discriminate].
    intros [= <-]. left.
Defined.
