(* ===== verification/NetworkConfig.v ===== *)
(** * The appliance's own network configuration

    [app/network_config.py], first part: which networking backend owns the host, what the
    live interfaces hold, the validation of a proposed configuration and what each backend
    is given to apply it.  [NetworkApply] has the change, its watchdog and its rollback. *)

From S2P Require Import Prelude PyStr StrLemmas IpAddr PyJson JsonText JsonRead World.

Definition NetworkConfigError (message : string) : pyexc := PyExc "NetworkConfigError" message.

(** app/network_config.py:66-66 BACKEND_NETWORKD *)
Definition BACKEND_NETWORKD : string := "systemd-networkd".
Definition BACKEND_NETWORKMANAGER : string := "NetworkManager".
Definition BACKEND_IFUPDOWN : string := "ifupdown".
Definition BACKEND_NETPLAN : string := "netplan".
Definition BACKEND_UNSUPPORTED : string := "unsupported".

(** app/network_config.py:72-72 NETWORKD_DROPIN_DIR

    Directories end with a slash. *)
Definition NETWORKD_DROPIN_DIR : string := "/etc/systemd/network/".
Definition NETPLAN_DIR : string := "/etc/netplan/".
Definition NETPLAN_FILE : string := NETPLAN_DIR +:+ "90-alderpointdns.yaml".
Definition IFUPDOWN_INTERFACES : string := "/etc/network/interfaces".
Definition IFUPDOWN_DROPIN_DIR : string := "/etc/network/interfaces.d/".

(** ** Reading documents *)

(** [data[key]] *)
Definition item (data : json) (key : string) : res json :=
  match data with
  | JObj fields =>
      match field key fields with Some v => Ok v | None => Raise (PyExc "KeyError" (py_repr key)) end
  | _ => Raise (TypeError "object is not subscriptable")
  end.

Definition is_str (s : string) (v : json) : bool := match v with JStr t => String.eqb s t | _ => false end.

(** [for x in v: ...] *)
Definition iterate {A} (v : json) (f : json → M A) : M (list A) := l ← lift (py_list v); for_each l f.

(** The entries of a directory, in order *)
Definition sorted_glob (dir ext : string) : M (list string) :=
  l ← glob dir ext; mret (py_sorted (List.filter (λ p, negb (String.eqb p dir)) l)).

(** ** Backend detection *)

(** app/network_config.py:95-100 _systemctl_is_active

    A command that cannot be started raises [OSError], the only exception here. *)
Definition systemctl_is_active (unit : string) : M bool :=
  try_except (r ← run ["systemctl"; "is-active"; unit] false; mret (String.eqb (strip r.2) "active")) (λ _, mret false).

Section host.
(** [shutil.which]; the [yaml] package when it is installed; the text of an
    [ipaddress] error. *)
Context (which : string → bool) (yaml : option (json → string)) (ip_error : string → string).

Record backend_info := mkBackend { bi_backend : string; bi_ambiguous : bool; bi_detail : string }.

(** app/network_config.py:111-162 detect_backend *)
Definition detect_backend : M backend_info :=
  yamls ← glob NETPLAN_DIR ".yaml";
  let netplan := which "netplan" && negb (bool_decide (yamls = [])) in
  manager ← systemctl_is_active (BACKEND_NETWORKMANAGER +:+ ".service");
  networkd ← systemctl_is_active (BACKEND_NETWORKD +:+ ".service");
  let networkd := (networkd : bool) && negb netplan in
  interfaces ← exists_ IFUPDOWN_INTERFACES;
  let ifupdown := negb netplan && negb manager && negb networkd && interfaces in
  let found :=
    (if netplan then [(BACKEND_NETPLAN, "netplan binary present, " +:+ str_int (Z.of_nat (length yamls))
                        +:+ " yaml file(s) in /etc/netplan")] else [])
    ++ (if manager : bool then [(BACKEND_NETWORKMANAGER, "NetworkManager.service is active")] else [])
    ++ (if networkd then [(BACKEND_NETWORKD, "systemd-networkd.service is active")] else [])
    ++ (if ifupdown then [(BACKEND_IFUPDOWN, IFUPDOWN_INTERFACES +:+ " exists and no other backend is active")] else []) in
  mret match found with
       | [(b, detail)] => mkBackend b false detail
       | [] => mkBackend BACKEND_UNSUPPORTED false "no supported networking backend detected"
       | _ => mkBackend BACKEND_UNSUPPORTED true
                ("multiple networking backends appear active (" +:+ join ", " found.*1 +:+ "); refusing to guess")
       end.

(** ** The live state *)

(** app/network_config.py:169-176 _ip_json *)
Definition ip_json (args : list string) : M json :=
  r ← run (["ip"; "-json"] ++ args) false;
  mret (if negb (r.1 =? 0)%Z || String.eqb (strip r.2) "" then JList [] else default (JList []) (loads r.2)).

(** app/network_config.py:179-180 list_interfaces *)
Definition list_interfaces : M (list json) :=
  entries ← ip_json ["link"; "show"];
  l ← iterate entries (λ entry, name ← lift (dict_get entry "ifname" JNull);
        if is_str "lo" name then mret None else v ← lift (item entry "ifname"); mret (Some v));
  mret (omap id l).

Definition word_char (c : ascii) : bool := is_alnum c || Ascii.eqb c "_".

(** [re.search(r"\bword\s+(\S+)", s)], with the character before [s] *)
Fixpoint search_word (word : string) (prev : option ascii) (s : string) : option string :=
  match s with
  | "" => None
  | String c t =>
      let rest := sdrop (slen word) s in
      let value := lstrip_by is_space rest in
      if negb (match prev with Some p => word_char p | None => false end) && starts_with word s
         && (slen value <? slen rest) && negb (String.eqb value "")
      then Some (take_while (negb ∘ is_space) value)
      else search_word word (Some c) t
  end.

Definition default_route (word family : string) : M (option string) :=
  r ← run ["ip"; family; "route"; "show"; "default"] false;
  mret (if (r.1 =? 0)%Z then search_word word None r.2 else None).

(** app/network_config.py:183-188 default_route_interface *)
Definition default_route_interface : string → M (option string) := default_route "dev".
(** app/network_config.py:191-196 default_gateway *)
Definition default_gateway : string → M (option string) := default_route "via".

(** app/network_config.py:199-210 interface_addresses

    The IPv4 and the IPv6 addresses. *)
Definition interface_addresses (interface : string) : M (list json * list json) :=
  entries ← ip_json ["addr"; "show"; "dev"; interface];
  ls ← iterate entries (λ entry,
    infos ← lift (dict_get entry "addr_info" (JList []));
    iterate infos (λ addr,
      address ← lift (dict_get addr "local" JNull); prefixlen ← lift (dict_get addr "prefixlen" JNull);
      family ← lift (dict_get addr "family" JNull); scope ← lift (dict_get addr "scope" JNull);
      let found := JObj [("address", address); ("prefixlen", prefixlen)] in
      mret (if is_str "inet" family then ([found], [])
            else if is_str "inet6" family && negb (is_str "link" scope) then ([], [found]) else ([], []))));
  let l := concat ls in
  mret (concat l.*1, concat l.*2).

(** app/network_config.py:213-224 all_local_addresses *)
Definition all_local_addresses (exclude_interface : string) : M (list json) :=
  entries ← ip_json ["addr"; "show"];
  ls ← iterate entries (λ entry,
    name ← lift (dict_get entry "ifname" JNull);
    if negb (String.eqb exclude_interface "") && is_str exclude_interface name then mret []
    else
      infos ← lift (dict_get entry "addr_info" (JList []));
      iterate infos (λ addr,
        v ← lift (dict_get addr "local" JNull);
        if py_bool v then
          match v with
          | JList _ | JObj _ => raise (TypeError "unhashable type")
          | _ => mret [v]
          end
        else mret []));
  mret (concat (concat ls)).

(** ** Validation *)

Record addr_config := mkAddr { ac_address : string; ac_prefix : Z; ac_gateway : string }.
Record proposal := mkProposal {
  pr_interface : string; pr_mode4 : string; pr_addr4 : option string; pr_prefix4 : option Z; pr_gw4 : option string;
  pr_mode6 : string; pr_addr6 : option string; pr_prefix6 : option Z; pr_gw6 : option string }.
Record validated := mkValidated {
  va_interface : string; va_mode4 : string; va_mode6 : string; va_ipv4 : option addr_config; va_ipv6 : option addr_config }.

(** [not address or not prefix or not gateway] *)
Definition all_given (a : option string) (p : option Z) (g : option string) : option addr_config :=
  match a, p, g with
  | Some a, Some p, Some g =>
      if String.eqb a "" || (p =? 0)%Z || String.eqb g "" then None else Some (mkAddr a p g)
  | _, _, _ => None
  end.

Definition abnormal (a : ip) : bool := is_loopback a || is_multicast a || is_unspecified a.

(** The outcome for one family, before the addresses of the other interfaces are read. *)
Definition check_v4 (c : addr_config) : res () :=
  match parse_ipv4 (ac_address c) with
  | None => Raise (NetworkConfigError ("invalid IPv4 address: " +:+ ip_error (ac_address c)))
  | Some a =>
      _ ← raise_if (negb ((0 <=? ac_prefix c) && (ac_prefix c <=? 32))%Z)
            (NetworkConfigError "IPv4 prefix length must be between 0 and 32");
      match parse_ipv4 (ac_gateway c) with
      | None => Raise (NetworkConfigError ("invalid IPv4 gateway: " +:+ ip_error (ac_gateway c)))
      | Some g =>
          _ ← raise_if (is_loopback (IPv4 a)) (NetworkConfigError "IPv4 address must not be a loopback address");
          _ ← raise_if (is_multicast (IPv4 a)) (NetworkConfigError "IPv4 address must not be a multicast address");
          _ ← raise_if (is_unspecified (IPv4 a)) (NetworkConfigError "IPv4 address must not be 0.0.0.0");
          _ ← raise_if (abnormal (IPv4 g)) (NetworkConfigError "IPv4 gateway must be a normal unicast address");
          let net := network_of (IPv4 a) (ac_prefix c) in
          raise_if (negb (ip_in (IPv4 g) net))
            (NetworkConfigError ("gateway " +:+ ac_gateway c +:+ " is not within the " +:+ str_network net
               +:+ " subnet implied by " +:+ ac_address c +:+ "/" +:+ str_int (ac_prefix c)))
      end
  end.

Definition check_v6 (c : addr_config) : res () :=
  match parse_ipv6 (ac_address c) with
  | None => Raise (NetworkConfigError ("invalid IPv6 address: " +:+ ip_error (ac_address c)))
  | Some a =>
      _ ← raise_if (negb ((0 <=? ac_prefix c) && (ac_prefix c <=? 128))%Z)
            (NetworkConfigError "IPv6 prefix length must be between 0 and 128");
      match parse_ipv6 (ac_gateway c) with
      | None => Raise (NetworkConfigError ("invalid IPv6 gateway: " +:+ ip_error (ac_gateway c)))
      | Some g =>
          _ ← raise_if (abnormal a) (NetworkConfigError "IPv6 address must not be loopback, multicast, or unspecified");
          _ ← raise_if (abnormal g) (NetworkConfigError "IPv6 gateway must be a normal unicast address");
          let net := network_of a (ac_prefix c) in
          raise_if (negb (ip_in g net) && negb (is_link_local g))
            (NetworkConfigError ("gateway " +:+ ac_gateway c +:+ " is not within the " +:+ str_network net
               +:+ " subnet implied by " +:+ ac_address c +:+ "/" +:+ str_int (ac_prefix c)))
      end
  end.

Definition validate_family (version : string) (check : addr_config → res ()) (interface mode : string)
    (a : option string) (p : option Z) (g : option string) : M (option addr_config) :=
  if negb (String.eqb mode "static") then mret None
  else match all_given a p g with
  | None => raise (NetworkConfigError ("static " +:+ version +:+ " requires an address, prefix length, and gateway"))
  | Some c =>
      _ ← lift (check c);
      existing ← all_local_addresses interface;
      if existsb (is_str (ac_address c)) existing
      then raise (NetworkConfigError (ac_address c +:+ " is already configured on another local interface"))
      else mret (Some c)
  end.

Definition one_of (l : list string) (s : string) : bool := existsb (String.eqb s) l.

(** app/network_config.py:332-408 validate_proposed *)
Definition validate_proposed (p : proposal) : M validated :=
  known ← list_interfaces;
  if negb (existsb (is_str (pr_interface p)) known)
  then raise (NetworkConfigError ("interface " +:+ py_repr (pr_interface p) +:+ " does not exist on this host"))
  else if negb (one_of ["dhcp"; "static"; "unchanged"] (pr_mode4 p))
  then raise (NetworkConfigError "ipv4_mode must be 'dhcp' or 'static'")
  else if negb (one_of ["dhcp"; "static"; "slaac"; "unchanged"] (pr_mode6 p))
  then raise (NetworkConfigError "ipv6_mode must be 'dhcp', 'static', or 'slaac'")
  else
    v4 ← validate_family "IPv4" check_v4 (pr_interface p) (pr_mode4 p) (pr_addr4 p) (pr_prefix4 p) (pr_gw4 p);
    v6 ← validate_family "IPv6" check_v6 (pr_interface p) (pr_mode6 p) (pr_addr6 p) (pr_prefix6 p) (pr_gw6 p);
    mret (mkValidated (pr_interface p) (pr_mode4 p) (pr_mode6 p) v4 v6).

(** ** What each backend is given

    The modes and the addresses as [apply_change] passes them. *)

Definition cidr (c : addr_config) : string := ac_address c +:+ "/" +:+ str_int (ac_prefix c).

(** app/network_config.py:476-490 _render_networkd_unit *)
Definition render_networkd_unit (v : validated) : string :=
  let static c := ["Address=" +:+ cidr c; "Gateway=" +:+ ac_gateway c] in
  join nl (["[Match]"; "Name=" +:+ va_interface v; ""; "[Network]"]
    ++ (if String.eqb (va_mode4 v) "dhcp" then ["DHCP=ipv4"]
        else if String.eqb (va_mode4 v) "static" then match va_ipv4 v with Some c => static c | None => [] end else [])
    ++ (if String.eqb (va_mode6 v) "dhcp" then ["DHCP=ipv6"]
        else if String.eqb (va_mode6 v) "static" then match va_ipv6 v with Some c => static c | None => [] end
        else if String.eqb (va_mode6 v) "slaac" then ["IPv6AcceptRA=yes"] else [])) +:+ nl.

Definition networkd_path (interface : string) : string :=
  NETWORKD_DROPIN_DIR +:+ "90-alderpointdns-" +:+ interface +:+ ".network".
Definition ifupdown_path (interface : string) : string :=
  IFUPDOWN_DROPIN_DIR +:+ "90-alderpointdns-" +:+ interface +:+ ".cfg".

(** app/network_config.py:493-498 stage_networkd *)
Definition stage_networkd (v : validated) : M () :=
  _ ← mkdir NETWORKD_DROPIN_DIR; write_text (networkd_path (va_interface v)) (render_networkd_unit v).

(** app/network_config.py:501-503 apply_networkd *)
Definition apply_networkd (interface : string) : M () :=
  _ ← run_ ["networkctl"; "reload"] true; run_ ["networkctl"; "reconfigure"; interface] true.

(** [eth[key] = value], and [eth["routes"] = eth.get("routes", []) + [route]] *)
Definition add_route (to via : string) (eth : list (string * json)) : list (string * json) :=
  let route := JObj [("to", JStr to); ("via", JStr via)] in
  dict_set "routes" (JList (match field "routes" eth with Some (JList l) => l ++ [route] | _ => [route] end)) eth.

Definition netplan_eth (v : validated) : list (string * json) :=
  let static4 := String.eqb (va_mode4 v) "static" in
  let static6 := String.eqb (va_mode6 v) "static" in
  let addr4 := if static4 then va_ipv4 v else None in
  let addr6 := if static6 then va_ipv6 v else None in
  let eth :=
    if String.eqb (va_mode4 v) "dhcp" then [("dhcp4", JBool true)]
    else match addr4 with
         | Some c => add_route "0.0.0.0/0" (ac_gateway c) [("dhcp4", JBool false)]
         | None => []
         end in
  let eth :=
    if String.eqb (va_mode6 v) "dhcp" then dict_set "dhcp6" (JBool true) eth
    else match addr6 with
         | Some c => add_route "::/0" (ac_gateway c) eth
         | None => if String.eqb (va_mode6 v) "slaac" then dict_set "accept-ra" (JBool true) eth else eth
         end in
  let addresses := omap (option_map (JStr ∘ cidr)) [addr4; addr6] in
  if bool_decide (addresses = []) then eth else dict_set "addresses" (JList addresses) eth.

(** app/network_config.py:506-530 _render_netplan_yaml *)
Definition render_netplan_yaml (v : validated) : string :=
  let body := JObj [("network", JObj [("version", JInt 2); ("ethernets", JObj [(va_interface v, JObj (netplan_eth v))])])] in
  match yaml with Some safe_dump => safe_dump body | None => print indented 0 body end.

(** app/network_config.py:533-537 stage_netplan *)
Definition stage_netplan (v : validated) : M () :=
  _ ← mkdir NETPLAN_DIR; write_text NETPLAN_FILE (render_netplan_yaml v).

(** app/network_config.py:540-542 apply_netplan *)
Definition apply_netplan : M () := _ ← run_ ["netplan"; "generate"] true; run_ ["netplan"; "apply"] true.

(** app/network_config.py:465-473 _nm_connection_for_interface *)
Definition nm_connection_for_interface (interface : string) : M (option string) :=
  r ← run ["nmcli"; "-t"; "-f"; "NAME,DEVICE"; "con"; "show"; "--active"] false;
  mret (if negb (r.1 =? 0)%Z then None
        else head (omap (λ line, match split_on ":" line with
                                 | [name; device] => if String.eqb device interface then Some name else None
                                 | _ => None
                                 end) (splitlines r.2))).

(** [a or b] on an optional string *)
Definition str_or (a : option string) (b : string) : string :=
  match a with Some s => if String.eqb s "" then b else s | None => b end.

(** app/network_config.py:545-567 stage_networkmanager *)
Definition stage_networkmanager (v : validated) : M string :=
  found ← nm_connection_for_interface (va_interface v);
  let conn := str_or found (va_interface v) in
  let modify args := run_ (["nmcli"; "con"; "mod"; conn] ++ args) true in
  let static ip c := modify [ip +:+ ".method"; "manual"; ip +:+ ".addresses"; cidr c; ip +:+ ".gateway"; ac_gateway c] in
  _ ← (if String.eqb (va_mode4 v) "dhcp" then modify ["ipv4.method"; "auto"; "ipv4.addresses"; ""; "ipv4.gateway"; ""]
       else if String.eqb (va_mode4 v) "static" then match va_ipv4 v with Some c => static "ipv4" c | None => mret () end
       else mret ());
  _ ← (if String.eqb (va_mode6 v) "dhcp" then modify ["ipv6.method"; "auto"]
       else if String.eqb (va_mode6 v) "static" then match va_ipv6 v with Some c => static "ipv6" c | None => mret () end
       else if String.eqb (va_mode6 v) "slaac" then modify ["ipv6.method"; "auto"] else mret ());
  mret conn.

(** app/network_config.py:570-571 apply_networkmanager *)
Definition apply_networkmanager (conn : string) : M () := run_ ["nmcli"; "con"; "up"; conn] true.

Definition ifupdown_text (v : validated) : string :=
  let i := va_interface v in
  join nl
    ((if String.eqb (va_mode4 v) "dhcp" then ["auto " +:+ i; "iface " +:+ i +:+ " inet dhcp"]
      else if String.eqb (va_mode4 v) "static" then
        match va_ipv4 v with
        | Some c => ["auto " +:+ i; "iface " +:+ i +:+ " inet static"; "    address " +:+ ac_address c;
                     "    netmask " +:+ str_ipv4 (mask_int 32 (ac_prefix c)); "    gateway " +:+ ac_gateway c]
        | None => []
        end
      else [])
     ++ (if String.eqb (va_mode6 v) "static" then
           match va_ipv6 v with
           | Some c => ["iface " +:+ i +:+ " inet6 static"; "    address " +:+ ac_address c;
                        "    netmask " +:+ str_int (ac_prefix c); "    gateway " +:+ ac_gateway c]
           | None => []
           end
         else if String.eqb (va_mode6 v) "dhcp" then ["iface " +:+ i +:+ " inet6 dhcp"]
         else if String.eqb (va_mode6 v) "slaac" then ["iface " +:+ i +:+ " inet6 auto"] else [])) +:+ nl.

(** app/network_config.py:574-610 stage_ifupdown *)
Definition stage_ifupdown (v : validated) : M () :=
  _ ← mkdir IFUPDOWN_DROPIN_DIR;
  _ ← write_text (ifupdown_path (va_interface v)) (ifupdown_text v);
  main ← get_file IFUPDOWN_INTERFACES;
  match main with
  | Some text =>
      if contains "source /etc/network/interfaces.d/*" text || contains "source-directory /etc/network/interfaces.d" text
      then mret ()
      else write_text IFUPDOWN_INTERFACES (text +:+ nl +:+ "source /etc/network/interfaces.d/*" +:+ nl)
  | None => mret ()
  end.

(** app/network_config.py:613-618 apply_ifupdown *)
Definition apply_ifupdown (interface : string) : M () :=
  _ ← run_ ["ifdown"; interface] false; run_ ["ifup"; interface] true.

Example networkd_ex :
  render_networkd_unit (mkValidated "eth0" "static" "slaac" (Some (mkAddr "192.0.2.5" 24 "192.0.2.1")) None)
  = join nl ["[Match]"; "Name=eth0"; ""; "[Network]"; "Address=192.0.2.5/24"; "Gateway=192.0.2.1"; "IPv6AcceptRA=yes"; ""].
Proof. vm_compute. reflexivity. Qed.
Example netmask_ex : str_ipv4 (mask_int 32 20) = "255.255.240.0".
Proof. vm_compute. reflexivity. Qed.
Example gateway_ex : search_word "via" None ("default dev viaduct via  192.0.2.1 dev eth0") = Some "192.0.2.1".
Proof. vm_compute. reflexivity. Qed.
End host.

(** ** What passes validation can work *)

Lemma all_given_spec a p g c :
  all_given a p g = Some c →
  a = Some (ac_address c) ∧ p = Some (ac_prefix c) ∧ g = Some (ac_gateway c) ∧ ac_prefix c ≠ 0%Z.
Proof.
  destruct a as [a|], p as [p|], g as [g|]; try done. cbn. destruct (String.eqb a ""); [done|].
  destruct (Z.eqb_spec p 0); [done|]. destruct (String.eqb g ""); [done|]. by intros [= <-].
Qed.

Lemma validate_family_spec version check i mode a p g w c w' :
  validate_family version check i mode a p g w = (Ok c, w') →
  if String.eqb mode "static" then ∃ c', c = Some c' ∧ check c' = Ok ()
    ∧ a = Some (ac_address c') ∧ p = Some (ac_prefix c') ∧ g = Some (ac_gateway c') ∧ ac_prefix c' ≠ 0%Z
    ∧ ∃ w1 w2 l, all_local_addresses i w1 = (Ok l, w2) ∧ JStr (ac_address c') ∉ l
  else c = None.
Proof.
  unfold validate_family. destruct (String.eqb mode "static"); cbn [negb]; [|by intros [= <- _]].
  destruct (all_given a p g) as [c'|] eqn:Eg; [|done]. apply all_given_spec in Eg as (Ha & Hp & Hg & Hne).
  rewrite bind_M. unfold lift. destruct (check c') as [[]|e] eqn:Ec; [|done]. rewrite bind_M.
  destruct (all_local_addresses i w) as [[l|e] w1] eqn:El; [|done]. destruct (existsb _ _) eqn:Ex; [done|]. intros [= <- _].
  exists c'. do 6 (split; [done|]). exists w, w1, l. split; [done|]. rewrite existsb_false in Ex. intros Hin. specialize (Ex _ Hin).
  cbn in Ex. by rewrite String.eqb_refl in Ex.
Qed.

(** Equal in their first [p] bits of [w] *)
Definition same_prefix (w p a b : Z) : Prop := (a / 2 ^ (w - p) = b / 2 ^ (w - p))%Z.

Lemma ip_in_v4 a g p : (0 <= p <= 32)%Z → ip_in (IPv4 g) (network_of (IPv4 a) p) = true → same_prefix 32 p a g.
Proof.
  intros Hp. unfold ip_in, same_prefix. cbn. unfold truncate. intros E%Z.eqb_eq.
  apply Z.mul_reg_r in E; [done|]. apply Z.pow_nonzero; lia.
Qed.

Lemma ip_in_v6 a s g t p : (0 <= p <= 128)%Z → ip_in (IPv6 g t) (network_of (IPv6 a s) p) = true → same_prefix 128 p a g.
Proof.
  intros Hp. unfold ip_in, same_prefix, network_of. cbn [ip_version max_prefixlen ip_int net_addr net_prefixlen].
  assert (ip_int (if (truncate 128 p a =? a)%Z then IPv6 a s else IPv6 (truncate 128 p a) None) = truncate 128 p a) as ->
    by by destruct (Z.eqb_spec (truncate 128 p a) a).
  intros [_ E%Z.eqb_eq]%andb_prop. unfold truncate in E. apply Z.mul_reg_r in E; [done|]. apply Z.pow_nonzero; lia.
Qed.

Definition usable (a : ip) : Prop := is_loopback a = false ∧ is_multicast a = false ∧ is_unspecified a = false.

Lemma usable_abnormal a : abnormal a = false → usable a.
Proof. unfold abnormal, usable. by destruct (is_loopback a), (is_multicast a), (is_unspecified a). Qed.

Lemma check_v4_spec ip_error c :
  check_v4 ip_error c = Ok () →
  ∃ a g, parse_ipv4 (ac_address c) = Some a ∧ parse_ipv4 (ac_gateway c) = Some g ∧ (0 <= ac_prefix c <= 32)%Z
    ∧ usable (IPv4 a) ∧ usable (IPv4 g) ∧ same_prefix 32 (ac_prefix c) a g.
Proof.
  unfold check_v4. destruct (parse_ipv4 (ac_address c)) as [a|]; [|done]. intros ([] & Hp%raise_if_ok & E)%res_bind_ok.
  destruct (parse_ipv4 (ac_gateway c)) as [g|]; [|done].
  apply res_bind_ok in E as ([] & H1%raise_if_ok & ([] & H2%raise_if_ok & ([] & H3%raise_if_ok &
    ([] & H4%raise_if_ok & H5%raise_if_ok)%res_bind_ok)%res_bind_ok)%res_bind_ok).
  assert (0 <= ac_prefix c <= 32)%Z as Hpre by (apply negb_false_iff, andb_prop in Hp as [? ?]; lia).
  exists a, g. do 3 (split; [done|]). split; [done|]. split; [by apply usable_abnormal|].
  apply ip_in_v4; [done|]. by apply negb_false_iff.
Qed.

Lemma check_v6_spec ip_error c :
  check_v6 ip_error c = Ok () →
  ∃ a g, parse_ipv6 (ac_address c) = Some a ∧ parse_ipv6 (ac_gateway c) = Some g ∧ (0 <= ac_prefix c <= 128)%Z
    ∧ usable a ∧ usable g ∧ (same_prefix 128 (ac_prefix c) (ip_int a) (ip_int g) ∨ is_link_local g = true).
Proof.
  unfold check_v6. destruct (parse_ipv6 (ac_address c)) as [a|] eqn:Ea; [|done]. intros ([] & Hp%raise_if_ok & E)%res_bind_ok.
  destruct (parse_ipv6 (ac_gateway c)) as [g|] eqn:Eg; [|done].
  apply res_bind_ok in E as ([] & H1%raise_if_ok & ([] & H2%raise_if_ok & H3%raise_if_ok)%res_bind_ok).
  assert (0 <= ac_prefix c <= 128)%Z as Hpre by (apply negb_false_iff, andb_prop in Hp as [? ?]; lia).
  exists a, g. do 3 (split; [done|]). split; [by apply usable_abnormal|]. split; [by apply usable_abnormal|].
  apply andb_false_iff in H3 as [H3%negb_false_iff|H3%negb_false_iff]; [left|by right].
  assert (∀ s x, parse_ipv6 s = Some x → ∃ n sc, x = IPv6 n sc) as Hv6.
  { clear. intros s x. unfold parse_ipv6. destruct (char_in _ _); [done|]. destruct (partition _ _) as [[h []] sc].
    - destruct (_ || _); [done|]. destruct (parse_ipv6_int h); [|done]. intros [= <-]. eauto.
    - destruct (parse_ipv6_int h); [|done]. intros [= <-]. eauto. }
  apply Hv6 in Ea as (n & sc & ->), Eg as (m & sc' & ->). by apply ip_in_v6 in H3.
Qed.


