(* ===== verification/NetworkApply.v ===== *)
(** * Changing the appliance's network configuration

    [app/network_config.py], second part: the snapshot of the current configuration, the
    change with its watchdog, the rollback, the confirmation and the requests of the web
    application.  Owners and permission bits of the files are not modelled. *)

From S2P Require Import Prelude PyStr StrLemmas IpAddr PyJson JsonText JsonRead World NetworkConfig.

(** app/network_config.py:57-57 ROLLBACK_STATE_FILE *)
Definition ROLLBACK_STATE_FILE : string := "/var/lib/alderpointdns/network/rollback-state.json".
Definition STATE_DIR : string := "/var/lib/alderpointdns/network/".
Definition STATE_TMP : string := "/var/lib/alderpointdns/network/rollback-state.tmp".
Definition ROLLBACK_LOG : string := "/var/log/alderpointdns/network-rollback.log".
(** app/network_config.py:63-63 ROLLBACK_TIMEOUT_SECONDS *)
Definition ROLLBACK_TIMEOUT_SECONDS : Z := 120.

(** ** The pending change *)

Record snapshot := mkSnapshot {
  sn_backend : string; sn_interface : string; sn_files : list (string * string); sn_profile : list (string * string);
  sn_ipv4 : list json; sn_ipv6 : list json; sn_gateway4 : option string; sn_gateway6 : option string }.

Record net_state := mkNetState {
  ns_requested : string; ns_backend : string; ns_interface : string; ns_snapshot : snapshot; ns_proposed : validated;
  ns_unit : string; ns_deadline : string; ns_confirmed : bool }.

Definition str_dict (l : list (string * string)) : json := JObj ((λ kv, (kv.1, JStr kv.2)) <$> l).
Definition opt_str (s : option string) : json := match s with Some s => JStr s | None => JNull end.

Definition snapshot_json (s : snapshot) : json := JObj
  [("backend", JStr (sn_backend s)); ("interface", JStr (sn_interface s)); ("files", str_dict (sn_files s));
   ("nm_profile", str_dict (sn_profile s)); ("live_ipv4", JList (sn_ipv4 s)); ("live_ipv6", JList (sn_ipv6 s));
   ("live_gateway_v4", opt_str (sn_gateway4 s)); ("live_gateway_v6", opt_str (sn_gateway6 s))].

Definition addr_json (key : string) (c : option addr_config) : list (string * json) :=
  match c with
  | Some c => [(key, JObj [("address", JStr (ac_address c)); ("prefix", JInt (ac_prefix c)); ("gateway", JStr (ac_gateway c))])]
  | None => []
  end.

Definition validated_json (v : validated) : json := JObj
  ([("interface", JStr (va_interface v)); ("ipv4_mode", JStr (va_mode4 v)); ("ipv6_mode", JStr (va_mode6 v))]
   ++ addr_json "ipv4" (va_ipv4 v) ++ addr_json "ipv6" (va_ipv6 v)).

Definition state_json (s : net_state) : json := JObj
  [("requested_at", JStr (ns_requested s)); ("backend", JStr (ns_backend s)); ("interface", JStr (ns_interface s));
   ("snapshot", snapshot_json (ns_snapshot s)); ("proposed", validated_json (ns_proposed s));
   ("rollback_unit", JStr (ns_unit s)); ("rollback_deadline", JStr (ns_deadline s)); ("confirmed", JBool (ns_confirmed s))].

(** The times of one operation: the request's, the unit's second, the deadline a number of
    seconds ahead, and those of its log lines. *)
Record net_env := mkNetEnv {
  ne_requested : string; ne_seconds : string; ne_deadline : Z → string; ne_log1 : string; ne_log2 : string; ne_log3 : string }.

(** [except subprocess.CalledProcessError as exc], with [exc.stdout], the output of the
    command that was run last *)
Definition try_called {A} (m : M A) (h : pyexc → string → M A) : M A := λ w,
  match m w with
  | (Raise e, w) =>
      if String.eqb (exc_class e) "CalledProcessError"
      then h e (match w_answers w (pred (length (w_log w))) with Exited _ out => out | NotStarted _ => "" end) w
      else (Raise e, w)
  | ok => ok
  end.

(** [path.unlink(missing_ok=True)] *)
Definition unlink_missing_ok (path : string) : M () := there ← exists_ path; when there (unlink path).

(** app/network_config.py:684-690 _log_rollback_event *)
Definition log_rollback_event (stamp message : string) : M () :=
  old ← get_file ROLLBACK_LOG;
  write_text ROLLBACK_LOG (default "" old +:+ stamp +:+ " " +:+ message +:+ nl).

Section host.
Context (which : string → bool) (yaml : option (json → string)) (ip_error : string → string).

(** ** The snapshot *)

(** app/network_config.py:419-431 _snapshot_paths_for_backend *)
Definition snapshot_paths (backend : string) : M (list string) :=
  if String.eqb backend BACKEND_NETWORKD then sorted_glob NETWORKD_DROPIN_DIR ".network"
  else if String.eqb backend BACKEND_NETPLAN then sorted_glob NETPLAN_DIR ".yaml"
  else if String.eqb backend BACKEND_IFUPDOWN then
    main ← exists_ IFUPDOWN_INTERFACES; drop_ins ← sorted_glob IFUPDOWN_DROPIN_DIR "";
    mret ((if main : bool then [IFUPDOWN_INTERFACES] else []) ++ drop_ins)
  else mret [].

Definition nm_properties : list string :=
  ["ipv4.method"; "ipv4.addresses"; "ipv4.gateway"; "ipv6.method"; "ipv6.addresses"; "ipv6.gateway"].

Definition snapshot_profile (backend interface : string) : M (list (string * string)) :=
  if String.eqb backend BACKEND_NETWORKMANAGER && which "nmcli" then
    found ← nm_connection_for_interface interface;
    match found with
    | Some conn =>
        if String.eqb conn "" then mret []
        else
          props ← for_each nm_properties (λ prop, r ← run ["nmcli"; "-g"; prop; "con"; "show"; conn] false;
                    mret (prop, if (r.1 =? 0)%Z then strip r.2 else ""));
          mret (props ++ [("_connection_name", conn)])
    | None => mret []
    end
  else mret [].

(** app/network_config.py:434-462 snapshot_current *)
Definition snapshot_current (backend interface : string) : M snapshot :=
  paths ← snapshot_paths backend;
  files ← for_each paths (λ p, t ← read_text p; mret (p, t));
  profile ← snapshot_profile backend interface;
  live4 ← interface_addresses interface; live6 ← interface_addresses interface;
  gateway4 ← default_gateway "-4"; gateway6 ← default_gateway "-6";
  mret (mkSnapshot backend interface files profile live4.1 live6.2 gateway4 gateway6).

(** app/network_config.py:638-649 _write_state_file *)
Definition write_state_file (s : net_state) : M () :=
  _ ← mkdir STATE_DIR; _ ← write_text STATE_TMP (print indented 0 (state_json s)); replace STATE_TMP ROLLBACK_STATE_FILE.

(** app/network_config.py:652-658 read_rollback_state *)
Definition read_rollback_state : M (option json) :=
  text ← get_file ROLLBACK_STATE_FILE;
  mret (text ← text; match loads text with Some JNull => None | j => j end).

(** app/network_config.py:661-676 schedule_rollback_timer *)
Definition schedule_rollback_timer (env : net_env) (timeout_seconds : Z) : M string :=
  let unit := "alderpointdns-network-rollback-" +:+ ne_seconds env in
  _ ← run_ ["systemd-run"; "--unit=" +:+ unit; "--description=Alderpoint DNS network config rollback watchdog";
            "--on-active=" +:+ str_int timeout_seconds +:+ "s"; "--";
            "/opt/alderpointdns/app/alderpointdns_compiler.py"; "network-rollback-check"] true;
  mret unit.

(** app/network_config.py:679-681 cancel_rollback_timer *)
Definition cancel_rollback_timer (unit : string) : M () :=
  _ ← run_ ["systemctl"; "stop"; unit] false; run_ ["systemctl"; "reset-failed"; unit] false.

(** ** The rollback *)

(** The drop-in the change added, unless the snapshot holds it. *)
Definition remove_staged (path : string) (files : list (string * json)) : M () :=
  if existsb (String.eqb path) files.*1 then mret () else unlink_missing_ok path.

(** [v or dflt] as a command's argument *)
Definition arg_or (v : json) (dflt : string) : res string :=
  if py_bool v then match v with JStr s => Ok s | _ => Raise (TypeError "expected str, bytes or os.PathLike object") end
  else Ok dflt.

Definition restore_profile (snapshot : json) : M () :=
  profile ← lift (dict_get snapshot "nm_profile" (JObj []));
  conn ← lift (dict_get profile "_connection_name" JNull);
  if py_bool conn then
    conn ← lift (arg_or conn "");
    method ← lift (v ← dict_get profile "ipv4.method" (JStr "auto"); arg_or v "auto");
    addresses ← lift (v ← dict_get profile "ipv4.addresses" (JStr ""); arg_or v "");
    gateway ← lift (v ← dict_get profile "ipv4.gateway" (JStr ""); arg_or v "");
    _ ← run_ ["nmcli"; "con"; "mod"; conn; "ipv4.method"; method; "ipv4.addresses"; addresses; "ipv4.gateway"; gateway] true;
    apply_networkmanager conn
  else mret ().

(** app/network_config.py:773-823 perform_rollback

    Writing a file fails only for content that is not text. *)
Definition perform_rollback (env : net_env) (state : json) : M () :=
  backend ← lift (item state "backend");
  interface ← lift (item state "interface");
  snapshot ← lift (item state "snapshot");
  let backend_is b := is_str b backend in
  let name := py_str interface in
  files ← lift (dict_get snapshot "files" (JObj []));
  files ← lift (match files with JObj l => Ok l | _ => Raise (PyExc "AttributeError" "object has no attribute 'items'") end);
  _ ← for_each files (λ kv,
        match kv.2 with JStr text => write_text kv.1 text | _ => raise (TypeError "data must be str") end);
  _ ← (if backend_is BACKEND_NETWORKD then remove_staged (networkd_path name) files
       else if backend_is BACKEND_NETPLAN then remove_staged NETPLAN_FILE files
       else if backend_is BACKEND_IFUPDOWN then remove_staged (ifupdown_path name) files
       else mret ());
  _ ← try_called
        (if backend_is BACKEND_NETWORKD then apply_networkd name
         else if backend_is BACKEND_NETPLAN then apply_netplan
         else if backend_is BACKEND_NETWORKMANAGER then restore_profile snapshot
         else if backend_is BACKEND_IFUPDOWN then apply_ifupdown name
         else mret ())
        (λ exc _, log_rollback_event (ne_log2 env)
          ("ERROR: rollback re-apply for " +:+ name +:+ " via " +:+ py_str backend +:+ " failed: " +:+ exc_message exc));
  deadline ← lift (dict_get state "rollback_deadline" JNull);
  _ ← log_rollback_event (ne_log3 env) ("automatic rollback completed for " +:+ name +:+ " via " +:+ py_str backend
        +:+ " (deadline " +:+ py_str deadline +:+ " passed unconfirmed)");
  unlink_missing_ok ROLLBACK_STATE_FILE.

(** app/network_config.py:826-837 rollback_check *)
Definition rollback_check (env : net_env) : M string :=
  state ← read_rollback_state;
  match state with
  | None => mret "no pending network change; nothing to roll back"
  | Some state =>
      confirmed ← lift (dict_get state "confirmed" JNull);
      if py_bool confirmed then
        _ ← unlink_missing_ok ROLLBACK_STATE_FILE;
        mret "pending change was already confirmed; nothing to roll back"
      else
        _ ← perform_rollback env state;
        interface ← lift (item state "interface"); backend ← lift (item state "backend");
        mret ("rolled back network change on " +:+ py_str interface +:+ " (backend " +:+ py_str backend +:+ ")")
  end.

(** app/network_config.py:840-849 confirm_change *)
Definition confirm_change (env : net_env) : M string :=
  state ← read_rollback_state;
  match state with
  | None => raise (NetworkConfigError "no pending network configuration change to confirm")
  | Some state =>
      unit ← lift (dict_get state "rollback_unit" JNull);
      _ ← (if py_bool unit then unit ← lift (arg_or unit ""); cancel_rollback_timer unit else mret ());
      _ ← unlink_missing_ok ROLLBACK_STATE_FILE;
      interface ← lift (item state "interface"); backend ← lift (item state "backend");
      _ ← log_rollback_event (ne_log1 env) ("administrator confirmed new config for " +:+ py_str interface +:+ " via "
            +:+ py_str backend +:+ "; rollback cancelled");
      mret ("confirmed: " +:+ py_str interface +:+ " configuration via " +:+ py_str backend +:+ " is now permanent")
  end.

(** ** The change *)

Definition stage_via (backend : string) (v : validated) : M () :=
  if String.eqb backend BACKEND_NETWORKD then stage_networkd v
  else if String.eqb backend BACKEND_NETPLAN then stage_netplan yaml v
  else if String.eqb backend BACKEND_NETWORKMANAGER then _ ← stage_networkmanager v; mret ()
  else if String.eqb backend BACKEND_IFUPDOWN then stage_ifupdown v
  else mret ().

Definition apply_via (backend : string) (v : validated) : M () :=
  if String.eqb backend BACKEND_NETWORKD then apply_networkd (va_interface v)
  else if String.eqb backend BACKEND_NETPLAN then apply_netplan
  else if String.eqb backend BACKEND_NETWORKMANAGER then conn ← stage_networkmanager v; apply_networkmanager conn
  else if String.eqb backend BACKEND_IFUPDOWN then apply_ifupdown (va_interface v)
  else mret ().

Record applied := mkApplied { ap_backend : string; ap_unit : string; ap_deadline : string }.

(** app/network_config.py:697-770 apply_change *)
Definition apply_change (env : net_env) (p : proposal) (rollback_timeout_seconds : Z) : M applied :=
  info ← detect_backend which;
  let backend := bi_backend info in
  if String.eqb backend BACKEND_UNSUPPORTED
  then raise (NetworkConfigError ("no single supported networking backend was detected (" +:+ bi_detail info
         +:+ "); refusing to change network configuration -- current settings are shown read-only"))
  else
    v ← validate_proposed ip_error p;
    pending ← exists_ ROLLBACK_STATE_FILE;
    if pending : bool
    then raise (NetworkConfigError "a network configuration change is already pending confirmation; confirm or wait for it to roll back first")
    else
      snap ← snapshot_current backend (pr_interface p);
      _ ← stage_via backend v;
      unit ← schedule_rollback_timer env rollback_timeout_seconds;
      let deadline := ne_deadline env rollback_timeout_seconds in
      let state := mkNetState (ne_requested env) backend (pr_interface p) snap v unit deadline false in
      _ ← write_state_file state;
      _ ← try_called (apply_via backend v) (λ exc stdout,
            _ ← log_rollback_event (ne_log1 env) ("apply failed for " +:+ pr_interface p +:+ " via " +:+ backend
                  +:+ ", rolling back immediately: " +:+ exc_message exc);
            _ ← perform_rollback env (state_json state);
            raise (NetworkConfigError ("failed to apply network configuration via " +:+ backend +:+ ": " +:+ stdout)));
      _ ← log_rollback_event (ne_log1 env) ("applied new config for " +:+ pr_interface p +:+ " via " +:+ backend
            +:+ "; rollback armed as " +:+ unit +:+ ", deadline " +:+ deadline);
      mret (mkApplied backend unit deadline).

(** ** Requests

    The web application writes a row, the privileged helper processes the newest pending one
    of a kind.  The payload column is the document of the proposal. *)
Inductive request_kind := Apply | Confirm.
#[export] Instance request_kind_eq_dec : EqDecision request_kind.
Proof. solve_decision. Defined.

Record net_request := mkNetRequest {
  nr_id : Z; nr_kind : request_kind; nr_requested : string; nr_payload : proposal; nr_timeout : option Z;
  nr_status : string; nr_result : string; nr_finished : option string }.

(** app/network_config.py:940-951 request_change *)
Definition request_change (ts : string) (p : proposal) (timeout : option Z) (l : list net_request) : list net_request * Z :=
  let id := fresh_id (nr_id <$> l) in (l ++ [mkNetRequest id Apply ts p timeout "pending" "" None], id).

(** app/network_config.py:954-965 request_confirm *)
Definition request_confirm (ts : string) (l : list net_request) : list net_request * Z :=
  let id := fresh_id (nr_id <$> l) in
  (l ++ [mkNetRequest id Confirm ts (mkProposal "" "" None None None "" None None None) None "pending" "" None], id).

Definition is_pending (kind : request_kind) (r : net_request) : bool :=
  bool_decide (nr_kind r = kind) && String.eqb (nr_status r) "pending".

(** [ORDER BY id DESC LIMIT 1] *)
Definition newest (l : list net_request) : option net_request :=
  fold_left (λ best r, match best with Some b => if (nr_id b <? nr_id r)%Z then Some r else best | None => Some r end) l None.

Definition result_json (r : res (list (string * json))) : json :=
  match r with Ok fields => JObj fields | Raise e => JObj [("error", JStr (exc_message e))] end.

(** app/network_config.py:968-1012 process_pending_request *)
Definition process_pending_request (env : net_env) (ts : string) (kind : request_kind) (l : list net_request)
    : M (list net_request * option (Z * string * json)) :=
  match newest (List.filter (is_pending kind) l) with
  | None => mret (l, None)
  | Some row =>
      r ← attempt match kind with
          | Apply =>
              a ← apply_change env (nr_payload row) (default ROLLBACK_TIMEOUT_SECONDS (nr_timeout row));
              mret [("backend", JStr (ap_backend a)); ("rollback_unit", JStr (ap_unit a)); ("rollback_deadline", JStr (ap_deadline a))]
          | Confirm => m ← confirm_change env; mret [("message", JStr m)]
          end;
      let status := if is_ok r then "done" else "failed" in
      let result := result_json r in
      let finish (q : net_request) : net_request :=
        if (nr_id q =? nr_id row)%Z then q{{nr_status := status; nr_result := print spaced 0 result; nr_finished := Some ts}}
        else if is_pending kind q then q{{nr_status := "skipped"; nr_finished := Some ts}} else q in
      mret (finish <$> l, Some (nr_id row, status, result))
  end.

(** app/network_config.py:1015-1022 latest_request_result *)
Definition latest_request_result (kind : request_kind) (l : list net_request) : option net_request :=
  newest (List.filter (λ r, bool_decide (nr_kind r = kind)) l).

(** ** After a change *)

(** app/network_config.py:856-861 CONFIG_FILES_TO_AUDIT *)
Definition CONFIG_FILES_TO_AUDIT : list string :=
  ["/etc/bind/named.conf"; "/etc/bind/named.conf.local"; "/etc/bind/named.conf.options"; "/etc/dnsdist/dnsdist.conf"].

(** app/network_config.py:864-879 audit_ip_references *)
Definition audit_ip_references (old_ip : string) : M (list string) :=
  hits ← for_each CONFIG_FILES_TO_AUDIT (λ p, text ← get_file p;
           mret (match text with Some t => if contains old_ip t then [p] else [] | None => [] end));
  mret (concat hits).

(** app/network_config.py:882-891 cert_covers_address *)
Definition cert_covers_address (cert_path address : string) : M (option bool) :=
  there ← exists_ cert_path;
  if negb there || negb (which "openssl") then mret None
  else
    r ← run ["openssl"; "x509"; "-in"; cert_path; "-noout"; "-text"] false;
    mret (if (r.1 =? 0)%Z then Some (contains address r.2) else None).
End host.

(** ** Files a command leaves alone *)

Definition quiet {A} (m : M A) : Prop := writes (λ _, False) (λ _, True) m.

Lemma quiet_files {A} (m : M A) w r w' : quiet m → m w = (r, w') → w_files w' = w_files w.
Proof. intros Hm E. specialize (Hm w). rewrite E in Hm. apply map_eq. intros p. apply (frame_files _ _ _ _ Hm). by intros []. Qed.

Lemma writes_get_file S C p : writes S C (get_file p).
Proof. intros w. apply frame_refl. Qed.

Lemma writes_try_called {A} S C (m : M A) h :
  writes S C m → (∀ e out, writes S C (h e out)) → writes S C (try_called m h).
Proof.
  intros Hm Hh w. specialize (Hm w). unfold try_called.
  destruct (m w) as [[a|e] w1]; [done|]. destruct (String.eqb _ _); [|done]. eapply frame_trans; [exact Hm|apply Hh].
Qed.

Ltac net_frames :=
  repeat first [ progress frames | apply writes_get_file | apply writes_try_called; [|intros ? ?] | done
    | match goal with |- writes _ _ (let '(_, _) := ?x in _) => destruct x end ].

Lemma unlink_missing_writes (S : string → Prop) C p : S p → writes S C (unlink_missing_ok p).
Proof. intros Hp. unfold unlink_missing_ok. net_frames. Qed.
Lemma log_writes (S : string → Prop) C stamp msg : S ROLLBACK_LOG → writes S C (log_rollback_event stamp msg).
Proof. intros Hp. unfold log_rollback_event. net_frames. Qed.
#[export] Hint Resolve unlink_missing_writes log_writes : frames.

Lemma sorted_glob_quiet dir ext : quiet (sorted_glob dir ext).
Proof. unfold quiet, sorted_glob. net_frames. Qed.

Lemma detect_quiet which : quiet (detect_backend which).
Proof. unfold quiet, detect_backend, systemctl_is_active. net_frames. Qed.
Lemma ip_json_quiet args : quiet (ip_json args).
Proof. unfold quiet, ip_json. net_frames. Qed.
#[export] Hint Extern 1 (writes (λ _, False) (λ _, True) (ip_json _)) => apply ip_json_quiet : frames.

Lemma interface_addresses_quiet i : quiet (interface_addresses i).
Proof. unfold quiet, interface_addresses, iterate. net_frames. Qed.
Lemma validate_quiet ip_error p : quiet (validate_proposed ip_error p).
Proof.
  unfold quiet, validate_proposed, validate_family, list_interfaces, all_local_addresses, iterate. net_frames.
Qed.
Lemma validate_interface ip_error p w v w' : validate_proposed ip_error p w = (Ok v, w') → va_interface v = pr_interface p.
Proof.
  unfold validate_proposed. rewrite bind_M. destruct (list_interfaces w) as [[l|] w1]; [|done].
  do 3 (destruct (negb _); [done|]). rewrite bind_M. destruct (validate_family _ _ _ _ _ _ _ w1) as [[v4|] w2]; [|done].
  rewrite bind_M. destruct (validate_family _ _ _ _ _ _ _ w2) as [[v6|] w3]; [|done]. by intros [= <- _].
Qed.
Lemma snapshot_quiet which b i : quiet (snapshot_current which b i).
Proof.
  unfold quiet, snapshot_current, snapshot_paths, snapshot_profile, nm_connection_for_interface, default_gateway, default_route.
  net_frames; try apply sorted_glob_quiet; try apply interface_addresses_quiet.
Qed.
Lemma stage_manager_quiet v : quiet (stage_networkmanager v).
Proof. unfold quiet, stage_networkmanager, nm_connection_for_interface. cbv zeta. net_frames. Qed.
Lemma apply_quiet b v : quiet (apply_via b v).
Proof.
  unfold quiet, apply_via, apply_networkd, apply_netplan, apply_networkmanager, apply_ifupdown. net_frames.
Qed.

(** ** The state file is read back *)

Lemma str_dict_ok l : NoDup l.*1 → dict_ok (str_dict l) = true.
Proof.
  intros Hl. cbn. rewrite <-list_fmap_compose. change (fst ∘ (λ kv : string * string, (kv.1, JStr kv.2))) with (@fst string string).
  rewrite bool_decide_eq_true_2 by done. apply forallb_true. intros kv (x & -> & _)%list_elem_of_fmap. done.
Qed.

Record snapshot_ok (s : snapshot) : Prop := {
  so_files : NoDup (sn_files s).*1; so_profile : NoDup (sn_profile s).*1;
  so_ipv4 : forallb dict_ok (sn_ipv4 s) = true; so_ipv6 : forallb dict_ok (sn_ipv6 s) = true }.

Lemma state_json_ok s : snapshot_ok (ns_snapshot s) → dict_ok (state_json s) = true.
Proof.
  intros [Hf Hp H4 H6]. assert (dict_ok (snapshot_json (ns_snapshot s)) = true) as Hs.
  { pose proof (str_dict_ok _ Hf) as Hfd. pose proof (str_dict_ok _ Hp) as Hpd. unfold snapshot_json.
    revert Hfd Hpd. generalize (str_dict (sn_files (ns_snapshot s))) (str_dict (sn_profile (ns_snapshot s))). intros a b Ha Hb.
    cbn. rewrite Ha, Hb, H4, H6. by destruct (sn_gateway4 _), (sn_gateway6 _). }
  unfold state_json. revert Hs. generalize (snapshot_json (ns_snapshot s)). intros a Hs. cbn. rewrite Hs.
  by destruct (va_ipv4 (ns_proposed s)), (va_ipv6 (ns_proposed s)).
Qed.

Lemma iterate_returns {A} (P : A → Prop) v (f : json → M A) w l w' :
  iterate v f w = (Ok l, w') →
  (∀ x w a w', dict_ok v = true → x ∈ (match py_list v with Ok l => l | _ => [] end) → f x w = (Ok a, w') → P a) →
  dict_ok v = true → Forall P l.
Proof.
  unfold iterate. rewrite bind_M. unfold lift. destruct (py_list v) as [xs|]; [|done]. intros E Hf Hv.
  assert (∀ x w a w', x ∈ xs → f x w = (Ok a, w') → P a) as Hx by (intros; by eapply Hf). clear Hf Hv.
  revert w w' l E. induction xs as [|x xs IH]; intros w w' l E; cbn [for_each] in E.
  { injection E as <- _. constructor. }
  rewrite bind_M in E. destruct (f x w) as [[a|] w1] eqn:E1; [|done]. rewrite bind_M in E.
  destruct (for_each xs f w1) as [[as_|] w2] eqn:E2; [|done]. injection E as <- _. constructor; [by eapply Hx; [left|]|].
  eapply IH; [|exact E2]. intros y ? ? ? Hy. apply Hx. by right.
Qed.

Lemma dict_get_ok v key d x : dict_get v key d = Ok x → dict_ok v = true → dict_ok d = true → dict_ok x = true.
Proof.
  destruct v as [| | | | |fields]; try done. cbn. intros [= <-] [_ Hf]%andb_prop Hd.
  induction fields as [|[k y] fields IH]; [done|]. cbn in Hf |- *. apply andb_prop in Hf as [Hy Hf].
  by destruct (String.eqb k key); [|apply IH].
Qed.

Lemma py_list_ok v x : dict_ok v = true → x ∈ match py_list v with Ok l => l | _ => [] end → dict_ok x = true.
Proof.
  destruct v as [| | |s|l|fields]; cbn; try (by intros _ ?%elem_of_nil).
  - intros _ Hx. induction s as [|c s IH]; cbn in Hx; [by apply elem_of_nil in Hx|].
    apply elem_of_cons in Hx as [->|Hx]; [done|by apply IH].
  - intros Hl Hx. rewrite forallb_true in Hl. by apply Hl.
  - intros _ (k & -> & _)%list_elem_of_fmap. done.
Qed.

Lemma ip_json_ok args w v w' : ip_json args w = (Ok v, w') → dict_ok v = true.
Proof.
  unfold ip_json. rewrite bind_M. destruct (run _ _ w) as [[[code out]|] w1]; [|done]. cbn [fst snd]. intros [= <- _].
  destruct (_ || _); [done|]. destruct (loads out) eqn:E; [|done]. by apply loads_dict_ok in E.
Qed.

(** The steps before a returned value *)
Lemma interface_addresses_ok i w r w' :
  interface_addresses i w = (Ok r, w') → forallb dict_ok r.1 = true ∧ forallb dict_ok r.2 = true.
Proof.
  unfold interface_addresses. intros (v & w1 & Hv%ip_json_ok & (ls & w2 & Hls & E)%bind_inv)%bind_inv. injection E as <- _. cbn.
  set (P := λ p : list json * list json, forallb dict_ok p.1 = true ∧ forallb dict_ok p.2 = true).
  apply (iterate_returns (Forall P)) in Hls; [|clear dependent w w1 w2 ls w'|done].
  - assert (Forall P (concat ls)) as HP by by apply Forall_concat. generalize dependent (concat ls). clear -P. intros l Hl.
    induction Hl as [|p l [H1 H2] Hl [IH1 IH2]]; [done|]. cbn. by rewrite !forallb_app, H1, H2, IH1, IH2.
  - intros entry w l w' _ Hin (infos & w1 & [Hi ->]%lift_inv & E)%bind_inv.
    apply (py_list_ok v entry Hv), (dict_get_ok _ _ _ _ Hi) in Hin; [|done].
    eapply (iterate_returns P); [exact E| |done]. clear -P. intros addr w p w' Hi Ha
      (address & w1 & [H1 ->]%lift_inv & (prefixlen & w2 & [H2 ->]%lift_inv & (family & w3 & [_ ->]%lift_inv &
        (scope & w4 & [_ ->]%lift_inv & E)%bind_inv)%bind_inv)%bind_inv)%bind_inv.
    apply (py_list_ok infos addr Hi) in Ha. pose proof (dict_get_ok _ _ _ _ H1 Ha eq_refl) as H1'.
    pose proof (dict_get_ok _ _ _ _ H2 Ha eq_refl) as H2'. injection E as <- _.
    assert (dict_ok (JObj [("address", address); ("prefixlen", prefixlen)]) = true) as Hf by (cbn; by rewrite H1', H2').
    generalize dependent (JObj [("address", address); ("prefixlen", prefixlen)]). intros f Hf. subst P.
    destruct (is_str _ _); [cbn; by rewrite Hf|]. destruct (_ && _); cbn; by rewrite ?Hf.
Qed.

(** ** The snapshot holds what staging touches *)

(** The configuration: the files under [/etc]. *)
Definition config (p : string) : Prop := starts_with "/etc/" p = true ∧ ends_with "/" p = false.

Definition staged_path (backend interface : string) : option string :=
  if String.eqb backend BACKEND_NETWORKD then Some (networkd_path interface)
  else if String.eqb backend BACKEND_NETPLAN then Some NETPLAN_FILE
  else if String.eqb backend BACKEND_IFUPDOWN then Some (ifupdown_path interface)
  else None.

Lemma sorted_glob_spec dir ext w :
  ∃ l, sorted_glob dir ext w = (Ok l, w) ∧ NoDup l
    ∧ ∀ p, p ∈ l ↔ is_Some (w_files w !! p) ∧ p ≠ dir ∧ starts_with dir p = true ∧ ends_with ext p = true
                    ∧ char_in "/" (sdrop (slen dir) p) = false.
Proof.
  unfold sorted_glob. rewrite bind_M. cbn [glob]. eexists. split; [done|]. split.
  - unfold py_sorted. rewrite merge_sort_Permutation. do 2 (eapply sublist_NoDup; [|apply filterb_sublist]).
    apply NoDup_fst_map_to_list.
  - intros p. rewrite elem_of_py_sorted, !elem_of_filterb, !andb_true_iff, !negb_true_iff, String.eqb_neq.
    assert (p ∈ (map_to_list (w_files w)).*1 ↔ is_Some (w_files w !! p)) as ->; [|naive_solver].
    split.
    + intros ([k t] & -> & Hk%elem_of_map_to_list)%list_elem_of_fmap. by exists t.
    + intros [t Ht]. apply list_elem_of_fmap. exists (p, t). split; [done|]. by apply elem_of_map_to_list.
Qed.

(** A path directly in one of the directories under [/etc] *)
Lemma config_in_dir dir p :
  starts_with "/etc/" dir = true → p ≠ dir → starts_with dir p = true → char_in "/" (sdrop (slen dir) p) = false → config p.
Proof.
  intros Hd Hne (u & ->)%starts_with_spec Hu. rewrite sdrop_app_length in Hu. split.
  - apply starts_with_spec in Hd as (v & ->). rewrite sapp_assoc. apply starts_with_app.
  - apply not_true_iff_false. intros (v & E)%ends_with_spec. destruct u as [|c u]; [by rewrite sapp_nil_r in Hne|].
    assert (slast (dir +:+ String c u) = Some "/"%char) as Hl by (rewrite E; apply slast_snoc).
    rewrite slast_app in Hl by done. destruct (slast_split _ _ Hl) as (x & Ex). rewrite Ex in Hu.
    by rewrite char_in_app, char_in_cons, Ascii.eqb_refl, orb_true_r in Hu.
Qed.

Lemma snapshot_paths_spec backend w :
  ∃ l, snapshot_paths backend w = (Ok l, w) ∧ NoDup l ∧ (∀ p, p ∈ l → is_Some (w_files w !! p) ∧ config p)
    ∧ ∀ interface p, char_in "/" interface = false → is_Some (w_files w !! p) →
        staged_path backend interface = Some p ∨ backend = BACKEND_IFUPDOWN ∧ p = IFUPDOWN_INTERFACES → p ∈ l.
Proof.
  assert (∀ pre i suf, char_in "/" pre = false → char_in "/" suf = false → char_in "/" i = false →
    char_in "/" (pre +:+ i +:+ suf) = false) as Hslash.
  { intros pre i suf H1 H2 H3. by rewrite !char_in_app, H1, H2, H3. }
  assert (∀ dir e, starts_with "/etc/" dir = true → ∃ l, sorted_glob dir e w = (Ok l, w) ∧ NoDup l
    ∧ (∀ p, p ∈ l → is_Some (w_files w !! p) ∧ config p)
    ∧ ∀ u, u ≠ "" → is_Some (w_files w !! (dir +:+ u)) → ends_with e u = true → char_in "/" u = false → dir +:+ u ∈ l) as Hglob.
  { intros dir e Hd. destruct (sorted_glob_spec dir e w) as (l & -> & Hnd & Hl). exists l. do 2 (split; [done|]). split.
    - intros p (Hp & Hne & H1 & _ & H3)%Hl. split; [done|]. by apply (config_in_dir dir).
    - intros u Hu Hp He Hc. apply Hl. split_and!; [done| |apply starts_with_app| |by rewrite sdrop_app_length].
      + intros E. apply (f_equal slen) in E. rewrite slen_app in E. destruct u; [done|]. cbn in E. lia.
      + apply ends_with_spec in He as (v & ->). rewrite <-sapp_assoc. apply ends_with_app. }
  unfold snapshot_paths, staged_path.
  destruct (String.eqb_spec backend BACKEND_NETWORKD) as [->|].
  { destruct (Hglob NETWORKD_DROPIN_DIR ".network" eq_refl) as (l & -> & ? & ? & Hl). exists l. do 3 (split; [done|]).
    intros i p Hi Hp [[= <-]|[? ?]]; [|done]. apply Hl; [done|exact Hp| |by apply (Hslash "90-alderpointdns-")].
    apply ends_with_spec. exists ("90-alderpointdns-" +:+ i). by rewrite sapp_assoc. }
  destruct (String.eqb_spec backend BACKEND_NETPLAN) as [->|].
  { destruct (Hglob NETPLAN_DIR ".yaml" eq_refl) as (l & -> & ? & ? & Hl). exists l. do 3 (split; [done|]).
    intros i p Hi Hp [[= <-]|[? ?]]; [|done]. by apply Hl. }
  destruct (String.eqb_spec backend BACKEND_IFUPDOWN) as [->|].
  { destruct (Hglob IFUPDOWN_DROPIN_DIR "" eq_refl) as (l & E & Hnd & Hin & Hl). rewrite bind_M. cbn [exists_]. rewrite bind_M, E.
    eexists. split; [done|].
    assert (is_Some (w_files w !! IFUPDOWN_INTERFACES) → IFUPDOWN_INTERFACES ∉ l) as Hmain.
    { intros _ Hm. clear -Hm E. destruct (sorted_glob_spec IFUPDOWN_DROPIN_DIR "" w) as (l' & E' & _ & Hl').
      rewrite E in E'. injection E' as <-. apply Hl' in Hm as (_ & _ & Hm & _). by vm_compute in Hm. }
    destruct (decide (is_Some (w_files w !! IFUPDOWN_INTERFACES))) as [Hs|Hs].
    - rewrite bool_decide_eq_true_2 by done. split; [apply NoDup_cons; auto|]. split.
      + intros p [->|Hp]%elem_of_cons; [by split|by apply Hin].
      + intros i p Hi Hp [[= <-]|[_ ->]]; [right|left]. apply Hl; [done|exact Hp| |by apply (Hslash "90-alderpointdns-")].
        apply ends_with_spec. by eexists; rewrite sapp_nil_r.
    - rewrite bool_decide_eq_false_2 by done. split; [done|]. split; [done|].
      intros i p Hi Hp [[= <-]|[_ ->]]; [|done]. apply Hl; [done|exact Hp| |by apply (Hslash "90-alderpointdns-")].
      apply ends_with_spec. by eexists; rewrite sapp_nil_r. }
  exists []. split; [done|]. split; [constructor|]. split; [by intros p ?%elem_of_nil|].
  by intros i p _ _ [?|[? ?]].
Qed.

Lemma read_all_spec paths w :
  (∀ p, p ∈ paths → is_Some (w_files w !! p)) →
  ∃ files, for_each paths (λ p, t ← read_text p; mret (p, t)) w = (Ok files, w)
    ∧ files.*1 = paths ∧ ∀ p t, (p, t) ∈ files → w_files w !! p = Some t.
Proof.
  induction paths as [|p paths IH]; intros Hp.
  { exists []. split; [done|]. split; [done|]. by intros ? ? ?%elem_of_nil. }
  destruct (Hp p) as [t Ht]; [left|]. destruct IH as (files & E & Hk & Hf); [intros q Hq; apply Hp; by right|].
  exists ((p, t) :: files). cbn [for_each]. rewrite bind_M, bind_M. unfold read_text at 1. rewrite Ht.
  unfold mret at 1, M_ret at 1. cbv beta iota. rewrite bind_M, E.
  split; [done|]. split; [cbn; by rewrite Hk|]. intros q u [[= -> ->]|Hq]%elem_of_cons; [done|by apply Hf].
Qed.

Lemma profile_NoDup which b i w l w' : snapshot_profile which b i w = (Ok l, w') → NoDup l.*1.
Proof.
  unfold snapshot_profile. destruct (_ && _); [|intros [= <- _]; constructor].
  intros (found & w1 & _ & E)%bind_inv. destruct found as [conn|]; [|injection E as <- _; constructor].
  destruct (String.eqb conn ""); [injection E as <- _; constructor|].
  apply bind_inv in E as (props & w2 & Hp & E). injection E as <- _.
  assert (props.*1 = nm_properties) as Hk; [|rewrite fmap_app, Hk; by apply (bool_decide_unpack _); vm_compute].
  clear w'. revert w1 props Hp. generalize nm_properties. induction l as [|x l IH]; intros w1 props Hp.
  { by injection Hp as <- _. }
  cbn [for_each] in Hp. apply bind_inv in Hp as (y & w3 & Hy & (ys & w4 & Hys & E)%bind_inv). injection E as <- ->.
  apply bind_inv in Hy as (r & w5 & _ & Hy). injection Hy as <- _. cbn. f_equal. by eapply IH.
Qed.

(** What a snapshot of [w] for an interface holds. *)
Record snapshot_of (b i : string) (w : world) (s : snapshot) : Prop := {
  sf_ok : snapshot_ok s;
  sf_config : ∀ p, p ∈ (sn_files s).*1 → config p;
  sf_value : ∀ p t, (p, t) ∈ sn_files s → w_files w !! p = Some t;
  sf_staged : ∀ p, is_Some (w_files w !! p) →
    staged_path b i = Some p ∨ b = BACKEND_IFUPDOWN ∧ p = IFUPDOWN_INTERFACES → p ∈ (sn_files s).*1 }.

Lemma snapshot_current_spec which b i w s w' :
  char_in "/" i = false → snapshot_current which b i w = (Ok s, w') → snapshot_of b i w s ∧ w_files w' = w_files w.
Proof.
  intros Hi E. split; [|by eapply quiet_files; [apply snapshot_quiet|]].
  unfold snapshot_current in E. apply bind_inv in E as (paths & w1 & Hp & E).
  destruct (snapshot_paths_spec b w) as (l & Hl & Hnd & Hsome & Hst). rewrite Hl in Hp. injection Hp as <- <-.
  apply bind_inv in E as (files & w1 & Hf & E).
  destruct (read_all_spec l w) as (files' & Hf' & Hk & Hv); [by intros p [? _]%Hsome|]. rewrite Hf' in Hf. injection Hf as <- <-.
  apply bind_inv in E as (profile & w1 & Hpr%profile_NoDup & (a4 & w2 & H4%interface_addresses_ok & (a6 & w3 & H6%interface_addresses_ok
    & (g4 & w4 & _ & (g6 & w5 & _ & E)%bind_inv)%bind_inv)%bind_inv)%bind_inv). injection E as <- _.
  split; cbn.
  - split; cbn; [by rewrite Hk|done|apply H4|apply H6].
  - rewrite Hk. by intros p [_ ?]%Hsome.
  - done.
  - rewrite Hk. intros p Hp. by apply Hst.
Qed.

(** ** The rollback restores it *)

Definition restored (s : net_state) (f : gmap string string) : gmap string string :=
  list_to_map (sn_files (ns_snapshot s))
  ∪ match staged_path (ns_backend s) (ns_interface s) with Some p => delete p f | None => f end.

Lemma restored_lookup s f p :
  NoDup (sn_files (ns_snapshot s)).*1 →
  (∃ t, (p, t) ∈ sn_files (ns_snapshot s) ∧ restored s f !! p = Some t)
  ∨ p ∉ (sn_files (ns_snapshot s)).*1
    ∧ restored s f !! p = if decide (staged_path (ns_backend s) (ns_interface s) = Some p) then None else f !! p.
Proof.
  intros Hnd. unfold restored. destruct (decide (p ∈ (sn_files (ns_snapshot s)).*1)) as [Hp|Hp].
  - left. apply list_elem_of_fmap in Hp as ([q t] & -> & Hp). exists t. split; [done|].
    apply lookup_union_Some_l. by apply elem_of_list_to_map_1.
  - right. split; [done|]. rewrite lookup_union_r by by apply not_elem_of_list_to_map_1.
    destruct (staged_path _ _) as [q|]; [|by rewrite decide_False]. destruct (decide _) as [[= ->]|Hne].
    + apply lookup_delete_eq.
    + apply lookup_delete_ne. congruence.
Qed.

Lemma restored_idem s f p : NoDup (sn_files (ns_snapshot s)).*1 → restored s (restored s f) !! p = restored s f !! p.
Proof.
  intros Hnd. destruct (restored_lookup s f p Hnd) as [(t & Hp & ->)|[Hp E]], (restored_lookup s (restored s f) p Hnd) as [(t' & Hp' & ->)|[Hp' ->]].
  - f_equal. apply elem_of_list_to_map in Hp, Hp'; [|done..]. congruence.
  - destruct Hp'. by apply (list_elem_of_fmap_2 fst) in Hp.
  - destruct Hp. by apply (list_elem_of_fmap_2 fst) in Hp'.
  - rewrite E. by destruct (decide _).
Qed.

Lemma restored_ext s f g p : NoDup (sn_files (ns_snapshot s)).*1 → f !! p = g !! p → restored s f !! p = restored s g !! p.
Proof.
  intros Hnd Hfg. destruct (restored_lookup s f p Hnd) as [(t & Hp & ->)|[Hp ->]], (restored_lookup s g p Hnd) as [(t' & Hp' & ->)|[Hp' ->]].
  - f_equal. apply elem_of_list_to_map in Hp, Hp'; [|done..]. congruence.
  - destruct Hp'. by apply (list_elem_of_fmap_2 fst) in Hp.
  - destruct Hp. by apply (list_elem_of_fmap_2 fst) in Hp'.
  - by destruct (decide _).
Qed.

Lemma stage_via_spec yaml b v w r w' :
  stage_via yaml b v w = (r, w') →
  (∀ e, r = Raise e → w_files w' = w_files w)
  ∧ ∀ p, config p → staged_path b (va_interface v) ≠ Some p → ¬ (b = BACKEND_IFUPDOWN ∧ p = IFUPDOWN_INTERFACES ∧ is_Some (w_files w !! p)) →
      w_files w' !! p = w_files w !! p.
Proof.
  intros E. assert (∀ d p, config p → ends_with "/" d = true → p ≠ d) as Hdir by (intros d p [_ Hp] Hd ->; congruence).
  assert (∀ d p t w, ends_with "/" d = true → ∃ w', (_ ← mkdir d; write_text p t) w = (Ok (), w')
    ∧ (∀ q, config q → q ≠ p → w_files w' !! q = w_files w !! q) ∧ w_files w' !! p = Some t) as Hput.
  { intros d p t [f lg an] Hd. eexists. split; [done|]. cbn. split; [|by rewrite lookup_insert_eq].
    intros q Hq Hp. rewrite lookup_insert_ne by done. destruct (f !! d); [done|]. rewrite lookup_insert_ne; [done|].
    intros ->. by apply (Hdir q q). }
  unfold stage_via, staged_path in *.
  destruct (String.eqb b BACKEND_NETWORKD).
  { unfold stage_networkd in E. edestruct Hput as (w2 & E2 & Hf & _); [|rewrite E2 in E]; [done|]. injection E as <- <-.
    split; [done|]. intros p Hp Hne _. apply Hf; congruence. }
  destruct (String.eqb b BACKEND_NETPLAN).
  { unfold stage_netplan in E. edestruct Hput as (w2 & E2 & Hf & _); [|rewrite E2 in E]; [done|]. injection E as <- <-.
    split; [done|]. intros p Hp Hne _. apply Hf; congruence. }
  destruct (String.eqb b BACKEND_NETWORKMANAGER).
  { assert (w_files w' = w_files w) as Hq.
    { eapply (quiet_files _ w r w'); [|exact E]. apply writes_bind; [apply stage_manager_quiet|]. intros ?. apply writes_ret. }
    split; [done|]. by rewrite Hq. }
  destruct (String.eqb_spec b BACKEND_IFUPDOWN) as [->|].
  { unfold stage_ifupdown in E.
    destruct (Hput IFUPDOWN_DROPIN_DIR (ifupdown_path (va_interface v)) (ifupdown_text v) w eq_refl) as (w2 & E2 & Hf & _).
    rewrite bind_M in E. rewrite bind_M in E2. destruct (mkdir _ w) as [[[]|] w1]; [|done].
    rewrite bind_M, E2, bind_M in E. cbn [get_file] in E.
    assert (config IFUPDOWN_INTERFACES) as Hmc by done.
    assert (∀ p, config p → Some (ifupdown_path (va_interface v)) ≠ Some p → w_files w2 !! p = w_files w !! p) as Hf'
      by (intros p Hp Hne; apply Hf; congruence).
    destruct (w_files w2 !! IFUPDOWN_INTERFACES) as [text|] eqn:Em; [|by injection E as <- <-; split; [|auto]].
    destruct (_ || _); injection E as <- <-; (split; [done|]); intros p Hp Hne Hmain; [by apply Hf'|].
    destruct (decide (p = IFUPDOWN_INTERFACES)) as [->|Hpm].
    - destruct Hmain. do 2 (split; [done|]). rewrite <-Hf' by done. eauto.
    - destruct w2. cbn. rewrite lookup_insert_ne by done. by apply Hf'. }
  injection E as <- <-. done.
Qed.

(** Undoing what was staged gives the configuration back. *)
Lemma restored_staged yaml v w r w1 s f p :
  snapshot_of (ns_backend s) (ns_interface s) w (ns_snapshot s) → va_interface v = ns_interface s →
  stage_via yaml (ns_backend s) v w = (r, w1) → config p → f !! p = w_files w1 !! p → restored s f !! p = w_files w !! p.
Proof.
  intros [[Hnd _ _ _] Hc Hv Hs] Hi E Hp Hf. apply stage_via_spec in E as [_ Hst]. rewrite Hi in Hst.
  destruct (restored_lookup s f p Hnd) as [(t & Ht & ->)|[Hnp ->]]; [by rewrite (Hv _ _ Ht)|].
  destruct (decide _) as [Hd|Hd].
  - destruct (w_files w !! p) eqn:Ew; [|done]. destruct Hnp. apply Hs; eauto.
  - rewrite Hf. apply Hst; [done..|]. intros (Hb & -> & Hsome). destruct Hnp. apply Hs; auto.
Qed.

(** ** Running the rollback *)

Lemma write_all files w :
  NoDup files.*1 →
  ∃ l, for_each ((λ kv : string * string, (kv.1, JStr kv.2)) <$> files)
         (λ kv : string * json, match kv.2 with JStr text => write_text kv.1 text | _ => raise (TypeError "data must be str") end) w
       = (Ok l, w{{w_files := list_to_map files ∪ w_files w}}).
Proof.
  revert w. induction files as [|[p t] files IH]; intros w Hnd.
  { exists []. cbn. rewrite (left_id_L ∅ (∪)). by destruct w. }
  apply NoDup_cons in Hnd as [Hp Hnd]. destruct (IH (w{{w_files ::= <[p := t]>}}) Hnd) as [l E]. exists (() :: l).
  cbn [fmap list_fmap for_each fst snd]. rewrite bind_M. unfold write_text at 1. rewrite bind_M, E. destruct w as [f lg an]. cbn.
  unfold mret, M_ret. do 2 f_equal. rewrite <-insert_union_r, insert_union_l; [done|]. by apply not_elem_of_list_to_map_1.
Qed.

Lemma unlink_missing_run p w : unlink_missing_ok p w = (Ok (), w{{w_files ::= delete p}}).
Proof.
  unfold unlink_missing_ok. rewrite bind_M. cbn [exists_]. destruct w as [f lg an]. cbn. destruct (f !! p) as [t|] eqn:E.
  - rewrite bool_decide_eq_true_2 by eauto. cbn. unfold unlink. cbn. by rewrite E.
  - rewrite bool_decide_eq_false_2 by by intros [? ?]. cbn. unfold mret, M_ret. by rewrite delete_id.
Qed.

Lemma remove_staged_run p files f lg an :
  remove_staged p ((λ kv : string * string, (kv.1, JStr kv.2)) <$> files) (mkWorld (list_to_map files ∪ f) lg an)
  = (Ok (), mkWorld (list_to_map files ∪ delete p f) lg an).
Proof.
  unfold remove_staged. rewrite <-list_fmap_compose.
  change (fst ∘ (λ kv : string * string, (kv.1, JStr kv.2))) with (@fst string string).
  destruct (existsb _ _) eqn:Ex.
  - apply existsb_true in Ex as (q & Hq & <-%String.eqb_eq). unfold mret, M_ret. do 2 f_equal. apply map_eq. intros k.
    destruct (decide (k = p)) as [->|Hk].
    + assert (is_Some (@list_to_map _ _ (gmap string string) _ _ files !! p)) as [t Ht].
      { destruct (list_to_map files !! p) eqn:E; [by eexists|]. by apply not_elem_of_list_to_map_2 in E. }
      by rewrite !(lookup_union_Some_l _ _ _ _ Ht).
    + rewrite !lookup_union. by rewrite lookup_delete_ne.
  - rewrite unlink_missing_run. cbn. do 2 f_equal. rewrite delete_union, delete_id; [done|].
    apply not_elem_of_list_to_map_1. intros Hp. rewrite existsb_false in Ex. specialize (Ex p Hp). by rewrite String.eqb_refl in Ex.
Qed.

Lemma reapply_writes env b name snap :
  writes (λ p, p = ROLLBACK_LOG) (λ _, True) (try_called
    (if is_str BACKEND_NETWORKD b then apply_networkd name
     else if is_str BACKEND_NETPLAN b then apply_netplan
     else if is_str BACKEND_NETWORKMANAGER b then restore_profile snap
     else if is_str BACKEND_IFUPDOWN b then apply_ifupdown name
     else mret ())
    (λ exc _, log_rollback_event (ne_log2 env)
      ("ERROR: rollback re-apply for " +:+ name +:+ " via " +:+ py_str b +:+ " failed: " +:+ exc_message exc))).
Proof.
  apply writes_try_called; [|intros ? ?; by apply log_writes].
  unfold apply_networkd, apply_netplan, restore_profile, apply_networkmanager, apply_ifupdown. net_frames.
Qed.

Lemma not_config_log p : config p → p ≠ ROLLBACK_LOG ∧ p ≠ ROLLBACK_STATE_FILE ∧ p ≠ STATE_TMP ∧ p ≠ STATE_DIR.
Proof. intros [Hp _]. split_and!; intros ->; by vm_compute in Hp. Qed.

Lemma log_run stamp msg w : ∃ t, log_rollback_event stamp msg w = (Ok (), w{{w_files ::= <[ROLLBACK_LOG := t]>}}).
Proof. unfold log_rollback_event. rewrite bind_M. cbn [get_file]. by eexists. Qed.

Lemma frame_lookup S C w w' : frame S C w w' → ∀ p, ¬ S p → w_files w' !! p = w_files w !! p.
Proof. by intros []. Qed.

Lemma rollback_run env s w r w' :
  NoDup (sn_files (ns_snapshot s)).*1 → (∀ p, p ∈ (sn_files (ns_snapshot s)).*1 → config p) →
  perform_rollback env (state_json s) w = (r, w') →
  (∀ p, config p → w_files w' !! p = restored s (w_files w) !! p)
  ∧ match r with
    | Ok _ => w_files w' !! ROLLBACK_STATE_FILE = None
    | Raise _ => w_files w' !! ROLLBACK_STATE_FILE = w_files w !! ROLLBACK_STATE_FILE
    end.
Proof.
  intros Hnd Hcfg E. unfold perform_rollback in E.
  rewrite bind_M in E. change (lift (item (state_json s) "backend") w) with (@Ok json (JStr (ns_backend s)), w) in E. cbv beta iota in E.
  rewrite bind_M in E. change (lift (item (state_json s) "interface") w) with (@Ok json (JStr (ns_interface s)), w) in E. cbv beta iota in E.
  rewrite bind_M in E. change (lift (item (state_json s) "snapshot") w) with (@Ok json (snapshot_json (ns_snapshot s)), w) in E. cbv beta iota zeta in E.
  rewrite bind_M in E. change (lift (dict_get (snapshot_json (ns_snapshot s)) "files" (JObj [])) w) with (@Ok json (str_dict (sn_files (ns_snapshot s))), w) in E.
  cbv beta iota in E. rewrite bind_M in E. unfold str_dict at 1 in E. unfold lift at 1 in E.
  rewrite bind_M in E. destruct (write_all _ w Hnd) as [l El]. rewrite El in E. clear El. cbn [py_str] in E.
  rewrite bind_M in E.
  assert (∀ b v, is_str b (JStr v) = String.eqb v b) as Heq by (intros; apply String.eqb_sym).
  assert (∀ p, staged_path (ns_backend s) (ns_interface s) = Some p →
    remove_staged p ((λ kv : string * string, (kv.1, JStr kv.2)) <$> sn_files (ns_snapshot s))
      (w{{w_files := list_to_map (sn_files (ns_snapshot s)) ∪ w_files w}}) = (Ok (), w{{w_files := restored s (w_files w)}})) as Hrm.
  { intros p Hp. unfold restored. rewrite Hp. destruct w. apply remove_staged_run. }
  pose proof (reapply_writes env (JStr (ns_backend s)) (ns_interface s) (snapshot_json (ns_snapshot s))
    (w{{w_files := restored s (w_files w)}})) as Hre.
  match type of E with context [let (r, w) := ?m ?w0 in _] => assert (m w0 = (Ok (), w{{w_files := restored s (w_files w)}})) as Hm end.
  { rewrite !Heq. unfold staged_path in Hrm. destruct (String.eqb (ns_backend s) BACKEND_NETWORKD) eqn:B1; [by apply Hrm|].
    destruct (String.eqb (ns_backend s) BACKEND_NETPLAN) eqn:B2; [by apply Hrm|].
    destruct (String.eqb (ns_backend s) BACKEND_IFUPDOWN) eqn:B3; [by apply Hrm|].
    unfold restored, staged_path. by rewrite B1, B2, B3. }
  rewrite Hm in E. clear Hm Hrm. rewrite bind_M in E. cbn [py_str] in Hre.
  destruct (try_called _ _ _) as [[[]|e] w2]; cbn [snd] in Hre; pose proof (frame_lookup _ _ _ _ Hre) as Hf; clear Hre; rename Hf into Hre.
  - rewrite bind_M in E. unfold lift at 1 in E. change (dict_get (state_json s) "rollback_deadline" JNull) with (@Ok json (JStr (ns_deadline s))) in E.
    cbv beta iota in E. rewrite bind_M in E. match type of E with context [log_rollback_event ?a ?m w2] => destruct (log_run a m w2) as [t Ht]; rewrite Ht in E end.
    rewrite unlink_missing_run in E. injection E as <- <-. destruct w2 as [f lg an], w as [f0 lg0 an0]. cbn in Hre |- *.
    split; [|by rewrite lookup_delete_eq]. intros p Hp. destruct (not_config_log p Hp) as (H1 & H2 & _).
    rewrite lookup_delete_ne, lookup_insert_ne by done. by apply Hre.
  - injection E as <- <-. destruct w as [f0 lg0 an0]. cbn in Hre |- *. split.
    + intros p Hp. destruct (not_config_log p Hp) as (H1 & _). by apply Hre.
    + rewrite Hre by done. unfold restored. rewrite lookup_union_r.
      * destruct (staged_path _ _) as [q|] eqn:Eq; [|done]. apply lookup_delete_ne. intros ->. unfold staged_path in Eq.
        revert Eq. repeat (case_match; [intros [= E]; by vm_compute in E|]). done.
      * apply not_elem_of_list_to_map_1. intros Hin%Hcfg. by apply not_config_log in Hin as (_ & ? & _).
Qed.

(** ** Histories

    What can happen to the configuration: the administrator applies a change or confirms it,
    and the watchdog fires, in any order and any number of times. *)
Inductive net_event :=
| EvApply (env : net_env) (p : proposal) (timeout : Z)
| EvConfirm (env : net_env)
| EvWatchdog (env : net_env).

Section histories.
Context (which : string → bool) (yaml : option (json → string)) (ip_error : string → string).

(** The files after an event, and the configuration confirmed last. *)
Definition net_step (s : world * gmap string string) (e : net_event) : world * gmap string string :=
  match e with
  | EvApply env p timeout => ((apply_change which yaml ip_error env p timeout s.1).2, s.2)
  | EvConfirm env =>
      match confirm_change env s.1 with (Ok _, w) => (w, w_files w) | (Raise _, w) => (w, s.2) end
  | EvWatchdog env => ((rollback_check env s.1).2, s.2)
  end.

Definition net_history (s : world * gmap string string) (es : list net_event) : world * gmap string string := fold_left net_step es s.

(** No name of an interface has a slash in it. *)
Definition event_ok (e : net_event) : Prop :=
  match e with EvApply _ p _ => char_in "/" (pr_interface p) = false | _ => True end.

(** Every [systemd-run] that was run succeeded. *)
Definition timers_work (w : world) : Prop :=
  ∀ k cmd, w_log w !! k = Some ("systemd-run" :: cmd) → ∃ out, w_answers w k = Exited 0 out.

(** Either nothing is pending and the configuration is the confirmed one, or the pending
    change's rollback gives it back. *)
Definition same_config (f g : gmap string string) : Prop := ∀ p, config p → f !! p = g !! p.

Record pending (s : net_state) (w : world) (c : gmap string string) : Prop := {
  pe_file : ∃ text, w_files w !! ROLLBACK_STATE_FILE = Some text ∧ loads text = Some (state_json s);
  pe_open : ns_confirmed s = false;
  pe_keys : NoDup (sn_files (ns_snapshot s)).*1;
  pe_config : ∀ p, p ∈ (sn_files (ns_snapshot s)).*1 → config p;
  pe_restores : same_config (restored s (w_files w)) c }.

Definition recoverable (w : world) (c : gmap string string) : Prop :=
  w_files w !! ROLLBACK_STATE_FILE = None ∧ same_config (w_files w) c ∨ ∃ s, pending s w c.

Lemma recoverable_same w w' c :
  recoverable w c → (∀ p, config p ∨ p = ROLLBACK_STATE_FILE → w_files w' !! p = w_files w !! p) → recoverable w' c.
Proof.
  intros [[Hs Hc]|(s & [Hf Ho Hk Hcf Hr])] Hw.
  - left. rewrite Hw by auto. split; [done|]. intros p Hp. rewrite Hw by auto. by apply Hc.
  - right. exists s. split; [rewrite Hw by auto; done|done..|].
    intros p Hp. rewrite <-(Hr p Hp). apply restored_ext; [done|]. apply Hw. auto.
Qed.

Lemma recoverable_files w w' c : recoverable w c → w_files w' = w_files w → recoverable w' c.
Proof. intros Hr Hw. apply (recoverable_same w); [done|]. by rewrite Hw. Qed.

Lemma read_pending s w c : pending s w c → read_rollback_state w = (Ok (Some (state_json s)), w).
Proof.
  intros [(text & Ht & Hl) _ _ _ _]. unfold read_rollback_state. rewrite bind_M. cbn [get_file]. rewrite Ht.
  unfold mret, M_ret. cbn [mbind option_bind]. by rewrite Hl.
Qed.

Lemma read_none w : w_files w !! ROLLBACK_STATE_FILE = None → read_rollback_state w = (Ok None, w).
Proof. intros Hs. unfold read_rollback_state. rewrite bind_M. cbn [get_file]. by rewrite Hs. Qed.

(** A rollback ends with the confirmed configuration; nothing is pending when it returns. *)
Lemma rollback_pending env s w c r w' :
  pending s w c → perform_rollback env (state_json s) w = (r, w') → same_config (w_files w') c ∧ recoverable w' c.
Proof.
  intros [Hf Ho Hk Hcf Hr] E. destruct (rollback_run env s w r w' Hk Hcf E) as [Hc Hs].
  assert (same_config (w_files w') c) as Hsame by (intros p Hp; by rewrite Hc, Hr). split; [done|].
  destruct r as [u|e]; [by left|]. right. exists s. split; [by rewrite Hs|done..|].
  intros p Hp. rewrite <-Hr by done. rewrite (restored_ext s _ (restored s (w_files w)) p Hk) by by apply Hc. by apply restored_idem.
Qed.

Lemma watchdog_step env w c :
  recoverable w c → recoverable (rollback_check env w).2 c ∧ same_config (w_files (rollback_check env w).2) c.
Proof.
  intros [[Hs Hc]|(s & Hp)].
  { unfold rollback_check. rewrite bind_M, read_none by done. split; [by left|done]. }
  destruct (perform_rollback env (state_json s) w) as [r w'] eqn:E.
  assert ((rollback_check env w).2 = w') as ->.
  { unfold rollback_check. rewrite bind_M, (read_pending s w c Hp), bind_M. unfold lift at 1.
    change (dict_get (state_json s) "confirmed" JNull) with (@Ok json (JBool (ns_confirmed s))). cbv beta iota.
    rewrite (pe_open _ _ _ Hp). cbn [py_bool]. rewrite bind_M, E. by destruct r. }
  split; by eapply rollback_pending.
Qed.

Lemma confirm_step env w c :
  recoverable w c →
  match confirm_change env w with (Ok _, w') => recoverable w' (w_files w') | (Raise _, w') => recoverable w' c end.
Proof.
  intros Hrec. pose proof Hrec as [[Hs Hc]|(s & Hp)]; unfold confirm_change; rewrite bind_M.
  { by rewrite read_none by done. }
  rewrite (read_pending s w c Hp). rewrite bind_M. unfold lift at 1.
  change (dict_get (state_json s) "rollback_unit" JNull) with (@Ok json (JStr (ns_unit s))). cbv beta iota.
  rewrite bind_M. match goal with |- context [let (r, w) := ?m w in _] => assert (quiet m) as Hq; [|destruct (m w) as [[[]|e] w1] eqn:E] end.
  { unfold quiet, cancel_rollback_timer. net_frames. }
  - rewrite bind_M, unlink_missing_run, bind_M. unfold lift at 1.
    change (item (state_json s) "interface") with (@Ok json (JStr (ns_interface s))). cbv beta iota.
    rewrite bind_M. unfold lift at 1. change (item (state_json s) "backend") with (@Ok json (JStr (ns_backend s))). cbv beta iota.
    rewrite bind_M. match goal with |- context [log_rollback_event ?a ?m ?w] => destruct (log_run a m w) as [t ->] end.
    cbv beta iota. unfold mret, M_ret. left. split; [|done]. destruct w1 as [f lg an]. cbn.
    rewrite lookup_insert_ne by done. apply lookup_delete_eq.
  - apply (recoverable_files w); [done|]. by eapply quiet_files.
Qed.

(** *** The change *)

Lemma write_state_run s w :
  ∃ w', write_state_file s w = (Ok (), w') ∧ w_files w' !! ROLLBACK_STATE_FILE = Some (print indented 0 (state_json s))
    ∧ (∀ p, config p → w_files w' !! p = w_files w !! p) ∧ w_log w' = w_log w ∧ w_answers w' = w_answers w.
Proof.
  unfold write_state_file. rewrite bind_M. destruct (mkdir STATE_DIR w) as [r w1] eqn:E.
  assert (r = Ok () ∧ w_log w1 = w_log w ∧ w_answers w1 = w_answers w ∧ ∀ p, p ≠ STATE_DIR → w_files w1 !! p = w_files w !! p)
    as (-> & Hl & Ha & Hf).
  { destruct w as [f lg an]. injection E as <- <-. do 3 (split; [done|]). intros p Hp. cbn.
    destruct (f !! STATE_DIR); [done|]. by rewrite lookup_insert_ne. }
  rewrite bind_M. unfold write_text at 1. destruct w1 as [f lg an]. cbn in *.
  rewrite (replace_run _ _ _ (print indented 0 (state_json s))) by (cbn; by rewrite lookup_insert_eq).
  eexists. split; [done|]. cbn. split; [by rewrite lookup_insert_eq|]. split; [|done].
  intros p Hp. destruct (not_config_log p Hp) as (_ & H1 & H2 & H3).
  rewrite lookup_insert_ne, lookup_delete_ne, lookup_insert_ne by done. by apply Hf.
Qed.

Lemma schedule_run env timeout w r w' :
  schedule_rollback_timer env timeout w = (r, w') →
  w_files w' = w_files w ∧ ∀ e, r = Raise e → ∃ cmd, last (w_log w') = Some ("systemd-run" :: cmd)
    ∧ ∀ out, w_answers w' (pred (length (w_log w'))) ≠ Exited 0 out.
Proof.
  unfold schedule_rollback_timer. set (cmd := "systemd-run" :: _). rewrite bind_M.
  pose proof (run_log cmd true w) as Hl. destruct (run_ cmd true w) as [[[]|e] w1] eqn:E; cbn [snd] in Hl; intros [= <- <-].
  - subst w1. by destruct w.
  - split; [subst w1; by destruct w|]. intros e' _. eexists. subst w1. destruct w as [f lg an]. cbn. rewrite last_snoc. split; [done|].
    intros out Hout. rewrite length_app, Nat.add_1_r in Hout. cbn in Hout.
    unfold run_, run in E. rewrite bind_M in E. cbn [w_log w_answers w_files] in E. by rewrite Hout in E.
Qed.

Definition any (_ : string) : Prop := True.
Lemma frame_any {A} (m : M A) w : writes any (λ _, True) m → w_answers (m w).2 = w_answers w ∧ ∃ l, w_log (m w).2 = w_log w ++ l.
Proof. intros Hm. destruct (Hm w) as [_ Ha (l & Hl & _)]. eauto. Qed.

Lemma timers_before w w' : w_answers w' = w_answers w → (∃ l, w_log w' = w_log w ++ l) → timers_work w' → timers_work w.
Proof.
  intros Ha (l & Hl) Hw k cmd Hk. rewrite <-Ha. apply (Hw k cmd). rewrite Hl. by apply lookup_app_l_Some.
Qed.

Lemma remove_staged_writes (S : string → Prop) C p files : S p → writes S C (remove_staged p files).
Proof. intros Hp. unfold remove_staged. net_frames. Qed.

#[local] Opaque try_called.
Lemma perform_writes env j : writes any (λ _, True) (perform_rollback env j).
Proof.
  assert (∀ p, any p) as Ha by done. unfold perform_rollback. cbv zeta.
  repeat first [ apply remove_staged_writes; done | progress net_frames
    | apply writes_try_called; [|intros ? ?; by apply log_writes]; unfold apply_networkd, apply_netplan, restore_profile, apply_networkmanager, apply_ifupdown ].
Qed.
#[local] Transparent try_called.

Lemma quiet_any {A} (m : M A) : quiet m → writes any (λ _, True) m.
Proof. intros Hm w. by eapply frame_mono; [| |apply Hm]. Qed.

Lemma after_state env p timeout backend v s c w r w' :
  ns_backend s = backend → pending s w c →
  (_ ← try_called (apply_via backend v) (λ exc stdout,
     _ ← log_rollback_event (ne_log1 env) ("apply failed for " +:+ pr_interface p +:+ " via " +:+ backend
           +:+ ", rolling back immediately: " +:+ exc_message exc);
     _ ← perform_rollback env (state_json s);
     raise (NetworkConfigError ("failed to apply network configuration via " +:+ backend +:+ ": " +:+ stdout)));
   _ ← log_rollback_event (ne_log1 env) ("applied new config for " +:+ pr_interface p +:+ " via " +:+ backend
         +:+ "; rollback armed as " +:+ ns_unit s +:+ ", deadline " +:+ ne_deadline env timeout);
   mret (mkApplied backend (ns_unit s) (ne_deadline env timeout))) w = (r, w') →
  recoverable w' c.
Proof.
  intros Hb Hp. rewrite bind_M. unfold try_called. pose proof (apply_quiet backend v) as Hq.
  assert (∀ w w' t, recoverable w c → w' = w{{w_files ::= <[ROLLBACK_LOG := t]>}} → recoverable w' c) as Hlog.
  { intros x x' t Hx ->. apply (recoverable_same x); [done|]. intros q Hq'. destruct x as [f lg an]. cbn. rewrite lookup_insert_ne; [done|].
    destruct Hq' as [Hq'| ->]; [by apply not_config_log in Hq' as [? _]|done]. }
  assert (recoverable w c) as Hw by (right; by exists s).
  destruct (apply_via backend v w) as [[[]|e] w1] eqn:E; pose proof (quiet_files _ _ _ _ Hq E) as Hf;
    pose proof (recoverable_files _ w1 _ Hw Hf) as Hw1.
  - rewrite bind_M. match goal with |- context [log_rollback_event ?a ?m w1] => destruct (log_run a m w1) as [t ->] end.
    intros [= _ <-]. by eapply Hlog.
  - destruct (String.eqb _ _); [|intros [= _ <-]; done]. rewrite bind_M.
    match goal with |- context [log_rollback_event ?a ?m w1] => destruct (log_run a m w1) as [t ->] end.
    rewrite bind_M. set (w2 := w1{{_ ::= _}}).
    assert (pending s w2 c) as Hp2.
    { assert (∀ q, config q ∨ q = ROLLBACK_STATE_FILE → w_files w2 !! q = w_files w !! q) as Hsame.
      { intros q Hq'. rewrite <-Hf. subst w2. destruct w1. cbn. rewrite lookup_insert_ne; [done|].
        destruct Hq' as [Hq'| ->]; [by apply not_config_log in Hq' as [? _]|done]. }
      destruct Hp as [Hfile Ho Hk Hcf Hr]. split; [rewrite Hsame by auto; done|done..|].
      intros q Hq'. rewrite <-(Hr q Hq'). apply restored_ext; [done|]. apply Hsame. auto. }
    destruct (perform_rollback env (state_json s) w2) as [[[]|e'] w3] eqn:E3; pose proof (rollback_pending _ _ _ _ _ _ Hp2 E3) as [_ H3].
    + by intros [= _ <-].
    + by intros [= _ <-].
Qed.

Lemma apply_step env p timeout w c r w' :
  char_in "/" (pr_interface p) = false → recoverable w c →
  apply_change which yaml ip_error env p timeout w = (r, w') → timers_work w' → recoverable w' c.
Proof.
  intros Hi Hrec E Ht. unfold apply_change in E.
  rewrite bind_M in E. destruct (detect_backend which w) as [[info|e] w1] eqn:E1;
    pose proof (quiet_files _ _ _ _ (detect_quiet which) E1) as F1; [|injection E as <- <-; by eapply recoverable_files].
  cbv zeta in E. destruct (String.eqb _ _); [injection E as <- <-; by eapply recoverable_files|].
  rewrite bind_M in E. destruct (validate_proposed ip_error p w1) as [[v|e] w2] eqn:E2;
    pose proof (quiet_files _ _ _ _ (validate_quiet ip_error p) E2) as F2; [|injection E as <- <-; eapply recoverable_files; [done|congruence]].
  assert (va_interface v = pr_interface p) as Hv by by eapply validate_interface.
  rewrite bind_M in E. cbn [exists_] in E. destruct (bool_decide _) eqn:Hpend;
    [injection E as <- <-; eapply recoverable_files; [done|congruence]|].
  apply bool_decide_eq_false in Hpend.
  assert (recoverable w2 c) as R2 by (eapply recoverable_files; [exact Hrec|congruence]).
  assert (same_config (w_files w2) c) as Hsame.
  { destruct R2 as [[_ Hsame]|(s & [(t & Hf & _) _ _ _ _])]; [done|]. destruct Hpend. by exists t. }
  rewrite bind_M in E. destruct (snapshot_current which (bi_backend info) (pr_interface p) w2) as [[snap|e] w3] eqn:E3;
    [|injection E as <- <-; eapply recoverable_files; [exact R2|]; by eapply quiet_files; [apply snapshot_quiet|]].
  destruct (snapshot_current_spec _ _ _ _ _ _ Hi E3) as [Hsnap F3].
  rewrite bind_M in E. destruct (stage_via yaml (bi_backend info) v w3) as [[[]|e] w4] eqn:E4.
  2: { injection E as <- <-. eapply recoverable_files; [exact R2|]. apply stage_via_spec in E4 as [Hraise _]. by rewrite (Hraise e). }
  rewrite bind_M in E. destruct (schedule_rollback_timer env timeout w4) as [[unit|e] w5] eqn:E5; apply schedule_run in E5 as [F5 Hsched].
  2: { injection E as <- <-. destruct (Hsched e eq_refl) as (cmd & Hl & Hbad). rewrite last_lookup in Hl.
       destruct (Ht _ _ Hl) as [out Hout]. by destruct (Hbad out). }
  cbv zeta in E. set (s := mkNetState _ _ _ _ _ _ _ _) in E. rewrite bind_M in E.
  destruct (write_state_run s w5) as (w6 & E6 & Hfile & F6 & _). rewrite E6 in E.
  eapply (after_state env p timeout (bi_backend info) v s c w6 r w'); [done| |exact E].
  assert (snapshot_of (ns_backend s) (ns_interface s) w3 (ns_snapshot s)) as Hs3.
  { subst s. cbn. destruct Hsnap as [H1 H2 H3 H4]. split; [done|done|by rewrite F3|by rewrite F3]. }
  split; [|done|apply Hs3|apply Hs3|].
  - eexists. split; [exact Hfile|]. apply loads_print; [apply indented_ok|]. apply state_json_ok, Hs3.
  - intros q Hq. rewrite <-Hsame by done. rewrite <-F3. eapply (restored_staged yaml v); [exact Hs3|exact Hv|exact E4|done|].
    rewrite F6 by done. by rewrite F5.
Qed.

#[local] Opaque try_called perform_rollback.
Lemma any_path p : any p.
Proof. done. Qed.
#[local] Hint Resolve any_path : frames.

Lemma apply_any env p timeout : writes any (λ _, True) (apply_change which yaml ip_error env p timeout).
Proof.
  unfold apply_change. apply writes_bind; [apply quiet_any, detect_quiet|]. intros info. cbv zeta.
  destruct (String.eqb _ _); [net_frames|]. apply writes_bind; [apply quiet_any, validate_quiet|]. intros v.
  apply writes_bind; [net_frames|]. intros pending. destruct (pending : bool); [net_frames|].
  apply writes_bind; [apply quiet_any, snapshot_quiet|]. intros snap.
  apply writes_bind. { unfold stage_via, stage_networkd, stage_netplan, stage_ifupdown. net_frames; apply quiet_any, stage_manager_quiet. }
  intros []. apply writes_bind; [unfold schedule_rollback_timer; net_frames|]. intros unit.
  apply writes_bind; [unfold write_state_file; net_frames|]. intros [].
  apply writes_bind; [|intros []; net_frames].
  apply writes_try_called; [apply quiet_any, apply_quiet|]. intros exc out. net_frames. apply perform_writes.
Qed.

Lemma confirm_any env : writes any (λ _, True) (confirm_change env).
Proof. unfold confirm_change, read_rollback_state, cancel_rollback_timer. net_frames. Qed.
Lemma check_any env : writes any (λ _, True) (rollback_check env).
Proof. unfold rollback_check, read_rollback_state. net_frames; apply perform_writes. Qed.
#[local] Transparent try_called perform_rollback.

Lemma net_step_log s e :
  w_answers (net_step s e).1 = w_answers s.1 ∧ ∃ l, w_log (net_step s e).1 = w_log s.1 ++ l.
Proof.
  destruct e as [env p timeout|env|env]; cbn.
  - by apply frame_any, apply_any.
  - pose proof (frame_any _ s.1 (confirm_any env)) as Hf. by destruct (confirm_change env s.1) as [[]  w].
  - by apply frame_any, check_any.
Qed.

Lemma net_history_log s es :
  w_answers (net_history s es).1 = w_answers s.1 ∧ ∃ l, w_log (net_history s es).1 = w_log s.1 ++ l.
Proof.
  revert s. induction es as [|e es IH]; intros s; [split; [done|]; exists []; by rewrite app_nil_r|].
  destruct (IH (net_step s e)) as [Ha (l & Hl)], (net_step_log s e) as [Ha' (l' & Hl')].
  change (net_history s (e :: es)) with (net_history (net_step s e) es).
  split; [by rewrite Ha|]. exists (l' ++ l). by rewrite Hl, Hl', app_assoc.
Qed.

Lemma net_history_recoverable s es :
  recoverable s.1 s.2 → Forall event_ok es → timers_work (net_history s es).1 →
  recoverable (net_history s es).1 (net_history s es).2.
Proof.
  revert s. induction es as [|e es IH]; intros s Hs Hes Ht; [done|]. apply Forall_cons in Hes as [He Hes].
  cbn. apply IH; [|done|exact Ht].
  assert (timers_work (net_step s e).1) as Ht1.
  { destruct (net_history_log (net_step s e) es) as [Ha Hl]. by apply (timers_before _ _ Ha Hl). }
  destruct e as [env p timeout|env|env]; cbn in *.
  - destruct (apply_change which yaml ip_error env p timeout s.1) as [r w'] eqn:E. cbn in *. by eapply apply_step.
  - pose proof (confirm_step env s.1 s.2 Hs) as Hc. by destruct (confirm_change env s.1) as [[]  w].
  - by apply watchdog_step.
Qed.

End histories.

(** *** A history *)

Definition sample_net_env : net_env := mkNetEnv "t0" "1700000000" (λ _, "t120") "t1" "t2" "t3".
Definition sample_proposal : proposal :=
  mkProposal "eth0" "static" (Some "192.0.2.10") (Some 24%Z) (Some "192.0.2.1") "unchanged" None None None.
Definition sample_host : world :=
  mkWorld {[IFUPDOWN_INTERFACES := "auto lo"]} []
    (λ k, Exited 0 (if decide (k = 2) then quoted "[{`ifname`:`lo`},{`ifname`:`eth0`}]" else "")).

