(* ===== verification/FilterSchedule.v ===== *)
(** * The schedule of filter updates

    [app/filter_schedule.py]: the settings table with the interval, the systemd timer it is
    deployed to, the record of the scheduled runs, and the next run as systemd reports it;
    and the timer's entry point in [app/alderpointdns_compiler.py], which runs a deployment. *)

From S2P Require Import Prelude PyStr StrLemmas IpAddr PyJson JsonText JsonRead DomainName World Sources RuleStore PolicyCache Deploy.

(** app/filter_schedule.py:43-45 TIMER_UNIT *)
Definition TIMER_UNIT : string := "alderpointdns-filter-update.timer".
Definition FILTER_TIMER_OVERRIDE_DIR : string := "/etc/systemd/system/alderpointdns-filter-update.timer.d/".
Definition FILTER_TIMER_OVERRIDE : string := FILTER_TIMER_OVERRIDE_DIR +:+ "alderpointdns.conf".

Definition DISABLED : string := "disabled".

(** app/filter_schedule.py:52-59 INTERVAL_CHOICES

    The dash of the first label, which is beyond Latin-1, is written as a hyphen. *)
Definition INTERVAL_CHOICES : list (string * string) :=
  [(DISABLED, "Disabled - No Updates"); ("1", "1 Hour"); ("12", "12 Hours"); ("24", "1 Day"); ("72", "3 Days"); ("168", "1 Week")].
Definition INTERVAL_VALUES : list string := INTERVAL_CHOICES.*1.

(** app/filter_schedule.py:67-67 INTERVAL_HOURS *)
Definition INTERVAL_HOURS : list (string * Z) := [("1", 1%Z); ("12", 12%Z); ("24", 24%Z); ("72", 72%Z); ("168", 168%Z)].
Definition DEFAULT_INTERVAL : string := "24".
Definition MAX_RESULT_CHARS : nat := 500.

(** [d.get(key)] for a dict of constants *)
Fixpoint assoc {A} (key : string) (l : list (string * A)) : option A :=
  match l with [] => None | (k, v) :: l => if String.eqb k key then Some v else assoc key l end.

Definition FilterScheduleError (message : string) : pyexc := PyExc "FilterScheduleError" message.

(** ** Settings *)

Abbreviation settings_table := (gmap string string).

Definition insert_or_ignore (m : settings_table) (kv : string * string) : settings_table :=
  match m !! kv.1 with Some _ => m | None => <[kv.1 := kv.2]> m end.

(** app/filter_schedule.py:71-76 SETTINGS_DEFAULTS *)
Definition SETTINGS_DEFAULTS : list (string * string) :=
  [("interval_hours", DEFAULT_INTERVAL); ("last_attempt", ""); ("last_success", ""); ("last_result", "")].

Definition is_interval (s : string) : bool := existsb (String.eqb s) INTERVAL_VALUES.

(** app/filter_schedule.py:102-134 init_db *)
Definition init_schedule (m : settings_table) : settings_table :=
  let m := fold_left insert_or_ignore SETTINGS_DEFAULTS m in
  match m !! "interval_hours" with
  | Some v => if is_interval v then m else <["interval_hours" := DEFAULT_INTERVAL]> m
  | None => m
  end.

(** app/filter_schedule.py:167-169 _interval_error *)
Definition interval_error : string :=
  "filter update interval must be one of: " +:+ join ", " INTERVAL_CHOICES.*2.

(** app/filter_schedule.py:148-164 validate_interval *)
Definition validate_interval (raw : json) : res string :=
  candidate ← match raw with
    | JInt z => Ok (str_int z)
    | JStr s => Ok (lower (strip s))
    | _ => Raise (FilterScheduleError interval_error)
    end;
  if is_interval candidate then Ok candidate else Raise (FilterScheduleError interval_error).

(** app/filter_schedule.py:172-173 validate_settings *)
Definition validate_schedule (values : json) : res string :=
  v ← dict_get values "interval_hours" (JStr DEFAULT_INTERVAL); validate_interval v.

(** app/filter_schedule.py:176-188 update_settings *)
Definition update_schedule (values : json) (m : settings_table) : res settings_table :=
  v ← validate_schedule values; Ok (<["interval_hours" := v]> (init_schedule m)).

(** app/filter_schedule.py:191-194 interval_value *)
Definition interval_value (cfg : settings_table) : string :=
  let candidate := default DEFAULT_INTERVAL (cfg !! "interval_hours") in
  if is_interval candidate then candidate else DEFAULT_INTERVAL.

(** app/filter_schedule.py:197-198 is_enabled *)
Definition is_enabled (cfg : settings_table) : bool := negb (String.eqb (interval_value cfg) DISABLED).

(** app/filter_schedule.py:201-202 interval_label *)
Definition interval_label (value : string) : string :=
  default "1 Day" (assoc value INTERVAL_CHOICES).

(** app/filter_schedule.py:205-207 drop_in_content *)
Definition drop_in_content (value : string) : res string :=
  match assoc value INTERVAL_HOURS with
  | Some h => Ok ("[Timer]" +:+ nl +:+ "OnBootSec=" +:+ str_int h +:+ "h" +:+ nl +:+ "OnUnitActiveSec=" +:+ str_int h +:+ "h" +:+ nl)
  | None => Raise (PyExc "KeyError" (py_repr value))
  end.

(** ** The timer *)

Definition reload_command : list string := ["systemctl"; "daemon-reload"].
Definition timer_command (off : bool) : list string := ["systemctl"; if off then "disable" else "enable"; "--now"; TIMER_UNIT].

(** The drop-in, and the commands; disabling a timer is not checked. *)
Definition write_override (value : string) : M () :=
  if String.eqb value DISABLED then there ← exists_ FILTER_TIMER_OVERRIDE; when there (unlink FILTER_TIMER_OVERRIDE)
  else _ ← mkdir FILTER_TIMER_OVERRIDE_DIR; text ← lift (drop_in_content value); write_text FILTER_TIMER_OVERRIDE text.
Definition switch_timer (off : bool) : M () := _ ← run_ reload_command true; run_ (timer_command off) (negb off).

(** app/filter_schedule.py:214-247 deploy_filter_schedule *)
Definition deploy_filter_schedule (m : settings_table) : M string :=
  let value := interval_value (init_schedule m) in
  let off := String.eqb value DISABLED in
  _ ← write_override value; _ ← switch_timer off;
  mret (print spaced 0 (JObj
    [("state", JStr (if off then "disabled" else "enabled")); ("interval", JStr value);
     ("interval_label", JStr (interval_label value)); ("timer", JStr TIMER_UNIT)])).

(** ** The record of the runs *)

(** app/filter_schedule.py:254-266 _set *)
Definition set_value (key value : string) (m : settings_table) : settings_table := <[key := value]> (init_schedule m).

(** app/filter_schedule.py:269-272 record_attempt *)
Definition record_attempt (stamp : string) : settings_table → settings_table := set_value "last_attempt" stamp.
(** app/filter_schedule.py:275-278 record_success *)
Definition record_success (stamp : string) : settings_table → settings_table := set_value "last_success" stamp.

Definition is_letter (c : ascii) : bool := is_lower_az c || is_upper_az c.
Definition scheme_char (c : ascii) : bool := is_letter c || is_09 c || Ascii.eqb c "+" || Ascii.eqb c "." || Ascii.eqb c "-".
Definition word_char (c : ascii) : bool := is_alnum c || Ascii.eqb c "_".
Definition boundary (prev : option ascii) : bool := match prev with Some p => negb (word_char p) | None => true end.

(** After the rest of the scheme comes [://]. *)
Definition scheme_ends (s : string) : bool := starts_with "://" (sdrop (slen (take_while scheme_char s)) s).

(** A match of [\b[a-zA-Z][a-zA-Z0-9+.-]*://\S*] begins here. *)
Definition url_here (prev : option ascii) (s : string) : bool :=
  match s with String c t => boundary prev && is_letter c && scheme_ends t | "" => false end.

(** The end of the match that begins here *)
Definition url_length (s : string) : nat :=
  let n := slen (take_while scheme_char s) + 3 in n + slen (take_while (negb ∘ is_space) (sdrop n s)).

Definition url_removed : string := "[url removed]".

(** [_URL_RE.sub("[url removed]", s)]: [skip] characters of the last match are left, [prev]
    is the character before. *)
Fixpoint sub_urls (skip : nat) (prev : option ascii) (s : string) : string :=
  match s with
  | "" => ""
  | String c t =>
      match skip with
      | S skip => sub_urls skip (Some c) t
      | O => if url_here prev s then url_removed +:+ sub_urls (pred (url_length s)) (Some c) t
             else String c (sub_urls 0 (Some c) t)
      end
  end.

(** app/filter_schedule.py:281-289 sanitize_message *)
Definition sanitize_message (text : string) : string :=
  let cleaned := join " " (words (sub_urls 0 None (strip text))) in
  if MAX_RESULT_CHARS <? slen cleaned then stake MAX_RESULT_CHARS cleaned +:+ "..." else cleaned.

Record run_result := mkRunResult {
  rr_finished : string; rr_status : string; rr_domains : Z; rr_error : string; rr_deployment : option Z }.

Definition run_result_json (r : run_result) : json :=
  JObj ([("finished_at", JStr (rr_finished r)); ("status", JStr (rr_status r)); ("active_domains", JInt (rr_domains r));
         ("error", JStr (rr_error r))]
        ++ match rr_deployment r with Some id => [("deployment_id", JInt id)] | None => [] end).

(** app/filter_schedule.py:292-308 record_result *)
Definition record_result (stamp status : string) (active_domains : Z) (error : string) (deployment_id : option Z)
    (m : settings_table) : run_result * settings_table :=
  let r := mkRunResult stamp status active_domains (sanitize_message error) deployment_id in
  (r, set_value "last_result" (print spaced 0 (run_result_json r)) m).

(** app/filter_schedule.py:311-320 last_result *)
Definition last_result (cfg : settings_table) : option json :=
  let raw := default "" (cfg !! "last_result") in
  if String.eqb raw "" then None else match loads raw with Some (JObj d) => Some (JObj d) | _ => None end.

(** ** The next run *)

(** app/filter_schedule.py:327-336 parse_next_elapse *)
Definition parse_next_elapse (output : string) : option string :=
  match find_first (λ line, let '(key, sep, _) := partition "=" line in sep && String.eqb (strip key) "NextElapseUSecRealtime")
          (splitlines output) with
  | Some line =>
      let value := strip (partition "=" line).2 in
      if String.eqb value "" || String.eqb value "n/a" || String.eqb value "0" then None else Some value
  | None => None
  end.

Section next_run.
(** The UTC time of a number of microseconds, to the second *)
Context (utc_iso : Z → string).

Definition timer_next (entry : json) : option Z :=
  match entry with
  | JObj fields =>
      if match field "unit" fields with Some (JStr u) => String.eqb u TIMER_UNIT | _ => false end then
        match field "next" fields with
        | Some (JInt n) => if (0 <? n)%Z then Some n else None
        | Some (JBool true) => Some 1%Z
        | _ => None
        end
      else None
  | _ => None
  end.

(** app/filter_schedule.py:339-353 parse_next_from_timers_json *)
Definition parse_next_from_timers_json (output : string) : option string :=
  match loads (if String.eqb output "" then "[]" else output) with
  | Some (JList entries) => utc_iso <$> head (omap timer_next entries)
  | _ => None
  end.

Definition show_next : M (option string) :=
  r ← attempt (run ["systemctl"; "show"; TIMER_UNIT; "--property=NextElapseUSecRealtime"] false);
  mret match r with
       | Ok (code, out) => if (code =? 0)%Z then parse_next_elapse out else None
       | Raise _ => None
       end.

(** app/filter_schedule.py:356-380 next_run_at

    [run] raises here only when the command cannot be started. *)
Definition next_run_at : M (option string) :=
  r ← attempt (run ["systemctl"; "list-timers"; TIMER_UNIT; "--all"; "-o"; "json"] false);
  match r with
  | Raise _ => mret None
  | Ok (code, out) =>
      match (if (code =? 0)%Z then parse_next_from_timers_json out else None) with
      | Some t => if String.eqb t "" then show_next else mret (Some t)
      | None => show_next
      end
  end.
End next_run.

(** ** The timer's entry point *)

(** app/alderpointdns_compiler.py:2268-2270 deployment_row *)
Definition deployment_row (id : Z) (l : list deployment) : option deployment := find_first (λ d, (dp_id d =? id)%Z) l.

(** app/alderpointdns_compiler.py:2273-2300 filter_update_run

    The tables, the settings, and the exit: 1 when the deployment raised. *)
Definition filter_update_run `{Platform} (sha256 decode : string → string) (en : env) (rq : request)
    (attempt_at finish_at success_at : string) (s : system) (m : settings_table)
    : M (system * settings_table * run_result * Z) :=
  let m := record_attempt attempt_at m in
  '(s, out) ← deploy sha256 decode en rq s;
  mret match out with
       | Raise e => let '(r, m) := record_result finish_at "failed" 0 (exc_message e) None m in (s, m, r, 1%Z)
       | Ok id =>
           let row := deployment_row id (sy_deps s) in
           let '(r, m) := record_result finish_at
             (match row with Some d => dp_status d | None => "deployed" end)
             (match row with Some d => dp_active_domains d | None => 0%Z end)
             (match row with Some d => dp_message d | None => "" end) (Some id) m in
           (s, record_success success_at m, r, 0%Z)
       end.

Example sanitize_ex :
  sanitize_message (" list https://u:p@x.example/t?k=1, failed:" +:+ nl +:+ "ftp://y (retry) 1http://z ")
  = "list [url removed] failed: [url removed] (retry) 1http://z".
Proof. vm_compute. reflexivity. Qed.
Example timers_ex :
  parse_next_from_timers_json pretty (quoted "[{`unit`:`alderpointdns-filter-update.timer`,`next`:7}]") = Some "7".
Proof. vm_compute. reflexivity. Qed.

(** ** Stored summaries hold no URL *)

Fixpoint has_url (prev : option ascii) (s : string) : bool :=
  url_here prev s || match s with "" => false | String c t => has_url (Some c) t end.

Lemma scheme_ends_cons c t :
  scheme_ends (String c t) = if scheme_char c then scheme_ends t else starts_with "://" (String c t).
Proof. unfold scheme_ends. cbn [take_while]. by destruct (scheme_char c). Qed.

Lemma starts_with_sub p prev s :
  char_in "[" p = false → starts_with p (sub_urls 0 prev s) = true → starts_with p s = true.
Proof.
  revert prev s. induction p as [|a p IH]; intros prev [|c s] Hp Hs; try done. rewrite char_in_cons in Hp.
  apply orb_false_iff in Hp as [Ha Hp]. cbn [sub_urls] in Hs. destruct (url_here prev (String c s)).
  - change (Ascii.eqb a "[" && starts_with p ("url removed]" +:+ sub_urls (pred (url_length (String c s))) (Some c) s) = true) in Hs.
    apply andb_prop in Hs as [Hs _]. rewrite Ascii.eqb_sym in Hs. congruence.
  - change (Ascii.eqb a c && starts_with p (sub_urls 0 (Some c) s) = true) in Hs. apply andb_prop in Hs as [Hc Hs].
    change (Ascii.eqb a c && starts_with p s = true). rewrite Hc. by apply (IH (Some c)).
Qed.

Lemma scheme_ends_sub prev s : scheme_ends (sub_urls 0 prev s) = true → scheme_ends s = true.
Proof.
  revert prev. induction s as [|c s IH]; intros prev; [done|]. rewrite (scheme_ends_cons c s). intros Hs.
  assert (scheme_ends (sub_urls 0 prev (String c s)) = true) as Hs' by done. cbn [sub_urls] in Hs'.
  destruct (url_here prev (String c s)) eqn:Eu.
  { unfold url_removed in Hs'. rewrite app_cons, scheme_ends_cons in Hs'. done. }
  rewrite scheme_ends_cons in Hs'. destruct (scheme_char c); [by apply IH in Hs'|].
  apply (starts_with_sub "://" prev); [done|]. cbn [sub_urls]. by rewrite Eu.
Qed.

Lemma sub_urls_skip n prev s : ∃ prev', sub_urls n prev s = sub_urls 0 prev' (sdrop n s).
Proof.
  revert prev s. induction n as [|n IH]; intros prev s; [by exists prev; destruct s|].
  destruct s as [|c s]; [by exists prev|]. apply (IH (Some c)).
Qed.

Lemma sdrop_sdrop n m s : sdrop m (sdrop n s) = sdrop (n + m) s.
Proof. revert s. induction n as [|n IH]; intros [|c s]; [done..|by destruct m|apply IH]. Qed.

Lemma sdrop_while p s : match sdrop (slen (take_while p s)) s with "" => True | String c _ => p c = false end.
Proof.
  induction s as [|c s IH]; [done|]. cbn [take_while]. destruct (p c) eqn:E; [exact IH|exact E].
Qed.

Lemma url_end s : match sdrop (url_length s) s with "" => True | String c _ => is_space c = true end.
Proof.
  unfold url_length. rewrite <-sdrop_sdrop. pose proof (sdrop_while (negb ∘ is_space) (sdrop (slen (take_while scheme_char s) + 3) s)) as Hw.
  destruct (sdrop _ _); [done|]. cbn in Hw. by apply negb_false_iff in Hw.
Qed.

Lemma url_length_pos s : 0 < url_length s.
Proof. unfold url_length. lia. Qed.

Lemma has_url_removed prev t : has_url prev (url_removed +:+ t) = has_url (Some "]"%char) t.
Proof.
  unfold url_removed. rewrite app_cons. cbn [has_url url_here]. change (is_letter "[") with false. by rewrite andb_false_r.
Qed.

Lemma space_not_letter c : is_space c = true → is_letter c = false.
Proof. revert c. char_decide. Qed.

Lemma sub_urls_clean prev s : has_url prev (sub_urls 0 prev s) = false.
Proof.
  remember (slen s) as n eqn:Hn. assert (slen s ≤ n) as Hle by lia. clear Hn. revert prev s Hle.
  induction n as [|n IH]; intros prev [|c s] Hle; try done; [cbn in Hle; lia|]. cbn in Hle.
  destruct (url_here prev (String c s)) eqn:Eu; cbn [sub_urls]; rewrite Eu.
  - rewrite has_url_removed. destruct (sub_urls_skip (pred (url_length (String c s))) (Some c) s) as [prev' ->].
    pose proof (url_end (String c s)) as He. pose proof (url_length_pos (String c s)) as Hp.
    destruct (url_length (String c s)) as [|k]; [lia|]. cbn [pred]. change (sdrop (S k) (String c s)) with (sdrop k s) in He.
    assert (slen (sdrop k s) ≤ n) as Hk by (rewrite slen_sdrop; lia).
    destruct (sdrop k s) as [|d t]; [done|]. cbn [sub_urls].
    assert (∀ p u, url_here p (String d u) = false) as Hno.
    { intros p u. cbn [url_here]. by rewrite (space_not_letter d He), andb_false_r. }
    rewrite Hno. cbn [has_url]. rewrite Hno. cbn [orb]. apply IH. cbn in Hk. lia.
  - cbn [has_url]. rewrite IH by lia. rewrite orb_false_r. cbn [url_here] in Eu |- *.
    destruct (boundary prev && is_letter c); [|done]. cbn [andb] in *. apply not_true_iff_false. intros Hs%scheme_ends_sub. congruence.
Qed.

(** A character that ends every match: neither of a scheme nor of [://] *)
Definition ends_scheme (c : ascii) : bool := negb (scheme_char c) && negb (char_in c "://").

Lemma space_ends_scheme c : is_space c = true → ends_scheme c = true.
Proof. revert c. char_decide. Qed.

Lemma starts_with_sep p c u v : char_in c p = false → starts_with p (u +:+ String c v) = starts_with p u.
Proof.
  revert u. induction p as [|a p IH]; intros [|d u] Hp; try done; rewrite char_in_cons in Hp; apply orb_false_iff in Hp as [Ha Hp].
  - change (Ascii.eqb a c && starts_with p v = false). by rewrite Ascii.eqb_sym, Ha.
  - rewrite app_cons. change (Ascii.eqb a d && starts_with p (u +:+ String c v) = Ascii.eqb a d && starts_with p u). by rewrite IH.
Qed.

Lemma scheme_ends_sep c u v : ends_scheme c = true → scheme_ends (u +:+ String c v) = scheme_ends u.
Proof.
  intros Hc. apply andb_prop in Hc as [Hs%negb_true_iff Hp%negb_true_iff]. induction u as [|d u IH].
  - rewrite app_nil_s, scheme_ends_cons, Hs. by apply (starts_with_sep "://" c "" v).
  - rewrite app_cons, !scheme_ends_cons, IH. destruct (scheme_char d); [done|]. by apply (starts_with_sep "://" c (String d u)).
Qed.

Lemma has_url_sep c u v prev :
  ends_scheme c = true → has_url prev (u +:+ String c v) = has_url prev u || has_url (Some c) v.
Proof.
  intros Hc. assert (is_letter c = false) as Hl by (revert c Hc; char_decide).
  revert prev. induction u as [|d u IH]; intros prev.
  - rewrite app_nil_s. cbn [has_url url_here]. by rewrite Hl, andb_false_r.
  - rewrite app_cons. cbn [has_url url_here]. by rewrite scheme_ends_sep, IH, orb_assoc.
Qed.

Lemma has_url_boundary p q s : boundary p = boundary q → has_url p s = has_url q s.
Proof. intros Hb. destruct s as [|c s]; [done|]. cbn [has_url url_here]. by rewrite Hb. Qed.

Lemma space_boundary c : is_space c = true → boundary (Some c) = true.
Proof. revert c. apply (char_implies is_space (λ c, boundary (Some c))). vm_compute. reflexivity. Qed.

Lemma words_go_clean s cur :
  has_url None (String.rev cur +:+ s) = false → ∀ w, w ∈ words_go cur s → has_url None w = false.
Proof.
  revert cur. induction s as [|c s IH]; intros cur Hs w Hw; cbn [words_go] in Hw.
  - rewrite sapp_nil_r in Hs. destruct (String.eqb cur ""); [by apply elem_of_nil in Hw|]. by apply list_elem_of_singleton in Hw as ->.
  - destruct (is_space c) eqn:Ec.
    + rewrite has_url_sep in Hs by by apply space_ends_scheme. apply orb_false_iff in Hs as [Hc Hs].
      apply elem_of_app in Hw as [Hw|Hw].
      * destruct (String.eqb cur ""); [by apply elem_of_nil in Hw|]. by apply list_elem_of_singleton in Hw as ->.
      * apply (IH ""); [|done]. rewrite app_nil_s. rewrite <-Hs. apply has_url_boundary. by rewrite space_boundary.
    + apply (IH (String c cur)); [|done]. by rewrite rev_cons, sapp_assoc.
Qed.

Lemma join_clean ws : (∀ w, w ∈ ws → has_url None w = false) → has_url None (join " " ws) = false.
Proof.
  induction ws as [|w [|v ws] IH]; intros Hw; [done|apply Hw; left|]. rewrite join_cons by done.
  change (" " +:+ ?s) with (String " " s). rewrite has_url_sep by done. rewrite Hw by left. cbn [orb].
  rewrite (has_url_boundary (Some " "%char) None) by done. apply IH. intros u Hu. apply Hw. by right.
Qed.

Lemma scheme_ends_app u v : scheme_ends u = true → scheme_ends (u +:+ v) = true.
Proof.
  induction u as [|c u IH]; [done|]. rewrite app_cons, !scheme_ends_cons. destruct (scheme_char c); [done|].
  intros (t & E)%starts_with_spec. rewrite <-app_cons, E, sapp_assoc. apply starts_with_app.
Qed.

Lemma has_url_app u v prev : has_url prev u = true → has_url prev (u +:+ v) = true.
Proof.
  revert prev. induction u as [|c u IH]; intros prev; [done|]. rewrite app_cons. cbn [has_url url_here].
  intros [Hu|Hu]%orb_prop; apply orb_true_iff; [left|right; by apply IH].
  apply andb_prop in Hu as [-> Hu]. by apply scheme_ends_app.
Qed.

Lemma dots_end u : scheme_ends (u +:+ "...") = true → scheme_ends u = true.
Proof.
  induction u as [|c u IH]; [done|]. rewrite app_cons, !scheme_ends_cons. destruct (scheme_char c); [done|].
  intros Hs. rewrite <-app_cons, (starts_with_sep "://" "." (String c u)) in Hs by done. done.
Qed.

Lemma has_url_dots u prev : has_url prev (u +:+ "...") = true → has_url prev u = true.
Proof.
  revert prev. induction u as [|c u IH]; intros prev.
  { rewrite app_nil_s. cbn [has_url url_here]. change (is_letter ".") with false. by rewrite !andb_false_r. }
  rewrite app_cons. cbn [has_url url_here]. intros [Hu|Hu]%orb_prop; apply orb_true_iff; [left|right; by apply IH].
  apply andb_prop in Hu as [-> Hu]. by apply dots_end.
Qed.

(** White space other than the space itself *)
Definition breaks (c : ascii) : bool := is_space c && negb (Ascii.eqb c " ").

Lemma words_go_spaces s cur : sforall (negb ∘ is_space) (String.rev cur) = true →
  ∀ w, w ∈ words_go cur s → sforall (negb ∘ is_space) w = true.
Proof.
  revert cur. induction s as [|c s IH]; intros cur Hc w Hw; cbn [words_go] in Hw.
  - destruct (String.eqb cur ""); [by apply elem_of_nil in Hw|]. by apply list_elem_of_singleton in Hw as ->.
  - destruct (is_space c) eqn:Ec.
    + apply elem_of_app in Hw as [Hw|Hw]; [|by apply (IH "")].
      destruct (String.eqb cur ""); [by apply elem_of_nil in Hw|]. by apply list_elem_of_singleton in Hw as ->.
    + apply (IH (String c cur)); [|done]. rewrite rev_cons, sforall_app, Hc. cbn. by rewrite Ec.
Qed.

Lemma sforall_join_spaces ws :
  (∀ w, w ∈ ws → sforall (negb ∘ is_space) w = true) → sforall (negb ∘ breaks) (join " " ws) = true.
Proof.
  intros Hw. assert (∀ w, w ∈ ws → sforall (negb ∘ breaks) w = true) as Hb.
  { intros w Hin. eapply sforall_impl; [|by apply Hw]. char_decide. }
  clear Hw. induction ws as [|w [|v ws] IH]; [done|apply Hb; left|]. rewrite join_cons, !sforall_app by done.
  rewrite Hb by left. cbn [andb]. apply andb_true_iff. split; [done|]. apply IH. intros u Hu. apply Hb. by right.
Qed.

Lemma sforall_stake p n s : sforall p s = true → sforall p (stake n s) = true.
Proof. rewrite <-(stake_sdrop n s) at 1. rewrite sforall_app. by intros [? _]%andb_prop. Qed.

(** Whatever message an update run ended with, the summary stored for it holds no URL, is
    one line of words a space apart, and has at most 503 characters. *)
Theorem sanitize_message_safe text :
  has_url None (sanitize_message text) = false ∧ sforall (negb ∘ breaks) (sanitize_message text) = true
  ∧ slen (sanitize_message text) ≤ MAX_RESULT_CHARS + 3.
Proof.
  unfold sanitize_message. set (ws := words _). assert (has_url None (join " " ws) = false) as Hu.
  { apply join_clean, words_go_clean. apply sub_urls_clean. }
  assert (sforall (negb ∘ breaks) (join " " ws) = true) as Hb by by apply sforall_join_spaces, words_go_spaces.
  destruct (Nat.ltb_spec MAX_RESULT_CHARS (slen (join " " ws))); [|split_and!; [done..|lia]]. split_and!.
  - apply not_true_iff_false. intros Hd%has_url_dots%(has_url_app _ (sdrop MAX_RESULT_CHARS (join " " ws))).
    rewrite stake_sdrop in Hd. congruence.
  - rewrite sforall_app. apply andb_true_iff. split; [by apply sforall_stake|done].
  - rewrite slen_app, slen_stake. change (slen "...") with 3. lia.
Qed.

(** ** Only fixed text reaches the unit file *)

Lemma is_interval_spec s : is_interval s = true ↔ s ∈ INTERVAL_VALUES.
Proof.
  unfold is_interval. rewrite existsb_true. split; [intros (x & Hx & ->%String.eqb_eq); done|].
  intros Hs. exists s. split; [done|apply String.eqb_refl].
Qed.

Lemma interval_value_ok cfg : interval_value cfg ∈ INTERVAL_VALUES.
Proof.
  unfold interval_value. destruct (is_interval _) eqn:E; [by apply is_interval_spec|]. apply is_interval_spec. reflexivity.
Qed.

Definition timer_text (hours : Z) : string :=
  join nl ["[Timer]"; "OnBootSec=" +:+ str_int hours +:+ "h"; "OnUnitActiveSec=" +:+ str_int hours +:+ "h"; ""].

(** Every interval but [disabled] is written as one of the five texts. *)
Lemma drop_in_texts value :
  value ∈ INTERVAL_VALUES → value ≠ DISABLED →
  ∃ h, h ∈ [1; 12; 24; 72; 168]%Z ∧ value = str_int h ∧ drop_in_content value = Ok (timer_text h).
Proof.
  intros Hv Hd. assert (value ∈ str_int <$> [1; 12; 24; 72; 168]%Z) as (h & -> & Hh)%list_elem_of_fmap.
  { unfold INTERVAL_VALUES in Hv. cbn in Hv. apply elem_of_cons in Hv as [->|Hv]; [done|]. exact Hv. }
  exists h. split; [done|]. split; [done|].
  repeat (apply elem_of_cons in Hh as [->|Hh]; [vm_compute; reflexivity|]). by apply elem_of_nil in Hh.
Qed.

Lemma switch_timer_run off w r w' :
  switch_timer off w = (r, w') →
  w_files w' = w_files w ∧ ∃ l, w_log w' = w_log w ++ l ∧ l `prefix_of` [reload_command; timer_command off]
    ∧ (r = Ok () → l = [reload_command; timer_command off]).
Proof.
  unfold switch_timer. rewrite bind_M. pose proof (run_log reload_command true w) as H1. destruct (run_ reload_command true w) as [[[]|e] w1]; cbn in H1.
  - pose proof (run_log (timer_command off) (negb off) w1) as H2. intros E. rewrite E in H2. cbn in H2. subst w' w1.
    destruct w as [f lg an]. cbn. split; [done|]. eexists. rewrite <-app_assoc. split; [done|]. split; [done|done].
  - intros [= <- <-]. subst w1. destruct w as [f lg an]. cbn. split; [done|]. exists [reload_command]. split; [done|].
    split; [by exists [timer_command off]|done].
Qed.

(** The drop-in an interval asks for *)
Definition override_text (value : string) : option string :=
  if String.eqb value DISABLED then None
  else head (omap (λ h, if String.eqb (str_int h) value then Some (timer_text h) else None) [1; 12; 24; 72; 168]%Z).

Lemma override_texts value :
  value ∈ INTERVAL_VALUES → value ≠ DISABLED → ∃ h, h ∈ [1; 12; 24; 72; 168]%Z ∧ override_text value = Some (timer_text h).
Proof.
  intros Hv Hd. destruct (drop_in_texts value Hv Hd) as (h & Hh & -> & _). exists h. split; [done|]. clear -Hh.
  repeat (apply elem_of_cons in Hh as [->|Hh]; [vm_compute; reflexivity|]). by apply elem_of_nil in Hh.
Qed.

Lemma write_override_run value w :
  value ∈ INTERVAL_VALUES →
  ∃ w1, write_override value w = (Ok (), w1) ∧ w_files w1 !! FILTER_TIMER_OVERRIDE = override_text value
    ∧ (∀ p, p ≠ FILTER_TIMER_OVERRIDE → p ≠ FILTER_TIMER_OVERRIDE_DIR → w_files w1 !! p = w_files w !! p)
    ∧ w_log w1 = w_log w.
Proof.
  intros Hv. unfold write_override, override_text. destruct (String.eqb_spec value DISABLED) as [|Hd].
  - rewrite bind_M. unfold exists_. destruct w as [f lg an]. cbn [w_files]. destruct (f !! FILTER_TIMER_OVERRIDE) as [t|] eqn:Et.
    + rewrite bool_decide_eq_true_2 by eauto. unfold when, unlink. cbn [w_files]. rewrite Et. eexists. split; [done|]. cbn.
      rewrite lookup_delete_eq. split; [done|]. split; [|done]. intros p Hp _. by rewrite lookup_delete_ne.
    + rewrite bool_decide_eq_false_2 by by intros [? ?]. eexists. split; [done|]. by cbn.
  - destruct (drop_in_texts value Hv Hd) as (h & Hh & Hval & Htext). rewrite bind_M.
    destruct (mkdir FILTER_TIMER_OVERRIDE_DIR w) as [r0 w0] eqn:Em.
    assert (r0 = Ok () ∧ w_log w0 = w_log w ∧ ∀ p, p ≠ FILTER_TIMER_OVERRIDE_DIR → w_files w0 !! p = w_files w !! p) as (-> & Hl & Hf).
    { destruct w as [f lg an]. injection Em as <- <-. do 2 (split; [done|]). intros p Hp. cbn.
      destruct (f !! FILTER_TIMER_OVERRIDE_DIR); [done|]. by rewrite lookup_insert_ne. }
    rewrite bind_M, Htext. destruct w0 as [f lg an]. eexists. split; [done|]. cbn. rewrite lookup_insert_eq. split.
    + subst value. clear -Hh. repeat (apply elem_of_cons in Hh as [->|Hh]; [vm_compute; reflexivity|]). by apply elem_of_nil in Hh.
    + split; [|done]. intros p H1 H2. rewrite lookup_insert_ne by done. by apply Hf.
Qed.

(** Whatever the settings table holds, deploying the schedule touches only the timer's
    drop-in: with updates disabled it is gone, otherwise it is one of five fixed texts, for
    the interval that is stored or the default; and the only commands are the fixed ones
    that reload systemd and enable or disable the timer. *)
Theorem deploy_schedule_fixed_text m w r w' :
  deploy_filter_schedule m w = (r, w') →
  let value := interval_value (init_schedule m) in
  let off := String.eqb value DISABLED in
  w_files w' !! FILTER_TIMER_OVERRIDE = override_text value
  ∧ (override_text value = None ∧ off = true ∨ ∃ h, h ∈ [1; 12; 24; 72; 168]%Z ∧ override_text value = Some (timer_text h))
  ∧ (∀ p, p ≠ FILTER_TIMER_OVERRIDE → p ≠ FILTER_TIMER_OVERRIDE_DIR → w_files w' !! p = w_files w !! p)
  ∧ ∃ l, w_log w' = w_log w ++ l ∧ l `prefix_of` [reload_command; timer_command off]
      ∧ (is_ok r = true → l = [reload_command; timer_command off]).
Proof.
  unfold deploy_filter_schedule. pose proof (interval_value_ok (init_schedule m)) as Hv.
  generalize dependent (interval_value (init_schedule m)). intros value Hv E. cbv zeta in *.
  destruct (write_override_run value w Hv) as (w1 & E1 & H1 & H2 & Hl). rewrite bind_M, E1, bind_M in E.
  destruct (switch_timer (String.eqb value DISABLED) w1) as [r2 w2] eqn:E2.
  assert (w' = w2 ∧ (is_ok r = true → r2 = Ok ())) as [-> Hok] by (destruct r2 as [[]|]; by injection E as <- <-).
  apply switch_timer_run in E2 as (Hf & l & Hlog & Hpre & Hall). rewrite Hf. split; [done|]. split.
  - unfold override_text at 1. destruct (String.eqb_spec value DISABLED) as [|Hd]; [by left|right]. by apply override_texts.
  - split; [done|]. exists l. rewrite Hlog, Hl. split; [done|]. split; [done|]. auto.
Qed.

Lemma deploy_schedule_fixed_text_witness :
  let w := mkWorld ∅ [] (λ _, Exited 0 "") in
  let m := <["interval_hours" := "1h; rm -rf /"]> ∅ in
  ∃ r w', deploy_filter_schedule m w = (r, w') ∧ w_files w' !! FILTER_TIMER_OVERRIDE = Some (timer_text 24)
    ∧ w_log w' = [reload_command; timer_command false].
Proof.
  intros w m. destruct (deploy_filter_schedule m w) as [r w'] eqn:E. exists r, w'. split; [done|].
  destruct (deploy_schedule_fixed_text m w r w' E) as (Ht & _ & _ & l & Hl & _ & Hok). split.
  - rewrite Ht. vm_compute. reflexivity.
  - rewrite Hl, Hok; [vm_compute; reflexivity|]. change r with (r, w').1. rewrite <-E. vm_compute. reflexivity.
Defined.

(** ** The scheduled run *)

Lemma insert_or_ignore_other m kv key : key ≠ kv.1 → insert_or_ignore m kv !! key = m !! key.
Proof. intros Hk. unfold insert_or_ignore. destruct (m !! kv.1); [done|]. by rewrite lookup_insert_ne. Qed.
Lemma insert_or_ignore_same m kv v key : m !! key = Some v → insert_or_ignore m kv !! key = Some v.
Proof.
  intros Hk. unfold insert_or_ignore. destruct (m !! kv.1) eqn:E; [done|]. rewrite lookup_insert_ne; [done|congruence].
Qed.

Lemma init_schedule_keeps m key v : key ≠ "interval_hours" → m !! key = Some v → init_schedule m !! key = Some v.
Proof.
  intros Hk Hv. unfold init_schedule. set (m' := fold_left _ _ _). assert (m' !! key = Some v) as Hm.
  { subst m'. generalize dependent m. induction SETTINGS_DEFAULTS as [|kv l IH]; intros m Hv; [done|]. cbn. apply IH.
    by apply insert_or_ignore_same. }
  destruct (m' !! "interval_hours") as [h|]; [|done]. destruct (is_interval h); [done|]. by rewrite lookup_insert_ne.
Qed.

(** The settings always have a time of the last success, empty at first. *)
Lemma init_schedule_success m : init_schedule m !! "last_success" = Some (default "" (m !! "last_success")).
Proof.
  destruct (m !! "last_success") as [v|] eqn:E; [by apply init_schedule_keeps|].
  unfold init_schedule. set (m' := fold_left _ _ _). assert (m' !! "last_success" = Some "") as Hm.
  { subst m'. unfold SETTINGS_DEFAULTS. cbn [fold_left]. rewrite insert_or_ignore_other by done.
    set (m2 := insert_or_ignore (insert_or_ignore m _) _). assert (m2 !! "last_success" = None) as H2.
    { subst m2. by rewrite !insert_or_ignore_other. }
    unfold insert_or_ignore. cbn [fst snd]. rewrite H2. by rewrite lookup_insert_eq. }
  destruct (m' !! "interval_hours") as [h|]; [|done]. destruct (is_interval h); [done|]. by rewrite lookup_insert_ne.
Qed.

Lemma set_value_other key k v m x :
  k ≠ key → key ≠ "interval_hours" → m !! key = Some x → set_value k v m !! key = Some x.
Proof. intros Hk Hi Hx. unfold set_value. rewrite lookup_insert_ne by done. by apply init_schedule_keeps. Qed.

Lemma set_value_same key v m : set_value key v m !! key = Some v.
Proof. apply lookup_insert_eq. Qed.

Lemma last_result_reads m r :
  m !! "last_result" = Some (print spaced 0 (run_result_json r)) → last_result m = Some (run_result_json r).
Proof.
  intros Hm. unfold last_result. rewrite Hm. cbv zeta. unfold default, from_option, id.
  change (String.eqb (print spaced 0 (run_result_json r)) "") with false. cbv iota.
  rewrite loads_print; [done|apply spaced_ok|]. unfold run_result_json. by destruct (rr_deployment r).
Qed.

Lemma deployment_row_new d l : dp_id d = fresh_id (dp_id <$> l) → deployment_row (dp_id d) (l ++ [d]) = Some d.
Proof.
  intros Hd. unfold deployment_row. assert (∀ x, x ∈ l → (dp_id x =? dp_id d)%Z = false) as Hne.
  { intros x Hx. apply Z.eqb_neq. intros E. apply (fresh_id_notin (dp_id <$> l)). rewrite <-Hd, <-E. by apply list_elem_of_fmap_2. }
  clear Hd. induction l as [|x l IH]; cbn; [by rewrite Z.eqb_refl|]. rewrite Hne by left. apply IH. intros y Hy. apply Hne. by right.
Qed.

(** A scheduled run always records itself: the attempt, and a summary the web page can
    read back.  If the deployment succeeded, the summary is that of its row, the success is
    recorded and the exit is 0; if it raised, the summary says failed, the last success is
    what it was, and the exit is 1. *)
Theorem filter_update_run_records `{Platform} sha256 decode en rq attempt_at finish_at success_at s m w :
  w_files w !! rpz_backup en = None → w_files w !! cache_backup en = None →
  ∃ s' m' r code w' d, filter_update_run sha256 decode en rq attempt_at finish_at success_at s m w = (Ok (s', m', r, code), w')
    ∧ sy_deps s' = sy_deps s ++ [d] ∧ m' !! "last_attempt" = Some attempt_at ∧ last_result m' = Some (run_result_json r)
    ∧ (code = 0%Z ∧ rr_status r = "deployed" ∧ rr_deployment r = Some (dp_id d) ∧ rr_domains r = dp_active_domains d
         ∧ rr_error r = sanitize_message (dp_message d) ∧ m' !! "last_success" = Some success_at
       ∨ code = 1%Z ∧ rr_status r = "failed" ∧ rr_deployment r = None ∧ dp_status d ≠ "deployed"
         ∧ m' !! "last_success" = Some (default "" (m !! "last_success"))).
Proof.
  intros Hb Hc. destruct (deploy_run sha256 decode en rq s w Hb Hc) as (d & s' & out & w' & E & Hdeps & Hid & Hout).
  unfold filter_update_run. rewrite bind_M, E. destruct out as [id|e].
  - destruct Hout as (-> & Hst & _). rewrite Hdeps, deployment_row_new by done.
    exists s'. do 4 eexists. exists d. split; [reflexivity|]. split; [done|]. split; [|split].
    + apply set_value_other; [done..|]. unfold record_result. cbn. apply set_value_other; [done..|]. apply set_value_same.
    + apply last_result_reads. apply set_value_other; [done..|]. apply set_value_same.
    + left. do 5 (split; [done|]). apply set_value_same.
  - exists s'. do 4 eexists. exists d. split; [reflexivity|]. split; [done|]. split; [|split].
    + apply set_value_other; [done..|]. apply set_value_same.
    + apply last_result_reads. apply set_value_same.
    + right. do 3 (split; [done|]). split.
      { destruct Hout as [[[-> | ->] _]|[-> _]]; done. }
      apply set_value_other; [done..|]. unfold record_attempt. unfold set_value. rewrite lookup_insert_ne by done. apply init_schedule_success.
Qed.

Lemma filter_update_run_records_witness :
  let _ := sample_platform in
  ∃ s' m' r w', filter_update_run id id sample_env sample_request "t1" "t2" "t3" (cached_system "a") ∅ sample_world
      = (Ok (s', m', r, 0%Z), w') ∧ last_result m' = Some (run_result_json r) ∧ m' !! "last_success" = Some "t3".
Proof.
  intros P.
  destruct (@filter_update_run_records P id id sample_env sample_request "t1" "t2" "t3" (cached_system "a") ∅ sample_world)
    as (s' & m' & r & code & w' & d & E & _ & _ & Hl & Hcase); [vm_compute; reflexivity..|].
  exists s', m', r, w'. assert (code = 0%Z) as ->.
  { assert ((p ← (filter_update_run id id sample_env sample_request "t1" "t2" "t3" (cached_system "a") ∅ sample_world).1; Ok p.2)
      = Ok code) as Hcode by by rewrite E.
    vm_compute in Hcode. by injection Hcode. }
  split; [exact E|]. split; [exact Hl|]. destruct Hcase as [(_ & _ & _ & _ & _ & Hs)|[Hz _]]; [exact Hs|discriminate Hz].
Defined.
