(* ===== verification/Notifications.v ===== *)
(** * Notifications

    [app/notifications.py]: providers, subscriptions, the text of a message and the request
    it is sent in, and the dispatch of an event with its cooldown.  Times are seconds since
    the epoch.  Sending over SMTP and HTTP is a parameter; SHA-256 is a parameter. *)

From S2P Require Import Prelude PyStr StrLemmas IpAddr PyJson JsonRead.

Definition NotificationError (message : string) : pyexc := PyExc "NotificationError" message.

(** app/notifications.py:61-61 SEVERITIES *)
Inductive severity := Info | Warning | Critical.
#[export] Instance severity_eq_dec : EqDecision severity.
Proof. solve_decision. Defined.

Definition severity_text (s : severity) : string :=
  match s with Info => "info" | Warning => "warning" | Critical => "critical" end.
(** app/notifications.py:62-62 _SEVERITY_RANK *)
Definition severity_rank (s : severity) : nat := match s with Info => 0 | Warning => 1 | Critical => 2 end.
Definition parse_severity (s : string) : option severity :=
  find_first (λ x, String.eqb (severity_text x) s) [Info; Warning; Critical].

Definition WEBHOOK_PRESETS : list string := ["generic"; "discord"; "slack"; "teams"; "ntfy"; "gotify"; "pushover"].

(** app/notifications.py:71-83 EVENT_CATEGORIES

    Each category, whether a check evaluates it, and its default severity. *)
Definition EVENT_CATEGORIES : list (string * bool * severity) :=
  [("service_unavailable", true, Critical); ("service_repeated_restart", true, Warning); ("resolver_degraded", true, Warning);
   ("resolver_all_unavailable", true, Critical); ("blocklist_update_failure", true, Warning); ("deploy_failure", true, Critical);
   ("backup_failure", true, Warning); ("replication_delayed", true, Warning); ("tls_cert_expiring", false, Warning);
   ("low_disk_space", false, Warning); ("abnormal_servfail_rate", false, Warning)].

(** ** Tables *)

Inductive provider_config :=
| SmtpConfig (host : string) (port : Z) (use_tls : bool) (from_addr to_addrs username : string)
| WebhookConfig (preset : string).

(** app/notifications.py:126-140 init_db *)
Record provider := mkProvider {
  np_id : Z; np_name : string; np_enabled : bool; np_config : provider_config; np_secret : string;
  np_test : option (Z * bool); np_failure_at : option Z; np_failure_error : string }.

(** app/notifications.py:144-153 init_db *)
Record subscription := mkSubscription {
  sb_id : Z; sb_provider : Z; sb_category : string; sb_severity : severity; sb_enabled : bool; sb_cooldown : option Z }.

(** app/notifications.py:157-165 init_db *)
Record rate_state := mkRate { rs_sent : Z; rs_fingerprint : string; rs_suppressed : Z }.

Inductive delivery := Sent | Failed | Suppressed.
#[export] Instance delivery_eq_dec : EqDecision delivery.
Proof. solve_decision. Defined.

(** app/notifications.py:431-457 NotificationMessage *)
Record message := mkMessage {
  m_category : string; m_severity : severity; m_host : string; m_component : string; m_summary : string;
  m_began : string; m_recovered : bool; m_link : string }.

(** app/notifications.py:169-185 init_db *)
Record history_row := mkHistory {
  h_id : Z; h_at : Z; h_message : message; h_provider : Z; h_name : string; h_status : delivery; h_error : string }.

Record ndb := mkNdb {
  n_settings : gmap string string; n_providers : list provider; n_subs : list subscription;
  n_rate : gmap (string * Z) rate_state; n_history : list history_row; n_checks : gmap (string * string) string }.

(** app/notifications.py:114-122 init_db *)
Definition empty_ndb : ndb := mkNdb (<["cooldown_minutes" := "30"]> ∅) [] [] ∅ [] ∅.

(** app/notifications.py:217-228 update_settings *)
Definition update_notification_settings (values : json) (db : ndb) : res ndb :=
  match values with
  | JObj fields =>
      match field "cooldown_minutes" fields with
      | Some v =>
          minutes ← py_int v;
          _ ← raise_if ((minutes <? 0) || (1440 <? minutes))%Z (NotificationError "cooldown must be between 0 and 1440 minutes");
          Ok (db{{n_settings ::= <["cooldown_minutes" := str_int minutes]>}})
      | None => Ok db
      end
  | _ => Raise (TypeError "argument is not a dict")
  end.

(** ** Providers *)

Definition is_webhook (c : provider_config) : bool := match c with WebhookConfig _ => true | SmtpConfig _ _ _ _ _ _ => false end.

(** app/notifications.py:235-266 _validate_provider *)
Definition validate_provider (kind : string) (config : json) : res provider_config :=
  if negb (existsb (String.eqb kind) ["smtp"; "webhook"]) then Raise (NotificationError ("unknown provider kind " +:+ py_repr kind))
  else
    let text key := v ← dict_get config key (JStr ""); Ok (strip (py_str v)) in
    if String.eqb kind "smtp" then
      host ← text "host";
      _ ← raise_if (String.eqb host "") (NotificationError "SMTP host is required");
      port ← dict_get config "port" (JInt 587);
      port ← match py_int port with Ok z => Ok z | Raise _ => Raise (NotificationError "SMTP port must be a number") end;
      _ ← raise_if (negb ((1 <=? port) && (port <=? 65535)))%Z (NotificationError "SMTP port must be between 1 and 65535");
      from ← text "from_addr"; to ← text "to_addrs";
      _ ← raise_if (String.eqb from "" || String.eqb to "")
            (NotificationError "SMTP sender and at least one recipient are required");
      tls ← dict_get config "use_tls" (JBool true);
      username ← text "username";
      Ok (SmtpConfig host port (py_bool tls) from to username)
    else
      preset ← dict_get config "preset" (JStr "generic");
      let preset := lower (strip (py_str preset)) in
      _ ← raise_if (negb (existsb (String.eqb preset) WEBHOOK_PRESETS))
            (NotificationError ("unknown webhook preset " +:+ py_repr preset));
      Ok (WebhookConfig preset).

(** app/notifications.py:269-284 add_provider *)
Definition add_provider (kind name : string) (config : json) (secret : string) (enabled : bool) (db : ndb) : res (ndb * Z) :=
  let clean_name := strip name in
  _ ← raise_if (String.eqb clean_name "") (NotificationError "provider name is required");
  clean ← validate_provider kind config;
  _ ← raise_if (String.eqb (strip secret) "" && String.eqb kind "webhook") (NotificationError "webhook URL is required");
  let id := fresh_id (np_id <$> n_providers db) in
  Ok (db{{n_providers ::= (λ l, l ++ [mkProvider id clean_name enabled clean secret None None ""])}}, id).

Definition find_provider (id : Z) (l : list provider) : option provider := find_first (λ p, (np_id p =? id)%Z) l.
Definition on_provider (id : Z) (f : provider → provider) (db : ndb) : ndb :=
  db{{n_providers ::= fmap (λ p, if (np_id p =? id)%Z then f p else p)}}.

Definition provider_not_found (id : Z) : pyexc :=
  NotificationError ("notification provider " +:+ str_int id +:+ " not found").

(** app/notifications.py:290-313 update_provider

    An empty secret leaves the stored one. *)
Definition update_provider (id : Z) (name : option string) (config : option json) (secret : option string) (enabled : option bool)
    (db : ndb) : res ndb :=
  match find_provider id (n_providers db) with
  | None => Raise (provider_not_found id)
  | Some row =>
      let new_name := strip (default "" name) in
      let new_name := if String.eqb new_name "" then np_name row else new_name in
      new_config ← match config with
        | Some c => validate_provider (if is_webhook (np_config row) then "webhook" else "smtp") c
        | None => Ok (np_config row)
        end;
      let new_secret := match secret with Some s => if String.eqb s "" then np_secret row else s | None => np_secret row end in
      Ok (on_provider id (λ p : provider, p{{np_name := new_name; np_config := new_config; np_secret := new_secret;
                                              np_enabled := default (np_enabled row) enabled}}) db)
  end.

(** app/notifications.py:316-322 delete_provider *)
Definition delete_provider (id : Z) (db : ndb) : ndb :=
  db{{n_subs ::= List.filter (λ s, negb (sb_provider s =? id)%Z);
      n_rate ::= filter (λ kv, kv.1.2 ≠ id);
      n_providers ::= List.filter (λ p, negb (np_id p =? id)%Z)}}.

(** app/notifications.py:325-329 toggle_provider *)
Definition toggle_provider (id : Z) : ndb → ndb := on_provider id (λ p : provider, p{{np_enabled ::= negb}}).

(** app/notifications.py:332-336 clear_provider_failure *)
Definition clear_provider_failure (id : Z) : ndb → ndb :=
  on_provider id (λ p : provider, p{{np_failure_at := None; np_failure_error := ""}}).

(** What the pages show of a provider: not its secret *)
Record public_provider := mkPublic {
  pp_id : Z; pp_name : string; pp_enabled : bool; pp_config : provider_config; pp_has_secret : bool;
  pp_test : option (Z * bool); pp_failure_at : option Z; pp_failure_error : string }.

(** app/notifications.py:339-354 _public_provider *)
Definition public_of (p : provider) : public_provider :=
  mkPublic (np_id p) (np_name p) (np_enabled p) (np_config p) (negb (String.eqb (np_secret p) ""))
    (np_test p) (np_failure_at p) (np_failure_error p).

(** ** Subscriptions *)

(** app/notifications.py:383-399 set_subscription *)
Definition set_subscription (provider_id : Z) (category min_severity : string) (enabled : bool) (cooldown : option Z) (db : ndb) : res ndb :=
  if negb (existsb (λ c, String.eqb c.1.1 category) EVENT_CATEGORIES)
  then Raise (NotificationError ("unknown event category " +:+ py_repr category))
  else match parse_severity min_severity with
  | None => Raise (NotificationError ("unknown severity " +:+ py_repr min_severity))
  | Some sev =>
      let same s := (sb_provider s =? provider_id)%Z && String.eqb (sb_category s) category in
      Ok (if existsb same (n_subs db)
          then db{{n_subs ::= fmap (λ s : subscription, if same s then s{{sb_severity := sev; sb_enabled := enabled; sb_cooldown := cooldown}} else s)}}
          else db{{n_subs ::= (λ l, l ++ [mkSubscription (fresh_id (sb_id <$> l)) provider_id category sev enabled cooldown])}})
  end.

(** app/notifications.py:402-406 delete_subscription *)
Definition delete_subscription (id : Z) (db : ndb) : ndb := db{{n_subs ::= List.filter (λ s, negb (sb_id s =? id)%Z)}}.

(** ** Messages *)

(** app/notifications.py:442-444 title *)
Definition title (m : message) : string :=
  "[" +:+ (if m_recovered m then "RECOVERED" else upper (severity_text (m_severity m))) +:+ "] "
  +:+ m_component m +:+ ": " +:+ m_summary m.

(** app/notifications.py:446-457 body_lines *)
Definition body_lines (m : message) : list string :=
  ["Severity: " +:+ (if m_recovered m then "recovered" else severity_text (m_severity m));
   "Host: " +:+ m_host m; "Component: " +:+ m_component m; "What happened: " +:+ m_summary m; "Began: " +:+ m_began m;
   "Recovered: " +:+ (if m_recovered m then "yes" else "no")]
  ++ (if String.eqb (m_link m) "" then [] else ["Details: " +:+ m_link m]).

(** A document, or a text, and the extra headers *)
Inductive payload := JsonBody (fields : list (string * json)) | TextBody (text : string) (headers : list (string * string)).

(** app/notifications.py:479-523 _webhook_payload *)
Definition webhook_payload (preset : string) (m : message) : payload :=
  let t := title m in
  let body := join nl (body_lines m) in
  let by_severity {A} (a b c : A) := match m_severity m with Info => a | Warning => b | Critical => c end in
  if String.eqb preset "discord" then JsonBody [("content", JStr ("**" +:+ t +:+ "**" +:+ nl +:+ body))]
  else if String.eqb preset "slack" then JsonBody [("text", JStr ("*" +:+ t +:+ "*" +:+ nl +:+ body))]
  else if String.eqb preset "teams" then
    JsonBody [("@type", JStr "MessageCard"); ("@context", JStr "http://schema.org/extensions"); ("summary", JStr t);
              ("themeColor", JStr (by_severity "4a90d9" "e3a008" "e02424")); ("title", JStr t);
              ("text", JStr (replace_all nl (nl +:+ nl) body))]
  else if String.eqb preset "ntfy" then TextBody body [("Title", t); ("Priority", by_severity "3" "4" "5")]
  else if String.eqb preset "gotify" then
    JsonBody [("title", JStr t); ("message", JStr body); ("priority", JInt (by_severity 2%Z 5%Z 9%Z))]
  else if String.eqb preset "pushover" then JsonBody [("title", JStr t); ("message", JStr body)]
  else JsonBody [("event_category", JStr (m_category m)); ("severity", JStr (severity_text (m_severity m))); ("host", JStr (m_host m));
                 ("component", JStr (m_component m)); ("summary", JStr (m_summary m)); ("began_at", JStr (m_began m));
                 ("recovered", JBool (m_recovered m)); ("admin_link", JStr (m_link m))].

(** What goes over the network *)
Inductive transmission :=
| Mail (host : string) (port : Z) (use_tls : bool) (login : option (string * string)) (from_addr : string) (to_addrs : list string)
    (subject body : string)
| PostJson (url : string) (fields : list (string * json))
| PostText (url text : string) (headers : list (string * string))
| PostForm (url : string) (fields : list (string * json)).

(** The header values the [email] package refuses *)
Definition header_value (text : string) : res string :=
  _ ← raise_if (1 <? length (splitlines text)) (PyExc "ValueError" "Header values may not contain linefeed or carriage return characters");
  Ok text.

(** app/notifications.py:460-473 _send_smtp *)
Definition smtp_transmission (host : string) (port : Z) (use_tls : bool) (from_addr to_addrs username secret : string) (m : message)
    : res transmission :=
  subject ← header_value (title m);
  from ← header_value from_addr;
  let to := List.filter (λ a, negb (String.eqb a "")) (strip <$> split_on "," to_addrs) in
  _ ← header_value (join ", " to);
  let login := if String.eqb username "" || String.eqb secret "" then None else Some (username, secret) in
  Ok (Mail host port use_tls login from to subject (join nl (body_lines m))).

(** app/notifications.py:526-541 _send_webhook *)
Definition webhook_transmission (preset secret : string) (m : message) : res transmission :=
  let p := webhook_payload preset m in
  if String.eqb preset "pushover" then
    match partition ":" secret, p with
    | (user_key, true, app_token), JsonBody fields =>
        Ok (PostForm "https://api.pushover.net/1/messages.json" (fields ++ [("token", JStr app_token); ("user", JStr user_key)]))
    | _, _ => Raise (NotificationError "Pushover secret must be '<user_key>:<app_token>'")
    end
  else match p with
  | JsonBody fields => Ok (PostJson secret fields)
  | TextBody text headers => Ok (PostText secret text headers)
  end.

Definition transmission_of (p : provider) (m : message) : res transmission :=
  match np_config p with
  | WebhookConfig preset => webhook_transmission preset (np_secret p) m
  | SmtpConfig host port tls from to username => smtp_transmission host port tls from to username (np_secret p) m
  end.

(** The clock for a provider: microseconds when the cooldown is judged, seconds when the
    outcome is recorded *)
Abbreviation clock := (Z → Z * Z).

Section delivery.
(** The network's answer to a transmission: [Some e] when it raised. *)
Context (network : transmission → option string) (sha256 : string → string).

(** app/notifications.py:544-556 send_provider

    [None] when the message was sent, else the error. *)
Definition send_provider (p : provider) (m : message) : option string :=
  match transmission_of p m with Ok t => network t | Raise e => Some (exc_message e) end.

Definition add_history (at_ : Z) (m : message) (p : provider) (status : delivery) (error : string) (db : ndb) : ndb :=
  db{{n_history ::= (λ l, l ++ [mkHistory (fresh_id (h_id <$> l)) at_ m (np_id p) (np_name p) status error])}}.

Definition status_of (error : option string) : delivery := match error with None => Sent | Some _ => Failed end.

(** app/notifications.py:559-583 send_test *)
Definition send_test (at_ : Z) (began : string) (id : Z) (db : ndb) : res (ndb * option string) :=
  match find_provider id (n_providers db) with
  | None => Raise (provider_not_found id)
  | Some p =>
      let m := mkMessage "test" Info "this appliance" "Notifications" "Test notification from Alderpoint DNS" began false "" in
      let error := send_provider p m in
      let db := on_provider id (λ p : provider,
        p{{np_test := Some (at_, bool_decide (error = None)); np_failure_at := ((λ _, at_) <$> error); np_failure_error := default "" error}}) db in
      Ok (add_history at_ m p (status_of error) (default "" error) db, error)
  end.

(** ** Dispatch *)

(** app/notifications.py:590-591 _fingerprint *)
Definition fingerprint (category component : string) : string := stake 16 (sha256 (category +:+ ":" +:+ component)).

(** The subscriptions an event goes to, with their providers.  The query states no order;
    here it is that of the table. *)
Definition subscribers (category : string) (db : ndb) : list (subscription * provider) :=
  omap (λ s, match find_provider (sb_provider s) (n_providers db) with
             | Some p => if String.eqb (sb_category s) category && sb_enabled s && np_enabled p then Some (s, p) else None
             | None => None
             end) (n_subs db).

(** What became of one delivery *)
Record outcome := mkOutcome { o_provider : Z; o_name : string; o_status : delivery; o_error : string }.

Definition in_cooldown (now_us : Z) (fp : string) (cooldown : Z) (state : option rate_state) : bool :=
  match state with
  | Some r => String.eqb (rs_fingerprint r) fp && (now_us - rs_sent r * 1000000 <? cooldown * 60 * 1000000)%Z
  | None => false
  end.

Definition deliver_one (times : clock) (m : message) (cd : Z) (sub : subscription * provider) (db : ndb) : ndb * list outcome :=
  let '(s, p) := sub in
  let key := (m_category m, np_id p) in
  let '(now_us, at_) := times (np_id p) in
  let fp := fingerprint (m_category m) (m_component m) in
  if severity_rank (m_severity m) <? severity_rank (sb_severity s) then (db, [])
  else if negb (m_recovered m) && in_cooldown now_us fp (default cd (sb_cooldown s)) (n_rate db !! key) then
    let db := db{{n_rate ::= alter (λ r : rate_state, r{{rs_suppressed ::= Z.add 1}}) key}} in
    (add_history at_ m p Suppressed "" db, [mkOutcome (np_id p) (np_name p) Suppressed ""])
  else
    let error := send_provider p m in
    let db := db{{n_rate ::= <[key := mkRate at_ fp 0]>}} in
    let db := add_history at_ m p (status_of error) (default "" error) db in
    let db := on_provider (np_id p) (λ p : provider, p{{np_failure_at := ((λ _, at_) <$> error); np_failure_error := default "" error}}) db in
    (db, [mkOutcome (np_id p) (np_name p) (status_of error) (default "" error)]).

Fixpoint deliver_all (times : clock) (m : message) (cd : Z) (subs : list (subscription * provider)) (db : ndb)
    : ndb * list outcome :=
  match subs with
  | [] => (db, [])
  | s :: subs =>
      let '(db, r) := deliver_one times m cd s db in
      let '(db, rs) := deliver_all times m cd subs db in (db, r ++ rs)
  end.

Definition event_message (now category : string) (sev : severity) (component summary : string) (began : option string) (recovered : bool)
    (admin_link host : string) : message :=
  let began_at := match began with Some b => if String.eqb b "" then now else b | None => now end in
  mkMessage category sev host component summary began_at recovered admin_link.

Definition default_cooldown (db : ndb) : res Z :=
  match n_settings db !! "cooldown_minutes" with Some t => py_int (JStr t) | None => Ok 30%Z end.

(** app/notifications.py:594-668 dispatch *)
Definition dispatch (times : clock) (now category severity component summary : string) (began : option string) (recovered : bool)
    (admin_link host : string) (db : ndb) : res (ndb * list outcome) :=
  match parse_severity severity with
  | None => Raise (NotificationError ("unknown severity " +:+ py_repr severity))
  | Some sev =>
      cooldown ← default_cooldown db;
      let m := event_message now category sev component summary began recovered admin_link host in
      Ok (deliver_all times m cooldown (subscribers category db) db)
  end.

(** app/notifications.py:671-680 history *)
Definition history (limit : nat) (db : ndb) : list history_row := take limit (rev (n_history db)).

(** ** The state of the checks *)

(** app/notifications.py:687-699 get_check_state *)
Definition get_check_state (category component : string) (db : ndb) : option string := n_checks db !! (category, component).
(** app/notifications.py:702-715 set_check_state *)
Definition set_check_state (category component state : string) (db : ndb) : ndb := db{{n_checks ::= <[(category, component) := state]>}}.

(** ** What a dispatch does

    What becomes of an event for one subscriber, judged on the rate state of that
    subscriber alone. *)
Definition verdict (times : clock) (m : message) (cd : Z) (state : option rate_state) (sub : subscription * provider)
    : option (delivery * string) :=
  let '(s, p) := sub in
  if severity_rank (m_severity m) <? severity_rank (sb_severity s) then None
  else if negb (m_recovered m) && in_cooldown (times (np_id p)).1 (fingerprint (m_category m) (m_component m))
                                    (default cd (sb_cooldown s)) state
  then Some (Suppressed, "")
  else Some (status_of (send_provider p m), default "" (send_provider p m)).

Definition outcomes (times : clock) (m : message) (cd : Z) (db : ndb) (sub : subscription * provider) : list outcome :=
  match verdict times m cd (n_rate db !! (m_category m, np_id sub.2)) sub with
  | Some (status, error) => [mkOutcome (np_id sub.2) (np_name sub.2) status error]
  | None => []
  end.

(** The rate state a subscriber is left with *)
Definition rate_after (times : clock) (m : message) (cd : Z) (state : option rate_state) (sub : subscription * provider) : option rate_state :=
  match verdict times m cd state sub with
  | None => state
  | Some (Suppressed, _) => (λ r : rate_state, r{{rs_suppressed ::= Z.add 1}}) <$> state
  | Some _ => Some (mkRate (times (np_id sub.2)).2 (fingerprint (m_category m) (m_component m)) 0)
  end.

(** What is stored of a provider apart from the record of its last failure *)
Definition settled (p : provider) : provider := p{{np_failure_at := None; np_failure_error := ""}}.
Definition row_outcome (r : history_row) : outcome := mkOutcome (h_provider r) (h_name r) (h_status r) (h_error r).

(** The parts of the tables a dispatch leaves alone *)
Definition same_tables (db db' : ndb) : Prop :=
  n_settings db' = n_settings db ∧ n_subs db' = n_subs db ∧ n_checks db' = n_checks db
  ∧ settled <$> n_providers db' = settled <$> n_providers db.

Lemma same_tables_refl db : same_tables db db.
Proof. done. Qed.
Lemma same_tables_trans db1 db2 db3 : same_tables db1 db2 → same_tables db2 db3 → same_tables db1 db3.
Proof. intros (? & ? & ? & ?) (? & ? & ? & ?). split_and!; congruence. Qed.

(** A column an update leaves alone *)
Lemma fmap_update_same {A B} (g : A → B) (c : A → bool) (f : A → A) (l : list A) :
  (∀ x, x ∈ l → g (f x) = g x) → g <$> ((λ x, if c x then f x else x) <$> l) = g <$> l.
Proof.
  intros Hf. rewrite <-list_fmap_compose. apply list_fmap_ext. intros i x Hx%list_elem_of_lookup_2. unfold compose.
  case_match; [by apply Hf|done].
Qed.

Lemma settled_on_provider id at_ error db :
  settled <$> n_providers (on_provider id (λ p : provider, p{{np_failure_at := at_; np_failure_error := error}}) db) = settled <$> n_providers db.
Proof. by apply fmap_update_same. Qed.

Lemma deliver_one_spec times m cd sub db :
  let key := (m_category m, np_id sub.2) in
  let '(db', os) := deliver_one times m cd sub db in
  os = outcomes times m cd db sub
  ∧ same_tables db db'
  ∧ n_rate db' !! key = rate_after times m cd (n_rate db !! key) sub
  ∧ (∀ key', key' ≠ key → n_rate db' !! key' = n_rate db !! key')
  ∧ ∃ rows, n_history db' = n_history db ++ rows ∧ row_outcome <$> rows = os
      ∧ Forall (λ r, h_message r = m ∧ h_at r = (times (np_id sub.2)).2) rows.
Proof.
  destruct sub as [s p]. unfold deliver_one, outcomes, rate_after, verdict, same_tables. cbn [snd].
  destruct (times (np_id p)) as [now_us at_]. cbn [fst snd].
  destruct (_ <? _); [|destruct (negb (m_recovered m) && _)]; cbn.
  - split_and!; try done. exists []. by rewrite app_nil_r.
  - split_and!; try done.
    + by rewrite lookup_alter_eq.
    + intros key' Hk. by rewrite lookup_alter_ne.
    + eexists. split; [reflexivity|]. split; [done|]. by repeat constructor.
  - split_and!; try done.
    + exact (settled_on_provider (np_id p) ((λ _, at_) <$> send_provider p m) (default "" (send_provider p m)) db).
    + rewrite lookup_insert_eq. by destruct (send_provider p m).
    + intros key' Hk. by rewrite lookup_insert_ne.
    + eexists. split; [reflexivity|]. split; [done|]. by repeat constructor.
Qed.

Lemma outcomes_same_rate times m cd db db' sub :
  n_rate db' !! (m_category m, np_id sub.2) = n_rate db !! (m_category m, np_id sub.2) →
  outcomes times m cd db' sub = outcomes times m cd db sub.
Proof. intros Hr. unfold outcomes. by rewrite Hr. Qed.

Lemma bind_ext_in {A B} (f g : A → list B) l : (∀ x, x ∈ l → f x = g x) → l ≫= f = l ≫= g.
Proof.
  induction l as [|x l IH]; intros Hf; [done|]. rewrite !bind_cons, Hf by left. f_equal. apply IH. intros y Hy. apply Hf. by right.
Qed.

(** Deliveries to different providers do not influence each other. *)
Lemma deliver_all_spec times m cd subs db :
  NoDup ((λ sub, np_id sub.2) <$> subs) →
  let '(db', os) := deliver_all times m cd subs db in
  os = subs ≫= outcomes times m cd db
  ∧ same_tables db db'
  ∧ (∀ sub, sub ∈ subs →
       let key := (m_category m, np_id sub.2) in n_rate db' !! key = rate_after times m cd (n_rate db !! key) sub)
  ∧ (∀ key, (∀ sub, sub ∈ subs → key ≠ (m_category m, np_id sub.2)) → n_rate db' !! key = n_rate db !! key)
  ∧ ∃ rows, n_history db' = n_history db ++ rows ∧ row_outcome <$> rows = os
      ∧ Forall (λ r, h_message r = m ∧ h_at r = (times (h_provider r)).2) rows.
Proof.
  revert db. induction subs as [|sub subs IH]; intros db Hnd.
  { cbn. split_and!; try done; [set_solver|]. exists []. by rewrite app_nil_r. }
  apply NoDup_cons in Hnd as [Hsub Hnd]. cbn [deliver_all].
  assert (∀ sub', sub' ∈ subs → (m_category m, np_id sub'.2) ≠ (m_category m, np_id sub.2)) as Hne.
  { intros sub' Hin [= E]. apply Hsub. rewrite <-E. by apply (list_elem_of_fmap_2 (λ sub, np_id sub.2)). }
  pose proof (deliver_one_spec times m cd sub db) as H1. destruct (deliver_one _ _ _ _ _) as [db1 os1]. cbn in H1.
  destruct H1 as (-> & Hs1 & Hr1 & Hf1 & rows1 & Hh1 & Ho1 & Ha1).
  pose proof (IH db1 Hnd) as H2. destruct (deliver_all _ _ _ _ _) as [db2 os2].
  destruct H2 as (-> & Hs2 & Hr2 & Hf2 & rows2 & Hh2 & Ho2 & Ha2).
  split_and!.
  - rewrite bind_cons. f_equal. apply bind_ext_in.
    intros sub' Hin. apply outcomes_same_rate, Hf1. by apply Hne.
  - by eapply same_tables_trans.
  - intros sub' [->|Hin]%elem_of_cons; cbn zeta.
    + rewrite Hf2, Hr1; [done|]. intros sub' Hin E. by apply (Hne sub' Hin).
    + rewrite Hr2, Hf1 by auto. done.
  - intros key Hk. rewrite Hf2, Hf1; [done| |].
    + apply Hk. left.
    + intros sub' Hin. apply Hk. by right.
  - exists (rows1 ++ rows2). rewrite Hh2, Hh1, <-(assoc_L app), fmap_app, Ho1, Ho2. split; [done|]. split; [done|].
    apply Forall_app. split; [|done]. rewrite Forall_forall in Ha1 |- *. intros r Hin. destruct (Ha1 r Hin) as [Hm Hat].
    split; [done|]. rewrite Hat. f_equal. f_equal.
    apply (list_elem_of_fmap_2 row_outcome) in Hin. rewrite Ho1 in Hin. unfold outcomes in Hin.
    destruct (verdict _ _ _ _ _) as [[st e]|]; [|by apply elem_of_nil in Hin].
    apply list_elem_of_singleton in Hin. by injection Hin.
Qed.

(** ** The tables *)

Definition sub_key (s : subscription) : Z * string := (sb_provider s, sb_category s).

Definition config_ok (c : provider_config) : Prop :=
  match c with
  | SmtpConfig host port _ from to _ => host ≠ "" ∧ (1 ≤ port ≤ 65535)%Z ∧ from ≠ "" ∧ to ≠ ""
  | WebhookConfig preset => preset ∈ WEBHOOK_PRESETS
  end.

Definition provider_ok (p : provider) : Prop :=
  np_name p ≠ "" ∧ config_ok (np_config p) ∧ (is_webhook (np_config p) = true → np_secret p ≠ "").

Record notify_ok (db : ndb) : Prop := {
  ok_provider_ids : NoDup (np_id <$> n_providers db);
  ok_providers : Forall provider_ok (n_providers db);
  ok_sub_ids : NoDup (sb_id <$> n_subs db);
  ok_sub_keys : NoDup (sub_key <$> n_subs db);
  ok_categories : Forall (λ s, sb_category s ∈ (λ c, c.1.1) <$> EVENT_CATEGORIES) (n_subs db);
  ok_history : NoDup (h_id <$> n_history db);
  ok_cooldown : ∃ z, n_settings db !! "cooldown_minutes" = Some (str_int z) ∧ (0 ≤ z ≤ 1440)%Z }.

Lemma validate_provider_ok kind config c :
  validate_provider kind config = Ok c → config_ok c ∧ is_webhook c = String.eqb kind "webhook".
Proof.
  unfold validate_provider. destruct (negb _) eqn:Hk; [done|]. apply negb_false_iff in Hk. destruct (String.eqb_spec kind "smtp") as [->|Hs].
  - intros Hc. repeat (apply res_bind_ok in Hc as (? & ? & Hc)). injection Hc as <-.
    repeat match goal with H : raise_if _ _ = Ok _ |- _ => destruct x; apply raise_if_ok in H | H : raise_if _ _ = Ok ?u |- _ => destruct u; apply raise_if_ok in H end.
    bool_to_prop. repeat match goal with H : String.eqb _ _ = false |- _ => apply String.eqb_neq in H end.
    split; [|done]. cbn. split_and!; try done; by apply Z.leb_le.
  - intros (p & Hp & Hc)%res_bind_ok. apply res_bind_ok in Hc as ([] & Hr & [= <-]). apply raise_if_ok in Hr.
    apply negb_false_iff in Hr. apply existsb_true in Hr as (q & Hq & ->%String.eqb_eq). split; [done|].
    cbn in Hk. apply String.eqb_neq in Hs. rewrite Hs in Hk. by destruct (String.eqb kind "webhook").
Qed.

Lemma on_provider_ok id f db :
  (∀ p, p ∈ n_providers db → np_id (f p) = np_id p ∧ (provider_ok p → provider_ok (f p))) → notify_ok db → notify_ok (on_provider id f db).
Proof.
  intros Hf [Hi Hp Hs Hk Hc Hh Hd]. split; cbn; try done.
  - rewrite fmap_update_same; [done|]. intros p Hin. by apply Hf.
  - apply Forall_fmap. rewrite Forall_forall in Hp |- *. intros p Hin.
    change (provider_ok (if (np_id p =? id)%Z then f p else p)). destruct (np_id p =? id)%Z; [apply Hf|]; auto.
Qed.

Lemma set_failure_ok id at_ error db :
  notify_ok db → notify_ok (on_provider id (λ p : provider, p{{np_failure_at := at_; np_failure_error := error}}) db).
Proof. intros Hok. by apply on_provider_ok. Qed.

Lemma add_history_ok at_ m p status error db : notify_ok db → notify_ok (add_history at_ m p status error db).
Proof. intros [Hi Hp Hs Hk Hc Hh Hd]. split; cbn; try done. by apply NoDup_fresh. Qed.

Lemma rate_ok f db : notify_ok db → notify_ok (db{{n_rate ::= f}}).
Proof. intros [Hi Hp Hs Hk Hc Hh Hd]. by split. Qed.

Lemma deliver_one_ok times m cd sub db : notify_ok db → notify_ok (deliver_one times m cd sub db).1.
Proof.
  intros Hok. destruct sub as [s p]. unfold deliver_one. destruct (times (np_id p)) as [u a].
  destruct (_ <? _); [done|]. destruct (negb _ && _); cbn [fst].
  - by apply add_history_ok, rate_ok.
  - by apply set_failure_ok, add_history_ok, rate_ok.
Qed.

Lemma deliver_all_ok times m cd subs db : notify_ok db → notify_ok (deliver_all times m cd subs db).1.
Proof.
  revert db. induction subs as [|sub subs IH]; intros db Hok; [done|]. cbn [deliver_all].
  pose proof (deliver_one_ok times m cd sub db Hok) as H1. destruct (deliver_one _ _ _ _ _) as [db1 o1].
  pose proof (IH db1 H1) as H2. by destruct (deliver_all _ _ _ _ _).
Qed.

Lemma add_provider_ok kind name config secret enabled db db' id :
  notify_ok db → add_provider kind name config secret enabled db = Ok (db', id) → notify_ok db'.
Proof.
  intros [Hi Hp Hs Hk Hc Hh Hd] Ha. unfold add_provider in Ha.
  apply res_bind_ok in Ha as ([] & Hn%raise_if_ok & Ha). apply res_bind_ok in Ha as (c & Hv & Ha).
  apply res_bind_ok in Ha as ([] & Hw%raise_if_ok & Ha). apply Ok_pair_inj in Ha as [<- <-].
  apply validate_provider_ok in Hv as [Hc' Hkind]. apply String.eqb_neq in Hn.
  split; cbn; try done; [by apply NoDup_fresh|]. apply Forall_app. split; [done|]. apply Forall_singleton.
  split_and!; cbn; [done|done|]. rewrite Hkind. intros Hwk. rewrite Hwk, andb_true_r in Hw. intros ->. done.
Qed.

Lemma update_provider_ok id name config secret enabled db db' :
  notify_ok db → update_provider id name config secret enabled db = Ok db' → notify_ok db'.
Proof.
  intros Hok Hu. unfold update_provider in Hu. destruct (find_provider id (n_providers db)) as [row|] eqn:Hf; [|done].
  apply res_bind_ok in Hu as (c & Hc & Hu). apply Ok_inj in Hu. subst db'.
  apply find_first_Some in Hf as [Hin _]. pose proof (ok_providers _ Hok) as Hps. rewrite Forall_forall in Hps.
  destruct (Hps row Hin) as (Hn & Hcfg & Hsec). apply on_provider_ok; [|done]. intros p _. split; [done|]. intros _.
  assert (config_ok c ∧ is_webhook c = is_webhook (np_config row)) as [Hc1 Hc2].
  { destruct config as [j|]; [|by injection Hc as <-]. apply validate_provider_ok in Hc as [H1 ->]. split; [done|]. by destruct (is_webhook _). }
  split_and!; cbn.
  - destruct (String.eqb_spec (strip (default "" name)) ""); done.
  - done.
  - rewrite Hc2. intros Hwk. destruct secret as [x|]; [|by apply Hsec]. destruct (String.eqb_spec x ""); [by apply Hsec|done].
Qed.

Lemma set_subscription_ok provider_id category sev enabled cooldown db db' :
  notify_ok db → set_subscription provider_id category sev enabled cooldown db = Ok db' → notify_ok db'.
Proof.
  intros [Hi Hp Hs Hk Hc Hh Hd]. unfold set_subscription. destruct (negb _) eqn:Hcat; [done|].
  apply negb_false_iff, existsb_true in Hcat as (c & Hcin & <-%String.eqb_eq).
  pose proof (list_elem_of_fmap_2 (λ c : string * bool * severity, c.1.1) _ _ Hcin) as Hcat.
  destruct (parse_severity sev) as [x|]; [|done]. cbn zeta.
  set (same := λ s, (sb_provider s =? provider_id)%Z && String.eqb (sb_category s) c.1.1). destruct (existsb same (n_subs db)) eqn:He.
  - intros [= <-]. split; cbn; try done.
    + by rewrite fmap_update_same.
    + by rewrite fmap_update_same.
    + apply Forall_fmap. eapply Forall_impl; [exact Hc|]. intros s. unfold compose. by case_match.
  - intros [= <-]. rewrite existsb_false in He. split; cbn; try done.
    + by apply NoDup_fresh.
    + apply NoDup_fmap_snoc; [done|]. intros s Hin E. specialize (He s Hin). unfold same in He.
      injection E as E1 E2. cbn in E1, E2. by rewrite E1, E2, Z.eqb_refl, String.eqb_refl in He.
    + apply Forall_app. split; [done|]. apply Forall_singleton. exact Hcat.
Qed.

(** Everything that changes the tables *)
Inductive notify_step (db : ndb) : ndb → Prop :=
| ns_settings values db' : update_notification_settings values db = Ok db' → notify_step db db'
| ns_add kind name config secret enabled db' id : add_provider kind name config secret enabled db = Ok (db', id) → notify_step db db'
| ns_update id name config secret enabled db' : update_provider id name config secret enabled db = Ok db' → notify_step db db'
| ns_delete id : notify_step db (delete_provider id db)
| ns_toggle id : notify_step db (toggle_provider id db)
| ns_clear id : notify_step db (clear_provider_failure id db)
| ns_subscribe id category sev enabled cooldown db' : set_subscription id category sev enabled cooldown db = Ok db' → notify_step db db'
| ns_unsubscribe id : notify_step db (delete_subscription id db)
| ns_test at_ began id db' error : send_test at_ began id db = Ok (db', error) → notify_step db db'
| ns_dispatch times now category sev component summary began recovered link host db' os :
    dispatch times now category sev component summary began recovered link host db = Ok (db', os) → notify_step db db'
| ns_check category component state : notify_step db (set_check_state category component state db).

Lemma update_notification_settings_ok values db db' :
  notify_ok db → update_notification_settings values db = Ok db' → notify_ok db'.
Proof.
  intros [Hi Hp Hs Hk Hc Hh Hd] Hu. unfold update_notification_settings in Hu. destruct values; try done.
  destruct (field _ _) as [v|]; [|by injection Hu as <-].
  apply res_bind_ok in Hu as (z & _ & Hu). apply res_bind_ok in Hu as ([] & Hz%raise_if_ok & [= <-]). bool_to_prop.
  split; cbn; try done. exists z. rewrite lookup_insert_eq. split; [done|]. lia.
Qed.

Lemma delete_provider_ok id db : notify_ok db → notify_ok (delete_provider id db).
Proof.
  intros [Hi Hp Hs Hk Hc Hh Hd]. split; cbn; try done; try by apply NoDup_fmap_filterb.
  - rewrite Forall_forall in Hp |- *. intros p [Hin _]%elem_of_filterb. auto.
  - rewrite Forall_forall in Hc |- *. intros s [Hin _]%elem_of_filterb. auto.
Qed.

Lemma delete_subscription_ok id db : notify_ok db → notify_ok (delete_subscription id db).
Proof.
  intros [Hi Hp Hs Hk Hc Hh Hd]. split; cbn; try done; try by apply NoDup_fmap_filterb.
  rewrite Forall_forall in Hc |- *. intros s [Hin _]%elem_of_filterb. auto.
Qed.

Lemma dispatch_ok times now category sev component summary began recovered link host db db' os :
  notify_ok db → dispatch times now category sev component summary began recovered link host db = Ok (db', os) → notify_ok db'.
Proof.
  intros Hok. unfold dispatch. destruct (parse_severity sev); [|done]. intros (cd & _ & Hd)%res_bind_ok.
  apply Ok_inj in Hd. replace db' with (db', os).1 by done. rewrite <-Hd. by apply deliver_all_ok.
Qed.

Lemma notify_step_ok db db' : notify_ok db → notify_step db db' → notify_ok db'.
Proof.
  intros Hok [values d Hs|k n c sc en d id Hs|id n c sc en d Hs|id|id|id|id cat sv en cd d Hs|id|a b id d e Hs|ti now cat sv c su b r li h d os Hs|].
  - exact (update_notification_settings_ok _ _ _ Hok Hs).
  - exact (add_provider_ok _ _ _ _ _ _ _ _ Hok Hs).
  - exact (update_provider_ok _ _ _ _ _ _ _ Hok Hs).
  - by apply delete_provider_ok.
  - by apply on_provider_ok.
  - by apply on_provider_ok.
  - exact (set_subscription_ok _ _ _ _ _ _ _ Hok Hs).
  - by apply delete_subscription_ok.
  - unfold send_test in Hs. destruct (find_provider _ (n_providers db)); [|done]. simplify_eq. by apply add_history_ok, on_provider_ok.
  - exact (dispatch_ok _ _ _ _ _ _ _ _ _ _ _ _ _ Hok Hs).
  - destruct Hok. by split.
Qed.

(** C25: Every table the notification operations build from the initial one keeps ids
    unique, one subscription per provider and category, complete provider settings with a
    destination for each webhook, and a cooldown that is a number within its bounds. *)
Theorem notifications_invariant db : rtc notify_step empty_ndb db → notify_ok db.
Proof.
  intros Hr. assert (notify_ok empty_ndb) as H0.
  { split; cbn; try constructor. exists 30%Z. split; [done|lia]. }
  induction Hr as [db|db1 db2 db3 Hs _ IH]; [done|]. by eapply IH, notify_step_ok.
Qed.

(** ** A dispatch *)

Lemma elem_of_subscribers category db s p :
  (s, p) ∈ subscribers category db →
  s ∈ n_subs db ∧ find_provider (sb_provider s) (n_providers db) = Some p ∧ sb_category s = category ∧ np_id p = sb_provider s
  ∧ sb_enabled s = true ∧ np_enabled p = true.
Proof.
  unfold subscribers. intros (s' & Hin & Hs)%list_elem_of_omap. destruct (find_provider _ _) as [p'|] eqn:Hf; [|done].
  destruct (String.eqb _ _ && _ && _) eqn:Hc; [|done]. injection Hs as -> ->. bool_to_prop.
  repeat match goal with H : String.eqb _ _ = true |- _ => apply String.eqb_eq in H end.
  split_and!; try done. apply find_first_Some in Hf as [_ Hf%Z.eqb_eq]. done.
Qed.

Lemma subscribers_NoDup category db : notify_ok db → NoDup ((λ sub, np_id sub.2) <$> subscribers category db).
Proof.
  intros [_ _ _ Hk _ _ _].
  assert (∀ s p, (s, p) ∈ subscribers category db → sub_key s = (np_id p, category)) as Hkey.
  { intros s p (_ & _ & Hc & Hp & _)%elem_of_subscribers. unfold sub_key. by rewrite Hc, Hp. }
  revert Hk Hkey. unfold subscribers. generalize (n_providers db) as ps. intros ps. induction (n_subs db) as [|s l IH]; [constructor|].
  rewrite fmap_cons, NoDup_cons. intros [Hs Hl] Hkey. cbn [omap list_omap] in *.
  destruct (match find_provider (sb_provider s) ps with Some _ => _ | None => None end) as [[s' p]|] eqn:E; [|by apply IH].
  rewrite fmap_cons, NoDup_cons. split; [|apply IH; [done|]; intros; apply Hkey; by right].
  intros ((s2 & p2) & Hp2 & Hin)%list_elem_of_fmap. cbn in Hp2. apply Hs.
  assert (sub_key s' = sub_key s2) as Hss.
  { rewrite (Hkey s' p), (Hkey s2 p2), Hp2; [done|by right|left]. }
  assert (s' = s) as ->. { repeat case_match; by simplify_eq. }
  rewrite Hss. apply list_elem_of_omap in Hin as (s3 & Hin3 & E3).
  assert (s2 = s3) as ->. { repeat case_match; by simplify_eq. }
  by apply list_elem_of_fmap_2.
Qed.

Lemma default_cooldown_ok db : notify_ok db → ∃ z, default_cooldown db = Ok z ∧ (0 ≤ z ≤ 1440)%Z.
Proof.
  intros Hok. destruct (ok_cooldown _ Hok) as (z & Hz & Hb). exists z. split; [|done].
  unfold default_cooldown. rewrite Hz. cbn. rewrite int_of_str_int; [done|lia].
Qed.

Lemma dispatch_runs times now category severity component summary began recovered link host db sev :
  notify_ok db → parse_severity severity = Some sev →
  ∃ db' cd,
    let m := event_message now category sev component summary began recovered link host in
    let subs := subscribers category db in
    dispatch times now category severity component summary began recovered link host db
      = Ok (db', subs ≫= outcomes times m cd db)
    ∧ default_cooldown db = Ok cd ∧ (0 ≤ cd ≤ 1440)%Z
    ∧ same_tables db db'
    ∧ (∀ s p, (s, p) ∈ subs → n_rate db' !! (category, np_id p) = rate_after times m cd (n_rate db !! (category, np_id p)) (s, p))
    ∧ (∀ key, (∀ s p, (s, p) ∈ subs → key ≠ (category, np_id p)) → n_rate db' !! key = n_rate db !! key)
    ∧ ∃ rows, n_history db' = n_history db ++ rows ∧ row_outcome <$> rows = subs ≫= outcomes times m cd db
        ∧ Forall (λ r, h_message r = m ∧ h_at r = (times (h_provider r)).2) rows.
Proof.
  intros Hok Hsev. destruct (default_cooldown_ok db Hok) as (cd & Hcd & Hb).
  pose proof (subscribers_NoDup category db Hok) as Hnd.
  set (m := event_message now category sev component summary began recovered link host).
  pose proof (deliver_all_spec times m cd _ db Hnd) as Hd. unfold dispatch. rewrite Hsev, Hcd. cbn. fold m.
  destruct (deliver_all _ _ _ _ _) as [db' os]. destruct Hd as (-> & Hs & Hr & Hf & Hh).
  exists db', cd. split_and!; try done; [lia|lia| |].
  - intros s p Hin. exact (Hr (s, p) Hin).
  - intros key Hk. apply Hf. intros [s p] Hin. exact (Hk s p Hin).
Qed.

(** ** Repeated reports *)

(** A report of one component's failure: when, and how it reads *)
Record report := mkReport {
  rp_times : clock; rp_now : string; rp_severity : string; rp_summary : string; rp_began : option string; rp_link : string; rp_host : string }.

Definition report_failure (category component : string) (db : ndb) (e : report) : ndb :=
  match dispatch (rp_times e) (rp_now e) category (rp_severity e) component (rp_summary e) (rp_began e) false (rp_link e) (rp_host e) db with
  | Ok (db', _) => db'
  | Raise _ => db
  end.

(** The times at which a delivery to a provider was attempted *)
Definition attempted (id : Z) (r : history_row) : bool := (h_provider r =? id)%Z && bool_decide (h_status r ≠ Suppressed).
Definition attempts (id : Z) (rows : list history_row) : list Z := h_at <$> List.filter (attempted id) rows.

Definition o_attempt (id : Z) (o : outcome) : bool := (o_provider o =? id)%Z && bool_decide (o_status o ≠ Suppressed).

Definition spaced (gap : Z) (l : list Z) : Prop := ∀ i t t', l !! i = Some t → l !! S i = Some t' → (t + gap ≤ t')%Z.

Lemma spaced_snoc gap l t : spaced gap l → (∀ u, last l = Some u → (u + gap ≤ t)%Z) → spaced gap (l ++ [t]).
Proof.
  intros Hl Ht i a b Ha Hb. pose proof (lookup_lt_Some _ _ _ Hb) as Hlt. rewrite length_app in Hlt. cbn in Hlt.
  rewrite lookup_app_l in Ha by lia. destruct (decide (S i = length l)) as [E|E].
  - rewrite E, list_lookup_middle in Hb by done. injection Hb as <-. apply Ht. rewrite last_lookup, <-E. done.
  - rewrite lookup_app_l in Hb by lia. by eapply Hl.
Qed.

Lemma attempts_row (times : clock) id rows :
  Forall (λ r, h_at r = (times (h_provider r)).2) rows →
  attempts id rows = (λ _, (times id).2) <$> List.filter (o_attempt id) (row_outcome <$> rows).
Proof.
  unfold attempts. induction 1 as [|r rows Hr _ IH]; [done|]. cbn.
  change (o_attempt id (row_outcome r)) with (attempted id r). destruct (attempted id r) eqn:Ha; [|exact IH].
  cbn. rewrite <-IH, Hr. unfold attempted in Ha. bool_to_prop. f_equal. f_equal. f_equal. by apply Z.eqb_eq.
Qed.

(** The outcomes for one subscriber, among those of all *)
Lemma outcomes_filter (P : outcome → bool) times m cd db subs s p :
  (∀ o, P o = true → o_provider o = np_id p) → NoDup ((λ sub, np_id sub.2) <$> subs) → (s, p) ∈ subs →
  List.filter P (subs ≫= outcomes times m cd db) = List.filter P (outcomes times m cd db (s, p)).
Proof.
  intros HP. assert (∀ sub, np_id sub.2 ≠ np_id p → List.filter P (outcomes times m cd db sub) = []) as Hother.
  { intros sub Hne. unfold outcomes. destruct (verdict _ _ _ _ _) as [[st e]|]; [|done]. cbn.
    destruct (P _) eqn:E; [|done]. by apply HP in E. }
  assert (∀ l, np_id p ∉ (λ sub, np_id sub.2) <$> l → List.filter P (l ≫= outcomes times m cd db) = []) as Hnone.
  { induction l as [|sub l IH]; [done|]. rewrite fmap_cons, not_elem_of_cons. intros [Hne Hl].
    rewrite bind_cons, List.filter_app, IH, app_nil_r by done. by apply Hother. }
  induction subs as [|sub subs IH]; [by intros _ ?%elem_of_nil|]. rewrite fmap_cons, NoDup_cons. intros [Hs Hnd] Hin.
  rewrite bind_cons, List.filter_app. apply elem_of_cons in Hin as [<-|Hin].
  - by rewrite Hnone, app_nil_r.
  - rewrite Hother, IH; [done..|]. intros E. apply Hs. rewrite E. by apply (list_elem_of_fmap_2 (λ sub, np_id sub.2) _ (s, p)).
Qed.

Lemma o_attempt_provider id o : o_attempt id o = true → o_provider o = id.
Proof. unfold o_attempt. intros [H _]%andb_prop. by apply Z.eqb_eq. Qed.

Lemma find_provider_settled id ps ps' p :
  settled <$> ps' = settled <$> ps → find_provider id ps = Some p → ∃ p', find_provider id ps' = Some p' ∧ settled p' = settled p.
Proof.
  revert ps'. induction ps as [|q ps IH]; [done|]. intros [|q' ps']; [done|]. rewrite !fmap_cons. intros Hcons.
  assert (settled q' = settled q ∧ settled <$> ps' = settled <$> ps) as [Hq Hps] by (split; congruence).
  assert (np_id q' = np_id q) as Hid by exact (f_equal np_id Hq).
  unfold find_provider. cbn [find_first]. rewrite Hid. destruct (np_id q =? id)%Z.
  - intros [= ->]. by exists q'.
  - intros Hf. apply (IH ps' Hps Hf).
Qed.

Lemma subscribers_settled category db db' s p :
  same_tables db db' → (s, p) ∈ subscribers category db → ∃ p', (s, p') ∈ subscribers category db' ∧ settled p' = settled p.
Proof.
  intros (_ & Hs & _ & Hp) Hin. pose proof (elem_of_subscribers _ _ _ _ Hin) as (Hs1 & Hf & Hc & _ & He & Hpe).
  destruct (find_provider_settled _ _ _ _ Hp Hf) as (p' & Hf' & Hsame). exists p'. split; [|done].
  apply list_elem_of_omap. exists s. rewrite Hs. split; [done|]. rewrite Hf', Hc, String.eqb_refl, He.
  assert (np_enabled p' = np_enabled p) as -> by exact (f_equal np_enabled Hsame). by rewrite Hpe.
Qed.

(** One report, seen by one subscriber *)
Lemma report_failure_step category component db e s p cd :
  notify_ok db → (s, p) ∈ subscribers category db → default_cooldown db = Ok cd →
  let db' := report_failure category component db e in
  let key := (category, np_id p) in
  let fp := fingerprint category component in
  notify_ok db' ∧ same_tables db db'
  ∧ ((∃ r, attempts (np_id p) (n_history db') = attempts (np_id p) (n_history db)
        ∧ n_rate db' !! key = (λ x : rate_state, x{{rs_suppressed ::= Z.add r}}) <$> n_rate db !! key)
     ∨ (in_cooldown (rp_times e (np_id p)).1 fp (default cd (sb_cooldown s)) (n_rate db !! key) = false
        ∧ attempts (np_id p) (n_history db') = attempts (np_id p) (n_history db) ++ [(rp_times e (np_id p)).2]
        ∧ n_rate db' !! key = Some (mkRate (rp_times e (np_id p)).2 fp 0))).
Proof.
  intros Hok Hin Hcd. cbn zeta. unfold report_failure. set (fp := fingerprint category component).
  assert (∀ x : option rate_state, (λ r : rate_state, r{{rs_suppressed ::= Z.add 0}}) <$> x = x) as Hadd0 by (by intros [[]|]).
  destruct (parse_severity (rp_severity e)) as [sev|] eqn:Hsev.
  2:{ unfold dispatch. rewrite Hsev. split; [done|]. split; [done|]. left. exists 0%Z. by rewrite Hadd0. }
  destruct (dispatch_runs (rp_times e) (rp_now e) category (rp_severity e) component (rp_summary e) (rp_began e) false (rp_link e) (rp_host e) db sev Hok Hsev)
    as (db' & cd' & Hd & Hcd' & _ & Hs & Hr & _ & rows & Hh & Ho & Ha). rewrite Hcd in Hcd'. injection Hcd' as <-.
  pose proof (dispatch_ok _ _ _ _ _ _ _ _ _ _ _ _ _ Hok Hd) as Hok'. rewrite Hd. split; [done|]. split; [done|].
  assert (attempts (np_id p) (n_history db') = attempts (np_id p) (n_history db) ++ attempts (np_id p) rows) as ->.
  { unfold attempts. by rewrite Hh, List.filter_app, fmap_app. }
  assert (Forall (λ r, h_at r = (rp_times e (h_provider r)).2) rows) as Hat.
  { rewrite Forall_forall in Ha |- *. intros r Hin'. by apply Ha. }
  rewrite (Hr s p Hin), (attempts_row (rp_times e) _ _ Hat), Ho, (outcomes_filter _ _ _ _ _ _ s p (o_attempt_provider _) (subscribers_NoDup _ _ Hok) Hin).
  unfold outcomes, rate_after, verdict. cbn [snd m_severity m_recovered m_category m_component event_message]. fold fp.
  destruct (_ <? _); [left; exists 0%Z; by rewrite Hadd0, app_nil_r|]. cbn [negb andb].
  destruct (in_cooldown _ _ _ _) eqn:Hc; cbn.
  - left. exists 1%Z. unfold o_attempt. cbn. by rewrite andb_false_r, app_nil_r.
  - right. split; [done|]. unfold o_attempt. cbn. rewrite Z.eqb_refl.
    by destruct (send_provider p _).
Qed.

(** What the tables remember of the attempts made since [old] *)
Definition remembers (id : Z) (category component : string) (gap : Z) (old : list Z) (db : ndb) : Prop :=
  ∃ ts, attempts id (n_history db) = old ++ ts ∧ spaced gap ts
    ∧ (ts = [] ∨ ∃ r, n_rate db !! (category, id) = Some r ∧ rs_fingerprint r = fingerprint category component ∧ last ts = Some (rs_sent r)).

(** The second an attempt is recorded at is not before the moment its cooldown was judged *)
Definition clock_ok (e : report) : Prop := ∀ id, ((rp_times e id).1 < ((rp_times e id).2 + 1) * 1000000)%Z.

Lemma remembers_step category component old db e s p cd :
  notify_ok db → (s, p) ∈ subscribers category db → default_cooldown db = Ok cd → clock_ok e →
  let gap := (default cd (sb_cooldown s) * 60)%Z in
  remembers (np_id p) category component gap old db →
  remembers (np_id p) category component gap old (report_failure category component db e).
Proof.
  intros Hok Hin Hcd Hclock gap (ts & Hts & Hsp & Hlast).
  destruct (report_failure_step category component db e s p cd Hok Hin Hcd) as (_ & _ & [(r & Ha & Hr)|(Hc & Ha & Hr)]).
  - exists ts. rewrite Ha, Hr. split; [done|]. split; [done|]. destruct Hlast as [->|(x & Hx & Hf & Hl)]; [by left|].
    right. rewrite Hx. eexists. split; [reflexivity|]. by destruct x.
  - exists (ts ++ [(rp_times e (np_id p)).2]). rewrite Ha, Hts, (assoc_L app). split; [done|]. split.
    + apply spaced_snoc; [done|]. intros u Hu. destruct Hlast as [->|(x & Hx & Hf & Hl)]; [done|].
      rewrite Hl in Hu. injection Hu as <-. unfold in_cooldown in Hc. rewrite Hx, Hf, String.eqb_refl in Hc.
      cbn in Hc. apply Z.ltb_ge in Hc. specialize (Hclock (np_id p)). unfold gap. lia.
    + right. exists (mkRate (rp_times e (np_id p)).2 (fingerprint category component) 0). split; [done|].
      split; [done|]. by rewrite last_snoc.
Qed.

Lemma remembers_run category component old gap es db s p cd :
  notify_ok db → (s, p) ∈ subscribers category db → default_cooldown db = Ok cd → Forall clock_ok es →
  gap = (default cd (sb_cooldown s) * 60)%Z →
  remembers (np_id p) category component gap old db →
  remembers (np_id p) category component gap old (fold_left (report_failure category component) es db).
Proof.
  revert db p. induction es as [|e es IH]; intros db p Hok Hin Hcd Hes -> Hrem; [done|].
  apply Forall_cons in Hes as [He Hes]. cbn [fold_left].
  destruct (report_failure_step category component db e s p cd Hok Hin Hcd) as (Hok' & Hs & _).
  destruct (subscribers_settled _ _ _ _ _ Hs Hin) as (p' & Hin' & Hp').
  assert (np_id p' = np_id p) as Hid by exact (f_equal np_id Hp'). rewrite <-Hid. apply IH; try done.
  - unfold default_cooldown. destruct Hs as [-> _]. exact Hcd.
  - rewrite Hid. by apply remembers_step.
Qed.

(** *** What a provider is told of one component *)

Definition about (id : Z) (category component : string) (r : history_row) : bool :=
  (h_provider r =? id)%Z && String.eqb (m_category (h_message r)) category && String.eqb (m_component (h_message r)) component.
Definition notices (id : Z) (category component : string) (db : ndb) : list (bool * delivery) :=
  (λ r, (m_recovered (h_message r), h_status r)) <$> List.filter (about id category component) (n_history db).

Lemma notices_rows id m rows :
  Forall (λ r, h_message r = m) rows →
  (λ r, (m_recovered (h_message r), h_status r)) <$> List.filter (about id (m_category m) (m_component m)) rows
  = (λ o, (m_recovered m, o_status o)) <$> List.filter (λ o, o_provider o =? id)%Z (row_outcome <$> rows).
Proof.
  induction 1 as [|r rows Hr _ IH]; [done|]. cbn.
  assert (about id (m_category m) (m_component m) r = (h_provider r =? id)%Z) as ->.
  { unfold about. by rewrite Hr, !String.eqb_refl, !andb_true_r. }
  destruct (h_provider r =? id)%Z; [|exact IH]. cbn. rewrite IH. by rewrite Hr.
Qed.

Lemma dispatch_notices times now category severity component summary began recovered link host db sev s p :
  notify_ok db → parse_severity severity = Some sev → (s, p) ∈ subscribers category db →
  ∃ db' os cd,
    let m := event_message now category sev component summary began recovered link host in
    let v := verdict times m cd (n_rate db !! (category, np_id p)) (s, p) in
    dispatch times now category severity component summary began recovered link host db = Ok (db', os)
    ∧ default_cooldown db = Ok cd ∧ notify_ok db' ∧ same_tables db db'
    ∧ n_rate db' !! (category, np_id p) = rate_after times m cd (n_rate db !! (category, np_id p)) (s, p)
    ∧ notices (np_id p) category component db'
      = notices (np_id p) category component db ++ match v with Some (st, _) => [(recovered, st)] | None => [] end.
Proof.
  intros Hok Hsev Hin. destruct (dispatch_runs times now category severity component summary began recovered link host db sev Hok Hsev)
    as (db' & cd & Hd & Hcd & _ & Hs & Hr & _ & rows & Hh & Ho & Ha). cbn zeta in *.
  exists db', (subscribers category db ≫= outcomes times (event_message now category sev component summary began recovered link host) cd db), cd.
  set (m := event_message now category sev component summary began recovered link host) in *.
  split_and!; [exact Hd|exact Hcd|by eapply dispatch_ok|exact Hs|by apply Hr|]. unfold notices.
  rewrite Hh, List.filter_app, fmap_app. f_equal.
  assert (Forall (λ r, h_message r = m) rows) as Hm.
  { rewrite Forall_forall in Ha |- *. intros r Hin'. by apply Ha. }
  etransitivity; [exact (notices_rows (np_id p) m rows Hm)|]. rewrite Ho, (outcomes_filter (λ o, o_provider o =? np_id p)%Z times m cd db _ s p); [| |by apply subscribers_NoDup|done].
  - unfold outcomes. change (m_category m) with category. cbn [snd].
    destruct (verdict _ _ _ _ _) as [[st e]|]; [|done]. cbn. by rewrite Z.eqb_refl.
  - intros o. apply Z.eqb_eq.
Qed.


(** However often a component's failure is reported, a subscriber is tried at most once
    in each cooldown: the times recorded for the attempts of these reports lie at least the
    cooldown apart, whether the deliveries succeeded or not. *)
Theorem cooldown_spacing category component es db s p cd :
  notify_ok db → (s, p) ∈ subscribers category db → default_cooldown db = Ok cd → Forall clock_ok es →
  ∃ ts, attempts (np_id p) (n_history (fold_left (report_failure category component) es db))
          = attempts (np_id p) (n_history db) ++ ts
        ∧ spaced (default cd (sb_cooldown s) * 60) ts.
Proof.
  intros Hok Hin Hcd Hes.
  destruct (remembers_run category component (attempts (np_id p) (n_history db)) _ es db s p cd Hok Hin Hcd Hes eq_refl) as (ts & Ha & Hs & _).
  - exists []. rewrite app_nil_r. split; [done|]. split; [by intros i|by left].
  - by exists ts.
Qed.
End delivery.

(** *** A provider that is told of a failure *)

Definition sample_provider : provider := mkProvider 1 "ops" true (WebhookConfig "generic") "https://hook.example/x" None None "".
Definition sample_ndb : ndb :=
  mkNdb (<["cooldown_minutes" := "30"]> ∅) [sample_provider] [mkSubscription 1 1 "backup_failure" Warning true None] ∅ [] ∅.
Definition sample_report (t : Z) : report :=
  mkReport (λ _, (t * 1000000, t)%Z) "now" "warning" "no space left" None "" "this appliance".

Lemma sample_ndb_ok : notify_ok sample_ndb.
Proof.
  split; [apply NoDup_singleton| |apply NoDup_singleton|apply NoDup_singleton| |constructor|exists 30%Z; split; [done|lia]].
  - apply Forall_singleton. split_and!; cbn; [done|set_solver|done].
  - apply Forall_singleton. cbn. set_solver.
Qed.


Lemma cooldown_spacing_witness :
  let network := (λ _ : transmission, Some "connection refused") in
  let run := fold_left (report_failure network (λ x, x) "backup_failure" "Backup") (sample_report <$> [0; 600; 1800; 3500; 3600]%Z) sample_ndb in
  attempts 1 (n_history run) = [0; 1800; 3600]%Z ∧ ∃ ts, attempts 1 (n_history run) = ts ∧ spaced 1800 ts.
Proof.
  intros network run. split; [vm_compute; reflexivity|].
  apply (cooldown_spacing network (λ x, x) "backup_failure" "Backup" (sample_report <$> [0; 600; 1800; 3500; 3600]%Z) sample_ndb
           (mkSubscription 1 1 "backup_failure" Warning true None) sample_provider 30); [apply sample_ndb_ok|left|reflexivity|].
  repeat constructor; intros id; cbn; lia.
Defined.

(** A subscription to a provider that does not exist yet is accepted, and the next provider
    added gets it: ids are reused. *)
Example subscription_adopted :
  (d1 ← set_subscription 1 "backup_failure" "info" true None empty_ndb;
   r ← add_provider "webhook" "someone" (JObj []) "https://hook.example/y" true d1;
   Ok (length (subscribers "backup_failure" r.1))) = Ok 1.
Proof. reflexivity. Qed.

(** Two components of one category take turns in the one cooldown a provider has for it,
    so neither is ever suppressed. *)
Example alternating_components_defeat_cooldown :
  let network := (λ _ : transmission, None : option string) in
  let tell c t := λ db, report_failure network (λ x, x) "backup_failure" c db (sample_report t) in
  attempts 1 (n_history (tell "B" 180 (tell "A" 120 (tell "B" 60 (tell "A" 0 sample_ndb)))))%Z = [0; 60; 120; 180]%Z.
Proof. vm_compute. reflexivity. Qed.

Lemma notifications_invariant_witness :
  ∃ db, rtc (notify_step (λ _, None) (λ x, x)) empty_ndb db ∧ notify_ok db ∧ length (n_providers db) = 1.
Proof.
  destruct (add_provider "webhook" "ops" (JObj []) "https://hook.example/y" true empty_ndb) as [[db id]|e] eqn:Ha; [|discriminate Ha].
  assert (rtc (notify_step (λ _, None) (λ x, x)) empty_ndb db) as Hr.
  { eapply rtc_l; [|apply rtc_refl]. exact (ns_add _ _ _ _ _ _ _ _ _ _ Ha). }
  exists db. split; [exact Hr|]. split; [exact (notifications_invariant (λ _, None) (λ x, x) db Hr)|].
  vm_compute in Ha. injection Ha as <- _. reflexivity.
Defined.
