(* ===== verification/NotifyCheck.v ===== *)
(** * Notification checks

    [app/notify_check.py], with the heartbeat it reads ([app/analytics.py]): the periodic
    checks, the edge each of them reports, and the run of them all.  The tables the checks
    only read are arguments; systemctl is run in [World.M]. *)

From S2P Require Import Prelude PyStr StrLemmas PyJson JsonRead World DomainName Sources Upstream PolicyCache Notifications.

Definition SERVICE_UNITS : list (string * string) :=
  [("named", "BIND (named)"); ("dnsdist", "dnsdist"); ("alderpointdns", "Alderpoint DNS web");
   ("alderpointdns-analytics", "Analytics collector")].
Definition REPEATED_RESTART_THRESHOLD : Z := 3.
Definition HEARTBEAT_FILE : string := "/var/lib/alderpointdns/analytics-writer-heartbeat.json".
Definition WRITER_STALE_SECONDS : Z := 60.

(** The tables the checks read.  Backups are their status and message, oldest first;
    buckets their start, resolver and health. *)
Record surroundings := mkSurroundings {
  ob_now : Z; ob_deployments : list deployment; ob_sources : list source_row; ob_backups : list (string * string);
  ob_ts : string; ob_forwarders : string; ob_resolvers : list resolver; ob_buckets : list (Z * Z * string);
  ob_replication : gmap string string }.

(** Commands and files, the notification tables, and the number of dispatches so far, which
    the clock of the next one depends on *)
Record cstate := mkCstate { k_world : world; k_db : ndb; k_tick : nat }.
Definition CM (A : Type) : Type := cstate → res A * cstate.
#[export] Instance CM_ret : MRet CM := λ A a k, (Ok a, k).
#[export] Instance CM_bind : MBind CM := λ A B f m k,
  match m k with (Ok a, k) => f a k | (Raise e, k) => (Raise e, k) end.

Definition on_world {A} (m : M A) : CM A := λ k, let '(r, w) := m (k_world k) in (r, k{{k_world := w}}).
Definition read_check (category component : string) : CM (option string) := λ k,
  (Ok (get_check_state category component (k_db k)), k).
Definition write_check (category component state : string) : CM () := λ k,
  (Ok (), k{{k_db ::= set_check_state category component state}}).
Definition skip : CM () := mret ().
Definition lift_res {A} (r : res A) : CM A := λ k, (r, k).

Fixpoint each {A} (f : A → CM ()) (l : list A) : CM () :=
  match l with [] => skip | x :: l => _ ← f x; each f l end.

(** app/notify_check.py:35-40 _systemctl *)
Definition systemctl (args : list string) : M (Z * string) :=
  try_except ('(code, out) ← run ("systemctl" :: args) false; mret (code, strip out)) (λ e, mret (1%Z, exc_message e)).

(** app/notify_check.py:43-45 _service_state *)
Definition service_state (unit : string) : M string :=
  '(code, out) ← systemctl ["is-active"; unit]; mret (if (code =? 0)%Z then out else "inactive").

(** app/analytics.py:168-186 writer_health

    Status, staleness and detail; [None] stands for the answer that the state is unknown. *)
Definition writer_health (now : Z) (heartbeat : option string) : res (option (json * bool * json)) :=
  match text ← heartbeat; loads text with
  | None => Ok None
  | Some payload =>
      ts ← dict_get payload "ts" (JInt 0); ts ← py_int ts;
      status ← dict_get payload "status" (JStr "unknown");
      detail ← dict_get payload "detail" (JStr "");
      Ok (Some (status, (WRITER_STALE_SECONDS <? now - ts)%Z, detail))
  end.

Definition json_is (s : string) (j : json) : bool := match j with JStr t => String.eqb t s | _ => false end.

Section checks.
Context `{Platform} (network : transmission → option string) (sha256 : string → string).
(** The clock and the time stamp of each dispatch *)
Context (times : nat → clock) (stamp : nat → string).

Definition notify (category severity component summary : string) (recovered : bool) : CM () := λ k,
  match dispatch network sha256 (times (k_tick k)) (stamp (k_tick k)) category severity component summary None recovered ""
          "this appliance" (k_db k) with
  | Ok (db, _) => (Ok (), k{{k_db := db; k_tick ::= S}})
  | Raise e => (Raise e, k)
  end.

(** app/notify_check.py:48-63 _fire_edge *)
Definition fire_edge (category component : string) (bad : bool) (summary_bad summary_ok severity : string) : CM () :=
  previous ← read_check category component;
  if bad then
    _ ← (if bool_decide (previous = Some "bad") then skip else notify category severity component summary_bad false);
    write_check category component "bad"
  else
    _ ← (if bool_decide (previous = Some "bad") then notify category severity component summary_ok true else skip);
    write_check category component "ok".

(** app/notify_check.py:66-76 check_service_availability *)
Definition check_service_availability : CM () :=
  each (λ '(unit, label),
    state ← on_world (service_state unit);
    fire_edge "service_unavailable" label (negb (String.eqb state "active"))
      (label +:+ " is not active (systemd state: " +:+ state +:+ ")") (label +:+ " is active again") "critical") SERVICE_UNITS.

(** app/notify_check.py:79-102 check_analytics_writer *)
Definition check_analytics_writer (o : surroundings) : CM () :=
  state ← on_world (service_state "alderpointdns-analytics");
  if negb (String.eqb state "active") then skip
  else
    heartbeat ← on_world (get_file HEARTBEAT_FILE);
    health ← lift_res (writer_health (ob_now o) heartbeat);
    match health with
    | None => skip
    | Some (status, stale, detail) =>
        if json_is "unknown" status then skip
        else
          let text := if py_bool detail then py_str detail else "status=" +:+ py_str status in
          fire_edge "service_unavailable" "Analytics collector (writer thread)" (stale || json_is "dead" status)
            ("Analytics service is active but its writer thread is unresponsive: " +:+ text)
            "Analytics writer thread is responsive again" "critical"
    end.

(** app/notify_check.py:105-124 check_repeated_restarts *)
Definition check_repeated_restarts (threshold : Z) : CM () :=
  each (λ '(unit, label),
    '(code, out) ← on_world (systemctl ["show"; unit; "--property=NRestarts"; "--value"]);
    if negb (code =? 0)%Z then skip
    else match int_of_string (strip out) with
    | None => skip
    | Some restarts =>
        previous_raw ← read_check "service_repeated_restart" label;
        previous ← lift_res (match previous_raw with Some t => if isdigit t then py_int (JStr t) else Ok 0%Z | None => Ok 0%Z end);
        _ ← (if ((previous <? restarts) && (threshold <=? restarts))%Z
             then notify "service_repeated_restart" "warning" label
                    (label +:+ " has restarted " +:+ str_int restarts +:+ " times since boot") false
             else skip);
        write_check "service_repeated_restart" label (str_int restarts)
    end) SERVICE_UNITS.

(** app/notify_check.py:127-141 check_deploy_and_blocklist *)
Definition check_deploy_and_blocklist (o : surroundings) : CM () :=
  match last (ob_deployments o) with
  | None => skip
  | Some row =>
      fire_edge "deploy_failure" "Blocklist/configuration deploy" (negb (String.eqb (dp_status row) "deployed"))
        ("Latest deployment ended with status " +:+ py_repr (dp_status row) +:+ ": " +:+ stake 200 (dp_message row))
        "Deployment succeeded again" "critical"
  end.

(** app/notify_check.py:144-173 check_blocklist_sources *)
Definition check_blocklist_sources (o : surroundings) : CM () :=
  each (λ source,
    let health := source_health source in
    let bad := bool_decide (health ∈ [HealthError; UsingCached; UnsupportedFormat]) in
    let reason := if truthy (src_last_error source) then or_empty (src_last_error source)
                  else if String.eqb (src_last_warning source) "" then HEALTH_LABELS health else src_last_warning source in
    let detail := if bool_decide (health = UsingCached) then reason +:+ ". Previous compiled copy remains active." else reason in
    fire_edge "blocklist_update_failure" (src_name source) bad detail "Source updates and parses cleanly again" "warning")
  (enabled_sources (ob_sources o)).

(** app/notify_check.py:176-190 check_backup *)
Definition check_backup (o : surroundings) : CM () :=
  match last (ob_backups o) with
  | None => skip
  | Some (status, message) =>
      fire_edge "backup_failure" "Backup" (negb (String.eqb status "deployed"))
        ("Latest backup ended with status " +:+ py_repr status +:+ ": " +:+ stake 200 message) "Backup succeeded again" "warning"
  end.

(** app/notify_check.py:193-202 _latest_resolver_health *)
Definition latest_resolver_health (buckets : list (Z * Z * string)) : gmap Z string :=
  let newest id := foldr Z.max 0%Z (List.map (λ b, b.1.1) (List.filter (λ b, (b.1.2 =? id)%Z) buckets)) in
  fold_left (λ m b, if (b.1.1 =? newest b.1.2)%Z then <[b.1.2 := b.2]> m else m) buckets ∅.

(** app/notify_check.py:205-232 check_upstream_resolvers *)
Definition check_upstream_resolvers (o : surroundings) : CM () :=
  let enabled := enabled_resolvers (ob_ts o) (ob_forwarders o) (ob_resolvers o) in
  match enabled with
  | [] => skip
  | _ =>
      let health := latest_resolver_health (ob_buckets o) in
      let down := List.filter (λ r, bool_decide (default "unknown" (health !! ur_id r) ∉ ["up"; "unknown"])) enabled in
      let all_down := bool_decide (length down = length enabled) in
      _ ← fire_edge "resolver_all_unavailable" "Upstream resolvers" all_down "All upstream resolvers are unavailable"
            "Upstream resolvers are reachable again" "critical";
      fire_edge "resolver_degraded" "Upstream resolvers" (negb (bool_decide (length down = 0)) && negb all_down)
        (str_int (Z.of_nat (length down)) +:+ " of " +:+ str_int (Z.of_nat (length enabled)) +:+ " upstream resolver(s) degraded: "
         +:+ join ", " (ur_name <$> down)) "Upstream resolvers recovered" "warning"
  end.

(** app/notify_check.py:235-235 _HEALTHY_SYNC_STATUSES *)
Definition HEALTHY_SYNC_STATUSES : list string := [""; "success"; "up_to_date"; "skipped"; "no_generation"].

(** app/notify_check.py:238-253 check_replication *)
Definition check_replication (o : surroundings) : CM () :=
  let cfg := ob_replication o in
  if bool_decide (cfg !! "role" ≠ Some "replica") then skip
  else
    let status := default "" (cfg !! "last_sync_status") in
    let drifted := bool_decide (cfg !! "drift_detected" = Some "1") in
    let unhealthy := bool_decide (status ∉ HEALTHY_SYNC_STATUSES) in
    fire_edge "replication_delayed" "Replication" (unhealthy || drifted)
      ("Replication is unhealthy: sync status " +:+ py_repr status +:+ (if drifted then " with drift detected" else ""))
      "Replication is healthy again" (if unhealthy then "critical" else "warning").

(** app/notify_check.py:256-265 CHECKS *)
Definition CHECKS (o : surroundings) : list (string * CM ()) :=
  [("check_service_availability", check_service_availability); ("check_analytics_writer", check_analytics_writer o);
   ("check_repeated_restarts", check_repeated_restarts REPEATED_RESTART_THRESHOLD);
   ("check_deploy_and_blocklist", check_deploy_and_blocklist o); ("check_blocklist_sources", check_blocklist_sources o);
   ("check_backup", check_backup o); ("check_upstream_resolvers", check_upstream_resolvers o); ("check_replication", check_replication o)].

Fixpoint run_checks (checks : list (string * CM ())) (k : cstate) : list string * cstate :=
  match checks with
  | [] => ([], k)
  | (name, check) :: checks =>
      let '(r, k) := check k in
      let '(errors, k) := run_checks checks k in
      (match r with Ok _ => errors | Raise e => (name +:+ ": " +:+ exc_message e) :: errors end, k)
  end.

(** app/notify_check.py:268-278 run_all_checks *)
Definition run_all_checks (o : surroundings) : cstate → list string * cstate := run_checks (CHECKS o).

(** ** One check *)

(** What a dispatch made by a check does to the tables, and what it tells a subscriber *)
Lemma notify_runs category severity component summary recovered k sev :
  notify_ok (k_db k) → parse_severity severity = Some sev →
  ∃ db', notify category severity component summary recovered k = (Ok (), mkCstate (k_world k) db' (S (k_tick k)))
    ∧ notify_ok db' ∧ same_tables (k_db k) db'
    ∧ ∀ s p, (s, p) ∈ subscribers category (k_db k) →
        ∃ cd, let m := event_message (stamp (k_tick k)) category sev component summary None recovered "" "this appliance" in
              let st := n_rate (k_db k) !! (category, np_id p) in
          default_cooldown (k_db k) = Ok cd
          ∧ n_rate db' !! (category, np_id p) = rate_after network sha256 (times (k_tick k)) m cd st (s, p)
          ∧ notices (np_id p) category component db' = notices (np_id p) category component (k_db k)
              ++ match verdict network sha256 (times (k_tick k)) m cd st (s, p) with Some (x, _) => [(recovered, x)] | None => [] end.
Proof.
  intros Hok Hsev.
  destruct (dispatch_runs network sha256 (times (k_tick k)) (stamp (k_tick k)) category severity component summary None recovered "" "this appliance"
              (k_db k) sev Hok Hsev) as (db' & cd & Hd & _ & _ & Hs & _).
  exists db'. unfold notify. rewrite Hd. split; [done|]. split; [by eapply dispatch_ok|]. split; [done|]. intros s p Hin.
  destruct (dispatch_notices network sha256 (times (k_tick k)) (stamp (k_tick k)) category severity component summary None recovered "" "this appliance"
              (k_db k) sev s p Hok Hsev Hin) as (db2 & os & cd2 & Hd2 & Hcd & _ & _ & Hr & Hn).
  rewrite Hd in Hd2. injection Hd2 as <- _. by exists cd2.
Qed.

Definition state_text (bad : bool) : string := if bad then "bad" else "ok".
Definition seen_bad (category component : string) (db : ndb) : bool := bool_decide (n_checks db !! (category, component) = Some "bad").

Lemma checks_set category component state db :
  n_checks (set_check_state category component state db) = <[(category, component) := state]> (n_checks db).
Proof. done. Qed.

(** The effect of an observation: the state is recorded, and a change of it is dispatched. *)
Lemma fire_edge_runs category component bad summary_bad summary_ok severity k sev :
  notify_ok (k_db k) → parse_severity severity = Some sev →
  ∃ k', fire_edge category component bad summary_bad summary_ok severity k = (Ok (), k')
    ∧ notify_ok (k_db k') ∧ k_world k' = k_world k
    ∧ n_checks (k_db k') = <[(category, component) := state_text bad]> (n_checks (k_db k))
    ∧ if Bool.eqb bad (seen_bad category component (k_db k))
      then k' = k{{k_db := set_check_state category component (state_text bad) (k_db k)}}
      else ∃ db', notify category severity component (if bad then summary_bad else summary_ok) (negb bad) k
                    = (Ok (), mkCstate (k_world k) db' (S (k_tick k)))
                  ∧ k' = mkCstate (k_world k) (set_check_state category component (state_text bad) db') (S (k_tick k)).
Proof.
  intros Hok Hsev. assert (∀ db, notify_ok db → notify_ok (set_check_state category component (state_text bad) db)) as Hset.
  { intros db []. by split. }
  unfold fire_edge, seen_bad, get_check_state.
  change (read_check category component k) with (Ok (n_checks (k_db k) !! (category, component)), k).
  destruct (notify_runs category severity component (if bad then summary_bad else summary_ok) (negb bad) k sev Hok Hsev)
    as (db' & Hn & Hok' & (_ & _ & Hchk & _) & _).
  destruct bad; unfold mbind, CM_bind, read_check; cbn beta iota; unfold get_check_state;
    destruct (bool_decide (_ = Some "bad")); cbn [skip Bool.eqb negb] in *.
  all: (rewrite Hn || unfold skip, mret, CM_ret); eexists; (split; [reflexivity|]); cbn [k_db k_world]; split_and!; eauto.
  all: first [exact (Hset _ Hok)|exact (Hset _ Hok')|exact (f_equal <[(category, component) := _]> Hchk)].
Qed.

(** *** A series of observations of one component *)

Record observation := mkObservation { os_bad : bool; os_down : string; os_up : string }.

Definition observe (category component severity : string) (k : cstate) (o : observation) : cstate :=
  (fire_edge category component (os_bad o) (os_down o) (os_up o) severity k).2.

(** The changes in a series that starts from [prev]: [true] for a recovery *)
Fixpoint edges (prev : bool) (l : list bool) : list bool :=
  match l with
  | [] => []
  | b :: l => (if Bool.eqb b prev then [] else [negb b]) ++ edges b l
  end.

Lemma seen_bad_set category component bad db : seen_bad category component (set_check_state category component (state_text bad) db) = bad.
Proof. unfold seen_bad. rewrite checks_set, lookup_insert_eq. by destruct bad. Qed.

(** One observation, as a subscriber sees it *)
Lemma observe_step category component severity k o sev s p :
  notify_ok (k_db k) → parse_severity severity = Some sev → (s, p) ∈ subscribers category (k_db k) →
  severity_rank (sb_severity s) ≤ severity_rank sev →
  let k' := observe category component severity k o in
  notify_ok (k_db k') ∧ (∃ p', (s, p') ∈ subscribers category (k_db k') ∧ settled p' = settled p)
  ∧ seen_bad category component (k_db k') = os_bad o
  ∧ (notices (np_id p) category component (k_db k')).*1
    = (notices (np_id p) category component (k_db k)).*1
      ++ (if Bool.eqb (os_bad o) (seen_bad category component (k_db k)) then [] else [negb (os_bad o)]).
Proof.
  intros Hok Hsev Hin Hrank. unfold observe.
  destruct (fire_edge_runs category component (os_bad o) (os_down o) (os_up o) severity k sev Hok Hsev) as (k' & Hk & Hok' & _ & _ & He).
  rewrite Hk. cbn [snd]. split; [done|]. destruct (Bool.eqb _ _).
  - subst k'. split; [by exists p|]. split; [apply seen_bad_set|]. by rewrite app_nil_r.
  - destruct He as (db' & Hn & ->). cbn [k_db].
    destruct (notify_runs category severity component (if os_bad o then os_down o else os_up o) (negb (os_bad o)) k sev Hok Hsev)
      as (db2 & Hn2 & _ & Hs & Hsub). rewrite Hn in Hn2. injection Hn2 as <-.
    split; [exact (subscribers_settled _ _ _ _ _ Hs Hin)|]. split; [apply seen_bad_set|].
    destruct (Hsub s p Hin) as (cd & _ & _ & Hnot). cbn zeta in Hnot.
    change (notices (np_id p) category component (set_check_state category component (state_text (os_bad o)) db'))
      with (notices (np_id p) category component db').
    rewrite Hnot, fmap_app. f_equal. unfold verdict. cbn [m_severity event_message].
    rewrite (proj2 (Nat.ltb_ge _ _) Hrank). by destruct (_ && _).
Qed.

Lemma observe_all category component severity os k sev s p :
  notify_ok (k_db k) → parse_severity severity = Some sev → (s, p) ∈ subscribers category (k_db k) →
  severity_rank (sb_severity s) ≤ severity_rank sev →
  (notices (np_id p) category component (k_db (fold_left (observe category component severity) os k))).*1
    = (notices (np_id p) category component (k_db k)).*1 ++ edges (seen_bad category component (k_db k)) (os_bad <$> os).
Proof.
  revert k p. induction os as [|o os IH]; intros k p Hok Hsev Hin Hrank; [by rewrite app_nil_r|].
  destruct (observe_step category component severity k o sev s p Hok Hsev Hin Hrank) as (Hok' & (p' & Hin' & Hp') & Hbad & Hnot).
  assert (np_id p' = np_id p) as Hid by exact (f_equal np_id Hp').
  cbn [fold_left fmap list_fmap edges]. rewrite <-Hid, (IH _ p' Hok' Hsev Hin' Hrank), Hid, Hnot, Hbad, <-(assoc_L app). done.
Qed.

(** While a failure lasts nothing is sent. *)
Lemma still_bad_quiet category component severity os k sev :
  notify_ok (k_db k) → parse_severity severity = Some sev → seen_bad category component (k_db k) = true →
  Forall (λ o, os_bad o = true) os →
  n_history (k_db (fold_left (observe category component severity) os k)) = n_history (k_db k)
  ∧ k_tick (fold_left (observe category component severity) os k) = k_tick k.
Proof.
  revert k. induction os as [|o os IH]; intros k Hok Hsev Hbad Hos; [done|].
  apply Forall_cons in Hos as [Ho Hos]. cbn [fold_left]. unfold observe at 2 4.
  destruct (fire_edge_runs category component (os_bad o) (os_down o) (os_up o) severity k sev Hok Hsev) as (k' & Hk & Hok' & _ & _ & He).
  rewrite Hk. cbn [snd]. rewrite Ho, Hbad in He. cbn in He. subst k'.
  destruct (IH _ Hok' Hsev) as [-> ->]; [apply (seen_bad_set _ _ true)|done|done].
Qed.

(** The cooldown hides a failure that follows an announcement of the same component. *)
Lemma hidden_failure category component severity k o os sev s p cd r :
  notify_ok (k_db k) → parse_severity severity = Some sev → (s, p) ∈ subscribers category (k_db k) →
  severity_rank (sb_severity s) ≤ severity_rank sev → default_cooldown (k_db k) = Ok cd →
  seen_bad category component (k_db k) = false →
  n_rate (k_db k) !! (category, np_id p) = Some r → rs_fingerprint r = fingerprint sha256 category component →
  ((times (k_tick k) (np_id p)).1 < (rs_sent r + default cd (sb_cooldown s) * 60) * 1000000)%Z →
  os_bad o = true → Forall (λ o, os_bad o = true) os →
  notices (np_id p) category component (k_db (fold_left (observe category component severity) (o :: os) k))
  = notices (np_id p) category component (k_db k) ++ [(false, Suppressed)].
Proof.
  intros Hok Hsev Hin Hrank Hcd Hbad Hr Hfp Hnow Ho Hos. cbn [fold_left]. unfold observe at 2.
  destruct (fire_edge_runs category component (os_bad o) (os_down o) (os_up o) severity k sev Hok Hsev) as (k' & Hk & Hok' & _ & _ & He).
  rewrite Hk. cbn [snd]. rewrite Ho, Hbad in He. cbn in He. destruct He as (db' & Hn & ->).
  destruct (still_bad_quiet category component severity os _ sev Hok' Hsev (seen_bad_set _ _ true _) Hos) as [Hq _].
  unfold notices at 1. rewrite Hq. cbn [k_db].
  destruct (notify_runs category severity component (os_down o) false k sev Hok Hsev) as (db2 & Hn2 & _ & _ & Hsub).
  rewrite Hn in Hn2. injection Hn2 as <-. destruct (Hsub s p Hin) as (cd' & Hcd' & _ & Hnot). rewrite Hcd in Hcd'. injection Hcd' as <-.
  cbn zeta in Hnot. etransitivity; [exact Hnot|]. f_equal. unfold verdict. cbn [m_severity m_recovered m_category m_component event_message].
  rewrite (proj2 (Nat.ltb_ge _ _) Hrank), Hr. unfold in_cooldown. rewrite Hfp, String.eqb_refl, (proj2 (Z.ltb_lt _ _)) by lia. done.
Qed.

(** A recovery is always announced, and starts the cooldown of its component. *)
Lemma recovery_starts_cooldown category component severity k o sev s p cd :
  notify_ok (k_db k) → parse_severity severity = Some sev → (s, p) ∈ subscribers category (k_db k) →
  severity_rank (sb_severity s) ≤ severity_rank sev → default_cooldown (k_db k) = Ok cd →
  seen_bad category component (k_db k) = true → os_bad o = false →
  let k' := observe category component severity k o in
  notify_ok (k_db k') ∧ seen_bad category component (k_db k') = false ∧ default_cooldown (k_db k') = Ok cd ∧ k_tick k' = S (k_tick k)
  ∧ (∃ p', (s, p') ∈ subscribers category (k_db k') ∧ settled p' = settled p)
  ∧ n_rate (k_db k') !! (category, np_id p) = Some (mkRate (times (k_tick k) (np_id p)).2 (fingerprint sha256 category component) 0)
  ∧ ∃ st, st ≠ Suppressed ∧ notices (np_id p) category component (k_db k') = notices (np_id p) category component (k_db k) ++ [(true, st)].
Proof.
  intros Hok Hsev Hin Hrank Hcd Hbad Ho. unfold observe.
  destruct (fire_edge_runs category component (os_bad o) (os_down o) (os_up o) severity k sev Hok Hsev) as (k' & Hk & Hok' & _ & _ & He).
  rewrite Hk. cbn [snd]. rewrite Ho, Hbad in He. cbn in He. destruct He as (db' & Hn & ->). split; [done|]. split; [apply (seen_bad_set _ _ false)|].
  destruct (notify_runs category severity component (os_up o) true k sev Hok Hsev) as (db2 & Hn2 & _ & Hs & Hsub).
  rewrite Hn in Hn2. injection Hn2 as <-. destruct (Hsub s p Hin) as (cd' & Hcd' & Hr & Hnot). rewrite Hcd in Hcd'. injection Hcd' as <-.
  split. { change (default_cooldown db' = Ok cd). unfold default_cooldown. destruct Hs as [-> _]. exact Hcd. }
  split; [done|]. split; [exact (subscribers_settled _ _ _ _ _ Hs Hin)|]. cbn zeta in *.
  unfold rate_after, verdict in *. cbn [m_severity m_recovered m_category m_component event_message snd] in *.
  rewrite (proj2 (Nat.ltb_ge _ _) Hrank) in *. cbn [negb andb] in *.
  unfold status_of in *. destruct (send_provider _ _ _); (split; [exact Hr|]); eexists; (split; [|exact Hnot]); done.
Qed.


(** A failure that starts within the cooldown of the recovery before it is never
    announced, however long it lasts: its one notice is suppressed, and later checks see no
    change to report. *)
Theorem flapping_outage_never_announced category component severity k up down os sev s p cd :
  notify_ok (k_db k) → parse_severity severity = Some sev → (s, p) ∈ subscribers category (k_db k) →
  severity_rank (sb_severity s) ≤ severity_rank sev → default_cooldown (k_db k) = Ok cd →
  seen_bad category component (k_db k) = true →
  os_bad up = false → os_bad down = true → Forall (λ o, os_bad o = true) os →
  ((times (S (k_tick k)) (np_id p)).1 < ((times (k_tick k) (np_id p)).2 + default cd (sb_cooldown s) * 60) * 1000000)%Z →
  ∃ st, st ≠ Suppressed ∧
    notices (np_id p) category component (k_db (fold_left (observe category component severity) (up :: down :: os) k))
    = notices (np_id p) category component (k_db k) ++ [(true, st); (false, Suppressed)].
Proof.
  intros Hok Hsev Hin Hrank Hcd Hbad Hup Hdown Hos Hnow.
  destruct (recovery_starts_cooldown category component severity k up sev s p cd Hok Hsev Hin Hrank Hcd Hbad Hup)
    as (Hok' & Hbad' & Hcd' & Htick & (p' & Hin' & Hp') & Hr & st & Hst & Hnot).
  assert (np_id p' = np_id p) as Hid by exact (f_equal np_id Hp'). exists st. split; [done|].
  cbn [fold_left]. rewrite <-Hid in Hr |- *.
  pose proof (hidden_failure category component severity _ down os sev s p' cd _ Hok' Hsev Hin' Hrank Hcd' Hbad' Hr) as Hh.
  cbn [fold_left] in Hh. rewrite Hh; [|done| |done|done]; rewrite ?Hid, ?Hnot.
  - by rewrite <-(assoc_L app).
  - rewrite Htick. exact Hnow.
Qed.

(** ** All checks *)

(** [touches K m]: whatever happens, [m] keeps the tables well formed and records states
    only under the keys in [K]. *)
Definition touches {A} (K : string * string → Prop) (m : CM A) : Prop :=
  ∀ k, notify_ok (k_db k) →
    notify_ok (k_db (m k).2) ∧ ∀ key, ¬ K key → n_checks (k_db (m k).2) !! key = n_checks (k_db k) !! key.

Lemma touches_keep {A} K (m : CM A) : (∀ k, k_db (m k).2 = k_db k) → touches K m.
Proof. intros Hm k Hok. by rewrite Hm. Qed.

Lemma touches_bind {A B} K (m : CM A) (f : A → CM B) : touches K m → (∀ a, touches K (f a)) → touches K (m ≫= f).
Proof.
  intros Hm Hf k Hok. destruct (Hm k Hok) as [Hok1 Hk1]. unfold mbind, CM_bind.
  destruct (m k) as [[a|e] k1]; [|done]. cbn [snd] in *. destruct (Hf a k1 Hok1) as [Hok2 Hk2]. split; [done|].
  intros key Hkey. by rewrite Hk2, Hk1.
Qed.

Lemma touches_weaken {A} (K K' : string * string → Prop) (m : CM A) : touches K m → (∀ key, K key → K' key) → touches K' m.
Proof. intros Hm HK k Hok. destruct (Hm k Hok) as [H1 H2]. split; [done|]. intros key Hkey. apply H2. auto. Qed.

Lemma touches_on_world {A} K (m : M A) : touches K (on_world m).
Proof. apply touches_keep. intros k. unfold on_world. by destruct (m (k_world k)). Qed.

Lemma touches_write K category component state : K (category, component) → touches K (write_check category component state).
Proof.
  intros HK k Hok. split; [by destruct Hok|]. intros key Hkey. unfold write_check. cbn [snd k_db].
  apply (lookup_insert_ne (n_checks (k_db k)) (category, component) key). intros <-. done.
Qed.

Lemma touches_notify K category severity component summary recovered : touches K (notify category severity component summary recovered).
Proof.
  intros k Hok. unfold notify. destruct (dispatch _ _ _ _ _ _ _ _ _ _ _ _ _) as [[db' os]|e] eqn:Hd; [|done].
  split; [by eapply dispatch_ok|]. intros key _. cbn [snd k_db].
  destruct (parse_severity severity) as [sev|] eqn:Hsev; [|unfold dispatch in Hd; by rewrite Hsev in Hd].
  destruct (dispatch_runs network sha256 (times (k_tick k)) (stamp (k_tick k)) category severity component summary None recovered "" "this appliance"
              (k_db k) sev Hok Hsev) as (db2 & cd & Hd2 & _ & _ & (_ & _ & Hs & _) & _).
  rewrite Hd in Hd2. injection Hd2 as <- _. exact (f_equal (lookup key) Hs).
Qed.

Lemma touches_each {A} K (f : A → CM ()) l : (∀ x, x ∈ l → touches K (f x)) → touches K (each f l).
Proof.
  induction l as [|x l IH]; intros Hf; [by apply touches_keep|]. cbn [each].
  apply touches_bind; [apply Hf; left|]. intros _. apply IH. intros y Hy. apply Hf. by right.
Qed.

Lemma touches_fire_edge K category component bad down up severity :
  K (category, component) → touches K (fire_edge category component bad down up severity).
Proof.
  intros HK. unfold fire_edge. apply touches_bind; [by apply touches_keep|]. intros previous.
  destruct bad; (apply touches_bind; [|intros _; by apply touches_write]);
    destruct (bool_decide _); (apply touches_notify || by apply touches_keep).
Qed.

Ltac touch :=
  repeat first
    [ apply touches_fire_edge; cbn; tauto | apply touches_write; cbn; tauto | apply touches_notify | apply touches_on_world
    | by apply touches_keep | apply touches_bind; [|intros ?] | case_match ].

Lemma touches_writer o : touches (λ key, key = ("service_unavailable", "Analytics collector (writer thread)")) (check_analytics_writer o).
Proof. unfold check_analytics_writer. touch. Qed.
Lemma touches_restarts n : touches (λ key, key.1 = "service_repeated_restart") (check_repeated_restarts n).
Proof. unfold check_repeated_restarts. apply touches_each. intros [unit label] _. touch. Qed.
Lemma touches_deploy o : touches (λ key, key.1 = "deploy_failure") (check_deploy_and_blocklist o).
Proof. unfold check_deploy_and_blocklist. touch. Qed.
Lemma touches_sources o : touches (λ key, key.1 = "blocklist_update_failure") (check_blocklist_sources o).
Proof. unfold check_blocklist_sources. apply touches_each. intros source _. touch. Qed.
Lemma touches_backup o : touches (λ key, key.1 = "backup_failure") (check_backup o).
Proof. unfold check_backup. touch. Qed.
Lemma touches_upstream o : touches (λ key, key.1 = "resolver_all_unavailable" ∨ key.1 = "resolver_degraded") (check_upstream_resolvers o).
Proof. unfold check_upstream_resolvers. touch. Qed.
Lemma touches_replication o : touches (λ key, key.1 = "replication_delayed") (check_replication o).
Proof. unfold check_replication. touch. Qed.
Lemma touches_services : touches (λ key, key.1 = "service_unavailable" ∧ key.2 ∈ SERVICE_UNITS.*2) check_service_availability.
Proof.
  unfold check_service_availability. apply touches_each. intros [unit label] Hin. apply touches_bind; [apply touches_on_world|].
  intros state. apply touches_fire_edge. split; [done|]. by apply (list_elem_of_fmap_2 snd _ (unit, label)).
Qed.

(** [settles m key bad]: whatever the state, [m] succeeds and records this state. *)
Definition settles (m : CM ()) (key : string * string) (bad : bool) : Prop :=
  ∀ k, notify_ok (k_db k) → ∃ k', m k = (Ok (), k') ∧ notify_ok (k_db k') ∧ k_world k' = k_world k
    ∧ n_checks (k_db k') = <[key := state_text bad]> (n_checks (k_db k)).

Lemma fire_edge_settles category component bad down up severity :
  is_Some (parse_severity severity) → settles (fire_edge category component bad down up severity) (category, component) bad.
Proof.
  intros [sev Hsev] k Hok. destruct (fire_edge_runs category component bad down up severity k sev Hok Hsev) as (k' & H1 & H2 & H3 & H4 & _).
  by exists k'.
Qed.

Lemma each_settles {A} (f : A → CM ()) (key : A → string * string) (bad : A → bool) l k :
  (∀ x, x ∈ l → settles (f x) (key x) (bad x)) → NoDup (key <$> l) → notify_ok (k_db k) →
  ∃ k', each f l k = (Ok (), k') ∧ notify_ok (k_db k') ∧ k_world k' = k_world k
    ∧ (∀ x, x ∈ l → n_checks (k_db k') !! key x = Some (state_text (bad x)))
    ∧ (∀ y, y ∉ key <$> l → n_checks (k_db k') !! y = n_checks (k_db k) !! y).
Proof.
  revert k. induction l as [|x l IH]; intros k Hf Hnd Hok.
  { exists k. split_and!; try done. by intros x ?%elem_of_nil. }
  rewrite fmap_cons, NoDup_cons in Hnd. destruct Hnd as [Hx Hnd].
  destruct (Hf x (list_elem_of_here _ _) k Hok) as (k1 & Hk1 & Hok1 & Hw1 & Hc1).
  destruct (IH k1) as (k2 & Hk2 & Hok2 & Hw2 & Hc2 & Hf2); [by intros; apply Hf; right|done|done|].
  exists k2. cbn [each]. unfold mbind, CM_bind. rewrite Hk1, Hk2. split_and!; try done; [congruence| |].
  - intros y [->|Hy]%elem_of_cons; [|by apply Hc2]. rewrite Hf2, Hc1 by done. by rewrite lookup_insert_eq.
  - intros y. rewrite fmap_cons, not_elem_of_cons. intros [Hne Hy]. rewrite Hf2, Hc1 by done. by rewrite lookup_insert_ne.
Qed.

(** What [systemctl is-active] says of a unit *)
Definition unit_active (a : World.outcome) : bool :=
  match a with Exited code out => (code =? 0)%Z && String.eqb (strip out) "active" | NotStarted _ => false end.

Lemma service_state_runs unit w :
  ∃ st w', service_state unit w = (Ok st, w') ∧ String.eqb st "active" = unit_active (w_answers w (length (w_log w)))
    ∧ w_answers w' = w_answers w ∧ length (w_log w') = S (length (w_log w)).
Proof.
  unfold service_state, systemctl, run, unit_active. unfold mbind, M_bind, try_except.
  destruct (w_answers w (length (w_log w))) as [code out|e]; cbn; [destruct (code =? 0)%Z|];
    (do 2 eexists; split; [reflexivity|]; split; [done|]; split; [done|]; exact (eq_trans (length_app (w_log w) [_]) (Nat.add_1_r (length (w_log w))))).
Qed.

Lemma check_services_records l k :
  NoDup (l.*2) → notify_ok (k_db k) →
  let check := λ '(unit, label),
    state ← on_world (service_state unit);
    fire_edge "service_unavailable" label (negb (String.eqb state "active"))
      (label +:+ " is not active (systemd state: " +:+ state +:+ ")") (label +:+ " is active again") "critical" in
  ∃ k', each check l k = (Ok (), k') ∧ notify_ok (k_db k')
    ∧ (∀ i unit label, l !! i = Some (unit, label) →
         n_checks (k_db k') !! ("service_unavailable", label)
         = Some (state_text (negb (unit_active (w_answers (k_world k) (length (w_log (k_world k)) + i))))))
    ∧ (∀ label, label ∉ l.*2 → n_checks (k_db k') !! ("service_unavailable", label) = n_checks (k_db k) !! ("service_unavailable", label)).
Proof.
  intros Hnd Hok check. revert k Hok. induction l as [|[unit label] l IH]; intros k Hok; [by exists k|].
  rewrite fmap_cons, NoDup_cons in Hnd. destruct Hnd as [Hl Hnd].
  destruct (service_state_runs unit (k_world k)) as (st & w' & Hst & Hact & Ha & Hlen).
  set (k1 := k{{k_world := w'}}).
  destruct (fire_edge_settles "service_unavailable" label (negb (String.eqb st "active"))
              (label +:+ " is not active (systemd state: " +:+ st +:+ ")") (label +:+ " is active again") "critical"
              ltac:(by eexists) k1 Hok) as (k2 & Hk2 & Hok2 & Hw2 & Hc2).
  destruct (IH Hnd k2 Hok2) as (k3 & Hk3 & Hok3 & Hrec & Hf3). exists k3.
  assert (check (unit, label) k = (Ok (), k2)) as Hk1.
  { unfold check, mbind, CM_bind, on_world. rewrite Hst. exact Hk2. }
  cbn [each]. unfold mbind, CM_bind. rewrite Hk1, Hk3. split_and!; try done.
  - intros [|i] u x Hi.
    + injection Hi as <- <-. rewrite Hf3, Hc2, lookup_insert_eq by done. by rewrite Hact, Nat.add_0_r.
    + rewrite (Hrec i u x Hi), Hw2. change (k_world k1) with w'. by rewrite Ha, Hlen, Nat.add_succ_r.
  - intros x. rewrite fmap_cons, not_elem_of_cons. intros [Hne Hx]. rewrite Hf3, Hc2 by done.
    rewrite lookup_insert_ne; [done|]. intros [= E]. by apply Hne.
Qed.

Lemma run_checks_keep key checks k :
  notify_ok (k_db k) → Forall (λ c, touches (λ key', key' ≠ key) c.2) checks →
  notify_ok (k_db (run_checks checks k).2) ∧ n_checks (k_db (run_checks checks k).2) !! key = n_checks (k_db k) !! key.
Proof.
  revert k. induction checks as [|[name m] checks IH]; intros k Hok Hc; [done|]. apply Forall_cons in Hc as [Hm Hc].
  destruct (Hm k Hok) as [Hok1 Hk1]. cbn [run_checks]. cbn [snd] in Hok1, Hk1. destruct (m k) as [r k1]. cbn [snd] in *.
  destruct (IH k1 Hok1 Hc) as [Hok2 Hk2]. destruct (run_checks checks k1) as [errors k2]. cbn [snd] in *.
  split; [done|]. rewrite Hk2, Hk1; [done|]. by intros ?.
Qed.

Lemma run_checks_app pre post k : (run_checks (pre ++ post) k).2 = (run_checks post (run_checks pre k).2).2.
Proof.
  revert k. induction pre as [|[name m] pre IH]; intros k; [done|]. cbn [app run_checks]. destruct (m k) as [r k1].
  specialize (IH k1). destruct (run_checks (pre ++ post) k1), (run_checks pre k1). done.
Qed.

(** The state a check records is still there when the run is over. *)
Lemma run_checks_settles pre name m post key st k :
  notify_ok (k_db (run_checks pre k).2) →
  (∃ k', (m (run_checks pre k).2).2 = k' ∧ notify_ok (k_db k') ∧ n_checks (k_db k') !! key = Some st) →
  Forall (λ c, touches (λ key', key' ≠ key) c.2) post →
  n_checks (k_db (run_checks (pre ++ (name, m) :: post) k).2) !! key = Some st.
Proof.
  intros Hok (k' & Hm & Hok' & Hst) Hpost. rewrite run_checks_app. cbn [run_checks].
  destruct (m (run_checks pre k).2) as [r k1]. cbn [snd] in Hm. subst k1.
  destruct (run_checks_keep key post k' Hok' Hpost) as [_ Hk]. destruct (run_checks post k'). cbn [snd] in *. by rewrite Hk.
Qed.

(** No check leaves the tables ill formed. *)
Lemma checks_ok o checks k : notify_ok (k_db k) → (∀ c, c ∈ checks → c ∈ CHECKS o) → notify_ok (k_db (run_checks checks k).2).
Proof.
  intros Hok Hin. assert (Forall (λ c, touches (λ _, True) c.2) (CHECKS o)) as Hall.
  { repeat apply Forall_cons_2; [..|apply Forall_nil_2].
    - eapply touches_weaken; [apply touches_services|done].
    - eapply touches_weaken; [apply touches_writer|done].
    - eapply touches_weaken; [apply touches_restarts|done].
    - eapply touches_weaken; [apply touches_deploy|done].
    - eapply touches_weaken; [apply touches_sources|done].
    - eapply touches_weaken; [apply touches_backup|done].
    - eapply touches_weaken; [apply touches_upstream|done].
    - eapply touches_weaken; [apply touches_replication|done]. }
  rewrite Forall_forall in Hall. clear -Hok Hin Hall. revert k Hok Hin.
  induction checks as [|[name m] checks IH]; intros k Hok Hin; [done|]. cbn [run_checks].
  destruct (Hall (name, m) (Hin _ (list_elem_of_here _ _)) k Hok) as [Hok1 _]. cbn [snd] in Hok1.
  destruct (m k) as [r k1]. cbn [snd] in Hok1. specialize (IH k1 Hok1).
  destruct (run_checks checks k1). cbn [snd] in *. apply IH. intros x Hx. apply Hin. by right.
Qed.

Definition source_failing (source : source_row) : bool := bool_decide (source_health source ∈ [HealthError; UsingCached; UnsupportedFormat]).

Lemma check_sources_records o k :
  NoDup (src_name <$> enabled_sources (ob_sources o)) → notify_ok (k_db k) →
  ∃ k', (check_blocklist_sources o k).2 = k' ∧ notify_ok (k_db k')
    ∧ ∀ source, source ∈ enabled_sources (ob_sources o) →
        n_checks (k_db k') !! ("blocklist_update_failure", src_name source) = Some (state_text (source_failing source)).
Proof.
  intros Hnd Hok. unfold check_blocklist_sources.
  edestruct (each_settles (A := source_row)) as (k' & Hk & Hok' & _ & Hc & _).
  4:{ exists k'. rewrite Hk. split; [done|]. split; [exact Hok'|exact Hc]. }
  - intros source _. by apply fire_edge_settles.
  - rewrite (list_fmap_compose src_name (λ n, ("blocklist_update_failure", n))). by apply NoDup_fmap_2; [intros ? ? [=]|].
  - done.
Qed.

Ltac untouched :=
  repeat (apply Forall_cons_2 || apply Forall_nil_2);
  (eapply touches_weaken;
  [ apply touches_writer || apply touches_restarts || apply touches_deploy || apply touches_sources || apply touches_backup
    || apply touches_upstream || apply touches_replication
  | cbn; intros ? Hkey ->; cbn in Hkey; naive_solver ]).

Lemma single_settles m key bad k :
  settles m key bad → notify_ok (k_db k) → ∃ k', (m k).2 = k' ∧ notify_ok (k_db k') ∧ n_checks (k_db k') !! key = Some (state_text bad).
Proof.
  intros Hm Hok. destruct (Hm k Hok) as (k' & Hk & Hok' & _ & Hc). exists k'. rewrite Hk, Hc. by rewrite lookup_insert_eq.
Qed.

(** When a run of all checks is over, the state recorded for each service, each enabled
    blocklist, the latest deployment, the latest backup and the replication is what was
    observed, even when another check failed on the way. *)
Theorem run_all_checks_records o k :
  notify_ok (k_db k) → NoDup (src_name <$> enabled_sources (ob_sources o)) →
  let db := k_db (run_all_checks o k).2 in
  let state category component bad := n_checks db !! (category, component) = Some (state_text bad) in
  (∀ i unit label, SERVICE_UNITS !! i = Some (unit, label) →
     state "service_unavailable" label (negb (unit_active (w_answers (k_world k) (length (w_log (k_world k)) + i)))))
  ∧ (∀ source, source ∈ ob_sources o → src_enabled source = true → state "blocklist_update_failure" (src_name source) (source_failing source))
  ∧ (∀ d, last (ob_deployments o) = Some d → state "deploy_failure" "Blocklist/configuration deploy" (negb (String.eqb (dp_status d) "deployed")))
  ∧ (∀ status message, last (ob_backups o) = Some (status, message) → state "backup_failure" "Backup" (negb (String.eqb status "deployed")))
  ∧ (ob_replication o !! "role" = Some "replica" →
     state "replication_delayed" "Replication"
       (bool_decide (default "" (ob_replication o !! "last_sync_status") ∉ HEALTHY_SYNC_STATUSES)
        || bool_decide (ob_replication o !! "drift_detected" = Some "1"))).
Proof.
  intros Hok Hnd. cbv zeta. unfold run_all_checks, CHECKS.
  assert (∀ pre post, pre ++ post = CHECKS o → notify_ok (k_db (run_checks pre k).2)) as Hpre.
  { intros pre post E. apply (checks_ok o); [done|]. intros c Hc. rewrite <-E. apply elem_of_app. by left. }
  split_and!.
  - intros i unit label Hi.
    assert (label ≠ "Analytics collector (writer thread)").
    { destruct i as [|[|[|[|i]]]]; [by injection Hi as <- <-..|done]. }
    apply (run_checks_settles []); [done| |untouched].
    destruct (check_services_records SERVICE_UNITS k) as (k' & Hk & Hok' & Hrec & _).
    { vm_compute. repeat constructor; set_solver. }
    { done. }
    exists k'. cbn [run_checks snd]. split; [exact (f_equal snd Hk)|]. split; [done|]. by eapply Hrec.
  - intros source Hin Hen. apply (run_checks_settles (take 4 (CHECKS o))); [by apply (Hpre _ (drop 4 (CHECKS o)))| |untouched].
    destruct (check_sources_records o (run_checks (take 4 (CHECKS o)) k).2 Hnd) as (k' & Hk & Hok' & Hrec);
      [by apply (Hpre _ (drop 4 (CHECKS o)))|]. exists k'. split; [done|]. split; [done|]. apply Hrec. by apply elem_of_filterb.
  - intros d Hd. apply (run_checks_settles (take 3 (CHECKS o))); [by apply (Hpre _ (drop 3 (CHECKS o)))| |untouched].
    apply single_settles; [|by apply (Hpre _ (drop 3 (CHECKS o)))]. unfold check_deploy_and_blocklist. rewrite Hd. by apply fire_edge_settles.
  - intros status message Hd. apply (run_checks_settles (take 5 (CHECKS o))); [by apply (Hpre _ (drop 5 (CHECKS o)))| |untouched].
    apply single_settles; [|by apply (Hpre _ (drop 5 (CHECKS o)))]. unfold check_backup. rewrite Hd. by apply fire_edge_settles.
  - intros Hrole. apply (run_checks_settles (take 7 (CHECKS o))); [by apply (Hpre _ (drop 7 (CHECKS o)))| |untouched].
    apply single_settles; [|by apply (Hpre _ (drop 7 (CHECKS o)))]. unfold check_replication.
    rewrite bool_decide_false by (intros H'; by apply H'). apply fire_edge_settles. by case_match.
Qed.
End checks.

(** *** A failing backup *)

(** One check a minute, and a network that delivers *)
Definition minute_times (n : nat) : clock := λ _, (Z.of_nat n * 60 * 1000000, Z.of_nat n * 60)%Z.
Definition quiet_world (out : string) : world := mkWorld ∅ [] (λ _, Exited 0 out).
Definition sample_cstate : cstate := mkCstate (quiet_world "active") sample_ndb 0.
Definition backup_seen (bad : bool) : observation := mkObservation bad "disk full" "fine".
Abbreviation backup_checks := (fold_left (observe (λ _, None) (λ s, s) minute_times (λ _, "now") "backup_failure" "Backup" "warning")).


Definition failing_cstate : cstate := backup_checks [backup_seen true] sample_cstate.

Lemma flapping_outage_never_announced_witness :
  notices 1 "backup_failure" "Backup" (k_db (backup_checks (backup_seen <$> false :: true :: replicate 100 true) failing_cstate))
  = [(false, Sent); (true, Sent); (false, Suppressed)].
Proof.
  assert (notify_ok (k_db failing_cstate)) as Hok.
  { destruct (observe_step (λ _, None) (λ s, s) minute_times (λ _, "now") "backup_failure" "Backup" "warning" sample_cstate (backup_seen true)
                Notifications.Warning (mkSubscription 1 1 "backup_failure" Notifications.Warning true None) sample_provider) as [H _];
      [apply sample_ndb_ok|reflexivity|left|reflexivity|exact H]. }
  destruct (flapping_outage_never_announced (λ _, None) (λ s, s) minute_times (λ _, "now") "backup_failure" "Backup" "warning" failing_cstate
              (backup_seen false) (backup_seen true) (backup_seen <$> replicate 100 true) Notifications.Warning
              (mkSubscription 1 1 "backup_failure" Notifications.Warning true None) (sample_provider{{np_failure_at := None}}) 30)
    as (st & Hst & Hn);
    [exact Hok|reflexivity|vm_compute; left|vm_compute; lia|reflexivity|reflexivity|reflexivity|reflexivity
    |by apply Forall_fmap, Forall_replicate|reflexivity|].
  etransitivity; [exact Hn|]. vm_compute in Hst |- *. by destruct st.
Defined.

(** Every unit answers as if inactive, a blocklist cannot be fetched, and the heartbeat file
    is not a document [check_analytics_writer] can read. *)
Definition sample_source : source_row := (new_source 7 "ads" "https://lists.example/ads" "ads" true){{src_last_error := Some "timed out"}}.
Definition sample_surroundings : surroundings :=
  mkSurroundings 1000 [] [sample_source] [("deployed", "ok"); ("failed", "disk full")] "now" "" [] []
    {["role" := "replica"; "last_sync_status" := "error"]}.
Definition broken_cstate : cstate := mkCstate (mkWorld {[HEARTBEAT_FILE := "[]"]} [] (λ n, Exited 0 (if bool_decide (n = 4) then "active" else "activating"))) sample_ndb 0.

Lemma run_all_checks_records_witness :
  let '(errors, k) := run_all_checks (H := sample_platform) (λ _, None) (λ s, s) minute_times (λ _, "now") sample_surroundings broken_cstate in
  errors = ["check_analytics_writer: object has no attribute 'get'"]
  ∧ n_checks (k_db k) !! ("service_unavailable", "dnsdist") = Some "bad"
  ∧ n_checks (k_db k) !! ("blocklist_update_failure", "ads") = Some "bad"
  ∧ n_checks (k_db k) !! ("backup_failure", "Backup") = Some "bad".
Proof.
  pose proof (run_all_checks_records (H := sample_platform) (λ _, None) (λ s, s) minute_times (λ _, "now") sample_surroundings broken_cstate
                sample_ndb_ok ltac:(apply NoDup_singleton)) as Hrec.
  assert ((run_all_checks (H := sample_platform) (λ _, None) (λ s, s) minute_times (λ _, "now") sample_surroundings broken_cstate).1
          = ["check_analytics_writer: object has no attribute 'get'"]) as He by (vm_compute; reflexivity).
  destruct (run_all_checks _ _ _ _ _ _) as [errors k]. cbn [fst snd] in He, Hrec. destruct Hrec as (Hs & Hsrc & _ & Hb & _).
  split; [exact He|]. split; [exact (Hs 1 "dnsdist" "dnsdist" eq_refl)|].
  split; [exact (Hsrc sample_source (list_elem_of_here _ _) eq_refl)|exact (Hb "failed" "disk full" eq_refl)].
Defined.
