(* ===== verification/Versions.v ===== *)
(** * Versions

    The order of release versions in [app/software_updates.py], their Debian form, and the
    versions the appliance reports of itself ([app/backup.py]). *)

From S2P Require Import Prelude PyStr StrLemmas IpAddr PyJson World.

Definition SoftwareUpdateError (message : string) : pyexc := PyExc "SoftwareUpdateError" message.

(** ** Reading a version *)

Definition is_alpha (c : ascii) : bool := is_lower_az c || is_upper_az c.
(** [[0-9A-Za-z-]] *)
Definition ident_char (c : ascii) : bool := is_09 c || is_alpha c || Ascii.eqb "-" c.

(** [0|[1-9]\d*], and the rest *)
Definition read_number (s : string) : option (Z * string) :=
  let d := take_while is_09 s in
  if String.eqb d "" || (starts_with "0" d && negb (String.eqb d "0")) then None else Some (num_value 10 d, sdrop (slen d) s).

Definition read_char (c : ascii) (s : string) : option string :=
  match s with String d t => if Ascii.eqb d c then Some t else None | "" => None end.

(** Identifiers separated by dots *)
Definition idents (s : string) : option (list string) :=
  let l := split_on "." s in
  if forallb (λ x, negb (String.eqb x "") && sforall ident_char x) l then Some l else None.

(** What follows the three numbers *)
Definition read_suffix (s : string) : option (option (list string)) :=
  let '(core, plus, build) := partition "+" s in
  if plus && negb (bool_decide (is_Some (idents build))) then None
  else match core with
  | "" => Some None
  | String "-" pre => Some <$> idents pre
  | _ => None
  end.

Record semver := mkSemver { sv_major : Z; sv_minor : Z; sv_patch : Z; sv_pre : option (list string) }.

(** app/software_updates.py:461-465 _SEMVER_RE *)
Definition match_semver (s : string) : option semver :=
  let s := match read_char "v" s with Some t => t | None => s end in
  '(major, s) ← read_number s; s ← read_char "." s;
  '(minor, s) ← read_number s; s ← read_char "." s;
  '(patch, s) ← read_number s;
  pre ← read_suffix s;
  Some (mkSemver major minor patch pre).

(** app/software_updates.py:468-477 parse_semver *)
Definition parse_semver (version : string) : res semver :=
  match match_semver (strip version) with
  | Some v => Ok v
  | None => Raise (SoftwareUpdateError ("malformed version string: " +:+ py_repr version))
  end.

Example parse_semver_ex1 : parse_semver " v1.20.3-rc.1+b.7" = Ok (mkSemver 1 20 3 (Some ["rc"; "1"])).
Proof. reflexivity. Qed.
Example parse_semver_ex2 : List.map (λ s, is_ok (parse_semver s)) ["1.02.3"; "1.2"; "1.2.3-"; "1.2.3-a..b"; "1.2.3+"; "vv1.2.3"; "0.0.0+-"]
  = [false; false; false; false; false; false; true].
Proof. reflexivity. Qed.

(** ** The order

    [int(x)] is [Lt], [Eq] or [Gt] for -1, 0 and 1. *)

(** app/software_updates.py:480-485 _prerelease_identifier_key *)
Definition identifier_key (ident : string) : Z * Z * string :=
  if isdigit ident then (0, num_value 10 ident, "")%Z else (1, 0, ident)%Z.

(** Python's order on the keys: the first component that differs decides. *)
Definition and_then (c d : comparison) : comparison := match c with Eq => d | _ => c end.
Definition compare_key (a b : Z * Z * string) : comparison :=
  and_then (Z.compare a.1.1 b.1.1) (and_then (Z.compare a.1.2 b.1.2) (String.compare a.2 b.2)).

(** The loop over [zip], then the lengths *)
Fixpoint compare_idents (a b : list string) : comparison :=
  match a, b with
  | [], [] => Eq
  | [], _ => Lt
  | _, [] => Gt
  | x :: a, y :: b => and_then (compare_key (identifier_key x) (identifier_key y)) (compare_idents a b)
  end.

Definition compare_core (a b : semver) : comparison :=
  and_then (Z.compare (sv_major a) (sv_major b)) (and_then (Z.compare (sv_minor a) (sv_minor b)) (Z.compare (sv_patch a) (sv_patch b))).

Definition compare_versions (a b : semver) : comparison :=
  match compare_core a b with
  | Eq =>
      match sv_pre a, sv_pre b with
      | None, None => Eq
      | None, Some _ => Gt
      | Some _, None => Lt
      | Some p, Some q => compare_idents p q
      end
  | c => c
  end.

(** app/software_updates.py:488-512 compare_semver *)
Definition compare_semver (a b : string) : res comparison :=
  x ← parse_semver a; y ← parse_semver b; Ok (compare_versions x y).

(** app/software_updates.py:756-760 _semver_sort_key *)
Definition sort_key (v : semver) : Z * Z * Z * Z * list (Z * Z * string) :=
  match sv_pre v with
  | None => (sv_major v, sv_minor v, sv_patch v, 1%Z, [])
  | Some p => (sv_major v, sv_minor v, sv_patch v, 0%Z, identifier_key <$> p)
  end.

(** Python's order on lists and on these tuples *)
Fixpoint compare_keys (a b : list (Z * Z * string)) : comparison :=
  match a, b with
  | [], [] => Eq
  | [], _ => Lt
  | _, [] => Gt
  | x :: a, y :: b => and_then (compare_key x y) (compare_keys a b)
  end.
Definition compare_sort_key (a b : Z * Z * Z * Z * list (Z * Z * string)) : comparison :=
  let '(a1, a2, a3, a4, al) := a in
  let '(b1, b2, b3, b4, bl) := b in
  and_then (Z.compare a1 b1) (and_then (Z.compare a2 b2) (and_then (Z.compare a3 b3) (and_then (Z.compare a4 b4) (compare_keys al bl)))).

Example compare_semver_ex :
  List.map (λ b, compare_semver "1.0.0-rc.2" b) ["1.0.0"; "1.0.0-rc.10"; "1.0.0-beta.3"; "v1.0.0-rc.2+x"; "1.0.0-rc"; "0.9.9"]
  = [Ok Lt; Ok Lt; Ok Gt; Ok Eq; Ok Gt; Ok Gt].
Proof. reflexivity. Qed.

(** ** Orders given by a comparison *)

Record order_ok {A} (cmp : A → A → comparison) : Prop := {
  cmp_refl : ∀ a, cmp a a = Eq;
  cmp_opp : ∀ a b, cmp b a = CompOpp (cmp a b);
  cmp_eq : ∀ a b c, cmp a b = Eq → cmp a c = cmp b c;
  cmp_lt : ∀ a b c, cmp a b = Lt → cmp b c = Lt → cmp a c = Lt }.

Lemma and_then_opp c d : CompOpp (and_then c d) = and_then (CompOpp c) (CompOpp d).
Proof. by destruct c. Qed.

Lemma order_map {A B} (f : A → B) cmp : order_ok cmp → order_ok (λ a b, cmp (f a) (f b)).
Proof. intros [H1 H2 H3 H4]. split; eauto. Qed.

Lemma order_then {A} (c d : A → A → comparison) : order_ok c → order_ok d → order_ok (λ a b, and_then (c a b) (d a b)).
Proof.
  intros [C1 C2 C3 C4] [D1 D2 D3 D4]. split.
  - intros a. by rewrite C1, D1.
  - intros a b. by rewrite and_then_opp, C2, D2.
  - intros a b x. destruct (c a b) eqn:Hc; [|done..]. cbn. intros Hd. by rewrite (C3 a b x Hc), (D3 a b x Hd).
  - intros a b x. destruct (c a b) eqn:Hab; cbn; [| |done].
    + intros Hd. rewrite (C3 _ _ x Hab). destruct (c b x) eqn:Hbx; cbn; [|done..]. by apply D4.
    + intros _. destruct (c b x) eqn:Hbx; cbn; [| |done].
      * intros _. assert (c x b = Eq) as Hxb by (by rewrite C2, Hbx). assert (c x a = Gt) as Hxa.
        { rewrite (C3 _ _ a Hxb), C2, Hab. done. }
        by rewrite C2, Hxa.
      * intros _. by rewrite (C4 _ _ _ Hab Hbx).
Qed.

Lemma order_Z : order_ok Z.compare.
Proof.
  split.
  - apply Z.compare_refl.
  - intros a b. apply Z.compare_antisym.
  - by intros a b c ->%Z.compare_eq_iff.
  - intros a b c. rewrite !Z.compare_lt_iff. lia.
Qed.

Lemma order_ascii : order_ok Ascii.compare.
Proof.
  unfold Ascii.compare. apply (order_map N_of_ascii). split.
  - apply N.compare_refl.
  - intros a b. apply N.compare_antisym.
  - by intros a b c ->%N.compare_eq_iff.
  - intros a b c. rewrite !N.compare_lt_iff. lia.
Qed.

(** Lexicographic comparison, the shorter first *)
Section lex.
Context {A L : Type} (cmp : A → A → comparison) (lcmp : L → L → comparison) (nil : L) (cons : A → L → L).
Context (Hind : ∀ P : L → Prop, P nil → (∀ x l, P l → P (cons x l)) → ∀ l, P l).
Context (Hnn : lcmp nil nil = Eq) (Hnc : ∀ x l, lcmp nil (cons x l) = Lt) (Hcn : ∀ x l, lcmp (cons x l) nil = Gt)
        (Hcc : ∀ x l y k, lcmp (cons x l) (cons y k) = and_then (cmp x y) (lcmp l k)).

Lemma order_lex : order_ok cmp → order_ok lcmp.
Proof.
  intros [C1 C2 C3 C4].
  assert (∀ a b, lcmp b a = CompOpp (lcmp a b)) as Hopp.
  { induction a as [|x a IH] using Hind; intros b; destruct b as [|y b _] using Hind; rewrite ?Hnn, ?Hnc, ?Hcn, ?Hcc; try done.
    by rewrite and_then_opp, C2, IH. }
  assert (∀ a b c, lcmp a b = Eq → lcmp a c = lcmp b c) as Heq.
  { induction a as [|x a IH] using Hind; intros b c; destruct b as [|y b _] using Hind; rewrite ?Hnn, ?Hnc, ?Hcn, ?Hcc; try done.
    destruct (cmp x y) eqn:Hxy; [|done..]. cbn. intros Hab. destruct c as [|z c _] using Hind; rewrite ?Hcn, ?Hcc; [done|].
    by rewrite (C3 x y z Hxy), (IH b c Hab). }
  split; [|exact Hopp|exact Heq|].
  - induction a as [|x a IH] using Hind; rewrite ?Hnn, ?Hcc; [done|]. by rewrite C1.
  - induction a as [|x a IH] using Hind; intros b c; destruct b as [|y b _] using Hind; destruct c as [|z c _] using Hind;
      rewrite ?Hnn, ?Hnc, ?Hcn, ?Hcc; try done.
    destruct (cmp x y) eqn:Hxy; cbn; [| |done].
    + intros Hab. rewrite (C3 x y z Hxy). destruct (cmp y z); cbn; [|done..]. by apply IH.
    + intros _. destruct (cmp y z) eqn:Hyz; cbn; [| |done]; intros _.
      * assert (cmp x z = Lt) as ->; [|done]. assert (cmp z y = Eq) as Hzy by (by rewrite C2, Hyz).
        rewrite C2, (C3 z y x Hzy), C2, Hxy. done.
      * by rewrite (C4 _ _ _ Hxy Hyz).
Qed.
End lex.

Lemma order_string : order_ok String.compare.
Proof.
  apply (order_lex Ascii.compare _ "" String); try done; [|intros x l y k; cbn; by destruct (Ascii.compare x y)|apply order_ascii].
  intros P H0 HS l. induction l; auto.
Qed.

Lemma order_key : order_ok compare_key.
Proof.
  unfold compare_key. apply order_then; [apply (order_map (λ k, k.1.1)), order_Z|].
  apply order_then; [apply (order_map (λ k, k.1.2)), order_Z|apply (order_map snd), order_string].
Qed.

Lemma order_idents : order_ok compare_idents.
Proof.
  apply (order_lex (λ a b, compare_key (identifier_key a) (identifier_key b)) _ [] (@List.cons string)); try done.
  - intros P H0 HS l. induction l; auto.
  - apply (order_map identifier_key), order_key.
Qed.

Definition compare_pre (a b : option (list string)) : comparison :=
  match a, b with None, None => Eq | None, Some _ => Gt | Some _, None => Lt | Some p, Some q => compare_idents p q end.

Lemma order_pre : order_ok compare_pre.
Proof.
  destruct order_idents as [H1 H2 H3 H4]. split.
  - intros [a|]; [apply H1|done].
  - intros [a|] [b|]; [apply H2|done..].
  - intros [a|] [b|] [c|]; cbn; (apply H3 || done).
  - intros [a|] [b|] [c|]; cbn; (apply H4 || done).
Qed.

Lemma compare_versions_then a b : compare_versions a b = and_then (compare_core a b) (compare_pre (sv_pre a) (sv_pre b)).
Proof. unfold compare_versions. by destruct (compare_core a b). Qed.

Lemma order_versions : order_ok compare_versions.
Proof.
  assert (order_ok (λ a b, and_then (compare_core a b) (compare_pre (sv_pre a) (sv_pre b)))) as H.
  { apply order_then; [|apply (order_map sv_pre), order_pre]. unfold compare_core.
    apply order_then; [apply (order_map sv_major), order_Z|].
    apply order_then; [apply (order_map sv_minor), order_Z|apply (order_map sv_patch), order_Z]. }
  destruct H as [H1 H2 H3 H4]. split; intros; rewrite ?compare_versions_then in *; eauto.
Qed.

(** The sort key orders releases as the comparison does. *)
Lemma compare_keys_idents a b : compare_keys (identifier_key <$> a) (identifier_key <$> b) = compare_idents a b.
Proof. revert b. induction a as [|x a IH]; intros [|y b]; try done. cbn. by rewrite IH. Qed.

Lemma sort_key_agrees a b : compare_sort_key (sort_key a) (sort_key b) = compare_versions a b.
Proof.
  rewrite compare_versions_then. unfold compare_core, sort_key.
  destruct (sv_pre a) as [p|], (sv_pre b) as [q|]; cbn [compare_sort_key compare_pre];
    destruct (Z.compare _ _); try done; destruct (Z.compare (sv_minor a) _); try done; destruct (Z.compare (sv_patch a) _); try done.
  cbn. apply compare_keys_idents.
Qed.

(** Two identifiers compare equal only when they read the same. *)
Lemma compare_semver_ok a b c :
  compare_semver a b = Ok c ↔ ∃ x y, parse_semver a = Ok x ∧ parse_semver b = Ok y ∧ compare_versions x y = c.
Proof.
  unfold compare_semver. rewrite res_bind_ok. split.
  - intros (x & Hx & (y & Hy & [= Hc])%res_bind_ok). by exists x, y.
  - intros (x & y & Hx & Hy & Hc). exists x. split; [done|]. apply res_bind_ok. exists y. split; [done|]. by rewrite Hc.
Qed.

(** On version strings that are well formed the comparison is a total order up to the
    strings it calls equal: it answers for every two of them, swapping them swaps the
    answer, equal ones cannot be told apart, and less-than is transitive. *)
Theorem compare_semver_total_order a b c :
  is_ok (parse_semver a) = true → is_ok (parse_semver b) = true → is_ok (parse_semver c) = true →
  compare_semver a a = Ok Eq
  ∧ (∃ o, compare_semver a b = Ok o ∧ compare_semver b a = Ok (CompOpp o))
  ∧ (compare_semver a b = Ok Eq → compare_semver a c = compare_semver b c)
  ∧ (compare_semver a b = Ok Lt → compare_semver b c = Ok Lt → compare_semver a c = Ok Lt).
Proof.
  destruct order_versions as [H1 H2 H3 H4]. unfold compare_semver.
  destruct (parse_semver a) as [x|], (parse_semver b) as [y|], (parse_semver c) as [z|]; cbn; try done. intros _ _ _.
  split_and!.
  - by rewrite H1.
  - exists (compare_versions x y). by rewrite (H2 x y).
  - intros [= E]. by rewrite (H3 _ _ z E).
  - intros [= E1] [= E2]. by rewrite (H4 _ _ _ E1 E2).
Qed.

Lemma compare_semver_total_order_witness :
  compare_semver "1.0.0-rc.2" "v1.0.0-rc.2+7" = Ok Eq ∧ compare_semver "1.0.0-rc.2" "1.0.0" = compare_semver "v1.0.0-rc.2+7" "1.0.0".
Proof.
  destruct (compare_semver_total_order "1.0.0-rc.2" "v1.0.0-rc.2+7" "1.0.0" eq_refl eq_refl eq_refl) as (_ & _ & He & _).
  split; [reflexivity|exact (He eq_refl)].
Defined.

(** ** The Debian form *)

(** A tag at the front of a text: [open], letters, [mid], digits; and the rest *)
Definition tag_at (open : ascii) (mid : string) (s : string) : option (string * string * string) :=
  match s with
  | String c t =>
      if Ascii.eqb c open then
        let l := take_while is_alpha t in
        let r := sdrop (slen l) t in
        if String.eqb l "" || negb (starts_with mid r) then None
        else
          let r := sdrop (slen mid) r in
          let d := take_while is_09 r in
          if String.eqb d "" then None else Some (l, d, sdrop (slen d) r)
      else None
  | "" => None
  end.

(** [re.sub] with such a tag: [skip] characters of the last match are left. *)
Fixpoint sub_tag (open : ascii) (mid : string) (out : string → string → string) (skip : nat) (s : string) : string :=
  match s with
  | "" => ""
  | String c t =>
      match skip with
      | S skip => sub_tag open mid out skip t
      | O =>
          match tag_at open mid s with
          | Some (l, d, _) => out l d +:+ sub_tag open mid out (slen l + slen mid + slen d) t
          | None => String c (sub_tag open mid out 0 t)
          end
      end
  end.

Definition to_debian : string → string := sub_tag "-" "." (λ l d, "~" +:+ l +:+ d) 0.
Definition from_debian : string → string := sub_tag "~" "" (λ l d, "-" +:+ l +:+ "." +:+ d) 0.

(** app/software_updates.py:531-537 source_version_to_deb_form *)
Definition source_version_to_deb_form (version : string) : string := to_debian (lstrip_by (Ascii.eqb "v") version) +:+ "-1".

(** The text before the last [c] *)
Fixpoint before_last (c : ascii) (s : string) : option string :=
  match s with
  | "" => None
  | String d t =>
      match before_last c t with
      | Some x => Some (String d x)
      | None => if Ascii.eqb c d then Some "" else None
      end
  end.

(** app/backup.py:737-739 _dpkg_version_to_source_form *)
Definition dpkg_version_to_source_form (dpkg_version : string) : string :=
  from_debian (default dpkg_version (before_last "-" dpkg_version)).

Example deb_form_ex : source_version_to_deb_form "v0.5.0-dev.1+b-x.2" = "0.5.0~dev1+b~x2-1".
Proof. reflexivity. Qed.

(** *** The two forms *)

Lemma take_while_split p s :
  s = take_while p s +:+ sdrop (slen (take_while p s)) s ∧ sforall p (take_while p s) = true
  ∧ head_not p (sdrop (slen (take_while p s)) s) = true.
Proof.
  induction s as [|c s (H1 & H2 & H3)]; [done|]. cbn [take_while]. destruct (p c) eqn:Hc.
  - split; [exact (f_equal (String c) H1)|]. split; [|exact H3]. cbn. by rewrite Hc.
  - split; [done|]. split; [done|]. unfold head_not. simpl. by rewrite Hc.
Qed.

Lemma starts_with_sdrop p s : starts_with p s = true → s = p +:+ sdrop (slen p) s.
Proof.
  revert s. induction p as [|c p IH]; intros [|d s]; try done. cbn [starts_with]. intros [->%Ascii.eqb_eq Hs]%andb_prop. exact (f_equal (String d) (IH s Hs)).
Qed.

Lemma tag_at_Some open mid s l d r :
  tag_at open mid s = Some (l, d, r) →
  s = String open (l +:+ mid +:+ d +:+ r) ∧ l ≠ "" ∧ sforall is_alpha l = true ∧ d ≠ "" ∧ sforall is_09 d = true ∧ head_not is_09 r = true.
Proof.
  destruct s as [|c t]; [done|]. unfold tag_at. destruct (Ascii.eqb_spec c open) as [->|]; [|done].
  destruct (take_while_split is_alpha t) as (Ht & Hl & _). set (x := take_while is_alpha t) in *. set (r1 := sdrop (slen x) t) in *.
  destruct (String.eqb_spec x "") as [|Hx]; [done|]. cbn [orb]. destruct (starts_with mid r1) eqn:Hm; [|done]. cbn [negb].
  apply starts_with_sdrop in Hm. set (r2 := sdrop (slen mid) r1) in *.
  destruct (take_while_split is_09 r2) as (Hr & Hd & Hh). set (y := take_while is_09 r2) in *.
  destruct (String.eqb_spec y "") as [|Hy]; [done|]. intros [= <- <- <-]. split_and!; try done.
  by rewrite <-Hr, <-Hm, <-Ht.
Qed.

Lemma sub_tag_skip open mid out n s : sub_tag open mid out n s = sub_tag open mid out 0 (sdrop n s).
Proof. revert n. induction s as [|c s IH]; intros [|n]; try done. cbn [sub_tag sdrop]. apply IH. Qed.

(** One step of a substitution *)
Lemma sub_tag_step open mid out s :
  sub_tag open mid out 0 s
  = match tag_at open mid s with
    | Some (l, d, r) => out l d +:+ sub_tag open mid out 0 r
    | None => match s with String c t => String c (sub_tag open mid out 0 t) | "" => "" end
    end.
Proof.
  destruct s as [|c t]; [done|]. cbn [sub_tag]. destruct (tag_at open mid (String c t)) as [[[l d] r]|] eqn:Ht; [|done].
  rewrite sub_tag_skip. apply tag_at_Some in Ht as ([= -> ->] & _). f_equal. f_equal.
  by rewrite <-(sapp_assoc mid), <-sapp_assoc, <-sapp_assoc, <-!slen_app, sapp_assoc, sdrop_app_length.
Qed.

Lemma to_debian_head p s : head_not p s = true → p "~"%char = false → head_not p (to_debian s) = true.
Proof.
  intros Hs Hp. unfold to_debian. rewrite sub_tag_step. destruct (tag_at _ _ s) as [[[l d] r]|]; [unfold head_not; simpl; by rewrite Hp|].
  by destruct s.
Qed.

Lemma tag_at_from l d r :
  l ≠ "" → sforall is_alpha l = true → d ≠ "" → sforall is_09 d = true → head_not is_09 r = true →
  tag_at "~" "" ("~" +:+ l +:+ d +:+ r) = Some (l, d, r).
Proof.
  intros Hl Hal Hd H09 Hr.
  assert (take_while is_alpha (l +:+ d +:+ r) = l) as Htl.
  { apply take_while_app; [done|]. destruct d as [|c d]; [done|]. apply andb_prop in H09 as [Hc _]. unfold head_not. simpl.
    exact (char_implies is_09 (λ c, negb (is_alpha c)) eq_refl c Hc). }
  change (tag_at "~" "" ("~" +:+ l +:+ d +:+ r)) with
    (let t := l +:+ d +:+ r in let l := take_while is_alpha t in let r := sdrop (slen l) t in
     if String.eqb l "" || negb (starts_with "" r) then None
     else let d := take_while is_09 r in if String.eqb d "" then None else Some (l, d, sdrop (slen d) r)).
  cbn zeta. rewrite Htl, sdrop_app_length, (take_while_app is_09 d r H09 Hr), sdrop_app_length.
  by rewrite (proj2 (String.eqb_neq l "") Hl), (proj2 (String.eqb_neq d "") Hd).
Qed.

Lemma from_to_debian s : char_in "~" s = false → from_debian (to_debian s) = s.
Proof.
  remember (slen s) as n eqn:Hn. revert s Hn. induction (lt_wf n) as [n _ IH]. intros s -> Hs.
  unfold to_debian. rewrite sub_tag_step. destruct (tag_at "-" "." s) as [[[l d] r]|] eqn:Ht.
  - apply tag_at_Some in Ht as (-> & Hl & Hal & Hd & H09 & Hr). fold (to_debian r).
    assert (head_not is_09 (to_debian r) = true) as Hr' by (by apply to_debian_head).
    unfold from_debian. rewrite sub_tag_step, !sapp_assoc, (tag_at_from l d _ Hl Hal Hd H09 Hr'). fold (from_debian (to_debian r)).
    rewrite (IH (slen r)), !sapp_assoc; [done| |done|].
    + cbn. rewrite !slen_app. lia.
    + rewrite char_in_cons, !char_in_app in Hs. bool_to_prop. done.
  - destruct s as [|c t]; [done|]. rewrite char_in_cons in Hs. apply orb_false_iff in Hs as [Hc Hs]. fold (to_debian t).
    unfold from_debian. rewrite sub_tag_step. assert (tag_at "~" "" (String c (to_debian t)) = None) as ->.
    { unfold tag_at. rewrite Ascii.eqb_sym in Hc. by rewrite Hc. }
    fold (from_debian (to_debian t)). rewrite (IH (slen t)); [done|cbn; lia|done|done].
Qed.

Lemma before_last_app c s t : char_in c t = false → before_last c (s +:+ String c t) = Some s.
Proof.
  intros Ht.
  assert (∀ d t, before_last c (String d t) = match before_last c t with Some x => Some (String d x) | None => if Ascii.eqb c d then Some "" else None end)
    as Hstep by done.
  assert (∀ t, char_in c t = false → before_last c t = None) as Hnone.
  { intros u. induction u as [|d u IH]; [done|]. rewrite char_in_cons, Hstep. intros [Hd Hu]%orb_false_iff. by rewrite (IH Hu), Hd. }
  induction s as [|d s IH]; [change ("" +:+ String c t) with (String c t); by rewrite Hstep, Hnone, Ascii.eqb_refl|].
  change (String d s +:+ String c t) with (String d (s +:+ String c t)). by rewrite Hstep, IH.
Qed.

(** The version dpkg reports for a package built from a release reads back as the
    release's version, for every version without a tilde. *)
Theorem deb_form_roundtrip version :
  char_in "~" version = false →
  dpkg_version_to_source_form (source_version_to_deb_form version) = lstrip_by (Ascii.eqb "v") version.
Proof.
  intros Hv. unfold dpkg_version_to_source_form, source_version_to_deb_form. rewrite before_last_app by done. cbn [default].
  apply from_to_debian. destruct (lstrip_split (Ascii.eqb "v") version) as (a & Ha & _). rewrite Ha, char_in_app in Hv.
  by apply orb_false_iff in Hv as [_ ?].
Qed.

Lemma deb_form_roundtrip_witness : dpkg_version_to_source_form (source_version_to_deb_form "v0.5.0-rc.10+x-y.2") = "0.5.0-rc.10+x-y.2".
Proof. exact (deb_form_roundtrip "v0.5.0-rc.10+x-y.2" eq_refl). Defined.
