(* ===== verification/UpdateJobs.v ===== *)
(** * Update jobs

    [app/software_updates.py] from a requested job to its end: the package checks, the
    phases of a job with the events they record, the health check after the installation,
    and the jobs whose runner died.  The backup is a parameter, any action on the files and
    commands; the network is that of [Releases]. *)

From S2P Require Import Prelude PyStr StrLemmas IpAddr PyJson JsonRead World FilterSchedule Versions Releases.

(** ** Tables *)

(** app/software_updates.py:114-117 PHASES *)
Inductive phase := PhPending | PhChecking | PhDownloading | PhValidating | PhBackingUp | PhSimulating | PhInstalling | PhRestarting | PhPostcheck
  | PhCompleted | PhFailed.
#[export] Instance phase_eq_dec : EqDecision phase.
Proof. solve_decision. Defined.

Definition phase_text (p : phase) : string :=
  match p with
  | PhPending => "pending" | PhChecking => "checking" | PhDownloading => "downloading" | PhValidating => "validating"
  | PhBackingUp => "backing_up" | PhSimulating => "simulating" | PhInstalling => "installing" | PhRestarting => "restarting"
  | PhPostcheck => "postcheck" | PhCompleted => "completed" | PhFailed => "failed"
  end.

(** app/software_updates.py:119-131 PHASE_DISPLAY_MESSAGES *)
Definition PHASE_DISPLAY_MESSAGES (p : phase) : string :=
  match p with
  | PhPending => "Starting update..." | PhChecking => "Checking..." | PhDownloading => "Downloading..."
  | PhValidating => "Verifying package..." | PhBackingUp => "Creating pre-upgrade backup..." | PhSimulating => "Simulating upgrade..."
  | PhInstalling => "Installing..." | PhRestarting => "Restarting services..." | PhPostcheck => "Running post-upgrade health checks..."
  | PhCompleted => "Completed." | PhFailed => "Failed."
  end.

(** app/software_updates.py:137-137 PACKAGE_STATE_UNCERTAIN_PHASES *)
Definition uncertain (p : phase) : bool := bool_decide (p ∈ [PhInstalling; PhRestarting; PhPostcheck]).
Definition terminal (p : phase) : bool := bool_decide (p ∈ [PhCompleted; PhFailed]).

Definition PENDING_DISPATCH_GRACE_SECONDS : Z := 120.

Inductive operation := Github (release : json) | Manual (uploaded : string) (expected_sha : option string).

(** The process that works on a job: its id, its start time and the boot *)
Record worker := mkWorker { wk_pid : Z; wk_ticks : option Z; wk_boot : string }.

(** app/software_updates.py:227-247 init_db *)
Record job := mkJob {
  j_id : Z; j_operation : operation; j_requested : string; j_by : string; j_current : string; j_candidate : string;
  j_staged : option (string * string); j_backup : option (option Z * string); j_phase : phase; j_result : option string; j_error : string;
  j_diagnostics : list (string * json); j_started : option string; j_completed : option string; j_worker : option worker }.

(** app/software_updates.py:248-254 init_db *)
Record event := mkEvent { e_id : Z; e_job : Z; e_ts : string; e_phase : phase; e_message : string }.

(** Files and commands, the two tables, and the number of clock readings so far *)
Record ustate := mkUstate { u_world : world; u_jobs : list job; u_events : list event; u_tick : nat }.

Definition UM (A : Type) : Type := ustate → res A * ustate.
#[export] Instance UM_ret : MRet UM := λ A a u, (Ok a, u).
#[export] Instance UM_bind : MBind UM := λ A B f m u,
  match m u with (Ok a, u) => f a u | (Raise e, u) => (Raise e, u) end.

Definition um_raise {A} (e : pyexc) : UM A := λ u, (Raise e, u).
Definition um_lift {A} (r : res A) : UM A := λ u, (r, u).
Definition in_world {A} (m : M A) : UM A := λ u, let '(r, w) := m (u_world u) in (r, u{{u_world := w}}).
Definition update_job (id : Z) (f : job → job) : UM () := λ u,
  (Ok (), u{{u_jobs ::= fmap (λ j, if (j_id j =? id)%Z then f j else j)}}).

Definition add_event (id : Z) (ts : string) (p : phase) (message : string) : UM () := λ u,
  (Ok (), u{{u_events ::= (λ l, l ++ [mkEvent (fresh_id (e_id <$> l)) id ts p message])}}).

Definition find_job (id : Z) (l : list job) : option job := find_first (λ j, (j_id j =? id)%Z) l.

(** ** Packages *)

(** app/software_updates.py:870-882 inspect_deb *)
Definition inspect_deb (path : string) : M (gmap string string) :=
  r ← try_except (run ["dpkg-deb"; "-f"; path; "Package"; "Version"; "Architecture"] false)
        (λ e, if timed_out e then raise e else raise (SoftwareUpdateError ("dpkg-deb failed to run: " +:+ exc_message e)));
  if negb (r.1 =? 0)%Z
  then raise (SoftwareUpdateError ("dpkg-deb could not inspect the package (is it a valid .deb?): " +:+ r.2))
  else mret (fold_left (λ m line, let '(key, sep, value) := partition ":" line in if sep : bool then <[strip key := strip value]> m else m)
               (splitlines r.2) ∅).

(** [REMOVAL_RE] at the front of a line: the name and the length of the match *)
Definition removal_at (s : string) : option (string * nat) :=
  if starts_with "Remv" s then
    let t := sdrop 4 s in
    let spaces := take_while is_space t in
    let name := take_while (negb ∘ is_space) (sdrop (slen spaces) t) in
    if String.eqb spaces "" || String.eqb name "" then None else Some (name, 4 + slen spaces + slen name)
  else None.

(** [REMOVAL_RE.findall(s)]: [line] is whether a line starts here. *)
Fixpoint removals (skip : nat) (line : bool) (s : string) : list string :=
  match s with
  | "" => []
  | String c t =>
      let next := Ascii.eqb c "010" in
      match skip with
      | S skip => removals skip next t
      | O => match (if line then removal_at s else None) with
             | Some (name, n) => name :: removals (pred n) next t
             | None => removals 0 next t
             end
      end
  end.

(** app/software_updates.py:112-112 CRITICAL_PACKAGES *)
Definition CRITICAL_PACKAGES : list string := ["alderpointdns"; "bind9"; "bind9-utils"; "dnsdist"; "libssl3"; "libc6"; "python3"].

Definition before (c : ascii) (s : string) : string := (partition c s).1.1.

Definition simulate_command (path : string) : list string :=
  ["apt-get"; "install"; "-s"; "-y"; "-o"; "Dpkg::Options::=--force-confold"; path].
Definition install_command (path : string) : list string :=
  ["apt-get"; "install"; "-y"; "-o"; "Dpkg::Options::=--force-confold"; path].

(** The critical packages a simulated installation removes *)
Definition unsafe_removals (output : string) : gset string :=
  let removed := list_to_set ((λ name, before "[" (before ":" name)) <$> removals 0 true output) in
  let unsafe := removed ∩ (list_to_set CRITICAL_PACKAGES ∖ {["alderpointdns"]}) in
  if bool_decide ("alderpointdns" ∈ removed) then {["alderpointdns"]} ∪ unsafe else unsafe.

(** app/software_updates.py:888-902 simulate_install *)
Definition simulate_install (path : string) : M string :=
  r ← try_except (run (simulate_command path) false)
        (λ e, if timed_out e then raise e else raise (SoftwareUpdateError ("apt simulation failed to run: " +:+ exc_message e)));
  if negb (r.1 =? 0)%Z then raise (SoftwareUpdateError ("apt simulation failed: " +:+ r.2))
  else if bool_decide (unsafe_removals r.2 = ∅) then mret r.2
  else raise (SoftwareUpdateError ("simulated install would remove critical package(s) " +:+ py_repr_list (sorted_set (unsafe_removals r.2))
                +:+ "; refusing to proceed")).

Definition repr_opt (v : option string) : string := match v with Some s => py_repr s | None => "None" end.

(** app/software_updates.py:905-929 validate_candidate_package *)
Definition validate_candidate_package (path : string) (expected_version : option string) : M (gmap string string) :=
  fields ← inspect_deb path;
  if bool_decide (fields !! "Package" ≠ Some "alderpointdns")
  then raise (SoftwareUpdateError ("package name mismatch: expected 'alderpointdns', got " +:+ repr_opt (fields !! "Package")))
  else if negb (bool_decide (fields !! "Architecture" = Some "all") || bool_decide (fields !! "Architecture" = Some "amd64"))
  then raise (SoftwareUpdateError ("unsupported package architecture: " +:+ repr_opt (fields !! "Architecture")))
  else
    let version := default "" (fields !! "Version") in
    _ ← match expected_version with
        | Some v =>
            let deb := source_version_to_deb_form v in
            same ← dpkg_compare version "eq" deb;
            if same : bool then mret ()
            else raise (SoftwareUpdateError ("package version " +:+ py_repr version +:+ " does not correspond to the expected release version "
                          +:+ py_repr deb))
        | None => mret ()
        end;
    installed ← installed_package_version;
    match installed with
    | None => raise (SoftwareUpdateError "Software Updates: unmanaged source installation -- cannot install a package here")
    | Some installed =>
        same ← dpkg_compare version "eq" installed;
        if same : bool
        then raise (SoftwareUpdateError ("candidate version " +:+ py_repr version
                      +:+ " is the same as the installed version; refusing a no-op reinstall via the updater"))
        else
          newer ← dpkg_compare version "gt" installed;
          if newer : bool then mret fields
          else raise (SoftwareUpdateError ("candidate version " +:+ py_repr version +:+ " is not newer than the installed version "
                        +:+ py_repr installed +:+ "; refusing to downgrade"))
    end.

(** ** Health *)

Definition SERVICES : list string := ["alderpointdns"; "alderpointdns-analytics"; "named"; "dnsdist"].

(** app/software_updates.py:951-956 _service_active *)
Definition service_active (unit : string) : M bool :=
  try_except (r ← run ["systemctl"; "is-active"; unit] false; mret (String.eqb (strip r.2) "active"))
    (λ e, if timed_out e then raise e else mret false).

(** [all(...)] stops at the first that is not. *)
Fixpoint all_active (units : list string) : M bool :=
  match units with
  | [] => mret true
  | unit :: units => active ← service_active unit; if active : bool then all_active units else mret false
  end.

(** The loop that waits for the services, a second between the rounds *)
Fixpoint wait_active (rounds : nat) : M () :=
  match rounds with
  | O => mret ()
  | S rounds => ok ← all_active SERVICES; if ok : bool then mret () else wait_active rounds
  end.

Definition health_failed (fields : list (string * json)) (version : string) : json :=
  JObj (("ok", JBool false) :: ("postcheck_process_ok", JBool false) :: fields ++ [("expected_deb_version", JStr version)]).

(** app/software_updates.py:1219-1276 run_fresh_post_upgrade_health_check *)
Definition run_fresh_post_upgrade_health_check (token : option string) (python version : string) : M json :=
  r ← attempt (run [python; "/opt/alderpointdns/app/alderpointdns_compiler.py"; "update-postcheck"; "--expected-deb-version"; version] false);
  mret match r with
  | Raise e =>
      health_failed [("postcheck_process_error", JStr (if timed_out e then "fresh post-upgrade health check timed out"
                                                        else stake 400 (redact token (exc_message e))))] version
  | Ok (code, out) =>
      let output := strip out in
      if negb (code =? 0)%Z then
        let text := stake 1000 (redact token output) in
        health_failed [("postcheck_process_error",
                        JStr (if String.eqb text "" then "fresh post-upgrade health check exited with status " +:+ str_int code else text));
                       ("postcheck_process_returncode", JInt code)] version
      else match loads output with
      | None => health_failed [("postcheck_process_error", JStr "fresh post-upgrade health check returned invalid JSON");
                               ("postcheck_process_output", JStr (stake 1000 (redact token output)))] version
      | Some (JObj health) =>
          JObj (dict_set "postcheck_process_command" (JStr "update-postcheck") (dict_set "postcheck_process_ok" (JBool true) health))
      | Some _ => health_failed [("postcheck_process_error", JStr "fresh post-upgrade health check returned a non-object result")] version
      end
  end.

Definition get (health : list (string * json)) (key : string) (dflt : json) : json := default dflt (field key health).
Definition is_false (j : json) : bool := match j with JBool false => true | _ => false end.
Definition is_true (j : json) : bool := match j with JBool true => true | _ => false end.

(** app/software_updates.py:1062-1085 _health_failure_summary *)
Definition health_failure_summary (health : list (string * json)) : string :=
  let inactive := match get health "services" JNull with
                  | JObj services => fst <$> List.filter (λ kv, negb (py_bool kv.2)) services
                  | _ => []
                  end in
  let database :=
    match get health "database_quick_check" JNull with
    | JObj check =>
        let detail := if py_bool (get check "message" JNull) then get check "message" JNull
                      else if py_bool (get check "result" JNull) then get check "result" JNull
                      else if py_bool (get check "error_type" JNull) then get check "error_type" JNull else JStr "failed" in
        "database quick_check failed (" +:+ py_str detail +:+ ")"
    | _ => "database quick_check failed"
    end in
  let installed := get health "installed_dpkg_version" JNull in
  let failures :=
    (match inactive with [] => [] | _ => ["inactive services: " +:+ join ", " inactive] end)
    ++ (if py_bool (get health "database_quick_check_ok" (JBool true)) then [] else [database])
    ++ (if py_bool (get health "dns_resolution_ok" (JBool true)) then [] else ["DNS resolution failed"])
    ++ (if py_bool (get health "webapp_responding" (JBool true)) then [] else ["web app health endpoint did not respond"])
    ++ (if is_false (get health "installed_version_matches_expected" JNull)
        then ["installed package version does not match expected (" +:+ (if py_bool installed then py_str installed else "unknown") +:+ " installed)"]
        else []) in
  match failures with [] => "post-upgrade health verification failed" | _ => join "; " failures end.

(** app/software_updates.py:1088-1089 _installed_but_health_failed *)
Definition installed_but_health_failed (health : list (string * json)) : bool :=
  is_false (get health "ok" JNull) && is_true (get health "installed_version_matches_expected" JNull).

(** ** The phases of a job *)

Definition UPLOAD_STAGING_DIR : string := "/var/lib/alderpointdns/staging/software-updates".

(** [redact] on every text of a document *)
Fixpoint redact_structure (token : option string) (v : json) : json :=
  match v with
  | JStr s => JStr (redact token s)
  | JObj fields => JObj (List.map (λ kv, (kv.1, redact_structure token kv.2)) fields)
  | JList l => JList (List.map (redact_structure token) l)
  | v => v
  end.

Section jobs.
(** The network, SHA-256, whether GitHub is reachable, the repository of the settings, and
    [Path.resolve] *)
Context (github_get : string → option string → res json) (fetch : string → option string → download) (sha256 : string → string)
        (reachable : bool) (repo : string) (resolve : string → string).
(** The credential file, the interpreter, the clock, and the running process *)
Context (file : option credential) (python : string) (clock : nat → string) (self : worker).
(** [backup.create_backup], and the id of the last backup after it *)
Context (create_backup : Z → string → string → M string) (last_backup : option Z).

Let token : option string := read_github_token file.

Definition now : UM string := λ u, (Ok (clock (u_tick u)), u{{u_tick ::= S}}).

(** app/software_updates.py:1283-1287 _record_event *)
Definition record_event (id : Z) (p : phase) (message : string) : UM () :=
  ts ← now; add_event id ts p (redact token message).

(** app/software_updates.py:1290-1293 _set_phase *)
Definition set_phase (id : Z) (p : phase) (message : string) : UM () :=
  _ ← update_job id (λ j : job, j{{j_phase := p}}); record_event id p message.

(** app/software_updates.py:1447-1452 _diagnostics_merge *)
Definition diagnostics_merge (id : Z) (extra : list (string * json)) : UM () :=
  update_job id (λ j : job, j{{j_diagnostics ::= (λ d, fold_left (λ d kv, dict_set kv.1 (redact_structure token kv.2) d) extra d)}}).

(** app/software_updates.py:1455-1462 _fail_job *)
Definition fail_job (id : Z) (error : string) : UM () :=
  let message := redact token error in
  ts ← now;
  _ ← update_job id (λ j : job, j{{j_phase := PhFailed; j_result := Some "failed"; j_error := message; j_completed := Some ts}});
  record_event id PhFailed message.

(** app/software_updates.py:1722-1724 _deb_asset_name_for *)
Definition deb_asset_name_for (release : json) : res string := r ← select_release_assets release None; Ok (asset_name r.1).

Fixpoint first_matching (version : string) (releases : list json) : M (option json) :=
  match releases with
  | [] => mret None
  | release :: releases =>
      draft ← lift (dict_get release "draft" JNull);
      if py_bool draft then first_matching version releases
      else
        tag ← lift (release_semver release);
        match tag with
        | None => first_matching version releases
        | Some tag => same ← dpkg_compare version "eq" (source_version_to_deb_form tag);
                      if same : bool then mret (Some release) else first_matching version releases
        end
  end.

(** app/software_updates.py:1727-1741 _find_release_for_deb_version *)
Definition find_release_for_deb_version (version : string) : M (option json) :=
  match list_releases github_get repo token with
  | Ok releases => first_matching version releases
  | Raise e => if is_update_error e then mret None else raise e
  end.

(** Whether an upload is the package of an official release, and that release's version *)
Definition match_official (path digest : string) : M (bool * option string) :=
  fields ← inspect_deb path;
  release ← find_release_for_deb_version (default "" (fields !! "Version"));
  match release with
  | None => mret (false, None)
  | Some release =>
      '(_, sums_asset) ← lift (select_release_assets release None);
      let sums_path := STAGED_DIR +:+ "SHA256SUMS.verify" in
      _ ← download_asset fetch sums_asset sums_path token;
      sums ← read_text sums_path;
      name ← lift (deb_asset_name_for release);
      official ← lift (parse_sha256sums sums name);
      tag ← lift (text_or_empty release "tag_name");
      mret (String.eqb (lower official) (lower digest), Some (lstrip_by (Ascii.eqb "v") tag))
  end.

Definition basename (path : string) : string := match rfind "/" path with Some n => sdrop (S n) path | None => path end.
Definition dirname (path : string) : string := match rfind "/" path with Some n => stake n path | None => "." end.

Definition check_upload (official : bool) (expected : option string) (digest : string) : res () :=
  if official then Ok ()
  else match expected with
  | None => Raise (SoftwareUpdateError "could not automatically verify this upload against an official GitHub release (offline, private repo unreachable, or no matching release found); provide an expected SHA-256 checksum to proceed")
  | Some e =>
      if String.eqb e "" then Raise (SoftwareUpdateError "could not automatically verify this upload against an official GitHub release (offline, private repo unreachable, or no matching release found); provide an expected SHA-256 checksum to proceed")
      else if String.eqb (lower (strip e)) (lower digest) then Ok ()
      else Raise (SoftwareUpdateError ("uploaded package checksum " +:+ digest +:+ " does not match the provided expected checksum"))
  end.

(** The package in the staging directory: its path, its digest, and the version it must have *)
Definition stage_job (j : job) : UM (string * string * option string) :=
  match j_operation j with
  | Github release =>
      if negb (py_bool release) then um_raise (SoftwareUpdateError "job has no release metadata")
      else
        tag ← um_lift (text_or_empty release "tag_name");
        let version := lstrip_by (Ascii.eqb "v") tag in
        _ ← set_phase (j_id j) PhDownloading ("downloading " +:+ version +:+ " from GitHub");
        '(path, digest) ← in_world (stage_release fetch sha256 release token);
        mret (path, digest, Some version)
  | Manual uploaded expected =>
      there ← in_world (exists_ uploaded);
      if negb there || negb (String.eqb (resolve (dirname uploaded)) (resolve UPLOAD_STAGING_DIR))
      then um_raise (SoftwareUpdateError "uploaded package path is missing or not confined to the upload staging directory")
      else
        _ ← set_phase (j_id j) PhDownloading "using manually uploaded package";
        let path := STAGED_DIR +:+ basename uploaded in
        digest ← in_world (_ ← mkdir STAGED_DIR; _ ← copy2 uploaded path; sha256_file sha256 path);
        official ← (if bool_decide (is_Some token) || reachable
                    then in_world (try_except (match_official path digest) (λ e, if is_update_error e then mret (false, None) else raise e))
                    else mret (false, None));
        _ ← um_lift (check_upload official.1 expected digest);
        mret (path, digest, official.2)
  end.

(** The backup, whose failure ends the update *)
Definition back_up (id : Z) (from to : string) : UM string :=
  λ u, match in_world (create_backup id from to) u with
       | (Ok path, u) => (Ok path, u)
       | (Raise e, u) => (Raise (SoftwareUpdateError ("pre-upgrade backup failed; aborting update (no changes made): " +:+ exc_message e)), u)
       end.

Definition install (id : Z) (path : string) : UM () :=
  r ← in_world (attempt (run (install_command path) false));
  match r with
  | Raise e => um_raise (if timed_out e then SoftwareUpdateError "apt-get install timed out" else e)
  | Ok (code, out) =>
      _ ← diagnostics_merge id [("apt_install_output", JStr (stake 8000 (redact token out)))];
      if (code =? 0)%Z then mret ()
      else um_raise (SoftwareUpdateError ("apt-get install failed: " +:+ stake 2000 (redact token out)))
  end.

Definition finish_job (id : Z) (version backup_path : string) (health : json) : UM () :=
  ok ← um_lift (match health with
                | JObj fields => match field "ok" fields with Some v => Ok (py_bool v) | None => Raise (PyExc "KeyError" "'ok'") end
                | _ => Raise (TypeError "indices must be integers")
                end);
  if ok : bool then
    ts ← now;
    _ ← update_job id (λ j : job, j{{j_phase := PhCompleted; j_result := Some "success"; j_completed := Some ts}});
    record_event id PhCompleted ("update to " +:+ version +:+ " completed successfully")
  else
    let fields := match health with JObj f => f | _ => [] end in
    let summary := health_failure_summary fields in
    let '(result, error, message) :=
      if installed_but_health_failed fields
      then ("installed_health_failed", "Update installed, but post-upgrade health verification failed: " +:+ summary
              +:+ ". Pre-upgrade backup retained at " +:+ backup_path +:+ ".",
            "update installed, but post-upgrade health verification failed; pre-upgrade backup was retained")
      else ("failed", "post-upgrade health check failed: " +:+ summary +:+ "; details: " +:+ print spaced 0 health,
            "post-upgrade health check failed; pre-upgrade backup was retained") in
    ts ← now;
    _ ← update_job id (λ j : job, j{{j_phase := PhFailed; j_result := Some result; j_error := error; j_completed := Some ts}});
    record_event id PhFailed message.

Definition simulate_job (id : Z) (path : string) : UM () :=
  _ ← set_phase id PhSimulating "running apt simulation";
  output ← in_world (simulate_install path);
  diagnostics_merge id [("apt_simulate_output", JStr (stake 8000 (redact token output)))].

(** What follows the staging: the version of the package and the path of the backup *)
Definition check_job (id : Z) (current path : string) (expected : option string) : UM (string * string) :=
  _ ← set_phase id PhValidating ("validating " +:+ basename path);
  fields ← in_world (validate_candidate_package path expected);
  version ← um_lift (match fields !! "Version" with Some v => Ok v | None => Raise (PyExc "KeyError" "'Version'") end);
  _ ← update_job id (λ j : job, j{{j_candidate := version}});
  _ ← set_phase id PhBackingUp "creating mandatory pre-upgrade backup";
  backup_path ← back_up id current version;
  _ ← update_job id (λ j : job, j{{j_backup := Some (last_backup, backup_path)}});
  _ ← simulate_job id path;
  mret (version, backup_path).

(** The part of a job that changes no package: it ends with the path of the package, its
    version and the path of the backup. *)
Definition prepare_job (j : job) : UM (string * string * string) :=
  let id := j_id j in
  '(status, managed) ← in_world installed_version_status;
  if vs_mismatch status
  then um_raise (SoftwareUpdateError ("installed VERSION/dpkg version drift detected; refusing to proceed automatically -- file="
         +:+ repr_opt (vs_file status) +:+ " dpkg=" +:+ repr_opt (vs_dpkg status)))
  else if negb managed
  then um_raise (SoftwareUpdateError "Software Updates: unmanaged source installation -- cannot install a package here")
  else
    _ ← set_phase id PhChecking "validating job and installed state";
    '(path, digest, expected) ← stage_job j;
    _ ← update_job id (λ j : job, j{{j_staged := Some (path, digest)}});
    '(version, backup_path) ← check_job id (j_current j) path expected;
    mret (path, version, backup_path).

(** The installation and the health check after it *)
Definition apply_job (id : Z) (path version backup_path : string) : UM () :=
  _ ← set_phase id PhInstalling "installing package via apt";
  _ ← install id path;
  _ ← set_phase id PhRestarting "waiting for services to restart";
  _ ← in_world (wait_active 20);
  _ ← set_phase id PhPostcheck "running post-upgrade health check with newly installed code";
  health ← in_world (run_fresh_post_upgrade_health_check token python version);
  _ ← diagnostics_merge id [("post_upgrade_health", health)];
  finish_job id version backup_path health.

(** app/software_updates.py:1576-1711 _run_job *)
Definition run_job (j : job) : UM () :=
  '(path, version, backup_path) ← prepare_job j; apply_job (j_id j) path version backup_path.

Definition latest_pending (l : list job) : option job := last (List.filter (λ j, bool_decide (j_phase j = PhPending)) l).

(** app/software_updates.py:1546-1573 run_pending_job

    Jobs are listed by their id; [None] when none is pending. *)
Definition run_pending_job : UM (option job) := λ u,
  match latest_pending (u_jobs u) with
  | None => (Ok None, u)
  | Some j =>
      let id := j_id j in
      let work := ts ← now; _ ← update_job id (λ j : job, j{{j_started := Some ts; j_worker := Some self}}); run_job j in
      let u := match work u with
               | (Ok _, u) => u
               | (Raise e, u) =>
                   (fail_job id (if is_update_error e then exc_message e else "unexpected error: " +:+ exc_message e) u).2
               end in
      (Ok (find_job id (u_jobs u)), u)
  end.

(** ** Requests *)

Definition new_job (id : Z) (op : operation) (ts by_ current candidate : string) : job :=
  mkJob id op ts by_ current candidate None None PhPending None "" [] None None None.

Definition insert_job (op : operation) (ts by_ current candidate : string) : UM Z := λ u,
  let id := fresh_id (j_id <$> u_jobs u) in
  (Ok id, u{{u_jobs ::= (λ l, l ++ [new_job id op ts by_ current candidate])}}).

Definition add_job (op : operation) (by_ : string) (candidate : res string) : UM Z :=
  '(status, _) ← in_world installed_version_status;
  ts ← now;
  candidate ← um_lift candidate;
  insert_job op ts by_ (vs_resolved status) candidate.

(** app/software_updates.py:1296-1313 create_github_job *)
Definition create_github_job (release : json) (by_ : string) : UM Z :=
  add_job (Github release) by_ (lstrip_by (Ascii.eqb "v") <$> text_or_empty release "tag_name").

(** app/software_updates.py:1316-1329 create_manual_job *)
Definition create_manual_job (uploaded : string) (expected : option string) (by_ : string) : UM Z :=
  add_job (Manual uploaded expected) by_ (Ok "").

(** ** Abandoned jobs *)

(** The boot id, the start time of a process, and the age of a time stamp in seconds when
    it is one *)
Context (boot : string) (start_ticks : Z → option Z) (seconds_since : string → option Z).

(** app/backup.py:332-344 _worker_alive *)
Definition worker_alive (w : option worker) : bool :=
  match w with
  | None => false
  | Some w =>
      if (wk_pid w <=? 0)%Z || String.eqb (wk_boot w) "" || negb (String.eqb (wk_boot w) boot) then false
      else match start_ticks (wk_pid w), wk_ticks w with
           | None, _ => false
           | Some now, Some then_ => (now =? then_)%Z
           | Some _, None => true
           end
  end.

Definition unassigned (w : option worker) : bool := match w with Some w => (wk_pid w =? 0)%Z | None => true end.

(** Left alone: a live worker, or a request that waits for its runner *)
Definition spared (j : job) : bool :=
  worker_alive (j_worker j)
  || (bool_decide (j_phase j = PhPending) && unassigned (j_worker j)
      && match (if String.eqb (j_requested j) "" then None else seconds_since (j_requested j)) with
         | None => true
         | Some age => (age <? PENDING_DISPATCH_GRACE_SECONDS)%Z
         end).

Definition abandoned_message (j : job) : string :=
  let who := match j_worker j with
             | Some w => if (wk_pid w =? 0)%Z then "no worker identity recorded (pre-dates lifecycle tracking, or the job never actually started)"
                         else "pid " +:+ str_int (wk_pid w) +:+ " (started " +:+ default "None" (j_started j) +:+ ")"
             | None => "no worker identity recorded (pre-dates lifecycle tracking, or the job never actually started)"
             end in
  "update job " +:+ str_int (j_id j) +:+ " was abandoned: its worker (" +:+ who +:+ ") is no longer running, "
  +:+ (if uncertain (j_phase j)
       then "and it had already reached phase " +:+ py_repr (phase_text (j_phase j))
            +:+ " -- the package installation may have been partially applied. Verify actual installed state ('dpkg -l alderpointdns', 'systemctl status alderpointdns alderpointdns-analytics named dnsdist') before assuming either success or failure; the pre-upgrade backup was retained if one was recorded on this job."
       else "but it had not yet reached the 'installing' phase (was " +:+ py_repr (phase_text (j_phase j))
            +:+ ") -- no package changes were made; it is safe to retry.").

Definition abandon (j : job) : UM () :=
  let message := abandoned_message j in
  ts ← now;
  _ ← update_job (j_id j) (λ j : job, j{{j_phase := PhFailed; j_result := Some "failed"; j_error := message; j_completed := Some ts}});
  record_event (j_id j) PhFailed message.

Fixpoint reap_all (rows : list job) : UM (list (Z * string)) :=
  match rows with
  | [] => mret []
  | j :: rows =>
      if spared j then reap_all rows
      else _ ← abandon j; reaped ← reap_all rows; mret ((j_id j, abandoned_message j) :: reaped)
  end.

(** app/software_updates.py:1465-1543 reap_abandoned_jobs *)
Definition reap_abandoned_jobs : UM (list (Z * string)) := λ u,
  reap_all (List.filter (λ j, negb (terminal (j_phase j))) (u_jobs u)) u.

(** ** What the page shows *)

(** app/software_updates.py:1343-1351 latest_job *)
Definition latest_job (u : ustate) : option job := last (u_jobs u).
(** app/software_updates.py:1354-1362 job_events *)
Definition job_events (id : Z) (u : ustate) : list event := List.filter (λ e, (e_job e =? id)%Z) (u_events u).

Definition job_health (j : job) : option (list (string * json)) :=
  match field "post_upgrade_health" (j_diagnostics j) with Some (JObj f) => Some f | _ => None end.

(** app/software_updates.py:1099-1104 _job_installed_but_health_failed *)
Definition job_installed_but_health_failed (j : job) : bool :=
  bool_decide (j_result j = Some "installed_health_failed") || match job_health j with Some h => installed_but_health_failed h | None => false end.

(** app/software_updates.py:1107-1110 _job_health_summary *)
Definition job_health_summary (j : job) : string :=
  match job_health j with Some h => if py_bool (get h "ok" (JBool true)) then "" else health_failure_summary h | None => "" end.

(** app/software_updates.py:1113-1121 _job_status_label *)
Definition job_status_label (j : job) : string :=
  if job_installed_but_health_failed j then "Update installed, but post-upgrade health verification failed"
  else match j_phase j with PhCompleted => "Update successful" | PhFailed => "Update failed" | p => phase_text p end.

(** app/software_updates.py:1124-1132 _job_status_tone *)
Definition job_status_tone (j : job) : string :=
  if job_installed_but_health_failed j then "warning"
  else match j_phase j with PhCompleted => "healthy" | PhFailed => "down" | _ => "neutral" end.

(** app/software_updates.py:1135-1155 _job_is_historical *)
Definition job_is_historical (j : job) (last_checked : string) : bool :=
  terminal (j_phase j)
  && match j_completed j with
     | Some c => negb (String.eqb c "") && negb (String.eqb last_checked "") && match String.compare c last_checked with Lt => true | _ => false end
     | None => false
     end.

(** app/software_updates.py:1365-1375 _job_display_message *)
Definition job_display_message (j : job) (events : list event) : string :=
  if bool_decide (j_phase j = PhFailed) && negb (String.eqb (j_error j) "") then j_error j
  else if bool_decide (j_phase j = PhDownloading) && negb (String.eqb (j_candidate j) "") then "Downloading v" +:+ j_candidate j +:+ "..."
  else match (e ← last events; nonempty (strip (e_message e))) with
       | Some (String c t) => String (if is_lower_az c then upper_char c else c) t
       | _ => PHASE_DISPLAY_MESSAGES (j_phase j)
       end.

(** ** What a step may change

    [evolves S C G i ps u u']: files in [S] and commands in [C] aside the world is kept, the
    rows of the job [i] change as [G] allows and no other row does, and the events added are
    of that job, with the phases [ps]. *)
Record evolves (S : string → Prop) (C : list string → Prop) (G : job → job → Prop) (i : Z) (ps : list phase) (u u' : ustate) : Prop := {
  ev_world : frame S C (u_world u) (u_world u');
  ev_jobs : ∃ g, (∀ j, j_id (g j) = j_id j ∧ G j (g j)) ∧ u_jobs u' = (λ j, if (j_id j =? i)%Z then g j else j) <$> u_jobs u;
  ev_events : ∃ evs, u_events u' = u_events u ++ evs ∧ Forall (λ e, e_job e = i) evs ∧ e_phase <$> evs = ps;
}.

(** A step that returns recorded [ps] and one of the endings [E]; one that raises may have
    recorded only the first of [ps]. *)
Definition steps {A} S C G (i : Z) (ps : list phase) (E : list (list phase)) (m : UM A) : Prop := ∀ u,
  ∃ ps', evolves S C G i ps' u (m u).2
    ∧ match (m u).1 with Ok _ => ∃ e, e ∈ E ∧ ps' = ps ++ e | Raise _ => ps' `prefix_of` ps end.

Lemma find_job_map i g l :
  (∀ j, j_id (g j) = j_id j) → find_job i ((λ j, if (j_id j =? i)%Z then g j else j) <$> l) = g <$> find_job i l.
Proof.
  intros Hg. unfold find_job. induction l as [|j l IH]; [done|]. cbn. destruct (Z.eqb_spec (j_id j) i) as [E|E].
  - by rewrite Hg, (proj2 (Z.eqb_eq _ _) E).
  - by rewrite (proj2 (Z.eqb_neq _ _) E).
Qed.

Lemma bind_UM {A B} (m : UM A) (f : A → UM B) u : (m ≫= f) u = match m u with (Ok a, u) => f a u | (Raise e, u) => (Raise e, u) end.
Proof. done. Qed.

Section evolution.
Context (S : string → Prop) (C : list string → Prop) (G : job → job → Prop) `{!PreOrder G} (i : Z).

Lemma evolves_refl u : evolves S C G i [] u u.
Proof.
  split; [apply frame_refl| |].
  - exists id. split; [done|]. rewrite <-(list_fmap_id (u_jobs u)) at 1. apply list_fmap_ext. intros _ j _. by case_match.
  - exists []. by rewrite app_nil_r.
Qed.

Lemma evolves_trans ps ps' u1 u2 u3 : evolves S C G i ps u1 u2 → evolves S C G i ps' u2 u3 → evolves S C G i (ps ++ ps') u1 u3.
Proof.
  intros [F1 (g1 & Hg1 & J1) (l1 & E1 & L1 & P1)] [F2 (g2 & Hg2 & J2) (l2 & E2 & L2 & P2)]. split; [by eapply frame_trans| |].
  - exists (g2 ∘ g1). split.
    + intros j. destruct (Hg1 j) as [I1 ?], (Hg2 (g1 j)) as [I2 ?]. cbn. split; [congruence|by etrans].
    + rewrite J2, J1, <-list_fmap_compose. apply list_fmap_ext. intros _ j _. cbn. destruct (Hg1 j) as [I1 _].
      destruct (Z.eqb_spec (j_id j) i) as [E|E]; [by rewrite I1, (proj2 (Z.eqb_eq _ _) E)|by rewrite (proj2 (Z.eqb_neq _ _) E)].
  - exists (l1 ++ l2). rewrite E2, E1, app_assoc, fmap_app, P1, P2. split; [done|]. split; [by apply Forall_app|done].
Qed.

Lemma steps_quiet {A} E (m : UM A) : [] ∈ E → (∀ u, evolves S C G i [] u (m u).2) → steps S C G i [] E m.
Proof. intros HE Hm u. exists []. split; [done|]. case_match; [by exists []|done]. Qed.
Lemma steps_ret {A} E (a : A) : [] ∈ E → steps S C G i [] E (mret a).
Proof. intros HE. apply steps_quiet; [done|]. intros u. apply evolves_refl. Qed.
Lemma steps_raise {A} ps E e : steps S C G i ps E (um_raise (A := A) e).
Proof. intros u. exists []. split; [apply evolves_refl|apply prefix_nil]. Qed.
Lemma steps_lift {A} E (r : res A) : [] ∈ E → steps S C G i [] E (um_lift r).
Proof. intros HE. apply steps_quiet; [done|]. intros u. apply evolves_refl. Qed.

Lemma steps_world {A} E (m : M A) : [] ∈ E → writes S C m → steps S C G i [] E (in_world m).
Proof.
  intros HE Hm. apply steps_quiet; [done|]. intros u. specialize (Hm (u_world u)). unfold in_world. destruct (m (u_world u)) as [r w].
  destruct (evolves_refl u) as [_ J Ev]. by split.
Qed.

Lemma steps_update E f : [] ∈ E → (∀ j, j_id (f j) = j_id j ∧ G j (f j)) → steps S C G i [] E (update_job i f).
Proof. intros HE Hf. apply steps_quiet; [done|]. intros u. destruct (evolves_refl u) as [F _ Ev]. split; [done| |done]. by exists f. Qed.

Lemma steps_event E ts p message : [p] ∈ E → steps S C G i [] E (add_event i ts p message).
Proof.
  intros HE u. exists [p]. split; [|by exists [p]]. destruct (evolves_refl u) as [F J _]. split; [done..|].
  eexists. split; [done|]. by split; [apply Forall_singleton|].
Qed.

Lemma steps_bind {A B} ps ps' E (m : UM A) (f : A → UM B) :
  steps S C G i ps [[]] m → (∀ a, steps S C G i ps' E (f a)) → steps S C G i (ps ++ ps') E (m ≫= f).
Proof.
  intros Hm Hf u. rewrite bind_UM. destruct (Hm u) as (p1 & E1 & H1). destruct (m u) as [[a|e] u1]; cbn in *.
  - destruct H1 as (e & ->%list_elem_of_singleton & ->). rewrite app_nil_r in E1.
    destruct (Hf a u1) as (p2 & E2 & H2). exists (ps ++ p2). split; [by eapply evolves_trans|].
    destruct (f a u1).1; [|by apply prefix_app]. destruct H2 as (e & He & ->). exists e. by rewrite app_assoc.
  - exists p1. split; [done|]. by apply prefix_app_r.
Qed.

Lemma steps_bind_quiet {A B} ps E (m : UM A) (f : A → UM B) :
  steps S C G i [] [[]] m → (∀ a, steps S C G i ps E (f a)) → steps S C G i ps E (m ≫= f).
Proof. apply steps_bind. Qed.
End evolution.

(** ** The staged package *)

(** The digest a release lists for its package in the SHA256SUMS it publishes *)
Definition listed (release : json) (digest : string) : Prop :=
  ∃ deb sums url text official, select_release_assets release None = Ok (deb, sums) ∧ asset_url sums = Ok url
    ∧ fetch (py_str url) token = Received text None ∧ parse_sha256sums text (asset_name deb) = Ok official ∧ lower official = lower digest.

(** An upload has the digest the administrator gave, or that of an official release. *)
Definition trusted (op : operation) (digest : string) : Prop :=
  match op with
  | Github release => listed release digest
  | Manual _ expected =>
      (∃ e, expected = Some e ∧ e ≠ "" ∧ lower (strip e) = lower digest)
      ∨ ∃ releases release, list_releases github_get repo token = Ok releases ∧ release ∈ releases ∧ listed release digest
  end.

(** The name of an upload is not that of the list of digests next to it. *)
Definition upload_named (op : operation) : Prop :=
  match op with Github _ => True | Manual uploaded _ => basename uploaded ≠ "SHA256SUMS.verify" end.

(** [path] holds a package with the digest, in the staging directory *)
Definition package_at (path digest : string) (w : world) : Prop :=
  starts_with STAGED_DIR path = true ∧ ∃ content, w_files w !! path = Some content ∧ sha256 content = digest.

Lemma download_ok asset dest w w' :
  download_asset fetch asset dest token w = (Ok (), w') →
  ∃ url text, asset_url asset = Ok url ∧ fetch (py_str url) token = Received text None
    ∧ w_files w' = <[dest := text]> (w_files w) ∧ w_answers w' = w_answers w ∧ w_log w' = w_log w.
Proof.
  intros (url & w1 & [Hu ->]%lift_inv & H)%bind_inv. exists url. destruct (negb (py_bool url)); [done|].
  destruct (fetch (py_str url) token) as [e|text error] eqn:Hf; [by destruct e|].
  apply bind_inv in H as ([] & w2 & Hw & H). destruct error; [by case_match|]. exists text.
  injection Hw as <-. injection H as <-. done.
Qed.

Lemma sha256_file_ok path w d w' : sha256_file sha256 path w = (Ok d, w') → w' = w ∧ ∃ content, w_files w !! path = Some content ∧ sha256 content = d.
Proof.
  intros (text & w1 & Hr & H)%bind_inv. injection H as <- <-. unfold read_text in Hr. destruct (w_files w !! path) as [t|]; [|done].
  injection Hr as <- <-. eauto.
Qed.

Lemma stage_release_ok release w path digest w' :
  stage_release fetch sha256 release token w = (Ok (path, digest), w') → package_at path digest w' ∧ listed release digest.
Proof.
  intros ([deb sums] & w1 & [Ha ->]%lift_inv & H)%bind_inv. apply bind_inv in H as ([] & w2 & _ & H).
  apply bind_inv in H as ([] & w3 & _ & H). apply bind_inv in H as ([] & w4 & (url & text & Hu & Hf & Hw & _)%download_ok & H).
  apply bind_inv in H as (read & w5 & Hr & H). apply bind_inv in H as (official & w6 & [Hp ->]%lift_inv & H).
  apply bind_inv in H as (actual & w7 & [-> (content & Hc & Hd)]%sha256_file_ok & H).
  unfold read_text in Hr. rewrite Hw, lookup_insert_eq in Hr. injection Hr as <- <-.
  destruct (String.eqb actual official) eqn:E; cbn in H; [|by apply bind_inv in H as (? & ? & _ & H)].
  apply String.eqb_eq in E as ->. injection H as <- <- <-. split.
  - split; [apply starts_with_app|]. eauto.
  - exists deb, sums, url, text, official. done.
Qed.

Lemma first_matching_in version releases w release w' : first_matching version releases w = (Ok (Some release), w') → release ∈ releases.
Proof.
  revert w. induction releases as [|r releases IH]; intros w; [done|]. cbn [first_matching].
  intros (draft & w1 & _ & H)%bind_inv. destruct (py_bool draft); [right; by eapply IH|].
  apply bind_inv in H as (tag & w2 & _ & H). destruct tag as [tag|]; [|right; by eapply IH].
  apply bind_inv in H as (same & w3 & _ & H). destruct same; [|right; by eapply IH]. injection H as -> _. left.
Qed.

Lemma match_official_ok path digest w official version w' :
  match_official path digest w = (Ok (official, version), w') →
  official = true → ∃ releases release, list_releases github_get repo token = Ok releases ∧ release ∈ releases ∧ listed release digest.
Proof.
  intros (fields & w1 & _ & H)%bind_inv ->. apply bind_inv in H as (release & w2 & Hrel & H).
  destruct release as [release|]; [|done]. apply bind_inv in H as ([deb sums] & w3 & [Ha ->]%lift_inv & H).
  apply bind_inv in H as ([] & w4 & (url & text & Hu & Hf & Hw & _)%download_ok & H).
  apply bind_inv in H as (read & w5 & Hr & H). apply bind_inv in H as (name & w6 & [Hn ->]%lift_inv & H).
  apply bind_inv in H as (off & w7 & [Hp ->]%lift_inv & H). apply bind_inv in H as (tag & w8 & _ & H). injection H as H _ _.
  unfold find_release_for_deb_version in Hrel. destruct (list_releases github_get repo token) as [releases|e]; [|by destruct (is_update_error e)].
  apply first_matching_in in Hrel. unfold read_text in Hr. rewrite Hw, lookup_insert_eq in Hr. injection Hr as <- <-.
  exists releases, release. split; [done|]. split; [done|]. exists deb, sums, url, text, off. apply String.eqb_eq in H.
  unfold deb_asset_name_for in Hn. rewrite Ha in Hn. injection Hn as <-. done.
Qed.

Definition other_path (path : string) : string → Prop := λ p, p ≠ path.

Lemma match_official_keeps path digest p : p ≠ STAGED_DIR +:+ "SHA256SUMS.verify" → writes (other_path p) (λ _, True) (match_official path digest).
Proof.
  intros Hp. unfold match_official, inspect_deb, find_release_for_deb_version, download_asset.
  assert (∀ l v, writes (other_path p) (λ _, True) (first_matching v l)) as Hfirst.
  { intros l v. induction l as [|r l IH]; [apply writes_ret|]. cbn [first_matching]. unfold dpkg_compare. frames; done. }
  apply writes_bind; [frames; done|]. intros fields. apply writes_bind; [destruct (list_releases _ _ _); [apply Hfirst|frames]|].
  intros [release|]; frames. unfold other_path. congruence.
Qed.

(** ** The phases of a run *)

Definition PREPARING : list phase := [PhChecking; PhDownloading; PhValidating; PhBackingUp; PhSimulating].
Definition APPLYING : list phase := [PhInstalling; PhRestarting; PhPostcheck].

Lemma writes_all_active S (C : list string → Prop) units : (∀ unit, C ["systemctl"; "is-active"; unit]) → writes S C (all_active units).
Proof. intros HC. induction units; cbn [all_active]; [apply writes_ret|]. unfold service_active. frames; done. Qed.

Lemma writes_wait_active S (C : list string → Prop) n : (∀ unit, C ["systemctl"; "is-active"; unit]) → writes S C (wait_active n).
Proof. intros HC. induction n; cbn [wait_active]; [apply writes_ret|]. frames; by apply writes_all_active. Qed.

Lemma writes_dpkg_compare S (C : list string → Prop) a op b : C ["dpkg"; "--compare-versions"; a; op; b] → writes S C (dpkg_compare a op b).
Proof. intros HC. unfold dpkg_compare. frames; done. Qed.

Lemma writes_first_matching S (C : list string → Prop) v l : (∀ a op b, C ["dpkg"; "--compare-versions"; a; op; b]) → writes S C (first_matching v l).
Proof.
  intros HC. induction l as [|r l IH]; cbn [first_matching]; [apply writes_ret|]. unfold dpkg_compare; frames; done.
Qed.

Section stepping.
Context (S : string → Prop) (C : list string → Prop) (G : job → job → Prop) `{!PreOrder G} (HG : ∀ j p, G j (j{{j_phase := p}})).

Lemma steps_now E i : [] ∈ E → steps S C G i [] E now.
Proof. intros HE. apply steps_quiet; [done|]. intros u. destruct (evolves_refl S C G i u) as [F J Ev]. by split. Qed.

Lemma steps_record E i p message : [p] ∈ E → steps S C G i [] E (record_event i p message).
Proof. intros HE. apply steps_bind_quiet; [done|by apply steps_now, list_elem_of_here|]. intros ts. by apply steps_event. Qed.

Lemma steps_phase i p message : steps S C G i [p] [[]] (set_phase i p message).
Proof.
  intros u. assert (steps S C G i [] [[p]] (set_phase i p message)) as H.
  { unfold set_phase. apply steps_bind_quiet; [done|apply steps_update; [done|apply list_elem_of_here|]; by split|]. intros []. apply steps_record, list_elem_of_here. }
  destruct (H u) as (ps & E & Hps). exists ps. split; [done|]. destruct (set_phase i p message u).1.
  - destruct Hps as (e & ->%list_elem_of_singleton & ->). exists []. by split; [apply list_elem_of_here|].
  - apply prefix_nil_inv in Hps as ->. apply prefix_nil.
Qed.

Lemma steps_phase_bind {B} i p message ps E (f : () → UM B) :
  (∀ a, steps S C G i ps E (f a)) → steps S C G i (p :: ps) E (set_phase i p message ≫= f).
Proof. apply (steps_bind S C G i [p]), steps_phase. Qed.
End stepping.

(** The commands other than the installation *)
Definition no_install (c : list string) : Prop := ∀ path, c ≠ install_command path.

Section commands.
Context (S : string → Prop) (C : list string → Prop) (HC : ∀ c, no_install c → C c).

Lemma writes_status : writes S C installed_version_status.
Proof.
  unfold installed_version_status, version_source_status, read_version_file, read_dpkg_version, is_dpkg_managed, installed_package_version.
  frames; apply HC; intros path; discriminate.
Qed.

Lemma writes_inspect path : writes S C (inspect_deb path).
Proof. unfold inspect_deb. frames; apply HC; intros p; discriminate. Qed.

Lemma writes_compare a op b : writes S C (dpkg_compare a op b).
Proof. apply writes_dpkg_compare, HC. intros path. discriminate. Qed.

Lemma writes_validate path expected : writes S C (validate_candidate_package path expected).
Proof.
  unfold validate_candidate_package, installed_package_version. apply writes_bind; [apply writes_inspect|]. intros fields.
  frames; try apply writes_compare; apply HC; intros p; discriminate.
Qed.

Lemma writes_simulate path : writes S C (simulate_install path).
Proof. unfold simulate_install. frames; apply HC; intros p; discriminate. Qed.

Lemma writes_health version : writes S C (run_fresh_post_upgrade_health_check token python version).
Proof. unfold run_fresh_post_upgrade_health_check. frames; apply HC; intros p; discriminate. Qed.

Lemma writes_restart n : writes S C (wait_active n).
Proof. apply writes_wait_active. intros unit. apply HC. intros p. discriminate. Qed.

Lemma writes_match_official path digest : S (STAGED_DIR +:+ "SHA256SUMS.verify") → writes S C (match_official path digest).
Proof.
  intros HS. unfold match_official, find_release_for_deb_version, download_asset.
  apply writes_bind; [apply writes_inspect|]. intros fields. apply writes_bind.
  { destruct (list_releases _ _ _); [|frames]. apply writes_first_matching. intros. apply HC. intros p. discriminate. }
  intros [release|]; frames; done.
Qed.
End commands.

(** The package and the backup of a job stay the same. *)
Definition keeps (j j' : job) : Prop := j_staged j' = j_staged j ∧ j_backup j' = j_backup j.
#[local] Instance keeps_order : PreOrder keeps.
Proof. split; [by intros j|]. intros a b c [] []. split; congruence. Qed.

Ltac stepping :=
  repeat first
    [ assumption | match goal with H : ∀ _, steps _ _ _ _ _ _ _ |- _ => apply H end | match goal with H : ∀ j j', keeps j j' → _ |- _ => first [intros ? ?; by apply H | intros ?; split; [done|by apply H]] end | match goal with |- PreOrder _ => assumption | |- PreOrder _ => typeclasses eauto end
    | match goal with |- _ ∈ _ :> list _ => solve [repeat constructor] | |- @elem_of _ _ _ _ _ => solve [repeat constructor] end
    | match goal with H : steps ?S ?C ?G ?i ?ps _ ?m |- steps _ _ _ _ _ _ (?m ≫= _) => apply (steps_bind S C G i ps); [..|intros ?] end
    | apply steps_ret | apply steps_raise | apply steps_lift | apply steps_world | apply steps_now | apply steps_update
    | apply steps_record | apply steps_phase_bind; [..|intros ?] | apply steps_bind_quiet; [..|intros ?]
    | match goal with |- steps _ _ _ _ _ _ (match ?x with _ => _ end) => destruct x end ].

Section runs.
Context (S : string → Prop) (C : list string → Prop) (G : job → job → Prop) `{!PreOrder G} (HG : ∀ j j', keeps j j' → G j j')
        (HC : ∀ c, no_install c → C c).

Lemma steps_stage j : (∀ name, S (STAGED_DIR +:+ name)) → steps S C G (j_id j) [PhDownloading] [[]] (stage_job j).
Proof.
  intros HS. assert (S STAGED_DIR) as HD by exact (HS ""). unfold stage_job. destruct (j_operation j) as [release|uploaded expected].
  - stepping. unfold stage_release, download_asset, sha256_file. frames; apply HS || done.
  - assert (Hm := λ p d, writes_match_official S C HC p d (HS _)). stepping; unfold sha256_file; frames; try apply HS; done.
Qed.

Lemma steps_backup id from to : writes S C (create_backup id from to) → steps S C G id [] [[]] (back_up id from to).
Proof.
  intros HB u. destruct (steps_world S C G id [[]] _ (list_elem_of_here _ _) HB u) as (ps & E & Hps). unfold back_up.
  destruct (in_world (create_backup id from to) u) as [[path|e] u1]; by exists ps.
Qed.

Lemma steps_diagnostics id extra : steps S C G id [] [[]] (diagnostics_merge id extra).
Proof. unfold diagnostics_merge. stepping. Qed.

Lemma steps_install id path : C (install_command path) → steps S C G id [] [[]] (install id path).
Proof.
  intros HI. unfold install. stepping; first [apply steps_diagnostics|frames; done].
Qed.

Lemma steps_finish id version backup_path health : steps S C G id [] [[PhCompleted]; [PhFailed]] (finish_job id version backup_path health).
Proof. unfold finish_job. stepping. Qed.

Lemma steps_apply id path version backup_path :
  C (install_command path) → steps S C G id APPLYING [[PhCompleted]; [PhFailed]] (apply_job id path version backup_path).
Proof.
  intros HI. pose proof (steps_install id path HI) as Hi. pose proof (steps_finish id version backup_path) as Hf.
  unfold apply_job, APPLYING. stepping; first [by apply writes_restart|by apply writes_health|apply steps_diagnostics].
Qed.

Lemma steps_fail id error : steps S C G id [] [[PhFailed]] (fail_job id error).
Proof. unfold fail_job. stepping. Qed.
End runs.

Lemma bind_UM_inv {A B} (m : UM A) (f : A → UM B) u b u' : (m ≫= f) u = (Ok b, u') → ∃ a u1, m u = (Ok a, u1) ∧ f a u1 = (Ok b, u').
Proof. rewrite bind_UM. destruct (m u) as [[a|] u1]; [|done]. eauto. Qed.

Lemma in_world_inv {A} (m : M A) u a u' : in_world m u = (Ok a, u') → m (u_world u) = (Ok a, u_world u').
Proof. unfold in_world. destruct (m (u_world u)) as [r w]. intros [= -> <-]. by destruct u. Qed.

Lemma steps_run {A} S C G i ps E (m : UM A) u r u' : m u = (r, u') → steps S C G i ps E m → ∃ ps', evolves S C G i ps' u u'.
Proof. intros Hr Hm. destruct (Hm u) as (ps' & H & _). rewrite Hr in H. eauto. Qed.

Lemma steps_jobs {A} S C G i ps E (m : UM A) u r u' j :
  m u = (r, u') → steps S C G i ps E m → find_job i (u_jobs u) = Some j → ∃ j', find_job i (u_jobs u') = Some j' ∧ G j j'.
Proof.
  intros Hr Hm Hj. destruct (steps_run _ _ _ _ _ _ _ _ _ _ Hr Hm) as (ps' & [_ (g & Hg & HJ) _]). exists (g j).
  rewrite HJ, find_job_map, Hj by apply Hg. split; [done|apply Hg].
Qed.

(** The command [c] exited with status 0 and the output [out], as the [n]-th of the log with
    [lo <= n < hi]. *)
Definition ran (lo hi : nat) (c : list string) (out : string) (w : world) : Prop :=
  ∃ n, lo ≤ n < hi ∧ w_log w !! n = Some c ∧ w_answers w n = Exited 0 out.

Lemma ran_frame lo lo' hi hi' c out S C w w' : lo' ≤ lo → hi ≤ hi' → frame S C w w' → ran lo hi c out w → ran lo' hi' c out w'.
Proof.
  intros Hlo Hhi [_ HA (l & HL & _)] (n & Hn & Hc & Ha). exists n. split; [lia|]. rewrite HA, HL. split; [|done].
  by apply lookup_app_l_Some.
Qed.

Lemma frame_length S C w w' : frame S C w w' → length (w_log w) ≤ length (w_log w').
Proof. intros [_ _ (l & HL & _)]. rewrite HL, length_app. lia. Qed.

Lemma run_ran c check w code out w' :
  run c check w = (Ok (code, out), w') → code = 0%Z → ran (length (w_log w)) (length (w_log w')) c out w'.
Proof.
  unfold run. destruct (w_answers w (length (w_log w))) as [code' out'|e] eqn:Ha; [|done].
  destruct (check && _); [done|]. intros [= -> -> <-] ->. exists (length (w_log w)).
  destruct w as [f lg an]. cbn in *. rewrite length_app. cbn.
  split; [lia|]. by rewrite list_lookup_middle.
Qed.

Lemma try_inv {A} (m : M A) h w a w' : try_except m h w = (Ok a, w') → m w = (Ok a, w') ∨ ∃ e w1, m w = (Raise e, w1) ∧ h e w1 = (Ok a, w').
Proof. unfold try_except. destruct (m w) as [[b|e] w1]; eauto. Qed.

Lemma dpkg_compare_ok a op b w w' :
  dpkg_compare a op b w = (Ok true, w') → ∃ out, ran (length (w_log w)) (length (w_log w')) ["dpkg"; "--compare-versions"; a; op; b] out w'.
Proof.
  intros [H|(e & w1 & _ & H)]%try_inv; [|by destruct (timed_out e)].
  apply bind_inv in H as ([code out] & w2 & Hr & H). injection H as Hc <-. apply Z.eqb_eq in Hc. exists out. by eapply run_ran.
Qed.

Lemma simulate_ok path w out w' :
  simulate_install path w = (Ok out, w') →
  ran (length (w_log w)) (length (w_log w')) (simulate_command path) out w' ∧ unsafe_removals out = ∅.
Proof.
  intros ([code o] & w1 & H & Hs)%bind_inv. cbn [fst snd] in Hs. destruct (Z.eqb_spec code 0) as [->|]; [|done]. cbn [negb] in Hs.
  destruct (bool_decide (unsafe_removals o = ∅)) eqn:Hu; [|done]. injection Hs as <- <-.
  apply try_inv in H as [H|(e & w2 & _ & H)]; [|by destruct (timed_out e)]. split; [by eapply run_ran|]. by apply bool_decide_eq_true in Hu.
Qed.

Lemma validate_ok path expected w fields w' :
  validate_candidate_package path expected w = (Ok fields, w') →
  ∃ installed out, ran (length (w_log w)) (length (w_log w'))
    ["dpkg"; "--compare-versions"; default "" (fields !! "Version"); "gt"; installed] out w'.
Proof.
  intros H. apply bind_inv in H as (f & w1 & Hf & H). do 2 (case_match; [done|]).
  apply bind_inv in H as ([] & w2 & He & H). apply bind_inv in H as (installed & w3 & Hi & H).
  destruct installed as [installed|]; [|done]. apply bind_inv in H as (same & w4 & Hs & H). destruct same; [done|].
  apply bind_inv in H as (newer & w5 & Hn & H). destruct newer; [|done]. injection H as <- <-. exists installed.
  apply dpkg_compare_ok in Hn as (out & Hn). exists out. eapply ran_frame; [|done|apply (frame_refl (λ _, True) (λ _, True))|exact Hn].
  assert (∀ c, no_install c → (λ _ : list string, True) c) as HC by done.
  pose proof (writes_inspect (λ _, True) _ HC path w) as F1. rewrite Hf in F1.
  pose proof (writes_compare (λ _, True) _ HC (default "" (f !! "Version")) "eq" installed w3) as F4. rewrite Hs in F4.
  assert (frame (λ _, True) (λ _, True) w1 w3) as F3.
  { eapply frame_trans.
    - match type of He with ?m w1 = _ => assert (writes (λ _, True) (λ _, True) m) as F end; [|specialize (F w1); rewrite He in F; exact F].
      destruct expected; [|frames]. frames; done.
    - match type of Hi with ?m w2 = _ => assert (writes (λ _, True) (λ _, True) m) as F end; [|specialize (F w2); rewrite Hi in F; exact F].
      unfold installed_package_version. frames; done. }
  apply frame_length in F1, F3, F4. cbn [snd] in *. lia.
Qed.

(** ** What is true when the installation starts *)

Definition unstaged (path : string) : Prop := starts_with STAGED_DIR path = false.
Definition anything {A} (_ : A) : Prop := True.
Definition any_change (_ _ : job) : Prop := True.
#[local] Instance any_change_order : PreOrder any_change.
Proof. by split. Qed.

(** Between the commands [lo] and [hi] of the log: the package in the staging directory has
    the digest that was trusted and recorded, a backup was recorded, dpkg said that the
    package is newer than what is installed, and the simulated installation succeeded and
    removed no critical package. *)
Record ready (lo hi : nat) (j : job) (path version : string) (u : ustate) : Prop := {
  rd_package : ∃ digest row, package_at path digest (u_world u) ∧ trusted (j_operation j) digest
    ∧ find_job (j_id j) (u_jobs u) = Some row ∧ j_staged row = Some (path, digest) ∧ is_Some (j_backup row);
  rd_newer : ∃ installed out, ran lo hi ["dpkg"; "--compare-versions"; version; "gt"; installed] out (u_world u);
  rd_simulated : ∃ out, ran lo hi (simulate_command path) out (u_world u) ∧ unsafe_removals out = ∅ }.

Lemma package_frame C path digest w w' : frame unstaged C w w' → package_at path digest w → package_at path digest w'.
Proof. intros [F _ _] (Hs & content & Hc & Hd). split; [done|]. exists content. split; [|done]. rewrite F; [done|]. unfold unstaged. by rewrite Hs. Qed.

Lemma ready_evolves lo lo' hi hi' j path version C ps u u' :
  lo' ≤ lo → hi ≤ hi' → evolves unstaged C keeps (j_id j) ps u u' → ready lo hi j path version u → ready lo' hi' j path version u'.
Proof.
  intros Hlo Hhi [F (g & Hg & HJ) _] [(digest & row & Hp & Ht & Hr & Hs & Hb) (v & o & Hn) (out & Hsim & Hu)]. split.
  - exists digest, (g row). destruct (Hg row) as [_ [-> ->]]. rewrite HJ, find_job_map, Hr by apply Hg.
    split; [by eapply package_frame|]. done.
  - exists v, o. by eapply ran_frame.
  - exists out. split; [by eapply ran_frame|done].
Qed.

Section preparing.
Context (S : string → Prop) (C : list string → Prop) (G : job → job → Prop) `{!PreOrder G} (HG : ∀ j j', keeps j j' → G j j')
        (HC : ∀ c, no_install c → C c).

Lemma steps_simulate id path : steps S C G id [PhSimulating] [[]] (simulate_job id path).
Proof. unfold simulate_job. stepping. by apply writes_simulate. Qed.

Context (HGb : ∀ j b, G j (j{{j_backup := b}})) (HB : ∀ id from to, writes S C (create_backup id from to)).

Lemma steps_check id current path expected :
  steps S C G id [PhValidating; PhBackingUp; PhSimulating] [[]] (check_job id current path expected).
Proof.
  pose proof (steps_simulate id path) as Hs. assert (∀ version, steps S C G id [] [[]] (back_up id current version)) as Hb by (intros; by apply steps_backup).
  unfold check_job. stepping; [by apply writes_validate|]. intros j. by split; [|apply HGb].
Qed.

Lemma steps_prepare j :
  (∀ j p, G j (j{{j_staged := p}})) → (∀ name, S (STAGED_DIR +:+ name)) → steps S C G (j_id j) PREPARING [[]] (prepare_job j).
Proof.
  intros HGs HS. pose proof (steps_stage S C G HG HC j HS) as Hstage. unfold prepare_job.
  apply steps_bind_quiet; [done|apply steps_world; [done|apply list_elem_of_here|by apply writes_status]|]. intros [status managed].
  destruct (vs_mismatch status); [by apply steps_raise|]. destruct (negb managed); [by apply steps_raise|].
  apply steps_phase_bind; [done|by intros; apply HG|]. intros [].

  apply (steps_bind S C G (j_id j) [PhDownloading] [PhValidating; PhBackingUp; PhSimulating]); [exact Hstage|]. intros [[path digest] expected].
  apply steps_bind_quiet; [done|apply steps_update; [done|apply list_elem_of_here|by intros k; split; [|apply HGs]]|]. intros [].
  apply (steps_bind S C G (j_id j) [PhValidating; PhBackingUp; PhSimulating] []); [apply steps_check|].
  intros [version backup_path]. apply steps_ret; [done|apply list_elem_of_here].
Qed.
End preparing.

Section runs_of_a_job.
Context (HB : ∀ id from to, writes unstaged no_install (create_backup id from to)).

#[local] Instance staged_order : PreOrder (λ j j' : job, j_staged j' = j_staged j).
Proof. split; [by intros j|]. intros a b c ??. congruence. Qed.

Lemma check_upload_ok official expected digest :
  check_upload official expected digest = Ok () →
  official = true ∨ ∃ e, expected = Some e ∧ e ≠ "" ∧ lower (strip e) = lower digest.
Proof.
  unfold check_upload. destruct official; [by left|]. destruct expected as [e|]; [|done]. destruct (String.eqb_spec e ""); [done|].
  destruct (String.eqb_spec (lower (strip e)) (lower digest)); [|done]. right. by exists e.
Qed.

Lemma stage_job_ok j u path digest expected u' :
  upload_named (j_operation j) → stage_job j u = (Ok (path, digest, expected), u') →
  package_at path digest (u_world u') ∧ trusted (j_operation j) digest.
Proof.
  unfold stage_job. destruct (j_operation j) as [release|uploaded sum] eqn:Hop; intros Hname H.
  - destruct (negb (py_bool release)); [done|]. apply bind_UM_inv in H as (tag & u1 & _ & H). apply bind_UM_inv in H as ([] & u2 & _ & H).
    apply bind_UM_inv in H as ([p d] & u3 & Hs%in_world_inv & H). injection H as -> -> _ <-. by apply stage_release_ok in Hs.
  - apply bind_UM_inv in H as (there & u1 & _ & H). destruct (_ || _); [done|]. apply bind_UM_inv in H as ([] & u2 & _ & H).
    apply bind_UM_inv in H as (d & u3 & Hd%in_world_inv & H). apply bind_UM_inv in H as (official & u4 & Ho & H).
    apply bind_UM_inv in H as ([] & u5 & Hc & H). injection H as <- <- <- <-. injection Hc as Hc <-.
    assert (package_at (STAGED_DIR +:+ basename uploaded) d (u_world u3)) as Hp.
    { apply bind_inv in Hd as (? & ? & _ & Hd). apply bind_inv in Hd as (? & ? & _ & Hd).
      apply sha256_file_ok in Hd as [-> Hd]. split; [apply starts_with_app|done]. }
    assert (STAGED_DIR +:+ basename uploaded ≠ STAGED_DIR +:+ "SHA256SUMS.verify") as Hne by (intros Heq%(f_equal (sdrop (slen STAGED_DIR))); by rewrite !sdrop_app_length in Heq).
    destruct (bool_decide (is_Some token) || reachable).
    + apply in_world_inv in Ho. split.
      * destruct Hp as (Hs & content & Hf & Hd'). split; [done|]. exists content. split; [|done].
        assert (writes (other_path (STAGED_DIR +:+ basename uploaded)) anything (match_official (STAGED_DIR +:+ basename uploaded) d)) as Hm
          by (apply writes_match_official; [done|by apply not_eq_sym]).
        destruct (Hm (u_world u3)) as [F _ _]. apply try_inv in Ho as [Ho|(e & w1 & Ho & He)]; rewrite Ho in F; cbn in *; [by rewrite F by (intros Hx; by apply Hx)|].
        destruct (is_update_error e); [|done]. injection He as _ <-. by rewrite F by (intros Hx; by apply Hx).
      * apply check_upload_ok in Hc as [Hc|Hc]; [|by left]. right. destruct official as [official version]. cbn in Hc.
        apply try_inv in Ho as [Ho|(e & w1 & _ & He)]; [by eapply match_official_ok|].
        destruct (is_update_error e); [|done]. injection He as <- _. done.
    + injection Ho as <- <-. split; [done|]. apply check_upload_ok in Hc as [Hc|Hc]; [done|by left].
Qed.

Lemma find_updated i f u j :
  (∀ j, j_id (f j) = j_id j) → find_job i (u_jobs u) = Some j → find_job i (u_jobs (update_job i f u).2) = Some (f j).
Proof.
  intros Hf Hj. assert (u_jobs (update_job i f u).2 = (λ j, if (j_id j =? i)%Z then f j else j) <$> u_jobs u) as -> by by destruct u.
  by rewrite find_job_map, Hj.
Qed.

Lemma simulate_job_ok id path u u' :
  simulate_job id path u = (Ok (), u') →
  ∃ out, ran (length (w_log (u_world u))) (length (w_log (u_world u'))) (simulate_command path) out (u_world u') ∧ unsafe_removals out = ∅.
Proof.
  intros ([] & u1 & H1 & H)%bind_UM_inv. apply bind_UM_inv in H as (out & u2 & [Hs Hu]%in_world_inv%simulate_ok & H).
  exists out. split; [|done].
  pose proof (steps_run _ _ _ _ _ _ _ _ _ _ H1 (steps_phase anything anything any_change (λ _ _, I) id PhSimulating "running apt simulation"))
    as (ps & [F1%frame_length _ _]).
  pose proof (steps_run _ _ _ _ _ _ _ _ _ _ H (steps_diagnostics anything anything any_change (λ _ _ _, I) id _)) as (ps' & [F2 _ _]).
  eapply ran_frame; [exact F1| |exact F2|exact Hs]. by apply frame_length in F2.
Qed.

(** What every step keeps: the log grows and the rows stay. *)
Lemma steps_grow {A} i ps E (m : UM A) u r u' :
  m u = (r, u') → steps anything anything any_change i ps E m →
  frame anything anything (u_world u) (u_world u') ∧ (is_Some (find_job i (u_jobs u)) → is_Some (find_job i (u_jobs u'))).
Proof.
  intros Hr Hm. destruct (steps_run _ _ _ _ _ _ _ _ _ _ Hr Hm) as (ps' & [F _ _]). split; [done|].
  intros [j Hj]. destruct (steps_jobs _ _ _ _ _ _ _ _ _ _ _ Hr Hm Hj) as (j' & Hj' & _). by exists j'.
Qed.

Lemma any_update i f : (∀ j, j_id (f j) = j_id j) → steps anything anything any_change i [] [[]] (update_job i f).
Proof. intros Hf. apply steps_update; [typeclasses eauto|apply list_elem_of_here|by split]. Qed.

Lemma update_inv i f u r u' : update_job i f u = (r, u') → u' = (update_job i f u).2.
Proof. by intros [= _ <-]. Qed.

Lemma check_job_steps id current path expected u version backup_path u' :
  check_job id current path expected u = (Ok (version, backup_path), u') → is_Some (find_job id (u_jobs u)) →
  ∃ installed out out', ran (length (w_log (u_world u))) (length (w_log (u_world u')))
      ["dpkg"; "--compare-versions"; version; "gt"; installed] out (u_world u')
    ∧ ran (length (w_log (u_world u))) (length (w_log (u_world u'))) (simulate_command path) out' (u_world u') ∧ unsafe_removals out' = ∅
    ∧ ∀ row, find_job id (u_jobs u') = Some row → is_Some (j_backup row).
Proof.
  intros ([] & u1 & H1 & H)%bind_UM_inv Hrow. apply bind_UM_inv in H as (fields & u2 & H2 & H).
  apply bind_UM_inv in H as (v & u3 & H3 & H). apply bind_UM_inv in H as ([] & u4 & H4 & H).
  apply bind_UM_inv in H as ([] & u5 & H5 & H). apply bind_UM_inv in H as (bp & u6 & H6 & H).
  apply bind_UM_inv in H as ([] & u7 & H7 & H). apply bind_UM_inv in H as ([] & u8 & H8 & H). injection H as <- <- <-.
  assert (∀ c : list string, no_install c → anything c) as HC by done.
  pose proof (in_world_inv _ _ _ _ H2) as (installed & out & Hn)%validate_ok. pose proof (simulate_job_ok _ _ _ _ H8) as (out' & Hs & Hu).
  destruct (steps_grow id _ _ _ _ _ _ H1 (steps_phase _ _ _ (λ _ _, I) id _ _)) as [F1%frame_length R1].
  destruct (steps_grow id _ _ _ _ _ _ H2 (steps_world _ _ _ id [[]] _ (list_elem_of_here _ _) (writes_validate _ _ HC _ _))) as [F2%frame_length R2].
  destruct (steps_grow id _ _ _ _ _ _ H3 (steps_lift _ _ _ id [[]] _ (list_elem_of_here _ _))) as [F3 R3].
  destruct (steps_grow id _ _ _ _ _ _ H4 (any_update id (λ j : job, j{{j_candidate := v}}) ltac:(by intros []))) as [F4 R4].
  destruct (steps_grow id _ _ _ _ _ _ H5 (steps_phase _ _ _ (λ _ _, I) id _ _)) as [F5 R5].
  assert (writes anything anything (create_backup id current v)) as Hw by (intros w; by eapply frame_mono; [..|apply HB]).
  destruct (steps_grow id _ _ _ _ _ _ H6 (steps_backup _ _ _ id _ _ Hw)) as [F6 R6].
  destruct (steps_grow id _ _ _ _ _ _ H7 (any_update id (λ j : job, j{{j_backup := Some (last_backup, bp)}}) ltac:(by intros []))) as [F7 R7].
  destruct (steps_grow id _ _ _ _ _ _ H8 (steps_simulate _ _ _ (λ _ _ _, I) HC id path)) as [F8 _].
  assert (default "" (fields !! "Version") = v) as Hv by (destruct (fields !! "Version"); by injection H3).
  pose proof (frame_trans _ _ _ _ _ F3 (frame_trans _ _ _ _ _ F4 (frame_trans _ _ _ _ _ F5 (frame_trans _ _ _ _ _ F6 F7)))) as F37.
  exists installed, out, out'. rewrite <-Hv. split_and!; [|..|done|].
  - eapply ran_frame; [exact F1| |exact (frame_trans _ _ _ _ _ F37 F8)|exact Hn]. apply frame_length in F37, F8. lia.
  - apply frame_length in F37. eapply ran_frame; [|done|apply (frame_refl anything anything)|exact Hs]. lia.
  - destruct (R6 (R5 (R4 (R3 (R2 (R1 Hrow)))))) as [row Hr6]. apply update_inv in H7. subst u7.
    pose proof (find_updated id (λ j : job, j{{j_backup := Some (last_backup, bp)}}) u6 row ltac:(done) Hr6) as Hr7.
    destruct (steps_jobs _ _ _ _ _ _ _ _ _ _ _ H8 (steps_simulate anything anything keeps (λ _ _ K, K) HC id path) Hr7) as (row' & Hr8 & _ & Hk).
    intros row2. rewrite Hr8. intros [= <-]. rewrite Hk. by destruct row.
Qed.

Lemma check_job_ok j path digest expected u version backup_path u' :
  check_job (j_id j) (j_current j) path expected u = (Ok (version, backup_path), u') →
  package_at path digest (u_world u) → trusted (j_operation j) digest →
  (∃ row, find_job (j_id j) (u_jobs u) = Some row ∧ j_staged row = Some (path, digest)) →
  ready (length (w_log (u_world u))) (length (w_log (u_world u'))) j path version u'.
Proof.
  intros H Hp Ht (row & Hrow & Hstaged).
  assert (∀ G : job → job → Prop, PreOrder G → (∀ j j', keeps j j' → G j j') → (∀ j b, G j (j{{j_backup := b}})) →
    steps unstaged no_install G (j_id j) [PhValidating; PhBackingUp; PhSimulating] [[]] (check_job (j_id j) (j_current j) path expected)) as Hall
    by (intros; by apply steps_check).
  destruct (steps_jobs _ _ _ _ _ _ _ _ _ _ _ H (Hall (λ j j', j_staged j' = j_staged j) _ ltac:(by intros ?? []) ltac:(done)) Hrow)
    as (row' & Hrow' & Hkept).
  destruct (steps_run _ _ _ _ _ _ _ _ _ _ H (Hall any_change _ ltac:(done) ltac:(done))) as (ps & [F _ _]). clear Hall.
  destruct (check_job_steps _ _ _ _ _ _ _ _ H (mk_is_Some _ _ Hrow)) as (installed & out & out' & Hn & Hs & Hu & Hb).
  split; [|by exists installed, out|by exists out'].
  exists digest, row'. rewrite Hkept. split; [by eapply package_frame|]. split; [done|]. split; [done|]. split; [done|]. by apply Hb.
Qed.

Lemma prepare_job_ok j u path version backup_path u' :
  upload_named (j_operation j) → is_Some (find_job (j_id j) (u_jobs u)) →
  prepare_job j u = (Ok (path, version, backup_path), u') →
  ready (length (w_log (u_world u))) (length (w_log (u_world u'))) j path version u'.
Proof.
  intros Hname Hrow H. assert (∀ c : list string, no_install c → anything c) as HC by done.
  apply bind_UM_inv in H as ([status managed] & u1 & H1 & H). destruct (vs_mismatch status); [done|]. destruct (negb managed); [done|].
  apply bind_UM_inv in H as ([] & u2 & H2 & H). apply bind_UM_inv in H as ([[p digest] expected] & u3 & H3 & H).
  apply bind_UM_inv in H as ([] & u4 & H4 & H). apply bind_UM_inv in H as ([v bp] & u5 & H5 & H). injection H as -> -> -> ->.
  destruct (stage_job_ok _ _ _ _ _ _ Hname H3) as [Hp Ht].
  destruct (steps_grow _ _ _ _ _ _ _ H1 (steps_world _ _ _ (j_id j) [[]] _ (list_elem_of_here _ _) (writes_status _ _ HC))) as [F1 R1].
  destruct (steps_grow _ _ _ _ _ _ _ H2 (steps_phase _ _ _ (λ _ _, I) (j_id j) _ _)) as [F2 R2].
  destruct (steps_grow _ _ _ _ _ _ _ H3 (steps_stage _ _ _ (λ _ _ _, I) HC j (λ _, I))) as [F3 R3].
  destruct (R3 (R2 (R1 Hrow))) as [row Hr3]. apply update_inv in H4. subst u4.
  pose proof (find_updated (j_id j) (λ j : job, j{{j_staged := Some (path, digest)}}) u3 row ltac:(by intros []) Hr3) as Hr4.
  assert (u_world (update_job (j_id j) (λ j : job, j{{j_staged := Some (path, digest)}}) u3).2 = u_world u3) as Hw by by destruct u3.
  apply (check_job_ok j path digest expected) in H5; [|by rewrite Hw|done|eexists; split; [exact Hr4|by destruct row]]. rewrite Hw in H5.
  eapply ready_evolves; [|done|apply (evolves_refl unstaged anything keeps)|exact H5].
  pose proof (frame_length _ _ _ _ (frame_trans _ _ _ _ _ F1 (frame_trans _ _ _ _ _ F2 F3))). lia.
Qed.

Lemma log_new S C w w' k c : frame S C w w' → length (w_log w) ≤ k → w_log w' !! k = Some c → C c.
Proof.
  intros [_ _ (l & HL & Hl)] Hk. rewrite HL, lookup_app_r by done. intros Hc%list_elem_of_lookup_2. by eapply Forall_forall in Hl.
Qed.

(** A command that a step does not run was run after it. *)
Lemma log_later S C w w' S' C' w'' k c :
  frame S C w w' → frame S' C' w' w'' → ¬ C c → length (w_log w) ≤ k → w_log w'' !! k = Some c → length (w_log w') ≤ k.
Proof.
  intros F [_ _ (l & HL & _)] HC Hk Hc. destruct (decide (length (w_log w') ≤ k)) as [|Hn]; [done|]. destruct HC.
  rewrite HL, lookup_app_l in Hc by lia. by eapply log_new.
Qed.

Lemma not_no_install path : ¬ no_install (install_command path).
Proof. intros H. by apply (H path). Qed.

Lemma steps_later {A} S C G i ps E (m : UM A) u : steps S C G i ps E m → frame S C (u_world u) (u_world (m u).2).
Proof. intros Hm. by destruct (Hm u) as (ps' & [F _ _] & _). Qed.

Definition or_install (path : string) (c : list string) : Prop := no_install c ∨ c = install_command path.

Lemma run_job_ready j u path k :
  upload_named (j_operation j) → is_Some (find_job (j_id j) (u_jobs u)) → length (w_log (u_world u)) ≤ k →
  w_log (u_world (run_job j u).2) !! k = Some (install_command path) →
  ∃ version, ready (length (w_log (u_world u))) k j path version (run_job j u).2.
Proof.
  intros Hname Hrow Hk. unfold run_job. rewrite bind_UM.
  assert (steps anything no_install any_change (j_id j) PREPARING [[]] (prepare_job j)) as Hprep.
  { apply steps_prepare; try done. intros id from to w. eapply frame_mono; [..|apply HB]; done. }
  apply (steps_later _ _ _ _ _ _ _ u) in Hprep. destruct (prepare_job j u) as [[[[p version] bp]|e] u1] eqn:Hj; cbn [snd] in *.
  - apply prepare_job_ok in Hj; [|done..]. intros Hi. exists version.
    assert (steps unstaged (or_install p) keeps (j_id j) APPLYING [[PhCompleted]; [PhFailed]] (apply_job (j_id j) p version bp)) as Happ.
    { apply steps_apply; [typeclasses eauto|done|by left|by right]. }
    destruct (Happ u1) as (ps & Ev & _). pose proof (ev_world _ _ _ _ _ _ _ Ev) as F.
    assert (length (w_log (u_world u1)) ≤ k) as Hk1 by (eapply log_later; [exact Hprep|exact F|apply not_no_install|done..]).
    destruct (log_new _ _ _ _ _ _ F Hk1 Hi) as [[]%not_no_install|[= <-]]. by eapply ready_evolves; [|exact Hk1|exact Ev|exact Hj].
  - intros Hi. destruct (not_no_install path). by eapply log_new.
Qed.

Lemma latest_pending_in l j : latest_pending l = Some j → j ∈ l ∧ j_phase j = PhPending.
Proof.
  unfold latest_pending. intros Hj%last_Some_elem_of. apply elem_of_filterb in Hj as [Hj Hp%bool_decide_eq_true]. done.
Qed.

Lemma find_job_some l j : j ∈ l → is_Some (find_job (j_id j) l).
Proof.
  intros Hj. unfold find_job. destruct (find_first _ l) as [j'|] eqn:E; [done|]. rewrite find_first_None in E. specialize (E j Hj).
  by rewrite Z.eqb_refl in E.
Qed.

Lemma find_job_unique l j : NoDup (j_id <$> l) → j ∈ l → find_job (j_id j) l = Some j.
Proof.
  intros Hnd Hj. destruct (find_job_some l j Hj) as [j' E]. rewrite E. apply find_first_Some in E as [Hj' E%Z.eqb_eq].
  f_equal. by apply (NoDup_fmap_inj j_id l).
Qed.

(** The start of a job: the row gets its worker, nothing else changes. *)
Definition start_job (j : job) : UM () := ts ← now; update_job (j_id j) (λ j : job, j{{j_started := Some ts; j_worker := Some self}}).

Lemma steps_start S C G `{!PreOrder G} j : (∀ j j', keeps j j' → G j j') → steps S C G (j_id j) [] [[]] (start_job j).
Proof. intros HG. unfold start_job. stepping. Qed.

Definition job_error (e : pyexc) : string := if is_update_error e then exc_message e else "unexpected error: " +:+ exc_message e.

(** A run of a pending job: it starts, it runs, and an exception fails it. *)
Lemma run_pending_spec u j :
  latest_pending (u_jobs u) = Some j →
  let u1 := (start_job j u).2 in
  let u2 := match run_job j u1 with (Ok _, u) => u | (Raise e, u) => (fail_job (j_id j) (job_error e) u).2 end in
  run_pending_job u = (Ok (find_job (j_id j) (u_jobs u2)), u2).
Proof.
  intros Hj. unfold run_pending_job. rewrite Hj. rewrite bind_UM. destruct u as [w js es tick]. cbn [now fst snd].
  rewrite bind_UM. cbn. by destruct (run_job _ _) as [[]].
Qed.

End runs_of_a_job.

(** ** Every job ends *)

(** The end of a job: it succeeded or it failed, at a time that is recorded. *)
Definition ended (j : job) : Prop :=
  is_Some (j_completed j)
  ∧ (j_phase j = PhCompleted ∧ j_result j = Some "success"
     ∨ j_phase j = PhFailed ∧ (j_result j = Some "failed" ∨ j_result j = Some "installed_health_failed")).

(** The row ended, as the last event says. *)
Definition closed (i : Z) (u : ustate) : Prop :=
  ∀ row, find_job i (u_jobs u) = Some row → ended row ∧ e_phase <$> last (u_events u) = Some (j_phase row).

Lemma bind_last {A B} (P : ustate → Prop) (m : UM A) (f : A → UM B) u b u' :
  (m ≫= f) u = (Ok b, u') → (∀ a u1, f a u1 = (Ok b, u') → P u') → P u'.
Proof. intros (a & u1 & _ & H)%bind_UM_inv HP. by eapply HP. Qed.

(** The row is set, then the event is recorded. *)
Lemma closed_by i p f message u :
  (∀ j, j_id (f j) = j_id j ∧ ended (f j) ∧ j_phase (f j) = p) → closed i (record_event i p message (update_job i f u).2).2.
Proof.
  intros Hf row. destruct u as [w js es tick]. unfold record_event. rewrite bind_UM. cbn.
  change (find_first _ _) with (find_job i ((λ j, if (j_id j =? i)%Z then f j else j) <$> js)).
  rewrite find_job_map by apply Hf. rewrite last_snoc. intros (j & _ & ->)%fmap_Some. cbn.
  destruct (Hf j) as (_ & He & Hp). split; [done|]. by rewrite Hp.
Qed.

Lemma fail_closed i error u : closed i (fail_job i error u).2.
Proof. apply (closed_by i PhFailed). intros j. split; [done|]. split; [|done]. split; [done|]. right. split; [done|by left]. Qed.

Lemma finish_closed i version backup_path health u u' : finish_job i version backup_path health u = (Ok (), u') → closed i u'.
Proof.
  unfold finish_job. intros H. eapply (bind_last (closed i)); [exact H|]. clear H. intros ok u1 H. destruct ok.
  - eapply (bind_last (closed i)); [exact H|]. clear H. intros ts u2 H.
    injection H as <-. apply (closed_by i PhCompleted). intros j. split; [done|]. split; [|done]. split; [done|]. by left.
  - destruct (installed_but_health_failed _); (eapply (bind_last (closed i)); [exact H|]); clear H; intros ts u2 H;
      injection H as <-; apply (closed_by i PhFailed); intros j; (split; [done|]); (split; [|done]); (split; [done|]); right; (split; [done|]);
      [by right|by left].
Qed.

Lemma run_closed j u u' : run_job j u = (Ok (), u') → closed (j_id j) u'.
Proof.
  intros H. eapply (bind_last (closed (j_id j))); [exact H|]. clear H. intros [[path version] bp] u1 H. unfold apply_job in H.
  do 7 (eapply (bind_last (closed (j_id j))); [exact H|]; clear H; intros ? ? H). exact (finish_closed _ _ _ _ _ _ H).
Qed.

Lemma steps_run_job j :
  (∀ id from to, writes anything anything (create_backup id from to)) →
  steps anything anything any_change (j_id j) (PREPARING ++ APPLYING) [[PhCompleted]; [PhFailed]] (run_job j).
Proof.
  intros HB. assert (∀ c : list string, no_install c → anything c) as HC by done. unfold run_job.
  apply (steps_bind anything anything any_change (j_id j)); [by apply steps_prepare|]. intros [[path version] bp]. by apply steps_apply.
Qed.

(** C29: A job that runs comes to an end, whatever fails: it is completed or failed, with a
    result and a time, no other job changes, and its events are the first phases of the
    fixed order followed by that end; only a job that went through all of them completes. *)
Theorem update_job_ends u j :
  (∀ id from to, writes anything anything (create_backup id from to)) →
  NoDup (j_id <$> u_jobs u) → latest_pending (u_jobs u) = Some j →
  ∃ j' n evs, let u' := (run_pending_job u).2 in
    (run_pending_job u).1 = Ok (Some j') ∧ j_id j' = j_id j ∧ ended j'
    ∧ u_jobs u' = (λ k, if (j_id k =? j_id j)%Z then j' else k) <$> u_jobs u
    ∧ u_events u' = u_events u ++ evs ∧ Forall (λ e, e_job e = j_id j) evs
    ∧ e_phase <$> evs = take n (PREPARING ++ APPLYING) ++ [j_phase j']
    ∧ (j_phase j' = PhCompleted → n = length (PREPARING ++ APPLYING)).
Proof.
  intros HB Hnd Hj. destruct (latest_pending_in _ _ Hj) as [Hin _]. rewrite (run_pending_spec u j Hj). cbn zeta. cbn [fst snd].
  destruct (steps_start anything anything any_change j (λ _ _ _, I) u) as (p0 & E0 & H0).
  assert ((start_job j u).1 = Ok ()) as Hok by by destruct u. rewrite Hok in H0. destruct H0 as (e0 & ->%list_elem_of_singleton & ->).
  destruct (steps_run_job j HB (start_job j u).2) as (p1 & E1 & H1). pose proof (run_closed j (start_job j u).2) as Hc.
  set (u1 := run_job j (start_job j u).2) in *.
  assert (∃ n p u', u' = match u1 with (Ok _, u) => u | (Raise e, u) => (fail_job (j_id j) (job_error e) u).2 end
    ∧ evolves anything anything any_change (j_id j) (take n (PREPARING ++ APPLYING) ++ [p]) u u' ∧ closed (j_id j) u'
    ∧ (p = PhCompleted → n = length (PREPARING ++ APPLYING))) as (n & p & u' & Hu & [_ (g & Hg & HJ) (evs & HE & Hevs & Hps)] & Hclosed & Hn).
  { destruct u1 as [[[]|e] u2]; cbn in E1, H1.
    - destruct H1 as (e & He & ->). exists 8. cbn [take PREPARING APPLYING app].
      apply elem_of_cons in He as [-> | He]; [|apply list_elem_of_singleton in He as ->]; eexists _, u2; (split; [done|]);
        (split; [exact (evolves_trans _ _ _ _ _ _ _ _ _ E0 E1)|]); (split; [by apply Hc|done]).
    - destruct H1 as (l & Hl). change (PREPARING ++ APPLYING = p1 ++ l) in Hl. exists (length p1), PhFailed. eexists. split; [done|]. rewrite Hl, take_app_length.
      split; [|split; [apply fail_closed|done]].
      destruct (steps_fail anything anything any_change (λ _ _ _, I) (j_id j) (job_error e) u2) as (p2 & E2 & H2).
      assert ((fail_job (j_id j) (job_error e) u2).1 = Ok ()) as Hf by by destruct u2. rewrite Hf in H2.
      destruct H2 as (q & ->%list_elem_of_singleton & ->). exact (evolves_trans _ _ _ _ _ _ _ _ _ E0 (evolves_trans _ _ _ _ _ _ _ _ _ E1 E2)). }
  rewrite <-Hu. assert (find_job (j_id j) (u_jobs u') = Some (g j)) as Hfind.
  { rewrite HJ, find_job_map by apply Hg. by rewrite (find_job_unique _ _ Hnd Hin). }
  destruct (Hclosed _ Hfind) as [Hended Hlast]. exists (g j), n, evs. rewrite Hfind.
  assert (p = j_phase (g j)) as <-.
  { rewrite HE, <-fmap_last, fmap_app, Hps, app_assoc, last_snoc in Hlast. by injection Hlast. }
  split; [done|]. split; [apply Hg|]. split; [done|]. split; [|done]. rewrite HJ. apply list_fmap_ext.
  intros i k Hk%list_elem_of_lookup_2. destruct (Z.eqb_spec (j_id k) (j_id j)) as [E|]; [|done]. by rewrite (NoDup_fmap_inj j_id _ k j Hnd Hk Hin E).
Qed.

(** ** Abandoned jobs *)

(** What reaping does to the row [k] of the abandoned job [j] *)
Definition reaped (j k k' : job) : Prop :=
  ended k' ∧ j_phase k' = PhFailed ∧ j_error k' = abandoned_message j ∧ j_id k' = j_id k ∧ keeps k k'.

Lemma find_job_fresh l j : NoDup (j_id <$> j :: l) → find_job (j_id j) l = None.
Proof.
  intros [Hj _]%NoDup_cons. unfold find_job. apply find_first_None. intros k Hk. apply Z.eqb_neq. intros E. destruct Hj.
  rewrite <-E. by apply list_elem_of_fmap_2.
Qed.

Lemma reap_all_spared rows u : Forall (λ j, spared j = true) rows → reap_all rows u = (Ok [], u).
Proof. induction 1 as [|j rows Hj _ IH]; [done|]. cbn [reap_all]. by rewrite Hj. Qed.

Lemma abandon_spec j u :
  ∃ f, (∀ k, reaped j k (f k)) ∧ (abandon j u).1 = Ok ()
    ∧ u_jobs (abandon j u).2 = (λ k, if (j_id k =? j_id j)%Z then f k else k) <$> u_jobs u.
Proof.
  exists (λ k : job, k{{j_phase := PhFailed; j_result := Some "failed"; j_error := abandoned_message j; j_completed := Some (clock (u_tick u))}}).
  split; [|by destruct u]. intros k. split; [|done]. split; [done|]. right. split; [done|by left].
Qed.

Lemma reap_all_spec rows u :
  NoDup (j_id <$> rows) →
  (reap_all rows u).1 = Ok ((λ j, (j_id j, abandoned_message j)) <$> List.filter (negb ∘ spared) rows)
  ∧ Forall2 (λ k k', match find_job (j_id k) rows with Some j => if spared j then k' = k else reaped j k k' | None => k' = k end)
      (u_jobs u) (u_jobs (reap_all rows u).2).
Proof.
  revert u. induction rows as [|j rows IH]; intros u Hnd.
  { split; [done|]. cbn. by apply Forall2_same_length_lookup_2; [|intros i x y -> [= ->]]. }
  pose proof (find_job_fresh _ _ Hnd) as Hfresh. apply NoDup_cons in Hnd as [_ Hnd].
  cbn [reap_all]. destruct (spared j) eqn:Hs.
  - destruct (IH u Hnd) as [H1 H2]. cbn [List.filter compose]. rewrite Hs. split; [done|]. eapply Forall2_impl; [exact H2|].
    intros k k' Hk. unfold find_job in *. cbn [find_first]. destruct (Z.eqb_spec (j_id j) (j_id k)) as [E|]; [|done].
    rewrite Hs. rewrite <-E, Hfresh in Hk. done.
  - destruct (abandon_spec j u) as (f & Hf & Hok & HJ). rewrite bind_UM. destruct (abandon j u) as [r u1]. cbn [fst snd] in Hok, HJ. subst r.
    destruct (IH u1 Hnd) as [H1 H2]. cbn [List.filter compose negb]. rewrite Hs, bind_UM. cbn [negb].
    destruct (reap_all rows u1) as [r u2]. cbn [fst snd] in *. subst r. split; [done|]. cbn [mret UM_ret snd].
    rewrite HJ in H2. apply Forall2_fmap_l in H2. eapply Forall2_impl; [exact H2|]. intros k k'. cbv beta delta [compose].
    unfold find_job. cbn [find_first]. rewrite (Z.eqb_sym (j_id j)). destruct (Z.eqb_spec (j_id k) (j_id j)) as [E|]; [|done]. intros Hk.
    rewrite Hs. destruct (Hf k) as (_ & _ & _ & Hid & _). fold (find_job (j_id (f k)) rows) in Hk. rewrite Hid, E, Hfresh in Hk. subst k'. apply Hf.
Qed.

Lemma find_job_filter p l j : NoDup (j_id <$> l) → j ∈ l → find_job (j_id j) (List.filter p l) = if p j then Some j else None.
Proof.
  intros Hnd Hj. destruct (p j) eqn:Hp.
  - apply find_job_unique; [by apply NoDup_fmap_filterb|by apply elem_of_filterb].
  - unfold find_job. apply find_first_None. intros k [Hk Hpk]%elem_of_filterb. apply Z.eqb_neq. intros E.
    assert (k = j) as -> by (by apply (NoDup_fmap_inj j_id l)). congruence.
Qed.

(** C30: Reaping fails exactly the unfinished jobs whose worker is gone and that do not wait
    for their runner, with the message that says whether packages may have changed; every
    other job is left as it is, what was staged and backed up stays recorded, and reaping
    again finds nothing. *)
Theorem reap_abandoned_spec u :
  NoDup (j_id <$> u_jobs u) →
  let abandoned j := negb (terminal (j_phase j)) && negb (spared j) in
  let u' := (reap_abandoned_jobs u).2 in
  (reap_abandoned_jobs u).1 = Ok ((λ j, (j_id j, abandoned_message j)) <$> List.filter abandoned (u_jobs u))
  ∧ Forall2 (λ j j', if abandoned j then reaped j j j' else j' = j) (u_jobs u) (u_jobs u')
  ∧ reap_abandoned_jobs u' = (Ok [], u').
Proof.
  intros Hnd abandoned u'. unfold reap_abandoned_jobs in *.
  destruct (reap_all_spec (List.filter (λ j, negb (terminal (j_phase j))) (u_jobs u)) u) as [H1 H2]; [by apply NoDup_fmap_filterb|].
  assert (Forall2 (λ j j', if abandoned j then reaped j j j' else j' = j) (u_jobs u) (u_jobs u')) as H.
  { apply Forall2_same_length_lookup. apply Forall2_same_length_lookup in H2 as [Hlen H2]. split; [done|]. intros i j j' Hj Hj'.
    specialize (H2 i j j' Hj Hj'). rewrite (find_job_filter _ _ j Hnd) in H2 by by eapply list_elem_of_lookup_2.
    revert H2. unfold abandoned. destruct (terminal (j_phase j)); [done|]. cbn. by destruct (spared j). }
  split; [|split; [done|]].
  - rewrite H1. do 2 f_equal. clear. induction (u_jobs u) as [|j l IH]; [done|]. cbn [List.filter]. unfold abandoned at 1.
    destruct (terminal (j_phase j)); [done|]. cbn [negb andb List.filter compose]. destruct (spared j); cbn [negb]; [done|]. by rewrite IH.
  - apply reap_all_spared. apply Forall_forall. intros k' [Hk' Ht]%elem_of_filterb. apply list_elem_of_lookup_1 in Hk' as [i Hi].
    apply Forall2_same_length_lookup in H as [Hlen H]. destruct (lookup_lt_is_Some_2 (u_jobs u) i) as [k Hk].
    { rewrite Hlen. by eapply lookup_lt_Some. }
    specialize (H i k k' Hk Hi). unfold abandoned in H. destruct (negb (terminal (j_phase k)) && negb (spared k)) eqn:E.
    + destruct H as (_ & Hp & _). by rewrite Hp in Ht.
    + subst k'. rewrite Ht in E. by destruct (spared k).
Qed.

End jobs.

(** ** A concrete update

    An upload whose digest the administrator gave, on an installation of version 1.0.0 *)

Definition sample_upload : operation := Manual (UPLOAD_STAGING_DIR +:+ "/1-alderpointdns_1.1.0_all.deb") (Some " ABC ").
Definition sample_job : job := new_job 7 sample_upload "t0" "admin" "1.0.0" "".
Definition sample_package : string := STAGED_DIR +:+ "1-alderpointdns_1.1.0_all.deb".

Definition sample_answers (n : nat) : outcome :=
  match n with
  | 0 | 1 | 3 => Exited 0 "1.0.0"
  | 2 => Exited 0 ("Package: alderpointdns" +:+ nl +:+ "Version: 1.1.0" +:+ nl +:+ "Architecture: all" +:+ nl)
  | 4 => Exited 1 ""
  | 6 => Exited 0 ("Inst alderpointdns" +:+ nl +:+ "Remv oldlib" +:+ nl)
  | 8 | 9 | 10 | 11 => Exited 0 ("active" +:+ nl)
  | 12 => Exited 0 (print spaced 0 (JObj [("ok", JBool true)]))
  | _ => Exited 0 ""
  end.

Definition sample_state : ustate :=
  mkUstate (mkWorld {[ UPLOAD_STAGING_DIR +:+ "/1-alderpointdns_1.1.0_all.deb" := "abc" ]} [] sample_answers) [sample_job] [] 0.

Definition sample_backup (_ : Z) (_ _ : string) : M string := mret "/var/backups/b.zip".
Definition sample_run : UM (option job) :=
  run_pending_job (λ _ _, Raise (SoftwareUpdateError "offline")) (λ _ _, NoAnswer TimedOut) id false "" id None "python3" (λ n, pretty n)
    (mkWorker 9 None "boot") sample_backup (Some 3%Z).

Example sample_run_ex :
  option_map (λ j, (phase_text (j_phase j), j_result j, j_candidate j)) (default None (match (sample_run sample_state).1 with Ok j => Some j | _ => None end))
    = Some ("completed", Some "success", "1.1.0")
  ∧ w_log (u_world (sample_run sample_state).2) !! 7 = Some (install_command sample_package)
  ∧ e_phase <$> u_events (sample_run sample_state).2 = PREPARING ++ APPLYING ++ [PhCompleted].
Proof. split; [|split]; vm_compute; reflexivity. Qed.


Lemma update_job_ends_witness :
  ∃ j' n evs, (sample_run sample_state).1 = Ok (Some j') ∧ ended j' ∧ u_events (sample_run sample_state).2 = evs
    ∧ e_phase <$> evs = take n (PREPARING ++ APPLYING) ++ [j_phase j'].
Proof.
  destruct (update_job_ends (λ _ _, Raise (SoftwareUpdateError "offline")) (λ _ _, NoAnswer TimedOut) id false "" id None "python3" (λ n, pretty n)
    (mkWorker 9 None "boot") sample_backup (Some 3%Z) sample_state sample_job ltac:(intros; apply writes_ret)
    ltac:(vm_compute; repeat constructor; by intros ?%elem_of_nil) eq_refl) as (j' & n & evs & H1 & _ & H2 & _ & H3 & _ & H4 & _).
  exists j', n, evs. split; [exact H1|]. split; [exact H2|]. split; [exact H3|exact H4].
Defined.

(** A job whose runner died while it installed, and one that waits for its runner *)
Definition sample_abandoned : job := sample_job{{j_phase := PhInstalling; j_worker := Some (mkWorker 9 None "boot")}}.
Definition sample_waiting : job := sample_job{{j_id := 8%Z}}.

Lemma reap_abandoned_spec_witness :
  (reap_abandoned_jobs None (λ n, pretty n) "boot" (λ _, None) (λ _, Some 30%Z) (mkUstate (u_world sample_state) [sample_abandoned; sample_waiting] [] 0)).1
  = Ok [(7%Z, abandoned_message sample_abandoned)].
Proof.
  destruct (reap_abandoned_spec None (λ n, pretty n) "boot" (λ _, None) (λ _, Some 30%Z)
    (mkUstate (u_world sample_state) [sample_abandoned; sample_waiting] [] 0)) as (H & _).
  - vm_compute. apply NoDup_cons. split; [intros H%list_elem_of_singleton; discriminate H|]. apply NoDup_singleton.
  - rewrite H. vm_compute. reflexivity.
Defined.
