(* ===== verification/UpdateHealth.v ===== *)
(** * Health checks, uploads and the page of the updates

    The rest of [app/software_updates.py]: the integrity check of the database with its
    retries, the health check that the installed code runs after an update, the upload of a
    package, and what the page and its polling read. *)

From S2P Require Import Prelude PyStr StrLemmas PyJson JsonRead World Versions Releases UpdateJobs.

Section token.
(** The token of the credential file, which [redact] removes *)
Context (token : option string).

(** ** The integrity check *)

Definition DB_PATH : string := "/var/lib/alderpointdns/alderpointdns.db".
Definition SQLITE_HEALTH_ATTEMPTS : nat := 6.

(** What [PRAGMA quick_check] gives: its rows, an [OperationalError] with the name of its
    code, or another [DatabaseError] *)
Inductive qc_answer := QcRows (rows : list (option string)) | QcOperational (errorname message : string) | QcDatabase (message : string).

Inductive qc_error := DatabaseBusy | DatabaseLocked | SqliteError.
#[export] Instance qc_error_eq_dec : EqDecision qc_error.
Proof. solve_decision. Defined.
Definition qc_error_text (e : qc_error) : string :=
  match e with DatabaseBusy => "database_busy" | DatabaseLocked => "database_locked" | SqliteError => "sqlite_error" end.

(** app/software_updates.py:979-1007 _classify_sqlite_operational_error *)
Definition classify_sqlite_operational_error (errorname text : string) : qc_error * string :=
  let message := stake 1000 (redact token text) in
  if starts_with "SQLITE_BUSY" errorname then (DatabaseBusy, message)
  else if starts_with "SQLITE_LOCKED" errorname then (DatabaseLocked, message)
  else if negb (String.eqb errorname "") then (SqliteError, message)
  else
    let lowered := lower message in
    if contains "table is locked" lowered then (DatabaseLocked, message)
    else if contains "database is locked" lowered || contains "database is busy" lowered || contains "database locked" lowered
    then (DatabaseBusy, message)
    else (SqliteError, message).

Definition retryable (e : qc_error) : bool := bool_decide (e = DatabaseBusy ∨ e = DatabaseLocked).

Definition qc_failed (attempt : nat) (error : string) (rest : list (string * json)) : list (string * json) :=
  [("ok", JBool false); ("path", JStr DB_PATH); ("attempts", JInt (Z.of_nat attempt)); ("error_type", JStr error)] ++ rest.

(** The answer to one attempt: what is returned, and whether the loop goes on after it *)
Definition qc_result (attempt : nat) (a : qc_answer) : list (string * json) * bool :=
  match a with
  | QcOperational errorname text =>
      let '(error, message) := classify_sqlite_operational_error errorname text in
      (qc_failed attempt (qc_error_text error) [("message", JStr message)], retryable error)
  | QcDatabase text => (qc_failed attempt "sqlite_error" [("message", JStr (stake 1000 (redact token text)))], false)
  | QcRows rows =>
      let output := strip (join nl (omap id rows)) in
      if String.eqb output "ok"
      then ([("ok", JBool true); ("path", JStr DB_PATH); ("attempts", JInt (Z.of_nat attempt)); ("result", JStr "ok")], false)
      else (qc_failed attempt "integrity_check_failed"
              [("result", JStr (default "PRAGMA quick_check returned no rows." (nonempty (stake 1000 (redact token output)))))], false)
  end.

(** [remaining] attempts are left, of which this is the number [attempt]. *)
Fixpoint quick_check_loop (answers : nat → qc_answer) (remaining attempt : nat) (last : option (list (string * json))) : list (string * json) :=
  match remaining with
  | O => default (qc_failed SQLITE_HEALTH_ATTEMPTS "unknown" [("message", JStr "SQLite quick_check did not produce a result.")]) last
  | S remaining =>
      let '(result, again) := qc_result attempt (answers attempt) in
      if again && (attempt <? SQLITE_HEALTH_ATTEMPTS) then quick_check_loop answers remaining (S attempt) (Some result) else result
  end.

(** app/software_updates.py:1010-1055 _database_quick_check *)
Definition database_quick_check (answers : nat → qc_answer) : list (string * json) :=
  quick_check_loop answers SQLITE_HEALTH_ATTEMPTS 1 None.

(** app/software_updates.py:1058-1059 _quick_check_ok *)
Definition quick_check_ok (answers : nat → qc_answer) : bool := py_bool (get (database_quick_check answers) "ok" JNull).

(** ** The health check *)

(** app/software_updates.py:1170-1175 _resolution_ok *)
Definition resolution_ok : M bool :=
  try_except (r ← run ["dig"; "+short"; "+time=3"; "+tries=1"; "example.com"; "@127.0.0.1"] false;
              mret ((r.1 =? 0)%Z && negb (String.eqb (strip r.2) "")))
    (λ e, if timed_out e then raise e else mret false).

(** app/backup.py:742-758 _git_dev_metadata

    [git] is whether the program is installed. *)
Definition git_dev_metadata (git : bool) : M (option string) :=
  there ← exists_ "/opt/alderpointdns/.git/";
  if negb git || negb there then mret None
  else try_except (r ← run ["git"; "-C"; "/opt/alderpointdns"; "rev-parse"; "--short"; "HEAD"] false;
                   mret (if (r.1 =? 0)%Z then nonempty (strip r.2) else None))
         (λ e, if timed_out e then raise e else mret None).

(** app/backup.py:805-825 alderpointdns_app_version

    The warning about drift goes to standard error. *)
Definition alderpointdns_app_version (git : bool) : M string :=
  file ← read_version_file;
  dpkg ← read_dpkg_version;
  commit ← git_dev_metadata git;
  let version := match file with Some v => v | None => default "unknown" dpkg end in
  mret (match commit with Some c => version +:+ "+git." +:+ c | None => version end).

(** app/software_updates.py:1191-1211 post_upgrade_health_check

    [answers] is the database, [webapp] whether the web application answered, [git] whether
    git is installed. *)
Definition post_upgrade_health_check (answers : nat → qc_answer) (webapp git : bool) (expected : option string) : M (list (string * json)) :=
  services ← for_each SERVICES (λ unit, active ← service_active unit; mret (unit, active));
  installed ← installed_package_version;
  let check := database_quick_check answers in
  resolution ← resolution_ok;
  version ← alderpointdns_app_version git;
  let services_ok := forallb snd services in
  let check_ok := py_bool (get check "ok" JNull) in
  matches ← match expected with
            | None => mret None
            | Some e => match installed with
                        | None => mret (Some false)
                        | Some i => same ← dpkg_compare i "eq" e; mret (Some same)
                        end
            end;
  mret ([("services", JObj ((λ s, (s.1, JBool s.2)) <$> services)); ("services_ok", JBool services_ok);
         ("database_quick_check_ok", JBool check_ok); ("database_quick_check", JObj check); ("dns_resolution_ok", JBool resolution);
         ("webapp_responding", JBool webapp); ("installed_dpkg_version", match installed with Some i => JStr i | None => JNull end);
         ("application_version", JStr version)]
        ++ match matches with Some b => [("installed_version_matches_expected", JBool b)] | None => [] end
        ++ [("ok", JBool (services_ok && check_ok && resolution && webapp && default true matches))]).
End token.

(** ** Uploads *)

(** app/software_updates.py:843-851 begin_manual_upload

    [random] is the name that the operating system chooses. *)
Definition begin_manual_upload (random filename : string) : M string :=
  let name := basename filename in
  if negb (ends_with ".deb" name) || char_in "/" filename || String.eqb name "." || String.eqb name ".."
  then raise (SoftwareUpdateError "uploaded file must be a .deb package")
  else
    _ ← mkdir (UPLOAD_STAGING_DIR +:+ "/");
    let tmp := UPLOAD_STAGING_DIR +:+ "/.alderpointdns-update-upload-" +:+ random in
    _ ← write_text tmp ""; mret tmp.

(** app/software_updates.py:854-859 finalize_manual_upload *)
Definition finalize_manual_upload (seconds : Z) (tmp filename : string) : M string :=
  let name := basename (if String.eqb filename "" then "upload.deb" else filename) in
  let dest := UPLOAD_STAGING_DIR +:+ "/" +:+ str_int seconds +:+ "-" +:+ name in
  _ ← replace tmp dest; mret dest.

(** app/software_updates.py:862-863 abort_manual_upload *)
Definition abort_manual_upload (tmp : string) : M () := there ← exists_ tmp; when there (unlink tmp).

(** ** The page *)

(** app/software_updates.py:1158-1167 _job_view

    Whether the job is active, its label, tone, health summary and message, and whether it
    is history *)
Definition job_view (j : job) (events : list event) (last_checked : string) : bool * string * string * string * string * bool :=
  (negb (terminal (j_phase j)), job_status_label j, job_status_tone j, job_health_summary j, job_display_message j events,
   job_is_historical j last_checked).

Section page.
Context (file : option credential) (clock : nat → string) (boot : string) (start_ticks : Z → option Z) (seconds_since : string → option Z).
(** [next_check_at], which is the function of [filter_schedule] for the other timer *)
Context (next_check_at : M (option string)).

Record payload := mkPayload {
  pl_installed : string; pl_dpkg : option string; pl_job : option (job * (bool * string * string * string * string * bool) * list event) }.

Definition observe {A} (f : ustate → A) : UM A := λ u, (Ok (f u), u).

(** app/software_updates.py:1378-1429 job_status_payload *)
Definition job_status_payload (settings : gmap string string) : UM payload :=
  _ ← reap_abandoned_jobs file clock boot start_ticks seconds_since;
  '(status, _) ← in_world installed_version_status;
  observe (λ u, mkPayload (vs_resolved status) (vs_dpkg status)
    (j ← latest_job u;
     let events := job_events (j_id j) u in
     Some (j, job_view j events (default "" (update_cfg settings !! "last_checked_at")), events))).

Record status_page := mkStatusPage {
  sp_settings : gmap string string; sp_version : version_status * bool; sp_credential : bool * bool * bool; sp_release : option json;
  sp_available : bool; sp_job : option (job * (bool * string * string * string * string * bool)); sp_events : list event;
  sp_interval : Z; sp_next : option string }.

(** app/software_updates.py:1805-1841 update_status *)
Definition update_status (settings : gmap string string) : UM status_page :=
  _ ← reap_abandoned_jobs file clock boot start_ticks seconds_since;
  let cfg := update_cfg settings in
  version ← in_world installed_version_status;
  let latest := default (JObj []) (loads (default "{}" (cfg !! "latest_release_json"))) in
  next ← (if truthy_setting (JStr (default "1" (cfg !! "auto_check_enabled"))) then in_world next_check_at else mret None);
  observe (λ u,
    let job := latest_job u in
    let events := match job with Some j => job_events (j_id j) u | None => [] end in
    mkStatusPage cfg version (credential_status file) (if py_bool latest then Some latest else None) (py_bool latest)
      ((λ j, (j, job_view j events (default "" (cfg !! "last_checked_at")))) <$> job) events (clamped_check_interval_hours cfg) next).
End page.

(** ** The integrity check returns the first lasting answer *)

(** The database is sound; it was busy or locked. *)
Definition qc_good (a : qc_answer) : Prop := ∃ rows, a = QcRows rows ∧ strip (join nl (omap id rows)) = "ok".
Definition lock_code (errorname : string) : Prop := starts_with "SQLITE_BUSY" errorname = true ∨ starts_with "SQLITE_LOCKED" errorname = true.
Definition lock_text (message : string) : Prop :=
  ∃ phrase, phrase ∈ ["table is locked"; "database is locked"; "database is busy"; "database locked"] ∧ contains phrase (lower message) = true.
Definition qc_transient (token : option string) (a : qc_answer) : Prop :=
  ∃ errorname text, a = QcOperational errorname text
    ∧ (lock_code errorname ∨ errorname = "" ∧ lock_text (stake 1000 (redact token text))).

(** An error is tried again when its code, or without a code its message, is of a lock. *)
Lemma classified token errorname text :
  retryable (classify_sqlite_operational_error token errorname text).1 = true
  ↔ lock_code errorname ∨ errorname = "" ∧ lock_text (stake 1000 (redact token text)).
Proof.
  unfold classify_sqlite_operational_error. set (message := stake 1000 (redact token text)). unfold lock_code.
  destruct (starts_with "SQLITE_BUSY" errorname) eqn:Hb; [by split; [left; left|]|].
  destruct (starts_with "SQLITE_LOCKED" errorname) eqn:Hl; [by split; [left; right|]|].
  destruct (String.eqb_spec errorname "") as [->|Hne]; cbn [negb].
  2: { split; [done|]. intros [[]|[]]; congruence. }
  unfold lock_text. destruct (contains "table is locked" (lower message)) eqn:H1.
  { split; [|done]. intros _. right. split; [done|]. exists "table is locked". by split; [left|]. }
  destruct (contains "database is locked" (lower message)) eqn:H2.
  { split; [|done]. intros _. right. split; [done|]. exists "database is locked". by split; [right; left|]. }
  destruct (contains "database is busy" (lower message)) eqn:H3.
  { split; [|done]. intros _. right. split; [done|]. exists "database is busy". by split; [do 2 right; left|]. }
  destruct (contains "database locked" (lower message)) eqn:H4.
  { split; [|done]. intros _. right. split; [done|]. exists "database locked". by split; [do 3 right; left|]. }
  cbn [orb]. split; [done|]. intros [[]|(_ & phrase & Hin & Hc)]; [congruence..|].
  repeat (apply elem_of_cons in Hin as [->|Hin]; [congruence|]). by apply elem_of_nil in Hin.
Qed.

Lemma qc_result_again token n a : (qc_result token n a).2 = true ↔ qc_transient token a.
Proof.
  destruct a as [rows|errorname text|text]; cbn [qc_result].
  - split; [by case_match|]. by intros (? & ? & ? & _).
  - rewrite (surjective_pairing (classify_sqlite_operational_error token errorname text)). cbn [snd]. rewrite classified.
    split; [by exists errorname, text|]. by intros (e & t & [= -> ->] & H).
  - split; [done|]. by intros (? & ? & ? & _).
Qed.

Lemma qc_result_ok token n a : py_bool (get (qc_result token n a).1 "ok" JNull) = true ↔ qc_good a.
Proof.
  destruct a as [rows|errorname text|text]; cbn [qc_result].
  - destruct (String.eqb_spec (strip (join nl (omap id rows))) "ok") as [E|E]; split; try done.
    + by exists rows.
    + intros (rows' & [= <-] & H). done.
  - destruct (classify_sqlite_operational_error _ _ _). split; [done|]. by intros (? & ? & _).
  - split; [done|]. by intros (? & ? & _).
Qed.

Lemma quick_check_loop_spec token answers remaining attempt last :
  attempt + remaining = S SQLITE_HEALTH_ATTEMPTS → remaining ≠ 0 →
  ∃ n, attempt ≤ n ≤ SQLITE_HEALTH_ATTEMPTS
    ∧ quick_check_loop token answers remaining attempt last = (qc_result token n (answers n)).1
    ∧ (∀ m, attempt ≤ m < n → qc_transient token (answers m)) ∧ (n < SQLITE_HEALTH_ATTEMPTS → ¬ qc_transient token (answers n)).
Proof.
  revert attempt last. induction remaining as [|remaining IH]; intros attempt last Hsum Hne; [done|]. cbn [quick_check_loop].
  pose proof (qc_result_again token attempt (answers attempt)) as Hagain.
  destruct (qc_result token attempt (answers attempt)) as [result again] eqn:E. cbn [snd] in Hagain.
  destruct (Nat.ltb_spec attempt SQLITE_HEALTH_ATTEMPTS) as [Hlt|Hge].
  - destruct again; cbn [andb].
    + destruct (IH (S attempt) (Some result)) as (n & Hn & Hr & Hm & Hlast); [lia|lia|]. exists n. split; [lia|]. split; [done|]. split; [|done].
      intros m Hm'. destruct (decide (m = attempt)) as [->|]; [by apply Hagain|]. apply Hm. lia.
    + exists attempt. split; [lia|]. rewrite E. split; [done|]. split; [intros; lia|]. intros _ H. by apply Hagain in H.
  - rewrite andb_false_r. exists attempt. split; [lia|]. rewrite E. split; [done|]. split; intros; lia.
Qed.

(** The integrity check waits out a locked database and nothing else: it reports a sound
    database exactly when one of its six attempts says so and every attempt before it found
    the database busy or locked; a failed check is never tried again. *)
Theorem quick_check_waits_for_locks token answers :
  quick_check_ok token answers = true ↔
  ∃ n, 1 ≤ n ≤ SQLITE_HEALTH_ATTEMPTS ∧ qc_good (answers n) ∧ ∀ m, 1 ≤ m < n → qc_transient token (answers m).
Proof.
  unfold quick_check_ok, database_quick_check.
  destruct (quick_check_loop_spec token answers SQLITE_HEALTH_ATTEMPTS 1 None) as (n & Hn & Hr & Hm & Hlast); [done|done|].
  rewrite Hr, qc_result_ok. split; [intros Hgood; by exists n|]. intros (k & Hk & Hgood & Hbefore).
  assert (¬ qc_transient token (answers k)) as Hkt by (destruct Hgood as (rows & -> & _); by intros (? & ? & ? & _)).
  destruct (decide (k < n)) as [Hlt|]; [by destruct Hkt; apply Hm; lia|]. destruct (decide (n < k)) as [Hlt|]; [|by replace n with k by lia].
  destruct Hlast; [lia|]. apply Hbefore. lia.
Qed.

(** ** An upload stays in its directory *)

Lemma rfind_none_in s : char_in "/" s = false → rfind "/" s = None.
Proof.
  induction s as [|c s IH]; [done|]. rewrite char_in_cons. intros [Hc Hs]%orb_false_iff. cbn [rfind]. rewrite (IH Hs).
  change (starts_with "/" (String c s)) with (Ascii.eqb "/" c && true). by rewrite Hc.
Qed.

Lemma rfind_last s t : char_in "/" t = false → rfind "/" (s +:+ "/" +:+ t) = Some (slen s).
Proof.
  intros Ht. induction s as [|c s IH].
  - cbn [rfind]. change ("" +:+ "/" +:+ t) with (String "/" t). cbn [rfind]. by rewrite (rfind_none_in t Ht).
  - rewrite app_cons. cbn [rfind]. rewrite IH. done.
Qed.

(** A package that was uploaded lies in the directory for uploads, under a name that ends
    in [.deb] and cannot clash with the list of digests: the job made for it passes the
    confinement check, and what [install_only_verified] asks of an upload holds. *)
Theorem upload_confined random filename seconds expected w tmp w1 w2 path w3 :
  (0 ≤ seconds)%Z → begin_manual_upload random filename w = (Ok tmp, w1) → finalize_manual_upload seconds tmp filename w2 = (Ok path, w3) →
  dirname path = UPLOAD_STAGING_DIR ∧ basename path = str_int seconds +:+ "-" +:+ filename ∧ ends_with ".deb" path = true
  ∧ upload_named (Manual path expected) ∧ w_files w3 !! path = w_files w2 !! tmp.
Proof.
  intros Hsec Hbegin Hfin. unfold begin_manual_upload in Hbegin.
  destruct (negb (ends_with ".deb" (basename filename)) || char_in "/" filename || String.eqb (basename filename) "."
            || String.eqb (basename filename) "..") eqn:Hbad; [done|]. bool_to_prop. clear Hbegin.
  assert (basename filename = filename) as Hb by (unfold basename; by rewrite rfind_none_in).
  rewrite Hb in *. apply ends_with_spec in H as [stem Hstem].
  unfold finalize_manual_upload in Hfin. assert (String.eqb filename "" = false) as Hne by (apply String.eqb_neq; subst filename; by destruct stem).
  rewrite Hne, Hb in Hfin. apply bind_inv in Hfin as ([] & w4 & Hrep & E). injection E as <- <-.
  set (name := str_int seconds +:+ "-" +:+ filename).
  assert (char_in "/" name = false) as Hname.
  { unfold name. rewrite char_in_app. apply orb_false_iff. split; [|exact H2].
    eapply sforall_not_in; [|by apply str_int_digits]. done. }
  assert (rfind "/" (UPLOAD_STAGING_DIR +:+ "/" +:+ name) = Some (slen UPLOAD_STAGING_DIR)) as Hr by by apply rfind_last.
  assert (basename (UPLOAD_STAGING_DIR +:+ "/" +:+ name) = name) as Hbase by (unfold basename; rewrite Hr; reflexivity).
  split; [unfold dirname; rewrite Hr; reflexivity|]. split; [exact Hbase|]. split; [|split].
  - unfold name. rewrite Hstem, <-!sapp_assoc. apply ends_with_app.
  - unfold upload_named. rewrite Hbase. intros Heq. assert (ends_with ".deb" name = true) as Hend.
    { unfold name. rewrite Hstem, <-!sapp_assoc. apply ends_with_app. }
    rewrite Heq in Hend. vm_compute in Hend. discriminate Hend.
  - unfold replace in Hrep. apply bind_inv in Hrep as (t & w5 & Hread & Hrep). apply bind_inv in Hrep as ([] & w6 & _ & Hw).
    unfold read_text in Hread. destruct (w_files w2 !! tmp) as [t'|]; [|done]. injection Hread as -> _. injection Hw as <-.
    destruct w6. apply lookup_insert_eq.
Qed.

Definition sample_tmp : string := UPLOAD_STAGING_DIR +:+ "/.alderpointdns-update-upload-x1".
Definition sample_before : world := mkWorld ∅ [] (λ _, Exited 0 "").
Definition sample_received : world := mkWorld {[ sample_tmp := "deb" ]} [] (λ _, Exited 0 "").

Lemma upload_confined_witness :
  dirname (UPLOAD_STAGING_DIR +:+ "/12-a.deb") = UPLOAD_STAGING_DIR ∧ upload_named (Manual (UPLOAD_STAGING_DIR +:+ "/12-a.deb") None).
Proof.
  destruct (upload_confined "x1" "a.deb" 12 None sample_before sample_tmp (begin_manual_upload "x1" "a.deb" sample_before).2 sample_received
    (UPLOAD_STAGING_DIR +:+ "/12-a.deb") (finalize_manual_upload 12 sample_tmp "a.deb" sample_received).2
    ltac:(lia) ltac:(vm_compute; reflexivity) ltac:(vm_compute; reflexivity)) as (H1 & _ & _ & H2 & _).
  split; [exact H1|exact H2].
Defined.

Example quick_check_ex :
  quick_check_ok None (λ n, match n with 1 => QcOperational "SQLITE_BUSY" "database is locked" | 2 => QcOperational "" "database table is locked" | _ => QcRows [Some "ok"] end) = true
  ∧ quick_check_ok None (λ n, match n with 1 => QcRows [Some "row 3 missing from index"] | _ => QcRows [Some "ok"] end) = false.
Proof. split; vm_compute; reflexivity. Qed.
