(* ===== verification/Enrollment.v ===== *)
(** * Enrollment of replicas

    [app/replication.py], the side of the primary: tokens from their creation to their
    single use, certificates and the replicas they identify, and the requests the listener
    answers.  Certificates come from OpenSSL and are parameters.  A time is a number of
    seconds in UTC; the ISO texts that the tables hold compare as these numbers do. *)

From S2P Require Import Prelude PyStr StrLemmas PyJson.

Definition ReplicationError (m : string) : pyexc := PyExc "ReplicationError" m.
Definition PermissionError (m : string) : pyexc := PyExc "PermissionError" m.

Definition ENROLLMENT_TTL_MINUTES : Z := 15.
Definition RESERVATION_TTL_SECONDS : Z := 45.

(** ** Tables *)

Inductive en_status := Pending | Consumed | Revoked | Expired.
#[export] Instance en_status_eq_dec : EqDecision en_status.
Proof. solve_decision. Defined.

(** app/replication.py:117-126 init_db *)
Record enrollment := mkEnrollment {
  en_id : Z; en_node : string; en_name : string; en_hash : string; en_created : Z; en_expires : Z;
  en_status_of : en_status; en_consumed : option Z; en_reserved : option Z }.

Inductive rp_status := Active | Paused | Excluded.
#[export] Instance rp_status_eq_dec : EqDecision rp_status.
Proof. solve_decision. Defined.
Definition rp_status_text (s : rp_status) : string := match s with Active => "active" | Paused => "paused" | Excluded => "revoked" end.

(** app/replication.py:127-139 init_db *)
Record replica := mkReplica {
  rp_id : Z; rp_node : string; rp_display : string; rp_fingerprint : string; rp_serial : string; rp_enrolled : Z; rp_status_of : rp_status;
  rp_acked : Z; rp_ack_hash : string; rp_seen : option Z; rp_result : string }.

Record rdb := mkRdb { d_enrollments : list enrollment; d_replicas : list replica }.

Definition pending (e : enrollment) : bool := bool_decide (en_status_of e = Pending).
Definition map_enrollments (f : enrollment → enrollment) (db : rdb) : rdb := db{{d_enrollments ::= fmap f}}.
Definition find_enrollment (p : enrollment → bool) (db : rdb) : option enrollment := find_first p (d_enrollments db).

(** ** Tokens *)

(** What is sent back: the status and the payload or the error text *)
Inductive reply (A : Type) := Reply (payload : A) | Refused (status : Z) (error : string).
Arguments Reply {A} payload.
Arguments Refused {A} status error.

Definition answer {A} (r : res A) : reply A :=
  match r with
  | Ok a => Reply a
  | Raise e =>
      if String.eqb (exc_class e) "PermissionError" then Refused 403 (exc_message e)
      else if String.eqb (exc_class e) "ReplicationError" then Refused 400 (exc_message e)
      else if String.eqb (exc_class e) "DatabaseBusyError" then Refused 503 "the database is temporarily busy, please try again"
      else Refused 500 (exc_message e)
  end.

Section tokens.
(** SHA-256, in hexadecimal *)
Context (sha256 : string → string).

(** app/replication.py:357-358 _hash_token *)
Definition hash_token (raw : string) : string := sha256 raw.

Record created := mkCreated { cd_token : string; cd_node : string; cd_name : string; cd_expires : Z }.

(** app/replication.py:361-385 generate_enrollment_token

    [raw] and [node] are the random token and node id. *)
Definition generate_enrollment_token (raw node : string) (t : Z) (node_name : string) (db : rdb) : res created * rdb :=
  let name := strip node_name in
  if String.eqb name "" then (Raise (ReplicationError "node_name is required"), db)
  else if existsb (λ e, String.eqb (en_node e) node) (d_enrollments db)
  then (Raise (PyExc "IntegrityError" "UNIQUE constraint failed: replication_enrollments.node_id"), db)
  else
    let expires := (t + ENROLLMENT_TTL_MINUTES * 60)%Z in
    (Ok (mkCreated raw node name expires),
     db{{d_enrollments ::= (λ l, l ++ [mkEnrollment (fresh_id (en_id <$> l)) node name (hash_token raw) t expires Pending None None])}}).

(** app/replication.py:388-398 revoke_enrollment *)
Definition revoke_enrollment (id : Z) (db : rdb) : rdb :=
  map_enrollments (λ e, if (en_id e =? id)%Z && pending e then e{{en_status_of := Revoked}} else e) db.

Definition expire (t : Z) (e : enrollment) : enrollment :=
  if pending e && (en_expires e <? t)%Z then e{{en_status_of := Expired}} else e.
Definition release_stale (t : Z) (e : enrollment) : enrollment :=
  if pending e && match en_reserved e with Some r => (r <? t - RESERVATION_TTL_SECONDS)%Z | None => false end then e{{en_reserved := None}} else e.

(** app/replication.py:416-427 _expire_stale_enrollments *)
Definition expire_stale_enrollments (t : Z) (db : rdb) : rdb := map_enrollments (release_stale t ∘ expire t) db.

(** app/replication.py:401-413 list_enrollments *)
Definition list_enrollments (t : Z) (db : rdb) : list enrollment * rdb :=
  let db := expire_stale_enrollments t db in (rev (d_enrollments db), db).

Record certificate := mkCertificate { ct_pem : string; ct_key : string; ct_fingerprint : string; ct_serial : string }.
Record material := mkMaterial { mt_node : string; mt_name : string; mt_ca : string; mt_cert : string; mt_key : string }.

(** The row of a replica: a new one, or the one of the same node made active again *)
Definition upsert_replica (e : enrollment) (c : certificate) (t : Z) (l : list replica) : list replica :=
  if existsb (λ r, String.eqb (rp_node r) (en_node e)) l
  then (λ r, if String.eqb (rp_node r) (en_node e)
             then r{{rp_fingerprint := ct_fingerprint c; rp_serial := ct_serial c; rp_enrolled := t; rp_status_of := Active}} else r) <$> l
  else l ++ [mkReplica (fresh_id (rp_id <$> l)) (en_node e) (en_name e) (ct_fingerprint c) (ct_serial c) t Active 0 "" None ""].

(** What OpenSSL gives for the certificate, and then [ensure_server_cert] and the CA's text *)
Record issuance := mkIssuance { is_cert : res certificate; is_ca : res string }.

(** app/replication.py:596-618 _finish_enrollment *)
Definition finish_enrollment (i : issuance) (t : Z) (e : enrollment) (db : rdb) : res material * rdb :=
  match is_cert i with
  | Raise err => (Raise err, db)
  | Ok c =>
      let db := db{{d_replicas ::= upsert_replica e c t}} in
      let db := map_enrollments (λ e', if (en_id e' =? en_id e)%Z then e'{{en_status_of := Consumed; en_consumed := Some t}} else e') db in
      (ca ← is_ca i; Ok (mkMaterial (en_node e) (en_name e) ca (ct_pem c) (ct_key c)), db)
  end.

(** app/replication.py:430-452 consume_enrollment *)
Definition consume_enrollment (i : issuance) (t : Z) (raw : string) (db : rdb) : res material * rdb :=
  let swept := expire_stale_enrollments t db in
  match find_enrollment (λ e, String.eqb (en_hash e) (hash_token raw) && pending e && (t <=? en_expires e)%Z) swept with
  | None => (Raise (ReplicationError "enrollment token is invalid, expired, or already used"), db)
  | Some e => match is_cert i with Raise err => (Raise err, db) | Ok _ => finish_enrollment i t e swept end
  end.

Definition reservable (t : Z) (hash : string) (e : enrollment) : bool :=
  String.eqb (en_hash e) hash && pending e && negb (bool_decide (is_Some (en_reserved e))) && (t <=? en_expires e)%Z.

(** app/replication.py:481-535 request_enrollment_consumption

    The node, its name and the hash; a rejected request commits the sweep only. *)
Definition request_enrollment_consumption (t : Z) (raw : string) (db : rdb) : res (string * string * string) * rdb :=
  let db := expire_stale_enrollments t db in
  let hash := hash_token raw in
  match List.filter (reservable t hash) (d_enrollments db) with
  | [_] =>
      let db := map_enrollments (λ e, if reservable t hash e then e{{en_reserved := Some t}} else e) db in
      match find_enrollment (λ e, String.eqb (en_hash e) hash) db with
      | Some e => (Ok (en_node e, en_name e, hash), db)
      | None => (Raise (TypeError "'NoneType' object is not subscriptable"), db)
      end
  | _ => (Raise (ReplicationError "enrollment token is invalid, expired, or already used"), db)
  end.

(** app/replication.py:538-563 release_enrollment_reservation *)
Definition release_enrollment_reservation (hash : string) (db : rdb) : rdb :=
  map_enrollments (λ e, if String.eqb (en_hash e) hash && pending e then e{{en_reserved := None}} else e) db.

(** The reservation the privileged step reads before it issues the certificate *)
Definition reserved_row (hash : string) (db : rdb) : option enrollment :=
  find_enrollment (λ e, String.eqb (en_hash e) hash && pending e && bool_decide (is_Some (en_reserved e))) db.

(** app/replication.py:566-593 process_pending_enrollment_consumption *)
Definition process_pending_enrollment_consumption (i : issuance) (t : Z) (hash : string) (db : rdb) : res material * rdb :=
  if String.eqb hash "" then (Raise (ReplicationError "no enrollment reservation token provided"), db)
  else match reserved_row hash db with
  | None => (Raise (ReplicationError "enrollment reservation is invalid, expired, or already completed"), db)
  | Some e => finish_enrollment i t e db
  end.

(** app/replication.py:633-645 set_replica_status *)
Definition set_replica_status (id : Z) (status : string) (db : rdb) : res () * rdb :=
  let set s := (Ok (), db{{d_replicas ::= fmap (λ r, if (rp_id r =? id)%Z then r{{rp_status_of := s}} else r)}}) in
  if String.eqb status "active" then set Active
  else if String.eqb status "paused" then set Paused
  else if String.eqb status "revoked" then set Excluded
  else (Raise (ReplicationError ("unknown replica status " +:+ py_repr status)), db).

(** ** The listener *)

(** app/replication.py:648-649 _replica_by_fingerprint *)
Definition replica_by_fingerprint (fingerprint : string) (db : rdb) : option replica :=
  find_first (λ r, String.eqb (rp_fingerprint r) fingerprint) (d_replicas db).

(** app/replication.py:1026-1035 _make_handler.Handler._authenticated_replica

    [fingerprint] is that of the peer's certificate. *)
Definition authenticated_replica (fingerprint : option string) (db : rdb) : res replica :=
  match fingerprint with
  | None => Raise (PermissionError "client certificate required")
  | Some f =>
      if String.eqb f "" then Raise (PermissionError "client certificate required")
      else match replica_by_fingerprint f db with
      | None => Raise (PermissionError "unrecognized client certificate")
      | Some r => if bool_decide (rp_status_of r = Active) then Ok r else Raise (PermissionError ("replica is " +:+ rp_status_text (rp_status_of r)))
      end
  end.

(** [s[-500:]] *)
Definition last_500 (s : string) : string := sdrop (slen s - 500) s.

(** The privileged step: it cannot be started, or it runs at the time [t] and prints a text
    when it fails *)
Inductive privileged := CannotStart (e : pyexc) | Runs (t : Z) (i : issuance) (printed : string).

(** app/replication.py:1069-1096 _make_handler.Handler._handle_enroll

    The step prints the material as JSON, or ends with a status other than 0. *)
Definition handle_enroll (t : Z) (p : privileged) (token : string) (db : rdb) : res material * rdb :=
  if String.eqb token "" then (Raise (ReplicationError "token is required"), db)
  else match request_enrollment_consumption t token db with
  | (Raise e, db) => (Raise e, db)
  | (Ok (_, _, hash), db) =>
      match p with
      | CannotStart e => (Raise e, release_enrollment_reservation hash db)
      | Runs t i printed =>
          match process_pending_enrollment_consumption i t hash db with
          | (Ok m, db) => (Ok m, db)
          | (Raise _, db) => (Raise (ReplicationError ("enrollment could not be completed: " +:+ last_500 printed)), release_enrollment_reservation hash db)
          end
      end
  end.

(** app/replication.py:1098-1106 _make_handler.Handler._handle_latest

    [latest] is the last generation, if there is one. *)
Definition handle_latest {A} (t : Z) (latest : option A) (fingerprint : option string) (db : rdb) : res (option A) * rdb :=
  match authenticated_replica fingerprint db with
  | Raise e => (Raise e, db)
  | Ok r => (Ok latest, db{{d_replicas ::= fmap (λ r', if (rp_id r' =? rp_id r)%Z then r'{{rp_seen := Some t}} else r')}})
  end.

(** app/replication.py:1108-1123 _make_handler.Handler._handle_ack *)
Definition handle_ack (t : Z) (generation : Z) (hash result message : string) (fingerprint : option string) (db : rdb) : res () * rdb :=
  match authenticated_replica fingerprint db with
  | Raise e => (Raise e, db)
  | Ok r =>
      let update r := r{{rp_seen := Some t; rp_result := stake 500 (result +:+ ": " +:+ message)}} in
      let update r := if String.eqb result "success" then (update r){{rp_acked := generation; rp_ack_hash := hash}} else update r in
      (Ok (), db{{d_replicas ::= fmap (λ r', if (rp_id r' =? rp_id r)%Z then update r' else r')}})
  end.
End tokens.

(** ** Interleavings

    The privileged step reads the reservation ([Begin]), signs a certificate, and only then
    writes ([Finish]); other requests can come in between.  [s_issued] lists the enrollments
    a certificate was recorded for. *)

Inductive action :=
| Create (raw node : string) (t : Z) (name : string)
| Revoke (id : Z)
| ListAll (t : Z)
| Consume (i : issuance) (t : Z) (raw : string)
| Request (t : Z) (raw : string)
| Release (hash : string)
| Process (i : issuance) (t : Z) (hash : string)
| Begin (hash : string)
| Finish (n : nat) (i : issuance) (t : Z)
| SetStatus (id : Z) (status : string)
| Latest (t : Z) (fingerprint : option string)
| Ack (t generation : Z) (hash result message : string) (fingerprint : option string).

Record system := mkSystem { s_db : rdb; s_inflight : list enrollment; s_issued : list Z }.
Definition start : system := mkSystem (mkRdb [] []) [] [].

Section system.
Context (sha256 : string → string).

Definition issued (i : issuance) (e : option enrollment) : list Z :=
  match e with Some e => if is_ok (is_cert i) then [en_id e] else [] | None => [] end.

Definition act (a : action) (s : system) : system :=
  let db := s_db s in
  let on db := mkSystem db (s_inflight s) (s_issued s) in
  match a with
  | Create raw node t name => on (generate_enrollment_token sha256 raw node t name db).2
  | Revoke id => on (revoke_enrollment id db)
  | ListAll t => on (list_enrollments t db).2
  | Consume i t raw =>
      let e := find_enrollment (λ e, String.eqb (en_hash e) (hash_token sha256 raw) && pending e && (t <=? en_expires e)%Z) (expire_stale_enrollments t db) in
      mkSystem (consume_enrollment sha256 i t raw db).2 (s_inflight s) (s_issued s ++ issued i e)
  | Request t raw => on (request_enrollment_consumption sha256 t raw db).2
  | Release hash => on (release_enrollment_reservation hash db)
  | Process i t hash =>
      mkSystem (process_pending_enrollment_consumption i t hash db).2 (s_inflight s)
        (s_issued s ++ issued i (if String.eqb hash "" then None else reserved_row hash db))
  | Begin hash => mkSystem db (s_inflight s ++ match reserved_row hash db with Some e => [e] | None => [] end) (s_issued s)
  | Finish n i t =>
      match s_inflight s !! n with
      | Some e => mkSystem (finish_enrollment i t e db).2 (delete n (s_inflight s)) (s_issued s ++ issued i (Some e))
      | None => s
      end
  | SetStatus id status => on (set_replica_status id status db).2
  | Latest t fingerprint => on (handle_latest (A := ()) t None fingerprint db).2
  | Ack t generation hash result message fingerprint => on (handle_ack t generation hash result message fingerprint db).2
  end.

Definition run_actions (l : list action) (s : system) : system := fold_left (λ s a, act a s) l s.

(** The privileged step runs without anything in between. *)
Definition serial (a : action) : bool := match a with Begin _ | Finish _ _ _ => false | _ => true end.

(** *** What every interleaving keeps *)

Record enroll_ok (s : system) : Prop := {
  eo_ids : NoDup (en_id <$> d_enrollments (s_db s));
  eo_nodes : NoDup (en_node <$> d_enrollments (s_db s));
  eo_replicas : NoDup (rp_node <$> d_replicas (s_db s));
  eo_replica_ids : NoDup (rp_id <$> d_replicas (s_db s));
  eo_backed : ∀ r, r ∈ d_replicas (s_db s) → ∃ e, e ∈ d_enrollments (s_db s) ∧ en_node e = rp_node r ∧ en_status_of e = Consumed;
  eo_inflight : ∀ e, e ∈ s_inflight s → ∃ e', e' ∈ d_enrollments (s_db s) ∧ en_id e' = en_id e ∧ en_node e' = en_node e }.

(** An update of rows that keeps who they are, and what is consumed *)
Definition mild (f : enrollment → enrollment) : Prop :=
  ∀ e, en_id (f e) = en_id e ∧ en_node (f e) = en_node e ∧ (en_status_of e = Consumed → en_status_of (f e) = Consumed)
    ∧ (pending (f e) = true → pending e = true).

Lemma pending_spec e : pending e = true ↔ en_status_of e = Pending.
Proof. apply bool_decide_eq_true. Qed.

Lemma mild_pending p f : (∀ e, en_id (f e) = en_id e ∧ en_node (f e) = en_node e) → mild (λ e, if p e && pending e then f e else e).
Proof.
  intros Hf e. destruct (p e && pending e) eqn:E; [|done]. apply andb_prop in E as [_ E]. destruct (Hf e).
  split_and!; [done..| |done]. apply pending_spec in E. congruence.
Qed.

Lemma mild_compose f g : mild f → mild g → mild (g ∘ f).
Proof. intros Hf Hg e. destruct (Hf e) as (? & ? & ? & ?), (Hg (f e)) as (? & ? & ? & ?). cbn. split_and!; [congruence..|auto|auto]. Qed.

Lemma map_keeps f s : mild f → enroll_ok s → enroll_ok (mkSystem (map_enrollments f (s_db s)) (s_inflight s) (s_issued s)).
Proof.
  intros Hf [H1 H2 H3 H4 H5 H6]. destruct s as [[en rp] fl is_]. cbn in *.
  assert (en_id <$> (f <$> en) = en_id <$> en) as E1 by (rewrite <-list_fmap_compose; apply list_fmap_ext; intros; apply Hf).
  assert (en_node <$> (f <$> en) = en_node <$> en) as E2 by (rewrite <-list_fmap_compose; apply list_fmap_ext; intros; apply Hf).
  split; cbn; [by rewrite E1|by rewrite E2|done|done| |].
  - intros r Hr. destruct (H5 r Hr) as (e & He & Hn & Hs). exists (f e). destruct (Hf e) as (_ & Hn' & Hs' & _).
    split; [by apply list_elem_of_fmap_2|]. split; [congruence|auto].
  - intros e He. destruct (H6 e He) as (e' & He' & Hi & Hn). exists (f e'). destruct (Hf e') as (Hi' & Hn' & _).
    split; [by apply list_elem_of_fmap_2|]. split; congruence.
Qed.
Lemma mild_expire t : mild (expire t).
Proof. intros e. unfold expire. destruct (pending e && _) eqn:E; [|done]. apply andb_prop in E as [E _]. split_and!; [done..| |done]. apply pending_spec in E. cbn. congruence. Qed.
Lemma mild_release_stale t : mild (release_stale t).
Proof. intros e. unfold release_stale. by destruct (pending e && _). Qed.
Lemma mild_sweep t : mild (release_stale t ∘ expire t).
Proof. apply mild_compose; [apply mild_expire|apply mild_release_stale]. Qed.
Lemma mild_consume id t : mild (λ e', if (en_id e' =? id)%Z then e'{{en_status_of := Consumed; en_consumed := Some t}} else e').
Proof. intros e. by destruct (en_id e =? id)%Z. Qed.

(** Replicas whose columns other than the identity change *)
Lemma replicas_keep f s :
  (∀ r, rp_id (f r) = rp_id r ∧ rp_node (f r) = rp_node r) → enroll_ok s →
  enroll_ok (mkSystem ((s_db s){{d_replicas ::= fmap f}}) (s_inflight s) (s_issued s)).
Proof.
  intros Hf [H1 H2 H3 H4 H5 H6]. destruct s as [[en rp] fl is_]. cbn in *.
  assert (rp_node <$> (f <$> rp) = rp_node <$> rp) as E1 by (rewrite <-list_fmap_compose; apply list_fmap_ext; intros; apply Hf).
  assert (rp_id <$> (f <$> rp) = rp_id <$> rp) as E2 by (rewrite <-list_fmap_compose; apply list_fmap_ext; intros; apply Hf).
  split; cbn; [done|done|by rewrite E1|by rewrite E2| |done].
  intros r' (r & -> & Hr)%list_elem_of_fmap. destruct (H5 r Hr) as (e & He & Hn & Hs). exists e. destruct (Hf r). split; [done|]. split; congruence.
Qed.

Lemma upsert_nodes e c t l r : r ∈ upsert_replica e c t l → rp_node r = en_node e ∨ ∃ r', r' ∈ l ∧ rp_node r' = rp_node r.
Proof.
  unfold upsert_replica. destruct (existsb _ _).
  - intros (r' & -> & Hr)%list_elem_of_fmap. right. exists r'. by destruct (String.eqb _ _).
  - intros [Hr|Hr]%elem_of_app; [right; by exists r|]. apply list_elem_of_singleton in Hr as ->. by left.
Qed.

Lemma upsert_NoDup e c t l : NoDup (rp_node <$> l) → NoDup (rp_id <$> l) →
  NoDup (rp_node <$> upsert_replica e c t l) ∧ NoDup (rp_id <$> upsert_replica e c t l).
Proof.
  intros Hn Hi. unfold upsert_replica. destruct (existsb _ _) eqn:E.
  - set (f := λ r : replica, _). assert (∀ r, rp_id (f r) = rp_id r ∧ rp_node (f r) = rp_node r) as Hf by (intros r; unfold f; by case_match).
    assert (rp_node <$> (f <$> l) = rp_node <$> l) as -> by (rewrite <-list_fmap_compose; apply list_fmap_ext; intros; apply Hf).
    assert (rp_id <$> (f <$> l) = rp_id <$> l) as -> by (rewrite <-list_fmap_compose; apply list_fmap_ext; intros; apply Hf). done.
  - split; [apply NoDup_fmap_snoc; [done|]|by apply NoDup_fresh].
    intros r Hr Heq. assert (existsb (λ r, String.eqb (rp_node r) (en_node e)) l = true) as Ht; [|congruence].
      apply existsb_exists. exists r. split; [by apply list_elem_of_In|]. by apply String.eqb_eq.
Qed.

Lemma finish_keeps i t e s :
  enroll_ok s → (∃ e', e' ∈ d_enrollments (s_db s) ∧ en_id e' = en_id e ∧ en_node e' = en_node e) →
  enroll_ok (mkSystem (finish_enrollment i t e (s_db s)).2 (s_inflight s) (s_issued s)).
Proof.
  intros Hok (e' & He' & Hid & Hnode). unfold finish_enrollment. destruct (is_cert i) as [c|err]; [|by destruct s].
  cbn [snd]. pose proof (map_keeps _ _ (mild_consume (en_id e) t) Hok) as [H1 H2 H3 H4 H5 H6].
  destruct (upsert_NoDup e c t (d_replicas (s_db s))) as [Hn Hi]; [apply Hok..|].
  destruct s as [[en rp] fl is_]. cbn in *. split; cbn; [done|done|done|done| |done].
  intros r [Hr|(r' & Hr' & Heq)]%upsert_nodes.
  - eexists. split; [apply list_elem_of_fmap_2, He'|]. cbn beta. rewrite (proj2 (Z.eqb_eq _ _) Hid). by rewrite Hr, <-Hnode.
  - destruct (H5 r' Hr') as (e2 & He2 & Hn2 & Hs2). exists e2. split; [done|]. split; congruence.
Qed.
Lemma issued_irrelevant db fl l l' : enroll_ok (mkSystem db fl l) → enroll_ok (mkSystem db fl l').
Proof. by intros [? ? ? ? ? ?]. Qed.

Lemma find_enrollment_in p db e : find_enrollment p db = Some e → e ∈ d_enrollments db ∧ p e = true.
Proof. apply find_first_Some. Qed.

Lemma sweep_keeps t s : enroll_ok s → enroll_ok (mkSystem (expire_stale_enrollments t (s_db s)) (s_inflight s) (s_issued s)).
Proof. apply map_keeps, mild_sweep. Qed.

Lemma act_keeps a s : enroll_ok s → enroll_ok (act a s).
Proof.
  intros Hok. assert (enroll_ok (mkSystem (s_db s) (s_inflight s) (s_issued s))) as Hsame by by destruct s.
  destruct a as [raw node t name|id|t|i t raw|t raw|hash|i t hash|hash|n i t|id status|t fp|t gen hash result message fp]; cbn [act].
  - unfold generate_enrollment_token. destruct (String.eqb _ ""); [done|]. destruct (existsb _ _) eqn:E; [done|]. cbn [snd].
    destruct Hok as [H1 H2 H3 H4 H5 H6]. destruct s as [[en rp] fl is_]. cbn in *. split; cbn; [by apply NoDup_fresh| |done|done| |].
    + apply NoDup_fmap_snoc; [done|]. intros e He Heq. assert (existsb (λ e, String.eqb (en_node e) node) en = true) as Ht; [|congruence].
      apply existsb_exists. exists e. split; [by apply list_elem_of_In|]. by apply String.eqb_eq.
    + intros r Hr. destruct (H5 r Hr) as (e & He & ?). exists e. split; [apply elem_of_app; by left|done].
    + intros e He. destruct (H6 e He) as (e' & He' & ?). exists e'. split; [apply elem_of_app; by left|done].
  - apply map_keeps; [|done]. by apply mild_pending.
  - by apply sweep_keeps.
  - eapply issued_irrelevant. unfold consume_enrollment. destruct (find_enrollment _ _) as [e|] eqn:Hf; [|exact Hsame].
    destruct (is_cert i) eqn:Hc; [|exact Hsame]. apply find_enrollment_in in Hf as [Hf _].
    apply (finish_keeps i t e _ (sweep_keeps t s Hok)). by exists e.
  - unfold request_enrollment_consumption. destruct (List.filter _ _) as [|e [|]]; [by apply sweep_keeps| |by apply sweep_keeps].
    assert (∀ db', (match find_enrollment (λ e, String.eqb (en_hash e) (hash_token sha256 raw)) db' with
       | Some e => (Ok (en_node e, en_name e, hash_token sha256 raw), db')
       | None => (Raise (TypeError "'NoneType' object is not subscriptable"), db') end : res (string * string * string) * rdb).2 = db') as Hdb by (intros; by case_match).
    rewrite Hdb. pose proof (sweep_keeps t s Hok) as Hs. refine (map_keeps _ _ _ Hs). intros e'. by destruct (reservable _ _ _).
  - apply map_keeps; [|done]. by apply mild_pending.
  - eapply issued_irrelevant. unfold process_pending_enrollment_consumption. destruct (String.eqb hash ""); [exact Hsame|].
    destruct (reserved_row hash (s_db s)) as [e|] eqn:Hf; [|exact Hsame]. apply find_enrollment_in in Hf as [Hf _].
    apply finish_keeps; [done|]. by exists e.
  - destruct Hok as [H1 H2 H3 H4 H5 H6]. split; try done. cbn. intros e [He|He]%elem_of_app; [by apply H6|].
    destruct (reserved_row hash (s_db s)) as [e'|] eqn:Hf; [|by apply elem_of_nil in He]. apply list_elem_of_singleton in He as ->.
    apply find_enrollment_in in Hf as [Hf _]. by exists e'.
  - destruct (s_inflight s !! n) as [e|] eqn:Hn; [|done]. apply list_elem_of_lookup_2 in Hn.
    pose proof (finish_keeps i t e s Hok (eo_inflight _ Hok e Hn)) as [H1 H2 H3 H4 H5 H6]. split; try done. cbn in *.
    intros e' He'. apply H6. eapply elem_of_submseteq; [exact He'|apply submseteq_delete].
  - unfold set_replica_status. repeat (case_match; [by apply replicas_keep; [intros r; by case_match|]|]). exact Hsame.
  - unfold handle_latest. destruct (authenticated_replica _ _); [|exact Hsame]. apply replicas_keep; [|done]. intros r. by case_match.
  - unfold handle_ack. destruct (authenticated_replica _ _); [|exact Hsame]. apply replicas_keep; [|done]. intros r.
    case_match; [|done]. by destruct (String.eqb result "success").
Qed.

(** C36: However requests, sweeps and privileged steps interleave, ids and node ids stay
    unique, and every replica belongs to an enrollment that was consumed. *)
Theorem enrollment_invariant l : enroll_ok (run_actions l start).
Proof.
  unfold run_actions. assert (enroll_ok start) as Hok.
  { split; cbn; try constructor; intros ? ?%elem_of_nil; done. }
  revert Hok. generalize start. induction l as [|a l IH]; intros s Hok; [done|]. apply IH. by apply act_keeps.
Qed.

(** *** A token is used once *)

(** Any action maps the rows mildly and adds rows at the end. *)
Lemma act_enrollments a s :
  ∃ f new, mild f ∧ d_enrollments (s_db (act a s)) = (f <$> d_enrollments (s_db s)) ++ new.
Proof.
  assert (∃ f new, mild f ∧ d_enrollments (s_db s) = (f <$> d_enrollments (s_db s)) ++ new) as Hsame.
  { exists id, []. split; [done|]. by rewrite list_fmap_id, app_nil_r. }
  assert (∀ f db, mild f → ∃ f' new, mild f' ∧ d_enrollments (map_enrollments f db) = (f' <$> d_enrollments db) ++ new) as Hmap.
  { intros f [en rp] Hf. exists f, []. split; [done|]. by rewrite app_nil_r. }
  assert (∀ i t e db, ∃ f new, mild f ∧ d_enrollments (finish_enrollment i t e db).2 = (f <$> d_enrollments db) ++ new) as Hfin.
  { intros i t e [en rp]. unfold finish_enrollment. destruct (is_cert i).
    - cbn [snd]. exists (λ e', if (en_id e' =? en_id e)%Z then e'{{en_status_of := Consumed; en_consumed := Some t}} else e'), [].
      split; [apply mild_consume|]. cbn. by rewrite app_nil_r.
    - exists id, []. split; [done|]. cbn. by rewrite list_fmap_id, app_nil_r. }
  destruct a as [raw node t name|id|t|i t raw|t raw|hash|i t hash|hash|n i t|id status|t fp|t gen hash result message fp]; cbn [act].
  - unfold generate_enrollment_token. destruct (String.eqb _ ""); [done|]. destruct (existsb _ _); [done|].
    destruct s as [[en rp] fl is_]. cbn. exists id. eexists. split; [done|]. by rewrite list_fmap_id.
  - apply Hmap. by apply mild_pending.
  - apply Hmap, mild_sweep.
  - cbn [s_db]. unfold consume_enrollment. destruct (find_enrollment _ _) as [e|]; [|done]. destruct (is_cert i); [|done].
    destruct (Hfin i t e (expire_stale_enrollments t (s_db s))) as (f & new & Hf & ->). exists (f ∘ (release_stale t ∘ expire t)), new.
    split; [apply mild_compose; [apply mild_sweep|done]|]. destruct (s_db s). cbn. by rewrite (list_fmap_compose _ f).
  - cbn [s_db]. unfold request_enrollment_consumption. destruct (List.filter _ _) as [|e [|]]; [by apply Hmap, mild_sweep| |by apply Hmap, mild_sweep].
    set (g := λ e' : enrollment, if reservable _ _ _ then _ else _).
    assert (mild (g ∘ (release_stale t ∘ expire t))) as Hg.
    { apply mild_compose; [apply mild_sweep|]. intros e'. unfold g. by destruct (reservable _ _ _). }
    exists (g ∘ (release_stale t ∘ expire t)), []. split; [done|]. destruct (s_db s) as [en rp].
    case_match; cbn; by rewrite app_nil_r, (list_fmap_compose _ g).
  - apply Hmap. by apply mild_pending.
  - cbn [s_db]. unfold process_pending_enrollment_consumption. destruct (String.eqb hash ""); [done|]. destruct (reserved_row _ _); [apply Hfin|done].
  - done.
  - destruct (s_inflight s !! n); [apply Hfin|done].
  - unfold set_replica_status. destruct s as [[en rp] fl is_]. repeat (case_match; [done|]). done.
  - unfold handle_latest. destruct s as [[en rp] fl is_]. by destruct (authenticated_replica _ _).
  - unfold handle_ack. destruct s as [[en rp] fl is_]. by destruct (authenticated_replica _ _).
Qed.

(** The enrollment [id] is no longer pending. *)
Definition closed (id : Z) (s : system) : Prop := ∃ e, e ∈ d_enrollments (s_db s) ∧ en_id e = id ∧ pending e = false.

Lemma act_closed a s id : closed id s → closed id (act a s).
Proof.
  intros (e & He & Hid & Hp). destruct (act_enrollments a s) as (f & new & Hf & Heq). exists (f e). rewrite Heq. destruct (Hf e) as (Hi & _ & _ & Hpe).
  split; [apply elem_of_app; left; by apply list_elem_of_fmap_2|]. split; [congruence|]. destruct (pending (f e)); [|done]. by rewrite Hpe in Hp.
Qed.

(** A serial action issues a certificate only for an enrollment that was pending, which it
    closes. *)
Lemma act_issues a s :
  enroll_ok s → serial a = true → ∃ new, s_issued (act a s) = s_issued s ++ new ∧ NoDup new
    ∧ ∀ id, id ∈ new → ¬ closed id s ∧ closed id (act a s).
Proof.
  intros Hok Ha. assert (∃ new, s_issued s = s_issued s ++ new ∧ NoDup new ∧ ∀ id, id ∈ new → ¬ closed id s ∧ closed id (act a s)) as Hnone.
  { exists []. rewrite app_nil_r. split; [done|]. split; [constructor|]. by intros ? ?%elem_of_nil. }
  assert (∀ s', ∃ new, s_issued s ++ [] = s_issued s ++ new ∧ NoDup new ∧ ∀ id, id ∈ new → ¬ closed id s ∧ closed id s') as Hnil.
  { intros s'. exists []. split; [done|]. split; [constructor|]. by intros ? ?%elem_of_nil. }
  assert (∀ e e', e ∈ d_enrollments (s_db s) → pending e = true → en_id e = en_id e' → ¬ closed (en_id e') s) as Hnot.
  { intros e e' He Hp Hid (e2 & He2 & Hid2 & Hp2). assert (e2 = e) as -> by (apply (NoDup_fmap_inj en_id _ _ _ (eo_ids _ Hok)); congruence). congruence. }
  assert (∀ i t e db c, is_cert i = Ok c → (∃ e', e' ∈ d_enrollments db ∧ en_id e' = en_id e) →
     ∃ e', e' ∈ d_enrollments (finish_enrollment i t e db).2 ∧ en_id e' = en_id e ∧ pending e' = false) as Hfin.
  { intros i t e [en rp] c Hc (e' & He' & Hid). unfold finish_enrollment. rewrite Hc. cbn. eexists. split; [by apply list_elem_of_fmap_2|].
    cbn beta. by rewrite (proj2 (Z.eqb_eq _ _) Hid). }
  destruct a as [raw node t name|i'|t|i t raw|t raw|hash|i t hash|hash|n i t|i' status|t fp|t gen hash result message fp]; try exact Hnone; try done; cbn [act s_issued].
  - unfold consume_enrollment. destruct (find_enrollment _ _) as [e|] eqn:Hf; [|apply Hnil]. unfold issued.
    destruct (is_cert i) as [c|err] eqn:Hc; [|apply Hnil]. cbn [is_ok]. apply find_enrollment_in in Hf as [Hf Hp].
    exists [en_id e]. split; [done|]. split; [apply NoDup_singleton|]. intros id ->%list_elem_of_singleton. split.
    + assert (d_enrollments (expire_stale_enrollments t (s_db s)) = (release_stale t ∘ expire t) <$> d_enrollments (s_db s)) as Hsw by by destruct (s_db s).
      rewrite Hsw in Hf. apply list_elem_of_fmap in Hf as (e0 & -> & He0).
      destruct (mild_sweep t e0) as (Hid & _ & _ & Hpe). rewrite Hid. apply (Hnot e0); [done| |done].
      apply Hpe. by bool_to_prop.
    + destruct (Hfin i t e (expire_stale_enrollments t (s_db s)) c Hc) as (e' & ?); [by exists e|]. by exists e'.
  - unfold process_pending_enrollment_consumption. destruct (String.eqb hash ""); [apply Hnil|].
    destruct (reserved_row hash (s_db s)) as [e|] eqn:Hf; [|apply Hnil]. unfold issued. destruct (is_cert i) as [c|err] eqn:Hc.
    2: { apply Hnil. }
    cbn [is_ok]. apply find_enrollment_in in Hf as [Hf Hp]. exists [en_id e]. split; [done|]. split; [apply NoDup_singleton|].
    intros id ->%list_elem_of_singleton. split; [apply (Hnot e); [done| |done]; by bool_to_prop|].
    destruct (Hfin i t e (s_db s) c Hc) as (e' & ?); [by exists e|]. by exists e'.
Qed.

Lemma run_actions_ok l s : enroll_ok s → enroll_ok (run_actions l s).
Proof. revert s. induction l as [|a l IH]; intros s Hok; [done|]. apply IH. by apply act_keeps. Qed.

Lemma run_issues l s :
  enroll_ok s → forallb serial l = true → ∃ new, s_issued (run_actions l s) = s_issued s ++ new ∧ NoDup new
    ∧ ∀ id, id ∈ new → ¬ closed id s ∧ closed id (run_actions l s).
Proof.
  revert s. induction l as [|a l IH]; intros s Hok Hl.
  { exists []. rewrite app_nil_r. split; [done|]. split; [constructor|]. by intros ? ?%elem_of_nil. }
  cbn [forallb] in Hl. apply andb_prop in Hl as [Ha Hl]. change (run_actions (a :: l) s) with (run_actions l (act a s)).
  destruct (act_issues a s Hok Ha) as (new1 & E1 & N1 & H1). destruct (IH (act a s) (act_keeps a s Hok) Hl) as (new2 & E2 & N2 & H2).
  assert (∀ id, closed id (act a s) → closed id (run_actions l (act a s))) as Hlater.
  { intros id. clear. generalize (act a s). induction l as [|b l IH]; intros s' Hs; [done|]. apply IH. by apply act_closed. }
  exists (new1 ++ new2). rewrite E2, E1, app_assoc. split; [done|]. split.
  - apply NoDup_app. split; [done|]. split; [|done]. intros id Hid1 Hid2. destruct (H2 id Hid2) as [Hn _]. destruct Hn. by apply H1.
  - intros id [Hid|Hid]%elem_of_app; [destruct (H1 id Hid); auto|]. destruct (H2 id Hid) as [Hn Hc]. split; [|done].
    intros Hs. by apply Hn, act_closed.
Qed.

(** C37: While the privileged step is not interrupted, a token gives at most one certificate,
    and an enrollment that was revoked, expired or consumed gives none any more. *)
Theorem token_single_use l1 l2 id :
  forallb serial (l1 ++ l2) = true → let s1 := run_actions l1 start in let s2 := run_actions (l1 ++ l2) start in
  NoDup (s_issued s2) ∧ (∀ id, id ∈ s_issued s2 → closed id s2)
  ∧ ∃ new, s_issued s2 = s_issued s1 ++ new ∧ (closed id s1 → id ∉ new).
Proof.
  intros Hl. cbn zeta. assert (enroll_ok start) as Hstart by (split; cbn; try constructor; intros ? ?%elem_of_nil; done).
  destruct (run_issues (l1 ++ l2) start Hstart Hl) as (new & E & N & H). rewrite E. cbn [s_issued start app].
  split; [done|]. split; [intros i Hi; by apply H|]. rewrite forallb_app in Hl. apply andb_prop in Hl as [Hl1 Hl2].
  destruct (run_issues l2 (run_actions l1 start) (run_actions_ok l1 start Hstart) Hl2) as (new2 & E2 & _ & H2).
  exists new2. change new with ([] ++ new). change [] with (s_issued start). rewrite <-E. unfold run_actions in *. rewrite fold_left_app. split; [done|].
  intros Hc Hin. by apply (H2 id Hin).
Qed.

(** The listener's enrollment is made of serial actions. *)
Lemma handle_enroll_serial t p token db fl is_ :
  ∃ l, forallb serial l = true ∧ (handle_enroll sha256 t p token db).2 = s_db (run_actions l (mkSystem db fl is_)).
Proof.
  unfold handle_enroll. destruct (String.eqb token ""); [by exists []|].
  pose proof (eq_refl (s_db (act (Request t token) (mkSystem db fl is_)))) as E. cbn [act s_db] in E.
  destruct (request_enrollment_consumption sha256 t token db) as [[[[node name] hash]|e] db1] eqn:Hr; cbn [snd] in *.
  2: { exists [Request t token]. split; [done|]. unfold run_actions. cbn. by rewrite Hr. }
  destruct p as [e|t' i printed].
  { exists [Request t token; Release hash]. split; [done|]. unfold run_actions. cbn. by rewrite Hr. }
  destruct (process_pending_enrollment_consumption i t' hash db1) as [[m|e] db2] eqn:Hp.
  - exists [Request t token; Process i t' hash]. split; [done|]. unfold run_actions. cbn. rewrite Hr. cbn. by rewrite Hp.
  - exists [Request t token; Process i t' hash; Release hash]. split; [done|]. unfold run_actions. cbn. rewrite Hr. cbn. by rewrite Hp.
Qed.
End system.

(** *** The two races *)

Definition sample_issuance (serial : string) : issuance := mkIssuance (Ok (mkCertificate "pem" "key" ("f" +:+ serial) serial)) (Ok "ca").

(** The enrollment is revoked while the certificate is signed. *)
Definition race_revoked : list action :=
  [Create "tok" "node-1" 0 "replica"; Request 10 "tok"; Begin "tok"; Revoke 1; Finish 0 (sample_issuance "1") 12].
(** The signing takes longer than a reservation lasts, and the token is presented again. *)
Definition race_slow : list action :=
  [Create "tok" "node-1" 0 "replica"; Request 10 "tok"; Begin "tok"; Request 56 "tok"; Begin "tok";
   Finish 0 (sample_issuance "1") 57; Finish 0 (sample_issuance "2") 58].

(** When other requests come between the reading of the reservation and the recording of
    the certificate, a token is not used once: an enrollment revoked in between still makes
    an active replica, and a signing slower than the reservation's life gives two
    certificates for one token. *)
Theorem interrupted_enrollment_reused :
  (let s := run_actions id race_revoked start in
   (pending <$> d_enrollments (s_db (run_actions id (take 4 race_revoked) start)) = [false])
   ∧ s_issued (run_actions id (take 4 race_revoked) start) = [] ∧ s_issued s = [1%Z]
   ∧ rp_status_of <$> d_replicas (s_db s) = [Active])
  ∧ s_issued (run_actions id race_slow start) = [1%Z; 1%Z].
Proof. split; [split_and!|]; vm_compute; reflexivity. Qed.

Lemma token_single_use_witness :
  let l := [Create "tok" "node-1" 0 "replica"; Request 10 "tok"; Process (sample_issuance "1") 11 "tok"; Request 12 "tok"; Process (sample_issuance "2") 13 "tok"] in
  s_issued (run_actions id l start) = [1%Z] ∧ NoDup (s_issued (run_actions id l start)).
Proof.
  intros l. destruct (token_single_use id (take 3 l) (drop 3 l) 1 eq_refl) as [H _]. split; [vm_compute; reflexivity|exact H].
Defined.

(** ** Only active replicas are served *)

Lemma authenticated_spec fingerprint db :
  match authenticated_replica fingerprint db with
  | Ok r => ∃ f, fingerprint = Some f ∧ f ≠ "" ∧ replica_by_fingerprint f db = Some r ∧ rp_status_of r = Active
  | Raise e => exc_class e = "PermissionError"
      ∧ ∀ f r, fingerprint = Some f → f ≠ "" → replica_by_fingerprint f db = Some r → rp_status_of r ≠ Active
  end.
Proof.
  unfold authenticated_replica. destruct fingerprint as [f|]; [|done]. destruct (String.eqb_spec f "") as [->|Hne].
  { split; [done|]. by intros f r [= <-]. }
  destruct (replica_by_fingerprint f db) as [r|] eqn:Hr.
  - destruct (bool_decide (rp_status_of r = Active)) eqn:Hs.
    + apply bool_decide_eq_true in Hs. by exists f.
    + apply bool_decide_eq_false in Hs. split; [done|]. intros f' r' [= <-] _ Hr'. congruence.
  - split; [done|]. intros f' r' [= <-] _ Hr'. congruence.
Qed.

(** C38: A generation is sent, and an acknowledgement is stored, only for the certificate of an
    active replica, and then only that replica's row changes; every other request is answered
    with 403 and changes nothing. *)
Theorem listener_serves_active_replicas {A} t (latest : option A) generation hash result message fingerprint db :
  let fetch := handle_latest t latest fingerprint db in
  let ack := handle_ack t generation hash result message fingerprint db in
  match authenticated_replica fingerprint db with
  | Ok r =>
      rp_status_of r = Active ∧ Some (rp_fingerprint r) = fingerprint ∧ fetch.1 = Ok latest ∧ ack.1 = Ok ()
      ∧ d_enrollments fetch.2 = d_enrollments db ∧ d_enrollments ack.2 = d_enrollments db
      ∧ ∀ r', r' ∈ d_replicas db → rp_id r' ≠ rp_id r → r' ∈ d_replicas fetch.2 ∧ r' ∈ d_replicas ack.2
  | Raise e =>
      fetch = (Raise e, db) ∧ ack = (Raise e, db) ∧ (∃ error, answer fetch.1 = Refused 403 error)
      ∧ ∀ f r, fingerprint = Some f → f ≠ "" → replica_by_fingerprint f db = Some r → rp_status_of r ≠ Active
  end.
Proof.
  intros fetch ack. unfold fetch, ack, handle_latest, handle_ack. pose proof (authenticated_spec fingerprint db) as Ha.
  destruct (authenticated_replica fingerprint db) as [r|e].
  - destruct Ha as (f & -> & Hne & Hr & Hs). apply find_first_Some in Hr as [Hr <-%String.eqb_eq]. destruct db as [en rp].
    split_and!; try done. intros r' Hr' Hid. split; cbn; apply list_elem_of_fmap; exists r'; (split; [|done]);
      by rewrite (proj2 (Z.eqb_neq _ _) Hid).
  - destruct Ha as [He Hn]. split_and!; try done. exists (exc_message e). unfold answer. cbn [fst]. by rewrite He.
Qed.
