(* ===== verification/Replication.v ===== *)
(** * Generations and their application

    [app/replication.py] without the transport: the payload of a primary, its numbered and
    hashed generations, and the replica that checks, applies and deploys the latest one.
    Fetching, the deployment, SHA-256 and what the schema adds to a row are parameters.  The
    time columns of the client tables are left out; nothing here reads them. *)

From S2P Require Import Prelude PyStr StrLemmas IpAddr PyJson JsonText JsonRead Versions Releases Enrollment.

(** ** Canonical JSON *)

(** [sort_keys=True] *)
Definition by_key (a b : string * json) : comparison := String.compare a.1 b.1.
Fixpoint sort_keys (j : json) : json :=
  match j with
  | JList l => JList (List.map sort_keys l)
  | JObj l => JObj (sort_by by_key (List.map (λ kv, (kv.1, sort_keys kv.2)) l))
  | j => j
  end.

(** app/replication.py:866-867 canonical_json *)
Definition canonical_json (j : json) : string := print compact 0 (sort_keys j).

(** ** Tables *)

Notation row := (gmap string json).

Record client_row := mkClientRow { cl_id : Z; cl_name : string; cl_description : string; cl_enabled : bool }.
Record ident_row := mkIdentRow { id_id : Z; id_client : Z; id_kind : string; id_value : string }.
Record rule_row := mkRuleRow { ru_id : Z; ru_action : string; ru_kind : string; ru_value : option string; ru_client : option Z }.
(** The tables of [app/clients.py], which one script creates together *)
Record ctables := mkCtables { ct_clients : list client_row; ct_identifiers : list ident_row; ct_rules : list rule_row }.

(** app/replication.py:140-149 init_db *)
Record generation := mkGeneration {
  g_number : Z; g_created : string; g_source : string; g_schema : Z; g_sections : string; g_hash : string; g_payload : string }.
(** app/replication.py:150-156 init_db *)
Record sync_row := mkSyncRow { sy_at : string; sy_generation : option Z; sy_result : string; sy_message : string }.

(** The tables that exist, the key-value tables, and the tables of the replication *)
Record rstate := mkRstate {
  rs_tables : gmap string (list row);
  rs_local : option (gmap string string); rs_cache : option (gmap string string); rs_encryption : option (gmap string string);
  rs_clients : option ctables;
  rs_settings : gmap string string; rs_generations : list generation; rs_history : list sync_row }.

(** app/replication.py:660-676 REPLICABLE_TABLES *)
Definition REPLICABLE_TABLES : list (string * list string) :=
  [("sources", ["name"; "url"; "enabled"; "category"]);
   ("custom_rules", ["domain"; "action"; "enabled"; "comment"; "created_at"]);
   ("custom_filter_rules", ["rule_text"; "normalized"; "rule_type"; "action"; "domain"; "match_subdomains"; "pattern"; "rewrite_address";
      "address_family"; "qtype_restriction"; "priority"; "enabled"; "validation_state"; "unsupported_reason"; "source_system"; "comment";
      "created_at"; "updated_at"]);
   ("categories", ["key"; "name"; "description"]);
   ("policy_profiles", ["key"; "name"; "description"; "is_custom"]);
   ("profile_categories", ["profile_key"; "category_key"; "enabled"]);
   ("network_policies", ["cidr"; "profile_key"; "description"; "enabled"]);
   ("local_dns_records", ["name"; "fqdn"; "record_type"; "value"; "ttl"; "comment"; "enabled"; "auto_ptr"; "created_at"; "updated_at"]);
   ("client_aliases", ["cidr"; "display_name"; "description"; "created_at"; "updated_at"]);
   ("access_settings", ["default_policy"; "updated_at"])].

(** app/replication.py:689-689 REPLICABLE_LOCAL_DNS_SETTING_KEYS *)
Definition REPLICABLE_LOCAL_DNS_SETTING_KEYS : list string := ["internal_domain"; "default_ttl"].
(** app/replication.py:690-694 REPLICABLE_CACHE_SETTING_KEYS *)
Definition REPLICABLE_CACHE_SETTING_KEYS : list string :=
  ["max_cache_size_mb"; "min_cache_ttl"; "max_cache_ttl"; "min_ncache_ttl"; "max_ncache_ttl"; "prefetch_enabled"; "prefetch_trigger";
   "prefetch_eligible"; "serve_stale_enabled"; "max_stale_ttl"; "stale_answer_client_timeout"].
(** app/replication.py:695-698 REPLICABLE_ENCRYPTION_SETTING_KEYS *)
Definition REPLICABLE_ENCRYPTION_SETTING_KEYS : list string :=
  ["doh_enabled"; "doh3_enabled"; "dot_enabled"; "doq_enabled"; "dnscrypt_enabled"; "doh_path"; "doh_port"; "doh3_port"; "dot_port"; "doq_port";
   "dnscrypt_port"].

(** app/replication.py:705-721 NEVER_REPLICATED_TABLES *)
Definition NEVER_REPLICATED_TABLES : list string :=
  ["query_events"; "analytics_events"; "analytics_aggregate_buckets"; "analytics_counter_state"; "admins"; "login_attempts"; "deployments";
   "local_dns_deployments"; "dns_cache_deployments"; "dns_cache_flushes"; "encryption_deployments"; "import_jobs"; "replication_settings";
   "replication_enrollments"; "replication_replicas"; "replication_generations"; "replication_sync_history"; "upstream_resolvers";
   "upstream_deployments"].

Definition SCHEMA_VERSION : Z := 1.

(** ** The payload *)

(** [dict(row)] of the named columns *)
Definition select (columns : list string) (r : row) : json := JObj ((λ c, (c, default JNull (r !! c))) <$> columns).

(** The settings with the keys, in the order of the keys *)
Definition select_keys (keys : list string) (m : gmap string string) : list (string * json) :=
  omap (λ k, (λ v, (k, JStr v)) <$> m !! k) keys.

Definition table_sections (tables : gmap string (list row)) : list (string * json) :=
  omap (λ '(table, columns),
    if bool_decide (table ∈ NEVER_REPLICATED_TABLES) then None
    else (λ rows, (table, JList (select columns <$> rows))) <$> tables !! table) REPLICABLE_TABLES.

Definition settings_section (name : string) (keys : list string) (m : option (gmap string string)) : list (string * json) :=
  match m with Some m => [(name, JObj (select_keys keys m))] | None => [] end.

(** app/replication.py:782-801 _build_clients_section *)
Definition build_clients_section (c : ctables) : json :=
  JList ((λ cl, JObj [("name", JStr (cl_name cl)); ("description", JStr (cl_description cl)); ("enabled", JBool (cl_enabled cl));
                      ("identifiers", JList ((λ i, JObj [("kind", JStr (id_kind i)); ("value", JStr (id_value i))])
                                         <$> List.filter (λ i, (id_client i =? cl_id cl)%Z) (ct_identifiers c)))]) <$> ct_clients c).

Definition json_text (v : option string) : json := match v with Some s => JStr s | None => JNull end.

(** app/replication.py:804-816 _build_access_rules_section *)
Definition build_access_rules_section (c : ctables) : json :=
  JList ((λ r, JObj [("action", JStr (ru_action r)); ("kind", JStr (ru_kind r)); ("value", json_text (ru_value r));
                     ("client_name", json_text (id ← ru_client r; cl_name <$> find_first (λ cl, (cl_id cl =? id)%Z) (ct_clients c)))]) <$> ct_rules c).

(** app/replication.py:728-779 build_payload

    [ca] is the text of the CA certificate when there is one. *)
Definition build_payload (encryption certificates : bool) (ca : option string) (s : rstate) : list (string * json) :=
  table_sections (rs_tables s)
  ++ settings_section "local_dns_settings" REPLICABLE_LOCAL_DNS_SETTING_KEYS (rs_local s)
  ++ settings_section "dns_cache_settings" REPLICABLE_CACHE_SETTING_KEYS (rs_cache s)
  ++ (if encryption then settings_section "encryption_settings" REPLICABLE_ENCRYPTION_SETTING_KEYS (rs_encryption s) else [])
  ++ (if certificates then match ca with Some t => [("ca_certificate_pem", JStr t)] | None => [] end else [])
  ++ match rs_clients s with
     | Some c => [("clients", build_clients_section c); ("client_access_rules", build_access_rules_section c)]
     | None => []
     end.

(** ** Settings *)

(** app/replication.py:172-187 DEFAULTS *)
Definition DEFAULTS : gmap string string :=
  list_to_map [("role", "standalone"); ("listen_host", "0.0.0.0"); ("listen_port", "8843"); ("poll_interval_seconds", "60"); ("primary_address", "");
    ("paused", "0"); ("include_encryption_settings", "0"); ("include_certificates", "0"); ("last_applied_generation", "0"); ("last_applied_hash", "");
    ("last_sync_status", ""); ("last_sync_at", ""); ("drift_detected", "0"); ("drift_checked_at", "")].

(** app/replication.py:225-239 update_settings *)
Definition update_settings (values : list (string * string)) (s : rstate) : rstate :=
  s{{rs_settings ::= (λ m, fold_left (λ m kv, <[kv.1 := kv.2]> m) values m)}}.

(** app/replication.py:242-245 set_role *)
Definition set_role (role : string) (s : rstate) : res rstate :=
  if bool_decide (role ∈ ["standalone"; "primary"; "replica"]) then Ok (update_settings [("role", role)] s)
  else Raise (ReplicationError ("unknown role " +:+ py_repr role)).

Section replication.
(** SHA-256, a random node id, the time, and the CA certificate *)
Context (sha256 : string → string) (uuid : string) (now : string) (ca : option string).

(** app/replication.py:190-207 node_id *)
Definition node_id (s : rstate) : string * rstate :=
  match rs_settings s !! "node_id" with Some v => (v, s) | None => (uuid, update_settings [("node_id", uuid)] s) end.

(** app/replication.py:210-222 settings *)
Definition settings (s : rstate) : gmap string string * rstate :=
  let s := (node_id s).2 in
  let s := s{{rs_settings ::= (λ m, m ∪ DEFAULTS)}} in (rs_settings s, s).

(** app/replication.py:870-871 content_hash *)
Definition content_hash (sections : json) : string := sha256 (canonical_json sections).

Definition max_number (l : list generation) : Z :=
  match l with [] => 0 | g :: l => foldr (λ g, Z.max (g_number g)) (g_number g) l end%Z.

(** app/replication.py:878-910 create_generation

    The flags are those of the settings where none is given. *)
Definition create_generation (encryption certificates : option bool) (s : rstate) : generation * rstate :=
  let '(cfg, s) := settings s in
  let flag o key := match o with Some b => b | None => bool_decide (cfg !! key = Some "1") end in
  let sections := build_payload (flag encryption "include_encryption_settings") (flag certificates "include_certificates") ca s in
  let g := mkGeneration (max_number (rs_generations s) + 1) now (node_id s).1 SCHEMA_VERSION (canonical_json (JList (JStr <$> sections.*1)))
             (content_hash (JObj sections)) (canonical_json (JObj sections)) in
  (g, s{{rs_generations ::= (λ l, l ++ [g])}}).

(** The row with the highest number *)
Definition newest (l : list generation) : option generation := find_first (λ g, (g_number g =? max_number l)%Z) l.

(** app/replication.py:913-931 latest_generation *)
Definition latest_generation (s : rstate) : res (option json) :=
  match newest (rs_generations s) with
  | None => Ok None
  | Some g =>
      sections ← json_loads (loads (g_payload g));
      Ok (Some (JObj [("generation_number", JInt (g_number g)); ("created_at", JStr (g_created g)); ("source_node_id", JStr (g_source g));
                      ("schema_version", JInt (g_schema g)); ("content_hash", JStr (g_hash g)); ("sections", sections)]))
  end.

(** app/replication.py:934-951 on_deploy_success *)
Definition on_deploy_success (s : rstate) : option generation * rstate :=
  let '(cfg, s) := settings s in
  if bool_decide (cfg !! "role" = Some "primary") then let '(g, s) := create_generation None None s in (Some g, s) else (None, s).

(** ** Applying a payload *)

(** An operation on the tables that can raise in the middle *)
Definition RM (A : Type) : Type := rstate → res A * rstate.
#[export] Instance RM_ret : MRet RM := λ A a s, (Ok a, s).
#[export] Instance RM_bind : MBind RM := λ A B f m s, match m s with (Ok a, s) => f a s | (Raise e, s) => (Raise e, s) end.
Definition rm_lift {A} (r : res A) : RM A := λ s, (r, s).
Definition rm_get {A} (f : rstate → A) : RM A := λ s, (Ok (f s), s).
Definition rm_do (f : rstate → rstate) : RM () := λ s, (Ok (), f s).
Fixpoint rm_each {A} (f : A → RM ()) (l : list A) : RM () :=
  match l with [] => mret () | x :: l => _ ← f x; rm_each f l end.

(** What SQLite refuses for a row of a table with these rows, and the columns it fills *)
Context (violates : string → list row → row → option pyexc) (filled : string → list row → row).

(** A value bound to a statement *)
Definition sql_value (v : json) : res json :=
  match v with
  | JList _ => Raise (PyExc "ProgrammingError" "Error binding parameter: type 'list' is not supported")
  | JObj _ => Raise (PyExc "ProgrammingError" "Error binding parameter: type 'dict' is not supported")
  | v => Ok v
  end.

(** [row[c]] *)
Definition column (r : json) (c : string) : res json :=
  match r with
  | JObj fields => match field c fields with Some v => Ok v | None => Raise (PyExc "KeyError" (py_repr c)) end
  | _ => Raise (TypeError "indices must be integers or slices, not str")
  end.

Definition insert_row (table : string) (r : row) : RM () := λ s,
  let rows := default [] (rs_tables s !! table) in
  match violates table rows r with
  | Some e => (Raise e, s)
  | None => (Ok (), s{{rs_tables ::= <[table := rows ++ [r ∪ filled table rows]]>}})
  end.

(** [tuple(row[c] for c in cols)] of all rows, then their insertion one after the other *)
Definition insert_rows (table : string) (columns : list string) (rows : list json) : RM () :=
  tuples ← rm_lift (map_res (λ r, map_res (column r) columns) rows);
  rm_each (λ values, values ← rm_lift (map_res sql_value values); insert_row table (list_to_map (zip columns values))) tuples.

Definition replace_table (columns : list string) (table : string) (rows : json) : RM () :=
  there ← rm_get (λ s, bool_decide (is_Some (rs_tables s !! table)));
  if there : bool then
    _ ← rm_do (λ s, s{{rs_tables ::= <[table := []]>}});
    rows ← (if py_bool rows then rm_lift (py_list rows) else mret []);
    insert_rows table columns rows
  else mret ().

Definition replace_keys (keys : list string) (values : list (string * json)) (m : gmap string string) : gmap string string :=
  fold_left (λ m kv, if bool_decide (kv.1 ∈ keys) then <[kv.1 := py_str kv.2]> m else m) values (filter (λ kv, kv.1 ∉ keys) m).

(** [values.items()] of a section; [None] for one that is missing *)
Definition items (section : option json) : res (list (string * json)) :=
  match section with
  | None => Ok []
  | Some (JObj fields) => Ok fields
  | Some _ => Raise (PyExc "AttributeError" "object has no attribute 'items'")
  end.

(** app/replication.py:1282-1290 _replace_settings_subset

    [get] and [set] are the table. *)
Definition replace_settings_subset (get : rstate → option (gmap string string)) (set : option (gmap string string) → rstate → rstate)
    (keys : list string) (section : option json) : RM () :=
  m ← rm_get get;
  match m with
  | None => mret ()
  | Some m =>
      _ ← rm_do (set (Some (filter (λ kv, kv.1 ∉ keys) m)));
      values ← rm_lift (items section);
      rm_do (set (Some (replace_keys keys values m)))
  end.

Definition set_local (m : option (gmap string string)) (s : rstate) : rstate := s{{rs_local := m}}.
Definition set_cache (m : option (gmap string string)) (s : rstate) : rstate := s{{rs_cache := m}}.
Definition set_encryption (m : option (gmap string string)) (s : rstate) : rstate := s{{rs_encryption := m}}.

(** A value for a TEXT column *)
Definition sql_text (v : json) : res (option string) :=
  v ← sql_value v;
  Ok (match v with JNull => None | JStr s => Some s | JInt z => Some (str_int z) | JBool b => Some (if b then "1" else "0") | _ => None end).

Definition IDENTIFIER_KINDS : list string := ["ipv4"; "ipv4_cidr"; "ipv6"; "ipv6_cidr"; "clientid"].
Definition IntegrityError (m : string) : pyexc := PyExc "IntegrityError" m.

(** [INSERT OR IGNORE]: a row that a constraint refuses is left out. *)
Definition insert_identifier (client : Z) (kind value : string) (l : list ident_row) : list ident_row :=
  if bool_decide (kind ∈ IDENTIFIER_KINDS) && negb (existsb (λ i, String.eqb (id_kind i) kind && String.eqb (id_value i) value) l)
  then l ++ [mkIdentRow (fresh_id (id_id <$> l)) client kind value] else l.

Fixpoint add_identifiers (client : Z) (l : list json) (rows : list ident_row) : res (list ident_row) :=
  match l with
  | [] => Ok rows
  | i :: l =>
      kind ← dict_get i "kind" JNull; value ← dict_get i "value" JNull;
      if negb (py_bool kind) || negb (py_bool value) then add_identifiers client l rows
      else kind ← sql_text kind; value ← sql_text value;
           add_identifiers client l (insert_identifier client (default "" kind) (default "" value) rows)
  end.

(** [d.get(key) or dflt] *)
Definition get_or (d : json) (key : string) (dflt : json) : res json := v ← dict_get d key JNull; Ok (if py_bool v then v else dflt).

Fixpoint add_clients (l : list json) (names : gmap string Z) (c : ctables) : res (gmap string Z * ctables) :=
  match l with
  | [] => Ok (names, c)
  | cl :: l =>
      name ← get_or cl "name" (JStr "");
      let name := strip (py_str name) in
      if String.eqb name "" then add_clients l names c
      else
        description ← get_or cl "description" (JStr "");
        description ← sql_text description;
        enabled ← dict_get cl "enabled" JNull;
        let id := fresh_id (cl_id <$> ct_clients c) in
        let c := c{{ct_clients ::= (λ r, r ++ [mkClientRow id name (default "" description) (py_bool enabled)])}} in
        identifiers ← dict_get cl "identifiers" JNull;
        identifiers ← (if py_bool identifiers then py_list identifiers else Ok []);
        rows ← add_identifiers id identifiers (ct_identifiers c);
        add_clients l (<[name := id]> names) (c{{ct_identifiers := rows}})
  end.

Definition insert_rule (action kind value : option string) (client : option Z) (l : list rule_row) : res (list rule_row) :=
  match action, kind with
  | Some a, Some k =>
      if negb (bool_decide (a ∈ ["allow"; "deny"]) && bool_decide (k ∈ "client" :: IDENTIFIER_KINDS))
      then Raise (IntegrityError "CHECK constraint failed")
      else if match value, client with
              | Some v, Some id => existsb (λ r, bool_decide (ru_action r = a ∧ ru_kind r = k ∧ ru_value r = Some v ∧ ru_client r = Some id)) l
              | _, _ => false
              end
      then Raise (IntegrityError "UNIQUE constraint failed")
      else Ok (l ++ [mkRuleRow (fresh_id (ru_id <$> l)) a k value client])
  | _, _ => Raise (IntegrityError "NOT NULL constraint failed")
  end.

Fixpoint add_rules (names : gmap string Z) (l : list json) (rows : list rule_row) : res (list rule_row) :=
  match l with
  | [] => Ok rows
  | r :: l =>
      kind ← dict_get r "kind" JNull;
      let is_client := match kind with JStr k => String.eqb k "client" | _ => false end in
      client ← (if is_client then name ← get_or r "client_name" (JStr ""); Ok (names !! py_str name) else Ok None);
      if is_client && negb (bool_decide (is_Some client)) then add_rules names l rows
      else
        action ← dict_get r "action" JNull; action ← sql_text action; kind ← sql_text kind;
        value ← dict_get r "value" JNull; value ← sql_text value;
        rows ← insert_rule action kind value client rows;
        add_rules names l rows
  end.

(** [section or []], iterated *)
Definition elements_of (section : option json) : res (list json) :=
  match section with Some v => if py_bool v then py_list v else Ok [] | None => Ok [] end.

(** app/replication.py:819-863 _apply_clients_access_sections

    An exception leaves the tables in the middle; they are empty here, as the transaction is
    rolled back or the caller does not meet one. *)
Definition apply_clients_access_sections (clients rules : option json) : RM () :=
  match clients, rules with
  | None, None => mret ()
  | _, _ =>
      c ← rm_get rs_clients;
      match c with
      | None => mret ()
      | Some _ =>
          let empty := mkCtables [] [] [] in
          _ ← rm_do (λ s, s{{rs_clients := Some empty}});
          l ← rm_lift (elements_of clients);
          '(names, c) ← rm_lift (add_clients l ∅ empty);
          rl ← rm_lift (elements_of rules);
          rows ← rm_lift (add_rules names rl []);
          rm_do (λ s, s{{rs_clients := Some (c{{ct_rules := rows}})}})
      end
  end.

(** The three tables of settings, then the clients *)
Definition apply_settings (get : string → option json) : RM () :=
  _ ← replace_settings_subset rs_local set_local REPLICABLE_LOCAL_DNS_SETTING_KEYS (get "local_dns_settings");
  _ ← replace_settings_subset rs_cache set_cache REPLICABLE_CACHE_SETTING_KEYS (get "dns_cache_settings");
  _ ← replace_settings_subset rs_encryption set_encryption REPLICABLE_ENCRYPTION_SETTING_KEYS (get "encryption_settings");
  apply_clients_access_sections (get "clients") (get "client_access_rules").

(** app/replication.py:1313-1337 _apply_sections *)
Definition apply_sections (sections : list (string * json)) : RM () :=
  _ ← rm_each (λ '(table, columns), match field table sections with Some rows => replace_table columns table rows | None => mret () end) REPLICABLE_TABLES;
  apply_settings (λ key, field key sections).

(** app/replication.py:1257-1279 _snapshot_replicable_tables *)
Definition snapshot_replicable_tables (s : rstate) : list (string * json) :=
  omap (λ '(table, columns), (λ rows, (table, JList (select columns <$> rows))) <$> rs_tables s !! table) REPLICABLE_TABLES
  ++ settings_section "local_dns_settings" REPLICABLE_LOCAL_DNS_SETTING_KEYS (rs_local s)
  ++ settings_section "dns_cache_settings" REPLICABLE_CACHE_SETTING_KEYS (rs_cache s)
  ++ settings_section "encryption_settings" REPLICABLE_ENCRYPTION_SETTING_KEYS (rs_encryption s).

(** [rows[0].keys()] when there are rows *)
Definition row_keys (rows : json) : list string := match rows with JList (JObj fields :: _) => fields.*1 | _ => [] end.

(** app/replication.py:1293-1310 _restore_snapshot *)
Definition restore_snapshot (snapshot : list (string * json)) : RM () :=
  _ ← rm_each (λ '(table, _), match field table snapshot with Some rows => replace_table (row_keys rows) table rows | None => mret () end) REPLICABLE_TABLES;
  apply_settings (λ key, field key snapshot).

(** ** The replica *)

(** What a sync returns *)
Record sync_result := mkSyncResult { sr_result : string; sr_message : string; sr_generation : option Z }.

(** The answer of the primary, and the deployment: whether it succeeded and its output, or
    an exception when it cannot be started *)
Context (fetched : res (option json)) (deploy : rstate → res (bool * string) * rstate).

(** The handler around the whole body *)
Definition or_error {A} (n : option Z) (s : rstate) (r : res A) (k : A → sync_result * rstate) : sync_result * rstate :=
  match r with Ok a => k a | Raise e => (mkSyncResult "error" (exc_message e) n, s) end.

(** [generation[key]] *)
Definition item (j : json) (key : string) : res json := column j key.

Definition finish_sync (n : Z) (hash : json) (s : rstate) : sync_result * rstate :=
  (mkSyncResult "success" ("applied generation " +:+ str_int n) (Some n),
   update_settings [("last_applied_generation", str_int n); ("last_applied_hash", py_str hash); ("last_sync_status", "success"); ("last_sync_at", now);
                    ("drift_detected", "0")] s).

(** Steps 3 to 11: the snapshot, the tables, the deployment, and the way back *)
Definition apply_and_deploy (n : Z) (hash : json) (sections : json) (s : rstate) : sync_result * rstate :=
  let snapshot := snapshot_replicable_tables s in
  let failed m := mkSyncResult "failed" m (Some n) in
  match (match sections with JObj fields => apply_sections fields s | _ => (Raise (TypeError "argument is not iterable"), s) end) with
  | (Raise e, _) => (failed ("failed to apply staged data: " +:+ exc_message e), s)
  | (Ok _, s) =>
      match deploy s with
      | (Raise e, s) => (mkSyncResult "error" (exc_message e) (Some n), s)
      | (Ok (true, _), s) => finish_sync n hash s
      | (Ok (false, output), s) =>
          match restore_snapshot snapshot s with
          | (Ok _, s) => (failed ("deploy failed, rolled back: " +:+ last_500 output), s)
          | (Raise e, s) => (mkSyncResult "error" (exc_message e) (Some n), s)
          end
      end
  end.

(** The declared hash is the hash of the sections. *)
Definition declares (hash sections : json) : bool := match hash with JStr h => String.eqb (content_hash sections) h | _ => false end.

Definition generation_number (generation : json) : res Z := v ← item generation "generation_number"; py_int v.
Definition generation_schema (generation : json) : res (json * Z) :=
  v ← dict_get generation "schema_version" (JInt SCHEMA_VERSION); version ← py_int v; Ok (v, version).

Definition sync_generation (force : bool) (cfg : gmap string string) (generation : json) (s : rstate) : sync_result * rstate :=
  or_error None s (generation_number generation) (λ n,
  or_error None s (item generation "content_hash") (λ hash,
  let applied := default "0" (cfg !! "last_applied_generation") in
  or_error (Some n) s (if force then Ok 0%Z else py_int (JStr applied)) (λ last,
  if negb force && (n <=? last)%Z then (mkSyncResult "up_to_date" ("already at generation " +:+ applied) (Some n), s)
  else
    or_error (Some n) s (generation_schema generation) (λ '(v, version),
    if (SCHEMA_VERSION <? version)%Z
    then (mkSyncResult "failed" ("generation requires schema version " +:+ py_str v +:+ ", this replica only supports 1") (Some n), s)
    else
      or_error (Some n) s (item generation "sections") (λ sections,
      if negb (declares hash sections)
      then (mkSyncResult "failed" "payload content hash did not match the generation's declared hash" (Some n), s)
      else apply_and_deploy n hash sections s))))).

(** app/replication.py:1340-1445 replica_sync_once

    Acknowledgements change nothing here. *)
Definition replica_sync_once (force : bool) (s : rstate) : sync_result * rstate :=
  let '(cfg, s) := settings s in
  let '(r, s) :=
    if bool_decide (cfg !! "paused" = Some "1") && negb force then (mkSyncResult "skipped" "replication is paused" None, s)
    else match fetched with
    | Raise e => (mkSyncResult "unreachable" (exc_message e) None, s)
    | Ok None => (mkSyncResult "no_generation" "primary has not published a generation yet" None, s)
    | Ok (Some generation) => sync_generation force cfg generation s
    end in
  (r, update_settings [("last_sync_status", sr_result r); ("last_sync_at", now)]
        (s{{rs_history ::= (λ l, l ++ [mkSyncRow now (sr_generation r) (sr_result r) (sr_message r)])}})).

(** app/replication.py:1448-1465 check_drift

    Whether the tables drifted, their hash and the one applied last *)
Definition check_drift (s : rstate) : bool * string * string * rstate :=
  let '(cfg, s) := settings s in
  let expected := default "" (cfg !! "last_applied_hash") in
  let local := content_hash (JObj (build_payload false false ca s)) in
  let drifted := negb (String.eqb expected "") && negb (String.eqb local expected) in
  (drifted, local, expected, update_settings [("drift_detected", if drifted then "1" else "0"); ("drift_checked_at", now)] s).
End replication.

(** ** The canonical text *)

Lemma order_key_order : order_ok by_key.
Proof. apply (order_map fst), order_string. Qed.

(** A sorted list is sorted already. *)
Lemma insert_last x l : Forall (λ y, leq by_key y x) l → insert_sorted by_key x l = l ++ [x].
Proof.
  induction 1 as [|y l Hy _ IH]; [done|]. cbn. unfold leq in Hy. rewrite (cmp_opp _ order_key_order x y) in Hy.
  destruct (by_key x y); [by rewrite IH|done|by rewrite IH].
Qed.

Lemma sort_by_sorted l : StronglySorted (leq by_key) l → sort_by by_key l = l.
Proof.
  assert (∀ acc, StronglySorted (leq by_key) (acc ++ l) → fold_left (λ acc x, insert_sorted by_key x acc) l acc = acc ++ l) as H.
  { induction l as [|x l IH]; intros acc Hs; [by rewrite app_nil_r|]. cbn. rewrite insert_last.
    - rewrite IH; rewrite <-app_assoc; done.
    - apply StronglySorted_app in Hs as (Hs & _ & _). apply Forall_forall. intros y Hy. by apply Hs; [|left]. }
  intros Hs. by apply (H []).
Qed.

Lemma sorted_map (f : json → json) l : StronglySorted (leq by_key) l → StronglySorted (leq by_key) (List.map (λ kv, (kv.1, f kv.2)) l).
Proof.
  induction 1 as [|x l Hl IH Hx]; [constructor|]. cbn. constructor; [done|]. apply Forall_forall. intros y Hy.
  apply list_elem_of_fmap in Hy as (z & -> & Hz). rewrite Forall_forall in Hx. by apply (Hx z Hz).
Qed.

Lemma sort_keys_idem j : sort_keys (sort_keys j) = sort_keys j.
Proof.
  induction j as [| | | |l IH|l IH] using json_nested_ind; try done; cbn [sort_keys].
  - f_equal. change (List.map sort_keys (sort_keys <$> l) = sort_keys <$> l). rewrite <-list_fmap_compose.
    apply list_fmap_ext. intros i x Hx%list_elem_of_lookup_2. rewrite Forall_forall in IH. by apply IH.
  - f_equal. destruct (sort_by_spec by_key order_key_order (List.map (λ kv, (kv.1, sort_keys kv.2)) l)) as [Hp Hs].
    set (sl := sort_by by_key (List.map _ l)) in *. assert (List.map (λ kv, (kv.1, sort_keys kv.2)) sl = sl) as ->; [|by apply sort_by_sorted].
    rewrite <-(list_fmap_id sl) at 2. apply list_fmap_ext. intros i x Hx%list_elem_of_lookup_2. rewrite Hp in Hx.
    apply list_elem_of_fmap in Hx as (kv & -> & Hkv). cbn. rewrite Forall_forall in IH. by rewrite (IH kv Hkv).
Qed.

Lemma sort_perm l : sort_by by_key l ≡ₚ l.
Proof. apply (proj1 (sort_by_spec by_key order_key_order l)). Qed.
Lemma sort_by_keys l : (sort_by by_key l).*1 ≡ₚ l.*1.
Proof. by rewrite sort_perm. Qed.

Lemma field_in k l v : NoDup l.*1 → field k l = Some v ↔ (k, v) ∈ l.
Proof.
  induction l as [|[k' v'] l IH]; [split; [done|by intros ?%elem_of_nil]|]. cbn. intros [Hk Hl]%NoDup_cons.
  destruct (String.eqb_spec k' k) as [->|Hne].
  - split; [intros [= <-]; left|]. intros [[= <-]|Hin]%elem_of_cons; [done|]. destruct Hk. by apply (list_elem_of_fmap_2 fst _ (k, v)).
  - rewrite (IH Hl). split; [by right|]. by intros [[= -> ->]|]%elem_of_cons.
Qed.

Lemma field_sorted k l : NoDup l.*1 → field k (sort_by by_key l) = field k l.
Proof.
  intros Hl. assert (NoDup (sort_by by_key l).*1) as Hs by by rewrite sort_by_keys.
  destruct (field k l) as [v|] eqn:E.
  - apply field_in; [done|]. rewrite sort_perm. by apply field_in.
  - destruct (field k (sort_by by_key l)) as [v|] eqn:E'; [|done]. apply field_in in E'; [|done].
    rewrite sort_perm in E'. apply field_in in E'; [congruence|done].
Qed.

Lemma field_map (f : json → json) k l : field k (List.map (λ kv, (kv.1, f kv.2)) l) = f <$> field k l.
Proof. induction l as [|[k' v] l IH]; [done|]. cbn. by destruct (String.eqb k' k). Qed.

Lemma dict_ok_sort j : dict_ok j = true → dict_ok (sort_keys j) = true.
Proof.
  induction j as [| | | |l IH|l IH] using json_nested_ind; try done; cbn [sort_keys dict_ok].
  - intros H. apply forallb_forall. intros x Hx. apply in_map_iff in Hx as (y & <- & Hy). rewrite forallb_forall in H. rewrite Forall_forall in IH.
    apply IH; [by apply list_elem_of_In|by apply H].
  - intros [Hn Hv]%andb_prop. apply bool_decide_eq_true in Hn. apply andb_true_iff. split.
    + apply bool_decide_eq_true. rewrite sort_by_keys. change (List.map ?f l) with (f <$> l). by rewrite <-list_fmap_compose.
    + apply forallb_forall. intros x Hx%list_elem_of_In. rewrite sort_perm in Hx.
      apply list_elem_of_fmap in Hx as (kv & -> & Hkv). cbn. rewrite forallb_forall in Hv. rewrite Forall_forall in IH.
      apply IH; [done|]. apply Hv. by apply list_elem_of_In.
Qed.

(** What a stored payload is read back as *)
Lemma loads_canonical j : dict_ok j = true → loads (canonical_json j) = Some (sort_keys j).
Proof. intros Hj. apply loads_print; [apply compact_ok|by apply dict_ok_sort]. Qed.

Lemma hash_sorted sha256 j : content_hash sha256 (sort_keys j) = content_hash sha256 j.
Proof. unfold content_hash, canonical_json. by rewrite sort_keys_idem. Qed.

(** ** One table *)

Definition scalar (v : json) : Prop := sql_value v = Ok v.
Definition cell (r : row) (c : string) : json := default JNull (r !! c).
(** The named columns of a row, as an insertion gives them *)
Definition given (columns : list string) (r : row) : row := list_to_map (zip columns (cell r <$> columns)).
Definition scalar_row (columns : list string) (r : row) : Prop := ∀ c, c ∈ columns → scalar (cell r c).
(** A document that holds the columns of a row *)
Definition represents (columns : list string) (j : json) (r : row) : Prop := ∀ c, c ∈ columns → column j c = Ok (cell r c).

Lemma scalar_sort v : scalar v → sort_keys v = v.
Proof. by destruct v. Qed.

Lemma field_select columns r c : c ∈ columns → field c ((λ c, (c, cell r c)) <$> columns) = Some (cell r c).
Proof.
  induction columns as [|c' l IH]; [by intros ?%elem_of_nil|]. intros Hc. cbn. destruct (String.eqb_spec c' c) as [->|Hne]; [done|].
  apply IH. by apply elem_of_cons in Hc as [->|].
Qed.

Lemma represents_select columns r : represents columns (select columns r) r.
Proof. intros c Hc. unfold select, column. change (λ c, (c, default JNull (r !! c))) with (λ c, (c, cell r c)). by rewrite field_select. Qed.

Lemma represents_sorted columns r : NoDup columns → scalar_row columns r → represents columns (sort_keys (select columns r)) r.
Proof.
  intros Hn Hs c Hc. unfold select. change (λ c, (c, default JNull (r !! c))) with (λ c, (c, cell r c)). cbn [sort_keys column].
  set (l := (λ c, (c, cell r c)) <$> columns). rewrite field_sorted.
  - rewrite field_map. unfold l. rewrite field_select by done. cbn. by rewrite scalar_sort by by apply Hs.
  - change (NoDup ((λ kv : string * json, (kv.1, sort_keys kv.2)) <$> l).*1). unfold l. rewrite <-!list_fmap_compose. cbn.
    by rewrite list_fmap_id.
Qed.

Lemma given_cell columns r c : c ∈ columns → given columns r !! c = Some (cell r c).
Proof.
  unfold given. induction columns as [|c' l IH]; [by intros ?%elem_of_nil|]. intros Hc.
  change ((<[c' := cell r c']> (list_to_map (zip l (cell r <$> l))) : gmap string json) !! c = Some (cell r c)).
  destruct (decide (c' = c)) as [->|Hne]; [apply lookup_insert_eq|]. rewrite lookup_insert_ne by done. apply IH.
  by apply elem_of_cons in Hc as [->|].
Qed.

Lemma select_given columns r rest : select columns (given columns r ∪ rest) = select columns r.
Proof.
  unfold select. f_equal. apply list_fmap_ext. intros i c Hc%list_elem_of_lookup_2. f_equal.
  by rewrite (lookup_union_Some_l _ _ _ (cell r c)) by by apply given_cell.
Qed.

Lemma map_res_all {A B} (f : A → res B) (g : A → B) l : (∀ x, x ∈ l → f x = Ok (g x)) → map_res f l = Ok (g <$> l).
Proof.
  induction l as [|x l IH]; intros Hf; [done|]. cbn [map_res]. rewrite (Hf x) by left. cbn. rewrite IH; [done|]. intros y Hy. apply Hf. by right.
Qed.

Lemma bind_RM {A B} (m : RM A) (f : A → RM B) s : (m ≫= f) s = match m s with (Ok a, s) => f a s | (Raise e, s) => (Raise e, s) end.
Proof. done. Qed.

Section tables.
Context (violates : string → list row → row → option pyexc) (filled : string → list row → row).

(** SQLite accepts the rows one after the other, in a table that was emptied. *)
Definition accepted (table : string) (columns : list string) (rows : list row) : Prop :=
  ∀ before r after have, rows = before ++ r :: after → select columns <$> have = select columns <$> before →
  violates table have (given columns r) = None.

Lemma insert_rows_spec table columns js rows s :
  Forall2 (represents columns) js rows → Forall (scalar_row columns) rows → accepted table columns rows →
  rs_tables s !! table = Some [] →
  ∃ rows', insert_rows violates filled table columns js s = (Ok (), s{{rs_tables ::= <[table := rows']>}}) ∧ select columns <$> rows' = select columns <$> rows.
Proof.
  intros Hrep Hscalar Hacc Hempty. unfold insert_rows. rewrite bind_RM.
  assert (map_res (λ r, map_res (column r) columns) js = Ok ((λ r, cell r <$> columns) <$> rows)) as ->.
  { clear -Hrep. induction Hrep as [|j r js rows Hj _ IH]; [done|]. cbn. rewrite (map_res_all _ (cell r)) by done. cbn. by rewrite IH. }
  cbn [rm_lift].
  assert (∀ before after have s, rows = before ++ after → rs_tables s !! table = Some have → select columns <$> have = select columns <$> before →
    ∃ rows', rm_each (λ values, values ← rm_lift (map_res sql_value values); insert_row violates filled table (list_to_map (zip columns values)))
       ((λ r, cell r <$> columns) <$> after) s = (Ok (), s{{rs_tables ::= <[table := rows']>}}) ∧ select columns <$> rows' = select columns <$> rows) as H.
  2: { apply (H [] rows []); done. }
  intros before after. revert before. induction after as [|r after IH]; intros before have s' Heq Htab Hsel.
  - exists have. cbn. split; [|by rewrite Hsel, Heq, app_nil_r]. destruct s'. cbn in *. do 2 f_equal. by rewrite insert_id.
  - cbn [fmap list_fmap rm_each]. rewrite bind_RM, bind_RM. rewrite (map_res_all _ id).
    2: { intros v (c & -> & Hc)%list_elem_of_fmap. rewrite Forall_forall in Hscalar. apply (Hscalar r); [|done].
         rewrite Heq. apply elem_of_app. right. left. }
    rewrite list_fmap_id. cbn [rm_lift]. unfold insert_row at 1. rewrite Htab. change (default [] (Some have)) with have.
    pose proof (Hacc before r after have Heq Hsel) as Hv. unfold given in Hv. rewrite Hv. clear Hv.
    destruct (IH (before ++ [r]) (have ++ [given columns r ∪ filled table have]) (s'{{rs_tables ::= <[table := have ++ [given columns r ∪ filled table have]]>}}))
      as (rows' & Hrun & Hrows).
    + by rewrite Heq, <-app_assoc.
    + destruct s'. apply lookup_insert_eq.
    + by rewrite !fmap_app, Hsel; cbn; rewrite select_given.
    + exists rows'. split; [|done]. etransitivity; [exact Hrun|]. destruct s'. cbn. do 2 f_equal. by rewrite insert_insert_eq.
Qed.

Lemma replace_table_spec table columns js rows s :
  Forall2 (represents columns) js rows → Forall (scalar_row columns) rows → accepted table columns rows → is_Some (rs_tables s !! table) →
  ∃ rows', replace_table violates filled columns table (JList js) s = (Ok (), s{{rs_tables ::= <[table := rows']>}})
    ∧ select columns <$> rows' = select columns <$> rows.
Proof.
  intros Hrep Hscalar Hacc Hthere. unfold replace_table. rewrite bind_RM. cbn [rm_get]. rewrite bool_decide_eq_true_2 by done.
  rewrite bind_RM. cbn [rm_do]. rewrite bind_RM.
  assert (∀ x, (if py_bool (JList js) then rm_lift (py_list (JList js)) else mret []) x = (Ok js, x)) as Hjs by (intros x; by destruct js).
  rewrite Hjs. destruct (insert_rows_spec table columns js rows (s{{rs_tables ::= <[table := []]>}}) Hrep Hscalar Hacc) as (rows' & Hrun & Hrows).
  { destruct s. apply lookup_insert_eq. }
  exists rows'. split; [|done]. rewrite Hrun. destruct s. cbn. do 2 f_equal. by rewrite insert_insert_eq.
Qed.
End tables.

(** ** All tables *)

Section all_tables.
Context (violates : string → list row → row → option pyexc) (filled : string → list row → row).
Context (sections : list (string * json)) (cols : list string → json → list string) (src : string → list row).

Definition replace_step : string * list string → RM () := λ '(table, columns),
  match field table sections with Some rows => replace_table violates filled (cols columns rows) table rows | None => mret () end.

(** The section of a table that exists holds the rows [src]. *)
Definition section_fits (tables : gmap string (list row)) (entry : string * list string) : Prop :=
  ∀ j, field entry.1 sections = Some j → is_Some (tables !! entry.1) →
  ∃ js, j = JList js ∧ (cols entry.2 j = entry.2 ∨ js = []) ∧ Forall2 (represents entry.2) js (src entry.1)
    ∧ Forall (scalar_row entry.2) (src entry.1) ∧ accepted violates entry.1 entry.2 (src entry.1).

Lemma replace_step_spec entry s :
  section_fits (rs_tables s) entry →
  ∃ new, replace_step entry s = (Ok (), s{{rs_tables := new}}) ∧ (∀ t, t ≠ entry.1 → new !! t = rs_tables s !! t)
    ∧ (if bool_decide (is_Some (field entry.1 sections) ∧ is_Some (rs_tables s !! entry.1))
       then ∃ rows, new !! entry.1 = Some rows ∧ select entry.2 <$> rows = select entry.2 <$> src entry.1
       else new !! entry.1 = rs_tables s !! entry.1).
Proof.
  destruct entry as [table columns]. intros Hfit. unfold section_fits in Hfit. cbn [fst snd] in *. unfold replace_step.
  destruct (field table sections) as [j|] eqn:Hj.
  2: { exists (rs_tables s). rewrite bool_decide_eq_false_2 by by intros [[? ?] _]. split; [by destruct s|done]. }
  destruct (rs_tables s !! table) as [old|] eqn:Ht.
  - destruct (Hfit j eq_refl (ex_intro _ old eq_refl)) as (js & -> & Hcols & Hrep & Hsc & Hacc). rewrite bool_decide_eq_true_2 by eauto.
    destruct Hcols as [-> | ->].
    + destruct (replace_table_spec violates filled table columns js (src table) s Hrep Hsc Hacc) as (rows & Hrun & Hrows); [by rewrite Ht|].
      exists (<[table := rows]> (rs_tables s)). split; [by rewrite Hrun; destruct s|]. split.
      * intros t Hne. by rewrite lookup_insert_ne.
      * exists rows. by rewrite lookup_insert_eq.
    + apply Forall2_nil_inv_l in Hrep. rewrite Hrep in *.
      destruct (replace_table_spec violates filled table (cols columns (JList [])) [] [] s) as (rows & Hrun & Hrows); try by constructor.
      { intros before r after have Heq. by destruct before. }
      { by rewrite Ht. }
      exists (<[table := rows]> (rs_tables s)). split; [by rewrite Hrun; destruct s|]. split.
      * intros t Hne. by rewrite lookup_insert_ne.
      * exists rows. rewrite lookup_insert_eq. split; [done|]. by destruct rows.
  - exists (rs_tables s). rewrite bool_decide_eq_false_2 by by intros [_ [? ?]]. split; [|by rewrite Ht].
    unfold replace_table. rewrite bind_RM. cbn [rm_get]. rewrite Ht. destruct s. by rewrite bool_decide_eq_false_2 by by intros [? ?].
Qed.

Lemma replace_tables_spec l s :
  NoDup l.*1 → (∀ entry, entry ∈ l → section_fits (rs_tables s) entry) →
  ∃ new, rm_each replace_step l s = (Ok (), s{{rs_tables := new}}) ∧ (∀ t, t ∉ l.*1 → new !! t = rs_tables s !! t)
    ∧ ∀ table columns, (table, columns) ∈ l →
      if bool_decide (is_Some (field table sections) ∧ is_Some (rs_tables s !! table))
      then ∃ rows, new !! table = Some rows ∧ select columns <$> rows = select columns <$> src table
      else new !! table = rs_tables s !! table.
Proof.
  revert s. induction l as [|[table columns] l IH]; intros s Hn Hfit.
  { exists (rs_tables s). split; [by destruct s|]. split; [done|]. by intros ?? ?%elem_of_nil. }
  apply NoDup_cons in Hn as [Hnot Hn]. destruct (replace_step_spec (table, columns) s) as (new1 & Hrun1 & Hother1 & Hthis1); [by apply Hfit; left|].
  cbn [fst snd] in *. set (s1 := s{{rs_tables := new1}}) in *. assert (rs_tables s1 = new1) as Hs1 by (unfold s1; by destruct s).
  assert (∀ t, t ∈ l.*1 → new1 !! t = rs_tables s !! t) as Hl by (intros t Ht; apply Hother1; by intros ->).
  destruct (IH s1 Hn) as (new & Hrun & Hother & Hthis).
  { intros [t c] Hin j Hj Ht. rewrite Hs1 in Ht. cbn [fst] in *. apply (Hfit (t, c)); [by right|done|].
    cbn. rewrite <-Hl; [done|]. by apply (list_elem_of_fmap_2 fst _ (t, c)). }
  exists new. split; [|split].
  - cbn [rm_each]. rewrite bind_RM, Hrun1. etransitivity; [exact Hrun|]. unfold s1. by destruct s.
  - intros t. cbn. intros [Hne Hnl]%not_elem_of_cons. rewrite Hother by done. rewrite Hs1. by apply Hother1.
  - intros t c [[= -> ->]|Hin]%elem_of_cons.
    + assert (new !! table = new1 !! table) as -> by (rewrite Hother by done; by rewrite Hs1). exact Hthis1.
    + specialize (Hthis t c Hin). rewrite Hs1, Hl in Hthis by by apply (list_elem_of_fmap_2 fst _ (t, c)). exact Hthis.
Qed.
End all_tables.

(** ** Settings *)

Lemma replace_keys_lookup keys values m k :
  NoDup values.*1 → replace_keys keys values m !! k = if bool_decide (k ∈ keys) then py_str <$> field k values else m !! k.
Proof.
  unfold replace_keys. intros Hn.
  assert (∀ m' : gmap string string, fold_left (λ m kv, if bool_decide (kv.1 ∈ keys) then <[kv.1 := py_str kv.2]> m else m) values m' !! k
    = if bool_decide (k ∈ keys) then match field k values with Some v => Some (py_str v) | None => m' !! k end else m' !! k) as H.
  { revert Hn. induction values as [|[k' v] values IH]; intros Hn m'; [by destruct (bool_decide _)|]. cbn in Hn. apply NoDup_cons in Hn as [Hk Hn].
    cbn [fold_left fst snd field]. rewrite (IH Hn). destruct (String.eqb_spec k' k) as [->|Hne].
    - destruct (field k values) as [v'|] eqn:E.
      { apply field_in in E; [|done]. destruct Hk. by apply (list_elem_of_fmap_2 fst _ (k, v')). }
      destruct (bool_decide (k ∈ keys)); [apply lookup_insert_eq|done].
    - destruct (bool_decide (k' ∈ keys)); [|done]. by rewrite lookup_insert_ne. }
  rewrite H. destruct (bool_decide (k ∈ keys)) eqn:E.
  - apply bool_decide_eq_true in E. destruct (field k values); [done|]. apply map_lookup_filter_None_2. right. intros v _ Hf. by apply Hf.
  - apply bool_decide_eq_false in E. destruct (m !! k) as [v|] eqn:Em; [by apply map_lookup_filter_Some_2|].
    apply map_lookup_filter_None_2. by left.
Qed.

Lemma select_keys_ext keys m m' : (∀ k, k ∈ keys → m !! k = m' !! k) → select_keys keys m = select_keys keys m'.
Proof.
  unfold select_keys. induction keys as [|k keys IH]; intros H; [done|]. cbn. rewrite (H k) by left.
  rewrite IH; [done|]. intros k' Hk'. apply H. by right.
Qed.

Lemma select_keys_NoDup keys m : NoDup keys → NoDup (select_keys keys m).*1.
Proof.
  intros Hn. eapply sublist_NoDup; [exact Hn|]. clear Hn. unfold select_keys. induction keys as [|k keys IH]; [constructor|]. cbn.
  destruct (m !! k); cbn; [by constructor|by constructor].
Qed.

Lemma field_select_keys keys m k : k ∈ keys → field k (select_keys keys m) = JStr <$> m !! k.
Proof.
  unfold select_keys. induction keys as [|k' keys IH]; [by intros ?%elem_of_nil|]. intros Hk. cbn.
  destruct (decide (k' = k)) as [->|Hne].
  - destruct (m !! k) eqn:E; cbn; [by rewrite String.eqb_refl|]. destruct (decide (k ∈ keys)) as [Hin|Hout]; [exact (IH Hin)|].
    destruct (field k (omap _ keys)) as [v|] eqn:Ef; [|done].
    assert (k ∈ (omap (λ k, (λ v, (k, JStr v)) <$> m !! k) keys).*1) as Hin; [|].
    { clear -Ef. induction (omap _ keys) as [|[k' v'] l IH]; [done|]. cbn in *. destruct (String.eqb_spec k' k) as [->|]; [left|right; by apply IH]. }
    apply list_elem_of_fmap in Hin as ([k2 v2] & -> & Hin). apply list_elem_of_omap in Hin as (k3 & Hk3 & Hin).
    destruct (m !! k3); [|done]. injection Hin as <- <-. done.
  - apply elem_of_cons in Hk as [->|Hk]; [done|]. destruct (m !! k'); cbn; [|by apply IH]. rewrite (proj2 (String.eqb_neq _ _)) by done. by apply IH.
Qed.

Lemma replace_subset_ok get set keys section fields s :
  items section = Ok fields → (∀ x y s, set x (set y s) = set x s) →
  replace_settings_subset get set keys section s
  = (Ok (), match get s with None => s | Some m => set (Some (replace_keys keys fields m)) s end).
Proof.
  intros Hi Hset. unfold replace_settings_subset. rewrite bind_RM. cbn [rm_get]. destruct (get s) as [m|]; [|done].
  rewrite bind_RM. unfold rm_do at 1. rewrite bind_RM, Hi. unfold rm_lift, rm_do. by rewrite Hset.
Qed.

(** ** Clients and rules, keyed by name *)

(** What the payload says of a client and of a rule *)
Definition pair_of (i : ident_row) : string * string := (id_kind i, id_value i).
Definition pairs (c : ctables) (id : Z) : list (string * string) := pair_of <$> List.filter (λ i, (id_client i =? id)%Z) (ct_identifiers c).
Definition client_spec (c : ctables) (cl : client_row) : string * string * bool * list (string * string) :=
  (cl_name cl, cl_description cl, cl_enabled cl, pairs c (cl_id cl)).
Definition name_of (c : ctables) (id : Z) : option string := cl_name <$> find_first (λ cl, (cl_id cl =? id)%Z) (ct_clients c).
Definition rule_spec (c : ctables) (r : rule_row) : string * string * option string * option string :=
  (ru_action r, ru_kind r, ru_value r, id ← ru_client r; name_of c id).

Definition ident_json (p : string * string) : json := JObj [("kind", JStr p.1); ("value", JStr p.2)].
Definition client_json (x : string * string * bool * list (string * string)) : json :=
  let '(name, description, enabled, l) := x in
  JObj [("description", JStr description); ("enabled", JBool enabled); ("identifiers", JList (ident_json <$> l)); ("name", JStr name)].
Definition rule_json (x : string * string * option string * option string) : json :=
  let '(action, kind, value, client) := x in
  JObj [("action", JStr action); ("client_name", json_text client); ("kind", JStr kind); ("value", json_text value)].

Lemma sort_client (a b c d : json) :
  sort_by by_key [("name", a); ("description", b); ("enabled", c); ("identifiers", d)]
  = [("description", b); ("enabled", c); ("identifiers", d); ("name", a)].
Proof. reflexivity. Qed.
Lemma sort_rule (a b c d : json) :
  sort_by by_key [("action", a); ("kind", b); ("value", c); ("client_name", d)]
  = [("action", a); ("client_name", d); ("kind", b); ("value", c)].
Proof. reflexivity. Qed.

Lemma sort_clients_section c : sort_keys (build_clients_section c) = JList (client_json <$> (client_spec c <$> ct_clients c)).
Proof.
  unfold build_clients_section. cbn [sort_keys]. f_equal. rewrite <-list_fmap_compose.
  change (List.map ?f ?l) with (f <$> l). rewrite <-list_fmap_compose. apply list_fmap_ext. intros i cl _.
  unfold compose, client_json, client_spec, pairs. cbn [sort_keys List.map fst snd]. rewrite sort_client. do 6 f_equal.
  change (List.map ?f ?l) with (f <$> l). rewrite <-!list_fmap_compose. by apply list_fmap_ext.
Qed.

Lemma sort_rules_section c : sort_keys (build_access_rules_section c) = JList (rule_json <$> (rule_spec c <$> ct_rules c)).
Proof.
  unfold build_access_rules_section. cbn [sort_keys]. f_equal. rewrite <-list_fmap_compose.
  change (List.map ?f ?l) with (f <$> l). rewrite <-list_fmap_compose. apply list_fmap_ext. intros i r _. unfold compose, rule_json, rule_spec, name_of.
  cbn [sort_keys List.map fst snd]. rewrite sort_rule. by destruct (ru_value r), (id ← ru_client r; _).
Qed.

(** The sections are functions of what they say. *)
Lemma clients_section_ext c c' : client_spec c <$> ct_clients c = client_spec c' <$> ct_clients c' → build_clients_section c = build_clients_section c'.
Proof.
  intros H. unfold build_clients_section. f_equal.
  assert (∀ c, (λ cl, JObj [("name", JStr (cl_name cl)); ("description", JStr (cl_description cl)); ("enabled", JBool (cl_enabled cl));
      ("identifiers", JList ((λ i, JObj [("kind", JStr (id_kind i)); ("value", JStr (id_value i))]) <$> List.filter (λ i, (id_client i =? cl_id cl)%Z) (ct_identifiers c)))])
      <$> ct_clients c
    = (λ x : string * string * bool * list (string * string), let '(name, description, enabled, l) := x in
         JObj [("name", JStr name); ("description", JStr description); ("enabled", JBool enabled); ("identifiers", JList (ident_json <$> l))])
      <$> (client_spec c <$> ct_clients c)) as E.
  { intros d. rewrite <-list_fmap_compose. apply list_fmap_ext. intros i cl _. cbn. unfold pairs. by rewrite <-list_fmap_compose. }
  by rewrite (E c), (E c'), H.
Qed.

Lemma rules_section_ext c c' : rule_spec c <$> ct_rules c = rule_spec c' <$> ct_rules c' → build_access_rules_section c = build_access_rules_section c'.
Proof.
  intros H. unfold build_access_rules_section. f_equal.
  assert (∀ c, (λ r, JObj [("action", JStr (ru_action r)); ("kind", JStr (ru_kind r)); ("value", json_text (ru_value r));
                 ("client_name", json_text (id ← ru_client r; cl_name <$> find_first (λ cl, (cl_id cl =? id)%Z) (ct_clients c)))]) <$> ct_rules c
    = (λ x : string * string * option string * option string, let '(action, kind, value, client) := x in
         JObj [("action", JStr action); ("kind", JStr kind); ("value", json_text value); ("client_name", json_text client)]) <$> (rule_spec c <$> ct_rules c)) as E.
  { intros d. rewrite <-list_fmap_compose. by apply list_fmap_ext. }
  by rewrite (E c), (E c'), H.
Qed.

(** *** What the schema of [app/clients.py] and its operations keep of these tables *)
Record clients_fit (c : ctables) : Prop := {
  cf_ids : NoDup (cl_id <$> ct_clients c);
  cf_names : Forall (λ cl, strip (cl_name cl) = cl_name cl ∧ cl_name cl ≠ "") (ct_clients c);
  cf_pairs : NoDup (pair_of <$> ct_identifiers c);
  cf_idents : Forall (λ i, id_kind i ∈ IDENTIFIER_KINDS ∧ id_value i ≠ "") (ct_identifiers c);
  cf_rules : Forall (λ r, ru_action r ∈ ["allow"; "deny"]
    ∧ if String.eqb (ru_kind r) "client" then ru_value r = None ∧ ∃ id, ru_client r = Some id ∧ is_Some (name_of c id)
      else ru_kind r ∈ IDENTIFIER_KINDS ∧ ru_client r = None) (ct_rules c) }.

Lemma add_identifiers_spec client ps rows :
  NoDup ((pair_of <$> rows) ++ ps) → Forall (λ p, p.1 ∈ IDENTIFIER_KINDS ∧ p.2 ≠ "") ps →
  ∃ new, add_identifiers client (ident_json <$> ps) rows = Ok (rows ++ new) ∧ pair_of <$> new = ps ∧ Forall (λ i, id_client i = client) new.
Proof.
  revert rows. induction ps as [|[kind value] ps IH]; intros rows Hn Hok.
  { exists []. rewrite app_nil_r. split; [done|]. by split. }
  apply Forall_cons in Hok as [[Hk Hv] Hok]. cbn in Hk, Hv.
  assert (kind ≠ "") as Hk0 by (intros ->; vm_compute in Hk; clear -Hk; repeat (apply elem_of_cons in Hk as [?|Hk]; [done|]); by apply elem_of_nil in Hk).
  destruct kind as [|ch kind]; [done|]. destruct value as [|cv value]; [done|]. clear Hk0 Hv.
  set (k := String ch kind) in *. set (v := String cv value) in *.
  change (add_identifiers client (ident_json <$> (k, v) :: ps) rows)
    with (add_identifiers client (ident_json <$> ps) (insert_identifier client k v rows)).
  unfold insert_identifier. rewrite bool_decide_eq_true_2 by done.
  destruct (existsb _ rows) eqn:E.
  { apply existsb_exists in E as (i & Hi%list_elem_of_In & Heq). apply andb_prop in Heq as [H1%String.eqb_eq H2%String.eqb_eq].
    apply NoDup_app in Hn as (_ & Hd & _). destruct (Hd (k, v)); [|left]. rewrite <-H1, <-H2. by apply (list_elem_of_fmap_2 pair_of _ i). }
  cbn [negb andb]. set (i := mkIdentRow _ client k v). destruct (IH (rows ++ [i])) as (new & Hrun & Hpairs & Hclient); [|done|].
  - rewrite fmap_app. cbn. by rewrite <-app_assoc.
  - exists (i :: new). split; [by rewrite Hrun, <-app_assoc|]. split; [by cbn; rewrite Hpairs|by constructor].
Qed.

(** What the insertions keep: distinct ids, and identifiers of clients that are there *)
Record built (names : gmap string Z) (c : ctables) : Prop := {
  bu_ids : NoDup (cl_id <$> ct_clients c);
  bu_owners : Forall (λ i, id_client i ∈ cl_id <$> ct_clients c) (ct_identifiers c);
  bu_names : map_Forall (λ name id, name_of c id = Some name) names }.

Lemma name_of_In c cl : NoDup (cl_id <$> ct_clients c) → cl ∈ ct_clients c → name_of c (cl_id cl) = Some (cl_name cl).
Proof.
  intros Hn Hcl. unfold name_of. destruct (find_first _ _) as [cl'|] eqn:E.
  - apply find_first_Some in E as [Hin Heq%Z.eqb_eq]. cbn. f_equal. f_equal. by apply (NoDup_fmap_inj cl_id (ct_clients c)).
  - rewrite find_first_None in E. specialize (E cl Hcl). apply Z.eqb_neq in E. done.
Qed.

Lemma filter_none {A} (f : A → bool) l : (∀ x, x ∈ l → f x = false) → List.filter f l = [].
Proof.
  induction l as [|x l IH]; [done|]. intros H. cbn. rewrite (H x) by left. apply IH. intros y Hy. apply H. by right.
Qed.
Lemma filter_all {A} (f : A → bool) l : (∀ x, x ∈ l → f x = true) → List.filter f l = l.
Proof.
  induction l as [|x l IH]; [done|]. intros H. cbn. rewrite (H x) by left. rewrite IH; [done|]. intros y Hy. apply H. by right.
Qed.

(** A client added with its identifiers *)
Definition add_client (c : ctables) (name description : string) (enabled : bool) (new : list ident_row) : ctables :=
  mkCtables (ct_clients c ++ [mkClientRow (fresh_id (cl_id <$> ct_clients c)) name description enabled]) (ct_identifiers c ++ new) (ct_rules c).

Lemma add_client_built names c name description enabled new :
  let id := fresh_id (cl_id <$> ct_clients c) in
  built names c → Forall (λ i, id_client i = id) new →
  built (<[name := id]> names) (add_client c name description enabled new)
  ∧ client_spec (add_client c name description enabled new) <$> ct_clients (add_client c name description enabled new)
    = (client_spec c <$> ct_clients c) ++ [(name, description, enabled, pair_of <$> new)].
Proof.
  intros id [Hids Howners Hnames] Hnew. assert (id ∉ cl_id <$> ct_clients c) as Hfresh by apply fresh_id_notin. split.
  - split; cbn.
    + by apply NoDup_fresh.
    + rewrite fmap_app. apply Forall_app. split.
      * eapply Forall_impl; [exact Howners|]. cbn. intros i Hi. apply elem_of_app. by left.
      * eapply Forall_impl; [exact Hnew|]. cbn. intros i ->. apply elem_of_app. right. left.
    + apply map_Forall_insert_2.
      * exact (name_of_In (add_client c name description enabled new) (mkClientRow id name description enabled)
                 ltac:(by apply NoDup_fresh) ltac:(apply elem_of_app; right; left)).
      * intros n i Hi. specialize (Hnames n i Hi). cbn in Hnames. unfold name_of in *. cbn. rewrite find_first_app.
        by destruct (find_first _ (ct_clients c)).
  - cbn. rewrite fmap_app. cbn. unfold client_spec at 1 2, pairs. cbn. fold id. f_equal.
    + apply list_fmap_ext. intros k cl Hcl%list_elem_of_lookup_2. unfold client_spec, pairs. rewrite List.filter_app, (filter_none _ new), app_nil_r; [done|].
      intros i Hi. rewrite Forall_forall in Hnew. rewrite (Hnew i Hi). apply Z.eqb_neq. intros E. apply Hfresh. rewrite E. by apply list_elem_of_fmap_2.
    + do 2 f_equal. rewrite List.filter_app, (filter_none _ (ct_identifiers c)), (filter_all _ new); [done| |].
      * intros i Hi. rewrite Forall_forall in Hnew. by apply Z.eqb_eq, Hnew.
      * intros i Hi. rewrite Forall_forall in Howners. apply Z.eqb_neq. intros E. apply Hfresh. rewrite <-E. by apply Howners.
Qed.

Lemma Ok_bind {A B} (a : A) (f : A → res B) : (Ok a ≫= f) = f a.
Proof. done. Qed.
Lemma get_or_str fields key v : field key fields = Some (JStr v) → get_or (JObj fields) key (JStr "") = Ok (JStr v).
Proof. intros Hf. unfold get_or, dict_get. rewrite Hf, Ok_bind. by destruct v. Qed.

Lemma add_clients_step name description enabled ps l names c new :
  strip name = name → name ≠ "" → add_identifiers (fresh_id (cl_id <$> ct_clients c)) (ident_json <$> ps) (ct_identifiers c) = Ok (ct_identifiers c ++ new) →
  add_clients (client_json (name, description, enabled, ps) :: l) names c
  = add_clients l (<[name := fresh_id (cl_id <$> ct_clients c)]> names) (add_client c name description enabled new).
Proof.
  intros Hstrip Hne Hadd. cbn [add_clients client_json].
  rewrite (get_or_str _ "name" name), Ok_bind by done. cbn [py_str]. rewrite Hstrip, (proj2 (String.eqb_neq _ _) Hne).
  rewrite (get_or_str _ "description" description), Ok_bind by done. unfold sql_text. cbn [sql_value]. rewrite !Ok_bind.
  unfold dict_get. rewrite Ok_bind. cbv beta zeta.
  rewrite Ok_bind. change (default JNull (field "identifiers" _)) with (JList (ident_json <$> ps)).
  assert ((if py_bool (JList (ident_json <$> ps)) then py_list (JList (ident_json <$> ps)) else Ok []) = Ok (ident_json <$> ps)) as -> by by destruct ps.
  rewrite Ok_bind. destruct c as [clients idents rules]. cbn -[add_identifiers add_clients fresh_id] in *. by rewrite Hadd, Ok_bind.
Qed.

Definition spec_name (x : string * string * bool * list (string * string)) : string := x.1.1.1.

Lemma add_clients_spec specs names c :
  NoDup ((pair_of <$> ct_identifiers c) ++ (specs ≫= snd)) → Forall (λ p, p.1 ∈ IDENTIFIER_KINDS ∧ p.2 ≠ "") (specs ≫= snd) →
  Forall (λ x, strip (spec_name x) = spec_name x ∧ spec_name x ≠ "") specs → built names c →
  ∃ names' c', add_clients (client_json <$> specs) names c = Ok (names', c') ∧ built names' c' ∧ ct_rules c' = ct_rules c
    ∧ client_spec c' <$> ct_clients c' = (client_spec c <$> ct_clients c) ++ specs
    ∧ ∀ n, n ∈ spec_name <$> specs ∨ is_Some (names !! n) → is_Some (names' !! n).
Proof.
  revert names c. induction specs as [|[[[name description] enabled] ps] specs IH]; intros names c Hn Hk Hs Hb.
  { exists names, c. split; [done|]. split; [done|]. split; [done|]. split; [by rewrite app_nil_r|]. by intros n [?%elem_of_nil|]. }
  apply Forall_cons in Hs as [[Hstrip Hne] Hs]. cbn in Hstrip, Hne. cbn in Hn, Hk. apply Forall_app in Hk as [Hk1 Hk2]. rewrite app_assoc in Hn.
  assert (NoDup ((pair_of <$> ct_identifiers c) ++ ps)) as Hn1 by by apply NoDup_app in Hn as [? _].
  destruct (add_identifiers_spec (fresh_id (cl_id <$> ct_clients c)) ps (ct_identifiers c) Hn1 Hk1) as (new & Hadd & Hpairs & Howner).
  destruct (add_client_built names c name description enabled new Hb Howner) as [Hb' Hspec].
  destruct (IH (<[name := fresh_id (cl_id <$> ct_clients c)]> names) (add_client c name description enabled new)) as (names' & c' & Hrun & Hb2 & Hrules & Hspec' & Hin).
  - cbn. by rewrite fmap_app, Hpairs.
  - done.
  - done.
  - done.
  - exists names', c'. split; [|split; [done|split; [done|split]]].
    + etransitivity; [|exact Hrun]. by apply add_clients_step.
    + by rewrite Hspec', Hspec, <-app_assoc, Hpairs.
    + intros n Hn'. apply Hin. destruct (decide (n = name)) as [->|Hne']; [right; by rewrite lookup_insert_eq|].
      rewrite lookup_insert_ne by done. destruct Hn' as [Hn'|]; [|by right]. left. cbn in Hn'. by apply elem_of_cons in Hn' as [->|].
Qed.

(** A rule as the table accepts it, with the names at hand *)
Definition rule_fits (names : gmap string Z) (x : string * string * option string * option string) : Prop :=
  let '(action, kind, value, client) := x in
  action ∈ ["allow"; "deny"]
  ∧ if String.eqb kind "client" then value = None ∧ ∃ n, client = Some n ∧ n ≠ "" ∧ is_Some (names !! n) else kind ∈ IDENTIFIER_KINDS ∧ client = None.

Lemma add_rules_spec names c specs rows :
  built names c → Forall (rule_fits names) specs →
  ∃ rows', add_rules names (rule_json <$> specs) rows = Ok rows' ∧ rule_spec c <$> rows' = (rule_spec c <$> rows) ++ specs.
Proof.
  intros Hb. revert rows. induction specs as [|[[[action kind] value] client] specs IH]; intros rows Hf.
  { exists rows. by rewrite app_nil_r. }
  apply Forall_cons in Hf as [[Ha Hf] Hfs].
  assert (∃ id, (kind ≠ "client" → id = None) ∧ (kind = "client" → ∃ n, client = Some n ∧ names !! n = id ∧ is_Some id ∧ n ≠ "")
    ∧ (i ← id; name_of c i) = client ∧ (value = None ∨ id = None) ∧ kind ∈ "client" :: IDENTIFIER_KINDS) as (id & Hid1 & Hid2 & Hname & Hfree & Hkind).
  { destruct (String.eqb_spec kind "client") as [->|Hne].
    - destruct Hf as (-> & n & -> & Hn & [i Hi]). exists (Some i). split; [done|]. split; [by eauto|]. split; [by apply (bu_names _ _ Hb)|]. split; [by left|left].
    - destruct Hf as [Hk ->]. exists None. repeat split; try done; [by right|by right]. }
  set (r := mkRuleRow (fresh_id (ru_id <$> rows)) action kind value id).
  destruct (IH (rows ++ [r]) Hfs) as (rows' & Hrun & Hspec). exists rows'. split.
  - etransitivity; [|exact Hrun]. cbn [fmap list_fmap add_rules rule_json]. unfold dict_get. rewrite Ok_bind.
    change (default JNull (field "kind" _)) with (JStr kind). cbv beta iota zeta.
    match goal with |- (?m ≫= _) = _ => assert (m = Ok id) as -> end.
    { destruct (String.eqb_spec kind "client") as [->|Hne]; [|by rewrite (Hid1 Hne)]. destruct (Hid2 eq_refl) as (n & -> & <- & _ & Hn0).
      by rewrite (get_or_str _ "client_name" n). }
    rewrite Ok_bind. match goal with |- (if ?b then _ else _) = _ => assert (b = false) as -> end.
    { destruct (String.eqb_spec kind "client") as [->|Hne]; [|done]. destruct (Hid2 eq_refl) as (n & _ & _ & Hsome & _).
      by rewrite bool_decide_eq_true_2. }
    rewrite Ok_bind. change (default JNull (field "action" _)) with (JStr action). change (default JNull (field "value" _)) with (json_text value).
    change (sql_text (JStr action)) with (Ok (Some action) : res (option string)). change (sql_text (JStr kind)) with (Ok (Some kind) : res (option string)).
    rewrite !Ok_bind.
    assert (sql_text (json_text value) = Ok value) as -> by by destruct value.
    rewrite Ok_bind. assert (insert_rule (Some action) (Some kind) value id rows = Ok (rows ++ [r])) as ->; [|done].
    unfold insert_rule. rewrite !bool_decide_eq_true_2 by done. cbn [andb negb].
    by destruct Hfree as [-> | ->]; [|destruct value].
  - rewrite Hspec, fmap_app, <-app_assoc. do 2 f_equal. unfold rule_spec, r. cbn [fmap list_fmap ru_action ru_kind ru_value ru_client]. by rewrite Hname.
Qed.

Lemma specs_pairs c : (client_spec c <$> ct_clients c) ≫= snd = ct_clients c ≫= λ cl, pairs c (cl_id cl).
Proof. induction (ct_clients c) as [|cl l IH]; [done|]. cbn. by rewrite <-IH. Qed.

Lemma elem_of_pairs c p id : p ∈ pairs c id ↔ ∃ i, i ∈ ct_identifiers c ∧ id_client i = id ∧ pair_of i = p.
Proof.
  unfold pairs. rewrite list_elem_of_fmap. split.
  - intros (i & -> & Hi). apply elem_of_filterb in Hi as [Hi E%Z.eqb_eq]. eauto.
  - intros (i & Hi & <- & <-). exists i. split; [done|]. apply elem_of_filterb. split; [done|]. apply Z.eqb_refl.
Qed.

Lemma fit_pairs c : clients_fit c → NoDup ((client_spec c <$> ct_clients c) ≫= snd) ∧ Forall (λ p, p.1 ∈ IDENTIFIER_KINDS ∧ p.2 ≠ "") ((client_spec c <$> ct_clients c) ≫= snd).
Proof.
  intros Hf. rewrite specs_pairs. split.
  - apply NoDup_bind.
    + intros x y p Hx Hy (i & Hi & E1 & Hp)%elem_of_pairs (j & Hj & E2 & Hq)%elem_of_pairs.
      assert (i = j) as <- by (apply (NoDup_fmap_inj pair_of (ct_identifiers c)); [apply Hf|done|done|by rewrite Hp]).
      apply (NoDup_fmap_inj cl_id (ct_clients c)); [apply Hf|done|done|congruence].
    + intros x _. unfold pairs. apply NoDup_fmap_filterb, Hf.
    + apply (NoDup_fmap_1 cl_id), Hf.
  - apply Forall_forall. intros p (cl & Hp & _)%list_elem_of_bind. apply elem_of_pairs in Hp as (i & Hi & _ & <-).
    pose proof (cf_idents c Hf) as H. rewrite Forall_forall in H. by apply H.
Qed.

Lemma fit_rules c names :
  clients_fit c → (∀ n, n ∈ spec_name <$> (client_spec c <$> ct_clients c) → is_Some (names !! n)) → Forall (rule_fits names) (rule_spec c <$> ct_rules c).
Proof.
  intros Hf Hnames. apply Forall_forall. intros x (r & -> & Hr)%list_elem_of_fmap. pose proof (cf_rules c Hf) as H. rewrite Forall_forall in H.
  destruct (H r Hr) as [Ha Hk]. split; [done|]. destruct (String.eqb_spec (ru_kind r) "client") as [E|E]; [|by destruct Hk as [? ->]].
  destruct Hk as (Hv & id & -> & n & Hn). split; [done|]. exists n. cbn [mbind option_bind]. split; [done|].
  unfold name_of in Hn. destruct (find_first _ _) as [cl|] eqn:Ef; [|done]. injection Hn as <-. apply find_first_Some in Ef as [Hcl _].
  split.
  - pose proof (cf_names c Hf) as Hnm. rewrite Forall_forall in Hnm. by apply Hnm.
  - apply Hnames. rewrite <-list_fmap_compose. by apply (list_elem_of_fmap_2 (spec_name ∘ client_spec c) _ cl).
Qed.

Lemma client_spec_names c : spec_name <$> (client_spec c <$> ct_clients c) = cl_name <$> ct_clients c.
Proof. rewrite <-list_fmap_compose. by apply list_fmap_ext. Qed.

(** The sections of the clients, applied, say the same again. *)
Lemma apply_clients_spec c s :
  clients_fit c → is_Some (rs_clients s) →
  ∃ c', apply_clients_access_sections (Some (sort_keys (build_clients_section c))) (Some (sort_keys (build_access_rules_section c))) s
      = (Ok (), s{{rs_clients := Some c'}})
    ∧ build_clients_section c' = build_clients_section c ∧ build_access_rules_section c' = build_access_rules_section c.
Proof.
  intros Hf [old Hs]. rewrite sort_clients_section, sort_rules_section.
  destruct (fit_pairs c Hf) as [Hp1 Hp2].
  destruct (add_clients_spec (client_spec c <$> ct_clients c) ∅ (mkCtables [] [] [])) as (names & c' & Hrun & Hb & Hr & Hspec & Hnames).
  - done.
  - done.
  - pose proof (cf_names c Hf) as H. apply Forall_fmap. eapply Forall_impl; [exact H|]. done.
  - split; [apply NoDup_nil_2|constructor|apply map_Forall_empty].
  - destruct (add_rules_spec names c' (rule_spec c <$> ct_rules c) [] Hb) as (rows & Hrun2 & Hspec2).
    { apply fit_rules; [done|]. intros n Hn. apply Hnames. by left. }
    exists (c'{{ct_rules := rows}}). split; [|split].
    + unfold apply_clients_access_sections. rewrite bind_RM. unfold rm_get. rewrite Hs, bind_RM. unfold rm_do at 1. rewrite bind_RM.
      assert (∀ l, elements_of (Some (JList l)) = Ok l) as Hel by by intros [|? ?]. rewrite !Hel. unfold rm_lift at 1. rewrite bind_RM, Hrun.
      unfold rm_lift at 1. rewrite bind_RM. unfold rm_lift at 1. rewrite bind_RM, Hrun2. unfold rm_lift, rm_do. by destruct s.
    + apply clients_section_ext. by destruct c'.
    + apply rules_section_ext. destruct c' as [clients idents rules]. exact Hspec2.
Qed.
