(* ===== verification/ReplicaSync.v ===== *)
(** * A replica that synchronises

    What [Replication] promises: a payload keeps its sections on the way, its tables can be
    applied to another database, a sync installs a generation or leaves the replica as it
    was, and a replica that installed one holds the payload of the primary. *)

From S2P Require Import Prelude PyStr StrLemmas IpAddr PyJson JsonText JsonRead Versions Releases Enrollment Replication.

(** ** The sections of a payload *)

Lemma field_app k l1 l2 : field k (l1 ++ l2) = match field k l1 with Some v => Some v | None => field k l2 end.
Proof. induction l1 as [|[k' v] l IH]; [done|]. cbn. by destruct (String.eqb k' k). Qed.

Lemma field_None k l : k ∉ l.*1 → field k l = None.
Proof.
  induction l as [|[k' v] l IH]; [done|]. cbn. intros [Hne Hl]%not_elem_of_cons. rewrite (proj2 (String.eqb_neq _ _)) by done. by apply IH.
Qed.

Lemma field_not_None k l v : field k l = Some v → k ∈ l.*1.
Proof. intros Hf. destruct (decide (k ∈ l.*1)) as [|Hn]; [done|]. by rewrite (field_None k l Hn) in Hf. Qed.

(** The tables of the list that exist, with the named columns *)
Definition listed (tables : gmap string (list row)) : list (string * list string) → list (string * json) :=
  omap (λ '(table, columns), (λ rows, (table, JList (select columns <$> rows))) <$> tables !! table).

Lemma listed_keys tables l : (listed tables l).*1 `sublist_of` l.*1.
Proof. induction l as [|[t c] l IH]; [constructor|]. cbn. destruct (tables !! t); cbn; by constructor. Qed.

Lemma listed_field tables l t columns :
  NoDup l.*1 → (t, columns) ∈ l → field t (listed tables l) = (λ rows, JList (select columns <$> rows)) <$> tables !! t.
Proof.
  induction l as [|[t' c'] l IH]; [by intros _ ?%elem_of_nil|]. cbn. intros [Hnot Hn]%NoDup_cons [[= -> ->]|Hin]%elem_of_cons.
  - destruct (tables !! t') eqn:E; cbn; [by rewrite String.eqb_refl|].
    apply field_None. intros H. apply Hnot. eapply elem_of_submseteq; [exact H|]. apply sublist_submseteq, listed_keys.
  - assert (t' ≠ t) as Hne by (intros ->; apply Hnot; by apply (list_elem_of_fmap_2 fst _ (t, columns))).
    destruct (tables !! t'); cbn; [|by apply IH]. rewrite (proj2 (String.eqb_neq _ _)) by done. by apply IH.
Qed.

Lemma listed_ext a b l :
  (∀ t columns, (t, columns) ∈ l → fmap (select columns) <$> a !! t = fmap (select columns) <$> b !! t) → listed a l = listed b l.
Proof.
  induction l as [|[t c] l IH]; intros H; [done|].
  assert (∀ x, listed x ((t, c) :: l) = match x !! t with Some rows => (t, JList (select c <$> rows)) :: listed x l | None => listed x l end) as E.
  { intros x. unfold listed. cbn. by destruct (x !! t). }
  rewrite !E, (IH (λ t c Hin, H t c (list_elem_of_further _ _ _ Hin))). pose proof (H t c (list_elem_of_here _ _)) as Ht.
  destruct (a !! t), (b !! t); try done. by injection Ht as ->.
Qed.

Lemma tables_NoDup : NoDup (REPLICABLE_TABLES.*1).
Proof. apply (bool_decide_unpack _). by vm_compute. Qed.
Lemma columns_NoDup t columns : (t, columns) ∈ REPLICABLE_TABLES → NoDup columns.
Proof.
  assert (Forall (λ e, NoDup e.2) REPLICABLE_TABLES) as H by (apply (bool_decide_unpack _); by vm_compute).
  rewrite Forall_forall in H. intros Hin. by apply (H (t, columns)).
Qed.

Lemma table_sections_listed tables : table_sections tables = listed tables REPLICABLE_TABLES.
Proof.
  assert (Forall (λ e, e.1 ∉ NEVER_REPLICATED_TABLES) REPLICABLE_TABLES) as H by (apply (bool_decide_unpack _); by vm_compute).
  unfold table_sections, listed. induction H as [|[t c] l Ht _ IH]; [done|]. cbn in *. rewrite bool_decide_eq_false_2 by done.
  by rewrite IH.
Qed.

Definition other_names : list string :=
  ["local_dns_settings"; "dns_cache_settings"; "encryption_settings"; "ca_certificate_pem"; "clients"; "client_access_rules"].
Definition section_names : list string := REPLICABLE_TABLES.*1 ++ other_names.

Lemma section_names_NoDup : NoDup section_names.
Proof. apply (bool_decide_unpack _). by vm_compute. Qed.

Definition payload_rest (encryption certificates : bool) (ca : option string) (s : rstate) : list (string * json) :=
  settings_section "local_dns_settings" REPLICABLE_LOCAL_DNS_SETTING_KEYS (rs_local s)
  ++ settings_section "dns_cache_settings" REPLICABLE_CACHE_SETTING_KEYS (rs_cache s)
  ++ (if encryption then settings_section "encryption_settings" REPLICABLE_ENCRYPTION_SETTING_KEYS (rs_encryption s) else [])
  ++ (if certificates then match ca with Some t => [("ca_certificate_pem", JStr t)] | None => [] end else [])
  ++ match rs_clients s with
     | Some c => [("clients", build_clients_section c); ("client_access_rules", build_access_rules_section c)]
     | None => []
     end.

Lemma payload_split enc cert ca s : build_payload enc cert ca s = listed (rs_tables s) REPLICABLE_TABLES ++ payload_rest enc cert ca s.
Proof. unfold build_payload. by rewrite table_sections_listed. Qed.

Lemma settings_keys name keys m : (settings_section name keys m).*1 `sublist_of` [name].
Proof. destruct m; cbn; [done|constructor; constructor]. Qed.

Lemma rest_keys enc cert ca s : (payload_rest enc cert ca s).*1 `sublist_of` other_names.
Proof.
  unfold payload_rest. rewrite !fmap_app.
  change other_names with (["local_dns_settings"] ++ ["dns_cache_settings"] ++ ["encryption_settings"] ++ ["ca_certificate_pem"] ++ ["clients"; "client_access_rules"]).
  repeat apply sublist_app; try apply settings_keys.
  - destruct enc; [apply settings_keys|apply sublist_nil_l].
  - destruct cert, ca; cbn; try apply sublist_nil_l; done.
  - destruct (rs_clients s); [done|apply sublist_nil_l].
Qed.

Lemma payload_NoDup enc cert ca s : NoDup (build_payload enc cert ca s).*1.
Proof.
  eapply sublist_NoDup; [apply section_names_NoDup|]. rewrite payload_split, fmap_app. apply sublist_app; [apply listed_keys|apply rest_keys].
Qed.

(** What a list with these keys does not hold *)
Lemma field_absent k l names : l.*1 `sublist_of` names → k ∉ names → field k l = None.
Proof. intros Hl Hk. apply field_None. intros H. apply Hk. eapply elem_of_submseteq; [exact H|]. by apply sublist_submseteq. Qed.

Lemma table_not_other t columns : (t, columns) ∈ REPLICABLE_TABLES → t ∉ other_names.
Proof.
  intros Hin Hother. pose proof section_names_NoDup as Hn. apply NoDup_app in Hn as (_ & Hd & _). apply (Hd t); [|done].
  by apply (list_elem_of_fmap_2 fst _ (t, columns)).
Qed.

Lemma payload_table enc cert ca s t columns :
  (t, columns) ∈ REPLICABLE_TABLES → field t (build_payload enc cert ca s) = (λ rows, JList (select columns <$> rows)) <$> rs_tables s !! t.
Proof.
  intros Hin. rewrite payload_split, field_app, (listed_field _ _ t columns tables_NoDup Hin).
  destruct (rs_tables s !! t); [done|]. cbn. eapply field_absent; [apply rest_keys|]. by eapply table_not_other.
Qed.

Lemma listed_None_other tables k : k ∈ other_names → field k (listed tables REPLICABLE_TABLES) = None.
Proof.
  intros Hk. apply (field_absent k _ REPLICABLE_TABLES.*1); [apply listed_keys|].
  intros Hin. pose proof section_names_NoDup as Hn. apply NoDup_app in Hn as (_ & Hd & _). by apply (Hd k).
Qed.

Lemma payload_other enc cert ca s k : k ∈ other_names → field k (build_payload enc cert ca s) = field k (payload_rest enc cert ca s).
Proof. intros Hk. by rewrite payload_split, field_app, listed_None_other. Qed.

Definition keys_json (keys : list string) (m : gmap string string) : json := JObj (select_keys keys m).

Ltac read_other s enc cert ca :=
  rewrite payload_other by (apply (bool_decide_unpack _); by vm_compute); unfold payload_rest;
  by destruct (rs_local s), (rs_cache s), enc, (rs_encryption s), cert, ca, (rs_clients s).

Lemma payload_local enc cert ca s :
  field "local_dns_settings" (build_payload enc cert ca s) = keys_json REPLICABLE_LOCAL_DNS_SETTING_KEYS <$> rs_local s.
Proof. read_other s enc cert ca. Qed.
Lemma payload_cache enc cert ca s :
  field "dns_cache_settings" (build_payload enc cert ca s) = keys_json REPLICABLE_CACHE_SETTING_KEYS <$> rs_cache s.
Proof. read_other s enc cert ca. Qed.
Lemma payload_encryption enc cert ca s :
  field "encryption_settings" (build_payload enc cert ca s)
  = if enc then keys_json REPLICABLE_ENCRYPTION_SETTING_KEYS <$> rs_encryption s else None.
Proof. read_other s enc cert ca. Qed.
Lemma payload_clients enc cert ca s : field "clients" (build_payload enc cert ca s) = build_clients_section <$> rs_clients s.
Proof. read_other s enc cert ca. Qed.
Lemma payload_rules enc cert ca s : field "client_access_rules" (build_payload enc cert ca s) = build_access_rules_section <$> rs_clients s.
Proof. read_other s enc cert ca. Qed.

(** ** Applying the sections of a state *)

Definition fields_of (section : option json) : list (string * json) := match section with Some (JObj fields) => fields | _ => [] end.

(** A section of settings that holds the ones of a table *)
Definition reads_keys (keys : list string) (section : option json) (m : option (gmap string string)) : Prop :=
  items section = Ok (fields_of section)
  ∧ ∀ m', m = Some m' → NoDup (fields_of section).*1 ∧ ∀ k, k ∈ keys → field k (fields_of section) = JStr <$> m' !! k.

Lemma reads_keys_select keys section m m' :
  reads_keys keys section (Some m') → select_keys keys (replace_keys keys (fields_of section) m) = select_keys keys m'.
Proof.
  intros [_ H]. destruct (H m' eq_refl) as [Hn Hf]. apply select_keys_ext. intros k Hk.
  rewrite replace_keys_lookup, bool_decide_eq_true_2, (Hf k Hk) by done. by destruct (m' !! k).
Qed.

(** The same tables exist. *)
Record same_shape (a b : rstate) : Prop := {
  sh_tables : ∀ t columns, (t, columns) ∈ REPLICABLE_TABLES → is_Some (rs_tables a !! t) ↔ is_Some (rs_tables b !! t);
  sh_local : is_Some (rs_local a) ↔ is_Some (rs_local b);
  sh_cache : is_Some (rs_cache a) ↔ is_Some (rs_cache b);
  sh_encryption : is_Some (rs_encryption a) ↔ is_Some (rs_encryption b) }.

(** The same rows in what replication names, with or without the settings of the encryption *)
Record same_tables (encryption : bool) (a b : rstate) : Prop := {
  st_tables : ∀ t columns, (t, columns) ∈ REPLICABLE_TABLES → fmap (select columns) <$> rs_tables a !! t = fmap (select columns) <$> rs_tables b !! t;
  st_local : select_keys REPLICABLE_LOCAL_DNS_SETTING_KEYS <$> rs_local a = select_keys REPLICABLE_LOCAL_DNS_SETTING_KEYS <$> rs_local b;
  st_cache : select_keys REPLICABLE_CACHE_SETTING_KEYS <$> rs_cache a = select_keys REPLICABLE_CACHE_SETTING_KEYS <$> rs_cache b;
  st_encryption : encryption = true →
    select_keys REPLICABLE_ENCRYPTION_SETTING_KEYS <$> rs_encryption a = select_keys REPLICABLE_ENCRYPTION_SETTING_KEYS <$> rs_encryption b }.

Lemma fmap_same {A B} (f : A → B) (a b : option A) : f <$> a = f <$> b → is_Some a ↔ is_Some b.
Proof. destruct a, b; cbn; intros; simplify_eq; split; by intros [? ?]. Qed.

Lemma settings_section_fmap name keys m :
  settings_section name keys m = match select_keys keys <$> m with Some l => [(name, JObj l)] | None => [] end.
Proof. by destruct m. Qed.

Lemma same_tables_snapshot a b : same_tables true a b → snapshot_replicable_tables a = snapshot_replicable_tables b.
Proof.
  intros [Ht Hl Hc He]. unfold snapshot_replicable_tables. rewrite !settings_section_fmap, Hl, Hc, (He eq_refl).
  f_equal. by apply listed_ext.
Qed.

Lemma same_tables_payload enc ca ca' a b :
  same_tables enc a b → build_clients_section <$> rs_clients a = build_clients_section <$> rs_clients b →
  build_access_rules_section <$> rs_clients a = build_access_rules_section <$> rs_clients b →
  build_payload enc false ca a = build_payload enc false ca' b.
Proof.
  intros [Ht Hl Hc He] Hcl Hru. rewrite !payload_split. unfold payload_rest. rewrite !settings_section_fmap, Hl, Hc. f_equal; [by apply listed_ext|].
  do 2 f_equal. f_equal; [destruct enc; [by rewrite (He eq_refl)|done]|]. f_equal.
  destruct (rs_clients a), (rs_clients b); try done. apply (inj Some) in Hcl. apply (inj Some) in Hru. by rewrite Hcl, Hru.
Qed.

Lemma apply_settings_run get s :
  items (get "local_dns_settings") = Ok (fields_of (get "local_dns_settings")) →
  items (get "dns_cache_settings") = Ok (fields_of (get "dns_cache_settings")) →
  items (get "encryption_settings") = Ok (fields_of (get "encryption_settings")) →
  apply_settings get s = apply_clients_access_sections (get "clients") (get "client_access_rules")
    (s{{rs_local ::= fmap (replace_keys REPLICABLE_LOCAL_DNS_SETTING_KEYS (fields_of (get "local_dns_settings")))}}
      {{rs_cache ::= fmap (replace_keys REPLICABLE_CACHE_SETTING_KEYS (fields_of (get "dns_cache_settings")))}}
      {{rs_encryption ::= fmap (replace_keys REPLICABLE_ENCRYPTION_SETTING_KEYS (fields_of (get "encryption_settings")))}}).
Proof.
  intros H1 H2 H3. unfold apply_settings. rewrite bind_RM, (replace_subset_ok _ _ _ _ _ _ H1) by done.
  rewrite bind_RM, (replace_subset_ok _ _ _ _ _ _ H2) by done. rewrite bind_RM, (replace_subset_ok _ _ _ _ _ _ H3) by done.
  f_equal. destruct s as [t [l|] [c|] [e|] cl se ge hi]; reflexivity.
Qed.

Section reapply.
Context (violates : string → list row → row → option pyexc) (filled : string → list row → row).
Context (sections : list (string * json)) (cols : list string → json → list string) (src : rstate).

(** The sections hold the tables of [src], which SQLite accepts. *)
Record reads (encryption : bool) : Prop := {
  re_tables : ∀ t columns, (t, columns) ∈ REPLICABLE_TABLES →
    match rs_tables src !! t with
    | None => field t sections = None
    | Some rows => ∃ js, field t sections = Some (JList js) ∧ (cols columns (JList js) = columns ∨ js = [])
        ∧ Forall2 (represents columns) js rows ∧ Forall (scalar_row columns) rows ∧ accepted violates t columns rows
    end;
  re_local : reads_keys REPLICABLE_LOCAL_DNS_SETTING_KEYS (field "local_dns_settings" sections) (rs_local src);
  re_cache : reads_keys REPLICABLE_CACHE_SETTING_KEYS (field "dns_cache_settings" sections) (rs_cache src);
  re_encryption : reads_keys REPLICABLE_ENCRYPTION_SETTING_KEYS (field "encryption_settings" sections) (if encryption then rs_encryption src else None) }.

Lemma reads_select keys section (a b : option (gmap string string)) :
  reads_keys keys section a → is_Some a ↔ is_Some b → select_keys keys <$> (replace_keys keys (fields_of section) <$> b) = select_keys keys <$> a.
Proof.
  intros H Hs. destruct a as [m'|], b as [m|]; cbn; try done.
  - by rewrite (reads_keys_select keys section m m').
  - by destruct (proj1 Hs (ex_intro _ m' eq_refl)).
  - by destruct (proj2 Hs (ex_intro _ m eq_refl)).
Qed.

Lemma reads_fits enc s entry : reads enc → same_shape src s → entry ∈ REPLICABLE_TABLES →
  section_fits violates sections cols (λ t, default [] (rs_tables src !! t)) (rs_tables s) entry.
Proof.
  destruct entry as [t columns]. intros Hr _ Hin j Hj _. cbn [fst snd] in *. pose proof (re_tables _ Hr t columns Hin) as H.
  destruct (rs_tables src !! t) as [rows|]; [|congruence]. destruct H as (js & Hf & Hrest). assert (j = JList js) as -> by congruence. by exists js.
Qed.

Lemma reapply enc s :
  reads enc → same_shape src s →
  ∃ s', (_ ← rm_each (replace_step violates filled sections cols) REPLICABLE_TABLES; apply_settings (λ key, field key sections)) s
      = apply_clients_access_sections (field "clients" sections) (field "client_access_rules" sections) s'
    ∧ same_tables enc s' src ∧ rs_clients s' = rs_clients s ∧ rs_settings s' = rs_settings s.
Proof.
  intros Hr Hs. destruct (replace_tables_spec violates filled sections cols (λ t, default [] (rs_tables src !! t)) REPLICABLE_TABLES s tables_NoDup)
    as (new & Hrun & _ & Hnew). { intros entry Hin. by apply (reads_fits enc). }
  rewrite bind_RM, Hrun, apply_settings_run by apply Hr. eexists. split; [reflexivity|]. split; [|by destruct s].
  destruct s as [tables local cache encr clients se ge hi]. split; cbn.
  - intros t columns Hin. specialize (Hnew t columns Hin). pose proof (re_tables _ Hr t columns Hin) as H. pose proof (sh_tables _ _ Hs t columns Hin) as Ht.
    cbn in Hnew, Ht. destruct (rs_tables src !! t) as [rows|].
    + destruct H as (js & Hf & _). rewrite bool_decide_eq_true_2 in Hnew by (split; [by rewrite Hf|apply Ht; eauto]).
      destruct Hnew as (rows' & -> & Hsel). cbn. by rewrite Hsel.
    + rewrite bool_decide_eq_false_2 in Hnew by (intros [[? ?] _]; congruence). rewrite Hnew. destruct (tables !! t); [|done].
      destruct (proj2 Ht) as [? ?]; [eauto|done].
  - apply reads_select; [apply Hr|apply Hs].
  - apply reads_select; [apply Hr|apply Hs].
  - intros ->. apply reads_select; [apply Hr|apply Hs].
Qed.
End reapply.

(** *** What SQLite holds in the tables of a state, and accepts again *)
Record fits (violates : string → list row → row → option pyexc) (s : rstate) : Prop := {
  fi_scalar : ∀ t columns rows, (t, columns) ∈ REPLICABLE_TABLES → rs_tables s !! t = Some rows → Forall (scalar_row columns) rows;
  fi_accepted : ∀ t columns rows, (t, columns) ∈ REPLICABLE_TABLES → rs_tables s !! t = Some rows → accepted violates t columns rows;
  fi_clients : ∀ c, rs_clients s = Some c → clients_fit c }.

Lemma row_keys_select columns rows : row_keys (JList (select columns <$> rows)) = columns ∨ select columns <$> rows = [].
Proof.
  destruct rows as [|r rows]; [by right|left]. cbn. rewrite <-list_fmap_compose. apply list_fmap_id.
Qed.

Lemma Forall2_select columns rows (P : json → row → Prop) (f : json → json) :
  Forall (λ r, P (f (select columns r)) r) rows → Forall2 P (f <$> (select columns <$> rows)) rows.
Proof. induction 1; cbn; by constructor. Qed.

Lemma snapshot_field s : 
  (∀ t columns, (t, columns) ∈ REPLICABLE_TABLES → field t (snapshot_replicable_tables s) = (λ rows, JList (select columns <$> rows)) <$> rs_tables s !! t)
  ∧ field "local_dns_settings" (snapshot_replicable_tables s) = keys_json REPLICABLE_LOCAL_DNS_SETTING_KEYS <$> rs_local s
  ∧ field "dns_cache_settings" (snapshot_replicable_tables s) = keys_json REPLICABLE_CACHE_SETTING_KEYS <$> rs_cache s
  ∧ field "encryption_settings" (snapshot_replicable_tables s) = keys_json REPLICABLE_ENCRYPTION_SETTING_KEYS <$> rs_encryption s
  ∧ field "clients" (snapshot_replicable_tables s) = None ∧ field "client_access_rules" (snapshot_replicable_tables s) = None.
Proof.
  change (snapshot_replicable_tables s) with (listed (rs_tables s) REPLICABLE_TABLES
    ++ settings_section "local_dns_settings" REPLICABLE_LOCAL_DNS_SETTING_KEYS (rs_local s)
    ++ settings_section "dns_cache_settings" REPLICABLE_CACHE_SETTING_KEYS (rs_cache s)
    ++ settings_section "encryption_settings" REPLICABLE_ENCRYPTION_SETTING_KEYS (rs_encryption s)).
  split. { intros t columns Hin. rewrite field_app, (listed_field _ _ t columns tables_NoDup Hin). destruct (rs_tables s !! t); [done|]. cbn.
    apply (field_absent t _ other_names); [|by eapply table_not_other]. rewrite !fmap_app.
    change other_names with (["local_dns_settings"] ++ ["dns_cache_settings"] ++ ["encryption_settings"; "ca_certificate_pem"; "clients"; "client_access_rules"]).
    repeat apply sublist_app; try apply settings_keys. destruct (rs_encryption s); cbn; [apply sublist_skip, sublist_nil_l|apply sublist_nil_l]. }
  rewrite !field_app, !listed_None_other by (apply (bool_decide_unpack _); by vm_compute).
  by destruct (rs_local s), (rs_cache s), (rs_encryption s).
Qed.

Lemma reads_keys_json keys (m : option (gmap string string)) : NoDup keys → reads_keys keys (keys_json keys <$> m) m.
Proof.
  intros Hn. destruct m as [m|]; [|done]. split; [done|]. intros m' [= <-]. cbn. split; [by apply select_keys_NoDup|].
  intros k Hk. by apply field_select_keys.
Qed.

Lemma keys_NoDup :
  NoDup REPLICABLE_LOCAL_DNS_SETTING_KEYS ∧ NoDup REPLICABLE_CACHE_SETTING_KEYS ∧ NoDup REPLICABLE_ENCRYPTION_SETTING_KEYS.
Proof. split; [|split]; apply (bool_decide_unpack _); by vm_compute. Qed.

Lemma reads_snapshot violates s : fits violates s → reads violates (snapshot_replicable_tables s) (λ _ rows, row_keys rows) s true.
Proof.
  intros Hf. destruct (snapshot_field s) as (Ht & Hl & Hc & He & _ & _). destruct keys_NoDup as (N1 & N2 & N3). split.
  - intros t columns Hin. rewrite (Ht t columns Hin). destruct (rs_tables s !! t) as [rows|] eqn:E; [|done]. cbn.
    eexists. split; [reflexivity|]. split; [apply row_keys_select|]. split; [|split; [by eapply fi_scalar|by eapply fi_accepted]].
    rewrite <-(list_fmap_id (select columns <$> rows)). apply (Forall2_select columns rows (represents columns) id).
    apply Forall_forall. intros r _. apply represents_select.
  - rewrite Hl. by apply reads_keys_json.
  - rewrite Hc. by apply reads_keys_json.
  - rewrite He. by apply reads_keys_json.
Qed.

(** The sections of a payload as they arrive *)
Definition arrived (sections : list (string * json)) : list (string * json) :=
  sort_by by_key (List.map (λ kv, (kv.1, sort_keys kv.2)) sections).

Lemma arrived_field sections k : NoDup sections.*1 → field k (arrived sections) = sort_keys <$> field k sections.
Proof.
  intros Hn. unfold arrived. rewrite field_sorted; [by apply field_map|].
  change (NoDup ((λ kv : string * json, (kv.1, sort_keys kv.2)) <$> sections).*1). by rewrite <-list_fmap_compose.
Qed.

Lemma reads_keys_arrived keys (m : option (gmap string string)) : NoDup keys → reads_keys keys (sort_keys <$> (keys_json keys <$> m)) m.
Proof.
  intros Hn. destruct m as [m|]; [|done]. split; [done|]. intros m' [= <-].
  change (fields_of (sort_keys <$> (keys_json keys <$> Some m))) with (arrived (select_keys keys m)). split.
  - unfold arrived. rewrite sort_by_keys. change (NoDup ((λ kv : string * json, (kv.1, sort_keys kv.2)) <$> select_keys keys m).*1).
    rewrite <-list_fmap_compose. by apply select_keys_NoDup.
  - intros k Hk. rewrite arrived_field by by apply select_keys_NoDup. rewrite field_select_keys by done. by destruct (m !! k).
Qed.

Lemma reads_arrived violates enc cert ca s : fits violates s → reads violates (arrived (build_payload enc cert ca s)) (λ columns _, columns) s enc.
Proof.
  intros Hf. destruct keys_NoDup as (N1 & N2 & N3). pose proof (payload_NoDup enc cert ca s) as Hn. split.
  - intros t columns Hin. rewrite arrived_field, (payload_table _ _ _ _ t columns Hin) by done.
    destruct (rs_tables s !! t) as [rows|] eqn:E; [|done]. cbn [fmap option_fmap option_map sort_keys].
    eexists. split; [reflexivity|]. split; [by left|]. pose proof (fi_scalar _ _ Hf t columns rows Hin E) as Hsc.
    split; [|split; [done|by eapply fi_accepted]]. apply (Forall2_select columns rows (represents columns) sort_keys).
    eapply Forall_impl; [exact Hsc|]. intros r Hr. apply represents_sorted; [by eapply columns_NoDup|done].
  - rewrite arrived_field, payload_local by done. by apply reads_keys_arrived.
  - rewrite arrived_field, payload_cache by done. by apply reads_keys_arrived.
  - rewrite arrived_field, payload_encryption by done. destruct enc; [by apply reads_keys_arrived|done].
Qed.

(** A payload has no repeated key at any depth. *)
Lemma dict_ok_keys_json keys m : NoDup keys → dict_ok (keys_json keys m) = true.
Proof.
  intros Hn. cbn [keys_json dict_ok]. apply andb_true_iff. split; [by apply bool_decide_eq_true_2, select_keys_NoDup|].
  apply forallb_forall. intros kv Hkv%list_elem_of_In. apply list_elem_of_omap in Hkv as (k & _ & Hk). destruct (m !! k); [|done]. by injection Hk as <-.
Qed.

Lemma dict_ok_rows columns rows : NoDup columns → Forall (scalar_row columns) rows → dict_ok (JList (select columns <$> rows)) = true.
Proof.
  intros Hn Hs. cbn [dict_ok]. apply forallb_forall. intros j Hj%list_elem_of_In. apply list_elem_of_fmap in Hj as (r & -> & Hr).
  rewrite Forall_forall in Hs. specialize (Hs r Hr). cbn [select dict_ok]. apply andb_true_iff. split.
  - apply bool_decide_eq_true_2. rewrite <-list_fmap_compose. by rewrite list_fmap_id.
  - apply forallb_forall. intros kv Hkv%list_elem_of_In. apply list_elem_of_fmap in Hkv as (c & -> & Hc). specialize (Hs c Hc).
    unfold scalar, cell in Hs. cbn. by destruct (default JNull (r !! c)).
Qed.

Lemma dict_ok_clients c : dict_ok (build_clients_section c) = true.
Proof.
  cbn [build_clients_section dict_ok]. apply forallb_forall. intros j Hj%list_elem_of_In. apply list_elem_of_fmap in Hj as (cl & -> & _).
  cbn [dict_ok]. apply andb_true_iff. split; [by vm_compute|]. cbn [forallb snd dict_ok]. rewrite !andb_true_r. cbn [andb].
  apply forallb_forall. intros j Hj%list_elem_of_In. by apply list_elem_of_fmap in Hj as (i & -> & _).
Qed.

Lemma dict_ok_rules c : dict_ok (build_access_rules_section c) = true.
Proof.
  cbn [build_access_rules_section dict_ok]. apply forallb_forall. intros j Hj%list_elem_of_In. apply list_elem_of_fmap in Hj as (r & -> & _).
  by destruct (ru_value r), (id ← ru_client r; cl_name <$> find_first (λ cl, (cl_id cl =? id)%Z) (ct_clients c)).
Qed.

Lemma dict_ok_payload violates enc cert ca s : fits violates s → dict_ok (JObj (build_payload enc cert ca s)) = true.
Proof.
  intros Hf. cbn [dict_ok]. apply andb_true_iff. split; [by apply bool_decide_eq_true_2, payload_NoDup|]. destruct keys_NoDup as (N1 & N2 & N3).
  assert (∀ name keys m, NoDup keys → forallb (λ kv, dict_ok kv.2) (settings_section name keys m) = true) as Hset.
  { intros name keys m Hk. destruct m; [|done]. cbn [settings_section forallb snd]. rewrite andb_true_r. by apply dict_ok_keys_json. }
  rewrite payload_split. unfold payload_rest. rewrite !forallb_app, !Hset by done.
  assert (forallb (λ kv, dict_ok kv.2) (listed (rs_tables s) REPLICABLE_TABLES) = true) as ->.
  { apply forallb_forall. intros kv Hkv%list_elem_of_In. apply list_elem_of_omap in Hkv as ([t columns] & Hin & Hkv).
    destruct (rs_tables s !! t) as [rows|] eqn:E; [|done]. injection Hkv as <-. cbn [snd].
    apply dict_ok_rows; [by eapply columns_NoDup|by eapply fi_scalar]. }
  cbn [andb]. rewrite !andb_true_iff. split; [destruct enc; [by apply Hset|done]|]. split; [by destruct cert, ca|].
  destruct (rs_clients s) as [c|]; [|done]. cbn [forallb snd]. by rewrite dict_ok_clients, dict_ok_rules.
Qed.

(** ** The generation that was created last is the one that is served *)

Lemma max_number_ge l g : g ∈ l → (g_number g ≤ max_number l)%Z.
Proof.
  destruct l as [|g0 l]; [by intros ?%elem_of_nil|]. cbn. revert g0. induction l as [|g1 l IH]; intros g0; cbn.
  - by intros ->%list_elem_of_singleton.
  - intros [->|[->|Hg]%elem_of_cons]%elem_of_cons.
    + specialize (IH g0 ltac:(left)). lia.
    + lia.
    + specialize (IH g0 ltac:(by right)). lia.
Qed.

Lemma max_number_snoc l g : (max_number l < g_number g)%Z → max_number (l ++ [g]) = g_number g.
Proof.
  destruct l as [|g0 l]; [done|]. cbn. induction l as [|g1 l IH]; cbn; [lia|]. intros H.
  rewrite IH; lia.
Qed.

Lemma newest_snoc l g : g_number g = (max_number l + 1)%Z → newest (l ++ [g]) = Some g.
Proof.
  intros Hg. unfold newest. rewrite max_number_snoc by lia. rewrite find_first_app.
  destruct (find_first _ l) as [g'|] eqn:E.
  - apply find_first_Some in E as [Hin H%Z.eqb_eq]. apply max_number_ge in Hin. lia.
  - cbn. by rewrite Z.eqb_refl.
Qed.

(** The document of a generation *)
Definition document (g : generation) (sections : json) : json :=
  JObj [("generation_number", JInt (g_number g)); ("created_at", JStr (g_created g)); ("source_node_id", JStr (g_source g));
        ("schema_version", JInt (g_schema g)); ("content_hash", JStr (g_hash g)); ("sections", sections)].

Lemma node_id_tables uuid s :
  rs_tables (node_id uuid s).2 = rs_tables s ∧ rs_local (node_id uuid s).2 = rs_local s ∧ rs_cache (node_id uuid s).2 = rs_cache s
  ∧ rs_encryption (node_id uuid s).2 = rs_encryption s ∧ rs_clients (node_id uuid s).2 = rs_clients s
  ∧ rs_generations (node_id uuid s).2 = rs_generations s ∧ rs_history (node_id uuid s).2 = rs_history s.
Proof. unfold node_id. destruct (rs_settings s !! "node_id"); [done|]. by destruct s. Qed.

(** [settings] changes nothing but the settings. *)
Lemma settings_frame uuid s :
  (settings uuid s).2 = s{{rs_settings := (settings uuid s).1}}.
Proof.
  unfold settings. pose proof (node_id_tables uuid s) as (H1 & H2 & H3 & H4 & H5 & H6 & H7). destruct (node_id uuid s).2 as [? ? ? ? ? ? ? ?].
  destruct s. cbn in *. by subst.
Qed.

Lemma payload_settings enc cert ca s m : build_payload enc cert ca (s{{rs_settings := m}}) = build_payload enc cert ca s.
Proof. by destruct s. Qed.

Lemma create_latest sha256 uuid now ca enc cert p g p' violates :
  fits violates p → create_generation sha256 uuid now ca (Some enc) (Some cert) p = (g, p') →
  latest_generation p' = Ok (Some (document g (JObj (arrived (build_payload enc cert ca p)))))
  ∧ g_hash g = content_hash sha256 (JObj (build_payload enc cert ca p)) ∧ g_schema g = SCHEMA_VERSION.
Proof.
  intros Hf. unfold create_generation. pose proof (settings_frame uuid p) as Hs. destruct (settings uuid p) as [cfg s]. cbn [fst snd] in Hs. subst s.
  rewrite payload_settings. assert (rs_generations (p{{rs_settings := cfg}}) = rs_generations p) as -> by by destruct p.
  intros [= <- <-]. split; [|done]. unfold latest_generation. match goal with |- context [newest ?l] => change l with (rs_generations p ++ [mkGeneration (max_number (rs_generations p) + 1) now
    (node_id uuid (p{{rs_settings := cfg}})).1 SCHEMA_VERSION (canonical_json (JList (JStr <$> (build_payload enc cert ca p).*1)))
    (content_hash sha256 (JObj (build_payload enc cert ca p))) (canonical_json (JObj (build_payload enc cert ca p)))]) end.
  rewrite newest_snoc by done. cbn [g_payload]. rewrite loads_canonical by by eapply dict_ok_payload. done.
Qed.

(** ** What applying any sections keeps: which tables exist, and the settings of the replication *)

Section keeps.
Context (violates : string → list row → row → option pyexc) (filled : string → list row → row) (base : rstate).

Definition like (s : rstate) : Prop := same_shape base s ∧ rs_settings s = rs_settings base.
Definition keeps {A} (m : RM A) : Prop := ∀ s, like s → like (m s).2.

Lemma keeps_mret {A} (a : A) : keeps (mret a).
Proof. intros s Hs. exact Hs. Qed.
Lemma keeps_lift {A} (r : res A) : keeps (rm_lift r).
Proof. intros s Hs. exact Hs. Qed.
Lemma keeps_do f : (∀ s, like s → like (f s)) → keeps (rm_do f).
Proof. intros Hf s Hs. exact (Hf s Hs). Qed.
Lemma keeps_mbind {A B} (m : RM A) (f : A → RM B) : keeps m → (∀ a, keeps (f a)) → keeps (m ≫= f).
Proof. intros Hm Hf s Hs. rewrite bind_RM. specialize (Hm s Hs). destruct (m s) as [[a|e] s']; [by apply Hf|done]. Qed.
(** The continuation after reading sees the state that was read. *)
Lemma keeps_get {A B} (g : rstate → A) (f : A → RM B) : (∀ s, like s → like (f (g s) s).2) → keeps (rm_get g ≫= f).
Proof. intros Hf s Hs. rewrite bind_RM. by apply Hf. Qed.
Lemma keeps_each {A} (f : A → RM ()) l : (∀ x, x ∈ l → keeps (f x)) → keeps (rm_each f l).
Proof.
  induction l as [|x l IH]; intros Hf; [apply keeps_mret|]. apply keeps_mbind; [by apply Hf; left|]. intros _. apply IH. intros y Hy. apply Hf. by right.
Qed.

Lemma like_table t rows s : is_Some (rs_tables base !! t) → like s → like (s{{rs_tables ::= <[t := rows]>}}).
Proof.
  intros Ht [[T L C E] Hset]. destruct s as [tables local cache enc cl se ge hi]. split; [|done]. split; [|done|done|done].
  intros t' columns Hin. cbn. destruct (decide (t' = t)) as [->|Hne]; [rewrite lookup_insert_eq; by split; eauto|].
  rewrite lookup_insert_ne by done. by apply (T t' columns).
Qed.
Lemma like_clients c s : like s → like (s{{rs_clients := c}}).
Proof. intros [[T L C E] Hset]. by destruct s. Qed.

Lemma keeps_insert_rows t columns rows : is_Some (rs_tables base !! t) → keeps (insert_rows violates filled t columns rows).
Proof.
  intros Ht. apply keeps_mbind; [apply keeps_lift|]. intros tuples. apply keeps_each. intros values _. apply keeps_mbind; [apply keeps_lift|].
  intros values' s Hs. unfold insert_row. destruct (violates t _ _); [done|]. by apply like_table.
Qed.

Lemma keeps_replace_table cols columns t rows : (t, columns) ∈ REPLICABLE_TABLES → keeps (replace_table violates filled cols t rows).
Proof.
  intros Hin. apply keeps_get. intros s Hs. destruct (bool_decide _) eqn:E; [|done].
  apply bool_decide_eq_true in E. assert (is_Some (rs_tables base !! t)) as Ht by by apply (sh_tables _ _ (proj1 Hs) t columns).
  revert s Hs E. assert (∀ s, like s → like ((_ ← rm_do (λ s, s{{rs_tables ::= <[t := []]>}});
    rows ← (if py_bool rows then rm_lift (py_list rows) else mret []); insert_rows violates filled t cols rows) s).2) as H; [|by intros s Hs _; apply H].
  apply (keeps_mbind (rm_do _)); [apply keeps_do; intros s; by apply like_table|]. intros _.
  apply keeps_mbind; [destruct (py_bool rows); [apply keeps_lift|apply keeps_mret]|]. intros l. by apply keeps_insert_rows.
Qed.

Lemma keeps_subset get set keys section :
  (∀ m s, is_Some (get s) → like s → like (set (Some m) s)) → (∀ m s, is_Some (get (set (Some m) s))) →
  keeps (replace_settings_subset get set keys section).
Proof.
  intros Hset Hget. apply keeps_get. intros s Hs. destruct (get s) as [m|] eqn:E; [|done]. rewrite bind_RM. unfold rm_do at 1.
  assert (like (set (Some (filter (λ kv, kv.1 ∉ keys) m)) s)) as H1 by (apply Hset; eauto). rewrite bind_RM. unfold rm_lift.
  destruct (items section); [|done]. by apply Hset.
Qed.

Lemma keeps_apply_clients clients rules : keeps (apply_clients_access_sections clients rules).
Proof.
  assert (keeps (c ← rm_get rs_clients; match c with None => mret () | Some _ =>
    _ ← rm_do (λ s, s{{rs_clients := Some (mkCtables [] [] [])}}); l ← rm_lift (elements_of clients);
    '(names, c) ← rm_lift (add_clients l ∅ (mkCtables [] [] [])); rl ← rm_lift (elements_of rules);
    rows ← rm_lift (add_rules names rl []); rm_do (λ s, s{{rs_clients := Some (c{{ct_rules := rows}})}}) end)) as H.
  { apply keeps_get. intros s Hs. destruct (rs_clients s) as [x|]; [|done]. clear x. revert s Hs. apply (keeps_mbind (rm_do _)); [apply keeps_do; intros s; apply like_clients|].
    intros _. apply keeps_mbind; [apply keeps_lift|]. intros l. apply keeps_mbind; [apply keeps_lift|]. intros [names c].
    apply keeps_mbind; [apply keeps_lift|]. intros rl. apply keeps_mbind; [apply keeps_lift|]. intros rows. apply keeps_do. intros s. apply like_clients. }
  unfold apply_clients_access_sections. destruct clients, rules; try exact H. apply keeps_mret.
Qed.

Lemma keeps_apply_settings get : keeps (apply_settings get).
Proof.
  unfold apply_settings. repeat (apply keeps_mbind; [|intros _]); [| | |apply keeps_apply_clients]; apply keeps_subset; try by intros ? [].
  all: intros m s Hm [[T L C E] Hset]; destruct s as [? ? ? ? ? ? ? ?]; split; [|done]; split; try done; cbn in *; split; [eauto|intros _].
  - by apply L.
  - by apply C.
  - by apply E.
Qed.

Lemma keeps_apply_sections sections : keeps (apply_sections violates filled sections).
Proof.
  unfold apply_sections. apply keeps_mbind; [|intros _; apply keeps_apply_settings]. apply keeps_each. intros [t columns] Hin.
  destruct (field t sections); [by eapply keeps_replace_table|apply keeps_mret].
Qed.
End keeps.

(** ** One synchronisation *)

Lemma apply_sections_step violates filled sections s :
  apply_sections violates filled sections s
  = (_ ← rm_each (replace_step violates filled sections (λ columns _, columns)) REPLICABLE_TABLES; apply_settings (λ key, field key sections)) s.
Proof. done. Qed.

Lemma restore_snapshot_step violates filled sections s :
  restore_snapshot violates filled sections s
  = (_ ← rm_each (replace_step violates filled sections (λ _ rows, row_keys rows)) REPLICABLE_TABLES; apply_settings (λ key, field key sections)) s.
Proof. done. Qed.

(** The sections of a payload, applied, give that payload. *)
Lemma apply_arrived violates filled enc cert ca ca' p r :
  fits violates p → same_shape p r → (is_Some (rs_clients p) ↔ is_Some (rs_clients r)) →
  ∃ r', apply_sections violates filled (arrived (build_payload enc cert ca p)) r = (Ok (), r')
    ∧ build_payload enc false ca' r' = build_payload enc false ca p.
Proof.
  intros Hf Hs Hcl. rewrite apply_sections_step.
  destruct (reapply violates filled _ _ p enc r (reads_arrived violates enc cert ca p Hf) Hs) as (r1 & -> & Hst & Hrc & _).
  rewrite !arrived_field, payload_clients, payload_rules by apply payload_NoDup.
  destruct (rs_clients p) as [c|] eqn:Ep.
  - destruct (apply_clients_spec c r1) as (c' & Hrun & H1 & H2).
    + by eapply fi_clients.
    + rewrite Hrc. apply Hcl. eauto.
    + eexists. split; [exact Hrun|]. apply same_tables_payload.
      * destruct Hst. by split.
      * rewrite Ep. cbn. by rewrite H1.
      * rewrite Ep. cbn. by rewrite H2.
  - exists r1. split; [done|]. assert (rs_clients r1 = None) as Hn.
    { rewrite Hrc. destruct (rs_clients r); [|done]. destruct (proj2 Hcl) as [? ?]; [eauto|done]. }
    apply same_tables_payload; by rewrite ?Ep, ?Hn.
Qed.

Lemma update_payload enc cert ca values s : build_payload enc cert ca (update_settings values s) = build_payload enc cert ca s.
Proof. by destruct s. Qed.
Lemma history_payload enc cert ca f s : build_payload enc cert ca (s{{rs_history ::= f}}) = build_payload enc cert ca s.
Proof. by destruct s. Qed.

Lemma same_shape_settings a b m : same_shape a b → same_shape a (b{{rs_settings := m}}).
Proof. intros [? ? ? ?]. by split. Qed.

(** The fields a replica reads, of a document of the primary *)
Lemma document_read sha256 g sections :
  g_schema g = SCHEMA_VERSION → g_hash g = content_hash sha256 sections →
  generation_number (document g sections) = Ok (g_number g) ∧ item (document g sections) "content_hash" = Ok (JStr (g_hash g))
  ∧ generation_schema (document g sections) = Ok (JInt 1, 1%Z) ∧ item (document g sections) "sections" = Ok sections
  ∧ declares sha256 (JStr (g_hash g)) sections = true.
Proof.
  intros Hs Hh. repeat split; [|unfold declares; rewrite Hh; by apply String.eqb_refl]. unfold generation_schema, document. cbn. by rewrite Hs.
Qed.

Lemma finish_sync_fields now n hash s :
  rs_settings (finish_sync now n (JStr hash) s).2 !! "last_applied_hash" = Some hash
  ∧ rs_settings (finish_sync now n (JStr hash) s).2 !! "last_applied_generation" = Some (str_int n).
Proof. destruct s. cbn. split; by simplify_map_eq. Qed.

Lemma last_fields r now s f k :
  k ≠ "last_sync_status" → k ≠ "last_sync_at" →
  rs_settings (update_settings [("last_sync_status", sr_result r); ("last_sync_at", now)] (s{{rs_history ::= f}})) !! k = rs_settings s !! k.
Proof. intros H1 H2. destruct s. cbn. by rewrite !lookup_insert_ne. Qed.

Lemma settings_kept uuid s k v : rs_settings s !! k = Some v → (settings uuid s).1 !! k = Some v.
Proof.
  intros Hk. unfold settings. cbn. assert (rs_settings (node_id uuid s).2 !! k = Some v) as H.
  { unfold node_id. destruct (rs_settings s !! "node_id") eqn:E; [done|]. destruct s. cbn in *. rewrite lookup_insert_ne; [done|]. congruence. }
  destruct (node_id uuid s).2. cbn in *. by apply lookup_union_Some_l.
Qed.

Lemma no_drift sha256 uuid now ca s :
  rs_settings s !! "last_applied_hash" = Some (content_hash sha256 (JObj (build_payload false false ca s))) →
  (check_drift sha256 uuid now ca s).1.1.1 = false.
Proof.
  intros Hk%(settings_kept uuid). unfold check_drift. pose proof (settings_frame uuid s) as Hs. destruct (settings uuid s) as [cfg s1]. cbn [fst snd] in *. subst s1.
  rewrite Hk, payload_settings. cbn. by rewrite String.eqb_refl, andb_false_r.
Qed.

(** A replica that accepts the document of the primary applies its payload and deploys it. *)
Lemma sync_applies sha256 now ca ca' enc cert p g violates filled deploy force cfg r :
  let sections := arrived (build_payload enc cert ca p) in
  fits violates p → same_shape p r → (is_Some (rs_clients p) ↔ is_Some (rs_clients r)) →
  g_schema g = SCHEMA_VERSION → g_hash g = content_hash sha256 (JObj (build_payload enc cert ca p)) →
  (force = true ∨ ∃ last, py_int (JStr (default "0" (cfg !! "last_applied_generation"))) = Ok last ∧ (last < g_number g)%Z) →
  ∃ r1, build_payload enc false ca' r1 = build_payload enc false ca p
    ∧ (∀ out, (deploy r1).1 = Ok (true, out) → sync_generation sha256 now violates filled deploy force cfg (document g (JObj sections)) r
         = finish_sync now (g_number g) (JStr (g_hash g)) (deploy r1).2).
Proof.
  intros sections Hf Hs Hcl Hschema Hhash Hlast.
  assert (g_hash g = content_hash sha256 (JObj sections)) as Hh by by rewrite Hhash, <-hash_sorted.
  destruct (document_read sha256 g (JObj sections) Hschema Hh) as (D1 & D2 & D3 & D4 & D5).
  destruct (apply_arrived violates filled enc cert ca ca' p r Hf Hs Hcl) as (r1 & Hrun & Hpay). fold sections in Hrun.
  exists r1. split; [done|]. intros out Hd. unfold sync_generation. rewrite D1. cbn [or_error]. rewrite D2. cbn [or_error].
  assert (∃ last, (if force then Ok 0%Z else py_int (JStr (default "0" (cfg !! "last_applied_generation")))) = Ok last
    ∧ negb force && (g_number g <=? last)%Z = false) as (last & -> & Hle).
  { destruct force; [by exists 0%Z|]. destruct Hlast as [|(last & Hl & Hlt)]; [done|]. exists last. split; [done|]. cbn. lia. }
  cbn [or_error]. rewrite Hle, D3. cbn [or_error]. change (SCHEMA_VERSION <? 1)%Z with false. cbv iota. rewrite D4. cbn [or_error]. rewrite D5. cbn [negb].
  unfold apply_and_deploy. rewrite Hrun. destruct (deploy r1) as [d r3]. cbn in Hd. by subst d.
Qed.


(** ** All or nothing *)

Section atomic.
Context (sha256 : string → string) (uuid now : string).
Context (violates : string → list row → row → option pyexc) (filled : string → list row → row).
Context (fetched : res (option json)) (deploy : rstate → res (bool * string) * rstate).

(** The deployment runs, and leaves which tables exist and the settings of the replication. *)
Definition deploys : Prop := ∀ x, is_ok (deploy x).1 = true ∧ same_shape x (deploy x).2 ∧ rs_settings (deploy x).2 = rs_settings x.

(** What a sync that does not succeed leaves *)
Definition untouched (s s' : rstate) : Prop :=
  snapshot_replicable_tables s' = snapshot_replicable_tables s
  ∧ rs_settings s' !! "last_applied_generation" = rs_settings s !! "last_applied_generation"
  ∧ rs_settings s' !! "last_applied_hash" = rs_settings s !! "last_applied_hash".

(** What a sync that succeeds accepted *)
Definition installed (force : bool) (cfg : gmap string string) (generation : json) (s' : rstate) : Prop :=
  ∃ n sections,
    generation_number generation = Ok n ∧ item generation "sections" = Ok sections
    ∧ item generation "content_hash" = Ok (JStr (content_hash sha256 sections))
    ∧ (∃ v version, generation_schema generation = Ok (v, version) ∧ (version ≤ SCHEMA_VERSION)%Z)
    ∧ (force = true ∨ ∃ last, py_int (JStr (default "0" (cfg !! "last_applied_generation"))) = Ok last ∧ (last < n)%Z)
    ∧ rs_settings s' !! "last_applied_generation" = Some (str_int n)
    ∧ rs_settings s' !! "last_applied_hash" = Some (content_hash sha256 sections).

Definition outcome (good : rstate → Prop) (s : rstate) (x : sync_result * rstate) : Prop :=
  if String.eqb (sr_result x.1) "success" then good x.2 else untouched s x.2.

Lemma untouched_refl s : untouched s s.
Proof. done. Qed.

Lemma restore_same s x :
  fits violates s → same_shape s x →
  ∃ x', restore_snapshot violates filled (snapshot_replicable_tables s) x = (Ok (), x') ∧ snapshot_replicable_tables x' = snapshot_replicable_tables s
    ∧ rs_settings x' = rs_settings x.
Proof.
  intros Hf Hs. rewrite restore_snapshot_step.
  destruct (reapply violates filled _ _ s true x (reads_snapshot violates s Hf) Hs) as (x' & -> & Hst & _ & Hset).
  destruct (snapshot_field s) as (_ & _ & _ & _ & -> & ->). exists x'. split; [done|]. split; [by apply same_tables_snapshot|done].
Qed.

Lemma like_trans a b c : like a b → same_shape b c → rs_settings c = rs_settings b → like a c.
Proof.
  intros [[T1 L1 C1 E1] S1] [T2 L2 C2 E2] S2. split; [|by rewrite S2]. split.
  - intros t columns Hin. by rewrite (T1 t columns Hin), (T2 t columns Hin).
  - by rewrite L1, L2.
  - by rewrite C1, C2.
  - by rewrite E1, E2.
Qed.

Lemma apply_and_deploy_outcome n hash sections s :
  fits violates s → deploys →
  outcome (λ s', ∃ s2, s' = (finish_sync now n hash s2).2) s (apply_and_deploy now violates filled deploy n hash sections s).
Proof.
  intros Hf Hdep. unfold apply_and_deploy. destruct sections as [| | | | |fields]; try apply untouched_refl.
  assert (like s s) as Hss by (by split; [split|]).
  pose proof (keeps_apply_sections violates filled s fields s Hss) as Hk.
  destruct (apply_sections violates filled fields s) as [[[]|e] s1]; [|apply untouched_refl]. cbn in Hk.
  destruct (Hdep s1) as (Hok & Hshape & Hset). destruct (deploy s1) as [[[ok output]|e] s2]; [|done]. cbn in Hshape, Hset.
  destruct (like_trans _ _ _ Hk Hshape Hset) as [Hshape2 Hset2].
  destruct ok; [exact (ex_intro _ s2 eq_refl)|]. destruct (restore_same s s2 Hf Hshape2) as (x' & -> & Hsnap & Hx). change (untouched s x'). unfold untouched.
  by rewrite Hsnap, Hx, Hset2.
Qed.

Lemma outcome_error good s n (e : pyexc) : outcome good s (mkSyncResult "error" (exc_message e) n, s).
Proof. done. Qed.

Lemma sync_generation_outcome force cfg generation s :
  fits violates s → deploys →
  outcome (installed force cfg generation) s (sync_generation sha256 now violates filled deploy force cfg generation s).
Proof.
  intros Hf Hdep. unfold sync_generation. destruct (generation_number generation) as [n|] eqn:En; [|apply outcome_error]. cbn [or_error].
  destruct (item generation "content_hash") as [hash|] eqn:Eh; [|apply outcome_error]. cbn [or_error].
  destruct (if force then Ok 0%Z else py_int _) as [last|] eqn:El; [|apply outcome_error]. cbn [or_error].
  destruct (negb force && (n <=? last)%Z) eqn:Ele; [apply untouched_refl|].
  destruct (generation_schema generation) as [[v version]|] eqn:Ev; [|apply outcome_error]. cbn [or_error].
  destruct (SCHEMA_VERSION <? version)%Z eqn:Esch; [apply untouched_refl|].
  destruct (item generation "sections") as [sections|] eqn:Es; [|apply outcome_error]. cbn [or_error].
  destruct (declares sha256 hash sections) eqn:Ed; [|apply untouched_refl]. cbn [negb].
  destruct hash as [| | |h| |]; try done. apply String.eqb_eq in Ed. subst h.
  pose proof (apply_and_deploy_outcome n (JStr (content_hash sha256 sections)) sections s Hf Hdep) as H. unfold outcome in *.
  destruct (String.eqb _ "success"); [|exact H]. destruct H as (s2 & ->). exists n, sections.
  destruct (finish_sync_fields now n (content_hash sha256 sections) s2) as [F1 F2].
  split; [done|]. split; [done|]. split; [done|]. split; [exists v, version; split; [done|lia]|]. split; [|done].
  destruct force; [by left|right]. exists last. split; [done|]. cbn in Ele. lia.
Qed.

Lemma fits_settings s m : fits violates s → fits violates (s{{rs_settings := m}}).
Proof. intros [? ? ?]. by destruct s. Qed.

End atomic.

(** C33: A replica that synchronises with a primary holds what the primary published: when the
    same tables exist, the replica is not paused and the generation is newer, or the sync is
    forced, and the deployment succeeds, the sync succeeds, the payload built from the replica
    equals the payload of the primary (the CA certificate apart, which a replica does not
    install), the recorded hash is the hash of the generation and, when the optional sections
    are off, no drift is seen. *)
Theorem replica_matches_primary sha256 uuid uuid' now now' ca ca' enc cert p p' g violates filled deploy force r out :
  create_generation sha256 uuid now ca (Some enc) (Some cert) p = (g, p') →
  fits violates p → same_shape p r → (is_Some (rs_clients p) ↔ is_Some (rs_clients r)) →
  (force = true ∨ (settings uuid' r).1 !! "paused" ≠ Some "1" ∧
     ∃ last, py_int (JStr (default "0" ((settings uuid' r).1 !! "last_applied_generation"))) = Ok last ∧ (last < g_number g)%Z) →
  (∀ x, (deploy x).1 = Ok (true, out) ∧ build_payload enc false ca' (deploy x).2 = build_payload enc false ca' x) →
  let '(result, r') := replica_sync_once sha256 uuid' now' violates filled (latest_generation p') deploy force r in
  sr_result result = "success"
  ∧ build_payload enc false ca' r' = build_payload enc false ca p
  ∧ rs_settings r' !! "last_applied_hash" = Some (g_hash g)
  ∧ (enc = false → cert = false → (check_drift sha256 uuid' now' ca' r').1.1.1 = false).
Proof.
  intros Hg Hf Hs Hcl Hlast Hdep. destruct (create_latest sha256 uuid now ca enc cert p g p' violates Hf Hg) as (Hlatest & Hhash & Hschema).
  unfold replica_sync_once. pose proof (settings_frame uuid' r) as Hset. destruct (settings uuid' r) as [cfg r0]. cbn [fst snd] in *. subst r0.
  rewrite Hlatest.
  assert (bool_decide (cfg !! "paused" = Some "1") && negb force = false) as ->.
  { destruct Hlast as [-> |[Hp _]]; [by rewrite andb_false_r|]. by rewrite bool_decide_eq_false_2. }
  destruct (sync_applies sha256 now' ca ca' enc cert p g violates filled deploy force cfg (r{{rs_settings := cfg}}) Hf) as (r1 & Hpay & Hrun).
  { by apply same_shape_settings. }
  { by destruct r. }
  { done. }
  { done. }
  { destruct Hlast as [|[_ H]]; [by left|by right]. }
  destruct (Hdep r1) as [Hout Hkeep]. rewrite (Hrun out Hout). rewrite <-Hkeep in Hpay.
  rewrite <-(update_payload enc false ca' _ (deploy r1).2 : build_payload enc false ca' (finish_sync now' (g_number g) (JStr (g_hash g)) (deploy r1).2).2 = _) in Hpay.
  destruct (finish_sync_fields now' (g_number g) (g_hash g) (deploy r1).2) as [F1 F2].
  destruct (finish_sync now' _ _ _) as [result r4] eqn:Efin. assert (sr_result result = "success") as Hres by (by injection Efin as <- _).
  cbn [fst snd] in *. split; [done|]. rewrite update_payload, history_payload, last_fields by done. split; [done|]. split; [done|].
  intros -> ->. apply no_drift. rewrite update_payload, history_payload, last_fields, Hpay by done. by rewrite F1, Hhash.
Qed.

(** ** Concrete replicas *)

Definition scalarb (v : json) : bool := match v with JList _ | JObj _ => false | _ => true end.

Lemma fits_check s :
  forallb (λ e, match rs_tables s !! e.1 with Some rows => forallb (λ r, forallb (λ c, scalarb (cell r c)) e.2) rows | None => true end) REPLICABLE_TABLES
  = true → (∀ c, rs_clients s = Some c → clients_fit c) → fits (λ _ _ _, None) s.
Proof.
  intros H Hc. split; [|by intros|done]. intros t columns rows Hin Ht. rewrite forallb_forall in H.
  specialize (H (t, columns) (proj1 (list_elem_of_In _ _) Hin)). cbn [fst snd] in H. rewrite Ht in H. rewrite forallb_forall in H.
  apply Forall_forall. intros r Hr c Hcol. specialize (H r (proj1 (list_elem_of_In _ _) Hr)). rewrite forallb_forall in H.
  specialize (H c (proj1 (list_elem_of_In _ _) Hcol)). unfold scalar. by destruct (cell r c).
Qed.

Definition ex_clients : ctables :=
  mkCtables [mkClientRow 4 "tv" "living room" true] [mkIdentRow 1 4 "ipv4" "192.0.2.7"] [mkRuleRow 1 "deny" "client" None (Some 4%Z)].
Definition ex_primary : rstate :=
  mkRstate {[ "sources" := [list_to_map [("id", JInt 1); ("name", JStr "ads"); ("url", JStr "https://example.org/ads"); ("enabled", JInt 1)]] ]}
    (Some {[ "default_ttl" := "300" ]}) (Some ∅) (Some {[ "doh_enabled" := "1" ]}) (Some ex_clients) ∅ [] [].
Definition ex_replica : rstate :=
  mkRstate {[ "sources" := [list_to_map [("id", JInt 9); ("name", JStr "old"); ("url", JStr "https://example.org/old"); ("enabled", JInt 0)]] ]}
    (Some ∅) (Some ∅) (Some {[ "doh_enabled" := "1" ]}) (Some (mkCtables [mkClientRow 1 "printer" "" true] [] [])) ∅ [] [].
Definition ex_created : generation * rstate := create_generation id "node-p" "t0" None (Some false) (Some false) ex_primary.

Lemma ex_primary_fits : fits (λ _ _ _, None) ex_primary.
Proof.
  apply fits_check; [by vm_compute|]. intros c [= <-]. split; try (apply (bool_decide_unpack _); by vm_compute).
  apply Forall_singleton. split; [by right; left|]. split; [done|]. exists 4%Z. split; [done|]. by exists "tv".
Qed.
Lemma ex_replica_fits : fits (λ _ _ _, None) ex_replica.
Proof.
  apply fits_check; [by vm_compute|]. intros c [= <-]. split; try (apply (bool_decide_unpack _); by vm_compute); by repeat constructor.
Qed.
Lemma ex_shape : same_shape ex_primary ex_replica.
Proof.
  split; try (split; cbn; by eauto).
  assert (Forall (λ e, is_Some (rs_tables ex_primary !! e.1) ↔ is_Some (rs_tables ex_replica !! e.1)) REPLICABLE_TABLES) as H
    by (apply (bool_decide_unpack _); by vm_compute).
  rewrite Forall_forall in H. intros t columns Hin. by apply (H (t, columns)).
Qed.


Lemma replica_matches_primary_witness :
  let '(result, r') := replica_sync_once id "node-r" "t1" (λ _ _ _, None) (λ _ _, ∅) (latest_generation ex_created.2) (λ s, (Ok (true, ""), s)) false ex_replica in
  sr_result result = "success" ∧ build_payload false false None r' = build_payload false false None ex_primary.
Proof.
  assert (create_generation id "node-p" "t0" None (Some false) (Some false) ex_primary = (ex_created.1, ex_created.2)) as Hg by apply surjective_pairing.
  assert (is_Some (rs_clients ex_primary) ↔ is_Some (rs_clients ex_replica)) as Hcl by (split; cbn; eauto).
  assert (false = true ∨ (settings "node-r" ex_replica).1 !! "paused" ≠ Some "1" ∧
    ∃ last, py_int (JStr (default "0" ((settings "node-r" ex_replica).1 !! "last_applied_generation"))) = Ok last ∧ (last < g_number ex_created.1)%Z) as Hlast.
  { right. split; [by vm_compute|]. exists 0%Z. by vm_compute. }
  pose proof (replica_matches_primary id "node-p" "node-r" "t0" "t1" None None false false ex_primary ex_created.2 ex_created.1
    (λ _ _ _, None) (λ _ _, ∅) (λ s, (Ok (true, ""), s)) false ex_replica "" Hg ex_primary_fits ex_shape Hcl Hlast (λ x, conj eq_refl eq_refl)) as H.
  destruct (replica_sync_once _ _ _ _ _ _ _ _ _) as [result r']. destruct H as (H1 & H2 & _). by split.
Defined.

(** What the way back and the payload leave out, on one replica: after a failed deployment
    reports a rollback, the clients and the access rules are the ones of the generation that
    was rejected; and a generation that does not carry the encryption settings, applied with
    success, deletes the replica's own. *)
Theorem sync_flaws :
  let sync ok := replica_sync_once id "node-r" "t1" (λ _ _ _, None) (λ _ _, ∅) (latest_generation ex_created.2)
    (λ s, (Ok (ok, "bind did not start"), s)) false ex_replica in
  sr_message (sync false).1 = "deploy failed, rolled back: bind did not start"
  ∧ (cl_name <$> from_option ct_clients [] (rs_clients ex_replica)) = ["printer"]
  ∧ (cl_name <$> from_option ct_clients [] (rs_clients (sync false).2)) = ["tv"]
  ∧ (ru_action <$> from_option ct_rules [] (rs_clients (sync false).2)) = ["deny"]
  ∧ sr_result (sync true).1 = "success"
  ∧ (rs_encryption ex_replica ≫= lookup "doh_enabled") = Some "1"
  ∧ (rs_encryption (sync true).2 ≫= lookup "doh_enabled") = None.
Proof. by vm_compute. Qed.
