(* ===== verification/Categories.v ===== *)
(** * Categories of blocklist sources

    [app/blocklist_categories.py], and the handlers of [app/webapp.py] that change sources: the
    managed categories, the migration of the free text that older databases hold, and the
    sources that refer to a category by its key. *)

From S2P Require Import Prelude PyStr StrLemmas Versions Releases.

Definition CategoryError (m : string) : pyexc := PyExc "CategoryError" m.
Definition UNCATEGORIZED_KEY : string := "uncategorized".

(** ** Tables *)

(** app/alderpointdns_compiler.py:382-386 _apply_schema *)
Record category := mkCategory { ca_key : string; ca_name : string; ca_description : string }.
(** app/alderpointdns_compiler.py:345-350 _apply_schema

    The columns that the panel edits; the category is nullable in old databases. *)
Record csource := mkCsource { cs_id : Z; cs_name : string; cs_url : string; cs_enabled : bool; cs_category : option string }.
Record catdb := mkCatdb { k_categories : list category; k_sources : list csource }.

Definition keys_of (db : catdb) : list string := ca_key <$> k_categories db.
Definition has_key (key : string) (db : catdb) : bool := bool_decide (key ∈ keys_of db).

(** ** Names and keys *)

(** [re.sub] of the maximal runs of a class of characters *)
Fixpoint runs (p : ascii → bool) (r : string) (inside : bool) (s : string) : string :=
  match s with
  | "" => ""
  | String c s => if p c then (if inside then "" else r) +:+ runs p r true s else String c (runs p r false s)
  end.

(** app/blocklist_categories.py:49-50 normalize_name *)
Definition normalize_name (raw : string) : string := runs is_space " " false (strip raw).

Definition key_char (c : ascii) : bool := is_lower_az c || is_09 c.

(** app/blocklist_categories.py:53-55 slugify *)
Definition slugify (raw : string) : string := strip_char "_" (runs (negb ∘ key_char) "_" false (lower (strip raw))).

(** The collation NOCASE folds the 26 ASCII letters. *)
Definition nocase : string → string := smap (λ c, if is_upper_az c then ascii_of_N (code c + 32) else c).

Definition already_exists (name : string) : pyexc := CategoryError ("category " +:+ dquote +:+ name +:+ dquote +:+ " already exists").

(** ** Operations *)

(** app/blocklist_categories.py:58-62 _ensure_uncategorized *)
Definition ensure_uncategorized (db : catdb) : catdb :=
  if has_key UNCATEGORIZED_KEY db then db
  else db{{k_categories ::= (λ l, l ++ [mkCategory UNCATEGORIZED_KEY "Uncategorized" "Blocklist sources without a specific category"])}}.

Definition in_category (key : string) (s : csource) : bool := bool_decide (cs_category s = Some key).
Definition category_order (a b : category * nat) : comparison :=
  and_then (Z.compare (if String.eqb (ca_key a.1) UNCATEGORIZED_KEY then 1 else 0) (if String.eqb (ca_key b.1) UNCATEGORIZED_KEY then 1 else 0))
           (String.compare (nocase (ca_name a.1)) (nocase (ca_name b.1))).

(** app/blocklist_categories.py:65-83 list_categories *)
Definition list_categories (db : catdb) : list (category * nat) * catdb :=
  let db := ensure_uncategorized db in
  (sort_by category_order ((λ c, (c, length (List.filter (in_category (ca_key c)) (k_sources db)))) <$> k_categories db), db).

(** [UPDATE sources SET category=new WHERE category=old] *)
Definition move (old new : string) (s : csource) : csource := if in_category old s then s{{cs_category := Some new}} else s.

Fixpoint distinct (seen : list string) (l : list string) : list string :=
  match l with
  | [] => []
  | x :: l => if bool_decide (x ∈ seen) then distinct seen l else x :: distinct (x :: seen) l
  end.

Definition texts (l : list csource) : list string := List.filter (λ c, negb (String.eqb c "")) (omap cs_category l).

(** The loop over the distinct texts: the known keys, and the key of a name *)
Fixpoint migrate_values (raws : list string) (known : list string) (names : gmap string string) (db : catdb) : catdb :=
  match raws with
  | [] => db
  | raw :: raws =>
      if bool_decide (raw ∈ known) then migrate_values raws known names db
      else
        let name := normalize_name raw in
        let key := match names !! lower name with
                   | Some k => if String.eqb k "" then (if String.eqb (slugify name) "" then UNCATEGORIZED_KEY else slugify name) else k
                   | None => if String.eqb (slugify name) "" then UNCATEGORIZED_KEY else slugify name
                   end in
        let fresh := negb (bool_decide (key ∈ known)) in
        let db := if fresh && negb (has_key key db) then db{{k_categories ::= (λ l, l ++ [mkCategory key name ""])}} else db in
        let known := if fresh then key :: known else known in
        let names := if fresh then <[lower name := key]> names else names in
        let db := if String.eqb key raw then db else db{{k_sources ::= fmap (move raw key)}} in
        migrate_values raws known names db
  end.

Definition name_keys (l : list category) : gmap string string :=
  fold_left (λ m c, <[lower (strip (ca_name c)) := ca_key c]> m) l ∅.

Definition backfill (s : csource) : csource :=
  match cs_category s with
  | Some c => if String.eqb c "" then s{{cs_category := Some UNCATEGORIZED_KEY}} else s
  | None => s{{cs_category := Some UNCATEGORIZED_KEY}}
  end.

(** app/blocklist_categories.py:86-133 migrate_existing_categories *)
Definition migrate_existing_categories (db : catdb) : catdb :=
  let db := ensure_uncategorized db in
  let db := migrate_values (distinct [] (texts (k_sources db))) (keys_of db) (name_keys (k_categories db)) db in
  db{{k_sources ::= fmap backfill}}.

(** app/blocklist_categories.py:136-153 create_category *)
Definition create_category (name : string) (db : catdb) : res string * catdb :=
  let clean := normalize_name name in
  if String.eqb clean "" then (Raise (CategoryError "category name is required"), db)
  else if 64 <? slen clean then (Raise (CategoryError "category name must be 64 characters or fewer"), db)
  else
    let key := slugify clean in
    if String.eqb key "" then (Raise (CategoryError "category name must contain at least one letter or number"), db)
    else if existsb (λ c, String.eqb (ca_key c) key || String.eqb (nocase (ca_name c)) (nocase clean)) (k_categories db)
    then (Raise (already_exists clean), db)
    else (Ok key, db{{k_categories ::= (λ l, l ++ [mkCategory key clean ""])}}).

(** app/blocklist_categories.py:156-172 rename_category *)
Definition rename_category (key new_name : string) (db : catdb) : res () * catdb :=
  if String.eqb key UNCATEGORIZED_KEY then (Raise (CategoryError "the Uncategorized category cannot be renamed"), db)
  else
    let clean := normalize_name new_name in
    if String.eqb clean "" then (Raise (CategoryError "category name is required"), db)
    else if negb (has_key key db) then (Raise (CategoryError "category not found"), db)
    else if existsb (λ c, String.eqb (nocase (ca_name c)) (nocase clean) && negb (String.eqb (ca_key c) key)) (k_categories db)
    then (Raise (already_exists clean), db)
    else (Ok (), db{{k_categories ::= fmap (λ c, if String.eqb (ca_key c) key then c{{ca_name := clean}} else c)}}).

Definition drop_category (key : string) (db : catdb) : catdb :=
  db{{k_categories ::= List.filter (λ c, negb (String.eqb (ca_key c) key))}}.

(** app/blocklist_categories.py:175-186 merge_category *)
Definition merge_category (source target : string) (db : catdb) : res () * catdb :=
  if String.eqb source target then (Raise (CategoryError "cannot merge a category into itself"), db)
  else if negb (has_key source db) || negb (has_key target db) then (Raise (CategoryError "category not found"), db)
  else
    let db := db{{k_sources ::= fmap (move source target)}} in
    (Ok (), if String.eqb source UNCATEGORIZED_KEY then db else drop_category source db).

(** app/blocklist_categories.py:189-206 delete_category *)
Definition delete_category (key : string) (reassign_to : option string) (db : catdb) : res () * catdb :=
  if String.eqb key UNCATEGORIZED_KEY then (Raise (CategoryError "the Uncategorized category cannot be deleted"), db)
  else if negb (has_key key db) then (Raise (CategoryError "category not found"), db)
  else if existsb (in_category key) (k_sources db) then
    let target := match reassign_to with Some t => if String.eqb t "" then UNCATEGORIZED_KEY else t | None => UNCATEGORIZED_KEY end in
    if String.eqb target key then (Raise (CategoryError "choose a different category to reassign these sources to"), db)
    else if negb (has_key target db) then (Raise (CategoryError "reassignment category not found"), db)
    else (Ok (), drop_category key (db{{k_sources ::= fmap (move key target)}}))
  else (Ok (), drop_category key db).

(** ** The handlers of the panel *)

Definition HTTPException (m : string) : pyexc := PyExc "HTTPException" m.

(** app/webapp.py:1475-1478 resolve_category_key *)
Definition resolve_category_key (requested : string) (db : catdb) : string * catdb :=
  let clean := strip requested in
  let '(rows, db) := list_categories db in
  (if bool_decide (clean ∈ (λ r, ca_key r.1) <$> rows) then clean else UNCATEGORIZED_KEY, db).

(** app/webapp.py:1529-1542 blocklist_add *)
Definition blocklist_add (name url requested : string) (db : catdb) : catdb :=
  let '(key, db) := resolve_category_key requested db in
  db{{k_sources ::= (λ l,
    if existsb (λ s, String.eqb (cs_name s) (strip name)) l
    then (λ s, if String.eqb (cs_name s) (strip name) then s{{cs_url := strip url; cs_category := Some key}} else s) <$> l
    else l ++ [mkCsource (fresh_id (cs_id <$> l)) (strip name) (strip url) true (Some key)])}}.

(** app/webapp.py:1585-1590 blocklist_toggle *)
Definition blocklist_toggle (id : Z) (db : catdb) : catdb :=
  db{{k_sources ::= fmap (λ s, if (cs_id s =? id)%Z then s{{cs_enabled ::= negb}} else s)}}.

(** app/webapp.py:1593-1617 blocklist_edit

    The key is resolved before the fields are checked. *)
Definition blocklist_edit (id : Z) (name url requested : string) (db : catdb) : res () * catdb :=
  let '(key, db) := resolve_category_key requested db in
  if String.eqb (strip name) "" || String.eqb (strip url) "" then (Raise (HTTPException "source name and url are required"), db)
  else if existsb (λ s, (cs_id s =? id)%Z) (k_sources db) && existsb (λ s, String.eqb (cs_name s) (strip name) && negb (cs_id s =? id)%Z) (k_sources db)
  then (Raise (HTTPException "source name already exists"), db)
  else (Ok (), db{{k_sources ::= fmap (λ s, if (cs_id s =? id)%Z
                                           then s{{cs_name := strip name; cs_url := strip url; cs_category := Some key}} else s)}}).

(** app/webapp.py:1627-1632 blocklist_delete *)
Definition blocklist_delete (id : Z) (db : catdb) : catdb := db{{k_sources ::= List.filter (λ s, negb (cs_id s =? id)%Z)}}.

Inductive cat_action :=
| CList | CMigrate | CCreate (name : string) | CRename (key name : string) | CMerge (source target : string)
| CDelete (key : string) (reassign_to : option string)
| CAdd (name url requested : string) | CToggle (id : Z) | CEdit (id : Z) (name url requested : string) | CRemove (id : Z).

Definition cat_act (a : cat_action) (db : catdb) : catdb :=
  match a with
  | CList => (list_categories db).2
  | CMigrate => migrate_existing_categories db
  | CCreate name => (create_category name db).2
  | CRename key name => (rename_category key name db).2
  | CMerge source target => (merge_category source target db).2
  | CDelete key reassign_to => (delete_category key reassign_to db).2
  | CAdd name url requested => blocklist_add name url requested db
  | CToggle id => blocklist_toggle id db
  | CEdit id name url requested => (blocklist_edit id name url requested db).2
  | CRemove id => blocklist_delete id db
  end.

Definition cat_run (l : list cat_action) (db : catdb) : catdb := fold_left (λ db a, cat_act a db) l db.

(** ** Names *)

Lemma lower_nocase s : lower (nocase s) = lower s.
Proof.
  unfold lower, nocase. rewrite smap_smap. apply smap_ext. intros c. apply Ascii.eqb_eq. by destruct c as [[] [] [] [] [] [] [] []].
Qed.

Lemma runs_last p b s : last_not p s = true → s ≠ "" → last_not p (runs p " " b s) = true ∧ runs p " " b s ≠ "".
Proof.
  revert b. induction s as [|c s IH]; intros b; [done|]. intros Hl _. destruct (decide (s = "")) as [->|Hs].
  - unfold last_not in Hl. cbn in *. destruct (p c) eqn:E; [done|]. split; [|done]. unfold last_not. cbn. by rewrite E.
  - rewrite last_not_cons in Hl by done. cbn [runs]. destruct (p c).
    + destruct (IH true Hl Hs) as [H1 H2]. destruct b; [done|]. change (" " +:+ ?x) with (String " " x). split; [|done]. by rewrite (last_not_cons p " " _ H2).
    + destruct (IH false Hl Hs) as [H1 H2]. split; [|done]. by rewrite last_not_cons.
Qed.

Lemma normalize_strip raw : strip (normalize_name raw) = normalize_name raw.
Proof.
  unfold normalize_name. pose proof (strip_head is_space raw) as Hh. pose proof (strip_last is_space raw) as Hl.
  change (strip_by is_space raw) with (strip raw) in *. destruct (decide (strip raw = "")) as [->|Hne]; [done|].
  apply strip_id; [|by apply runs_last]. destruct (strip raw) as [|c s]; [done|]. unfold head_not in *. cbn in *.
  by destruct (is_space c) eqn:E; [done|]; cbn; rewrite E.
Qed.

(** ** What the tables keep *)

Record tables_ok (db : catdb) : Prop := {
  to_keys : NoDup (keys_of db);
  to_nonempty : "" ∉ keys_of db;
  to_names : NoDup ((λ c, nocase (ca_name c)) <$> k_categories db);
  to_stripped : ∀ c, c ∈ k_categories db → strip (ca_name c) = ca_name c;
  to_ids : NoDup (cs_id <$> k_sources db);
  to_sources : NoDup (cs_name <$> k_sources db) }.

(** Every source refers to a category that is there. *)
Definition refers (db : catdb) : Prop := ∀ s, s ∈ k_sources db → ∃ k, cs_category s = Some k ∧ k ∈ keys_of db.

Record cat_ok (db : catdb) : Prop := {
  co_tables : tables_ok db;
  co_uncategorized : UNCATEGORIZED_KEY ∈ keys_of db;
  co_refers : refers db }.

Lemma has_key_spec key db : has_key key db = true ↔ key ∈ keys_of db.
Proof. apply bool_decide_eq_true. Qed.

Lemma ensure_id db : UNCATEGORIZED_KEY ∈ keys_of db → ensure_uncategorized db = db.
Proof. intros H%has_key_spec. unfold ensure_uncategorized. by rewrite H. Qed.

Lemma add_ok key name description db :
  tables_ok db → key ∉ keys_of db → key ≠ "" → strip name = name → (∀ c, c ∈ k_categories db → nocase (ca_name c) ≠ nocase name) →
  tables_ok (mkCatdb (k_categories db ++ [mkCategory key name description]) (k_sources db)).
Proof.
  intros [H1 H2 H3 H4 H5 H6] Hk Hne Hs Hn. split; cbn; try done.
  - unfold keys_of. cbn. apply NoDup_fmap_snoc; [done|]. intros c Hc E. apply Hk. cbn in E. rewrite <-E. by apply list_elem_of_fmap_2.
  - unfold keys_of. cbn. rewrite fmap_app. intros [?|Hin]%elem_of_app; [done|]. by apply list_elem_of_singleton in Hin.
  - by apply NoDup_fmap_snoc.
  - intros c [Hc| ->]%elem_of_snoc; [by apply H4|done].
Qed.

(** Updates of the sources that keep who they are *)
Lemma sources_ok f db : (∀ s, cs_id (f s) = cs_id s ∧ cs_name (f s) = cs_name s) → tables_ok db → tables_ok (db{{k_sources ::= fmap f}}).
Proof.
  intros Hf [H1 H2 H3 H4 H5 H6]. destruct db as [cats srcs]. cbn in *. split; try done; cbn; rewrite <-list_fmap_compose.
  - erewrite list_fmap_ext; [exact H5|]. intros; apply Hf.
  - erewrite list_fmap_ext; [exact H6|]. intros; apply Hf.
Qed.

Lemma sources_filter_ok p db : tables_ok db → tables_ok (db{{k_sources ::= List.filter p}}).
Proof. intros [H1 H2 H3 H4 H5 H6]. destruct db as [cats srcs]. cbn in *. split; try done; by apply NoDup_fmap_filterb. Qed.

Lemma drop_keys key db k : k ∈ keys_of (drop_category key db) ↔ k ∈ keys_of db ∧ k ≠ key.
Proof.
  destruct db as [cats srcs]. unfold keys_of, drop_category. cbn. rewrite !list_elem_of_fmap. split.
  - intros (c & -> & [Hc Hne]%elem_of_filterb). split; [by exists c|]. by apply negb_true_iff, String.eqb_neq in Hne.
  - intros [(c & -> & Hc) Hne]. exists c. split; [done|]. apply elem_of_filterb. split; [done|]. by apply negb_true_iff, String.eqb_neq.
Qed.

Lemma drop_ok key db : tables_ok db → tables_ok (drop_category key db).
Proof.
  intros [H1 H2 H3 H4 H5 H6]. split; try by destruct db.
  - destruct db. by apply NoDup_fmap_filterb.
  - by intros [? _]%drop_keys.
  - destruct db. by apply (NoDup_fmap_filterb (λ c, nocase (ca_name c))).
  - intros c Hc. apply H4. destruct db. cbn in *. by apply elem_of_filterb in Hc as [? _].
Qed.

(** ** The migration *)

(** What the loop knows of the tables *)
Record loop_ok (known : list string) (names : gmap string string) (db : catdb) : Prop := {
  lo_tables : tables_ok db;
  lo_uncat : UNCATEGORIZED_KEY ∈ known;
  lo_known : ∀ k, k ∈ known ↔ k ∈ keys_of db;
  lo_names : ∀ c, c ∈ k_categories db → is_Some (names !! lower (strip (ca_name c)));
  lo_values : map_Forall (λ _ k, k ∈ keys_of db) names }.

Definition relabel (g : string → string) (s : csource) : csource := s{{cs_category ::= fmap g}}.

(** The key that a text gets *)
Definition key_for (names : gmap string string) (raw : string) : string :=
  match names !! lower (normalize_name raw) with
  | Some k => if String.eqb k "" then (if String.eqb (slugify (normalize_name raw)) "" then UNCATEGORIZED_KEY else slugify (normalize_name raw)) else k
  | None => if String.eqb (slugify (normalize_name raw)) "" then UNCATEGORIZED_KEY else slugify (normalize_name raw)
  end.

Definition with_key (key name : string) (known : list string) (db : catdb) : catdb :=
  if negb (bool_decide (key ∈ known)) && negb (has_key key db) then db{{k_categories ::= (λ l, l ++ [mkCategory key name ""])}} else db.

Lemma key_for_new names raw known db :
  loop_ok known names db → key_for names raw ∉ known → names !! lower (normalize_name raw) = None ∧ key_for names raw ≠ "".
Proof.
  intros Hl Hk. unfold key_for in *. destruct (names !! lower (normalize_name raw)) as [k|] eqn:E.
  - pose proof (lo_values _ _ _ Hl _ _ E) as Hin. cbn in Hin. destruct (String.eqb_spec k "") as [->|Hne].
    + by destruct (to_nonempty _ (lo_tables _ _ _ Hl)).
    + destruct Hk. by apply (lo_known _ _ _ Hl).
  - split; [done|]. by destruct (String.eqb_spec (slugify (normalize_name raw)) "").
Qed.

(** One text gets its category. *)
Lemma with_key_ok names raw known db :
  loop_ok known names db →
  let key := key_for names raw in let fresh := negb (bool_decide (key ∈ known)) in
  ∃ new, with_key key (normalize_name raw) known db = mkCatdb (k_categories db ++ new) (k_sources db)
    ∧ loop_ok (if fresh then key :: known else known) (if fresh then <[lower (normalize_name raw) := key]> names else names)
        (mkCatdb (k_categories db ++ new) (k_sources db))
    ∧ key ∈ keys_of (mkCatdb (k_categories db ++ new) (k_sources db)).
Proof.
  intros Hl key. unfold with_key. fold key. destruct (decide (key ∈ known)) as [Hin|Hout].
  - rewrite bool_decide_eq_true_2 by done. cbn. exists []. rewrite app_nil_r. destruct db as [cats srcs]. cbn. split; [done|].
    split; [done|]. by apply (lo_known _ _ _ Hl).
  - rewrite bool_decide_eq_false_2 by done. cbn. destruct (key_for_new names raw known db Hl Hout) as [Hnone Hne]. fold key in Hne.
    assert (key ∉ keys_of db) as Hnk by (intros H; apply Hout; by apply (lo_known _ _ _ Hl)).
    unfold has_key. rewrite bool_decide_eq_false_2 by done. cbn. exists [mkCategory key (normalize_name raw) ""]. split; [by destruct db|].
    assert (∀ k, k ∈ keys_of (mkCatdb (k_categories db ++ [mkCategory key (normalize_name raw) ""]) (k_sources db)) ↔ k ∈ keys_of db ∨ k = key) as Hkeys.
    { intros k. unfold keys_of. cbn. rewrite fmap_app. apply elem_of_snoc. }
    split; [|by apply Hkeys; right]. split.
    + apply add_ok; [apply Hl|done|done|apply normalize_strip|]. intros c Hc E. destruct (lo_names _ _ _ Hl c Hc) as [k Hk].
      rewrite (to_stripped _ (lo_tables _ _ _ Hl) c Hc), <-lower_nocase, E, lower_nocase in Hk. congruence.
    + right. apply Hl.
    + intros k. rewrite Hkeys, elem_of_cons, (lo_known _ _ _ Hl). tauto.
    + cbn. intros c [Hc| ->]%elem_of_snoc.
      * destruct (lo_names _ _ _ Hl c Hc) as [k Hk]. destruct (decide (lower (strip (ca_name c)) = lower (normalize_name raw))) as [->|Hd].
        -- by rewrite lookup_insert_eq.
        -- rewrite lookup_insert_ne by done. eauto.
      * cbn [ca_name]. rewrite normalize_strip, lookup_insert_eq. eauto.
    + apply map_Forall_insert_2; [by apply Hkeys; right|]. intros n k Hk. apply Hkeys. left. by apply (lo_values _ _ _ Hl n k).
Qed.

Lemma loop_ok_sources known names db f :
  (∀ s, cs_id (f s) = cs_id s ∧ cs_name (f s) = cs_name s) → loop_ok known names db → loop_ok known names (db{{k_sources ::= fmap f}}).
Proof. intros Hf [H1 H2 H3 H4 H5]. destruct db. split; try done. by apply (sources_ok f (mkCatdb _ _)). Qed.

Lemma move_relabel raw key s : move raw key s = relabel (λ c, if String.eqb c raw then key else c) s.
Proof.
  unfold move, in_category, relabel. destruct s as [? ? ? ? [c|]]; cbn; [|done].
  destruct (String.eqb_spec c raw) as [->|Hne]; [by rewrite bool_decide_eq_true_2|]. rewrite bool_decide_eq_false_2; [done|congruence].
Qed.

Lemma relabel_relabel f g (l : list csource) : relabel g <$> (relabel f <$> l) = relabel (g ∘ f) <$> l.
Proof. rewrite <-list_fmap_compose. apply list_fmap_ext. intros _ s _. by destruct s as [? ? ? ? [?|]]. Qed.
Lemma relabel_id (l : list csource) : relabel id <$> l = l.
Proof. rewrite <-(list_fmap_id l) at 2. apply list_fmap_ext. intros _ s _. by destruct s as [? ? ? ? [?|]]. Qed.

Lemma migrate_values_cons raw raws known names db :
  migrate_values (raw :: raws) known names db =
  if bool_decide (raw ∈ known) then migrate_values raws known names db
  else
    let key := key_for names raw in let fresh := negb (bool_decide (key ∈ known)) in
    let db := with_key key (normalize_name raw) known db in
    migrate_values raws (if fresh then key :: known else known) (if fresh then <[lower (normalize_name raw) := key]> names else names)
      (if String.eqb key raw then db else db{{k_sources ::= fmap (move raw key)}}).
Proof. done. Qed.

Lemma migrate_values_spec raws known names db :
  loop_ok known names db →
  ∃ g new, migrate_values raws known names db = mkCatdb (k_categories db ++ new) (relabel g <$> k_sources db)
    ∧ tables_ok (mkCatdb (k_categories db ++ new) (relabel g <$> k_sources db))
    ∧ (∀ k, k ∈ keys_of db ∨ k ∉ raws → g k = k)
    ∧ (∀ x, x ∈ raws → g x ∈ ca_key <$> (k_categories db ++ new)).
Proof.
  revert known names db. induction raws as [|raw raws IH]; intros known names db Hl.
  { exists id, []. rewrite app_nil_r, relabel_id. destruct db. split; [done|]. split; [apply Hl|]. split; [done|]. by intros ? ?%elem_of_nil. }
  rewrite migrate_values_cons. destruct (decide (raw ∈ known)) as [Hin|Hout].
  { rewrite bool_decide_eq_true_2 by done. destruct (IH known names db Hl) as (g & new & H1 & H2 & H3 & H4). exists g, new.
    split; [done|]. split; [done|]. split.
    { intros k [Hk|Hk]; apply H3; [by left|right]. by apply not_elem_of_cons in Hk as [_ ?]. }
    intros x [->|Hx]%elem_of_cons; [|by apply H4].
    apply (lo_known _ _ _ Hl) in Hin. rewrite H3 by by left. rewrite fmap_app. apply elem_of_app. by left. }
  rewrite bool_decide_eq_false_2 by done. cbv zeta. destruct (with_key_ok names raw known db Hl) as (new1 & -> & Hl1 & Hkey).
  set (key := key_for names raw) in *. set (g1 := λ c, if String.eqb c raw then key else c).
  set (db1 := mkCatdb (k_categories db ++ new1) (k_sources db)) in *.
  assert ((if String.eqb key raw then db1 else db1{{k_sources ::= fmap (move raw key)}}) = mkCatdb (k_categories db ++ new1) (relabel g1 <$> k_sources db)) as ->.
  { destruct (String.eqb_spec key raw) as [E|E].
    - unfold db1. f_equal. rewrite <-(relabel_id (k_sources db)) at 1. apply list_fmap_ext. intros _ s _. unfold relabel, g1. destruct s as [? ? ? ? [c|]]; [|done].
      cbn. destruct (String.eqb_spec c raw) as [->|]; [by rewrite E|done].
    - unfold db1. cbn. f_equal. apply list_fmap_ext. intros _ s _. apply move_relabel. }
  eapply (loop_ok_sources _ _ db1 (relabel g1)) in Hl1; [|by intros [? ? ? ? ?]].
  destruct (IH _ _ _ Hl1) as (g2 & new2 & H1 & H2 & H3 & H4). cbn [k_categories k_sources] in *.
  exists (g2 ∘ g1), (new1 ++ new2). rewrite app_assoc, <-relabel_relabel. split; [exact H1|]. split; [exact H2|].
  assert (∀ k, k ∈ keys_of db → g2 k = k) as Hold.
  { intros k Hk. apply H3. left. unfold keys_of. cbn. rewrite fmap_app. apply elem_of_app. by left. }
  split.
  - intros k Hk. cbn. unfold g1. destruct (String.eqb_spec k raw) as [->|Hne].
    + destruct Hk as [Hk|Hk]; [destruct Hout; by apply (lo_known _ _ _ Hl)|by apply not_elem_of_cons in Hk as [? _]].
    + destruct Hk as [Hk|Hk]; [by apply Hold|]. apply H3. right. by apply not_elem_of_cons in Hk as [_ ?].
  - intros x Hx. cbn. unfold g1. destruct (String.eqb_spec x raw) as [->|Hne].
    + rewrite (H3 key (or_introl Hkey)), fmap_app. apply elem_of_app. by left.
    + apply H4. by apply elem_of_cons in Hx as [->|].
Qed.

Lemma distinct_in seen l x : x ∈ distinct seen l ↔ x ∈ l ∧ x ∉ seen.
Proof.
  revert seen. induction l as [|y l IH]; intros seen; cbn; [by split; [intros ?%elem_of_nil|intros [?%elem_of_nil _]]|].
  destruct (bool_decide (y ∈ seen)) eqn:E.
  - apply bool_decide_eq_true in E. rewrite IH, elem_of_cons. split; [tauto|]. intros [[->|] ?]; [done|done].
  - apply bool_decide_eq_false in E. rewrite !elem_of_cons, IH, not_elem_of_cons. destruct (decide (x = y)) as [->|]; tauto.
Qed.

Lemma texts_in l c : c ∈ texts l ↔ c ≠ "" ∧ ∃ s, s ∈ l ∧ cs_category s = Some c.
Proof.
  unfold texts. rewrite elem_of_filterb, list_elem_of_omap, negb_true_iff, String.eqb_neq. tauto.
Qed.

Lemma name_keys_spec l :
  (∀ c, c ∈ l → is_Some (name_keys l !! lower (strip (ca_name c)))) ∧ map_Forall (λ _ k, k ∈ ca_key <$> l) (name_keys l).
Proof.
  unfold name_keys. induction l as [|c l IH] using rev_ind; [split; [by intros ? ?%elem_of_nil|apply map_Forall_empty]|].
  rewrite fold_left_app. cbn. destruct IH as [IH1 IH2]. split.
  - intros c' [Hc| ->]%elem_of_snoc; [|rewrite lookup_insert_eq; eauto].
    destruct (decide (lower (strip (ca_name c')) = lower (strip (ca_name c)))) as [->|Hne]; [rewrite lookup_insert_eq; eauto|].
    rewrite lookup_insert_ne by done. by apply IH1.
  - rewrite fmap_app. apply map_Forall_insert_2; [apply elem_of_app; right; left|]. intros n k Hk. apply elem_of_app. left. by apply (IH2 n k).
Qed.

(** The row of the uncategorized sources is there, or its name is free. *)
Definition uncat_free (db : catdb) : Prop :=
  UNCATEGORIZED_KEY ∈ keys_of db ∨ ∀ c, c ∈ k_categories db → nocase (ca_name c) ≠ UNCATEGORIZED_KEY.

Lemma ensure_ok db : tables_ok db → uncat_free db → tables_ok (ensure_uncategorized db) ∧ UNCATEGORIZED_KEY ∈ keys_of (ensure_uncategorized db)
  ∧ k_sources (ensure_uncategorized db) = k_sources db ∧ k_categories db `prefix_of` k_categories (ensure_uncategorized db).
Proof.
  intros Hok Hfree. destruct (decide (UNCATEGORIZED_KEY ∈ keys_of db)) as [Hin|Hout]; [by rewrite ensure_id|].
  unfold ensure_uncategorized, has_key. rewrite bool_decide_eq_false_2 by done. destruct Hfree as [|Hfree]; [done|]. split; [|split; [|split]].
  - by apply (add_ok _ _ _ db).
  - unfold keys_of. cbn. rewrite fmap_app. apply elem_of_app. right. left.
  - done.
  - by eexists.
Qed.

(** What the migration makes of a database of an older version *)
Lemma migrate_ok db : tables_ok db → uncat_free db →
  cat_ok (migrate_existing_categories db)
  ∧ k_categories db `prefix_of` k_categories (migrate_existing_categories db)
  ∧ ∃ g, k_sources (migrate_existing_categories db) = (λ s, s{{cs_category := Some (g (cs_category s))}}) <$> k_sources db
    ∧ ∀ k, k ∈ keys_of db → g (Some k) = k.
Proof.
  intros Hok Hfree. destruct (ensure_ok db Hok Hfree) as (Hok1 & Hun & Hsrc & Hpre). unfold migrate_existing_categories.
  set (db1 := ensure_uncategorized db) in *. destruct (name_keys_spec (k_categories db1)) as [N1 N2].
  assert (loop_ok (keys_of db1) (name_keys (k_categories db1)) db1) as Hl by by split.
  destruct (migrate_values_spec (distinct [] (texts (k_sources db1))) _ _ _ Hl) as (g & new & -> & Hok2 & Hold & Hnew).
  set (h := λ o : option string, match o with Some c => if String.eqb (g c) "" then UNCATEGORIZED_KEY else g c | None => UNCATEGORIZED_KEY end).
  assert (backfill <$> (relabel g <$> k_sources db1) = (λ s, s{{cs_category := Some (h (cs_category s))}}) <$> k_sources db1) as Hfinal.
  { rewrite <-list_fmap_compose. apply list_fmap_ext. intros _ s _. unfold h, backfill, relabel. destruct s as [? ? ? ? [c|]]; cbn; [|done].
    by destruct (String.eqb (g c) ""). }
  split; [|split].
  - split.
    + apply (sources_ok backfill (mkCatdb _ _)); [|done]. intros s. unfold backfill. repeat case_match; by destruct s.
    + unfold keys_of. cbn. rewrite fmap_app. apply elem_of_app. by left.
    + unfold refers, keys_of. cbn. rewrite Hfinal. intros s (s0 & -> & Hs0)%list_elem_of_fmap. eexists. split; [by destruct s0|].
      unfold h. destruct (cs_category s0) as [c|] eqn:Ec; [|rewrite fmap_app; apply elem_of_app; by left].
      destruct (String.eqb_spec (g c) "") as [|Hgc]; [rewrite fmap_app; apply elem_of_app; by left|].
      destruct (decide (c = "")) as [->|Hc].
      { destruct Hgc. apply Hold. right. intros [[? _]%texts_in _]%distinct_in. done. }
      apply Hnew. apply distinct_in. split; [|by intros ?%elem_of_nil]. apply texts_in. split; [done|]. by exists s0.
  - etransitivity; [exact Hpre|]. by eexists.
  - exists h. cbn. rewrite Hfinal, Hsrc. split; [done|]. intros k Hk. unfold h.
    assert (k ∈ keys_of db1) as Hk1. { destruct Hpre as [rest Hpre]. unfold keys_of. rewrite Hpre, fmap_app. apply elem_of_app. by left. }
    rewrite Hold by by left. destruct (String.eqb_spec k "") as [->|]; [|done]. by destruct (to_nonempty _ Hok).
Qed.

(** A migrated database is left alone. *)
Lemma migrate_id db : cat_ok db → migrate_existing_categories db = db.
Proof.
  intros [Hok Hun Href]. unfold migrate_existing_categories. rewrite ensure_id by done.
  assert (∀ raws known names, (∀ x, x ∈ raws → x ∈ known) → migrate_values raws known names db = db) as H.
  { intros raws known names. induction raws as [|raw raws IH]; intros Hin; [done|]. cbn. rewrite bool_decide_eq_true_2 by by apply Hin; left.
    apply IH. intros x Hx. apply Hin. by right. }
  rewrite H.
  - destruct db as [cats srcs]. cbn. f_equal. rewrite <-(list_fmap_id srcs) at 2. apply list_fmap_ext. intros i s Hs%list_elem_of_lookup_2.
    destruct (Href s Hs) as (k & Hk & Hin). unfold backfill. rewrite Hk. destruct (String.eqb_spec k "") as [->|]; [|done].
    by destruct (to_nonempty _ Hok).
  - intros x [Hx _]%distinct_in. apply texts_in in Hx as (_ & s & Hs & Hc). destruct (Href s Hs) as (k & Hk & Hin). congruence.
Qed.

(** ** The operations *)

Lemma order_category : order_ok category_order.
Proof.
  apply order_then; [|apply (order_map (λ r : category * nat, nocase (ca_name r.1))), order_string].
  apply (order_map (λ r : category * nat, if String.eqb (ca_key r.1) UNCATEGORIZED_KEY then 1%Z else 0%Z)), order_Z.
Qed.

Lemma list_categories_keys db : UNCATEGORIZED_KEY ∈ keys_of db → (list_categories db).2 = db ∧ (λ r, ca_key r.1) <$> (list_categories db).1 ≡ₚ keys_of db.
Proof.
  intros Hun. unfold list_categories. rewrite ensure_id by done. split; [done|]. cbn [fst].
  rewrite (proj1 (sort_by_spec category_order order_category _)), <-list_fmap_compose. by apply reflexive_eq, list_fmap_ext.
Qed.

Lemma resolve_key requested db : UNCATEGORIZED_KEY ∈ keys_of db → ∃ key, resolve_category_key requested db = (key, db) ∧ key ∈ keys_of db.
Proof.
  intros Hun. destruct (list_categories_keys db Hun) as [H1 H2]. unfold resolve_category_key. destruct (list_categories db) as [rows db']. cbn [fst snd] in *. subst db'.
  destruct (bool_decide (strip requested ∈ _)) eqn:E; eexists; (split; [reflexivity|]); [|done].
  apply bool_decide_eq_true in E. by rewrite H2 in E.
Qed.

Lemma NoDup_update {A B K} `{EqDecision K} (key : A → K) (f : A → B) (k : K) (upd : A → A) l :
  NoDup (key <$> l) → NoDup (f <$> l) → (∀ x y, x ∈ l → y ∈ l → key x = k → key y ≠ k → f (upd x) ≠ f y) →
  NoDup (f <$> ((λ x, if decide (key x = k) then upd x else x) <$> l)).
Proof.
  intros Hk Hf Hne. rewrite <-list_fmap_compose. apply NoDup_fmap_2_strong; [|by eapply NoDup_fmap_1].
  intros x y Hx Hy. cbn. destruct (decide (key x = k)) as [Ex|Ex], (decide (key y = k)) as [Ey|Ey]; intros E.
  - apply (NoDup_fmap_inj key l); congruence.
  - by destruct (Hne x y).
  - by destruct (Hne y x).
  - by apply (NoDup_fmap_inj f l).
Qed.

Lemma existsb_none {A} (p : A → bool) l : existsb p l = false → ∀ x, x ∈ l → p x = false.
Proof.
  intros H x Hx. destruct (p x) eqn:E; [|done]. rewrite (proj2 (existsb_exists p l)) in H; [done|]. exists x. split; [by apply list_elem_of_In|done].
Qed.

Lemma create_ok name db : cat_ok db → cat_ok (create_category name db).2.
Proof.
  intros [Hok Hun Href]. unfold create_category. destruct (String.eqb_spec (normalize_name name) ""); [done|]. destruct (64 <? _); [done|].
  destruct (String.eqb_spec (slugify (normalize_name name)) "") as [|Hne]; [done|]. destruct (existsb _ _) eqn:E; [done|]. cbn.
  assert (∀ c, c ∈ k_categories db → ca_key c ≠ slugify (normalize_name name) ∧ nocase (ca_name c) ≠ nocase (normalize_name name)) as Hfree.
  { intros c Hc. pose proof (existsb_none _ _ E c Hc) as H. apply orb_false_iff in H as [H1%String.eqb_neq H2%String.eqb_neq]. done. }
  split.
  - apply add_ok; [done| |done|apply normalize_strip|intros c Hc; by apply Hfree]. intros (c & Hk & Hc)%list_elem_of_fmap. by destruct (Hfree c Hc).
  - unfold keys_of. cbn. rewrite fmap_app. apply elem_of_app. by left.
  - intros s Hs. destruct (Href s Hs) as (k & Hk & Hin). exists k. split; [done|]. unfold keys_of. cbn. rewrite fmap_app. apply elem_of_app. by left.
Qed.

Lemma rename_ok key name db : cat_ok db → cat_ok (rename_category key name db).2.
Proof.
  intros [Hok Hun Href]. unfold rename_category. destruct (String.eqb key UNCATEGORIZED_KEY); [done|]. destruct (String.eqb (normalize_name name) ""); [done|].
  destruct (negb (has_key key db)); [done|]. destruct (existsb _ _) eqn:E; [done|]. cbn [snd].
  set (upd := λ c : category, c{{ca_name := normalize_name name}}).
  match goal with |- cat_ok ?x =>
    assert (x = mkCatdb ((λ c, if decide (ca_key c = key) then upd c else c) <$> k_categories db) (k_sources db)) as -> end.
  { destruct db. cbn. f_equal. apply list_fmap_ext. intros _ c _. destruct (String.eqb_spec (ca_key c) key); by case_decide. }
  assert (keys_of (mkCatdb ((λ c, if decide (ca_key c = key) then upd c else c) <$> k_categories db) (k_sources db)) = keys_of db) as Hkeys.
  { unfold keys_of. cbn. rewrite <-list_fmap_compose. apply list_fmap_ext. intros _ c _. cbn. by case_decide; destruct c. }
  destruct Hok as [H1 H2 H3 H4 H5 H6]. split; [split; rewrite ?Hkeys; try done; cbn| |].
  - apply (NoDup_update ca_key (λ c, nocase (ca_name c))); [done|done|]. intros x y Hx Hy Ex Ey Hn.
    pose proof (existsb_none _ _ E y Hy) as H. apply andb_false_iff in H as [H%String.eqb_neq|H%negb_false_iff%String.eqb_eq]; [|done].
    apply H. rewrite <-Hn. by destruct x.
  - intros c (c0 & -> & Hc)%list_elem_of_fmap. case_decide; [|by apply H4]. destruct c0. apply normalize_strip.
  - by rewrite Hkeys.
  - intros s Hs. rewrite Hkeys. by apply Href.
Qed.

Lemma move_ok source target db : cat_ok db → target ∈ keys_of db → target ≠ source →
  let db' := db{{k_sources ::= fmap (move source target)}} in
  cat_ok db' ∧ (source ≠ UNCATEGORIZED_KEY → cat_ok (drop_category source db')).
Proof.
  intros [Hok Hun Href] Ht Hne db'. assert (keys_of db' = keys_of db) as Hkeys by by destruct db.
  assert (tables_ok db') as Hok'. { apply sources_ok; [|done]. intros s. unfold move. destruct (in_category source s); by destruct s. }
  assert (∀ s, s ∈ k_sources db' → ∃ k, cs_category s = Some k ∧ k ∈ keys_of db ∧ k ≠ source) as Hmoved.
  { intros s Hs. assert (∃ s0, s = move source target s0 ∧ s0 ∈ k_sources db) as (s0 & -> & Hs0) by (destruct db; by apply list_elem_of_fmap in Hs).
    destruct (Href s0 Hs0) as (k & Hk & Hin). unfold move, in_category. destruct (bool_decide _) eqn:E.
    - exists target. by destruct s0.
    - apply bool_decide_eq_false in E. exists k. split; [done|]. split; [done|congruence]. }
  split; [split; rewrite ?Hkeys; try done|].
  - intros s Hs. rewrite Hkeys. destruct (Hmoved s Hs) as (k & ? & ? & _). by exists k.
  - intros Hsource. split; [by apply drop_ok|apply drop_keys; by rewrite Hkeys|].
    intros s Hs. destruct (Hmoved s) as (k & Hk & Hin & Hks); [by destruct db|]. exists k. split; [done|]. apply drop_keys. by rewrite Hkeys.
Qed.

Lemma merge_ok source target db : cat_ok db → cat_ok (merge_category source target db).2.
Proof.
  intros Hok. unfold merge_category. destruct (String.eqb_spec source target) as [|Hne]; [done|].
  destruct (has_key source db); [|done]. destruct (has_key target db) eqn:Et; [|done]. apply has_key_spec in Et. cbn [negb orb snd].
  destruct (move_ok source target db Hok Et (not_eq_sym Hne)) as [H1 H2]. destruct (String.eqb_spec source UNCATEGORIZED_KEY); [done|by apply H2].
Qed.

Lemma delete_ok key reassign_to db : cat_ok db → cat_ok (delete_category key reassign_to db).2.
Proof.
  intros Hok. unfold delete_category. destruct (String.eqb_spec key UNCATEGORIZED_KEY) as [|Hun]; [done|]. destruct (negb (has_key key db)); [done|].
  destruct (existsb _ _) eqn:E.
  - set (target := match reassign_to with Some t => _ | None => _ end). destruct (String.eqb_spec target key) as [|Hne]; [done|].
    destruct (has_key target db) eqn:Et; [|done]. apply has_key_spec in Et. by apply (move_ok key target db Hok Et Hne).
  - destruct Hok as [Hok Hunc Href]. split; [by apply drop_ok|by apply drop_keys|]. intros s Hs.
    assert (s ∈ k_sources db) as Hs' by by destruct db. destruct (Href s Hs') as (k & Hk & Hin). exists k. split; [done|]. apply drop_keys. split; [done|].
    intros ->. pose proof (existsb_none _ _ E s Hs') as H. unfold in_category in H. by rewrite bool_decide_eq_true_2 in H.
Qed.

(** Changes of the sources only *)
Lemma with_sources_ok l db :
  cat_ok db → NoDup (cs_id <$> l) → NoDup (cs_name <$> l) → (∀ s, s ∈ l → ∃ k, cs_category s = Some k ∧ k ∈ keys_of db) →
  cat_ok (mkCatdb (k_categories db) l).
Proof. intros [[H1 H2 H3 H4 H5 H6] Hun Href] Hi Hn Hc. by split; [split|..]. Qed.

(** Updates of one source, whose category exists *)
Lemma update_sources_ok f db :
  cat_ok db → (∀ s, cs_id (f s) = cs_id s) → NoDup (cs_name ∘ f <$> k_sources db) →
  (∀ s, cs_category (f s) = cs_category s ∨ ∃ k, cs_category (f s) = Some k ∧ k ∈ keys_of db) →
  cat_ok (db{{k_sources ::= fmap f}}).
Proof.
  intros Hok Hid Hn Hc. destruct db as [cats srcs]. apply (with_sources_ok _ (mkCatdb cats srcs)); [done| | |]; cbn in *.
  - rewrite <-list_fmap_compose. erewrite list_fmap_ext; [exact (to_ids _ (co_tables _ Hok))|]. intros _ s _. apply Hid.
  - by rewrite <-list_fmap_compose.
  - intros s (s0 & -> & Hs0)%list_elem_of_fmap. destruct (Hc s0) as [->|]; [by apply (co_refers _ Hok)|done].
Qed.

Lemma add_source_ok name url requested db : cat_ok db → cat_ok (blocklist_add name url requested db).
Proof.
  intros Hok. destruct (resolve_key requested db (co_uncategorized _ Hok)) as (key & Hr & Hin). unfold blocklist_add. rewrite Hr.
  pose proof (to_ids _ (co_tables _ Hok)) as Hi. pose proof (to_sources _ (co_tables _ Hok)) as Hn. destruct (existsb (λ s, String.eqb (cs_name s) (strip name)) (k_sources db)) eqn:E.
  - set (f := λ s : csource, if String.eqb (cs_name s) (strip name) then s{{cs_url := strip url; cs_category := Some key}} else s).
    assert (∀ s, cs_name (f s) = cs_name s) as Hf by (intros s; unfold f; destruct (String.eqb _ _); by destruct s).
    pose proof (update_sources_ok f db Hok) as H. destruct db as [cats srcs]. cbn in *. rewrite E. apply H.
    + intros s. unfold f. destruct (String.eqb _ _); by destruct s.
    + erewrite list_fmap_ext; [exact Hn|]. intros _ s _. apply Hf.
    + intros s. unfold f. destruct (String.eqb _ _); [right|by left]. exists key. by destruct s.
  - pose proof (existsb_none _ _ E) as Hnone. destruct db as [cats srcs]. cbn in *. rewrite E. apply (with_sources_ok _ (mkCatdb cats srcs)); [done| | |].
    + by apply NoDup_fresh.
    + apply NoDup_fmap_snoc; [done|]. intros s Hs. cbn. by apply String.eqb_neq, Hnone.
    + intros s [Hs| ->]%elem_of_snoc; [by apply (co_refers _ Hok)|by exists key].
Qed.

Lemma edit_ok id name url requested db : cat_ok db → cat_ok (blocklist_edit id name url requested db).2.
Proof.
  intros Hok. destruct (resolve_key requested db (co_uncategorized _ Hok)) as (key & Hr & Hin). unfold blocklist_edit. rewrite Hr.
  destruct (_ || _); [done|]. destruct (_ && _) eqn:E; [done|]. cbn [snd]. apply update_sources_ok; [done| | |].
  - intros s. destruct (cs_id s =? id)%Z; by destruct s.
  - pose proof (NoDup_update cs_id cs_name id (λ s : csource, s{{cs_name := strip name; cs_url := strip url; cs_category := Some key}}) (k_sources db)
      (to_ids _ (co_tables _ Hok)) (to_sources _ (co_tables _ Hok))) as H.
    rewrite <-list_fmap_compose in H. erewrite list_fmap_ext; [apply H|].
    + intros x y Hx Hy Ex Ey Hn. apply andb_false_iff in E as [E|E].
      * pose proof (existsb_none _ _ E x Hx) as Hx'. cbn in Hx'. lia.
      * pose proof (existsb_none _ _ E y Hy) as Hy'. cbn in Hy'. apply andb_false_iff in Hy' as [Hy'%String.eqb_neq|Hy'%negb_false_iff%Z.eqb_eq]; [|done].
        apply Hy'. rewrite <-Hn. by destruct x.
    + intros _ s _. cbn. destruct (Z.eqb_spec (cs_id s) id); by case_decide.
  - intros s. destruct (cs_id s =? id)%Z; [right|by left]. exists key. by destruct s.
Qed.

Lemma cat_act_ok a db : cat_ok db → cat_ok (cat_act a db).
Proof.
  intros Hok. destruct a as [| |name|key name|source target|key reassign_to|name url requested|id|id name url requested|id]; cbn [cat_act].
  - by destruct (list_categories_keys db (co_uncategorized _ Hok)) as [-> _].
  - by rewrite migrate_id.
  - by apply create_ok.
  - by apply rename_ok.
  - by apply merge_ok.
  - by apply delete_ok.
  - by apply add_source_ok.
  - apply update_sources_ok; [done| | |].
    + intros s. destruct (cs_id s =? id)%Z; by destruct s.
    + erewrite list_fmap_ext; [exact (to_sources _ (co_tables _ Hok))|]. intros _ s _. cbn. destruct (cs_id s =? id)%Z; by destruct s.
    + intros s. left. destruct (cs_id s =? id)%Z; by destruct s.
  - by apply edit_ok.
  - unfold blocklist_delete. destruct db as [cats srcs]. apply (with_sources_ok _ (mkCatdb cats srcs)); [done| | |]; cbn.
    + apply NoDup_fmap_filterb, (to_ids _ (co_tables _ Hok)).
    + apply NoDup_fmap_filterb, (to_sources _ (co_tables _ Hok)).
    + intros s [Hs _]%elem_of_filterb. by apply (co_refers _ Hok).
Qed.



Definition seeds : list category :=
  [mkCategory "malware" "Malware" ""; mkCategory "ads_trackers" "Ads and trackers" ""; mkCategory "custom" "Custom categories" ""].
Definition legacy : catdb :=
  mkCatdb seeds [mkCsource 1 "a" "https://a.test" true (Some "  Ads   and TRACKERS "); mkCsource 2 "b" "https://b.test" true (Some "Kids & Games");
                 mkCsource 3 "c" "https://c.test" false (Some "kids  & games"); mkCsource 4 "d" "https://d.test" true None;
                 mkCsource 5 "e" "https://e.test" true (Some "!!")].
Example legacy_migrated :
  cs_category <$> k_sources (migrate_existing_categories legacy)
  = [Some "ads_trackers"; Some "kids_games"; Some "kids_games"; Some "uncategorized"; Some "uncategorized"]
  ∧ keys_of (migrate_existing_categories legacy) = ["malware"; "ads_trackers"; "custom"; "uncategorized"; "kids_games"].
Proof. by vm_compute. Qed.

Lemma legacy_tables_ok : tables_ok legacy ∧ uncat_free legacy.
Proof.
  split; [split; try (apply (bool_decide_unpack _); by vm_compute)|right].
  - intros c Hc. repeat (apply elem_of_cons in Hc as [->|Hc]; [done|]). by apply elem_of_nil in Hc.
  - intros c Hc. repeat (apply elem_of_cons in Hc as [->|Hc]; [done|]). by apply elem_of_nil in Hc.
Qed.


