(* ===== verification/RestoreDb.v ===== *)
(** * Restoring the database

    The database part of [restore_backup] in [app/backup.py]: a private working copy, the
    merge of the selected tables of an archive into it, the resynchronisation of the other
    tables under the exclusive lock, and the swap.  A database file is its tables; the
    storage itself, WAL files and locks belong to SQLite. *)

From S2P Require Import Prelude PyStr StrLemmas IpAddr PyJson.

Definition BackupError (m : string) : pyexc := PyExc "BackupError" m.

(** ** Tables and components *)

Notation row := (gmap string json).

(** A column of [PRAGMA table_info], with its default value *)
Record column := mkColumn { cn_name : string; cn_integer : bool; cn_pk : Z; cn_default : json }.
(** The rows are in the order of their rowids. *)
Record table := mkTable { tb_columns : list column; tb_rows : list row }.
Notation dbfile := (gmap string table).

Definition column_names (t : table) : list string := cn_name <$> tb_columns t.

(** app/backup.py:165-179 COMPONENT_KEYS *)
Definition COMPONENT_KEYS : list string :=
  ["app_config"; "sqlite_data"; "blocklist_source_definitions"; "last_downloaded_lists"; "custom_rules"; "local_dns_zones"; "client_aliases";
   "dnsdist_source_config"; "bind_source_config"; "certificates"; "private_keys"; "user_auth_data"; "analytics_history"].

(** app/backup.py:200-221 TABLE_COMPONENT_MAP *)
Definition TABLE_COMPONENT_MAP : gmap string string :=
  list_to_map
    [("sources", "blocklist_source_definitions"); ("custom_rules", "custom_rules"); ("custom_filter_rules", "custom_rules");
     ("local_dns_records", "local_dns_zones"); ("local_dns_settings", "local_dns_zones"); ("client_aliases", "client_aliases");
     ("clients", "client_aliases"); ("client_identifiers", "client_aliases"); ("access_settings", "client_aliases");
     ("access_rules", "client_aliases"); ("admins", "user_auth_data"); ("login_attempts", "user_auth_data"); ("sessions", "user_auth_data");
     ("admin_audit_log", "user_auth_data"); ("query_events", "analytics_history"); ("analytics_aggregate_buckets", "analytics_history")].

(** app/backup.py:226-232 TABLES_EXCLUDED_FROM_RESTORE *)
Definition TABLES_EXCLUDED_FROM_RESTORE : list string :=
  ["backup_history"; "restore_history"; "backup_requests"; "backup_settings"; "sqlite_sequence"].

Definition CHUNK_ROW_THRESHOLD : Z := 50000.
Definition CHUNK_SIZE : Z := 200000.

Definition gating_component (t : string) : string := default "sqlite_data" (TABLE_COMPONENT_MAP !! t).
(** The tables a restore of the components replaces *)
Definition selects (components : gmap string bool) (t : string) : bool :=
  negb (bool_decide (t ∈ TABLES_EXCLUDED_FROM_RESTORE)) && default true (components !! gating_component t).

(** ** The merge *)

Section merge.
(** What SQLite refuses for a new row of a table that has these rows, and the threshold and
    the size of a chunk *)
Context (violates : string → list row → row → option pyexc) (threshold chunk : Z).

(** app/backup.py:1922-1932 _integer_pk_column *)
Definition integer_pk_column (t : table) : option string :=
  match List.filter (λ c, (cn_pk c =? 1)%Z) (tb_columns t) with
  | [c] => if cn_integer c then Some (cn_name c) else None
  | _ => None
  end.

Definition shared (target archive : table) : list string :=
  List.filter (λ n, bool_decide (n ∈ column_names archive)) (column_names target).

(** The row that [INSERT INTO t(shared) SELECT shared] makes *)
Definition project (target archive : table) (r : row) : row :=
  list_to_map ((λ c, (cn_name c, if bool_decide (cn_name c ∈ column_names archive) then default JNull (r !! cn_name c) else cn_default c)) <$> tb_columns target).

Fixpoint insert_all (name : string) (have new : list row) : res (list row) :=
  match new with
  | [] => Ok have
  | r :: new => match violates name have r with Some e => Raise e | None => insert_all name (have ++ [r]) new end
  end.

Definition pk_value (pk : string) (r : row) : option Z := match r !! pk with Some (JInt z) => Some z | _ => None end.
Definition between (pk : string) (a b : Z) (r : row) : bool :=
  match pk_value pk r with Some z => (a <=? z)%Z && (z <=? b)%Z | None => false end.

(** The chunks from [start] to [hi], with the number of rows after each *)
Fixpoint copy_chunks (fuel : nat) (name pk : string) (target archive : table) (start hi : Z) (have : list row) (counts : list nat)
    : res (list row * list nat) :=
  match fuel with
  | O => Raise (PyExc "OutOfFuel" "")
  | S fuel =>
      if (hi <? start)%Z then Ok (have, counts)
      else
        let stop := Z.min (start + chunk - 1) hi in
        have ← insert_all name have (project target archive <$> List.filter (between pk start stop) (tb_rows archive));
        copy_chunks fuel name pk target archive (stop + 1) hi have (counts ++ [length have])
  end.

Definition last_count (counts : list nat) : nat := default 0 (last counts).

(** The rows that replace a table *)
Definition copy_table (name : string) (target archive : table) : res (list row) :=
  let n := Z.of_nat (length (tb_rows archive)) in
  let direct := insert_all name [] (project target archive <$> tb_rows archive) in
  match integer_pk_column target with
  | Some pk =>
      if (threshold <? n)%Z then
        match omap (pk_value pk) (tb_rows archive) with
        | [] => Raise (TypeError "'<=' not supported between instances of 'NoneType' and 'NoneType'")
        | z :: zs =>
            let lo := foldr Z.min z zs in let hi := foldr Z.max z zs in
            '(rows, counts) ← copy_chunks (S (Z.to_nat (hi - lo + 1))) name pk target archive lo hi [] [];
            if bool_decide (last_count counts = length (tb_rows archive)) then Ok rows
            else Raise (BackupError ("restore merge for table " +:+ py_repr name +:+ " copied " +:+ str_int (Z.of_nat (last_count counts))
                                     +:+ " of " +:+ str_int n +:+ " expected rows"))
        end
      else direct
  | None => direct
  end.

(** One table of the archive: [None] when it is passed over *)
Definition merge_table (components : gmap string bool) (staged target : dbfile) (name : string) : res (option table) :=
  if negb (selects components name) then Ok None
  else match staged !! name, target !! name with
  | Some a, Some t =>
      if bool_decide (shared t a = []) then Ok None
      else rows ← copy_table name t a; Ok (Some (mkTable (tb_columns t) rows))
  | _, _ => Ok None
  end.

Fixpoint merge_tables (components : gmap string bool) (staged : dbfile) (names : list string) (target : dbfile) (merged : list string)
    : res (list string * dbfile) :=
  match names with
  | [] => Ok (merged, target)
  | name :: names =>
      new ← merge_table components staged target name;
      match new with
      | Some t => merge_tables components staged names (<[name := t]> target) (merged ++ [name])
      | None => merge_tables components staged names target merged
      end
  end.

(** The names of the tables, sorted *)
Definition sorted_tables (db : dbfile) : list string := py_sorted (map_to_list db).*1.

(** app/backup.py:1935-2038 _merge_database

    The reports of progress only describe the merge.  What a failure leaves in the target
    is discarded by the caller. *)
Definition merge_database (staged : option dbfile) (components : gmap string bool) (target : dbfile) : res (list string * dbfile) :=
  match staged with
  | None => Ok ([], target)
  | Some staged => merge_tables components staged (sorted_tables staged) target []
  end.

(** ** The resynchronisation and the swap *)

(** [INSERT INTO w SELECT * FROM t], by position *)
Definition reposition (from to : table) : res (list row) :=
  if bool_decide (length (tb_columns from) = length (tb_columns to))
  then Ok ((λ r, list_to_map (zip (column_names to) ((λ n, default JNull (r !! n)) <$> column_names from))) <$> tb_rows from)
  else Raise (PyExc "OperationalError" "table columns do not match").

Fixpoint resync_tables (names : list string) (live working : dbfile) : res dbfile :=
  match names with
  | [] => Ok working
  | name :: names =>
      match live !! name, working !! name with
      | Some t, Some w => rows ← reposition t w; resync_tables names live (<[name := mkTable (tb_columns w) rows]> working)
      | _, _ => resync_tables names live working
      end
  end.

(** app/backup.py:1846-1873 _resync_live_state_into_working *)
Definition resync_live_state_into_working (live working : dbfile) (merged : list string) : res dbfile :=
  resync_tables (List.filter (λ t, negb (bool_decide (t ∈ merged)) && bool_decide (is_Some (working !! t))) (sorted_tables live)) live working.

(** app/backup.py:2296-2375 restore_backup

    The database of a restore: the tables that end up in the live file, and whether the swap
    happened.  [before] is the live file when the working copy is made, [after] the live
    file under the lock; other writers run in between.  The pauses and failures that the
    tests inject are left out. *)
Definition restore_database (quick_check : dbfile → string) (lock : res ()) (staged : option dbfile) (effective : gmap string bool) (before after : dbfile)
    : res (list string) * dbfile * bool :=
  match merge_database staged effective before with
  | Raise e => (Raise e, after, false)
  | Ok ([], _) => (Ok [], after, false)
  | Ok (merged, working) =>
      if negb (String.eqb (quick_check working) "ok")
      then (Raise (PyExc "RuntimeError" ("working-copy database integrity check failed before promotion: " +:+ quick_check working)), after, false)
      else match lock with
      | Raise e => (Raise e, after, false)
      | Ok _ =>
          match resync_live_state_into_working after working merged with
          | Raise e => (Raise e, after, false)
          | Ok working => (Ok merged, working, true)
          end
      end
  end.
End merge.

(** ** The chunks copy the whole table *)

(** A table whose key is SQLite's rowid *)
Definition stored (pk : string) (rows : list row) : Prop :=
  Forall (λ r, is_Some (pk_value pk r)) rows ∧ StronglySorted (λ r r', (default 0 (pk_value pk r) < default 0 (pk_value pk r'))%Z) rows.

Lemma filter_nothing {A} (p : A → bool) l : (∀ x, x ∈ l → p x = false) → List.filter p l = [].
Proof. induction l as [|x l IH]; [done|]. intros H. cbn. rewrite (H x) by left. apply IH. intros y Hy. apply H. by right. Qed.
Lemma filter_everything {A} (p : A → bool) l : (∀ x, x ∈ l → p x = true) → List.filter p l = l.
Proof. induction l as [|x l IH]; [done|]. intros H. cbn. rewrite (H x) by left. rewrite IH; [done|]. intros y Hy. apply H. by right. Qed.

Lemma filter_split pk a b c rows :
  stored pk rows → (a ≤ b + 1)%Z → (b ≤ c)%Z →
  List.filter (between pk a c) rows = List.filter (between pk a b) rows ++ List.filter (between pk (b + 1) c) rows.
Proof.
  intros [Hs Ho] Hab Hbc. induction Ho as [|r rows Ho IH Hr]; [done|]. apply Forall_cons in Hs as [[z Hz] Hs]. cbn.
  specialize (IH Hs). unfold between in *. rewrite Hz. rewrite Hz in Hr. cbn in Hr.
  destruct (Z.leb_spec a z), (Z.leb_spec z c), (Z.leb_spec z b), (Z.leb_spec (b + 1) z); cbn; try lia; try done; rewrite IH; try done.
  (* the key lies after the first chunk, so the rest does *)
  rewrite (filter_nothing (λ r, match pk_value pk r with Some z => (a <=? z)%Z && (z <=? b)%Z | None => false end)); [done|].
  intros r' Hr'. rewrite Forall_forall in Hr. specialize (Hr r' Hr'). destruct (pk_value pk r') as [z'|]; [|done]. cbn in Hr. lia.
Qed.

Section chunks.
Context (violates : string → list row → row → option pyexc) (threshold chunk : Z).

Lemma insert_all_app name have a b : insert_all violates name have (a ++ b) = (h ← insert_all violates name have a; insert_all violates name h b).
Proof. revert have. induction a as [|r a IH]; intros have; [done|]. cbn. destruct (violates name have r); [done|]. apply IH. Qed.

Lemma insert_all_rows name have new h : insert_all violates name have new = Ok h → h = have ++ new.
Proof.
  revert have. induction new as [|r new IH]; intros have; cbn; [intros [= <-]; by rewrite app_nil_r|].
  destruct (violates name have r); [done|]. intros ->%IH. by rewrite <-app_assoc.
Qed.

Lemma copy_chunks_spec fuel name pk target archive start hi have counts :
  (1 ≤ chunk)%Z → stored pk (tb_rows archive) → (hi - start + 1 < Z.of_nat fuel)%Z → (start ≤ hi + 1)%Z →
  (start ≤ hi)%Z ∨ last counts = Some (length have) →
  match insert_all violates name have (project target archive <$> List.filter (between pk start hi) (tb_rows archive)) with
  | Ok rows => ∃ counts', copy_chunks violates chunk fuel name pk target archive start hi have counts = Ok (rows, counts') ∧ last counts' = Some (length rows)
  | Raise e => copy_chunks violates chunk fuel name pk target archive start hi have counts = Raise e
  end.
Proof.
  intros Hc Hst. revert start have counts. induction fuel as [|fuel IH]; intros start have counts Hf Hle Hlast; [lia|]. cbn [copy_chunks].
  destruct (Z.ltb_spec hi start) as [Hlt|Hge].
  - rewrite filter_nothing; [|intros r _; unfold between; destruct (pk_value pk r); lia]. cbn. exists counts. split; [done|]. destruct Hlast; [lia|done].
  - set (stop := Z.min (start + chunk - 1) hi). rewrite (filter_split pk start stop hi) by (done || lia). rewrite fmap_app, insert_all_app.
    destruct (insert_all violates name have (project target archive <$> List.filter (between pk start stop) (tb_rows archive))) as [h|e]; [|done].
    apply (IH (stop + 1)%Z h (counts ++ [length h])); [lia|lia|]. right. by rewrite last_snoc.
Qed.

Lemma foldr_min_le z zs x : x ∈ z :: zs → (foldr Z.min z zs ≤ x ≤ foldr Z.max z zs)%Z.
Proof.
  revert x. induction zs as [|y zs IH]; intros x; cbn; [intros ->%list_elem_of_singleton; lia|].
  intros [->|[->|Hx]%elem_of_cons]%elem_of_cons.
  - specialize (IH z ltac:(left)). lia.
  - lia.
  - specialize (IH x ltac:(by right)). lia.
Qed.

(** In chunks or at once, the same rows are copied, and the check of their number passes. *)
Lemma copy_table_direct name target archive :
  (1 ≤ chunk)%Z → (0 ≤ threshold)%Z → (∀ pk, integer_pk_column target = Some pk → stored pk (tb_rows archive)) →
  copy_table violates threshold chunk name target archive = insert_all violates name [] (project target archive <$> tb_rows archive).
Proof.
  intros Hc Ht Hst. unfold copy_table. destruct (integer_pk_column target) as [pk|]; [|done]. specialize (Hst pk eq_refl).
  destruct (Z.ltb_spec threshold (Z.of_nat (length (tb_rows archive)))) as [Hn|]; [|done].
  assert (∀ r z, r ∈ tb_rows archive → pk_value pk r = Some z → z ∈ omap (pk_value pk) (tb_rows archive)) as Hin.
  { intros r z Hr Hz. apply list_elem_of_omap. by exists r. }
  destruct (omap (pk_value pk) (tb_rows archive)) as [|z zs] eqn:Ez.
  - destruct (tb_rows archive) as [|r rows] eqn:Er; [cbn in Hn; lia|]. destruct Hst as [Hs _]. apply Forall_cons in Hs as [[z Hz] _].
    specialize (Hin r z ltac:(left) Hz). by apply elem_of_nil in Hin.
  - set (lo := foldr Z.min z zs). set (hi := foldr Z.max z zs).
    assert (List.filter (between pk lo hi) (tb_rows archive) = tb_rows archive) as Hall.
    { apply filter_everything. intros r Hr. destruct Hst as [Hs _]. rewrite Forall_forall in Hs. destruct (Hs r Hr) as [x Hx].
      unfold between. rewrite Hx. pose proof (foldr_min_le z zs x (Hin r x Hr Hx)) as Hb. fold lo hi in Hb. lia. }
    assert (lo ≤ hi)%Z as Hlh by (pose proof (foldr_min_le z zs z ltac:(left)); lia).
    pose proof (copy_chunks_spec (S (Z.to_nat (hi - lo + 1))) name pk target archive lo hi [] [] Hc Hst ltac:(lia) ltac:(lia) (or_introl Hlh)) as H.
    rewrite Hall in H. destruct (insert_all violates name [] (project target archive <$> tb_rows archive)) as [rows|e] eqn:Ei; [|by rewrite H].
    destruct H as (counts' & -> & Hlast). apply insert_all_rows in Ei. cbn. unfold last_count. rewrite Hlast.
    rewrite bool_decide_eq_true_2; [done|]. cbn. by rewrite Ei, length_app, length_fmap.
Qed.
End chunks.

(** ** What a restore of the database does *)

(** The table with the rows of the archive *)
Definition spliced (target archive : table) : table := mkTable (tb_columns target) (project target archive <$> tb_rows archive).

(** The tables that are replaced *)
Definition replaces (components : gmap string bool) (staged target : dbfile) (name : string) : bool :=
  selects components name && match staged !! name, target !! name with Some a, Some t => negb (bool_decide (shared t a = [])) | _, _ => false end.

(** The specification: the selected tables of the live file take the rows of the archive, at
    the moment of the swap; every other table stays. *)
Definition restored (components : gmap string bool) (staged live : dbfile) : dbfile :=
  map_imap (λ name t, Some (match staged !! name with Some a => if replaces components staged live name then spliced t a else t | None => t end)) live.

(** Rows have the columns of their table. *)
Definition well_formed (t : table) : Prop :=
  NoDup (column_names t) ∧ Forall (λ r : row, ∀ n, is_Some (r !! n) ↔ n ∈ column_names t) (tb_rows t).

Definition same_schema (a b : dbfile) : Prop := ∀ name, tb_columns <$> a !! name = tb_columns <$> b !! name.

Section restore.
Context (violates : string → list row → row → option pyexc) (threshold chunk : Z).
Context (components : gmap string bool) (staged : dbfile).

(** The rows of the archive are stored as SQLite stores them. *)
Definition archive_ok (target : dbfile) : Prop :=
  ∀ name a t pk, staged !! name = Some a → target !! name = Some t → integer_pk_column t = Some pk → stored pk (tb_rows a).

Lemma merge_table_spec target name new :
  (1 ≤ chunk)%Z → (0 ≤ threshold)%Z → archive_ok target →
  merge_table violates threshold chunk components staged target name = Ok new →
  match new with
  | Some t' => replaces components staged target name = true ∧ ∃ t a, target !! name = Some t ∧ staged !! name = Some a ∧ t' = spliced t a
  | None => replaces components staged target name = false
  end.
Proof.
  intros Hc Ht Ha. unfold merge_table, replaces. destruct (selects components name); cbn [negb andb]; [|by intros [= <-]].
  destruct (staged !! name) as [a|] eqn:Es; [|by intros [= <-]]. destruct (target !! name) as [t|] eqn:Et; [|by intros [= <-]].
  destruct (bool_decide (shared t a = [])); [by intros [= <-]|]. rewrite copy_table_direct by (try done; intros pk Hpk; by eapply Ha).
  intros (rows & Hi & [= <-])%res_bind_ok. apply insert_all_rows in Hi. cbn in Hi. subst rows. split; [done|]. by exists t, a.
Qed.

Lemma replaces_insert target name t n : n ≠ name → replaces components staged (<[name := t]> target) n = replaces components staged target n.
Proof. intros Hn. unfold replaces. by rewrite lookup_insert_ne. Qed.

Lemma merge_tables_spec names target merged merged' target' :
  (1 ≤ chunk)%Z → (0 ≤ threshold)%Z → NoDup names → archive_ok target →
  merge_tables violates threshold chunk components staged names target merged = Ok (merged', target') →
  merged' = merged ++ List.filter (replaces components staged target) names
  ∧ ∀ n, match target !! n, staged !! n with
         | Some t, Some a => target' !! n = Some (if bool_decide (n ∈ names) && replaces components staged target n then spliced t a else t)
         | o, _ => target' !! n = o
         end.
Proof.
  intros Hc Ht. revert target merged. induction names as [|name names IH]; intros target merged Hn Ha.
  { intros [= <- <-]. cbn. rewrite app_nil_r. split; [done|]. intros n. destruct (target !! n) eqn:E; [|done]. by destruct (staged !! n). }
  apply NoDup_cons in Hn as [Hnot Hn]. cbn [merge_tables]. intros (new & Hm & Hrest)%res_bind_ok.
  pose proof (merge_table_spec target name new Hc Ht Ha Hm) as Hspec. cbn [List.filter]. destruct new as [t'|].
  - destruct Hspec as (Hrep & t & a & Etar & Est & ->). rewrite Hrep.
    assert (archive_ok (<[name := spliced t a]> target)) as Ha'.
    { intros n a' t' pk Hs Hta Hpk. destruct (decide (n = name)) as [->|Hne].
      - rewrite lookup_insert_eq in Hta. injection Hta as <-. eapply (Ha name); [done|exact Etar|done].
      - rewrite lookup_insert_ne in Hta by done. by eapply Ha. }
    destruct (IH _ _ Hn Ha' Hrest) as [-> Hall]. split.
    + rewrite <-app_assoc. cbn. do 2 f_equal. apply List.filter_ext_in. intros n Hin. apply replaces_insert. intros ->. by apply Hnot, list_elem_of_In.
    + intros n. specialize (Hall n). destruct (decide (n = name)) as [->|Hne].
      * rewrite lookup_insert_eq, Est in Hall. rewrite Etar, Est, Hall. rewrite (bool_decide_eq_true_2 (name ∈ name :: names)) by left.
        rewrite (bool_decide_eq_false_2 (name ∈ names)) by done. by rewrite Hrep.
      * rewrite lookup_insert_ne, replaces_insert in Hall by done. destruct (target !! n), (staged !! n); try done. rewrite Hall.
        by assert (bool_decide (n ∈ name :: names) = bool_decide (n ∈ names)) as -> by (apply bool_decide_ext; rewrite elem_of_cons; tauto).
  - rewrite Hspec. destruct (IH _ _ Hn Ha Hrest) as [-> Hall]. split; [done|]. intros n. specialize (Hall n).
    destruct (target !! n), (staged !! n); try done. rewrite Hall. destruct (decide (n = name)) as [->|Hne].
    + by rewrite Hspec, !andb_false_r.
    + by assert (bool_decide (n ∈ name :: names) = bool_decide (n ∈ names)) as -> by (apply bool_decide_ext; rewrite elem_of_cons; tauto).
Qed.
End restore.

(** Rows taken by position from a table with the same columns *)
Lemma reposition_same from to :
  tb_columns from = tb_columns to → well_formed from → reposition from to = Ok (tb_rows from).
Proof.
  intros Hc [Hn Hrows]. unfold reposition. rewrite Hc, bool_decide_eq_true_2 by done. f_equal. rewrite <-(list_fmap_id (tb_rows from)) at 2.
  apply list_fmap_ext. intros i r Hr%list_elem_of_lookup_2. rewrite Forall_forall in Hrows. specialize (Hrows r Hr).
  unfold column_names in *. rewrite Hc in *. apply map_eq. intros n. cbn. destruct (decide (n ∈ cn_name <$> tb_columns to)) as [Hin|Hout].
  - destruct (proj2 (Hrows n) Hin) as [v Hv]. rewrite Hv. apply elem_of_list_to_map_1.
    + rewrite fst_zip; [done|by rewrite !length_fmap].
    + clear -Hin Hv. induction (cn_name <$> tb_columns to) as [|m l IH]; [by apply elem_of_nil in Hin|]. cbn.
      destruct (decide (n = m)) as [->|Hne]; [rewrite Hv; left|right]. apply IH. by apply elem_of_cons in Hin as [->|].
  - assert (r !! n = None) as -> by (destruct (r !! n) eqn:E; [destruct Hout; apply Hrows; eauto|done]).
    apply not_elem_of_list_to_map_1. rewrite fst_zip; [done|by rewrite !length_fmap].
Qed.

Lemma resync_tables_spec names live working final :
  (∀ n t w, n ∈ names → live !! n = Some t → working !! n = Some w → tb_columns t = tb_columns w ∧ well_formed t) →
  NoDup names → resync_tables names live working = Ok final →
  ∀ n, final !! n = if bool_decide (n ∈ names) then match live !! n, working !! n with Some t, Some _ => Some t | _, o => o end else working !! n.
Proof.
  revert working. induction names as [|name names IH]; intros working Hcols Hn.
  { by intros [= <-]. }
  apply NoDup_cons in Hn as [Hnot Hn]. cbn [resync_tables].
  assert (∀ w' : dbfile, (∀ n, n ∈ names → w' !! n = working !! n) → resync_tables names live w' = Ok final →
    ∀ n, final !! n = if bool_decide (n ∈ names) then match live !! n, working !! n with Some t, Some _ => Some t | _, o => o end else w' !! n) as Hgo.
  { intros w' Hw Hr n. rewrite (IH w'); [|intros n' t w Hin Hl Hw'|done|done].
    - destruct (bool_decide (n ∈ names)) eqn:E; [|done]. apply bool_decide_eq_true in E. by rewrite Hw.
    - apply (Hcols n'); [by right|done|]. by rewrite <-Hw. }
  destruct (live !! name) as [t|] eqn:El.
  2: { intros Hr n. rewrite (Hgo working) by done. destruct (decide (n = name)) as [->|Hne].
       - rewrite El, (bool_decide_eq_false_2 (name ∈ names)) by done. by destruct (bool_decide _).
       - by assert (bool_decide (n ∈ name :: names) = bool_decide (n ∈ names)) as -> by (apply bool_decide_ext; rewrite elem_of_cons; tauto). }
  destruct (working !! name) as [w|] eqn:Ew.
  2: { intros Hr n. rewrite (Hgo working) by done. destruct (decide (n = name)) as [->|Hne].
       - rewrite El, Ew, (bool_decide_eq_false_2 (name ∈ names)) by done. by destruct (bool_decide _).
       - by assert (bool_decide (n ∈ name :: names) = bool_decide (n ∈ names)) as -> by (apply bool_decide_ext; rewrite elem_of_cons; tauto). }
  destruct (Hcols name t w ltac:(left) El Ew) as [Hc Hwf]. rewrite (reposition_same t w Hc Hwf). cbn [mbind res_bind]. intros Hr n.
  rewrite (Hgo (<[name := mkTable (tb_columns w) (tb_rows t)]> working)); [|intros n' Hin; rewrite lookup_insert_ne; [done|by intros ->]|done].
  destruct (decide (n = name)) as [->|Hne].
  - rewrite (bool_decide_eq_false_2 (name ∈ names)), (bool_decide_eq_true_2 (name ∈ name :: names)), El, Ew, lookup_insert_eq by (done || left).
    rewrite <-Hc. by destruct t.
  - rewrite lookup_insert_ne by done. by assert (bool_decide (n ∈ name :: names) = bool_decide (n ∈ names)) as -> by (apply bool_decide_ext; rewrite elem_of_cons; tauto).
Qed.

Lemma replaces_schema components staged a b name : same_schema a b → replaces components staged a name = replaces components staged b name.
Proof.
  intros H. specialize (H name). unfold replaces. destruct (staged !! name); [|done]. f_equal. destruct (a !! name) as [ta|], (b !! name) as [tb|]; try done.
  injection H as H. unfold shared, column_names. by rewrite H.
Qed.

Lemma spliced_schema t t' a : tb_columns t = tb_columns t' → spliced t a = spliced t' a.
Proof. intros H. unfold spliced. rewrite H. f_equal. apply list_fmap_ext. intros _ r _. unfold project. by rewrite H. Qed.

Lemma replaces_staged components staged target n : replaces components staged target n = true → is_Some (staged !! n) ∧ is_Some (target !! n).
Proof. unfold replaces. destruct (staged !! n), (target !! n); try by rewrite andb_false_r. eauto. Qed.

Lemma sorted_tables_in db n : n ∈ sorted_tables db ↔ is_Some (db !! n).
Proof.
  unfold sorted_tables. rewrite elem_of_py_sorted, list_elem_of_fmap. split.
  - intros ([n' t] & -> & H%elem_of_map_to_list). eauto.
  - intros [t H]. exists (n, t). split; [done|]. by apply elem_of_map_to_list.
Qed.
Lemma sorted_tables_NoDup db : NoDup (sorted_tables db).
Proof. unfold sorted_tables, py_sorted. rewrite merge_sort_Permutation. apply NoDup_fst_map_to_list. Qed.

Lemma lookup_restored components staged live n :
  restored components staged live !! n
  = (λ t, match staged !! n with Some a => if replaces components staged live n then spliced t a else t | None => t end) <$> live !! n.
Proof. unfold restored. rewrite map_lookup_imap. by destruct (live !! n). Qed.

Lemma promoted_is_restored violates threshold chunk components staged before after merged working final :
  (1 ≤ chunk)%Z → (0 ≤ threshold)%Z → archive_ok staged before → same_schema before after → map_Forall (λ _ t, well_formed t) after →
  merge_database violates threshold chunk (Some staged) components before = Ok (merged, working) →
  resync_live_state_into_working after working merged = Ok final →
  final = restored components staged after.
Proof.
  intros Hc Ht Ha Hs Hwf Hm Hr. destruct (merge_tables_spec _ _ _ _ _ _ _ _ _ _ Hc Ht (sorted_tables_NoDup staged) Ha Hm) as [Hmerged Hwork].
  assert (∀ n, n ∈ merged ↔ replaces components staged after n = true) as Hin.
  { intros n. rewrite Hmerged. cbn. rewrite elem_of_filterb, sorted_tables_in, (replaces_schema _ _ _ _ _ Hs).
    split; [by intros [_ ?]|]. intros H. split; [exact (proj1 (replaces_staged _ _ _ _ H))|done]. }
  assert (∀ n, working !! n = match before !! n, staged !! n with
    | Some t, Some a => Some (if replaces components staged after n then spliced t a else t) | o, _ => o end) as Hworking.
  { intros n. specialize (Hwork n). destruct (before !! n) as [t|] eqn:Eb, (staged !! n) as [a|] eqn:Est; try done. rewrite Hwork.
    rewrite bool_decide_eq_true_2 by (apply sorted_tables_in; eauto). cbn. by rewrite (replaces_schema _ _ _ _ _ Hs). }
  apply map_eq. intros n. rewrite lookup_restored.
  assert (tb_columns <$> before !! n = tb_columns <$> after !! n) as Hcols by apply Hs.
  unfold resync_live_state_into_working in Hr. set (names := List.filter _ (sorted_tables after)) in Hr.
  assert (∀ m t w, m ∈ names → after !! m = Some t → working !! m = Some w → tb_columns t = tb_columns w ∧ well_formed t) as H1.
  { intros m t w _ Hl Hw. split; [|by apply (Hwf m)]. rewrite Hworking in Hw. specialize (Hs m). rewrite Hl in Hs.
    destruct (before !! m) as [t0|]; [|done]. injection Hs as Hs. rewrite <-Hs. destruct (staged !! m); [|by injection Hw as <-].
    injection Hw as <-. by destruct (replaces _ _ _ _). }
  assert (NoDup names) as H2 by (eapply sublist_NoDup; [apply sorted_tables_NoDup|apply filterb_sublist]).
  rewrite (resync_tables_spec _ _ _ _ H1 H2 Hr n). unfold names.
  destruct (after !! n) as [t1|] eqn:Ea, (before !! n) as [t0|] eqn:Eb; try done.
  + injection Hcols as Hcols. specialize (Hworking n). rewrite Eb in Hworking. destruct (replaces components staged after n) eqn:Erep.
    * rewrite bool_decide_eq_false_2.
      { destruct (replaces_staged _ _ _ _ Erep) as [[a Est] _]. rewrite Hworking, Est. cbn. f_equal. by apply spliced_schema. }
      rewrite elem_of_filterb. intros [_ H%andb_prop]. destruct H as [H%negb_true_iff%bool_decide_eq_false _]. by apply H, Hin.
    * assert (working !! n = Some t0) as Hw by (rewrite Hworking; by destruct (staged !! n)).
      rewrite bool_decide_eq_true_2; [rewrite Hw; cbn; by destruct (staged !! n)|]. apply elem_of_filterb. split; [apply sorted_tables_in; eauto|].
      rewrite Hw. apply andb_true_iff. split; [|by apply bool_decide_eq_true_2]. apply negb_true_iff, bool_decide_eq_false_2. rewrite Hin. by rewrite Erep.
  + rewrite bool_decide_eq_false_2; [rewrite Hworking, Eb; done|]. rewrite elem_of_filterb, sorted_tables_in. intros [[? ?] _]. congruence.
Qed.

(** Nothing but SQLite's refusals stops the merge and the resynchronisation. *)
Lemma insert_all_accepts violates name have new : (∀ n h r, violates n h r = None) → insert_all violates name have new = Ok (have ++ new).
Proof.
  intros Hv. revert have. induction new as [|r new IH]; intros have; cbn; [by rewrite app_nil_r|]. by rewrite Hv, IH, <-app_assoc.
Qed.

Lemma merge_tables_accepts violates threshold chunk components staged names target merged :
  (1 ≤ chunk)%Z → (0 ≤ threshold)%Z → archive_ok staged target → (∀ n h r, violates n h r = None) →
  is_ok (merge_tables violates threshold chunk components staged names target merged) = true.
Proof.
  intros Hc Ht Ha Hv. revert target merged Ha. induction names as [|name names IH]; intros target merged Ha; [done|]. cbn [merge_tables].
  destruct (merge_table violates threshold chunk components staged target name) as [new|e] eqn:Em.
  - cbn [mbind res_bind]. pose proof (merge_table_spec violates threshold chunk components staged target name new Hc Ht Ha Em) as Hs.
    destruct new as [t'|]; [|by apply IH]. destruct Hs as (_ & t & a & Et & Es & ->). apply IH.
    intros n a' t' pk Hsn Hta Hpk. destruct (decide (n = name)) as [->|Hne].
    + rewrite lookup_insert_eq in Hta. injection Hta as <-. by eapply (Ha name a' t).
    + rewrite lookup_insert_ne in Hta by done. by eapply Ha.
  - exfalso. revert Em. unfold merge_table. destruct (negb _); [done|]. destruct (staged !! name) as [a|] eqn:Es, (target !! name) as [t|] eqn:Et; try done.
    destruct (bool_decide _); [done|]. rewrite copy_table_direct by (try done; intros pk Hpk; by eapply Ha). by rewrite insert_all_accepts.
Qed.

Lemma resync_tables_accepts names live working :
  (∀ n t w, live !! n = Some t → working !! n = Some w → tb_columns t = tb_columns w ∧ well_formed t) →
  is_ok (resync_tables names live working) = true.
Proof.
  revert working. induction names as [|name names IH]; intros working H; [done|]. cbn [resync_tables].
  destruct (live !! name) as [t|] eqn:El; [|by apply IH]. destruct (working !! name) as [w|] eqn:Ew; [|by apply IH].
  destruct (H name t w El Ew) as [Hc Hwf]. rewrite (reposition_same t w Hc Hwf). cbn [mbind res_bind]. apply IH. intros n t' w' Hl Hw.
  destruct (decide (n = name)) as [->|Hne].
  - rewrite lookup_insert_eq in Hw. injection Hw as <-. assert (t' = t) as -> by congruence. done.
  - rewrite lookup_insert_ne in Hw by done. by apply (H n).
Qed.

Lemma merged_columns violates threshold chunk components staged before after merged working :
  (1 ≤ chunk)%Z → (0 ≤ threshold)%Z → archive_ok staged before → same_schema before after →
  merge_database violates threshold chunk (Some staged) components before = Ok (merged, working) →
  ∀ n t w, after !! n = Some t → working !! n = Some w → tb_columns t = tb_columns w.
Proof.
  intros Hc Ht Ha Hs Hm n t w Hl Hw. destruct (merge_tables_spec _ _ _ _ _ _ _ _ _ _ Hc Ht (sorted_tables_NoDup staged) Ha Hm) as [_ Hwork].
  specialize (Hwork n). specialize (Hs n). rewrite Hl in Hs. destruct (before !! n) as [t0|]; [|done]. injection Hs as Hs.
  rewrite <-Hs. destruct (staged !! n); rewrite Hwork in Hw; injection Hw as <-; [|done]. by destruct (_ && _).
Qed.


(** A restore of the custom rules, in chunks of one row, while a session is added *)
Definition ex_rules (l : list (Z * string)) : table :=
  mkTable [mkColumn "id" true 1 JNull; mkColumn "domain" false 0 JNull; mkColumn "enabled" true 0 (JInt 1)]
    ((λ x, list_to_map [("id", JInt x.1); ("domain", JStr x.2); ("enabled", JInt 1)]) <$> l).
Definition ex_archive : dbfile :=
  {[ "custom_rules" := mkTable [mkColumn "id" true 1 JNull; mkColumn "domain" false 0 JNull]
       ((λ x, list_to_map [("id", JInt x.1); ("domain", JStr x.2)]) <$> [(2, "ads.test"); (3, "old.test"); (7, "kept.test")]%Z) ]}.
Definition ex_sessions (l : list string) : table := mkTable [mkColumn "token" false 1 JNull] ((λ x, {[ "token" := JStr x ]}) <$> l).
Definition ex_before : dbfile := {[ "custom_rules" := ex_rules [(1, "now.test")]%Z; "sessions" := ex_sessions ["a"] ]}.
Definition ex_after : dbfile := {[ "custom_rules" := ex_rules [(1, "now.test")]%Z; "sessions" := ex_sessions ["a"; "b"] ]}.
Definition ex_components : gmap string bool := list_to_map [("custom_rules", true); ("user_auth_data", false); ("sqlite_data", false)].

Lemma well_formed_dom t : NoDup (column_names t) → Forall (λ r : row, dom r = list_to_set (C := gset string) (column_names t)) (tb_rows t) → well_formed t.
Proof.
  intros Hn Hr. split; [done|]. eapply Forall_impl; [exact Hr|]. cbn. intros r Hd n. by rewrite <-elem_of_dom, Hd, elem_of_list_to_set.
Qed.

