(* ===== verification/BackupArchive.v ===== *)
(** * Backup archives

    Archives in [app/backup.py]: what a backup selects, the copy of the database with its
    secrets blanked, the archive with its manifest, and its verified extraction.  A path is
    the list of its components, a file system maps paths to contents, and directories are
    what the paths of files need.  The digest, the reading of an archive and the free space
    are parameters. *)

From S2P Require Import Prelude PyStr StrLemmas IpAddr PyJson JsonRead RestoreDb.

Notation path := (list string).

(** What a file holds: other bytes, a JSON document as [json.dumps] writes it, a database *)
Inductive content := Bytes (s : string) | Document (j : json) | Database (db : dbfile).

(** [json.loads] of a file *)
Definition parsed (c : content) : option json :=
  match c with Document j => Some j | Bytes s => loads s | Database _ => None end.

Notation files := (gmap path content).

Definition path_of (s : string) : path := List.filter (λ c, negb (String.eqb c "")) (split_on "/" s).
(** [str(path.relative_to("/"))] *)
Definition relpath (p : path) : string := join "/" p.
Definition path_str (p : path) : string := "/" +:+ join "/" p.

Definition is_prefix (p q : path) : bool := bool_decide (p `prefix_of` q).
Definition is_dir (fs : files) (p : path) : bool :=
  existsb (λ q, is_prefix p q && negb (bool_decide (p = q))) (map_to_list fs).*1.
Definition path_exists (fs : files) (p : path) : bool := bool_decide (is_Some (fs !! p)) || is_dir fs p.

(** ** What a backup holds *)

(** app/backup.py:181-195 COMPONENT_DEFAULTS *)
Definition COMPONENT_DEFAULTS : gmap string bool :=
  list_to_map ((λ k, (k, negb (bool_decide (k ∈ ["private_keys"; "user_auth_data"; "analytics_history"])))) <$> COMPONENT_KEYS).

(** [bool(raw)], or one of the texts that mean yes *)
Definition component_flag (raw : json) : bool :=
  match raw with JStr s => bool_decide (lower (strip s) ∈ ["1"; "true"; "on"; "yes"]) | _ => py_bool raw end.

(** app/backup.py:677-684 validate_components *)
Definition validate_components (values : gmap string json) : gmap string bool :=
  fold_left (λ out key, match values !! key with Some raw => <[key := component_flag raw]> out | None => out end) COMPONENT_KEYS COMPONENT_DEFAULTS.

Definition selected (components : gmap string bool) (key : string) : bool := default false (components !! key).

Definition COMPILED_DIR : path := ["var"; "lib"; "alderpointdns"; "compiled"].
Definition LOCAL_ZONE_DIR : path := COMPILED_DIR ++ ["bind"; "local"].
Definition LOCAL_ZONES_CONF : path := COMPILED_DIR ++ ["bind"; "local-zones.conf"].
Definition DOWNLOADS_DIR : path := ["var"; "lib"; "alderpointdns"; "downloads"].
Definition SYSTEMD_DIR : path := ["etc"; "systemd"; "system"].
Definition SUDOERS_FILE : path := ["etc"; "sudoers.d"; "alderpointdns"].
Definition CERT_DIR : path := ["etc"; "alderpointdns"; "certs"].
Definition SECRET_FILES : list path :=
  [["etc"; "alderpointdns"; "secrets.env"]; ["etc"; "alderpointdns"; "dnsdist-api.key"]; ["etc"; "alderpointdns"; "dnsdist-web.creds"]].
Definition ETC_BIND : path := ["etc"; "bind"].
Definition BIND_CONF_FILES : list string := ["named.conf"; "named.conf.local"; "named.conf.options"].
Definition DNSDIST_CONF : path := ["etc"; "dnsdist"; "dnsdist.conf"].
Definition DB_ARCHIVE_PATH : path := ["var"; "lib"; "alderpointdns"; "alderpointdns.db"].

(** The files at or below a path *)
Definition walk_files (fs : files) (root : path) : list path := List.filter (is_prefix root) (map_to_list fs).*1.

(** [path.suffix == ".crt"] *)
Definition is_certificate (name : string) : bool := ends_with ".crt" name && negb (String.eqb name ".crt").

Definition cert_files (components : gmap string bool) (fs : files) : list path :=
  List.filter (λ p, is_prefix CERT_DIR p && bool_decide (length p = S (length CERT_DIR))
    && selected components (if is_certificate (default "" (last p)) then "certificates" else "private_keys")) (map_to_list fs).*1.

(** The paths that are offered for each component, before those without a file are left out *)
Definition candidates (components : gmap string bool) (fs : files) : list path :=
  let on key (l : list path) := if selected components key then l else [] in
  on "app_config" (walk_files fs COMPILED_DIR ++ [SYSTEMD_DIR ++ ["alderpointdns.service"]; SYSTEMD_DIR ++ ["alderpointdns-analytics.service"]]
    ++ mjoin ((λ d, walk_files fs (SYSTEMD_DIR ++ [d])) <$> ["alderpointdns.service.d"; "alderpointdns-analytics.service.d"; "dnsdist.service.d"]) ++ [SUDOERS_FILE])
  ++ on "local_dns_zones" (walk_files fs LOCAL_ZONE_DIR ++ [LOCAL_ZONES_CONF])
  ++ on "last_downloaded_lists" (walk_files fs DOWNLOADS_DIR)
  ++ on "dnsdist_source_config" [DNSDIST_CONF]
  ++ on "bind_source_config" ((λ n, ETC_BIND ++ [n]) <$> BIND_CONF_FILES)
  ++ cert_files components fs
  ++ (if selected components "private_keys" || selected components "user_auth_data" then SECRET_FILES else []).

(** app/backup.py:908-959 select_files

    The selected paths; the dictionary of the source keys them by their text. *)
Definition select_files (components : gmap string bool) (fs : files) : gset path :=
  list_to_set (List.filter (λ p, bool_decide (is_Some (fs !! p))) (candidates components fs)).

Definition clear_tables (names : list string) (db : dbfile) : dbfile :=
  fold_left (λ db n, match db !! n with Some t => <[n := mkTable (tb_columns t) []]> db | None => db end) names db.

Definition blank_secrets (t : table) : table := mkTable (tb_columns t) ((λ r : gmap string json, <["secret" := JStr ""]> r) <$> tb_rows t).

(** app/backup.py:850-893 sqlite_backup_copy *)
Definition sqlite_backup_copy (db : dbfile) (include_analytics include_auth include_private_keys : bool) : dbfile :=
  let db := if include_analytics then db else clear_tables ["query_events"; "analytics_aggregate_buckets"] db in
  let db := if include_auth then db else clear_tables ["admins"; "login_attempts"; "sessions"; "admin_audit_log"] db in
  if include_private_keys then db
  else match db !! "notification_providers" with Some t => <["notification_providers" := blank_secrets t]> db | None => db end.

(** ** Archives *)

Inductive member_kind := KFile | KDir | KLink | KSpecial.
#[export] Instance member_kind_eq_dec : EqDecision member_kind.
Proof. solve_decision. Defined.

Record member := mkMember { mb_name : string; mb_kind : member_kind; mb_size : Z; mb_content : content }.

(** ** Extraction *)

(** The components [os.path.normpath] keeps *)
Fixpoint norm_comps (absolute : bool) (acc comps : list string) : list string :=
  match comps with
  | [] => rev acc
  | c :: comps =>
      if String.eqb c "" || String.eqb c "." then norm_comps absolute acc comps
      else if negb (String.eqb c "..") || (negb absolute && bool_decide (acc = [])) || bool_decide (head acc = Some "..")
      then norm_comps absolute (c :: acc) comps
      else norm_comps absolute (tail acc) comps
  end.

(** [os.path.normpath] *)
Definition normpath (s : string) : string :=
  if String.eqb s "" then "."
  else
    let absolute := starts_with "/" s in
    let slashes := if starts_with "//" s && negb (starts_with "///" s) then "//" else if absolute then "/" else "" in
    let r := slashes +:+ join "/" (norm_comps absolute [] (split_on "/" s)) in
    if String.eqb r "" then "." else r.

(** [os.path.join(dest, name)] *)
Definition path_join (dest name : string) : string :=
  if starts_with "/" name then name else if ends_with "/" dest then dest +:+ name else dest +:+ "/" +:+ name.

(** app/backup.py:1302-1319 _reject_unsafe_member *)
Definition reject_unsafe_member (dest_dir : path) (m : member) : res unit :=
  let name := mb_name m in
  let dest := path_str dest_dir in
  if starts_with "/" name || starts_with ".." name || contains "/../" ("/" +:+ name +:+ "/")
  then Raise (BackupError ("backup archive contains an unsafe path: " +:+ name))
  else
    let resolved := normpath (path_join dest name) in
    if negb (String.eqb resolved dest) && negb (starts_with (dest +:+ "/") resolved)
    then Raise (BackupError ("backup archive contains a path outside the staging directory: " +:+ name))
    else match mb_kind m with
    | KLink => Raise (BackupError ("backup archive contains a symlink/hardlink, which is not permitted: " +:+ name))
    | KSpecial => Raise (BackupError ("backup archive contains an unsupported member type (device/fifo/special file): " +:+ name))
    | KFile | KDir => Ok ()
    end.

(** Where the system finds a path that starts in a directory, without symbolic links *)
Fixpoint walk (at_ : path) (comps : list string) : path :=
  match comps with
  | [] => at_
  | c :: comps =>
      walk (if String.eqb c "" || String.eqb c "." then at_ else if String.eqb c ".." then removelast at_ else at_ ++ [c]) comps
  end.
Definition target (dest_dir : path) (name : string) : path := walk dest_dir (split_on "/" name).

(** A file stands where a directory is needed, or a directory where the file goes. *)
Definition blocked (fs : files) (p : path) : bool := is_dir fs p || existsb (λ n, bool_decide (is_Some (fs !! take n p))) (seq 1 (pred (length p))).

(** [tar.extractall]: what was written before a failure stays *)
Fixpoint extract_all (dest_dir : path) (members : list member) (fs : files) : res unit * files :=
  match members with
  | [] => (Ok (), fs)
  | m :: members =>
      let p := target dest_dir (mb_name m) in
      match mb_kind m with
      | KFile =>
          if blocked fs p then (Raise (PyExc "OSError" ("cannot extract " +:+ mb_name m)), fs) else extract_all dest_dir members (<[p := mb_content m]> fs)
      | _ => extract_all dest_dir members fs
      end
  end.

Definition mib (n : Z) : string := str_int (n / 1048576).

(** The members one by one, with the size of those before *)
Fixpoint scan (dest_dir : path) (max_extracted_bytes total : Z) (members : list member) : res Z :=
  match members with
  | [] => Ok total
  | m :: members =>
      _ ← reject_unsafe_member dest_dir m;
      let total := (if bool_decide (mb_kind m = KFile) then total + mb_size m else total)%Z in
      if (max_extracted_bytes <? total)%Z
      then Raise (BackupError ("backup archive's extracted size exceeds the " +:+ mib max_extracted_bytes
                               +:+ " MiB limit (possible archive bomb); rejecting before writing further data"))
      else scan dest_dir max_extracted_bytes total members
  end.

Section archive.
(** The hex digest of a file, and the free bytes of the staging file system *)
Context (sha256 : content → string) (free : Z).

(** app/backup.py:651-659 _check_free_space *)
Definition check_free_space (required_bytes : Z) (target_dir : path) : res unit :=
  if (free <? required_bytes)%Z
  then Raise (BackupError ("insufficient free disk space in " +:+ path_str target_dir +:+ ": " +:+ mib free +:+ " MiB available, at least "
                           +:+ mib required_bytes +:+ " MiB required"))
  else Ok ().

(** app/backup.py:1322-1338 _scan_and_extract *)
Definition scan_and_extract (members : list member) (dest_dir : path) (max_extracted_bytes : Z) (fs : files) : res unit * files :=
  match (total ← scan dest_dir max_extracted_bytes 0 members; check_free_space (total * 6 / 5) dest_dir) with
  | Raise e => (Raise e, fs)
  | Ok _ => extract_all dest_dir members fs
  end.

(** The last member of a name *)
Definition get_member (name : string) (members : list member) : option member := last (List.filter (λ m, String.eqb (mb_name m) name) members).

Definition REQUIRED_MANIFEST_KEYS : list string :=
  ["backup_format_version"; "alderpointdns_app_version"; "created_at"; "included_components"; "sha256_checksums"].

(** [key in manifest] *)
Definition json_in (key : string) (v : json) : res bool :=
  match v with
  | JObj fields => Ok (bool_decide (is_Some (field key fields)))
  | JList l => Ok (existsb (λ x, match x with JStr s => String.eqb s key | _ => false end) l)
  | JStr s => Ok (contains key s)
  | _ => Raise (TypeError "argument is not iterable")
  end.

Fixpoint missing_keys (keys : list string) (manifest : json) : res (list string) :=
  match keys with
  | [] => Ok []
  | k :: keys => b ← json_in k manifest; rest ← missing_keys keys manifest; Ok (if b : bool then rest else k :: rest)
  end.

(** The manifest in the archive, read before anything is extracted; a link is refused here,
    where the source may follow it to what the scan refuses. *)
Definition archived_manifest (members : list member) : res json :=
  match match get_member "manifest.json" members with Some m => Some m | None => get_member "./manifest.json" members end with
  | None => Raise (BackupError "not an Alderpoint DNS native backup archive (missing manifest.json)")
  | Some m =>
      if negb (bool_decide (mb_kind m = KFile)) then Raise (BackupError "not an Alderpoint DNS native backup archive (manifest.json is not a regular file)")
      else match parsed (mb_content m) with
      | None => Raise (BackupError "backup manifest is not valid JSON")
      | Some manifest =>
          missing ← missing_keys REQUIRED_MANIFEST_KEYS manifest;
          if bool_decide (missing = []) then Ok manifest else Raise (BackupError ("backup manifest is missing required field(s): " +:+ join ", " missing))
      end
  end.

(** [dest_dir / relpath], where the system finds it *)
Definition candidate (dest_dir : path) (rel : string) : path := if starts_with "/" rel then walk [] (split_on "/" rel) else target dest_dir rel.

Fixpoint mismatches (fs : files) (dest_dir : path) (checksums : list (string * json)) : res (list string) :=
  match checksums with
  | [] => Ok []
  | (rel, expected) :: checksums =>
      let p := candidate dest_dir rel in
      match fs !! p with
      | Some c =>
          rest ← mismatches fs dest_dir checksums;
          Ok (match expected with JStr s => if String.eqb s (sha256 c) then rest else (rel +:+ ": checksum mismatch") :: rest | _ => (rel +:+ ": checksum mismatch") :: rest end)
      | None =>
          if is_dir fs p then Raise (PyExc "IsADirectoryError" rel)
          else rest ← mismatches fs dest_dir checksums; Ok ((rel +:+ ": missing from archive") :: rest)
      end
  end.

(** The manifest that was extracted, with every file it lists verified *)
Definition verified_manifest (dest_dir : path) (fs : files) : res json :=
  match fs !! (dest_dir ++ ["manifest.json"]) with
  | None => Raise (BackupError "backup archive is missing manifest.json")
  | Some c =>
      match parsed c with
      | None => Raise (BackupError "backup manifest is not valid JSON")
      | Some manifest =>
          checksums ← dict_get manifest "sha256_checksums" (JObj []);
          match checksums with
          | JObj l =>
              bad ← mismatches fs dest_dir l;
              if bool_decide (bad = []) then Ok manifest
              else Raise (BackupError ("backup integrity check failed (truncated/corrupt/tampered archive): " +:+ join "; " (take 10 bad)))
          | _ => Raise (PyExc "AttributeError" "object has no attribute 'items'")
          end
      end
  end.

(** app/backup.py:1341-1402 extract_backup

    [read password] is what decrypting and opening the archive gives, an exception included;
    an archive is encrypted by its name. *)
Definition extract_backup (encrypted : bool) (read : option string → res (list member)) (password : string) (dest_dir : path) (max_extracted_bytes : Z) (fs : files)
    : res json * files :=
  if encrypted && String.eqb password "" then (Raise (BackupError "this backup is password-encrypted; a password is required"), fs)
  else if negb encrypted && negb (String.eqb password "") then (Raise (BackupError "a password was provided but this backup is not encrypted"), fs)
  else match read (if encrypted then Some password else None) with
  | Raise e => (Raise e, fs)
  | Ok members =>
      match archived_manifest members with
      | Raise e => (Raise e, fs)
      | Ok _ =>
          match scan_and_extract members dest_dir max_extracted_bytes fs with
          | (Raise e, fs) => (Raise e, fs)
          | (Ok _, fs) => (verified_manifest dest_dir fs, fs)
          end
      end
  end.

(** ** Creation *)

(** The manifest's other fields *)
Record backup_facts := mkFacts {
  bf_app_version : string; bf_schema_version : string; bf_created_at : string; bf_node : string; bf_purpose : string; bf_metadata : json }.

Definition file_member (size : content → Z) (p : path) (c : content) : member := mkMember (relpath p) KFile (size c) c.

Definition sorted_paths (s : gset path) : list path := merge_sort (λ p q, String.le (relpath p) (relpath q)) (elements s).

(** app/backup.py:975-1077 create_backup

    The members of the archive, before its compression and encryption.  [before] are the
    files when their digests are taken, [after] when tar reads them; tar fails when one is
    gone. *)
Definition create_backup (size : content → Z) (facts : backup_facts) (values : gmap string json) (before after : files) (db : dbfile) : res (list member) :=
  let components := validate_components values in
  let paths := sorted_paths (select_files components before) in
  let copy := Database (sqlite_backup_copy db (selected components "analytics_history") (selected components "user_auth_data") (selected components "private_keys")) in
  let checksums := omap (λ p, (λ c, (relpath p, JStr (sha256 c))) <$> before !! p) paths
    ++ (if selected components "sqlite_data" then [(relpath DB_ARCHIVE_PATH, JStr (sha256 copy))] else []) in
  let manifest := JObj
    [("backup_format_version", JInt 1); ("alderpointdns_app_version", JStr (bf_app_version facts)); ("database_schema_version", JStr (bf_schema_version facts));
     ("created_at", JStr (bf_created_at facts)); ("source_node_id", JStr (bf_node facts));
     ("included_components", JList (JStr <$> List.filter (selected components) COMPONENT_KEYS)); ("sha256_checksums", JObj checksums);
     ("purpose", JStr (if String.eqb (bf_purpose facts) "" then "manual" else bf_purpose facts)); ("purpose_metadata", bf_metadata facts)] in
  if forallb (λ p, bool_decide (is_Some (after !! p))) paths
  then Ok (omap (λ p, file_member size p <$> after !! p) paths
           ++ (if selected components "sqlite_data" then [file_member size DB_ARCHIVE_PATH copy] else [])
           ++ [file_member size ["manifest.json"] (Document manifest)])
  else Raise (PyExc "CalledProcessError" "tar").
End archive.

(** ** Names and paths *)

Lemma split_on_sep c a t : split_on c (a +:+ String c t) = split_on c a ++ split_on c t.
Proof.
  induction a as [|d a IH]; [rewrite app_nil_s; cbn [split_on]; by rewrite Ascii.eqb_refl|]. rewrite app_cons. cbn [split_on]. rewrite IH.
  destruct (Ascii.eqb c d); [done|]. pose proof (split_on_not_nil c a). by destruct (split_on c a).
Qed.

Lemma slashed_split name : split_on "/" ("/" +:+ name +:+ "/") = [""] ++ split_on "/" name ++ [""].
Proof. change ("/" +:+ name +:+ "/") with ("" +:+ String "/" (name +:+ String "/" "")). by rewrite !split_on_sep. Qed.

Lemma join_mid l1 x l2 : l1 ≠ [] → l2 ≠ [] → join "/" (l1 ++ x :: l2) = join "/" l1 +:+ "/" +:+ x +:+ "/" +:+ join "/" l2.
Proof.
  intros H1 H2. induction l1 as [|y l1 IH]; [done|]. destruct l1 as [|z l1].
  - cbn [app]. rewrite !join_cons by done. cbn [join]. done.
  - rewrite <-app_comm_cons, join_cons by done. rewrite IH by done. rewrite (join_cons "/" y) by done. by rewrite !sapp_assoc.
Qed.

(** A parent directory anywhere in a name *)
Lemma dotdot_spec name : contains "/../" ("/" +:+ name +:+ "/") = true ↔ ".." ∈ split_on "/" name.
Proof.
  rewrite contains_spec. split.
  - intros (a & b & Hs). pose proof (slashed_split name) as Hsplit. rewrite Hs in Hsplit.
    change (a +:+ "/../" +:+ b) with (a +:+ String "/" (".." +:+ String "/" b)) in Hsplit. rewrite !split_on_sep in Hsplit.
    assert (".." ∈ [""] ++ split_on "/" name ++ [""]) as Hin by (rewrite <-Hsplit, !elem_of_app; right; left; left).
    rewrite !elem_of_app, !list_elem_of_singleton in Hin. by destruct Hin as [?|[?|?]].
  - intros (l1 & l2 & E)%list_elem_of_split. exists (join "/" ("" :: l1)), (join "/" (l2 ++ [""])).
    rewrite <-(join_split_on "/" ("/" +:+ name +:+ "/")), slashed_split, E.
    change ([""] ++ (l1 ++ ".." :: l2) ++ [""]) with (("" :: l1 ++ ".." :: l2) ++ [""]). rewrite <-app_comm_cons, <-app_assoc, <-app_comm_cons, app_comm_cons.
    rewrite join_mid; [done|done|by destruct l2].
Qed.

(** A component of a path *)
Definition plain (c : string) : Prop := c ≠ "" ∧ c ≠ "." ∧ c ≠ ".." ∧ char_in "/" c = false.
Definition plain_path (p : path) : Prop := p ≠ [] ∧ Forall plain p.

Lemma split_relpath p : plain_path p → split_on "/" (relpath p) = p.
Proof. intros [Hn Hp]. apply split_on_join; [done|]. intros w Hw. rewrite Forall_forall in Hp. by apply Hp. Qed.

Lemma walk_plain at_ p : Forall plain p → walk at_ p = at_ ++ p.
Proof.
  intros Hp. revert at_. induction Hp as [|c p (H1 & H2 & H3 & _) _ IH]; intros at_; cbn [walk]; [by rewrite app_nil_r|].
  rewrite (proj2 (String.eqb_neq c "") H1), (proj2 (String.eqb_neq c ".") H2), (proj2 (String.eqb_neq c "..") H3). cbn [orb]. rewrite IH. by rewrite <-app_assoc.
Qed.

Lemma target_plain dest p : plain_path p → target dest (relpath p) = dest ++ p.
Proof. intros Hp. unfold target. rewrite split_relpath by done. apply walk_plain, Hp. Qed.

(** Without a parent directory in it, a name stays below where it starts. *)
Lemma walk_below at_ comps : ".." ∉ comps → at_ `prefix_of` walk at_ comps.
Proof.
  revert at_. induction comps as [|c comps IH]; intros at_ Hn; cbn [walk]; [done|]. apply not_elem_of_cons in Hn as [Hc Hn].
  destruct (_ || _); [by apply IH|]. rewrite (proj2 (String.eqb_neq c "..")) by done. etransitivity; [|by apply IH]. by apply prefix_app_r.
Qed.

Lemma reject_confines dest m : reject_unsafe_member dest m = Ok () → dest `prefix_of` target dest (mb_name m).
Proof.
  unfold reject_unsafe_member. destruct (contains _ _) eqn:E; [by rewrite orb_true_r|]. intros _. apply walk_below. intros Hin%dotdot_spec. congruence.
Qed.

(** ** Extraction stays in its directory *)

Lemma scan_rejects dest limit members : ∀ total t, scan dest limit total members = Ok t →
  Forall (λ m, reject_unsafe_member dest m = Ok ()) members
  ∧ t = (total + foldr (λ m n, (if bool_decide (mb_kind m = KFile) then mb_size m else 0) + n) 0 members)%Z ∧ (members = [] ∨ t ≤ limit)%Z.
Proof.
  induction members as [|m members IH]; intros total t; cbn [scan foldr].
  - intros [= <-]. split; [constructor|]. split; [lia|by left].
  - intros ([] & Hm & Hk)%res_bind_ok. cbv zeta in Hk. destruct (Z.ltb_spec limit (if bool_decide (mb_kind m = KFile) then total + mb_size m else total)) as [|Hle]; [done|].
    apply IH in Hk as (Hall & -> & Hlim). split; [by constructor|]. split; [case_bool_decide; lia|]. right. destruct Hlim as [->|Hlim]; [cbn; case_bool_decide; lia|exact Hlim].
Qed.

Lemma extract_confined dest members : ∀ fs r fs',
  Forall (λ m, reject_unsafe_member dest m = Ok ()) members → extract_all dest members fs = (r, fs') → ∀ p, ¬ dest `prefix_of` p → fs' !! p = fs !! p.
Proof.
  induction members as [|m members IH]; intros fs r fs' Hall He p Hp; cbn [extract_all] in He; [by injection He as _ <-|]. cbv zeta in He.
  apply Forall_cons in Hall as [Hm Hall]. destruct (mb_kind m); [|by eapply IH..]. destruct (blocked _ _); [by injection He as _ <-|].
  rewrite (IH _ _ _ Hall He p Hp). apply lookup_insert_ne. intros <-. by apply Hp, reject_confines.
Qed.

Section extraction.
Context (sha256 : content → string) (free : Z).

Lemma mismatches_none fs dest checksums :
  mismatches sha256 fs dest checksums = Ok [] → ∀ rel v, (rel, v) ∈ checksums → ∃ c, fs !! candidate dest rel = Some c ∧ v = JStr (sha256 c).
Proof.
  induction checksums as [|[rel v] checksums IH]; intros Hm rel' v' Hin; [by apply elem_of_nil in Hin|]. cbn [mismatches] in Hm. cbv zeta in Hm.
  destruct (fs !! candidate dest rel) as [c|] eqn:Ec.
  - apply res_bind_ok in Hm as (rest & Hr & Hm). apply elem_of_cons in Hin as [[= -> ->]|Hin].
    + exists c. split; [done|]. destruct v; try done. destruct (String.eqb_spec s (sha256 c)) as [->|]; done.
    + destruct v; try done. destruct (String.eqb s (sha256 c)); [|done]. injection Hm as ->. by apply IH.
  - destruct (is_dir _ _); [done|]. by apply res_bind_ok in Hm as (rest & _ & [=]).
Qed.

(** The members an extraction reads *)
Definition read_members (encrypted : bool) (read : option string → res (list member)) (password : string) : list member :=
  match read (if encrypted then Some password else None) with Ok l => l | Raise _ => [] end.

(** C0: Whatever an archive holds, its extraction writes below the staging directory only,
    and nothing at all when one of its members is unsafe or their sizes exceed the limit;
    when it succeeds, every file that the manifest lists is there with the digest listed,
    and the members passed the check and the limit. *)
Theorem extract_backup_safe encrypted read password dest limit fs :
  let members := read_members encrypted read password in
  let '(r, fs') := extract_backup sha256 free encrypted read password dest limit fs in
  (∀ p, ¬ dest `prefix_of` p → fs' !! p = fs !! p)
  ∧ (is_ok (scan dest limit 0 members) = false → is_ok r = false ∧ fs' = fs)
  ∧ match r with
    | Ok manifest => (∃ checksums, dict_get manifest "sha256_checksums" (JObj []) = Ok (JObj checksums)
        ∧ ∀ rel v, (rel, v) ∈ checksums → ∃ c, fs' !! candidate dest rel = Some c ∧ v = JStr (sha256 c))
        ∧ (∀ m, m ∈ members → mb_kind m = KFile ∨ mb_kind m = KDir)
        ∧ (foldr (λ m n, (if bool_decide (mb_kind m = KFile) then mb_size m else 0) + n) 0 members ≤ limit)%Z
    | Raise _ => True
    end.
Proof.
  cbv zeta. unfold extract_backup, read_members. destruct (encrypted && _); [done|]. destruct (negb encrypted && _); [done|].
  destruct (read _) as [members|e]; [|done]. destruct (archived_manifest members) as [m0|e] eqn:Em; [|done]. unfold scan_and_extract.
  destruct (scan dest limit 0 members) as [t|e] eqn:Es; cbn [mbind res_bind]; [|done]. apply scan_rejects in Es as (Hall & Ht & Hlim).
  destruct (check_free_space _ _ _) as [[]|e]; [|done]. destruct (extract_all dest members fs) as [[[]|e] fs'] eqn:Ex.
  - pose proof (extract_confined dest members fs (Ok ()) fs' Hall Ex) as Hout. destruct (verified_manifest sha256 dest fs') as [manifest|e] eqn:Ev; [|done].
    split; [done|]. split; [done|]. split; [|split].
    + unfold verified_manifest in Ev. destruct (fs' !! _) as [c|]; [|done]. destruct (parsed c) as [j|]; [|done].
      apply res_bind_ok in Ev as (checksums & Hc & Ev). destruct checksums as [| | | | |l]; try done. apply res_bind_ok in Ev as (bad & Hb & Ev).
      case_bool_decide; [|done]. subst bad. injection Ev as <-. exists l. split; [done|]. by apply mismatches_none.
    + intros m Hm. rewrite Forall_forall in Hall. specialize (Hall m Hm). unfold reject_unsafe_member in Hall. destruct (_ || _); [done|]. cbv zeta in Hall.
      destruct (negb _ && _); [done|]. destruct (mb_kind m); auto; done.
    + destruct Hlim as [->|Hlim]; [by cbn in Em|]. lia.
  - by pose proof (extract_confined dest members fs (Raise e) fs' Hall Ex).
Qed.
End extraction.

(** ** A backup is extracted as it was made *)

(** Two paths that can both be files of one tree *)
Definition apart (p q : path) : Prop := ¬ p `prefix_of` q ∧ ¬ q `prefix_of` p.

Lemma join_slash l1 l2 : l1 ≠ [] → l2 ≠ [] → join "/" (l1 ++ l2) = join "/" l1 +:+ "/" +:+ join "/" l2.
Proof.
  intros H1 H2. induction l1 as [|x l1 IH]; [done|]. destruct l1 as [|y l1]; [by rewrite <-app_comm_cons, join_cons|].
  rewrite <-app_comm_cons, join_cons by done. rewrite IH by done. rewrite (join_cons "/" x) by done. by rewrite !sapp_assoc.
Qed.

Lemma norm_plain absolute acc p : Forall plain p → norm_comps absolute acc p = rev acc ++ p.
Proof.
  intros Hp. revert acc. induction Hp as [|c p (H1 & H2 & H3 & _) _ IH]; intros acc; cbn [norm_comps]; [by rewrite app_nil_r|].
  rewrite (proj2 (String.eqb_neq c "") H1), (proj2 (String.eqb_neq c ".") H2), (proj2 (String.eqb_neq c "..") H3). cbn [orb negb]. rewrite IH. cbn. by rewrite <-app_assoc.
Qed.

Lemma relpath_head p : plain_path p → ∃ c s, relpath p = String c s ∧ c ≠ "/"%char.
Proof.
  intros [Hn Hp]. destruct p as [|w p]; [done|]. apply Forall_cons in Hp as [(H1 & _ & _ & H4) _]. destruct w as [|c w]; [done|].
  rewrite char_in_cons in H4. apply orb_false_iff in H4 as [H4%Ascii.eqb_neq _]. unfold relpath. destruct p as [|w' p]; [by exists c, w|].
  rewrite join_cons, app_cons by done. eexists c, _. split; [reflexivity|]. by intros ->.
Qed.

Lemma split_path_str p : plain_path p → split_on "/" (path_str p) = "" :: p.
Proof. intros Hp. unfold path_str. change ("/" +:+ join "/" p) with ("" +:+ String "/" (relpath p)). by rewrite split_on_sep, split_relpath. Qed.

Lemma path_str_starts p : plain_path p → starts_with "/" (path_str p) = true ∧ starts_with "//" (path_str p) = false ∧ String.eqb (path_str p) "" = false.
Proof.
  intros Hp. destruct (relpath_head p Hp) as (c & s & E & Hc). unfold path_str. fold (relpath p). rewrite E.
  change ("/" +:+ String c s) with (String "/" (String c s)). split; [done|]. split; [|done].
  destruct (starts_with "//" _) eqn:Es; [|done]. apply starts_with_spec in Es as [t Et]. by injection Et as -> _.
Qed.

Lemma normpath_plain p : plain_path p → normpath (path_str p) = path_str p.
Proof.
  intros Hp. destruct (path_str_starts p Hp) as (H1 & H2 & H3). unfold normpath. rewrite H1, H2, H3, split_path_str by done. cbn [andb norm_comps String.eqb orb].
  rewrite norm_plain by apply Hp. cbn [rev app]. change ("/" +:+ join "/" p) with (path_str p). cbv zeta. by rewrite H3.
Qed.

Lemma reject_plain dest p size c :
  plain_path dest → plain_path p → starts_with ".." (relpath p) = false → reject_unsafe_member dest (mkMember (relpath p) KFile size c) = Ok ().
Proof.
  intros Hd Hp Hdot. unfold reject_unsafe_member. cbn [mb_name mb_kind]. rewrite Hdot.
  destruct (contains "/../" _) eqn:Ec.
  { apply dotdot_spec in Ec. rewrite split_relpath in Ec by done. destruct Hp as [_ Hp]. rewrite Forall_forall in Hp. by destruct (Hp _ Ec) as (_ & _ & ? & _). }
  destruct (relpath_head p Hp) as (ch & s & E & Hc). assert (starts_with "/" (relpath p) = false) as Hs.
  { rewrite E. destruct (starts_with "/" _) eqn:Es; [|done]. apply starts_with_spec in Es as [t Et]. by injection Et as -> _. }
  rewrite Hs. cbn [orb]. cbv zeta. unfold path_join. rewrite Hs. assert (ends_with "/" (path_str dest) = false) as ->.
  { destruct (ends_with "/" (path_str dest)) eqn:Ee; [|done]. apply ends_with_spec in Ee as [t Et]. pose proof (split_path_str dest Hd) as Hsp. rewrite Et in Hsp.
    change (t +:+ "/") with (t +:+ String "/" "") in Hsp. rewrite split_on_sep in Hsp. apply (f_equal last) in Hsp. change (split_on "/" "") with [""] in Hsp. rewrite last_snoc in Hsp.
    destruct Hd as [Hne Hd]. destruct dest as [|d dest]; [done|]. symmetry in Hsp. rewrite last_cons_cons in Hsp. apply last_Some_elem_of in Hsp. rewrite Forall_forall in Hd. by destruct (Hd _ Hsp). }
  assert (path_str dest +:+ "/" +:+ relpath p = path_str (dest ++ p)) as Hj.
  { unfold path_str, relpath. rewrite (join_slash dest p) by (apply Hd || apply Hp). by rewrite !sapp_assoc. }
  rewrite Hj, normpath_plain by (split; [by destruct Hd, dest|apply Forall_app; split; [apply Hd|apply Hp]]).
  assert (starts_with (path_str dest +:+ "/") (path_str (dest ++ p)) = true) as ->.
  { rewrite <-Hj. rewrite <-sapp_assoc. apply starts_with_app. }
  by rewrite andb_false_r.
Qed.

Definition place_all (dest : path) (l : list (path * content)) (fs : files) : files := fold_left (λ fs x, <[dest ++ x.1 := x.2]> fs) l fs.

(** Room for files below a directory: nothing there conflicts with them, and no file stands
    in the way to it. *)
Definition room (dest : path) (l : list (path * content)) (fs : files) : Prop :=
  ∀ q, is_Some (fs !! q) → (¬ q `prefix_of` dest) ∧ ∀ p0, q = dest ++ p0 → ∀ p, p ∈ l.*1 → apart p p0.

Lemma room_free dest p c l fs : room dest ((p, c) :: l) fs → plain_path p → blocked fs (dest ++ p) = false.
Proof.
  intros Hr [Hne _]. unfold blocked. apply orb_false_iff. split.
  - unfold is_dir. apply existsb_false. intros q Hq. apply list_elem_of_fmap in Hq as ([q' c'] & -> & Hq%elem_of_map_to_list). cbn [fst].
    apply andb_false_iff. destruct (decide ((dest ++ p) `prefix_of` q')) as [[k ->]|Hn]; [|left; by apply bool_decide_eq_false_2].
    exfalso. rewrite <-app_assoc in Hq. destruct (Hr (dest ++ p ++ k) ltac:(eauto)) as [_ Ha]. destruct (Ha (p ++ k) eq_refl p ltac:(left)) as [Hp _]. apply Hp. by apply prefix_app_r.
  - apply existsb_false. intros n Hn%elem_of_seq. apply bool_decide_eq_false_2. intros Hs. destruct (Hr _ Hs) as [Hd Ha]. rewrite length_app in Hn.
    destruct (decide (n ≤ length dest)) as [Hle|Hgt].
    + apply Hd. rewrite take_app_le by done. apply prefix_take.
    + destruct (Ha (take (n - length dest) p)) with p as [_ Hp]; [by rewrite take_app_ge by lia|left|]. apply Hp, prefix_take.
Qed.

Lemma fop_cons {A} (R : A → A → Prop) x l : ForallOrdPairs R (x :: l) → Forall (R x) l ∧ ForallOrdPairs R l.
Proof. by inversion 1. Qed.

Lemma extract_place dest l : ∀ members fs,
  plain_path dest → Forall (λ x, plain_path x.1) l → ForallOrdPairs (λ x y, apart x.1 y.1) l → room dest l fs →
  Forall2 (λ m x, mb_name m = relpath x.1 ∧ mb_kind m = KFile ∧ mb_content m = x.2) members l →
  extract_all dest members fs = (Ok (), place_all dest l fs).
Proof.
  induction l as [|[p c] l IH]; intros members fs Hd Hp Ho Hr Hm; inversion Hm as [|m x members' l' [Hn [Hk Hc]] Hms]; subst; [done|].
  apply Forall_cons in Hp as [Hpp Hp]. apply fop_cons in Ho as [Ho1 Ho]. cbn [fst snd] in *. cbn [extract_all]. rewrite Hk, Hn, target_plain by done.
  rewrite (room_free dest p c l fs Hr Hpp). rewrite Hc. apply IH; try done.
  intros q Hq. destruct (decide (q = dest ++ p)) as [->|Hne].
  - split.
    + intros [k Hk']. destruct Hpp as [Hne _]. apply (f_equal length) in Hk'. rewrite !length_app in Hk'. destruct p; [done|]. cbn in Hk'. lia.
    + intros p0 Hp0%(inj (app dest)) p' Hp'. subst p0. rewrite Forall_forall in Ho1. apply list_elem_of_fmap in Hp' as (x & -> & Hx). destruct (Ho1 x Hx). by split.
  - rewrite lookup_insert_ne in Hq by done. destruct (Hr q Hq) as [H1 H2]. split; [done|]. intros p0 Hp0 p' Hp'. apply (H2 p0 Hp0). by right.
Qed.

Lemma place_lookup dest l : ∀ fs p c,
  NoDup l.*1 → (p, c) ∈ l → place_all dest l fs !! (dest ++ p) = Some c.
Proof.
  unfold place_all. induction l as [|[p' c'] l IH]; intros fs p c Hn Hin; [by apply elem_of_nil in Hin|]. apply NoDup_cons in Hn as [Hni Hn]. cbn [fold_left fst snd].
  apply elem_of_cons in Hin as [[= -> ->]|Hin]; [|by apply IH].
  assert (∀ fs, fold_left (λ (fs : files) x, <[dest ++ x.1 := x.2]> fs) l fs !! (dest ++ p') = fs !! (dest ++ p')) as Hkeep.
  { clear IH Hn. induction l as [|[p2 c2] l IH]; intros fs1; [done|]. cbn [fold_left fst snd fmap list_fmap] in *. apply not_elem_of_cons in Hni as [H1 H2].
    rewrite IH by done. apply lookup_insert_ne. intros Heq%(inj (app dest)). congruence. }
  rewrite Hkeep. apply lookup_insert_eq.
Qed.

Lemma place_other dest l : ∀ fs q, (∀ x, x ∈ l → q ≠ dest ++ x.1) → place_all dest l fs !! q = fs !! q.
Proof.
  unfold place_all. induction l as [|x l IH]; intros fs q Hq; [done|]. cbn [fold_left]. rewrite IH by (intros y Hy; apply Hq; by right).
  apply lookup_insert_ne. intros <-. by apply (Hq x); [left|].
Qed.

(** ** What is selected *)

Definition ROOTS : list path := [COMPILED_DIR; DOWNLOADS_DIR; SYSTEMD_DIR; SUDOERS_FILE; CERT_DIR; ETC_BIND; DNSDIST_CONF] ++ SECRET_FILES.

Lemma walk_files_root fs root p : p ∈ walk_files fs root → root `prefix_of` p.
Proof. unfold walk_files, is_prefix. rewrite elem_of_filterb. by intros [_ H%bool_decide_eq_true]. Qed.

Lemma candidates_root components fs p : p ∈ candidates components fs → ∃ root, root ∈ ROOTS ∧ root `prefix_of` p.
Proof.
  assert (∀ r, r ∈ ROOTS → ∀ k, p = r ++ k → ∃ root, root ∈ ROOTS ∧ root `prefix_of` p) as Hin by (intros r Hr k ->; exists r; split; [done|by apply prefix_app_r]).
  assert (∀ r, r ∈ ROOTS → r `prefix_of` p → ∃ root, root ∈ ROOTS ∧ root `prefix_of` p) as Hpre by eauto.
  assert (∀ b (l : list path), p ∈ (if b : bool then l else []) → p ∈ l) as Hif by (intros [] l H; [done|by apply elem_of_nil in H]).
  unfold candidates. cbv zeta. rewrite !elem_of_app. intros [H|[H|[H|[H|[H|[H|H]]]]]].
  - apply Hif in H. rewrite !elem_of_app in H. destruct H as [H|[H|[H|H]]].
    + by apply (Hpre COMPILED_DIR); [left|apply walk_files_root in H].
    + apply (Hpre SYSTEMD_DIR); [set_solver|]. rewrite !elem_of_cons in H. destruct H as [->|[->|H]]; [by eexists..|by apply elem_of_nil in H].
    + apply (Hpre SYSTEMD_DIR); [set_solver|]. apply list_elem_of_join in H as (l & Hl & (d & -> & _)%list_elem_of_fmap). apply walk_files_root in Hl.
      etransitivity; [|exact Hl]. by apply prefix_app_r.
    + apply (Hpre SUDOERS_FILE); [set_solver|]. by apply list_elem_of_singleton in H as ->.
  - apply Hif in H. apply (Hpre COMPILED_DIR); [left|]. apply elem_of_app in H as [H| ->%list_elem_of_singleton]; [|by eexists].
    apply walk_files_root in H. etransitivity; [|exact H]. by eexists.
  - apply Hif, walk_files_root in H. by apply (Hpre DOWNLOADS_DIR); [set_solver|].
  - apply Hif in H. apply (Hpre DNSDIST_CONF); [set_solver|]. by apply list_elem_of_singleton in H as ->.
  - apply Hif, list_elem_of_fmap in H as (n & -> & _). apply (Hpre ETC_BIND); [set_solver|]. by eexists.
  - unfold cert_files in H. apply elem_of_filterb in H as [_ H]. rewrite !andb_true_iff in H. destruct H as [[H%bool_decide_eq_true _] _]. by apply (Hpre CERT_DIR); [set_solver|].
  - apply Hif in H. apply (Hpre p); [|done]. unfold ROOTS. rewrite elem_of_app. by right.
Qed.

Lemma apart_of_roots q p : forallb (λ r, negb (is_prefix r q) && negb (is_prefix q r)) ROOTS = true →
  (∃ root, root ∈ ROOTS ∧ root `prefix_of` p) → apart p q.
Proof.
  intros Hq (root & Hr & Hp). rewrite forallb_true in Hq. specialize (Hq root Hr). unfold is_prefix in Hq.
  apply andb_true_iff in Hq as [H1%negb_true_iff%bool_decide_eq_false H2%negb_true_iff%bool_decide_eq_false]. split.
  - intros H. apply H1. by etransitivity.
  - intros H. by destruct (prefix_weak_total _ _ _ Hp H).
Qed.

Lemma root_name p : (∃ root, root ∈ ROOTS ∧ root `prefix_of` p) → starts_with ".." (relpath p) = false.
Proof.
  intros (root & Hr & [k ->]). assert (∃ c rest, root = c :: rest ∧ (c = "var" ∨ c = "etc")) as (c & rest & -> & Hc).
  { unfold ROOTS, SECRET_FILES in Hr. cbn [app] in Hr. rewrite !elem_of_cons in Hr. destruct_or! Hr; subst; try (by do 2 eexists; split; [reflexivity|]; auto). by apply elem_of_nil in Hr. }
  unfold relpath. cbn [app]. destruct (rest ++ k) as [|c' l]; [by destruct Hc as [->| ->]|]. rewrite join_cons by done. by destruct Hc as [->| ->].
Qed.

(** A file system whose paths are plain and none of which is below another *)
Record tree (fs : files) : Prop := {
  tr_plain : ∀ p, is_Some (fs !! p) → plain_path p;
  tr_apart : ∀ p q, is_Some (fs !! p) → is_Some (fs !! q) → p ≠ q → apart p q;
}.

(** ** The round trip *)

Lemma fop_app {A} (R : A → A → Prop) l1 l2 :
  ForallOrdPairs R l1 → ForallOrdPairs R l2 → (∀ x y, x ∈ l1 → y ∈ l2 → R x y) → ForallOrdPairs R (l1 ++ l2).
Proof.
  induction l1 as [|x l1 IH]; intros H1 H2 H; [done|]. apply fop_cons in H1 as [Hx H1]. cbn. constructor.
  - apply Forall_app. split; [done|]. apply Forall_forall. intros y Hy. apply H; [left|done].
  - apply IH; [done|done|]. intros y z Hy Hz. apply H; [by right|done].
Qed.

Lemma scan_accepts dest limit members : ∀ total,
  Forall (λ m, reject_unsafe_member dest m = Ok () ∧ 0 ≤ mb_size m)%Z members →
  (total + foldr (λ m n, (if bool_decide (mb_kind m = KFile) then mb_size m else 0) + n) 0 members ≤ limit)%Z →
  scan dest limit total members = Ok (total + foldr (λ m n, (if bool_decide (mb_kind m = KFile) then mb_size m else 0) + n) 0 members)%Z.
Proof.
  induction members as [|m members IH]; intros total Hall Hle; cbn [scan foldr] in *; [by rewrite Z.add_0_r|]. apply Forall_cons in Hall as [[-> Hs] Hall]. cbn [mbind res_bind]. cbv zeta.
  assert (0 ≤ foldr (λ m n, (if bool_decide (mb_kind m = KFile) then mb_size m else 0) + n) 0 members)%Z as Hpos.
  { clear -Hall. induction Hall as [|m l [_ Hm] _ IH]; cbn [foldr]; [lia|]. case_bool_decide; lia. }
  rewrite (proj2 (Z.ltb_ge _ _)) by (case_bool_decide; lia). rewrite IH by (done || case_bool_decide; lia). f_equal. case_bool_decide; lia.
Qed.

Section round_trip.
Context (sha256 : content → string) (free : Z) (size : content → Z).
Hypothesis size_pos : ∀ c, (0 ≤ size c)%Z.

Definition file_entries (paths : list path) (fs : files) : list (path * content) := omap (λ p, (p,.) <$> fs !! p) paths.
Definition member_of (x : path * content) : member := file_member size x.1 x.2.
Definition listed (x : path * content) : string * json := (relpath x.1, JStr (sha256 x.2)).

Lemma entries_members paths fs : omap (λ p, file_member size p <$> fs !! p) paths = member_of <$> file_entries paths fs.
Proof. unfold file_entries. induction paths as [|p paths IH]; [done|]. cbn. destruct (fs !! p); cbn; by rewrite IH. Qed.

Lemma entries_listed paths fs : omap (λ p, (λ c, (relpath p, JStr (sha256 c))) <$> fs !! p) paths = listed <$> file_entries paths fs.
Proof. unfold file_entries. induction paths as [|p paths IH]; [done|]. cbn. destruct (fs !! p); cbn; by rewrite IH. Qed.

Lemma elem_of_entries paths fs p c : (p, c) ∈ file_entries paths fs ↔ p ∈ paths ∧ fs !! p = Some c.
Proof.
  unfold file_entries. rewrite list_elem_of_omap. split.
  - intros (q & Hq & H). destruct (fs !! q) eqn:E; [|done]. by injection H as -> ->.
  - intros [Hp Hc]. exists p. by rewrite Hc.
Qed.

Lemma entries_apart paths fs : tree fs → NoDup paths → ForallOrdPairs (λ x y, apart x.1 y.1) (file_entries paths fs).
Proof.
  intros Ht. unfold file_entries. induction 1 as [|p paths Hp Hn IH]; [constructor|]. cbn. destruct (fs !! p) as [c|] eqn:E; [|done]. cbn. constructor; [|done].
  apply Forall_forall. intros [q d] [Hq Hd]%elem_of_entries. cbn [fst]. apply (tr_apart fs Ht); [by eexists..|]. by intros ->.
Qed.

Lemma mismatches_ok fs dest l :
  Forall (λ x, plain_path x.1) l → (∀ x, x ∈ l → fs !! (dest ++ x.1) = Some x.2) → mismatches sha256 fs dest (listed <$> l) = Ok [].
Proof.
  induction l as [|x l IH]; intros Hp Hl; [done|]. apply Forall_cons in Hp as [Hx Hp]. cbn [fmap list_fmap mismatches listed]. cbv zeta.
  assert (candidate dest (relpath x.1) = dest ++ x.1) as ->.
  { unfold candidate. destruct (relpath_head _ Hx) as (c & s & E & Hc). destruct (starts_with "/" (relpath x.1)) eqn:Es; [|by apply target_plain].
    apply starts_with_spec in Es as [t Et]. rewrite E in Et. by injection Et as -> _. }
  rewrite Hl by left. rewrite IH by (done || intros y Hy; apply Hl; by right). cbn [mbind res_bind]. by rewrite String.eqb_refl.
Qed.

(** Extraction of an archive of files that is complete with its manifest *)
Lemma extract_entries dest limit fs0 encrypted read password entries manifest :
  let all := entries ++ [(["manifest.json"], Document manifest)] in
  let members := member_of <$> all in
  let total := foldr (λ m n, (if bool_decide (mb_kind m = KFile) then mb_size m else 0) + n)%Z 0%Z members in
  plain_path dest → (∀ q, is_Some (fs0 !! q) → ¬ q `prefix_of` dest ∧ ¬ dest `prefix_of` q) →
  Forall (λ x, plain_path x.1 ∧ starts_with ".." (relpath x.1) = false) entries → ForallOrdPairs (λ x y, apart x.1 y.1) all →
  missing_keys REQUIRED_MANIFEST_KEYS manifest = Ok [] → dict_get manifest "sha256_checksums" (JObj []) = Ok (JObj (listed <$> entries)) →
  encrypted = negb (String.eqb password "") → read (if encrypted : bool then Some password else None) = Ok members →
  (total ≤ limit)%Z → (total * 6 / 5 ≤ free)%Z →
  extract_backup sha256 free encrypted read password dest limit fs0 = (Ok manifest, place_all dest all fs0)
  ∧ (∀ p c, (p, c) ∈ all → place_all dest all fs0 !! (dest ++ p) = Some c).
Proof.
  intros all members total Hd Hfs0 Hp Ho Hkeys Hsums -> Hread Hlim Hfree.
  assert (plain_path ["manifest.json"]) as Hmp by (split; [done|]; apply Forall_singleton; by repeat split).
  assert (Forall (λ x, plain_path x.1 ∧ starts_with ".." (relpath x.1) = false) all) as Hall by (apply Forall_app; split; [done|]; apply Forall_singleton; by split).
  assert (Forall (λ x, plain_path x.1) all) as Hplain by (eapply Forall_impl; [exact Hall|]; by intros x [? _]).
  assert (NoDup all.*1) as Hnd.
  { clear -Ho. induction all as [|x l IH]; [constructor|]. apply fop_cons in Ho as [Hx Ho]. cbn. constructor; [|by apply IH].
    intros (y & Hy & Hin)%list_elem_of_fmap. rewrite Forall_forall in Hx. destruct (Hx y Hin) as [Ha _]. apply Ha. by rewrite Hy. }
  assert (∀ p c, (p, c) ∈ all → place_all dest all fs0 !! (dest ++ p) = Some c) as Hplaced by (intros p c; by apply place_lookup).
  split; [|exact Hplaced]. unfold extract_backup. rewrite Hread. destruct (String.eqb password ""); cbn [negb andb].
  all: assert (archived_manifest members = Ok manifest) as -> by
    (unfold archived_manifest, get_member, members, all; rewrite fmap_app, List.filter_app; change (List.filter _ (member_of <$> [(["manifest.json"], Document manifest)])) with
       [member_of (["manifest.json"], Document manifest)]; rewrite last_snoc; cbn [member_of file_member mb_kind mb_content fst snd parsed];
     rewrite bool_decide_eq_true_2 by done; cbn [negb]; by rewrite Hkeys).
  all: unfold scan_and_extract; rewrite scan_accepts; [|apply Forall_fmap; eapply Forall_impl; [exact Hall|]; intros x [Hx1 Hx2]; split; [by apply reject_plain|apply size_pos]|exact Hlim].
  all: cbn [mbind res_bind]; unfold check_free_space; rewrite (proj2 (Z.ltb_ge _ _)) by exact Hfree.
  all: rewrite (extract_place dest all members fs0 Hd Hplain Ho).
  all: try (unfold verified_manifest; rewrite (Hplaced ["manifest.json"] (Document manifest)) by (unfold all; rewrite elem_of_app; right; left);
    cbn [parsed]; rewrite Hsums; cbn [mbind res_bind]; rewrite mismatches_ok; [cbn [mbind res_bind]; by rewrite bool_decide_eq_true_2|
      by apply Forall_app in Hplain as [? _]|intros x Hx; apply (Hplaced x.1 x.2); rewrite <-surjective_pairing; unfold all; rewrite elem_of_app; by left]).
  all: try (intros q Hq; destruct (Hfs0 q Hq) as [H1 H2]; split; [done|]; intros p0 ->; exfalso; apply H2; by apply prefix_app_r).
  all: unfold members; clear; induction all as [|x l IH]; [constructor|]; cbn; by constructor.
Qed.
End round_trip.

Lemma selected_facts components fs p : p ∈ select_files components fs → is_Some (fs !! p) ∧ ∃ root, root ∈ ROOTS ∧ root `prefix_of` p.
Proof.
  unfold select_files. rewrite elem_of_list_to_set, elem_of_filterb, bool_decide_eq_true. intros [Hc Hs]. split; [done|]. by eapply candidates_root.
Qed.

Lemma sorted_paths_in s p : p ∈ sorted_paths s ↔ p ∈ s.
Proof. unfold sorted_paths. rewrite merge_sort_Permutation. apply elem_of_elements. Qed.

Lemma sorted_paths_NoDup s : NoDup (sorted_paths s).
Proof. unfold sorted_paths. rewrite merge_sort_Permutation. apply NoDup_elements. Qed.

(** The copy of the database that goes into the archive *)
Definition database_copy (components : gmap string bool) (db : dbfile) : content :=
  Database (sqlite_backup_copy db (selected components "analytics_history") (selected components "user_auth_data") (selected components "private_keys")).

Definition archived (components : gmap string bool) (fs : files) (db : dbfile) : list (path * content) :=
  file_entries (sorted_paths (select_files components fs)) fs ++ (if selected components "sqlite_data" then [(DB_ARCHIVE_PATH, database_copy components db)] else []).

Lemma archived_plain components fs db : tree fs →
  Forall (λ x, plain_path x.1 ∧ starts_with ".." (relpath x.1) = false) (archived components fs db).
Proof.
  intros Ht. unfold archived. apply Forall_app. split.
  - apply Forall_forall. intros [p c] [Hp%sorted_paths_in%selected_facts Hc]%elem_of_entries. cbn [fst]. split; [by apply Ht|]. by apply root_name, Hp.
  - destruct (selected _ _); [|constructor]. apply Forall_singleton. cbn [fst]. split; [split; [done|]|done]. unfold DB_ARCHIVE_PATH. repeat (apply Forall_cons; split); [by repeat split..|constructor].
Qed.

Lemma archived_apart components fs db manifest : tree fs → ForallOrdPairs (λ x y, apart x.1 y.1) (archived components fs db ++ [(["manifest.json"], Document manifest)]).
Proof.
  intros Ht. assert (∀ x, x ∈ file_entries (sorted_paths (select_files components fs)) fs → ∃ root, root ∈ ROOTS ∧ root `prefix_of` x.1) as Hroot.
  { intros [p c] [Hp%sorted_paths_in%selected_facts Hc]%elem_of_entries. apply Hp. }
  assert (∀ x, ForallOrdPairs (λ x y : path * content, apart x.1 y.1) [x]) as Hone by (intros x; repeat constructor).
  assert (forallb (λ r, negb (is_prefix r ["manifest.json"]) && negb (is_prefix ["manifest.json"] r)) ROOTS = true) as Hm by (by vm_compute).
  assert (forallb (λ r, negb (is_prefix r DB_ARCHIVE_PATH) && negb (is_prefix DB_ARCHIVE_PATH r)) ROOTS = true) as Hdb by (by vm_compute).
  unfold archived. apply fop_app; [apply fop_app| |].
  - apply entries_apart; [done|apply sorted_paths_NoDup].
  - destruct (selected _ _); [apply Hone|constructor].
  - intros x y Hx Hy. destruct (selected _ _); [|by apply elem_of_nil in Hy]. apply list_elem_of_singleton in Hy as ->. by apply apart_of_roots, Hroot.
  - apply Hone.
  - intros x y Hx ->%list_elem_of_singleton. apply elem_of_app in Hx as [Hx|Hx]; [by apply apart_of_roots, Hroot|].
    destruct (selected _ _); [|by apply elem_of_nil in Hx]. apply list_elem_of_singleton in Hx as ->. cbn [fst].
    split; [apply (bool_decide_unpack _)|apply (bool_decide_unpack _)]; by vm_compute.
Qed.

(** C0: A backup can be extracted: when no selected file changes while it is made, the
    archive that [create_backup] writes, plain or encrypted, passes the checks of
    [extract_backup], every selected file comes back below the staging directory as it
    was, with the copy of the database and the manifest, and nothing else is there. *)
Theorem backup_extracts_back sha256 free size facts values fs db dest fs0 limit encrypted read password :
  let components := validate_components values in
  (∀ c, 0 ≤ size c)%Z → tree fs → plain_path dest → (∀ q, is_Some (fs0 !! q) → ¬ q `prefix_of` dest ∧ ¬ dest `prefix_of` q) →
  ∃ members, create_backup sha256 size facts values fs fs db = Ok members
  ∧ let total := foldr (λ m n, (if bool_decide (mb_kind m = KFile) then mb_size m else 0) + n)%Z 0%Z members in
    (encrypted = negb (String.eqb password "") → read (if encrypted : bool then Some password else None) = Ok members →
     (total ≤ limit)%Z → (total * 6 / 5 ≤ free)%Z →
     ∃ manifest fs', extract_backup sha256 free encrypted read password dest limit fs0 = (Ok manifest, fs')
       ∧ fs' !! (dest ++ ["manifest.json"]) = Some (Document manifest)
       ∧ (∀ p, p ∈ select_files components fs → fs' !! (dest ++ p) = fs !! p)
       ∧ (selected components "sqlite_data" = true → fs' !! (dest ++ DB_ARCHIVE_PATH) = Some (database_copy components db))
       ∧ (∀ q, is_Some (fs' !! q) → fs' !! q = fs0 !! q
            ∨ ∃ p, q = dest ++ p ∧ (p ∈ select_files components fs ∨ p = DB_ARCHIVE_PATH ∨ p = ["manifest.json"]))).
Proof.
  intros components Hsize Ht Hd Hfs0. unfold create_backup. fold components. cbv zeta. fold (database_copy components db).
  rewrite (entries_listed sha256), (entries_members size). set (paths := sorted_paths (select_files components fs)).
  assert (forallb (λ p, bool_decide (is_Some (fs !! p))) paths = true) as ->.
  { apply forallb_true. intros p Hp%sorted_paths_in%selected_facts. by apply bool_decide_eq_true_2, Hp. }
  eexists. split; [reflexivity|].
  set (sums := _ ++ _ : list (string * json)). assert (sums = listed sha256 <$> archived components fs db) as Hsums.
  { unfold sums, archived. rewrite fmap_app. by destruct (selected components "sqlite_data"). }
  match goal with |- context [Document ?m] => set (manifest := m) end.
  set (members := _ ++ _ ++ [_]). assert (members = member_of size <$> archived components fs db ++ [(["manifest.json"], Document manifest)]) as Hmembers.
  { unfold members, archived. rewrite !fmap_app, <-app_assoc. by destruct (selected components "sqlite_data"). }
  clearbody members. clearbody sums.
  assert (missing_keys REQUIRED_MANIFEST_KEYS manifest = Ok []) as Hkeys by reflexivity.
  assert (dict_get manifest "sha256_checksums" (JObj []) = Ok (JObj sums)) as Hget by reflexivity. rewrite Hsums in Hget.
  clearbody manifest. subst members. intros Henc Hread Hlim Hfree.
  destruct (extract_entries sha256 free size Hsize dest limit fs0 encrypted read password (archived components fs db) manifest Hd Hfs0
    (archived_plain components fs db Ht) (archived_apart components fs db manifest Ht) Hkeys Hget Henc Hread Hlim Hfree) as [Hex Hplaced].
  eexists manifest, _. split; [exact Hex|]. split; [apply Hplaced; rewrite elem_of_app; right; left|]. split; [|split].
  - intros p Hp. destruct (selected_facts _ _ _ Hp) as [[c Hc] _]. rewrite Hc. apply Hplaced. rewrite elem_of_app. left. unfold archived. rewrite elem_of_app. left.
    apply elem_of_entries. by rewrite sorted_paths_in.
  - intros Hsel. apply Hplaced. rewrite elem_of_app. left. unfold archived. rewrite Hsel, elem_of_app. right. left.
  - intros q _. destruct (decide (Exists (λ x, q = dest ++ x.1) (archived components fs db ++ [(["manifest.json"], Document manifest)]))) as [Hex'|Hno].
    + right. apply Exists_exists in Hex' as ([p c] & Hin & ->). exists p. split; [done|]. unfold archived in Hin. rewrite !elem_of_app in Hin. destruct Hin as [[Hin|Hin]|Hin].
      * left. apply elem_of_entries in Hin as [Hin _]. by apply sorted_paths_in.
      * right. left. destruct (selected _ _); [|by apply elem_of_nil in Hin]. by apply list_elem_of_singleton in Hin as [= -> _].
      * right. right. by apply list_elem_of_singleton in Hin as [= -> _].
    + left. apply place_other. intros x Hx ->. apply Hno, Exists_exists. by exists x.
Qed.

(** ** Secrets *)

Lemma clear_tables_other names : ∀ db t, t ∉ names → clear_tables names db !! t = db !! t.
Proof.
  unfold clear_tables. induction names as [|n names IH]; intros db t Ht; [done|]. apply not_elem_of_cons in Ht as [Hn Ht]. cbn [fold_left]. rewrite IH by done.
  destruct (db !! n); [by apply lookup_insert_ne|done].
Qed.

Lemma clear_tables_rows names : ∀ db t tb, t ∈ names → clear_tables names db !! t = Some tb → tb_rows tb = [].
Proof.
  induction names as [|n names IH]; intros db t tb Ht Hl; [by apply elem_of_nil in Ht|]. destruct (decide (t ∈ names)) as [Hin|Hout]; [by eapply IH in Hl|].
  apply elem_of_cons in Ht as [->|Ht]; [|done]. change (clear_tables names (match db !! n with Some t => <[n := mkTable (tb_columns t) []]> db | None => db end) !! n = Some tb) in Hl.
  rewrite clear_tables_other in Hl by done. destruct (db !! n) as [t0|] eqn:E; [|congruence]. rewrite lookup_insert_eq in Hl. by injection Hl as <-.
Qed.

Lemma not_root_secret root p : root ∈ [COMPILED_DIR; DOWNLOADS_DIR; SYSTEMD_DIR; SUDOERS_FILE; ETC_BIND; DNSDIST_CONF] → root `prefix_of` p →
  p ∉ SECRET_FILES ∧ ¬ CERT_DIR `prefix_of` p.
Proof.
  intros Hr Hp. assert (forallb (λ r, forallb (λ s, negb (is_prefix r s)) SECRET_FILES && negb (is_prefix r CERT_DIR) && negb (is_prefix CERT_DIR r))
    [COMPILED_DIR; DOWNLOADS_DIR; SYSTEMD_DIR; SUDOERS_FILE; ETC_BIND; DNSDIST_CONF] = true) as Hall by (by vm_compute).
  rewrite forallb_true in Hall. specialize (Hall root Hr). rewrite !andb_true_iff in Hall. destruct Hall as [[Hs H1%negb_true_iff%bool_decide_eq_false] H2%negb_true_iff%bool_decide_eq_false].
  split.
  - intros Hin. rewrite forallb_true in Hs. specialize (Hs p Hin). by apply negb_true_iff, bool_decide_eq_false in Hs.
  - intros Hc. by destruct (prefix_weak_total _ _ _ Hp Hc).
Qed.

(** What is selected without the flags of the secrets *)
Lemma candidates_public components fs p :
  selected components "private_keys" = false → selected components "user_auth_data" = false → p ∈ candidates components fs →
  (∃ root, root ∈ [COMPILED_DIR; DOWNLOADS_DIR; SYSTEMD_DIR; SUDOERS_FILE; ETC_BIND; DNSDIST_CONF] ∧ root `prefix_of` p)
  ∨ p ∈ cert_files components fs.
Proof.
  intros Hk Hu Hp. unfold candidates in Hp. cbv zeta in Hp. rewrite Hk, Hu in Hp. cbn [orb] in Hp.
  assert (∀ b (l : list path), p ∈ (if b : bool then l else []) → p ∈ l) as Hif by (intros [] l H; [done|by apply elem_of_nil in H]).
  rewrite !elem_of_app in Hp. destruct Hp as [H|[H|[H|[H|[H|[H|H]]]]]]; [left..|by right|by apply elem_of_nil in H].
  - apply Hif in H. rewrite !elem_of_app in H. destruct H as [H|[H|[H|H]]].
    + exists COMPILED_DIR. split; [left|by apply walk_files_root in H].
    + exists SYSTEMD_DIR. split; [set_solver|]. rewrite !elem_of_cons in H. destruct H as [->|[->|H]]; [by eexists..|by apply elem_of_nil in H].
    + exists SYSTEMD_DIR. split; [set_solver|]. apply list_elem_of_join in H as (l & Hl & (d & -> & _)%list_elem_of_fmap). apply walk_files_root in Hl.
      etransitivity; [|exact Hl]. by apply prefix_app_r.
    + exists SUDOERS_FILE. split; [set_solver|]. by apply list_elem_of_singleton in H as ->.
  - apply Hif in H. exists COMPILED_DIR. split; [left|]. apply elem_of_app in H as [H| ->%list_elem_of_singleton]; [|by eexists].
    apply walk_files_root in H. etransitivity; [|exact H]. by eexists.
  - apply Hif, walk_files_root in H. exists DOWNLOADS_DIR. split; [set_solver|done].
  - apply Hif in H. exists DNSDIST_CONF. split; [set_solver|]. by apply list_elem_of_singleton in H as ->.
  - apply Hif, list_elem_of_fmap in H as (n & -> & _). exists ETC_BIND. split; [set_solver|]. by eexists.
Qed.

(** C0: Without the components of keys and accounts a backup holds no secret: no file of
    the session secret and the dnsdist credentials, of the certificate directory only
    certificates, and in the copy of the database no administrators, sessions and audit
    entries and no secret of a notification provider. *)
Theorem backup_leaves_secrets_out components fs db include_analytics :
  selected components "private_keys" = false → selected components "user_auth_data" = false →
  (∀ p, p ∈ select_files components fs → p ∉ SECRET_FILES ∧ (CERT_DIR `prefix_of` p → is_certificate (default "" (last p)) = true))
  ∧ let copy := sqlite_backup_copy db include_analytics (selected components "user_auth_data") (selected components "private_keys") in
    (∀ t tb, t ∈ ["admins"; "login_attempts"; "sessions"; "admin_audit_log"] → copy !! t = Some tb → tb_rows tb = [])
    ∧ (∀ tb r, copy !! "notification_providers" = Some tb → r ∈ tb_rows tb → r !! "secret" = Some (JStr "")).
Proof.
  intros Hk Hu. split.
  - intros p Hp. unfold select_files in Hp. rewrite elem_of_list_to_set, elem_of_filterb in Hp. destruct Hp as [Hp _].
    apply candidates_public in Hp as [(root & Hr & Hp)|Hp]; [|  |done|done].
    + destruct (not_root_secret root p Hr Hp) as [H1 H2]. by split.
    + unfold cert_files in Hp. apply elem_of_filterb in Hp as [_ Hp]. rewrite !andb_true_iff in Hp. destruct Hp as [[Hpre%bool_decide_eq_true Hlen%bool_decide_eq_true] Hsel].
      split; [|intros _; destruct (is_certificate _); [done|congruence]]. intros Hin.
      assert (forallb (λ s, negb (is_prefix CERT_DIR s)) SECRET_FILES = true) as Hs by (by vm_compute). rewrite forallb_true in Hs. specialize (Hs p Hin).
      by apply negb_true_iff, bool_decide_eq_false in Hs.
  - rewrite Hk, Hu. unfold sqlite_backup_copy. cbv zeta. set (db1 := if include_analytics then db else _). split.
    + intros t tb Ht Hl. apply (clear_tables_rows ["admins"; "login_attempts"; "sessions"; "admin_audit_log"] db1 t); [done|].
      destruct (clear_tables _ db1 !! "notification_providers") as [np|] eqn:E; [|done]. rewrite lookup_insert_ne in Hl; [done|]. intros <-.
      assert (bool_decide ("notification_providers" ∈ ["admins"; "login_attempts"; "sessions"; "admin_audit_log"]) = false) as Hb by (by vm_compute). by apply bool_decide_eq_false in Hb.
    + intros tb r Hl Hr. destruct (clear_tables _ db1 !! "notification_providers") as [np|] eqn:E; [|congruence]. rewrite lookup_insert_eq in Hl. injection Hl as <-.
      cbn in Hr. apply list_elem_of_fmap in Hr as (r0 & -> & _). apply lookup_insert_eq.
Qed.

(** ** Examples *)

Definition ex_files : files :=
  list_to_map [(["etc"; "alderpointdns"; "secrets.env"], Bytes "KEY=1"); (["etc"; "alderpointdns"; "certs"; "dns.crt"], Bytes "CERT");
               (["etc"; "alderpointdns"; "certs"; "dns.key"], Bytes "KEY"); (["var"; "lib"; "alderpointdns"; "compiled"; "bind"; "rpz.zone"], Bytes "zone")].
Definition ex_backup_db : dbfile :=
  list_to_map [("admins", mkTable [mkColumn "name" false 1 JNull] [{[ "name" := JStr "root" ]}]);
               ("notification_providers", mkTable [mkColumn "name" false 1 JNull; mkColumn "secret" false 0 JNull] [<["secret" := JStr "hook"]> {[ "name" := JStr "chat" ]}])].
Definition ex_facts : backup_facts := mkFacts "1.2.0" "schema" "now" "node" "" (JObj []).
(** A digest good enough for the example *)
Definition ex_digest (c : content) : string := match c with Bytes s => s | Document _ => "document" | Database _ => "database" end.
Definition ex_size (c : content) : Z := match c with Bytes s => Z.of_nat (slen s) | _ => 100 end.

Definition plainb (c : string) : bool := negb (String.eqb c "") && negb (String.eqb c ".") && negb (String.eqb c "..") && negb (char_in "/" c).
Lemma plainb_spec c : plainb c = true → plain c.
Proof.
  unfold plainb. rewrite !andb_true_iff, !negb_true_iff, !String.eqb_neq. unfold plain. tauto.
Qed.

Lemma ex_tree : tree ex_files.
Proof.
  assert (∀ p, is_Some (ex_files !! p) → p ∈ (map_to_list ex_files).*1) as Hin.
  { intros p [c Hc]. apply list_elem_of_fmap. exists (p, c). split; [done|]. by apply elem_of_map_to_list. }
  split.
  - intros p Hp%Hin. assert (forallb (λ p, negb (bool_decide (p = [])) && forallb plainb p) (map_to_list ex_files).*1 = true) as Hall by (by vm_compute).
    rewrite forallb_true in Hall. specialize (Hall p Hp). apply andb_true_iff in Hall as [H1%negb_true_iff%bool_decide_eq_false H2]. split; [done|].
    apply Forall_forall. intros c Hc. apply plainb_spec. rewrite forallb_true in H2. by apply H2.
  - intros p q Hp%Hin Hq%Hin Hne.
    assert (forallb (λ p, forallb (λ q, bool_decide (p = q) || negb (is_prefix p q)) (map_to_list ex_files).*1) (map_to_list ex_files).*1 = true) as Hall by (by vm_compute).
    rewrite forallb_true in Hall. pose proof (Hall p Hp) as H1. pose proof (Hall q Hq) as H2. rewrite forallb_true in H1, H2. specialize (H1 q Hq). specialize (H2 p Hp).
    rewrite bool_decide_eq_false_2 in H1, H2 by congruence. cbn [orb] in H1, H2. split; [by apply negb_true_iff, bool_decide_eq_false in H1|by apply negb_true_iff, bool_decide_eq_false in H2].
Qed.

Definition ex_total (members : list member) : Z := foldr (λ m n, (if bool_decide (mb_kind m = KFile) then mb_size m else 0) + n)%Z 0%Z members.

(** The default components, an encrypted archive, extracted below [/staging] *)
Lemma backup_extracts_back_witness :
  let components := validate_components ∅ in
  ∃ members, create_backup ex_digest ex_size ex_facts ∅ ex_files ex_files ex_backup_db = Ok members ∧ (ex_total members ≤ 1000)%Z
  ∧ ∃ manifest fs', extract_backup ex_digest 5000 true (λ p, if decide (p = Some "pw") then Ok members else Raise (PyExc "CalledProcessError" "openssl")) "pw" ["staging"] 1000 ∅ = (Ok manifest, fs')
     ∧ fs' !! ["staging"; "manifest.json"] = Some (Document manifest)
     ∧ (∀ p, p ∈ select_files components ex_files → fs' !! (["staging"] ++ p) = ex_files !! p)
     ∧ (selected components "sqlite_data" = true → fs' !! (["staging"] ++ DB_ARCHIVE_PATH) = Some (database_copy components ex_backup_db))
     ∧ (∀ q, is_Some (fs' !! q) → fs' !! q = (∅ : files) !! q
          ∨ ∃ p, q = ["staging"] ++ p ∧ (p ∈ select_files components ex_files ∨ p = DB_ARCHIVE_PATH ∨ p = ["manifest.json"])).
Proof.
  intros components. assert (∀ c, 0 ≤ ex_size c)%Z as Hs by (intros [s|j|db]; cbn; lia).
  assert (plain_path ["staging"]) as Hd by (split; [done|]; apply Forall_singleton; by apply plainb_spec).
  assert (∀ q, is_Some ((∅ : files) !! q) → ¬ q `prefix_of` ["staging"] ∧ ¬ ["staging"] `prefix_of` q) as Hf by (intros q [? Hq]; by rewrite lookup_empty in Hq).
  destruct (create_backup ex_digest ex_size ex_facts ∅ ex_files ex_files ex_backup_db) as [members|e] eqn:E.
  2: { pose proof (backup_extracts_back ex_digest 5000 ex_size ex_facts ∅ ex_files ex_backup_db ["staging"] ∅ 1000 true (λ _, Ok []) "pw" Hs ex_tree Hd Hf) as (m & H & _).
       congruence. }
  assert (ex_total members ≤ 1000 ∧ ex_total members * 6 / 5 ≤ 5000)%Z as [H1 H2].
  { assert (Ok (ex_total members) = ex_total <$> create_backup ex_digest ex_size ex_facts ∅ ex_files ex_files ex_backup_db) as Ht by (by rewrite E).
    assert (ex_total <$> create_backup ex_digest ex_size ex_facts ∅ ex_files ex_files ex_backup_db = Ok 208%Z) as Hn by (by vm_compute). rewrite Hn in Ht. injection Ht as ->. clear. split; vm_compute; discriminate. }
  destruct (backup_extracts_back ex_digest 5000 ex_size ex_facts ∅ ex_files ex_backup_db ["staging"] ∅ 1000 true
    (λ p, if decide (p = Some "pw") then Ok members else Raise (PyExc "CalledProcessError" "openssl")) "pw" Hs ex_tree Hd Hf) as (m & Hm & Hext).
  rewrite E in Hm. injection Hm as <-. exists members. split; [done|]. split; [exact H1|]. by apply Hext.
Defined.

Lemma backup_leaves_secrets_out_witness :
  let components := validate_components ∅ in
  selected components "private_keys" = false ∧ selected components "user_auth_data" = false
  ∧ (∀ p, p ∈ select_files components ex_files → p ∉ SECRET_FILES ∧ (CERT_DIR `prefix_of` p → is_certificate (default "" (last p)) = true)).
Proof.
  intros components. split; [by vm_compute|]. split; [by vm_compute|].
  destruct (backup_leaves_secrets_out components ex_files ex_backup_db false) as [H _]; [by vm_compute|by vm_compute|]. exact H.
Defined.

(** Members that leave the staging directory, and one that only seems to *)
Example unsafe_members :
  (λ n, is_ok (reject_unsafe_member ["var"; "staging"] (mkMember n KFile 1 (Bytes "")))) <$> ["/etc/passwd"; "../x"; "a/../../x"; "a/.."; "./a/b"; "a..b/c"]
  = [false; false; false; false; true; true].
Proof. by vm_compute. Qed.
